(* ===== verification/_CoqProject ===== *)
-Q . S2P
Prelude.v
Tti.v
RaNbiot.v
SchedTypes.v
SchedUe.v
BcSched.v
UeDb.v
SchedGrid.v
RaSched.v
SchedCarrier.v
SchedSafety.v
Sched.v
SchedCalls.v
MacPdu.v
Rar.v
DlBlock.v
MacUe.v
MacUeRx.v
Mac.v
MacRun.v
MacDownlink.v
Npdsch.v
DciNbiot.v
SfDl.v
SfDlRun.v
SfUl.v
Nprach.v
NprachDet.v
Npusch.v
EnbUl.v
EnbDl.v
UplinkAir.v
Phy.v
PhyMac.v
Rrc.v
S1ap.v
S1apRun.v
Rlc.v
Stack.v
Bcd.v
CfgSettings.v
CfgEnums.v
CfgParser.v
EnbCfg.v
CfgTree.v
CfgRoundtrip.v
CfgFiles.v
CfgLists.v
CfgIdentity.v
Startup.v
