(* ===== verification/Prelude.v ===== *)
(** * Sonica eNodeB : a verification development

    Sonica is an NB-IoT base station.  This development models the part of it
    that decides: the PHY workers that put grants on the air, the MAC scheduler,
    the MAC with its block codec, the RLC and PDCP front ends, the RRC and the
    S1AP, from the preamble of a device to its messages at the core network and
    back, and the parser of the configuration they all start from.  This file is
    the root: after this description it holds the vocabulary the others share.

    ** The program and how it is modelled

    A call of the program is a function on explicit state.  Its result is a
    [res]: a value, undefined behaviour of a named kind (an array overrun, a null
    or dangling pointer, a division by zero), or divergence when the fuel of a
    loop runs out.  Unsigned integers are [Z] with the wrap-around written out
    ([u8], [u16], [u32]).  Calls a component makes of layers above or below are
    lists of events in the order made.  Locks are not modelled: a call that holds
    one is one step.  Source paths below are relative to
    [sonica_enb/stack/] and [include/sonica_enb/hdr/stack/] unless they start
    with [phy/] (under [sonica_enb/]), [nbiot_enb/] or [nbiot_phch/] (under [src/]) or [srslte/],
    the bundled library under [third_party/].

    - [Tti.v]: subframe arithmetic modulo 10240 ([srslte/common/common.h],
      [mac/scheduler_common.h]).
    - [RaNbiot.v]: resource tables, valid downlink subframes, grants of a DCI
      ([srslte/phy/phch/ra_nbiot.c]).
    - [SchedTypes.v]: the structures the scheduler exchanges.
    - [SchedUe.v]: [sched_ue], the buffers and blocks of one user
      ([mac/scheduler_ue.cc]).
    - [UeDb.v]: the map of users, with identities for its objects so that a
      pointer kept too long is seen to dangle.
    - [BcSched.v], [RaSched.v], [SchedCarrier.v]: [bc_sched], [ra_sched] and
      [carrier_sched] ([mac/scheduler_carrier.cc]).
    - [SchedGrid.v]: [sf_sched], the allocations of a subframe
      ([mac/scheduler_grid.cc]).
    - [SchedSafety.v]: the invariant of a carrier called once per subframe.
    - [Sched.v]: [sched], the interface of the scheduler ([mac/scheduler.cc]);
      [SchedCalls.v]: its calls between the passes, and their bounds.
    - [MacPdu.v], [DlBlock.v]: the block codec ([srslte/mac/pdu.cc], [pdu.h]) and
      what a receiver reads back.
    - [Rar.v]: the random access response ([mac::assemble_rar]).
    - [MacUe.v], [MacUeRx.v]: [ue], the MAC entity of a device, its receive
      buffers, reception and composition of blocks ([mac/ue.cc]).
    - [Mac.v], [MacRun.v], [MacDownlink.v]: [mac] ([mac/mac.cc]), its runs, and
      the downlink from the queues of the scheduler to the bytes for the PHY.
    - [Npdsch.v]: one transmission on the downlink shared channel and what each
      of its subframes carries ([srslte/phy/phch/npdsch.c]); [DciNbiot.v]: the
      bits of a DCI and the reading of a receiver ([srslte/phy/phch/dci_nbiot.c]).
    - [SfDl.v], [SfDlRun.v]: the downlink half of the PHY worker and its runs
      ([sf_worker::work_dl] in [phy/sf_worker.cc], [nbiot_enb/enb_dl_nbiot.c]).
    - [SfUl.v]: the uplink half ([sf_worker::work_ul],
      [nbiot_enb/enb_ul_nbiot.c]).
    - [Nprach.v]: preamble windows ([phy/nprach_worker.cc]) and their buffer pool;
      [NprachDet.v]: the detector that gets them ([nbiot_phch/nprach.c]).
    - [Npusch.v]: the uplink shared channel, its mapping to resource elements, the
      stages of transmitter and receiver ([nbiot_phch/npusch.c], [nulsch.c]);
      [EnbUl.v]: the uplink receiver on the arrays of the code, with the channel
      estimate ([nbiot_enb/enb_ul_nbiot.c]); [EnbDl.v]: the setup of a worker's
      objects and the ports of the downlink ([nbiot_enb/enb_dl_nbiot.c]);
      [UplinkAir.v]: a block from a device's transmitter through the worker.
    - [Phy.v]: [sf_worker::work_imp] over an interface of the stack (class
      [PhyStack]), the shared uplink grants ([phy/phy_common.cc]) and the receive
      loop ([phy/txrx.cc]); [PhyMac.v]: the MAC as an instance of the interface.
    - [Rrc.v]: [rrc] and [rrc::ue], connection establishment and release
      ([rrc/rrc.cc]).
    - [S1ap.v], [S1apRun.v]: [s1ap], the contexts at the core network and the
      connection to it ([upper/s1ap.cc]), and their runs.
    - [Rlc.v]: [rlc] and [pdcp], which hold an entity per device and pass calls on
      ([upper/rlc.cc], [upper/pdcp.cc]).
    - [Stack.v]: [enb_stack_nb], the layers wired together ([enb_stack_nb.cc]).
    - [CfgSettings.v], [CfgEnums.v], [CfgParser.v], [EnbCfg.v]: the configuration
      parser: settings, a store of members and exceptions; the enumerations of the
      messages; fields and sections ([sonica_enb/hdr/parser.h], [parser.cc],
      [enb_cfg_parser.h]); the sections of the two files and what is derived from
      them ([sonica_enb/enb_cfg_parser.cc]).  [CfgTree.v] is a concrete library of
      settings with the example files, [CfgRoundtrip.v], [CfgFiles.v] and
      [CfgLists.v] hold the theorems.
    - [Bcd.v], [CfgIdentity.v]: the names of networks
      ([srslte/common/bcd_helpers.h]) and of the cell on its interfaces.
    - [Startup.v]: arguments and the life of the layers ([sonica_enb/main.cc],
      [enb_nb.cc]).

    How they interact: the receive loop numbers the subframes; for each, the
    worker asks the MAC for the downlink four subframes ahead and the uplink to
    schedule in it, sends DCIs at once and queues user blocks until their start,
    collects the subframes of a granted uplink block and reports it.  The PHY reports a preamble to [mac], which queues a RAR in
    [sched] and, in a task, makes the user known to scheduler and RRC.  Each
    subframe [mac] asks [sched] for a schedule ([generate_tti_result]: broadcast,
    then RAR with the Msg3 grant, then one user's data) and composes the blocks
    from what the RLC delivers ([ue::generate_pdu]).  Received blocks are taken
    apart by [ue::process_pdu], which feeds the RLC and the buffer reports of the
    scheduler; the RLC passes signalling to the RRC's queue, which the RRC works
    off once per subframe, calling MAC, RLC, PDCP and S1AP.

    ** What is proved

    - Safety and termination: whatever calls the scheduler has had, its next pass
      returns, and so does every call that keeps to its bounds
      ([scheduler_never_stuck]); the clock of the RRC returns
      ([tti_clock_empties_queue]); no call of the S1AP goes wrong
      ([s1ap_refines_table]).
    - Invariants: SIB1 is never displaced and keeps its period
      ([sib1_never_displaced], [sib1_period]), data grants are spaced ([dl_grants_spaced]), MAC,
      scheduler and RRC agree on the devices ([mac_scheduler_agree]), the RRC's
      users are filed under their names in one of three states ([rrc_states]),
      the MAC's figures of what is waiting are right or of a known other kind
      ([mac_view_current]), whatever the two threads
      of the preamble detector do each window is whole ([preamble_windows]).
    - Function of operations on every branch: allocation ([alloc_dl_user_exact],
      [ra_dl_sched_answers]), filling of blocks
      ([generate_formatN1_sound], [generate_formatN1_drains]), the detection of a
      preamble from its samples ([preamble_reported]), routing of received
      blocks ([uplink_block_routed]), connection establishment and release
      ([connection_established], [connection_released], [attach_conversation]),
      signalling through all layers at once ([signalling_end_to_end]), a user
      block on the air ([npdsch_delivered]), an uplink block from the air to the
      MAC ([uplink_received], [uplink_reaches_mac]) and from the device's coder to
      the MAC's buffer ([uplink_end_to_end]), the clock ([txrx_clock]).
    - Round trips: a composed downlink block read back ([generate_pdu_exact]),
      the random access response ([rar_roundtrip]), the frame number in SIB1
      ([sib1_carries_hfn]), the grant of a DCI ([dci_grants_agree]), an uplink
      block between the transmitter's coder and the receiver's decoder
      ([npusch_block_delivered]), the
      configuration printed and parsed ([config_roundtrip]), the names of networks
      ([network_name_agrees]); and what the cell is called on its interfaces
      ([cell_identity]).
    - Refinement and equivalence: the S1AP is a table of contexts
      ([s1ap_refines_table]); the downlink call delivers the last element that the
      scheduler decided, with what the RLC gave ([downlink_call]); a run of PHY and
      MAC is a run of the worker's halves on the MAC's answers and buffers
      ([phy_over_mac]); the uplink receiver on arrays
      implements the one on signals that the worker is proved against
      ([ul_receiver_refined]), the preamble detector, which keeps state, the one
      that sees a window only ([window_detector]); the counters of a transmission
      give the order of the standard ([npdsch_repetition_order]), the detector's
      tracks its hopping ([hopping_as_standard]).
    - Bounds: the uplink decoder stays in its arrays for every grant of the whole
      carrier ([npusch_receiver]).
    - What the code gets wrong, as theorems: a pointer to the blocks of a user
      that is gone, the receive
      pool exhausted by CCCH blocks, a refused S1 setup never tried again, SIB1
      read past its buffer, a missed start that blocks the downlink, an uplink
      block reported as another's, figures of the RLC's queues that are zero
      while something is waiting ([mac_view_current]), a lost block that crashes the PHY, lists of
      the configuration whose entries are not checked ([list_entries_unchecked]),
      a cell identity that differs between SIB1 and S1AP ([cell_identity]), a cell
      with identity 0 that never transmits ([cell_zero_never_set]).  Others
      are plain lemmas: an uplink grant that marks one of its subframes,
      overlapping NPUSCHs, causes misreported, Msg3 lost at the wrap of the frame
      number, the blocks of an uplink call filled twice, a Msg3 pointer that
      outlives its user, a PHY that runs on after a failed start.

    ** Fuel and bounds

    Loops that are not structural take fuel.  [sib2_mark]: 12 turns, as eight
    valid subframes lie within twelve.  [alloc_data_loop]: 10240 turns, one round
    of the table, after which nothing new can be found, so running out means the
    code does not terminate; [scheduler_never_stuck] shows it does not happen.
    [allocate_mac_sdus_loop]: the size of the block, each turn taking a byte at
    least.  [tti_clock_loop]: twice the length of the queue, as an entry adds at
    most one.  [detect_loop]: one turn more than there are samples, as each takes
    one at least.  In each case a theorem states that the result is reached.

    ** Not modelled

    - Signal processing in floating point and hardware access (the C code of
      [srslte/phy] other than what is listed above, [phy/phy.cc], the radio): what
      a downlink subframe carries is a list of events; of the uplink and of the
      preambles the transforms, the modem, the scrambler, the channel coder and
      the comparison of magnitudes are parameters with their lengths as laws
      ([NpuschStages], [ChestStages]), while positions, buffers and the order of the
      stages are modelled.  Allocation failures and the release of memory are not.  Radio times, frequencies and the start and stop of
      threads are left out; as [phy::init] starts one worker, subframes are
      processed in order.
    - Encoding of RRC and S1AP messages (generated ASN.1 code): decoders are
      parameters, with the documented bound that a contained message is not
      longer than the one containing it.
    - The RLC, PDCP and timer entities of the bundled library: behind interfaces
      or as parameters; of timers, whether they run.
    - The stack's thread and task queues: each call is a step and runs take steps
      in any order.
    - The libraries of the configuration files and of the command line: an
      interface with laws ([Libconfig]), and a record of what was found.  Carrier
      frequencies are kept as expressions; [ceilf] and [log2], used for the length of
      bit strings, are a parameter.  The input thread, logs.
    - The handover procedure of the S1AP (never launched), [ta.h] (floating
      point; all its calls are commented out), HARQ processes of LTE ([scheduler_harq.h]: declared, not
      used), packet capture, logs, metrics.
    - The test programs under [src/apps], the core network emulator
      [srsepc_ciot], the command line parser, the turbo coder: separate programs
      and third-party code. *)
From stdpp Require Export base numbers list gmap sets strings.
From Stdlib Require Export ZArith Lia.

#[global] Set Default Goal Selector "1".
#[global] Open Scope Z_scope.

(** ** Computations that can go wrong

    The C++ code under verification has no exceptions: a call returns, runs
    into behaviour the language leaves undefined, or does not terminate.
    [res] keeps the three apart. *)
Inductive ub_kind : Type :=
| OobWrite        (* a write past the end of a fixed-size array *)
| OobRead         (* a read past the end of a fixed-size array *)
| NullDeref       (* use of a null or reset smart pointer *)
| DanglingPtr     (* use of a pointer whose target has been erased *)
| DivByZero
| UninitRead.     (* use of an object no write has reached *)

Inductive res (A : Type) : Type :=
| Ok (a : A)
| UB (k : ub_kind)
| Diverge.
Arguments Ok {A} a.
Arguments UB {A} k.
Arguments Diverge {A}.

#[global] Instance ub_kind_eq_dec : EqDecision ub_kind.
Proof. solve_decision. Defined.

#[global] Instance res_eq_dec `{EqDecision A} : EqDecision (res A).
Proof. solve_decision. Defined.

#[global] Instance res_ret : MRet res := @Ok.
#[global] Instance res_bind : MBind res := fun A B f m =>
  match m with Ok a => f a | UB k => UB k | Diverge => Diverge end.
#[global] Instance res_fmap : FMap res := fun A B f m =>
  match m with Ok a => Ok (f a) | UB k => UB k | Diverge => Diverge end.

Definition is_Ok {A} (m : res A) : bool :=
  match m with Ok _ => true | _ => false end.

(** Run [m] only when [b] holds, the undefined behaviour [k] otherwise. *)
Definition ub_unless {A} (b : bool) (k : ub_kind) (m : res A) : res A :=
  if b then m else UB k.

(** Left fold of a fallible step: the shape of a range-based [for] loop. *)
Fixpoint foldM {A S} (f : S -> A -> res S) (l : list A) (s : S) : res S :=
  match l with
  | [] => Ok s
  | a :: l' => s' ← f s a; foldM f l' s'
  end.

Lemma bind_Ok {A B} (m : res A) (f : A -> res B) (b : B) :
  (m ≫= f) = Ok b <-> exists a, m = Ok a /\ f a = Ok b.
Proof.
  split.
  - destruct m; cbn; intros ?; try discriminate; by eauto.
  - intros (a & -> & H); exact H.
Qed.

Lemma bind_ok_l {A B} (a : A) (f : A -> res B) : (Ok a ≫= f) = f a.
Proof. done. Qed.

Lemma bind_ret_r {A} (m : res A) : (m ≫= Ok) = m.
Proof. by destruct m. Qed.

Lemma bind_assoc {A B C} (m : res A) (f : A -> res B) (g : B -> res C) :
  ((m ≫= f) ≫= g) = (m ≫= fun a => f a ≫= g).
Proof. by destruct m. Qed.

Lemma ub_unless_Ok {A} b k (m : res A) a :
  ub_unless b k m = Ok a <-> b = true /\ m = Ok a.
Proof. destruct b; cbn; naive_solver. Qed.

Lemma foldM_app {A S} (f : S -> A -> res S) l1 l2 s :
  foldM f (l1 ++ l2) s = (foldM f l1 s ≫= foldM f l2).
Proof.
  revert s; induction l1 as [|a l1 IH]; intros s; cbn; [done|].
  destruct (f s a); cbn; auto.
Qed.

(** Rule for loop invariants over [foldM]: a relation between the list still
    to be visited and the state, kept by each iteration. *)
Lemma foldM_inv {A S} (f : S -> A -> res S) (I : list A -> S -> Prop) l s s' :
  (forall a l' s1 s2, I (a :: l') s1 -> f s1 a = Ok s2 -> I l' s2) ->
  I l s -> foldM f l s = Ok s' -> I [] s'.
Proof.
  intros Hstep; revert s; induction l as [|a l IH]; intros s HI Hf; cbn in Hf.
  - by injection Hf as <-.
  - apply bind_Ok in Hf as (s1 & H1 & H2); eauto.
Qed.

(** A fold whose body never fails never fails. *)
Lemma foldM_total {A S} (f : S -> A -> res S) (I : S -> Prop) l s :
  (forall a s1, In a l -> I s1 -> exists s2, f s1 a = Ok s2 /\ I s2) ->
  I s -> exists s', foldM f l s = Ok s' /\ I s'.
Proof.
  revert s; induction l as [|a l IH]; intros s Hf HI; cbn; [by eauto|].
  destruct (Hf a s) as (s2 & -> & HI2); [by left|done|]; cbn.
  apply IH; [|done]. intros; apply Hf; [by right|done].
Qed.

(** ** Record update

    [r <| f := v |>] is [r] with field [f] replaced.  Each record states its
    own eta expansion; the setter of a field is read off it. *)
Class Eta (R : Type) := { eta : R -> R }.
Class Upd {R A : Type} (f : R -> A) := { upd : (A -> A) -> R -> R }.
Arguments upd {R A} f {_} _ _.

Ltac build_upd :=
  lazymatch goal with
  | |- @Upd ?R ?A ?f =>
      let g := fresh "g" in let r := fresh "r" in
      constructor; intros g r;
      let whole := eval hnf in (eta (R := R) r) in
      let h := eval pattern (f r) in whole in
      lazymatch h with
      | ?k _ => let t := eval cbv beta in (k (g (f r))) in exact t
      end
  end.
#[export] Hint Extern 0 (Upd _) => build_upd : typeclass_instances.

Notation "r <| f := v |>" := (upd f (fun _ => v) r)
  (at level 1, f at level 10, left associativity, format "r  <| f  :=  v |>").
Notation "r <| f ::= g |>" := (upd f g r)
  (at level 1, f at level 10, left associativity, format "r  <| f  ::=  g |>").


(** ** Machine integers *)
Definition u8 (z : Z) : Z := z mod 2 ^ 8.
Definition u16 (z : Z) : Z := z mod 2 ^ 16.
Definition u32 (z : Z) : Z := z mod 2 ^ 32.
Definition u64 (z : Z) : Z := z mod 2 ^ 64.
(** Conversion to [int]: the two's complement reading of the low 32 bits. *)
Definition i32 (z : Z) : Z := (z + 2 ^ 31) mod 2 ^ 32 - 2 ^ 31.

#[global] Arguments u8 : simpl never.
#[global] Arguments u16 : simpl never.
#[global] Arguments u32 : simpl never.
#[global] Arguments u64 : simpl never.
#[global] Arguments i32 : simpl never.

Lemma u8_range z : 0 <= u8 z < 2 ^ 8.
Proof. apply Z.mod_pos_bound; lia. Qed.
Lemma u16_range z : 0 <= u16 z < 2 ^ 16.
Proof. apply Z.mod_pos_bound; lia. Qed.
Lemma u32_range z : 0 <= u32 z < 2 ^ 32.
Proof. apply Z.mod_pos_bound; lia. Qed.
Lemma i32_range z : - 2 ^ 31 <= i32 z < 2 ^ 31.
Proof.
  unfold i32. pose proof (Z.mod_pos_bound (z + 2 ^ 31) (2 ^ 32) ltac:(lia)). lia.
Qed.

Lemma u8_id z : 0 <= z < 2 ^ 8 -> u8 z = z.
Proof. apply Z.mod_small. Qed.
Lemma u16_id z : 0 <= z < 2 ^ 16 -> u16 z = z.
Proof. apply Z.mod_small. Qed.
Lemma u32_id z : 0 <= z < 2 ^ 32 -> u32 z = z.
Proof. apply Z.mod_small. Qed.
Lemma i32_id z : - 2 ^ 31 <= z < 2 ^ 31 -> i32 z = z.
Proof. intros; unfold i32; rewrite Z.mod_small; lia. Qed.

Create HintDb width.
Create Rewrite HintDb width_rw.
#[export] Hint Resolve u8_range u16_range u32_range i32_range : width.
#[export] Hint Rewrite u8_id u16_id u32_id i32_id using lia : width_rw.

(** ** Arrays of fixed size

    A read or a write whose index is not a valid one is undefined in C++,
    where stdpp's list insertion would leave the list as it is. *)
Definition in_bounds {A} (l : list A) (i : Z) : bool :=
  (0 <=? i) && (i <? Z.of_nat (length l)).

Definition arr_read {A} (l : list A) (i : Z) : res A :=
  if in_bounds l i then
    match l !! Z.to_nat i with Some a => Ok a | None => UB OobRead end
  else UB OobRead.

Definition arr_write {A} (l : list A) (i : Z) (a : A) : res (list A) :=
  if in_bounds l i then Ok (<[Z.to_nat i := a]> l) else UB OobWrite.

Lemma arr_write_Ok {A} (l : list A) i a l' :
  arr_write l i a = Ok l' ->
  0 <= i < Z.of_nat (length l) /\ l' = <[Z.to_nat i := a]> l.
Proof.
  unfold arr_write, in_bounds. destruct (_ && _) eqn:E; [|done].
  intros [= <-]; split; [lia|done].
Qed.

Lemma arr_write_in {A} (l : list A) i a :
  0 <= i < Z.of_nat (length l) -> arr_write l i a = Ok (<[Z.to_nat i := a]> l).
Proof.
  intros; unfold arr_write, in_bounds.
  by replace (_ && _) with true by lia.
Qed.

Lemma arr_read_in {A} (l : list A) i :
  0 <= i < Z.of_nat (length l) ->
  exists a, arr_read l i = Ok a /\ l !! Z.to_nat i = Some a.
Proof.
  intros; unfold arr_read, in_bounds.
  replace (_ && _) with true by lia.
  destruct (lookup_lt_is_Some_2 l (Z.to_nat i)) as [a Ha]; [lia|].
  rewrite Ha; eauto.
Qed.

Lemma arr_read_lookup {A} (l : list A) i a : 0 <= i -> l !! Z.to_nat i = Some a -> arr_read l i = Ok a.
Proof.
  intros Hi Ha. pose proof (lookup_lt_Some _ _ _ Ha). unfold arr_read, in_bounds.
  replace (_ && _) with true by lia. by rewrite Ha.
Qed.

(** [memcpy(&dst[doff], &src[soff], n * sizeof(T))] between two arrays. *)
Definition mem_copy {A} (dst : list A) (doff : Z) (src : list A) (soff n : Z) : res (list A) :=
  ub_unless (doff + n <=? Z.of_nat (length dst)) OobWrite (
  ub_unless (soff + n <=? Z.of_nat (length src)) OobRead (
  Ok (take (Z.to_nat doff) dst ++ take (Z.to_nat n) (drop (Z.to_nat soff) src) ++ drop (Z.to_nat (doff + n)) dst))).

Lemma mem_copy_in {A} (dst : list A) doff (src : list A) soff n :
  doff + n <= Z.of_nat (length dst) -> soff + n <= Z.of_nat (length src) ->
  mem_copy dst doff src soff n =
    Ok (take (Z.to_nat doff) dst ++ take (Z.to_nat n) (drop (Z.to_nat soff) src) ++ drop (Z.to_nat (doff + n)) dst).
Proof. intros H1 H2. unfold mem_copy, ub_unless. by rewrite !(proj2 (Z.leb_le _ _)) by done. Qed.

Lemma length_mem_copy {A} (dst : list A) doff (src : list A) soff n dst' : 0 <= doff -> 0 <= soff -> 0 <= n ->
  mem_copy dst doff src soff n = Ok dst' -> length dst' = length dst.
Proof.
  intros Hd Hs Hn. unfold mem_copy, ub_unless.
  destruct (Z.leb_spec (doff + n) (Z.of_nat (length dst))), (Z.leb_spec (soff + n) (Z.of_nat (length src))); [|done..].
  intros [= <-]. rewrite !length_app, !length_take, !length_drop. lia.
Qed.

(** [for (uint32_t i = lo; i < lo + n; ++i)] *)
Definition range (lo : Z) (n : nat) : list Z :=
  (fun k => lo + Z.of_nat k) <$> seq 0 n.

Lemma elem_of_range x lo n : x ∈ range lo n <-> lo <= x < lo + Z.of_nat n.
Proof.
  unfold range. rewrite list_elem_of_fmap. split.
  - intros (k & -> & Hk%elem_of_seq); lia.
  - intros ?; exists (Z.to_nat (x - lo)); split; [lia|apply elem_of_seq; lia].
Qed.

Lemma range_snoc lo n : range lo (S n) = range lo n ++ [lo + Z.of_nat n].
Proof. unfold range. rewrite seq_S, fmap_app. done. Qed.

Lemma length_range lo n : length (range lo n) = n.
Proof. unfold range. by rewrite length_fmap, length_seq. Qed.

Lemma range_S lo n : range lo (S n) = lo :: range (lo + 1) n.
Proof.
  unfold range. cbn. f_equal; [lia|].
  rewrite <- fmap_S_seq, <- list_fmap_compose.
  apply list_fmap_ext; intros; cbn; lia.
Qed.

(** ** Sums *)
Definition zsum {A} (f : A -> Z) (l : list A) : Z := foldr (fun a s => f a + s) 0 l.

Lemma zsum_cons {A} (f : A -> Z) a l : zsum f (a :: l) = f a + zsum f l.
Proof. done. Qed.

Lemma zsum_app {A} (f : A -> Z) l1 l2 : zsum f (l1 ++ l2) = zsum f l1 + zsum f l2.
Proof. induction l1 as [|a l1 IH]; cbn; [done|]. unfold zsum in *; lia. Qed.

Lemma zsum_ext {A} (f g : A -> Z) l : (forall a, a ∈ l -> f a = g a) -> zsum f l = zsum g l.
Proof.
  induction l as [|a l IH]; intros H; [done|].
  rewrite !zsum_cons, IH, (H a); [done|apply list_elem_of_here|].
  intros; apply H; by apply list_elem_of_further.
Qed.

Lemma zsum_nonneg {A} (f : A -> Z) l : (forall a, a ∈ l -> 0 <= f a) -> 0 <= zsum f l.
Proof.
  induction l as [|a l IH]; intros H; [done|]. rewrite zsum_cons.
  pose proof (H a (list_elem_of_here _ _)).
  assert (0 <= zsum f l); [|lia].
  apply IH; intros; apply H; by apply list_elem_of_further.
Qed.

Lemma zsum_elem_le {A} (f : A -> Z) l a :
  (forall a, a ∈ l -> 0 <= f a) -> a ∈ l -> f a <= zsum f l.
Proof.
  intros H (l1 & l2 & ->)%list_elem_of_split.
  rewrite zsum_app, zsum_cons.
  pose proof (zsum_nonneg f l1). pose proof (zsum_nonneg f l2).
  enough (0 <= zsum f l1 /\ 0 <= zsum f l2) by lia.
  split; apply zsum_nonneg; intros; apply H; set_solver.
Qed.

(** Changing a summand at one place of a duplicate-free list. *)
Lemma zsum_update {A} (f g : A -> Z) l i :
  NoDup l -> i ∈ l -> (forall j, j ∈ l -> j <> i -> g j = f j) ->
  zsum g l = zsum f l - f i + g i.
Proof.
  intros Hnd (l1 & l2 & ->)%list_elem_of_split Hne.
  apply NoDup_app in Hnd as (_ & Hd & [Hi _]%NoDup_cons).
  rewrite !zsum_app, !zsum_cons, (zsum_ext g f l1), (zsum_ext g f l2); [lia|..].
  - intros a Ha; apply Hne; [set_solver|by intros ->].
  - intros a Ha; apply Hne; [set_solver|intros ->; apply (Hd i); set_solver].
Qed.

Lemma NoDup_range lo n : NoDup (range lo n).
Proof. apply NoDup_fmap_2; [intros ??; lia|apply NoDup_seq]. Qed.

(** A [uint32_t] accumulator that does not overflow computes the sum. *)
Lemma fold_u32_sum {A} (f : A -> Z) (step : Z -> A -> Z) l s :
  (forall s a, step s a = u32 (s + f a)) ->
  (forall a, a ∈ l -> 0 <= f a) -> 0 <= s -> s + zsum f l < 2 ^ 32 ->
  fold_left step l s = s + zsum f l.
Proof.
  intros Hstep; revert s; induction l as [|a l IH]; intros s Hf Hs Hb; [cbn; lia|].
  rewrite zsum_cons in *; cbn [fold_left].
  pose proof (Hf a (list_elem_of_here _ _)).
  assert (Hf' : forall a, a ∈ l -> 0 <= f a) by (intros; apply Hf; by apply list_elem_of_further).
  pose proof (zsum_nonneg f l Hf').
  rewrite Hstep, u32_id by lia. rewrite IH by (done || lia). lia.
Qed.

Lemma u32_add_l a b : u32 (u32 a + b) = u32 (a + b).
Proof. unfold u32. by rewrite Zplus_mod_idemp_l. Qed.
Lemma u32_add_r a b : u32 (a + u32 b) = u32 (a + b).
Proof. unfold u32. by rewrite Zplus_mod_idemp_r. Qed.

(** Bits below those of a shifted number. *)
Lemma lor_shift b n x : 0 <= n -> 0 <= x < 2 ^ n -> Z.lor (Z.shiftl b n) x = b * 2 ^ n + x.
Proof.
  intros Hn Hx. assert (Hl : Z.land (Z.shiftl b n) x = 0).
  { apply Z.bits_inj'. intros i Hi. rewrite Z.land_spec, Z.bits_0. destruct (Z.ltb_spec i n).
    - by rewrite Z.shiftl_spec_low.
    - destruct (decide (x = 0)) as [->|]; [by rewrite Z.bits_0, andb_false_r|].
      rewrite (Z.bits_above_log2 x i); [apply andb_false_r|lia|].
      apply Z.lt_le_trans with n; [apply Z.log2_lt_pow2; lia|done]. }
  rewrite <- Z.lxor_lor, <- Z.add_nocarry_lxor, Z.shiftl_mul_pow2 by done. done.
Qed.

(** ** Tactics *)

(** Case analysis on the boolean tests and the fallible calls of a
    computation known to have returned. *)
Ltac res_inv H :=
  repeat lazymatch type of H with
  | (_ ≫= _) = Ok _ =>
      let a := fresh "a" in let E := fresh "E" in
      apply bind_Ok in H; destruct H as (a & E & H); res_inv E
  | ub_unless _ _ _ = Ok _ =>
      let E := fresh "E" in apply ub_unless_Ok in H; destruct H as [E H]
  | Ok _ = Ok _ => injection H; clear H; intros; try subst
  | UB _ = Ok _ => discriminate H
  | Diverge = Ok _ => discriminate H
  | mret _ = Ok _ => unfold mret, res_ret in H
  end.

(** Arithmetic with [/] and [mod] by constants. *)
Ltac dlia := Z.to_euclidean_division_equations; lia.
