(* ===== verification/Tti.v ===== *)
(** * TTI arithmetic

    The transmission-time-interval arithmetic every layer shares: the macros of
    [srslte/common/common.h] (the ones the eNodeB uses), the parameters a
    subframe's schedule is computed from ([tti_params_t]) and the helpers of
    [sched_utils].  A TTI counts subframes modulo 10240 (1024 frames of ten). *)
From S2P Require Import Prelude.

Definition NTTI : Z := 10240.
Definition FDD_HARQ_DELAY_DL_MS : Z := 4.
Definition FDD_HARQ_DELAY_UL_MS : Z := 4.
Definition FDD_DELAY_UL_NB_MS : Z := 9.
Definition TTIMOD_SZ : Z := 20.

(** [#define TTI_SUB(a, b) ((((a) + 10240) - (b)) % 10240)] on [uint32_t]. *)
Definition TTI_SUB (a b : Z) : Z := u32 (a + 10240 - b) mod 10240.
Definition TTI_ADD (a b : Z) : Z := u32 (a + b) mod 10240.
Definition TTI_TX (tti : Z) : Z := TTI_ADD tti FDD_HARQ_DELAY_DL_MS.
Definition TTI_RX (tti : Z) : Z := TTI_SUB tti FDD_HARQ_DELAY_UL_MS.
Definition TTI_RX_ACK (tti : Z) : Z :=
  TTI_ADD tti (FDD_HARQ_DELAY_UL_MS + FDD_HARQ_DELAY_DL_MS).
Definition TTI_UL_RX_NB (tti : Z) : Z :=
  TTI_ADD tti (FDD_DELAY_UL_NB_MS + FDD_HARQ_DELAY_DL_MS).
Definition TTIMOD (tti : Z) : Z := tti mod TTIMOD_SZ.

(** ** [tti_params_t] *)
Record tti_params_t := mk_tti_params {
  tti_rx : Z;
  sf_idx_tx_dl : Z;
  tti_tx_dl : Z;
  tti_tx_ul : Z;
  sfn_tx_dl : Z
}.
#[export] Instance eta_tti_params_t : Eta tti_params_t := {| eta := fun r =>
  mk_tti_params (tti_rx r) (sf_idx_tx_dl r) (tti_tx_dl r) (tti_tx_ul r) (sfn_tx_dl r) |}.

#[global] Instance tti_params_eq_dec : EqDecision tti_params_t.
Proof. solve_decision. Defined.

Definition tti_params (tti_rx_ : Z) : tti_params_t :=
  {| tti_rx := tti_rx_;
     sf_idx_tx_dl := TTI_ADD tti_rx_ FDD_HARQ_DELAY_UL_MS mod 10;
     tti_tx_dl := TTI_ADD tti_rx_ FDD_HARQ_DELAY_UL_MS;
     tti_tx_ul := TTI_ADD tti_rx_ (FDD_DELAY_UL_NB_MS + FDD_HARQ_DELAY_DL_MS);
     sfn_tx_dl := TTI_ADD tti_rx_ FDD_HARQ_DELAY_UL_MS / 10 |}.

Definition tti_rx_ack_dl (p : tti_params_t) : Z := tti_tx_ul p.

(** ** [sched_utils] *)
Definition tti_subtract (tti1 tti2 : Z) : Z := TTI_SUB tti1 tti2.

Definition max_tti (tti1 tti2 : Z) : Z :=
  if u32 (tti1 - tti2) >? 10240 / 2 then Z.min tti1 tti2 else Z.max tti1 tti2.

Definition is_in_tti_interval (tti tti1 tti2 : Z) : bool :=
  let tti := tti mod 10240 in
  let tti1 := tti1 mod 10240 in
  let tti2 := tti2 mod 10240 in
  if tti1 <=? tti2 then (tti1 <=? tti) && (tti <=? tti2)
  else (tti1 <=? tti) || (tti <=? tti2).

(** ** Facts *)

(** [t] is a TTI. *)
Definition is_tti (t : Z) : Prop := 0 <= t < 10240.

#[global] Instance is_tti_dec t : Decision (is_tti t).
Proof. unfold is_tti; apply _. Defined.

Lemma mod_is_tti z : is_tti (z mod 10240).
Proof. apply Z.mod_pos_bound; lia. Qed.

Lemma TTI_ADD_is_tti a b : is_tti (TTI_ADD a b).
Proof. apply mod_is_tti. Qed.

Lemma TTI_SUB_is_tti a b : is_tti (TTI_SUB a b).
Proof. apply mod_is_tti. Qed.
#[export] Hint Resolve mod_is_tti TTI_ADD_is_tti TTI_SUB_is_tti : width.

Lemma TTI_ADD_eq a b :
  is_tti a -> 0 <= b < 10240 ->
  TTI_ADD a b = if a + b <? 10240 then a + b else a + b - 10240.
Proof.
  unfold is_tti, TTI_ADD; intros.
  rewrite u32_id by lia. destruct (Z.ltb_spec (a + b) 10240); dlia.
Qed.

Lemma TTI_SUB_eq a b :
  is_tti a -> 0 <= b < 10240 ->
  TTI_SUB a b = if b <=? a then a - b else a - b + 10240.
Proof.
  unfold is_tti, TTI_SUB; intros.
  rewrite u32_id by lia. destruct (Z.leb_spec b a); dlia.
Qed.

Lemma TTI_ADD_SUB a b : is_tti a -> 0 <= b < 10240 -> TTI_ADD (TTI_SUB a b) b = a.
Proof.
  intros Ha Hb. pose proof (TTI_SUB_is_tti a b).
  rewrite TTI_ADD_eq by done. rewrite TTI_SUB_eq by done. unfold is_tti in *.
  destruct (Z.leb_spec b a);
    match goal with |- context [?x <? ?y] => destruct (Z.ltb_spec x y) end; lia.
Qed.

Lemma TTI_SUB_ADD a b : is_tti a -> 0 <= b < 10240 -> TTI_SUB (TTI_ADD a b) b = a.
Proof.
  intros Ha Hb. pose proof (TTI_ADD_is_tti a b).
  rewrite TTI_SUB_eq by done. rewrite TTI_ADD_eq by done. unfold is_tti in *.
  destruct (Z.ltb_spec (a + b) 10240);
    match goal with |- context [?x <=? ?y] => destruct (Z.leb_spec x y) end; lia.
Qed.

Lemma tti_params_is_tti t :
  is_tti (tti_tx_dl (tti_params t)) /\ is_tti (tti_tx_ul (tti_params t)).
Proof. split; apply TTI_ADD_is_tti. Qed.

(** Away from the wrap-around. *)
Lemma tti_params_small n :
  0 <= n < 10000 -> tti_tx_dl (tti_params n) = n + 4 /\ tti_tx_ul (tti_params n) = n + 13.
Proof.
  intros Hn; cbn. unfold FDD_HARQ_DELAY_UL_MS, FDD_DELAY_UL_NB_MS, FDD_HARQ_DELAY_DL_MS.
  rewrite !TTI_ADD_eq by (unfold is_tti; lia).
  do 2 case_match; lia.
Qed.
