(* ===== verification/RaNbiot.v ===== *)
(** * NB-IoT resource allocation

    The functions of [third_party/srslte/src/phy/phch/ra_nbiot.c] the eNodeB
    calls: repetition and transport-block tables, the downlink subframes a
    NPDSCH may use, and the conversion of a DCI into a grant. *)
From S2P Require Import Prelude Tti.

(** ** Tables *)
Definition n_rep_table : list Z :=
  [1; 2; 4; 8; 16; 32; 64; 128; 192; 256; 384; 512; 768; 1024; 1536; 2048].
Definition n_rep_table_sib1 : list Z :=
  [4; 8; 16; 4; 8; 16; 4; 8; 16; 4; 8; 16; 0; 0; 0; 0].
Definition n_rep_table_npusch : list Z := [1; 2; 4; 8; 16; 32; 64; 128].
Definition n_ru_table_npusch : list Z := [1; 2; 3; 4; 5; 6; 8; 10].
Definition k0_table_formatN1_r_st_128 : list Z := [0; 4; 8; 12; 16; 32; 64; 128].
Definition k0_table_formatN1_r_geq_128 : list Z :=
  [0; 16; 32; 64; 128; 256; 512; 1024].
Definition k0_table_formatN0 : list Z := [8; 16; 32; 64].
Definition first_frame_sib1 : list (list Z) :=
  [[0; 16; 32; 48]; [0; 16; -1; -1]; [0; 1; -1; -1]].
Definition i_mcs_to_i_tbs_npusch : list Z := [0; 2; 1; 3; 4; 5; 6; 7; 8; 9; 10].

(** TS 36.213 table 16.4.1.5.1-1, NPDSCH. *)
Definition tbs_table_nbiot : list (list Z) :=
  [ [16; 32; 56; 88; 120; 152; 208; 256];
    [24; 56; 88; 144; 176; 208; 256; 344];
    [32; 72; 144; 176; 208; 256; 328; 424];
    [40; 104; 176; 208; 256; 328; 440; 568];
    [56; 120; 208; 256; 328; 408; 552; 680];
    [72; 144; 224; 328; 424; 504; 680; 0];
    [88; 176; 256; 392; 504; 600; 0; 0];
    [104; 224; 328; 472; 584; 680; 0; 0];
    [120; 256; 392; 536; 680; 0; 0; 0];
    [136; 296; 456; 616; 0; 0; 0; 0];
    [144; 328; 504; 680; 0; 0; 0; 0];
    [176; 376; 584; 0; 0; 0; 0; 0];
    [208; 440; 680; 0; 0; 0; 0; 0] ].

Definition tbs_table_nbiot_sib1 : list Z :=
  [208; 208; 208; 328; 328; 328; 440; 440; 440; 680; 680; 680; 0; 0; 0; 0].

(** TS 36.213 table 16.5.1.2-2, NPUSCH. *)
Definition tbs_table_npusch : list (list Z) :=
  [ [16; 32; 56; 88; 120; 152; 208; 256];
    [24; 56; 88; 144; 176; 208; 256; 344];
    [32; 72; 144; 176; 208; 256; 328; 424];
    [40; 104; 176; 208; 256; 328; 440; 568];
    [56; 120; 208; 256; 328; 408; 552; 680];
    [72; 144; 224; 328; 424; 504; 680; 872];
    [88; 176; 256; 392; 504; 600; 808; 1000];
    [104; 224; 328; 472; 584; 712; 1000; 0];
    [120; 256; 392; 536; 680; 808; 0; 0];
    [136; 296; 456; 616; 776; 936; 0; 0];
    [144; 328; 504; 680; 872; 1000; 0; 0];
    [176; 376; 584; 776; 1000; 0; 0; 0];
    [208; 440; 680; 1000; 0; 0; 0; 0] ].

(** [table[i][j]] *)
Definition arr2_read (t : list (list Z)) (i j : Z) : res Z :=
  row ← arr_read t i; arr_read row j.

(** ** Data *)

(** [srslte_ra_nbiot_t], the fields the eNodeB writes or reads. *)
Record ra_nbiot_t := mk_ra_nbiot {
  has_sib1 : bool;
  rnti : Z;
  is_ra : bool;
  i_delay : Z;
  i_sf : Z;
  i_rep : Z;
  i_n_start : Z;
  harq_ack : Z;
  sched_info_sib1 : Z
}.
#[export] Instance eta_ra_nbiot_t : Eta ra_nbiot_t := {| eta := fun r =>
  mk_ra_nbiot (has_sib1 r) (rnti r) (is_ra r) (i_delay r) (i_sf r) (i_rep r)
    (i_n_start r) (harq_ack r) (sched_info_sib1 r) |}.

(** [srslte_ra_nbiot_dl_dci_t] *)
Record dl_dci_t := mk_dl_dci {
  format : Z;
  alloc : ra_nbiot_t;
  mcs_idx : Z;
  rv_idx : Z;
  ndi : bool;
  dci_is_n2 : bool
}.
#[export] Instance eta_dl_dci_t : Eta dl_dci_t := {| eta := fun r =>
  mk_dl_dci (format r) (alloc r) (mcs_idx r) (rv_idx r) (ndi r) (dci_is_n2 r) |}.

#[global] Instance ra_nbiot_t_eq_dec : EqDecision ra_nbiot_t.
Proof. solve_decision. Defined.
#[global] Instance dl_dci_t_eq_dec : EqDecision dl_dci_t.
Proof. solve_decision. Defined.

(** The value-initialised structures, [= {}]. *)
Definition ra_nbiot_zero : ra_nbiot_t := mk_ra_nbiot false 0 false 0 0 0 0 0 0.
Definition dl_dci_zero : dl_dci_t := mk_dl_dci 0 ra_nbiot_zero 0 0 false false.

(** [srslte_ra_nbiot_ul_dci_t], the fields the eNodeB fills, with [format]
    of the enclosing [srslte_nbiot_dci_ul_t] and its [rnti]. *)
Record ul_dci_t := mk_ul_dci {
  ul_rnti : Z;
  ul_format : Z;
  ul_i_sc : Z;
  ul_i_delay : Z;
  ul_i_ru : Z;
  ul_i_mcs : Z;
  ul_i_rv : Z;
  ul_i_rep : Z
}.
#[export] Instance eta_ul_dci_t : Eta ul_dci_t := {| eta := fun r =>
  mk_ul_dci (ul_rnti r) (ul_format r) (ul_i_sc r) (ul_i_delay r) (ul_i_ru r)
    (ul_i_mcs r) (ul_i_rv r) (ul_i_rep r) |}.
Definition ul_dci_zero : ul_dci_t := mk_ul_dci 0 0 0 0 0 0 0 0.

#[global] Instance ul_dci_t_eq_dec : EqDecision ul_dci_t.
Proof. solve_decision. Defined.

(** [srslte_nbiot_dci_rar_grant_t] *)
Record rar_grant_t := mk_rar_grant {
  g_sc_spacing : Z;
  g_i_sc : Z;
  g_i_delay : Z;
  g_n_rep : Z;
  g_i_mcs : Z
}.
#[export] Instance eta_rar_grant_t : Eta rar_grant_t := {| eta := fun r =>
  mk_rar_grant (g_sc_spacing r) (g_i_sc r) (g_i_delay r) (g_n_rep r) (g_i_mcs r) |}.

#[global] Instance rar_grant_t_eq_dec : EqDecision rar_grant_t.
Proof. solve_decision. Defined.

(** [srslte_ra_nbiot_dl_grant_t] *)
Record dl_grant_t := mk_dl_grant {
  dg_tbs : Z;
  dg_mcs_idx : Z;
  dg_k0 : Z;
  dg_nof_sf : Z;
  dg_nof_rep : Z;
  dg_has_sib1 : bool;
  dg_ack_nack_resource : Z;
  dg_start_hfn : Z;
  dg_start_sfn : Z;
  dg_start_sfidx : Z
}.
#[export] Instance eta_dl_grant_t : Eta dl_grant_t := {| eta := fun r =>
  mk_dl_grant (dg_tbs r) (dg_mcs_idx r) (dg_k0 r) (dg_nof_sf r) (dg_nof_rep r)
    (dg_has_sib1 r) (dg_ack_nack_resource r) (dg_start_hfn r) (dg_start_sfn r)
    (dg_start_sfidx r) |}.

(** [srslte_ra_nbiot_ul_grant_t] *)
Record ul_grant_t := mk_ul_grant {
  ug_Qm : Z;
  ug_tbs : Z;
  ug_mcs_idx : Z;
  ug_k0 : Z;
  ug_nof_rep : Z;
  ug_nof_ru : Z;
  ug_nof_slots : Z;
  ug_nof_sc : Z;
  ug_sc0 : Z;
  ug_rv_idx : Z;
  ug_tx_tti : Z
}.
#[export] Instance eta_ul_grant_t : Eta ul_grant_t := {| eta := fun r =>
  mk_ul_grant (ug_Qm r) (ug_tbs r) (ug_mcs_idx r) (ug_k0 r) (ug_nof_rep r) (ug_nof_ru r)
    (ug_nof_slots r) (ug_nof_sc r) (ug_sc0 r) (ug_rv_idx r) (ug_tx_tti r) |}.

(** ** Functions *)
Definition srslte_ra_n_rep_from_dci (dci : dl_dci_t) : res Z :=
  if has_sib1 (alloc dci) then arr_read n_rep_table_sib1 (sched_info_sib1 (alloc dci))
  else arr_read n_rep_table (i_rep (alloc dci)).

(** The MIB enters only through its [sched_info_sib1]. *)
Definition srslte_ra_n_rep_sib1_nb (mib_sched_info : Z) : res Z :=
  arr_read n_rep_table_sib1 mib_sched_info.

Definition srslte_ra_n_rep_sib1_nb_idx (mib_sched_info : Z) : res Z :=
  n ← srslte_ra_n_rep_sib1_nb mib_sched_info;
  Ok (if n =? 4 then 0 else if n =? 8 then 1 else if n =? 16 then 2 else 0).

Definition srslte_ra_nbiot_get_starting_sib1_frame (cell_id mib_sched_info : Z) : res Z :=
  idx ← srslte_ra_n_rep_sib1_nb_idx mib_sched_info;
  n ← srslte_ra_n_rep_sib1_nb mib_sched_info;
  arr2_read first_frame_sib1 idx (cell_id mod (if n =? 4 then 4 else 2)).

Definition srslte_ra_nbiot_sib1_start (n_id_ncell mib_sched_info : Z) : res Z :=
  n ← srslte_ra_n_rep_sib1_nb mib_sched_info;
  Ok (if (n =? 16) && (n_id_ncell mod 2 =? 1) then 1 else 0).

Definition srslte_ra_k0_from_dci (dci : dl_dci_t) (r_max : Z) : res Z :=
  if dci_is_n2 dci then Ok 0
  else if r_max <? 128 then arr_read k0_table_formatN1_r_st_128 (i_delay (alloc dci))
  else arr_read k0_table_formatN1_r_geq_128 (i_delay (alloc dci)).

Definition srslte_ra_n_sf_from_dci (dci : dl_dci_t) : Z :=
  let i := i_sf (alloc dci) in
  if i <? 6 then i + 1 else if i =? 6 then 8 else if i =? 7 then 10 else 1.

Definition srslte_ra_nbiot_get_npdsch_tbs (i_tbs i_sf : Z) : res Z :=
  if (i_tbs <=? 12) && (i_sf <=? 7) then arr2_read tbs_table_nbiot i_tbs i_sf else Ok 0.

Definition srslte_ra_nbiot_is_valid_dl_sf (tti : Z) : bool :=
  negb ((tti mod 10 =? 0) || (tti mod 10 =? 5)
        || ((tti mod 10 =? 9) && ((tti / 10) mod 2 =? 0))).

(** [while (!is_valid_dl_sf(tti)) tti = (tti + 1) % 10240;] *)
Fixpoint next_valid_dl_sf (fuel : nat) (tti : Z) : res Z :=
  if srslte_ra_nbiot_is_valid_dl_sf tti then Ok tti
  else match fuel with
       | O => Diverge
       | S f => next_valid_dl_sf f (u32 (tti + 1) mod 10240)
       end.

(** Two turns always suffice ([next_valid_dl_sf_spec]). *)
Definition valid_dl_sf_fuel : nat := 2.

Definition nbiot_dl_dci_to_grant_mcs (dci : dl_dci_t) : res (dl_dci_t * option Z) :=
  let a := alloc dci in
  let dci' := dci <| mcs_idx := Z.min (mcs_idx dci) 12 |>
                  <| alloc := a <| sched_info_sib1 := Z.min (sched_info_sib1 a) 11 |>
                                <| i_sf := Z.min (i_sf a) 7 |> |> in
  tbs ← (if has_sib1 (alloc dci') then
           arr_read tbs_table_nbiot_sib1 (sched_info_sib1 (alloc dci'))
         else arr2_read tbs_table_nbiot (mcs_idx dci') (i_sf (alloc dci')));
  Ok (dci', if tbs <=? 0 then None else Some tbs).

(** [None] is [SRSLTE_ERROR]. *)
Definition srslte_ra_nbiot_dl_dci_to_grant (dci : dl_dci_t) (sfn sf_idx r_max : Z)
    (is_prescheduled : bool) : res (option dl_grant_t) :=
  '(dci', otbs) ← nbiot_dl_dci_to_grant_mcs dci;
  match otbs with
  | None => Ok None
  | Some tbs =>
      k0 ← srslte_ra_k0_from_dci dci' r_max;
      nof_rep ← srslte_ra_n_rep_from_dci dci';
      let offset := if is_prescheduled then 0 else 5 in
      let rx_tti := u32 (sfn * 10 + sf_idx) in
      tx_tti ← next_valid_dl_sf valid_dl_sf_fuel (u32 (rx_tti + offset + k0) mod 10240);
      Ok (Some {| dg_tbs := tbs;
                  dg_mcs_idx := mcs_idx dci';
                  dg_k0 := k0;
                  dg_nof_sf := if has_sib1 (alloc dci') then 8 else srslte_ra_n_sf_from_dci dci';
                  dg_nof_rep := nof_rep;
                  dg_has_sib1 := has_sib1 (alloc dci');
                  dg_ack_nack_resource := harq_ack (alloc dci');
                  dg_start_hfn := 0;
                  dg_start_sfn := tx_tti / 10;
                  dg_start_sfidx := tx_tti mod 10 |})
  end.

(** Subcarrier allocation of an uplink DCI: the first subcarrier and their
    number, [None] for the values the code rejects. *)
Definition ul_sc_alloc (i_sc : Z) : option (Z * Z) :=
  if i_sc <=? 11 then Some (i_sc, 1)
  else if i_sc <=? 15 then Some ((i_sc - 12) * 3, 3)
  else if i_sc <=? 17 then Some ((i_sc - 16) * 6, 6)
  else if i_sc =? 18 then Some (0, 12)
  else None.

(** Slots per resource unit of NPUSCH format 1 (TS 36.211 table 10.1.2.3-1). *)
Definition ul_nof_slots (nof_sc : Z) : Z :=
  if nof_sc =? 1 then 16 else if nof_sc =? 3 then 8 else if nof_sc =? 6 then 4 else 2.

(** [None] is [SRSLTE_ERROR]. *)
Definition srslte_ra_nbiot_ul_dci_to_grant (dci : ul_dci_t) (rx_tti : Z) :
    res (option ul_grant_t) :=
  match ul_sc_alloc (ul_i_sc dci) with
  | None => Ok None
  | Some (sc0, nof_sc) =>
      nof_ru ← arr_read n_ru_table_npusch (ul_i_ru dci);
      nof_rep ← arr_read n_rep_table_npusch (ul_i_rep dci);
      if negb (nof_rep =? 1) then Ok None else
      let Qm := if nof_sc =? 1 then (if ul_i_mcs dci <=? 1 then 1 else 2) else 2 in
      i_tbs ← (if nof_sc =? 1 then arr_read i_mcs_to_i_tbs_npusch (ul_i_mcs dci)
               else Ok (ul_i_mcs dci));
      tbs ← arr2_read tbs_table_npusch i_tbs (ul_i_ru dci);
      k0 ← arr_read k0_table_formatN0 (ul_i_delay dci);
      Ok (if tbs <? 0 then None else
          Some {| ug_Qm := Qm;
                  ug_tbs := tbs;
                  ug_mcs_idx := ul_i_mcs dci;
                  ug_k0 := k0;
                  ug_nof_rep := nof_rep;
                  ug_nof_ru := nof_ru;
                  ug_nof_slots := ul_nof_slots nof_sc * nof_ru;
                  ug_nof_sc := nof_sc;
                  ug_sc0 := sc0;
                  ug_rv_idx := 2 * (ul_i_rv dci mod 2);
                  ug_tx_tti := u32 (rx_tti + k0 + 1) mod 10240 |})
  end.

#[global] Arguments next_valid_dl_sf : simpl never.

(** ** Facts about valid downlink subframes *)

Lemma valid_dl_sf_spec t :
  srslte_ra_nbiot_is_valid_dl_sf t = true <->
  t mod 10 <> 0 /\ t mod 10 <> 5 /\ ~ (t mod 10 = 9 /\ (t / 10) mod 2 = 0).
Proof. unfold srslte_ra_nbiot_is_valid_dl_sf. lia. Qed.

(** Of three consecutive subframes one is valid, across the wrap too. *)
Lemma next_valid_dl_sf_spec t :
  is_tti t ->
  exists d t', next_valid_dl_sf valid_dl_sf_fuel t = Ok t' /\
    0 <= d <= 2 /\ t' = (t + d) mod 10240 /\ is_tti t' /\
    srslte_ra_nbiot_is_valid_dl_sf t' = true /\
    (forall k, 0 <= k < d -> srslte_ra_nbiot_is_valid_dl_sf ((t + k) mod 10240) = false).
Proof.
  unfold is_tti; intros Ht; unfold valid_dl_sf_fuel, next_valid_dl_sf.
  destruct (srslte_ra_nbiot_is_valid_dl_sf t) eqn:E0.
  { exists 0, t. rewrite Z.add_0_r, Z.mod_small by lia. split_and!; try lia; done. }
  rewrite u32_id by lia.
  destruct (srslte_ra_nbiot_is_valid_dl_sf ((t + 1) mod 10240)) eqn:E1.
  { exists 1, ((t + 1) mod 10240). split_and!; try done; try dlia.
    intros k ?; replace k with 0 by lia. by rewrite Z.add_0_r, Z.mod_small. }
  rewrite u32_id by dlia.
  assert (((t + 1) mod 10240 + 1) mod 10240 = (t + 2) mod 10240) as -> by dlia.
  destruct (srslte_ra_nbiot_is_valid_dl_sf ((t + 2) mod 10240)) eqn:E2.
  - exists 2, ((t + 2) mod 10240). split_and!; try done; try dlia.
    intros k ?; assert (k = 0 \/ k = 1) as [-> | ->] by lia; [|done].
    by rewrite Z.add_0_r, Z.mod_small.
  - exfalso. unfold srslte_ra_nbiot_is_valid_dl_sf in *. dlia.
Qed.

(** ** Facts about grants *)

(** The receiver's reading of a plain format N1 DCI: no delay, no repetition,
    between one and six subframes. *)
Lemma dl_dci_to_grant_N1 dci sfn sf_idx r_max i tbs :
  has_sib1 (alloc dci) = false -> i_sf (alloc dci) = i ->
  i_delay (alloc dci) = 0 -> i_rep (alloc dci) = 0 ->
  0 <= mcs_idx dci <= 12 -> 0 <= i < 6 -> 0 < tbs ->
  arr2_read tbs_table_nbiot (mcs_idx dci) i = Ok (8 * tbs) ->
  exists g, srslte_ra_nbiot_dl_dci_to_grant dci sfn sf_idx r_max false = Ok (Some g) /\
    dg_tbs g = 8 * tbs /\ dg_nof_sf g = i + 1 /\ dg_nof_rep g = 1.
Proof.
  intros Hs Hi Hd Hr Hm Hir Ht Hb.
  unfold srslte_ra_nbiot_dl_dci_to_grant, nbiot_dl_dci_to_grant_mcs. cbn.
  rewrite Hs, Hi, (Z.min_l (mcs_idx dci) 12), (Z.min_l i 7) by lia.
  rewrite Hb. cbn [mbind res_bind]. replace (8 * tbs <=? 0) with false by lia.
  assert (exists k0, srslte_ra_k0_from_dci (dci <| mcs_idx := mcs_idx dci |> <| alloc :=
     (alloc dci) <| sched_info_sib1 := Z.min (sched_info_sib1 (alloc dci)) 11 |> <| i_sf := i |> |>)
     r_max = Ok k0) as [k0 Hk].
  { unfold srslte_ra_k0_from_dci; cbn; rewrite Hd. repeat case_match; eauto. }
  cbn in Hk |- *. rewrite Hs in Hk. rewrite Hk. cbn [mbind res_bind].
  unfold srslte_ra_n_rep_from_dci; cbn. rewrite ?Hs, Hr. cbn.
  destruct (next_valid_dl_sf_spec (u32 (u32 (sfn * 10 + sf_idx) + 5 + k0) mod 10240))
    as (d & t' & -> & _); [apply mod_is_tti|].
  cbn. eexists; split; [done|]. cbn. rewrite ?Hs. split_and!; try done.
  unfold srslte_ra_n_sf_from_dci; cbn. by replace (i <? 6) with true by lia.
Qed.
