(* ===== verification/SchedTypes.v ===== *)
(** * Data of the MAC scheduler

    The structures of [sched_interface_nb.h], [scheduler_grid.h] and
    [srslte/mac/pdu.h] the scheduler's parts exchange.

    A C array that is always filled through its own element counter
    ([pdu]/[nof_pdu_elems], [rar]/[nof_rar_elems], ...) is the list of the
    elements the counter covers; [push_bounded] is the write at the counter
    followed by its increment, undefined when the array is full. *)
From S2P Require Import Prelude Tti RaNbiot.

Definition MAX_LC : Z := 6.
Definition MAX_DATA_LIST : Z := 32.
Definition MAX_RAR_LIST : Z := 8.
Definition MAX_BC_LIST : Z := 8.
Definition MAX_RLC_PDU_LIST : Z := 8.

Definition SRSLTE_SUCCESS : Z := 0.
Definition SRSLTE_ERROR : Z := -1.
Definition SRSLTE_INVALID_RNTI : Z := 0.
Definition SRSLTE_SIRNTI : Z := 65535.
Definition SRSLTE_PRNTI : Z := 65534.
Definition SRSLTE_MRNTI : Z := 65533.

(** [a[n] = x; n++] on an array of [max] elements. *)
Definition push_bounded {A} (max : Z) (l : list A) (x : A) : res (list A) :=
  if Z.of_nat (length l) <? max then Ok (l ++ [x]) else UB OobWrite.

Lemma push_bounded_Ok {A} max (l : list A) x l' :
  push_bounded max l x = Ok l' <-> Z.of_nat (length l) < max /\ l' = l ++ [x].
Proof.
  unfold push_bounded. destruct (Z.ltb_spec (Z.of_nat (length l)) max).
  - split; [intros [= <-]; done|intros [_ ->]; done].
  - split; [done|lia].
Qed.

(** ** MAC control elements ([srslte/mac/pdu.h], [dl_sch_lcid]) *)
Definition CON_RES_ID : Z := 28.
Definition TA_CMD : Z := 29.
Definition SCELL_ACTIVATION_4_OCTET : Z := 24.
Definition SCELL_ACTIVATION : Z := 27.

(** Payload bytes of a control element, its subheader byte, their sum. *)
Definition ce_size (lcid : Z) : Z :=
  if lcid =? SCELL_ACTIVATION_4_OCTET then 4
  else if lcid =? SCELL_ACTIVATION then 1
  else if lcid =? CON_RES_ID then 6
  else if lcid =? TA_CMD then 1
  else 0.
Definition ce_subheader_size (lcid : Z) : Z := 1.
Definition ce_total_size (lcid : Z) : Z := ce_subheader_size lcid + ce_size lcid.

Lemma ce_total_size_range ce : 1 <= ce_total_size ce <= 7.
Proof.
  unfold ce_total_size, ce_subheader_size, ce_size.
  repeat case_match; lia.
Qed.

(** ** Bearer and user configuration *)
Inductive direction_t := IDLE | UL | DL | BOTH.
#[global] Instance direction_t_eq_dec : EqDecision direction_t.
Proof. solve_decision. Defined.

Record ue_bearer_cfg_t := mk_bearer_cfg {
  priority : Z;
  bsd : Z;
  pbr : Z;
  group : Z;
  direction : direction_t
}.
#[export] Instance eta_ue_bearer_cfg_t : Eta ue_bearer_cfg_t := {| eta := fun r =>
  mk_bearer_cfg (priority r) (bsd r) (pbr r) (group r) (direction r) |}.
Definition ue_bearer_cfg_zero := mk_bearer_cfg 0 0 0 0 IDLE.

Record ue_cfg_t := mk_ue_cfg {
  maxharq_tx : Z;
  continuous_pusch : bool;
  aperiodic_cqi_period : Z;
  ue_bearers : list ue_bearer_cfg_t;      (* std::array<_, MAX_LC> *)
  use_tbs_index_alt : bool
}.
#[export] Instance eta_ue_cfg_t : Eta ue_cfg_t := {| eta := fun r =>
  mk_ue_cfg (maxharq_tx r) (continuous_pusch r) (aperiodic_cqi_period r) (ue_bearers r)
    (use_tbs_index_alt r) |}.
Definition ue_cfg_zero : ue_cfg_t :=
  mk_ue_cfg 5 false 0 (replicate 6 ue_bearer_cfg_zero) false.

(** ** Scheduling results *)
Record dl_sched_pdu_t := mk_pdu { lcid : Z; nbytes : Z }.
#[export] Instance eta_dl_sched_pdu_t : Eta dl_sched_pdu_t := {| eta := fun r =>
  mk_pdu (lcid r) (nbytes r) |}.

Record dl_sched_data_t := mk_dl_data {
  d_dci : dl_dci_t;
  d_tbs : Z;                    (* tbs[0]; tbs[1] is always set to 0 *)
  d_pdu : list dl_sched_pdu_t   (* pdu[0], counted by nof_pdu_elems[0] *)
}.
#[export] Instance eta_dl_sched_data_t : Eta dl_sched_data_t := {| eta := fun r =>
  mk_dl_data (d_dci r) (d_tbs r) (d_pdu r) |}.
Definition dl_sched_data_zero := mk_dl_data dl_dci_zero 0 [].

Record ul_sched_data_t := mk_ul_data {
  needs_npdcch : bool;
  u_tbs : Z;
  u_dci : ul_dci_t
}.
#[export] Instance eta_ul_sched_data_t : Eta ul_sched_data_t := {| eta := fun r =>
  mk_ul_data (needs_npdcch r) (u_tbs r) (u_dci r) |}.
Definition ul_sched_data_zero := mk_ul_data false 0 ul_dci_zero.

(** [dl_sched_rar_info_t] *)
Record rar_info_t := mk_rar_info {
  preamble_idx : Z;
  ta_cmd : Z;
  temp_crnti : Z;
  msg3_size : Z;
  nprach_tti : Z
}.
#[export] Instance eta_rar_info_t : Eta rar_info_t := {| eta := fun r =>
  mk_rar_info (preamble_idx r) (ta_cmd r) (temp_crnti r) (msg3_size r) (nprach_tti r) |}.
#[global] Instance rar_info_t_eq_dec : EqDecision rar_info_t.
Proof. solve_decision. Defined.

(** [dl_sched_rar_grant_t] *)
Record dl_sched_rar_grant_t := mk_dl_rar_grant {
  rg_data : rar_info_t;
  rg_grant : rar_grant_t
}.
#[export] Instance eta_dl_sched_rar_grant_t : Eta dl_sched_rar_grant_t := {| eta := fun r =>
  mk_dl_rar_grant (rg_data r) (rg_grant r) |}.

(** [dl_sched_rar_t] *)
Record dl_sched_rar_t := mk_dl_rar {
  r_tbs : Z;
  r_dci : dl_dci_t;
  r_msg3_grant : list dl_sched_rar_grant_t      (* counted by nof_grants *)
}.
#[export] Instance eta_dl_sched_rar_t : Eta dl_sched_rar_t := {| eta := fun r =>
  mk_dl_rar (r_tbs r) (r_dci r) (r_msg3_grant r) |}.
Definition dl_sched_rar_zero := mk_dl_rar 0 dl_dci_zero [].

(** [dl_sched_bc_t] *)
Record dl_sched_bc_t := mk_dl_bc { b_dci : dl_dci_t; b_is_new_sib : bool }.
#[export] Instance eta_dl_sched_bc_t : Eta dl_sched_bc_t := {| eta := fun r =>
  mk_dl_bc (b_dci r) (b_is_new_sib r) |}.

Record dl_sched_res_t := mk_dl_res {
  dl_data : list dl_sched_data_t;
  dl_rar : list dl_sched_rar_t;
  dl_bc : list dl_sched_bc_t
}.
#[export] Instance eta_dl_sched_res_t : Eta dl_sched_res_t := {| eta := fun r =>
  mk_dl_res (dl_data r) (dl_rar r) (dl_bc r) |}.
Definition dl_sched_res_zero := mk_dl_res [] [] [].

Record ul_sched_res_t := mk_ul_res { npusch : list ul_sched_data_t }.
#[export] Instance eta_ul_sched_res_t : Eta ul_sched_res_t := {| eta := fun r =>
  mk_ul_res (npusch r) |}.
Definition ul_sched_res_zero := mk_ul_res [].

(** ** The subframe schedule, [sf_sched] *)
Inductive alloc_type_t := DL_BC | DL_PCCH | DL_RAR | DL_DATA | UL_DATA.

Inductive alloc_outcome_t :=
  SUCCESS | DCI_COLLISION | RB_COLLISION | ERROR | NOF_RB_INVALID.
#[global] Instance alloc_outcome_t_eq_dec : EqDecision alloc_outcome_t.
Proof. solve_decision. Defined.

Definition alloc_outcome_to_string (o : alloc_outcome_t) : string :=
  match o with
  | SUCCESS => "success"
  | DCI_COLLISION => "dci_collision"
  | RB_COLLISION => "rb_collision"
  | ERROR => "error"
  | NOF_RB_INVALID => "invalid nof prbs"
  end.

(** A [sched_ue*]. The user database hands out a fresh [p_id] with every
    object it creates, so that a pointer that outlives its object is seen. *)
Record ue_ptr := mk_ue_ptr { p_rnti : Z; p_id : Z }.
#[export] Instance eta_ue_ptr : Eta ue_ptr := {| eta := fun r =>
  mk_ue_ptr (p_rnti r) (p_id r) |}.
#[global] Instance ue_ptr_eq_dec : EqDecision ue_ptr.
Proof. solve_decision. Defined.

(** [sf_sched::ctrl_alloc_t] *)
Record ctrl_alloc_t := mk_ctrl_alloc {
  ca_rnti : Z;
  ca_req_bytes : Z;
  ca_alloc_type : alloc_type_t
}.
#[export] Instance eta_ctrl_alloc_t : Eta ctrl_alloc_t := {| eta := fun r =>
  mk_ctrl_alloc (ca_rnti r) (ca_req_bytes r) (ca_alloc_type r) |}.

(** [sf_sched::rar_alloc_t] *)
Record rar_alloc_t := mk_rar_alloc {
  ra_alloc_data : ctrl_alloc_t;
  ra_rar_grant : dl_sched_rar_t
}.
#[export] Instance eta_rar_alloc_t : Eta rar_alloc_t := {| eta := fun r =>
  mk_rar_alloc (ra_alloc_data r) (ra_rar_grant r) |}.

(** [sf_sched::bc_alloc_t] *)
Record bc_alloc_t := mk_bc_alloc {
  bc_dci : dl_dci_t;
  bc_alloc_type : alloc_type_t;
  bc_is_new_sib : bool
}.
#[export] Instance eta_bc_alloc_t : Eta bc_alloc_t := {| eta := fun r =>
  mk_bc_alloc (bc_dci r) (bc_alloc_type r) (bc_is_new_sib r) |}.

(** [sf_sched::dl_alloc_t] *)
Record dl_alloc_t := mk_dl_alloc { da_user : ue_ptr; da_i_sf : Z }.
#[export] Instance eta_dl_alloc_t : Eta dl_alloc_t := {| eta := fun r =>
  mk_dl_alloc (da_user r) (da_i_sf r) |}.

(** [ul_harq_proc::ul_alloc_t] *)
Record ul_grid_alloc_t := mk_ul_grid_alloc { sc_num : Z; len : Z }.
#[export] Instance eta_ul_grid_alloc_t : Eta ul_grid_alloc_t := {| eta := fun r =>
  mk_ul_grid_alloc (sc_num r) (len r) |}.

Inductive ul_alloc_type := NEWTX | NOADAPT_RETX | ADAPT_RETX | MSG3.
#[global] Instance ul_alloc_type_eq_dec : EqDecision ul_alloc_type.
Proof. solve_decision. Defined.

(** [sf_sched::ul_alloc_t] *)
Record ul_alloc_t := mk_ul_alloc {
  ua_type : ul_alloc_type;
  ua_user : ue_ptr;
  ua_alloc : ul_grid_alloc_t;
  ua_mcs : Z
}.
#[export] Instance eta_ul_alloc_t : Eta ul_alloc_t := {| eta := fun r =>
  mk_ul_alloc (ua_type r) (ua_user r) (ua_alloc r) (ua_mcs r) |}.

Definition is_retx (t : ul_alloc_type) : bool :=
  match t with NOADAPT_RETX | ADAPT_RETX => true | _ => false end.
Definition is_msg3 (t : ul_alloc_type) : bool :=
  match t with MSG3 => true | _ => false end.
(** [ul_alloc_t::needs_npdcch] *)
Definition ul_needs_npdcch (t : ul_alloc_type) : bool :=
  match t with NEWTX | ADAPT_RETX => true | _ => false end.

(** [sf_sched::pending_rar_t]; [msg3_grant] is counted by [nof_grants]. *)
Record pending_rar_t := mk_pending_rar {
  pr_ra_rnti : Z;
  pr_nprach_tti : Z;
  pr_msg3_grant : list rar_info_t
}.
#[export] Instance eta_pending_rar_t : Eta pending_rar_t := {| eta := fun r =>
  mk_pending_rar (pr_ra_rnti r) (pr_nprach_tti r) (pr_msg3_grant r) |}.
#[global] Instance pending_rar_t_eq_dec : EqDecision pending_rar_t.
Proof. solve_decision. Defined.

(** [sf_sched]. The two tables it points to belong to the carrier and are
    passed next to it. *)
Record sf_sched := mk_sf_sched {
  sf_tti_params : tti_params_t;
  bc_allocs : list bc_alloc_t;
  rar_allocs : list rar_alloc_t;
  data_allocs : list dl_alloc_t;
  ul_data_allocs : list ul_alloc_t
}.
#[export] Instance eta_sf_sched : Eta sf_sched := {| eta := fun r =>
  mk_sf_sched (sf_tti_params r) (bc_allocs r) (rar_allocs r) (data_allocs r)
    (ul_data_allocs r) |}.

(** A [sf_sched] no subframe has used yet: [tti_params{10241}]. *)
Definition sf_sched_zero : sf_sched := mk_sf_sched (tti_params 10241) [] [] [] [].

(** [sf_sched_result] *)
Record sf_sched_result := mk_sf_result {
  res_tti_params : tti_params_t;
  dl_sched_result : dl_sched_res_t;
  ul_sched_result : ul_sched_res_t
}.
#[export] Instance eta_sf_sched_result : Eta sf_sched_result := {| eta := fun r =>
  mk_sf_result (res_tti_params r) (dl_sched_result r) (ul_sched_result r) |}.
Definition sf_sched_result_zero : sf_sched_result :=
  mk_sf_result (tti_params 10241) dl_sched_res_zero ul_sched_res_zero.

(** [bool dl_sched_table[10240]] and [bool ul_sched_table[10240]] are each the
    set of their true entries. *)

(** [table[i]] and [table[i] = b]. *)
Definition tab_get (t : gset Z) (i : Z) : res bool :=
  ub_unless ((0 <=? i) && (i <? 10240)) OobRead (Ok (bool_decide (i ∈ t))).
Definition tab_set (t : gset Z) (i : Z) (b : bool) : res (gset Z) :=
  ub_unless ((0 <=? i) && (i <? 10240)) OobWrite
    (Ok (if b then {[i]} ∪ t else t ∖ {[i]})).

Lemma tab_get_tti t i : is_tti i -> tab_get t i = Ok (bool_decide (i ∈ t)).
Proof.
  unfold is_tti, tab_get; intros. by replace (_ && _) with true by lia.
Qed.

Lemma tab_set_tti t i b :
  is_tti i -> tab_set t i b = Ok (if b then {[i]} ∪ t else t ∖ {[i]}).
Proof.
  unfold is_tti, tab_set; intros. by replace (_ && _) with true by lia.
Qed.
#[export] Hint Rewrite tab_get_tti tab_set_tti using done : width_rw.
