(* ===== verification/SchedUe.v ===== *)
(** * The scheduler's view of a user : [class sched_ue]

    Buffer states, pending control elements and the generation of the user's
    DCIs ([sonica_enb/stack/mac/scheduler_ue.cc]). *)
From S2P Require Import Prelude Tti RaNbiot SchedTypes.

(** ** State *)

(** [sched_ue::ue_bearer_t]; the three buffer counters are [int]. *)
Record ue_bearer_t := mk_bearer {
  b_cfg : ue_bearer_cfg_t;
  buf_tx : Z;
  buf_retx : Z;
  bsr : Z
}.
#[export] Instance eta_ue_bearer_t : Eta ue_bearer_t := {| eta := fun r =>
  mk_bearer (b_cfg r) (buf_tx r) (buf_retx r) (bsr r) |}.
Definition ue_bearer_zero := mk_bearer ue_bearer_cfg_zero 0 0 0.

Record sched_ue := mk_sched_ue {
  ue_rnti : Z;
  cfg : ue_cfg_t;
  sr : bool;
  lch : list ue_bearer_t;             (* std::array<ue_bearer_t, MAX_LC> *)
  phy_config_dedicated_enabled : bool;
  cqi_request_tti : Z;
  carriers : list (Z * Z);            (* (fixed_mcs_ul, fixed_mcs_dl) *)
  pending_ces : list Z;               (* std::deque<dl_sch_lcid> *)
  msg_wait_timer : Z
}.
#[export] Instance eta_sched_ue : Eta sched_ue := {| eta := fun r =>
  mk_sched_ue (ue_rnti r) (cfg r) (sr r) (lch r) (phy_config_dedicated_enabled r)
    (cqi_request_tti r) (carriers r) (pending_ces r) (msg_wait_timer r) |}.

(** The member initialisers followed by the constructor's [reset()]. *)
Definition sched_ue_new : sched_ue :=
  mk_sched_ue 0 ue_cfg_zero false (replicate 6 ue_bearer_zero) false 0 [] [] 0.

(** ** Helpers *)
Definition get_mac_subheader_sdu_size (sdu_bytes : Z) : Z :=
  if sdu_bytes =? 0 then 0 else if sdu_bytes >? 128 then 3 else 2.

Definition bearer_is_ul (b : ue_bearer_t) : bool :=
  match direction (b_cfg b) with UL | BOTH => true | _ => false end.
Definition bearer_is_dl (b : ue_bearer_t) : bool :=
  match direction (b_cfg b) with DL | BOTH => true | _ => false end.

(** [lch[i]]; the array has [MAX_LC] entries. *)
Definition get_lch (u : sched_ue) (i : Z) : ue_bearer_t :=
  nth (Z.to_nat i) (lch u) ue_bearer_zero.
Definition set_lch (u : sched_ue) (i : Z) (b : ue_bearer_t) : sched_ue :=
  u <| lch := <[Z.to_nat i := b]> (lch u) |>.

(** ** Configuration *)
Definition sched_ue_init (u : sched_ue) (rnti_ : Z) : sched_ue :=
  u <| ue_rnti := rnti_ |>.

Definition set_bearer_cfg_unlocked (u : sched_ue) (lc_id : Z) (cfg_ : ue_bearer_cfg_t) : sched_ue :=
  if lc_id <? MAX_LC then set_lch u lc_id ((get_lch u lc_id) <| b_cfg := cfg_ |>) else u.

Definition set_cfg (u : sched_ue) (cfg_ : ue_cfg_t) : sched_ue :=
  fold_left (fun u i => set_bearer_cfg_unlocked u i
                          (nth (Z.to_nat i) (ue_bearers (cfg u)) ue_bearer_cfg_zero))
            (range 0 6) (u <| cfg := cfg_ |>).

Definition sched_ue_reset (u : sched_ue) : sched_ue :=
  u <| cfg := ue_cfg_zero |> <| sr := false |>
    <| phy_config_dedicated_enabled := false |> <| cqi_request_tti := 0 |>
    <| carriers := [] |>.

Definition set_sr (u : sched_ue) : sched_ue := u <| sr := true |>.
Definition unset_sr (u : sched_ue) : sched_ue := u <| sr := false |>.

(** ** Buffer states. [lc_id] is a [uint8_t], the queues become [int]. *)
Definition dl_buffer_state (u : sched_ue) (lc_id tx_queue retx_queue : Z) : sched_ue :=
  let lc_id := u8 lc_id in
  if lc_id <? MAX_LC then
    set_lch u lc_id ((get_lch u lc_id) <| buf_retx := i32 retx_queue |> <| buf_tx := i32 tx_queue |>)
  else u.

Definition mac_buffer_state (u : sched_ue) (ce_code nof_cmds : Z) : sched_ue :=
  let cmd := ce_code in
  let cmds := replicate (Z.to_nat nof_cmds) cmd in
  u <| pending_ces := if cmd =? CON_RES_ID then cmds ++ pending_ces u else pending_ces u ++ cmds |>.

Definition ul_buffer_state (u : sched_ue) (lc_id bsr_ : Z) (set_value : bool) : sched_ue :=
  let lc_id := u8 lc_id in
  if lc_id <? MAX_LC then
    let b := get_lch u lc_id in
    set_lch u lc_id (b <| bsr := if set_value then i32 bsr_ else i32 (bsr b + bsr_) |>)
  else u.

Definition ul_wait_timer (u : sched_ue) (wait_time : Z) (set_value : bool) : sched_ue :=
  u <| msg_wait_timer := if set_value then wait_time else u32 (msg_wait_timer u + wait_time) |>.

(** ** Pending data *)
Definition is_sr_triggered (u : sched_ue) : bool := sr u.

Definition sum_u32 (l : list Z) : Z := fold_left (fun s x => u32 (s + x)) l 0.

Definition get_pending_dl_new_data (u : sched_ue) : Z :=
  let s := fold_left (fun s b => if bearer_is_dl b then u32 (s + u32 (buf_retx b + buf_tx b)) else s)
                     (lch u) 0 in
  fold_left (fun s ce => u32 (s + ce_total_size ce)) (pending_ces u) s.

Definition get_pending_ul_old_data_unlocked (u : sched_ue) (cc_idx : Z) : Z := 0.
Definition get_pending_ul_old_data (u : sched_ue) (cc_idx : Z) : Z :=
  get_pending_ul_old_data_unlocked u cc_idx.

Definition get_pending_ul_new_data_unlocked (u : sched_ue) (tti : Z) : Z :=
  let pending_data :=
    fold_left (fun s b => if bearer_is_ul b then u32 (s + bsr b) else s) (lch u) 0 in
  if (pending_data =? 0) && is_sr_triggered u then 125
  else
    let pending_ul_data :=
      sum_u32 (get_pending_ul_old_data_unlocked u <$> range 0 (length (carriers u))) in
    if pending_data >? pending_ul_data then pending_data - pending_ul_data else 0.
Definition get_pending_ul_new_data (u : sched_ue) (tti : Z) : Z :=
  get_pending_ul_new_data_unlocked u tti.

(** [compute_sdu_total_bytes] of [get_requested_dl_bytes]; the buffer count
    arrives as a [uint32_t]. *)
Definition min_alloc_bytes : Z := 5.
Definition compute_sdu_total_bytes (lcid buffer_bytes : Z) : Z :=
  let buffer_bytes := u32 buffer_bytes in
  if buffer_bytes =? 0 then 0 else
  let subheader_and_sdu := u32 (buffer_bytes + get_mac_subheader_sdu_size buffer_bytes) in
  if lcid =? 0 then subheader_and_sdu else Z.max subheader_and_sdu min_alloc_bytes.

Definition srb0_bytes (u : sched_ue) : Z :=
  let b := get_lch u 0 in
  if (buf_tx b >? 0) || (buf_retx b >? 0) then
    u32 (compute_sdu_total_bytes 0 (buf_retx b) + compute_sdu_total_bytes 0 (buf_tx b))
  else 0.

Definition ce_bytes (u : sched_ue) : Z :=
  fold_left (fun s ce => u32 (s + ce_total_size ce)) (pending_ces u) 0.

Definition rb_bytes (u : sched_ue) : Z :=
  fold_left (fun s i =>
      let b := get_lch u i in
      if bearer_is_dl b then
        u32 (u32 (s + compute_sdu_total_bytes i (buf_retx b)) + compute_sdu_total_bytes i (buf_tx b))
      else s)
    (range 1 5) 0.

(** [*pending_ces.front()] is only read after [empty()] was checked, or when
    some control element contributed bytes. *)
Definition get_requested_dl_bytes (u : sched_ue) (ue_cc_idx : Z) : Z * Z :=
  if negb (bearer_is_dl (get_lch u 0)) then (0, 0) else
  let srb0_data := srb0_bytes u in
  let sum_ce_data := if ue_cc_idx =? 0 then ce_bytes u else 0 in
  let rb_data := rb_bytes u in
  let max_data := u32 (u32 (srb0_data + sum_ce_data) + rb_data) in
  let min_data :=
    match pending_ces u with
    | ce :: _ => if ce =? CON_RES_ID then u32 (srb0_data + ce_total_size ce) else srb0_data
    | [] => srb0_data
    end in
  let min_data :=
    if min_data =? 0 then
      if sum_ce_data >? 0 then
        match pending_ces u with ce :: _ => ce_total_size ce | [] => 0 end
      else if rb_data >? 0 then min_alloc_bytes
      else min_data
    else min_data in
  (min_data, max_data).

(** ** Filling a transport block *)
Definition min_mac_sdu_size : Z := 5.

(** [for (i = 0; i < MAX_LC and alloc_bytes == 0; i++)]: the first logical
    channel with data to (re)transmit, and what it gives. *)
Fixpoint alloc_rlc_pdu_loop (todo : list Z) (u : sched_ue) (rem_tbs : Z) : option (Z * Z * sched_ue) :=
  match todo with
  | [] => None
  | i :: todo' =>
      let b := get_lch u i in
      if buf_retx b >? 0 then
        let alloc_bytes := Z.min (buf_retx b) rem_tbs in
        let u' := set_lch u i (b <| buf_retx := buf_retx b - alloc_bytes |>) in
        if alloc_bytes =? 0 then alloc_rlc_pdu_loop todo' u' rem_tbs else Some (i, alloc_bytes, u')
      else if buf_tx b >? 0 then
        let alloc_bytes := Z.min (buf_tx b) rem_tbs in
        let u' := set_lch u i (b <| buf_tx := buf_tx b - alloc_bytes |>) in
        if alloc_bytes =? 0 then alloc_rlc_pdu_loop todo' u' rem_tbs else Some (i, alloc_bytes, u')
      else alloc_rlc_pdu_loop todo' u rem_tbs
  end.

(** The bytes taken, the element written ([None] when none is) and the user. *)
Definition alloc_rlc_pdu (u : sched_ue) (rem_tbs : Z) : Z * option dl_sched_pdu_t * sched_ue :=
  match alloc_rlc_pdu_loop (range 0 6) u rem_tbs with
  | Some (i, alloc_bytes, u') =>
      (alloc_bytes,
       if alloc_bytes >? 0 then Some (mk_pdu i alloc_bytes) else None, u')
  | None => (0, None, u)
  end.

(** The local [compute_subheader_size] of [allocate_mac_sdus]. *)
Definition compute_subheader_size (sdu_size : Z) : Z := if sdu_size >? 128 then 3 else 2.

(** Returns the remaining bytes, the elements and the user. *)
Fixpoint allocate_mac_sdus_loop (fuel : nat) (u : sched_ue) (pdus : list dl_sched_pdu_t) (rem_tbs : Z) :
    res (Z * list dl_sched_pdu_t * sched_ue) :=
  if rem_tbs <? min_mac_sdu_size then Ok (rem_tbs, pdus, u) else
  match fuel with
  | O => Diverge
  | S f =>
      let max_sdu_bytes := rem_tbs - compute_subheader_size (rem_tbs - 2) in
      let '(alloc_sdu_bytes, pdu, u') := alloc_rlc_pdu u max_sdu_bytes in
      if alloc_sdu_bytes =? 0 then Ok (rem_tbs, pdus, u') else
      pdus' ← push_bounded MAX_RLC_PDU_LIST pdus (default (mk_pdu 0 0) pdu);
      allocate_mac_sdus_loop f u' pdus'
        (u32 (rem_tbs - (alloc_sdu_bytes + compute_subheader_size alloc_sdu_bytes)))
  end.

Definition allocate_mac_sdus (u : sched_ue) (pdus : list dl_sched_pdu_t) (total_tbs : Z) :
    res (Z * list dl_sched_pdu_t * sched_ue) :=
  '(rem_tbs, pdus', u') ← allocate_mac_sdus_loop (Z.to_nat total_tbs) u pdus total_tbs;
  Ok (total_tbs - rem_tbs, pdus', u').

(** [while (not pending_ces.empty())], structural in the queue. *)
Fixpoint allocate_mac_ces_loop (ces : list Z) (pdus : list dl_sched_pdu_t) (rem_tbs : Z) :
    res (Z * list dl_sched_pdu_t * list Z) :=
  match ces with
  | [] => Ok (rem_tbs, pdus, [])
  | ce :: ces' =>
      let toalloc := ce_total_size ce in
      if rem_tbs <? toalloc then Ok (rem_tbs, pdus, ces) else
      pdus' ← push_bounded MAX_RLC_PDU_LIST pdus (mk_pdu ce 0);
      allocate_mac_ces_loop ces' pdus' (rem_tbs - toalloc)
  end.

Definition allocate_mac_ces (u : sched_ue) (pdus : list dl_sched_pdu_t) (total_tbs ue_cc_idx : Z) :
    res (Z * list dl_sched_pdu_t * sched_ue) :=
  if negb (ue_cc_idx =? 0) then Ok (0, pdus, u) else
  '(rem_tbs, pdus', ces) ← allocate_mac_ces_loop (pending_ces u) pdus total_tbs;
  Ok (total_tbs - rem_tbs, pdus', u <| pending_ces := ces |>).

(** ** DCI generation *)
Definition generate_formatN0 (u : sched_ue) (data : ul_sched_data_t) (needs : bool) (explicit_mcs : Z) :
    res (Z * ul_sched_data_t) :=
  mcs ← (if explicit_mcs >=? 0 then Ok explicit_mcs
         else c ← arr_read (carriers u) 0; Ok (c.1));
  let i_ru := 3 in
  tbs ← (if mcs >=? 0 then arr2_read tbs_table_npusch mcs i_ru else Ok 0);
  let data := data <| SchedTypes.needs_npdcch := needs |> <| u_tbs := tbs |> in
  Ok (tbs,
      if tbs >? 0 then
        data <| u_dci := (u_dci data) <| ul_rnti := ue_rnti u |> <| ul_format := 0 |>
                           <| ul_i_mcs := mcs |> <| ul_i_ru := i_ru |> <| ul_i_sc := 18 |> |>
      else data).

(** [for (mcs = 0; mcs < 13; mcs++)]: the first MCS whose block is larger than
    the data, with the block size last read. *)
Fixpoint select_mcs (todo : list Z) (i_sf_ bytes last : Z) : res (option Z * Z) :=
  match todo with
  | [] => Ok (None, last)
  | mcs :: todo' =>
      bits ← arr2_read tbs_table_nbiot mcs i_sf_;
      let tbs_bytes := bits / 8 in
      if tbs_bytes >? bytes then Ok (Some mcs, tbs_bytes)
      else select_mcs todo' i_sf_ bytes tbs_bytes
  end.

(** [SRSLTE_DCI_FORMATN0] is 0 here only as the DCI's own tag; the code leaves
    the fields of [dci->alloc] it does not name as they were. *)
Definition fill_dci_N1 (u : sched_ue) (dci : dl_dci_t) (final_mcs i_sf_ : Z) : dl_dci_t :=
  dci <| mcs_idx := final_mcs |> <| rv_idx := 0 |> <| ndi := true |> <| format := 1 |>
      <| alloc := (alloc dci) <| has_sib1 := false |> <| is_ra := false |> <| rnti := ue_rnti u |>
                    <| i_delay := 0 |> <| RaNbiot.i_sf := i_sf_ |> <| i_rep := 0 |>
                    <| harq_ack := 1 |> <| i_n_start := 0 |> |>.

(** Returns the size in bytes of the block, the filled element, the user. *)
Definition generate_formatN1 (u : sched_ue) (data : dl_sched_data_t) (tti i_sf_ : Z) :
    res (Z * dl_sched_data_t * sched_ue) :=
  let req_bytes := get_requested_dl_bytes u 0 in
  '(sel, tbs_bytes) ← select_mcs (range 0 13) i_sf_ (req_bytes.2) 0;
  let final_mcs := default 12 sel in
  '(n1, pdus1, u1) ← allocate_mac_ces u (d_pdu data) tbs_bytes 0;
  let rem_tbs := tbs_bytes - n1 in
  '(n2, pdus2, u2) ← allocate_mac_sdus u1 pdus1 rem_tbs;
  let data := data <| d_tbs := tbs_bytes |> <| d_pdu := pdus2 |> in
  Ok (tbs_bytes,
      if tbs_bytes >? 0 then data <| d_dci := fill_dci_N1 u (d_dci data) final_mcs i_sf_ |> else data,
      u2).

(** ** Well-formed users *)
Definition lcs : list Z := range 0 6.

Definition wf_bearer (b : ue_bearer_t) : Prop :=
  0 <= buf_tx b < 2 ^ 31 /\ 0 <= buf_retx b < 2 ^ 31.

Definition wf_ue (u : sched_ue) : Prop :=
  length (lch u) = 6%nat /\ forall i, i ∈ lcs -> wf_bearer (get_lch u i).

(** Bytes waiting for logical channel [i]. *)
Definition lc_bytes (u : sched_ue) (i : Z) : Z :=
  buf_tx (get_lch u i) + buf_retx (get_lch u i).

(** Queues with data: a logical channel has one for new data and one for
    retransmissions. *)
Definition lc_queues (u : sched_ue) (i : Z) : Z :=
  Z.b2z (buf_tx (get_lch u i) >? 0) + Z.b2z (buf_retx (get_lch u i) >? 0).
Definition nonempty_queues (u : sched_ue) : Z := zsum (lc_queues u) lcs.

Definition all_empty (u : sched_ue) : Prop := forall i, i ∈ lcs -> lc_bytes u i = 0.

(** Bytes a transport block needs for the data of channel [i]. *)
Definition lc_need (u : sched_ue) (i : Z) : Z :=
  compute_sdu_total_bytes i (buf_retx (get_lch u i)) +
  compute_sdu_total_bytes i (buf_tx (get_lch u i)).
Definition need (u : sched_ue) : Z := zsum (lc_need u) lcs.

(** What the elements of a block occupy, and what they carry of channel [i]. *)
Definition sdu_total (p : dl_sched_pdu_t) : Z :=
  nbytes p + compute_subheader_size (nbytes p).
Definition pdu_bytes (i : Z) (p : dl_sched_pdu_t) : Z :=
  if lcid p =? i then nbytes p else 0.

(** The part of a user the filling of a block leaves alone. *)
Definition same_ctrl (u u' : sched_ue) : Prop :=
  ue_rnti u' = ue_rnti u /\ cfg u' = cfg u /\ sr u' = sr u /\
  carriers u' = carriers u /\ msg_wait_timer u' = msg_wait_timer u /\
  (forall i, b_cfg (get_lch u' i) = b_cfg (get_lch u i)) /\
  (forall i, bsr (get_lch u' i) = bsr (get_lch u i)).

#[global] Arguments need : simpl never.
#[global] Arguments nonempty_queues : simpl never.
#[global] Arguments lcs : simpl never.

Lemma elem_of_lcs i : i ∈ lcs <-> 0 <= i < 6.
Proof. unfold lcs; rewrite elem_of_range; lia. Qed.

Lemma get_set_lch_eq u i b :
  length (lch u) = 6%nat -> i ∈ lcs -> get_lch (set_lch u i b) i = b.
Proof.
  rewrite elem_of_lcs; intros Hl Hi; unfold get_lch, set_lch; cbn.
  erewrite nth_lookup_Some; [done|]. apply list_lookup_insert_eq; lia.
Qed.

Lemma get_set_lch_ne u i j b :
  i ∈ lcs -> j ∈ lcs -> j <> i -> get_lch (set_lch u i b) j = get_lch u j.
Proof.
  rewrite !elem_of_lcs; intros; unfold get_lch, set_lch; cbn.
  rewrite !nth_lookup, list_lookup_insert_ne by lia; done.
Qed.

Lemma length_set_lch u i b : length (lch (set_lch u i b)) = length (lch u).
Proof. cbn. apply length_insert. Qed.

Lemma wf_set_lch u i b : wf_ue u -> i ∈ lcs -> wf_bearer b -> wf_ue (set_lch u i b).
Proof.
  intros [Hl Hb] Hi Hw; split; [by rewrite length_set_lch|].
  intros j Hj; destruct (decide (j = i)) as [->|].
  - by rewrite get_set_lch_eq.
  - rewrite get_set_lch_ne by done; auto.
Qed.

(** Sums over the logical channels after one of them changed. *)
Lemma zsum_lcs_update (f : sched_ue -> Z -> Z) u i b :
  (forall u1 u2 j, get_lch u1 j = get_lch u2 j -> f u1 j = f u2 j) ->
  wf_ue u -> i ∈ lcs ->
  zsum (f (set_lch u i b)) lcs = zsum (f u) lcs - f u i + f (set_lch u i b) i.
Proof.
  intros Hf [Hl _] Hi. apply zsum_update; [apply NoDup_range|done|].
  intros; apply Hf. by apply get_set_lch_ne.
Qed.

Lemma zsum_lcs_nonneg (f : Z -> Z) : (forall i, i ∈ lcs -> 0 <= f i) -> 0 <= zsum f lcs.
Proof. apply zsum_nonneg. Qed.

Lemma csb_spec i b :
  0 <= b < 2 ^ 31 ->
  compute_sdu_total_bytes i b =
    if b =? 0 then 0
    else if i =? 0 then b + compute_subheader_size b
    else Z.max (b + compute_subheader_size b) 5.
Proof.
  intros Hb; unfold compute_sdu_total_bytes, get_mac_subheader_sdu_size,
    compute_subheader_size, min_alloc_bytes.
  rewrite (u32_id b) by lia. destruct (b =? 0); [done|].
  rewrite u32_id by (case_match; lia). done.
Qed.

Lemma lc_bytes_nonneg u i : wf_ue u -> i ∈ lcs -> 0 <= lc_bytes u i.
Proof. intros [_ H] Hi; specialize (H i Hi); unfold wf_bearer, lc_bytes in *; lia. Qed.

Lemma lc_queues_range u i : 0 <= lc_queues u i <= 2.
Proof. unfold lc_queues; do 2 destruct (_ >? _); cbn; lia. Qed.

Lemma lc_need_nonneg u i : wf_ue u -> i ∈ lcs -> 0 <= lc_need u i.
Proof.
  intros [_ H] Hi; specialize (H i Hi) as [Ht Hr]; unfold lc_need.
  rewrite !csb_spec by lia. unfold compute_subheader_size.
  repeat case_match; lia.
Qed.

(** ** [alloc_rlc_pdu] *)

(** One step takes [n] bytes from queue [b] of channel [i], leaving the others
    alone; unless the queue is emptied the whole room is used. *)
Definition takes (u : sched_ue) (rem i n : Z) (u' : sched_ue) : Prop :=
  exists b', u' = set_lch u i b' /\ wf_bearer b' /\
    b_cfg b' = b_cfg (get_lch u i) /\ bsr b' = bsr (get_lch u i) /\
    0 < n <= rem /\
    ((buf_tx b' = buf_tx (get_lch u i) /\ buf_retx b' = buf_retx (get_lch u i) - n /\
      (buf_retx b' = 0 \/ n = rem)) \/
     (buf_retx b' = buf_retx (get_lch u i) /\ buf_tx b' = buf_tx (get_lch u i) - n /\
      (buf_tx b' = 0 \/ n = rem))).

Lemma alloc_rlc_pdu_loop_spec todo u rem :
  wf_ue u -> (forall i, i ∈ todo -> i ∈ lcs) -> 0 < rem ->
  match alloc_rlc_pdu_loop todo u rem with
  | Some (i, n, u') => i ∈ lcs /\ takes u rem i n u'
  | None => forall i, i ∈ todo -> lc_bytes u i = 0
  end.
Proof.
  intros Hwf Hin Hrem; induction todo as [|i todo IH]; cbn [alloc_rlc_pdu_loop].
  { intros i Hi; by apply elem_of_nil in Hi. }
  assert (Hi : i ∈ lcs) by (apply Hin, list_elem_of_here).
  pose proof (proj2 Hwf i Hi) as [Ht Hr].
  destruct (buf_retx (get_lch u i) >? 0) eqn:Er.
  - destruct (Z.eqb_spec (Z.min (buf_retx (get_lch u i)) rem) 0); [lia|].
    split; [done|]. eexists; split; [done|]; cbn; unfold wf_bearer; cbn.
    split_and!; try done; lia.
  - destruct (buf_tx (get_lch u i) >? 0) eqn:Et.
    + destruct (Z.eqb_spec (Z.min (buf_tx (get_lch u i)) rem) 0); [lia|].
      split; [done|]. eexists; split; [done|]; cbn; unfold wf_bearer; cbn.
      split_and!; try done; lia.
    + specialize (IH ltac:(intros; apply Hin; by apply list_elem_of_further)).
      destruct (alloc_rlc_pdu_loop todo u rem) as [[[j n] u']|]; [done|].
      intros j [->|Hj]%elem_of_cons; [unfold lc_bytes; lia|auto].
Qed.

Lemma alloc_rlc_pdu_spec u rem :
  wf_ue u -> 0 < rem ->
  (exists i n u', alloc_rlc_pdu u rem = (n, Some (mk_pdu i n), u') /\
     i ∈ lcs /\ takes u rem i n u') \/
  (alloc_rlc_pdu u rem = (0, None, u) /\ all_empty u).
Proof.
  intros Hwf Hrem; unfold alloc_rlc_pdu.
  pose proof (alloc_rlc_pdu_loop_spec lcs u rem Hwf ltac:(done) Hrem) as H.
  change (range 0 6) with lcs.
  destruct (alloc_rlc_pdu_loop lcs u rem) as [[[i n] u']|].
  - left; exists i, n, u'. destruct H as [Hi Ht]. split; [|done].
    destruct Ht as (?&_&_&_&_&Hn&_). by replace (n >? 0) with true by lia.
  - right; done.
Qed.

Section takes.
Context {u u' : sched_ue} {rem i n : Z}.
Hypothesis Hwf : wf_ue u.
Hypothesis Hi : i ∈ lcs.
Hypothesis Ht : takes u rem i n u'.

Lemma takes_wf : wf_ue u'.
Proof. destruct Ht as (b' & -> & Hb & _). by apply wf_set_lch. Qed.

Lemma takes_n : 0 < n <= rem.
Proof. by destruct Ht as (?&_&_&_&_&?&_). Qed.

Lemma takes_ctrl : same_ctrl u u' /\ pending_ces u' = pending_ces u.
Proof.
  destruct Ht as (b' & -> & _ & Hc & Hb & _).
  assert (Hall : forall j, get_lch (set_lch u i b') j = get_lch u j \/
                           (j = i /\ get_lch (set_lch u i b') j = b') \/
                           (Z.to_nat j = Z.to_nat i /\ j <> i /\
                            get_lch (set_lch u i b') j = b' /\ get_lch u j = get_lch u i)).
  { intros j. apply elem_of_lcs in Hi. unfold get_lch, set_lch; cbn.
    destruct (decide (Z.to_nat j = Z.to_nat i)) as [E|E].
    - rewrite E. erewrite nth_lookup_Some.
      2:{ apply list_lookup_insert_eq. destruct Hwf as [-> _]; lia. }
      destruct (decide (j = i)); [by right; left|right; right; done].
    - left. by rewrite !nth_lookup, list_lookup_insert_ne. }
  unfold same_ctrl; split_and!; try done; intros j;
    destruct (Hall j) as [->|[[-> ->]|(_&_&->&->)]]; done.
Qed.

Lemma takes_bytes j : j ∈ lcs -> lc_bytes u' j + pdu_bytes j (mk_pdu i n) = lc_bytes u j.
Proof.
  intros Hj. destruct Ht as (b' & -> & _ & _ & _ & _ & H).
  unfold lc_bytes, pdu_bytes; cbn [lcid nbytes].
  destruct (Z.eqb_spec i j) as [->|]; destruct Hwf as [Hl _].
  - rewrite get_set_lch_eq by done. lia.
  - rewrite get_set_lch_ne by done. lia.
Qed.

(** Either a queue is emptied or the room is exhausted. *)
Lemma takes_queues :
  nonempty_queues u' + 1 <= nonempty_queues u \/
  (n = rem /\ nonempty_queues u' <= nonempty_queues u).
Proof.
  pose proof (proj2 Hwf i Hi) as [Hbt Hbr]. pose proof takes_n as Hn.
  destruct Ht as (b' & -> & [Hwt Hwr] & _ & _ & _ & H).
  unfold nonempty_queues.
  rewrite zsum_lcs_update; [|intros ??? E; unfold lc_queues; by rewrite E|done..].
  unfold lc_queues. rewrite get_set_lch_eq by (try done; apply Hwf).
  generalize (zsum (fun i => Z.b2z (buf_tx (get_lch u i) >? 0) +
                             Z.b2z (buf_retx (get_lch u i) >? 0)) lcs). intros s.
  destruct H as [(E1 & E2 & [Hz|Hz])|(E1 & E2 & [Hz|Hz])];
    repeat match goal with |- context [?a >? ?b] => destruct (Z.gtb_spec a b) end;
    cbn; lia.
Qed.

(** Emptying a queue frees at least what its SDU costs. *)
Lemma takes_need :
  n < rem -> need u' + (n + compute_subheader_size n) <= need u.
Proof.
  intros Hlt. pose proof (proj2 Hwf i Hi) as [Hbt Hbr]. pose proof takes_n as Hn.
  destruct Ht as (b' & -> & [Hwt Hwr] & _ & _ & _ & H).
  unfold need.
  rewrite zsum_lcs_update; [|intros ??? E; unfold lc_need; by rewrite E|done..].
  unfold lc_need at 2 3. rewrite get_set_lch_eq by (try done; apply Hwf).
  rewrite !csb_spec by lia.
  generalize (zsum (lc_need u) lcs). intros s.
  destruct H as [(E1 & E2 & [Hz|Hz])|(E1 & E2 & [Hz|Hz])]; try lia; rewrite E1, Hz.
  - replace (buf_retx (get_lch u i)) with n by lia. cbn.
    destruct (Z.eqb_spec n 0), (i =? 0); lia.
  - replace (buf_tx (get_lch u i)) with n by lia. cbn.
    destruct (Z.eqb_spec n 0), (i =? 0); lia.
Qed.
End takes.

Lemma same_ctrl_refl u : same_ctrl u u.
Proof. repeat split. Qed.

Lemma same_ctrl_trans u1 u2 u3 : same_ctrl u1 u2 -> same_ctrl u2 u3 -> same_ctrl u1 u3.
Proof. unfold same_ctrl; intros; destruct_and!; split_and!; etrans; eauto. Qed.

(** ** [allocate_mac_sdus] *)

(** What filling [room] bytes with SDUs of [u] achieves: [rem] bytes are left
    over, [new] are the elements added and [u'] is the user afterwards. *)
Record sdus_filled (u : sched_ue) (room rem : Z) (new : list dl_sched_pdu_t) (u' : sched_ue) : Prop :=
  mk_sdus_filled {
    sf_wf : wf_ue u';
    sf_rem : 0 <= rem;
    sf_room : room = rem + zsum sdu_total new;
    sf_bytes : forall j, j ∈ lcs -> lc_bytes u' j + zsum (pdu_bytes j) new = lc_bytes u j;
    sf_ctrl : same_ctrl u u' /\ pending_ces u' = pending_ces u;
    sf_elems : forall p, p ∈ new -> lcid p ∈ lcs /\ 0 < nbytes p;
    sf_mono : nonempty_queues u' <= nonempty_queues u;
    sf_full : rem < min_mac_sdu_size \/ all_empty u'
  }.

Lemma sdus_filled_nil u room :
  wf_ue u -> 0 <= room -> room < min_mac_sdu_size \/ all_empty u -> sdus_filled u room room [] u.
Proof.
  intros; split; cbn; try done; try lia; auto using same_ctrl_refl with lia.
  intros p Hp; by apply elem_of_nil in Hp.
Qed.

Lemma sdus_filled_cons u u1 u' room rem i n new :
  wf_ue u -> i ∈ lcs -> takes u (room - compute_subheader_size (room - 2)) i n u1 ->
  sdus_filled u1 (room - (n + compute_subheader_size n)) rem new u' ->
  sdus_filled u room rem (mk_pdu i n :: new) u'.
Proof.
  intros Hwf Hi Ht [Hw Hr Hroom Hb [Hc Hp] He Hm Hf].
  pose proof (takes_n Ht) as Hn. pose proof (takes_ctrl Hwf Hi Ht) as [Hc1 Hp1].
  split; try done.
  - rewrite zsum_cons; unfold sdu_total at 1; cbn [nbytes]. lia.
  - intros j Hj. rewrite zsum_cons.
    pose proof (takes_bytes Hwf Hi Ht j Hj). specialize (Hb j Hj). lia.
  - split; [by eapply same_ctrl_trans|congruence].
  - intros p [->|Hin]%elem_of_cons; [cbn; split; [done|lia]|auto].
  - destruct (takes_queues Hwf Hi Ht) as [?|[_ ?]]; lia.
Qed.

Lemma nonempty_queues_nonneg u : 0 <= nonempty_queues u.
Proof. apply zsum_nonneg; intros; pose proof (lc_queues_range u a); lia. Qed.

Lemma takes_some_queue u rem i n u' :
  wf_ue u -> i ∈ lcs -> takes u rem i n u' -> 1 <= nonempty_queues u.
Proof.
  intros Hwf Hi (b' & _ & [Hwt Hwr] & _ & _ & Hn & H).
  transitivity (lc_queues u i).
  - unfold lc_queues.
    repeat match goal with |- context [?a >? ?b] => destruct (Z.gtb_spec a b) end; cbn; lia.
  - apply (zsum_elem_le (lc_queues u)); [|done].
    intros; pose proof (lc_queues_range u a); lia.
Qed.

Lemma sdus_loop_stop fuel u pdus rem :
  rem < min_mac_sdu_size -> allocate_mac_sdus_loop fuel u pdus rem = Ok (rem, pdus, u).
Proof.
  intros; destruct fuel; cbn;
    by replace (rem <? min_mac_sdu_size) with true by lia.
Qed.

Lemma subheader_room n room :
  min_mac_sdu_size <= room -> 0 < n <= room - compute_subheader_size (room - 2) ->
  0 <= room - (n + compute_subheader_size n).
Proof. unfold compute_subheader_size, min_mac_sdu_size; repeat case_match; lia. Qed.

Lemma subheader_exhaust room :
  min_mac_sdu_size <= room ->
  let n := room - compute_subheader_size (room - 2) in
  room - (n + compute_subheader_size n) < min_mac_sdu_size.
Proof. unfold compute_subheader_size, min_mac_sdu_size; cbn; repeat case_match; lia. Qed.

Lemma allocate_mac_sdus_loop_spec fuel u pdus room :
  wf_ue u -> 0 <= room < 2 ^ 31 -> room <= Z.of_nat fuel ->
  Z.of_nat (length pdus) + nonempty_queues u <= MAX_RLC_PDU_LIST ->
  exists rem new u',
    allocate_mac_sdus_loop fuel u pdus room = Ok (rem, pdus ++ new, u') /\
    sdus_filled u room rem new u'.
Proof.
  revert u pdus room; induction fuel as [|fuel IH]; intros u pdus room Hwf Hroom Hfuel Hq;
    destruct (decide (room < min_mac_sdu_size)) as [Hlt|Hge].
  1, 3: rewrite sdus_loop_stop by done; exists room, [], u; rewrite app_nil_r;
    split; [done|apply sdus_filled_nil; auto; lia].
  { unfold min_mac_sdu_size in *; lia. }
  cbn [allocate_mac_sdus_loop].
  replace (room <? min_mac_sdu_size) with false by lia.
  set (max_sdu := room - compute_subheader_size (room - 2)).
  assert (0 < max_sdu).
  { unfold max_sdu, compute_subheader_size, min_mac_sdu_size in *; case_match; lia. }
  destruct (alloc_rlc_pdu_spec u max_sdu) as [(i & n & u1 & -> & Hi & Ht)|[-> He]]; [done..| |].
  2:{ cbn. exists room, [], u. rewrite app_nil_r.
      split; [done|apply sdus_filled_nil; auto; lia]. }
  pose proof (takes_n Ht) as Hn. pose proof (takes_some_queue _ _ _ _ _ Hwf Hi Ht).
  replace (n =? 0) with false by lia. cbn [default from_option id].
  unfold push_bounded. replace (_ <? MAX_RLC_PDU_LIST) with true by lia. cbn [mbind res_bind].
  assert (Hrest : 0 <= room - (n + compute_subheader_size n)) by (apply subheader_room; [lia|done]).
  assert (2 <= compute_subheader_size n) by (unfold compute_subheader_size; case_match; lia).
  rewrite u32_id by lia.
  destruct (takes_queues Hwf Hi Ht) as [Hdec|[Hex _]].
  - destruct (IH u1 (pdus ++ [mk_pdu i n]) (room - (n + compute_subheader_size n)))
      as (rem & new & u' & -> & Hf); [by eapply takes_wf|lia|lia|rewrite length_app; cbn [length]; lia|].
    exists rem, (mk_pdu i n :: new), u'. rewrite <- app_assoc. split; [done|].
    by eapply sdus_filled_cons.
  - assert (room - (n + compute_subheader_size n) < min_mac_sdu_size).
    { rewrite Hex. apply subheader_exhaust; lia. }
    rewrite sdus_loop_stop by done.
    eexists _, [mk_pdu i n], u1; split; [done|]. eapply sdus_filled_cons; try done.
    apply sdus_filled_nil; [by eapply takes_wf|done|by left].
Qed.

(** ** Draining: a block larger than what is requested takes everything *)

(** SRB0 is never segmented, and a one-byte SRB0 PDU would not be worth the
    loop's minimum of five bytes. *)
Definition srb0_ok (u : sched_ue) : Prop :=
  buf_tx (get_lch u 0) <> 1 /\ buf_retx (get_lch u 0) <> 1.

Lemma need_small_empty u :
  wf_ue u -> srb0_ok u -> need u < 4 -> all_empty u.
Proof.
  intros Hwf [H0 H0'] Hneed i Hi.
  assert (lc_need u i <= need u) as Hle.
  { apply (zsum_elem_le (lc_need u)); [intros; by apply lc_need_nonneg|done]. }
  pose proof (proj2 Hwf i Hi) as [Ht Hr]. unfold lc_need in Hle.
  rewrite !csb_spec in Hle by lia. unfold lc_bytes. unfold compute_subheader_size in Hle.
  destruct (Z.eqb_spec i 0) as [->|]; repeat case_match; lia.
Qed.

Lemma takes_srb0_ok u rem i n u' :
  wf_ue u -> i ∈ lcs -> takes u rem i n u' -> n < rem -> srb0_ok u -> srb0_ok u'.
Proof.
  intros Hwf Hi Ht Hlt [H0 H0']; pose proof Ht as (b' & -> & _ & _ & _ & _ & H).
  unfold srb0_ok. destruct (decide (i = 0)) as [->|].
  - rewrite get_set_lch_eq by (try done; apply Hwf). lia.
  - rewrite get_set_lch_ne by (try done; by apply elem_of_lcs). done.
Qed.

Lemma takes_drain u room i n u' :
  wf_ue u -> i ∈ lcs -> room <= 128 -> need u < room ->
  takes u (room - 2) i n u' -> n < room - 2 /\ need u' < room - (n + 2).
Proof.
  intros Hwf Hi Hroom Hneed Ht. pose proof (takes_n Ht) as Hn.
  assert (Hlt : n < room - 2).
  { assert (Hle : lc_need u i <= need u).
    { apply (zsum_elem_le (lc_need u)); [intros; by apply lc_need_nonneg|done]. }
    enough (n + 2 <= lc_need u i) by lia.
    destruct Ht as (b' & _ & [Hwt Hwr] & _ & _ & _ & Hk).
    pose proof (proj2 Hwf i Hi) as [Hbt Hbr]. unfold lc_need.
    rewrite !csb_spec by lia. unfold compute_subheader_size. repeat case_match; lia. }
  split; [done|]. pose proof (takes_need Hwf Hi Ht Hlt) as Hd.
  unfold compute_subheader_size in Hd. destruct (Z.gtb_spec n 128); lia.
Qed.

Lemma allocate_mac_sdus_loop_drain fuel u pdus room rem pdus' u' :
  wf_ue u -> srb0_ok u -> 0 <= room <= 128 -> need u < room ->
  allocate_mac_sdus_loop fuel u pdus room = Ok (rem, pdus', u') -> all_empty u'.
Proof.
  revert u pdus room; induction fuel as [|fuel IH]; intros u pdus room Hwf H0 Hroom Hneed;
    (destruct (decide (room < min_mac_sdu_size)) as [Hlt|Hge];
     [rewrite sdus_loop_stop by done; intros [= <- <- <-];
      apply need_small_empty; [done..|unfold min_mac_sdu_size in *; lia]|]);
    cbn [allocate_mac_sdus_loop]; replace (room <? min_mac_sdu_size) with false by lia; [done|].
  unfold min_mac_sdu_size in *.
  replace (compute_subheader_size (room - 2)) with 2
    by (unfold compute_subheader_size; case_match; lia).
  destruct (alloc_rlc_pdu_spec u (room - 2)) as [(i & n & u1 & -> & Hi & Ht)|[-> He]];
    [done|lia| |by intros [= <- <- <-]].
  destruct (takes_drain u room i n u1) as [Hn Hneed']; [done..|lia|done|done|].
  pose proof (takes_n Ht). replace (n =? 0) with false by lia.
  intros Hloop. res_inv Hloop.
  replace (compute_subheader_size n) with 2 in Hloop
    by (unfold compute_subheader_size; destruct (Z.gtb_spec n 128); lia).
  rewrite u32_id in Hloop by lia.
  eapply IH; [by eapply takes_wf|by eapply takes_srb0_ok|..|exact Hloop]; lia.
Qed.

(** ** Control elements *)
Definition ce_pdu (ce : Z) : dl_sched_pdu_t := mk_pdu ce 0.

Lemma zsum_ce_nonneg l : 0 <= zsum ce_total_size l.
Proof. apply zsum_nonneg; intros; pose proof (ce_total_size_range a); lia. Qed.

Lemma allocate_mac_ces_loop_spec ces pdus room :
  0 <= room -> Z.of_nat (length pdus + length ces) <= MAX_RLC_PDU_LIST ->
  exists sent rest,
    ces = sent ++ rest /\
    allocate_mac_ces_loop ces pdus room =
      Ok (room - zsum ce_total_size sent, pdus ++ (ce_pdu <$> sent), rest) /\
    0 <= room - zsum ce_total_size sent /\
    match rest with
    | [] => True
    | ce :: _ => room - zsum ce_total_size sent < ce_total_size ce
    end.
Proof.
  revert pdus room; induction ces as [|ce ces IH]; intros pdus room Hroom Hlen.
  { exists [], []. cbn. rewrite app_nil_r, Z.sub_0_r. done. }
  cbn [allocate_mac_ces_loop]. destruct (Z.ltb_spec room (ce_total_size ce)).
  { exists [], (ce :: ces). cbn. rewrite app_nil_r, Z.sub_0_r. done. }
  pose proof (ce_total_size_range ce). cbn [length] in Hlen.
  unfold push_bounded. replace (_ <? MAX_RLC_PDU_LIST) with true by lia. cbn [mbind res_bind].
  destruct (IH (pdus ++ [mk_pdu ce 0]) (room - ce_total_size ce))
    as (sent & rest & -> & -> & Hr & Hrest);
    [lia|rewrite length_app; cbn [length]; lia|].
  exists (ce :: sent), rest. rewrite zsum_cons, fmap_cons, <- app_assoc.
  replace (room - (ce_total_size ce + zsum ce_total_size sent))
    with (room - ce_total_size ce - zsum ce_total_size sent) by lia. done.
Qed.

(** ** What a user asks for *)

(** The request fits 32 bits, so none of the sums below wraps. *)
Definition small_ue (u : sched_ue) : Prop :=
  wf_ue u /\ need u + zsum ce_total_size (pending_ces u) < 2 ^ 32.

(** Only bearers that are configured for the downlink hold data. *)
Definition dl_only (u : sched_ue) : Prop :=
  bearer_is_dl (get_lch u 0) = true /\
  forall i, i ∈ lcs -> bearer_is_dl (get_lch u i) = false -> lc_bytes u i = 0.

Definition dl_need (u : sched_ue) (i : Z) : Z :=
  if bearer_is_dl (get_lch u i) then lc_need u i else 0.

Lemma lcs_cons : lcs = 0 :: range 1 5.
Proof. reflexivity. Qed.

Lemma elem_of_rbs i : i ∈ range 1 5 -> i ∈ lcs.
Proof. rewrite elem_of_lcs, elem_of_range; lia. Qed.

Lemma rbs_need u : wf_ue u -> 0 <= zsum (dl_need u) (range 1 5) <= zsum (lc_need u) (range 1 5).
Proof.
  intros Hwf. split.
  - apply zsum_nonneg; intros i Hi%elem_of_rbs; pose proof (lc_need_nonneg u i Hwf Hi).
    unfold dl_need; case_match; lia.
  - generalize (elem_of_rbs). generalize (range 1 5); intros l Hl.
    induction l as [|i l IH]; [done|]. rewrite !zsum_cons.
    pose proof (lc_need_nonneg u i Hwf ltac:(apply Hl, list_elem_of_here)).
    assert (zsum (dl_need u) l <= zsum (lc_need u) l).
    { apply IH; intros; apply Hl; by apply list_elem_of_further. }
    unfold dl_need at 1; case_match; lia.
Qed.

Lemma srb0_bytes_eq u : small_ue u -> srb0_bytes u = lc_need u 0.
Proof.
  intros [Hwf Hs]. pose proof (proj2 Hwf 0 ltac:(by apply elem_of_lcs)) as [Ht Hr].
  pose proof (rbs_need u Hwf). pose proof (zsum_ce_nonneg (pending_ces u)).
  unfold need in Hs; rewrite lcs_cons, zsum_cons in Hs.
  pose proof (lc_need_nonneg u 0 Hwf ltac:(by apply elem_of_lcs)).
  unfold srb0_bytes. fold (lc_need u 0). rewrite u32_id by lia.
  destruct ((buf_tx (get_lch u 0) >? 0) || (buf_retx (get_lch u 0) >? 0)) eqn:E; [done|].
  unfold lc_need. rewrite !csb_spec by lia. repeat case_match; lia.
Qed.

Lemma ce_bytes_eq u : small_ue u -> ce_bytes u = zsum ce_total_size (pending_ces u).
Proof.
  intros [Hwf Hs]. unfold ce_bytes. rewrite (fold_u32_sum ce_total_size); [lia|done| |lia|].
  - intros ce _; pose proof (ce_total_size_range ce); lia.
  - assert (0 <= need u) by (apply zsum_nonneg; intros; by apply lc_need_nonneg). lia.
Qed.

Lemma rb_bytes_eq u : small_ue u -> rb_bytes u = zsum (dl_need u) (range 1 5).
Proof.
  intros [Hwf Hs]. unfold rb_bytes.
  pose proof (rbs_need u Hwf) as Hn. pose proof (zsum_ce_nonneg (pending_ces u)).
  unfold need in Hs; rewrite lcs_cons, zsum_cons in Hs.
  pose proof (lc_need_nonneg u 0 Hwf ltac:(by apply elem_of_lcs)).
  assert (Hstep : forall l s, (forall i, i ∈ l -> i ∈ lcs) ->
    0 <= s -> s + zsum (dl_need u) l < 2 ^ 32 ->
    fold_left (fun s i => let b := get_lch u i in
      if bearer_is_dl b then
        u32 (u32 (s + compute_sdu_total_bytes i (buf_retx b)) + compute_sdu_total_bytes i (buf_tx b))
      else s) l s = s + zsum (dl_need u) l).
  { induction l as [|i l IH]; intros s Hl Hs0 Hb; [cbn; lia|].
    cbn [fold_left]. rewrite zsum_cons in *.
    pose proof (lc_need_nonneg u i Hwf ltac:(apply Hl, list_elem_of_here)).
    assert (Hl' : forall j, j ∈ l -> j ∈ lcs) by (intros; apply Hl; by apply list_elem_of_further).
    assert (0 <= zsum (dl_need u) l).
    { apply zsum_nonneg; intros j Hj; pose proof (lc_need_nonneg u j Hwf (Hl' j Hj)).
      unfold dl_need; case_match; lia. }
    assert (Hd : dl_need u i = if bearer_is_dl (get_lch u i) then lc_need u i else 0) by done.
    rewrite Hd in *; cbn zeta.
    destruct (bearer_is_dl (get_lch u i)); [|rewrite IH by (done || lia); lia].
    rewrite u32_add_l, <- Z.add_assoc. fold (lc_need u i).
    rewrite u32_id by lia. rewrite IH by (done || lia). lia. }
  rewrite Hstep; [lia|apply elem_of_rbs|lia|lia].
Qed.

(** The upper boundary of the request, without wrap-around. *)
Lemma requested_max u :
  small_ue u -> bearer_is_dl (get_lch u 0) = true ->
  (get_requested_dl_bytes u 0).2 =
    zsum ce_total_size (pending_ces u) + zsum (dl_need u) lcs.
Proof.
  intros Hu Hdl. pose proof Hu as [Hwf Hs].
  unfold get_requested_dl_bytes. rewrite Hdl. cbn [negb snd].
  rewrite Z.eqb_refl, srb0_bytes_eq, ce_bytes_eq, rb_bytes_eq by done.
  pose proof (rbs_need u Hwf). pose proof (zsum_ce_nonneg (pending_ces u)).
  pose proof (lc_need_nonneg u 0 Hwf ltac:(by apply elem_of_lcs)).
  unfold need in Hs. rewrite lcs_cons, zsum_cons in *.
  assert (Hd : dl_need u 0 = lc_need u 0) by (unfold dl_need; by rewrite Hdl).
  rewrite Hd, u32_add_l, u32_id; lia.
Qed.

Lemma dl_only_need u : wf_ue u -> dl_only u -> zsum (dl_need u) lcs = need u.
Proof.
  intros Hwf [_ Hd]. apply zsum_ext; intros i Hi. unfold dl_need.
  destruct (bearer_is_dl (get_lch u i)) eqn:E; [done|].
  specialize (Hd i Hi E). pose proof (proj2 Hwf i Hi) as [Ht Hr].
  unfold lc_bytes in Hd. unfold lc_need. rewrite !csb_spec by lia.
  repeat case_match; lia.
Qed.

(** ** MCS selection *)

(** The largest block of [i_sf], the one of MCS 12. *)
Definition max_block (i_sf_ : Z) : Z :=
  match arr2_read tbs_table_nbiot 12 i_sf_ with Ok b => b / 8 | _ => 0 end.

(** The block of MCS [m] has [tbs] bytes. *)
Definition block_is (m i_sf_ tbs : Z) : Prop :=
  arr2_read tbs_table_nbiot m i_sf_ = Ok (8 * tbs).

(** The columns the scheduler uses have no empty entry. *)
Lemma tbs_table_entries m i :
  0 <= m <= 12 -> 0 <= i <= 2 -> exists tbs, block_is m i tbs /\ 0 < tbs <= 85.
Proof.
  intros Hm Hi.
  assert (Hall : forallb (fun m => forallb (fun i =>
      match arr2_read tbs_table_nbiot m i with
      | Ok b => (b mod 8 =? 0) && (0 <? b / 8) && (b / 8 <=? 85)
      | _ => false end) (range 0 3)) (range 0 13) = true) by reflexivity.
  rewrite forallb_forall in Hall.
  specialize (Hall m ltac:(apply list_elem_of_In, elem_of_range; lia)).
  rewrite forallb_forall in Hall.
  specialize (Hall i ltac:(apply list_elem_of_In, elem_of_range; lia)).
  unfold block_is. destruct (arr2_read tbs_table_nbiot m i) as [b| |]; [|done..].
  exists (b / 8). split; [f_equal; dlia|lia].
Qed.

Lemma select_mcs_first lo n i bytes last :
  0 <= lo -> lo + Z.of_nat n = 13 -> 0 <= i <= 2 ->
  exists sel tbs, select_mcs (range lo n) i bytes last = Ok (sel, tbs) /\
    match sel with
    | Some m => lo <= m <= 12 /\ block_is m i tbs /\ bytes < tbs /\
        (forall m' t, lo <= m' < m -> block_is m' i t -> t <= bytes)
    | None => (n = O \/ block_is 12 i tbs) /\ (n = O -> tbs = last) /\
        (forall m' t, lo <= m' <= 12 -> block_is m' i t -> t <= bytes)
    end.
Proof.
  revert lo last; induction n as [|n IH]; intros lo last Hlo Hn Hi.
  { exists None, last. split_and!; try done; [by left|lia]. }
  rewrite range_S; cbn [select_mcs].
  destruct (tbs_table_entries lo i) as (t & Ht & Hpos); [lia..|].
  unfold block_is in Ht; rewrite Ht; cbn [mbind res_bind].
  replace (8 * t / 8) with t by dlia.
  destruct (Z.gtb_spec t bytes).
  - exists (Some lo), t. split_and!; try done; lia.
  - destruct (IH (lo + 1) t) as (sel & tbs & -> & Hsel); [lia..|].
    assert (Hlo' : forall t', block_is lo i t' -> t' <= bytes).
    { unfold block_is; intros t' E; rewrite Ht in E; injection E; lia. }
    exists sel, tbs; split; [done|]. destruct sel as [m|].
    + destruct Hsel as (Hm & Hb & Hlt & Hmin). split_and!; try done; try lia.
      intros m' t' Hm'. assert (m' = lo \/ lo + 1 <= m') as [->|] by lia; [auto|apply Hmin; lia].
    + destruct Hsel as ([->|Hb] & Hz & Hmin).
      * split_and!; [|done|].
        { right. rewrite (Hz eq_refl). by replace 12 with lo by lia. }
        intros m' t' Hm'. replace m' with lo by lia. auto.
      * split_and!; [by right|done|].
        intros m' t' Hm'. assert (m' = lo \/ lo + 1 <= m') as [->|] by lia; [auto|apply Hmin; lia].
Qed.

(** The MCS the code settles on: the first whose block exceeds the request,
    MCS 12 when none does. *)
Lemma select_mcs_spec i bytes :
  0 <= i <= 2 ->
  exists sel tbs, select_mcs (range 0 13) i bytes 0 = Ok (sel, tbs) /\
    0 <= default 12 sel <= 12 /\ block_is (default 12 sel) i tbs /\ 0 < tbs <= 85 /\
    (bytes < tbs \/ (default 12 sel = 12 /\ max_block i <= bytes)) /\
    (forall m t, 0 <= m < default 12 sel -> block_is m i t -> t <= bytes).
Proof.
  intros Hi. destruct (select_mcs_first 0 13 i bytes 0) as (sel & tbs & -> & Hsel); [lia..|].
  exists sel, tbs. split; [done|].
  assert (Hr : forall m, 0 <= m <= 12 -> block_is m i tbs -> 0 < tbs <= 85).
  { intros m Hm Hb. destruct (tbs_table_entries m i) as (t & Ht & Hpos); [lia..|].
    unfold block_is in *. rewrite Ht in Hb. injection Hb; lia. }
  destruct sel as [m|]; cbn [default from_option id].
  - destruct Hsel as (Hm & Hb & Hlt & Hmin). pose proof (Hr m Hm Hb).
    split_and!; try done; try lia.
  - destruct Hsel as ([?|Hb] & _ & Hmin); [done|].
    pose proof (Hr 12 ltac:(lia) Hb). split_and!; try done; try lia.
    + right; split; [done|]. unfold max_block. unfold block_is in Hb; rewrite Hb.
      replace (8 * tbs / 8) with tbs by dlia. eapply Hmin; [|exact Hb]; lia.
    + intros; eapply Hmin; [|done]; lia.
Qed.

(** ** [generate_formatN1] *)

(** Room in the block's element list for everything the user may get. *)
Definition pdus_fit (u : sched_ue) : Prop :=
  Z.of_nat (length (pending_ces u)) + nonempty_queues u <= MAX_RLC_PDU_LIST.

Record block_filled (u : sched_ue) (i_sf_ tbs : Z) (data : dl_sched_data_t) (u' : sched_ue)
    (sent : list Z) (new : list dl_sched_pdu_t) : Prop := mk_block_filled {
  bf_wf : wf_ue u';
  bf_tbs : d_tbs data = tbs /\ 0 < tbs <= 85;
  bf_dci : block_is (mcs_idx (d_dci data)) i_sf_ tbs /\ 0 <= mcs_idx (d_dci data) <= 12 /\
           RaNbiot.i_sf (alloc (d_dci data)) = i_sf_ /\
           rnti (alloc (d_dci data)) = ue_rnti u /\ has_sib1 (alloc (d_dci data)) = false /\
           format (d_dci data) = 1 /\ i_delay (alloc (d_dci data)) = 0 /\
           i_rep (alloc (d_dci data)) = 0;
  bf_mcs : (get_requested_dl_bytes u 0).2 < tbs \/
           (mcs_idx (d_dci data) = 12 /\ max_block i_sf_ <= (get_requested_dl_bytes u 0).2);
  bf_mcs_min : forall m t, 0 <= m < mcs_idx (d_dci data) -> block_is m i_sf_ t ->
                 t <= (get_requested_dl_bytes u 0).2;
  bf_ces : pending_ces u = sent ++ pending_ces u' /\
           (zsum ce_total_size (pending_ces u) <= tbs -> pending_ces u' = []);
  bf_pdu : d_pdu data = (ce_pdu <$> sent) ++ new;
  bf_room : zsum ce_total_size sent + zsum sdu_total new <= tbs;
  bf_bytes : forall j, j ∈ lcs -> lc_bytes u' j + zsum (pdu_bytes j) new = lc_bytes u j;
  bf_elems : forall p, p ∈ new -> lcid p ∈ lcs /\ 0 < nbytes p;
  bf_ctrl : same_ctrl u u';
  bf_fit : pdus_fit u -> pdus_fit u';
  bf_drain : srb0_ok u -> need u + zsum ce_total_size (pending_ces u) < tbs -> all_empty u'
}.

Lemma wf_set_ces u l : wf_ue u -> wf_ue (u <| pending_ces := l |>).
Proof. done. Qed.

Lemma allocate_mac_ces_spec u pdus room :
  0 <= room -> Z.of_nat (length pdus + length (pending_ces u)) <= MAX_RLC_PDU_LIST ->
  exists sent rest,
    pending_ces u = sent ++ rest /\
    allocate_mac_ces u pdus room 0 =
      Ok (zsum ce_total_size sent, pdus ++ (ce_pdu <$> sent), u <| pending_ces := rest |>) /\
    0 <= zsum ce_total_size sent <= room /\
    (zsum ce_total_size (pending_ces u) <= room -> rest = []).
Proof.
  intros Hroom Hlen. unfold allocate_mac_ces. cbn [negb Z.eqb].
  destruct (allocate_mac_ces_loop_spec (pending_ces u) pdus room)
    as (sent & rest & E & -> & Hr & Hrest); [lia|done|].
  cbn [mbind res_bind]. exists sent, rest.
  pose proof (zsum_ce_nonneg sent). split_and!; try done; try lia.
  - do 3 f_equal; lia.
  - rewrite E, zsum_app. destruct rest as [|ce rest]; [done|].
    rewrite zsum_cons. pose proof (zsum_ce_nonneg rest). lia.
Qed.

Lemma generate_formatN1_filled u data tti i_sf_ :
  wf_ue u -> pdus_fit u -> d_pdu data = [] -> 0 <= i_sf_ <= 2 ->
  exists tbs data' u' sent new,
    generate_formatN1 u data tti i_sf_ = Ok (tbs, data', u') /\
    block_filled u i_sf_ tbs data' u' sent new.
Proof.
  intros Hwf Hfit Hd Hi. unfold generate_formatN1.
  destruct (select_mcs_spec i_sf_ (get_requested_dl_bytes u 0).2 Hi)
    as (sel & tbs & -> & Hm & Hb & Hpos & Hreq & Hmin).
  cbn [mbind res_bind]. unfold pdus_fit in Hfit. pose proof (nonempty_queues_nonneg u).
  destruct (allocate_mac_ces_spec u (d_pdu data) tbs) as (sent & rest & Ec & -> & Hn & Hall);
    [lia|rewrite Hd; cbn [length]; lia|].
  cbn [mbind res_bind]. rewrite Hd, app_nil_l. set (u1 := u <| pending_ces := rest |>).
  unfold allocate_mac_sdus.
  assert (Hlen : Z.of_nat (length sent) <= Z.of_nat (length (pending_ces u)))
    by (rewrite Ec, length_app; lia).
  destruct (allocate_mac_sdus_loop_spec (Z.to_nat (tbs - zsum ce_total_size sent)) u1
              (ce_pdu <$> sent) (tbs - zsum ce_total_size sent))
    as (rem & new & u' & Eloop & Hf);
    [done|lia|lia|rewrite length_fmap; change (nonempty_queues u1) with (nonempty_queues u); lia|].
  rewrite Eloop. cbn [mbind res_bind].
  replace (tbs >? 0) with true by lia.
  destruct Hf as [Hw Hr0 Hroom Hbytes [Hc Hp] He Hmono Hfull].
  eexists tbs, _, u', sent, new. split; [done|].
  split; cbn; try done; try lia.
  - split; [|intros Hz; rewrite Hp; by apply Hall].
    rewrite Hp. done.
  - intros _. unfold pdus_fit. rewrite Hp. change (nonempty_queues u1) with (nonempty_queues u) in Hmono.
    rewrite Ec, length_app in Hfit. change (pending_ces u1) with rest. lia.
  - intros H0 Hneed. eapply (allocate_mac_sdus_loop_drain _ u1); [..|exact Eloop];
      [done|done|lia|]. change (need u1) with (need u).
    pose proof (zsum_ce_nonneg rest). rewrite Ec, zsum_app in Hneed. lia.
Qed.

(** ** Operations that leave the downlink queues alone *)
Definition same_queues (u u' : sched_ue) : Prop :=
  length (lch u') = length (lch u) /\ pending_ces u' = pending_ces u /\ ue_rnti u' = ue_rnti u /\
  forall i, i ∈ lcs -> buf_tx (get_lch u' i) = buf_tx (get_lch u i) /\
                       buf_retx (get_lch u' i) = buf_retx (get_lch u i).

Lemma same_queues_ok u u' :
  same_queues u u' -> wf_ue u -> pdus_fit u -> wf_ue u' /\ pdus_fit u'.
Proof.
  intros (Hl & Hp & _ & Hq) [Hlen Hb] Hf. split.
  - split; [congruence|]. intros i Hi. destruct (Hq i Hi) as [E1 E2].
    unfold wf_bearer. rewrite E1, E2. by apply Hb.
  - unfold pdus_fit in *. rewrite Hp. enough (nonempty_queues u' = nonempty_queues u) as -> by done.
    apply zsum_ext. intros i Hi. destruct (Hq i Hi) as [E1 E2]. unfold lc_queues. by rewrite E1, E2.
Qed.

Lemma same_queues_refl u : same_queues u u.
Proof. by split_and!. Qed.

Lemma same_queues_trans u1 u2 u3 : same_queues u1 u2 -> same_queues u2 u3 -> same_queues u1 u3.
Proof.
  intros (?&?&?&Hq1) (?&?&?&Hq2). split_and!; try congruence.
  intros i Hi. destruct (Hq1 i Hi), (Hq2 i Hi). split; congruence.
Qed.

Lemma ul_buffer_state_queues u lc_id b v : length (lch u) = 6%nat -> same_queues u (ul_buffer_state u lc_id b v).
Proof.
  intros Hl. unfold ul_buffer_state. pose proof (u8_range lc_id).
  destruct (Z.ltb_spec (u8 lc_id) MAX_LC) as [Hlt|]; [|by split_and!].
  unfold MAX_LC in Hlt. assert (Hi0 : u8 lc_id ∈ lcs) by (apply elem_of_lcs; lia).
  split_and!; try done; [by rewrite length_set_lch|].
  intros i Hi. destruct (decide (i = u8 lc_id)) as [->|].
  - by rewrite get_set_lch_eq.
  - by rewrite get_set_lch_ne.
Qed.

Lemma ul_wait_timer_queues u t v : same_queues u (ul_wait_timer u t v).
Proof. by split_and!. Qed.

(** ** Properties *)

(** C8. Filling a downlink block, for a user whose pending control elements and
    non-empty queues are at most eight.  It never goes past its element array,
    takes from the queues exactly what it puts in the block and never exceeds it;
    and the receiver that converts the DCI into a grant, at any subframe, finds
    exactly the block size that was filled, over [i_sf + 1] subframes.  With a ninth
    element that fits, the array is overrun ([allocate_mac_ces_overflow]). *)
Theorem generate_formatN1_sound u data tti i_sf_ sfn sf_idx r_max :
  wf_ue u -> pdus_fit u -> d_pdu data = [] -> 0 <= i_sf_ <= 2 ->
  exists tbs data' u' sent new g,
    generate_formatN1 u data tti i_sf_ = Ok (tbs, data', u') /\
    srslte_ra_nbiot_dl_dci_to_grant (d_dci data') sfn sf_idx r_max false = Ok (Some g) /\
    dg_tbs g = 8 * tbs /\ dg_nof_sf g = i_sf_ + 1 /\ dg_nof_rep g = 1 /\
    d_pdu data' = (ce_pdu <$> sent) ++ new /\
    pending_ces u = sent ++ pending_ces u' /\
    zsum ce_total_size sent + zsum sdu_total new <= tbs /\
    (forall j, j ∈ lcs -> lc_bytes u' j + zsum (pdu_bytes j) new = lc_bytes u j) /\
    (forall m t, 0 <= m < mcs_idx (d_dci data') -> block_is m i_sf_ t ->
       t <= (get_requested_dl_bytes u 0).2).
Proof.
  intros Hwf Hfit Hd Hi.
  destruct (generate_formatN1_filled u data tti i_sf_ Hwf Hfit Hd Hi)
    as (tbs & data' & u' & sent & new & -> & Hf).
  destruct Hf as [_ [_ Ht] Hdci _ Hmin [Hce _] Hpdu Hroom Hbytes _ _ _ _].
  destruct Hdci as (Hb & Hm & Hsf & _ & Hs & _ & Hdl & Hrep).
  assert (Hg : exists g, srslte_ra_nbiot_dl_dci_to_grant (d_dci data') sfn sf_idx r_max false
            = Ok (Some g) /\ dg_tbs g = 8 * tbs /\ dg_nof_sf g = i_sf_ + 1 /\ dg_nof_rep g = 1).
  { apply dl_dci_to_grant_N1; [done..|lia|lia|lia|exact Hb]. }
  destruct Hg as (g & Hg). exists tbs, data', u', sent, new, g. destruct_and!. done.
Qed.

(** When the largest block exceeds the request, one block serves it all:
    every downlink queue and the control-element queue end up empty. *)
Theorem generate_formatN1_drains u data tti i_sf_ :
  small_ue u -> dl_only u -> srb0_ok u -> pdus_fit u -> d_pdu data = [] -> 0 <= i_sf_ <= 2 ->
  (get_requested_dl_bytes u 0).2 < max_block i_sf_ ->
  exists tbs data' u',
    generate_formatN1 u data tti i_sf_ = Ok (tbs, data', u') /\
    pending_ces u' = [] /\ all_empty u' /\ get_requested_dl_bytes u' 0 = (0, 0).
Proof.
  intros Hs Hdl H0 Hfit Hd Hi Hreq. pose proof Hs as [Hwf _].
  destruct (generate_formatN1_filled u data tti i_sf_ Hwf Hfit Hd Hi)
    as (tbs & data' & u' & sent & new & -> & Hf).
  exists tbs, data', u'. split; [done|].
  destruct (bf_mcs _ _ _ _ _ _ _ Hf) as [Hlt|[_ ?]]; [|lia].
  rewrite requested_max in Hlt by (done || apply Hdl). rewrite dl_only_need in Hlt by done.
  assert (0 <= need u) by (apply zsum_nonneg; intros; by apply lc_need_nonneg).
  assert (Hc : pending_ces u' = []) by (eapply bf_ces; [done|lia]).
  assert (He : all_empty u') by (eapply bf_drain; [done..|lia]).
  split_and!; [done..|].
  destruct (bf_ctrl _ _ _ _ _ _ _ Hf) as (_ & _ & _ & _ & _ & Hcfg & _).
  pose proof (bf_wf _ _ _ _ _ _ _ Hf) as Hwf'.
  assert (Hz : forall i, i ∈ lcs -> lc_need u' i = 0).
  { intros i Hin. pose proof (proj2 Hwf' i Hin) as [Ht Hr]. specialize (He i Hin).
    unfold lc_bytes in He. unfold lc_need. rewrite !csb_spec by lia.
    repeat case_match; lia. }
  assert (Hz' : need u' = 0).
  { unfold need. rewrite (zsum_ext _ (fun _ => 0) _ Hz). reflexivity. }
  assert (Hs' : small_ue u') by (split; [done|rewrite Hz', Hc; cbn; lia]).
  unfold get_requested_dl_bytes. unfold bearer_is_dl. rewrite Hcfg.
  fold (bearer_is_dl (get_lch u 0)). rewrite (proj1 Hdl); cbn [negb Z.eqb].
  rewrite srb0_bytes_eq, ce_bytes_eq, rb_bytes_eq, Hc, Hz by (done || by apply elem_of_lcs).
  assert (zsum (dl_need u') (range 1 5) = 0) as ->.
  { rewrite (zsum_ext _ (fun _ => 0)); [reflexivity|].
    intros i Hin%elem_of_rbs. unfold dl_need. rewrite Hz by done. by case_match. }
  reflexivity.
Qed.

(** The request is an interval, and its lower bound is positive exactly when
    its upper bound is: a user with something to send is never passed over. *)
Lemma requested_dl_bytes_interval u :
  small_ue u ->
  let '(mn, mx) := get_requested_dl_bytes u 0 in
  0 <= mn <= mx /\ (mn = 0 <-> mx = 0).
Proof.
  intros Hs. pose proof Hs as [Hwf Hb]. unfold get_requested_dl_bytes.
  destruct (negb _); [done|]. rewrite Z.eqb_refl.
  rewrite srb0_bytes_eq, ce_bytes_eq, rb_bytes_eq by done.
  pose proof (rbs_need u Hwf) as Hrb. pose proof (zsum_ce_nonneg (pending_ces u)).
  pose proof (lc_need_nonneg u 0 Hwf ltac:(by apply elem_of_lcs)).
  unfold need in Hb; rewrite lcs_cons, zsum_cons in Hb.
  assert (Hz : forall j, 0 <= zsum (dl_need u) (range 1 5) -> zsum (dl_need u) (range 1 5) > 0 ->
    j = 0 -> 5 <= zsum (dl_need u) (range 1 5)).
  { intros _ _ Hpos _.
    enough (forall l, (forall i, i ∈ l -> i ∈ lcs /\ i <> 0) -> zsum (dl_need u) l = 0 \/ 5 <= zsum (dl_need u) l) as Hall.
    { destruct (Hall (range 1 5)); [|lia|lia].
      intros i Hi; split; [by apply elem_of_rbs|]. apply elem_of_range in Hi; lia. }
    induction l as [|i l IH]; intros Hl; [by left|]. rewrite zsum_cons.
    destruct (Hl i (list_elem_of_here _ _)) as [Hi Hi0].
    pose proof (proj2 Hwf i Hi) as [Ht Hr].
    assert (dl_need u i = 0 \/ 5 <= dl_need u i).
    { unfold dl_need; case_match; [|by left]. unfold lc_need. rewrite !csb_spec by lia.
      replace (i =? 0) with false by lia. repeat case_match; lia. }
    destruct IH; [intros; apply Hl; by apply list_elem_of_further|lia|lia]. }
  specialize (Hz 0). rewrite u32_add_l, u32_id by lia.
  destruct (pending_ces u) as [|ce ces] eqn:Ec; cbn [zsum foldr] in *.
  - repeat case_match; unfold min_alloc_bytes in *; lia.
  - pose proof (ce_total_size_range ce). pose proof (zsum_ce_nonneg ces).
    fold (zsum ce_total_size ces) in *.
    rewrite !u32_id by lia. repeat case_match; unfold min_alloc_bytes in *; lia.
Qed.

(** The element array of a block has eight entries and nothing stops a ninth
    control element: with nine that fit, the write goes out of bounds. *)
Theorem allocate_mac_ces_overflow u l1 l2 total :
  pending_ces u = l1 ++ l2 -> length l1 = 9%nat -> zsum ce_total_size l1 <= total ->
  allocate_mac_ces u [] total 0 = UB OobWrite.
Proof.
  intros Hp Hl Ht. unfold allocate_mac_ces. rewrite Hp. cbn [negb Z.eqb].
  enough (forall l pdus room, (length pdus <= 8)%nat -> (length pdus + length l = 9)%nat ->
    zsum ce_total_size l <= room -> allocate_mac_ces_loop (l ++ l2) pdus room = UB OobWrite) as H.
  { rewrite H; [done|cbn; lia|cbn; lia|done]. }
  induction l as [|ce l IH]; intros pdus room H8 H9 Hr; [cbn in H9; lia|].
  rewrite zsum_cons in Hr. pose proof (zsum_ce_nonneg l). cbn [app allocate_mac_ces_loop].
  replace (room <? ce_total_size ce) with false by lia.
  unfold push_bounded. cbn [length] in H9.
  destruct (Z.ltb_spec (Z.of_nat (length pdus)) MAX_RLC_PDU_LIST) as [Hlt|]; [|done].
  unfold MAX_RLC_PDU_LIST in Hlt. cbn [mbind res_bind].
  apply IH; [rewrite length_app; cbn; lia|rewrite length_app; cbn; lia|lia].
Qed.

(** ** A concrete user: SRB0 with a 20-byte RRC Setup behind a contention
    resolution element, and six bytes on logical channel 3. *)
Definition both_cfg : ue_bearer_cfg_t := ue_bearer_cfg_zero <| direction := BOTH |>.

Definition demo_ue : sched_ue :=
  let u := set_cfg (sched_ue_init sched_ue_new 4097)
             (ue_cfg_zero <| ue_bearers := replicate 6 both_cfg |>) in
  let u := mac_buffer_state u CON_RES_ID 1 in
  let u := dl_buffer_state u 0 20 0 in
  dl_buffer_state u 3 6 0.

Ltac each_lc :=
  let i := fresh "i" in let Hi := fresh "Hi" in
  intros i Hi; apply elem_of_lcs in Hi;
  assert (i = 0 \/ i = 1 \/ i = 2 \/ i = 3 \/ i = 4 \/ i = 5) as Hi' by lia;
  destruct Hi' as [->|[->|[->|[->|[->| ->]]]]].

Lemma demo_ue_wf : wf_ue demo_ue.
Proof. split; [reflexivity|each_lc; split; vm_compute; by split]. Qed.

Lemma demo_ue_small : small_ue demo_ue.
Proof. split; [apply demo_ue_wf|vm_compute; done]. Qed.

Lemma demo_ue_dl_only : dl_only demo_ue.
Proof. split; [reflexivity|each_lc; vm_compute; done]. Qed.

Lemma generate_formatN1_sound_witness :
  exists tbs data' u' sent new g,
    generate_formatN1 demo_ue dl_sched_data_zero 10 2 = Ok (tbs, data', u') /\
    srslte_ra_nbiot_dl_dci_to_grant (d_dci data') 1 0 64 false = Ok (Some g) /\
    dg_tbs g = 8 * tbs /\ d_pdu data' = (ce_pdu <$> sent) ++ new.
Proof.
  destruct (generate_formatN1_sound demo_ue dl_sched_data_zero 10 2 1 0 64)
    as (tbs & data' & u' & sent & new & g & H1 & H2 & H3 & _ & _ & H4 & _);
    [apply demo_ue_wf|vm_compute; done|reflexivity|lia|].
  exists tbs, data', u', sent, new, g. split_and!; assumption.
Defined.

Lemma generate_formatN1_drains_witness :
  exists tbs data' u',
    generate_formatN1 demo_ue dl_sched_data_zero 10 2 = Ok (tbs, data', u') /\
    pending_ces u' = [] /\ all_empty u' /\ get_requested_dl_bytes u' 0 = (0, 0).
Proof.
  apply (generate_formatN1_drains demo_ue dl_sched_data_zero 10 2);
    [apply demo_ue_small|apply demo_ue_dl_only|split; vm_compute; done|vm_compute; done
    |reflexivity|lia|vm_compute; done].
Defined.

Example demo_ue_request :
  get_requested_dl_bytes demo_ue 0 = (29, 37) /\ 0 <= 29 <= 37.
Proof.
  split; [reflexivity|].
  exact (proj1 (requested_dl_bytes_interval demo_ue demo_ue_small)).
Defined.

Lemma allocate_mac_ces_overflow_witness :
  allocate_mac_ces (mac_buffer_state demo_ue CON_RES_ID 9) [] 85 0 = UB OobWrite.
Proof.
  apply (allocate_mac_ces_overflow _ (replicate 9 CON_RES_ID) [CON_RES_ID] 85);
    [reflexivity|reflexivity|vm_compute; done].
Defined.
