(* ===== verification/BcSched.v ===== *)
(** * Broadcast scheduling : [class bc_sched]

    When SIB1-NB and the SIB2-NB message are sent
    ([sonica_enb/stack/mac/scheduler_carrier.cc], first part). *)
From S2P Require Import Prelude Tti RaNbiot SchedTypes.

Definition SIB1_NB_TTI : Z := 256.
Definition SIB1_NB_MAX_REP : Z := 16.
(** [FIXME: Set tmp cell.n_id_ncell=99] *)
Definition n_id_ncell : Z := 99.

Record bc_sched := mk_bc_sched {
  mib_sched_info : Z;              (* mib_nb.sched_info_sib1 *)
  sib1_sf_idx : Z;
  sib1_num_sf : Z;
  ra_dl_sib1 : dl_dci_t;
  sib1_sfn : list Z;               (* sib1_sfn[4 * SIB1_NB_MAX_REP] *)
  sib2_num_sf : Z;
  ra_dl_sib2 : dl_dci_t;
  current_tti : Z;
  current_hfn : Z
}.
#[export] Instance eta_bc_sched : Eta bc_sched := {| eta := fun r =>
  mk_bc_sched (mib_sched_info r) (sib1_sf_idx r) (sib1_num_sf r) (ra_dl_sib1 r) (sib1_sfn r)
    (sib2_num_sf r) (ra_dl_sib2 r) (current_tti r) (current_hfn r) |}.

(** ** Constructor *)

(** The two nested loops that fill [sib1_sfn]; the state is the array and
    [idx]. *)
Definition fill_sib1_sfn (num_rep sib1_start : Z) : res (list Z * Z) :=
  foldM (fun st k =>
    foldM (fun st i =>
      let '(arr, idx) := st in
      arr' ← arr_write arr idx (k * SIB1_NB_TTI + sib1_start + (i * SIB1_NB_TTI / num_rep));
      Ok (arr', idx + 1)) (range 0 (Z.to_nat num_rep)) st)
    (range 0 4) (replicate 64 0, 0).

Definition bc_sched_new : res bc_sched :=
  let info := 5 in
  num_rep ← srslte_ra_n_rep_sib1_nb info;
  sib1_start ← srslte_ra_nbiot_get_starting_sib1_frame n_id_ncell info;
  '(sfns, _) ← fill_sib1_sfn num_rep sib1_start;
  let sib1 := dl_dci_zero <| mcs_idx := 1 |>
                <| alloc := ra_nbiot_zero <| has_sib1 := true |> <| rnti := SRSLTE_SIRNTI |>
                                          <| sched_info_sib1 := info |> |> in
  n_rep ← srslte_ra_n_rep_from_dci sib1;
  let sib2 := dl_dci_zero <| mcs_idx := 3 |>
                <| alloc := ra_nbiot_zero <| has_sib1 := false |> <| rnti := SRSLTE_SIRNTI |>
                                          <| i_sf := 6 |> |> in
  Ok (mk_bc_sched info 0 (8 * n_rep) sib1 sfns 8 sib2 0 0).

(** ** [is_sib1_sf] *)
Definition is_sib1_sf (b : bc_sched) (sfn sf_idx : Z) : res bool :=
  if negb (sf_idx =? 4) then Ok false else
  start ← srslte_ra_nbiot_sib1_start n_id_ncell (mib_sched_info b);
  Ok (existsb (fun s => (sfn >=? s) && (sfn <? s + 16) && ((sfn + start) mod 2 =? 0)) (sib1_sfn b)).

(** ** [alloc_sibs] *)

(** [while (rem_sib > 0)]: mark the next [rem] valid subframes from
    [tti + alloc_i] on. *)
Fixpoint sib2_mark (fuel : nat) (tab : gset Z) (tti alloc_i rem : Z) : res (gset Z) :=
  if rem <=? 0 then Ok tab else
  match fuel with
  | O => Diverge
  | S f =>
      let t := u32 (tti + alloc_i) mod 10240 in
      if srslte_ra_nbiot_is_valid_dl_sf t then
        tab' ← tab_set tab t true;
        sib2_mark f tab' tti (alloc_i + 1) (rem - 1)
      else sib2_mark f tab tti (alloc_i + 1) rem
  end.

(** Eight valid subframes lie within twelve ([sib2_mark_slots]). *)
Definition sib2_fuel : nat := 12.

Definition alloc_sibs (b : bc_sched) (hfn : Z) (sf : sf_sched) (dl : gset Z) :
    res (bc_sched * sf_sched * gset Z) :=
  let tti := current_tti b in
  let sf_idx := tti mod 10 in
  let sfn := tti / 10 in
  sib1 ← is_sib1_sf b sfn sf_idx;
  if sib1 : bool then
    busy ← tab_get dl tti;
    if busy : bool then Ok (b, sf, dl) else
    let al := mk_bc_alloc (ra_dl_sib1 b) DL_BC (sib1_sf_idx b =? 0) in
    dl' ← tab_set dl tti true;
    let idx := u32 (sib1_sf_idx b + 1) in
    let idx' := if idx =? sib1_num_sf b then 0 else idx in
    Ok (b <| sib1_sf_idx := idx' |>, sf <| bc_allocs := bc_allocs sf ++ [al] |>, dl')
  else if negb (sf_idx =? 0) && negb (sf_idx =? 5) && negb ((sf_idx =? 9) && (sfn mod 2 =? 0)) then
    if (sf_idx =? 1) && (sfn mod 512 <? 16) && (sfn mod 4 =? 0) then
      busy ← tab_get dl tti;
      if busy : bool then Ok (b, sf, dl) else
      dl' ← sib2_mark sib2_fuel dl tti 0 (sib2_num_sf b);
      Ok (b, sf <| bc_allocs := bc_allocs sf ++ [mk_bc_alloc (ra_dl_sib2 b) DL_BC false] |>, dl')
    else Ok (b, sf, dl)
  else Ok (b, sf, dl).

(** [bc_sched::dl_sched] *)
Definition bc_dl_sched (b : bc_sched) (hfn : Z) (sf : sf_sched) (dl : gset Z) :
    res (bc_sched * sf_sched * gset Z) :=
  alloc_sibs (b <| current_tti := tti_tx_dl (sf_tti_params sf) |> <| current_hfn := hfn |>) hfn sf dl.

(** ** Facts *)

(** What the constructor fixes and no operation changes. *)
Record bc_inv (b : bc_sched) : Prop := mk_bc_inv {
  bci_info : mib_sched_info b = 5;
  bci_sfn : sib1_sfn b = (fun k => 1 + 16 * k) <$> range 0 64;
  bci_num : sib1_num_sf b = 128;
  bci_idx : 0 <= sib1_sf_idx b < 128;
  bci_num2 : sib2_num_sf b = 8
}.

Lemma bc_sched_new_ok : exists b, bc_sched_new = Ok b /\ bc_inv b /\ sib1_sf_idx b = 0.
Proof.
  eexists; split; [vm_compute; reflexivity|].
  split; [split; vm_compute; done|done].
Qed.

(** SIB1 is in subframe 4 of every odd frame. *)
Definition sib1_slot (t : Z) : bool := (t mod 10 =? 4) && ((t / 10) mod 2 =? 1).

Lemma is_sib1_sf_inv b sfn sf_idx :
  bc_inv b -> 0 <= sfn < 1024 ->
  is_sib1_sf b sfn sf_idx = Ok ((sf_idx =? 4) && (sfn mod 2 =? 1)).
Proof.
  intros [Hi Hs _ _ _] Hsfn. unfold is_sib1_sf.
  destruct (Z.eqb_spec sf_idx 4); cbn [negb andb]; [|done].
  rewrite Hi. change (srslte_ra_nbiot_sib1_start n_id_ncell 5) with (Ok 1 : res Z).
  cbn [mbind res_bind]. f_equal. rewrite Hs.
  destruct (Z.eqb_spec (sfn mod 2) 1) as [Hodd|Heven].
  - apply existsb_exists. exists (1 + 16 * ((sfn - 1) / 16)). split.
    + apply list_elem_of_In, list_elem_of_fmap. eexists; split; [done|].
      apply elem_of_range. dlia.
    + dlia.
  - apply not_true_is_false. intros (s & _ & H)%existsb_exists. dlia.
Qed.

Lemma is_sib1_sf_tti b t :
  bc_inv b -> is_tti t -> is_sib1_sf b (t / 10) (t mod 10) = Ok (sib1_slot t).
Proof. intros Hb Ht. apply is_sib1_sf_inv; [done|]. unfold is_tti in Ht. dlia. Qed.

Lemma bc_inv_tti b t h : bc_inv b -> bc_inv (b <| current_tti := t |> <| current_hfn := h |>).
Proof. by intros []; split. Qed.

(** The SIB2 window opens at this subframe. *)
Definition sib2_start (t : Z) : bool :=
  (t mod 10 =? 1) && ((t / 10) mod 512 <? 16) && ((t / 10) mod 4 =? 0).

(** The eight subframes of one SIB2 transmission. *)
Definition sib2_slots (t : Z) : list Z :=
  (fun k => (t + k) mod 10240) <$> [0; 1; 2; 3; 5; 6; 7; 10].

Lemma sib2_start_not_sib1 t : sib2_start t = true -> sib1_slot t = false.
Proof. unfold sib2_start, sib1_slot. lia. Qed.

Lemma sib2_start_frame t : is_tti t -> sib2_start t = true -> t mod 40 = 1.
Proof. unfold sib2_start, is_tti. intros. dlia. Qed.

Lemma sib2_slots_spec t x :
  is_tti t -> sib2_start t = true -> x ∈ sib2_slots t ->
  is_tti x /\ srslte_ra_nbiot_is_valid_dl_sf x = true /\ sib1_slot x = false.
Proof.
  intros Ht Hs%sib2_start_frame Hx; [|done]. unfold is_tti in *.
  apply list_elem_of_fmap in Hx as (k & -> & Hk).
  assert (Hk' : k = 0 \/ k = 1 \/ k = 2 \/ k = 3 \/ k = 5 \/ k = 6 \/ k = 7 \/ k = 10)
    by (set_unfold; lia).
  unfold srslte_ra_nbiot_is_valid_dl_sf, sib1_slot.
  split; [dlia|]. destruct Hk' as [->|[->|[->|[->|[->|[->|[->| ->]]]]]]]; split; dlia.
Qed.

Lemma sib2_mark_step_valid fuel tab tti i rem :
  is_tti tti -> 0 <= i <= 20 -> 0 < rem ->
  srslte_ra_nbiot_is_valid_dl_sf ((tti + i) mod 10240) = true ->
  sib2_mark (S fuel) tab tti i rem =
    sib2_mark fuel ({[(tti + i) mod 10240]} ∪ tab) tti (i + 1) (rem - 1).
Proof.
  unfold is_tti; intros Ht Hi Hr Hv. cbn [sib2_mark].
  replace (rem <=? 0) with false by lia. rewrite u32_id by lia. rewrite Hv.
  rewrite tab_set_tti by apply mod_is_tti. done.
Qed.

Lemma sib2_mark_step_invalid fuel tab tti i rem :
  is_tti tti -> 0 <= i <= 20 -> 0 < rem ->
  srslte_ra_nbiot_is_valid_dl_sf ((tti + i) mod 10240) = false ->
  sib2_mark (S fuel) tab tti i rem = sib2_mark fuel tab tti (i + 1) rem.
Proof.
  unfold is_tti; intros Ht Hi Hr Hv. cbn [sib2_mark].
  replace (rem <=? 0) with false by lia. rewrite u32_id by lia. by rewrite Hv.
Qed.

(** The loop ends and marks exactly the eight subframes. *)
Lemma sib2_mark_slots tab t :
  is_tti t -> sib2_start t = true ->
  exists tab', sib2_mark sib2_fuel tab t 0 8 = Ok tab' /\
    forall x, x ∈ tab' <-> x ∈ tab \/ x ∈ sib2_slots t.
Proof.
  intros Ht Hs. pose proof (sib2_start_frame t Ht Hs) as H40.
  assert (Hvalid : forall k, k ∈ [0; 1; 2; 3; 5; 6; 7; 10] ->
            srslte_ra_nbiot_is_valid_dl_sf ((t + k) mod 10240) = true).
  { intros k Hk. apply (sib2_slots_spec t); [done..|].
    apply list_elem_of_fmap; by exists k. }
  assert (Hinvalid : forall k, k = 4 \/ k = 8 \/ k = 9 ->
            srslte_ra_nbiot_is_valid_dl_sf ((t + k) mod 10240) = false).
  { intros k Hk. unfold srslte_ra_nbiot_is_valid_dl_sf, is_tti in *.
    destruct Hk as [->|[->| ->]]; dlia. }
  unfold sib2_fuel.
  do 4 (rewrite sib2_mark_step_valid; [|done|lia|lia|apply Hvalid; set_solver]).
  rewrite sib2_mark_step_invalid; [|done|lia|lia|apply Hinvalid; lia].
  do 3 (rewrite sib2_mark_step_valid; [|done|lia|lia|apply Hvalid; set_solver]).
  do 2 (rewrite sib2_mark_step_invalid; [|done|lia|lia|apply Hinvalid; lia]).
  rewrite sib2_mark_step_valid; [|done|lia|lia|apply Hvalid; set_solver].
  eexists; split; [reflexivity|]. intros x. unfold sib2_slots. cbn [fmap list_fmap].
  rewrite !elem_of_union, !elem_of_singleton, !elem_of_cons, elem_of_nil. clear. tauto.
Qed.

(** One call, case by case. *)
Inductive bc_step (b : bc_sched) (sf : sf_sched) (dl : gset Z) (t : Z) :
    bc_sched -> sf_sched -> gset Z -> Prop :=
| bc_sib1 b' sf' dl' :
    sib1_slot t = true -> t ∉ dl ->
    sib1_sf_idx b' = (sib1_sf_idx b + 1) mod 128 ->
    sf' = sf <| bc_allocs := bc_allocs sf ++
                  [mk_bc_alloc (ra_dl_sib1 b) DL_BC (sib1_sf_idx b =? 0)] |> ->
    dl' = {[t]} ∪ dl ->
    bc_step b sf dl t b' sf' dl'
| bc_sib2 b' sf' dl' :
    sib2_start t = true -> t ∉ dl ->
    sib1_sf_idx b' = sib1_sf_idx b ->
    sf' = sf <| bc_allocs := bc_allocs sf ++ [mk_bc_alloc (ra_dl_sib2 b) DL_BC false] |> ->
    (forall x, x ∈ dl' <-> x ∈ dl \/ x ∈ sib2_slots t) ->
    bc_step b sf dl t b' sf' dl'
| bc_none b' :
    t ∈ dl \/ (sib1_slot t = false /\ sib2_start t = false) ->
    sib1_sf_idx b' = sib1_sf_idx b ->
    bc_step b sf dl t b' sf dl.

Lemma bc_dl_sched_spec b hfn sf dl :
  bc_inv b -> is_tti (tti_tx_dl (sf_tti_params sf)) ->
  exists b' sf' dl', bc_dl_sched b hfn sf dl = Ok (b', sf', dl') /\ bc_inv b' /\
    bc_step b sf dl (tti_tx_dl (sf_tti_params sf)) b' sf' dl'.
Proof.
  intros Hb Ht. unfold bc_dl_sched. set (t := tti_tx_dl (sf_tti_params sf)) in *.
  pose proof (bc_inv_tti b t hfn Hb) as Hb0.
  set (b0 := b <| current_tti := t |> <| current_hfn := hfn |>) in *.
  unfold alloc_sibs. change (current_tti b0) with t.
  rewrite (is_sib1_sf_tti b0 t Hb0 Ht); cbn [mbind res_bind].
  destruct (sib1_slot t) eqn:E1.
  - rewrite tab_get_tti by done; cbn [mbind res_bind]. case_bool_decide as Hbusy.
    + exists b0, sf, dl. split_and!; [done..|]. apply bc_none; [by left|done].
    + rewrite tab_set_tti by done; cbn [mbind res_bind].
      eexists _, _, _; split; [done|]. destruct Hb0 as [H1 H2 H3 H4 H5].
      change (sib1_sf_idx b0) with (sib1_sf_idx b) in *. rewrite H3, u32_id by lia.
      set (idx' := if sib1_sf_idx b + 1 =? 128 then 0 else sib1_sf_idx b + 1).
      assert (Hm : idx' = (sib1_sf_idx b + 1) mod 128) by (unfold idx'; case_match; dlia).
      split.
      * split; try done. change (0 <= idx' < 128). rewrite Hm. apply Z.mod_pos_bound; lia.
      * apply bc_sib1; done.
  - destruct (negb _ && _ && _) eqn:Ev.
    + destruct ((t mod 10 =? 1) && (t / 10 mod 512 <? 16) && (t / 10 mod 4 =? 0)) eqn:E2.
      * rewrite tab_get_tti by done; cbn [mbind res_bind]. case_bool_decide as Hbusy.
        -- exists b0, sf, dl. split_and!; [done..|]. apply bc_none; [by left|done].
        -- destruct (sib2_mark_slots dl t Ht E2) as (dl' & Hm & Hdl').
           rewrite (bci_num2 _ Hb0), Hm; cbn [mbind res_bind].
           eexists _, _, dl'; split; [done|]. split; [done|]. by apply bc_sib2.
      * exists b0, sf, dl. split_and!; [done..|]. apply bc_none; [by right|done].
    + exists b0, sf, dl. split_and!; [done..|]. apply bc_none; [|done].
      right; split; [done|]. unfold sib2_start. lia.
Qed.

(** ** Running the broadcast scheduler

    Subframe [n] of the cell (counted from its start, never wrapping) with its
    own slot free: what [bc_run] does [n] times, collecting the subframes in
    which a SIB1 block starts. *)
Definition bc_subframe (n : Z) (st : bc_sched * list Z) : res (bc_sched * list Z) :=
  let '(b, starts) := st in
  let sf := sf_sched_zero <| sf_tti_params := tti_params (TTI_SUB (n mod 10240) 4) |> in
  '(b', sf', _) ← bc_dl_sched b (n / 10240) sf ∅;
  Ok (b', if existsb bc_is_new_sib (bc_allocs sf') then starts ++ [n] else starts).

Definition bc_run (n : nat) : res (bc_sched * list Z) :=
  b ← bc_sched_new; foldM (fun st k => bc_subframe k st) (range 0 n) (b, []).

Lemma bc_subframe_params n :
  tti_tx_dl (sf_tti_params (sf_sched_zero <| sf_tti_params := tti_params (TTI_SUB (n mod 10240) 4) |>))
  = n mod 10240.
Proof. cbn. apply TTI_ADD_SUB; [apply mod_is_tti|unfold FDD_HARQ_DELAY_UL_MS; lia]. Qed.

(** SIB1 subframes among the first [n]: those equal to 14 modulo 20. *)
Definition sib1_count (n : Z) : Z := (n + 5) / 20.

Lemma sib1_slot_mod n : 0 <= n -> sib1_slot (n mod 10240) = (n mod 20 =? 14).
Proof. intros; unfold sib1_slot. dlia. Qed.

Lemma bc_subframe_spec n b starts :
  0 <= n -> bc_inv b -> sib1_sf_idx b = sib1_count n mod 128 ->
  exists b', bc_subframe n (b, starts) =
      Ok (b', if n mod 2560 =? 14 then starts ++ [n] else starts) /\
    bc_inv b' /\ sib1_sf_idx b' = sib1_count (n + 1) mod 128.
Proof.
  intros Hn Hb Hidx. unfold bc_subframe.
  match goal with |- context [bc_dl_sched b ?h ?s ∅] => set (sf := s) end.
  destruct (bc_dl_sched_spec b (n / 10240) sf ∅ Hb) as (b' & sf' & dl' & -> & Hb' & Hstep).
  { unfold sf. rewrite bc_subframe_params. apply mod_is_tti. }
  unfold sf in Hstep at 2; rewrite bc_subframe_params in Hstep. cbn [mbind res_bind].
  exists b'. unfold sib1_count in *.
  destruct Hstep as [b' sf' dl' Hs _ Hi -> _|b' sf' dl' Hs _ Hi -> _|b' Hs Hi].
  - rewrite sib1_slot_mod in Hs by done. cbn. rewrite orb_false_r, Hidx.
    split_and!; [|done|rewrite Hi, Hidx; dlia].
    do 2 f_equal. do 2 case_match; try done; dlia.
  - assert (sib1_slot (n mod 10240) = false) as Hs1 by by apply sib2_start_not_sib1.
    rewrite sib1_slot_mod in Hs1 by done. cbn.
    split_and!; [|done|rewrite Hi, Hidx; dlia].
    case_match; [dlia|done].
  - destruct Hs as [Hs|[Hs _]]; [by apply elem_of_empty in Hs|].
    rewrite sib1_slot_mod in Hs by done. cbn.
    split_and!; [|done|rewrite Hi, Hidx; dlia].
    case_match; [dlia|done].
Qed.

(** ** Properties *)

(** The SIB1 test, a search through 64 start frames, is the closed formula:
    subframe 4 of every odd frame. *)
Theorem is_sib1_sf_closed_form b sfn sf_idx :
  bc_sched_new = Ok b -> 0 <= sfn < 1024 ->
  is_sib1_sf b sfn sf_idx = Ok ((sf_idx =? 4) && (sfn mod 2 =? 1)).
Proof.
  intros Hb Hs. destruct bc_sched_new_ok as (b0 & Hb0 & Hi & _).
  rewrite Hb in Hb0; injection Hb0 as ->. by apply is_sib1_sf_inv.
Qed.

(** SIB2 transmission: when its window opens on a free subframe, the loop
    terminates and reserves exactly eight subframes, all of them valid downlink
    subframes and none of them one of SIB1's. *)
Theorem sib2_reserves b hfn sf dl :
  bc_inv b -> is_tti (tti_tx_dl (sf_tti_params sf)) ->
  let t := tti_tx_dl (sf_tti_params sf) in
  sib2_start t = true -> t ∉ dl ->
  exists b' dl',
    bc_dl_sched b hfn sf dl =
      Ok (b', sf <| bc_allocs := bc_allocs sf ++ [mk_bc_alloc (ra_dl_sib2 b) DL_BC false] |>, dl') /\
    (forall x, x ∈ dl' <-> x ∈ dl \/ x ∈ sib2_slots t) /\
    (forall x, x ∈ sib2_slots t ->
       srslte_ra_nbiot_is_valid_dl_sf x = true /\ is_sib1_sf b (x / 10) (x mod 10) = Ok false) /\
    NoDup (sib2_slots t) /\ length (sib2_slots t) = 8%nat.
Proof.
  intros Hb Ht t Hs Hfree.
  destruct (bc_dl_sched_spec b hfn sf dl Hb Ht) as (b' & sf' & dl' & -> & _ & Hstep).
  fold t in Hstep. pose proof (sib2_start_not_sib1 t Hs) as Hs1.
  destruct Hstep as [?????| b' sf' dl' _ _ _ -> Hdl'|? [?|[_ ?]] _]; [congruence| |done|congruence].
  exists b', dl'. split_and!; [done|done| | |done].
  - intros x Hx. destruct (sib2_slots_spec t x Ht Hs Hx) as (Hxt & Hv & Hx1).
    split; [done|]. by rewrite is_sib1_sf_tti, Hx1.
  - unfold is_tti in Ht. fold t in Ht. unfold sib2_slots. cbn [fmap list_fmap].
    repeat (apply NoDup_cons; split; [set_unfold; dlia|]). apply NoDup_nil_2.
Qed.

(** C31. A new SIB1 block starts every 2560 subframes, on the first SIB1
    subframe of each period of 256 frames, for as long as the cell runs. *)
Theorem sib1_period n :
  exists b starts, bc_run n = Ok (b, starts) /\ bc_inv b /\
    forall k, k ∈ starts <-> 0 <= k < Z.of_nat n /\ k mod 2560 = 14.
Proof.
  destruct bc_sched_new_ok as (b0 & Hb0 & Hi0 & Hz). unfold bc_run. rewrite Hb0; cbn [mbind res_bind].
  enough (exists b starts, foldM (fun st k => bc_subframe k st) (range 0 n) (b0, []) = Ok (b, starts) /\
     bc_inv b /\ sib1_sf_idx b = sib1_count (Z.of_nat n) mod 128 /\
     forall k, k ∈ starts <-> 0 <= k < Z.of_nat n /\ k mod 2560 = 14)
    as (b & starts & H1 & H2 & _ & H3) by eauto.
  induction n as [|n (b & starts & Hf & Hi & Hidx & Hk)].
  - exists b0, []. split_and!; [done|done|by rewrite Hz|].
    intros k; rewrite elem_of_nil; lia.
  - unfold range. rewrite seq_S, fmap_app, foldM_app. fold (range 0 n). rewrite Hf.
    cbn [mbind res_bind fmap list_fmap foldM].
    destruct (bc_subframe_spec (0 + Z.of_nat (0 + n)) b starts) as (b' & -> & Hi' & Hidx');
      [lia|done|rewrite Hidx; f_equal; f_equal; lia|].
    cbn [mbind res_bind]. eexists b', _; split_and!; [done|done|rewrite Hidx'; f_equal; f_equal; lia|].
    intros k. case_match; [rewrite elem_of_app, list_elem_of_singleton|]; rewrite Hk; dlia.
Qed.

(** ** Concrete runs *)
Lemma is_sib1_sf_closed_form_witness : exists b,
  bc_sched_new = Ok b /\ is_sib1_sf b 1023 4 = Ok true /\ is_sib1_sf b 1022 4 = Ok false.
Proof.
  destruct bc_sched_new_ok as (b & Hb & _). exists b.
  rewrite (is_sib1_sf_closed_form b 1023 4 Hb), (is_sib1_sf_closed_form b 1022 4 Hb) by lia.
  split; [exact Hb|split; reflexivity].
Defined.

Lemma sib2_reserves_witness : exists b b' sf' dl',
  bc_dl_sched b 0 (sf_sched_zero <| sf_tti_params := tti_params 5117 |>) {[5119]} = Ok (b', sf', dl') /\
  (5131 ∈ dl') /\ (5125 ∉ dl').
Proof.
  destruct bc_sched_new_ok as (b & _ & Hi & _).
  destruct (sib2_reserves b 0 (sf_sched_zero <| sf_tti_params := tti_params 5117 |>) {[5119]})
    as (b' & dl' & H & Hd & _); [done|split; vm_compute; done|reflexivity|set_solver|].
  eexists b, b', _, dl'. split; [exact H|]. rewrite !Hd.
  split.
  - right. change (5131 ∈ sib2_slots 5121). by apply (bool_decide_unpack _).
  - intros [H1|H2]; [apply elem_of_singleton in H1; discriminate|].
    change (5125 ∈ sib2_slots 5121) in H2.
    apply (bool_decide_pack (5125 ∈ sib2_slots 5121)) in H2. vm_compute in H2. exact H2.
Defined.
