(* ===== verification/UeDb.v ===== *)
(** * The user database : [std::map<uint16_t, sched_ue>]

    Owned by [sched], read and written through pointers by its parts.  Every
    object created gets an identity, so that a pointer kept across the erasure
    of its object, even when a user with the same RNTI is created later, is
    recognised as dangling. *)
From stdpp Require Import sorting.
From S2P Require Import Prelude Tti RaNbiot SchedTypes SchedUe.

Record ue_db_t := mk_ue_db {
  db_map : gmap Z (Z * sched_ue);
  db_next : Z
}.
#[export] Instance eta_ue_db_t : Eta ue_db_t := {| eta := fun r => mk_ue_db (db_map r) (db_next r) |}.

Definition ue_db_empty : ue_db_t := mk_ue_db ∅ 0.

(** Keys in iteration order. *)
Definition db_keys (db : ue_db_t) : list Z := merge_sort Z.le (elements (dom (db_map db))).
Definition db_size (db : ue_db_t) : Z := Z.of_nat (size (db_map db)).

(** [&ue_db.find(rnti)->second] *)
Definition db_find (db : ue_db_t) (rnti : Z) : option ue_ptr :=
  match db_map db !! rnti with Some (id, _) => Some (mk_ue_ptr rnti id) | None => None end.

Definition deref (db : ue_db_t) (p : ue_ptr) : res sched_ue :=
  match db_map db !! p_rnti p with
  | Some (id, u) => if id =? p_id p then Ok u else UB DanglingPtr
  | None => UB DanglingPtr
  end.

(** Assignment through a valid pointer. *)
Definition db_store (db : ue_db_t) (p : ue_ptr) (u : sched_ue) : ue_db_t :=
  db <| db_map := <[p_rnti p := (p_id p, u)]> (db_map db) |>.

(** Call of a method that changes the user. *)
Definition db_update (db : ue_db_t) (p : ue_ptr) (f : sched_ue -> sched_ue) : res ue_db_t :=
  u ← deref db p; Ok (db_store db p (f u)).

(** [ue_db[rnti]] on an absent key, and [ue_db.erase(rnti)]. *)
Definition db_create (db : ue_db_t) (rnti : Z) (u : sched_ue) : ue_db_t :=
  mk_ue_db (<[rnti := (db_next db, u)]> (db_map db)) (db_next db + 1).
Definition db_erase (db : ue_db_t) (rnti : Z) : ue_db_t :=
  db <| db_map := delete rnti (db_map db) |>.

(** ** Facts *)
Definition valid_ptr (db : ue_db_t) (p : ue_ptr) : Prop :=
  exists u, db_map db !! p_rnti p = Some (p_id p, u).

Definition db_wf (db : ue_db_t) : Prop :=
  forall r id u, db_map db !! r = Some (id, u) -> 0 <= id < db_next db.

(** The same users, as objects, whatever their contents. *)
Definition same_users (db db' : ue_db_t) : Prop :=
  (forall r, fst <$> db_map db !! r = fst <$> db_map db' !! r) /\ db_next db = db_next db'.

#[global] Instance same_users_equiv : Equivalence same_users.
Proof.
  split.
  - by intros db.
  - intros db db' [H ?]; split; [intros r; by rewrite H|done].
  - intros db1 db2 db3 [H12 ?] [H23 ?]; split; [intros r; by rewrite H12|congruence].
Qed.

Lemma deref_Ok db p u : deref db p = Ok u <-> db_map db !! p_rnti p = Some (p_id p, u).
Proof.
  unfold deref. destruct (db_map db !! p_rnti p) as [[id v]|]; [|done].
  destruct (Z.eqb_spec id (p_id p)); split; congruence.
Qed.

Lemma valid_ptr_deref db p : valid_ptr db p <-> exists u, deref db p = Ok u.
Proof. unfold valid_ptr. split; intros [u Hu]; exists u; by apply deref_Ok. Qed.

Lemma deref_invalid db p : ~ valid_ptr db p -> deref db p = UB DanglingPtr.
Proof.
  intros H. unfold deref. destruct (db_map db !! p_rnti p) as [[id v]|] eqn:E; [|done].
  destruct (Z.eqb_spec id (p_id p)) as [->|]; [|done]. exfalso; apply H; by exists v.
Qed.

Lemma same_users_valid db db' p : same_users db db' -> valid_ptr db p -> valid_ptr db' p.
Proof.
  intros [H _] [u Hu]. specialize (H (p_rnti p)). rewrite Hu in H. cbn in H.
  unfold valid_ptr. destruct (db_map db' !! p_rnti p) as [[id v]|]; [|done].
  cbn in H. injection H as <-. eauto.
Qed.

#[global] Instance valid_ptr_proper : Proper (same_users ==> eq ==> iff) valid_ptr.
Proof.
  intros db db' Hs p p' <-; split; apply same_users_valid; [done|by symmetry].
Qed.

Lemma db_store_same db p u : valid_ptr db p -> same_users db (db_store db p u).
Proof.
  intros [v Hv]; split; [|done]. intros r; cbn.
  destruct (decide (r = p_rnti p)) as [->|].
  - by rewrite lookup_insert_eq, Hv.
  - by rewrite lookup_insert_ne.
Qed.

Lemma deref_store_eq db p u : deref (db_store db p u) p = Ok u.
Proof. apply deref_Ok; cbn. by rewrite lookup_insert_eq. Qed.

Lemma deref_store_ne db p q u : p_rnti p <> p_rnti q -> deref (db_store db p u) q = deref db q.
Proof. intros; unfold deref; cbn. by rewrite lookup_insert_ne. Qed.

Lemma db_update_ok db p f :
  valid_ptr db p -> exists u, deref db p = Ok u /\ db_update db p f = Ok (db_store db p (f u)) /\
    same_users db (db_store db p (f u)).
Proof.
  intros Hp. pose proof Hp as [u Hu]%valid_ptr_deref. exists u. unfold db_update.
  rewrite Hu. cbn. split_and!; [done..|by apply db_store_same].
Qed.

Lemma db_find_valid db r p : db_find db r = Some p -> valid_ptr db p /\ p_rnti p = r.
Proof.
  unfold db_find. destruct (db_map db !! r) as [[id u]|] eqn:E; [|done].
  intros [= <-]; split; [by exists u|done].
Qed.

Lemma db_keys_perm db : Permutation (db_keys db) (elements (dom (db_map db))).
Proof. apply merge_sort_Permutation. Qed.

Lemma elem_of_db_keys db r : r ∈ db_keys db <-> is_Some (db_map db !! r).
Proof.
  rewrite <- elem_of_dom, <- elem_of_elements. unfold db_keys.
  by rewrite merge_sort_Permutation.
Qed.

Lemma NoDup_db_keys db : NoDup (db_keys db).
Proof. unfold db_keys. rewrite merge_sort_Permutation. apply NoDup_elements. Qed.

Lemma length_db_keys db : Z.of_nat (length (db_keys db)) = db_size db.
Proof.
  unfold db_keys, db_size. rewrite merge_sort_Permutation.
  change (length (elements (dom (db_map db)))) with (size (dom (db_map db))).
  by rewrite size_dom.
Qed.

Lemma db_find_key db r : r ∈ db_keys db -> exists p, db_find db r = Some p /\ valid_ptr db p /\ p_rnti p = r.
Proof.
  intros [[id u] Hu]%elem_of_db_keys. unfold db_find. rewrite Hu.
  eexists; split; [done|]. split; [by exists u|done].
Qed.

Lemma same_users_find db db' r : same_users db db' -> db_find db r = db_find db' r.
Proof.
  intros [H _]. specialize (H r). unfold db_find.
  destruct (db_map db !! r) as [[? ?]|], (db_map db' !! r) as [[? ?]|]; cbn in H; congruence.
Qed.

Lemma same_users_dom db db' : same_users db db' -> dom (db_map db) = dom (db_map db').
Proof.
  intros [H _]. apply leibniz_equiv. intros r. rewrite !elem_of_dom.
  specialize (H r). destruct (db_map db !! r), (db_map db' !! r); cbn in H; naive_solver.
Qed.

Lemma same_users_keys db db' : same_users db db' -> db_keys db = db_keys db'.
Proof. intros H. unfold db_keys. by rewrite (same_users_dom db db' H). Qed.

Lemma same_users_size db db' : same_users db db' -> db_size db = db_size db'.
Proof. intros H. by rewrite <- !length_db_keys, (same_users_keys db db' H). Qed.

(** Every user is well formed, fits a block, and knows the RNTI it is filed
    under. *)
Definition users_ok (db : ue_db_t) : Prop :=
  forall r id u, db_map db !! r = Some (id, u) -> wf_ue u /\ pdus_fit u /\ ue_rnti u = r.

Lemma users_ok_deref db p u :
  users_ok db -> deref db p = Ok u -> wf_ue u /\ pdus_fit u /\ ue_rnti u = p_rnti p.
Proof. intros H Hu%deref_Ok. by eapply H. Qed.

Lemma users_ok_store db p u v :
  users_ok db -> deref db p = Ok v -> wf_ue u -> pdus_fit u -> ue_rnti u = ue_rnti v ->
  users_ok (db_store db p u).
Proof.
  intros Hdb Hv%deref_Ok Hw Hf E r id w. cbn. destruct (decide (r = p_rnti p)) as [->|].
  - rewrite lookup_insert_eq. intros [= <- <-]. split_and!; [done..|]. rewrite E.
    by eapply (Hdb _ _ _ Hv).
  - rewrite lookup_insert_ne by done. apply Hdb.
Qed.

Lemma users_ok_same_queues db p u v :
  users_ok db -> deref db p = Ok v -> same_queues v u -> users_ok (db_store db p u).
Proof.
  intros Hdb Hv Hq. destruct (users_ok_deref db p v Hdb Hv) as (Hw & Hf & Hr).
  destruct (same_queues_ok v u Hq Hw Hf). eapply users_ok_store; try done. apply Hq.
Qed.
