(* ===== verification/SchedGrid.v ===== *)
(** * The subframe schedule : [class sf_sched]

    Allocation of one subframe's RAR, downlink and uplink grants, and their
    conversion into the scheduling result
    ([sonica_enb/stack/mac/scheduler_grid.cc]). *)
From S2P Require Import Prelude Tti RaNbiot SchedTypes SchedUe BcSched UeDb.

(** What the schedule reaches through pointers: the carrier's two tables and
    the users. *)
Record env := mk_env { e_dl : gset Z; e_ul : gset Z; e_db : ue_db_t }.
#[export] Instance eta_env : Eta env := {| eta := fun r => mk_env (e_dl r) (e_ul r) (e_db r) |}.

(** ** Bookkeeping *)
Definition new_tti (sf : sf_sched) (tti_rx_ : Z) : sf_sched :=
  sf <| bc_allocs := [] |> <| rar_allocs := [] |> <| data_allocs := [] |>
     <| ul_data_allocs := [] |> <| sf_tti_params := tti_params tti_rx_ |>.

Definition get_tti_tx_dl (sf : sf_sched) : Z := tti_tx_dl (sf_tti_params sf).
Definition get_tti_tx_ul (sf : sf_sched) : Z := tti_tx_ul (sf_tti_params sf).
Definition get_tti_rx (sf : sf_sched) : Z := tti_rx (sf_tti_params sf).

Definition is_dl_alloc (sf : sf_sched) (user : ue_ptr) : bool :=
  existsb (fun a => bool_decide (da_user a = user)) (data_allocs sf).
Definition is_ul_alloc (sf : sf_sched) (user : ue_ptr) : bool :=
  existsb (fun a => bool_decide (ua_user a = user)) (ul_data_allocs sf).

(** ** RAR *)
Definition alloc_dl_ctrl (aggr_lvl tbs_bytes rnti_ : Z) : alloc_outcome_t * ctrl_alloc_t :=
  let alloc_type := if rnti_ =? SRSLTE_SIRNTI then DL_BC
                    else if rnti_ =? SRSLTE_PRNTI then DL_PCCH else DL_RAR in
  (SUCCESS, mk_ctrl_alloc rnti_ tbs_bytes alloc_type).

Definition rar_info_zero : rar_info_t := mk_rar_info 0 0 0 0 0.

(** [for (nof_grants = rar.nof_grants; nof_grants > 0; nof_grants--)] *)
Fixpoint alloc_rar_loop (nof_grants : nat) (sf : sf_sched) (aggr_lvl : Z) (rar : pending_rar_t)
    (ret : alloc_outcome_t * Z) : alloc_outcome_t * Z * sf_sched :=
  match nof_grants with
  | O => (ret, sf)
  | S nof_grants' =>
      let buf_rar := 8 in
      let '(o, ctrl) := alloc_dl_ctrl aggr_lvl buf_rar (pr_ra_rnti rar) in
      let ret := (o, 1) in
      if bool_decide (o = RB_COLLISION) then alloc_rar_loop nof_grants' sf aggr_lvl rar ret
      else if negb (bool_decide (o = SUCCESS)) then (ret, sf)
      else
        let grant := mk_dl_rar_grant (default rar_info_zero (head (pr_msg3_grant rar)))
                                     (mk_rar_grant 1 18 0 0 0) in
        (ret, sf <| rar_allocs := rar_allocs sf ++
                       [mk_rar_alloc ctrl (dl_sched_rar_zero <| r_msg3_grant := [grant] |>)] |>)
  end.

Definition alloc_rar (sf : sf_sched) (aggr_lvl : Z) (rar : pending_rar_t) :
    alloc_outcome_t * Z * sf_sched :=
  alloc_rar_loop (length (pr_msg3_grant rar)) sf aggr_lvl rar (ERROR, 0).

(** ** Downlink data *)

(** Table 16.4.1.3-1 of TS 36.213. *)
Definition i_sf_to_n_sf_npdsch : list Z := [1; 2; 3; 4; 5; 6; 8; 10].

(** A subframe the NPDSCH of a user may take. *)
Definition data_slot (tab : gset Z) (t : Z) : bool :=
  srslte_ra_nbiot_is_valid_dl_sf t && negb (bool_decide (t ∈ tab)) && negb (sib1_slot t).

(** [while (alloc_sf_num > 0)] of [alloc_dl_user]. *)
Fixpoint alloc_data_loop (fuel : nat) (b : bc_sched) (tab : gset Z) (data_tx_tti alloc_i rem : Z) :
    res (gset Z) :=
  if rem <=? 0 then Ok tab else
  match fuel with
  | O => Diverge
  | S f =>
      let t := u32 (data_tx_tti + alloc_i) mod 10240 in
      busy ← tab_get tab t;
      sib1 ← is_sib1_sf b (t / 10) (t mod 10);
      if srslte_ra_nbiot_is_valid_dl_sf t && negb busy && negb sib1 then
        tab' ← tab_set tab t true;
        alloc_data_loop f b tab' data_tx_tti (alloc_i + 1) (rem - 1)
      else alloc_data_loop f b tab data_tx_tti (alloc_i + 1) rem
  end.

(** One turn through the whole table: past it nothing new can be found. *)
Definition data_fuel : nat := Z.to_nat 10240.

Definition alloc_dl_user (sf : sf_sched) (e : env) (user : ue_ptr) (max_data : Z) :
    res (alloc_outcome_t * sf_sched * env) :=
  if is_dl_alloc sf user then Ok (ERROR, sf, e) else
  let tti_tx_dl := get_tti_tx_dl sf in
  if negb (srslte_ra_nbiot_is_valid_dl_sf tti_tx_dl) then Ok (RB_COLLISION, sf, e) else
  busy ← tab_get (e_dl e) tti_tx_dl;
  if busy : bool then Ok (RB_COLLISION, sf, e) else
  if tti_tx_dl mod 8 >=? 2 then Ok (RB_COLLISION, sf, e) else
  bc_sched_test ← bc_sched_new;
  sib1 ← is_sib1_sf bc_sched_test (tti_tx_dl / 10) (tti_tx_dl mod 10);
  if sib1 : bool then Ok (RB_COLLISION, sf, e) else
  let i_sf := if max_data >? 20 then 2 else 0 in
  alloc_sf_num ← arr_read i_sf_to_n_sf_npdsch i_sf;
  tab1 ← tab_set (e_dl e) tti_tx_dl true;
  let data_tx_tti := (tti_tx_dl + 5) mod 10240 in
  tab2 ← alloc_data_loop data_fuel bc_sched_test tab1 data_tx_tti 0 alloc_sf_num;
  let sf' := sf <| data_allocs := data_allocs sf ++ [mk_dl_alloc user i_sf] |> in
  db' ← db_update (e_db e) user (fun u => ul_wait_timer (ul_buffer_state u 3 70 false) 30 true);
  Ok (SUCCESS, sf', e <| e_dl := tab2 |> <| e_db := db' |>).

(** ** Uplink *)

(** [for (i = 0; i < len; i++) if (table[(t0 + i) % 10240]) return true;] *)
Fixpoint any_busy (n : nat) (tab : gset Z) (t0 : Z) : res bool :=
  match n with
  | O => Ok false
  | S n' =>
      busy ← tab_get tab (u32 t0 mod 10240);
      if busy : bool then Ok true else any_busy n' tab (t0 + 1)
  end.

Fixpoint mark_all (n : nat) (tab : gset Z) (t0 : Z) : res (gset Z) :=
  match n with
  | O => Ok tab
  | S n' => tab' ← tab_set tab (u32 t0 mod 10240) true; mark_all n' tab' (t0 + 1)
  end.

(** The four turns of the loops over [tti_tx_ul % 10240] look at one entry. *)
Fixpoint any_busy_same (n : nat) (tab : gset Z) (t : Z) : res bool :=
  match n with
  | O => Ok false
  | S n' => busy ← tab_get tab (t mod 10240); if busy : bool then Ok true else any_busy_same n' tab t
  end.
Fixpoint mark_same (n : nat) (tab : gset Z) (t : Z) : res (gset Z) :=
  match n with
  | O => Ok tab
  | S n' => tab' ← tab_set tab (t mod 10240) true; mark_same n' tab' t
  end.

(** The subframe in which Msg3 of the RAR sent nine subframes before this
    schedule's own is received. *)
Definition msg3_rx_tti (tti_tx_dl : Z) : res Z :=
  let rar_dci_tx_tti := u32 (tti_tx_dl + 10240 - 9) mod 10240 in
  let rar_tx_tti := (rar_dci_tx_tti + 5) mod 10240 in
  t ← next_valid_dl_sf valid_dl_sf_fuel rar_tx_tti;
  Ok (t + 13).

(** Outcome of the uplink allocation before the grant is recorded: an early
    return, or the allocation and MCS to record. *)
Inductive ul_check := UlReturn (o : alloc_outcome_t) | UlGo (al : ul_grid_alloc_t) (mcs : Z).

(** [if (alloc_type == ul_alloc_t::MSG3) { ... }] *)
Definition alloc_ul_msg3 (sf : sf_sched) (e : env) (al : ul_grid_alloc_t) (mcs : Z) :
    res (ul_check * env) :=
  msg3 ← msg3_rx_tti (get_tti_tx_dl sf);
  busy ← any_busy (Z.to_nat (len al)) (e_ul e) msg3;
  if busy : bool then Ok (UlReturn RB_COLLISION, e) else
  tab ← mark_all (Z.to_nat (len al)) (e_ul e) msg3;
  Ok (UlGo al mcs, e <| e_ul := tab |>).

(** [if (needs_npdcch) { ... }] *)
Definition alloc_ul_npdcch (sf : sf_sched) (e : env) (user : ue_ptr) : res (ul_check * env) :=
  let al := mk_ul_grid_alloc 12 4 in
  let tti_tx_dl := get_tti_tx_dl sf in
  u ← deref (e_db e) user;
  let mcs := if get_pending_ul_new_data u tti_tx_dl >=? 125 then 12 else 9 in
  let tti_tx_ul := get_tti_tx_ul sf in
  if negb (msg_wait_timer u =? 0) then
    Ok (UlReturn DCI_COLLISION,
        e <| e_db := db_store (e_db e) user (u <| msg_wait_timer := msg_wait_timer u - 1 |>) |>)
  else if negb (srslte_ra_nbiot_is_valid_dl_sf tti_tx_dl) then Ok (UlReturn DCI_COLLISION, e)
  else
    busy ← tab_get (e_dl e) tti_tx_dl;
    if busy : bool then Ok (UlReturn DCI_COLLISION, e)
    else if tti_tx_dl mod 8 >=? 2 then Ok (UlReturn DCI_COLLISION, e)
    else
      ulbusy ← any_busy_same (Z.to_nat (len al)) (e_ul e) tti_tx_ul;
      if ulbusy : bool then Ok (UlReturn RB_COLLISION, e) else
      tab ← mark_same (Z.to_nat (len al)) (e_ul e) tti_tx_ul;
      tab' ← tab_set tab tti_tx_dl true;       (* "dl_sched_table" says the comment *)
      Ok (UlGo al mcs, e <| e_ul := tab' |>).

Definition alloc_ul (sf : sf_sched) (e : env) (user : ue_ptr) (al : ul_grid_alloc_t)
    (alloc_type : ul_alloc_type) (mcs : Z) : res (alloc_outcome_t * sf_sched * env) :=
  if is_ul_alloc sf user then Ok (ERROR, sf, e) else
  '(c, e1) ← (if is_msg3 alloc_type then alloc_ul_msg3 sf e al mcs else Ok (UlGo al mcs, e));
  match c with
  | UlReturn o => Ok (o, sf, e1)
  | UlGo al1 mcs1 =>
      '(c2, e2) ← (if ul_needs_npdcch alloc_type then alloc_ul_npdcch sf e1 user
                   else Ok (UlGo al1 mcs1, e1));
      match c2 with
      | UlReturn o => Ok (o, sf, e2)
      | UlGo al2 mcs2 =>
          Ok (SUCCESS,
              sf <| ul_data_allocs := ul_data_allocs sf ++ [mk_ul_alloc alloc_type user al2 mcs2] |>, e2)
      end
  end.

Definition alloc_msg3 (sf : sf_sched) (e : env) (user : ue_ptr) (g : dl_sched_rar_grant_t) :
    res (alloc_outcome_t * sf_sched * env) :=
  if g_i_mcs (rg_grant g) =? 0 then
    alloc_ul sf e user (mk_ul_grid_alloc 12 4) MSG3 (g_i_mcs (rg_grant g))
  else Ok (ERROR, sf, e).

Definition alloc_ul_user (sf : sf_sched) (e : env) (user : ue_ptr) (al : ul_grid_alloc_t) :
    res (alloc_outcome_t * sf_sched * env) :=
  alloc_ul sf e user al NEWTX 0.

(** ** From allocations to the scheduling result *)
Definition set_bc_sched_result (sf : sf_sched) (r : dl_sched_res_t) : res dl_sched_res_t :=
  bc ← foldM (fun l a => push_bounded MAX_BC_LIST l (mk_dl_bc (bc_dci a) (bc_is_new_sib a)))
             (bc_allocs sf) (dl_bc r);
  Ok (r <| dl_bc := bc |>).

Definition rar_dci (rnti_ : Z) : dl_dci_t :=
  dl_dci_zero <| mcs_idx := 4 |> <| format := 1 |>
    <| alloc := ra_nbiot_zero <| has_sib1 := false |> <| is_ra := false |> <| i_delay := 0 |>
                  <| i_sf := 0 |> <| i_rep := 0 |> <| harq_ack := 1 |> <| i_n_start := 0 |>
                  <| rnti := rnti_ |> |>.

Definition rar_elem (a : rar_alloc_t) : dl_sched_rar_t :=
  mk_dl_rar (ca_req_bytes (ra_alloc_data a)) (rar_dci (ca_rnti (ra_alloc_data a))) (r_msg3_grant (ra_rar_grant a)).

Definition set_rar_sched_result (sf : sf_sched) (r : dl_sched_res_t) : res dl_sched_res_t :=
  rar ← foldM (fun l a => push_bounded MAX_RAR_LIST l (rar_elem a)) (rar_allocs sf) (dl_rar r);
  Ok (r <| dl_rar := rar |>).

(** The element being filled is [data[nof_data_elems]], which must exist. *)
Definition set_dl_data_step (tti : Z) (st : list dl_sched_data_t * ue_db_t) (a : dl_alloc_t) :
    res (list dl_sched_data_t * ue_db_t) :=
  let '(l, db) := st in
  u ← deref db (da_user a);
  ub_unless (Z.of_nat (length l) <? MAX_DATA_LIST) OobWrite (
    '(tbs, data, u') ← generate_formatN1 u dl_sched_data_zero tti (da_i_sf a);
    let db' := db_store db (da_user a) u' in
    Ok (if tbs <=? 0 then l else l ++ [data], db')).

Definition set_dl_data_sched_result (sf : sf_sched) (db : ue_db_t) (r : dl_sched_res_t) :
    res (dl_sched_res_t * ue_db_t) :=
  '(l, db') ← foldM (set_dl_data_step (get_tti_tx_dl sf)) (data_allocs sf) (dl_data r, db);
  Ok (r <| dl_data := l |>, db').

Definition set_ul_step (db : ue_db_t) (l : list ul_sched_data_t) (a : ul_alloc_t) :
    res (list ul_sched_data_t) :=
  u ← deref db (ua_user a);
  ub_unless (Z.of_nat (length l) <? MAX_DATA_LIST) OobWrite (
    '(tbs, data) ← generate_formatN0 u ul_sched_data_zero (ul_needs_npdcch (ua_type a)) (ua_mcs a);
    Ok (if tbs <=? 0 then l else l ++ [data])).

Definition set_ul_sched_result (sf : sf_sched) (db : ue_db_t) (r : ul_sched_res_t) : res ul_sched_res_t :=
  l ← foldM (set_ul_step db) (ul_data_allocs sf) (npusch r);
  Ok (mk_ul_res l).

Definition generate_sched_results (sf : sf_sched) (db : ue_db_t) (r : sf_sched_result) :
    res (sf_sched_result * ue_db_t) :=
  d1 ← set_bc_sched_result sf (dl_sched_result r);
  d2 ← set_rar_sched_result sf d1;
  '(d3, db') ← set_dl_data_sched_result sf db d2;
  u1 ← set_ul_sched_result sf db' (ul_sched_result r);
  Ok (r <| dl_sched_result := d3 |> <| ul_sched_result := u1 |>, db').

(** ** The slots of a downlink allocation *)

(** [n] subframes from [d + i] on, modulo the table. *)
Definition cyc (d i : Z) (n : nat) : list Z := (fun k => (d + k) mod 10240) <$> range i n.

Definition free_slots (tab : gset Z) (l : list Z) : list Z :=
  filter (fun t => data_slot tab t = true) l.

(** The first [n] free subframes of the table's turn that starts at [d]. *)
Definition data_slots (tab : gset Z) (d : Z) (n : nat) : list Z :=
  take n (free_slots tab (cyc d 0 data_fuel)).

#[global] Arguments data_fuel : simpl never.
#[global] Arguments cyc : simpl never.
#[global] Opaque data_fuel bc_sched_new.

Lemma data_fuel_eq : Z.of_nat data_fuel = 10240.
Proof. Transparent data_fuel. unfold data_fuel. lia. Opaque data_fuel. Qed.

Lemma elem_of_cyc d i n x : x ∈ cyc d i n <-> exists k, i <= k < i + Z.of_nat n /\ x = (d + k) mod 10240.
Proof.
  unfold cyc. rewrite list_elem_of_fmap. setoid_rewrite elem_of_range. naive_solver.
Qed.

Lemma cyc_S d i n : cyc d i (S n) = (d + i) mod 10240 :: cyc d (i + 1) n.
Proof. unfold cyc. by rewrite range_S. Qed.

Lemma NoDup_cyc d i n : 0 <= i -> i + Z.of_nat n <= 10240 -> NoDup (cyc d i n).
Proof.
  revert i; induction n as [|n IH]; intros i Hi Hn; [apply NoDup_nil_2|].
  rewrite cyc_S. apply NoDup_cons; split; [|apply IH; lia].
  rewrite elem_of_cyc. intros (k & Hk & E).
  pose proof (Z.div_mod (d + i) 10240). pose proof (Z.div_mod (d + k) 10240). nia.
Qed.

Lemma cyc_complete d x : is_tti x -> x ∈ cyc d 0 data_fuel.
Proof.
  intros Hx. rewrite elem_of_cyc, data_fuel_eq. exists ((x - d) mod 10240).
  unfold is_tti in Hx. split; dlia.
Qed.

Lemma free_slots_insert tab t l : t ∉ l -> free_slots ({[t]} ∪ tab) l = free_slots tab l.
Proof.
  unfold free_slots. induction l as [|x l IH]; intros Ht; [done|].
  rewrite !filter_cons, IH by (intros ?; apply Ht; by apply list_elem_of_further).
  assert (data_slot ({[t]} ∪ tab) x = data_slot tab x) as ->; [|done].
  unfold data_slot. do 3 f_equal. apply bool_decide_ext. set_solver.
Qed.

(** The search loop computes exactly that list, and fails to terminate exactly
    when the table does not hold enough free subframes. *)
Lemma alloc_data_loop_spec fuel b tab d i rem :
  bc_inv b -> is_tti d -> 0 <= i -> i + Z.of_nat fuel <= 10240 -> 0 <= rem ->
  alloc_data_loop fuel b tab d i rem =
    let free := free_slots tab (cyc d i fuel) in
    if rem <=? Z.of_nat (length free)
    then Ok (list_to_set (take (Z.to_nat rem) free) ∪ tab) else Diverge.
Proof.
  intros Hb Hd. revert tab i rem; induction fuel as [|fuel IH]; intros tab i rem Hi Hf Hr; cbn zeta.
  - change (cyc d i 0) with (@nil Z). cbn. change (Z.of_nat 0) with 0.
    destruct (Z.leb_spec rem 0); [|done].
    replace rem with 0 by lia. cbn. f_equal. set_solver.
  - rewrite cyc_S. cbn [alloc_data_loop].
    destruct (Z.leb_spec rem 0).
    { match goal with |- context [rem <=? ?n] => destruct (Z.leb_spec rem n); [|lia] end.
      replace rem with 0 by lia. cbn [Z.to_nat take list_to_set]. f_equal. set_solver. }
    unfold is_tti in Hd. rewrite u32_id by lia.
    set (t := (d + i) mod 10240). assert (Ht : is_tti t) by apply mod_is_tti.
    assert (Hnin : t ∉ cyc d (i + 1) fuel).
    { pose proof (NoDup_cyc d i (S fuel) Hi Hf) as Hnd. rewrite cyc_S in Hnd.
      by apply NoDup_cons in Hnd as [? _]. }
    rewrite tab_get_tti, is_sib1_sf_tti by done. cbn [mbind res_bind].
    fold (data_slot tab t).
    unfold free_slots at 1 2. rewrite filter_cons.
    destruct (data_slot tab t) eqn:Efree.
    + rewrite decide_True by done. rewrite tab_set_tti by done. cbn [mbind res_bind].
      rewrite IH by lia. cbn zeta. fold (free_slots tab (cyc d (i + 1) fuel)).
      rewrite free_slots_insert by done.
      replace (Z.to_nat rem) with (S (Z.to_nat (rem - 1))) by lia.
      cbn [length take list_to_set].
      destruct (Z.leb_spec (rem - 1) (Z.of_nat (length (free_slots tab (cyc d (i + 1) fuel)))));
        destruct (Z.leb_spec rem (Z.of_nat (S (length (free_slots tab (cyc d (i + 1) fuel))))));
        try lia; try done. f_equal. set_solver.
    + rewrite decide_False by done. rewrite IH by lia. done.
Qed.

Lemma elem_of_free_slots tab l x : x ∈ free_slots tab l <-> x ∈ l /\ data_slot tab x = true.
Proof. unfold free_slots. rewrite list_elem_of_filter. tauto. Qed.

Lemma data_slots_spec tab d n x :
  x ∈ data_slots tab d n ->
  is_tti x /\ srslte_ra_nbiot_is_valid_dl_sf x = true /\ (x ∉ tab) /\ sib1_slot x = false.
Proof.
  unfold data_slots. intros Hx.
  apply (fun H => elem_of_sublist _ _ x H (sublist_take _ _)), elem_of_free_slots in Hx as [Hx Hf].
  apply elem_of_cyc in Hx as (k & _ & ->).
  unfold data_slot in Hf. split; [apply mod_is_tti|].
  apply andb_true_iff in Hf as [Hf Hs]. apply andb_true_iff in Hf as [Hv Hb].
  split_and!; [done| |by apply negb_true_iff].
  apply negb_true_iff, bool_decide_eq_false in Hb. done.
Qed.

Lemma NoDup_data_slots tab d n : NoDup (data_slots tab d n).
Proof.
  unfold data_slots. eapply sublist_NoDup; [|apply sublist_take].
  apply NoDup_filter, NoDup_cyc; rewrite ?data_fuel_eq; lia.
Qed.

(** ** [alloc_dl_user] as a function of the table *)

(** A subframe that may carry the user's DCI. *)
Definition dci_slot (tab : gset Z) (t : Z) : bool :=
  srslte_ra_nbiot_is_valid_dl_sf t && negb (bool_decide (t ∈ tab)) && (t mod 8 <? 2)
  && negb (sib1_slot t).

Definition n_data_sf (max_data : Z) : nat := if max_data >? 20 then 3 else 1.
Definition data_i_sf (max_data : Z) : Z := if max_data >? 20 then 2 else 0.

Definition granted_slots (tab : gset Z) (t : Z) (max_data : Z) : list Z :=
  data_slots ({[t]} ∪ tab) ((t + 5) mod 10240) (n_data_sf max_data).

(** The user is told to send 70 more bytes of DRB data, 30 subframes later. *)
Definition ul_follow_up (u : sched_ue) : sched_ue :=
  ul_wait_timer (ul_buffer_state u 3 70 false) 30 true.

Lemma alloc_dl_user_eq sf e user max_data u t :
  deref (e_db e) user = Ok u -> is_tti t -> get_tti_tx_dl sf = t ->
  alloc_dl_user sf e user max_data =
    if is_dl_alloc sf user then Ok (ERROR, sf, e)
    else if negb (dci_slot (e_dl e) t) then Ok (RB_COLLISION, sf, e)
    else if Z.of_nat (n_data_sf max_data) <=?
            Z.of_nat (length (free_slots ({[t]} ∪ e_dl e) (cyc ((t + 5) mod 10240) 0 data_fuel)))
    then Ok (SUCCESS,
             sf <| data_allocs := data_allocs sf ++ [mk_dl_alloc user (data_i_sf max_data)] |>,
             e <| e_dl := list_to_set (granted_slots (e_dl e) t max_data) ∪ ({[t]} ∪ e_dl e) |>
               <| e_db := db_store (e_db e) user (ul_follow_up u) |>)
    else Diverge.
Proof.
  intros Hu Ht Et. unfold alloc_dl_user. rewrite Et. destruct (is_dl_alloc sf user); [done|].
  unfold dci_slot. destruct (srslte_ra_nbiot_is_valid_dl_sf t); [|done]. cbn [negb andb].
  rewrite tab_get_tti by done. cbn [mbind res_bind].
  case_bool_decide as Hbusy; cbn [negb andb]; [done|].
  assert ((t mod 8 >=? 2) = negb (t mod 8 <? 2)) as -> by lia.
  destruct (t mod 8 <? 2); cbn [negb andb]; [|done].
  destruct bc_sched_new_ok as (b & -> & Hb & _). cbn [mbind res_bind].
  rewrite is_sib1_sf_tti by done. cbn [mbind res_bind].
  destruct (sib1_slot t); cbn [negb]; [done|].
  assert (arr_read i_sf_to_n_sf_npdsch (if max_data >? 20 then 2 else 0) =
          Ok (Z.of_nat (n_data_sf max_data))) as ->.
  { unfold n_data_sf. by destruct (max_data >? 20). }
  rewrite bind_ok_l, tab_set_tti, bind_ok_l by done.
  rewrite alloc_data_loop_spec; [|done|apply mod_is_tti|lia|rewrite data_fuel_eq; lia|lia].
  cbn zeta. destruct (_ <=? _); [|reflexivity]. rewrite Nat2Z.id. rewrite ?bind_ok_l.
  unfold db_update. rewrite Hu. rewrite ?bind_ok_l.
  unfold granted_slots, data_slots, data_i_sf, ul_follow_up. reflexivity.
Qed.

Lemma is_dl_alloc_In sf user : is_dl_alloc sf user = true <-> user ∈ da_user <$> data_allocs sf.
Proof.
  unfold is_dl_alloc. rewrite existsb_exists, list_elem_of_fmap. split.
  - intros (a & Ha%list_elem_of_In & Heq%bool_decide_eq_true). eauto.
  - intros (a & -> & Ha). exists a. split; [by apply list_elem_of_In|by rewrite bool_decide_eq_true].
Qed.

Lemma is_ul_alloc_In sf user : is_ul_alloc sf user = true <-> user ∈ ua_user <$> ul_data_allocs sf.
Proof.
  unfold is_ul_alloc. rewrite existsb_exists, list_elem_of_fmap. split.
  - intros (a & Ha%list_elem_of_In & Heq%bool_decide_eq_true). eauto.
  - intros (a & -> & Ha). exists a. split; [by apply list_elem_of_In|by rewrite bool_decide_eq_true].
Qed.

(** ** Uplink tables *)
Definition span (t : Z) (n : nat) : list Z := (fun k => (t + k) mod 10240) <$> range 0 n.

Lemma span_S t n : 0 <= t -> span t (S n) = t mod 10240 :: span (t + 1) n.
Proof.
  intros Ht. unfold span. rewrite range_S. cbn. f_equal; [by rewrite Z.add_0_r|].
  unfold range. rewrite <- !list_fmap_compose. apply list_fmap_ext; intros; cbn. f_equal; lia.
Qed.

Lemma any_busy_spec n tab t :
  0 <= t -> t + Z.of_nat n < 2 ^ 32 ->
  any_busy n tab t = Ok (existsb (fun x => bool_decide (x ∈ tab)) (span t n)).
Proof.
  revert t; induction n as [|n IH]; intros t Ht Hn; [done|].
  cbn [any_busy]. rewrite span_S, u32_id by lia. rewrite tab_get_tti by apply mod_is_tti.
  cbn [mbind res_bind existsb]. case_bool_decide; [done|]. rewrite IH by lia. done.
Qed.

Lemma mark_all_spec n tab t :
  0 <= t -> t + Z.of_nat n < 2 ^ 32 ->
  exists tab', mark_all n tab t = Ok tab' /\ forall x, x ∈ tab' <-> x ∈ span t n \/ x ∈ tab.
Proof.
  revert tab t; induction n as [|n IH]; intros tab t Ht Hn.
  - exists tab; split; [done|]. intros x. unfold span; cbn. rewrite elem_of_nil. tauto.
  - cbn [mark_all]. rewrite span_S, u32_id by lia. rewrite tab_set_tti by apply mod_is_tti.
    cbn [mbind res_bind].
    destruct (IH ({[t mod 10240]} ∪ tab) (t + 1)) as (tab' & -> & H); [lia..|].
    exists tab'; split; [done|]. intros x. rewrite H, elem_of_union, elem_of_singleton, elem_of_cons.
    tauto.
Qed.

Lemma any_busy_same_4 tab t : any_busy_same 4 tab t = Ok (bool_decide (t mod 10240 ∈ tab)).
Proof.
  cbn [any_busy_same]. rewrite tab_get_tti by apply mod_is_tti. cbn [mbind res_bind].
  by case_bool_decide.
Qed.

Lemma mark_same_4 tab t :
  exists tab', mark_same 4 tab t = Ok tab' /\ tab' = {[t mod 10240]} ∪ tab.
Proof.
  cbn [mark_same]. rewrite !tab_set_tti by apply mod_is_tti. cbn [mbind res_bind].
  rewrite ?tab_set_tti by apply mod_is_tti. cbn [mbind res_bind].
  rewrite ?tab_set_tti by apply mod_is_tti. cbn [mbind res_bind].
  rewrite ?tab_set_tti by apply mod_is_tti. cbn [mbind res_bind].
  eexists; split; [done|]. set_solver.
Qed.

(** Msg3 follows the RAR payload by 13 subframes: 12 of scheduling delay and
    one, counted from the payload's last subframe. *)
Lemma msg3_rx_tti_spec t :
  is_tti t ->
  exists r, next_valid_dl_sf valid_dl_sf_fuel ((TTI_SUB t 9 + 5) mod 10240) = Ok r /\
    is_tti r /\ msg3_rx_tti t = Ok (r + 13).
Proof.
  intros Ht. unfold msg3_rx_tti.
  replace (u32 (t + 10240 - 9) mod 10240) with (TTI_SUB t 9) by reflexivity.
  destruct (next_valid_dl_sf_spec ((TTI_SUB t 9 + 5) mod 10240)) as (d & r & -> & _ & _ & Hr & _);
    [apply mod_is_tti|]. cbn. eauto.
Qed.

(** ** [alloc_ul] as a function of the tables *)

Definition busy_in (tab : gset Z) (l : list Z) : bool :=
  existsb (fun x => bool_decide (x ∈ tab)) l.

Lemma busy_in_false tab l : busy_in tab l = false <-> forall x, x ∈ l -> x ∉ tab.
Proof.
  unfold busy_in. rewrite <- not_true_iff_false, existsb_exists. split.
  - intros H x Hx Ht. apply H. exists x. split; [by apply list_elem_of_In|by rewrite bool_decide_eq_true].
  - intros H (x & Hx%list_elem_of_In & Ht%bool_decide_eq_true). by apply (H x).
Qed.

Lemma elem_of_span t n x : x ∈ span t n <-> exists k, 0 <= k < Z.of_nat n /\ x = (t + k) mod 10240.
Proof. unfold span. rewrite list_elem_of_fmap. setoid_rewrite elem_of_range. naive_solver. Qed.

Lemma alloc_msg3_eq sf e user g t r :
  get_tti_tx_dl sf = t -> is_tti t -> g_i_mcs (rg_grant g) = 0 ->
  msg3_rx_tti t = Ok r -> 0 <= r < 20000 -> is_ul_alloc sf user = false ->
  if busy_in (e_ul e) (span r 4) then alloc_msg3 sf e user g = Ok (RB_COLLISION, sf, e)
  else exists ul', alloc_msg3 sf e user g =
         Ok (SUCCESS,
             sf <| ul_data_allocs := ul_data_allocs sf ++ [mk_ul_alloc MSG3 user (mk_ul_grid_alloc 12 4) 0] |>,
             e <| e_ul := ul' |>) /\
       forall x, x ∈ ul' <-> x ∈ span r 4 \/ x ∈ e_ul e.
Proof.
  intros Et Ht Hm Hr Hrr Ha. unfold alloc_msg3. rewrite Hm, Z.eqb_refl. unfold alloc_ul.
  rewrite Ha. cbn [is_msg3 ul_needs_npdcch]. unfold alloc_ul_msg3. cbn [len].
  rewrite Et, Hr, bind_ok_l. change (Z.to_nat 4) with 4%nat.
  rewrite any_busy_spec by lia. rewrite bind_ok_l. fold (busy_in (e_ul e) (span r 4)).
  destruct (busy_in (e_ul e) (span r 4)); [done|].
  destruct (mark_all_spec 4 (e_ul e) r) as (ul' & -> & Hul); [lia|lia|].
  rewrite !bind_ok_l. exists ul'. done.
Qed.

(** A new-data grant: when it is made, and what it does to the state. *)
Definition newtx_ok (e : env) (t tul : Z) : bool := dci_slot (e_dl e) t && negb (bool_decide (tul ∈ e_ul e)).

(** SIB1's subframes are outside the search space anyway. *)
Lemma dci_slot_eq tab t :
  dci_slot tab t = srslte_ra_nbiot_is_valid_dl_sf t && negb (bool_decide (t ∈ tab)) && (t mod 8 <? 2).
Proof.
  unfold dci_slot. destruct (sib1_slot t) eqn:E; [|by rewrite andb_true_r].
  unfold sib1_slot in E. assert ((t mod 8 <? 2) = false) as -> by dlia. by rewrite !andb_false_r.
Qed.

Lemma alloc_ul_newtx_eq sf e user al u t tul :
  get_tti_tx_dl sf = t -> get_tti_tx_ul sf = tul -> is_tti t -> is_tti tul ->
  deref (e_db e) user = Ok u -> is_ul_alloc sf user = false ->
  alloc_ul_user sf e user al =
    if negb (msg_wait_timer u =? 0) then
      Ok (DCI_COLLISION, sf,
          e <| e_db := db_store (e_db e) user (u <| msg_wait_timer := msg_wait_timer u - 1 |>) |>)
    else if negb (dci_slot (e_dl e) t) then Ok (DCI_COLLISION, sf, e)
    else if bool_decide (tul ∈ e_ul e) then Ok (RB_COLLISION, sf, e)
    else Ok (SUCCESS,
             sf <| ul_data_allocs := ul_data_allocs sf ++
                     [mk_ul_alloc NEWTX user (mk_ul_grid_alloc 12 4)
                        (if get_pending_ul_new_data u t >=? 125 then 12 else 9)] |>,
             e <| e_ul := {[t; tul]} ∪ e_ul e |>).
Proof.
  intros Et Eu Ht Htu Hu Ha. unfold alloc_ul_user, alloc_ul. rewrite Ha.
  cbn [is_msg3 ul_needs_npdcch]. rewrite bind_ok_l. unfold alloc_ul_npdcch.
  rewrite Hu, bind_ok_l. destruct (msg_wait_timer u =? 0); cbn [negb]; [|done].
  rewrite Et, Eu, dci_slot_eq.
  destruct (srslte_ra_nbiot_is_valid_dl_sf t); cbn [negb andb]; [|done].
  rewrite tab_get_tti by done. rewrite bind_ok_l. case_bool_decide; cbn [negb andb]; [done|].
  assert ((t mod 8 >=? 2) = negb (t mod 8 <? 2)) as -> by lia.
  destruct (t mod 8 <? 2); cbn [negb andb]; [|done].
  cbn [len]. change (Z.to_nat 4) with 4%nat. rewrite any_busy_same_4, bind_ok_l.
  assert (tul mod 10240 = tul) as -> by (apply Z.mod_small, Htu).
  case_bool_decide; cbn [negb]; [done|].
  destruct (mark_same_4 (e_ul e) tul) as (tab & -> & ->).
  assert (tul mod 10240 = tul) as -> by (apply Z.mod_small, Htu).
  rewrite bind_ok_l, tab_set_tti by done. rewrite !bind_ok_l.
  do 3 f_equal. rewrite assoc_L by apply _. done.
Qed.

(** ** Schedules *)

(** A user is granted at most once per direction. *)
Definition sf_wf (sf : sf_sched) : Prop :=
  NoDup (da_user <$> data_allocs sf) /\ NoDup (ua_user <$> ul_data_allocs sf).

Lemma NoDup_snoc {A} (l : list A) x : NoDup l -> x ∉ l -> NoDup (l ++ [x]).
Proof.
  intros Hl Hx. apply NoDup_app. split_and!; [done| |apply NoDup_singleton].
  intros y Hy ->%list_elem_of_singleton. done.
Qed.

Lemma not_true_In {P : Prop} {b : bool} : (b = true <-> P) -> b = false -> ~ P.
Proof. intros [_ H] Hb HP. rewrite H in Hb; done. Qed.

Lemma alloc_dl_user_wf sf e user max_data o sf' e' :
  sf_wf sf -> alloc_dl_user sf e user max_data = Ok (o, sf', e') -> sf_wf sf'.
Proof.
  intros [Hd Hu] H. unfold alloc_dl_user in H.
  destruct (is_dl_alloc sf user) eqn:Ea; [by injection H as <- <- <-|].
  destruct (negb _); [by injection H as <- <- <-|]. res_inv H.
  case_match; [by res_inv H|]. case_match; [by res_inv H|]. res_inv H.
  case_match; res_inv H; [done|]. split; cbn; [|done].
  rewrite fmap_app. apply NoDup_snoc; [done|].
  by apply (not_true_In (is_dl_alloc_In sf user)).
Qed.

Lemma alloc_ul_wf sf e user al ty mcs o sf' e' :
  sf_wf sf -> alloc_ul sf e user al ty mcs = Ok (o, sf', e') -> sf_wf sf'.
Proof.
  intros [Hd Hu] H. unfold alloc_ul in H.
  destruct (is_ul_alloc sf user) eqn:Ea; [by injection H as <- <- <-|].
  apply bind_Ok in H as ([c e1] & _ & H). destruct c; [by injection H as <- <- <-|].
  apply bind_Ok in H as ([c2 e2] & _ & H). destruct c2; [by injection H as <- <- <-|].
  injection H as <- <- <-. split; cbn; [done|].
  rewrite fmap_app. apply NoDup_snoc; [done|].
  by apply (not_true_In (is_ul_alloc_In sf user)).
Qed.

Lemma alloc_msg3_wf sf e user g o sf' e' :
  sf_wf sf -> alloc_msg3 sf e user g = Ok (o, sf', e') -> sf_wf sf'.
Proof.
  unfold alloc_msg3. intros Hw H. case_match; [by eapply alloc_ul_wf|by injection H as <- <- <-].
Qed.

Lemma new_tti_wf sf t : sf_wf (new_tti sf t).
Proof. split; apply NoDup_nil_2. Qed.

(** ** The result of a subframe *)

(** Everything a schedule refers to can be turned into a result: the users
    exist, their blocks fit, and the lists are within the result's arrays. *)
Record sf_ready (sf : sf_sched) (db : ue_db_t) : Prop := mk_sf_ready {
  sr_bc : Z.of_nat (length (bc_allocs sf)) <= MAX_BC_LIST;
  sr_rar : Z.of_nat (length (rar_allocs sf)) <= MAX_RAR_LIST;
  sr_data : Z.of_nat (length (data_allocs sf)) <= MAX_DATA_LIST;
  sr_ul : Z.of_nat (length (ul_data_allocs sf)) <= MAX_DATA_LIST;
  sr_nodup : NoDup (da_user <$> data_allocs sf);
  sr_users : forall a, a ∈ data_allocs sf ->
    0 <= da_i_sf a <= 2 /\ exists u, deref db (da_user a) = Ok u /\ wf_ue u /\ pdus_fit u;
  sr_ul_users : forall a, a ∈ ul_data_allocs sf -> 0 <= ua_mcs a <= 12 /\ valid_ptr db (ua_user a)
}.

Lemma foldM_push {A B} max (f : A -> B) (l : list A) (acc : list B) :
  Z.of_nat (length acc + length l) <= max ->
  foldM (fun r a => push_bounded max r (f a)) l acc = Ok (acc ++ (f <$> l)).
Proof.
  revert acc; induction l as [|a l IH]; intros acc H; [by rewrite app_nil_r|].
  cbn [foldM length] in *. unfold push_bounded.
  replace (_ <? max) with true by lia. cbn [mbind res_bind].
  rewrite IH by (rewrite length_app; cbn [length]; lia). by rewrite <- app_assoc.
Qed.

Lemma valid_ptr_rnti_inj db p q :
  valid_ptr db p -> valid_ptr db q -> p_rnti p = p_rnti q -> p = q.
Proof.
  intros [u Hu] [v Hv] E. rewrite E, Hv in Hu. injection Hu as Eid _.
  destruct p, q; cbn in *; congruence.
Qed.

(** The control elements still queued were queued before. *)
Definition ces_kept (db db' : ue_db_t) : Prop :=
  forall p u', deref db' p = Ok u' -> exists u, deref db p = Ok u /\ pending_ces u' `suffix_of` pending_ces u.

#[global] Instance ces_kept_preorder : PreOrder ces_kept.
Proof.
  split; [by intros db p u Hu; exists u|]. intros db1 db2 db3 H1 H2 p u3 Hu3.
  destruct (H2 p u3 Hu3) as (u2 & Hu2 & Hs2). destruct (H1 p u2 Hu2) as (u1 & Hu1 & Hs1).
  exists u1. split; [done|]. by etrans.
Qed.

Lemma ces_kept_store db p u v :
  deref db p = Ok v -> pending_ces u `suffix_of` pending_ces v -> ces_kept db (db_store db p u).
Proof.
  intros Hv Hs q w Hw. destruct (decide (p_rnti p = p_rnti q)) as [E|].
  - assert (q = p) as ->.
    { apply (valid_ptr_rnti_inj (db_store db p u)); [apply valid_ptr_deref; eauto| |done].
      apply valid_ptr_deref. exists u. apply deref_store_eq. }
    rewrite deref_store_eq in Hw. injection Hw as <-. by exists v.
  - rewrite deref_store_ne in Hw by done. by exists w.
Qed.

(** The element of a downlink result an allocation gives. *)
Definition dl_elem (db : ue_db_t) (a : dl_alloc_t) (d : dl_sched_data_t) : Prop :=
  exists u tbs u' sent new, deref db (da_user a) = Ok u /\ block_filled u (da_i_sf a) tbs d u' sent new.

Lemma set_dl_data_fold tti l acc db :
  Z.of_nat (length acc + length l) <= MAX_DATA_LIST -> NoDup (da_user <$> l) ->
  (forall a, a ∈ l -> 0 <= da_i_sf a <= 2 /\
     exists u, deref db (da_user a) = Ok u /\ wf_ue u /\ pdus_fit u) ->
  exists acc' db', foldM (set_dl_data_step tti) l (acc, db) = Ok (acc ++ acc', db') /\
    Forall2 (dl_elem db) l acc' /\ same_users db db' /\ ces_kept db db' /\
    (forall p, p ∉ da_user <$> l -> valid_ptr db p -> deref db' p = deref db p) /\
    (users_ok db -> users_ok db').
Proof.
  revert acc db; induction l as [|a l IH]; intros acc db Hlen Hnd Hu.
  { exists [], db. rewrite app_nil_r. split_and!; [done|constructor|done|reflexivity|done..]. }
  cbn [length] in Hlen. rewrite fmap_cons in Hnd. apply NoDup_cons in Hnd as [Hna Hnd].
  destruct (Hu a (list_elem_of_here _ _)) as (Hi & u & Hd & Hw & Hf).
  cbn [foldM]. unfold set_dl_data_step at 2. rewrite Hd, bind_ok_l.
  unfold ub_unless. replace (_ <? MAX_DATA_LIST) with true by lia.
  destruct (generate_formatN1_filled u dl_sched_data_zero tti (da_i_sf a))
    as (tbs & data & u' & sent & new & -> & Hb); [done..|lia|].
  rewrite bind_ok_l. pose proof (bf_tbs _ _ _ _ _ _ _ Hb) as [_ Ht].
  replace (tbs <=? 0) with false by lia. rewrite bind_ok_l.
  assert (Hvalid : valid_ptr db (da_user a)) by (apply valid_ptr_deref; eauto).
  assert (Hne : forall p, valid_ptr db p -> p <> da_user a -> p_rnti (da_user a) <> p_rnti p).
  { intros p Hp Hpa E. apply Hpa. symmetry. by apply (valid_ptr_rnti_inj db). }
  assert (Hother : forall a', a' ∈ l -> deref (db_store db (da_user a) u') (da_user a') = deref db (da_user a')).
  { intros a' Ha'. destruct (Hu a' ltac:(by apply list_elem_of_further)) as (_ & v & Hv & _).
    apply deref_store_ne. apply Hne; [apply valid_ptr_deref; eauto|]. intros E. apply Hna. rewrite <- E.
    apply list_elem_of_fmap. eauto. }
  destruct (IH (acc ++ [data]) (db_store db (da_user a) u')) as (acc' & db' & -> & Hl & Hs & Hck & Hrest & Hrn).
  - rewrite length_app. cbn [length]. lia.
  - done.
  - intros a' Ha'. rewrite (Hother a' Ha'). apply Hu. by apply list_elem_of_further.
  - exists (data :: acc'), db'. rewrite <- app_assoc. split_and!; [done| | | | |].
    + constructor; [by exists u, tbs, u', sent, new|]. clear -Hother Hl.
      induction Hl as [|a' d l acc' (v & He) Hl IH]; constructor.
      * exists v. rewrite <- (Hother a' (list_elem_of_here _ _)). exact He.
      * apply IH. intros; apply Hother; by apply list_elem_of_further.
    + etrans; [by apply db_store_same|done].
    + etrans; [|exact Hck]. apply (ces_kept_store _ _ _ u); [done|]. exists sent.
      apply (bf_ces _ _ _ _ _ _ _ Hb).
    + intros p Hp Hpv. rewrite fmap_cons in Hp. apply not_elem_of_cons in Hp as [Hpa Hp].
      rewrite Hrest; [apply deref_store_ne; by apply Hne|done|].
      by apply (same_users_valid db); [apply db_store_same|].
    + intros Hr. apply Hrn. eapply users_ok_store; [done|exact Hd|apply (bf_wf _ _ _ _ _ _ _ Hb)| |].
      * by apply (bf_fit _ _ _ _ _ _ _ Hb).
      * apply (bf_ctrl _ _ _ _ _ _ _ Hb).
Qed.

(** The elements of an uplink result. *)
Definition ul_elem (a : ul_alloc_t) (d : ul_sched_data_t) : Prop :=
  arr2_read tbs_table_npusch (ua_mcs a) 3 = Ok (u_tbs d) /\ 0 < u_tbs d /\
  ul_i_mcs (u_dci d) = ua_mcs a /\ ul_rnti (u_dci d) = p_rnti (ua_user a) /\
  needs_npdcch d = ul_needs_npdcch (ua_type a).

Lemma tbs_table_npusch_entries m : 0 <= m <= 12 ->
  exists tbs, arr2_read tbs_table_npusch m 3 = Ok tbs /\ 0 < tbs <= 1000.
Proof.
  intros Hm.
  assert (Hall : forallb (fun m => match arr2_read tbs_table_npusch m 3 with
      | Ok b => (0 <? b) && (b <=? 1000) | _ => false end) (range 0 13) = true) by reflexivity.
  rewrite forallb_forall in Hall.
  specialize (Hall m ltac:(apply list_elem_of_In, elem_of_range; lia)).
  destruct (arr2_read tbs_table_npusch m 3) as [b| |]; [|done..]. exists b. split; [done|lia].
Qed.

Lemma generate_formatN0_ok u data needs m :
  0 <= m <= 12 -> exists tbs, arr2_read tbs_table_npusch m 3 = Ok tbs /\ 0 < tbs <= 1000 /\
    generate_formatN0 u data needs m =
      Ok (tbs, data <| SchedTypes.needs_npdcch := needs |> <| u_tbs := tbs |>
                    <| u_dci := (u_dci data) <| ul_rnti := ue_rnti u |> <| ul_format := 0 |>
                           <| ul_i_mcs := m |> <| ul_i_ru := 3 |> <| ul_i_sc := 18 |> |>).
Proof.
  intros Hm. destruct (tbs_table_npusch_entries m Hm) as (tbs & Ht & Hpos).
  exists tbs. split_and!; [done|lia|lia|]. unfold generate_formatN0.
  replace (m >=? 0) with true by lia. rewrite bind_ok_l. replace (m >=? 0) with true by lia.
  rewrite Ht, bind_ok_l. by replace (tbs >? 0) with true by lia.
Qed.

Lemma set_ul_fold db l acc :
  Z.of_nat (length acc + length l) <= MAX_DATA_LIST ->
  (forall a, a ∈ l -> 0 <= ua_mcs a <= 12 /\ valid_ptr db (ua_user a)) ->
  (forall a u, a ∈ l -> deref db (ua_user a) = Ok u -> ue_rnti u = p_rnti (ua_user a)) ->
  exists acc', foldM (set_ul_step db) l acc = Ok (acc ++ acc') /\ Forall2 ul_elem l acc'.
Proof.
  revert acc; induction l as [|a l IH]; intros acc Hlen Hu Hr.
  { exists []. rewrite app_nil_r. split; [done|constructor]. }
  cbn [length] in Hlen.
  destruct (Hu a (list_elem_of_here _ _)) as (Hm & [u Hd]%valid_ptr_deref).
  cbn [foldM]. unfold set_ul_step at 2. rewrite Hd, bind_ok_l.
  unfold ub_unless. replace (_ <? MAX_DATA_LIST) with true by lia.
  destruct (generate_formatN0_ok u ul_sched_data_zero (ul_needs_npdcch (ua_type a)) (ua_mcs a) Hm)
    as (tbs & Ht & Hpos & ->).
  rewrite bind_ok_l. replace (tbs <=? 0) with false by lia. rewrite bind_ok_l.
  match goal with |- context [foldM _ l (acc ++ [?d])] => set (data := d) end.
  destruct (IH (acc ++ [data])) as (acc' & -> & Hall).
  - rewrite length_app. cbn [length]. lia.
  - intros; apply Hu; by apply list_elem_of_further.
  - intros a' v Ha'; apply Hr; by apply list_elem_of_further.
  - exists (data :: acc'). rewrite <- app_assoc. split; [done|]. constructor; [|done].
    unfold ul_elem, data; cbn. rewrite (Hr a u (list_elem_of_here _ _) Hd). split_and!; try done; lia.
Qed.

Lemma generate_sched_results_ok sf db :
  sf_ready sf db -> users_ok db ->
  exists r db', generate_sched_results sf db sf_sched_result_zero = Ok (r, db') /\
    dl_bc (dl_sched_result r) = (fun a => mk_dl_bc (bc_dci a) (bc_is_new_sib a)) <$> bc_allocs sf /\
    dl_rar (dl_sched_result r) = rar_elem <$> rar_allocs sf /\
    Forall2 (dl_elem db) (data_allocs sf) (dl_data (dl_sched_result r)) /\
    Forall2 ul_elem (ul_data_allocs sf) (npusch (ul_sched_result r)) /\
    same_users db db' /\ users_ok db' /\ ces_kept db db'.
Proof.
  intros Hr Hdb. pose proof Hr as [Hbc Hrar Hdat Hul Hnd Hus Hulu]. unfold generate_sched_results.
  unfold set_bc_sched_result. rewrite foldM_push by (cbn; lia).
  rewrite !bind_ok_l. unfold set_rar_sched_result.
  rewrite foldM_push by (cbn; lia). rewrite !bind_ok_l. unfold set_dl_data_sched_result.
  destruct (set_dl_data_fold (get_tti_tx_dl sf) (data_allocs sf) [] db)
    as (acc' & db' & Hf & Hl & Hs & Hck & _ & Hrn); [cbn [length]; lia|done|done|].
  cbn [dl_data dl_sched_result sf_sched_result_zero dl_sched_res_zero upd] in *.
  rewrite Hf, !bind_ok_l. unfold set_ul_sched_result.
  change (npusch (ul_sched_result sf_sched_result_zero)) with (@nil ul_sched_data_t).
  destruct (set_ul_fold db' (ul_data_allocs sf) []) as (acc2 & -> & H2).
  - cbn [length]. lia.
  - intros a Ha. destruct (Hulu a Ha); split; [done|]. by apply (same_users_valid db).
  - intros a u _ Hd. apply (users_ok_deref db'); [by apply Hrn|done].
  - rewrite !bind_ok_l. eexists _, db'; split; [reflexivity|]. cbn. split_and!; try done.
    by apply Hrn.
Qed.

Lemma sf_ready_valid_dl sf db a : sf_ready sf db -> a ∈ data_allocs sf -> valid_ptr db (da_user a).
Proof. intros Hr Ha. destruct (sr_users _ _ Hr a Ha) as (_ & u & Hu & _). apply valid_ptr_deref; eauto. Qed.

(** ** Properties *)

(** C9. Downlink allocation, exactly: the DCI subframe must be a valid, free
    subframe of the search space and not SIB1's; then one or three data
    subframes are reserved, the first free ones from five subframes later on,
    each valid, free and not SIB1's; the user's uplink follow-up is set; and
    the search runs forever when and only when the table is too full. *)
Theorem alloc_dl_user_exact sf e user max_data u :
  deref (e_db e) user = Ok u -> is_tti (get_tti_tx_dl sf) -> is_dl_alloc sf user = false ->
  let t := get_tti_tx_dl sf in
  let room := free_slots ({[t]} ∪ e_dl e) (cyc ((t + 5) mod 10240) 0 data_fuel) in
  let slots := take (n_data_sf max_data) room in
  if negb (dci_slot (e_dl e) t) then alloc_dl_user sf e user max_data = Ok (RB_COLLISION, sf, e)
  else if (length room <? n_data_sf max_data)%nat then alloc_dl_user sf e user max_data = Diverge
  else exists sf' e', alloc_dl_user sf e user max_data = Ok (SUCCESS, sf', e') /\
    (forall x, x ∈ e_dl e' <-> x = t \/ x ∈ slots \/ x ∈ e_dl e) /\
    length slots = n_data_sf max_data /\ NoDup slots /\
    (forall x, x ∈ slots -> x <> t /\ (x ∉ e_dl e) /\ srslte_ra_nbiot_is_valid_dl_sf x = true /\
       sib1_slot x = false) /\
    e_ul e' = e_ul e /\ deref (e_db e') user = Ok (ul_follow_up u) /\
    srslte_ra_n_sf_from_dci (fill_dci_N1 u dl_dci_zero 0 (data_i_sf max_data)) =
      Z.of_nat (length slots).
Proof.
  intros Hu Ht Ha t room slots.
  pose proof (alloc_dl_user_eq sf e user max_data u t Hu Ht eq_refl) as Heq. rewrite Ha in Heq.
  destruct (negb (dci_slot (e_dl e) t)); [done|]. fold room in Heq.
  destruct (Nat.ltb_spec (length room) (n_data_sf max_data)).
  { rewrite Heq. replace (_ <=? _) with false by lia. done. }
  replace (_ <=? _) with true in Heq by lia. rewrite Heq.
  change (granted_slots (e_dl e) t max_data) with slots.
  eexists _, _; split; [reflexivity|]. cbn [e_dl e_ul e_db upd].
  assert (Hlen : length slots = n_data_sf max_data) by (unfold slots; rewrite length_take; lia).
  split_and!; try done.
  - intros x. rewrite !elem_of_union, elem_of_list_to_set, elem_of_singleton. tauto.
  - apply NoDup_data_slots.
  - intros x Hx. destruct (data_slots_spec _ _ _ _ Hx) as (_ & Hv & Hn & Hs).
    split_and!; try done; intros E; apply Hn; set_solver.
  - apply deref_store_eq.
  - rewrite Hlen. unfold n_data_sf, data_i_sf. by destruct (max_data >? 20).
Qed.

(** Msg3: the four uplink subframes that start 13 subframes after the RAR
    payload, which is sent in the first valid subframe from five after the RAR's
    DCI on, are reserved together or not at all; nothing else changes. *)
Theorem alloc_msg3_exact sf e user g :
  is_tti (get_tti_tx_dl sf) -> g_i_mcs (rg_grant g) = 0 -> is_ul_alloc sf user = false ->
  exists r, next_valid_dl_sf valid_dl_sf_fuel ((TTI_SUB (get_tti_tx_dl sf) 9 + 5) mod 10240) = Ok r /\
    let slots := [(r + 13) mod 10240; (r + 14) mod 10240; (r + 15) mod 10240; (r + 16) mod 10240] in
    NoDup slots /\
    if busy_in (e_ul e) slots then alloc_msg3 sf e user g = Ok (RB_COLLISION, sf, e)
    else exists ul', alloc_msg3 sf e user g =
         Ok (SUCCESS,
             sf <| ul_data_allocs := ul_data_allocs sf ++ [mk_ul_alloc MSG3 user (mk_ul_grid_alloc 12 4) 0] |>,
             e <| e_ul := ul' |>) /\
       forall x, x ∈ ul' <-> x ∈ slots \/ x ∈ e_ul e.
Proof.
  intros Ht Hm Ha. destruct (msg3_rx_tti_spec _ Ht) as (r & Hn & Hr & Hmsg).
  exists r. split; [done|]. unfold is_tti in Hr.
  pose proof (alloc_msg3_eq sf e user g _ (r + 13) eq_refl Ht Hm Hmsg ltac:(lia) Ha) as Heq.
  assert (Hs : span (r + 13) 4 = [(r + 13) mod 10240; (r + 14) mod 10240; (r + 15) mod 10240; (r + 16) mod 10240]).
  { unfold span, range; cbn [fmap list_fmap seq]. rewrite <- !Z.add_assoc. reflexivity. }
  rewrite Hs in Heq. cbn zeta. split; [|exact Heq].
  repeat (apply NoDup_cons; split; [rewrite ?elem_of_cons, elem_of_nil; dlia|]). apply NoDup_nil_2.
Qed.

(** New uplink data: of the four subframes the NPUSCH occupies only the
    first is looked at and marked, and the subframe of the DCI is marked in the
    uplink table, not in the downlink one. *)
Theorem alloc_ul_newtx_marks sf e user al e' sf' :
  is_tti (get_tti_tx_dl sf) -> is_tti (get_tti_tx_ul sf) -> valid_ptr (e_db e) user ->
  alloc_ul_user sf e user al = Ok (SUCCESS, sf', e') ->
  e_dl e' = e_dl e /\ e_ul e' = {[get_tti_tx_dl sf; get_tti_tx_ul sf]} ∪ e_ul e /\
  e_db e' = e_db e /\ (get_tti_tx_ul sf ∉ e_ul e) /\
  exists a, ul_data_allocs sf' = ul_data_allocs sf ++ [a] /\ ua_alloc a = mk_ul_grid_alloc 12 4.
Proof.
  intros Ht Htu [u Hu]%valid_ptr_deref H.
  destruct (is_ul_alloc sf user) eqn:Ea.
  { unfold alloc_ul_user, alloc_ul in H. by rewrite Ea in H. }
  rewrite (alloc_ul_newtx_eq sf e user al u _ _ eq_refl eq_refl Ht Htu Hu Ea) in H.
  destruct (negb _); [done|]. destruct (negb _); [done|]. case_bool_decide; [done|].
  injection H as <- <-. split_and!; try done. eexists; split; done.
Qed.

(** As a consequence two new-data grants one subframe apart are both made
    although their NPUSCHs, on all twelve subcarriers, overlap. *)
Theorem alloc_ul_newtx_overlap n e p1 p2 al u1 u2 :
  let sf1 := new_tti sf_sched_zero n in
  let sf2 := new_tti sf_sched_zero (n + 1) in
  0 <= n < 9999 -> p1 <> p2 ->
  deref (e_db e) p1 = Ok u1 -> msg_wait_timer u1 = 0 ->
  deref (e_db e) p2 = Ok u2 -> msg_wait_timer u2 = 0 ->
  dci_slot (e_dl e) (n + 4) = true -> dci_slot (e_dl e) (n + 5) = true ->
  (n + 13 ∉ e_ul e) -> (n + 14 ∉ e_ul e) ->
  exists sf1' e1 sf2' e2,
    alloc_ul_user sf1 e p1 al = Ok (SUCCESS, sf1', e1) /\
    alloc_ul_user sf2 e1 p2 al = Ok (SUCCESS, sf2', e2) /\
    (forall x, x ∈ [n + 14; n + 15; n + 16] ->
       x ∈ span (get_tti_tx_ul sf1) 4 /\ x ∈ span (get_tti_tx_ul sf2) 4).
Proof.
  intros sf1 sf2 Hn Hp Hu1 Hw1 Hu2 Hw2 Hd1 Hd2 Hul1 Hul2.
  destruct (tti_params_small n) as [E1 F1]; [lia|].
  destruct (tti_params_small (n + 1)) as [E2 F2]; [lia|].
  change (get_tti_tx_dl sf1 = n + 4) in E1. change (get_tti_tx_ul sf1 = n + 13) in F1.
  replace (n + 1 + 4) with (n + 5) in E2 by lia. replace (n + 1 + 13) with (n + 14) in F2 by lia.
  change (get_tti_tx_dl sf2 = n + 5) in E2. change (get_tti_tx_ul sf2 = n + 14) in F2.
  rewrite (alloc_ul_newtx_eq sf1 e p1 al u1 _ _ E1 F1);
    [|unfold is_tti; lia|unfold is_tti; lia|done|done].
  rewrite Hw1, Hd1. cbn [negb Z.eqb]. rewrite bool_decide_false by done.
  eexists _, _, _, _; split; [reflexivity|].
  rewrite (alloc_ul_newtx_eq sf2 _ p2 al u2 _ _ E2 F2);
    [|unfold is_tti; lia|unfold is_tti; lia|done|done].
  cbn [e_dl e_ul upd]. rewrite Hw2, Hd2. cbn [negb Z.eqb].
  rewrite bool_decide_false by (rewrite !elem_of_union, !elem_of_singleton; intros [[?|?]|?]; [lia|lia|done]).
  split; [reflexivity|]. rewrite F1, F2. intros x Hx.
  rewrite !elem_of_cons, elem_of_nil in Hx. rewrite !elem_of_span.
  split; [exists (x - (n + 13))|exists (x - (n + 14))]; split; dlia.
Qed.

(** Turning a ready schedule into the subframe's result always succeeds:
    one element per allocation, in order, all of them inside the result's
    arrays, each downlink element a filled block of its user, with every user
    still in place and no control element added. *)
Theorem generate_sched_results_total sf db :
  sf_ready sf db -> users_ok db ->
  exists r db', generate_sched_results sf db sf_sched_result_zero = Ok (r, db') /\
    dl_bc (dl_sched_result r) = (fun a => mk_dl_bc (bc_dci a) (bc_is_new_sib a)) <$> bc_allocs sf /\
    dl_rar (dl_sched_result r) = rar_elem <$> rar_allocs sf /\
    Forall2 (dl_elem db) (data_allocs sf) (dl_data (dl_sched_result r)) /\
    Forall2 ul_elem (ul_data_allocs sf) (npusch (ul_sched_result r)) /\
    same_users db db' /\ users_ok db' /\ ces_kept db db'.
Proof. apply generate_sched_results_ok. Qed.

(** ** Concrete schedules *)

(** Two users, the demonstration user and a fresh one. *)
Definition demo_db : ue_db_t :=
  db_create (db_create ue_db_empty 4097 demo_ue) 4098 (sched_ue_init sched_ue_new 4098).
Definition demo_p1 : ue_ptr := mk_ue_ptr 4097 0.
Definition demo_p2 : ue_ptr := mk_ue_ptr 4098 1.
Definition demo_env : env := mk_env ({[41]} ∪ {[62]} : gset Z) ∅ demo_db.

Lemma demo_p1_ok : deref demo_db demo_p1 = Ok demo_ue.
Proof. reflexivity. Qed.

Lemma demo_users_ok : users_ok demo_db.
Proof.
  intros r id u. unfold demo_db, db_create, ue_db_empty; cbn [db_map].
  destruct (decide (r = 4098)) as [->|]; [rewrite lookup_insert_eq; intros [= <- <-]|].
  { split; [|split; [vm_compute; done|reflexivity]].
    split; [reflexivity|each_lc; split; vm_compute; by split]. }
  rewrite lookup_insert_ne by done.
  destruct (decide (r = 4097)) as [->|]; [rewrite lookup_insert_eq; intros [= <- <-]|].
  { split; [apply demo_ue_wf|split; [vm_compute; done|reflexivity]]. }
  rewrite lookup_insert_ne by done. by rewrite lookup_empty.
Qed.

(** A DCI at 57 with the subframe 62 taken: the data goes to 63, 64 and 66. *)
Lemma alloc_dl_user_exact_witness :
  deref (e_db demo_env) demo_p1 = Ok demo_ue /\ is_dl_alloc (new_tti sf_sched_zero 53) demo_p1 = false /\
  if (length (free_slots ({[57%Z]} ∪ e_dl demo_env) (cyc 62 0 data_fuel)) <? 3)%nat
  then alloc_dl_user (new_tti sf_sched_zero 53) demo_env demo_p1 37 = Diverge
  else exists sf' e', alloc_dl_user (new_tti sf_sched_zero 53) demo_env demo_p1 37 = Ok (SUCCESS, sf', e').
Proof.
  pose proof (alloc_dl_user_exact (new_tti sf_sched_zero 53) demo_env demo_p1 37 demo_ue
    demo_p1_ok (mod_is_tti _) eq_refl) as H.
  split; [exact demo_p1_ok|split; [reflexivity|]].
  change (get_tti_tx_dl (new_tti sf_sched_zero 53)) with 57 in H. cbn zeta in H.
  change (negb (dci_slot (e_dl demo_env) 57)) with false in H.
  change (n_data_sf 37) with 3%nat in H. change ((57 + 5) mod 10240) with 62 in H.
  destruct (length _ <? 3)%nat; [exact H|].
  destruct H as (sf' & e' & H & _). exists sf', e'. exact H.
Defined.

Lemma alloc_msg3_exact_witness : exists ul',
  alloc_msg3 (new_tti sf_sched_zero 60) demo_env demo_p1
    (mk_dl_rar_grant (mk_rar_info 3 0 4097 0 8) (mk_rar_grant 1 18 0 0 0)) =
  Ok (SUCCESS, (new_tti sf_sched_zero 60)
        <| ul_data_allocs := [mk_ul_alloc MSG3 demo_p1 (mk_ul_grid_alloc 12 4) 0] |>,
      demo_env <| e_ul := ul' |>) /\ 74 ∈ ul'.
Proof.
  destruct (alloc_msg3_exact (new_tti sf_sched_zero 60) demo_env demo_p1
    (mk_dl_rar_grant (mk_rar_info 3 0 4097 0 8) (mk_rar_grant 1 18 0 0 0)) (mod_is_tti _) eq_refl eq_refl)
    as (r & Hr & _ & H).
  change (Ok 61 = Ok r) in Hr. injection Hr as <-. cbn zeta in H.
  change (busy_in (e_ul demo_env) _) with false in H. cbn beta iota in H.
  destruct H as (ul' & H & Hx). exists ul'. split; [exact H|].
  apply Hx. left. apply list_elem_of_here.
Defined.

Lemma alloc_ul_newtx_marks_witness : exists sf' e',
  alloc_ul_user (new_tti sf_sched_zero 53) demo_env demo_p2 (mk_ul_grid_alloc 0 0) = Ok (SUCCESS, sf', e') /\
  e_dl e' = e_dl demo_env /\ e_ul e' = {[57%Z; 66%Z]} ∪ e_ul demo_env.
Proof.
  eexists _, _; split; [vm_compute; reflexivity|].
  match goal with |- e_dl ?e' = _ /\ _ => pose (e1 := e'); change (e_dl e1 = e_dl demo_env /\ e_ul e1 = {[57%Z; 66%Z]} ∪ e_ul demo_env) end.
  destruct (alloc_ul_newtx_marks (new_tti sf_sched_zero 53) demo_env demo_p2 (mk_ul_grid_alloc 0 0) e1
    ((new_tti sf_sched_zero 53) <| ul_data_allocs := [mk_ul_alloc NEWTX demo_p2 (mk_ul_grid_alloc 12 4) 9] |>)
    (mod_is_tti _) (mod_is_tti _)) as (H1 & H2 & _).
  - eexists. reflexivity.
  - vm_compute. reflexivity.
  - split; [exact H1|exact H2].
Defined.

Lemma alloc_ul_newtx_overlap_witness : exists sf1' e1 sf2' e2,
  let al := mk_ul_grid_alloc 0 0 in
  alloc_ul_user (new_tti sf_sched_zero 68) demo_env demo_p1 al = Ok (SUCCESS, sf1', e1) /\
  alloc_ul_user (new_tti sf_sched_zero 69) e1 demo_p2 al = Ok (SUCCESS, sf2', e2).
Proof.
  destruct (alloc_ul_newtx_overlap 68 demo_env demo_p1 demo_p2 (mk_ul_grid_alloc 0 0) demo_ue
    (sched_ue_init sched_ue_new 4098)) as (sf1' & e1 & sf2' & e2 & H1 & H2 & _);
    [lia|discriminate|reflexivity|reflexivity|reflexivity|reflexivity|reflexivity|reflexivity
    |apply (bool_decide_unpack _); reflexivity|apply (bool_decide_unpack _); reflexivity|].
  exists sf1', e1, sf2', e2. split; assumption.
Defined.

Lemma demo_sf_ready :
  sf_ready ((new_tti sf_sched_zero 53) <| data_allocs := [mk_dl_alloc demo_p1 2] |>
              <| ul_data_allocs := [mk_ul_alloc NEWTX demo_p2 (mk_ul_grid_alloc 12 4) 9] |>) demo_db.
Proof.
  split; [vm_compute; done|vm_compute; done|vm_compute; done|vm_compute; done| | |].
  - apply NoDup_singleton.
  - intros a ->%list_elem_of_singleton. split; [cbn; lia|]. exists demo_ue.
    split; [reflexivity|split; [apply demo_ue_wf|vm_compute; done]].
  - intros a ->%list_elem_of_singleton. split; [cbn; lia|]. eexists. reflexivity.
Qed.

Lemma generate_sched_results_total_witness : exists r db',
  generate_sched_results ((new_tti sf_sched_zero 53) <| data_allocs := [mk_dl_alloc demo_p1 2] |>
      <| ul_data_allocs := [mk_ul_alloc NEWTX demo_p2 (mk_ul_grid_alloc 12 4) 9] |>)
    demo_db sf_sched_result_zero = Ok (r, db') /\
  length (dl_data (dl_sched_result r)) = 1%nat.
Proof.
  destruct (generate_sched_results_total _ _ demo_sf_ready demo_users_ok) as (r & db' & H & _ & _ & Hl & _).
  exists r, db'. split; [exact H|exact (eq_sym (Forall2_length _ _ _ Hl))].
Defined.
