(* ===== verification/RaSched.v ===== *)
(** * Random access scheduling : [class ra_sched]

    Detected preambles wait in a queue of RARs; one RAR is answered per
    subframe, then a Msg3 grant is made for the users it addresses
    ([sonica_enb/stack/mac/scheduler_carrier.cc], second part). *)
From S2P Require Import Prelude Tti RaNbiot SchedTypes SchedUe BcSched UeDb SchedGrid.

Record ra_sched := mk_ra_sched {
  pending_rars : list pending_rar_t;     (* std::deque *)
  rar_aggr_level : Z
}.
#[export] Instance eta_ra_sched : Eta ra_sched := {| eta := fun r =>
  mk_ra_sched (pending_rars r) (rar_aggr_level r) |}.
#[export] Instance eta_pending_rar : Eta pending_rar_t := {| eta := fun r =>
  mk_pending_rar (pr_ra_rnti r) (pr_nprach_tti r) (pr_msg3_grant r) |}.

Definition ra_sched_new : ra_sched := mk_ra_sched [] 2.
Definition ra_sched_reset (ra : ra_sched) : ra_sched := ra <| pending_rars := [] |>.

(** ** Preamble detected *)

(** [ra_rnti = 1 + (uint16_t)(nprach_tti / 10 / 4)] *)
Definition ra_rnti_of (nprach_tti_ : Z) : Z := u16 (1 + u16 (nprach_tti_ / 10 / 4)).

(** The first pending RAR for the same NPRACH takes the preamble. *)
Fixpoint add_to_rar (l : list pending_rar_t) (info : rar_info_t) (ra_rnti : Z) :
    res (option (list pending_rar_t)) :=
  match l with
  | [] => Ok None
  | r :: l' =>
      if (pr_nprach_tti r =? nprach_tti info) && (ra_rnti =? pr_ra_rnti r) then
        g ← push_bounded MAX_RAR_LIST (pr_msg3_grant r) info;
        Ok (Some (r <| pr_msg3_grant := g |> :: l'))
      else
        o ← add_to_rar l' info ra_rnti;
        Ok (match o with Some l'' => Some (r :: l'') | None => None end)
  end.

(** [ra_sched::dl_rach_info]; the code returned is always [SRSLTE_SUCCESS]. *)
Definition ra_dl_rach_info (ra : ra_sched) (info : rar_info_t) : res (Z * ra_sched) :=
  let ra_rnti := ra_rnti_of (nprach_tti info) in
  o ← add_to_rar (pending_rars ra) info ra_rnti;
  Ok (SRSLTE_SUCCESS,
      ra <| pending_rars :=
        match o with
        | Some l => l
        | None => pending_rars ra ++ [mk_pending_rar ra_rnti (nprach_tti info) [info]]
        end |>).

(** ** RAR *)

(** [while (not pending_rars.empty())]. Every turn returns, except when
    [alloc_rar] fails: the loop then starts again with nothing changed. *)
Fixpoint ra_dl_sched_loop (fuel : nat) (ra : ra_sched) (sf : sf_sched) (dl : gset Z) :
    res (alloc_outcome_t * ra_sched * sf_sched * gset Z) :=
  match pending_rars ra with
  | [] => Ok (DCI_COLLISION, ra, sf, dl)
  | rar :: rest =>
      let t := get_tti_tx_dl sf in
      if negb (srslte_ra_nbiot_is_valid_dl_sf t) then Ok (RB_COLLISION, ra, sf, dl) else
      busy ← tab_get dl t;
      if busy : bool then Ok (RB_COLLISION, ra, sf, dl) else
      if t mod 16 >=? 8 then Ok (RB_COLLISION, ra, sf, dl) else
      let '(o, nof_rar_allocs, sf') := alloc_rar sf (rar_aggr_level ra) rar in
      if negb (bool_decide (o = SUCCESS)) then
        match fuel with O => Diverge | S f => ra_dl_sched_loop f ra sf' dl end
      else if nof_rar_allocs =? Z.of_nat (length (pr_msg3_grant rar)) then
        dl1 ← tab_set dl t true;
        rar_tx_tti ← next_valid_dl_sf valid_dl_sf_fuel ((t + 5) mod 10240);
        dl2 ← tab_set dl1 rar_tx_tti true;
        Ok (SUCCESS, ra <| pending_rars := rest |>, sf', dl2)
      else
        let rar' := rar <| pr_msg3_grant := drop (Z.to_nat nof_rar_allocs) (pr_msg3_grant rar) |> in
        Ok (DCI_COLLISION, ra <| pending_rars := rar' :: rest |>, sf', dl)
  end.

Definition ra_dl_sched (ra : ra_sched) (sf : sf_sched) (dl : gset Z) :
    res (alloc_outcome_t * ra_sched * sf_sched * gset Z) :=
  ra_dl_sched_loop 1 (ra <| rar_aggr_level := 2 |>) sf dl.

(** ** Msg3 *)

(** The body of the two loops: the grant [g] of an allocated RAR. *)
Definition ra_ul_step (st : sf_sched * env) (g : dl_sched_rar_grant_t) : res (sf_sched * env) :=
  let '(sf_msg3, e) := st in
  match db_find (e_db e) (temp_crnti (rg_data g)) with
  | Some p => '(_, sf', e') ← alloc_msg3 sf_msg3 e p g; Ok (sf', e')
  | None => Ok (sf_msg3, e)
  end.

Definition ra_ul_sched (sf_dl : sf_sched) (sf_msg3 : sf_sched) (e : env) : res (sf_sched * env) :=
  foldM (fun st rar => foldM ra_ul_step (r_msg3_grant (ra_rar_grant rar)) st) (rar_allocs sf_dl) (sf_msg3, e).

(** ** Facts *)

(** A RAR that has not been started: one to eight preambles of one NPRACH. *)
Definition rar_wf (r : pending_rar_t) : Prop :=
  1 <= Z.of_nat (length (pr_msg3_grant r)) <= MAX_RAR_LIST /\
  pr_ra_rnti r = ra_rnti_of (pr_nprach_tti r) /\
  (forall g, g ∈ pr_msg3_grant r -> nprach_tti g = pr_nprach_tti r).

Definition ra_inv (ra : ra_sched) : Prop :=
  (forall r, r ∈ pending_rars ra -> rar_wf r) /\ NoDup (pr_nprach_tti <$> pending_rars ra).

(** Every preamble that waits for its RAR. *)
Definition waiting (ra : ra_sched) : list rar_info_t := pending_rars ra ≫= pr_msg3_grant.

(** How many of them come from the NPRACH at [t]. *)
Definition waiting_at (ra : ra_sched) (t : Z) : nat :=
  length (filter (fun g => nprach_tti g = t) (waiting ra)).

Lemma ra_rnti_of_range t : is_tti t -> 1 <= ra_rnti_of t <= 256.
Proof.
  unfold is_tti, ra_rnti_of; intros. rewrite (u16_id (t / 10 / 4)) by dlia. rewrite u16_id by dlia. dlia.
Qed.

(** RA-RNTIs identify the 40 ms period of the NPRACH (TS 36.321, 5.1.4). *)
Lemma ra_rnti_of_inj t1 t2 : is_tti t1 -> is_tti t2 -> ra_rnti_of t1 = ra_rnti_of t2 <-> t1 / 40 = t2 / 40.
Proof.
  unfold is_tti, ra_rnti_of; intros.
  rewrite (u16_id (t1 / 10 / 4)), (u16_id (t2 / 10 / 4)) by dlia. rewrite !u16_id by dlia. dlia.
Qed.

(** Where the preamble of an NPRACH goes. *)
Lemma add_to_rar_spec l info :
  (forall r, r ∈ l -> rar_wf r) -> NoDup (pr_nprach_tti <$> l) ->
  (exists l1 r l2, l = l1 ++ r :: l2 /\ pr_nprach_tti r = nprach_tti info /\
     (forall r', r' ∈ l1 ++ l2 -> pr_nprach_tti r' <> nprach_tti info) /\
     add_to_rar l info (ra_rnti_of (nprach_tti info)) =
       if Z.of_nat (length (pr_msg3_grant r)) <? MAX_RAR_LIST
       then Ok (Some (l1 ++ r <| pr_msg3_grant := pr_msg3_grant r ++ [info] |> :: l2))
       else UB OobWrite) \/
  ((forall r, r ∈ l -> pr_nprach_tti r <> nprach_tti info) /\
   add_to_rar l info (ra_rnti_of (nprach_tti info)) = Ok None).
Proof.
  induction l as [|r l IH]; intros Hwf Hnd.
  { right; split; [intros r Hr; by apply elem_of_nil in Hr|done]. }
  rewrite fmap_cons in Hnd. apply NoDup_cons in Hnd as [Hr Hnd].
  destruct (Hwf r (list_elem_of_here _ _)) as (Hlen & Hrn & _). cbn [add_to_rar].
  destruct (Z.eqb_spec (pr_nprach_tti r) (nprach_tti info)) as [E|E]; cbn [andb].
  - left. exists [], r, l. rewrite Hrn, E, Z.eqb_refl. split_and!; try done.
    + intros r' Hr' E'. apply Hr. rewrite E, <- E'. by apply list_elem_of_fmap_2.
    + unfold push_bounded. by case_match.
  - destruct IH as [(l1 & r0 & l2 & -> & Er & Hne & Heq)|[Hne Heq]].
    + intros; apply Hwf; by apply list_elem_of_further.
    + done.
    + left. exists (r :: l1), r0, l2. split_and!; try done.
      * intros r' [->|Hr']%elem_of_cons; [done|by apply Hne].
      * rewrite Heq. by case_match.
    + right. rewrite Heq. split; [|done].
      intros r' [->|Hr']%elem_of_cons; [done|by apply Hne].
Qed.

Lemma filter_none {A} (P : A -> Prop) `{!forall x, Decision (P x)} (l : list A) :
  (forall x, x ∈ l -> ~ P x) -> filter P l = [].
Proof.
  induction l as [|x l IH]; intros HP; [done|].
  rewrite filter_cons_False by (apply HP, list_elem_of_here).
  apply IH; intros; apply HP; by apply list_elem_of_further.
Qed.

Lemma filter_all {A} (P : A -> Prop) `{!forall x, Decision (P x)} (l : list A) :
  (forall x, x ∈ l -> P x) -> filter P l = l.
Proof.
  induction l as [|x l IH]; intros HP; [done|].
  rewrite filter_cons_True by (apply HP, list_elem_of_here).
  f_equal. apply IH; intros; apply HP; by apply list_elem_of_further.
Qed.

Lemma waiting_other l t :
  (forall r, r ∈ l -> rar_wf r) -> (forall r, r ∈ l -> pr_nprach_tti r <> t) ->
  filter (fun g => nprach_tti g = t) (l ≫= pr_msg3_grant) = [].
Proof.
  intros Hwf Hne. apply filter_none. intros g (r & Hg & Hr)%list_elem_of_bind E.
  destruct (Hwf r Hr) as (_ & _ & Hall). apply (Hne r Hr). by rewrite <- (Hall g Hg).
Qed.

Lemma bind_app_cons {A B} (f : A -> list B) l1 a l2 :
  (l1 ++ a :: l2) ≫= f = (l1 ≫= f) ++ f a ++ (l2 ≫= f).
Proof. by rewrite bind_app, bind_cons. Qed.

Lemma waiting_at_split l1 r l2 a t :
  (forall r', r' ∈ l1 ++ r :: l2 -> rar_wf r') -> pr_nprach_tti r = t ->
  (forall r', r' ∈ l1 ++ l2 -> pr_nprach_tti r' <> t) ->
  waiting_at (mk_ra_sched (l1 ++ r :: l2) a) t = length (pr_msg3_grant r).
Proof.
  intros Hwf Hr Hne. unfold waiting_at, waiting; cbn [pending_rars].
  rewrite bind_app_cons, !filter_app.
  rewrite (waiting_other l1), (waiting_other l2), app_nil_r; [|set_solver..].
  cbn [app]. rewrite filter_all; [done|]. intros g Hg.
  destruct (Hwf r) as (_ & _ & Hall); [set_solver|]. by rewrite (Hall g Hg).
Qed.

Lemma waiting_snoc_perm l1 r l2 info a :
  Permutation (waiting (mk_ra_sched (l1 ++ r <| pr_msg3_grant := pr_msg3_grant r ++ [info] |> :: l2) a))
              (info :: waiting (mk_ra_sched (l1 ++ r :: l2) a)).
Proof.
  unfold waiting; cbn [pending_rars]. rewrite !bind_app_cons; cbn.
  rewrite <- (app_assoc _ [info]). cbn [app]. rewrite !(app_assoc (l1 ≫= _)).
  symmetry. apply Permutation_middle.
Qed.

Lemma rar_wf_snoc r info :
  rar_wf r -> pr_nprach_tti r = nprach_tti info ->
  Z.of_nat (length (pr_msg3_grant r)) < MAX_RAR_LIST ->
  rar_wf (r <| pr_msg3_grant := pr_msg3_grant r ++ [info] |>).
Proof.
  intros (Hl & Hrn & Hall) E Hlt. split_and!; cbn.
  - rewrite length_app; cbn [length]; lia.
  - rewrite length_app; cbn [length]; lia.
  - done.
  - intros g [Hg| ->%list_elem_of_singleton]%elem_of_app; [by apply Hall|done].
Qed.

(** A new preamble is queued, at the end of its NPRACH's RAR, unless that RAR
    is full: then the write goes past its array. *)
Lemma ra_dl_rach_info_spec ra info :
  ra_inv ra ->
  if (waiting_at ra (nprach_tti info) <? 8)%nat then
    exists ra', ra_dl_rach_info ra info = Ok (SRSLTE_SUCCESS, ra') /\ ra_inv ra' /\
      Permutation (waiting ra') (info :: waiting ra)
  else ra_dl_rach_info ra info = UB OobWrite.
Proof.
  destruct ra as [l a]. intros [Hwf Hnd]; cbn in Hwf, Hnd. unfold ra_dl_rach_info; cbn [pending_rars].
  destruct (add_to_rar_spec l info Hwf Hnd) as [(l1 & r & l2 & -> & E & Hne & ->)|[Hne ->]].
  - rewrite (waiting_at_split l1 r l2 a _ Hwf E Hne).
    unfold MAX_RAR_LIST. destruct (Nat.ltb_spec (length (pr_msg3_grant r)) 8).
    + replace (_ <? 8) with true by lia. rewrite bind_ok_l. eexists; split; [done|]. cbn.
      split; [|exact (waiting_snoc_perm l1 r l2 info a)]. split; cbn.
      * intros r' [Hr'|[->|Hr']%elem_of_cons]%elem_of_app.
        -- apply Hwf. set_solver.
        -- apply rar_wf_snoc; [apply Hwf; set_solver|done|unfold MAX_RAR_LIST; lia].
        -- apply Hwf. set_solver.
      * rewrite fmap_app, fmap_cons in *. done.
    + replace (_ <? 8) with false by lia. done.
  - unfold waiting_at, waiting; cbn [pending_rars]. rewrite waiting_other by done. cbn [length].
    rewrite bind_ok_l. cbn. eexists; split; [done|]. split; [split|]; cbn.
    + intros r [Hr| ->%list_elem_of_singleton]%elem_of_app; [by apply Hwf|].
      split_and!; cbn; try done; try lia. by intros g ->%list_elem_of_singleton.
    + rewrite fmap_app. apply NoDup_snoc; [done|]. cbn.
      intros (r & E & Hr)%list_elem_of_fmap. by apply (Hne r Hr).
    + unfold waiting; cbn [pending_rars]. rewrite bind_app, bind_cons. cbn.
      symmetry. apply Permutation_cons_append.
Qed.

(** ** One RAR *)

(** The subframe may carry a RAR's DCI. *)
Definition rar_dci_slot (dl : gset Z) (t : Z) : bool :=
  srslte_ra_nbiot_is_valid_dl_sf t && negb (bool_decide (t ∈ dl)) && (t mod 16 <? 8).

(** The RAR that answers one preamble. *)
Definition rar_alloc_of (r : pending_rar_t) (g : rar_info_t) : rar_alloc_t :=
  mk_rar_alloc (mk_ctrl_alloc (pr_ra_rnti r) 8 DL_RAR)
    (mk_dl_rar 0 dl_dci_zero [mk_dl_rar_grant g (mk_rar_grant 1 18 0 0 0)]).

Lemma alloc_rar_one sf lvl r g gs :
  pr_msg3_grant r = g :: gs -> pr_ra_rnti r <= 256 ->
  alloc_rar sf lvl r = (SUCCESS, 1, sf <| rar_allocs := rar_allocs sf ++ [rar_alloc_of r g] |>).
Proof.
  intros E Hrn. unfold alloc_rar. rewrite E. cbn [length alloc_rar_loop].
  unfold alloc_dl_ctrl. unfold SRSLTE_SIRNTI, SRSLTE_PRNTI.
  replace (pr_ra_rnti r =? 65535) with false by lia.
  replace (pr_ra_rnti r =? 65534) with false by lia.
  cbn [bool_decide decide negb]. rewrite E. done.
Qed.

(** The subframe of the RAR's payload. *)
Definition rar_payload (t r : Z) : Prop :=
  next_valid_dl_sf valid_dl_sf_fuel ((t + 5) mod 10240) = Ok r.

Lemma rar_payload_ex t : exists r, rar_payload t r /\ is_tti r.
Proof.
  destruct (next_valid_dl_sf_spec ((t + 5) mod 10240)) as (d & r & H & _ & _ & Hr & _);
    [apply mod_is_tti|]. by exists r.
Qed.

Lemma rar_payload_not_sib1 t r :
  is_tti t -> srslte_ra_nbiot_is_valid_dl_sf t = true -> rar_payload t r ->
  sib1_slot r = false /\ srslte_ra_nbiot_is_valid_dl_sf r = true /\ r <> t.
Proof.
  intros Ht Hv Hr. destruct (next_valid_dl_sf_spec ((t + 5) mod 10240))
    as (d & r' & H & Hd & Er & Hr' & Hv' & Hmin); [apply mod_is_tti|].
  unfold rar_payload in Hr. rewrite H in Hr. injection Hr as ->.
  split_and!; [|done|unfold is_tti in *; dlia].
  destruct (sib1_slot r) eqn:Es; [exfalso|done].
  unfold is_tti in *. unfold sib1_slot in Es.
  assert (d = 0) as ->.
  { destruct (decide (d = 0)) as [|Hne]; [done|exfalso].
    specialize (Hmin (d - 1) ltac:(lia)).
    unfold srslte_ra_nbiot_is_valid_dl_sf in Hmin. dlia. }
  unfold srslte_ra_nbiot_is_valid_dl_sf in Hv. dlia.
Qed.

Lemma ra_dl_sched_spec ra sf dl rar rest :
  ra_inv ra -> is_tti (get_tti_tx_dl sf) -> pending_rars ra = rar :: rest ->
  is_tti (pr_nprach_tti rar) ->
  exists g gs r, pr_msg3_grant rar = g :: gs /\ rar_payload (get_tti_tx_dl sf) r /\
  let t := get_tti_tx_dl sf in
  let ra0 := ra <| rar_aggr_level := 2 |> in
  let sf' := sf <| rar_allocs := rar_allocs sf ++ [rar_alloc_of rar g] |> in
  ra_dl_sched ra sf dl =
    if negb (rar_dci_slot dl t) then Ok (RB_COLLISION, ra0, sf, dl)
    else match gs with
         | [] => Ok (SUCCESS, ra0 <| pending_rars := rest |>, sf', {[r]} ∪ ({[t]} ∪ dl))
         | _ => Ok (DCI_COLLISION,
                    ra0 <| pending_rars := rar <| pr_msg3_grant := gs |> :: rest |>, sf', dl)
         end.
Proof.
  intros [Hwf _] Ht Hp Hn. destruct (Hwf rar ltac:(rewrite Hp; apply list_elem_of_here)) as (Hl & Hrn & _).
  destruct (pr_msg3_grant rar) as [|g gs] eqn:Eg; [cbn in Hl; lia|].
  destruct (rar_payload_ex (get_tti_tx_dl sf)) as (r & Hr & Hrt).
  exists g, gs, r. split_and!; [done|done|]. cbn zeta.
  unfold ra_dl_sched. cbn [ra_dl_sched_loop pending_rars upd]. rewrite Hp.
  unfold rar_dci_slot. destruct (srslte_ra_nbiot_is_valid_dl_sf _); cbn [negb andb]; [|done].
  rewrite tab_get_tti, bind_ok_l by done. case_bool_decide; cbn [negb andb]; [done|].
  assert ((get_tti_tx_dl sf mod 16 >=? 8) = negb (get_tti_tx_dl sf mod 16 <? 8)) as -> by lia.
  destruct (_ <? 8); cbn [negb andb]; [|done].
  cbn [rar_aggr_level upd].
  rewrite (alloc_rar_one sf 2 rar g gs Eg) by (rewrite Hrn; by apply ra_rnti_of_range).
  rewrite bool_decide_true by done. cbn [negb]. rewrite Eg.
  destruct gs as [|g2 gs]; cbn [length].
  - change (1 =? Z.of_nat 1) with true. cbn match. rewrite tab_set_tti, bind_ok_l by done.
    unfold rar_payload in Hr. rewrite Hr, bind_ok_l, tab_set_tti, bind_ok_l by done. done.
  - destruct (Z.eqb_spec 1 (Z.of_nat (S (S (length gs))))); [clear -e; lia|]. done.
Qed.

Lemma ra_inv_tail ra rar rest :
  ra_inv ra -> pending_rars ra = rar :: rest ->
  ra_inv (ra <| rar_aggr_level := 2 |> <| pending_rars := rest |>).
Proof.
  intros [Hwf Hnd] Hp. rewrite Hp in *. split; cbn.
  - intros; apply Hwf; by apply list_elem_of_further.
  - rewrite fmap_cons in Hnd. by apply NoDup_cons in Hnd as [_ ?].
Qed.

Lemma ra_inv_drop ra rar rest g g2 gs :
  ra_inv ra -> pending_rars ra = rar :: rest -> pr_msg3_grant rar = g :: g2 :: gs ->
  ra_inv (ra <| rar_aggr_level := 2 |> <| pending_rars := rar <| pr_msg3_grant := g2 :: gs |> :: rest |>).
Proof.
  intros [Hwf Hnd] Hp Hg. rewrite Hp in *. split; cbn.
  - intros r [->|Hr]%elem_of_cons; [|apply Hwf; by apply list_elem_of_further].
    destruct (Hwf rar (list_elem_of_here _ _)) as (Hl & Hrn & Hall). rewrite Hg in *.
    split_and!; cbn; [lia|cbn in Hl; lia|done|].
    intros g' Hg'. apply Hall. by apply list_elem_of_further.
  - done.
Qed.

(** ** Properties *)

(** A detected preamble joins the RAR of its NPRACH, or opens a new one:
    afterwards exactly one more preamble waits.  The ninth preamble of one
    NPRACH is written past the end of the RAR's eight-entry array. *)
Theorem ra_dl_rach_info_queues ra info :
  ra_inv ra ->
  (waiting_at ra (nprach_tti info) < 8)%nat ->
  exists ra', ra_dl_rach_info ra info = Ok (SRSLTE_SUCCESS, ra') /\ ra_inv ra' /\
    Permutation (waiting ra') (info :: waiting ra) /\
    waiting_at ra' (nprach_tti info) = S (waiting_at ra (nprach_tti info)) /\
    (waiting_at ra' (nprach_tti info) = 8%nat -> ra_dl_rach_info ra' info = UB OobWrite).
Proof.
  intros Hi Hlt. pose proof (ra_dl_rach_info_spec ra info Hi) as H.
  destruct (Nat.ltb_spec (waiting_at ra (nprach_tti info)) 8); [|lia].
  destruct H as (ra' & H1 & H2 & H3). exists ra'. split_and!; try done.
  - unfold waiting_at. rewrite H3, filter_cons_True by done. done.
  - intros H8. pose proof (ra_dl_rach_info_spec ra' info H2) as H'. by rewrite H8 in H'.
Qed.

(** Answering a RAR: nothing happens unless the subframe may carry its DCI;
    otherwise the oldest preamble of the oldest NPRACH, and only that one, gets
    its RAR and leaves the queue.  When it was the only one of its NPRACH the
    DCI's subframe and the payload's, a valid subframe that is never SIB1's,
    are reserved. *)
Theorem ra_dl_sched_answers ra sf dl rar rest g gs :
  ra_inv ra -> is_tti (get_tti_tx_dl sf) ->
  pending_rars ra = rar :: rest -> pr_msg3_grant rar = g :: gs -> is_tti (pr_nprach_tti rar) ->
  let t := get_tti_tx_dl sf in
  exists o ra' sf' dl', ra_dl_sched ra sf dl = Ok (o, ra', sf', dl') /\ ra_inv ra' /\
  if negb (rar_dci_slot dl t) then o = RB_COLLISION /\ waiting ra' = waiting ra /\ sf' = sf /\ dl' = dl
  else
    Permutation (waiting ra) (g :: waiting ra') /\
    sf' = sf <| rar_allocs := rar_allocs sf ++ [rar_alloc_of rar g] |> /\
    match gs with
    | [] => o = SUCCESS /\ exists r, rar_payload t r /\ dl' = {[r]} ∪ ({[t]} ∪ dl) /\
              srslte_ra_nbiot_is_valid_dl_sf r = true /\ sib1_slot r = false /\ r <> t
    | _ => o = DCI_COLLISION /\ dl' = dl
    end.
Proof.
  intros Hi Ht Hp Hg Hn t.
  destruct (ra_dl_sched_spec ra sf dl rar rest Hi Ht Hp Hn) as (g' & gs' & r & Hg' & Hr & H).
  rewrite Hg in Hg'. injection Hg' as <- <-. fold t in H. cbn zeta in H. rewrite H.
  destruct (rar_dci_slot dl t) eqn:Ed; cbn [negb].
  - destruct gs as [|g2 gs]; eexists _, _, _, _; (split; [reflexivity|]).
    + split; [by eapply ra_inv_tail|].
      unfold waiting; cbn. rewrite Hp, bind_cons, Hg. split; [done|].
      split; [done|]. split; [done|]. exists r. split_and!; try done.
      all: unfold rar_dci_slot in Ed; apply andb_true_iff in Ed as [[Hv _]%andb_true_iff _].
      all: by apply (rar_payload_not_sib1 t r Ht Hv Hr).
    + split; [by eapply ra_inv_drop|].
      unfold waiting; cbn. rewrite Hp, bind_cons, Hg. done.
  - eexists _, _, _, _; split; [reflexivity|]. done.
Qed.

(** ** Concrete runs *)
Definition demo_info (p rnti_ : Z) : rar_info_t := mk_rar_info p 5 rnti_ 8 64.

Definition demo_ra (n : nat) : ra_sched :=
  mk_ra_sched [mk_pending_rar (ra_rnti_of 64) 64 (replicate n (demo_info 3 4097))] 2.

Lemma demo_ra_inv n : (1 <= n <= 8)%nat -> ra_inv (demo_ra n).
Proof.
  intros Hn; split; cbn.
  - intros r ->%list_elem_of_singleton. unfold rar_wf, MAX_RAR_LIST; cbn. rewrite length_replicate.
    split_and!; [lia|lia|done|]. intros g Hg. by apply elem_of_replicate in Hg as [-> _].
  - apply NoDup_singleton.
Qed.

Lemma ra_dl_rach_info_queues_witness : exists ra',
  ra_dl_rach_info (demo_ra 7) (demo_info 9 4100) = Ok (SRSLTE_SUCCESS, ra') /\
  ra_dl_rach_info ra' (demo_info 9 4101) = UB OobWrite.
Proof.
  destruct (ra_dl_rach_info_queues (demo_ra 7) (demo_info 9 4100)) as (ra' & H & _ & _ & _ & H9);
    [apply demo_ra_inv; lia|vm_compute; lia|].
  exists ra'. split; [exact H|]. vm_compute in H. injection H as <-. vm_compute. reflexivity.
Defined.

(** Two preambles of one NPRACH: the first is answered, nothing is reserved. *)
Lemma ra_dl_sched_answers_witness : exists ra' sf',
  ra_dl_sched (demo_ra 2) (new_tti sf_sched_zero 92) ∅ = Ok (DCI_COLLISION, ra', sf', ∅) /\
  length (rar_allocs sf') = 1%nat.
Proof.
  destruct (ra_dl_sched_answers (demo_ra 2) (new_tti sf_sched_zero 92) ∅
    (mk_pending_rar (ra_rnti_of 64) 64 [demo_info 3 4097; demo_info 3 4097]) []
    (demo_info 3 4097) [demo_info 3 4097]) as (o & ra' & sf' & dl' & H & _ & Hc);
    [apply demo_ra_inv; lia|apply mod_is_tti|reflexivity|reflexivity|unfold is_tti; cbn; lia|].
  change (negb (rar_dci_slot ∅ (get_tti_tx_dl (new_tti sf_sched_zero 92)))) with false in Hc.
  cbn beta iota in Hc. destruct Hc as (_ & -> & -> & ->).
  eexists ra', _. split; [exact H|reflexivity].
Defined.
