(* ===== verification/SchedCarrier.v ===== *)
(** * The carrier scheduler : [class sched::carrier_sched]

    One carrier's subframe schedules, its two tables, and the pass that
    computes a subframe's result
    ([sonica_enb/stack/mac/scheduler_carrier.cc], third part). *)
From S2P Require Import Prelude Tti RaNbiot SchedTypes SchedUe BcSched UeDb SchedGrid RaSched.

(** [last_alloc] and [alloc_active] are the file's static variables. *)
Record carrier_sched := mk_carrier {
  sf_scheds : list sf_sched;                 (* std::array<sf_sched, TTIMOD_SZ * 2> *)
  sf_sched_results : list sf_sched_result;   (* std::array<sf_sched_result, TTIMOD_SZ * 4> *)
  dl_sched_table : gset Z;
  ul_sched_table : gset Z;
  sf_dl_mask : list Z;
  bc_sched_ptr : option bc_sched;
  ra_sched_ptr : option ra_sched;
  last_alloc : Z;
  alloc_active : bool
}.
#[export] Instance eta_carrier_sched : Eta carrier_sched := {| eta := fun r =>
  mk_carrier (sf_scheds r) (sf_sched_results r) (dl_sched_table r) (ul_sched_table r) (sf_dl_mask r)
    (bc_sched_ptr r) (ra_sched_ptr r) (last_alloc r) (alloc_active r) |}.

Definition NSF : Z := TTIMOD_SZ * 2.
Definition NRES : Z := TTIMOD_SZ * 4.

(** ** Construction and configuration *)
Definition carrier_new : carrier_sched :=
  mk_carrier (replicate 40 sf_sched_zero) (replicate 80 sf_sched_result_zero) ∅ ∅ [0] None None 0 false.

Definition carrier_reset (c : carrier_sched) : carrier_sched :=
  c <| ra_sched_ptr := None |> <| bc_sched_ptr := None |>.

Definition carrier_cfg (c : carrier_sched) : res carrier_sched :=
  b ← bc_sched_new; Ok (c <| bc_sched_ptr := Some b |> <| ra_sched_ptr := Some ra_sched_new |>).

(** [operator->] of the two unique pointers. *)
Definition get_ptr {A} (o : option A) : res A :=
  match o with Some a => Ok a | None => UB NullDeref end.

(** ** Per-subframe objects *)

(** The index of the schedule of [tti_rx] and the carrier after binding it. *)
Definition get_sf_sched (c : carrier_sched) (tti_rx : Z) : res (Z * sf_sched * carrier_sched) :=
  let idx := tti_rx mod NSF in
  ret ← arr_read (sf_scheds c) idx;
  let ret' := if get_tti_rx ret =? tti_rx then ret else new_tti ret tti_rx in
  l ← arr_write (sf_scheds c) idx ret';
  Ok (idx, ret', c <| sf_scheds := l |>).

Definition put_sf (c : carrier_sched) (idx : Z) (sf : sf_sched) : carrier_sched :=
  c <| sf_scheds := <[Z.to_nat idx := sf]> (sf_scheds c) |>.

Definition carrier_env (c : carrier_sched) (db : ue_db_t) : env :=
  mk_env (dl_sched_table c) (ul_sched_table c) db.
Definition put_env (c : carrier_sched) (e : env) : carrier_sched :=
  c <| dl_sched_table := e_dl e |> <| ul_sched_table := e_ul e |>.

(** ** Downlink users *)

(** The users in the order the round-robin loop visits them: [count] turns,
    the iterator at position [iter], wrapping around at the end. *)
Fixpoint rr_visit {A} (l : list A) (count iter : nat) : list A :=
  match count with
  | O => []
  | S count' =>
      let iter := if (iter =? length l)%nat then O else iter in
      match l !! iter with Some a => a :: rr_visit l count' (S iter) | None => [] end
  end.

(** What one turn of the downlink loop may change. *)
Record dl_st := mk_dl_st { ds_sf : sf_sched; ds_env : env; ds_last : Z; ds_active : bool }.
#[export] Instance eta_dl_st : Eta dl_st := {| eta := fun r => mk_dl_st (ds_sf r) (ds_env r) (ds_last r) (ds_active r) |}.

(** [allocate_user] *)
Definition allocate_user (st : dl_st) (user : ue_ptr) : res dl_st :=
  if is_dl_alloc (ds_sf st) user then Ok st else
  let tti_dl := get_tti_tx_dl (ds_sf st) in
  if ds_active st then
    Ok (if u32 (tti_dl + 10240 - ds_last st) mod 10240 >? 25 then st <| ds_active := false |> else st)
  else
    u ← deref (e_db (ds_env st)) user;
    let req_bytes := get_requested_dl_bytes u 0 in
    if req_bytes.1 >? 0 then
      '(code, sf', e') ← alloc_dl_user (ds_sf st) (ds_env st) user (req_bytes.2);
      let st' := st <| ds_sf := sf' |> <| ds_env := e' |> in
      Ok (if bool_decide (code = SUCCESS) then st' <| ds_last := tti_dl |> <| ds_active := true |> else st')
    else Ok st.

(** [&iter->second] for the user filed under a key of the map. *)
Definition user_at (db : ue_db_t) (rnti_ : Z) : res ue_ptr :=
  match db_find db rnti_ with Some p => Ok p | None => UB DanglingPtr end.

Definition sched_users_dl (st : dl_st) : res dl_st :=
  let db := e_db (ds_env st) in
  if db_size db =? 0 then Ok st else
  let priority_idx := get_tti_tx_dl (ds_sf st) mod db_size db in
  let keys := db_keys db in
  foldM (fun st r => p ← user_at (e_db (ds_env st)) r; allocate_user st p)
        (rr_visit keys (Z.to_nat (db_size db)) (Z.to_nat priority_idx)) st.

Definition alloc_dl_users (mask : list Z) (st : dl_st) : res dl_st :=
  if Z.of_nat (length mask) =? 0 then UB DivByZero else
  m ← arr_read mask (get_tti_tx_dl (ds_sf st) mod Z.of_nat (length mask));
  if negb (m =? 0) then Ok st else sched_users_dl st.

(** ** Uplink users *)
Definition allocate_user_newtx_prbs (st : sf_sched * env) (user : ue_ptr) : res (sf_sched * env) :=
  let '(sf, e) := st in
  if is_ul_alloc sf user then Ok st else
  u ← deref (e_db e) user;
  if get_pending_ul_new_data u (get_tti_tx_ul sf) >? 0 then
    '(ret, sf', e') ← alloc_ul_user sf e user (mk_ul_grid_alloc 0 0);
    if bool_decide (ret = SUCCESS) then
      db' ← db_update (e_db e') user (fun u => ul_buffer_state (ul_buffer_state u 0 0 true) 3 0 true);
      Ok (sf', e' <| e_db := db' |>)
    else Ok (sf', e')
  else Ok st.

Definition sched_users_ul (sf : sf_sched) (e : env) : res (sf_sched * env) :=
  if db_size (e_db e) =? 0 then Ok (sf, e) else
  let priority_idx := get_tti_tx_ul sf mod db_size (e_db e) in
  foldM (fun st r => p ← user_at (e_db (snd st)) r; allocate_user_newtx_prbs st p)
        (rr_visit (db_keys (e_db e)) (Z.to_nat (db_size (e_db e))) (Z.to_nat priority_idx)) (sf, e).

Definition alloc_ul_users (sf : sf_sched) (e : env) : res (sf_sched * env) := sched_users_ul sf e.

(** ** The pass over one subframe *)

(** The [dl_flag] branch; [sf] is the schedule at index [idx]. *)
Definition dl_pass (c : carrier_sched) (db : ue_db_t) (hfn tti_rx idx : Z) (sf : sf_sched) :
    res (sf_sched * carrier_sched * ue_db_t) :=
  dl0 ← tab_set (dl_sched_table c) (tti_rx mod 10240) false;
  b ← get_ptr (bc_sched_ptr c);
  '(b', sf1, dl1) ← bc_dl_sched b hfn sf dl0;
  ra ← get_ptr (ra_sched_ptr c);
  '(ret, ra', sf2, dl2) ← ra_dl_sched ra sf1 dl1;
  let c1 := put_sf (c <| dl_sched_table := dl2 |> <| bc_sched_ptr := Some b' |>
                      <| ra_sched_ptr := Some ra' |>) idx sf2 in
  '(c2, db2) ← (if bool_decide (ret = SUCCESS) then
      '(idx3, sf_msg3, c1') ← get_sf_sched c1 (u32 (tti_rx + 9));
      '(sf_msg3', e) ← ra_ul_sched sf2 sf_msg3 (carrier_env c1' db);
      Ok (put_sf (put_env c1' e) idx3 sf_msg3', e_db e)
    else Ok (c1, db));
  st ← alloc_dl_users (sf_dl_mask c2)
         (mk_dl_st sf2 (carrier_env c2 db2) (last_alloc c2) (alloc_active c2));
  let c3 := put_sf ((put_env c2 (ds_env st)) <| last_alloc := ds_last st |>
                      <| alloc_active := ds_active st |>) idx (ds_sf st) in
  Ok (ds_sf st, c3, e_db (ds_env st)).

(** The other branch. *)
Definition ul_pass (c : carrier_sched) (db : ue_db_t) (tti_rx idx : Z) (sf : sf_sched) :
    res (sf_sched * carrier_sched * ue_db_t) :=
  ul0 ← tab_set (ul_sched_table c) (tti_rx mod 10240) false;
  '(sf', e) ← alloc_ul_users sf (mk_env (dl_sched_table c) ul0 db);
  Ok (sf', put_sf (put_env c e) idx sf', e_db e).

Definition generate_tti_result (c : carrier_sched) (db : ue_db_t) (hfn tti_rx : Z) (dl_flag : bool) :
    res (sf_sched_result * carrier_sched * ue_db_t) :=
  let ridx := tti_rx mod NRES in
  sf_result ← arr_read (sf_sched_results c) ridx;
  if tti_rx =? Tti.tti_rx (res_tti_params sf_result) then Ok (sf_result, c, db) else
  '(idx, tti_sched, c0) ← get_sf_sched c tti_rx;
  '(sf, c1, db1) ← (if dl_flag then dl_pass c0 db hfn tti_rx idx tti_sched
                    else ul_pass c0 db tti_rx idx tti_sched);
  '(r, db2) ← generate_sched_results sf db1 sf_sched_result_zero;
  l ← arr_write (sf_sched_results c1) ridx r;
  Ok (r, c1 <| sf_sched_results := l |>, db2).

Definition carrier_dl_rach_info (c : carrier_sched) (info : rar_info_t) : res (Z * carrier_sched) :=
  ra ← get_ptr (ra_sched_ptr c);
  '(ret, ra') ← ra_dl_rach_info ra info;
  Ok (ret, c <| ra_sched_ptr := Some ra' |>).
