(* ===== verification/SchedSafety.v ===== *)
(** * The scheduler runs forever

    The invariant of a carrier that is called once per subframe, downlink then
    uplink, as the PHY does, and the proof that every such pass terminates
    without undefined behaviour.  The invariant bounds how far ahead of the
    current subframe the downlink table is reserved, and keeps SIB1's subframes
    out of every other reservation. *)
From S2P Require Import Prelude Tti RaNbiot SchedTypes SchedUe BcSched UeDb SchedGrid RaSched SchedCarrier.

(** ** The round robin visits every user once *)

Lemma rr_visit_run {A} (l : list A) n m i :
  (i + n <= length l)%nat -> rr_visit l (n + m) i = take n (drop i l) ++ rr_visit l m (i + n).
Proof.
  revert i; induction n as [|n IH]; intros i Hi; [by rewrite Nat.add_0_r|].
  cbn [Nat.add rr_visit]. replace (i =? length l)%nat with false by (symmetry; apply Nat.eqb_neq; lia).
  destruct (lookup_lt_is_Some_2 l i) as [a Ha]; [lia|]. rewrite Ha.
  rewrite (drop_S _ _ _ Ha). cbn [take app]. f_equal. rewrite IH by lia. do 2 f_equal. lia.
Qed.

Lemma rr_visit_wrap {A} (l : list A) m : (0 < length l)%nat -> rr_visit l m (length l) = rr_visit l m 0.
Proof.
  intros Hl. destruct m; [done|]. cbn [rr_visit]. rewrite Nat.eqb_refl.
  by replace (0 =? length l)%nat with false by (symmetry; apply Nat.eqb_neq; lia).
Qed.

Lemma rr_visit_rotate {A} (l : list A) i :
  (i < length l)%nat -> rr_visit l (length l) i = drop i l ++ take i l.
Proof.
  intros Hi. replace (length l) with ((length l - i) + i)%nat at 1 by lia.
  rewrite rr_visit_run by lia. replace (i + (length l - i))%nat with (length l) by lia.
  rewrite rr_visit_wrap by lia.
  rewrite take_ge by (rewrite length_drop; lia). f_equal.
  replace i with (i + 0)%nat at 1 by lia. rewrite rr_visit_run by lia. cbn [rr_visit].
  by rewrite app_nil_r, drop_0.
Qed.

Lemma rr_visit_perm {A} (l : list A) i : (i < length l)%nat -> Permutation (rr_visit l (length l) i) l.
Proof. intros Hi. by rewrite rr_visit_rotate, Permutation_app_comm, take_drop. Qed.

(** ** Distances ahead of the current subframe *)
Definition dist (n x : Z) : Z := (x - n) mod 10240.
Definition age (n last : Z) : Z := (n + 4 - last) mod 10240.

(** What the downlink table may hold while subframe [n] is scheduled: SIB2 and
    RAR reservations reach 14 subframes ahead, a user's data at most 19 and
    only while its allocation is recent; SIB1's subframes are never reserved
    before their turn. *)
Definition dl_win (e n : Z) (dl : gset Z) (act : bool) (last : Z) : Prop :=
  forall x, x ∈ dl -> is_tti x /\
    (dist n x <= 13 + e \/ (act = true /\ age n last + dist n x <= 19)) /\
    (sib1_slot x = true -> dist n x <= 3 + e).

(** No entry for the current subframe itself, which was just cleared. *)
Definition dl_cleared (n : Z) (dl : gset Z) : Prop := forall x, x ∈ dl -> dist n x <> 0.

Lemma dist_range n x : 0 <= dist n x < 10240.
Proof. apply Z.mod_pos_bound; lia. Qed.

Lemma age_range n l : 0 <= age n l < 10240.
Proof. apply Z.mod_pos_bound; lia. Qed.

Lemma dist_ahead n k : 0 <= k < 10240 -> dist n ((n + k) mod 10240) = k.
Proof. intros; unfold dist; dlia. Qed.

Lemma dist_ahead2 n k j : 0 <= k -> 0 <= j -> k + j < 10240 ->
  dist n (((n + k) mod 10240 + j) mod 10240) = k + j.
Proof. intros; unfold dist; dlia. Qed.

(** Time moves on. *)
Lemma dl_win_next n dl act last :
  is_tti n -> dl_win 1 n dl act last -> dl_cleared n dl ->
  dl_win 0 ((n + 1) mod 10240) dl act last.
Proof.
  intros Hn Hw Hc x Hx. destruct (Hw x Hx) as (Ht & Hs & Hb). specialize (Hc x Hx).
  assert (Hd : dist ((n + 1) mod 10240) x = dist n x - 1).
  { unfold dist, is_tti in *. dlia. }
  split; [done|]. rewrite Hd. split; [|intros; specialize (Hb ltac:(done)); lia].
  destruct Hs as [Hs|[Ha Hs]]; [left; lia|].
  right; split; [done|]. pose proof (age_range n last). pose proof (dist_range n x).
  assert (age ((n + 1) mod 10240) last = age n last + 1).
  { unfold age in *. dlia. }
  lia.
Qed.

Lemma dl_win_clear n dl act last :
  is_tti n -> dl_win 0 n dl act last ->
  dl_win 0 n (dl ∖ {[n]}) act last /\ dl_cleared n (dl ∖ {[n]}).
Proof.
  intros Hn Hw. split.
  - intros x [Hx _]%elem_of_difference. by apply Hw.
  - intros x [Hx Hne]%elem_of_difference Hd. apply Hne, elem_of_singleton.
    destruct (Hw x Hx) as [Hxt _]. unfold dist, is_tti in *. dlia.
Qed.

Lemma dl_win_weaken n dl act last : dl_win 0 n dl act last -> dl_win 1 n dl act last.
Proof.
  intros Hw x Hx. destruct (Hw x Hx) as (? & Hs & Hb).
  split_and!; [done| |intros; specialize (Hb ltac:(done)); lia].
  destruct Hs as [|[]]; [left; lia|by right].
Qed.

(** Without a recent allocation everything is near. *)
Lemma dl_win_near e n dl act last x :
  dl_win e n dl act last -> (act = true -> age n last > 25) -> x ∈ dl -> dist n x <= 13 + e.
Proof.
  intros Hw Ha Hx. destruct (Hw x Hx) as (_ & [?|[Hact ?]] & _); [done|].
  specialize (Ha Hact). pose proof (dist_range n x). lia.
Qed.

Lemma dl_win_inactive e n dl last act last' act' :
  dl_win e n dl act last -> (act = true -> age n last > 25) -> dl_win e n dl act' last'.
Proof.
  intros Hw Ha x Hx. pose proof (dl_win_near _ _ _ _ _ x Hw Ha Hx).
  destruct (Hw x Hx) as (? & _ & ?). split_and!; [done|by left|done].
Qed.

(** ** Free subframes ahead *)

(** Valid and not SIB1's, by the position within twenty subframes. *)
Lemma data_slot_free tab x :
  x ∉ tab -> data_slot tab x = srslte_ra_nbiot_is_valid_dl_sf x && negb (sib1_slot x).
Proof. intros H. unfold data_slot. rewrite bool_decide_false by done. by rewrite andb_true_r. Qed.

Definition open20 (a : Z) : bool := srslte_ra_nbiot_is_valid_dl_sf a && negb (sib1_slot a).

Lemma open20_mod z : open20 (z mod 10240) = open20 (z mod 20).
Proof.
  unfold open20, srslte_ra_nbiot_is_valid_dl_sf, sib1_slot.
  assert ((z mod 10240) mod 10 = (z mod 20) mod 10) as -> by dlia.
  assert (((z mod 10240) / 10) mod 2 = ((z mod 20) / 10) mod 2) as -> by dlia. done.
Qed.

Lemma count_filter {A} (f : A -> bool) (l : list A) :
  Z.of_nat (length (filter (fun x => f x = true) l)) = zsum (fun x => Z.b2z (f x)) l.
Proof.
  induction l as [|a l IH]; [done|]. rewrite filter_cons, zsum_cons.
  destruct (f a); [rewrite decide_True by done|rewrite decide_False by done]; cbn [length Z.b2z]; lia.
Qed.

Lemma five_open d i :
  3 <= zsum (fun x => Z.b2z (open20 x)) (cyc d i 5).
Proof.
  unfold cyc, range. cbn [seq fmap list_fmap]. unfold zsum; cbn [foldr].
  rewrite !open20_mod.
  set (a := (d + i) mod 20).
  assert (Ha : 0 <= a < 20) by (apply Z.mod_pos_bound; lia).
  assert (E : forall k, (d + (i + k)) mod 20 = (a + k) mod 20) by (intros; unfold a; dlia).
  rewrite !E. clearbody a.
  assert (H : forallb (fun a => 3 <=?
     Z.b2z (open20 ((a + Z.of_nat 0) mod 20)) + (Z.b2z (open20 ((a + Z.of_nat 1) mod 20)) +
    (Z.b2z (open20 ((a + Z.of_nat 2) mod 20)) + (Z.b2z (open20 ((a + Z.of_nat 3) mod 20)) +
    (Z.b2z (open20 ((a + Z.of_nat 4) mod 20)) + 0))))) (range 0 20) = true) by reflexivity.
  rewrite forallb_forall in H. apply Z.leb_le, H.
  apply list_elem_of_In, elem_of_range. lia.
Qed.

Lemma cyc_app d i n m : cyc d i (n + m) = cyc d i n ++ cyc d (i + Z.of_nat n) m.
Proof.
  revert i; induction n as [|n IH]; intros i.
  - cbn [Nat.add]. change (cyc d i 0) with (@nil Z). by rewrite Z.add_0_r.
  - cbn [Nat.add]. rewrite !cyc_S, IH. cbn [app]. do 3 f_equal. lia.
Qed.

Lemma free_slots_app tab l1 l2 : free_slots tab (l1 ++ l2) = free_slots tab l1 ++ free_slots tab l2.
Proof. apply filter_app. Qed.

(** With nothing reserved beyond 14 subframes, three free ones are found
    between 9 and 19 subframes ahead. *)
Lemma data_slots_near n tab k :
  is_tti n -> (forall x, x ∈ tab -> dist n x <= 14) -> (k <= 3)%nat ->
  let room := free_slots tab (cyc ((n + 9) mod 10240) 0 data_fuel) in
  (k <= length room)%nat /\ forall x, x ∈ take k room -> 9 <= dist n x <= 19.
Proof.
  intros Hn Hnear Hk room. set (d := (n + 9) mod 10240).
  assert (Hsplit : exists m, data_fuel = (6 + (5 + m))%nat).
  { exists (data_fuel - 11)%nat. pose proof data_fuel_eq. lia. }
  destruct Hsplit as [m Hm].
  assert (Hroom : room = (free_slots tab (cyc d 0 6) ++ free_slots tab (cyc d 6 5)) ++
                         free_slots tab (cyc d 11 m)).
  { unfold room. fold d. rewrite Hm, cyc_app, cyc_app, !free_slots_app. by rewrite app_assoc. }
  assert (Hfree : forall x, x ∈ cyc d 6 5 -> x ∉ tab).
  { intros x (j & Hj & ->)%elem_of_cyc Hx. specialize (Hnear _ Hx). unfold d in Hnear.
    rewrite dist_ahead2 in Hnear by lia. lia. }
  assert (H3 : (3 <= length (free_slots tab (cyc d 6 5)))%nat).
  { unfold free_slots. apply Nat2Z.inj_le. rewrite (count_filter (data_slot tab)).
    rewrite (zsum_ext _ (fun x => Z.b2z (open20 x))); [apply five_open|].
    intros x Hx. f_equal. apply data_slot_free. by apply Hfree. }
  assert (H3' : (3 <= length (free_slots tab (cyc d 0 6) ++ free_slots tab (cyc d 6 5)))%nat).
  { rewrite length_app. lia. }
  split; [rewrite Hroom, length_app; lia|].
  intros x Hx. rewrite Hroom, take_app_le in Hx by lia.
  apply (fun H => elem_of_sublist _ _ x H (sublist_take _ _)) in Hx.
  rewrite <- free_slots_app in Hx. apply elem_of_free_slots in Hx as [Hx _].
  apply elem_of_app in Hx as [Hx|Hx]; apply elem_of_cyc in Hx as (j & Hj & ->);
    unfold d; rewrite dist_ahead2 by lia; lia.
Qed.

(** ** One turn of the downlink loop *)
Definition tx_of (n : Z) : Z := (n + 4) mod 10240.

Lemma tx_of_params n : is_tti n -> tti_tx_dl (tti_params n) = tx_of n.
Proof. intros Hn. cbn. unfold TTI_ADD, tx_of, FDD_HARQ_DELAY_UL_MS, is_tti in *. by rewrite u32_id by lia. Qed.

Lemma dist_tx n : dist n (tx_of n) = 4.
Proof. apply dist_ahead; lia. Qed.

Lemma tx_of_5 n : is_tti n -> (tx_of n + 5) mod 10240 = (n + 9) mod 10240.
Proof. unfold tx_of, is_tti; intros; dlia. Qed.

(** The downlink queues of every user stay as they are. *)
Definition keep_queues (db db' : ue_db_t) : Prop :=
  forall p u, deref db p = Ok u -> exists u', deref db' p = Ok u' /\ same_queues u u'.

Lemma keep_queues_store db q v w : deref db q = Ok v -> same_queues v w -> keep_queues db (db_store db q w).
Proof.
  intros Hv Hq p u Hu. destruct (decide (p_rnti q = p_rnti p)) as [E|].
  - assert (q = p) as ->.
    { apply (valid_ptr_rnti_inj db); [| |done]; apply valid_ptr_deref; eauto. }
    exists w. rewrite deref_store_eq. split; [done|]. congruence.
  - exists u. rewrite deref_store_ne by done. split; [done|apply same_queues_refl].
Qed.

Lemma keep_queues_trans db1 db2 db3 : keep_queues db1 db2 -> keep_queues db2 db3 -> keep_queues db1 db3.
Proof.
  intros H1 H2 p u Hu. destruct (H1 p u Hu) as (u' & Hu' & Hq). destruct (H2 p u' Hu') as (u2 & Hu2 & Hq2).
  exists u2. split; [done|]. by eapply same_queues_trans.
Qed.

Lemma keep_queues_refl db : keep_queues db db.
Proof. intros p u Hu. exists u. split; [done|apply same_queues_refl]. Qed.

Lemma keep_queues_ces db db' : same_users db db' -> keep_queues db db' -> ces_kept db db'.
Proof.
  intros Hs Hk p u' Hu'. assert (valid_ptr db p) as [u Hu]%valid_ptr_deref.
  { apply (same_users_valid db'); [by symmetry|]. apply valid_ptr_deref; eauto. }
  exists u. split; [done|]. destruct (Hk p u Hu) as (u2 & Hu2 & Hq). rewrite Hu' in Hu2. injection Hu2 as <-.
  destruct Hq as (_ & -> & _). done.
Qed.

(** An element of the downlink result is a block filled from the queues a user
    of [db] has. *)
Definition dl_from (db : ue_db_t) (d : dl_sched_data_t) : Prop :=
  exists p u u1 i tbs u2 sent new, deref db p = Ok u /\ same_queues u u1 /\ block_filled u1 i tbs d u2 sent new.

Lemma dl_from_elems db db1 l ds :
  same_users db db1 -> keep_queues db db1 -> Forall2 (dl_elem db1) l ds -> forall d, d ∈ ds -> dl_from db d.
Proof.
  intros Hs Hk H d Hd. apply list_elem_of_lookup in Hd as [i Hi].
  destruct (Forall2_lookup_r _ _ _ _ _ H Hi) as (a & _ & u1 & tbs & u2 & sent & new & Hu1 & Hb).
  assert (valid_ptr db (da_user a)) as [u Hu]%valid_ptr_deref.
  { apply (same_users_valid db1); [by symmetry|]. apply valid_ptr_deref; eauto. }
  destruct (Hk _ _ Hu) as (u' & Hu' & Hq). rewrite Hu1 in Hu'. injection Hu' as <-.
  by exists (da_user a), u, u1, (da_i_sf a), tbs, u2, sent, new.
Qed.

Definition dl_allocs_ok (db : ue_db_t) (l : list dl_alloc_t) : Prop :=
  (length l <= 1)%nat /\ forall a, a ∈ l -> 0 <= da_i_sf a <= 2 /\ valid_ptr db (da_user a).

(** From the state [st0] the turns of the loop begin with. *)
Record dl_ok (n : Z) (st0 st : dl_st) : Prop := mk_dl_ok {
  do_sf : exists l, ds_sf st = (ds_sf st0) <| data_allocs := l |> /\ dl_allocs_ok (e_db (ds_env st0)) l /\
            (l = [] \/ (ds_active st = true /\ ds_last st = tx_of n)) /\
            (tx_of n ∈ e_dl (ds_env st0) -> l = []);
  do_tx : get_tti_tx_dl (ds_sf st0) = tx_of n;
  do_win : dl_win 1 n (e_dl (ds_env st)) (ds_active st) (ds_last st);
  do_clear : dl_cleared n (e_dl (ds_env st));
  do_last : is_tti (ds_last st);
  do_ul : e_ul (ds_env st) = e_ul (ds_env st0);
  do_sub : e_dl (ds_env st0) ⊆ e_dl (ds_env st);
  do_same : same_users (e_db (ds_env st0)) (e_db (ds_env st));
  do_users : users_ok (e_db (ds_env st));
  do_keep : keep_queues (e_db (ds_env st0)) (e_db (ds_env st));
  do_age : ds_active st0 = true -> age n (ds_last st0) <= 25 -> st = st0
}.

Lemma ul_follow_up_queues u : wf_ue u -> same_queues u (ul_follow_up u).
Proof.
  intros [Hl _]. unfold ul_follow_up.
  eapply same_queues_trans; [by apply ul_buffer_state_queues|apply ul_wait_timer_queues].
Qed.

Lemma age_tx n : age n (tx_of n) = 0.
Proof. unfold age, tx_of. dlia. Qed.

Lemma dl_win_grant n dl act last slots :
  is_tti n -> dl_win 1 n dl act last -> (act = true -> age n last > 25) ->
  (forall x, x ∈ slots -> is_tti x /\ 9 <= dist n x <= 19 /\ sib1_slot x = false) ->
  dl_win 1 n (list_to_set slots ∪ ({[tx_of n]} ∪ dl)) true (tx_of n).
Proof.
  intros Hn Hw Ha Hs x. rewrite !elem_of_union, elem_of_list_to_set, elem_of_singleton.
  intros [Hx|[->|Hx]].
  - destruct (Hs x Hx) as (Ht & Hd & Hb). split_and!; [done| |congruence].
    right; split; [done|]. rewrite age_tx. lia.
  - split; [apply mod_is_tti|]. rewrite dist_tx. split; [left; lia|lia].
  - by apply (dl_win_inactive 1 n dl last act (tx_of n) true Hw Ha x).
Qed.

(** The state after a grant. *)
Lemma dl_ok_grant n st0 st user u md :
  is_tti n -> dl_ok n st0 st -> valid_ptr (e_db (ds_env st0)) user ->
  deref (e_db (ds_env st)) user = Ok u -> ds_active st = false -> data_allocs (ds_sf st) = [] ->
  dci_slot (e_dl (ds_env st)) (tx_of n) = true ->
  (forall x, x ∈ granted_slots (e_dl (ds_env st)) (tx_of n) md ->
     is_tti x /\ 9 <= dist n x <= 19 /\ sib1_slot x = false) ->
  dl_ok n st0
    (st <| ds_sf := (ds_sf st) <| data_allocs := data_allocs (ds_sf st) ++ [mk_dl_alloc user (data_i_sf md)] |> |>
        <| ds_env := (ds_env st)
             <| e_dl := list_to_set (granted_slots (e_dl (ds_env st)) (tx_of n) md) ∪
                          ({[tx_of n]} ∪ e_dl (ds_env st)) |>
             <| e_db := db_store (e_db (ds_env st)) user (ul_follow_up u) |> |>
        <| ds_last := tx_of n |> <| ds_active := true |>).
Proof.
  intros Hn [(l & Hsf & Hl & Hcase & Hbusy) Htx Hwin Hcl Hlast Hul Hsub Hsame Husers Hkq Hage]
    Hp Hu Eact Enil Edci Hslots.
  destruct (users_ok_deref _ _ _ Husers Hu) as (Hw & _ & _).
  assert (Hp' : valid_ptr (e_db (ds_env st)) user) by by eapply same_users_valid.
  assert (Hfree : (tx_of n ∉ e_dl (ds_env st))).
  { rewrite dci_slot_eq in Edci. apply andb_true_iff in Edci as [[_ E]%andb_true_iff _].
    by apply negb_true_iff, bool_decide_eq_false in E. }
  split; cbn; try done.
  - rewrite Enil. eexists. split; [rewrite Hsf; reflexivity|]. split_and!.
    + split; [cbn; lia|]. cbn. intros a ->%list_elem_of_singleton. cbn.
      split; [unfold data_i_sf; case_match; lia|done].
    + right. done.
    + intros H. exfalso. apply Hfree. by apply Hsub.
  - eapply dl_win_grant; [done|exact Hwin|rewrite Eact; done|exact Hslots].
  - intros x. rewrite !elem_of_union, elem_of_list_to_set, elem_of_singleton.
    intros [Hx|[->|Hx]]; [destruct (Hslots x Hx); lia|rewrite dist_tx; lia|by apply Hcl].
  - apply mod_is_tti.
  - set_solver.
  - etrans; [exact Hsame|by apply db_store_same].
  - eapply users_ok_same_queues; [done|exact Hu|by apply ul_follow_up_queues].
  - eapply keep_queues_trans; [exact Hkq|]. eapply keep_queues_store; [exact Hu|by apply ul_follow_up_queues].
  - intros H1 H2. specialize (Hage H1 H2). subst st0. congruence.
Qed.

Lemma allocate_user_ok n st0 st user :
  is_tti n -> dl_ok n st0 st -> valid_ptr (e_db (ds_env st0)) user ->
  exists st', allocate_user st user = Ok st' /\ dl_ok n st0 st'.
Proof.
  intros Hn Hkeep Hp.
  pose proof Hkeep as [(l & Hsf & Hl & Hcase & Hbusy) Htx Hwin Hcl Hlast Hul Hsub Hsame Husers Hkq Hage].
  assert (Hp' : valid_ptr (e_db (ds_env st)) user) by by eapply same_users_valid.
  assert (Et : get_tti_tx_dl (ds_sf st) = tx_of n) by (rewrite Hsf; exact Htx).
  unfold allocate_user. destruct (is_dl_alloc (ds_sf st) user) eqn:Ea.
  { by exists st. }
  rewrite Et. destruct (ds_active st) eqn:Eact.
  - assert (Eage : u32 (tx_of n + 10240 - ds_last st) mod 10240 = age n (ds_last st)).
    { unfold age, tx_of, is_tti in *. rewrite u32_id by dlia. dlia. }
    rewrite Eage. destruct (Z.gtb_spec (age n (ds_last st)) 25) as [Hgt|]; [|by exists st].
    eexists; split; [reflexivity|]. split; cbn; try done.
    + exists l. split_and!; try done. left. destruct Hcase as [|[_ E]]; [done|].
      rewrite E, age_tx in Hgt. lia.
    + eapply dl_win_inactive; [exact Hwin|lia].
    + intros H1 H2. specialize (Hage H1 H2). subst st0. lia.
  - assert (l = []) as -> by (destruct Hcase as [|[? _]]; done).
    pose proof Hp' as [u Hu]%valid_ptr_deref. rewrite Hu, bind_ok_l.
    destruct (_ >? 0); [|by exists st].
    set (md := (get_requested_dl_bytes u 0).2).
    rewrite (alloc_dl_user_eq (ds_sf st) (ds_env st) user md u (tx_of n) Hu (mod_is_tti _) Et), Ea.
    destruct (dci_slot (e_dl (ds_env st)) (tx_of n)) eqn:Edci; cbn [negb].
    2:{ rewrite bind_ok_l, bool_decide_false by done. eexists; split; [reflexivity|].
        destruct st as [sf e la ac]; cbn in *. exact Hkeep. }
    rewrite tx_of_5 by done.
    destruct (data_slots_near n ({[tx_of n]} ∪ e_dl (ds_env st)) (n_data_sf md) Hn) as [Hlen Hnear].
    { intros x [->%elem_of_singleton|Hx]%elem_of_union; [rewrite dist_tx; lia|].
      by apply (dl_win_near 1 n _ _ _ x Hwin). }
    { unfold n_data_sf. case_match; lia. }
    replace (_ <=? _) with true by lia. rewrite bind_ok_l, bool_decide_true by done.
    eexists; split; [reflexivity|].
    apply dl_ok_grant with (st := st) (u := u); try done.
    { by rewrite Hsf. }
    intros x Hx. unfold granted_slots in Hx. rewrite tx_of_5 in Hx by done.
    destruct (data_slots_spec _ _ _ _ Hx) as (? & _ & _ & ?). split_and!; try done; by apply Hnear.
Qed.

Lemma foldM_ok {A S} (f : S -> A -> res S) (I : S -> Prop) (P : A -> Prop) l s :
  (forall a s, P a -> I s -> exists s', f s a = Ok s' /\ I s') ->
  (forall a, a ∈ l -> P a) -> I s -> exists s', foldM f l s = Ok s' /\ I s'.
Proof.
  intros Hf. revert s; induction l as [|a l IH]; intros s HP HI; [by exists s|]. cbn.
  destruct (Hf a s) as (s' & -> & HI'); [apply HP, list_elem_of_here|done|]. cbn.
  apply IH; [|done]. intros; apply HP; by apply list_elem_of_further.
Qed.

Lemma user_at_ok db0 db r :
  same_users db0 db -> r ∈ db_keys db0 -> exists p, user_at db r = Ok p /\ valid_ptr db0 p.
Proof.
  intros Hs Hr. destruct (db_find_key db0 r Hr) as (p & Hf & Hp & _).
  exists p. unfold user_at. by rewrite <- (same_users_find db0 db r Hs), Hf.
Qed.

Lemma rr_visit_keys db t :
  db_size db <> 0 ->
  Permutation (rr_visit (db_keys db) (Z.to_nat (db_size db)) (Z.to_nat (t mod db_size db))) (db_keys db).
Proof.
  intros Hne. rewrite <- length_db_keys in *. rewrite Nat2Z.id. apply rr_visit_perm.
  pose proof (Z.mod_pos_bound t (Z.of_nat (length (db_keys db)))). lia.
Qed.

Lemma alloc_dl_users_ok n st0 st :
  is_tti n -> dl_ok n st0 st -> exists st', alloc_dl_users [0] st = Ok st' /\ dl_ok n st0 st'.
Proof.
  intros Hn Hst. unfold alloc_dl_users. cbn [length].
  change (Z.of_nat 1 =? 0) with false. cbn match. rewrite Z.mod_1_r.
  change (arr_read [0] 0) with (Ok 0 : res Z). rewrite bind_ok_l. cbn [Z.eqb negb].
  unfold sched_users_dl. destruct (Z.eqb_spec (db_size (e_db (ds_env st))) 0); [by exists st|].
  apply (foldM_ok _ (dl_ok n st0) (fun r => r ∈ db_keys (e_db (ds_env st0)))); [|intros r Hr|done].
  - intros r s Hr Hs. destruct (user_at_ok (e_db (ds_env st0)) (e_db (ds_env s)) r) as (p & -> & Hp);
      [apply Hs|done|]. rewrite bind_ok_l. by apply allocate_user_ok.
  - rewrite rr_visit_keys in Hr by done. rewrite (same_users_keys _ _ (do_same _ _ _ Hst)). done.
Qed.

(** ** The broadcast and the RAR of one subframe *)

Lemma dl_win_add e n dl act last x :
  is_tti x -> dist n x <= 13 + e -> (sib1_slot x = true -> dist n x <= 3 + e) ->
  dl_win e n dl act last -> dl_win e n ({[x]} ∪ dl) act last.
Proof.
  intros Ht Hd Hs Hw y [->%elem_of_singleton|Hy]%elem_of_union; [|by apply Hw].
  split_and!; [done|by left|done].
Qed.

Lemma dl_cleared_add n dl x : dist n x <> 0 -> dl_cleared n dl -> dl_cleared n ({[x]} ∪ dl).
Proof. intros Hd Hc y [->%elem_of_singleton|Hy]%elem_of_union; [done|by apply Hc]. Qed.

Lemma dist_tx_plus n k : is_tti n -> 0 <= k <= 16 -> dist n ((tx_of n + k) mod 10240) = 4 + k.
Proof. intros Hn Hk. unfold tx_of. rewrite dist_ahead2 by lia. lia. Qed.

(** SIB1's subframe is always free when its turn comes, and SIB1 is sent. *)
Lemma bc_pass_ok n b hfn sf dl act last :
  is_tti n -> bc_inv b -> get_tti_tx_dl sf = tx_of n ->
  dl_win 0 n dl act last -> dl_cleared n dl ->
  exists b' l dl', bc_dl_sched b hfn sf dl = Ok (b', sf <| bc_allocs := bc_allocs sf ++ l |>, dl') /\
    bc_inv b' /\ (length l <= 1)%nat /\ dl_win 1 n dl' act last /\ dl_cleared n dl' /\
    (sib1_slot (tx_of n) = true ->
       tx_of n ∈ dl' /\ l = [mk_bc_alloc (ra_dl_sib1 b) DL_BC (sib1_sf_idx b =? 0)] /\
       sib1_sf_idx b' = (sib1_sf_idx b + 1) mod 128) /\
    (sib1_slot (tx_of n) = false -> sib1_sf_idx b' = sib1_sf_idx b).
Proof.
  intros Hn Hb Et Hw Hc.
  destruct (bc_dl_sched_spec b hfn sf dl Hb) as (b' & sf' & dl' & H & Hb' & Hst).
  { change (is_tti (get_tti_tx_dl sf)). rewrite Et. apply mod_is_tti. }
  change (tti_tx_dl (sf_tti_params sf)) with (get_tti_tx_dl sf) in Hst. rewrite Et in Hst.
  pose proof (dl_win_weaken _ _ _ _ Hw) as Hw1. exists b'.
  inversion Hst as [b1 sf1 dl1 Hs Hf Hi Hsf Hdl|b1 sf1 dl1 Hs Hf Hi Hsf Hdl|b1 Hs Hi]; subst.
  - eexists _, _. split; [exact H|]. split_and!; try done.
    + apply dl_win_add; [apply mod_is_tti|rewrite dist_tx; lia|rewrite dist_tx; lia|done].
    + apply dl_cleared_add; [rewrite dist_tx; lia|done].
    + intros _. split_and!; [set_solver|done|done].
    + intros E. congruence.
  - eexists _, _. split; [exact H|]. split_and!; try done.
    + intros x [Hx|Hx]%Hdl; [by apply Hw1|].
      destruct (sib2_slots_spec (tx_of n) x (mod_is_tti _) Hs Hx) as (Ht & _ & Hn1).
      apply list_elem_of_fmap in Hx as (k & -> & Hk).
      assert (0 <= k <= 10) by (set_unfold; lia).
      split_and!; [done| |congruence]. left. rewrite dist_tx_plus by (done || lia). lia.
    + intros x [Hx|Hx]%Hdl; [by apply Hc|].
      apply list_elem_of_fmap in Hx as (k & -> & Hk).
      assert (0 <= k <= 10) by (set_unfold; lia). rewrite dist_tx_plus by (done || lia). lia.
    + rewrite (sib2_start_not_sib1 _ Hs). done.
  - exists [], dl'. rewrite app_nil_r. split; [by destruct sf'|].
    split_and!; [done|cbn; lia|done|done| |done].
    intros E. exfalso. destruct Hs as [Hs|[Hs _]]; [|congruence].
    destruct (Hw _ Hs) as (_ & _ & Hd). specialize (Hd E). rewrite dist_tx in Hd. lia.
Qed.

Definition ra_ok (ra : ra_sched) : Prop :=
  ra_inv ra /\ forall r, r ∈ pending_rars ra -> is_tti (pr_nprach_tti r).

Lemma rar_payload_dist n r : is_tti n -> rar_payload (tx_of n) r -> is_tti r /\ 9 <= dist n r <= 11.
Proof.
  intros Hn Hr. unfold rar_payload in Hr. rewrite tx_of_5 in Hr by done.
  destruct (next_valid_dl_sf_spec ((n + 9) mod 10240) (mod_is_tti _)) as (d & r' & H & Hd & Er & Ht & _).
  rewrite Hr in H. injection H as <-. split; [done|]. rewrite Er, dist_ahead2 by lia. lia.
Qed.

(** The RAR turn, whatever the queue. *)
Lemma ra_pass_ok n ra sf dl act last :
  is_tti n -> ra_ok ra -> get_tti_tx_dl sf = tx_of n -> rar_allocs sf = [] ->
  dl_win 1 n dl act last -> dl_cleared n dl ->
  exists o ra' l dl', ra_dl_sched ra sf dl = Ok (o, ra', sf <| rar_allocs := l |>, dl') /\
    ra_ok ra' /\ dl_win 1 n dl' act last /\ dl_cleared n dl' /\ dl ⊆ dl' /\
    (l = [] \/ exists r g, l = [rar_alloc_of r g]) /\
    (tx_of n ∈ dl -> l = []).
Proof.
  intros Hn [Hi Hnp] Et Er Hw Hc. destruct (pending_rars ra) as [|rar rest] eqn:Ep.
  { exists DCI_COLLISION, (ra <| rar_aggr_level := 2 |>), [], dl. split.
    - destruct ra as [l a]; cbn in Ep; subst l. rewrite <- Er. by destruct sf.
    - split_and!; [split; [by destruct Hi; split|cbn; rewrite Ep; done]|done|done|done|by left|done]. }
  destruct (ra_dl_sched_spec ra sf dl rar rest Hi) as (g & gs & r & Hg & Hr & H); [|done|..].
  { rewrite Et. apply mod_is_tti. }
  { apply Hnp, list_elem_of_here. }
  cbn zeta in H. rewrite Et in H, Hr. rewrite Er in H.
  destruct (rar_payload_dist n r Hn Hr) as [Hrt Hrd].
  destruct (rar_dci_slot dl (tx_of n)) eqn:Ed; cbn [negb] in H.
  - assert (Hfree : (tx_of n ∉ dl)).
    { unfold rar_dci_slot in Ed. apply andb_true_iff in Ed as [[_ Ed]%andb_true_iff _].
      by apply negb_true_iff, bool_decide_eq_false in Ed. }
    destruct gs as [|g2 gs]; eexists _, _, _, _; (split; [exact H|]).
    + split_and!.
      * split; [by eapply ra_inv_tail|]. cbn. intros ??; by apply Hnp, list_elem_of_further.
      * apply dl_win_add; [done|lia| |].
        { destruct (rar_payload_not_sib1 (tx_of n) r) as (-> & _); [apply mod_is_tti| |done|done].
          unfold rar_dci_slot in Ed. by apply andb_true_iff in Ed as [[Ed _]%andb_true_iff _]. }
        apply dl_win_add; [apply mod_is_tti|rewrite dist_tx; lia|rewrite dist_tx; lia|done].
      * apply dl_cleared_add; [lia|]. apply dl_cleared_add; [rewrite dist_tx; lia|done].
      * set_solver.
      * right. by eexists _, _.
      * done.
    + split_and!; [|done|done|done|right; by eexists _, _|done].
      split; [by eapply ra_inv_drop|]. cbn. intros r' [->|Hr']%elem_of_cons.
      * cbn. apply Hnp, list_elem_of_here.
      * by apply Hnp, list_elem_of_further.
  - eexists _, _, [], dl. split; [rewrite H, <- Er; by destruct sf|].
    split_and!; [|done|done|done|by left|done].
    split; [by destruct Hi; split|cbn; by rewrite Ep].
Qed.

(** ** The carrier's subframe objects

    [k] subframes ahead of [n] the ring holds an object bound to that subframe
    only when Msg3 has been scheduled for it; any other object is recognised as
    old and cleared. *)
Definition keyed (n k : Z) (sf : sf_sched) : Prop :=
  get_tti_rx sf = (n + k) mod 10240 \/ get_tti_rx sf = n + k.

Record slot_ok (m k : Z) (db : ue_db_t) (sf : sf_sched) : Prop := mk_slot_ok {
  so_dl : bc_allocs sf = [] /\ rar_allocs sf = [] /\ data_allocs sf = [];
  so_ul : Z.of_nat (length (ul_data_allocs sf)) <= Z.b2z (k <=? m);
  so_users : forall a, a ∈ ul_data_allocs sf -> 0 <= ua_mcs a <= 12 /\ valid_ptr db (ua_user a)
}.

Definition slots_ok (lo m n : Z) (db : ue_db_t) (l : list sf_sched) : Prop :=
  length l = 40%nat /\
  (forall i sf, l !! i = Some sf -> sf_tti_params sf = tti_params (get_tti_rx sf)) /\
  forall k sf, 0 <= k < 40 -> lo <= k -> l !! Z.to_nat ((n + k) mod 40) = Some sf -> keyed n k sf ->
    slot_ok m k db sf.

Lemma slot_ok_same m k db db' sf : same_users db db' -> slot_ok m k db sf -> slot_ok m k db' sf.
Proof.
  intros Hs [Hd Hl Hu]. split; [done|done|]. intros a Ha. destruct (Hu a Ha) as [? Hp].
  split; [done|]. by apply (same_users_valid db).
Qed.

Lemma slots_ok_same lo m n db db' l : same_users db db' -> slots_ok lo m n db l -> slots_ok lo m n db' l.
Proof.
  intros Hs (Hl & Hp & Hk). split_and!; [done|done|]. intros. eapply slot_ok_same; [done|]. by eapply Hk.
Qed.

(** Writing one object. *)
Lemma slots_ok_insert lo m n db l k sf :
  slots_ok lo m n db l -> 0 <= n -> 0 <= k < 40 ->
  sf_tti_params sf = tti_params (get_tti_rx sf) ->
  (lo <= k -> keyed n k sf -> slot_ok m k db sf) ->
  slots_ok lo m n db (<[Z.to_nat ((n + k) mod 40) := sf]> l).
Proof.
  intros (Hl & Hp & Hk) Hn Hk40 Hsp Hsf. split; [by rewrite length_insert|]. split.
  - intros i sf'. rewrite list_lookup_insert_Some. intros [(_ & -> & _)|[_ H]]; [done|by eapply Hp].
  - intros k' sf' Hk' Hlo. rewrite list_lookup_insert_Some. intros [(Hi & <- & _)|[_ H]].
    + assert (k' = k) as -> by dlia. by apply Hsf.
    + by apply Hk.
Qed.

Lemma slots_ok_weaken lo m m' n db l : m <= m' -> slots_ok lo m n db l -> slots_ok lo m' n db l.
Proof.
  intros Hm (Hl & Hp & Hk). split_and!; [done|done|]. intros k sf Hr Hlo Hi Hx.
  destruct (Hk k sf Hr Hlo Hi Hx) as [Hd Hu Hus]. split; [done| |done].
  etrans; [exact Hu|]. destruct (Z.leb_spec k m), (Z.leb_spec k m'); cbn; lia.
Qed.

Lemma slots_ok_lo lo lo' m n db l : lo <= lo' -> slots_ok lo m n db l -> slots_ok lo' m n db l.
Proof. intros Hm (Hl & Hp & Hk). split_and!; [done|done|]. intros; eapply Hk; [lia|lia|done..]. Qed.

(** Time moves on: the object of [n] itself becomes the oldest one. *)
Lemma slots_ok_next n db l :
  is_tti n -> slots_ok 1 9 n db l ->
  (forall sf, l !! Z.to_nat (n mod 40) = Some sf -> get_tti_rx sf = n) ->
  slots_ok 0 8 ((n + 1) mod 10240) db l.
Proof.
  intros Hn (Hl & Hp & Hk) H0. split_and!; [done|done|]. unfold is_tti in Hn.
  intros k sf Hr _ Hi Hx.
  assert (Hi' : ((n + 1) mod 10240 + k) mod 40 = (n + (k + 1)) mod 40) by dlia.
  rewrite Hi' in Hi. destruct (decide (k = 39)) as [->|Hne].
  - exfalso. assert ((n + (39 + 1)) mod 40 = n mod 40) as E by dlia. rewrite E in Hi.
    specialize (H0 sf Hi). unfold keyed in Hx. rewrite H0 in Hx. dlia.
  - destruct (Hk (k + 1) sf) as [Hd Hu Hus]; [lia|lia|done| |split; [done| |done]].
    + unfold keyed in *. dlia.
    + etrans; [exact Hu|]. destruct (Z.leb_spec (k + 1) 9), (Z.leb_spec k 8); cbn; lia.
Qed.

(** Fetching the object of [n + k]. *)
Lemma get_sf_sched_ok lo m n c db k :
  slots_ok lo m n db (sf_scheds c) -> is_tti n -> lo <= k < 40 -> 0 <= k ->
  exists sf, get_sf_sched c (n + k) =
      Ok ((n + k) mod 40, sf, put_sf c ((n + k) mod 40) sf) /\
    sf_tti_params sf = tti_params (n + k) /\ slot_ok m k db sf.
Proof.
  intros (Hl & Hp & Hk) Hn Hkr Hk0. unfold is_tti in Hn. unfold get_sf_sched.
  change NSF with 40. pose proof (Z.mod_pos_bound (n + k) 40 ltac:(lia)).
  destruct (arr_read_in (sf_scheds c) ((n + k) mod 40)) as (ret & -> & Hr); [lia|]. rewrite bind_ok_l.
  set (sf := if get_tti_rx ret =? n + k then ret else new_tti ret (n + k)).
  rewrite arr_write_in by lia. rewrite bind_ok_l. exists sf. split; [done|].
  unfold sf. destruct (Z.eqb_spec (get_tti_rx ret) (n + k)) as [E|].
  - split; [rewrite (Hp _ _ Hr); by rewrite E|]. apply (Hk k); [lia|lia|done|by right].
  - split; [done|]. split; [done|cbn; destruct (k <=? m); cbn; lia|]. intros a Ha. by apply elem_of_nil in Ha.
Qed.

(** ** The invariant of a carrier *)
Record base_inv (c : carrier_sched) (db : ue_db_t) : Prop := mk_base_inv {
  bi_res_len : length (sf_sched_results c) = 80%nat;
  bi_res : forall i r, sf_sched_results c !! i = Some r -> res_tti_params r = tti_params 10241;
  bi_mask : sf_dl_mask c = [0];
  bi_bc : exists b, bc_sched_ptr c = Some b /\ bc_inv b;
  bi_ra : exists ra, ra_sched_ptr c = Some ra /\ ra_ok ra;
  bi_last : is_tti (last_alloc c);
  bi_users : users_ok db
}.

(** Before the downlink pass of [n], and between its two passes. *)
Record car_inv (n : Z) (c : carrier_sched) (db : ue_db_t) : Prop := mk_car_inv {
  ci_base : base_inv c db;
  ci_win : dl_win 0 n (dl_sched_table c) (alloc_active c) (last_alloc c);
  ci_slots : slots_ok 0 8 n db (sf_scheds c)
}.

Record sf_dl_done (n : Z) (db : ue_db_t) (sf : sf_sched) : Prop := mk_sf_dl_done {
  sd_params : sf_tti_params sf = tti_params n;
  sd_bc : (length (bc_allocs sf) <= 1)%nat;
  sd_rar : rar_allocs sf = [] \/ exists r g, rar_allocs sf = [rar_alloc_of r g];
  sd_data : dl_allocs_ok db (data_allocs sf);
  sd_ul : (length (ul_data_allocs sf) <= 1)%nat;
  sd_ul_users : forall a, a ∈ ul_data_allocs sf -> 0 <= ua_mcs a <= 12 /\ valid_ptr db (ua_user a)
}.

Record mid_inv (n : Z) (c : carrier_sched) (db : ue_db_t) : Prop := mk_mid_inv {
  mi_base : base_inv c db;
  mi_win : dl_win 1 n (dl_sched_table c) (alloc_active c) (last_alloc c);
  mi_clear : dl_cleared n (dl_sched_table c);
  mi_slots : slots_ok 1 9 n db (sf_scheds c);
  mi_sf : exists sf, sf_scheds c !! Z.to_nat (n mod 40) = Some sf /\ sf_dl_done n db sf
}.

Lemma sf_dl_done_same n db db' sf : same_users db db' -> sf_dl_done n db sf -> sf_dl_done n db' sf.
Proof.
  intros Hs [Hp Hb Hr [Hd Hda] Hu Hua]. split; try done.
  - split; [done|]. intros a Ha. destruct (Hda a Ha); split; [done|by apply (same_users_valid db)].
  - intros a Ha. destruct (Hua a Ha); split; [done|by apply (same_users_valid db)].
Qed.

Lemma sf_ready_of n db sf extra :
  sf_dl_done n db sf -> users_ok db -> (length extra <= 1)%nat ->
  (forall a, a ∈ extra -> 0 <= ua_mcs a <= 12 /\ valid_ptr db (ua_user a)) ->
  sf_ready (sf <| ul_data_allocs := ul_data_allocs sf ++ extra |>) db.
Proof.
  intros [Hp Hb Hr [Hd Hda] Hu Hua] Husers Hl He. unfold MAX_BC_LIST, MAX_RAR_LIST, MAX_DATA_LIST in *.
  assert (Hr' : (length (rar_allocs sf) <= 1)%nat) by (destruct Hr as [->|(? & ? & ->)]; cbn; lia). clear Hr.
  split; cbn; unfold MAX_BC_LIST, MAX_RAR_LIST, MAX_DATA_LIST; try lia.
  - rewrite length_app. lia.
  - destruct (data_allocs sf) as [|a [|? ?]]; [apply NoDup_nil_2|apply NoDup_singleton|cbn in Hd; lia].
  - intros a Ha. destruct (Hda a Ha) as [? [u Hu']%valid_ptr_deref]. split; [done|]. exists u. split; [done|].
    by destruct (users_ok_deref _ _ _ Husers Hu') as (? & ? & _).
  - intros a [Ha|Ha]%elem_of_app; [by apply Hua|by apply He].
Qed.

(** ** Msg3 *)
Lemma ra_ul_step_ok sf e g :
  is_tti (get_tti_tx_dl sf) -> ul_data_allocs sf = [] -> g_i_mcs (rg_grant g) = 0 ->
  exists l ul', ra_ul_step (sf, e) g = Ok (sf <| ul_data_allocs := l |>, e <| e_ul := ul' |>) /\
    (length l <= 1)%nat /\
    forall a, a ∈ l -> 0 <= ua_mcs a <= 12 /\ valid_ptr (e_db e) (ua_user a).
Proof.
  intros Ht Hl Hm. unfold ra_ul_step.
  assert (Hkeep : (sf, e) = (sf <| ul_data_allocs := [] |>, e <| e_ul := e_ul e |>)).
  { rewrite <- Hl. by destruct sf, e. }
  assert (Hnil : forall a : ul_alloc_t, a ∈ [] -> 0 <= ua_mcs a <= 12 /\ valid_ptr (e_db e) (ua_user a)).
  { intros a Ha. by apply elem_of_nil in Ha. }
  destruct (db_find (e_db e) (temp_crnti (rg_data g))) as [p|] eqn:Ef.
  2:{ exists [], (e_ul e). rewrite <- Hkeep. split; [done|split; [cbn; lia|exact Hnil]]. }
  destruct (db_find_valid _ _ _ Ef) as [Hp _].
  destruct (msg3_rx_tti_spec _ Ht) as (r & _ & Hr & Hmsg). unfold is_tti in Hr.
  pose proof (alloc_msg3_eq sf e p g _ (r + 13) eq_refl Ht Hm Hmsg) as H.
  assert (Ha : is_ul_alloc sf p = false) by (unfold is_ul_alloc; by rewrite Hl).
  specialize (H ltac:(lia) Ha). destruct (busy_in _ _).
  - rewrite H, bind_ok_l. exists [], (e_ul e). rewrite <- Hkeep. split; [done|split; [cbn; lia|exact Hnil]].
  - destruct H as (ul' & -> & _). rewrite bind_ok_l, Hl. eexists _, ul'. split; [done|].
    split; [cbn; lia|]. cbn. intros a ->%list_elem_of_singleton. cbn. split; [lia|done].
Qed.

Lemma ra_ul_sched_ok sf2 sf e :
  is_tti (get_tti_tx_dl sf) -> ul_data_allocs sf = [] ->
  (rar_allocs sf2 = [] \/ exists r g, rar_allocs sf2 = [rar_alloc_of r g]) ->
  exists l ul', ra_ul_sched sf2 sf e = Ok (sf <| ul_data_allocs := l |>, e <| e_ul := ul' |>) /\
    (length l <= 1)%nat /\
    forall a, a ∈ l -> 0 <= ua_mcs a <= 12 /\ valid_ptr (e_db e) (ua_user a).
Proof.
  intros Ht Hl [E|(r & g & E)]; unfold ra_ul_sched; rewrite E.
  - exists [], (e_ul e). rewrite <- Hl. split; [by destruct sf, e|]. rewrite Hl.
    split; [cbn; lia|]. intros a Ha. by apply elem_of_nil in Ha.
  - cbn [foldM rar_alloc_of ra_rar_grant r_msg3_grant].
    destruct (ra_ul_step_ok sf e (mk_dl_rar_grant g (mk_rar_grant 1 18 0 0 0)) Ht Hl eq_refl)
      as (l & ul' & -> & Hlen & Hv). rewrite !bind_ok_l. by exists l, ul'.
Qed.

(** ** The downlink pass *)

Lemma base_inv_change c db c' db' :
  base_inv c db ->
  sf_sched_results c' = sf_sched_results c -> sf_dl_mask c' = sf_dl_mask c ->
  (exists b, bc_sched_ptr c' = Some b /\ bc_inv b) -> (exists ra, ra_sched_ptr c' = Some ra /\ ra_ok ra) ->
  is_tti (last_alloc c') -> users_ok db' -> base_inv c' db'.
Proof. intros [H1 H2 H3 H4 H5 H6 H7] E1 E2 Hb Hr Hl Hu. split; rewrite ?E1, ?E2; done. Qed.

(** What the pass decides. *)
Record dl_outcome (n : Z) (c c' : carrier_sched) (sf' : sf_sched) : Prop := mk_dl_outcome {
  dx_sib1 : sib1_slot (tx_of n) = true ->
    exists b b', bc_sched_ptr c = Some b /\ bc_sched_ptr c' = Some b' /\
      bc_allocs sf' = [mk_bc_alloc (ra_dl_sib1 b) DL_BC (sib1_sf_idx b =? 0)] /\
      sib1_sf_idx b' = (sib1_sf_idx b + 1) mod 128 /\
      rar_allocs sf' = [] /\ data_allocs sf' = [];
  dx_grant : data_allocs sf' <> [] ->
    last_alloc c' = tx_of n /\ alloc_active c' = true /\
    (alloc_active c = true -> age n (last_alloc c) > 25);
  dx_hold : alloc_active c = true -> age n (last_alloc c) <= 25 ->
    last_alloc c' = last_alloc c /\ alloc_active c' = true
}.

(** The end of the pass, from the state [c2] Msg3 leaves. *)
Lemma dl_pass_users n c c2 db sf2 :
  is_tti n -> base_inv c2 db -> slots_ok 1 9 n db (sf_scheds c2) ->
  last_alloc c2 = last_alloc c -> alloc_active c2 = alloc_active c ->
  dl_win 1 n (dl_sched_table c2) (alloc_active c2) (last_alloc c2) ->
  dl_cleared n (dl_sched_table c2) ->
  sf_tti_params sf2 = tti_params n -> data_allocs sf2 = [] -> (length (bc_allocs sf2) <= 1)%nat ->
  (rar_allocs sf2 = [] \/ exists r g, rar_allocs sf2 = [rar_alloc_of r g]) -> slot_ok 8 0 db (sf_sched_zero <| ul_data_allocs := ul_data_allocs sf2 |>) ->
  (sib1_slot (tx_of n) = true ->
    tx_of n ∈ dl_sched_table c2 /\ exists b b', bc_sched_ptr c = Some b /\ bc_sched_ptr c2 = Some b' /\
      bc_allocs sf2 = [mk_bc_alloc (ra_dl_sib1 b) DL_BC (sib1_sf_idx b =? 0)] /\
      sib1_sf_idx b' = (sib1_sf_idx b + 1) mod 128 /\ rar_allocs sf2 = []) ->
  exists st, alloc_dl_users (sf_dl_mask c2)
       (mk_dl_st sf2 (carrier_env c2 db) (last_alloc c2) (alloc_active c2)) = Ok st /\
    let c3 := put_sf ((put_env c2 (ds_env st)) <| last_alloc := ds_last st |>
                        <| alloc_active := ds_active st |>) (n mod 40) (ds_sf st) in
    mid_inv n c3 (e_db (ds_env st)) /\ same_users db (e_db (ds_env st)) /\ keep_queues db (e_db (ds_env st)) /\
    sf_scheds c3 !! Z.to_nat (n mod 40) = Some (ds_sf st) /\
    sf_dl_done n (e_db (ds_env st)) (ds_sf st) /\ dl_outcome n c c3 (ds_sf st).
Proof.
  intros Hn Hb Hsl El Ea Hw Hc Ep Ed Hbc Hra Hul Hs1. pose proof Hb as [_ _ Hm _ _ Hlast Hus]. rewrite Hm.
  set (st0 := mk_dl_st sf2 (carrier_env c2 db) (last_alloc c2) (alloc_active c2)).
  destruct (alloc_dl_users_ok n st0 st0 Hn) as (st & H & Hok).
  { split; cbn; try done.
    - exists []. rewrite <- Ed. split; [by destruct sf2|]. split; [|rewrite Ed; split; [by left|done]].
      rewrite Ed. split; [cbn; lia|]. intros a Ha. by apply elem_of_nil in Ha.
    - unfold get_tti_tx_dl. rewrite Ep. by apply tx_of_params.
    - apply keep_queues_refl. }
  exists st. split; [exact H|]. cbn zeta.
  pose proof Hok as [(l & Esf & Hl & Hcase & Hbusy) _ Hwin Hcl Hla Heul _ Hsame Husr Hkq Hage].
  change (ds_sf st0) with sf2 in *. change (e_db (ds_env st0)) with db in *.
  change (e_dl (ds_env st0)) with (dl_sched_table c2) in *.
  pose proof (Z.mod_pos_bound n 40 ltac:(lia)).
  assert (Hput : forall l' : list sf_sched, length l' = 40%nat ->
            <[Z.to_nat (n mod 40):=ds_sf st]> l' !! Z.to_nat (n mod 40) = Some (ds_sf st)).
  { intros l' Hl'. apply list_lookup_insert_eq. lia. }
  assert (Hdone : sf_dl_done n (e_db (ds_env st)) (ds_sf st)).
  { apply (sf_dl_done_same n db); [done|]. destruct Hul as [_ Hul Hulu]. cbn in Hul, Hulu.
    rewrite Esf. split; cbn; try done. lia. }
  assert (Hlen : length (sf_scheds c2) = 40%nat) by apply Hsl.
  split_and!; [| |exact Hkq|cbn; by apply Hput|done|].
  - split.
    + apply (base_inv_change c2 db); cbn; try done; apply Hb.
    + exact Hwin.
    + exact Hcl.
    + cbn. replace (n mod 40) with ((n + 0) mod 40) by (f_equal; lia).
      apply slots_ok_insert; [by apply (slots_ok_same _ _ _ db)|unfold is_tti in Hn; lia|lia| |lia].
      rewrite Esf. cbn. unfold get_tti_rx. cbn. by rewrite Ep.
    + exists (ds_sf st). split; [cbn; by apply Hput|done].
  - done.
  - split.
    + intros Hs. destruct (Hs1 Hs) as (Hin & b & b' & E1 & E2 & E3 & E4 & E5).
      exists b, b'. rewrite Esf. cbn. split_and!; try done. by apply Hbusy.
    + rewrite Esf. cbn. intros Hne. destruct Hcase as [?|[Hact Hlst]]; [done|].
      split_and!; [done|done|]. intros Hact0. rewrite <- Ea in Hact0.
      destruct (Z.leb_spec (age n (last_alloc c2)) 25) as [Hle|]; [|rewrite <- El; lia].
      exfalso. specialize (Hage Hact0 Hle). apply Hne.
      assert (E : data_allocs (ds_sf st) = []) by (rewrite Hage; exact Ed).
      rewrite Esf in E. exact E.
    + intros Hact Hle. rewrite <- Ea in Hact. rewrite <- El in Hle. specialize (Hage Hact Hle).
      rewrite Hage. cbn. split; [done|congruence].
Qed.

Lemma put_sf_put c i x y : put_sf (put_sf c i x) i y = put_sf c i y.
Proof. unfold put_sf; cbn. by rewrite list_insert_insert_eq. Qed.

Lemma dl_pass_ok n c db hfn sf :
  is_tti n -> base_inv c db -> dl_win 0 n (dl_sched_table c) (alloc_active c) (last_alloc c) ->
  slots_ok 1 8 n db (sf_scheds c) ->
  sf_tti_params sf = tti_params n -> slot_ok 8 0 db sf ->
  exists sf' c' db', dl_pass c db hfn n (n mod 40) sf = Ok (sf', c', db') /\
    mid_inv n c' db' /\ same_users db db' /\ keep_queues db db' /\
    sf_scheds c' !! Z.to_nat (n mod 40) = Some sf' /\ sf_dl_done n db' sf' /\ dl_outcome n c c' sf'.
Proof.
  intros Hn Hb Hw Hsl Ep Hslot. pose proof Hslot as [(Ebc & Era & Edat) Hul Hulu].
  pose proof Hb as [_ _ _ (b & Hb1 & Hb2) (ra & Hr1 & Hr2) Hlast Hus].
  assert (Et : get_tti_tx_dl sf = tx_of n) by (unfold get_tti_tx_dl; rewrite Ep; by apply tx_of_params).
  unfold dl_pass. rewrite tab_set_tti by apply mod_is_tti. rewrite bind_ok_l.
  replace (n mod 10240) with n by (unfold is_tti in Hn; rewrite Z.mod_small; lia).
  destruct (dl_win_clear n _ _ _ Hn Hw) as [Hw0 Hc0]. rewrite Hb1. cbn [get_ptr]. rewrite bind_ok_l.
  destruct (bc_pass_ok n b hfn sf _ _ _ Hn Hb2 Et Hw0 Hc0)
    as (b' & l & dl1 & -> & Hb' & Hl & Hw1 & Hc1 & Hs1 & Hs0).
  rewrite bind_ok_l, Hr1. cbn [get_ptr]. rewrite bind_ok_l.
  set (sf1 := sf <| bc_allocs := bc_allocs sf ++ l |>).
  destruct (ra_pass_ok n ra sf1 dl1 _ _ Hn Hr2 Et Era Hw1 Hc1)
    as (o & ra' & lr & dl2 & -> & Hra' & Hw2 & Hc2 & Hsub & Hlr & Hlrn).
  rewrite bind_ok_l. cbn beta iota zeta.
  set (sf2 := sf1 <| rar_allocs := lr |>).
  set (c0 := c <| dl_sched_table := dl2 |> <| bc_sched_ptr := Some b' |> <| ra_sched_ptr := Some ra' |>).
  set (c1 := put_sf c0 (n mod 40) sf2).
  assert (Hsl1 : slots_ok 1 8 n db (sf_scheds c1)).
  { cbn. replace (n mod 40) with ((n + 0) mod 40) by (f_equal; lia). unfold is_tti in Hn.
    apply slots_ok_insert; [done|lia|lia| |lia]. cbn. unfold get_tti_rx. cbn. by rewrite Ep. }
  assert (Hfacts : forall c2, base_inv c2 db -> slots_ok 1 9 n db (sf_scheds c2) ->
    last_alloc c2 = last_alloc c -> alloc_active c2 = alloc_active c ->
    dl_sched_table c2 = dl2 -> bc_sched_ptr c2 = Some b' -> exists st,
    alloc_dl_users (sf_dl_mask c2) (mk_dl_st sf2 (carrier_env c2 db) (last_alloc c2) (alloc_active c2)) = Ok st /\
    let c3 := put_sf ((put_env c2 (ds_env st)) <| last_alloc := ds_last st |>
                        <| alloc_active := ds_active st |>) (n mod 40) (ds_sf st) in
    mid_inv n c3 (e_db (ds_env st)) /\ same_users db (e_db (ds_env st)) /\ keep_queues db (e_db (ds_env st)) /\
    sf_scheds c3 !! Z.to_nat (n mod 40) = Some (ds_sf st) /\
    sf_dl_done n (e_db (ds_env st)) (ds_sf st) /\ dl_outcome n c c3 (ds_sf st)).
  { intros c2 Hb2' Hsl2 El Ea Etab Ebp. apply (dl_pass_users n c c2 db sf2); try done.
    - by rewrite Etab, El, Ea.
    - by rewrite Etab.
    - cbn. rewrite Ebc. cbn. lia.
    - intros Hs. rewrite Etab. destruct (Hs1 Hs) as (Hin & -> & Hi). split; [by apply Hsub|].
      exists b, b'. cbn. rewrite Ebc. split_and!; try done. by apply Hlrn. }
  destruct (bool_decide (o = SUCCESS)).
  - assert (E9 : u32 (n + 9) = n + 9) by (apply u32_id; unfold is_tti in Hn; lia). rewrite E9.
    destruct (get_sf_sched_ok 1 8 n c1 db 9 Hsl1 Hn) as (sf9 & -> & Ep9 & [Hd9 Hu9 _]); [lia|lia|].
    rewrite bind_ok_l. cbn in Hu9.
    assert (Hnil9 : ul_data_allocs sf9 = []) by (destruct (ul_data_allocs sf9); [done|cbn in Hu9; lia]).
    destruct (ra_ul_sched_ok sf2 sf9 (carrier_env (put_sf c1 ((n + 9) mod 40) sf9) db))
      as (l9 & ul' & -> & Hl9 & Hv9); [|done|exact Hlr|].
    { unfold get_tti_tx_dl. rewrite Ep9. apply tti_params_is_tti. }
    rewrite !bind_ok_l. cbn beta iota zeta.
    match goal with |- context [put_sf (put_env ?a ?e) ?i ?s] => set (c2 := put_sf (put_env a e) i s) end.
    match goal with |- context [carrier_env c2 ?d] => change d with db end.
    destruct (Hfacts c2) as (st & -> & Hmid & Hsame & Hkq & Hlk & Hdone & Hout); try done.
    + apply (base_inv_change c db); cbn; try done; by eexists.
    + cbn. rewrite list_insert_insert_eq. apply (slots_ok_weaken _ 8 9) in Hsl1; [|lia].
      unfold is_tti in Hn. apply slots_ok_insert; [done|lia|lia| |].
      * cbn. unfold get_tti_rx. cbn. by rewrite Ep9.
      * intros _ _. split; [exact Hd9|cbn; lia|exact Hv9].
    + rewrite bind_ok_l. by eexists _, _, _.
  - rewrite bind_ok_l. destruct (Hfacts c1) as (st & -> & Hmid & Hsame & Hkq & Hlk & Hdone & Hout); try done.
    + apply (base_inv_change c db); cbn; try done; by eexists.
    + apply (slots_ok_weaken _ 8 9); [lia|done].
    + rewrite bind_ok_l. by eexists _, _, _.
Qed.

(** ** The whole downlink call *)

(** The cached result is never the one of the subframe asked for. *)
Lemma result_stale n c db :
  is_tti n -> base_inv c db ->
  exists r, arr_read (sf_sched_results c) (n mod NRES) = Ok r /\
    (n =? Tti.tti_rx (res_tti_params r)) = false /\ 0 <= n mod NRES < Z.of_nat (length (sf_sched_results c)).
Proof.
  intros Hn [Hl Hr _ _ _ _ _]. change NRES with 80. pose proof (Z.mod_pos_bound n 80 ltac:(lia)).
  destruct (arr_read_in (sf_sched_results c) (n mod 80)) as (r & -> & Hi); [lia|].
  exists r. split; [done|]. rewrite (Hr _ _ Hi). cbn. unfold is_tti in Hn. split; lia.
Qed.

(** Storing the result changes nothing the invariants look at. *)
Lemma base_inv_result c db i r db' :
  base_inv c db -> users_ok db' -> res_tti_params r = tti_params 10241 ->
  base_inv (c <| sf_sched_results := <[i := r]> (sf_sched_results c) |>) db'.
Proof.
  intros [H1 H2 H3 H4 H5 H6 H7] Hu Hr. split; cbn; try done.
  - by rewrite length_insert.
  - intros j r'. rewrite list_lookup_insert_Some. intros [(_ & <- & _)|[_ H]]; [done|by eapply H2].
Qed.

Lemma generate_sched_results_params sf db r0 r db' :
  generate_sched_results sf db r0 = Ok (r, db') -> res_tti_params r = res_tti_params r0.
Proof.
  unfold generate_sched_results. intros H.
  apply bind_Ok in H as (d1 & _ & H). apply bind_Ok in H as (d2 & _ & H).
  apply bind_Ok in H as ([d3 db3] & _ & H). apply bind_Ok in H as (u1 & _ & H).
  by injection H as <- _.
Qed.

Lemma sf_dl_done_ready n db sf : sf_dl_done n db sf -> users_ok db -> sf_ready sf db.
Proof.
  intros Hd Hu. pose proof (sf_ready_of n db sf [] Hd Hu ltac:(cbn; lia)) as H.
  rewrite app_nil_r in H.
  replace (sf <| ul_data_allocs := ul_data_allocs sf |>) with sf in H by by destruct sf.
  apply H. intros a Ha. by apply elem_of_nil in Ha.
Qed.

Lemma generate_dl_ok n c db hfn :
  is_tti n -> car_inv n c db ->
  exists r c' db' sf', generate_tti_result c db hfn n true = Ok (r, c', db') /\
    mid_inv n c' db' /\ same_users db db' /\ sf_dl_done n db' sf' /\ dl_outcome n c c' sf' /\
    dl_bc (dl_sched_result r) = (fun a => mk_dl_bc (bc_dci a) (bc_is_new_sib a)) <$> bc_allocs sf' /\
    dl_rar (dl_sched_result r) = rar_elem <$> rar_allocs sf' /\
    length (dl_data (dl_sched_result r)) = length (data_allocs sf') /\
    (forall d, d ∈ dl_data (dl_sched_result r) -> dl_from db d) /\ ces_kept db db'.
Proof.
  intros Hn [Hb Hw Hsl]. unfold generate_tti_result.
  destruct (result_stale n c db Hn Hb) as (r0 & -> & E0 & Hi). rewrite bind_ok_l, E0.
  destruct (get_sf_sched_ok 0 8 n c db 0 Hsl Hn) as (sf & Hget & Ep & Hslot); [lia|lia|].
  rewrite Z.add_0_r in Hget, Ep. rewrite Hget, bind_ok_l. cbn beta iota.
  set (c0 := put_sf c (n mod 40) sf).
  destruct (dl_pass_ok n c0 db hfn sf Hn) as (sf' & c1 & db1 & -> & Hmid & Hsame & Hkq & Hlk & Hdone & Hout).
  { apply (base_inv_change c db); cbn; try done; apply Hb. }
  { exact Hw. }
  { apply (slots_ok_lo 0 1); [lia|]. cbn. replace (n mod 40) with ((n + 0) mod 40) by (f_equal; lia).
    unfold is_tti in Hn. apply slots_ok_insert; [done|lia|lia| |done].
    unfold get_tti_rx. by rewrite Ep. }
  { done. } { done. }
  rewrite bind_ok_l. cbn beta iota. destruct Hmid as [Hb1 Hw1 Hc1 Hsl1 (sf1 & Hlk1 & Hd1)].
  destruct (generate_sched_results_ok sf' db1) as (r & db2 & Hgen & Ebc & Erar & Edat & _ & Hs2 & Hu2 & Hck);
    [eapply sf_dl_done_ready; [done|apply Hb1]|apply Hb1|].
  rewrite Hgen, bind_ok_l. cbn beta iota.
  destruct (result_stale n c1 db1 Hn Hb1) as (_ & _ & _ & Hi1).
  rewrite arr_write_in by done. rewrite bind_ok_l.
  eexists r, _, db2, sf'. split; [reflexivity|]. split_and!; try done.
  - split; cbn; try done.
    + apply (base_inv_result c1 db1); [done|done|by apply (generate_sched_results_params _ _ _ _ _ Hgen)].
    + by apply (slots_ok_same _ _ _ db1).
    + exists sf1. split; [done|by apply (sf_dl_done_same n db1)].
  - by etrans.
  - by apply (sf_dl_done_same n db1).
  - by destruct Hout; split.
  - symmetry. by apply (Forall2_length _ _ _ Edat).
  - by apply (dl_from_elems db db1 (data_allocs sf')).
  - etrans; [by apply keep_queues_ces|done].
Qed.

(** ** The uplink pass *)

Record ul_ok (n : Z) (sf0 : sf_sched) (e0 : env) (st : sf_sched * env) : Prop := mk_ul_ok {
  uo_sf : exists l, st.1 = sf0 <| ul_data_allocs := ul_data_allocs sf0 ++ l |> /\ (length l <= 1)%nat /\
            (forall a, a ∈ l -> 0 <= ua_mcs a <= 12 /\ valid_ptr (e_db e0) (ua_user a)) /\
            (l = [] \/ get_tti_tx_ul sf0 ∈ e_ul st.2);
  uo_dl : e_dl st.2 = e_dl e0;
  uo_same : same_users (e_db e0) (e_db st.2);
  uo_users : users_ok (e_db st.2);
  uo_queues : keep_queues (e_db e0) (e_db st.2)
}.

(** The user's uplink queue is emptied, and 70 bytes of control replace it. *)
Definition ul_granted (u : sched_ue) : sched_ue :=
  ul_buffer_state (ul_buffer_state u 0 0 true) 3 0 true.

Lemma allocate_ul_ok n sf0 e0 st user :
  is_tti n -> sf_tti_params sf0 = tti_params n -> ul_ok n sf0 e0 st -> valid_ptr (e_db e0) user ->
  exists st', allocate_user_newtx_prbs st user = Ok st' /\ ul_ok n sf0 e0 st'.
Proof.
  intros Hn Ep Hkeep Hp. destruct st as [sf e].
  pose proof Hkeep as [(l & Hsf & Hl & Hv & Hcase) Hdl Hsame Husers Hkq]; cbn in *.
  assert (Hp' : valid_ptr (e_db e) user) by by eapply same_users_valid.
  pose proof Hp' as [u Hu]%valid_ptr_deref. destruct (users_ok_deref _ _ _ Husers Hu) as (Hw & _ & _).
  unfold allocate_user_newtx_prbs. destruct (is_ul_alloc sf user) eqn:Ea; [by exists (sf, e)|].
  rewrite Hu, bind_ok_l. destruct (_ >? 0); [|by exists (sf, e)].
  assert (Epar : sf_tti_params sf = tti_params n) by (rewrite Hsf; exact Ep).
  rewrite (alloc_ul_newtx_eq sf e user _ u (get_tti_tx_dl sf) (get_tti_tx_ul sf));
    [|done|done|unfold get_tti_tx_dl; rewrite Epar; apply tti_params_is_tti
     |unfold get_tti_tx_ul; rewrite Epar; apply tti_params_is_tti|done|done].
  destruct (negb (msg_wait_timer u =? 0)).
  { rewrite bind_ok_l, bool_decide_false by done. eexists; split; [reflexivity|]. split; cbn; try done.
    - by exists l.
    - etrans; [exact Hsame|by apply db_store_same].
    - eapply users_ok_same_queues; [done|exact Hu|done].
    - eapply keep_queues_trans; [exact Hkq|]. by eapply keep_queues_store. }
  destruct (negb (dci_slot _ _)).
  { rewrite bind_ok_l, bool_decide_false by done. eexists; split; [reflexivity|]. exact Hkeep. }
  assert (Etu : get_tti_tx_ul sf = get_tti_tx_ul sf0) by (unfold get_tti_tx_ul; by rewrite Epar, Ep).
  case_bool_decide as Hin.
  { rewrite bind_ok_l, bool_decide_false by done. eexists; split; [reflexivity|]. exact Hkeep. }
  rewrite bind_ok_l, bool_decide_true by done. unfold db_update. cbn [e_db upd].
  rewrite Hu, !bind_ok_l. eexists; split; [reflexivity|].
  assert (Hq : same_queues u (ul_granted u)).
  { unfold ul_granted. eapply same_queues_trans; apply ul_buffer_state_queues; [apply Hw|].
    rewrite <- (proj1 Hw). apply (ul_buffer_state_queues u 0 0 true (proj1 Hw)). }
  rewrite Etu in Hin |- *. destruct Hcase as [->|Hc]; [|done].
  rewrite app_nil_r in Hsf. subst sf. split; cbn; try done.
  - eexists. split; [reflexivity|]. split; [cbn; lia|]. split.
    + intros a ->%list_elem_of_singleton. cbn. split; [case_match; lia|done].
    + right. set_solver.
  - etrans; [exact Hsame|by apply db_store_same].
  - by eapply users_ok_same_queues.
  - eapply keep_queues_trans; [exact Hkq|]. by eapply keep_queues_store.
Qed.

Lemma alloc_ul_users_ok n sf e :
  is_tti n -> sf_tti_params sf = tti_params n -> users_ok (e_db e) ->
  exists st, alloc_ul_users sf e = Ok st /\ ul_ok n sf e st.
Proof.
  intros Hn Ep Hu.
  assert (H0 : ul_ok n sf e (sf, e)).
  { split; cbn; try done.
    - exists []. rewrite app_nil_r. split_and!; [by destruct sf|cbn; lia| |by left].
      intros a Ha. by apply elem_of_nil in Ha.
    - intros p u Hp. exists u. split; [done|apply same_queues_refl]. }
  unfold alloc_ul_users, sched_users_ul. destruct (Z.eqb_spec (db_size (e_db e)) 0); [by exists (sf, e)|].
  apply (foldM_ok _ (ul_ok n sf e) (fun r => r ∈ db_keys (e_db e))); [|intros r Hr|done].
  - intros r s Hr Hs. destruct (user_at_ok (e_db e) (e_db s.2) r) as (p & -> & Hp);
      [apply Hs|done|]. rewrite bind_ok_l. by apply allocate_ul_ok.
  - by rewrite rr_visit_keys in Hr.
Qed.

Lemma generate_ul_ok n c db hfn :
  is_tti n -> mid_inv n c db ->
  exists r c' db', generate_tti_result c db hfn n false = Ok (r, c', db') /\
    car_inv ((n + 1) mod 10240) c' db' /\ same_users db db' /\ ces_kept db db' /\
    alloc_active c' = alloc_active c /\ last_alloc c' = last_alloc c /\
    exists sf0 sf e, sf_scheds c !! Z.to_nat (n mod 40) = Some sf0 /\
      ul_ok n sf0 (mk_env (dl_sched_table c) (ul_sched_table c ∖ {[n]}) db) (sf, e) /\
      generate_sched_results sf (e_db e) sf_sched_result_zero = Ok (r, db').
Proof.
  intros Hn [Hb Hw Hc Hsl (sf0 & Hlk0 & Hd0)]. unfold generate_tti_result.
  destruct (result_stale n c db Hn Hb) as (r0 & -> & E0 & Hi). rewrite bind_ok_l, E0.
  assert (Hlen : length (sf_scheds c) = 40%nat) by apply Hsl.
  pose proof (Z.mod_pos_bound n 40 ltac:(lia)).
  assert (Hget : get_sf_sched c n = Ok (n mod 40, sf0, put_sf c (n mod 40) sf0)).
  { unfold get_sf_sched. change NSF with 40. unfold arr_read, in_bounds.
    replace (_ && _) with true by lia. rewrite Hlk0, bind_ok_l.
    assert (get_tti_rx sf0 = n) as -> by (unfold get_tti_rx; by rewrite (sd_params _ _ _ Hd0)).
    rewrite Z.eqb_refl. rewrite arr_write_in by lia. by rewrite bind_ok_l. }
  rewrite Hget, bind_ok_l. cbn beta iota. unfold ul_pass.
  rewrite tab_set_tti by apply mod_is_tti. rewrite bind_ok_l.
  replace (n mod 10240) with n by (unfold is_tti in Hn; rewrite Z.mod_small; lia).
  match goal with |- context [alloc_ul_users sf0 ?e] => set (e1 := e) end.
  destruct (alloc_ul_users_ok n sf0 e1 Hn (sd_params _ _ _ Hd0)) as ([sf e] & -> & Hok); [apply Hb|].
  rewrite !bind_ok_l. cbn beta iota.
  pose proof Hok as [(l & Hsf & Hl & Hv & _) Hdl Hsame Husers Hkq]; cbn in Hsf, Hdl, Hsame, Husers, Hv, Hkq.
  match goal with |- context [put_sf ?a ?i sf] => set (c1 := put_sf a i sf) end.
  destruct (generate_sched_results_ok sf (e_db e)) as (r & db2 & Hgen & _ & _ & _ & _ & Hs2 & Hu2 & Hck).
  { rewrite Hsf. apply (sf_ready_of n); [by apply (sf_dl_done_same n db)|done|done|].
    intros a Ha. destruct (Hv a Ha). split; [done|by apply (same_users_valid db)]. }
  { done. }
  rewrite Hgen, bind_ok_l. cbn beta iota. rewrite arr_write_in, bind_ok_l by exact Hi.
  eexists r, _, db2. split; [reflexivity|].
  assert (Hs : same_users db db2) by by etrans.
  assert (Hcc : ces_kept db db2) by (transitivity (e_db e); [by apply keep_queues_ces|done]).
  split_and!; try done; [|by exists sf0, sf, e].
  split.
  - apply (base_inv_result c1 (e_db e)); [|done|by apply (generate_sched_results_params _ _ _ _ _ Hgen)].
    apply (base_inv_change c db); cbn; try done; apply Hb.
  - cbn. rewrite Hdl. by apply dl_win_next.
  - cbn. rewrite list_insert_insert_eq. apply slots_ok_next; [done| |].
    + replace (n mod 40) with ((n + 0) mod 40) by (f_equal; lia). unfold is_tti in Hn.
      apply slots_ok_insert; [by apply (slots_ok_same _ _ _ db)|lia|lia| |lia].
      rewrite Hsf. cbn. unfold get_tti_rx. cbn. by rewrite (sd_params _ _ _ Hd0).
    + intros sf'. rewrite list_lookup_insert_eq by lia. intros [= <-]. rewrite Hsf. cbn.
      unfold get_tti_rx. cbn. by rewrite (sd_params _ _ _ Hd0).
Qed.

(** ** Runs

    A carrier between two calls, the next call being the downlink or the uplink
    pass of [y_tti].  Between any two calls a preamble may arrive and the users
    may change, as long as the objects future subframes point to stay. *)
Inductive phase := AtDl | AtUl.

Record sys := mk_sys { y_phase : phase; y_tti : Z; y_car : carrier_sched; y_db : ue_db_t }.

Definition held (n : Z) (c : carrier_sched) (p : ue_ptr) : Prop :=
  exists k sf, 0 <= k < 40 /\ sf_scheds c !! Z.to_nat ((n + k) mod 40) = Some sf /\ keyed n k sf /\
    (p ∈ da_user <$> data_allocs sf \/ p ∈ ua_user <$> ul_data_allocs sf).

Inductive sys_step : sys -> option (Z * sf_sched_result) -> sys -> Prop :=
| step_dl n c db hfn r c' db' :
    generate_tti_result c db hfn n true = Ok (r, c', db') ->
    sys_step (mk_sys AtDl n c db) (Some (n, r)) (mk_sys AtUl n c' db')
| step_ul n c db hfn r c' db' :
    generate_tti_result c db hfn n false = Ok (r, c', db') ->
    sys_step (mk_sys AtUl n c db) None (mk_sys AtDl ((n + 1) mod 10240) c' db')
| step_rach ph n c db info o c' :
    is_tti (nprach_tti info) -> carrier_dl_rach_info c info = Ok (o, c') ->
    sys_step (mk_sys ph n c db) None (mk_sys ph n c' db)
| step_users ph n c db db' :
    users_ok db' -> (forall p, held n c p -> valid_ptr db p -> valid_ptr db' p) ->
    sys_step (mk_sys ph n c db) None (mk_sys ph n c db').

(** The downlink results of a run, in order. *)
Inductive run : sys -> list (Z * sf_sched_result) -> sys -> Prop :=
| run_nil s : run s [] s
| run_snoc s l s1 o s2 : run s l s1 -> sys_step s1 o s2 -> run s (l ++ option_list o) s2.

Inductive sys_init : sys -> Prop :=
| init_intro n c db : is_tti n -> carrier_cfg carrier_new = Ok c -> users_ok db ->
    sys_init (mk_sys AtDl n c db).

Definition sys_inv (s : sys) : Prop :=
  is_tti (y_tti s) /\
  match y_phase s with
  | AtDl => car_inv (y_tti s) (y_car s) (y_db s)
  | AtUl => mid_inv (y_tti s) (y_car s) (y_db s)
  end.

Lemma slots_ok_empty n db : is_tti n -> slots_ok 0 8 n db (replicate 40 sf_sched_zero).
Proof.
  intros Hn. split; [done|]. split.
  - intros i sf [-> _]%lookup_replicate. done.
  - intros k sf _ _ [-> _]%lookup_replicate _. split; [done|cbn; destruct (k <=? 8); cbn; lia|].
    intros a Ha. by apply elem_of_nil in Ha.
Qed.

Lemma ra_new_ok : ra_ok ra_sched_new.
Proof.
  split; [split; cbn|].
  - intros r Hr. by apply elem_of_nil in Hr.
  - apply NoDup_nil_2.
  - intros r Hr. by apply elem_of_nil in Hr.
Qed.

Lemma fresh_inv n c db b :
  is_tti n -> users_ok db -> bc_inv b ->
  sf_scheds c = replicate 40 sf_sched_zero -> sf_sched_results c = replicate 80 sf_sched_result_zero ->
  dl_sched_table c = ∅ -> sf_dl_mask c = [0] -> bc_sched_ptr c = Some b ->
  ra_sched_ptr c = Some ra_sched_new -> last_alloc c = 0 -> car_inv n c db.
Proof.
  intros Hn Hu Hb E1 E2 E3 E4 E5 E6 E7. split.
  - split; [by rewrite E2, length_replicate| |done|by exists b| |by rewrite E7|done].
    + intros i r. rewrite E2. by intros [-> _]%lookup_replicate.
    + exists ra_sched_new. split; [done|exact ra_new_ok].
  - rewrite E3. intros x Hx. by apply elem_of_empty in Hx.
  - rewrite E1. by apply slots_ok_empty.
Qed.

Lemma init_inv s : sys_init s -> sys_inv s.
Proof.
  intros [n c db Hn Hc Hu]. split; [done|].
  destruct bc_sched_new_ok as (b & Hb & Hi & _). unfold carrier_cfg in Hc. rewrite Hb, bind_ok_l in Hc.
  injection Hc as <-. apply (fresh_inv n _ db b Hn Hu Hi); reflexivity.
Qed.

(** *** Preambles *)
Lemma rach_ok_pending ra info o ra' :
  ra_ok ra -> is_tti (nprach_tti info) -> ra_dl_rach_info ra info = Ok (o, ra') -> ra_ok ra'.
Proof.
  intros [Hi Hp] Ht H. pose proof (ra_dl_rach_info_spec ra info Hi) as Hs.
  destruct (_ <? 8)%nat; [|congruence]. destruct Hs as (ra2 & H2 & Hi2 & Hw).
  rewrite H in H2. injection H2 as -> <-. split; [done|].
  intros r Hr. destruct Hi2 as [Hwf _]. destruct (Hwf r Hr) as (Hl & _ & Hall).
  destruct (pr_msg3_grant r) as [|g gs] eqn:Eg; [cbn in Hl; lia|].
  assert (Hg : g ∈ waiting ra').
  { unfold waiting. apply list_elem_of_bind. exists r. split; [rewrite Eg; apply list_elem_of_here|done]. }
  rewrite <- (Hall g (list_elem_of_here _ _)). rewrite Hw in Hg.
  apply elem_of_cons in Hg as [->|Hg]; [done|].
  unfold waiting in Hg. apply list_elem_of_bind in Hg as (r0 & Hg & Hr0).
  destruct Hi as [Hwf0 _]. destruct (Hwf0 r0 Hr0) as (_ & _ & Hall0).
  rewrite (Hall0 g Hg). by apply Hp.
Qed.

Lemma rach_base c db info o c' :
  base_inv c db -> is_tti (nprach_tti info) -> carrier_dl_rach_info c info = Ok (o, c') ->
  base_inv c' db /\ exists ra', c' = c <| ra_sched_ptr := Some ra' |>.
Proof.
  intros Hb Ht H. pose proof Hb as [_ _ _ _ (ra & E & Hra) _ _].
  unfold carrier_dl_rach_info in H. rewrite E in H. cbn [get_ptr] in H. rewrite bind_ok_l in H.
  apply bind_Ok in H as ([o1 ra'] & Hr & H). injection H as <- <-. split; [|by exists ra'].
  apply (base_inv_change c db); cbn; try done; try apply Hb.
  exists ra'. split; [done|]. by apply (rach_ok_pending ra info o1).
Qed.

(** *** Users *)
Lemma slots_ok_users lo m n c db db' :
  (forall p, held n c p -> valid_ptr db p -> valid_ptr db' p) ->
  slots_ok lo m n db (sf_scheds c) -> slots_ok lo m n db' (sf_scheds c).
Proof.
  intros Hh (Hl & Hp & Hk). split_and!; [done|done|]. intros k sf Hr Hlo Hi Hx.
  destruct (Hk k sf Hr Hlo Hi Hx) as [Hd Hu Hus]. split; [done|done|].
  intros a Ha. destruct (Hus a Ha). split; [done|]. apply Hh; [|done].
  exists k, sf. split_and!; [lia|lia|done|done|]. right. by apply list_elem_of_fmap_2.
Qed.

Lemma base_inv_users c db db' : users_ok db' -> base_inv c db -> base_inv c db'.
Proof. intros Hu Hb. apply (base_inv_change c db); try done; apply Hb. Qed.

Lemma step_inv s o s' : sys_inv s -> sys_step s o s' -> sys_inv s'.
Proof.
  intros [Hn Hi] Hs.
  destruct Hs as [n c db hfn r c' db' H|n c db hfn r c' db' H|ph n c db info o c' Ht H|ph n c db db' Hu Hh];
    cbn in Hn, Hi.
  - split; [done|]. destruct (generate_dl_ok n c db hfn Hn Hi) as (? & ? & ? & ? & H' & Hm & _).
    rewrite H in H'. by injection H' as <- <- <-.
  - split; [apply mod_is_tti|]. destruct (generate_ul_ok n c db hfn Hn Hi) as (? & ? & ? & H' & Hm & _).
    rewrite H in H'. by injection H' as <- <- <-.
  - split; [done|]. cbn. destruct ph.
    + destruct Hi as [Hb Hw Hsl]. destruct (rach_base c db info o c' Hb Ht H) as (Hb' & ra' & ->). by split.
    + destruct Hi as [Hb Hw Hc Hsl Hsf]. destruct (rach_base c db info o c' Hb Ht H) as (Hb' & ra' & ->).
      by split.
  - split; [done|]. cbn. destruct ph.
    + destruct Hi as [Hb Hw Hsl]. split; [by apply (base_inv_users c db)|done|].
      by apply (slots_ok_users _ _ _ _ db).
    + destruct Hi as [Hb Hw Hc Hsl (sf & Hlk & Hd)].
      split; [by apply (base_inv_users c db)|done|done|by apply (slots_ok_users _ _ _ _ db)|].
      exists sf. split; [done|]. destruct Hd as [Hp Hbc Hra [Hdl Hda] Hul Hua].
      assert (Hkey : forall p, p ∈ da_user <$> data_allocs sf \/ p ∈ ua_user <$> ul_data_allocs sf -> held n c p).
      { intros p Hpp. exists 0, sf. rewrite Z.add_0_r. split_and!; [lia|lia|done| |done].
        right. unfold get_tti_rx. rewrite Hp. cbn. lia. }
      split; try done.
      * split; [done|]. intros a Ha. destruct (Hda a Ha). split; [done|].
        apply Hh; [|done]. apply Hkey. left. by apply list_elem_of_fmap_2.
      * intros a Ha. destruct (Hua a Ha). split; [done|].
        apply Hh; [|done]. apply Hkey. right. by apply list_elem_of_fmap_2.
Qed.

Lemma run_inv s l s' : run s l s' -> sys_inv s -> sys_inv s'.
Proof. intros H Hi. induction H; [done|]. eapply step_inv; [by apply IHrun|done]. Qed.

(** ** Properties *)

Definition is_dl (p : phase) : bool := match p with AtDl => true | AtUl => false end.

(** From every state a run reaches the next pass, downlink or uplink, returns,
    whatever changes [step_users] admits. *)
Theorem next_pass_returns s0 l s hfn :
  sys_init s0 -> run s0 l s ->
  exists r c' db',
    generate_tti_result (y_car s) (y_db s) hfn (y_tti s) (is_dl (y_phase s)) = Ok (r, c', db').
Proof.
  intros H0 Hr. pose proof (run_inv s0 l s Hr (init_inv s0 H0)) as [Hn Hi].
  destruct s as [[] n c db]; cbn in *.
  - destruct (generate_dl_ok n c db hfn Hn Hi) as (r & c' & db' & _ & H & _). by exists r, c', db'.
  - destruct (generate_ul_ok n c db hfn Hn Hi) as (r & c' & db' & H & _). by exists r, c', db'.
Qed.

(** C6. SIB1 is never displaced: in every state a run reaches, the downlink
    result for a subframe of SIB1 carries the SIB1 transmission, with the block
    index moved on, and nothing else. *)
Theorem sib1_never_displaced s0 l n c db hfn :
  sys_init s0 -> run s0 l (mk_sys AtDl n c db) -> sib1_slot (tx_of n) = true ->
  exists r c' db' b b', generate_tti_result c db hfn n true = Ok (r, c', db') /\
    bc_sched_ptr c = Some b /\ bc_sched_ptr c' = Some b' /\
    dl_sched_result r = mk_dl_res [] [] [mk_dl_bc (ra_dl_sib1 b) (sib1_sf_idx b =? 0)] /\
    sib1_sf_idx b' = (sib1_sf_idx b + 1) mod 128.
Proof.
  intros H0 Hr Hs. pose proof (run_inv s0 l _ Hr (init_inv s0 H0)) as [Hn Hi]; cbn in Hn, Hi.
  destruct (generate_dl_ok n c db hfn Hn Hi)
    as (r & c' & db' & sf' & H & _ & _ & _ & [Hx _ _] & E1 & E2 & E3 & _).
  destruct (Hx Hs) as (b & b' & Eb & Eb' & Ebc & Eidx & Era & Eda).
  exists r, c', db', b, b'. split_and!; try done.
  rewrite Ebc in E1. rewrite Era in E2. rewrite Eda in E3. cbn in E1, E2, E3.
  destruct (dl_sched_result r) as [ld lr lb]; cbn in *. subst lb.
  destruct ld; [|done]. by destruct lr.
Qed.

Lemma grant_ages n s1 l s2 :
  run s1 l s2 -> is_tti n -> Z.of_nat (length l) <= 25 -> sys_inv s1 ->
  alloc_active (y_car s1) = true -> last_alloc (y_car s1) = tx_of n ->
  y_phase s1 = AtUl -> y_tti s1 = n ->
  (forall x, x ∈ l -> dl_data (dl_sched_result x.2) = []) /\
  alloc_active (y_car s2) = true /\ last_alloc (y_car s2) = tx_of n /\
  y_tti s2 = (n + Z.of_nat (length l) + Z.b2z (is_dl (y_phase s2))) mod 10240.
Proof.
  intros Hr Hn Hlen Hi Ha Hl Hp Ht. induction Hr as [s1|s1 l s2 o s3 Hr IH Hs].
  { split; [intros x Hx; by apply elem_of_nil in Hx|]. split_and!; [done|done|].
    rewrite Ht, Hp. cbn. unfold is_tti in Hn. rewrite Z.mod_small; lia. }
  rewrite length_app in Hlen |- *.
  destruct IH as (IHd & IHa & IHl & IHt); try done; [lia|].
  pose proof (run_inv s1 l s2 Hr Hi) as [Hn2 Hi2].
  destruct Hs as [m c db hfn r c' db' H|m c db hfn r c' db' H|ph m c db info o c' Hti H|ph m c db db' Hu Hh];
    cbn in *; rewrite ?app_nil_r, ?Nat.add_0_r in *; subst.
  - destruct (generate_dl_ok _ c db hfn Hn2 Hi2)
      as (r' & c2 & db2 & sf' & H' & _ & _ & _ & [_ Hx Hh] & _ & _ & E3 & _).
    rewrite H in H'. injection H' as <- <- <-.
    match type of Hh with _ -> age ?m _ <= _ -> _ => assert (Hage : age m (last_alloc c) <= 25) end.
    { rewrite IHl. unfold age, tx_of. dlia. }
    destruct (Hh IHa Hage) as [E1 E2]. split_and!; [|done|by rewrite E1|f_equal; lia].
    intros x [Hx'| ->%list_elem_of_singleton]%elem_of_app; [by apply IHd|]. cbn.
    destruct (data_allocs sf') as [|a la]; [by destruct (dl_data _)|].
    exfalso. destruct (Hx ltac:(done)) as (_ & _ & Hgt). specialize (Hgt IHa). lia.
  - destruct (generate_ul_ok _ c db hfn Hn2 Hi2) as (r' & c2 & db2 & H' & _ & _ & _ & E2 & E3 & _).
    rewrite H in H'. injection H' as <- <- <-. split_and!; [done|congruence|congruence|].
    rewrite Z.add_0_r. by rewrite Zplus_mod_idemp_l.
  - split_and!; try done.
    all: unfold carrier_dl_rach_info in H; apply bind_Ok in H as (ra & _ & H).
    all: apply bind_Ok in H as ([o1 ra'] & _ & H); by injection H as <- <-.
  - done.
Qed.

(** C27. At most one user gets downlink data in a subframe, and after such a
    grant no user gets one in the next 25 subframes. *)
Theorem dl_grants_spaced s0 l0 n c db hfn r c' db' l s2 :
  sys_init s0 -> run s0 l0 (mk_sys AtDl n c db) ->
  generate_tti_result c db hfn n true = Ok (r, c', db') ->
  (length (dl_data (dl_sched_result r)) <= 1)%nat /\
  (dl_data (dl_sched_result r) <> [] ->
   run (mk_sys AtUl n c' db') l s2 -> Z.of_nat (length l) <= 25 ->
   forall x, x ∈ l -> dl_data (dl_sched_result x.2) = []).
Proof.
  intros H0 Hr H. pose proof (run_inv s0 l0 _ Hr (init_inv s0 H0)) as [Hn Hi]; cbn in Hn, Hi.
  destruct (generate_dl_ok n c db hfn Hn Hi)
    as (r2 & c2 & db2 & sf' & H' & Hm & _ & [_ _ _ [Hd _] _ _] & [_ Hx _] & _ & _ & E3 & _).
  rewrite H in H'. injection H' as <- <- <-. rewrite E3. split; [done|].
  intros Hne Hrun Hlen. destruct (Hx) as (E1 & E2 & _).
  { intros E. rewrite E in E3. by destruct (dl_data _). }
  by apply (grant_ages n _ l s2 Hrun Hn Hlen).
Qed.

(** The round robin gives every user exactly one turn per pass, the first
    turn rotating with the subframe number. *)
Theorem round_robin_turns db t :
  db_size db <> 0 ->
  let visited := rr_visit (db_keys db) (Z.to_nat (db_size db)) (Z.to_nat (t mod db_size db)) in
  Permutation visited (db_keys db) /\ NoDup visited /\
  (forall r, r ∈ visited <-> is_Some (db_map db !! r)) /\
  head visited = db_keys db !! Z.to_nat (t mod db_size db).
Proof.
  intros Hne. cbn zeta. pose proof (rr_visit_keys db t Hne) as Hp. split_and!.
  - done.
  - rewrite Hp. apply NoDup_db_keys.
  - intros r. rewrite Hp. apply elem_of_db_keys.
  - pose proof (Z.mod_pos_bound t (db_size db)) as Hb. rewrite <- length_db_keys in *.
    rewrite Nat2Z.id, rr_visit_rotate by lia.
    destruct (lookup_lt_is_Some_2 (db_keys db) (Z.to_nat (t mod Z.of_nat (length (db_keys db))))) as [a Ha]; [lia|].
    by rewrite (drop_S _ _ _ Ha), Ha.
Qed.

(** ** Concrete runs *)
Definition demo_car : carrier_sched :=
  match carrier_cfg carrier_new with Ok c => c | _ => carrier_new end.

Lemma demo_car_ok : carrier_cfg carrier_new = Ok demo_car.
Proof. vm_compute. reflexivity. Qed.

Lemma demo_init n : is_tti n -> sys_init (mk_sys AtDl n demo_car demo_db).
Proof. intros Hn. apply init_intro; [done|exact demo_car_ok|exact demo_users_ok]. Qed.

Lemma sib1_never_displaced_witness : exists r c' db' b b',
  generate_tti_result demo_car demo_db 0 10 true = Ok (r, c', db') /\
  bc_sched_ptr demo_car = Some b /\ bc_sched_ptr c' = Some b' /\
  dl_sched_result r = mk_dl_res [] [] [mk_dl_bc (ra_dl_sib1 b) (sib1_sf_idx b =? 0)] /\
  sib1_sf_idx b' = (sib1_sf_idx b + 1) mod 128.
Proof.
  apply (sib1_never_displaced _ [] 10 demo_car demo_db 0 (demo_init 10 ltac:(unfold is_tti; lia))
           (run_nil _) eq_refl).
Defined.

Lemma dl_grants_spaced_witness : exists r c' db',
  generate_tti_result demo_car demo_db 0 4 true = Ok (r, c', db') /\
  length (dl_data (dl_sched_result r)) = 1%nat /\
  forall l s2, run (mk_sys AtUl 4 c' db') l s2 -> Z.of_nat (length l) <= 25 ->
    forall x, x ∈ l -> dl_data (dl_sched_result x.2) = [].
Proof.
  destruct (generate_tti_result demo_car demo_db 0 4 true) as [[[r c'] db']| |] eqn:E;
    [|exfalso; revert E; vm_compute; discriminate|exfalso; revert E; vm_compute; discriminate].
  assert (E1 : match generate_tti_result demo_car demo_db 0 4 true with
               | Ok (r, _, _) => length (dl_data (dl_sched_result r)) | _ => 0%nat end = 1%nat)
    by (vm_compute; reflexivity).
  rewrite E in E1. exists r, c', db'. split; [reflexivity|]. split; [exact E1|]. intros l s2 Hrun Hlen.
  apply (proj2 (dl_grants_spaced _ [] 4 demo_car demo_db 0 r c' db' l s2
           (demo_init 4 ltac:(unfold is_tti; lia)) (run_nil _) E)); [|exact Hrun|exact Hlen].
  intros En. rewrite En in E1. discriminate E1.
Defined.

Lemma round_robin_turns_witness : db_size demo_db <> 0 /\
  Permutation (rr_visit (db_keys demo_db) 2 1) [4097; 4098].
Proof.
  assert (H : db_size demo_db <> 0) by (vm_compute; discriminate).
  split; [exact H|]. exact (proj1 (round_robin_turns demo_db 7 H)).
Defined.
