(* ===== verification/Sched.v ===== *)
(** * The MAC scheduler : [class sched]

    The FAPI-like interface the MAC calls
    ([sonica_enb/stack/mac/scheduler.cc]).  The mutex that serialises the calls
    is not part of the model: an operation is one atomic step. *)
From S2P Require Import Prelude Tti RaNbiot SchedTypes SchedUe BcSched UeDb SchedGrid RaSched SchedCarrier SchedSafety.

Record sched := mk_sched {
  ue_db : ue_db_t;
  carrier_schedulers : list carrier_sched;
  last_tti : Z;
  configured : bool
}.
#[export] Instance eta_sched : Eta sched := {| eta := fun r =>
  mk_sched (ue_db r) (carrier_schedulers r) (last_tti r) (configured r) |}.

Definition sched_new : sched := mk_sched ue_db_empty [] 0 true.

(** [carrier_schedulers[0]] *)
Definition carrier0 (s : sched) : res carrier_sched := arr_read (carrier_schedulers s) 0.
Definition set_carrier0 (s : sched) (c : carrier_sched) : sched :=
  s <| carrier_schedulers := <[0%nat := c]> (carrier_schedulers s) |>.

(** ** Initialisation *)
Definition cell_cfg (s : sched) : res (Z * sched) :=
  c ← carrier0 s; c' ← carrier_cfg c; Ok (0, set_carrier0 s c').

Definition sched_reset (s : sched) : Z * sched :=
  (0, s <| ue_db := (ue_db s) <| db_map := ∅ |> |>).

Definition sched_init (s : sched) : res sched :=
  let s := s <| carrier_schedulers := carrier_schedulers s ++ [carrier_new] |> in
  let '(_, s) := sched_reset s in
  '(_, s) ← cell_cfg s; Ok s.

(** ** Users *)

(** [ue_db_access]: [SRSLTE_ERROR] when the user does not exist. *)
Definition ue_db_access (s : sched) (rnti_ : Z) (f : sched_ue -> sched_ue) : Z * sched :=
  match db_map (ue_db s) !! rnti_ with
  | Some (id, u) =>
      (SRSLTE_SUCCESS, s <| ue_db := db_store (ue_db s) (mk_ue_ptr rnti_ id) (f u) |>)
  | None => (SRSLTE_ERROR, s)
  end.

Definition sched_ue_cfg (s : sched) (rnti_ : Z) (cfg_ : ue_cfg_t) : Z * sched :=
  let s := match db_map (ue_db s) !! rnti_ with
           | None => s <| ue_db := db_create (ue_db s) rnti_ (sched_ue_init sched_ue_new rnti_) |>
           | Some _ => s
           end in
  ue_db_access s rnti_ (fun u => set_cfg u cfg_).

Definition sched_ue_rem (s : sched) (rnti_ : Z) : Z * sched :=
  match db_map (ue_db s) !! rnti_ with
  | Some _ => (SRSLTE_SUCCESS, s <| ue_db := db_erase (ue_db s) rnti_ |>)
  | None => (SRSLTE_ERROR, s)
  end.

Definition sched_ue_exists (s : sched) (rnti_ : Z) : bool :=
  fst (ue_db_access s rnti_ id) >=? 0.

Definition sched_dl_rlc_buffer_state (s : sched) (rnti_ lc_id tx_queue retx_queue : Z) : Z * sched :=
  ue_db_access s rnti_ (fun u => dl_buffer_state u lc_id tx_queue retx_queue).
Definition sched_dl_mac_buffer_state (s : sched) (rnti_ ce_code nof_cmds : Z) : Z * sched :=
  ue_db_access s rnti_ (fun u => mac_buffer_state u ce_code nof_cmds).
Definition sched_ul_bsr (s : sched) (rnti_ lcid bsr_ : Z) (set_value : bool) : Z * sched :=
  ue_db_access s rnti_ (fun u => ul_buffer_state u lcid bsr_ set_value).
Definition sched_ul_wait_timer (s : sched) (rnti_ wait_time : Z) (set_value : bool) : Z * sched :=
  ue_db_access s rnti_ (fun u => ul_wait_timer u wait_time set_value).

Definition sched_dl_rach_info (s : sched) (info : rar_info_t) : res (Z * sched) :=
  c ← carrier0 s; '(ret, c') ← carrier_dl_rach_info c info; Ok (ret, set_carrier0 s c').

(** ** Scheduling. The result the caller passed is left as it was when nothing
    is computed. *)
Definition dl_sched (s : sched) (hfn tti_tx_dl_ : Z) (sched_result : dl_sched_res_t) :
    res (Z * dl_sched_res_t * sched) :=
  if negb (configured s) then Ok (0, sched_result, s) else
  let tti_rx := tti_subtract tti_tx_dl_ FDD_HARQ_DELAY_UL_MS in
  let s := s <| last_tti := max_tti (last_tti s) tti_rx |> in
  match carrier_schedulers s with
  | [] => Ok (0, sched_result, s)
  | c :: _ =>
      '(r, c', db') ← generate_tti_result c (ue_db s) hfn tti_rx true;
      Ok (0, dl_sched_result r, set_carrier0 (s <| ue_db := db' |>) c')
  end.

Definition ul_sched (s : sched) (hfn tti : Z) (sched_result : ul_sched_res_t) :
    res (Z * ul_sched_res_t * sched) :=
  if negb (configured s) then Ok (0, sched_result, s) else
  let tti_rx := tti_subtract tti (FDD_DELAY_UL_NB_MS + FDD_HARQ_DELAY_DL_MS) in
  c ← carrier0 s;
  '(r, c', db') ← generate_tti_result c (ue_db s) hfn tti_rx false;
  Ok (SRSLTE_SUCCESS, ul_sched_result r, set_carrier0 (s <| ue_db := db' |>) c').

(** ** Resource ranges, [rbg_range_t] and [prb_range_t] as (min, max) *)
Definition ceil_div (x y : Z) : Z := (x + y - 1) / y.
Definition prbs_to_rbgs (prbs : Z * Z) (P : Z) : Z * Z := (ceil_div prbs.1 P, ceil_div prbs.1 P).
Definition rbgs_to_prbs (rbgs : Z * Z) (P : Z) : Z * Z := (u32 (rbgs.1 * P), u32 (rbgs.2 * P)).

(** ** Facts *)

Lemma ul_dl_same_subframe n :
  is_tti n ->
  tti_subtract (TTI_ADD n FDD_HARQ_DELAY_UL_MS) FDD_HARQ_DELAY_UL_MS = n /\
  tti_subtract (TTI_ADD n (FDD_DELAY_UL_NB_MS + FDD_HARQ_DELAY_DL_MS)) (FDD_DELAY_UL_NB_MS + FDD_HARQ_DELAY_DL_MS) = n.
Proof.
  intros Hn. unfold tti_subtract, FDD_HARQ_DELAY_UL_MS, FDD_DELAY_UL_NB_MS, FDD_HARQ_DELAY_DL_MS.
  split; apply TTI_SUB_ADD; (done || lia).
Qed.

Definition rnti_in (s : sched) (r : Z) : Prop := is_Some (db_map (ue_db s) !! r).

Lemma sched_ue_exists_iff s r : sched_ue_exists s r = true <-> rnti_in s r.
Proof.
  unfold sched_ue_exists, ue_db_access, rnti_in.
  destruct (db_map (ue_db s) !! r) as [[id u]|]; cbn; [|split; [done|by intros []]].
  split; [by eexists|done].
Qed.

Lemma ue_db_access_map s r f o s' :
  ue_db_access s r f = (o, s') ->
  (o = SRSLTE_SUCCESS /\ exists id u, db_map (ue_db s) !! r = Some (id, u) /\
     db_map (ue_db s') = <[r := (id, f u)]> (db_map (ue_db s)) /\ carrier_schedulers s' = carrier_schedulers s) \/
  (o = SRSLTE_ERROR /\ db_map (ue_db s) !! r = None /\ s' = s).
Proof.
  unfold ue_db_access. destruct (db_map (ue_db s) !! r) as [[id u]|] eqn:E; intros [= <- <-]; [left|by right].
  split; [done|]. by exists id, u.
Qed.

(** ** Properties *)

(** The user interface: configuring a user makes it exist and leaves every
    other user, its queues and its identity as they were, removing it makes it
    not exist, and every operation on an absent user fails and changes
    nothing. *)
Theorem sched_user_interface s r c o s' :
  sched_ue_cfg s r c = (o, s') ->
  o = SRSLTE_SUCCESS /\ sched_ue_exists s' r = true /\
  (forall r', r' <> r -> db_map (ue_db s') !! r' = db_map (ue_db s) !! r') /\
  (forall id u, db_map (ue_db s) !! r = Some (id, u) -> db_map (ue_db s') !! r = Some (id, set_cfg u c)) /\
  (forall o2 s2, sched_ue_rem s' r = (o2, s2) ->
     o2 = SRSLTE_SUCCESS /\ sched_ue_exists s2 r = false /\ sched_ue_rem s2 r = (SRSLTE_ERROR, s2) /\
     (forall f, ue_db_access s2 r f = (SRSLTE_ERROR, s2)) /\
     (forall r', r' <> r -> db_map (ue_db s2) !! r' = db_map (ue_db s) !! r')).
Proof.
  unfold sched_ue_cfg. intros H.
  assert (Hs' : o = SRSLTE_SUCCESS /\ exists id u, db_map (ue_db s') = <[r := (id, u)]> (db_map (ue_db s)) /\
            forall id0 u0, db_map (ue_db s) !! r = Some (id0, u0) -> id = id0 /\ u = set_cfg u0 c).
  { unfold ue_db_access in H. destruct (db_map (ue_db s) !! r) as [[id u]|] eqn:E.
    - rewrite E in H. injection H as <- <-. split; [done|]. cbn. exists id, (set_cfg u c).
      split; [done|]. by intros ? ? [= <- <-].
    - cbn in H. rewrite lookup_insert_eq in H. injection H as <- <-. split; [done|]. cbn.
      rewrite insert_insert_eq. by eexists _, _. }
  destruct Hs' as (-> & id & u & Hm & Hold). split; [done|].
  assert (Hex : db_map (ue_db s') !! r = Some (id, u)) by (by rewrite Hm, lookup_insert_eq).
  split_and!.
  - apply sched_ue_exists_iff. by exists (id, u).
  - intros r' Hne. by rewrite Hm, lookup_insert_ne.
  - intros id0 u0 H0. destruct (Hold _ _ H0) as [<- <-]. done.
  - unfold sched_ue_rem. rewrite Hex. intros o2 s2 [= <- <-]. cbn.
    assert (Hdel : delete r (db_map (ue_db s')) !! r = None) by apply lookup_delete_eq.
    split_and!; [done| | | |].
    + apply not_true_iff_false. rewrite sched_ue_exists_iff. unfold rnti_in. cbn. rewrite Hdel. by intros [].
    + by rewrite Hdel.
    + intros f. unfold ue_db_access. cbn. by rewrite Hdel.
    + intros r' Hne. by rewrite lookup_delete_ne, Hm, lookup_insert_ne.
Qed.

(** The two calls the PHY makes for a subframe [n], for the downlink of
    [n + 4] and the uplink of [n + 13], select the same subframe object.  The
    second call fills the downlink blocks of that object again: the user that
    was given a downlink grant has a second block taken from its queues, which
    the call does not hand to the MAC, so those bytes are never sent. *)
Theorem ul_call_serves_dl_again s hfn c rest n sf a u sr :
  is_tti n -> configured s = true -> carrier_schedulers s = c :: rest ->
  mid_inv n c (ue_db s) ->
  sf_scheds c !! Z.to_nat (n mod 40) = Some sf -> data_allocs sf = [a] ->
  deref (ue_db s) (da_user a) = Ok u ->
  exists ul s' u1 tbs data u2,
    ul_sched s hfn (TTI_ADD n (FDD_DELAY_UL_NB_MS + FDD_HARQ_DELAY_DL_MS)) sr = Ok (SRSLTE_SUCCESS, ul, s') /\
    same_queues u u1 /\
    generate_formatN1 u1 dl_sched_data_zero (tx_of n) (da_i_sf a) = Ok (tbs, data, u2) /\
    deref (ue_db s') (da_user a) = Ok u2 /\
    exists sent new, pending_ces u = sent ++ pending_ces u2 /\ d_pdu data = (ce_pdu <$> sent) ++ new /\
      forall j, j ∈ lcs -> lc_bytes u2 j + zsum (pdu_bytes j) new = lc_bytes u j.
Proof.
  intros Hn Hcfg Hcar Hmid Hlk Hda Hu. unfold ul_sched. rewrite Hcfg. cbn [negb].
  rewrite (proj2 (ul_dl_same_subframe n Hn)). unfold carrier0. rewrite Hcar.
  change (arr_read (c :: rest) 0) with (Ok c). rewrite bind_ok_l.
  destruct (generate_ul_ok n c (ue_db s) hfn Hn Hmid)
    as (r & c' & db' & -> & _ & _ & _ & _ & _ & sf0 & sf1 & e & Hlk0 & Hok & Hgen).
  rewrite bind_ok_l. rewrite Hlk in Hlk0. injection Hlk0 as <-.
  pose proof Hok as [(l & Hsf & _) _ Hsame Husers Hkq]; cbn in Hsf, Hsame, Husers, Hkq.
  destruct (Hkq _ _ Hu) as (u1 & Hu1 & Hq).
  pose proof Hmid as [_ _ _ _ (sf2 & Hlk2 & Hd)]. rewrite Hlk in Hlk2. injection Hlk2 as <-.
  destruct Hd as [Hp _ _ [_ Hdal] _ _]. destruct (Hdal a) as [Hi _]; [rewrite Hda; apply list_elem_of_here|].
  destruct (users_ok_deref _ _ _ Husers Hu1) as (Hw1 & Hf1 & _).
  destruct (generate_formatN1_filled u1 dl_sched_data_zero (tx_of n) (da_i_sf a) Hw1 Hf1 eq_refl)
    as (tbs & data & u2 & sent & new & Hg & Hb); [lia|].
  assert (Edl : get_tti_tx_dl sf1 = tx_of n).
  { unfold get_tti_tx_dl. rewrite Hsf. cbn. rewrite Hp. by apply tx_of_params. }
  eexists _, _, u1, tbs, data, u2. split; [reflexivity|]. split; [done|]. split; [done|]. split.
  - unfold generate_sched_results in Hgen.
    apply bind_Ok in Hgen as (d1 & H1 & Hgen). apply bind_Ok in Hgen as (d2 & H2 & Hgen).
    apply bind_Ok in Hgen as ([d3 db3] & H3 & Hgen). apply bind_Ok in Hgen as (u4 & H4 & Hgen).
    injection Hgen as _ <-. unfold set_dl_data_sched_result in H3.
    apply bind_Ok in H3 as ([l3 db4] & H3 & E3). injection E3 as _ <-.
    rewrite Hsf in H3 at 2. cbn [data_allocs upd] in H3. rewrite Hda in H3. cbn [foldM] in H3.
    apply bind_Ok in H3 as (st & H3 & E3). injection E3 as ->. unfold set_dl_data_step in H3.
    rewrite Hu1, bind_ok_l in H3. apply ub_unless_Ok in H3 as [_ H3].
    rewrite Edl, Hg, bind_ok_l in H3. injection H3 as _ <-. cbn. apply deref_store_eq.
  - exists sent, new. destruct Hq as (_ & Hce & _ & Hbuf). split_and!.
    + rewrite <- Hce. apply (bf_ces _ _ _ _ _ _ _ Hb).
    + apply (bf_pdu _ _ _ _ _ _ _ Hb).
    + intros j Hj. rewrite (bf_bytes _ _ _ _ _ _ _ Hb j Hj). unfold lc_bytes.
      destruct (Hbuf j Hj) as [-> ->]. done.
Qed.

(** Msg3 is scheduled in the object of the subframe nine later.  Asked for
    that subframe, the carrier finds the grant, unless the frame number wraps
    in between: the object is then taken for an old one and emptied, and the
    Msg3 grant is lost. *)
Theorem msg3_object_lost_at_wrap c n sf :
  is_tti n -> length (sf_scheds c) = 40%nat -> sf_tti_params sf = tti_params (n + 9) ->
  exists sf' c', get_sf_sched (put_sf c ((n + 9) mod NSF) sf) ((n + 9) mod 10240) = Ok ((n + 9) mod NSF, sf', c') /\
    if n + 9 <? 10240 then sf' = sf else sf' = new_tti sf (n + 9 - 10240) /\ ul_data_allocs sf' = [].
Proof.
  intros Hn Hl Hp. unfold is_tti in Hn. unfold get_sf_sched, put_sf. change NSF with 40. cbn [sf_scheds upd].
  assert (((n + 9) mod 10240) mod 40 = (n + 9) mod 40) as -> by dlia.
  pose proof (Z.mod_pos_bound (n + 9) 40 ltac:(lia)).
  unfold arr_read, in_bounds. rewrite length_insert.
  replace (_ && _) with true by lia. rewrite list_lookup_insert_eq by lia. rewrite bind_ok_l.
  unfold get_tti_rx. rewrite Hp. cbn [Tti.tti_rx tti_params].
  rewrite arr_write_in by (rewrite length_insert; lia). rewrite bind_ok_l.
  destruct (Z.ltb_spec (n + 9) 10240).
  - assert ((n + 9) mod 10240 = n + 9) as -> by dlia. rewrite Z.eqb_refl. by eexists _, _.
  - assert ((n + 9) mod 10240 = n + 9 - 10240) as -> by dlia.
    destruct (Z.eqb_spec (n + 9) (n + 9 - 10240)); [lia|]. by eexists _, _.
Qed.

(** A preamble of a user is answered in subframe 96, which schedules its Msg3
    for the pass of 101; the user is removed before. *)
Definition removed_before_msg3 (rem : bool) : res (Z * dl_sched_res_t * sched) :=
  s ← sched_init sched_new;
  let '(_, s) := sched_ue_cfg s 4097 ue_cfg_zero in
  '(_, s) ← sched_dl_rach_info s (mk_rar_info 3 5 4097 8 64);
  '(_, _, s) ← dl_sched s 0 96 dl_sched_res_zero;
  let s := if rem then snd (sched_ue_rem s 4097) else s in
  dl_sched s 0 105 dl_sched_res_zero.

(** The Msg3 grant keeps a pointer to the user object for nine subframes:
    removing the user in between makes the scheduler follow a pointer to a
    destroyed object; without the removal the same calls succeed. *)
Theorem msg3_pointer_outlives_user :
  removed_before_msg3 true = UB DanglingPtr /\ is_Ok (removed_before_msg3 false) = true.
Proof. split; vm_compute; reflexivity. Qed.

(** ** Concrete runs *)
Definition demo_sched : sched := mk_sched demo_db [demo_car] 0 true.

Lemma sched_user_interface_witness :
  sched_ue_exists demo_sched 4099 = false /\
  sched_ue_exists (snd (sched_ue_cfg demo_sched 4099 ue_cfg_zero)) 4099 = true.
Proof.
  split; [vm_compute; reflexivity|].
  exact (proj1 (proj2 (sched_user_interface demo_sched 4099 ue_cfg_zero _ _ (surjective_pairing _)))).
Defined.

Lemma msg3_object_lost_at_wrap_witness : exists sf' c',
  get_sf_sched (put_sf carrier_new ((10235 + 9) mod NSF) (new_tti sf_sched_zero (10235 + 9))) ((10235 + 9) mod 10240)
    = Ok (4, sf', c') /\ ul_data_allocs sf' = [].
Proof.
  destruct (msg3_object_lost_at_wrap carrier_new 10235 (new_tti sf_sched_zero (10235 + 9)))
    as (sf' & c' & H & _ & Hl); [unfold is_tti; lia|reflexivity|reflexivity|].
  exists sf', c'. split; [exact H|exact Hl].
Defined.

Lemma ul_call_serves_dl_again_witness : exists r c1 db1 a u ul s' u1 tbs data u2,
  generate_tti_result demo_car demo_db 0 4 true = Ok (r, c1, db1) /\
  deref db1 (da_user a) = Ok u /\
  ul_sched (mk_sched db1 [c1] 0 true) 0 17 ul_sched_res_zero = Ok (SRSLTE_SUCCESS, ul, s') /\
  generate_formatN1 u1 dl_sched_data_zero 8 (da_i_sf a) = Ok (tbs, data, u2).
Proof.
  destruct (generate_tti_result demo_car demo_db 0 4 true) as [[[r c1] db1]| |] eqn:E;
    [|exfalso; revert E; vm_compute; discriminate|exfalso; revert E; vm_compute; discriminate].
  assert (E1 : match generate_tti_result demo_car demo_db 0 4 true with
               | Ok (_, c, _) => match sf_scheds c !! 4%nat with Some sf => length (data_allocs sf) | _ => 0%nat end
               | _ => 0%nat end = 1%nat) by (vm_compute; reflexivity).
  rewrite E in E1. assert (H4 : is_tti 4) by (unfold is_tti; lia).
  pose proof (step_inv _ _ _ (init_inv _ (demo_init 4 H4)) (step_dl _ _ _ _ _ _ _ E)) as [_ Hm].
  change (mid_inv 4 c1 db1) in Hm. destruct (mi_sf _ _ _ Hm) as (sf & Hlk & Hd).
  change (sf_scheds c1 !! 4%nat = Some sf) in Hlk. rewrite Hlk in E1.
  destruct (data_allocs sf) as [|a [|? ?]] eqn:Ea; [discriminate E1| |discriminate E1].
  destruct (proj2 (sd_data _ _ _ Hd) a) as [_ [u Hu]%valid_ptr_deref]; [rewrite Ea; apply list_elem_of_here|].
  destruct (ul_call_serves_dl_again (mk_sched db1 [c1] 0 true) 0 c1 [] 4 sf a u ul_sched_res_zero
              H4 eq_refl eq_refl Hm Hlk Ea Hu) as (ul & s' & u1 & tbs & data & u2 & H1 & _ & H2 & _).
  exists r, c1, db1, a, u, ul, s', u1, tbs, data, u2.
  split; [reflexivity|]. split; [exact Hu|]. split; [exact H1|exact H2].
Defined.
