(* ===== verification/SchedCalls.v ===== *)
(** * Calls of the scheduler's interface

    What the MAC may call on [sched] between the passes of the PHY, and that no
    call and no pass goes wrong as long as these calls keep to the sizes the
    scheduler's arrays have. *)
From S2P Require Import Prelude Tti RaNbiot SchedTypes SchedUe BcSched UeDb SchedGrid RaSched SchedCarrier SchedSafety Sched.

(** ** Calls *)
Inductive sched_call :=
| Call_ue_cfg (r : Z) (c : ue_cfg_t)
| Call_ue_rem (r : Z)
| Call_dl_rlc_buffer_state (r lc_id tx_queue retx_queue : Z)
| Call_dl_mac_buffer_state (r ce_code nof_cmds : Z)
| Call_ul_bsr (r lcid bsr_ : Z) (set_value : bool)
| Call_ul_wait_timer (r wait_time : Z) (set_value : bool)
| Call_dl_rach_info (info : rar_info_t).

Definition call_sched (s : sched) (call : sched_call) : res (Z * sched) :=
  match call with
  | Call_ue_cfg r c => Ok (sched_ue_cfg s r c)
  | Call_ue_rem r => Ok (sched_ue_rem s r)
  | Call_dl_rlc_buffer_state r lc tx retx => Ok (sched_dl_rlc_buffer_state s r lc tx retx)
  | Call_dl_mac_buffer_state r ce n => Ok (sched_dl_mac_buffer_state s r ce n)
  | Call_ul_bsr r lc b v => Ok (sched_ul_bsr s r lc b v)
  | Call_ul_wait_timer r w v => Ok (sched_ul_wait_timer s r w v)
  | Call_dl_rach_info info => sched_dl_rach_info s info
  end.

(** The queues of a user after a report leave room for the block that serves
    them: at most eight control elements and queues that are not empty. *)
Definition report_fits (s : sched) (r : Z) (f : sched_ue -> sched_ue) : Prop :=
  forall id u, db_map (ue_db s) !! r = Some (id, u) -> pdus_fit (f u).

(** When the calls keep to the scheduler's bounds before the pass of [n]: a
    user is removed when no subframe to come holds a pointer to it, the
    reported queues fit a block, and no NPRACH occasion has more preambles than
    its response has entries. *)
Definition call_fits (n : Z) (s : sched) (call : sched_call) : Prop :=
  match call with
  | Call_ue_cfg _ _ | Call_ul_bsr _ _ _ _ | Call_ul_wait_timer _ _ _ => True
  | Call_ue_rem r => forall c p, carrier0 s = Ok c -> held n c p -> p_rnti p <> r
  | Call_dl_rlc_buffer_state r lc tx retx =>
      0 <= tx < 2 ^ 31 /\ 0 <= retx < 2 ^ 31 /\ report_fits s r (fun u => dl_buffer_state u lc tx retx)
  | Call_dl_mac_buffer_state r ce n => report_fits s r (fun u => mac_buffer_state u ce n)
  | Call_dl_rach_info info =>
      is_tti (nprach_tti info) /\
      forall c ra, carrier0 s = Ok c -> ra_sched_ptr c = Some ra -> (waiting_at ra (nprach_tti info) < 8)%nat
  end.

(** ** The scheduler in service

    Passes of the PHY, downlink and uplink in turn, and calls in between. *)
Inductive served : phase -> Z -> sched -> Prop :=
| served_init n s : is_tti n -> sched_init sched_new = Ok s -> served AtDl n s
| served_dl n s hfn sr o r s' : served AtDl n s ->
    dl_sched s hfn (TTI_ADD n FDD_HARQ_DELAY_UL_MS) sr = Ok (o, r, s') -> served AtUl n s'
| served_ul n s hfn sr o r s' : served AtUl n s ->
    ul_sched s hfn (TTI_ADD n (FDD_DELAY_UL_NB_MS + FDD_HARQ_DELAY_DL_MS)) sr = Ok (o, r, s') ->
    served AtDl ((n + 1) mod 10240) s'
| served_call ph n s call o s' : served ph n s -> call_fits n s call ->
    call_sched s call = Ok (o, s') -> served ph n s'.

(** The next pass of the scheduler. *)
Definition next_pass (ph : phase) (n : Z) (s : sched) (hfn : Z) : res sched :=
  match ph with
  | AtDl => '(_, _, s') ← dl_sched s hfn (TTI_ADD n FDD_HARQ_DELAY_UL_MS) dl_sched_res_zero; Ok s'
  | AtUl => '(_, _, s') ← ul_sched s hfn (TTI_ADD n (FDD_DELAY_UL_NB_MS + FDD_HARQ_DELAY_DL_MS)) ul_sched_res_zero; Ok s'
  end.

(** ** Invariant *)
Record serving (ph : phase) (n : Z) (s : sched) (c : carrier_sched) : Prop := mk_serving {
  sg_cfg : configured s = true;
  sg_car : carrier_schedulers s = [c];
  sg_inv : sys_inv (mk_sys ph n c (ue_db s))
}.

Lemma serving_users ph n s c : serving ph n s c -> users_ok (ue_db s).
Proof. intros [_ _ [_ H]]. cbn in H. destruct ph; apply H. Qed.

Lemma serving_step ph n s c o r c' db' ph' n' :
  serving ph n s c -> sys_step (mk_sys ph n c (ue_db s)) o (mk_sys ph' n' c' db') ->
  serving ph' n' (set_carrier0 (s <| ue_db := db' |> <| last_tti := r |>) c') c'.
Proof.
  intros [H1 H2 H3] Hs. split; [done|by cbn; rewrite H2|]. exact (step_inv _ _ _ H3 Hs).
Qed.

(** A call that changes the users. *)
Lemma serving_change ph n s c db' :
  serving ph n s c -> users_ok db' -> (forall p, held n c p -> valid_ptr (ue_db s) p -> valid_ptr db' p) ->
  serving ph n (s <| ue_db := db' |>) c.
Proof.
  intros [H1 H2 H3] Hu Hh. split; [done..|]. eapply (step_inv _ _ _ H3). by apply step_users.
Qed.

Lemma serving_access ph n s c r f o s' :
  serving ph n s c ->
  (forall id u, db_map (ue_db s) !! r = Some (id, u) -> wf_ue u -> pdus_fit u -> wf_ue (f u) /\ pdus_fit (f u) /\ ue_rnti (f u) = ue_rnti u) ->
  ue_db_access s r f = (o, s') -> serving ph n s' c.
Proof.
  intros Hs Hf. unfold ue_db_access. destruct (db_map (ue_db s) !! r) as [[id u]|] eqn:E; intros [= <- <-]; [|done].
  assert (Hd : deref (ue_db s) (mk_ue_ptr r id) = Ok u) by (apply deref_Ok; exact E).
  destruct (users_ok_deref _ _ _ (serving_users _ _ _ _ Hs) Hd) as (Hw & Hp & _).
  destruct (Hf id u eq_refl Hw Hp) as (Hw' & Hp' & Er).
  apply serving_change; [done|by eapply (users_ok_store _ _ _ u); [apply (serving_users _ _ _ _ Hs)|..]|].
  intros p _ Hv. eapply same_users_valid; [|exact Hv]. apply db_store_same. by exists u.
Qed.

Lemma queues_access u u' : same_queues u u' -> wf_ue u -> pdus_fit u -> wf_ue u' /\ pdus_fit u' /\ ue_rnti u' = ue_rnti u.
Proof. intros Hq Hw Hp. destruct (same_queues_ok u u' Hq Hw Hp). split_and!; try done. apply Hq. Qed.

Lemma set_bearer_cfg_queues u i b : 0 <= i -> length (lch u) = 6%nat -> same_queues u (set_bearer_cfg_unlocked u i b).
Proof.
  intros Hi Hl. unfold set_bearer_cfg_unlocked. destruct (Z.ltb_spec i MAX_LC) as [Hlt|]; [|apply same_queues_refl].
  unfold MAX_LC in Hlt. split_and!; try done; [by rewrite length_set_lch|].
  intros j Hj. destruct (decide (j = i)) as [->|]; [by rewrite get_set_lch_eq|].
  by rewrite get_set_lch_ne by (done || by apply elem_of_lcs).
Qed.

Lemma set_cfg_queues u c : length (lch u) = 6%nat -> same_queues u (set_cfg u c).
Proof.
  intros Hl. unfold set_cfg. set (g := fun u i => _).
  assert (H : forall l u1, Forall (fun i => 0 <= i) l -> same_queues u u1 -> same_queues u (fold_left g l u1)).
  { intros l. induction l as [|i l IH]; intros u1 Hin Hq; [done|]. apply Forall_cons in Hin as [Hi Hin]. cbn [fold_left].
    apply IH; [done|]. eapply same_queues_trans; [exact Hq|]. apply set_bearer_cfg_queues; [done|]. destruct Hq as [-> _]. done. }
  apply H; [by apply Forall_forall; intros i Hi%elem_of_range; lia|]. by split_and!.
Qed.

(** A report changes one logical channel, or the control elements. *)
Lemma dl_buffer_state_wf u lc tx retx : 0 <= tx < 2 ^ 31 -> 0 <= retx < 2 ^ 31 -> wf_ue u -> wf_ue (dl_buffer_state u lc tx retx).
Proof.
  intros Ht Hr Hw. unfold dl_buffer_state. pose proof (u8_range lc).
  destruct (Z.ltb_spec (u8 lc) MAX_LC) as [Hlt|]; [|done]. unfold MAX_LC in Hlt.
  apply wf_set_lch; [done|by apply elem_of_lcs; lia|]. unfold wf_bearer.
  change (0 <= i32 tx < 2 ^ 31 /\ 0 <= i32 retx < 2 ^ 31). rewrite !i32_id by lia. lia.
Qed.

Lemma dl_buffer_state_rnti u lc tx retx : ue_rnti (dl_buffer_state u lc tx retx) = ue_rnti u.
Proof. unfold dl_buffer_state. by case_match. Qed.

(** A user that is new. *)
Lemma serving_create ph n s c r : serving ph n s c -> db_map (ue_db s) !! r = None ->
  serving ph n (s <| ue_db := db_create (ue_db s) r (sched_ue_init sched_ue_new r) |>) c.
Proof.
  intros Hs Hr. apply serving_change; [done| |].
  - intros r' id u. cbn. destruct (decide (r' = r)) as [->|].
    + rewrite lookup_insert_eq. intros [= <- <-]. split_and!; [|by vm_compute|done].
      split; [done|]. intros i _.
      match goal with |- wf_bearer ?g => assert (g = ue_bearer_zero) as -> end; [|by repeat split].
      unfold get_lch. destruct (nth_in_or_default (Z.to_nat i) (replicate 6 ue_bearer_zero) ue_bearer_zero) as [H|H]; [|done].
      by apply list_elem_of_In, elem_of_replicate in H as [? _].
    + rewrite lookup_insert_ne by done. apply (serving_users _ _ _ _ Hs).
  - intros p _ [u Hu]. exists u. cbn. rewrite lookup_insert_ne; [done|]. intros E. rewrite <- E in Hu. congruence.
Qed.

Lemma serving_call ph n s c call o s' : serving ph n s c -> call_fits n s call -> call_sched s call = Ok (o, s') ->
  exists c', serving ph n s' c'.
Proof.
  intros Hs Hf. destruct call as [r cf|r|r lc tx retx|r ce k|r lc b v|r w v|info]; cbn in *; intros H.
  - injection H as H. exists c. unfold sched_ue_cfg in H. eapply serving_access; [..|exact H].
    + destruct (db_map (ue_db s) !! r) eqn:E; [done|by apply serving_create].
    + intros id u _ Hw Hp. apply queues_access; [apply set_cfg_queues, Hw|done..].
  - injection H as H. exists c. unfold sched_ue_rem in H. destruct (db_map (ue_db s) !! r) as [x|] eqn:E; injection H as <- <-; [|done].
    apply serving_change; [done| |].
    + intros r' id u. cbn. intros [_ Hl]%lookup_delete_Some. by eapply (serving_users _ _ _ _ Hs).
    + intros p Hp [u Hu]. exists u. cbn. rewrite lookup_delete_ne; [done|]. intros E'. symmetry in E'. revert E'.
      apply (Hf c); [|done]. unfold carrier0. rewrite (sg_car _ _ _ _ Hs). done.
  - injection H as H. destruct Hf as (H1 & H2 & Hf). exists c. eapply serving_access; [done| |exact H].
    intros id u E Hw _. split_and!; [by apply dl_buffer_state_wf|by eapply Hf|apply dl_buffer_state_rnti].
  - injection H as H. exists c. eapply serving_access; [done| |exact H].
    intros id u E Hw _. split_and!; [done|by eapply Hf|done].
  - injection H as H. exists c. eapply serving_access; [done| |exact H].
    intros id u _ Hw Hp. apply queues_access; [apply ul_buffer_state_queues, Hw|done..].
  - injection H as H. exists c. eapply serving_access; [done| |exact H].
    intros id u _ Hw Hp. apply queues_access; [apply ul_wait_timer_queues|done..].
  - destruct Hf as [Ht _]. unfold sched_dl_rach_info, carrier0 in H. rewrite (sg_car _ _ _ _ Hs) in H.
    change (arr_read [c] 0) with (Ok c) in H. rewrite bind_ok_l in H. apply bind_Ok in H as ([o1 c'] & H1 & H). injection H as <- <-.
    exists c'. destruct Hs as [G1 G2 G3]. split; [done|unfold set_carrier0; cbn; by rewrite G2|].
    eapply (step_inv _ _ _ G3). by apply (step_rach _ _ _ _ info o1).
Qed.

(** The passes. *)
Lemma serving_dl n s c hfn sr : serving AtDl n s c ->
  exists r s' c', dl_sched s hfn (TTI_ADD n FDD_HARQ_DELAY_UL_MS) sr = Ok (0, r, s') /\ serving AtUl n s' c'.
Proof.
  destruct s as [db cs lt cf]. intros [G1 G2 [Hn Hi]]. cbn in G1, G2, Hn, Hi. subst. unfold dl_sched.
  rewrite (proj1 (ul_dl_same_subframe n Hn)). cbn [configured negb]. cbv zeta.
  change (carrier_schedulers (_ <| last_tti := _ |>)) with [c]. cbn match. change (ue_db (_ <| last_tti := _ |>)) with db.
  destruct (generate_dl_ok n c db hfn Hn Hi) as (r & c' & db' & _ & H & Hm & _). rewrite H, bind_ok_l.
  eexists _, _, c'. split; [reflexivity|]. by split.
Qed.

Lemma serving_ul n s c hfn sr : serving AtUl n s c ->
  exists r s' c', ul_sched s hfn (TTI_ADD n (FDD_DELAY_UL_NB_MS + FDD_HARQ_DELAY_DL_MS)) sr = Ok (SRSLTE_SUCCESS, r, s') /\
    serving AtDl ((n + 1) mod 10240) s' c'.
Proof.
  intros [G1 G2 [Hn Hi]]. cbn in Hn, Hi. unfold ul_sched. rewrite G1, (proj2 (ul_dl_same_subframe n Hn)). cbn [negb]. cbv zeta.
  unfold carrier0. rewrite G2. change (arr_read [c] 0) with (Ok c). rewrite bind_ok_l.
  destruct (generate_ul_ok n c (ue_db s) hfn Hn Hi) as (r & c' & db' & H & Hm & _). rewrite H, bind_ok_l.
  eexists _, _, c'. split; [reflexivity|]. split; [done|unfold set_carrier0; cbn; by rewrite G2|]. split; [apply mod_is_tti|done].
Qed.

Lemma served_serving ph n s : served ph n s -> exists c, serving ph n s c.
Proof.
  induction 1 as [n s Hn Hs|n s hfn sr o r s' _ [c Hc] H|n s hfn sr o r s' _ [c Hc] H|ph n s call o s' _ [c Hc] Hf H].
  - unfold sched_init, cell_cfg, carrier0 in Hs. cbn [sched_reset sched_new carrier_schedulers app upd eta eta_sched ue_db] in Hs.
    change (arr_read [carrier_new] 0) with (Ok carrier_new) in Hs. rewrite bind_ok_l in Hs.
    apply bind_Ok in Hs as ([o s'] & Hs & E). injection E as ->. apply bind_Ok in Hs as (c & Hc & Hs). injection Hs as _ <-.
    exists c. split; [done..|]. apply init_inv. by apply init_intro; [..|intros r id u].
  - destruct (serving_dl n s c hfn sr Hc) as (r' & s2 & c' & E & Hc'). rewrite H in E. injection E as -> -> ->. by exists c'.
  - destruct (serving_ul n s c hfn sr Hc) as (r' & s2 & c' & E & Hc'). rewrite H in E. injection E as -> -> ->. by exists c'.
  - by eapply serving_call.
Qed.

(** ** Properties *)

(** C1. The scheduler never gets stuck.  From its initialisation on, after any
    passes and any calls of its interface - users configured and removed,
    buffer reports, control elements, preambles - the next pass, downlink or
    uplink, returns, and so does every call that keeps to the bounds: no endless
    loop, no array overrun, no dangling pointer, across the wrap-around of the
    frame number too.  The bounds are those of [call_fits]: a user is removed only
    while no subframe to come points to it, the reported queues and elements are
    at most eight, the preambles of an occasion at most eight.  Beyond each of
    them the scheduler does go wrong ([msg3_pointer_outlives_user],
    [allocate_mac_ces_overflow], [ra_dl_rach_info_queues]). *)
Theorem scheduler_never_stuck ph n s hfn : served ph n s ->
  is_Ok (next_pass ph n s hfn) = true /\
  (forall call, call_fits n s call -> is_Ok (call_sched s call) = true).
Proof.
  intros [c Hc]%served_serving. split.
  - destruct ph; cbn [next_pass].
    + destruct (serving_dl n s c hfn dl_sched_res_zero Hc) as (r & s' & c' & -> & _). done.
    + destruct (serving_ul n s c hfn ul_sched_res_zero Hc) as (r & s' & c' & -> & _). done.
  - intros call Hf. destruct call as [| | | | | |info]; try done. destruct Hf as [Ht Hf]. cbn.
    destruct Hc as [_ G2 [_ Hi]]. unfold sched_dl_rach_info, carrier0 in *. rewrite G2 in *. change (arr_read [c] 0) with (Ok c) in *.
    rewrite bind_ok_l. cbn in Hi.
    assert (Hb : base_inv c (ue_db s)) by (destruct ph; apply Hi). destruct Hb as [_ _ _ _ (ra & E & Hra & _) _ _].
    unfold carrier_dl_rach_info. rewrite E. cbn [get_ptr]. rewrite bind_ok_l.
    pose proof (ra_dl_rach_info_spec ra info Hra) as Hs. specialize (Hf c ra eq_refl E).
    rewrite (proj2 (Nat.ltb_lt _ _) Hf) in Hs. destruct Hs as (ra' & -> & _). done.
Qed.

(** A scheduler in service: a device is announced by a preamble, made known,
    and has a control element and data reported. *)
Definition demo_calls : list sched_call :=
  [Call_dl_rach_info (mk_rar_info 3 5 4097 8 64); Call_ue_cfg 4097 ue_cfg_zero;
   Call_dl_mac_buffer_state 4097 CON_RES_ID 1; Call_dl_rlc_buffer_state 4097 0 20 0].
Definition demo_served (k : nat) : sched :=
  match (s ← sched_init sched_new; foldM (fun s call => '(_, s) ← call_sched s call; Ok s) (take k demo_calls) s) with
  | Ok s => s | _ => sched_new end.

Lemma demo_served_ok : served AtDl 10239 (demo_served 4).
Proof.
  assert (H0 : served AtDl 10239 (demo_served 0)) by (apply served_init; [split; lia|by vm_compute]).
  assert (H1 : served AtDl 10239 (demo_served 1)).
  { apply (served_call _ _ _ (Call_dl_rach_info (mk_rar_info 3 5 4097 8 64)) 0 _ H0); [|by vm_compute]. split; [split; cbn; lia|].
    intros c ra Hc Hr. vm_compute in Hc. injection Hc as <-. vm_compute in Hr. injection Hr as <-. vm_compute. lia. }
  assert (H2 : served AtDl 10239 (demo_served 2)).
  { by apply (served_call _ _ _ (Call_ue_cfg 4097 ue_cfg_zero) 0 _ H1); [|vm_compute]. }
  assert (H3 : served AtDl 10239 (demo_served 3)).
  { apply (served_call _ _ _ (Call_dl_mac_buffer_state 4097 CON_RES_ID 1) 0 _ H2); [|by vm_compute].
    intros id u H. vm_compute in H. injection H as <- <-. by vm_compute. }
  apply (served_call _ _ _ (Call_dl_rlc_buffer_state 4097 0 20 0) 0 _ H3); [|by vm_compute].
  split_and!; [lia..|]. intros id u H. vm_compute in H. injection H as <- <-. by vm_compute.
Qed.

Lemma scheduler_never_stuck_witness :
  is_Ok (next_pass AtDl 10239 (demo_served 4) 0) = true /\
  is_Ok (call_sched (demo_served 4) (Call_ul_bsr 4097 0 30 true)) = true.
Proof.
  destruct (scheduler_never_stuck AtDl 10239 (demo_served 4) 0 demo_served_ok) as [H1 H2].
  split; [exact H1|exact (H2 (Call_ul_bsr 4097 0 30 true) I)].
Defined.
