(* ===== verification/MacPdu.v ===== *)
(** * The MAC PDU codec

    The parts of the bundled [srslte::sch_pdu] and [srslte::rar_pdu] the eNodeB
    runs on every transport block ([third_party/srslte/src/mac/pdu.cc],
    [include/srslte/mac/pdu.h]): parsing of an uplink block received from the
    air, composition of a downlink block, and the RAR. *)
From S2P Require Import Prelude SchedTypes.

(** ** Logical channel identifiers *)
Definition RESERVED : Z := 17.
Definition UL_PHR_REPORT : Z := 26.
Definition UL_CRNTI : Z := 27.
Definition UL_TRUNC_BSR : Z := 28.
Definition UL_SHORT_BSR : Z := 29.
Definition UL_LONG_BSR : Z := 30.
Definition PADDING : Z := 31.

(** [is_sdu(ul_sch_lcid)], also used for the downlink. *)
Definition is_sdu (lcid_ : Z) : bool := lcid_ <=? RESERVED.

(** [ce_size(ul_sch_lcid)] *)
Definition ce_size_ul (lcid_ : Z) : Z :=
  if lcid_ =? UL_PHR_REPORT then 1
  else if lcid_ =? UL_CRNTI then 2
  else if lcid_ =? UL_TRUNC_BSR then 1
  else if lcid_ =? UL_SHORT_BSR then 1
  else if lcid_ =? UL_LONG_BSR then 3
  else 0.

(** [sch_subh::sizeof_ce] for [SCH_SUBH_TYPE] *)
Definition sizeof_ce (lcid_ : Z) (is_ul : bool) : Z :=
  if is_ul then ce_size_ul lcid_ else ce_size lcid_.

(** [sch_pdu::size_header_sdu]; the argument is converted to [uint32_t]. *)
Definition size_header_sdu (nbytes : Z) : Z := if u32 nbytes <? 128 then 2 else 3.

(** ** Subheaders

    [sh_payload] is an offset in the block being parsed. *)
Record sch_subh := mk_subh {
  sh_lcid : Z;
  sh_nof_bytes : Z;
  sh_payload : option Z;
  sh_ce : list Z           (* w_payload_ce[64] *)
}.
#[export] Instance eta_sch_subh : Eta sch_subh := {| eta := fun r =>
  mk_subh (sh_lcid r) (sh_nof_bytes r) (sh_payload r) (sh_ce r) |}.

(** [sch_subh::init] *)
Definition subh_init (ce : list Z) : sch_subh := mk_subh 0 0 None ce.
Definition ce_zero : list Z := replicate 64 0.

Definition sh_is_sdu (s : sch_subh) : bool := is_sdu (sh_lcid s).

Definition size_plus_header (s : sch_subh) : Z :=
  if sh_is_sdu s then size_header_sdu (sh_nof_bytes s) + sh_nof_bytes s else 1 + sh_nof_bytes s.

Definition get_header_size (s : sch_subh) (is_last : bool) : Z :=
  if negb is_last then if sh_is_sdu s then size_header_sdu (sh_nof_bytes s) else 1 else 1.

(** ** Reading *)

(** [sch_subh::read_subheader] at [pos] of [buf]: the subheader, its E bit and
    the next position. *)
Definition read_subheader (is_ul : bool) (buf : list Z) (pos : Z) : res (sch_subh * bool * Z) :=
  b0 ← arr_read buf pos;
  let e_bit := negb (Z.land b0 32 =? 0) in
  let lcid_ := Z.land b0 31 in
  let pos := pos + 1 in
  if is_sdu lcid_ then
    if e_bit then
      b1 ← arr_read buf pos;
      let n := Z.land b1 127 in
      let pos := pos + 1 in
      if negb (Z.land b1 128 =? 0) then
        b2 ← arr_read buf pos;
        Ok (mk_subh lcid_ (Z.lor (Z.shiftl n 8) (Z.land b2 255)) None ce_zero, e_bit, pos + 1)
      else Ok (mk_subh lcid_ n None ce_zero, e_bit, pos)
    else Ok (mk_subh lcid_ 0 None ce_zero, e_bit, pos)
  else Ok (mk_subh lcid_ (sizeof_ce lcid_ is_ul) None ce_zero, e_bit, pos).

(** The [do ... while] loop of the template [pdu<SubH>::parse_packet]; [read] is
    [SubH::read_subheader], [acc] are the [nof_subheaders] subheaders read so
    far. *)
Fixpoint parse_headers {A} (read : list Z -> Z -> res (A * bool * Z)) (fuel : nat) (max pdu_len : Z)
    (buf : list Z) (pos : Z) (acc : list A) (ret : bool) : res (list A * Z) :=
  match fuel with
  | O => Diverge
  | S f =>
      '(acc, pos, ret) ← (if Z.of_nat (length acc) <? max then
                            '(sh, e, pos') ← read buf pos;
                            Ok (acc ++ [sh], pos', e)
                          else Ok (acc, pos, ret));
      let acc := if ret && (pos >=? i32 pdu_len) then [] else acc in
      if ret && (Z.of_nat (length acc) + 1 <? max) && (i32 pdu_len >? pos) then
        parse_headers read f max pdu_len buf pos acc ret
      else Ok (acc, pos)
  end.

(** The loop over [read_payload]. *)
Fixpoint read_payloads (pos : Z) (l : list sch_subh) : list sch_subh :=
  match l with
  | [] => []
  | s :: l' => s <| sh_payload := Some pos |> :: read_payloads (pos + sh_nof_bytes s) l'
  end.

Definition parse_fuel (max : Z) : nat := Z.to_nat max.

(** [pdu::parse_packet] *)
Definition pdu_parse_packet (is_ul : bool) (max pdu_len : Z) (buf : list Z) : res (list sch_subh) :=
  '(l, pos) ← parse_headers (read_subheader is_ul) (parse_fuel max) max pdu_len buf 0 [] false;
  Ok (read_payloads pos l).

(** [sch_pdu::parse_packet]: the last subheader gets the rest of the block, or
    the block is dropped. *)
Definition sch_parse_packet (is_ul : bool) (max pdu_len : Z) (buf : list Z) : res (list sch_subh) :=
  l ← pdu_parse_packet is_ul max pdu_len buf;
  Ok (match last l with
      | None => []
      | Some s =>
          let front := removelast l in
          let read_len := u32 (zsum size_plus_header front) in
          let n_sub := i32 (pdu_len - read_len - 1) in
          if n_sub >=? 0 then front ++ [s <| sh_nof_bytes := n_sub |>] else []
      end).

(** *** Contents of control elements *)

(** [*ptr] where the payload starts at an offset of the block. *)
Definition payload_byte (buf : list Z) (s : sch_subh) (i : Z) : res Z :=
  match sh_payload s with Some p => arr_read buf (p + i) | None => UB NullDeref end.

Definition get_c_rnti (buf : list Z) (s : sch_subh) : res Z :=
  match sh_payload s with
  | Some p => b0 ← arr_read buf p; b1 ← arr_read buf (p + 1); Ok (Z.lor (u16 (Z.shiftl b0 8)) b1)
  | None => b0 ← arr_read (sh_ce s) 0; b1 ← arr_read (sh_ce s) 1; Ok (Z.lor (u16 (Z.shiftl b0 8)) b1)
  end.

(** Table 6.1.3.1-1 of TS 36.321. *)
Definition btable : list Z :=
  [0; 1; 10; 12; 14; 17; 19; 22; 26; 31; 36; 42; 49; 57; 67; 78;
   91; 107; 125; 146; 171; 200; 234; 274; 321; 376; 440; 515; 603; 706; 826; 967;
   1132; 1326; 1552; 1817; 2127; 2490; 2915; 3413; 3995; 4667; 5476; 6411; 7505; 8787; 10287; 12043;
   14099; 16507; 19325; 22624; 26487; 31009; 36304; 42502; 49759; 58255; 68201; 79846; 93479; 109439; 128125; 150000].

(** The conversion of one index of [get_bsr]. *)
Definition bsr_bytes (v : Z) : res Z :=
  if v =? 0 then Ok v else if v <? 63 then arr_read btable (1 + v) else arr_read btable 63.

(** [sch_subh::get_bsr] on [{0, 0, 0, 0}]: the sizes, and the group or -1. *)
Definition get_bsr (buf : list Z) (s : sch_subh) : res (list Z * Z) :=
  match sh_payload s with
  | None => Ok ([0; 0; 0; 0], -1)
  | Some p =>
      '(raw, g) ← (if sh_lcid s =? UL_LONG_BSR then
          p0 ← arr_read buf p; p1 ← arr_read buf (p + 1); p2 ← arr_read buf (p + 2);
          Ok ([Z.shiftr (Z.land p0 252) 2;
               Z.lor (Z.shiftl (Z.land p0 3) 4) (Z.shiftr (Z.land p1 240) 4);
               Z.lor (Z.shiftl (Z.land p1 15) 4) (Z.shiftr (Z.land p1 192) 6);
               Z.land p2 63], 0)
        else
          p0 ← arr_read buf p;
          let g := Z.shiftr (Z.land p0 192) 6 in
          Ok (<[Z.to_nat (g mod 4) := Z.land p0 63]> [0; 0; 0; 0], g));
      l ← foldM (fun acc v => b ← bsr_bytes v; Ok (acc ++ [b])) raw [];
      Ok (l, g)
  end.

(** ** Writing

    [sch_pdu] on a transmit buffer: its vector of subheaders, of which the
    first [t_nof] are in use, and the SDU bytes appended to the buffer so far,
    which start at the buffer's fixed header offset. *)
Record sch_tx := mk_tx {
  t_vec : list sch_subh;
  t_nof : Z;
  t_cur : Z;
  t_last_sdu : Z;
  t_rem : Z;
  t_len : Z;
  t_is_ul : bool;
  t_bytes : list Z
}.
#[export] Instance eta_sch_tx : Eta sch_tx := {| eta := fun r =>
  mk_tx (t_vec r) (t_nof r) (t_cur r) (t_last_sdu r) (t_rem r) (t_len r) (t_is_ul r) (t_bytes r) |}.

Definition SRSLTE_BUFFER_HEADER_OFFSET : Z := 1020.
Definition SRSLTE_MAX_BUFFER_SIZE_BYTES : Z := 97896 / 8 + SRSLTE_BUFFER_HEADER_OFFSET.

Definition sch_tx_new (max : nat) : sch_tx := mk_tx (replicate max (subh_init ce_zero)) 0 (-1) (-1) 0 0 false [].

(** [init_tx] on a cleared buffer *)
Definition init_tx (t : sch_tx) (len : Z) (is_ul : bool) : sch_tx :=
  mk_tx ((fun s => subh_init (sh_ce s)) <$> t_vec t) 0 (-1) (-1) len len is_ul [].

Definition get_headroom (t : sch_tx) : Z := SRSLTE_BUFFER_HEADER_OFFSET.
Definition get_tailroom (t : sch_tx) : Z :=
  SRSLTE_MAX_BUFFER_SIZE_BYTES - SRSLTE_BUFFER_HEADER_OFFSET - Z.of_nat (length (t_bytes t)).

Definition tx_next (t : sch_tx) : bool * sch_tx :=
  if t_cur t <? t_nof t - 1 then (true, t <| t_cur := t_cur t + 1 |>) else (false, t).

Definition new_subh (t : sch_tx) : bool * sch_tx :=
  if (t_nof t <? Z.of_nat (length (t_vec t)) - 1) && (t_rem t >? 0) && (get_headroom t >? 1)
  then tx_next (t <| t_nof := t_nof t + 1 |>) else (false, t).

Definition del_subh (t : sch_tx) : sch_tx :=
  let t := if t_nof t >? 0 then t <| t_nof := t_nof t - 1 |> else t in
  if t_cur t >=? 0 then t <| t_cur := t_cur t - 1 |> else t.

(** [subheaders[i]] *)
Definition subh_at (t : sch_tx) (i : Z) : res sch_subh := arr_read (t_vec t) i.
(** Change of the current subheader, [get()->...]. *)
Definition upd_cur (t : sch_tx) (f : sch_subh -> sch_subh) : res sch_tx :=
  if t_cur t >=? 0 then
    s ← subh_at t (t_cur t); v ← arr_write (t_vec t) (t_cur t) (f s); Ok (t <| t_vec := v |>)
  else UB NullDeref.

Definition get_sdu_space (t : sch_tx) : res Z :=
  ret ← (if t_last_sdu t <? 0 then Ok (i32 (u32 (t_rem t - 1)))
         else s ← subh_at t (t_last_sdu t);
              Ok (i32 (u32 (t_rem t - (size_header_sdu (sh_nof_bytes s) - 1) - 1))));
  Ok (Z.min (if ret >=? 0 then ret else 0) (get_tailroom t)).

Definition has_space_sdu (t : sch_tx) (nbytes : Z) : res bool :=
  s ← get_sdu_space t; Ok (if s <? 0 then false else s >=? nbytes).

Definition update_space_sdu (t : sch_tx) (nbytes : Z) : res sch_tx :=
  b ← has_space_sdu t nbytes;
  if b : bool then
    rem ← (if t_last_sdu t <? 0 then Ok (u32 (t_rem t - (nbytes + 1)))
           else s ← subh_at t (t_last_sdu t);
                Ok (u32 (t_rem t - (nbytes + 1 + (size_header_sdu (sh_nof_bytes s) - 1)))));
    Ok (t <| t_rem := rem |> <| t_last_sdu := t_cur t |>)
  else Ok t.

Definition has_space_ce (t : sch_tx) (nbytes : Z) : bool := t_rem t >=? nbytes + 1.
Definition update_space_ce (t : sch_tx) (nbytes : Z) : sch_tx :=
  if has_space_ce t nbytes then t <| t_rem := u32 (t_rem t - (nbytes + 1)) |> else t.

(** [sch_subh::set_sdu] on the current subheader: the upper layer [rd], with
    state [S], is asked for at most [req] bytes of the channel. *)
Definition set_sdu {S} (rd : S -> Z -> Z -> Z * list Z * S) (t : sch_tx) (st : S) (lcid_ req : Z) :
    res (Z * sch_tx * S) :=
  b ← has_space_sdu t req;
  if b : bool then
    t ← upd_cur t (fun s => s <| sh_lcid := lcid_ |> <| sh_payload := Some (Z.of_nat (length (t_bytes t))) |>);
    let '(sdu_sz, bytes, st) := rd st lcid_ req in
    if sdu_sz <? 0 then Ok (-1, t, st)
    else if sdu_sz =? 0 then Ok (0, t, st)
    else
      t ← upd_cur t (fun s => s <| sh_nof_bytes := sdu_sz |>);
      if sdu_sz >? req then Ok (-1, t, st)
      else
        t ← update_space_sdu t sdu_sz;
        Ok (sdu_sz, t <| t_bytes := t_bytes t ++ take (Z.to_nat sdu_sz) bytes |>, st)
  else Ok (-1, t, st).

(** The six bytes of a contention resolution identity, most significant first. *)
Definition con_res_bytes (id : Z) : list Z :=
  (fun k => u8 (Z.shiftr id (8 * k))) <$> [5; 4; 3; 2; 1; 0].

Definition set_con_res_id (t : sch_tx) (id : Z) : res (bool * sch_tx) :=
  if has_space_ce t 6 then
    t ← upd_cur t (fun s => s <| sh_ce := con_res_bytes id ++ drop 6 (sh_ce s) |> <| sh_lcid := CON_RES_ID |>);
    let t := update_space_ce t 6 in
    t ← upd_cur t (fun s => s <| sh_nof_bytes := 6 |>);
    Ok (true, t)
  else Ok (false, t).

(** [sch_subh::write_subheader] *)
Definition write_subheader (s : sch_subh) (is_last : bool) : list Z :=
  Z.lor (if is_last then 0 else 32) (Z.land (sh_lcid s) 31) ::
  (if sh_is_sdu s && negb is_last then
     if sh_nof_bytes s >=? 128
     then [u8 (Z.lor 128 (Z.shiftr (Z.land (sh_nof_bytes s) 32512) 8)); Z.land (sh_nof_bytes s) 255]
     else [Z.land (sh_nof_bytes s) 127]
   else []).

Definition padding_subh (n : Z) : sch_subh := mk_subh PADDING n None ce_zero.

(** How [write_packet] pads: one or two single-byte subheaders, or one last
    subheader and the padding bytes after it. *)
Definition padding_of (t : sch_tx) (last : option sch_subh) : bool * Z * Z :=
  if t_rem t >? 2 then
    (true, 0, u32 (t_rem t - 1 - match last with Some s => get_header_size s false - 1 | None => 0 end))
  else if t_rem t >? 0 then (false, t_rem t, 0)
  else (false, 0, t_rem t).

(** [for (i = 0; i < nof_subheaders; i++)] *)
Definition used_subhs (t : sch_tx) : list (Z * sch_subh) :=
  zip (range 0 (Z.to_nat (t_nof t))) (take (Z.to_nat (t_nof t)) (t_vec t)).

(** The bytes before the SDUs: padding, CE and SDU subheaders, CE payloads. *)
Definition write_headers (t : sch_tx) (ce_only multi : bool) (onetwo num_padding : Z) : list Z :=
  let l := used_subhs t in
  concat (replicate (Z.to_nat onetwo) (write_subheader (padding_subh 0) (negb (t_len t >? onetwo)))) ++
  (l ≫= fun '(i, s) => if sh_is_sdu s then []
                        else write_subheader s (ce_only && negb multi && (i =? t_nof t - 1))) ++
  (if ce_only then [] else
     l ≫= fun '(i, s) => if sh_is_sdu s then write_subheader s (negb multi && (i =? t_last_sdu t)) else []) ++
  (if multi then write_subheader (padding_subh num_padding) true else []) ++
  (l ≫= fun '(i, s) => if sh_is_sdu s then [] else take (Z.to_nat (sizeof_ce (sh_lcid s) (t_is_ul t))) (sh_ce s)).

Definition header_sz (t : sch_tx) (multi : bool) (onetwo : Z) : Z :=
  zsum (fun '(i, s) => get_header_size s (negb multi && (i =? t_last_sdu t))) (used_subhs t) +
  (if multi then 1 else onetwo).
Definition ce_payload_sz (t : sch_tx) : Z :=
  zsum (fun '(i, s) => if sh_is_sdu s then 0 else sh_nof_bytes s) (used_subhs t).

(** [sch_pdu::write_packet]: the block, or a null pointer when its length is
    not the one announced. *)
Definition write_packet (t : sch_tx) : res (option (list Z)) :=
  last ← (if t_last_sdu t <? 0 then Ok None else s ← subh_at t (t_last_sdu t); Ok (Some s));
  let '(multi, onetwo, num_padding) := padding_of t last in
  let total_header_size := header_sz t multi onetwo + ce_payload_sz t in
  if get_headroom t <? total_header_size then Ok None
  else if get_tailroom t <? num_padding then Ok None
  else if total_header_size + Z.of_nat (length (t_bytes t)) + num_padding =? t_len t then
    Ok (Some (write_headers t (t_last_sdu t <? 0) multi onetwo num_padding ++ t_bytes t ++
              replicate (Z.to_nat num_padding) 0))
  else Ok None.

(** *** Facts on reading *)

Definition is_byte (b : Z) : Prop := 0 <= b < 256.

(** Bytes of the header that its length field does not need: one when a two
    byte field holds a length below 128. *)
Definition overlong (s : sch_subh) (e : bool) (hdr : Z) : Z := hdr - get_header_size s (negb e).

(** The subheaders at the start of a block, where they end, how many length
    fields among them are overlong, and the last E bit. *)
Inductive headers (is_ul : bool) (buf : list Z) : list sch_subh -> Z -> Z -> bool -> Prop :=
| headers_nil : headers is_ul buf [] 0 0 true
| headers_snoc l pos k s e pos' :
    headers is_ul buf l pos k true -> read_subheader is_ul buf pos = Ok (s, e, pos') ->
    headers is_ul buf (l ++ [s]) pos' (k + overlong s e (pos' - pos)) e.

Lemma land_mask b n : 0 <= n -> 0 <= Z.land b (Z.ones n) < 2 ^ n.
Proof. intros Hn. rewrite Z.land_ones by done. apply Z.mod_pos_bound. lia. Qed.

Lemma sizeof_ce_range lcid_ is_ul : 0 <= sizeof_ce lcid_ is_ul <= 6.
Proof. unfold sizeof_ce, ce_size_ul, ce_size. repeat case_match; lia. Qed.

Lemma length16 n b : 0 <= n < 128 -> 0 <= b < 256 -> Z.lor (Z.shiftl n 8) b = n * 256 + b.
Proof.
  intros Hn Hb. assert (Hl : Z.land (Z.shiftl n 8) b = 0).
  { apply Z.bits_inj'. intros i Hi. rewrite Z.land_spec, Z.bits_0.
    destruct (Z.ltb_spec i 8).
    + by rewrite Z.shiftl_spec_low.
    + rewrite (Z.bits_above_log2 b i); [apply andb_false_r|lia|].
      destruct (decide (b = 0)) as [->|]; [cbn; lia|]. apply Z.log2_lt_pow2; [lia|].
      apply Z.lt_le_trans with (2 ^ 8); [cbn; lia|]. apply Z.pow_le_mono_r; lia. }
  rewrite <- Z.lxor_lor, <- Z.add_nocarry_lxor, Z.shiftl_mul_pow2 by (done || lia). lia.
Qed.

(** Reading one subheader. *)
Lemma read_subheader_total is_ul buf pos :
  0 <= pos -> pos + 2 < Z.of_nat (length buf) ->
  exists s e pos', read_subheader is_ul buf pos = Ok (s, e, pos').
Proof.
  intros Hp Hl. unfold read_subheader.
  destruct (arr_read_in buf pos) as (b0 & -> & _); [lia|]. rewrite bind_ok_l.
  destruct (arr_read_in buf (pos + 1)) as (b1 & -> & _); [lia|].
  destruct (arr_read_in buf (pos + 1 + 1)) as (b2 & -> & _); [lia|].
  rewrite ?bind_ok_l. repeat case_match; by eexists _, _, _.
Qed.

Definition subh_ok (s : sch_subh) : Prop := 0 <= sh_nof_bytes s < 2 ^ 15 /\ sh_payload s = None.

Lemma read_subheader_facts is_ul buf pos s e pos' :
  read_subheader is_ul buf pos = Ok (s, e, pos') ->
  pos < pos' /\ subh_ok s /\ 0 <= overlong s e (pos' - pos) <= 1 /\
  (e = false -> overlong s e (pos' - pos) = 0).
Proof.
  unfold read_subheader. intros H. apply bind_Ok in H as (b0 & _ & H).
  pose proof (sizeof_ce_range (Z.land b0 31) is_ul) as Hce.
  unfold overlong, get_header_size, sh_is_sdu, size_header_sdu, subh_ok.
  destruct (is_sdu (Z.land b0 31)) eqn:Es.
  - destruct (negb (Z.land b0 32 =? 0)).
    + apply bind_Ok in H as (b1 & _ & H).
      pose proof (land_mask b1 7 ltac:(lia)) as H1. change (Z.ones 7) with 127 in H1.
      destruct (negb (Z.land b1 128 =? 0)).
      * apply bind_Ok in H as (b2 & _ & H). injection H as <- <- <-.
        pose proof (land_mask b2 8 ltac:(lia)) as H2. change (Z.ones 8) with 255 in H2.
        cbn [sh_lcid sh_nof_bytes sh_payload negb]. rewrite length16, Es, u32_id by lia.
        split_and!; try lia; try done; case_match; lia.
      * injection H as <- <- <-. cbn [sh_lcid sh_nof_bytes sh_payload negb]. rewrite Es, u32_id by lia.
        replace (_ <? 128) with true by lia. split_and!; try lia; done.
    + injection H as <- <- <-. cbn. split_and!; try lia; done.
  - injection H as <- <- <-. cbn [sh_lcid sh_nof_bytes sh_payload negb]. rewrite Es.
    split_and!; try lia; try done; case_match; try lia; done.
Qed.

Lemma get_header_size_range s b : 1 <= get_header_size s b <= 3.
Proof. unfold get_header_size, size_header_sdu. repeat case_match; lia. Qed.

(** The header ends where its subheaders and their overlong bytes put it. *)
Lemma headers_spec is_ul buf l pos k e :
  headers is_ul buf l pos k e ->
  Z.of_nat (length l) <= pos /\ 0 <= k <= Z.of_nat (length l) /\ (forall s, s ∈ l -> subh_ok s) /\
  (l = [] -> e = true /\ pos = 0 /\ k = 0) /\
  (forall front s, l = front ++ [s] ->
     pos = zsum (fun s => get_header_size s false) front + get_header_size s (negb e) + k).
Proof.
  induction 1 as [|l pos k s e pos' Hh (IH1 & IH2 & IH3 & IH4 & IH5) Hr].
  { split_and!; try done; try (cbn; lia); [by intros s' ?%elem_of_nil|]. by intros [] s'. }
  destruct (read_subheader_facts _ _ _ _ _ _ Hr) as (Hp & Hok & Hov & _).
  rewrite length_app; cbn [length]. split_and!; try lia.
  - intros s' [Hs'|Hs']%elem_of_app; [by apply IH3|]. by apply list_elem_of_singleton in Hs' as ->.
  - by destruct l.
  - intros front s' E. apply app_inj_tail in E as [-> ->]. unfold overlong.
    destruct front as [|s0 front' _] using rev_ind.
    + destruct (IH4 eq_refl) as (_ & -> & ->). cbn. lia.
    + pose proof (IH5 _ _ eq_refl) as E. rewrite zsum_app, zsum_cons. cbn [negb] in E.
      unfold zsum in *. cbn [foldr]. lia.
Qed.

(** The loop stops, within the block, at the subheader without E bit, or after
    the last subheader there is room for, or gives up. *)
Lemma parse_headers_spec fuel is_ul max len buf pos acc k ret :
  headers is_ul buf acc pos k true -> Z.of_nat (length acc) + 1 < max ->
  max - 1 - Z.of_nat (length acc) <= Z.of_nat fuel ->
  pos < len -> len < 2 ^ 31 -> len + 2 <= Z.of_nat (length buf) ->
  exists l pos', parse_headers (read_subheader is_ul) fuel max len buf pos acc ret = Ok (l, pos') /\
    (l = [] \/ exists k' e, headers is_ul buf l pos' k' e /\ l <> [] /\
       Z.of_nat (length l) < max /\ (e = false \/ Z.of_nat (length l) + 1 = max)).
Proof.
  revert pos acc k ret; induction fuel as [|fuel IH]; intros pos acc k ret Hh Hacc Hfuel Hpos Hlen Hbuf; [lia|].
  destruct (headers_spec _ _ _ _ _ _ Hh) as (Hp & _). cbn [parse_headers].
  replace (_ <? max) with true by lia.
  destruct (read_subheader_total is_ul buf pos) as (s & e & pos' & Hr); [lia|lia|].
  rewrite Hr, !bind_ok_l, i32_id by lia.
  assert (Hh' : headers is_ul buf (acc ++ [s]) pos' (k + overlong s e (pos' - pos)) e) by by econstructor.
  destruct e; cbn [andb].
  - destruct (Z.geb_spec pos' len) as [Hge|Hlt]; cbn [length].
    + replace (len >? pos') with false by lia. rewrite andb_false_r. eexists _, _. split; [done|by left].
    + rewrite length_app; cbn [length]. replace (len >? pos') with true by lia. rewrite andb_true_r.
      destruct (Z.ltb_spec (Z.of_nat (length acc + 1) + 1) max).
      * apply (IH pos' _ _ true Hh'); rewrite ?length_app; cbn [length]; lia.
      * eexists _, _. split; [done|]. right. eexists _, true. split; [exact Hh'|].
        rewrite length_app; cbn [length]. split_and!; [by destruct acc|lia|right; lia].
  - eexists _, _. split; [done|]. right. eexists _, false. split; [exact Hh'|].
    rewrite length_app; cbn [length]. split_and!; [by destruct acc|lia|by left].
Qed.

(** Consecutive payloads. *)
Inductive payloads_from : Z -> list sch_subh -> Z -> Prop :=
| pf_nil p : payloads_from p [] p
| pf_cons p s l q : sh_payload s = Some p -> 0 <= sh_nof_bytes s ->
    payloads_from (p + sh_nof_bytes s) l q -> payloads_from p (s :: l) q.

Lemma payloads_from_bounds p l q : payloads_from p l q ->
  p <= q /\ forall s, s ∈ l -> exists o, sh_payload s = Some o /\ p <= o /\ o + sh_nof_bytes s <= q.
Proof.
  induction 1 as [|p s l q Hs Hn Hl [IH1 IH2]]; [split; [lia|by intros s ?%elem_of_nil]|].
  split; [lia|]. intros s' [->|Hs']%elem_of_cons.
  - exists p. split_and!; [done|lia|lia].
  - destruct (IH2 s' Hs') as (o & ? & ? & ?). exists o. split_and!; [done|lia|lia].
Qed.

Lemma read_payloads_from p l : (forall s, s ∈ l -> subh_ok s) ->
  payloads_from p (read_payloads p l) (p + zsum sh_nof_bytes l).
Proof.
  revert p; induction l as [|s l IH]; intros p Hl; cbn [read_payloads].
  { rewrite Z.add_0_r. constructor. }
  destruct (Hl s (list_elem_of_here _ _)) as [Hn _]. rewrite zsum_cons. constructor; [done|cbn; lia|].
  cbn. rewrite Z.add_assoc. apply IH. intros; apply Hl; by apply list_elem_of_further.
Qed.

Lemma read_payloads_app p l1 l2 :
  read_payloads p (l1 ++ l2) = read_payloads p l1 ++ read_payloads (p + zsum sh_nof_bytes l1) l2.
Proof.
  revert p; induction l1 as [|s l1 IH]; intros p; cbn [read_payloads app].
  { by rewrite Z.add_0_r. }
  rewrite IH, zsum_cons. do 3 f_equal. lia.
Qed.

Lemma payloads_from_app p l1 l2 q : payloads_from p (l1 ++ l2) q <->
  exists m, payloads_from p l1 m /\ payloads_from m l2 q.
Proof.
  revert p; induction l1 as [|s l1 IH]; intros p; cbn [app].
  - split; [intros; exists p; split; [constructor|done]|].
    intros (m & H1 & H2). by inversion H1; subst.
  - split.
    + inversion 1 as [|? ? ? ? Hs Hn Hl]; subst. apply IH in Hl as (m & H1 & H2).
      exists m. split; [by constructor|done].
    + intros (m & H1 & H2). inversion H1 as [|? ? ? ? Hs Hn Hl]; subst.
      constructor; [done..|]. apply IH. by exists m.
Qed.

Lemma zsum_plus_header l p : (forall s, s ∈ l -> subh_ok s) ->
  zsum size_plus_header (read_payloads p l) = zsum (fun s => get_header_size s false) l + zsum sh_nof_bytes l.
Proof.
  revert p; induction l as [|s l IH]; intros p Hl; [done|]. cbn [read_payloads]. rewrite !zsum_cons.
  rewrite IH by (intros; apply Hl; by apply list_elem_of_further).
  assert (size_plus_header (s <| sh_payload := Some p |>) = get_header_size s false + sh_nof_bytes s).
  { unfold size_plus_header, get_header_size, sh_is_sdu. cbn. by destruct (is_sdu (sh_lcid s)). }
  lia.
Qed.

Lemma length_read_payloads p l : length (read_payloads p l) = length l.
Proof. revert p; induction l as [|a l IH]; intros p; [done|]. cbn. by rewrite IH. Qed.

Lemma read_payloads_lcids p l : sh_lcid <$> read_payloads p l = sh_lcid <$> l.
Proof. revert p; induction l as [|a l IH]; intros p; [done|]. cbn. f_equal. apply IH. Qed.

(** The number of subheaders a block can have, [mac_msg_ul(20, log_)]. *)
Definition MAX_SUBH : Z := 20.

Lemma last_snoc_eq {A} (l : list A) a : last (l ++ [a]) = Some a.
Proof. by rewrite last_app. Qed.

(** *** Parsing as a whole *)

(** Parsing a received block of [len] bytes always ends, without reading past
    the two bytes after the block.  When the block is accepted, the payloads lie
    one after the other behind the subheaders and end [k] bytes after the end of
    the block, where [k] counts the length fields written on two bytes that one
    byte would hold (and, when the nineteenth subheader still announces another
    one, that subheader's length field). *)
Lemma sch_parse_extent is_ul len buf :
  0 < len < 2 ^ 30 -> len + 2 <= Z.of_nat (length buf) ->
  exists l, sch_parse_packet is_ul MAX_SUBH len buf = Ok l /\
    (l = [] \/
     exists front s pos k e, headers is_ul buf (front ++ [s]) pos k e /\
       sh_lcid <$> l = sh_lcid <$> front ++ [s] /\ 0 <= k <= Z.of_nat (length l) /\ (length l <= 19)%nat /\
       (e = true -> length l = 19%nat) /\
       payloads_from pos l (len + k + (get_header_size s (negb e) - 1))).
Proof.
  intros Hlen Hbuf. unfold sch_parse_packet, pdu_parse_packet, parse_fuel, MAX_SUBH.
  change (Z.to_nat 20) with 20%nat.
  destruct (parse_headers_spec 20 is_ul 20 len buf 0 [] 0 false) as (hs & pos & -> & Hhs);
    [constructor|cbn; lia|cbn; lia|lia|lia|lia|].
  rewrite !bind_ok_l. destruct Hhs as [->|(k & e & Hh & Hne & Hmax & Hend)].
  { exists []. split; [done|by left]. }
  destruct (headers_spec _ _ _ _ _ _ Hh) as (_ & Hk & Hok & _ & Hpos).
  destruct hs as [|s front _] using rev_ind; [done|].
  specialize (Hpos front s eq_refl). rewrite length_app in *. cbn [length] in *.
  assert (Hokf : forall s', s' ∈ front -> subh_ok s') by (intros; apply Hok; set_solver).
  rewrite read_payloads_app. cbn [read_payloads].
  set (q := pos + zsum sh_nof_bytes front). set (s' := s <| sh_payload := Some q |>).
  rewrite last_snoc_eq, removelast_last. eexists. split; [reflexivity|].
  rewrite zsum_plus_header by done.
  set (hd := zsum (fun s => get_header_size s false) front) in *.
  set (nb := zsum sh_nof_bytes front) in *.
  assert (Hhd : 0 <= hd <= 3 * Z.of_nat (length front)).
  { unfold hd. clear. induction front as [|a l IH]; [cbn; lia|].
    rewrite zsum_cons. cbn [length]. pose proof (get_header_size_range a false). lia. }
  assert (Hnb : 0 <= nb <= 2 ^ 15 * Z.of_nat (length front)).
  { unfold nb. clear -Hokf. induction front as [|a l IH]; [cbn; lia|].
    rewrite zsum_cons. cbn [length]. destruct (Hokf a (list_elem_of_here _ _)) as [? _].
    specialize (IH ltac:(intros; apply Hokf; by apply list_elem_of_further)). lia. }
  rewrite u32_id by lia. rewrite i32_id by lia.
  destruct (Z.geb_spec (len - (hd + nb) - 1) 0) as [Hn|]; [|by left]. right.
  exists front, s, pos, k, e. split; [exact Hh|].
  pose proof (read_payloads_from pos front Hokf) as Hpf. fold nb in Hpf. fold q in Hpf.
  split_and!.
  - rewrite !fmap_app. f_equal. apply read_payloads_lcids.
  - lia.
  - rewrite length_app, length_read_payloads. cbn [length]. lia.
  - rewrite length_app, length_read_payloads. cbn [length]. lia.
  - intros ->. rewrite length_app, length_read_payloads. cbn [length].
    destruct Hend; [done|lia].
  - apply payloads_from_app. exists q. split; [exact Hpf|].
    replace (len + k + (get_header_size s (negb e) - 1)) with (q + (len - (hd + nb) - 1)) by (unfold q; lia).
    constructor; [done|cbn; lia|]. cbn. constructor.
Qed.

(** *** Facts on writing *)

Definition used (t : sch_tx) : list sch_subh := take (Z.to_nat (t_nof t)) (t_vec t).

(** A subheader of a block being composed: a contention resolution identity or
    a non-empty SDU. *)
Definition subh_tx_ok (s : sch_subh) : Prop :=
  (sh_lcid s = CON_RES_ID /\ sh_nof_bytes s = 6) \/
  (sh_is_sdu s = true /\ 0 <= sh_lcid s /\ 1 <= sh_nof_bytes s < 2 ^ 15).

(** The last SDU's subheader is counted as one byte. *)
Definition last_slack (t : sch_tx) : Z :=
  if t_last_sdu t <? 0 then 0
  else match t_vec t !! Z.to_nat (t_last_sdu t) with
       | Some s => size_header_sdu (sh_nof_bytes s) - 1 | None => 0 end.

Definition sdu_bytes (s : sch_subh) : Z := if sh_is_sdu s then sh_nof_bytes s else 0.

Record tx_ok (t : sch_tx) : Prop := mk_tx_ok {
  tx_vec : length (t_vec t) = 20%nat /\ (forall s, s ∈ t_vec t -> length (sh_ce s) = 64%nat);
  tx_nof : 0 <= t_nof t <= 19 /\ t_cur t = t_nof t - 1;
  tx_last : -1 <= t_last_sdu t < t_nof t;
  tx_subhs : forall s, s ∈ used t -> subh_tx_ok s;
  tx_sdus : forall i s, used t !! i = Some s -> sh_is_sdu s = true -> Z.of_nat i <= t_last_sdu t;
  tx_last_sdu : 0 <= t_last_sdu t -> exists s, used t !! Z.to_nat (t_last_sdu t) = Some s /\ sh_is_sdu s = true;
  tx_len : 0 < t_len t <= 1000 /\ 0 <= t_rem t;
  tx_rem : t_rem t + zsum size_plus_header (used t) - last_slack t = t_len t;
  tx_bytes : Z.of_nat (length (t_bytes t)) = zsum sdu_bytes (used t);
  tx_dl : t_is_ul t = false
}.

Lemma size_header_sdu_range n : 2 <= size_header_sdu n <= 3.
Proof. unfold size_header_sdu. case_match; lia. Qed.

Lemma last_slack_range t : 0 <= last_slack t <= 2.
Proof.
  unfold last_slack. repeat case_match; try lia. pose proof (size_header_sdu_range (sh_nof_bytes s)). lia.
Qed.

Lemma init_tx_ok t len :
  length (t_vec t) = 20%nat -> (forall s, s ∈ t_vec t -> length (sh_ce s) = 64%nat) -> 0 < len <= 1000 ->
  tx_ok (init_tx t len false).
Proof.
  intros Hl Hc Hlen. split; cbn; try done; try lia.
  - split; [by rewrite length_fmap|]. intros s (s0 & -> & Hs)%list_elem_of_fmap. cbn. by apply Hc.
  - intros s Hs. by apply elem_of_nil in Hs.
  - unfold last_slack, used; cbn. change (Z.to_nat 0) with 0%nat. rewrite take_0. cbn. lia.
Qed.

Lemma used_length t : tx_ok t -> Z.of_nat (length (used t)) = t_nof t.
Proof. intros H. unfold used. rewrite length_take. destruct (tx_vec _ H), (tx_nof _ H). lia. Qed.

Lemma subh_tx_ok_bytes s : subh_tx_ok s -> 0 <= sdu_bytes s < size_plus_header s.
Proof.
  intros [[H1 H2]|(H1 & H2 & H3)]; unfold sdu_bytes, size_plus_header, sh_is_sdu in *.
  - rewrite H1. cbn. lia.
  - rewrite H1. pose proof (size_header_sdu_range (sh_nof_bytes s)). lia.
Qed.

Lemma zsum_le {A} (f g : A -> Z) l : (forall a, a ∈ l -> f a <= g a) -> zsum f l <= zsum g l.
Proof.
  induction l as [|a l IH]; intros H; [done|]. rewrite !zsum_cons.
  pose proof (H a (list_elem_of_here _ _)). specialize (IH ltac:(intros; apply H; by apply list_elem_of_further)). lia.
Qed.

Lemma tx_room t : tx_ok t -> zsum size_plus_header (used t) <= 1002 /\ Z.of_nat (length (t_bytes t)) <= 1002.
Proof.
  intros H. pose proof (tx_rem _ H). pose proof (last_slack_range t). destruct (tx_len _ H).
  split; [lia|]. rewrite (tx_bytes _ H).
  assert (zsum sdu_bytes (used t) <= zsum size_plus_header (used t)); [|lia].
  apply zsum_le. intros s Hs. pose proof (subh_tx_ok_bytes s (tx_subhs _ H s Hs)). lia.
Qed.

(** Room for one more SDU: what is left, less its subheader's byte and what the
    last SDU's subheader grows by. *)
Lemma get_sdu_space_ok t :
  tx_ok t -> get_sdu_space t = Ok (Z.max 0 (t_rem t - 1 - last_slack t)).
Proof.
  intros H. destruct (tx_len _ H) as [Hl Hr]. pose proof (tx_last _ H). pose proof (last_slack_range t) as Hsl.
  destruct (tx_room t H) as [Hc Hb]. pose proof (tx_rem _ H) as Hrem.
  assert (Hcost : 0 <= zsum size_plus_header (used t)).
  { apply zsum_nonneg. intros s Hs. pose proof (subh_tx_ok_bytes s (tx_subhs _ H s Hs)). lia. }
  assert (Ht : 10000 <= get_tailroom t).
  { unfold get_tailroom, SRSLTE_MAX_BUFFER_SIZE_BYTES, SRSLTE_BUFFER_HEADER_OFFSET. dlia. }
  assert (Hi : forall z, -10 <= z < 2000 -> i32 (u32 z) = z).
  { intros z Hz. unfold i32, u32. dlia. }
  unfold get_sdu_space, last_slack in *. destruct (Z.ltb_spec (t_last_sdu t) 0).
  - rewrite bind_ok_l, Hi by lia. f_equal. destruct (Z.geb_spec (t_rem t - 1) 0); lia.
  - destruct (tx_last_sdu _ H) as (s & Hs & _); [lia|]. unfold used in Hs.
    apply lookup_take_Some in Hs as [Hs Hlt]. rewrite Hs in Hsl, Hrem |- *.
    unfold subh_at. destruct (arr_read_in (t_vec t) (t_last_sdu t)) as (s' & -> & Hs').
    { destruct (tx_vec _ H) as [-> _]. destruct (tx_nof _ H). lia. }
    rewrite Hs in Hs'. injection Hs' as <-. rewrite !bind_ok_l.
    pose proof (size_header_sdu_range (sh_nof_bytes s)). rewrite Hi by lia. f_equal.
    match goal with |- context [if ?a >=? 0 then _ else _] => destruct (Z.geb_spec a 0) end; lia.
Qed.

(** One more subheader in use. *)
Definition cost (t : sch_tx) (s : sch_subh) : Z :=
  if sh_is_sdu s then sh_nof_bytes s + 1 + last_slack t else 1 + sh_nof_bytes s.

Definition tx_push (t : sch_tx) (s : sch_subh) (bytes : list Z) : sch_tx :=
  mk_tx (<[Z.to_nat (t_nof t) := s]> (t_vec t)) (t_nof t + 1) (t_nof t)
    (if sh_is_sdu s then t_nof t else t_last_sdu t) (t_rem t - cost t s) (t_len t) (t_is_ul t)
    (t_bytes t ++ bytes).

Lemma used_push t s bytes : tx_ok t -> t_nof t < 19 -> used (tx_push t s bytes) = used t ++ [s].
Proof.
  intros H Hn. unfold used, tx_push; cbn. destruct (tx_vec _ H) as [Hl _]. destruct (tx_nof _ H) as [Hn0 _].
  replace (Z.to_nat (t_nof t + 1)) with (S (Z.to_nat (t_nof t))) by lia.
  rewrite (take_S_r _ _ s) by (apply list_lookup_insert_eq; lia).
  by rewrite take_insert_ge by lia.
Qed.

Lemma tx_push_ok t s bytes :
  tx_ok t -> t_nof t < 19 -> subh_tx_ok s -> length (sh_ce s) = 64%nat -> cost t s <= t_rem t ->
  Z.of_nat (length bytes) = sdu_bytes s -> tx_ok (tx_push t s bytes).
Proof.
  intros H Hn Hs Hce Hc Hb. pose proof (used_push t s bytes H Hn) as Hu.
  pose proof (used_length t H) as Hul. destruct (tx_vec _ H) as [Hl Hvc]. destruct (tx_nof _ H) as [Hn0 Hcur].
  pose proof (tx_last _ H) as Hlast.
  assert (Hlk : used (tx_push t s bytes) !! Z.to_nat (t_nof t) = Some s).
  { rewrite Hu, lookup_app_r by lia. by replace (_ - _)%nat with 0%nat by lia. }
  split; cbn [tx_push t_vec t_nof t_cur t_last_sdu t_rem t_len t_is_ul t_bytes].
  - split; [by rewrite length_insert|]. intros s' Hs'.
    apply list_elem_of_lookup in Hs' as [i Hi]. apply list_lookup_insert_Some in Hi as [(_ & <- & _)|[_ Hi]]; [done|].
    apply Hvc, list_elem_of_lookup. eauto.
  - lia.
  - case_match; lia.
  - intros s'. rewrite Hu, elem_of_app, list_elem_of_singleton. intros [Hs'| ->]; [by apply (tx_subhs _ H)|done].
  - intros i s'. rewrite Hu. intros [Hi|[Hi Hi2]]%lookup_app_Some Hsd.
    + pose proof (tx_sdus _ H i s' Hi Hsd). case_match; lia.
    + apply list_lookup_singleton_Some in Hi2 as [Hi2 <-]. rewrite Hsd. lia.
  - intros Hl0. destruct (sh_is_sdu s) eqn:Es.
    + exists s. done.
    + destruct (tx_last_sdu _ H Hl0) as (s' & Hs' & Hsd). exists s'. split; [|done].
      rewrite Hu. by apply lookup_app_l_Some.
  - destruct (tx_len _ H). lia.
  - rewrite Hu, zsum_app, zsum_cons. pose proof (tx_rem _ H) as Hr. unfold cost, size_plus_header in *.
    unfold zsum at 2; cbn [foldr].
    unfold last_slack in Hr at 1 |- *. cbn [tx_push t_last_sdu t_vec].
    destruct (sh_is_sdu s) eqn:Es.
    + replace (t_nof t <? 0) with false by lia. rewrite list_lookup_insert_eq by lia.
      unfold last_slack. lia.
    + destruct (Z.ltb_spec (t_last_sdu t) 0); [lia|]. rewrite list_lookup_insert_ne by lia. lia.
  - rewrite length_app, Hu, zsum_app, zsum_cons. pose proof (tx_bytes _ H). unfold zsum at 2; cbn [foldr]. lia.
  - apply (tx_dl _ H).
Qed.

Lemma subh_at_ok t i : tx_ok t -> 0 <= i < 20 -> exists s, subh_at t i = Ok s /\ t_vec t !! Z.to_nat i = Some s /\
  length (sh_ce s) = 64%nat.
Proof.
  intros H Hi. destruct (tx_vec _ H) as [Hl Hc].
  destruct (arr_read_in (t_vec t) i) as (s & Hr & Hs); [lia|]. exists s. split; [done|]. split; [done|].
  apply Hc, list_elem_of_lookup. eauto.
Qed.

Lemma new_subh_ok t : tx_ok t -> t_nof t < 19 -> 0 < t_rem t ->
  new_subh t = (true, t <| t_nof := t_nof t + 1 |> <| t_cur := t_nof t |>).
Proof.
  intros H Hn Hr. unfold new_subh. destruct (tx_vec _ H) as [-> _]. destruct (tx_nof _ H) as [_ Hc].
  unfold get_headroom, SRSLTE_BUFFER_HEADER_OFFSET. 
  rewrite (proj2 (Z.ltb_lt _ _)) by lia. rewrite (proj2 (Z.gtb_gt _ _)) by lia. cbn [andb Z.gtb Z.compare Pos.compare Pos.compare_cont].
  unfold tx_next. cbn. rewrite Hc, (proj2 (Z.ltb_lt _ _)) by lia. by rewrite Z.sub_add.
Qed.

(** Change of the subheader just taken. *)
Lemma upd_new t f : tx_ok t -> t_nof t < 19 -> exists s, t_vec t !! Z.to_nat (t_nof t) = Some s /\
  length (sh_ce s) = 64%nat /\
  upd_cur (t <| t_nof := t_nof t + 1 |> <| t_cur := t_nof t |>) f =
    Ok (t <| t_nof := t_nof t + 1 |> <| t_cur := t_nof t |> <| t_vec := <[Z.to_nat (t_nof t) := f s]> (t_vec t) |>).
Proof.
  intros H Hn. destruct (tx_nof _ H) as [Hn0 _]. destruct (subh_at_ok t (t_nof t) H) as (s & Hs & Hl & Hc); [lia|].
  exists s. split_and!; [done|done|]. unfold upd_cur. cbn. replace (_ >=? 0) with true by lia.
  unfold subh_at in *. cbn. rewrite Hs, bind_ok_l. rewrite arr_write_in by (destruct (tx_vec _ H) as [-> _]; lia).
  by rewrite bind_ok_l.
Qed.

(** A contention resolution element that fits. *)
Lemma add_con_res_ok t id :
  tx_ok t -> t_nof t < 19 -> 7 <= t_rem t ->
  exists s, set_con_res_id (new_subh t).2 id = Ok (true, tx_push t s []) /\ tx_ok (tx_push t s []) /\
    sh_lcid s = CON_RES_ID /\ sh_nof_bytes s = 6 /\ take 6 (sh_ce s) = con_res_bytes id.
Proof.
  intros H Hn Hr. rewrite (new_subh_ok t H Hn) by lia. cbn [snd]. unfold set_con_res_id, has_space_ce.
  change (t_rem (upd t_cur _ _)) with (t_rem t). replace (t_rem t >=? 6 + 1) with true by lia.
  match goal with |- context [upd_cur _ ?f] => destruct (upd_new t f H Hn) as (s & Hs & Hl & ->) end.
  rewrite bind_ok_l. unfold update_space_ce, has_space_ce. change (t_rem (upd t_vec _ _)) with (t_rem t).
  replace (t_rem t >=? 6 + 1) with true by lia.
  destruct (tx_vec _ H) as [Hv Hvc]. destruct (tx_nof _ H) as [Hn0 _]. destruct (tx_len _ H).
  pose proof (tx_rem _ H) as Hrem. pose proof (last_slack_range t) as Hsl.
  unfold upd_cur, subh_at. cbn [t_cur t_vec upd]. replace (t_nof t >=? 0) with true by lia.
  erewrite arr_read_lookup; [|lia|apply list_lookup_insert_eq; lia]. rewrite bind_ok_l.
  rewrite arr_write_in by (rewrite length_insert; lia). rewrite !bind_ok_l, list_insert_insert_eq.
  match goal with |- context [<[_ := ?x]> (t_vec t)] => set (s1 := x) end.
  assert (Hce : length (sh_ce s1) = 64%nat) by (cbn; rewrite length_drop; lia).
  assert (Hok : subh_tx_ok s1) by by left.
  assert (Hcost : cost t s1 = 7) by done.
  exists s1. split; [|split_and!; try done].
  - unfold tx_push. rewrite Hcost. cbn. rewrite app_nil_r, u32_id; [done|].
    assert (0 <= zsum size_plus_header (used t)); [|lia].
    apply zsum_nonneg. intros s' Hs'. pose proof (subh_tx_ok_bytes s' (tx_subhs _ H s' Hs')). lia.
  - apply tx_push_ok; (done || lia).
Qed.

(** The part of a block that is in use. *)
Definition same_block (t t' : sch_tx) : Prop :=
  used t' = used t /\ t_nof t' = t_nof t /\ t_last_sdu t' = t_last_sdu t /\ t_rem t' = t_rem t /\
  t_len t' = t_len t /\ t_bytes t' = t_bytes t.

(** Giving a subheader back leaves the block as it was. *)
Lemma del_new_ok t s :
  tx_ok t -> t_nof t < 19 -> length (sh_ce s) = 64%nat ->
  let t' := del_subh (t <| t_nof := t_nof t + 1 |> <| t_cur := t_nof t |>
                        <| t_vec := <[Z.to_nat (t_nof t) := s]> (t_vec t) |>) in
  tx_ok t' /\ same_block t t'.
Proof.
  intros H Hn Hce. destruct (tx_vec _ H) as [Hv Hvc]. destruct (tx_nof _ H) as [Hn0 Hcur].
  unfold del_subh. cbn [t_nof t_cur upd]. replace (t_nof t + 1 >? 0) with true by lia. cbn [t_cur upd].
  replace (t_nof t >=? 0) with true by lia. cbn zeta.
  match goal with |- tx_ok ?x /\ _ => set (t' := x) end.
  assert (En : t_nof t' = t_nof t) by (cbn; lia).
  assert (Eu : used t' = used t).
  { unfold used. rewrite En. cbn. by rewrite take_insert_ge by lia. }
  assert (Es : last_slack t' = last_slack t).
  { unfold last_slack. change (t_last_sdu t') with (t_last_sdu t). pose proof (tx_last _ H).
    destruct (Z.ltb_spec (t_last_sdu t) 0); [done|]. cbn. by rewrite list_lookup_insert_ne by lia. }
  split; [|by split_and!]. split; rewrite ?En, ?Eu, ?Es; try apply H.
  - split; [cbn; by rewrite length_insert|]. cbn. intros s' [i Hi]%list_elem_of_lookup.
    apply list_lookup_insert_Some in Hi as [(_ & <- & _)|[_ Hi]]; [done|].
    apply Hvc, list_elem_of_lookup. eauto.
  - split; [lia|]. cbn. lia.
Qed.

(** What the upper layer delivers when it is asked for bytes. *)
Definition reader_ok {S} (rd : S -> Z -> Z -> Z * list Z * S) : Prop :=
  forall st lcid_ req n bytes st', rd st lcid_ req = (n, bytes, st') -> 0 < n ->
    n <= req /\ Z.of_nat (length bytes) = n.

(** One request to the upper layer: an SDU is added, or the block stays. *)
Lemma add_sdu_ok {S} (rd : S -> Z -> Z -> Z * list Z * S) t st lcid_ req :
  reader_ok rd -> tx_ok t -> t_nof t < 19 -> 0 < t_rem t -> 0 <= lcid_ -> is_sdu lcid_ = true -> 1 <= req <= 1000 ->
  exists n t' st', set_sdu rd (new_subh t).2 st lcid_ req = Ok (n, t', st') /\
    ((exists s bytes, 0 < n <= req /\ rd st lcid_ req = (n, bytes, st') /\ t' = tx_push t s bytes /\
        tx_ok t' /\ sh_lcid s = lcid_ /\ sh_nof_bytes s = n) \/
     (n <= 0 /\ tx_ok (del_subh t') /\ same_block t (del_subh t') /\
        (st' = st \/ exists n0 bytes, n0 <= 0 /\ rd st lcid_ req = (n0, bytes, st')))).
Proof.
  intros Hrd H Hn Hr Hl Hsd Hreq. rewrite (new_subh_ok t H Hn Hr). cbn [snd].
  destruct (tx_vec _ H) as [Hv Hvc]. destruct (tx_nof _ H) as [Hn0 _]. pose proof (tx_last _ H) as Hlast.
  pose proof (last_slack_range t) as Hsl. destruct (tx_len _ H).
  assert (Hrem : t_rem t <= 1002).
  { pose proof (tx_rem _ H). assert (0 <= zsum size_plus_header (used t)); [|lia].
    apply zsum_nonneg. intros s' Hs'. pose proof (subh_tx_ok_bytes s' (tx_subhs _ H s' Hs')). lia. }
  assert (Hsp : forall v, (forall i, 0 <= i < t_nof t -> v !! Z.to_nat i = t_vec t !! Z.to_nat i) -> length v = 20%nat ->
    get_sdu_space (t <| t_nof := t_nof t + 1 |> <| t_cur := t_nof t |> <| t_vec := v |>) = get_sdu_space t).
  { intros v Hv' Hlv. unfold get_sdu_space. cbn [t_last_sdu t_rem upd].
    destruct (Z.ltb_spec (t_last_sdu t) 0); [done|]. unfold subh_at, arr_read, in_bounds. cbn [t_vec upd].
    by rewrite Hlv, Hv, Hv' by lia. }
  set (t1 := t <| t_nof := t_nof t + 1 |> <| t_cur := t_nof t |>).
  assert (E0 : get_sdu_space t1 = get_sdu_space t) by (apply (Hsp (t_vec t)); done).
  unfold set_sdu, has_space_sdu. rewrite E0, (get_sdu_space_ok t H), !bind_ok_l.
  set (space := Z.max 0 (t_rem t - 1 - last_slack t)).
  replace (space <? 0) with false by lia.
  destruct (subh_at_ok t (t_nof t) H) as (s0 & _ & Hs0 & Hce0); [lia|].
  destruct (Z.geb_spec space req) as [Hfit|Hnofit].
  2:{ exists (-1), t1, st. split; [done|]. right.
      assert (E2 : t1 = t1 <| t_vec := <[Z.to_nat (t_nof t) := s0]> (t_vec t) |>).
      { rewrite list_insert_id by done. reflexivity. }
      rewrite E2. split; [lia|]. destruct (del_new_ok t s0 H Hn Hce0). split_and!; try done. by left. }
  match goal with |- context [upd_cur _ ?f] => destruct (upd_new t f H Hn) as (s & Hs & Hce & Eupd) end.
  fold t1 in Eupd. rewrite Eupd, Hs in *. injection Hs0 as <-. rewrite bind_ok_l.
  destruct (rd st lcid_ req) as [[n bytes] st'] eqn:Erd.
  set (s1 := s <| sh_lcid := lcid_ |> <| sh_payload := Some (Z.of_nat (length (t_bytes t1))) |>).
  destruct (Z.ltb_spec n 0).
  { eexists (-1), _, st'. split; [reflexivity|]. right. split; [lia|].
    edestruct (del_new_ok t s1 H Hn) as [Hd1 Hd2]; [done|]. split_and!; [exact Hd1|exact Hd2|].
    right. exists n, bytes. split; [lia|done]. }
  destruct (Z.eqb_spec n 0).
  { eexists 0, _, st'. split; [reflexivity|]. right. split; [lia|].
    edestruct (del_new_ok t s1 H Hn) as [Hd1 Hd2]; [done|]. split_and!; [exact Hd1|exact Hd2|].
    right. exists n, bytes. split; [lia|done]. }
  destruct (Hrd st lcid_ req n bytes st') as [Hreq' Hrd']; [done|lia|].
  unfold upd_cur at 1, subh_at at 1. cbn [t_cur t_vec upd]. change (t_cur t1) with (t_nof t).
  replace (t_nof t >=? 0) with true by lia.
  erewrite arr_read_lookup; [|lia|apply list_lookup_insert_eq; lia]. rewrite bind_ok_l.
  rewrite arr_write_in by (rewrite length_insert; lia). rewrite !bind_ok_l, list_insert_insert_eq.
  set (s2 := s1 <| sh_nof_bytes := n |>).
  destruct (Z.gtb_spec n req) as [Hbig|Hok]; [lia|].
  match goal with |- context [update_space_sdu ?x _] => set (t2 := x) end.
  assert (Esp : get_sdu_space t2 = Ok space).
  { transitivity (get_sdu_space t); [|by apply get_sdu_space_ok].
    apply (Hsp (<[Z.to_nat (t_nof t) := s2]> (t_vec t))); [|by rewrite length_insert].
    intros i Hi. by rewrite list_lookup_insert_ne by lia. }
  unfold update_space_sdu, has_space_sdu. rewrite Esp, !bind_ok_l.
  replace (space <? 0) with false by lia. replace (space >=? n) with true by lia.
  change (t_last_sdu t2) with (t_last_sdu t). change (t_rem t2) with (t_rem t).
  assert (Hok2 : subh_tx_ok s2) by (right; cbn; unfold sh_is_sdu; cbn; split_and!; [done|lia|lia|lia]).
  assert (Hcost : cost t s2 = n + 1 + last_slack t) by (unfold cost, sh_is_sdu; cbn; by rewrite Hsd).
  assert (Hpush : tx_ok (tx_push t s2 bytes)).
  { apply tx_push_ok; try done; [lia|]. unfold sdu_bytes, sh_is_sdu; cbn. by rewrite Hsd. }
  assert (Hfit' : n + 1 + last_slack t <= t_rem t) by (unfold space in Hfit; lia).
  assert (Erem : (if t_last_sdu t <? 0 then Ok (u32 (t_rem t - (n + 1)))
      else s ← subh_at t2 (t_last_sdu t);
           Ok (u32 (t_rem t - (n + 1 + (size_header_sdu (sh_nof_bytes s) - 1))))) =
      Ok (t_rem t - cost t s2)).
  { rewrite Hcost. clear Hcost Hpush. unfold last_slack in *. destruct (Z.ltb_spec (t_last_sdu t) 0).
    - f_equal. rewrite u32_id; lia.
    - destruct (tx_last_sdu _ H) as (sl & Hsl' & _); [lia|]. unfold used in Hsl'.
      apply lookup_take_Some in Hsl' as [Hsl' _]. rewrite Hsl' in *.
      unfold subh_at. cbn [t_vec upd]. erewrite arr_read_lookup; [|lia|].
      2:{ cbn. rewrite list_lookup_insert_ne by lia. exact Hsl'. }
      rewrite bind_ok_l. f_equal. rewrite u32_id; lia. }
  rewrite Erem, !bind_ok_l. exists n, (tx_push t s2 bytes), st'. split.
  - unfold tx_push, sh_is_sdu; cbn. rewrite Hsd. by rewrite take_ge by lia.
  - left. exists s2, bytes. split_and!; try done. lia.
Qed.

(** *** The length of a written block *)
Lemma length_bind {A B} (f : A -> list B) (l : list A) :
  Z.of_nat (length (l ≫= f)) = zsum (fun a => Z.of_nat (length (f a))) l.
Proof.
  induction l as [|a l IH]; [done|]. rewrite bind_cons, length_app, zsum_cons. lia.
Qed.

Lemma zsum_zip_snd {A} (f : A -> Z) a (l : list A) :
  zsum (fun '(_, s) => f s) (zip (range a (length l)) l) = zsum f l.
Proof.
  revert a; induction l as [|s l IH]; intros a; [done|]. cbn [length]. rewrite range_S. cbn [zip zip_with].
  by rewrite !zsum_cons, IH.
Qed.

(** A sum in which one position counts differently. *)
Lemma zsum_zip_at {A} (h : A -> bool -> Z) a j (l : list A) :
  zsum (fun '(i, s) => h s (i =? j)) (zip (range a (length l)) l) =
  zsum (fun s => h s false) l +
  (if j <? a then 0 else match l !! Z.to_nat (j - a) with Some s => h s true - h s false | None => 0 end).
Proof.
  revert a; induction l as [|s l IH]; intros a; [cbn; by case_match|].
  cbn [length]. rewrite range_S. cbn [zip zip_with]. rewrite !zsum_cons, IH.
  destruct (Z.eqb_spec a j) as [->|].
  - replace (j <? j + 1) with true by lia. rewrite Z.ltb_irrefl, Z.sub_diag. change (Z.to_nat 0) with 0%nat.
    change ((s :: l) !! 0%nat) with (Some s). cbn beta iota. lia.
  - destruct (Z.ltb_spec j a); [replace (j <? a + 1) with true by lia; cbn beta iota; lia|].
    replace (j <? a + 1) with false by lia.
    replace (Z.to_nat (j - a)) with (S (Z.to_nat (j - (a + 1)))) by lia.
    change ((s :: l) !! S (Z.to_nat (j - (a + 1)))) with (l !! Z.to_nat (j - (a + 1))). cbn beta iota. lia.
Qed.

Lemma length_write_subheader s b :
  0 <= sh_nof_bytes s < 2 ^ 15 -> Z.of_nat (length (write_subheader s b)) = get_header_size s b.
Proof.
  intros Hn. unfold write_subheader, get_header_size, size_header_sdu. cbn [length].
  rewrite u32_id by lia. destruct b, (sh_is_sdu s); cbn [negb andb]; try done.
  destruct (Z.geb_spec (sh_nof_bytes s) 128); [replace (_ <? 128) with false by lia|replace (_ <? 128) with true by lia]; done.
Qed.

Lemma subh_tx_ok_size s : subh_tx_ok s -> 0 <= sh_nof_bytes s < 2 ^ 15 /\
  size_plus_header s = get_header_size s false + sh_nof_bytes s /\
  sh_nof_bytes s = sdu_bytes s + (if sh_is_sdu s then 0 else sh_nof_bytes s) /\
  (sh_is_sdu s = false -> sh_lcid s = CON_RES_ID /\ sh_nof_bytes s = 6).
Proof.
  intros [[H1 H2]|(H1 & H2 & H3)]; unfold size_plus_header, get_header_size, sdu_bytes.
  - unfold sh_is_sdu. rewrite H1. cbn. split_and!; try lia; done.
  - rewrite H1. cbn. split_and!; try lia; done.
Qed.

Lemma used_subhs_eq t : tx_ok t -> used_subhs t = zip (range 0 (length (used t))) (used t).
Proof.
  intros H. unfold used_subhs. fold (used t). pose proof (used_length t H). do 2 f_equal. lia.
Qed.

(** The header's length, and that of its CE payloads, in terms of what is used. *)
Lemma header_sz_eq t multi onetwo : tx_ok t ->
  header_sz t multi onetwo = zsum (fun s => get_header_size s false) (used t) -
    (if multi then 0 else last_slack t) + (if multi then 1 else onetwo).
Proof.
  intros H. unfold header_sz. rewrite (used_subhs_eq t H). f_equal.
  destruct multi; cbn [negb andb].
  { rewrite zsum_zip_snd. lia. }
  rewrite (zsum_zip_at get_header_size 0). unfold last_slack.
  destruct (Z.ltb_spec (t_last_sdu t) 0); [lia|]. rewrite Z.sub_0_r.
  destruct (tx_last_sdu _ H) as (s & Hs & Hsd); [lia|]. rewrite Hs.
  unfold used in Hs. apply lookup_take_Some in Hs as [-> _].
  unfold get_header_size. rewrite Hsd. cbn [negb]. lia.
Qed.

Lemma ce_payload_sz_eq t : tx_ok t ->
  ce_payload_sz t = zsum (fun s => if sh_is_sdu s then 0 else sh_nof_bytes s) (used t).
Proof.
  intros H. unfold ce_payload_sz. rewrite (used_subhs_eq t H).
  exact (zsum_zip_snd (fun s => if sh_is_sdu s then 0 else sh_nof_bytes s) 0 (used t)).
Qed.

Lemma zsum_add {A} (f g : A -> Z) l : zsum (fun a => f a + g a) l = zsum f l + zsum g l.
Proof. induction l as [|a l IH]; [done|]. rewrite !zsum_cons, IH. lia. Qed.

Lemma used_total t : tx_ok t ->
  zsum size_plus_header (used t) =
    zsum (fun s => get_header_size s false) (used t) + zsum sdu_bytes (used t) + ce_payload_sz t.
Proof.
  intros H. rewrite (ce_payload_sz_eq t H), <- !zsum_add. apply zsum_ext. intros s Hs.
  destruct (subh_tx_ok_size s (tx_subhs _ H s Hs)) as (_ & -> & E & _). lia.
Qed.

Lemma length_padding t onetwo : 0 <= onetwo ->
  Z.of_nat (length (concat (replicate (Z.to_nat onetwo)
    (write_subheader (padding_subh 0) (negb (t_len t >? onetwo)))))) = onetwo.
Proof.
  intros Ho. rewrite <- (Z2Nat.id onetwo) at 3 by done. generalize (Z.to_nat onetwo) as n.
  generalize (negb (t_len t >? onetwo)) as b. clear. intros b n. induction n as [|n IH]; [done|].
  cbn [replicate concat]. rewrite length_app, Nat2Z.inj_add, IH, length_write_subheader by (cbn; lia).
  unfold get_header_size, sh_is_sdu; cbn. destruct b; cbn; lia.
Qed.

Lemma used_in_vec t s : s ∈ used t -> s ∈ t_vec t.
Proof.
  unfold used. intros [i Hi]%list_elem_of_lookup. apply lookup_take_Some in Hi as [Hi _].
  apply list_elem_of_lookup. eauto.
Qed.

Lemma used_subhs_in t p : tx_ok t -> p ∈ used_subhs t ->
  p.2 ∈ used t /\ used t !! Z.to_nat p.1 = Some p.2 /\ 0 <= p.1.
Proof.
  intros H Hp. destruct p as [i s]. rewrite (used_subhs_eq t H) in Hp. apply list_elem_of_lookup in Hp as [k Hk].
  apply lookup_zip_Some in Hk as [Hk1 Hk2]. unfold range in Hk1.
  apply list_lookup_fmap_Some in Hk1 as (k' & -> & Hk1). apply lookup_seq in Hk1 as [-> _].
  cbn [fst snd]. rewrite Z.add_0_l, Nat2Z.id. split_and!; [apply list_elem_of_lookup; eauto|done|lia].
Qed.

Lemma length_headers t multi onetwo np : tx_ok t -> 0 <= onetwo -> (multi = true -> onetwo = 0) ->
  Z.of_nat (length (write_headers t (t_last_sdu t <? 0) multi onetwo np)) =
    header_sz t multi onetwo + ce_payload_sz t.
Proof.
  intros H Ho Hm. unfold write_headers, header_sz, ce_payload_sz. set (l := used_subhs t).
  set (f1 := fun '(i, s) => if sh_is_sdu s then [] else
               write_subheader s ((t_last_sdu t <? 0) && negb multi && (i =? t_nof t - 1))).
  set (f2 := fun '(i, s) => if sh_is_sdu s then write_subheader s (negb multi && (i =? t_last_sdu t)) else []).
  set (f3 := fun '(i, s) => if sh_is_sdu s then [] else take (Z.to_nat (sizeof_ce (sh_lcid s) (t_is_ul t))) (sh_ce s)).
  set (g1 := fun '(i, s) => get_header_size s (negb multi && (i =? t_last_sdu t))).
  set (g2 := fun '(i, s) => if sh_is_sdu s then 0 else sh_nof_bytes s : Z).
  assert (E2 : Z.of_nat (length (if t_last_sdu t <? 0 then [] else l ≫= f2)) =
               zsum (fun p => Z.of_nat (length (f2 p))) l).
  { destruct (Z.ltb_spec (t_last_sdu t) 0); [|apply length_bind].
    symmetry. rewrite (zsum_ext _ (fun _ => 0)); [clear; induction l as [|a l' IH]; [done|]; rewrite zsum_cons, <- IH; lia|].
    intros [i s] Hp. destruct (used_subhs_in t _ H Hp) as (_ & Hlk & Hi). cbn in Hlk, Hi.
    cbn. destruct (sh_is_sdu s) eqn:Es; [|done]. pose proof (tx_sdus _ H _ _ Hlk Es). lia. }
  assert (E : zsum (fun p => Z.of_nat (length (f1 p)) + Z.of_nat (length (f2 p)) + Z.of_nat (length (f3 p))) l =
              zsum (fun p => g1 p + g2 p) l).
  { apply zsum_ext. intros [i s] Hp. destruct (used_subhs_in t _ H Hp) as (Hu & _ & _). cbn in Hu.
    destruct (subh_tx_ok_size s (tx_subhs _ H s Hu)) as (Hn & _ & _ & Hce). cbn [f1 f2 f3 g1 g2].
    destruct (sh_is_sdu s) eqn:Es; cbn [length].
    - rewrite length_write_subheader by done. lia.
    - rewrite length_write_subheader by done. destruct (Hce eq_refl) as [Hlc Hnb].
      rewrite Hlc, Hnb, (tx_dl _ H), length_take. destruct (tx_vec _ H) as [_ Hvc].
      rewrite Hvc by by apply used_in_vec.
      unfold get_header_size. rewrite Es. change (sizeof_ce CON_RES_ID false) with 6.
      change (Z.to_nat 6 `min` 64)%nat with 6%nat. repeat case_match; lia. }
  rewrite !zsum_add in E. rewrite !length_app, !Nat2Z.inj_add, length_padding, !length_bind by done.
  rewrite E2. destruct multi.
  - rewrite (Hm eq_refl). change (length (write_subheader (padding_subh np) true)) with 1%nat. lia.
  - cbn [length]. lia.
Qed.

(** A block being composed is always written, and has exactly the announced
    length: the headers, the SDU bytes, the padding. *)
Lemma write_packet_form t :
  tx_ok t ->
  exists multi onetwo np, write_packet t = Ok (Some (write_headers t (t_last_sdu t <? 0) multi onetwo np ++
      t_bytes t ++ replicate (Z.to_nat np) 0)) /\
    header_sz t multi onetwo + ce_payload_sz t + Z.of_nat (length (t_bytes t)) + np = t_len t /\
    0 <= onetwo <= 2 /\ 0 <= np <= 1002 /\
    (multi = true -> onetwo = 0) /\ (multi = false -> np = 0 /\ t_rem t <= 2).
Proof.
  intros H. destruct (tx_len _ H) as [Hlen Hrem]. pose proof (tx_rem _ H) as Hr. pose proof (last_slack_range t) as Hsl.
  destruct (tx_room t H) as [Hroom Hbroom]. rewrite (used_total t H) in Hr, Hroom. rewrite <- (tx_bytes _ H) in Hr, Hroom.
  unfold write_packet.
  assert (Hl : exists o, (if t_last_sdu t <? 0 then Ok None else s ← subh_at t (t_last_sdu t); Ok (Some s)) = Ok o /\
      match o with Some s => get_header_size s false - 1 | None => 0 end = last_slack t).
  { unfold last_slack. destruct (Z.ltb_spec (t_last_sdu t) 0); [by exists None|].
    destruct (tx_last_sdu _ H) as (s & Hs & Hsd); [lia|]. unfold used in Hs.
    apply lookup_take_Some in Hs as [Hs _]. exists (Some s). rewrite Hs. unfold subh_at.
    erewrite arr_read_lookup; [|lia|exact Hs]. rewrite bind_ok_l. split; [done|].
    unfold get_header_size. by rewrite Hsd. }
  destruct Hl as (o & -> & Ho). rewrite bind_ok_l. unfold padding_of. rewrite Ho.
  assert (Hhd : 0 <= zsum (fun s => get_header_size s false) (used t)).
  { apply zsum_nonneg. intros s _. pose proof (get_header_size_range s false). lia. }
  assert (Hce : 0 <= ce_payload_sz t).
  { rewrite (ce_payload_sz_eq t H). apply zsum_nonneg. intros s Hs.
    destruct (subh_tx_ok_size s (tx_subhs _ H s Hs)) as ([? _] & _). cbn beta.
    destruct (sh_is_sdu s); lia. }
  assert (Htail : 10000 <= get_tailroom t).
  { unfold get_tailroom, SRSLTE_MAX_BUFFER_SIZE_BYTES, SRSLTE_BUFFER_HEADER_OFFSET. dlia. }
  assert (Hfin : forall multi onetwo np, 0 <= onetwo <= 2 -> (multi = true -> onetwo = 0) -> 0 <= np <= 1002 ->
    header_sz t multi onetwo + ce_payload_sz t + Z.of_nat (length (t_bytes t)) + np = t_len t ->
    (if get_headroom t <? header_sz t multi onetwo + ce_payload_sz t then Ok None
     else if get_tailroom t <? np then Ok None
     else if header_sz t multi onetwo + ce_payload_sz t + Z.of_nat (length (t_bytes t)) + np =? t_len t then
       Ok (Some (write_headers t (t_last_sdu t <? 0) multi onetwo np ++ t_bytes t ++ replicate (Z.to_nat np) 0))
     else Ok None) =
    Ok (Some (write_headers t (t_last_sdu t <? 0) multi onetwo np ++ t_bytes t ++ replicate (Z.to_nat np) 0))).
  { intros multi onetwo np Hot Hm Hnp Htot. unfold get_headroom, SRSLTE_BUFFER_HEADER_OFFSET.
    replace (1020 <? _) with false by lia. replace (get_tailroom t <? np) with false by lia.
    by rewrite Htot, Z.eqb_refl. }
  pose proof (header_sz_eq t) as Hhs.
  assert (Hgo : forall multi onetwo np, 0 <= onetwo <= 2 -> (multi = true -> onetwo = 0) -> 0 <= np <= 1002 ->
    (multi = false -> np = 0 /\ t_rem t <= 2) ->
    header_sz t multi onetwo + ce_payload_sz t + Z.of_nat (length (t_bytes t)) + np = t_len t ->
    exists m o p,
      (let total_header_size := header_sz t multi onetwo + ce_payload_sz t in
       if get_headroom t <? total_header_size then Ok None
       else if get_tailroom t <? np then Ok None
       else if total_header_size + Z.of_nat (length (t_bytes t)) + np =? t_len t then
         Ok (Some (write_headers t (t_last_sdu t <? 0) multi onetwo np ++ t_bytes t ++ replicate (Z.to_nat np) 0))
       else Ok None) = Ok (Some (write_headers t (t_last_sdu t <? 0) m o p ++ t_bytes t ++ replicate (Z.to_nat p) 0)) /\
      header_sz t m o + ce_payload_sz t + Z.of_nat (length (t_bytes t)) + p = t_len t /\
      0 <= o <= 2 /\ 0 <= p <= 1002 /\ (m = true -> o = 0) /\ (m = false -> p = 0 /\ t_rem t <= 2)).
  { intros multi onetwo np H1 H2 H3 H4 H5. exists multi, onetwo, np. split; [by apply Hfin|]. exact (conj H5 (conj H1 (conj H3 (conj H2 H4)))). }
  destruct (Z.gtb_spec (t_rem t) 2).
  - rewrite u32_id by lia. apply Hgo; try done; try lia; try (intros _; lia); rewrite Hhs by done; lia.
  - destruct (Z.gtb_spec (t_rem t) 0).
    + apply Hgo; try done; try lia; try (intros _; lia); rewrite Hhs by done; lia.
    + apply Hgo; try done; try lia; try (intros _; lia); rewrite Hhs by done; lia.
Qed.

