(* ===== verification/Rar.v ===== *)
(** * The random access response

    Composition of a RAR by the MAC ([mac::assemble_rar] and
    [srslte_nb_dci_rar_pack] of [sonica_enb/stack/mac/mac.cc]) with the bundled
    [rar_pdu] ([third_party/srslte/src/mac/pdu.cc]) and bit packing
    ([src/phy/utils/bit.c]), and how a receiver built on the same library reads
    it back. *)
From S2P Require Import Prelude RaNbiot SchedTypes MacPdu.

(** ** Bits *)

(** [srslte_bit_unpack]: the low [n] bits of [value], most significant first. *)
Fixpoint srslte_bit_unpack (value : Z) (n : nat) : list Z :=
  match n with O => [] | S n' => Z.land (Z.shiftr value (Z.of_nat n')) 1 :: srslte_bit_unpack value n' end.

(** [srslte_bit_pack] on all the bits given. *)
Fixpoint srslte_bit_pack (bits : list Z) : Z :=
  match bits with
  | [] => 0
  | b :: l => Z.lor (Z.shiftl b (Z.of_nat (length l))) (srslte_bit_pack l)
  end.

(** ** The grant field *)

(** [mac::srslte_nb_dci_rar_pack] into a zeroed buffer: the bits copied into the
    subheader. *)
Definition srslte_nb_dci_rar_pack (rar : rar_grant_t) : list Z :=
  let bits := srslte_bit_unpack (g_sc_spacing rar) 1 ++ srslte_bit_unpack (g_i_sc rar) 6 ++
              srslte_bit_unpack (g_i_delay rar) 2 ++ srslte_bit_unpack (g_n_rep rar) 3 ++
              srslte_bit_unpack (g_i_mcs rar) 3 in
  bits ++ replicate 5 0.

(** [srslte_nbiot_dci_rar_grant_unpack] *)
Definition srslte_nbiot_dci_rar_grant_unpack (grant : list Z) : rar_grant_t :=
  mk_rar_grant (srslte_bit_pack (take 1 grant)) (srslte_bit_pack (take 6 (drop 1 grant)))
    (srslte_bit_pack (take 2 (drop 7 grant))) (srslte_bit_pack (take 3 (drop 9 grant)))
    (srslte_bit_pack (take 3 (drop 12 grant))).

(** ** [rar_subh] *)
Record rar_subh := mk_rar_subh {
  rs_preamble : Z;
  rs_ta : Z;
  rs_temp_rnti : Z;
  rs_grant : list Z;      (* uint8_t grant[20], one bit each *)
  rs_rapid : bool         (* type == RAPID *)
}.
#[export] Instance eta_rar_subh : Eta rar_subh := {| eta := fun r =>
  mk_rar_subh (rs_preamble r) (rs_ta r) (rs_temp_rnti r) (rs_grant r) (rs_rapid r) |}.

Definition rar_write_subheader (s : rar_subh) (is_last : bool) : list Z :=
  [u8 (Z.lor (Z.lor (if is_last then 0 else 128) 64) (Z.land (rs_preamble s) 63))].

Definition nth_bit (g : list Z) (i : nat) : Z := default 0 (g !! i).

Definition rar_write_payload (s : rar_subh) : list Z :=
  let g := rs_grant s in
  [u8 (Z.shiftr (Z.land (rs_ta s) 2032) 4);
   u8 (Z.lor (Z.lor (Z.lor (Z.lor (u8 (Z.shiftl (Z.land (rs_ta s) 15) 4)) (Z.shiftl (nth_bit g 0) 3))
        (Z.shiftl (nth_bit g 1) 2)) (Z.shiftl (nth_bit g 2) 1)) (nth_bit g 3));
   u8 (srslte_bit_pack (take 8 (drop 4 g)));
   u8 (srslte_bit_pack (take 8 (drop 12 g)));
   u8 (Z.shiftr (Z.land (rs_temp_rnti s) 65280) 8);
   u8 (Z.land (rs_temp_rnti s) 255)].

(** [rar_subh::read_subheader]; a backoff indicator is kept in the parent. *)
Definition rar_read_subheader (buf : list Z) (pos : Z) : res (rar_subh * bool * Z) :=
  b ← arr_read buf pos;
  let e_bit := negb (Z.land b 128 =? 0) in
  if negb (Z.land b 64 =? 0)
  then Ok (mk_rar_subh (Z.land b 63) 0 0 (replicate 20 0) true, e_bit, pos + 1)
  else Ok (mk_rar_subh 0 0 0 (replicate 20 0) false, e_bit, pos + 1).

Definition rar_read_payload (buf : list Z) (s : rar_subh) (pos : Z) : res (rar_subh * Z) :=
  if rs_rapid s then
    b0 ← arr_read buf pos; b1 ← arr_read buf (pos + 1); b2 ← arr_read buf (pos + 2);
    b3 ← arr_read buf (pos + 3); b4 ← arr_read buf (pos + 4); b5 ← arr_read buf (pos + 5);
    let bit m := if Z.land b1 m =? 0 then 0 else 1 in
    Ok (s <| rs_ta := Z.lor (Z.shiftl (Z.land b0 127) 4) (Z.shiftr (Z.land b1 240) 4) |>
          <| rs_grant := [bit 8; bit 4; bit 2; bit 1] ++ srslte_bit_unpack b2 8 ++ srslte_bit_unpack b3 8 |>
          <| rs_temp_rnti := Z.lor (u16 (Z.shiftl b4 8)) b5 |>, pos + 6)
  else Ok (s, pos).

Fixpoint rar_read_payloads (buf : list Z) (pos : Z) (l : list rar_subh) : res (list rar_subh) :=
  match l with
  | [] => Ok []
  | s :: l' => '(s', pos') ← rar_read_payload buf s pos; r ← rar_read_payloads buf pos' l'; Ok (s' :: r)
  end.

(** [pdu<rar_subh>::parse_packet], with the default of sixteen subheaders. *)
Definition RAR_MAX_SUBH : Z := 16.

Definition rar_parse_packet (pdu_len : Z) (buf : list Z) : res (list rar_subh) :=
  '(l, pos) ← parse_headers rar_read_subheader (parse_fuel RAR_MAX_SUBH) RAR_MAX_SUBH pdu_len buf 0 [] false;
  rar_read_payloads buf pos l.

(** [rar_pdu::write_packet] without backoff indicator into a buffer with [rem]
    bytes: writing more bytes than that makes the length of the padding wrap
    around. *)
Definition rar_write_packet (l : list rar_subh) (rem_len : Z) : res (list Z) :=
  let n := Z.of_nat (length l) in
  let bytes := (zip (range 0 (length l)) l ≫= fun '(i, s) => rar_write_subheader s (i =? n - 1)) ++
               (l ≫= rar_write_payload) in
  let pad := rem_len - Z.of_nat (length bytes) in
  ub_unless (pad >=? 0) OobWrite (Ok (bytes ++ replicate (Z.to_nat pad) 0)).

(** ** [mac::assemble_rar] *)
Definition rar_payload_len : Z := 128.

Definition rar_subh_of (g : dl_sched_rar_grant_t) : rar_subh :=
  mk_rar_subh (preamble_idx (rg_data g)) (ta_cmd (rg_data g)) (u16 (temp_crnti (rg_data g)))
    (srslte_nb_dci_rar_pack (rg_grant g)) false.

(** [pdu->new_subh()] succeeds while fewer than fifteen subheaders are in use
    and the block is not empty. *)
Definition assemble_rar (grants : list dl_sched_rar_grant_t) (pdu_len : Z) : res (option (list Z)) :=
  if pdu_len <? rar_payload_len then
    let n := if pdu_len >? 0 then Z.to_nat (RAR_MAX_SUBH - 1) else 0%nat in
    bytes ← rar_write_packet (rar_subh_of <$> take n grants) pdu_len; Ok (Some bytes)
  else Ok None.

(** *** Facts on bits *)
Lemma land_one v : Z.land v 1 = v mod 2.
Proof. change 1 with (Z.ones 1). by rewrite Z.land_ones. Qed.

Lemma length_unpack v n : length (srslte_bit_unpack v n) = n.
Proof. induction n as [|n IH]; [done|]. cbn. by rewrite IH. Qed.

Lemma unpack_bits v n : Forall (fun b => b = 0 \/ b = 1) (srslte_bit_unpack v n).
Proof.
  induction n as [|n IH]; [constructor|]. cbn. constructor; [|done]. rewrite land_one. dlia.
Qed.

Lemma pack_unpack v n : srslte_bit_pack (srslte_bit_unpack v n) = v mod 2 ^ Z.of_nat n.
Proof.
  induction n as [|n IH]; [cbn; by rewrite Z.mod_1_r|].
  cbn [srslte_bit_unpack srslte_bit_pack]. rewrite IH, length_unpack, land_one, Z.shiftr_div_pow2 by lia.
  assert (0 < 2 ^ Z.of_nat n) by (apply Z.pow_pos_nonneg; lia).
  rewrite lor_shift by (lia || apply Z.mod_pos_bound; lia).
  rewrite Nat2Z.inj_succ, Z.pow_succ_r, (Z.mul_comm 2), Z.rem_mul_r by lia. lia.
Qed.

Lemma unpack_low b v n : srslte_bit_unpack (b * 2 ^ Z.of_nat n + v) n = srslte_bit_unpack v n.
Proof.
  assert (Hgen : forall k, (k <= n)%nat -> srslte_bit_unpack (b * 2 ^ Z.of_nat n + v) k = srslte_bit_unpack v k);
    [|by apply Hgen].
  intros k; induction k as [|k IH]; intros Hk; [done|]. cbn [srslte_bit_unpack].
  rewrite IH by lia. f_equal. rewrite !land_one, !Z.shiftr_div_pow2 by lia.
  replace (Z.of_nat n) with (Z.of_nat (n - S k) + 1 + Z.of_nat k) by lia.
  rewrite !Z.pow_add_r, !Z.mul_assoc by lia.
  assert (0 < 2 ^ Z.of_nat k) by (apply Z.pow_pos_nonneg; lia).
  rewrite Z.add_comm, Z.div_add by lia. change (2 ^ 1) with 2. rewrite Z_mod_plus_full. done.
Qed.

Lemma unpack_pack l : Forall (fun b => b = 0 \/ b = 1) l ->
  srslte_bit_unpack (srslte_bit_pack l) (length l) = l /\ 0 <= srslte_bit_pack l < 2 ^ Z.of_nat (length l).
Proof.
  induction 1 as [|b l Hb Hl [IH1 IH2]]; [done|].
  cbn [srslte_bit_pack length srslte_bit_unpack]. rewrite lor_shift by lia.
  assert (0 < 2 ^ Z.of_nat (length l)) by (apply Z.pow_pos_nonneg; lia).
  split; [|rewrite Nat2Z.inj_succ, Z.pow_succ_r; nia].
  rewrite unpack_low, IH1. f_equal. rewrite land_one, Z.shiftr_div_pow2, Z.div_add_l, Z.div_small by lia.
  dlia.
Qed.

Lemma unpack_pack_n n l : Forall (fun b => b = 0 \/ b = 1) l -> length l = n ->
  srslte_bit_unpack (srslte_bit_pack l) n = l /\ 0 <= srslte_bit_pack l < 2 ^ Z.of_nat n.
Proof. intros H <-. by apply unpack_pack. Qed.

(** The second byte of a payload: four bits of the timing advance and four of
    the grant. *)
Lemma rar_second_byte a b0 b1 b2 b3 : 0 <= a < 16 ->
  Forall (fun b => b = 0 \/ b = 1) [b0; b1; b2; b3] ->
  let v := u8 (Z.lor (Z.lor (Z.lor (Z.lor (u8 (Z.shiftl a 4)) (Z.shiftl b0 3)) (Z.shiftl b1 2)) (Z.shiftl b2 1)) b3) in
  let bit m := if Z.land v m =? 0 then 0 else 1 in
  Z.shiftr (Z.land v 240) 4 = a /\ [bit 8; bit 4; bit 2; bit 1] = [b0; b1; b2; b3].
Proof.
  intros Ha Hb. assert (In a (range 0 16)) as Hin by (apply list_elem_of_In, elem_of_range; lia).
  rewrite !Forall_cons in Hb. destruct Hb as (H0 & H1 & H2 & H3 & _).
  unfold range in Hin. cbn in Hin.
  destruct H0 as [->| ->], H1 as [->| ->], H2 as [->| ->], H3 as [->| ->];
  repeat (destruct Hin as [<-|Hin]; [vm_compute; by split|]); destruct Hin.
Qed.

(** *** Reading back one payload *)
Record rar_subh_ok (s : rar_subh) : Prop := mk_rar_subh_ok {
  rso_pre : 0 <= rs_preamble s < 64;
  rso_ta : 0 <= rs_ta s < 2048;
  rso_rnti : 0 <= rs_temp_rnti s < 65536;
  rso_grant : length (rs_grant s) = 20%nat /\ Forall (fun b => b = 0 \/ b = 1) (rs_grant s)
}.

Definition rapid_of (s : rar_subh) : rar_subh := mk_rar_subh (rs_preamble s) 0 0 (replicate 20 0) true.

Lemma read_at {A} (pre l post : list A) k a : 0 <= k -> l !! Z.to_nat k = Some a ->
  arr_read (pre ++ l ++ post) (Z.of_nat (length pre) + k) = Ok a.
Proof.
  intros Hk H. apply arr_read_lookup; [lia|].
  rewrite lookup_app_r by lia. replace (Z.to_nat (_ + k) - length pre)%nat with (Z.to_nat k) by lia.
  by apply lookup_app_l_Some.
Qed.

Lemma rar_payload_back s pre post : rar_subh_ok s ->
  rar_read_payload (pre ++ rar_write_payload s ++ post) (rapid_of s) (Z.of_nat (length pre)) =
  Ok (s <| rs_rapid := true |>, Z.of_nat (length pre) + 6).
Proof.
  intros [Hp Ht Hr [Hgl Hgb]]. unfold rar_read_payload. cbn [rs_rapid rapid_of].
  pose proof (read_at pre (rar_write_payload s) post) as Hrd.
  pose proof (Hrd 0 _ ltac:(lia) eq_refl) as E0. rewrite Z.add_0_r in E0. rewrite E0, bind_ok_l. clear E0.
  rewrite (Hrd 1 _ ltac:(lia) eq_refl), bind_ok_l, (Hrd 2 _ ltac:(lia) eq_refl), bind_ok_l.
  rewrite (Hrd 3 _ ltac:(lia) eq_refl), bind_ok_l, (Hrd 4 _ ltac:(lia) eq_refl), bind_ok_l.
  rewrite (Hrd 5 _ ltac:(lia) eq_refl), bind_ok_l. clear Hrd.
  set (g := rs_grant s) in *.
  assert (Eg : g = [nth_bit g 0; nth_bit g 1; nth_bit g 2; nth_bit g 3] ++ take 8 (drop 4 g) ++ take 8 (drop 12 g)).
  { clearbody g. do 20 (destruct g as [|? g]; [done|]). by destruct g. }
  assert (Hb : forall i n, Forall (fun b => b = 0 \/ b = 1) (take n (drop i g))).
  { intros. by apply Forall_take, Forall_drop. }
  assert (Hb4 : Forall (fun b => b = 0 \/ b = 1) [nth_bit g 0; nth_bit g 1; nth_bit g 2; nth_bit g 3]).
  { rewrite Eg, Forall_app in Hgb. apply Hgb. }
  destruct (unpack_pack_n 8 (take 8 (drop 4 g)) (Hb _ _)) as [E2 R2].
  { rewrite length_take, length_drop. lia. }
  destruct (unpack_pack_n 8 (take 8 (drop 12 g)) (Hb _ _)) as [E3 R3].
  { rewrite length_take, length_drop. lia. }
  change (2 ^ Z.of_nat 8) with 256 in R2, R3.
  assert (Elow : Z.land (rs_ta s) 15 = rs_ta s mod 16).
  { change 15 with (Z.ones 4). by rewrite Z.land_ones. }
  destruct (rar_second_byte (Z.land (rs_ta s) 15) (nth_bit g 0) (nth_bit g 1) (nth_bit g 2) (nth_bit g 3))
    as [Ea Eb]; [rewrite Elow; dlia|done|].
  cbv zeta in Ea, Eb. rewrite Ea, Eb, !(u8_id (srslte_bit_pack _)), E2, E3, <- Eg by lia.
  assert (Et : Z.shiftr (Z.land (rs_ta s) 2032) 4 = rs_ta s / 16).
  { change 2032 with (Z.shiftl (Z.ones 7) 4).
    rewrite Z.shiftr_land, Z.shiftr_shiftl_l, Z.sub_diag, Z.shiftl_0_r, Z.land_ones, Z.shiftr_div_pow2 by lia.
    apply Z.mod_small. dlia. }
  assert (Eh : Z.shiftr (Z.land (rs_temp_rnti s) 65280) 8 = rs_temp_rnti s / 256).
  { change 65280 with (Z.shiftl (Z.ones 8) 8).
    rewrite Z.shiftr_land, Z.shiftr_shiftl_l, Z.sub_diag, Z.shiftl_0_r, Z.land_ones, Z.shiftr_div_pow2 by lia.
    apply Z.mod_small. dlia. }
  assert (El : Z.land (rs_temp_rnti s) 255 = rs_temp_rnti s mod 256).
  { change 255 with (Z.ones 8). by rewrite Z.land_ones. }
  rewrite Et, Eh, El, Elow, !u8_id by dlia.
  change 127 with (Z.ones 7). rewrite Z.land_ones, (Z.mod_small (rs_ta s / 16)) by (lia || change (2 ^ 7) with 128; dlia).
  rewrite lor_shift by dlia.
  assert (Er : Z.lor (u16 (Z.shiftl (rs_temp_rnti s / 256) 8)) (rs_temp_rnti s mod 256) = rs_temp_rnti s).
  { rewrite u16_id; [|rewrite Z.shiftl_mul_pow2 by lia; change (2 ^ 8) with 256; change (2 ^ 16) with 65536; dlia]. rewrite lor_shift by dlia. dlia. }
  rewrite Er. destruct s as [p ta tr gr ra]. cbn [rs_ta] in *.
  replace (ta / 16 * 2 ^ 4 + ta mod 16) with ta by dlia. done.
Qed.

Lemma length_rar_payload s : length (rar_write_payload s) = 6%nat.
Proof. done. Qed.

Lemma rar_payloads_back l pre post : Forall rar_subh_ok l ->
  rar_read_payloads (pre ++ (l ≫= rar_write_payload) ++ post) (Z.of_nat (length pre)) (rapid_of <$> l) =
  Ok ((fun s => s <| rs_rapid := true |>) <$> l).
Proof.
  intros H; revert pre; induction H as [|s l Hs Hl IH]; intros pre; [done|].
  rewrite bind_cons, fmap_cons. cbn [rar_read_payloads]. rewrite <- app_assoc, rar_payload_back by done.
  rewrite bind_ok_l. specialize (IH (pre ++ rar_write_payload s)).
  rewrite <- app_assoc, length_app, length_rar_payload, Nat2Z.inj_add in IH.
  change (Z.of_nat 6) with 6 in IH. rewrite IH. done.
Qed.

(** *** Reading back the subheaders *)
Fixpoint rar_headers (l : list rar_subh) : list Z :=
  match l with
  | [] => []
  | s :: l' => rar_write_subheader s (match l' with [] => true | _ => false end) ++ rar_headers l'
  end.

Lemma rar_headers_eq a l :
  (zip (range a (length l)) l ≫= fun '(i, s) => rar_write_subheader s (i =? a + Z.of_nat (length l) - 1)) =
  rar_headers l.
Proof.
  revert a; induction l as [|s l IH]; intros a; [done|].
  cbn [length]. rewrite range_S. cbn [zip zip_with]. rewrite bind_cons. cbn [rar_headers].
  rewrite <- (IH (a + 1)). f_equal.
  - f_equal. destruct l; [apply Z.eqb_eq|apply Z.eqb_neq]; cbn [length]; lia.
  - replace (a + Z.of_nat (S (length l)) - 1) with (a + 1 + Z.of_nat (length l) - 1) by lia. done.
Qed.

Lemma length_rar_headers l : length (rar_headers l) = length l.
Proof. induction l as [|s l IH]; [done|]. cbn. by rewrite IH. Qed.

(** One subheader byte. *)
Lemma rar_header_byte p (last : bool) : 0 <= p < 64 ->
  let b := u8 (Z.lor (Z.lor (if last then 0 else 128) 64) (Z.land p 63)) in
  (Z.land b 128 =? 0) = last /\ (Z.land b 64 =? 0) = false /\ Z.land b 63 = p.
Proof.
  intros Hp. assert (In p (range 0 64)) as Hin by (apply list_elem_of_In, elem_of_range; lia).
  unfold range in Hin. cbn in Hin. destruct last;
  repeat (destruct Hin as [<-|Hin]; [vm_compute; by split_and!|]); destruct Hin.
Qed.

Lemma rar_subheader_back s (is_last : bool) pre rest : rar_subh_ok s ->
  rar_read_subheader (pre ++ rar_write_subheader s is_last ++ rest) (Z.of_nat (length pre)) =
  Ok (rapid_of s, negb is_last, Z.of_nat (length pre) + 1).
Proof.
  intros Hs. unfold rar_read_subheader.
  pose proof (read_at pre (rar_write_subheader s is_last) rest 0 _ ltac:(lia) eq_refl) as E.
  rewrite Z.add_0_r in E. rewrite E, bind_ok_l. clear E.
  destruct (rar_header_byte (rs_preamble s) is_last (rso_pre _ Hs)) as (E1 & E2 & E3).
  cbv zeta in E1, E2, E3. rewrite E1, E2, E3. done.
Qed.

Lemma rar_headers_back fuel pdu_len pre s l rest ret acc :
  Forall rar_subh_ok (s :: l) -> (length l < fuel)%nat ->
  Z.of_nat (length acc) + Z.of_nat (length (s :: l)) < RAR_MAX_SUBH ->
  Z.of_nat (length pre) + Z.of_nat (length (s :: l)) < pdu_len < 2 ^ 31 ->
  parse_headers rar_read_subheader fuel RAR_MAX_SUBH pdu_len (pre ++ rar_headers (s :: l) ++ rest)
    (Z.of_nat (length pre)) acc ret =
  Ok (acc ++ (rapid_of <$> s :: l), Z.of_nat (length pre) + Z.of_nat (length (s :: l))).
Proof.
  revert pre s acc ret fuel; induction l as [|s' l IH]; intros pre s acc ret fuel Hok Hfuel Hmax Hlen;
    (destruct fuel as [|fuel]; [lia|]); cbn [length] in *; apply Forall_cons in Hok as [Hs Hok].
  - cbn [parse_headers rar_headers]. rewrite app_nil_r, rar_subheader_back by done.
    replace (_ <? RAR_MAX_SUBH) with true by lia. done.
  - change (rar_headers (s :: s' :: l)) with (rar_write_subheader s false ++ rar_headers (s' :: l)).
    specialize (IH (pre ++ rar_write_subheader s false) s' (acc ++ [rapid_of s]) true fuel Hok ltac:(lia)).
    rewrite !length_app, <- !app_assoc, !Nat2Z.inj_add in IH.
    change (Z.of_nat (length (rar_write_subheader s false))) with 1 in IH. cbn [length] in IH.
    specialize (IH ltac:(lia) ltac:(lia)).
    cbn [parse_headers]. rewrite <- app_assoc, rar_subheader_back by done.
    replace (_ <? RAR_MAX_SUBH) with true by lia. rewrite !bind_ok_l, i32_id by lia.
    cbn [negb andb]. replace (_ >=? pdu_len) with false by lia. cbn [length]. rewrite length_app. cbn [length].
    destruct (Z.ltb_spec (Z.of_nat (length acc + 1) + 1) RAR_MAX_SUBH); [|lia]. replace (pdu_len >? _) with true by lia. cbn [andb].
    rewrite IH. f_equal. apply pair_eq. split; [done|lia].
Qed.

(** *** The subheaders of a RAR *)
Record rar_wf (g : dl_sched_rar_grant_t) : Prop := mk_rar_wf {
  rw_pre : 0 <= preamble_idx (rg_data g) < 64;
  rw_ta : 0 <= ta_cmd (rg_data g) < 2048;
  rw_rnti : 0 <= temp_crnti (rg_data g) < 65536;
  rw_spacing : 0 <= g_sc_spacing (rg_grant g) < 2;
  rw_sc : 0 <= g_i_sc (rg_grant g) < 64;
  rw_delay : 0 <= g_i_delay (rg_grant g) < 4;
  rw_rep : 0 <= g_n_rep (rg_grant g) < 8;
  rw_mcs : 0 <= g_i_mcs (rg_grant g) < 8
}.

Lemma rar_subh_of_ok g : rar_wf g -> rar_subh_ok (rar_subh_of g).
Proof.
  intros []. split; cbn [rs_preamble rs_ta rs_temp_rnti rs_grant rar_subh_of]; try done.
  - apply u16_range.
  - unfold srslte_nb_dci_rar_pack. split.
    + by rewrite !length_app, !length_unpack.
    + rewrite !Forall_app. split_and!; try apply unpack_bits. repeat constructor; by left.
Qed.

(** The grant's fields survive the way through single bits. *)
Lemma rar_grant_back g : rar_wf g ->
  srslte_nbiot_dci_rar_grant_unpack (srslte_nb_dci_rar_pack (rg_grant g)) = rg_grant g.
Proof.
  intros []. unfold srslte_nb_dci_rar_pack, srslte_nbiot_dci_rar_grant_unpack.
  change (take 1 _) with (srslte_bit_unpack (g_sc_spacing (rg_grant g)) 1).
  change (take 6 _) with (srslte_bit_unpack (g_i_sc (rg_grant g)) 6).
  change (take 2 _) with (srslte_bit_unpack (g_i_delay (rg_grant g)) 2).
  change (take 3 (drop 9 _)) with (srslte_bit_unpack (g_n_rep (rg_grant g)) 3).
  change (take 3 (drop 12 _)) with (srslte_bit_unpack (g_i_mcs (rg_grant g)) 3).
  rewrite !pack_unpack. destruct (rg_grant g); cbn in *.
  f_equal; apply Z.mod_small; cbn; lia.
Qed.

(** ** Properties *)

(** C23. What the scheduler puts in a random access response is what a device
    reads from it: the response assembled for up to fifteen grants that the
    block has room for fills the block exactly, and the bundled parser finds in
    it one subheader for each grant, in the scheduler's order, with the
    preamble, the timing advance, the temporary C-RNTI and all the fields of
    the uplink grant unchanged. *)
Theorem rar_roundtrip grants pdu_len :
  1 <= Z.of_nat (length grants) <= 15 -> (forall g, g ∈ grants -> rar_wf g) ->
  7 * Z.of_nat (length grants) <= pdu_len < rar_payload_len ->
  exists bytes l,
    assemble_rar grants pdu_len = Ok (Some bytes) /\ Z.of_nat (length bytes) = pdu_len /\
    rar_parse_packet pdu_len bytes = Ok l /\
    Forall2 (fun g s => rs_rapid s = true /\ rs_preamble s = preamble_idx (rg_data g) /\
        rs_ta s = ta_cmd (rg_data g) /\ rs_temp_rnti s = temp_crnti (rg_data g) /\
        srslte_nbiot_dci_rar_grant_unpack (rs_grant s) = rg_grant g) grants l.
Proof.
  intros Hn Hwf Hlen. unfold assemble_rar, rar_payload_len in *.
  replace (pdu_len <? 128) with true by lia. replace (pdu_len >? 0) with true by lia.
  change (Z.to_nat (RAR_MAX_SUBH - 1)) with 15%nat. rewrite take_ge by lia.
  remember (rar_subh_of <$> grants) as l eqn:Edef.
  assert (Hl : length l = length grants) by (subst l; apply length_fmap).
  assert (Hok : Forall rar_subh_ok l).
  { subst l. apply Forall_fmap, Forall_forall. intros g Hg. by apply rar_subh_of_ok, Hwf. }
  unfold rar_write_packet. pose proof (rar_headers_eq 0 l) as Eh. rewrite Z.add_0_l in Eh. rewrite Eh.
  assert (Hpl : length (l ≫= rar_write_payload) = (6 * length l)%nat).
  { clear. induction l as [|s l IH]; [done|]. rewrite bind_cons, length_app, IH, length_rar_payload. cbn. lia. }
  rewrite length_app, length_rar_headers, Hpl.
  unfold ub_unless. destruct (Z.geb_spec (pdu_len - Z.of_nat (length l + 6 * length l)) 0) as [_|Hneg]; [|lia]. rewrite bind_ok_l.
  eexists _, ((fun s => s <| rs_rapid := true |>) <$> l). split; [reflexivity|]. split_and!.
  - rewrite !length_app, length_rar_headers, length_replicate, Hpl. lia.
  - unfold rar_parse_packet. destruct l as [|s l'] eqn:El; [cbn [length] in Hl; lia|]. rewrite <- El in *.
    rewrite <- app_assoc.
    pose proof (rar_headers_back 16 pdu_len [] s l' ((l ≫= rar_write_payload) ++
      replicate (Z.to_nat (pdu_len - Z.of_nat (length l + 6 * length l))) 0) false []) as E.
    rewrite <- El in E. cbn [app length] in E. change (Z.of_nat 0) with 0 in E.
    unfold parse_fuel. change (Z.to_nat RAR_MAX_SUBH) with 16%nat.
    assert (Hl' : length l = S (length l')) by by rewrite El.
    rewrite E; [|done|lia|unfold RAR_MAX_SUBH; lia|lia].
    rewrite bind_ok_l. pose proof (rar_payloads_back l (rar_headers l)
      (replicate (Z.to_nat (pdu_len - Z.of_nat (length l + 6 * length l))) 0) Hok) as E'.
    by rewrite length_rar_headers in E'.
  - subst l. rewrite <- list_fmap_compose. apply Forall2_fmap_r, Forall_Forall2_diag, Forall_forall.
    intros g Hg. specialize (Hwf g Hg). cbn.
    split_and!; try done; [|by apply rar_grant_back]. destruct Hwf. apply u16_id. done.
Qed.

(** Two grants as the scheduler composes them: Msg3 on subcarriers 0 to 11. *)
Definition demo_rar_grants : list dl_sched_rar_grant_t :=
  [mk_dl_rar_grant (mk_rar_info 3 17 4097 11 64) (mk_rar_grant 1 18 0 0 0);
   mk_dl_rar_grant (mk_rar_info 47 1040 4098 11 64) (mk_rar_grant 1 18 0 0 2)].

Lemma rar_roundtrip_witness :
  1 <= Z.of_nat (length demo_rar_grants) <= 15 /\
  exists bytes l,
    assemble_rar demo_rar_grants 32 = Ok (Some bytes) /\ Z.of_nat (length bytes) = 32 /\
    rar_parse_packet 32 bytes = Ok l /\
    Forall2 (fun g s => rs_rapid s = true /\ rs_preamble s = preamble_idx (rg_data g) /\
        rs_ta s = ta_cmd (rg_data g) /\ rs_temp_rnti s = temp_crnti (rg_data g) /\
        srslte_nbiot_dci_rar_grant_unpack (rs_grant s) = rg_grant g) demo_rar_grants l.
Proof.
  split; [cbn; lia|]. apply (rar_roundtrip demo_rar_grants 32); [cbn; lia| |cbn; unfold rar_payload_len; lia].
  intros g [->|[->|[]%elem_of_nil]%elem_of_cons]%elem_of_cons; split; cbn; lia.
Defined.
