(* ===== verification/DlBlock.v ===== *)
(** * Reading back a composed downlink block

    The block [sch_pdu::write_packet] makes, given to the [parse_packet] of the
    same class, yields the control elements and the SDUs put into it. *)
From S2P Require Import Prelude SchedTypes MacPdu.

(** ** One subheader *)

(** The subheaders of a block, all but the last announcing another one. *)
Fixpoint wr_hdrs (b : bool) (l : list sch_subh) : list Z :=
  match l with
  | [] => []
  | s :: l' => write_subheader s (match l' with [] => b | _ => false end) ++ wr_hdrs b l'
  end.

(** What is read of a subheader. *)
Definition read_of (s : sch_subh) (is_last : bool) : sch_subh :=
  mk_subh (sh_lcid s)
    (if sh_is_sdu s then if is_last then 0 else sh_nof_bytes s else sizeof_ce (sh_lcid s) false) None ce_zero.

Lemma subheader_byte lcid_ (is_last : bool) : 0 <= lcid_ < 32 ->
  let b := Z.lor (if is_last then 0 else 32) (Z.land lcid_ 31) in
  (Z.land b 32 =? 0) = is_last /\ Z.land b 31 = lcid_.
Proof.
  intros Hp. assert (In lcid_ (range 0 32)) as Hin by (apply list_elem_of_In, elem_of_range; lia).
  unfold range in Hin. cbn in Hin. destruct is_last;
  repeat (destruct Hin as [<-|Hin]; [vm_compute; by split_and!|]); destruct Hin.
Qed.

Lemma length_byte h : 0 <= h < 128 ->
  Z.land h 128 = 0 /\ u8 (Z.lor 128 h) = 128 + h /\ Z.land (128 + h) 127 = h /\ (Z.land (128 + h) 128 =? 0) = false.
Proof.
  intros Hp. assert (In h (range 0 128)) as Hin by (apply list_elem_of_In, elem_of_range; lia).
  unfold range in Hin. cbn in Hin.
  repeat (destruct Hin as [<-|Hin]; [vm_compute; by split_and!|]); destruct Hin.
Qed.

Lemma read_app {A} (pre l : list A) k a : 0 <= k -> l !! Z.to_nat k = Some a ->
  arr_read (pre ++ l) (Z.of_nat (length pre) + k) = Ok a.
Proof.
  intros Hk H. apply arr_read_lookup; [lia|].
  rewrite lookup_app_r by lia. by replace (Z.to_nat (_ + k) - length pre)%nat with (Z.to_nat k) by lia.
Qed.

Lemma read_write_subheader s is_last pre rest :
  0 <= sh_lcid s < 32 -> 0 <= sh_nof_bytes s < 2 ^ 15 ->
  read_subheader false (pre ++ write_subheader s is_last ++ rest) (Z.of_nat (length pre)) =
  Ok (read_of s is_last, negb is_last, Z.of_nat (length pre) + get_header_size s is_last).
Proof.
  intros Hl Hn. destruct (subheader_byte (sh_lcid s) is_last Hl) as [E1 E2]. cbv zeta in E1, E2.
  unfold read_subheader, read_of, get_header_size, write_subheader.
  set (b0 := Z.lor (if is_last then 0 else 32) (Z.land (sh_lcid s) 31)) in *.
  match goal with |- context [pre ++ (b0 :: ?x) ++ rest] => set (tl := x) end.
  pose proof (read_app pre ((b0 :: tl) ++ rest) 0 b0 ltac:(lia) eq_refl) as E0.
  rewrite Z.add_0_r in E0. rewrite E0, bind_ok_l. clear E0. rewrite E1, E2. change (is_sdu (sh_lcid s)) with (sh_is_sdu s).
  destruct (sh_is_sdu s) eqn:Es; [|by destruct is_last].
  destruct is_last; cbn [negb]; [done|].
  subst tl. cbn [andb negb]. unfold size_header_sdu. rewrite u32_id by lia.
  destruct (Z.geb_spec (sh_nof_bytes s) 128) as [Hb|Hb].
  - replace (sh_nof_bytes s <? 128) with false by lia.
    set (b1 := u8 _). set (b2 := Z.land (sh_nof_bytes s) 255).
    rewrite (read_app pre ((b0 :: [b1; b2]) ++ rest) 1 b1 ltac:(lia) eq_refl), bind_ok_l.
    assert (Eb1 : b1 = 128 + sh_nof_bytes s / 256).
    { unfold b1. replace (Z.shiftr (Z.land (sh_nof_bytes s) 32512) 8) with (sh_nof_bytes s / 256).
      - apply length_byte. dlia.
      - change 32512 with (Z.shiftl (Z.ones 7) 8).
        rewrite Z.shiftr_land, Z.shiftr_shiftl_l, Z.sub_diag, Z.shiftl_0_r, Z.land_ones, Z.shiftr_div_pow2 by lia.
        change (2 ^ 8) with 256. change (2 ^ 7) with 128. symmetry. apply Z.mod_small. dlia. }
    destruct (length_byte (sh_nof_bytes s / 256)) as (_ & _ & F1 & F2); [dlia|].
    rewrite Eb1, F2. cbn [negb]. rewrite <- (Z.add_assoc (Z.of_nat (length pre)) 1 1). change (1 + 1) with 2.
    rewrite (read_app pre ((b0 :: [128 + sh_nof_bytes s / 256; b2]) ++ rest) 2 b2 ltac:(lia) eq_refl), bind_ok_l, F1.
    assert (Eb2 : Z.land b2 255 = sh_nof_bytes s mod 256).
    { unfold b2. change 255 with (Z.ones 8). rewrite !Z.land_ones by lia. change (2 ^ 8) with 256. by rewrite Zmod_mod. }
    rewrite Eb2, length16 by dlia. replace (sh_nof_bytes s / 256 * 256 + _) with (sh_nof_bytes s) by dlia.
    by rewrite <- Z.add_assoc.
  - replace (sh_nof_bytes s <? 128) with true by lia.
    assert (Eb : Z.land (sh_nof_bytes s) 127 = sh_nof_bytes s).
    { change 127 with (Z.ones 7). rewrite Z.land_ones by lia. apply Z.mod_small. lia. }
    rewrite (read_app pre ((b0 :: [_]) ++ rest) 1 (Z.land (sh_nof_bytes s) 127) ltac:(lia) eq_refl), bind_ok_l, Eb, Eb.
    destruct (length_byte (sh_nof_bytes s)) as (F & _); [lia|]. rewrite F. cbn [negb Z.eqb].
    by rewrite <- Z.add_assoc.
Qed.

(** ** All the subheaders *)

Fixpoint reads_of (l : list sch_subh) : list sch_subh :=
  match l with
  | [] => []
  | s :: l' => read_of s (match l' with [] => true | _ => false end) :: reads_of l'
  end.

Fixpoint hdrs_size (l : list sch_subh) : Z :=
  match l with
  | [] => 0
  | s :: l' => get_header_size s (match l' with [] => true | _ => false end) + hdrs_size l'
  end.

Definition entry_ok (s : sch_subh) : Prop := 0 <= sh_lcid s < 32 /\ 0 <= sh_nof_bytes s < 2 ^ 15.

Lemma hdrs_size_pos s l : 1 <= hdrs_size (s :: l).
Proof.
  revert s; induction l as [|s' l IH]; intros s.
  - pose proof (get_header_size_range s true). cbn [hdrs_size]. lia.
  - specialize (IH s'). pose proof (get_header_size_range s false).
    change (hdrs_size (s :: s' :: l)) with (get_header_size s false + hdrs_size (s' :: l)). lia.
Qed.

Lemma length_wr_hdrs l : Forall entry_ok l -> Z.of_nat (length (wr_hdrs true l)) = hdrs_size l.
Proof.
  induction 1 as [|s l [_ Hs] Hl IH]; [done|]. cbn [wr_hdrs hdrs_size].
  rewrite length_app, Nat2Z.inj_add, IH, length_write_subheader by done. done.
Qed.

Lemma wr_hdrs_back fuel len pre s l rest ret acc :
  Forall entry_ok (s :: l) -> (length l < fuel)%nat ->
  Z.of_nat (length acc) + Z.of_nat (length (s :: l)) < MAX_SUBH ->
  Z.of_nat (length pre) + hdrs_size (s :: l) <= len < 2 ^ 31 ->
  parse_headers (read_subheader false) fuel MAX_SUBH len (pre ++ wr_hdrs true (s :: l) ++ rest)
    (Z.of_nat (length pre)) acc ret =
  Ok (acc ++ reads_of (s :: l), Z.of_nat (length pre) + hdrs_size (s :: l)).
Proof.
  revert pre s acc ret fuel; induction l as [|s' l IH]; intros pre s acc ret fuel Hok Hfuel Hmax Hlen;
    (destruct fuel as [|fuel]; [lia|]); cbn [length] in *; apply Forall_cons in Hok as [[Hs Hs'] Hok].
  - cbn [parse_headers wr_hdrs]. rewrite app_nil_r, read_write_subheader by done.
    destruct (Z.ltb_spec (Z.of_nat (length acc)) MAX_SUBH); [|lia]. cbn [hdrs_size]. by rewrite Z.add_0_r.
  - change (wr_hdrs true (s :: s' :: l)) with (write_subheader s false ++ wr_hdrs true (s' :: l)).
    change (hdrs_size (s :: s' :: l)) with (get_header_size s false + hdrs_size (s' :: l)) in *.
    pose proof (length_write_subheader s false Hs') as Hw. pose proof (hdrs_size_pos s' l) as Hpos.
    specialize (IH (pre ++ write_subheader s false) s' (acc ++ [read_of s false]) true fuel Hok ltac:(lia)).
    rewrite !length_app, <- !app_assoc, !Nat2Z.inj_add, Hw in IH. cbn [length] in IH.
    specialize (IH ltac:(lia) ltac:(lia)).
    cbn [parse_headers]. rewrite <- app_assoc, read_write_subheader by done.
    destruct (Z.ltb_spec (Z.of_nat (length acc)) MAX_SUBH); [|lia]. rewrite !bind_ok_l, i32_id by lia.
    cbn [negb andb]. destruct (Z.geb_spec (Z.of_nat (length pre) + get_header_size s false) len); [lia|].
    rewrite length_app. cbn [length].
    destruct (Z.ltb_spec (Z.of_nat (length acc + 1) + 1) MAX_SUBH); [|lia].
    destruct (Z.gtb_spec len (Z.of_nat (length pre) + get_header_size s false)); [|lia]. cbn [andb].
    rewrite IH. f_equal. apply pair_eq. split; [done|lia].
Qed.

(** ** Payloads *)

(** The logical channels and the bytes of a parsed block. *)
Definition contents (buf : list Z) (l : list sch_subh) : list (Z * list Z) :=
  (fun s => (sh_lcid s, take (Z.to_nat (sh_nof_bytes s))
                          (drop (Z.to_nat (default 0 (sh_payload s))) buf))) <$> l.

Lemma contents_back l chunks pre rest :
  Forall2 (fun s c => sh_nof_bytes s = Z.of_nat (length c)) l chunks ->
  contents (pre ++ concat chunks ++ rest) (read_payloads (Z.of_nat (length pre)) l) = zip (sh_lcid <$> l) chunks.
Proof.
  intros H; revert pre; induction H as [|s c l chunks Hs Hl IH]; intros pre; [done|].
  cbn [read_payloads concat]. unfold contents in *. rewrite !fmap_cons. cbn [zip zip_with].
  specialize (IH (pre ++ c)). rewrite length_app, Nat2Z.inj_add, <- Hs, <- app_assoc in IH.
  rewrite <- app_assoc, IH. do 2 f_equal. cbn.
  rewrite Hs, !Nat2Z.id, drop_app_length. by rewrite take_app_length.
Qed.

Lemma reads_of_snoc l s : reads_of (l ++ [s]) = ((fun s => read_of s false) <$> l) ++ [read_of s true].
Proof.
  induction l as [|a l IH]; [done|]. cbn [app reads_of]. rewrite IH. by destruct l.
Qed.

Lemma read_of_header s b : get_header_size (read_of s false) b = get_header_size s b.
Proof.
  unfold get_header_size. change (sh_is_sdu (read_of s false)) with (sh_is_sdu s).
  unfold read_of. cbn [sh_nof_bytes]. by destruct (sh_is_sdu s).
Qed.

Lemma hdrs_size_snoc l s : hdrs_size (l ++ [s]) = zsum (fun s => get_header_size s false) l + 1.
Proof.
  induction l as [|a l IH]; [done|]. cbn [app hdrs_size]. rewrite IH, zsum_cons.
  destruct l; cbn [app]; lia.
Qed.

Lemma read_of_ok s : entry_ok s -> subh_ok (read_of s false).
Proof.
  intros [H1 H2]. split; [|done]. unfold read_of; cbn [sh_nof_bytes]. destruct (sh_is_sdu s); [done|].
  pose proof (sizeof_ce_range (sh_lcid s) false). lia.
Qed.

(** The payload a subheader but the last announces. *)
Definition announced (s : sch_subh) : Z := if sh_is_sdu s then sh_nof_bytes s else sizeof_ce (sh_lcid s) false.

(** A block of subheaders and payloads of the announced sizes is read as
    such; the last payload takes the rest. *)
Lemma parse_back F s C c rest len :
  Forall entry_ok (F ++ [s]) -> Z.of_nat (length F) + 1 < MAX_SUBH -> len < 2 ^ 30 ->
  Forall2 (fun s c => announced s = Z.of_nat (length c)) F C ->
  hdrs_size (F ++ [s]) + Z.of_nat (length (concat (C ++ [c]))) = len ->
  exists l, sch_parse_packet false MAX_SUBH len (wr_hdrs true (F ++ [s]) ++ concat (C ++ [c]) ++ rest) = Ok l /\
    contents (wr_hdrs true (F ++ [s]) ++ concat (C ++ [c]) ++ rest) l = zip (sh_lcid <$> F ++ [s]) (C ++ [c]).
Proof.
  intros Hok HF Hlen HC Htot. unfold sch_parse_packet, pdu_parse_packet.
  assert (Hne : exists s0 l0, F ++ [s] = s0 :: l0) by (destruct F; eexists _, _; done).
  destruct Hne as (s0 & l0 & E0).
  assert (El0 : length l0 = length F) by (apply (f_equal length) in E0; rewrite length_app in E0; cbn in E0; lia).
  pose proof (wr_hdrs_back (parse_fuel MAX_SUBH) len [] s0 l0 (concat (C ++ [c]) ++ rest) false []) as Hp.
  rewrite <- E0, length_app in Hp. cbn [app length] in Hp. change (Z.of_nat 0) with 0 in Hp. rewrite !Z.add_0_l in Hp.
  change (parse_fuel MAX_SUBH) with 20%nat in *. unfold MAX_SUBH in HF.
  rewrite Hp; [|done|lia|unfold MAX_SUBH; cbn [length]; lia|lia].
  rewrite !bind_ok_l, reads_of_snoc. clear Hp E0 El0.
  set (F' := (fun s => read_of s false) <$> F).
  apply Forall_app in Hok as [HokF Hoks]. apply Forall_cons in Hoks as [Hoks _].
  assert (HF' : forall x, x ∈ F' -> subh_ok x).
  { intros x (y & -> & Hy)%list_elem_of_fmap. apply read_of_ok. rewrite Forall_forall in HokF. by apply HokF. }
  rewrite read_payloads_app. cbn [read_payloads]. rewrite last_snoc_eq, removelast_last, zsum_plus_header by done.
  assert (EF : zsum (fun s => get_header_size s false) F' = zsum (fun s => get_header_size s false) F).
  { unfold F'. clear. induction F as [|a F IH]; [done|]. rewrite fmap_cons, !zsum_cons, IH, read_of_header. done. }
  assert (EN : zsum sh_nof_bytes F' = Z.of_nat (length (concat C))).
  { unfold F'. clear -HC. induction HC as [|a x F C Ha HC IH]; [done|]. rewrite fmap_cons, zsum_cons, IH. cbn [concat].
    rewrite length_app, Nat2Z.inj_add, <- Ha. done. }
  rewrite concat_app, length_app, Nat2Z.inj_add, hdrs_size_snoc in Htot. cbn [concat] in Htot.
  rewrite app_nil_r in Htot. rewrite EF, EN.
  assert (Hh0 : 0 <= zsum (fun s => get_header_size s false) F).
  { apply zsum_nonneg. intros a _. pose proof (get_header_size_range a false). lia. }
  rewrite u32_id, i32_id by lia.
  destruct (Z.geb_spec (len - (zsum (fun s => get_header_size s false) F + Z.of_nat (length (concat C))) - 1) 0); [|lia].
  eexists. split; [reflexivity|].
  set (s' := (read_of s true) <| sh_nof_bytes := Z.of_nat (length c) |>).
  assert (Hf2 : Forall2 (fun s c => sh_nof_bytes s = Z.of_nat (length c)) (F' ++ [s']) (C ++ [c])).
  { apply Forall2_app; [|by repeat constructor]. unfold F'. apply Forall2_fmap_l.
    eapply Forall2_impl; [exact HC|]. intros a x Ha. exact Ha. }
  pose proof (contents_back _ _ (wr_hdrs true (F ++ [s])) rest Hf2) as Hc.
  rewrite length_wr_hdrs in Hc by (apply Forall_app; split; [done|by constructor]).
  rewrite read_payloads_app in Hc. cbn [read_payloads] in Hc. rewrite EN in Hc.
  replace (len - _ - 1) with (Z.of_nat (length c)) by lia.
  etransitivity; [exact Hc|]. f_equal. rewrite !fmap_app. f_equal.
  unfold F'. rewrite <- list_fmap_compose. done.
Qed.

(** ** The subheaders of a composed block *)

Definition sdus_of (l : list sch_subh) : list sch_subh := filter (fun s => sh_is_sdu s = true) l.
Definition ces_of (l : list sch_subh) : list sch_subh := filter (fun s => sh_is_sdu s = false) l.

Lemma wr_hdrs_app b l1 s l2 : wr_hdrs b (l1 ++ s :: l2) = wr_hdrs false l1 ++ wr_hdrs b (s :: l2).
Proof.
  induction l1 as [|a l1 IH]; [done|].
  change (wr_hdrs b ((a :: l1) ++ s :: l2)) with
    (write_subheader a (match l1 ++ s :: l2 with [] => b | _ => false end) ++ wr_hdrs b (l1 ++ s :: l2)).
  rewrite IH. cbn [wr_hdrs]. rewrite <- app_assoc. f_equal. by destruct l1.
Qed.

(** Subheaders of one kind written in a loop over all, none of them flagged. *)
Lemma bind_unflagged (P : sch_subh -> bool) (f : Z -> bool) a l :
  (forall i s, l !! i = Some s -> P s = true -> f (a + Z.of_nat i) = false) ->
  (zip (range a (length l)) l ≫= fun '(i, s) => if P s then write_subheader s (f i) else []) =
  wr_hdrs false (filter (fun s => P s = true) l).
Proof.
  revert a; induction l as [|s l IH]; intros a H; [done|]. cbn [length]. rewrite range_S. cbn [zip zip_with].
  rewrite bind_cons, filter_cons, IH.
  2:{ intros i s' Hi Hp. replace (a + 1 + Z.of_nat i) with (a + Z.of_nat (S i)) by lia. by apply (H (S i) s'). }
  destruct (P s) eqn:E; [|by rewrite decide_False by congruence]. rewrite decide_True by done.
  pose proof (H 0%nat s eq_refl E) as H0. rewrite Z.add_0_r in H0. rewrite H0. cbn [wr_hdrs]. by case_match.
Qed.

(** Subheaders of one kind, the last of them flagged. *)
Lemma bind_flagged (P : sch_subh -> bool) a j l :
  (forall i s, l !! i = Some s -> P s = true -> (i <= j)%nat) ->
  (exists s, l !! j = Some s /\ P s = true) ->
  (zip (range a (length l)) l ≫= fun '(i, s) => if P s then write_subheader s (i =? a + Z.of_nat j) else []) =
  wr_hdrs true (filter (fun s => P s = true) l).
Proof.
  revert a j; induction l as [|s l IH]; intros a j H (sj & Hj & Hp); [done|].
  cbn [length]. rewrite range_S. cbn [zip zip_with]. rewrite bind_cons, filter_cons.
  destruct j as [|j].
  - injection Hj as ->. rewrite Hp, decide_True by done. rewrite Z.add_0_r, Z.eqb_refl.
    assert (Hno : filter (fun s => P s = true) l = []).
    { destruct (filter (fun s => P s = true) l) as [|x r] eqn:E; [done|].
      assert (Hx : x ∈ filter (fun s => P s = true) l) by (rewrite E; apply list_elem_of_here).
      apply list_elem_of_filter in Hx as [Hx [i Hi]%list_elem_of_lookup].
      specialize (H (S i) x Hi Hx). lia. }
    rewrite Hno. cbn [wr_hdrs]. rewrite app_nil_r.
    rewrite (bind_unflagged P (fun i => i =? a)), Hno; [by rewrite app_nil_r|].
    intros i s' Hi Hs'. specialize (H (S i) s' Hi Hs'). lia.
  - replace (a + Z.of_nat (S j)) with (a + 1 + Z.of_nat j) by lia.
    rewrite IH; [|intros i s' Hi Hs'; specialize (H (S i) s' Hi Hs'); lia|by exists sj].
    destruct (P s) eqn:E; [|by rewrite decide_False by congruence]. rewrite decide_True by done.
    rewrite (proj2 (Z.eqb_neq a (a + 1 + Z.of_nat j))) by lia. cbn [wr_hdrs].
    destruct (filter (fun s => P s = true) l) as [|x r] eqn:Ef; [|done].
    assert (Hx : sj ∈ filter (fun s => P s = true) l).
    { apply list_elem_of_filter. split; [done|]. apply list_elem_of_lookup. by exists j. }
    rewrite Ef in Hx. by apply elem_of_nil in Hx.
Qed.

Lemma filter_negb l : filter (fun s => negb (sh_is_sdu s) = true) l = ces_of l.
Proof. apply list_filter_iff. intros s. destruct (sh_is_sdu s); cbn; naive_solver. Qed.

Lemma bind_ces (f : Z -> bool) (l : list (Z * sch_subh)) :
  (l ≫= fun '(i, s) => if sh_is_sdu s then [] else write_subheader s (f i)) =
  (l ≫= fun '(i, s) => if negb (sh_is_sdu s) then write_subheader s (f i) else []).
Proof. induction l as [|[i s] l IH]; [done|]. rewrite !bind_cons, IH. by destruct (sh_is_sdu s). Qed.

Lemma bind_ce_payloads a l (f : sch_subh -> list Z) :
  (zip (range a (length l)) l ≫= fun '(i, s) => if sh_is_sdu s then [] else f s) = concat (f <$> ces_of l).
Proof.
  revert a; induction l as [|s l IH]; intros a; [done|]. cbn [length]. rewrite range_S. cbn [zip zip_with].
  rewrite bind_cons, IH. unfold ces_of. rewrite filter_cons.
  destruct (sh_is_sdu s) eqn:E; [by rewrite decide_False by congruence|]. by rewrite decide_True by done.
Qed.

Definition entries (t : sch_tx) (multi : bool) (onetwo np : Z) : list sch_subh :=
  replicate (Z.to_nat onetwo) (padding_subh 0) ++ ces_of (used t) ++ sdus_of (used t) ++
  (if multi then [padding_subh np] else []).

Lemma no_sdus t : tx_ok t -> t_last_sdu t < 0 -> sdus_of (used t) = [].
Proof.
  intros H Hl. destruct (sdus_of (used t)) as [|s l] eqn:E; [done|].
  assert (Hs : s ∈ sdus_of (used t)) by (rewrite E; apply list_elem_of_here).
  apply list_elem_of_filter in Hs as [Hs [i Hi]%list_elem_of_lookup]. pose proof (tx_sdus _ H i s Hi Hs). lia.
Qed.

Lemma some_sdus t : tx_ok t -> 0 <= t_last_sdu t -> exists s l, sdus_of (used t) = s :: l.
Proof.
  intros H Hl. destruct (tx_last_sdu _ H Hl) as (s & Hs & Hsd).
  destruct (sdus_of (used t)) as [|s' l] eqn:E; [|by eexists _, _].
  assert (Hs' : s ∈ sdus_of (used t)).
  { apply list_elem_of_filter. split; [done|]. apply list_elem_of_lookup. eauto. }
  rewrite E in Hs'. by apply elem_of_nil in Hs'.
Qed.

(** The header of a block is that of its entries. *)
Lemma write_headers_eq t multi onetwo np :
  tx_ok t -> 2 < t_len t -> 0 <= onetwo <= 2 -> (multi = true -> onetwo = 0) -> (multi = false -> used t <> []) ->
  write_headers t (t_last_sdu t <? 0) multi onetwo np =
    wr_hdrs true (entries t multi onetwo np) ++
    concat ((fun s => take (Z.to_nat (sizeof_ce (sh_lcid s) false)) (sh_ce s)) <$> ces_of (used t)).
Proof.
  intros H Hlen Ho Hmo Hmu. unfold write_headers. rewrite (used_subhs_eq t H), (tx_dl _ H).
  rewrite (bind_ce_payloads 0 (used t) (fun s => take (Z.to_nat (sizeof_ce (sh_lcid s) false)) (sh_ce s))).
  rewrite bind_ces, !app_assoc. f_equal.
  replace (negb (t_len t >? onetwo)) with false by lia.
  assert (Hpads : forall n, concat (replicate n (write_subheader (padding_subh 0) false)) =
    wr_hdrs false (replicate n (padding_subh 0))).
  { clear. intros n; induction n as [|n IH]; [done|]. cbn [replicate concat wr_hdrs]. rewrite IH. by case_match. }
  rewrite Hpads. clear Hpads. unfold entries. set (pads := replicate _ _).
  pose proof (tx_nof _ H) as [Hn _]. pose proof (used_length t H) as Hul. pose proof (tx_last _ H) as Hls.
  destruct multi; cbn [negb andb].
  - rewrite andb_false_r. cbn [andb].
    rewrite (bind_unflagged (fun s => negb (sh_is_sdu s)) (fun _ => false)) by done. rewrite filter_negb.
    rewrite !app_assoc, wr_hdrs_app. f_equal.
    assert (Es : (if t_last_sdu t <? 0 then [] else
        zip (range 0 (length (used t))) (used t) ≫= fun '(_, s) => if sh_is_sdu s then write_subheader s false else []) =
        wr_hdrs false (sdus_of (used t))).
    { destruct (Z.ltb_spec (t_last_sdu t) 0) as [Hl|Hl]; [by rewrite (no_sdus t H Hl)|].
      by rewrite (bind_unflagged sh_is_sdu (fun _ => false)) by done. }
    rewrite Es. clear Es. assert (Happ : forall l1 l2, wr_hdrs false (l1 ++ l2) = wr_hdrs false l1 ++ wr_hdrs false l2).
    { intros l1 [|s l2]; [by rewrite !app_nil_r|apply wr_hdrs_app]. }
    by rewrite !Happ.
  - rewrite !app_nil_r. destruct (Z.ltb_spec (t_last_sdu t) 0) as [Hl|Hl]; cbn [andb].
    + rewrite (no_sdus t H Hl), !app_nil_r.
      assert (Hall : forall s, s ∈ used t -> sh_is_sdu s = false).
      { intros s [i Hi]%list_elem_of_lookup. destruct (sh_is_sdu s) eqn:E; [|done].
        pose proof (tx_sdus _ H i s Hi E). lia. }
      assert (Hpos : (0 < length (used t))%nat) by (specialize (Hmu eq_refl); destruct (used t); [done|cbn; lia]).
      destruct (lookup_lt_is_Some_2 (used t) (Z.to_nat (t_nof t - 1))) as [sl Hsl]; [lia|].
      pose proof (bind_flagged (fun s => negb (sh_is_sdu s)) 0 (Z.to_nat (t_nof t - 1)) (used t)) as Hf.
      rewrite Z.add_0_l, Z2Nat.id in Hf by lia. rewrite Hf.
      * rewrite filter_negb. destruct (ces_of (used t)) as [|s r] eqn:E; [|by rewrite wr_hdrs_app].
        exfalso. assert (Hx : sl ∈ ces_of (used t)).
        { apply list_elem_of_filter. split; [apply Hall|]; apply list_elem_of_lookup; eauto. }
        rewrite E in Hx. by apply elem_of_nil in Hx.
      * intros i s Hi _. apply lookup_lt_Some in Hi. lia.
      * exists sl. split; [done|]. rewrite Hall; [done|]. apply list_elem_of_lookup; eauto.
    + rewrite (bind_unflagged (fun s => negb (sh_is_sdu s)) (fun _ => false)) by done. rewrite filter_negb.
      pose proof (bind_flagged sh_is_sdu 0 (Z.to_nat (t_last_sdu t)) (used t)) as Hf.
      rewrite Z.add_0_l, Z2Nat.id in Hf by lia. rewrite Hf.
      * fold (sdus_of (used t)). destruct (some_sdus t H Hl) as (s & l & E). rewrite E.
        rewrite !app_assoc, wr_hdrs_app. f_equal.
        destruct (ces_of (used t)) as [|c cs]; [by rewrite !app_nil_r|by rewrite wr_hdrs_app].
      * intros i s Hi Hs. pose proof (tx_sdus _ H i s Hi Hs). lia.
      * apply (tx_last_sdu _ H). lia.
Qed.

(** ** The way there and back *)

(** The SDUs and the control elements of a block. *)
Definition tx_sdus_of (t : sch_tx) : list (Z * Z) := (fun s => (sh_lcid s, sh_nof_bytes s)) <$> sdus_of (used t).
Definition tx_ces_of (t : sch_tx) : list (list Z) := (fun s => take 6 (sh_ce s)) <$> ces_of (used t).

Definition sdu_size (d : Z * list Z) : Z := Z.of_nat (length d.2).

(** What a block carries besides padding. *)
Definition carried (buf : list Z) (l : list sch_subh) : list (Z * list Z) :=
  filter (fun p => p.1 <> PADDING) (contents buf l).

Lemma ces_chunks t : tx_ok t ->
  (fun s => take (Z.to_nat (sizeof_ce (sh_lcid s) false)) (sh_ce s)) <$> ces_of (used t) = tx_ces_of t.
Proof.
  intros H. unfold tx_ces_of. apply list_fmap_ext. intros i s Hi.
  assert (Hs : s ∈ ces_of (used t)) by (apply list_elem_of_lookup; eauto).
  apply list_elem_of_filter in Hs as [Hs Hu]. destruct (subh_tx_ok_size s (tx_subhs _ H s Hu)) as (_ & _ & _ & Hce).
  destruct (Hce Hs) as [-> _]. done.
Qed.

(** The announced sizes of the entries that are not the trailing padding. *)
Lemma entries_announced t n (ds : list (Z * list Z)) : tx_ok t ->
  tx_sdus_of t = (fun d => (d.1, sdu_size d)) <$> ds ->
  Forall2 (fun s c => announced s = Z.of_nat (length c))
    (replicate n (padding_subh 0) ++ ces_of (used t) ++ sdus_of (used t))
    (replicate n [] ++ tx_ces_of t ++ (snd <$> ds)).
Proof.
  intros H Hds. apply Forall2_app; [|apply Forall2_app].
  - clear. induction n as [|n IH]; [constructor|]. cbn. by constructor.
  - unfold tx_ces_of. apply Forall2_fmap_r, Forall_Forall2_diag, Forall_forall. intros s Hs.
    apply list_elem_of_filter in Hs as [Hs Hu].
    destruct (subh_tx_ok_size s (tx_subhs _ H s Hu)) as (_ & _ & _ & Hce). destruct (Hce Hs) as [Hl _].
    unfold announced. rewrite Hs, Hl. change (sizeof_ce CON_RES_ID false = Z.of_nat (length (take 6 (sh_ce s)))).
    rewrite length_take. destruct (tx_vec _ H) as [_ ->]; [done|by apply used_in_vec].
  - unfold tx_sdus_of in Hds.
    assert (Hsd : forall s, s ∈ sdus_of (used t) -> sh_is_sdu s = true) by (intros s [? _]%list_elem_of_filter; done).
    revert ds Hds. induction (sdus_of (used t)) as [|s l IH]; intros [|d ds] Hds; try done.
    rewrite !fmap_cons in Hds. injection Hds as E1 E2 E3. cbn. constructor.
    + unfold announced. rewrite Hsd by apply list_elem_of_here. done.
    + apply IH; [intros; apply Hsd; by apply list_elem_of_further|done].
Qed.

Lemma entry_of_used t s : tx_ok t -> s ∈ used t -> entry_ok s.
Proof.
  intros H Hs. destruct (subh_tx_ok_size s (tx_subhs _ H s Hs)) as (Hn & _). split; [|done].
  destruct (tx_subhs _ H s Hs) as [[-> _]|(Hsd & H0 & _)]; [by vm_compute|].
  unfold sh_is_sdu, is_sdu, RESERVED in Hsd. lia.
Qed.

Lemma entries_ok t multi onetwo np : tx_ok t -> 0 <= np <= 1002 -> Forall entry_ok (entries t multi onetwo np).
Proof.
  intros H Hnp. unfold entries. rewrite !Forall_app. split_and!.
  - apply Forall_replicate. split; cbn; unfold PADDING; lia.
  - apply Forall_forall. intros s [_ Hs]%list_elem_of_filter. by apply (entry_of_used t).
  - apply Forall_forall. intros s [_ Hs]%list_elem_of_filter. by apply (entry_of_used t).
  - destruct multi; [|constructor]. apply Forall_singleton. split; cbn; unfold PADDING; lia.
Qed.

Lemma length_entries t n : (length (replicate n (padding_subh 0) ++ ces_of (used t) ++ sdus_of (used t)) =
  n + length (used t))%nat.
Proof.
  rewrite !length_app, length_replicate. f_equal. unfold ces_of, sdus_of.
  induction (used t) as [|s l IH]; [done|]. rewrite !filter_cons.
  destruct (sh_is_sdu s); repeat (first [rewrite decide_True by done|rewrite decide_False by done]); cbn [length]; lia.
Qed.

(** What is carried, of the entries and their payloads. *)
Lemma carried_entries t n (ds : list (Z * list Z)) : tx_ok t ->
  tx_sdus_of t = (fun d => (d.1, sdu_size d)) <$> ds ->
  filter (fun p => p.1 <> PADDING)
    (zip (sh_lcid <$> replicate n (padding_subh 0) ++ ces_of (used t) ++ sdus_of (used t))
         (replicate n [] ++ tx_ces_of t ++ (snd <$> ds))) =
  ((fun c => (CON_RES_ID, c)) <$> tx_ces_of t) ++ ds.
Proof.
  intros H Hds. rewrite !fmap_app, fmap_replicate.
  rewrite zip_with_app by by rewrite !length_replicate.
  rewrite zip_with_app by (unfold tx_ces_of; by rewrite !length_fmap). rewrite !filter_app.
  assert (E1 : filter (fun p : Z * list Z => p.1 <> PADDING) (zip (replicate n (sh_lcid (padding_subh 0))) (replicate n [])) = []).
  { clear. induction n as [|n IH]; [done|]. cbn [replicate zip zip_with]. rewrite filter_cons, IH. by rewrite decide_False by (intros Hne; by apply Hne). }
  rewrite E1. cbn [app]. f_equal.
  - unfold tx_ces_of.
    assert (Hc : forall s, s ∈ ces_of (used t) -> sh_lcid s = CON_RES_ID).
    { intros s [Hs Hu]%list_elem_of_filter. destruct (subh_tx_ok_size s (tx_subhs _ H s Hu)) as (_ & _ & _ & Hce).
      by apply Hce. }
    induction (ces_of (used t)) as [|s l IH]; [done|]. rewrite !fmap_cons. cbn [zip zip_with].
    rewrite (Hc s) by apply list_elem_of_here. rewrite filter_cons, decide_True by done. f_equal.
    apply IH. intros; apply Hc. by apply list_elem_of_further.
  - unfold tx_sdus_of in Hds.
    assert (Hsd : forall s, s ∈ sdus_of (used t) -> sh_is_sdu s = true) by (intros s [? _]%list_elem_of_filter; done).
    revert ds Hds. induction (sdus_of (used t)) as [|s l IH]; intros [|d ds] Hds; try done.
    rewrite !fmap_cons in *. injection Hds as E2 E3 E4. cbn [zip zip_with].
    specialize (Hsd s (list_elem_of_here _ _)) as Hs. unfold sh_is_sdu, is_sdu, RESERVED in Hs.
    rewrite filter_cons, decide_True by (cbn; unfold PADDING; lia). f_equal; [by destruct d; cbn in *; subst|].
    apply IH; [intros; apply Hsd; by apply list_elem_of_further|done].
Qed.

(** A composed downlink block is what a receiver needs: it has exactly the
    length announced to the PHY, and the parser of the same class, reading it in
    a longer buffer, finds in it the contention resolution identities and the
    SDUs put into it, each on its logical channel, byte for byte and in
    order. *)
Lemma write_read_block t ds rest :
  tx_ok t -> t_nof t <= 17 -> 2 < t_len t ->
  tx_sdus_of t = (fun d => (d.1, sdu_size d)) <$> ds -> t_bytes t = concat (snd <$> ds) ->
  exists block l, write_packet t = Ok (Some block) /\ Z.of_nat (length block) = t_len t /\
    sch_parse_packet false MAX_SUBH (t_len t) (block ++ rest) = Ok l /\
    carried (block ++ rest) l = ((fun c => (CON_RES_ID, c)) <$> tx_ces_of t) ++ ds.
Proof.
  intros H Hn Hlen Hds Hb.
  destruct (write_packet_form t H) as (multi & o & np & Hw & Hsz & Ho & Hnp & Hmo & Hmu).
  pose proof (length_headers t multi o np H ltac:(lia) Hmo) as Hlh.
  destruct (tx_len _ H) as [Htl _].
  assert (Hne : multi = false -> used t <> []).
  { intros Hm E. destruct (Hmu Hm) as [_ Hr]. pose proof (tx_rem _ H) as Hrem. rewrite E in Hrem.
    pose proof (last_slack_range t). change (zsum size_plus_header []) with 0 in Hrem.
    pose proof (tx_last _ H) as Hls. pose proof (used_length t H) as Hul. rewrite E in Hul. cbn in Hul.
    unfold last_slack in *. replace (t_last_sdu t <? 0) with true in * by lia. lia. }
  pose proof (write_headers_eq t multi o np H Hlen Ho Hmo Hne) as Hwh. rewrite (ces_chunks t H) in Hwh.
  rewrite Hwh in Hlh, Hw. rewrite length_app, Nat2Z.inj_add in Hlh.
  pose proof (entries_announced t (Z.to_nat o) ds H Hds) as Ha.
  pose proof (carried_entries t (Z.to_nat o) ds H Hds) as Hc.
  pose proof (entries_ok t multi o np H Hnp) as Hok. rewrite (length_wr_hdrs _ Hok) in Hlh.
  pose proof (length_entries t (Z.to_nat o)) as Hle. pose proof (used_length t H) as Hul.
  assert (Hlb : Z.of_nat (length (concat (tx_ces_of t ++ (snd <$> ds)))) =
    Z.of_nat (length (concat (tx_ces_of t))) + Z.of_nat (length (t_bytes t))).
  { by rewrite concat_app, length_app, Nat2Z.inj_add, Hb. }
  assert (Hrep : forall n (l : list (list Z)), concat (replicate n [] ++ l) = concat l).
  { intros n l. induction n as [|n IH]; [done|]. exact IH. }
  unfold entries in *. set (E0 := replicate _ _ ++ ces_of _ ++ sdus_of _) in *.
  set (K0 := replicate _ [] ++ tx_ces_of t ++ (snd <$> ds)) in *.
  assert (HK0 : concat K0 = concat (tx_ces_of t) ++ t_bytes t) by (unfold K0; by rewrite Hrep, concat_app, Hb).
  assert (Hlk : Z.of_nat (length (concat K0)) = Z.of_nat (length (concat (tx_ces_of t))) + Z.of_nat (length (t_bytes t))).
  { by rewrite HK0, length_app, Nat2Z.inj_add. }
  destruct multi.
  - assert (Hen : replicate (Z.to_nat o) (padding_subh 0) ++ ces_of (used t) ++ sdus_of (used t) ++ [padding_subh np] =
      E0 ++ [padding_subh np]) by (unfold E0; by rewrite <- !app_assoc).
    rewrite Hen in *.
    destruct (parse_back E0 (padding_subh np) K0 (replicate (Z.to_nat np) 0) rest (t_len t)) as (l & Hl & Hcl);
      [done|rewrite Hle, (Hmo eq_refl); unfold MAX_SUBH; lia|lia|done| |].
    { rewrite concat_app, length_app, Nat2Z.inj_add. cbn [concat]. rewrite app_nil_r, length_replicate. lia. }
    rewrite concat_app, HK0 in Hl, Hcl. cbn [concat] in Hl, Hcl. rewrite app_nil_r in Hl, Hcl.
    rewrite <- !app_assoc in Hl, Hcl. eexists _, l. split; [exact Hw|]. rewrite <- !app_assoc. split_and!; [|exact Hl|].
    + rewrite !length_app, length_replicate, !Nat2Z.inj_add, (length_wr_hdrs _ Hok). lia.
    + unfold carried. rewrite Hcl, fmap_app, zip_with_app, filter_app by (rewrite length_fmap; by apply Forall2_length in Ha).
      rewrite Hc. cbn [fmap list_fmap zip zip_with]. rewrite filter_cons, decide_False by (intros Hx; by apply Hx).
      by rewrite filter_nil, app_nil_r.
  - rewrite app_nil_r in Hok, Hlh, Hw. fold E0 in Hok, Hlh, Hw. destruct (Hmu eq_refl) as [-> _]. cbn [replicate Z.to_nat] in Hw.
    rewrite app_nil_r in Hw. clear Hwh.
    destruct E0 as [|s F _] eqn:EE using rev_ind.
    { specialize (Hne eq_refl). cbn in Hle. destruct (used t); [done|cbn in Hle; lia]. }
    apply Forall2_app_inv_l in Ha as (C & Cs & HC & HCs & EK).
    inversion HCs as [|? c ? ? Hsc Hnil]; subst. inversion Hnil; subst.
    destruct (parse_back F s C c rest (t_len t)) as (l & Hl & Hcl);
      [done|rewrite length_app in Hle; cbn [length] in Hle; unfold MAX_SUBH; lia|lia|done|rewrite <- EK; lia|].
    rewrite <- EK, HK0, <- !app_assoc in Hl, Hcl. eexists _, l. split; [exact Hw|]. rewrite <- !app_assoc. split_and!; [|exact Hl|].
    + rewrite !length_app, !Nat2Z.inj_add, (length_wr_hdrs _ Hok). lia.
    + unfold carried. by rewrite Hcl.
Qed.

(** A block of 24 bytes with a contention resolution identity and a five-byte
    SDU on SRB1. *)
Definition demo_con_res : sch_subh := mk_subh CON_RES_ID 6 None (con_res_bytes 81985529216486895 ++ replicate 58 0).
Definition demo_sdu : sch_subh := mk_subh 1 5 (Some 0) ce_zero.
Definition demo_block : sch_tx :=
  tx_push (tx_push (init_tx (sch_tx_new 20) 24 false) demo_con_res []) demo_sdu [1; 2; 3; 4; 5].

Lemma demo_block_ok : tx_ok demo_block.
Proof.
  assert (H0 : tx_ok (init_tx (sch_tx_new 20) 24 false)).
  { apply init_tx_ok; [done| |lia]. intros s Hs. apply elem_of_replicate in Hs as [-> _]. done. }
  unfold demo_block. apply tx_push_ok; [|done|right; cbn; split_and!; (done || lia)|done|by vm_compute|done].
  apply tx_push_ok; [done|done|by left|done|by vm_compute|done].
Qed.
