(* ===== verification/MacUe.v ===== *)
(** * The MAC entity of one device : [class ue]

    Reception and composition of transport blocks
    ([sonica_enb/stack/mac/ue.cc]), with the bundled queue and pool of receive
    buffers it uses ([third_party/srslte/src/mac/pdu_queue.cc],
    [include/srslte/common/buffer_pool.h]).  The RLC is a parameter: what it is
    given is a list of events, what it delivers is a function. *)
From S2P Require Import Prelude RaNbiot SchedTypes SchedUe UeDb Sched MacPdu DlBlock.

(** ** Receive buffers

    [pdu_t] buffers are numbered; a pointer is a number and an offset.  The pool
    is the stack of available and the vector of used buffers; the queue holds
    the filled ones with their lengths. *)
Record pdu_queue := mk_pdu_queue {
  pq_available : list nat;
  pq_used : list nat;
  pq_q : list (nat * Z);
  pq_mem : list (list Z)
}.
#[export] Instance eta_pdu_queue : Eta pdu_queue := {| eta := fun r =>
  mk_pdu_queue (pq_available r) (pq_used r) (pq_q r) (pq_mem r) |}.

Definition MAX_PDU_LEN : Z := 150 * 1024 / 8.
Definition POOL_CAPACITY : nat := 128.

(** [buffer_pool(128)]: the last buffer pushed is on top. *)
Definition pdu_queue_new : pdu_queue :=
  mk_pdu_queue (rev (seq 0 POOL_CAPACITY)) [] [] (replicate POOL_CAPACITY (replicate (Z.to_nat MAX_PDU_LEN) 0)).

(** [buffer_pool::allocate] in blocking mode.  [Diverge] stands for waiting on
    the condition variable: only another call of [deallocate] ends it. *)
Definition pool_allocate (q : pdu_queue) : res (nat * pdu_queue) :=
  match pq_available q with
  | b :: av => Ok (b, q <| pq_used := pq_used q ++ [b] |> <| pq_available := av |>)
  | [] => Diverge
  end.

(** [used.erase(find(...))] *)
Fixpoint erase_first (b : nat) (l : list nat) : list nat :=
  match l with [] => [] | a :: l' => if decide (a = b) then l' else a :: erase_first b l' end.

(** [buffer_pool::deallocate] of a pointer; only the start of a buffer is
    found. *)
Definition pool_deallocate (q : pdu_queue) (b : nat) (offset : Z) : bool * pdu_queue :=
  if (offset =? 0) && bool_decide (b ∈ pq_used q)
  then (true, q <| pq_used := erase_first b (pq_used q) |> <| pq_available := b :: pq_available q |>)
  else (false, q).

(** [pdu_queue::request] *)
Definition pdu_queue_request (q : pdu_queue) (len : Z) : res (option nat * pdu_queue) :=
  if len >? MAX_PDU_LEN then Ok (None, q)
  else '(b, q) ← pool_allocate q; Ok (Some b, q).

(** [pdu_queue::deallocate] *)
Definition pdu_queue_deallocate (q : pdu_queue) (b : nat) (offset : Z) : pdu_queue :=
  snd (pool_deallocate q b offset).

(** [pdu_queue::push] *)
Definition pdu_queue_push (q : pdu_queue) (b : nat) (len : Z) : pdu_queue :=
  q <| pq_q := pq_q q ++ [(b, len)] |>.

(** ** The entity *)

(** Calls of [rlc_interface_mac::write_pdu]. *)
Record rlc_pdu := mk_rlc_pdu { ev_rnti : Z; ev_lcid : Z; ev_bytes : list Z }.
#[global] Instance rlc_pdu_eq_dec : EqDecision rlc_pdu.
Proof. solve_decision. Defined.

Record mac_ue := mk_mac_ue {
  mu_rnti : Z;
  mu_conres_id : Z;
  mu_last_tti : Z;
  mu_is_phy_added : bool;
  mu_nof_rx_harq_proc : Z;
  mu_pending_buffers : list (option nat);
  mu_pdus : pdu_queue;
  mu_mac_msg_dl : sch_tx;
  mu_tx_payload : Z;                (* tx_payload_buffer.size() *)
  mu_lc_groups : list (list Z)
}.
#[export] Instance eta_mac_ue : Eta mac_ue := {| eta := fun r =>
  mk_mac_ue (mu_rnti r) (mu_conres_id r) (mu_last_tti r) (mu_is_phy_added r) (mu_nof_rx_harq_proc r)
    (mu_pending_buffers r) (mu_pdus r) (mu_mac_msg_dl r) (mu_tx_payload r) (mu_lc_groups r) |}.

Definition SRSLTE_FDD_NOF_HARQ : Z := 8.
Definition SRSLTE_MAX_CARRIERS : Z := 5.
Definition SRSLTE_MAX_TB : Z := 2.

Definition mac_ue_new (rnti_ : Z) : mac_ue :=
  mk_mac_ue rnti_ 0 0 false SRSLTE_FDD_NOF_HARQ (replicate (Z.to_nat SRSLTE_FDD_NOF_HARQ) None) pdu_queue_new
    (sch_tx_new 20) 1 (replicate 4 []).

Definition mu_set_tti (u : mac_ue) (tti : Z) : mac_ue := u <| mu_last_tti := tti |>.

Definition harq_of (u : mac_ue) (tti : Z) : Z := tti mod mu_nof_rx_harq_proc u.

Definition request_buffer (u : mac_ue) (tti len : Z) : res (option nat * mac_ue) :=
  if len >? 0 then
    p ← arr_read (mu_pending_buffers u) (harq_of u tti);
    match p with
    | None =>
        '(b, q) ← pdu_queue_request (mu_pdus u) len;
        v ← arr_write (mu_pending_buffers u) (harq_of u tti) b;
        Ok (b, u <| mu_pdus := q |> <| mu_pending_buffers := v |>)
    | Some _ => Ok (None, u)
    end
  else Ok (None, u).

Definition deallocate_pdu (u : mac_ue) (tti : Z) : res mac_ue :=
  p ← arr_read (mu_pending_buffers u) (harq_of u tti);
  match p with
  | Some b =>
      v ← arr_write (mu_pending_buffers u) (harq_of u tti) None;
      Ok (u <| mu_pdus := pdu_queue_deallocate (mu_pdus u) b 0 |> <| mu_pending_buffers := v |>)
  | None => Ok u
  end.

Definition push_pdu (u : mac_ue) (tti len : Z) : res mac_ue :=
  p ← arr_read (mu_pending_buffers u) (harq_of u tti);
  match p with
  | Some b =>
      v ← arr_write (mu_pending_buffers u) (harq_of u tti) None;
      Ok (u <| mu_pdus := pdu_queue_push (mu_pdus u) b len |> <| mu_pending_buffers := v |>)
  | None => Ok u
  end.

(** The PHY writes the decoded block through the pointer it was given. *)
Definition phy_write (u : mac_ue) (b : nat) (bytes : list Z) : mac_ue :=
  u <| mu_pdus := (mu_pdus u) <| pq_mem := alter (fun m => bytes ++ drop (length bytes) m) b (pq_mem (mu_pdus u)) |> |>.

(** ** Reception *)

Definition process_ce (buf : list Z) (u : mac_ue) (s : sched) (subh : sch_subh) : res (bool * mac_ue * sched) :=
  if sh_lcid subh =? UL_CRNTI then
    old_rnti ← get_c_rnti buf subh;
    Ok (false, if sched_ue_exists s old_rnti then u <| mu_rnti := old_rnti |> else u, s)
  else if (sh_lcid subh =? UL_TRUNC_BSR) || (sh_lcid subh =? UL_SHORT_BSR) then
    '(buff_size, idx) ← get_bsr buf subh;
    if idx =? -1 then Ok (false, u, s)
    else
      v ← arr_read buff_size idx;
      Ok (true, u, snd (sched_ul_bsr s (mu_rnti u) 3 v true))
  else if sh_lcid subh =? UL_LONG_BSR then
    '(buff_size, _) ← get_bsr buf subh;
    s ← foldM (fun s idx =>
          v ← arr_read buff_size idx; lcg ← arr_read (mu_lc_groups u) idx;
          Ok (fold_left (fun s lcid => snd (sched_ul_bsr s (mu_rnti u) lcid v true)) lcg s)) [0; 1; 2; 3] s;
    Ok (true, u, s)
  else Ok (false, u, s).

(** The body of the loop over the control elements. *)
Definition process_ces (buf : list Z) (a : bool * mac_ue * sched) (subh : sch_subh) : res (bool * mac_ue * sched) :=
  let '(r, u, s) := a in
  if sh_is_sdu subh then Ok (r, u, s)
  else '(r', u, s) ← process_ce buf u s subh; Ok (r || r', u, s).

(** The bytes of an SDU. *)
Definition sdu_of (buf : list Z) (subh : sch_subh) : res (list Z) :=
  foldM (fun acc i => b ← payload_byte buf subh i; Ok (acc ++ [b])) (range 0 (Z.to_nat (sh_nof_bytes subh))) [].

(** [ue_cri_ptr[nbytes - i - 1] = pkt_ptr[i]] on a little-endian [uint64_t]. *)
Definition set_conres (conres : Z) (bytes : list Z) : Z :=
  fold_left (fun c '(i, b) =>
    Z.lor (Z.land c (Z.lnot (Z.shiftl 255 (8 * (6 - i - 1))))) (Z.shiftl b (8 * (6 - i - 1))))
    (zip (range 0 6) (take 6 bytes)) conres.

(** State of the loop over the SDUs. *)
Record sdu_loop := mk_sdu_loop {
  sl_conres : Z;
  sl_lcid_most : Z;
  sl_most : Z;
  sl_rlc : list rlc_pdu
}.

(** The body of the loop on one SDU; [rlc] is set whenever a device exists. *)
Definition process_sdu (buf : list Z) (rnti_ : Z) (a : sdu_loop) (subh : sch_subh) : res sdu_loop :=
  if negb (sh_is_sdu subh) then Ok a else
  bytes ← sdu_of buf subh;
  let n := sh_nof_bytes subh in
  let route_pdu := negb ((sh_lcid subh =? 0) && (fold_left (fun s b => u32 (s + b)) bytes 0 =? 0)) in
  let rlc := if route_pdu then sl_rlc a ++ [mk_rlc_pdu rnti_ (sh_lcid subh) bytes] else sl_rlc a in
  let '(lcid_most, most) := if n >? sl_most a then (sh_lcid subh, n) else (sl_lcid_most a, sl_most a) in
  let conres := if (sh_lcid subh =? 0) && route_pdu && (n >=? 6) then set_conres (sl_conres a) bytes else sl_conres a in
  Ok (mk_sdu_loop conres lcid_most most rlc).

(** [ue::process_pdu] of buffer [b] with [nof_bytes] bytes: the entity, the
    scheduler and the PDUs given to the RLC.  A block whose first subheader has
    LCID 0 carries a DPR byte after it, and is read from its second byte on. *)
Definition process_pdu (u : mac_ue) (s : sched) (b : nat) (nof_bytes : Z) :
    res (mac_ue * sched * list rlc_pdu) :=
  m ← match pq_mem (mu_pdus u) !! b with Some m => Ok m | None => UB DanglingPtr end;
  b0 ← arr_read m 0;
  '(m, offset, nof_bytes, dpr) ← (if Z.land b0 31 =? 0 then
      d ← arr_read m 1; m ← arr_write m 1 b0; Ok (m, 1, u32 (nof_bytes - 1), d)
    else Ok (m, 0, nof_bytes, 0));
  let u := u <| mu_pdus := (mu_pdus u) <| pq_mem := <[b := m]> (pq_mem (mu_pdus u)) |> |> in
  let buf := drop (Z.to_nat offset) m in
  l ← sch_parse_packet true MAX_SUBH nof_bytes buf;
  let u := u <| mu_pdus := pdu_queue_deallocate (mu_pdus u) b offset |> in
  '(bsr_received, u, s) ← foldM (process_ces buf) l (false, u, s);
  a ← foldM (process_sdu buf (mu_rnti u)) l (mk_sdu_loop (mu_conres_id u) 0 (-99) []);
  let u := u <| mu_conres_id := sl_conres a |> in
  let s := if negb (dpr =? 0)
           then snd (sched_ul_wait_timer (snd (sched_ul_bsr s (mu_rnti u) (sl_lcid_most a) 125 false)) (mu_rnti u) 30 true)
           else s in
  let s := if negb bsr_received && (sl_lcid_most a >? 2)
           then snd (sched_ul_bsr s (mu_rnti u) (sl_lcid_most a) 125 false) else s in
  Ok (u, s, sl_rlc a).

(** [pdu_queue::process_pdus] with the entity as callback; nothing is pushed
    while it runs, so the queue's length bounds the loop. *)
Fixpoint process_pdus_loop (fuel : nat) (u : mac_ue) (s : sched) (out : list rlc_pdu) (have_data : bool) :
    res (bool * mac_ue * sched * list rlc_pdu) :=
  match pq_q (mu_pdus u) with
  | [] => Ok (have_data, u, s, out)
  | (b, len) :: q =>
      match fuel with
      | O => Diverge
      | S f =>
          '(u, s, o) ← process_pdu (u <| mu_pdus := (mu_pdus u) <| pq_q := q |> |>) s b len;
          process_pdus_loop f u s (out ++ o) true
      end
  end.
Definition mu_process_pdus (u : mac_ue) (s : sched) : res (bool * mac_ue * sched * list rlc_pdu) :=
  process_pdus_loop (length (pq_q (mu_pdus u))) u s [] false.

(** ** Composition *)
Section Composition.
(** [rlc->read_pdu(rnti, lcid, payload, requested_bytes)] *)
Context {S : Type} (read_pdu : Z -> S -> Z -> Z -> Z * list Z * S).

(** The loop of [allocate_sdu]. *)
Fixpoint allocate_sdu_loop (fuel : nat) (rnti_ : Z) (t : sch_tx) (st : S) (lcid_ sdu_len n : Z) : res (sch_tx * S) :=
  if (sdu_len >=? 2) && (n >? 0) then
    match fuel with
    | O => Diverge
    | Datatypes.S f =>
        let '(ok, t) := new_subh t in
        if ok then
          '(n, t, st) ← set_sdu (read_pdu rnti_) t st lcid_ sdu_len;
          if n >? 0 then allocate_sdu_loop f rnti_ t st lcid_ (sdu_len - n) n
          else allocate_sdu_loop f rnti_ (del_subh t) st lcid_ sdu_len n
        else allocate_sdu_loop f rnti_ t st lcid_ sdu_len 0
    end
  else Ok (t, st).

Definition allocate_sdu (rnti_ : Z) (t : sch_tx) (st : S) (lcid_ total_sdu_len : Z) : res (sch_tx * S) :=
  sdu_space ← get_sdu_space t;
  if sdu_space >? 0 then
    let sdu_len := i32 (Z.min total_sdu_len (u32 sdu_space)) in
    allocate_sdu_loop (Datatypes.S (Z.to_nat sdu_len)) rnti_ t st lcid_ sdu_len 1
  else Ok (t, st).

Definition allocate_ce (conres : Z) (t : sch_tx) (lcid_ : Z) : res sch_tx :=
  if lcid_ =? CON_RES_ID then
    let '(ok, t) := new_subh t in
    if ok then '(_, t) ← set_con_res_id t conres; Ok t else Ok t
  else Ok t.

(** One element of the scheduler's list; up to PHR_REPORT it is an SDU. *)
Definition allocate_elem (rnti_ conres : Z) (a : sch_tx * S) (e : dl_sched_pdu_t) : res (sch_tx * S) :=
  let '(t, st) := a in
  if lcid e <=? UL_PHR_REPORT then allocate_sdu rnti_ t st (lcid e) (nbytes e)
  else t ← allocate_ce conres t (lcid e); Ok (t, st).

(** [ue::generate_pdu]: the block, or a null pointer. *)
Definition generate_pdu (u : mac_ue) (st : S) (ue_cc_idx harq_pid tb_idx : Z) (pdu : list dl_sched_pdu_t)
    (grant_size : Z) : res (option (list Z) * mac_ue * S) :=
  if (ue_cc_idx <? SRSLTE_MAX_CARRIERS) && (harq_pid <? SRSLTE_FDD_NOF_HARQ) && (tb_idx <? SRSLTE_MAX_TB) then
    ub_unless (ue_cc_idx <? mu_tx_payload u) OobRead (
    '(t, st) ← foldM (allocate_elem (mu_rnti u) (mu_conres_id u)) pdu (init_tx (mu_mac_msg_dl u) grant_size false, st);
    r ← write_packet t;
    Ok (r, u <| mu_mac_msg_dl := t |>, st))
  else Ok (None, u, st).
End Composition.

(** *** Facts on composition *)

(** What the upper layer delivered on the way from one state to another. *)
Inductive delivers {S} (rd : S -> Z -> Z -> Z * list Z * S) : S -> list (Z * list Z) -> S -> Prop :=
| delivers_nil st : delivers rd st [] st
| delivers_none st lcid_ req n bytes st1 ds st' :
    rd st lcid_ req = (n, bytes, st1) -> n <= 0 -> delivers rd st1 ds st' -> delivers rd st ds st'
| delivers_sdu st lcid_ req n bytes st1 ds st' :
    rd st lcid_ req = (n, bytes, st1) -> 0 < n -> delivers rd st1 ds st' ->
    delivers rd st ((lcid_, bytes) :: ds) st'.

Lemma delivers_app {S} (rd : S -> Z -> Z -> Z * list Z * S) st ds1 st1 ds2 st2 :
  delivers rd st ds1 st1 -> delivers rd st1 ds2 st2 -> delivers rd st (ds1 ++ ds2) st2.
Proof.
  intros H; revert st2; induction H as [|st l r n b st1 ds st' E Hn _ IH|st l r n b st1 ds st' E Hn _ IH];
    intros st2 H2; cbn; [done|..].
  - by eapply delivers_none, IH.
  - by eapply delivers_sdu, IH.
Qed.

(** Block [t'] is block [t] with the SDUs [ds] added. *)
Record extends (t t' : sch_tx) (ds : list (Z * list Z)) : Prop := mk_extends {
  ext_len : t_len t' = t_len t;
  ext_ces : tx_ces_of t' = tx_ces_of t;
  ext_sdus : tx_sdus_of t' = tx_sdus_of t ++ ((fun d => (d.1, sdu_size d)) <$> ds);
  ext_bytes : t_bytes t' = t_bytes t ++ concat (snd <$> ds)
}.

Lemma extends_refl t : extends t t [].
Proof. split; cbn; by rewrite ?app_nil_r. Qed.

Lemma extends_trans t t1 t2 ds1 ds2 : extends t t1 ds1 -> extends t1 t2 ds2 -> extends t t2 (ds1 ++ ds2).
Proof.
  intros [E1 E2 E3 E4] [F1 F2 F3 F4]. split; [congruence..| |].
  - by rewrite F3, E3, fmap_app, app_assoc.
  - by rewrite F4, E4, fmap_app, concat_app, app_assoc.
Qed.

Lemma same_block_extends t t' : same_block t t' -> extends t t' [].
Proof.
  intros (E1 & _ & _ & _ & E5 & E6). split; unfold tx_ces_of, tx_sdus_of, ces_of, sdus_of; rewrite ?E1, ?E5, ?E6; cbn; by rewrite ?app_nil_r.
Qed.

Lemma tx_push_extends t s bytes :
  tx_ok t -> t_nof t < 19 -> sh_is_sdu s = true -> sh_nof_bytes s = Z.of_nat (length bytes) ->
  extends t (tx_push t s bytes) [(sh_lcid s, bytes)].
Proof.
  intros H Hn Hs Hb. split; [done|..].
  - unfold tx_ces_of, ces_of. rewrite used_push, filter_app, filter_cons by done.
    rewrite decide_False by congruence. by rewrite filter_nil, app_nil_r.
  - unfold tx_sdus_of, sdus_of. rewrite used_push, filter_app, filter_cons by done.
    rewrite decide_True by done. rewrite filter_nil, fmap_app. cbn. unfold sdu_size. cbn. by rewrite Hb.
  - cbn. by rewrite app_nil_r.
Qed.

Lemma new_subh_full t : t_nof t >= Z.of_nat (length (t_vec t)) - 1 \/ t_rem t <= 0 -> new_subh t = (false, t).
Proof.
  intros H. unfold new_subh. destruct (Z.ltb_spec (t_nof t) (Z.of_nat (length (t_vec t)) - 1)); [|done].
  destruct (Z.gtb_spec (t_rem t) 0); [lia|done].
Qed.

Section CompositionFacts.
Context {S : Type} (read_pdu : Z -> S -> Z -> Z -> Z * list Z * S).
Context (Hrd : forall r, reader_ok (read_pdu r)).

(** The loop over one channel: it ends, and what the upper layer delivers is
    in the block. *)
Lemma allocate_sdu_loop_ok fuel rnti_ t st lcid_ sdu_len n :
  tx_ok t -> 0 <= lcid_ -> is_sdu lcid_ = true -> sdu_len <= 1000 -> sdu_len <= Z.of_nat fuel ->
  exists t' st' ds, allocate_sdu_loop read_pdu fuel rnti_ t st lcid_ sdu_len n = Ok (t', st') /\
    tx_ok t' /\ extends t t' ds /\ delivers (read_pdu rnti_) st ds st' /\
    Forall (fun d => d.1 = lcid_) ds /\ zsum sdu_size ds <= Z.max 0 sdu_len.
Proof.
  revert t st sdu_len n; induction fuel as [|fuel IH]; intros t st sdu_len n H Hl Hsd Hmax Hfuel;
    cbn [allocate_sdu_loop].
  { destruct (Z.geb_spec sdu_len 2); [lia|]. cbn [andb]. exists t, st, [].
    split_and!; [done|done|apply extends_refl|constructor|constructor|cbn; lia]. }
  destruct (Z.geb_spec sdu_len 2); cbn [andb].
  2:{ exists t, st, []. split_and!; [done|done|apply extends_refl|constructor|constructor|cbn; lia]. }
  assert (Hstop : forall t1 st1 n1, n1 <= 0 -> allocate_sdu_loop read_pdu fuel rnti_ t1 st1 lcid_ sdu_len n1 = Ok (t1, st1)).
  { intros t1 st1 n1 Hn1. destruct fuel; cbn [allocate_sdu_loop];
      (destruct (Z.gtb_spec n1 0); [lia|]); by rewrite andb_false_r. }
  destruct (Z.gtb_spec n 0).
  2:{ exists t, st, []. split_and!; [done|done|apply extends_refl|constructor|constructor|cbn; lia]. }
  destruct (tx_vec _ H) as [Hv _].
  destruct (decide (t_nof t < 19 /\ 0 < t_rem t)) as [[Hn Hr]|Hno].
  2:{ rewrite new_subh_full, Hstop by lia. exists t, st, [].
      split_and!; [done|done|apply extends_refl|constructor|constructor|cbn; lia]. }
  destruct (add_sdu_ok (read_pdu rnti_) t st lcid_ sdu_len (Hrd rnti_) H Hn Hr Hl Hsd ltac:(lia))
    as (m & t1 & st1 & E & Hcase).
  rewrite (new_subh_ok t H Hn Hr) in E |- *. cbn [snd] in E. rewrite E, bind_ok_l.
  destruct Hcase as [(s & bytes & Hm & Erd & -> & Hok & Hlc & Hnb)|(Hm & Hok & Hsame & Hst)].
  - destruct (Z.gtb_spec m 0); [|lia].
    destruct (Hrd rnti_ _ _ _ _ _ _ Erd) as [_ Hlen]; [lia|].
    destruct (IH (tx_push t s bytes) st1 (sdu_len - m) m Hok Hl Hsd) as (t' & st' & ds & -> & Hok' & He & Hd & Hf & Hz);
      [lia|lia|].
    exists t', st', ((lcid_, bytes) :: ds). split_and!; try done.
    + eapply (extends_trans _ _ _ [_]); [|exact He]. rewrite <- Hlc.
      apply tx_push_extends; try done; [unfold sh_is_sdu; by rewrite Hlc|lia].
    + by eapply delivers_sdu; [exact Erd|lia|].
    + by constructor.
    + rewrite zsum_cons. unfold sdu_size at 1. cbn [snd]. lia.
  - destruct (Z.gtb_spec m 0); [lia|]. rewrite Hstop by done. exists (del_subh t1), st1, [].
    split_and!; try done; [by apply same_block_extends| |cbn; lia].
    destruct Hst as [->|(n0 & bytes & Hn0 & Erd)]; [constructor|].
    eapply delivers_none; [exact Erd|done|constructor].
Qed.

Lemma allocate_sdu_ok rnti_ t st lcid_ total :
  tx_ok t -> 0 <= lcid_ -> is_sdu lcid_ = true -> 0 <= total < 2 ^ 31 ->
  exists t' st' ds, allocate_sdu read_pdu rnti_ t st lcid_ total = Ok (t', st') /\
    tx_ok t' /\ extends t t' ds /\ delivers (read_pdu rnti_) st ds st' /\
    Forall (fun d => d.1 = lcid_) ds /\ zsum sdu_size ds <= total.
Proof.
  intros H Hl Hsd Htot. unfold allocate_sdu. rewrite (get_sdu_space_ok t H), bind_ok_l.
  set (sp := Z.max 0 (t_rem t - 1 - last_slack t)).
  destruct (Z.gtb_spec sp 0).
  2:{ exists t, st, []. split_and!; [done|done|apply extends_refl|constructor|constructor|cbn; lia]. }
  destruct (tx_len _ H) as [Hlen Hr0]. pose proof (last_slack_range t).
  assert (t_rem t <= 1002).
  { pose proof (tx_rem _ H). assert (0 <= zsum size_plus_header (used t)); [|lia].
    apply zsum_nonneg. intros s' Hs'. pose proof (subh_tx_ok_bytes s' (tx_subhs _ H s' Hs')). lia. }
  assert (Hsp : sp <= 1001) by (unfold sp; lia). rewrite u32_id, i32_id by lia.
  assert (Hsp' : sp <= 1000).
  { unfold sp. pose proof (tx_rem _ H) as Hrem. destruct (Z.ltb_spec (t_last_sdu t) 0).
    - unfold last_slack in *. replace (t_last_sdu t <? 0) with true in * by lia.
      assert (0 <= zsum size_plus_header (used t)); [|lia].
      apply zsum_nonneg. intros s' Hs'. pose proof (subh_tx_ok_bytes s' (tx_subhs _ H s' Hs')). lia.
    - destruct (tx_last_sdu _ H) as (s & Hs & Hsds); [lia|]. apply list_elem_of_lookup_2 in Hs.
      assert (1 <= zsum size_plus_header (used t)); [|lia].
      pose proof (subh_tx_ok_bytes s (tx_subhs _ H s Hs)).
      assert (size_plus_header s <= zsum size_plus_header (used t)); [|lia].
      apply zsum_elem_le; [|done]. intros s' Hs'. pose proof (subh_tx_ok_bytes s' (tx_subhs _ H s' Hs')). lia. }
  destruct (allocate_sdu_loop_ok (Datatypes.S (Z.to_nat (Z.min total sp))) rnti_ t st lcid_ (Z.min total sp) 1)
    as (t' & st' & ds & -> & ? & ? & ? & ? & ?); try done; try lia.
  exists t', st', ds. split_and!; try done. lia.
Qed.
End CompositionFacts.

(** The contention resolution elements of a list. *)
Definition con_res_elems (l : list dl_sched_pdu_t) : list dl_sched_pdu_t := filter (fun e => lcid e = CON_RES_ID) l.

Lemma tx_push_ce t s :
  tx_ok t -> t_nof t < 19 -> sh_is_sdu s = false ->
  tx_ces_of (tx_push t s []) = tx_ces_of t ++ [take 6 (sh_ce s)] /\ tx_sdus_of (tx_push t s []) = tx_sdus_of t.
Proof.
  intros H Hn Hs. unfold tx_ces_of, tx_sdus_of, ces_of, sdus_of. rewrite used_push by done. split.
  - rewrite filter_app, filter_cons, decide_True, filter_nil, fmap_app by done. done.
  - rewrite filter_app, filter_cons, decide_False, filter_nil, app_nil_r by congruence. done.
Qed.

Section CompositionAll.
Context {S : Type} (read_pdu : Z -> S -> Z -> Z -> Z * list Z * S).
Context (Hrd : forall r, reader_ok (read_pdu r)).

Lemma allocate_elem_ce rnti_ conres t (st : S) e : UL_PHR_REPORT < lcid e ->
  allocate_elem read_pdu rnti_ conres (t, st) e = (t ← allocate_ce conres t (lcid e); Ok (t, st)).
Proof. intros He. unfold allocate_elem. by replace (lcid e <=? UL_PHR_REPORT) with false by lia. Qed.

Lemma allocate_elem_sdu rnti_ conres t (st : S) e : lcid e <= UL_PHR_REPORT ->
  allocate_elem read_pdu rnti_ conres (t, st) e = allocate_sdu read_pdu rnti_ t st (lcid e) (nbytes e).
Proof. intros He. unfold allocate_elem. by replace (lcid e <=? UL_PHR_REPORT) with true by lia. Qed.

(** Control elements for which there is room. *)
Lemma allocate_ces_ok rnti_ conres ces t (st : S) :
  tx_ok t -> (forall e, e ∈ ces -> UL_PHR_REPORT < lcid e) ->
  t_nof t + Z.of_nat (length ces) <= 19 -> 7 * Z.of_nat (length (con_res_elems ces)) <= t_rem t ->
  exists t', foldM (allocate_elem read_pdu rnti_ conres) ces (t, st) = Ok (t', st) /\ tx_ok t' /\
    t_len t' = t_len t /\ t_bytes t' = t_bytes t /\ tx_sdus_of t' = tx_sdus_of t /\
    tx_ces_of t' = tx_ces_of t ++ replicate (length (con_res_elems ces)) (con_res_bytes conres).
Proof.
  revert t; induction ces as [|e ces IH]; intros t H Hl Hn Hr.
  { exists t. cbn. rewrite app_nil_r. by split_and!. }
  assert (Hl' : forall e, e ∈ ces -> UL_PHR_REPORT < lcid e) by (intros; apply Hl; by apply list_elem_of_further).
  specialize (Hl e (list_elem_of_here _ _)).
  unfold con_res_elems in *. rewrite filter_cons in *. cbn [length] in Hn.
  cbn [foldM]. rewrite allocate_elem_ce by done. unfold allocate_ce at 1. destruct (Z.eqb_spec (lcid e) CON_RES_ID) as [He|He].
  - rewrite decide_True in * by done. cbn [length] in *.
    destruct (add_con_res_ok t conres H) as (s & E & Hok & Hsl & Hsn & Hsc); [lia|lia|].
    rewrite (new_subh_ok t H) in E |- * by lia. cbn [snd] in E. rewrite E, !bind_ok_l.
    assert (Hsd : sh_is_sdu s = false) by (unfold sh_is_sdu; by rewrite Hsl).
    destruct (tx_push_ce t s H ltac:(lia) Hsd) as [Ec Es].
    assert (Hcost : cost t s = 7) by (unfold cost; by rewrite Hsd, Hsn).
    destruct (IH (tx_push t s [])) as (t' & E' & Hok' & Elen & Eb & Esd & Ece); try done.
    { cbn [tx_push t_nof]. lia. }
    { cbn [tx_push t_rem]. rewrite Hcost. lia. }
    exists t'. split_and!; try done.
    + cbn [tx_push t_bytes] in Eb. by rewrite app_nil_r in Eb.
    + by rewrite Esd.
    + rewrite Ece, Ec, Hsc, <- app_assoc. done.
  - rewrite decide_False in * by done. rewrite !bind_ok_l. apply IH; (done || lia).
Qed.

(** SDUs of several channels. *)
Lemma allocate_sdus_ok rnti_ conres sdus t (st : S) :
  tx_ok t -> (forall e, e ∈ sdus -> 0 <= lcid e <= RESERVED /\ 0 <= nbytes e < 2 ^ 31) ->
  exists t' st' dss, foldM (allocate_elem read_pdu rnti_ conres) sdus (t, st) = Ok (t', st') /\ tx_ok t' /\
    extends t t' (concat dss) /\ delivers (read_pdu rnti_) st (concat dss) st' /\
    Forall2 (fun e ds => Forall (fun d => d.1 = lcid e) ds /\ zsum sdu_size ds <= nbytes e) sdus dss.
Proof.
  revert t st; induction sdus as [|e sdus IH]; intros t st H Hl.
  { exists t, st, []. split_and!; [done|done|apply extends_refl|constructor|constructor]. }
  destruct (Hl e (list_elem_of_here _ _)) as [He1 He2]. unfold RESERVED in He1.
  cbn [foldM]. rewrite allocate_elem_sdu by (unfold UL_PHR_REPORT; lia).
  destruct (allocate_sdu_ok read_pdu Hrd rnti_ t st (lcid e) (nbytes e)) as (t1 & st1 & ds & -> & H1 & He & Hd & Hf & Hz);
    [done|lia|unfold is_sdu, RESERVED; lia|done|].
  rewrite bind_ok_l. destruct (IH t1 st1 H1) as (t' & st' & dss & -> & H' & He' & Hd' & Hf').
  { intros; apply Hl; by apply list_elem_of_further. }
  exists t', st', (ds :: dss). cbn [concat]. split_and!; try done.
  - by eapply extends_trans.
  - by eapply delivers_app.
  - by constructor.
Qed.

(** The transmit state of a device, as created and as every block leaves it. *)
Definition dl_wf (u : mac_ue) : Prop :=
  length (t_vec (mu_mac_msg_dl u)) = 20%nat /\ (forall s, s ∈ t_vec (mu_mac_msg_dl u) -> length (sh_ce s) = 64%nat) /\
  mu_tx_payload u = 1.

Lemma generate_pdu_ok u st pid tb ces sdus grant :
  dl_wf u -> pid < SRSLTE_FDD_NOF_HARQ -> tb < SRSLTE_MAX_TB ->
  2 < grant <= 1000 -> Z.of_nat (length ces) <= MAX_RLC_PDU_LIST ->
  (forall e, e ∈ ces -> UL_PHR_REPORT < lcid e) -> 7 * Z.of_nat (length (con_res_elems ces)) <= grant ->
  (forall e, e ∈ sdus -> 0 <= lcid e <= RESERVED /\ 0 <= nbytes e < 2 ^ 31) ->
  exists block u' st' dss,
    generate_pdu read_pdu u st 0 pid tb (ces ++ sdus) grant = Ok (Some block, u', st') /\
    Z.of_nat (length block) = grant /\ dl_wf u' /\
    delivers (read_pdu (mu_rnti u)) st (concat dss) st' /\
    Forall2 (fun e ds => Forall (fun d => d.1 = lcid e) ds /\ zsum sdu_size ds <= nbytes e) sdus dss /\
    ((length (con_res_elems ces) + length (concat dss) <= 17)%nat -> forall rest, exists l,
       sch_parse_packet false MAX_SUBH grant (block ++ rest) = Ok l /\
       carried (block ++ rest) l =
         replicate (length (con_res_elems ces)) (CON_RES_ID, con_res_bytes (mu_conres_id u)) ++ concat dss).
Proof.
  intros (Hv & Hvc & Htx) Hpid Htb Hg Hnce Hces Hfit Hsdus. unfold MAX_RLC_PDU_LIST in Hnce.
  pose proof (init_tx_ok (mu_mac_msg_dl u) grant Hv Hvc ltac:(lia)) as H0.
  set (t0 := init_tx (mu_mac_msg_dl u) grant false) in *.
  destruct (allocate_ces_ok (mu_rnti u) (mu_conres_id u) ces t0 st H0 Hces) as (t1 & E1 & H1 & L1 & B1 & S1 & C1);
    [cbn; lia|cbn; lia|].
  destruct (allocate_sdus_ok (mu_rnti u) (mu_conres_id u) sdus t1 st H1 Hsdus)
    as (t2 & st2 & dss & E2 & H2 & He & Hd & Hf).
  assert (Hc0 : tx_ces_of t0 = [] /\ tx_sdus_of t0 = []) by done. destruct Hc0 as [Hc0 Hs0].
  rewrite Hc0 in C1. rewrite Hs0 in S1. change (t_bytes t0) with (@nil Z) in B1. change (t_len t0) with grant in L1.
  destruct He as [EL EC ES EB]. rewrite L1 in EL. rewrite C1 in EC. rewrite S1 in ES. rewrite B1 in EB.
  cbn [app] in EC, ES, EB.
  destruct (write_packet_form t2 H2) as (multi & o & np & Hw & Hsz & Ho & Hnp & Hmo & Hmu).
  set (block := _ ++ _ ++ _) in Hw.
  assert (Hlen : Z.of_nat (length block) = grant).
  { pose proof (length_headers t2 multi o np H2 ltac:(lia) Hmo). unfold block.
    rewrite !length_app, length_replicate, !Nat2Z.inj_add. lia. }
  exists block, (u <| mu_mac_msg_dl := t2 |>), st2, dss. split_and!; try done.
  - unfold generate_pdu. unfold SRSLTE_MAX_CARRIERS.
    replace (_ && _) with true by lia. rewrite Htx. cbn [ub_unless Z.ltb Z.compare].
    rewrite foldM_app. fold t0. rewrite E1, bind_ok_l, E2, bind_ok_l, Hw. done.
  - destruct (tx_vec _ H2) as [? ?]. split_and!; done.
  - intros Hn rest.
    assert (Hnof : t_nof t2 <= 17).
    { rewrite <- (used_length t2 H2). pose proof (length_entries t2 0) as Hle. cbn [replicate app] in Hle.
      assert (length (ces_of (used t2)) = length (con_res_elems ces)).
      { apply (f_equal length) in EC. unfold tx_ces_of in EC. by rewrite length_fmap, length_replicate in EC. }
      assert (length (sdus_of (used t2)) = length (concat dss)).
      { apply (f_equal length) in ES. unfold tx_sdus_of in ES. by rewrite !length_fmap in ES. }
      rewrite length_app in Hle. lia. }
    destruct (write_read_block t2 (concat dss) rest H2 Hnof ltac:(lia) ES EB) as (b & l & Eb & _ & Hl & Hcar).
    rewrite Hw in Eb. injection Eb as <-. rewrite EL in Hl. exists l. split; [done|].
    by rewrite Hcar, EC, fmap_replicate.
Qed.

(** C3. The block for a downlink grant.  For a list as the scheduler makes
    it, control elements that fit first and then logical channels, a block is
    generated and has exactly the size of the grant, whatever the RLC
    delivers: every byte the RLC gave out is in it, no channel delivers more
    than the scheduler allowed it, and the device reads from it the
    contention resolution identity and the SDUs in order (as long as they are
    at most seventeen). *)
Theorem generate_pdu_exact u st pid tb ces sdus grant :
  dl_wf u -> pid < SRSLTE_FDD_NOF_HARQ -> tb < SRSLTE_MAX_TB ->
  2 < grant <= 1000 -> Z.of_nat (length ces) <= MAX_RLC_PDU_LIST ->
  (forall e, e ∈ ces -> UL_PHR_REPORT < lcid e) -> 7 * Z.of_nat (length (con_res_elems ces)) <= grant ->
  (forall e, e ∈ sdus -> 0 <= lcid e <= RESERVED /\ 0 <= nbytes e < 2 ^ 31) ->
  exists block u' st' dss,
    generate_pdu read_pdu u st 0 pid tb (ces ++ sdus) grant = Ok (Some block, u', st') /\
    Z.of_nat (length block) = grant /\ dl_wf u' /\
    delivers (read_pdu (mu_rnti u)) st (concat dss) st' /\
    Forall2 (fun e ds => Forall (fun d => d.1 = lcid e) ds /\ zsum sdu_size ds <= nbytes e) sdus dss /\
    ((length (con_res_elems ces) + length (concat dss) <= 17)%nat -> forall rest, exists l,
       sch_parse_packet false MAX_SUBH grant (block ++ rest) = Ok l /\
       carried (block ++ rest) l =
         replicate (length (con_res_elems ces)) (CON_RES_ID, con_res_bytes (mu_conres_id u)) ++ concat dss).
Proof. apply generate_pdu_ok. Qed.
End CompositionAll.

(** An RLC with one queue of bytes. *)
Definition demo_rlc (_ : Z) (st : list Z) (_ req : Z) : Z * list Z * list Z :=
  let n := Z.min req (Z.of_nat (length st)) in (n, take (Z.to_nat n) st, drop (Z.to_nat n) st).

Lemma demo_rlc_ok r : reader_ok (demo_rlc r).
Proof. intros st l req n bytes st' [= <- <- <-] Hn. rewrite length_take. lia. Qed.

Lemma mac_ue_new_dl_wf r : dl_wf (mac_ue_new r).
Proof. split_and!; [done| |done]. intros s Hs. cbn [mac_ue_new mu_mac_msg_dl sch_tx_new t_vec] in Hs.
  apply elem_of_replicate in Hs as [-> _]. done. Qed.

Lemma generate_pdu_exact_witness :
  reader_ok (demo_rlc 4097) /\
  exists block u' st' dss,
    generate_pdu demo_rlc (mac_ue_new 4097) [1; 2; 3; 4; 5; 6] 0 0 0 ([mk_pdu CON_RES_ID 0] ++ [mk_pdu 0 20; mk_pdu 1 9]) 40 =
      Ok (Some block, u', st') /\
    Z.of_nat (length block) = 40 /\ dl_wf u' /\
    delivers (demo_rlc 4097) [1; 2; 3; 4; 5; 6] (concat dss) st' /\
    Forall2 (fun e ds => Forall (fun d => d.1 = lcid e) ds /\ zsum sdu_size ds <= nbytes e) [mk_pdu 0 20; mk_pdu 1 9] dss /\
    ((length (con_res_elems [mk_pdu CON_RES_ID 0]) + length (concat dss) <= 17)%nat -> forall rest, exists l,
       sch_parse_packet false MAX_SUBH 40 (block ++ rest) = Ok l /\
       carried (block ++ rest) l =
         replicate (length (con_res_elems [mk_pdu CON_RES_ID 0])) (CON_RES_ID, con_res_bytes 0) ++ concat dss).
Proof.
  split; [apply demo_rlc_ok|].
  apply (generate_pdu_exact demo_rlc demo_rlc_ok (mac_ue_new 4097) [1; 2; 3; 4; 5; 6] 0 0 [mk_pdu CON_RES_ID 0]
    [mk_pdu 0 20; mk_pdu 1 9] 40); [apply mac_ue_new_dl_wf|done|done|lia|done| |done|].
  - by intros e ->%list_elem_of_singleton.
  - intros e [->|[->|[]%elem_of_nil]%elem_of_cons]%elem_of_cons; by vm_compute.
Defined.
