(* ===== verification/MacUeRx.v ===== *)
(** * Reception of uplink blocks

    What the MAC entity of a device does with a block received from the air, and
    what becomes of the receive buffers. *)
From S2P Require Import Prelude SchedTypes SchedUe UeDb Sched MacPdu DlBlock MacUe.

(** ** The contention resolution identity *)

Lemma set_conres_step c k b : 0 <= k -> 0 <= b < 256 ->
  forall i, 0 <= i ->
  Z.testbit (Z.lor (Z.land c (Z.lnot (Z.shiftl 255 (8 * k)))) (Z.shiftl b (8 * k))) i =
    if (8 * k <=? i) && (i <? 8 * k + 8) then Z.testbit b (i - 8 * k) else Z.testbit c i.
Proof.
  intros Hk Hb i Hi. rewrite Z.lor_spec, Z.land_spec, Z.lnot_spec, !Z.shiftl_spec by lia.
  change 255 with (Z.ones 8).
  destruct (Z.leb_spec (8 * k) i); cbn [andb].
  - rewrite Z.testbit_ones by lia. replace (0 <=? i - 8 * k) with true by lia.
    destruct (Z.ltb_spec i (8 * k + 8)).
    + replace (i - 8 * k <? 8) with true by lia. cbn. by rewrite andb_false_r.
    + replace (i - 8 * k <? 8) with false by lia. cbn. rewrite andb_true_r.
      rewrite (Z.bits_above_log2 b (i - 8 * k)); [by rewrite orb_false_r|lia|].
      destruct (decide (b = 0)) as [->|]; [cbn; lia|]. apply Z.log2_lt_pow2; [lia|].
      apply Z.lt_le_trans with (2 ^ 8); [cbn; lia|]. apply Z.pow_le_mono_r; lia.
  - rewrite !(Z.testbit_neg_r _ (i - 8 * k)) by lia. cbn. by rewrite andb_true_r, orb_false_r.
Qed.

(** One byte of an integer. *)
Lemma u8_byte_bits z b : 0 <= b < 256 ->
  (forall i, 0 <= i < 8 -> Z.testbit z i = Z.testbit b i) -> u8 z = b.
Proof.
  intros Hb H. unfold u8. apply Z.bits_inj'. intros i Hi. destruct (Z.ltb_spec i 8).
  - rewrite Z.mod_pow2_bits_low by lia. apply H. lia.
  - rewrite Z.mod_pow2_bits_high by lia. symmetry.
    destruct (decide (b = 0)) as [->|]; [apply Z.bits_0|]. apply Z.bits_above_log2; [lia|].
    apply Z.lt_le_trans with 8; [apply Z.log2_lt_pow2; cbn; lia|lia].
Qed.

(** The identity the eNodeB sends back is made of the six bytes it took. *)
Lemma con_res_bytes_set c b0 b1 b2 b3 b4 b5 l :
  Forall is_byte [b0; b1; b2; b3; b4; b5] ->
  con_res_bytes (set_conres c (b0 :: b1 :: b2 :: b3 :: b4 :: b5 :: l)) = [b0; b1; b2; b3; b4; b5].
Proof.
  rewrite !Forall_cons. unfold is_byte. intros (H0 & H1 & H2 & H3 & H4 & H5 & _).
  unfold set_conres. change (take 6 (b0 :: b1 :: b2 :: b3 :: b4 :: b5 :: l)) with [b0; b1; b2; b3; b4; b5].
  change (range 0 6) with [0; 1; 2; 3; 4; 5]. cbn [zip zip_with fold_left].
  unfold con_res_bytes. cbn [fmap list_fmap].
  repeat f_equal; (apply u8_byte_bits; [done|]); intros i Hi; rewrite Z.shiftr_spec by lia;
    rewrite !set_conres_step by lia;
    repeat (match goal with |- context [if (?a <=? ?b) && (?c <? ?d) then _ else _] =>
      first [ replace ((a <=? b) && (c <? d)) with true by lia
            | replace ((a <=? b) && (c <? d)) with false by lia ] end); cbn beta iota; f_equal; lia.
Qed.

(** ** The parts of a parsed block *)

(** Where the payloads of an accepted block lie. *)
Definition within (buf : list Z) (l : list sch_subh) : Prop :=
  forall s, s ∈ l -> exists o, sh_payload s = Some o /\ 0 <= o /\ 0 <= sh_nof_bytes s /\
    o + sh_nof_bytes s + 3 <= Z.of_nat (length buf).

Lemma payloads_from_nonneg p l q : payloads_from p l q -> forall s, s ∈ l -> 0 <= sh_nof_bytes s.
Proof. induction 1 as [|p s l q Hs Hn Hl IH]; intros s' Hs'; [by apply elem_of_nil in Hs'|].
  apply elem_of_cons in Hs' as [->|Hs']; [done|by apply IH]. Qed.

Lemma sch_parse_within is_ul len buf :
  0 < len < 2 ^ 30 -> len + 24 <= Z.of_nat (length buf) ->
  exists l, sch_parse_packet is_ul MAX_SUBH len buf = Ok l /\ within buf l /\ (length l <= 19)%nat.
Proof.
  intros Hlen Hbuf. destruct (sch_parse_extent is_ul len buf Hlen ltac:(lia)) as (l & E & Hl).
  exists l. split; [done|]. destruct Hl as [->|(front & s & pos & k & e & Hh & Hlc & Hk & Hn & _ & Hpf)].
  { split; [by intros s ?%elem_of_nil|cbn; lia]. }
  split; [|done]. destruct (headers_spec _ _ _ _ _ _ Hh) as (Hpos & _).
  pose proof (get_header_size_range s (negb e)).
  intros s' Hs'. destruct (payloads_from_bounds _ _ _ Hpf) as [_ Hb]. destruct (Hb s' Hs') as (o & Ho & H1 & H2).
  exists o. split_and!; [done|lia|by apply (payloads_from_nonneg _ _ _ Hpf)|lia].
Qed.

(** Reading through a pointer. *)
Lemma slice_read (buf : list Z) o n i a :
  0 <= o -> 0 <= n -> o + n <= Z.of_nat (length buf) -> 0 <= i < n -> take (Z.to_nat n) (drop (Z.to_nat o) buf) !! Z.to_nat i = Some a ->
  arr_read buf (o + i) = Ok a.
Proof.
  intros Ho Hn Hl Hi Ha. apply arr_read_lookup; [lia|].
  apply lookup_take_Some in Ha as [Ha _]. rewrite lookup_drop in Ha. rewrite <- Ha. f_equal. lia.
Qed.

Definition slice (buf : list Z) (s : sch_subh) : list Z :=
  take (Z.to_nat (sh_nof_bytes s)) (drop (Z.to_nat (default 0 (sh_payload s))) buf).

Lemma sdu_of_ok buf s o :
  sh_payload s = Some o -> 0 <= o -> 0 <= sh_nof_bytes s -> o + sh_nof_bytes s <= Z.of_nat (length buf) ->
  sdu_of buf s = Ok (slice buf s).
Proof.
  intros Hp Ho Hn Hl. unfold sdu_of, slice. rewrite Hp. cbn [default].
  set (n := sh_nof_bytes s) in *. set (d := drop (Z.to_nat o) buf).
  assert (Hd : n <= Z.of_nat (length d)) by (unfold d; rewrite length_drop; lia).
  assert (Hgen : forall k acc j, (Z.of_nat k + j <= n) -> 0 <= j ->
    foldM (fun acc i => b ← payload_byte buf s i; Ok (acc ++ [b])) (range j k) acc =
    Ok (acc ++ take k (drop (Z.to_nat j) d))).
  { induction k as [|k IH]; intros acc j Hk Hj; [by rewrite take_0, app_nil_r|].
    rewrite range_S. cbn [foldM].
    destruct (lookup_lt_is_Some_2 d (Z.to_nat j)) as [a Ha]; [lia|].
    assert (Hpb : payload_byte buf s j = Ok a).
    { unfold payload_byte. rewrite Hp. apply arr_read_lookup; [lia|].
      unfold d in Ha. rewrite lookup_drop in Ha. rewrite <- Ha. f_equal. lia. }
    rewrite Hpb.
    rewrite !bind_ok_l, IH by lia. rewrite <- app_assoc. do 2 f_equal.
    rewrite (drop_S _ _ _ Ha). cbn [take app]. do 3 f_equal. lia. }
  rewrite Hgen by lia. rewrite drop_0. done.
Qed.

(** ** Control elements *)

(** Changes of the scheduler made by operations on existing users: the carrier
    and the set of users stay. *)
Definition sched_kept (s s' : sched) : Prop :=
  carrier_schedulers s' = carrier_schedulers s /\ (forall r, sched_ue_exists s' r = sched_ue_exists s r).

#[export] Instance sched_kept_preorder : PreOrder sched_kept.
Proof.
  split; [by split|]. intros a b c [H1 H2] [H3 H4]. split; [congruence|]. intros r. by rewrite H4.
Qed.

Lemma ue_db_access_kept s r f : sched_kept s (snd (ue_db_access s r f)).
Proof.
  destruct (ue_db_access s r f) as [o s'] eqn:E. cbn [snd].
  destruct (ue_db_access_map _ _ _ _ _ E) as [(_ & id & u & Hu & Hm & Hc)|(_ & _ & ->)]; [|reflexivity].
  split; [done|]. intros r'. apply eq_bool_prop_intro.
  rewrite !Is_true_true, !sched_ue_exists_iff. unfold rnti_in. rewrite Hm.
  destruct (decide (r' = r)) as [->|Hne].
  - rewrite lookup_insert_eq, Hu. split; by eexists.
  - by rewrite lookup_insert_ne by done.
Qed.
#[export] Hint Resolve ue_db_access_kept : core.

Lemma fold_kept {A} (f : sched -> A -> sched) l s :
  (forall s a, sched_kept s (f s a)) -> sched_kept s (fold_left f l s).
Proof.
  intros H; revert s; induction l as [|a l IH]; intros s; cbn; [reflexivity|]. etransitivity; [apply H|apply IH].
Qed.

(** All the elements of an uplink control element can be read. *)
Lemma payload_read (buf : list Z) o k : 0 <= o -> 0 <= k <= 2 -> o + 3 <= Z.of_nat (length buf) -> exists a, arr_read buf (o + k) = Ok a.
Proof. intros. destruct (arr_read_in buf (o + k)) as (a & -> & _); [lia|]. eauto. Qed.

Lemma bsr_bytes_ok v : 0 <= v -> exists b, bsr_bytes v = Ok b.
Proof.
  intros Hv. unfold bsr_bytes. destruct (v =? 0); [eauto|].
  destruct (Z.ltb_spec v 63).
  - destruct (arr_read_in btable (1 + v)) as (a & -> & _); [change (Z.of_nat (length btable)) with 64; lia|]. eauto.
  - destruct (arr_read_in btable 63) as (a & -> & _); [change (Z.of_nat (length btable)) with 64; lia|]. eauto.
Qed.

Lemma bsr_all_ok raw : Forall (fun v => 0 <= v) raw ->
  exists l, foldM (fun acc v => b ← bsr_bytes v; Ok (acc ++ [b])) raw [] = Ok l /\ length l = length raw.
Proof.
  intros H. assert (Hgen : forall acc, exists l, foldM (fun acc v => b ← bsr_bytes v; Ok (acc ++ [b])) raw acc = Ok l /\
    length l = (length acc + length raw)%nat).
  { induction H as [|v raw Hv _ IH]; intros acc; cbn [foldM]; [exists acc; split; [done|cbn; lia]|].
    destruct (bsr_bytes_ok v Hv) as [b ->]. rewrite !bind_ok_l. destruct (IH (acc ++ [b])) as (l & -> & Hl).
    exists l. split; [done|]. rewrite length_app in Hl. cbn in *. lia. }
  destruct (Hgen []) as (l & -> & Hl). by exists l.
Qed.

Lemma get_bsr_ok buf s o :
  sh_payload s = Some o -> 0 <= o -> o + 3 <= Z.of_nat (length buf) -> Forall is_byte buf ->
  exists l g, get_bsr buf s = Ok (l, g) /\ length l = 4%nat /\ 0 <= g < 4.
Proof.
  intros Hp Ho Hl Hb. unfold get_bsr. rewrite Hp.
  assert (Hby : forall k a, arr_read buf (o + k) = Ok a -> 0 <= a < 256).
  { intros k a E. unfold arr_read in E. destruct (in_bounds _ _); [|done].
    destruct (buf !! _) as [x|] eqn:Ex; [|done]. injection E as ->. rewrite Forall_lookup in Hb. by apply (Hb _ _ Ex). }
  destruct (payload_read buf o 0) as [p0 E0]; [lia..|]. rewrite Z.add_0_r in E0.
  destruct (payload_read buf o 1) as [p1 E1]; [lia..|]. destruct (payload_read buf o 2) as [p2 E2]; [lia..|].
  pose proof (Hby 0 p0) as B0. rewrite Z.add_0_r in B0. specialize (B0 E0).
  rewrite E0. destruct (sh_lcid s =? UL_LONG_BSR).
  - rewrite E1, E2, !bind_ok_l.
    edestruct (bsr_all_ok) as (l & -> & Hll); [|rewrite bind_ok_l; exists l, 0; split; [done|]; split; [exact Hll|lia]].
    pose proof (Hby _ _ E1). pose proof (Hby _ _ E2).
    repeat constructor; rewrite ?Z.lor_nonneg, ?Z.shiftr_nonneg, ?Z.shiftl_nonneg, ?Z.land_nonneg; lia.
  - rewrite !bind_ok_l. set (g := Z.shiftr (Z.land p0 192) 6).
    assert (Hg : 0 <= g < 4).
    { unfold g. change 192 with (Z.shiftl (Z.ones 2) 6). rewrite Z.shiftr_land, Z.shiftr_shiftl_l, Z.sub_diag, Z.shiftl_0_r by lia.
      apply (land_mask _ 2). lia. }
    edestruct (bsr_all_ok) as (l & -> & Hll); [|rewrite bind_ok_l; exists l, g; split; [done|]; split; [rewrite Hll|lia]].
    + apply Forall_insert; [repeat constructor; lia|]. apply Z.land_nonneg. lia.
    + by rewrite length_insert.
Qed.

Lemma mac_ue_rnti_eta u : u <| mu_rnti := mu_rnti u |> = u.
Proof. by destruct u. Qed.

Lemma mac_ue_rnti_upd u x y : u <| mu_rnti := x |> <| mu_rnti := y |> = u <| mu_rnti := y |>.
Proof. reflexivity. Qed.

(** Any control element is handled, and only the identity of the device and
    the buffer states of users can change. *)
Lemma process_ce_ok buf u s subh :
  (exists o, sh_payload subh = Some o /\ 0 <= o /\ o + 3 <= Z.of_nat (length buf)) -> Forall is_byte buf ->
  length (mu_lc_groups u) = 4%nat ->
  exists r x s', process_ce buf u s subh = Ok (r, u <| mu_rnti := x |>, s') /\ sched_kept s s' /\
    (sh_lcid subh <> UL_CRNTI -> x = mu_rnti u).
Proof.
  intros (o & Hp & Ho & Hl) Hb Hg. unfold process_ce.
  destruct (Z.eqb_spec (sh_lcid subh) UL_CRNTI) as [E|E].
  { unfold get_c_rnti. rewrite Hp. destruct (payload_read buf o 0) as [p0 E0]; [lia..|]. rewrite Z.add_0_r in E0.
    destruct (payload_read buf o 1) as [p1 E1]; [lia..|]. rewrite E0, E1, !bind_ok_l.
    set (r := Z.lor _ _). exists false. destruct (sched_ue_exists s r).
    - exists r, s. split_and!; [done|reflexivity|done].
    - exists (mu_rnti u), s. rewrite mac_ue_rnti_eta. split_and!; [done|reflexivity|done]. }
  destruct (get_bsr_ok buf subh o Hp Ho Hl Hb) as (l & g & Eb & Hll & Hgr).
  destruct ((sh_lcid subh =? UL_TRUNC_BSR) || (sh_lcid subh =? UL_SHORT_BSR)).
  { rewrite Eb, bind_ok_l. destruct (Z.eqb_spec g (-1)); [lia|].
    destruct (arr_read_in l g) as (v & -> & _); [lia|]. rewrite bind_ok_l.
    eexists true, (mu_rnti u), _. rewrite mac_ue_rnti_eta. split_and!; [done| |done]. apply ue_db_access_kept. }
  destruct (sh_lcid subh =? UL_LONG_BSR).
  { rewrite Eb, bind_ok_l.
    destruct (foldM_total (fun s idx => v ← arr_read l idx; lcg ← arr_read (mu_lc_groups u) idx;
       Ok (fold_left (fun s lcid => snd (sched_ul_bsr s (mu_rnti u) lcid v true)) lcg s)) (sched_kept s) [0; 1; 2; 3] s)
      as (s' & -> & Hs'); [|reflexivity|].
    - intros idx s1 Hin Hk. assert (0 <= idx < 4) by (cbn in Hin; lia).
      destruct (arr_read_in l idx) as (v & -> & _); [lia|].
      destruct (arr_read_in (mu_lc_groups u) idx) as (lcg & -> & _); [lia|]. rewrite !bind_ok_l.
      eexists. split; [done|]. etransitivity; [exact Hk|]. apply fold_kept. intros. apply ue_db_access_kept.
    - rewrite bind_ok_l. exists true, (mu_rnti u), s'. rewrite mac_ue_rnti_eta. by split_and!. }
  exists false, (mu_rnti u), s. rewrite mac_ue_rnti_eta. split_and!; [done|reflexivity|done].
Qed.

Lemma ce_loop_ok buf l u s r0 :
  within buf l -> Forall is_byte buf -> length (mu_lc_groups u) = 4%nat ->
  exists r x s', foldM (process_ces buf) l (r0, u, s) = Ok (r, u <| mu_rnti := x |>, s') /\
    sched_kept s s' /\ (Forall (fun s => sh_lcid s <> UL_CRNTI) l -> x = mu_rnti u).
Proof.
  intros Hw Hb; revert u s r0; induction l as [|a l IH]; intros u s r0 Hg; cbn [foldM].
  { exists r0, (mu_rnti u), s. rewrite mac_ue_rnti_eta. split_and!; [done|reflexivity|done]. }
  assert (Hw' : within buf l) by (intros x Hx; apply Hw; by apply list_elem_of_further).
  destruct (Hw a (list_elem_of_here _ _)) as (o & Hp & Ho & Hn & Hl).
  destruct (sh_is_sdu a) eqn:Ea.
  - assert (Hst : process_ces buf (r0, u, s) a = Ok (r0, u, s)) by (unfold process_ces; by rewrite Ea).
    rewrite Hst, bind_ok_l. destruct (IH Hw' u s r0 Hg) as (r & x & s' & -> & Hk & Hx).
    exists r, x, s'. split_and!; [done|done|]. intros Hf. apply Hx. by inversion Hf.
  - destruct (process_ce_ok buf u s a) as (r1 & x1 & s1 & E1 & Hk1 & Hx1); [exists o; split_and!; (done || lia)|done|done|].
    assert (Hst : process_ces buf (r0, u, s) a = Ok (r0 || r1, u <| mu_rnti := x1 |>, s1)) by (unfold process_ces; by rewrite Ea, E1).
    rewrite Hst, bind_ok_l.
    set (u1 := u <| mu_rnti := x1 |>) in *. destruct (IH Hw' u1 s1 (r0 || r1) Hg) as (r & x & s' & E & Hk & Hx).
    exists r, x, s'. split_and!; [exact E|by etransitivity|]. intros Hf. inversion Hf as [|? ? H1 H2]; subst.
    rewrite Hx by done. cbn. by apply Hx1.
Qed.

(** ** Service data units *)

(** Whether an SDU goes to the RLC: on the common control channel, all zeros
    means that nothing was sent. *)
Definition routes (p : Z * list Z) : bool :=
  is_sdu p.1 && negb ((p.1 =? 0) && forallb (fun b => b =? 0) p.2).

Definition routed (rnti_ : Z) (buf : list Z) (l : list sch_subh) : list rlc_pdu :=
  (fun p => mk_rlc_pdu rnti_ p.1 p.2) <$> filter (fun p => routes p = true) (contents buf l).

(** The messages long enough to hold a contention resolution identity. *)
Definition identities (buf : list Z) (l : list sch_subh) : list (list Z) :=
  snd <$> filter (fun p => p.1 = 0 /\ routes p = true /\ (6 <= length p.2)%nat) (contents buf l).

Lemma zero_sum (bytes : list Z) : Forall is_byte bytes -> Z.of_nat (length bytes) <= MAX_PDU_LEN ->
  (fold_left (fun s b => u32 (s + b)) bytes 0 =? 0) = forallb (fun b => b =? 0) bytes.
Proof.
  intros Hb Hl. unfold is_byte in Hb. rewrite Forall_forall in Hb.
  assert (Hbound : zsum id bytes <= 255 * Z.of_nat (length bytes)).
  { clear Hl. induction bytes as [|b l IH]; [done|]. rewrite zsum_cons. cbn [length].
    pose proof (Hb b (list_elem_of_here _ _)). specialize (IH ltac:(intros; apply Hb; by apply list_elem_of_further)).
    unfold id at 1. lia. }
  assert (HM : MAX_PDU_LEN = 19200) by reflexivity.
  rewrite (fold_u32_sum id); [|done|intros a Ha; apply Hb in Ha; unfold id; lia|lia|lia].
  clear Hbound Hl. rewrite Z.add_0_l. induction bytes as [|b l IH]; [done|]. cbn [forallb].
  rewrite <- IH by (intros; apply Hb; by apply list_elem_of_further). rewrite zsum_cons.
  pose proof (Hb b (list_elem_of_here _ _)).
  assert (0 <= zsum id l); [|unfold id in *; lia].
  apply zsum_nonneg. intros a Ha. unfold id. apply Hb. by apply list_elem_of_further.
Qed.

Definition conres_after (c : Z) (ids : list (list Z)) : Z := fold_left set_conres ids c.

Lemma process_sdu_ok buf rnti_ a s :
  (exists o, sh_payload s = Some o /\ 0 <= o /\ 0 <= sh_nof_bytes s /\ o + sh_nof_bytes s + 3 <= Z.of_nat (length buf)) ->
  Forall is_byte buf -> Z.of_nat (length buf) <= MAX_PDU_LEN ->
  exists m lm, process_sdu buf rnti_ a s =
    Ok (mk_sdu_loop (conres_after (sl_conres a) (identities buf [s])) lm m (sl_rlc a ++ routed rnti_ buf [s])).
Proof.
  intros (o & Hp & Ho & Hn & Hl) Hb Hmax. unfold process_sdu, identities, routed, contents. cbn [fmap list_fmap].
  change (take (Z.to_nat (sh_nof_bytes s)) (drop (Z.to_nat (default 0 (sh_payload s))) buf)) with (slice buf s).
  rewrite !filter_cons, !filter_nil. unfold routes. cbn [fst snd]. change (is_sdu (sh_lcid s)) with (sh_is_sdu s).
  destruct (sh_is_sdu s) eqn:Es; cbn [negb andb].
  2:{ rewrite !decide_False by naive_solver. cbn. rewrite app_nil_r. destruct a. by eexists _, _. }
  rewrite (sdu_of_ok buf s o) by (done || lia). rewrite bind_ok_l.
  assert (Hsl : Z.of_nat (length (slice buf s)) = sh_nof_bytes s).
  { unfold slice. rewrite Hp. cbn. rewrite length_take, length_drop. lia. }
  assert (Hsb : Forall is_byte (slice buf s)) by (unfold slice; by apply Forall_take, Forall_drop).
  rewrite zero_sum by (done || lia).
  set (z := (sh_lcid s =? 0) && forallb (fun b => b =? 0) (slice buf s)).
  match goal with |- context [conres_after _ ?x] => assert (Hc : conres_after (sl_conres a) x =
    if (sh_lcid s =? 0) && negb z && (sh_nof_bytes s >=? 6) then set_conres (sl_conres a) (slice buf s) else sl_conres a) end.
  { case_decide as E.
    - destruct E as (E1 & E2 & E3). rewrite E1. rewrite E2. replace (sh_nof_bytes s >=? 6) with true by lia. done.
    - destruct ((sh_lcid s =? 0) && negb z && (sh_nof_bytes s >=? 6)) eqn:Ec; [|done].
      exfalso. apply E. apply andb_true_iff in Ec as [[Ec1 Ec2]%andb_true_iff Ec3]. split_and!; [lia|done|lia]. }
  rewrite Hc. clear Hc.
  destruct (negb z) eqn:Ez; [rewrite decide_True by done|rewrite decide_False by done]; cbn [fmap list_fmap].
  - destruct (sh_nof_bytes s >? sl_most a); by eexists _, _.
  - rewrite app_nil_r. destruct (sh_nof_bytes s >? sl_most a); by eexists _, _.
Qed.

Lemma sdu_loop_ok buf rnti_ l a :
  within buf l -> Forall is_byte buf -> Z.of_nat (length buf) <= MAX_PDU_LEN ->
  exists m lm, foldM (process_sdu buf rnti_) l a =
    Ok (mk_sdu_loop (conres_after (sl_conres a) (identities buf l)) lm m (sl_rlc a ++ routed rnti_ buf l)).
Proof.
  intros Hw Hb Hmax; revert a; induction l as [|s l IH]; intros a; cbn [foldM].
  { unfold routed. cbn. rewrite app_nil_r. destruct a. by eexists _, _. }
  destruct (process_sdu_ok buf rnti_ a s (Hw s (list_elem_of_here _ _)) Hb Hmax) as (m & lm & ->).
  rewrite bind_ok_l.
  destruct (IH ltac:(intros x Hx; apply Hw; by apply list_elem_of_further)
    (mk_sdu_loop (conres_after (sl_conres a) (identities buf [s])) lm m (sl_rlc a ++ routed rnti_ buf [s])))
    as (m' & lm' & ->).
  exists m', lm'. cbn [sl_conres sl_rlc]. do 2 f_equal.
  - unfold conres_after. rewrite <- fold_left_app. f_equal. unfold identities, contents.
    cbn [fmap list_fmap]. rewrite !filter_cons, filter_nil. by case_decide.
  - rewrite <- app_assoc. f_equal. unfold routed, contents. cbn [fmap list_fmap]. rewrite !filter_cons, filter_nil. by case_decide.
Qed.

(** *** The identity kept *)
Lemma conres_after_last c ids id :
  last ids = Some id -> (6 <= length id)%nat -> Forall is_byte id -> con_res_bytes (conres_after c ids) = take 6 id.
Proof.
  intros Hl Hlen Hb. apply last_Some in Hl as (front & ->). unfold conres_after.
  rewrite fold_left_app. cbn [fold_left].
  do 6 (destruct id as [|? id]; [cbn in Hlen; lia|]). rewrite con_res_bytes_set; [done|].
  rewrite !Forall_cons in Hb. rewrite !Forall_cons. destruct Hb as (? & ? & ? & ? & ? & ? & _). by split_and!.
Qed.

Lemma identities_in buf l id : Forall is_byte buf -> id ∈ identities buf l -> (6 <= length id)%nat /\ Forall is_byte id.
Proof.
  intros Hb (p & -> & Hp)%list_elem_of_fmap. apply list_elem_of_filter in Hp as [(_ & _ & Hlen) Hp]. split; [done|].
  unfold contents in Hp. apply list_elem_of_fmap in Hp as (s & -> & _). cbn. by apply Forall_take, Forall_drop.
Qed.

(** ** A received block *)

(** Whether a block starts with a subheader of the common control channel, and
    the block without the DPR byte that follows that subheader. *)
Definition is_ccch (m : list Z) : bool := match m with b0 :: _ => Z.land b0 31 =? 0 | [] => false end.
Definition strip_dpr (m : list Z) : list Z :=
  if is_ccch m then match m with b0 :: _ :: r => b0 :: r | _ => m end else m.
Definition stripped_len (m : list Z) (len : Z) : Z := if is_ccch m then len - 1 else len.

(** The buffers of a device, and the size of what it keeps for each. *)
Record rx_wf (u : mac_ue) : Prop := mk_rx_wf {
  rx_groups : length (mu_lc_groups u) = 4%nat;
  rx_mem : forall m, m ∈ pq_mem (mu_pdus u) -> Z.of_nat (length m) = MAX_PDU_LEN /\ Forall is_byte m
}.

(** The state of the buffers after a block was processed. *)
Definition freed (u u' : mac_ue) (b : nat) (lost : bool) : Prop :=
  pq_q (mu_pdus u') = pq_q (mu_pdus u) /\ mu_pending_buffers u' = mu_pending_buffers u /\
  length (pq_mem (mu_pdus u')) = length (pq_mem (mu_pdus u)) /\
  mu_nof_rx_harq_proc u' = mu_nof_rx_harq_proc u /\
  if lost then pq_available (mu_pdus u') = pq_available (mu_pdus u) /\ pq_used (mu_pdus u') = pq_used (mu_pdus u)
  else pq_available (mu_pdus u') = b :: pq_available (mu_pdus u) /\
       pq_used (mu_pdus u') = erase_first b (pq_used (mu_pdus u)).

(** Everything [process_pdu] does with a block. *)
Lemma process_pdu_spec u s b nof m :
  rx_wf u -> pq_mem (mu_pdus u) !! b = Some m -> b ∈ pq_used (mu_pdus u) -> 3 <= nof <= 19000 ->
  exists l u' s',
    sch_parse_packet true MAX_SUBH (stripped_len m nof) (strip_dpr m) = Ok l /\
    process_pdu u s b nof = Ok (u', s', routed (mu_rnti u') (strip_dpr m) l) /\
    (Forall (fun s => sh_lcid s <> UL_CRNTI) l -> mu_rnti u' = mu_rnti u) /\
    mu_conres_id u' = conres_after (mu_conres_id u) (identities (strip_dpr m) l) /\
    sched_kept s s' /\ rx_wf u' /\ freed u u' b (is_ccch m).
Proof.
  intros Hwf Hm Hused Hnof. destruct (rx_mem _ Hwf m) as [Hml Hmb]; [apply list_elem_of_lookup; eauto|].
  assert (HM : MAX_PDU_LEN = 19200) by reflexivity.
  destruct m as [|b0 [|b1 r]]; [cbn in Hml; lia|cbn in Hml; lia|].
  assert (Hstrip : exists m' off dpr, (if Z.land b0 31 =? 0 then
      d ← arr_read (b0 :: b1 :: r) 1; m ← arr_write (b0 :: b1 :: r) 1 b0; Ok (m, 1, u32 (nof - 1), d)
      else Ok (b0 :: b1 :: r, 0, nof, 0)) = Ok (m', off, stripped_len (b0 :: b1 :: r) nof, dpr) /\
      drop (Z.to_nat off) m' = strip_dpr (b0 :: b1 :: r) /\
      Z.of_nat (length m') = MAX_PDU_LEN /\ Forall is_byte m' /\ (off =? 0) = negb (is_ccch (b0 :: b1 :: r))).
  { unfold stripped_len, strip_dpr. cbn [is_ccch]. rewrite !Forall_cons in Hmb. destruct Hmb as (Hb0 & Hb1 & Hbr).
    destruct (Z.land b0 31 =? 0).
    - exists (b0 :: b0 :: r), 1, b1. erewrite arr_read_lookup; [|lia|reflexivity]. rewrite arr_write_in by (cbn; lia).
          rewrite !bind_ok_l, u32_id by lia. split_and!; [reflexivity|reflexivity|exact Hml| |reflexivity]. rewrite !Forall_cons. by split_and!.
    - exists (b0 :: b1 :: r), 0, 0. split_and!; [reflexivity|reflexivity|exact Hml| |reflexivity]. rewrite !Forall_cons. by split_and!. }
  destruct Hstrip as (m' & off & dpr & Estrip & Edrop & Hml' & Hmb' & Eoff).
  set (m := b0 :: b1 :: r) in *. set (buf := strip_dpr m) in *. set (len := stripped_len m nof) in *.
  assert (Hoff : 0 <= off).
  { destruct (Z.leb_spec 0 off); [done|]. exfalso. revert Estrip. destruct (Z.land b0 31 =? 0).
    - intros E. res_inv E. congruence || lia.
    - intros [= _ <- _ _]. lia. }
  assert (Hbl : 19199 <= Z.of_nat (length buf) <= MAX_PDU_LEN).
  { unfold buf, strip_dpr, m. destruct (is_ccch _); cbn [length] in *; unfold m in Hml; cbn [length] in Hml; lia. }
  assert (Hbb : Forall is_byte buf) by (rewrite <- Edrop; by apply Forall_drop).
  assert (Hlen : 2 <= len <= 19000) by (unfold len, stripped_len; destruct (is_ccch m); lia).
  destruct (sch_parse_within true len buf) as (l & El & Hw & _); [lia|lia|].
  set (u1 := u <| mu_pdus := (mu_pdus u) <| pq_mem := <[b := m']> (pq_mem (mu_pdus u)) |> |>).
  set (u2 := u1 <| mu_pdus := pdu_queue_deallocate (mu_pdus u1) b off |>).
  destruct (ce_loop_ok buf l u2 s false Hw Hbb (rx_groups _ Hwf)) as (rb & x & s1 & Ece & Hk1 & Hx).
  set (u3 := u2 <| mu_rnti := x |>) in *.
  destruct (sdu_loop_ok buf (mu_rnti u3) l (mk_sdu_loop (mu_conres_id u3) 0 (-99) []) Hw Hbb) as (mo & lm & Esdu); [lia|].
  exists l, (u3 <| mu_conres_id := conres_after (mu_conres_id u) (identities buf l) |>).
  eexists. split; [exact El|]. split.
  { unfold process_pdu. rewrite Hm. rewrite (bind_ok_l m). erewrite (arr_read_lookup m 0 b0); [|lia|reflexivity].
    rewrite bind_ok_l, Estrip, bind_ok_l. fold u1. rewrite Edrop, El, bind_ok_l. fold u2.
    rewrite Ece, bind_ok_l, Esdu, bind_ok_l. reflexivity. }
  cbn [sl_conres sl_rlc sl_lcid_most]. split_and!.
  - intros Hf. cbn. by apply Hx.
  - done.
  - etransitivity; [exact Hk1|].
    destruct (negb (dpr =? 0)), (negb rb && (lm >? 2)); cbn beta iota;
      repeat first [reflexivity|apply ue_db_access_kept|etransitivity; [|apply ue_db_access_kept]].
  - split; [apply (rx_groups _ Hwf)|]. cbn.
    intros y Hy. assert (Hy' : y ∈ <[b := m']> (pq_mem (mu_pdus u))).
    { revert Hy. unfold pdu_queue_deallocate, pool_deallocate. destruct (_ && _); exact id. }
    apply list_elem_of_lookup in Hy' as [i Hi]. apply list_lookup_insert_Some in Hi as [(_ & <- & _)|[_ Hi]]; [done|].
    apply (rx_mem _ Hwf), list_elem_of_lookup. eauto.
  - unfold freed. destruct (is_ccch m); cbn; unfold pdu_queue_deallocate, pool_deallocate; rewrite Eoff; cbn [negb andb].
    + cbn. rewrite length_insert. by split_and!.
    + rewrite bool_decide_true by done. cbn. rewrite length_insert. by split_and!.
Qed.

(** ** Receiving a sequence of blocks *)

(** One block, from the grant to the upper layers: the buffer is requested, the
    PHY writes it, the CRC is good, the stack processes the queue. *)
Definition receive (a : mac_ue * sched * list rlc_pdu) (blk : Z * list Z) : res (mac_ue * sched * list rlc_pdu) :=
  let '(u, s, out) := a in
  let '(tti, bytes) := blk in
  let len := Z.of_nat (length bytes) in
  '(p, u) ← request_buffer u tti len;
  match p with
  | None => Ok (u, s, out)
  | Some b =>
      u ← push_pdu (phy_write u b bytes) tti len;
      '(_, u, s, o) ← mu_process_pdus u s;
      Ok (u, s, out ++ o)
  end.

Definition block_ok (blk : Z * list Z) : Prop :=
  0 <= blk.1 /\ 3 <= Z.of_nat (length blk.2) <= 19000 /\ Forall is_byte blk.2.

(** A device between two blocks. *)
Record idle (u : mac_ue) : Prop := mk_idle {
  idle_wf : rx_wf u;
  idle_q : pq_q (mu_pdus u) = [];
  idle_pending : mu_pending_buffers u = replicate 8 None /\ mu_nof_rx_harq_proc u = 8;
  idle_mem : length (pq_mem (mu_pdus u)) = POOL_CAPACITY;
  idle_ids : Forall (fun b => (b < POOL_CAPACITY)%nat) (pq_available (mu_pdus u));
  idle_nodup : NoDup (pq_available (mu_pdus u));
  idle_fresh : forall b, b ∈ pq_available (mu_pdus u) -> b ∉ pq_used (mu_pdus u)
}.

Lemma erase_first_notin b l : b ∉ l -> erase_first b l = l.
Proof.
  induction l as [|a l IH]; [done|]. intros Hn%not_elem_of_cons. cbn. rewrite decide_False by naive_solver.
  by rewrite IH by naive_solver.
Qed.

Lemma erase_first_snoc b l : b ∉ l -> erase_first b (l ++ [b]) = l.
Proof.
  induction l as [|a l IH]; intros Hn; cbn; [by rewrite decide_True|].
  apply not_elem_of_cons in Hn. rewrite decide_False by naive_solver. by rewrite IH by naive_solver.
Qed.

Lemma harq_slot u tti : mu_nof_rx_harq_proc u = 8 -> 0 <= harq_of u tti < 8.
Proof. intros E. unfold harq_of. rewrite E. apply Z.mod_pos_bound. lia. Qed.

Lemma request_idle u tti len b av :
  idle u -> 3 <= len <= 19000 -> pq_available (mu_pdus u) = b :: av ->
  request_buffer u tti len = Ok (Some b, u <| mu_pdus := (mu_pdus u) <| pq_used := pq_used (mu_pdus u) ++ [b] |>
    <| pq_available := av |> |> <| mu_pending_buffers := <[Z.to_nat (harq_of u tti) := Some b]> (replicate 8 None) |>).
Proof.
  intros H Hlen Hav. destruct (idle_pending _ H) as [Hp Hn]. pose proof (harq_slot u tti Hn) as Hs.
  unfold request_buffer. replace (len >? 0) with true by lia. rewrite Hp.
  erewrite arr_read_lookup; [|lia|apply lookup_replicate_2; lia]. rewrite bind_ok_l.
  unfold pdu_queue_request, MAX_PDU_LEN. replace (len >? 150 * 1024 / 8) with false by dlia.
  unfold pool_allocate. rewrite Hav, !bind_ok_l, arr_write_in by (rewrite length_replicate; lia). done.
Qed.

(** A request that finds no buffer waits. *)
Lemma request_waits u tti len :
  idle u -> 3 <= len <= 19000 -> pq_available (mu_pdus u) = [] -> request_buffer u tti len = Diverge.
Proof.
  intros H Hlen Hav. destruct (idle_pending _ H) as [Hp Hn]. pose proof (harq_slot u tti Hn) as Hs.
  unfold request_buffer. replace (len >? 0) with true by lia. rewrite Hp.
  erewrite arr_read_lookup; [|lia|apply lookup_replicate_2; lia]. rewrite bind_ok_l.
  unfold pdu_queue_request, MAX_PDU_LEN. replace (len >? 150 * 1024 / 8) with false by dlia.
  unfold pool_allocate. by rewrite Hav.
Qed.

Lemma alter_at {A} (f : A -> A) (l : list A) (i : nat) x : l !! i = Some x -> alter f i l = <[i := f x]> l.
Proof.
  revert i; induction l as [|a l IH]; intros [|i] E; try done; cbn in *; [by injection E as ->|].
  f_equal. by apply IH.
Qed.

Lemma receive_ok u s out blk b av :
  idle u -> block_ok blk -> pq_available (mu_pdus u) = b :: av ->
  exists u' s' out', receive (u, s, out) blk = Ok (u', s', out') /\ idle u' /\
    pq_available (mu_pdus u') = if is_ccch blk.2 then av else b :: av.
Proof.
  destruct blk as [tti bytes]. intros H (_ & Hlen & Hby) Hav. cbn [fst snd] in *.
  destruct (idle_pending _ H) as [Hp Hn]. pose proof (harq_slot u tti Hn) as Hs.
  pose proof (idle_ids _ H) as Hids. rewrite Hav in Hids. apply Forall_cons in Hids as [Hb Hids].
  pose proof (idle_nodup _ H) as Hnd. rewrite Hav in Hnd. apply NoDup_cons in Hnd as [Hbav Hnd].
  pose proof (idle_fresh _ H) as Hfresh. rewrite Hav in Hfresh.
  assert (HM : MAX_PDU_LEN = 19200) by reflexivity.
  unfold receive. rewrite (request_idle u tti _ b av) by done. rewrite bind_ok_l. cbn beta iota.
  set (pend := <[Z.to_nat (harq_of u tti) := Some b]> (replicate 8 None)).
  unfold push_pdu.
  match goal with |- context [phy_write ?x b bytes] => set (u1 := phy_write x b bytes) end.
  change (mu_pending_buffers u1) with pend. change (harq_of u1 tti) with (harq_of u tti).
  assert (Hpl : length pend = 8%nat) by (unfold pend; by rewrite length_insert).
  erewrite arr_read_lookup; [|lia|apply list_lookup_insert_eq; rewrite length_replicate; lia].
  rewrite bind_ok_l, arr_write_in by lia. rewrite bind_ok_l.
  assert (Epend : <[Z.to_nat (harq_of u tti) := None]> pend = replicate 8 (@None nat)).
  { unfold pend. rewrite list_insert_insert_eq. apply list_insert_id. apply lookup_replicate_2. lia. }
  rewrite Epend, bind_ok_l.
  match goal with |- context [mu_process_pdus ?x s] => set (u2 := x) end.
  destruct (lookup_lt_is_Some_2 (pq_mem (mu_pdus u)) b) as [m0 Hm0]; [rewrite (idle_mem _ H); done|].
  destruct (rx_mem _ (idle_wf _ H) m0) as [Hm0l Hm0b]; [apply list_elem_of_lookup; eauto|].
  set (m := bytes ++ drop (length bytes) m0).
  assert (Hml : Z.of_nat (length m) = MAX_PDU_LEN) by (unfold m; rewrite length_app, length_drop; lia).
  assert (Hmb : Forall is_byte m) by (unfold m; apply Forall_app; split; [done|by apply Forall_drop]).
  assert (Emem : pq_mem (mu_pdus u2) = <[b := m]> (pq_mem (mu_pdus u))).
  { exact (alter_at (fun m => bytes ++ drop (length bytes) m) _ _ _ Hm0). }
  unfold mu_process_pdus. assert (Eq : pq_q (mu_pdus u2) = [(b, Z.of_nat (length bytes))]).
  { cbn. by rewrite (idle_q _ H). }
  rewrite Eq. cbn [length process_pdus_loop]. rewrite Eq.
  set (u3 := u2 <| mu_pdus := (mu_pdus u2) <| pq_q := [] |> |>).
  assert (Hwf3 : rx_wf u3).
  { split; [apply (rx_groups _ (idle_wf _ H))|]. change (pq_mem (mu_pdus u3)) with (pq_mem (mu_pdus u2)). rewrite Emem.
    intros y [i Hi]%list_elem_of_lookup. apply list_lookup_insert_Some in Hi as [(_ & <- & _)|[_ Hi]]; [done|].
    apply (rx_mem _ (idle_wf _ H)), list_elem_of_lookup. eauto. }
  destruct (process_pdu_spec u3 s b (Z.of_nat (length bytes)) m Hwf3) as (l & u' & s' & _ & Epr & _ & _ & _ & Hwf' & Hfr).
  { change (pq_mem (mu_pdus u3)) with (pq_mem (mu_pdus u2)). rewrite Emem. apply list_lookup_insert_eq.
    rewrite (idle_mem _ H). done. }
  { change (pq_used (mu_pdus u3)) with (pq_used (mu_pdus u) ++ [b]). set_solver. }
  { done. }
  rewrite Epr, bind_ok_l. destruct Hfr as (Fq & Fp & Fm & Fn & Fa).
  change (pq_q (mu_pdus u3)) with (@nil (nat * Z)) in Fq. rewrite Fq, bind_ok_l.
  eexists u', s', _. split; [done|].
  assert (Ecc : is_ccch m = is_ccch bytes) by (unfold m; destruct bytes; [cbn in Hlen; lia|done]).
  rewrite Ecc in Fa. change (pq_available (mu_pdus u3)) with av in Fa.
  change (pq_used (mu_pdus u3)) with (pq_used (mu_pdus u) ++ [b]) in Fa.
  assert (Hbu : b ∉ pq_used (mu_pdus u)) by (apply Hfresh; apply list_elem_of_here).
  rewrite erase_first_snoc in Fa by done.
  split; [|by destruct (is_ccch bytes), Fa].
  split; [done|done| |rewrite Fm; cbn; by rewrite length_alter, (idle_mem _ H)| | |].
  - rewrite Fp, Fn. split; [done|]. exact Hn.
  - destruct (is_ccch bytes), Fa as [-> _]; [done|by constructor].
  - destruct (is_ccch bytes), Fa as [-> _]; [done|by constructor].
  - destruct (is_ccch bytes), Fa as [-> ->]; [|intros x Hx; by apply Hfresh].
    intros x Hx [Hx1|Hx1%list_elem_of_singleton]%elem_of_app; [|by subst].
    apply (Hfresh x); [by apply list_elem_of_further|done].
Qed.

Definition ccch_blocks (l : list (Z * list Z)) : nat := length (filter (fun blk => is_ccch blk.2 = true) l).

Lemma receive_all u s out blks :
  idle u -> (forall blk, blk ∈ blks -> block_ok blk) ->
  (ccch_blocks (removelast blks) < length (pq_available (mu_pdus u)))%nat ->
  exists u' s' out', foldM receive blks (u, s, out) = Ok (u', s', out') /\ idle u' /\
    (length (pq_available (mu_pdus u')) + ccch_blocks blks = length (pq_available (mu_pdus u)))%nat.
Proof.
  revert u s out; induction blks as [|x l IH]; intros u s out H Hok Hn.
  { exists u, s, out. cbn. split_and!; [done|done|lia]. }
  destruct (pq_available (mu_pdus u)) as [|b av] eqn:Eav; [cbn in Hn; lia|].
  destruct (receive_ok u s out x b av H (Hok x (list_elem_of_here _ _)) Eav) as (u1 & s1 & out1 & E1 & H1 & Ea1).
  cbn [foldM]. rewrite E1, bind_ok_l.
  unfold ccch_blocks in *. rewrite filter_cons.
  destruct l as [|y l].
  { exists u1, s1, out1. split; [done|]. split; [done|]. rewrite Ea1, filter_nil.
    destruct (is_ccch x.2); [rewrite decide_True by done|rewrite decide_False by done]; cbn [length]; lia. }
  change (removelast (x :: y :: l)) with (x :: removelast (y :: l)) in Hn. rewrite filter_cons in Hn.
  destruct (IH u1 s1 out1 H1) as (u' & s' & out' & E & H' & Ea).
  { intros; apply Hok. by apply list_elem_of_further. }
  { rewrite Ea1. destruct (is_ccch x.2); [rewrite decide_True in Hn by done|rewrite decide_False in Hn by done];
      cbn [length] in *; lia. }
  exists u', s', out'. split; [done|]. split; [done|]. rewrite Ea1 in Ea.
  destruct (is_ccch x.2); [rewrite decide_True by done|rewrite decide_False by done]; cbn [length] in *; lia.
Qed.

Lemma idle_new r : idle (mac_ue_new r).
Proof.
  split; [split|..].
  - done.
  - intros m Hm. cbn [mac_ue_new mu_pdus pdu_queue_new pq_mem] in Hm. apply elem_of_replicate in Hm as [-> _].
    rewrite length_replicate. split; [unfold MAX_PDU_LEN; dlia|]. apply Forall_replicate. done.
  - done.
  - done.
  - cbn [mac_ue_new mu_pdus pdu_queue_new pq_mem]. apply length_replicate.
  - cbn [mac_ue_new mu_pdus pdu_queue_new pq_available]. apply (bool_decide_unpack _). by vm_compute.
  - cbn [mac_ue_new mu_pdus pdu_queue_new pq_available]. apply (bool_decide_unpack _). by vm_compute.
  - intros b _. cbn. by apply not_elem_of_nil.
Qed.

(** ** Properties *)

(** C11. What becomes of a received block, whatever it contains.  Nothing
    undefined happens.  The block without its DPR byte is parsed, and the RLC is
    given every SDU of it once, in order, on its logical channel and byte for
    byte, except a message of only zeros on the common control channel.  The
    contention resolution identity the device will be answered with is made of
    the first six bytes of the last of its messages on that channel that are not
    all zeros and have at least six bytes, and stays as it was when there is none;
    the device keeps its identity unless the block names another one; the set of
    users of the scheduler and its carrier do not change.  The buffer returns to
    the pool, except when the block starts with the common control channel. *)
Theorem uplink_block_routed u s b nof m :
  rx_wf u -> pq_mem (mu_pdus u) !! b = Some m -> b ∈ pq_used (mu_pdus u) -> 3 <= nof <= 19000 ->
  exists l u' s',
    sch_parse_packet true MAX_SUBH (stripped_len m nof) (strip_dpr m) = Ok l /\
    process_pdu u s b nof = Ok (u', s', routed (mu_rnti u') (strip_dpr m) l) /\
    match last (identities (strip_dpr m) l) with
    | Some id => con_res_bytes (mu_conres_id u') = take 6 id
    | None => mu_conres_id u' = mu_conres_id u
    end /\
    (Forall (fun s => sh_lcid s <> UL_CRNTI) l -> mu_rnti u' = mu_rnti u) /\
    sched_kept s s' /\ freed u u' b (is_ccch m).
Proof.
  intros Hwf Hm Hb Hn. destruct (rx_mem _ Hwf m) as [_ Hmb]; [apply list_elem_of_lookup; eauto|].
  destruct (process_pdu_spec u s b nof m Hwf Hm Hb Hn) as (l & u' & s' & E1 & E2 & Hr & Hc & Hk & _ & Hf).
  exists l, u', s'. split_and!; try done. rewrite Hc.
  assert (Hsb : Forall is_byte (strip_dpr m)).
  { unfold strip_dpr. destruct (is_ccch m), m as [|b0 [|b1 r]]; try done. rewrite !Forall_cons in *. naive_solver. }
  destruct (last (identities (strip_dpr m) l)) as [id|] eqn:El; [|by apply last_None in El as ->].
  destruct (identities_in (strip_dpr m) l id Hsb) as [Hlen Hby]; [by apply last_Some in El as [f ->]; set_solver|].
  by apply conres_after_last.
Qed.

(** The receive buffers of a device.  Each block that starts with the common
    control channel (a Msg3) costs one of the 128 buffers for good, any other
    block costs none; after 128 of them every further grant makes the PHY's
    thread wait for a buffer, and nothing the device still holds can release
    one. *)
Theorem ccch_blocks_exhaust_pool r s blks :
  (forall blk, blk ∈ blks -> block_ok blk) -> (ccch_blocks (removelast blks) < POOL_CAPACITY)%nat ->
  exists u' s' out, foldM receive blks (mac_ue_new r, s, []) = Ok (u', s', out) /\
    (length (pq_available (mu_pdus u')) = POOL_CAPACITY - ccch_blocks blks)%nat /\
    pq_q (mu_pdus u') = [] /\ mu_pending_buffers u' = replicate 8 None /\
    (ccch_blocks blks = POOL_CAPACITY -> forall tti len, 3 <= len <= 19000 -> request_buffer u' tti len = Diverge).
Proof.
  intros Hok Hn. assert (Hl : length (pq_available (mu_pdus (mac_ue_new r))) = POOL_CAPACITY) by done.
  destruct (receive_all (mac_ue_new r) s [] blks (idle_new r) Hok) as (u' & s' & out & E & H' & Ha); [by rewrite Hl|].
  exists u', s', out. rewrite Hl in Ha. split_and!; [done|lia|apply (idle_q _ H')|apply (idle_pending _ H')|].
  intros Hc tti len Hlen. apply request_waits; [done|done|].
  destruct (pq_available (mu_pdus u')); [done|cbn in Ha; lia].
Qed.

(** A Msg3: CCCH with a DPR byte, and a message of nine bytes. *)
Definition demo_msg3 : list Z := [0; 1; 8; 1; 2; 3; 4; 5; 6; 7; 9].

Definition demo_msg3s : list (Z * list Z) := replicate 128 (0, demo_msg3).

Lemma ccch_blocks_exhaust_pool_witness :
  ccch_blocks demo_msg3s = POOL_CAPACITY /\
  exists u' s' out, foldM receive demo_msg3s (mac_ue_new 4097, sched_new, []) = Ok (u', s', out) /\
    (length (pq_available (mu_pdus u')) = POOL_CAPACITY - ccch_blocks demo_msg3s)%nat /\
    pq_q (mu_pdus u') = [] /\ mu_pending_buffers u' = replicate 8 None /\
    (ccch_blocks demo_msg3s = POOL_CAPACITY ->
       forall tti len, 3 <= len <= 19000 -> request_buffer u' tti len = Diverge).
Proof.
  split; [by vm_compute|]. apply (ccch_blocks_exhaust_pool 4097 sched_new demo_msg3s).
  - intros blk [-> _]%elem_of_replicate. split; [cbn; lia|]. split; [cbn; lia|].
    cbn [snd]. unfold demo_msg3. rewrite !Forall_cons. unfold is_byte. split_and!; (lia || constructor).
  - apply Nat.ltb_lt. by vm_compute.
Defined.

(** A block in the buffer of a new device: a short BSR and a nine-byte SDU on
    SRB1. *)
Definition demo_rx : mac_ue :=
  let u := mac_ue_new 4097 in
  u <| mu_pdus := mk_pdu_queue (pq_available (mu_pdus u)) [0%nat] []
         [[61; 1; 5; 10; 11; 12; 13; 14; 15; 16; 17; 18] ++ replicate (Z.to_nat (MAX_PDU_LEN - 12)) 0] |>.

Lemma demo_rx_wf : rx_wf demo_rx.
Proof.
  split; [done|]. intros m Hm. unfold demo_rx in Hm. cbn [mu_pdus upd pq_mem] in Hm.
  apply list_elem_of_singleton in Hm as ->. rewrite length_app, length_replicate, Forall_app. split; [done|].
  split; [rewrite !Forall_cons; unfold is_byte; split_and!; (lia || constructor)|].
  by apply Forall_replicate.
Qed.

Lemma uplink_block_routed_witness :
  exists m l u' s', pq_mem (mu_pdus demo_rx) !! 0%nat = Some m /\
    sch_parse_packet true MAX_SUBH (stripped_len m 12) (strip_dpr m) = Ok l /\
    process_pdu demo_rx sched_new 0 12 = Ok (u', s', routed (mu_rnti u') (strip_dpr m) l) /\
    match last (identities (strip_dpr m) l) with
    | Some id => con_res_bytes (mu_conres_id u') = take 6 id
    | None => mu_conres_id u' = mu_conres_id demo_rx
    end /\
    (Forall (fun s => sh_lcid s <> UL_CRNTI) l -> mu_rnti u' = mu_rnti demo_rx) /\
    sched_kept sched_new s' /\ freed demo_rx u' 0 (is_ccch m).
Proof.
  destruct (uplink_block_routed demo_rx sched_new 0 12 _ demo_rx_wf eq_refl (list_elem_of_here _ _) ltac:(lia))
    as (l & u' & s' & H).
  eexists _, l, u', s'. split; [reflexivity|]. exact H.
Defined.
