(* ===== verification/Mac.v ===== *)
(** * The MAC : [class mac]

    The entity that joins the scheduler to the device entities
    ([sonica_enb/stack/mac/mac.cc]).  The upper layers are outside: the RLC's
    [read_pdu] is a function over a state of its own, the calls made to the RLC
    and to the RRC are events, and the two buffers of system information the RRC
    owns and the MAC writes into are part of the state.  The read-write lock
    makes each call one step; work queued on the stack's thread
    ([stack_task_queue]) is a list of tasks, each run as a step of its own. *)
From stdpp Require Import sorting.
From S2P Require Import Prelude Tti RaNbiot SchedTypes SchedUe BcSched UeDb SchedGrid RaSched SchedCarrier SchedSafety Sched.
From S2P Require Import MacPdu Rar DlBlock MacUe MacUeRx.

(** ** State *)

(** The closures pushed on the task queue. *)
Inductive mac_task :=
| T_process_pdus
| T_rach (rnti_ tti preamble_idx_ time_adv : Z).

(** Calls of [rlc_interface_mac] and [rrc_interface_mac]. *)
Inductive mac_event :=
| E_rlc_write (p : rlc_pdu)
| E_rrc_add_user (rnti_ : Z) (cfg_ : ue_cfg_t).

Record mac := mk_mac {
  m_started : bool;
  m_last_rnti : Z;
  m_sched : sched;
  m_ue_db : gmap Z mac_ue;
  m_tasks : list mac_task;
  m_mtch : list (Z * Z);          (* mch.mtch_sched: lcid, lcid_buffer_size *)
  m_bcch : list (list Z)          (* rrc: sib_buffer1->msg, sib_buffer2->msg *)
}.
#[export] Instance eta_mac : Eta mac := {| eta := fun r =>
  mk_mac (m_started r) (m_last_rnti r) (m_sched r) (m_ue_db r) (m_tasks r) (m_mtch r) (m_bcch r) |}.

Definition mac_new (bcch : list (list Z)) : mac := mk_mac false 0 sched_new ∅ [] [] bcch.

(** ** Initialisation *)
Definition mac_reset (m : mac) : mac :=
  m <| m_last_rnti := 4097 |> <| m_sched := snd (sched_reset (m_sched m)) |>.

(** [log_h_] is the only argument tested. *)
Definition mac_init (m : mac) (log_h : bool) : res (bool * mac) :=
  let m := m <| m_started := false |> in
  if log_h then
    s ← sched_init (m_sched m);
    Ok (true, (mac_reset (m <| m_sched := s |>)) <| m_started := true |>)
  else Ok (false, m).

Definition mac_stop (m : mac) : mac :=
  if m_started m then m <| m_ue_db := ∅ |> <| m_started := false |> else m.

(** The result and the state; the counter is a [uint16_t]. *)
Definition allocate_rnti (m : mac) : Z * mac :=
  let rnti_ := m_last_rnti m in
  let next := u16 (m_last_rnti m + 1) in
  (rnti_, m <| m_last_rnti := if next >=? 60000 then 4097 else next |>).

(** ** RLC and RRC interfaces *)
Definition rlc_buffer_state (m : mac) (rnti_ lc_id tx_queue retx_queue : Z) : Z * mac :=
  match m_ue_db m !! rnti_ with
  | Some _ =>
      if negb (rnti_ =? SRSLTE_MRNTI) then
        let '(ret, s) := sched_dl_rlc_buffer_state (m_sched m) rnti_ lc_id tx_queue retx_queue in
        (ret, m <| m_sched := s |>)
      else (0, m <| m_mtch := (fun p => if lc_id =? p.1 then (p.1, tx_queue) else p) <$> m_mtch m |>)
  | None => (-1, m)
  end.

(** [cfg] is a pointer that may be null. *)
Definition mac_ue_cfg (m : mac) (rnti_ : Z) (cfg_ : option ue_cfg_t) : Z * mac :=
  match m_ue_db m !! rnti_ with
  | None => (SRSLTE_ERROR, m)
  | Some u =>
      let u := if negb (mu_is_phy_added u) then u <| mu_is_phy_added := true |> else u in
      let m := m <| m_ue_db := <[rnti_ := u]> (m_ue_db m) |> in
      match cfg_ with
      | Some c =>
          let '(ret, s) := sched_ue_cfg (m_sched m) rnti_ c in
          (if ret =? SRSLTE_ERROR then SRSLTE_ERROR else SRSLTE_SUCCESS, m <| m_sched := s |>)
      | None => (SRSLTE_SUCCESS, m)
      end
  end.

Definition mac_ue_rem (m : mac) (rnti_ : Z) : Z * mac :=
  match m_ue_db m !! rnti_ with
  | Some _ =>
      let m := m <| m_sched := snd (sched_ue_rem (m_sched m) rnti_) |> in
      (0, m <| m_ue_db := delete rnti_ (m_ue_db m) |>)
  | None => (-1, m)
  end.

Definition ue_set_crnti (m : mac) (temp_crnti_ crnti : Z) (cfg_ : option ue_cfg_t) : Z * mac :=
  let '(ret, m) := mac_ue_cfg m crnti cfg_ in
  if negb (ret =? SRSLTE_SUCCESS) then (ret, m)
  else if temp_crnti_ =? crnti
  then (ret, m <| m_sched := snd (sched_dl_mac_buffer_state (m_sched m) crnti CON_RES_ID 1) |>)
  else (SRSLTE_ERROR, m).

(** ** PHY interface: reception *)

(** [ue_db[rnti]] is only used when the entry exists. *)
Definition crc_info (m : mac) (tti_rx rnti_ nof_bytes : Z) (crc : bool) : res (Z * mac) :=
  let ret := SRSLTE_ERROR in
  match m_ue_db m !! rnti_ with
  | Some u =>
      let u := mu_set_tti u tti_rx in
      if crc then
        u ← push_pdu u tti_rx nof_bytes;
        Ok (ret, m <| m_ue_db := <[rnti_ := u]> (m_ue_db m) |> <| m_tasks := m_tasks m ++ [T_process_pdus] |>)
      else
        u ← deallocate_pdu u tti_rx;
        Ok (ret, m <| m_ue_db := <[rnti_ := u]> (m_ue_db m) |>)
  | None => Ok (ret, m)
  end.

(** The map is visited in the order of its keys. *)
Definition mac_keys (m : mac) : list Z := merge_sort Z.le (elements (dom (m_ue_db m))).

Definition process_pdus_step (a : bool * mac * list mac_event) (rnti_ : Z) : res (bool * mac * list mac_event) :=
  let '(ret, m, evs) := a in
  match m_ue_db m !! rnti_ with
  | Some u =>
      '(r, u, s, out) ← mu_process_pdus u (m_sched m);
      Ok (ret || r, m <| m_ue_db := <[rnti_ := u]> (m_ue_db m) |> <| m_sched := s |>, evs ++ (E_rlc_write <$> out))
  | None => UB DanglingPtr
  end.

Definition mac_process_pdus (m : mac) : res (bool * mac * list mac_event) :=
  foldM process_pdus_step (mac_keys m) (false, m, []).

(** ** Random access *)
Definition rach_detected (m : mac) (tti preamble_idx_ time_adv : Z) : mac :=
  let '(rnti_, m) := allocate_rnti m in
  let m := m <| m_ue_db := <[rnti_ := mac_ue_new rnti_]> (m_ue_db m) |> in
  m <| m_tasks := m_tasks m ++ [T_rach rnti_ tti preamble_idx_ time_adv] |>.

(** The configuration a new user starts with: a signalling bearer in both
    directions. *)
Definition rach_ue_cfg : ue_cfg_t :=
  ue_cfg_zero <| ue_bearers := <[0%nat := ue_bearer_cfg_zero <| direction := BOTH |> ]> (ue_bearers ue_cfg_zero) |>.

Definition rach_task (m : mac) (rnti_ tti preamble_idx_ time_adv : Z) : res (mac * list mac_event) :=
  let info := mk_rar_info preamble_idx_ time_adv rnti_ 7 tti in
  let '(ret, s) := sched_ue_cfg (m_sched m) rnti_ rach_ue_cfg in
  let m := m <| m_sched := s |> in
  if negb (ret =? SRSLTE_SUCCESS) then Ok (m, []) else
  '(_, s) ← sched_dl_rach_info (m_sched m) info;
  Ok (m <| m_sched := s |>, [E_rrc_add_user rnti_ rach_ue_cfg]).

(** The stack's thread takes the oldest task. *)
Definition run_task (m : mac) : res (mac * list mac_event) :=
  match m_tasks m with
  | [] => Ok (m, [])
  | t :: ts =>
      let m := m <| m_tasks := ts |> in
      match t with
      | T_process_pdus => '(_, m, evs) ← mac_process_pdus m; Ok (m, evs)
      | T_rach rnti_ tti p ta => rach_task m rnti_ tti p ta
      end
  end.

(** ** PHY interface: scheduling *)

(** [dl_sched_grant_t]; each pointer is null or the bytes it points to. *)
Record dl_sched_grant_t := mk_dl_sched_grant {
  gr_dci : dl_dci_t;
  gr_data : list (option (list Z));
  gr_has_npdcch : bool;
  gr_is_new_sib : bool
}.
#[export] Instance eta_dl_sched_grant_t : Eta dl_sched_grant_t := {| eta := fun r =>
  mk_dl_sched_grant (gr_dci r) (gr_data r) (gr_has_npdcch r) (gr_is_new_sib r) |}.

(** [dl_sched_t] *)
Record dl_sched_t := mk_dl_sched { npdsch : dl_sched_grant_t; nof_grants : Z }.
#[export] Instance eta_dl_sched_t : Eta dl_sched_t := {| eta := fun r => mk_dl_sched (npdsch r) (nof_grants r) |}.
Definition dl_sched_zero : dl_sched_t := mk_dl_sched (mk_dl_sched_grant dl_dci_zero [None; None] false false) 0.

(** [ul_sched_grant_t]; the data pointer is a buffer of the device's pool. *)
Record ul_sched_grant_t := mk_ul_sched_grant { ug_dci : ul_dci_t; ug_data : option nat; ug_needs_npdcch : bool }.

(** The HFN bits of SIB1: four in byte 1, four in byte 2. *)
Definition patch_hfn (hfn : Z) (sib1_content : list Z) : res (list Z) :=
  b1 ← arr_read sib1_content 1;
  let s1 := u8 (Z.lor (Z.land b1 240) (Z.land (Z.shiftr hfn 6) 15)) in
  c ← arr_write sib1_content 1 s1;
  b2 ← arr_read c 2;
  let s2 := u8 (Z.lor (Z.land b2 15) (Z.shiftl (Z.land (Z.shiftr hfn 2) 15) 4)) in
  arr_write c 2 s2.

(** [rrc::read_pdu_bcch_dlsch] *)
Definition read_pdu_bcch_dlsch (sib_index : Z) : nat := if sib_index =? 0 then 0%nat else 1%nat.

Section Downlink.
(** [rlc->read_pdu(rnti, lcid, payload, requested_bytes)] *)
Context {S : Type} (read_pdu : Z -> S -> Z -> Z -> Z * list Z * S).

(** The elements of the list of transport block [tb]; only the first block is
    ever filled. *)
Definition tb_pdu (d : dl_sched_data_t) (tb : Z) : list dl_sched_pdu_t := if tb =? 0 then d_pdu d else [].
Definition tb_tbs (d : dl_sched_data_t) (tb : Z) : Z := if tb =? 0 then d_tbs d else 0.

(** State of the loops that copy the scheduler's result. *)
Record dl_copy := mk_dl_copy { cp_mac : mac; cp_rlc : S; cp_grant : dl_sched_grant_t; cp_n : Z }.

(** One transport block of a data grant. *)
Definition copy_tb (rnti_ : Z) (d : dl_sched_data_t) (a : dl_copy) (tb : Z) : res dl_copy :=
  let g := cp_grant a in
  if Z.of_nat (length (tb_pdu d tb)) >? 0 then
    match m_ue_db (cp_mac a) !! rnti_ with
    | Some u =>
        '(p, u, st) ← generate_pdu read_pdu u (cp_rlc a) 0 0 tb (tb_pdu d tb) (tb_tbs d tb);
        data ← arr_write (gr_data g) tb p;
        Ok (mk_dl_copy ((cp_mac a) <| m_ue_db := <[rnti_ := u]> (m_ue_db (cp_mac a)) |>) st (g <| gr_data := data |>) (cp_n a))
    | None => UB NullDeref
    end
  else
    data ← arr_write (gr_data g) tb None;
    Ok (mk_dl_copy (cp_mac a) (cp_rlc a) (g <| gr_data := data |>) (cp_n a)).

Definition copy_data (a : dl_copy) (d : dl_sched_data_t) : res dl_copy :=
  let rnti_ := rnti (alloc (d_dci d)) in
  match m_ue_db (cp_mac a) !! rnti_ with
  | Some _ =>
      let g := (cp_grant a) <| gr_dci := d_dci d |> <| gr_has_npdcch := true |> in
      a ← foldM (copy_tb rnti_ d) (range 0 (Z.to_nat SRSLTE_MAX_TB)) (mk_dl_copy (cp_mac a) (cp_rlc a) g (cp_n a));
      Ok (mk_dl_copy (cp_mac a) (cp_rlc a) (cp_grant a) (cp_n a + 1))
  | None => Ok a
  end.

Definition copy_rar (a : dl_copy) (r : dl_sched_rar_t) : res dl_copy :=
  let g := (cp_grant a) <| gr_dci := r_dci r |> <| gr_has_npdcch := true |> in
  p ← assemble_rar (r_msg3_grant r) (r_tbs r);
  data ← arr_write (gr_data g) 0 p;
  Ok (mk_dl_copy (cp_mac a) (cp_rlc a) (g <| gr_data := data |>) (cp_n a + 1)).

Definition copy_bc (hfn : Z) (a : dl_copy) (b : dl_sched_bc_t) : res dl_copy :=
  let g := (cp_grant a) <| gr_dci := b_dci b |> <| gr_has_npdcch := false |> <| gr_is_new_sib := b_is_new_sib b |> in
  let m := cp_mac a in
  if has_sib1 (alloc (b_dci b)) then
    sib1 ← arr_read (m_bcch m) (Z.of_nat (read_pdu_bcch_dlsch 0));
    sib1 ← patch_hfn hfn sib1;
    data ← arr_write (gr_data g) 0 (Some sib1);
    Ok (mk_dl_copy (m <| m_bcch := <[read_pdu_bcch_dlsch 0 := sib1]> (m_bcch m) |>) (cp_rlc a) (g <| gr_data := data |>) (cp_n a + 1))
  else
    sib2 ← arr_read (m_bcch m) (Z.of_nat (read_pdu_bcch_dlsch 1));
    data ← arr_write (gr_data g) 0 (Some sib2);
    Ok (mk_dl_copy m (cp_rlc a) (g <| gr_data := data |>) (cp_n a + 1)).

(** The data, RAR and broadcast grants of a scheduler result, in that order;
    all of them are copied to the same grant. *)
Definition copy_result (hfn : Z) (m : mac) (st : S) (g : dl_sched_grant_t) (r : dl_sched_res_t) : res dl_copy :=
  a ← foldM copy_data (dl_data r) (mk_dl_copy m st g 0);
  a ← foldM copy_rar (dl_rar r) a;
  foldM (copy_bc hfn) (dl_bc r) a.

Definition get_dl_sched (m : mac) (st : S) (hfn tti_tx_dl_ : Z) (out : dl_sched_t) : res (Z * dl_sched_t * mac * S) :=
  if negb (m_started m) then Ok (0, out, m, st) else
  '(ret, r, s) ← dl_sched (m_sched m) hfn tti_tx_dl_ dl_sched_res_zero;
  let m := m <| m_sched := s |> in
  if ret <? 0 then Ok (SRSLTE_ERROR, out, m, st) else
  a ← copy_result hfn m st (npdsch out) r;
  Ok (SRSLTE_SUCCESS, mk_dl_sched (cp_grant a) (cp_n a), cp_mac a, cp_rlc a).
End Downlink.

(** One uplink grant; grants with an empty block and of unknown users are
    skipped. *)
Definition MAX_GRANTS : Z := 64.
Definition copy_ul (tti_tx_ul_ : Z) (a : mac * list ul_sched_grant_t) (d : ul_sched_data_t) :
    res (mac * list ul_sched_grant_t) :=
  let '(m, l) := a in
  if u_tbs d >? 0 then
    let rnti_ := ul_rnti (u_dci d) in
    match m_ue_db m !! rnti_ with
    | Some u =>
        '(b, u) ← request_buffer u tti_tx_ul_ (u_tbs d);
        l ← push_bounded MAX_GRANTS l (mk_ul_sched_grant (u_dci d) b (needs_npdcch d));
        Ok (m <| m_ue_db := <[rnti_ := u]> (m_ue_db m) |>, l)
    | None => Ok (m, l)
    end
  else Ok (m, l).

(** [phy_ul_sched_res->npusch], counted by [nof_grants]. *)
Definition get_ul_sched (m : mac) (hfn tti_tx_ul_ : Z) (out : list ul_sched_grant_t) :
    res (Z * list ul_sched_grant_t * mac) :=
  if negb (m_started m) then Ok (SRSLTE_SUCCESS, out, m) else
  '(ret, r, s) ← ul_sched (m_sched m) hfn tti_tx_ul_ ul_sched_res_zero;
  let m := m <| m_sched := s |> in
  if ret <? 0 then Ok (SRSLTE_ERROR, out, m) else
  '(m, l) ← foldM (copy_ul tti_tx_ul_) (npusch r) (m, []);
  Ok (SRSLTE_SUCCESS, l, m).
