(* ===== verification/MacRun.v ===== *)
(** * The MAC at work

    What holds of the MAC of [Mac.v] over its runs: identities of devices, the
    frame number written into SIB1, the users the MAC and its scheduler know,
    and the downlink from the scheduler's queues to the bytes given to the
    PHY. *)
From S2P Require Import Prelude Tti RaNbiot SchedTypes SchedUe BcSched UeDb SchedGrid RaSched SchedCarrier SchedSafety Sched.
From S2P Require Import MacPdu Rar DlBlock MacUe MacUeRx Mac.

(** ** The scheduler keeps its users

    Whatever a scheduling call returns, it has created and destroyed no user:
    the only changes to the map go through pointers into it. *)

(** Split a computation that returned into its successful path. *)
Ltac path H :=
  repeat (cbv zeta in H; lazymatch type of H with
  | (_ ≫= _) = Ok _ =>
      let x := fresh "x" in let E := fresh "E" in apply bind_Ok in H as (x & E & H)
  | ub_unless _ _ _ = Ok _ => apply ub_unless_Ok in H as [_ H]
  | (if ?b then _ else _) = Ok _ => let E := fresh "E" in destruct b eqn:E
  | (match ?x with _ => _ end) = Ok _ => destruct x
  | (let '(_, _) := ?x in _) = Ok _ => destruct x
  | Ok _ = Ok _ => injection H; clear H; intros; subst
  | UB _ = Ok _ => discriminate H
  | Diverge = Ok _ => discriminate H
  end).

Lemma deref_store_same db p u v : deref db p = Ok v -> same_users db (db_store db p u).
Proof. intros H. apply db_store_same, valid_ptr_deref. eauto. Qed.

Lemma db_update_same db p f db' : db_update db p f = Ok db' -> same_users db db'.
Proof. unfold db_update. intros H. path H. by eapply deref_store_same. Qed.

Ltac users := solve [reflexivity|eapply deref_store_same; eassumption|eapply db_update_same; eassumption].

Lemma alloc_dl_user_same sf e p md o sf' e' : alloc_dl_user sf e p md = Ok (o, sf', e') -> same_users (e_db e) (e_db e').
Proof. unfold alloc_dl_user. intros H. path H; users. Qed.

Lemma alloc_ul_npdcch_same sf e p c e' : alloc_ul_npdcch sf e p = Ok (c, e') -> same_users (e_db e) (e_db e').
Proof. unfold alloc_ul_npdcch. intros H. path H; users. Qed.

Lemma alloc_ul_msg3_same sf e al mcs c e' : alloc_ul_msg3 sf e al mcs = Ok (c, e') -> same_users (e_db e) (e_db e').
Proof. unfold alloc_ul_msg3. intros H. path H; users. Qed.

Lemma alloc_ul_same sf e p al ty mcs o sf' e' : alloc_ul sf e p al ty mcs = Ok (o, sf', e') -> same_users (e_db e) (e_db e').
Proof.
  unfold alloc_ul. intros H. destruct (is_ul_alloc sf p); [path H; reflexivity|].
  apply bind_Ok in H as ([c e1] & H1 & H).
  assert (same_users (e_db e) (e_db e1)) as H0.
  { destruct (is_msg3 ty); [by eapply alloc_ul_msg3_same|injection H1 as <- <-; reflexivity]. }
  destruct c as [o1|al1 m1]; [by injection H as <- <- <-|].
  apply bind_Ok in H as ([c2 e2] & H2 & H). etrans; [exact H0|].
  assert (same_users (e_db e1) (e_db e2)) as H3.
  { destruct (ul_needs_npdcch ty); [by eapply alloc_ul_npdcch_same|injection H2 as <- <-; reflexivity]. }
  destruct c2; by injection H as <- <- <-.
Qed.

Lemma foldM_keeps {A S B} (f : S -> A -> res S) (R : B -> B -> Prop) `{!PreOrder R} (g : S -> B) l s s' :
  (forall a s s', f s a = Ok s' -> R (g s) (g s')) -> foldM f l s = Ok s' -> R (g s) (g s').
Proof.
  intros Hf. revert s; induction l as [|a l IH]; intros s H; cbn in H.
  - injection H as <-. reflexivity.
  - apply bind_Ok in H as (s1 & H1 & H). etrans; [by eapply Hf|by apply IH].
Qed.

Lemma ra_ul_step_same st g st' : ra_ul_step st g = Ok st' -> same_users (e_db st.2) (e_db st'.2).
Proof.
  destruct st as [sf e]. unfold ra_ul_step. destruct (db_find _ _) as [p|]; [|intros [= <-]; reflexivity].
  intros H. apply bind_Ok in H as ([[o sf'] e'] & H & H'). injection H' as <-. unfold alloc_msg3 in H.
  destruct (_ =? 0); [by eapply alloc_ul_same|]. injection H as <- <- <-. reflexivity.
Qed.

Lemma ra_ul_sched_same sf2 sf e st' : ra_ul_sched sf2 sf e = Ok st' -> same_users (e_db e) (e_db st'.2).
Proof.
  unfold ra_ul_sched. intros H. eapply (foldM_keeps _ same_users (fun st => e_db st.2)) in H; [exact H|].
  intros a s s' H'. eapply (foldM_keeps _ same_users (fun st => e_db st.2)) in H'; [exact H'|].
  intros. by eapply ra_ul_step_same.
Qed.

Lemma allocate_user_same st p st' : allocate_user st p = Ok st' -> same_users (e_db (ds_env st)) (e_db (ds_env st')).
Proof.
  unfold allocate_user. intros H.
  destruct (is_dl_alloc _ _); [by injection H as <-|]. destruct (ds_active st).
  { injection H as <-. by destruct (_ >? _). }
  apply bind_Ok in H as (u & _ & H). destruct (_ >? 0); [|by injection H as <-].
  apply bind_Ok in H as ([[o sf'] e'] & H1 & H). apply alloc_dl_user_same in H1.
  injection H as <-. by case_bool_decide.
Qed.

Lemma alloc_dl_users_same mask st st' :
  alloc_dl_users mask st = Ok st' -> same_users (e_db (ds_env st)) (e_db (ds_env st')).
Proof.
  unfold alloc_dl_users. destruct (_ =? 0); [done|]. intros H. apply bind_Ok in H as (k & _ & H).
  destruct (negb _); [by injection H as <-|]. unfold sched_users_dl in H.
  destruct (_ =? 0); [by injection H as <-|].
  eapply (foldM_keeps _ same_users (fun st => e_db (ds_env st))) in H; [exact H|].
  intros r s s' H'. apply bind_Ok in H' as (p & _ & H'). by eapply allocate_user_same.
Qed.

Lemma alloc_ul_users_same sf e st' : alloc_ul_users sf e = Ok st' -> same_users (e_db e) (e_db st'.2).
Proof.
  unfold alloc_ul_users, sched_users_ul. destruct (_ =? 0); [intros [= <-]; reflexivity|]. intros H.
  eapply (foldM_keeps _ same_users (fun st => e_db st.2)) in H; [exact H|].
  intros r [sf1 e1] s' H'. apply bind_Ok in H' as (p & _ & H'). unfold allocate_user_newtx_prbs in H'.
  destruct (is_ul_alloc _ _); [injection H' as <-; reflexivity|].
  apply bind_Ok in H' as (u & _ & H'). destruct (_ >? 0); [|injection H' as <-; reflexivity].
  apply bind_Ok in H' as ([[o sf2] e2] & H1 & H'). apply alloc_ul_same in H1.
  case_bool_decide; [|by injection H' as <-]. apply bind_Ok in H' as (db' & H2 & H'). injection H' as <-.
  apply db_update_same in H2. by etrans.
Qed.

Lemma generate_sched_results_same sf db r0 r db' : generate_sched_results sf db r0 = Ok (r, db') -> same_users db db'.
Proof.
  unfold generate_sched_results. intros H.
  apply bind_Ok in H as (d1 & _ & H). apply bind_Ok in H as (d2 & _ & H).
  apply bind_Ok in H as ([d3 db3] & H3 & H). apply bind_Ok in H as (u1 & _ & H). injection H as _ <-.
  unfold set_dl_data_sched_result in H3. apply bind_Ok in H3 as ([l db4] & H3 & E). injection E as _ <-.
  eapply (foldM_keeps _ same_users snd) in H3; [exact H3|].
  intros a [l1 db1] s' H'. unfold set_dl_data_step in H'. path H'; users.
Qed.

Lemma generate_tti_result_same c db hfn t fl r c' db' :
  generate_tti_result c db hfn t fl = Ok (r, c', db') -> same_users db db'.
Proof.
  unfold generate_tti_result. intros H. apply bind_Ok in H as (r0 & _ & H).
  destruct (_ =? _); [by injection H as <- <- <-|].
  apply bind_Ok in H as ([[idx sf] c0] & _ & H). apply bind_Ok in H as ([[sf1 c1] db1] & H1 & H).
  apply bind_Ok in H as ([r1 db2] & H2 & H). apply bind_Ok in H as (l & _ & H). injection H as _ _ <-.
  apply generate_sched_results_same in H2. etrans; [|exact H2]. clear H2.
  destruct fl; [unfold dl_pass in H1|unfold ul_pass in H1].
  - apply bind_Ok in H1 as (dl0 & _ & H1). apply bind_Ok in H1 as (b & _ & H1).
    apply bind_Ok in H1 as ([[b' sf0] dl1] & _ & H1). apply bind_Ok in H1 as (ra & _ & H1).
    apply bind_Ok in H1 as ([[[ret ra'] sf2] dl2] & _ & H1). apply bind_Ok in H1 as ([c2 db3] & Hr & H1).
    apply bind_Ok in H1 as (st & Hu & H1). injection H1 as _ _ <-.
    apply alloc_dl_users_same in Hu. etrans; [|exact Hu]. cbn [carrier_env ds_env e_db].
    case_bool_decide; [|by injection Hr as _ <-].
    apply bind_Ok in Hr as ([[i3 s3] c3] & _ & Hr). apply bind_Ok in Hr as ([s4 e4] & Hr & E).
    injection E as _ <-. by apply ra_ul_sched_same in Hr.
  - apply bind_Ok in H1 as (ul0 & _ & H1). apply bind_Ok in H1 as ([sf2 e2] & H1 & E). injection E as _ _ <-.
    by apply alloc_ul_users_same in H1.
Qed.

(** The identities of the users of a scheduler. *)
Definition sched_rntis (s : sched) : gset Z := dom (db_map (ue_db s)).

Lemma dl_sched_rntis s hfn t r0 o r s' : dl_sched s hfn t r0 = Ok (o, r, s') -> sched_rntis s' = sched_rntis s.
Proof.
  unfold dl_sched. destruct (negb _); [by intros [= _ _ <-]|]. cbn [carrier_schedulers upd].
  destruct (carrier_schedulers s) as [|c cs]; [by intros [= _ _ <-]|].
  intros H. apply bind_Ok in H as ([[r1 c1] db1] & H & E). injection E as _ _ <-.
  apply generate_tti_result_same in H. unfold sched_rntis. cbn. symmetry. by apply same_users_dom.
Qed.

Lemma ul_sched_rntis s hfn t r0 o r s' : ul_sched s hfn t r0 = Ok (o, r, s') -> sched_rntis s' = sched_rntis s.
Proof.
  unfold ul_sched. destruct (negb _); [by intros [= _ _ <-]|].
  intros H. apply bind_Ok in H as (c & _ & H). apply bind_Ok in H as ([[r1 c1] db1] & H & E). injection E as _ _ <-.
  apply generate_tti_result_same in H. unfold sched_rntis. cbn. symmetry. by apply same_users_dom.
Qed.

(** ** Identities *)

(** [n] preambles in a row. *)
Fixpoint allocate_rntis (n : nat) (m : mac) : list Z * mac :=
  match n with
  | O => ([], m)
  | S n => let '(r, m) := allocate_rnti m in let '(l, m) := allocate_rntis n m in (r :: l, m)
  end.

Lemma allocate_rnti_step m k :
  0 <= k -> m_last_rnti m = 4097 + k mod 55903 ->
  (allocate_rnti m).1 = 4097 + k mod 55903 /\ m_last_rnti (allocate_rnti m).2 = 4097 + (k + 1) mod 55903.
Proof.
  intros Hk Hm. split; [done|]. cbn. rewrite Hm. pose proof (Z.mod_pos_bound k 55903 ltac:(lia)).
  rewrite u16_id by lia. destruct (Z.geb_spec (4097 + k mod 55903 + 1) 60000).
  - assert (k mod 55903 = 55902) by lia. dlia.
  - dlia.
Qed.

Lemma allocate_rntis_from n m k :
  0 <= k -> m_last_rnti m = 4097 + k mod 55903 ->
  (allocate_rntis n m).1 = (fun i => 4097 + i mod 55903) <$> range k n.
Proof.
  revert m k; induction n as [|n IH]; intros m k Hk Hm; [done|].
  destruct (allocate_rnti_step m k Hk Hm) as [Hr Hm']. cbn [allocate_rntis].
  destruct (allocate_rnti m) as [r m'] eqn:E. cbn [fst snd] in Hr, Hm'.
  specialize (IH m' (k + 1) ltac:(lia) Hm'). destruct (allocate_rntis n m') as [l m2]. cbn [fst] in IH |- *.
  rewrite range_S, fmap_cons, IH. by rewrite Hr.
Qed.

(** Identities after a reset: preamble number [k] gets 4097 + [k] modulo
    55903.  All of them are C-RNTIs (none is the invalid, broadcast, paging or
    multicast one), any 55903 consecutive ones differ, and the next one is the
    first again, whether or not the device that has it is still there. *)
Theorem rntis_after_reset m n :
  let l := (allocate_rntis n (mac_reset m)).1 in
  length l = n /\ (forall k, (k < n)%nat -> l !! k = Some (4097 + Z.of_nat k mod 55903)) /\
  Forall (fun r => 4097 <= r < 60000) l /\ (Z.of_nat n <= 55903 -> NoDup l).
Proof.
  cbn zeta. rewrite (allocate_rntis_from n (mac_reset m) 0) by done. split_and!.
  - by rewrite length_fmap, length_range.
  - intros k Hk. rewrite list_lookup_fmap. unfold range. rewrite list_lookup_fmap, lookup_seq_lt by done. done.
  - apply Forall_fmap, Forall_forall. intros x _. cbn. pose proof (Z.mod_pos_bound x 55903). lia.
  - intros Hn. apply NoDup_fmap_2_strong; [|apply NoDup_range].
    intros x y Hx%elem_of_range Hy%elem_of_range. rewrite !Z.mod_small by lia. lia.
Qed.

(** ** The frame number in SIB1 *)

(** The field the patch writes, of the eight high bits of the ten-bit HFN. *)
Definition sib1_hfn (l : list Z) : res Z :=
  b1 ← arr_read l 1; b2 ← arr_read l 2; Ok (b1 mod 16 * 16 + b2 / 16).

(** The two ways a nibble is put into a byte. *)
Lemma nibbles b v : is_byte b -> 0 <= v < 16 ->
  u8 (Z.lor (Z.land b 240) v) = 16 * (b / 16) + v /\ u8 (Z.lor (Z.land b 15) (Z.shiftl v 4)) = 16 * v + b mod 16.
Proof.
  intros Hb Hv. unfold is_byte in Hb.
  assert (Hall : forallb (fun b => forallb (fun v =>
      (u8 (Z.lor (Z.land b 240) v) =? 16 * (b / 16) + v) &&
      (u8 (Z.lor (Z.land b 15) (Z.shiftl v 4)) =? 16 * v + b mod 16)) (range 0 16)) (range 0 256) = true)
    by (vm_compute; reflexivity).
  rewrite forallb_forall in Hall. specialize (Hall b ltac:(apply list_elem_of_In, elem_of_range; lia)).
  rewrite forallb_forall in Hall. specialize (Hall v ltac:(apply list_elem_of_In, elem_of_range; lia)).
  apply andb_true_iff in Hall as [H1%Z.eqb_eq H2%Z.eqb_eq]. done.
Qed.

Lemma patch_hfn_eq hfn a b c l :
  is_byte b -> is_byte c ->
  patch_hfn hfn (a :: b :: c :: l) =
    Ok (a :: 16 * (b / 16) + hfn / 64 mod 16 :: 16 * (hfn / 4 mod 16) + c mod 16 :: l).
Proof.
  intros Hb Hc. unfold patch_hfn.
  rewrite (arr_read_lookup _ 1 b) by done. rewrite bind_ok_l. cbv zeta.
  assert (forall k, Z.land (Z.shiftr hfn k) 15 = Z.shiftr hfn k mod 16) as Hl.
  { intros k. change 15 with (Z.ones 4). by rewrite Z.land_ones. }
  rewrite !Hl, !Z.shiftr_div_pow2 by lia. change (2 ^ 6) with 64. change (2 ^ 2) with 4.
  pose proof (Z.mod_pos_bound (hfn / 64) 16 ltac:(lia)). pose proof (Z.mod_pos_bound (hfn / 4) 16 ltac:(lia)).
  rewrite (proj1 (nibbles b (hfn / 64 mod 16) Hb ltac:(lia))).
  rewrite arr_write_in by (cbn [length]; lia). rewrite bind_ok_l.
  rewrite (arr_read_lookup _ 2 c) by done. rewrite bind_ok_l.
  rewrite (proj2 (nibbles c (hfn / 4 mod 16) Hc ltac:(lia))).
  rewrite arr_write_in by (rewrite length_insert; cbn [length]; lia). done.
Qed.

(** C34. The frame number written into SIB1 before it is sent: the eight high
    bits of the ten-bit HFN are what a receiver reads back from the field, no
    other bit of the message changes, and what an earlier transmission wrote
    there does not matter. *)
Theorem sib1_carries_hfn hfn l :
  0 <= hfn < 1024 -> Forall is_byte l -> (3 <= length l)%nat ->
  exists l', patch_hfn hfn l = Ok l' /\ sib1_hfn l' = Ok (hfn / 4) /\
    Forall is_byte l' /\ length l' = length l /\
    (forall i, i <> 1%nat -> i <> 2%nat -> l' !! i = l !! i) /\
    (forall b b', l !! 1%nat = Some b -> l' !! 1%nat = Some b' -> b' / 16 = b / 16) /\
    (forall c c', l !! 2%nat = Some c -> l' !! 2%nat = Some c' -> c' mod 16 = c mod 16) /\
    forall hfn2, patch_hfn hfn2 l' = patch_hfn hfn2 l.
Proof.
  intros Hh Hl Hlen. destruct l as [|a [|b [|c l]]]; [cbn in Hlen; lia..|].
  apply Forall_cons in Hl as [Ha Hl]. apply Forall_cons in Hl as [Hb Hl]. apply Forall_cons in Hl as [Hc Hl].
  rewrite patch_hfn_eq by done. eexists. split; [reflexivity|].
  pose proof Hb as Hb'. pose proof Hc as Hc'. unfold is_byte in Hb', Hc'.
  assert (Hb2 : is_byte (16 * (b / 16) + hfn / 64 mod 16)) by (unfold is_byte; dlia).
  assert (Hc2 : is_byte (16 * (hfn / 4 mod 16) + c mod 16)) by (unfold is_byte; dlia).
  split_and!.
  - unfold sib1_hfn. erewrite (arr_read_lookup _ 1), (arr_read_lookup _ 2) by done. rewrite !bind_ok_l. f_equal. dlia.
  - do 3 (apply Forall_cons; split; [done|]). done.
  - done.
  - intros [|[|[|i]]]; done.
  - intros ? ? [= <-] [= <-]. dlia.
  - intros ? ? [= <-] [= <-]. dlia.
  - intros hfn2. rewrite !patch_hfn_eq by done. do 3 f_equal; [dlia|f_equal; dlia].
Qed.

(** ** The users of the MAC and of its scheduler *)

Lemma sched_kept_rntis s s' : sched_kept s s' -> sched_rntis s' = sched_rntis s.
Proof.
  intros [_ H]. apply leibniz_equiv. intros r. specialize (H r). unfold sched_rntis. rewrite !elem_of_dom.
  change (rnti_in s' r <-> rnti_in s r). rewrite <- !sched_ue_exists_iff. by rewrite H.
Qed.

Lemma process_ce_kept buf u s subh r u' s' : process_ce buf u s subh = Ok (r, u', s') -> sched_kept s s'.
Proof.
  unfold process_ce. intros H. destruct (_ =? _); [path H; reflexivity|]. destruct (_ || _).
  { path H; [reflexivity|apply ue_db_access_kept]. }
  destruct (_ =? _); [|path H; reflexivity].
  apply bind_Ok in H as ([l g] & _ & H). apply bind_Ok in H as (s2 & H & E). injection E as _ _ <-.
  eapply (foldM_keeps _ sched_kept (fun s => s)) in H; [exact H|].
  intros i s3 s4 H'. path H'. apply fold_kept. intros. apply ue_db_access_kept.
Qed.

Lemma process_pdu_kept u s b n u' s' o : process_pdu u s b n = Ok (u', s', o) -> sched_kept s s'.
Proof.
  unfold process_pdu. intros H. apply bind_Ok in H as (m & _ & H). apply bind_Ok in H as (b0 & _ & H).
  apply bind_Ok in H as ([[[m' off] n'] dpr] & _ & H). cbv zeta in H. apply bind_Ok in H as (l & _ & H).
  apply bind_Ok in H as ([[bsr_ u1] s1] & H1 & H). apply bind_Ok in H as (a & _ & H). injection H as _ <- _.
  eapply (foldM_keeps _ sched_kept (fun x => x.2)) in H1; [cbn in H1|].
  - etransitivity; [exact H1|].
    set (s2 := if negb (dpr =? 0) then _ else s1).
    assert (sched_kept s1 s2) as H2.
    { subst s2. destruct (negb _); [|reflexivity]. etransitivity; apply ue_db_access_kept. }
    destruct (_ && _); [|done]. etransitivity; [exact H2|apply ue_db_access_kept].
  - intros c [[r2 u2] s2] x H'. unfold process_ces in H'. destruct (sh_is_sdu c); [by injection H' as <-|].
    apply bind_Ok in H' as ([[r3 u3] s3] & H' & E). injection E as <-. by apply process_ce_kept in H'.
Qed.

Lemma mu_process_pdus_kept u s r u' s' o : mu_process_pdus u s = Ok (r, u', s', o) -> sched_kept s s'.
Proof.
  unfold mu_process_pdus. generalize (length (pq_q (mu_pdus u))) (@nil rlc_pdu) false.
  intros f. revert u s. induction f as [|f IH]; intros u s out hd; cbn [process_pdus_loop];
    destruct (pq_q (mu_pdus u)) as [|[b n] q]; intros H; try (injection H as _ _ <- _; reflexivity); [done|].
  apply bind_Ok in H as ([[u1 s1] o1] & H1 & H). apply process_pdu_kept in H1.
  etransitivity; [exact H1|]. by eapply IH.
Qed.

(** The MAC with the upper layers' state [ms_rlc] and the devices the RRC has
    been told of. *)
Record msys {S : Type} := mk_msys { ms_mac : mac; ms_rlc : S; ms_rrc : gset Z }.
Arguments msys S : clear implicits.
Arguments mk_msys {S} _ _ _.

Definition told (evs : list mac_event) : gset Z :=
  list_to_set (omap (fun e => match e with E_rrc_add_user r _ => Some r | _ => None end) evs).


(** The devices whose random access is still queued. *)
Definition pending_rach (m : mac) : list Z :=
  omap (fun t => match t with T_rach r _ _ _ => Some r | _ => None end) (m_tasks m).

#[global] Arguments told : simpl never.
#[global] Arguments pending_rach : simpl never.

Section Runs.
Context {S : Type} (read_pdu : Z -> S -> Z -> Z -> Z * list Z * S).

(** The calls made to the MAC.  The RRC removes only devices it was told of;
    a preamble arrives while the next identity is not in use. *)
Inductive mac_step : msys S -> msys S -> Prop :=
| ms_rach m st rrc tti p ta : m_ue_db m !! m_last_rnti m = None ->
    mac_step (mk_msys m st rrc) (mk_msys (rach_detected m tti p ta) st rrc)
| ms_task m st rrc m' evs : run_task m = Ok (m', evs) ->
    mac_step (mk_msys m st rrc) (mk_msys m' st (rrc ∪ told evs))
| ms_crc m st rrc tti r n crc o m' : crc_info m tti r n crc = Ok (o, m') ->
    mac_step (mk_msys m st rrc) (mk_msys m' st rrc)
| ms_buffer m st rrc r lc tx retx :
    mac_step (mk_msys m st rrc) (mk_msys (rlc_buffer_state m r lc tx retx).2 st rrc)
| ms_cfg m st rrc r c : mac_step (mk_msys m st rrc) (mk_msys (mac_ue_cfg m r c).2 st rrc)
| ms_crnti m st rrc t r c : mac_step (mk_msys m st rrc) (mk_msys (ue_set_crnti m t r c).2 st rrc)
| ms_rem m st rrc r : r ∈ rrc ->
    mac_step (mk_msys m st rrc) (mk_msys (mac_ue_rem m r).2 st (rrc ∖ {[r]}))
| ms_dl m st rrc hfn t out o out' m' st' : get_dl_sched read_pdu m st hfn t out = Ok (o, out', m', st') ->
    mac_step (mk_msys m st rrc) (mk_msys m' st' rrc)
| ms_ul m st rrc hfn t out o out' m' : get_ul_sched m hfn t out = Ok (o, out', m') ->
    mac_step (mk_msys m st rrc) (mk_msys m' st rrc)
| ms_phy m st rrc r u b bytes : m_ue_db m !! r = Some u ->
    mac_step (mk_msys m st rrc) (mk_msys (m <| m_ue_db := <[r := phy_write u b bytes]> (m_ue_db m) |>) st rrc)
| ms_rlc_own m st rrc st' : mac_step (mk_msys m st rrc) (mk_msys m st' rrc).

Inductive mac_run : msys S -> msys S -> Prop :=
| mac_run_nil x : mac_run x x
| mac_run_snoc x y z : mac_run x y -> mac_step y z -> mac_run x z.

Record agree (x : msys S) : Prop := mk_agree {
  ag_sched : sched_rntis (m_sched (ms_mac x)) ⊆ dom (m_ue_db (ms_mac x));
  ag_rrc : ms_rrc x ⊆ dom (m_ue_db (ms_mac x));
  ag_pending : forall r, r ∈ pending_rach (ms_mac x) -> r ∈ dom (m_ue_db (ms_mac x)) /\ r ∉ ms_rrc x;
  ag_nodup : NoDup (pending_rach (ms_mac x))
}.

(** Steps that change none of the sets. *)
Lemma agree_same m st rrc m' st' :
  sched_rntis (m_sched m') = sched_rntis (m_sched m) -> dom (m_ue_db m') = dom (m_ue_db m) ->
  pending_rach m' = pending_rach m -> agree (mk_msys m st rrc) -> agree (mk_msys m' st' rrc).
Proof. intros E1 E2 E3 [H1 H2 H3 H4]. split; cbn in *; rewrite ?E1, ?E2, ?E3; done. Qed.

Lemma dom_store (db : gmap Z mac_ue) r u v : db !! r = Some u -> dom (<[r := v]> db) = dom db.
Proof. intros H. apply dom_insert_lookup_L. by exists u. Qed.

(** Device entities may have changed, nothing else of interest. *)
Definition mac_sim (m m' : mac) : Prop :=
  m_sched m' = m_sched m /\ m_tasks m' = m_tasks m /\ m_started m' = m_started m /\ dom (m_ue_db m') = dom (m_ue_db m).

#[local] Instance mac_sim_preorder : PreOrder mac_sim.
Proof. split; [done|]. intros a b c (? & ? & ? & ?) (? & ? & ? & ?). unfold mac_sim. split_and!; congruence. Qed.

Lemma mac_sim_store m r u v : m_ue_db m !! r = Some u -> mac_sim m (m <| m_ue_db := <[r := v]> (m_ue_db m) |>).
Proof. intros H. split_and!; [done..|]. cbn. by apply dom_store with u. Qed.

Lemma copy_tb_sim r d a tb a' : copy_tb read_pdu r d a tb = Ok a' -> mac_sim (cp_mac a) (cp_mac a').
Proof.
  unfold copy_tb. intros H. destruct (_ >? 0).
  - destruct (m_ue_db (cp_mac a) !! r) as [u|] eqn:E; [|done].
    apply bind_Ok in H as ([[p u1] st] & _ & H). apply bind_Ok in H as (data & _ & H). injection H as <-.
    by apply mac_sim_store with u.
  - apply bind_Ok in H as (data & _ & H). by injection H as <-.
Qed.

Lemma copy_data_sim a d a' : copy_data read_pdu a d = Ok a' -> mac_sim (cp_mac a) (cp_mac a').
Proof.
  unfold copy_data. intros H. destruct (m_ue_db _ !! _); [|by injection H as <-].
  apply bind_Ok in H as (a1 & H & E). injection E as <-.
  eapply (foldM_keeps _ mac_sim (fun x => cp_mac x)) in H; [exact H|]. intros. by eapply copy_tb_sim.
Qed.

Lemma copy_result_sim hfn m st g r a : copy_result read_pdu hfn m st g r = Ok a -> mac_sim m (cp_mac a).
Proof.
  unfold copy_result. intros H. apply bind_Ok in H as (a1 & H1 & H). apply bind_Ok in H as (a2 & H2 & H3).
  eapply (foldM_keeps _ mac_sim (fun x => cp_mac x)) in H1; [|intros; by eapply copy_data_sim].
  eapply (foldM_keeps _ mac_sim (fun x => cp_mac x)) in H2.
  2:{ intros x s s' H. unfold copy_rar in H. apply bind_Ok in H as (p & _ & H).
      apply bind_Ok in H as (data & _ & H). by injection H as <-. }
  eapply (foldM_keeps _ mac_sim (fun x => cp_mac x)) in H3.
  2:{ intros x s s' H. unfold copy_bc in H. destruct (has_sib1 _); path H; done. }
  etrans; [exact H1|]. by etrans.
Qed.

Lemma get_dl_sched_agree m st rrc hfn t out o out' m' st' :
  get_dl_sched read_pdu m st hfn t out = Ok (o, out', m', st') ->
  agree (mk_msys m st rrc) -> agree (mk_msys m' st' rrc).
Proof.
  unfold get_dl_sched. destruct (negb _); [intros [= _ _ <- <-]; by apply agree_same|].
  intros H. apply bind_Ok in H as ([[ret r] s] & H1 & H). apply dl_sched_rntis in H1.
  destruct (ret <? 0); [injection H as _ _ <- <-; by apply agree_same|].
  apply bind_Ok in H as (a & Ha & H). injection H as _ _ <- <-.
  destruct (copy_result_sim _ _ _ _ _ _ Ha) as (E1 & E2 & _ & E4). apply agree_same.
  - by rewrite E1.
  - by rewrite E4.
  - unfold pending_rach. by rewrite E2.
Qed.

Lemma copy_ul_sim t m l d m' l' : copy_ul t (m, l) d = Ok (m', l') -> mac_sim m m'.
Proof.
  unfold copy_ul. intros H. destruct (_ >? 0); [|injection H as <- _; reflexivity].
  destruct (m_ue_db m !! _) as [u|] eqn:E; [|injection H as <- _; reflexivity].
  apply bind_Ok in H as ([b u'] & _ & H). apply bind_Ok in H as (l1 & _ & H). injection H as <- _.
  by apply mac_sim_store with u.
Qed.

Lemma get_ul_sched_agree m st rrc hfn t out o out' m' :
  get_ul_sched m hfn t out = Ok (o, out', m') -> agree (mk_msys m st rrc) -> agree (mk_msys m' st rrc).
Proof.
  unfold get_ul_sched. destruct (negb _); [intros [= _ _ <-]; by apply agree_same|].
  intros H. apply bind_Ok in H as ([[ret r] s] & H1 & H). apply ul_sched_rntis in H1.
  destruct (ret <? 0); [injection H as _ _ <-; by apply agree_same|].
  apply bind_Ok in H as ([m2 l] & H & E). injection E as _ _ <-.
  eapply (foldM_keeps _ mac_sim fst) in H; [cbn in H|intros ? [] [] ?; by eapply copy_ul_sim].
  destruct H as (E1 & E2 & _ & E4). apply agree_same.
  - by rewrite E1.
  - by rewrite E4.
  - unfold pending_rach. by rewrite E2.
Qed.

(** A device is configured: the scheduler may learn of one the MAC has. *)
Lemma sched_ue_cfg_rntis s r c : sched_rntis (sched_ue_cfg s r c).2 = {[r]} ∪ sched_rntis s.
Proof.
  unfold sched_ue_cfg, ue_db_access, sched_rntis. destruct (db_map (ue_db s) !! r) as [[id u]|] eqn:E.
  - rewrite E. cbn. by rewrite dom_insert_L.
  - cbn. rewrite lookup_insert_eq. cbn. rewrite !dom_insert_L. set_solver.
Qed.

Lemma ue_db_access_rntis s r f : sched_rntis (ue_db_access s r f).2 = sched_rntis s.
Proof. apply sched_kept_rntis, ue_db_access_kept. Qed.

Lemma mac_ue_cfg_agree m st rrc r c : agree (mk_msys m st rrc) -> agree (mk_msys (mac_ue_cfg m r c).2 st rrc).
Proof.
  intros H. unfold mac_ue_cfg. destruct (m_ue_db m !! r) as [u|] eqn:E; [|done].
  set (m1 := m <| m_ue_db := _ |>).
  assert (Hd : dom (m_ue_db m1) = dom (m_ue_db m)) by (cbn; by apply dom_store with u).
  assert (H1 : agree (mk_msys m1 st rrc)) by by apply (agree_same m st).
  destruct c as [c|]; [|exact H1]. destruct (sched_ue_cfg (m_sched m1) r c) as [o s] eqn:Es.
  pose proof (sched_ue_cfg_rntis (m_sched m1) r c) as Hr. rewrite Es in Hr. cbn in Hr.
  destruct H1 as [A1 A2 A3 A4]. split; try done. cbn in A1 |- *. rewrite Hr.
  assert (r ∈ dom (m_ue_db m)) by by (apply elem_of_dom; exists u). cbn in Hd. rewrite Hd in *. set_solver.
Qed.

(** What the agreement looks at. *)
Definition view (a : bool * mac * list mac_event) : gset Z * gset Z * list Z * gset Z :=
  (sched_rntis (m_sched a.1.2), dom (m_ue_db a.1.2), pending_rach a.1.2, told a.2).

Lemma process_pdus_step_agree a r a' : process_pdus_step a r = Ok a' -> view a = view a'.
Proof.
  destruct a as [[b m] evs]. unfold process_pdus_step. destruct (m_ue_db m !! r) as [u|] eqn:E; [|done].
  intros H. apply bind_Ok in H as ([[[r1 u1] s1] o] & H & E1). injection E1 as <-. cbn [fst snd].
  apply mu_process_pdus_kept, sched_kept_rntis in H. unfold view. cbn [fst snd].
  assert (Ed : dom (m_ue_db m) = dom (<[r := u1]> (m_ue_db m))) by (symmetry; by apply dom_store with u).
  assert (Et : told evs = told (evs ++ (E_rlc_write <$> o))); [|by cbn; rewrite H, <- Ed, <- Et].
  { unfold told. rewrite omap_app, list_to_set_app_L. replace (omap _ (E_rlc_write <$> o)) with (@nil Z); [set_solver|].
    symmetry. by induction o. }
Qed.

Lemma rach_task_agree m st rrc r t p ta m' evs :
  rach_task m r t p ta = Ok (m', evs) -> r ∈ dom (m_ue_db m) -> r ∉ pending_rach m ->
  agree (mk_msys m st rrc) -> agree (mk_msys m' st (rrc ∪ told evs)).
Proof.
  unfold rach_task. intros H Hr Hp [A1 A2 A3 A4]; cbn in A1, A2, A3, A4.
  pose proof (sched_ue_cfg_rntis (m_sched m) r rach_ue_cfg) as Hc.
  destruct (sched_ue_cfg (m_sched m) r rach_ue_cfg) as [o s]. cbn in Hc.
  assert (Hsub : sched_rntis s ⊆ dom (m_ue_db m)) by (rewrite Hc; set_solver).
  destruct (negb (o =? SRSLTE_SUCCESS)).
  - injection H as <- <-. split; cbn; [done|unfold told; cbn; set_solver| |done].
    intros r' Hr'. destruct (A3 r' Hr'). unfold told. cbn. set_solver.
  - apply bind_Ok in H as ([o2 s2] & H & E). injection E as <- <-.
    assert (sched_rntis s2 = sched_rntis s) as E2.
    { unfold sched_dl_rach_info in H. apply bind_Ok in H as (c & _ & H).
      apply bind_Ok in H as ([o3 c'] & _ & H). by injection H as _ <-. }
    unfold told. cbn. split; cbn; [by rewrite E2|set_solver| |done].
    intros r' Hr'. destruct (A3 r' Hr') as [? ?]. split; [done|].
    assert (r' <> r) by (intros ->; done). set_solver.
Qed.

Lemma run_task_agree m st rrc m' evs :
  run_task m = Ok (m', evs) -> agree (mk_msys m st rrc) -> agree (mk_msys m' st (rrc ∪ told evs)).
Proof.
  unfold run_task. destruct (m_tasks m) as [|t ts] eqn:Et.
  { intros [= <- <-] H. unfold told. cbn. by rewrite union_empty_r_L. }
  set (m1 := m <| m_tasks := ts |>). intros H A. pose proof A as [A1 A2 A3 A4]; cbn in *.
  assert (Hp : pending_rach m = (match t with T_rach r _ _ _ => [r] | _ => [] end) ++ pending_rach m1).
  { unfold pending_rach. rewrite Et. by destruct t. }
  rewrite Hp in A3, A4.
  assert (H1 : agree (mk_msys m1 st rrc)).
  { split; cbn; [done|done| |by apply NoDup_app in A4 as (_ & _ & ?)]. intros r Hr. apply A3, elem_of_app. by right. }
  destruct t as [|r tti p ta].
  - apply bind_Ok in H as ([[b m2] evs2] & H & E). injection E as <- <-. unfold mac_process_pdus in H.
    eapply (foldM_keeps _ eq view) in H; [|intros; by eapply process_pdus_step_agree].
    injection H as E1 E2 E3 E4. rewrite <- E4. unfold told. cbn. rewrite union_empty_r_L.
    by apply (agree_same m1 st).
  - destruct (A3 r) as [Hr Hn]; [apply elem_of_app; left; by apply list_elem_of_singleton|].
    apply NoDup_app in A4 as (_ & Hd & _).
    apply (rach_task_agree m1 st rrc r tti p ta); [done|done| |done]. apply Hd. by apply list_elem_of_singleton.
Qed.

Lemma step_agree x y : mac_step x y -> agree x -> agree y.
Proof.
  intros [m st rrc tti p ta Hf|m st rrc m' evs H|m st rrc tti r n crc o m' H|m st rrc r lc tx retx|m st rrc r c
    |m st rrc t r c|m st rrc r Hr|m st rrc hfn t out o out' m' st' H|m st rrc hfn t out o out' m' H
    |m st rrc r u b bytes Hu|m st rrc st'] A.
  - destruct A as [A1 A2 A3 A4]; cbn in A1, A2, A3, A4.
    assert (Hn : m_last_rnti m ∉ dom (m_ue_db m)) by by apply not_elem_of_dom.
    assert (Hp : pending_rach (rach_detected m tti p ta) = pending_rach m ++ [m_last_rnti m]).
    { unfold pending_rach. cbn. by rewrite omap_app. }
    assert (Hd : dom (m_ue_db (rach_detected m tti p ta)) = {[m_last_rnti m]} ∪ dom (m_ue_db m)) by (cbn; by rewrite dom_insert_L).
    assert (Hs : m_sched (rach_detected m tti p ta) = m_sched m) by done.
    revert Hp Hd Hs. generalize (rach_detected m tti p ta). intros m' Hp Hd Hs.
    split; cbn; rewrite ?Hd, ?Hs, ?Hp; [set_solver..| |].
    + intros r [Hr| ->%list_elem_of_singleton]%elem_of_app; [destruct (A3 r Hr)|]; set_solver.
    + apply NoDup_snoc; [done|]. intros Hin. by destruct (A3 _ Hin).
  - by apply (run_task_agree m).
  - unfold crc_info in H. destruct (m_ue_db m !! r) as [u|] eqn:E; [|injection H as _ <-; exact A].
    destruct crc; apply bind_Ok in H as (u' & _ & H); injection H as _ <-; apply (agree_same m st); try done;
      try (cbn; by apply dom_store with u).
    unfold pending_rach. cbn. by rewrite omap_app, app_nil_r.
  - unfold rlc_buffer_state. destruct (m_ue_db m !! r); [|done]. destruct (negb _); [|by apply (agree_same m st)].
    pose proof (ue_db_access_rntis (m_sched m) r (fun u => dl_buffer_state u lc tx retx)) as Hs.
    unfold sched_dl_rlc_buffer_state. destruct (ue_db_access _ _ _) as [o s]. by apply (agree_same m st).
  - by apply mac_ue_cfg_agree.
  - unfold ue_set_crnti. pose proof (mac_ue_cfg_agree m st rrc r c A) as A'.
    destruct (mac_ue_cfg m r c) as [o m']. cbn in A'. destruct (negb _); [done|]. destruct (_ =? _); [|done].
    apply (agree_same m' st); [|done..]. cbn. apply ue_db_access_rntis.
  - destruct A as [A1 A2 A3 A4]; cbn in *. unfold mac_ue_rem. destruct (m_ue_db m !! r) as [u|] eqn:E.
    + assert (Hs : sched_rntis (sched_ue_rem (m_sched m) r).2 ⊆ sched_rntis (m_sched m) ∖ {[r]}).
      { unfold sched_ue_rem, sched_rntis. destruct (db_map (ue_db (m_sched m)) !! r) as [[id v]|] eqn:E2; cbn.
        - by rewrite dom_delete_L.
        - apply not_elem_of_dom in E2. set_solver. }
      split; cbn; rewrite ?dom_delete_L; [set_solver..| |done].
      intros r' Hr'. destruct (A3 r' Hr'). set_solver.
    + split; cbn; [done|set_solver| |done]. intros r' Hr'. destruct (A3 r' Hr'). set_solver.
  - by apply (get_dl_sched_agree m st rrc hfn t out o out').
  - by apply (get_ul_sched_agree m st rrc hfn t out o out').
  - apply (agree_same m st); try done. cbn. by apply dom_store with u.
  - by apply (agree_same m st).
Qed.

Lemma run_agree x y : mac_run x y -> agree x -> agree y.
Proof. intros H A. induction H; [done|]. by eapply step_agree; [|apply IHmac_run]. Qed.

(** C12. The MAC and its scheduler agree on the devices.  From a started MAC,
    through any calls in any order, every user of the scheduler has its entity
    in the MAC, so has every device the RRC knows, and a device whose random
    access is still queued is known to the MAC and not yet to the RRC.  An
    entity is missing only if an identity is given out while still in use. *)
Theorem mac_scheduler_agree m0 st0 m st rrc bcch :
  mac_init (mac_new bcch) true = Ok (true, m0) -> mac_run (mk_msys m0 st0 ∅) (mk_msys m st rrc) ->
  (forall r, sched_ue_exists (m_sched m) r = true -> is_Some (m_ue_db m !! r)) /\
  (forall r, r ∈ rrc -> is_Some (m_ue_db m !! r)) /\
  (forall r, r ∈ pending_rach m -> is_Some (m_ue_db m !! r) /\ r ∉ rrc).
Proof.
  intros H0 Hr.
  assert (A0 : agree (mk_msys m0 st0 ∅)).
  { unfold mac_init in H0. apply bind_Ok in H0 as (s & _ & H0). injection H0 as <-.
    split; cbn; [|set_solver| |apply NoDup_nil_2].
    - unfold sched_rntis. cbn. set_solver.
    - intros r Hr'. by apply elem_of_nil in Hr'. }
  destruct (run_agree _ _ Hr A0) as [A1 A2 A3 _]; cbn in *. split_and!.
  - intros r Hx%sched_ue_exists_iff. apply elem_of_dom, A1, elem_of_dom, Hx.
  - intros r Hx. apply elem_of_dom. by apply A2.
  - intros r Hx. destruct (A3 r Hx). split; [by apply elem_of_dom|done].
Qed.
End Runs.

(** ** Concrete runs *)
Lemma rntis_after_reset_witness :
  Z.of_nat 3 <= 55903 /\ NoDup (allocate_rntis 3 (mac_reset (mac_new []))).1 /\
  (allocate_rntis 3 (mac_reset (mac_new []))).1 !! 2%nat = Some 4099.
Proof.
  destruct (rntis_after_reset (mac_new []) 3) as (_ & Hk & _ & Hd).
  split; [lia|]. split; [apply Hd; lia|]. apply Hk. lia.
Defined.

Lemma sib1_carries_hfn_witness :
  0 <= 1023 < 1024 /\ exists l', patch_hfn 1023 [64; 18; 52; 86] = Ok l' /\ sib1_hfn l' = Ok 255.
Proof.
  split; [lia|].
  destruct (sib1_carries_hfn 1023 [64; 18; 52; 86]) as (l' & H1 & H2 & _); [lia| |cbn; lia|].
  - repeat (apply Forall_cons; split; [unfold is_byte; lia|]). constructor.
  - exists l'. split; [exact H1|exact H2].
Defined.

(** A preamble has just been detected. *)
Definition demo_start : mac := match mac_init (mac_new []) true with Ok (_, m) => m | _ => mac_new [] end.

Lemma demo_start_ok : mac_init (mac_new []) true = Ok (true, demo_start).
Proof. vm_compute. reflexivity. Qed.

Definition no_rlc (_ : Z) (st : unit) (_ _ : Z) : Z * list Z * unit := (0, [], st).

Lemma mac_scheduler_agree_witness :
  mac_init (mac_new []) true = Ok (true, demo_start) /\
  is_Some (m_ue_db (rach_detected demo_start 64 3 5) !! 4097) /\ 4097 ∉ (∅ : gset Z).
Proof.
  split; [exact demo_start_ok|].
  apply (mac_scheduler_agree no_rlc demo_start tt (rach_detected demo_start 64 3 5) tt ∅ [] demo_start_ok).
  - apply (mac_run_snoc no_rlc _ (mk_msys demo_start tt ∅)); [apply mac_run_nil|].
    apply ms_rach. reflexivity.
  - unfold pending_rach. cbn. apply list_elem_of_here.
Defined.
