(* ===== verification/MacDownlink.v ===== *)
(** * The downlink, from the scheduler's queues to the PHY

    The composition of the scheduler's invariant over runs ([SchedSafety.v]),
    the blocks it fills ([SchedUe.v]), the random access response ([Rar.v]) and
    the composition of blocks ([MacUe.v]) in [mac::get_dl_sched]. *)
From S2P Require Import Prelude Tti RaNbiot SchedTypes SchedUe BcSched UeDb SchedGrid RaSched SchedCarrier SchedSafety Sched.
From S2P Require Import MacPdu Rar DlBlock MacUe MacUeRx Mac MacRun.

(** ** One response *)
Lemma assemble_one_rar r g : exists bytes,
  assemble_rar (r_msg3_grant (rar_elem (rar_alloc_of r g))) (r_tbs (rar_elem (rar_alloc_of r g))) = Ok (Some bytes) /\
  length bytes = 8%nat.
Proof. eexists. split; [reflexivity|]. reflexivity. Qed.

(** ** One data grant *)

(** A list of the scheduler that [generate_pdu] can turn into a block. *)
Record data_ready (d : dl_sched_data_t) : Prop := mk_data_ready {
  dr_ces : exists ces sdus, d_pdu d = ces ++ sdus /\ Z.of_nat (length ces) <= MAX_RLC_PDU_LIST /\
    (forall e, e ∈ ces -> UL_PHR_REPORT < lcid e) /\ 7 * Z.of_nat (length (con_res_elems ces)) <= d_tbs d /\
    (forall e, e ∈ sdus -> 0 <= lcid e <= RESERVED /\ 0 <= nbytes e < 2 ^ 31);
  dr_tbs : 0 < d_tbs d <= 85
}.

(** The only control element the MAC asks for. *)
Definition ces_con_res (db : ue_db_t) : Prop :=
  forall r id u, db_map db !! r = Some (id, u) -> Forall (eq CON_RES_ID) (pending_ces u).

Lemma con_res_all l : Forall (eq CON_RES_ID) l ->
  con_res_elems (ce_pdu <$> l) = ce_pdu <$> l /\ zsum ce_total_size l = 7 * Z.of_nat (length l).
Proof.
  unfold con_res_elems. induction 1 as [|ce l <- _ [IH1 IH2]]; [done|]. split.
  - rewrite fmap_cons, filter_cons, decide_True, IH1; done.
  - rewrite zsum_cons, IH2. change (ce_total_size CON_RES_ID) with 7. cbn [length]. lia.
Qed.

Lemma dl_from_ready db d : users_ok db -> ces_con_res db -> dl_from db d ->
  data_ready d /\ (d_pdu d <> [] -> 2 < d_tbs d) /\ exists p u, deref db p = Ok u /\ rnti (alloc (d_dci d)) = p_rnti p.
Proof.
  intros Hu Hc (p & u & u1 & i & tbs & u2 & sent & new & Hd & (Hl & Hce & Hr & _) & Hb).
  destruct (users_ok_deref _ _ _ Hu Hd) as (Hw & Hf & Hid).
  pose proof (bf_tbs _ _ _ _ _ _ _ Hb) as [Et Ht]. pose proof (bf_ces _ _ _ _ _ _ _ Hb) as [Ec _].
  pose proof (bf_room _ _ _ _ _ _ _ Hb) as Hroom. pose proof (bf_elems _ _ _ _ _ _ _ Hb) as Hel.
  rewrite Hce in Ec.
  assert (Hsent : Forall (eq CON_RES_ID) sent).
  { apply deref_Ok in Hd. pose proof (Hc _ _ _ Hd) as H. rewrite Ec in H. by apply Forall_app in H as [? _]. }
  destruct (con_res_all sent Hsent) as [Ecr Ez].
  assert (Hsdu : forall e, e ∈ new -> 0 < nbytes e /\ nbytes e <= sdu_total e).
  { intros e He. destruct (Hel e He) as [_ Hn]. split; [done|]. unfold sdu_total, compute_subheader_size. case_match; lia. }
  assert (Hnew : 0 <= zsum sdu_total new) by (apply zsum_nonneg; intros e He; destruct (Hsdu e He); lia).
  split; [split|split].
  - exists (ce_pdu <$> sent), new. split_and!.
    + apply (bf_pdu _ _ _ _ _ _ _ Hb).
    + rewrite length_fmap. unfold pdus_fit in Hf. pose proof (nonempty_queues_nonneg u).
      assert (length sent <= length (pending_ces u))%nat by (rewrite Ec, length_app; lia). lia.
    + intros e (ce & -> & Hin)%list_elem_of_fmap. rewrite Forall_forall in Hsent.
      rewrite <- (Hsent ce Hin). by vm_compute.
    + rewrite Ecr, length_fmap, Et. lia.
    + intros e He. destruct (Hel e He) as [Hlc%elem_of_lcs _]. destruct (Hsdu e He) as [H1 H2].
      assert (sdu_total e <= zsum sdu_total new).
      { apply zsum_elem_le; [|done]. intros e' He'. destruct (Hsdu e' He'); lia. }
      pose proof (zsum_ce_nonneg sent). unfold RESERVED. lia.
  - by rewrite Et.
  - rewrite (bf_pdu _ _ _ _ _ _ _ Hb), Et. intros Hne.
    assert (0 <= Z.of_nat (length sent)) by lia. destruct sent as [|ce sent]; [|cbn [length] in Ez; lia].
    destruct new as [|e new]; [done|]. pose proof (Hsdu e (list_elem_of_here _ _)) as [Hn0 _].
    assert (nbytes e + 2 <= sdu_total e) by (unfold sdu_total, compute_subheader_size; case_match; lia).
    assert (sdu_total e <= zsum sdu_total (e :: new)).
    { apply zsum_elem_le; [|apply list_elem_of_here]. intros e' He'. destruct (Hsdu e' He'); lia. }
    pose proof (zsum_ce_nonneg []). lia.
  - exists p, u. split; [done|]. destruct (bf_dci _ _ _ _ _ _ _ Hb) as (_ & _ & _ & -> & _). congruence.
Qed.

Section Down.
Context {S : Type} (read_pdu : Z -> S -> Z -> Z -> Z * list Z * S).
Context (Hrd : forall r, reader_ok (read_pdu r)).

(** The devices that can transmit. *)
Definition ues_wf (m : mac) : Prop := forall r u, m_ue_db m !! r = Some u -> dl_wf u.

(** What the transport block of a data grant is. *)
Definition block_of (st : S) (d : dl_sched_data_t) (st' : S) (b : option (list Z)) : Prop :=
  if decide (d_pdu d = []) then b = None /\ st' = st
  else exists block r ds, b = Some block /\ Z.of_nat (length block) = d_tbs d /\ delivers (read_pdu r) st ds st'.

Lemma copy_tb_second r d a x y : gr_data (cp_grant a) = [x; y] ->
  copy_tb read_pdu r d a 1 = Ok (mk_dl_copy (cp_mac a) (cp_rlc a) ((cp_grant a) <| gr_data := [x; None] |>) (cp_n a)).
Proof. intros E. unfold copy_tb. cbn [tb_pdu Z.eqb length Z.of_nat Z.gtb Z.compare]. rewrite E. done. Qed.

Lemma copy_tb_first r u d a x y :
  data_ready d -> (d_pdu d <> [] -> 2 < d_tbs d) -> ues_wf (cp_mac a) ->
  m_ue_db (cp_mac a) !! r = Some u -> gr_data (cp_grant a) = [x; y] ->
  exists m' st' b, copy_tb read_pdu r d a 0 = Ok (mk_dl_copy m' st' ((cp_grant a) <| gr_data := [b; y] |>) (cp_n a)) /\
    block_of (cp_rlc a) d st' b /\ ues_wf m' /\ m_bcch m' = m_bcch (cp_mac a) /\ mac_sim (cp_mac a) m'.
Proof.
  intros [(ces & sdus & Ep & Hnc & Hces & Hfit & Hsdus) Ht] H2 Hwf Hu Eg. unfold copy_tb.
  change (tb_pdu d 0) with (d_pdu d). change (tb_tbs d 0) with (d_tbs d). rewrite Eg.
  unfold block_of. destruct (decide (d_pdu d = [])) as [E|Hne].
  - rewrite E. exists (cp_mac a), (cp_rlc a), None. by split_and!.
  - destruct (generate_pdu_ok read_pdu Hrd u (cp_rlc a) 0 0 ces sdus (d_tbs d)) as (block & u' & st' & dss & Eg' & Hlen & Hw' & Hdel & _);
      try done; [by apply (Hwf _ _ Hu)|specialize (H2 Hne); lia|].
    assert (0 < Z.of_nat (length (d_pdu d))) by (destruct (d_pdu d); [done|cbn [length]; lia]).
    replace (Z.of_nat (length (d_pdu d)) >? 0) with true by lia.
    rewrite Hu, Ep, Eg', bind_ok_l.
    eexists _, st', (Some block). split_and!; [reflexivity| | | |].
    + exists block, (mu_rnti u), (concat dss). by split_and!.
    + intros r' v. cbn. intros [[_ <-]|[_ Hr]]%lookup_insert_Some; [done|by eapply Hwf].
    + done.
    + by apply mac_sim_store with u.
Qed.

Lemma copy_data_ok a d x y :
  data_ready d -> (d_pdu d <> [] -> 2 < d_tbs d) -> ues_wf (cp_mac a) ->
  is_Some (m_ue_db (cp_mac a) !! rnti (alloc (d_dci d))) -> gr_data (cp_grant a) = [x; y] ->
  exists m' st' b, copy_data read_pdu a d =
      Ok (mk_dl_copy m' st' (mk_dl_sched_grant (d_dci d) [b; None] true (gr_is_new_sib (cp_grant a))) (cp_n a + 1)) /\
    block_of (cp_rlc a) d st' b /\ ues_wf m' /\ m_bcch m' = m_bcch (cp_mac a) /\ mac_sim (cp_mac a) m'.
Proof.
  intros Hd H2 Hwf [u Hu] Eg. unfold copy_data. rewrite Hu.
  change (range 0 (Z.to_nat SRSLTE_MAX_TB)) with [0; 1]. cbn [foldM]. set (g := (cp_grant a) <| gr_dci := _ |> <| gr_has_npdcch := true |>).
  destruct (copy_tb_first (rnti (alloc (d_dci d))) u d (mk_dl_copy (cp_mac a) (cp_rlc a) g (cp_n a)) x y)
    as (m' & st' & b & -> & Hb & Hw & Hm & Hs); try done.
  rewrite bind_ok_l, (copy_tb_second _ _ _ b y), !bind_ok_l by done. by exists m', st', b.
Qed.

Lemma copy_rar_ok (a : @dl_copy S) r g x y : gr_data (cp_grant a) = [x; y] ->
  exists bytes, copy_rar a (rar_elem (rar_alloc_of r g)) =
    Ok (mk_dl_copy (cp_mac a) (cp_rlc a) (mk_dl_sched_grant (rar_dci (pr_ra_rnti r)) [Some bytes; y] true (gr_is_new_sib (cp_grant a))) (cp_n a + 1)) /\
    length bytes = 8%nat.
Proof.
  intros E. destruct (assemble_one_rar r g) as (bytes & Eb & Hl). exists bytes. split; [|done].
  unfold copy_rar. rewrite Eb, bind_ok_l. cbn [gr_data upd]. rewrite E. done.
Qed.

(** The buffers of system information: SIB1 with its three leading bytes, and
    SIB2. *)
Definition bcch_wf (m : mac) : Prop :=
  exists sib1 sib2, m_bcch m = [sib1; sib2] /\ Forall is_byte sib1 /\ (3 <= length sib1)%nat.

Lemma copy_bc_ok hfn (a : @dl_copy S) b x y : 
  bcch_wf (cp_mac a) -> gr_data (cp_grant a) = [x; y] ->
  exists m' bytes, copy_bc hfn a b =
    Ok (mk_dl_copy m' (cp_rlc a) (mk_dl_sched_grant (b_dci b) [Some bytes; y] false (b_is_new_sib b)) (cp_n a + 1)) /\
    bcch_wf m' /\ m_ue_db m' = m_ue_db (cp_mac a) /\ mac_sim (cp_mac a) m' /\
    (forall sib1 sib2, m_bcch (cp_mac a) = [sib1; sib2] ->
       if has_sib1 (alloc (b_dci b)) then patch_hfn hfn sib1 = Ok bytes else bytes = sib2).
Proof.
  intros (sib1 & sib2 & Eb & Hb & Hl) E. unfold copy_bc. rewrite Eb. destruct (has_sib1 _).
  - destruct sib1 as [|b0 [|b1 [|b2 l]]]; [cbn in Hl; lia..|].
    apply Forall_cons in Hb as [Hb0 Hb]. apply Forall_cons in Hb as [Hb1 Hb]. apply Forall_cons in Hb as [Hb2 Hb].
    change (arr_read _ (Z.of_nat (read_pdu_bcch_dlsch 0))) with (Ok (b0 :: b1 :: b2 :: l)).
    rewrite bind_ok_l, patch_hfn_eq, bind_ok_l by done. cbn [gr_data upd]. rewrite E.
    eexists _, _. split; [reflexivity|]. split_and!; try done.
    + eexists _, sib2. split; [reflexivity|]. split; [|cbn; lia].
      unfold is_byte in *. do 3 (apply Forall_cons; split; [dlia|]). done.
    + intros s1 s2 [= <- <-]. by apply patch_hfn_eq.
  - change (arr_read _ (Z.of_nat (read_pdu_bcch_dlsch 1))) with (Ok sib2).
    rewrite bind_ok_l. cbn [gr_data upd]. rewrite E. eexists _, _. split; [reflexivity|]. split_and!; try done.
    + by exists sib1, sib2.
    + by intros s1 s2 [= <- <-].
Qed.
End Down.

(** ** The MAC between two calls of the PHY *)
Record mac_inv (ph : phase) (n : Z) (m : mac) : Prop := mk_mac_inv {
  mi_started : m_started m = true;
  mi_conf : configured (m_sched m) = true;
  mi_car : exists c rest, carrier_schedulers (m_sched m) = c :: rest /\ sys_inv (mk_sys ph n c (ue_db (m_sched m)));
  mi_agree : sched_rntis (m_sched m) ⊆ dom (m_ue_db m);
  mi_ues : ues_wf m;
  mi_ces : ces_con_res (ue_db (m_sched m));
  mi_bcch : bcch_wf m
}.

Lemma ces_con_res_kept db db' : ces_con_res db -> ces_kept db db' -> ces_con_res db'.
Proof.
  intros H Hk r id u' Hu. destruct (Hk (mk_ue_ptr r id) u') as (u & Hu' & k & E).
  { by apply deref_Ok. }
  apply deref_Ok in Hu'. specialize (H _ _ _ Hu'). rewrite E in H. by apply Forall_app in H as [_ ?].
Qed.

(** The scheduler starts from an empty database. *)
Lemma mac_init_inv bcch n :
  is_tti n -> bcch_wf (mac_new bcch) -> exists m, mac_init (mac_new bcch) true = Ok (true, m) /\ mac_inv AtDl n m.
Proof.
  intros Hn Hb. unfold mac_init. destruct bc_sched_new_ok as (b & Eb & Hi & _).
  assert (exists s, sched_init sched_new = Ok s /\ configured s = true /\ ue_db s = ue_db_empty /\
    exists c, carrier_schedulers s = [c] /\ carrier_cfg carrier_new = Ok c) as (s & Es & Ec & Ed & c & Ecs & Hc).
  { unfold sched_init, cell_cfg, sched_reset, carrier0. cbn.
    unfold carrier_cfg. rewrite Eb. cbn. eexists. split; [reflexivity|]. cbn. split_and!; try done. by eexists. }
  change (m_sched ((mac_new bcch) <| m_started := false |>)) with sched_new. cbv zeta. rewrite Es, bind_ok_l. eexists. split; [reflexivity|].
  split; cbn.
  - done.
  - done.
  - exists c, []. split; [done|]. apply init_inv. apply init_intro; [done|done|].
    intros r id u. rewrite Ed. cbn. by rewrite lookup_empty.
  - unfold sched_rntis. cbn. set_solver.
  - intros r u. cbn. by rewrite lookup_empty.
  - intros r id u. cbn. by rewrite lookup_empty.
  - exact Hb.
Qed.

(** The scheduler's part of the call. *)
Lemma dl_sched_inv n s c rest hfn r0 :
  configured s = true -> carrier_schedulers s = c :: rest -> is_tti n -> car_inv n c (ue_db s) ->
  exists r s' c', dl_sched s hfn (TTI_ADD n FDD_HARQ_DELAY_UL_MS) r0 = Ok (0, r, s') /\
    carrier_schedulers s' = c' :: rest /\ configured s' = true /\ mid_inv n c' (ue_db s') /\
    same_users (ue_db s) (ue_db s') /\ ces_kept (ue_db s) (ue_db s') /\
    (length (dl_data r) <= 1)%nat /\ (forall d, d ∈ dl_data r -> dl_from (ue_db s) d) /\
    (length (dl_bc r) <= 1)%nat /\ (dl_rar r = [] \/ exists p g, dl_rar r = [rar_elem (rar_alloc_of p g)]).
Proof.
  intros Hc Hcar Hn Hi. unfold dl_sched. rewrite Hc. cbn [negb]. rewrite (proj1 (ul_dl_same_subframe n Hn)).
  cbn [carrier_schedulers upd]. rewrite Hcar. cbn [ue_db upd].
  destruct (generate_dl_ok n c (ue_db s) hfn Hn Hi)
    as (r & c' & db' & sf' & -> & Hmid & Hsame & [_ Hbc Hrar [Hd _] _ _] & _ & E1 & E2 & E3 & Hfrom & Hck).
  rewrite bind_ok_l. eexists _, _, c'. split; [reflexivity|]. split_and!; try done.
  - cbn. by rewrite E3.
  - cbn. by rewrite E1, length_fmap.
  - cbn. rewrite E2. destruct Hrar as [->|(p & g & ->)]; [by left|]. right. by exists p, g.
Qed.

Section Composition.
Context {S : Type} (read_pdu : Z -> S -> Z -> Z -> Z * list Z * S).
Context (Hrd : forall r, reader_ok (read_pdu r)).

(** What the grant given to the PHY says for a scheduler result with at most one
    element of each kind.  The elements are copied into one grant, data, then
    response, then broadcast: the last one is what the PHY gets. *)
Definition data_grant (d : dl_sched_data_t) (b : option (list Z)) (g : dl_sched_grant_t) : Prop :=
  gr_dci g = d_dci d /\ gr_has_npdcch g = true /\ gr_data g = [b; None].
Definition rar_grant (x : dl_sched_rar_t) (g : dl_sched_grant_t) : Prop :=
  gr_dci g = r_dci x /\ gr_has_npdcch g = true /\
  exists b y, gr_data g = [Some b; y] /\ length b = 8%nat /\ assemble_rar (r_msg3_grant x) (r_tbs x) = Ok (Some b).
Definition bc_grant (hfn : Z) (m : mac) (x : dl_sched_bc_t) (g : dl_sched_grant_t) : Prop :=
  gr_dci g = b_dci x /\ gr_has_npdcch g = false /\ gr_is_new_sib g = b_is_new_sib x /\
  exists b y, gr_data g = [Some b; y] /\
    forall sib1 sib2, m_bcch m = [sib1; sib2] ->
      if has_sib1 (alloc (b_dci x)) then patch_hfn hfn sib1 = Ok b else b = sib2.

(** The RLC is read for the data element, whether or not its block is what the
    PHY gets. *)
Definition grant_for (hfn : Z) (m : mac) (st : S) (g : dl_sched_grant_t) (r : dl_sched_res_t) (g' : dl_sched_grant_t) (st' : S) : Prop :=
  exists b, match dl_data r with [] => st' = st | d :: _ => block_of read_pdu st d st' b end /\
  match dl_bc r, dl_rar r, dl_data r with
  | x :: _, _, _ => bc_grant hfn m x g'
  | [], x :: _, _ => rar_grant x g'
  | [], [], d :: _ => data_grant d b g'
  | [], [], [] => g' = g
  end.

(** Copying a result with at most one element of each kind. *)
Lemma copy_result_ok hfn m st g r x y :
  (length (dl_data r) <= 1)%nat ->
  (forall d, d ∈ dl_data r -> data_ready d /\ (d_pdu d <> [] -> 2 < d_tbs d) /\ is_Some (m_ue_db m !! rnti (alloc (d_dci d)))) ->
  (length (dl_bc r) <= 1)%nat -> (dl_rar r = [] \/ exists p g, dl_rar r = [rar_elem (rar_alloc_of p g)]) ->
  ues_wf m -> bcch_wf m -> gr_data g = [x; y] ->
  exists a, copy_result read_pdu hfn m st g r = Ok a /\
    cp_n a = Z.of_nat (length (dl_data r) + length (dl_rar r) + length (dl_bc r)) /\
    ues_wf (cp_mac a) /\ bcch_wf (cp_mac a) /\ (length (gr_data (cp_grant a)) = 2)%nat /\
    grant_for hfn m st g r (cp_grant a) (cp_rlc a).
Proof.
  destruct r as [ld lr lb]. cbn [dl_data dl_rar dl_bc]. intros Hld Hd Hlb Hlr Hu Hb Hg. unfold copy_result. cbn [dl_data dl_rar dl_bc].
  assert (H1 : exists m1 st1 g1 x1, foldM (copy_data read_pdu) ld (mk_dl_copy m st g 0) = Ok (mk_dl_copy m1 st1 g1 (Z.of_nat (length ld))) /\
    ues_wf m1 /\ m_bcch m1 = m_bcch m /\ (exists y1, gr_data g1 = [x1; y1]) /\
    match ld with
    | [] => g1 = g /\ st1 = st
    | d :: _ => gr_dci g1 = d_dci d /\ gr_has_npdcch g1 = true /\ gr_data g1 = [x1; None] /\ block_of read_pdu st d st1 x1
    end).
  { destruct ld as [|d [|? ?]]; [|destruct (Hd d) as (Hr & H2 & Hs); [apply list_elem_of_here|]|cbn in Hld; lia].
    - cbn. exists m, st, g, x. split_and!; try done. by exists y.
    - destruct (copy_data_ok read_pdu Hrd (mk_dl_copy m st g 0) d x y) as (m1 & st1 & b & E & Hblk & Hw & Hm & _); try done.
      cbn [foldM]. rewrite E, bind_ok_l. eexists m1, st1, _, b. split; [reflexivity|]. cbn.
      split_and!; try done. by exists None. }
  destruct H1 as (m1 & st1 & g1 & x1 & -> & Hu1 & Hm1 & (y1 & Hg1) & Hc1). rewrite bind_ok_l.
  assert (H2 : exists g2 x2, foldM copy_rar lr (mk_dl_copy m1 st1 g1 (Z.of_nat (length ld))) =
      Ok (mk_dl_copy m1 st1 g2 (Z.of_nat (length ld + length lr))) /\ (exists y2, gr_data g2 = [x2; y2]) /\
    match lr with
    | [] => g2 = g1
    | r :: _ => exists b, gr_dci g2 = r_dci r /\ gr_has_npdcch g2 = true /\
        x2 = Some b /\ length b = 8%nat /\ assemble_rar (r_msg3_grant r) (r_tbs r) = Ok (Some b)
    end).
  { destruct Hlr as [->|(p & gr & ->)].
    - cbn. exists g1, x1. rewrite Nat.add_0_r. split_and!; [done|by exists y1|done].
    - destruct (copy_rar_ok (mk_dl_copy m1 st1 g1 (Z.of_nat (length ld))) p gr x1 y1 Hg1) as (b & E & Hl).
      cbn [foldM]. rewrite E, bind_ok_l. eexists _, (Some b). split.
      { do 2 f_equal. cbn [length cp_n]. lia. }
      split; [by exists y1|]. destruct (assemble_one_rar p gr) as (b' & Eb & _).
      exists b. unfold copy_rar in E. rewrite Eb, bind_ok_l in E.
      cbn [gr_data cp_grant upd] in E. rewrite Hg1 in E. injection E as E. subst b'. by split_and!. }
  destruct H2 as (g2 & x2 & -> & (y2 & Hg2) & Hc2). rewrite bind_ok_l.
  assert (Hb1 : bcch_wf m1) by (destruct Hb as (s1 & s2 & E & ?); exists s1, s2; by rewrite Hm1).
  assert (Hrlc : exists b, match ld with [] => st1 = st | d :: _ => block_of read_pdu st d st1 b end /\ match ld with [] => True | _ :: _ => b = x1 end).
  { exists x1. destruct ld as [|d ld]; [by destruct Hc1|]. by destruct Hc1 as (_ & _ & _ & ?). }
  destruct Hrlc as (b1 & Hrlc & Hb1x). unfold grant_for. cbn [dl_data dl_rar dl_bc].
  destruct lb as [|b [|? ?]]; [| |cbn in Hlb; lia].
  - cbn [foldM]. eexists. split; [reflexivity|]. cbn [cp_n cp_mac cp_grant cp_rlc length]. split_and!; try done; [lia|by rewrite Hg2|].
    exists b1. split; [done|]. destruct lr as [|r lr].
    + subst g2. destruct ld as [|d ld]; [by destruct Hc1|]. destruct Hc1 as (E1 & E2 & E3 & _). subst b1. done.
    + destruct Hc2 as (bb & E1 & E2 & -> & E3 & E4). split_and!; [done|done|]. exists bb, y2. by rewrite Hg2.
  - destruct (copy_bc_ok hfn (mk_dl_copy m1 st1 g2 (Z.of_nat (length ld + length lr))) b x2 y2 Hb1 Hg2)
      as (m3 & bytes & E & Hb3 & Hdb & _ & Hbytes).
    cbn [foldM]. rewrite E, bind_ok_l. eexists. split; [reflexivity|]. cbn [cp_n cp_mac cp_grant cp_rlc length].
    split_and!; try done; [lia|intros r' u; rewrite Hdb; apply Hu1|].
    exists b1. split; [done|]. split_and!; [done..|]. exists bytes, y2. split; [done|]. rewrite <- Hm1. exact Hbytes.
Qed.

End Composition.

(** ** A concrete call *)
Definition demo_mac : mac :=
  mk_mac true 4099 demo_sched {[4097 := mac_ue_new 4097; 4098 := mac_ue_new 4098]} [] [] [[64; 18; 52; 86]; [1; 2; 3]].

Lemma demo_mac_inv : mac_inv AtDl 4 demo_mac.
Proof.
  split.
  - reflexivity.
  - reflexivity.
  - exists demo_car, []. split; [reflexivity|]. apply init_inv, demo_init. unfold is_tti; lia.
  - intros r Hr. unfold sched_rntis in Hr. apply elem_of_dom in Hr as [[id u] Hr]. cbn in Hr. unfold demo_db, db_create, ue_db_empty in Hr. cbn in Hr.
    apply elem_of_dom. unfold demo_mac. cbn [m_ue_db].
    destruct (decide (r = 4098)) as [->|]; [by eexists|]. rewrite lookup_insert_ne in Hr by done.
    destruct (decide (r = 4097)) as [->|]; [by eexists|]. rewrite lookup_insert_ne in Hr by done. done.
  - intros r u Hr. unfold demo_mac in Hr. cbn [m_ue_db] in Hr.
    apply lookup_insert_Some in Hr as [[_ <-]|[_ Hr]]; [apply mac_ue_new_dl_wf|].
    apply lookup_singleton_Some in Hr as [_ <-]. apply mac_ue_new_dl_wf.
  - intros r id u Hr. cbn in Hr. unfold demo_db, db_create, ue_db_empty in Hr. cbn [db_map] in Hr.
    apply lookup_insert_Some in Hr as [[_ [= _ <-]]|[_ Hr]]; [constructor|].
    apply lookup_insert_Some in Hr as [[_ [= _ <-]]|[_ Hr]]; [vm_compute; by repeat constructor|].
    done.
  - exists [64; 18; 52; 86], [1; 2; 3]. split; [done|]. split; [|cbn; lia].
    repeat (apply Forall_cons; split; [unfold is_byte; lia|]). constructor.
Qed.

