(* ===== verification/Npdsch.v ===== *)
(** * The narrowband downlink shared channel

    The state of one NPDSCH transmission and what each of its subframes carries:
    [srslte_npdsch_cfg] and [srslte_npdsch_encode_seq]
    ([third_party/srslte/src/phy/phch/npdsch.c]), the resource elements of a
    subframe ([ra_nbiot.c]) and [sonica_enb_dl_nbiot_put_npdsch]
    ([src/nbiot_enb/enb_dl_nbiot.c]).  Coding and modulation are symbolic: an
    encoded block is the record of what was encoded.  What is kept exactly is
    which block each buffer holds and which part of it a subframe maps. *)
From S2P Require Import Prelude Tti RaNbiot SchedTypes.

Definition SRSLTE_ERROR_INVALID_INPUTS : Z := -2.
Definition SRSLTE_NRE : Z := 12.
Definition SRSLTE_CP_NORM_SF_NSYMB : Z := 14.
(** [SRSLTE_NPDSCH_MAX_RE * SRSLTE_NPDSCH_MAX_NOF_SF]: the symbol buffers. *)
Definition NPDSCH_max_re : Z := (SRSLTE_CP_NORM_SF_NSYMB * SRSLTE_NRE - 8) * 10.

(** ** The cell *)
Inductive nbiot_mode_t := INBAND_SAME_PCI | INBAND_DIFFERENT_PCI | GUARDBAND | STANDALONE.
#[global] Instance nbiot_mode_t_eq_dec : EqDecision nbiot_mode_t.
Proof. solve_decision. Defined.

(** [srslte_nbiot_cell_t], the fields read here. *)
Record nbiot_cell_t := mk_nbiot_cell { cl_base_ports : Z; cl_nof_ports : Z; cl_mode : nbiot_mode_t }.

Definition is_inband (m : nbiot_mode_t) : bool :=
  match m with INBAND_SAME_PCI | INBAND_DIFFERENT_PCI => true | _ => false end.

(** The [l_start] of a grant; it is 3 inband, for SIB1 and for the rest. *)
Definition dl_grant_l_start (m : nbiot_mode_t) : Z := if is_inband m then 3 else 0.

Definition srslte_ra_nbiot_dl_grant_nof_re (c : nbiot_cell_t) (l_start : Z) : Z :=
  let re := SRSLTE_CP_NORM_SF_NSYMB * SRSLTE_NRE in
  let re := u32 (re - l_start * SRSLTE_NRE) in
  let np := cl_nof_ports c in
  let re := if (np =? 1) || (np =? 2) then u32 (re - 8 * np) else re in
  if is_inband (cl_mode c) then
    let bp := cl_base_ports c in
    if (bp =? 1) || (bp =? 2) then
      let re := u32 (re - 8 * bp) in if l_start >=? 2 then u32 (re + 4 * bp / 2) else re
    else if bp =? 4 then u32 (re - 8 * 3)
    else re
  else re.

(** ** One transmission: [srslte_npdsch_cfg_t] *)
Record npdsch_cfg_t := mk_npdsch_cfg {
  nc_grant : dl_grant_t;
  nc_nof_re : Z;
  nc_is_encoded : bool;
  nc_has_bcch : bool;
  nc_sf_idx : Z;
  nc_rep_idx : Z;
  nc_num_sf : Z
}.
#[export] Instance eta_npdsch_cfg_t : Eta npdsch_cfg_t := {| eta := fun r =>
  mk_npdsch_cfg (nc_grant r) (nc_nof_re r) (nc_is_encoded r) (nc_has_bcch r) (nc_sf_idx r) (nc_rep_idx r)
    (nc_num_sf r) |}.

Definition dl_grant_zero : dl_grant_t := mk_dl_grant 0 0 0 0 0 false 0 0 0 0.
(** [bzero(&cfg, sizeof(srslte_npdsch_cfg_t))] *)
Definition npdsch_cfg_zero : npdsch_cfg_t := mk_npdsch_cfg dl_grant_zero 0 false false 0 0 0.

(** The call never fails: both pointers are given. *)
Definition srslte_npdsch_cfg (c : nbiot_cell_t) (g : dl_grant_t) : npdsch_cfg_t :=
  mk_npdsch_cfg g (srslte_ra_nbiot_dl_grant_nof_re c (dl_grant_l_start (cl_mode c))) false (dg_has_sib1 g) 0 0 0.

(** ** The channel: [srslte_npdsch_t] *)

(** The outcome of coding, rate matching, scrambling and modulation. *)
Record enc_block := mk_enc_block { eb_rnti : Z; eb_data : list Z; eb_grant : dl_grant_t }.

(** [symbols] and [sib_symbols], with the block last written to each. *)
Record npdsch_t := mk_npdsch { nd_symbols : option enc_block; nd_sib_symbols : option enc_block }.
#[export] Instance eta_npdsch_t : Eta npdsch_t := {| eta := fun r => mk_npdsch (nd_symbols r) (nd_sib_symbols r) |}.
Definition npdsch_new : npdsch_t := mk_npdsch None None.

(** What is mapped to a subframe: part [tx_idx] of the block in the buffer; the
    part lies beyond the end of the buffer when [tx_inside] is false (the code
    then transmits whatever memory holds there). *)
Record tx_sf := mk_tx_sf { tx_block : option enc_block; tx_idx : Z; tx_inside : bool }.

(** The first [n] bytes at a pointer. *)
Definition read_bytes (d : list Z) (n : Z) : res (list Z) :=
  if n <=? Z.of_nat (length d) then Ok (take (Z.to_nat n) d) else UB OobRead.

Definition npdsch_buffer (q : npdsch_t) (bcch : bool) : option enc_block :=
  if bcch then nd_sib_symbols q else nd_symbols q.
Definition set_npdsch_buffer (q : npdsch_t) (bcch : bool) (b : enc_block) : npdsch_t :=
  if bcch then q <| nd_sib_symbols := Some b |> else q <| nd_symbols := Some b |>.

(** [if (!cfg->is_encoded) { ... }] *)
Definition npdsch_encode_once (q : npdsch_t) (cfg : npdsch_cfg_t) (data : list Z) (rnti_ : Z) :
    res (npdsch_t * npdsch_cfg_t) :=
  if nc_is_encoded cfg then Ok (q, cfg) else
  bytes ← read_bytes data (dg_tbs (nc_grant cfg) / 8);
  Ok (set_npdsch_buffer q (nc_has_bcch cfg) (mk_enc_block rnti_ bytes (nc_grant cfg)),
      cfg <| nc_is_encoded := true |>).

(** "Decide whether we retransmit the same SF or the next" *)
Definition npdsch_advance (cfg : npdsch_cfg_t) : res npdsch_cfg_t :=
  let g := nc_grant cfg in
  let cfg := cfg <| nc_num_sf := u32 (nc_num_sf cfg + 1) |> in
  if nc_has_bcch cfg then
    let cfg := cfg <| nc_sf_idx := u32 (nc_sf_idx cfg + 1) |> in
    Ok (if nc_sf_idx cfg =? dg_nof_sf g then cfg <| nc_rep_idx := u32 (nc_rep_idx cfg + 1) |> else cfg)
  else
    let cfg := cfg <| nc_rep_idx := u32 (nc_rep_idx cfg + 1) |> in
    let m := Z.min (dg_nof_rep g) 4 in
    ub_unless (negb (m =? 0)) DivByZero (
      Ok (if nc_rep_idx cfg mod m =? 0 then
            let cfg := cfg <| nc_sf_idx := u32 (nc_sf_idx cfg + 1) |> in
            if nc_sf_idx cfg =? dg_nof_sf g then cfg <| nc_sf_idx := 0 |>
            else cfg <| nc_rep_idx := u32 (nc_rep_idx cfg - m) |>
          else cfg)).

(** [srslte_npdsch_encode_rnti] with [srslte_npdsch_encode_seq]: the return
    value, the channel, the transmission and what the subframe carries. *)
Definition srslte_npdsch_encode_rnti (q : npdsch_t) (cfg : npdsch_cfg_t) (data : option (list Z)) (rnti_ : Z) :
    res (Z * npdsch_t * npdsch_cfg_t * option tx_sf) :=
  match data with
  | None => Ok (SRSLTE_ERROR_INVALID_INPUTS, q, cfg, None)
  | Some d =>
      if dg_tbs (nc_grant cfg) =? 0 then Ok (SRSLTE_ERROR_INVALID_INPUTS, q, cfg, None)
      else if nc_nof_re cfg >? NPDSCH_max_re then Ok (SRSLTE_ERROR_INVALID_INPUTS, q, cfg, None)
      else
        '(q, cfg) ← npdsch_encode_once q cfg d rnti_;
        let tx := mk_tx_sf (npdsch_buffer q (nc_has_bcch cfg)) (nc_sf_idx cfg)
                    ((nc_sf_idx cfg + 1) * nc_nof_re cfg <=? NPDSCH_max_re) in
        cfg ← npdsch_advance cfg;
        Ok (SRSLTE_SUCCESS, q, cfg, Some tx)
  end.

Definition sonica_enb_dl_nbiot_put_npdsch (q : npdsch_t) (cfg : npdsch_cfg_t) (data : option (list Z)) (rnti_ : Z) :
    res (Z * npdsch_t * npdsch_cfg_t * option tx_sf) := srslte_npdsch_encode_rnti q cfg data rnti_.

(** ** Order of the subframes *)

(** [n] calls, with the same data each time: what they map. *)
Fixpoint npdsch_run (n : nat) (q : npdsch_t) (cfg : npdsch_cfg_t) (d : list Z) (rnti_ : Z) :
    res (npdsch_t * npdsch_cfg_t * list tx_sf) :=
  match n with
  | O => Ok (q, cfg, [])
  | S n' =>
      '(_, q, cfg, tx) ← srslte_npdsch_encode_rnti q cfg (Some d) rnti_;
      '(q, cfg, l) ← npdsch_run n' q cfg d rnti_;
      Ok (q, cfg, option_list tx ++ l)
  end.

(** TS 36.211, 10.2.3.4: each subframe is sent [min(N_rep, 4)] times in a row,
    then the next; when all have been sent the whole starts again. *)
Definition npdsch_order (g : dl_grant_t) (j : Z) : Z := (j / Z.min (dg_nof_rep g) 4) mod dg_nof_sf g.

(** ** Facts *)

(** A transmission with a block in its buffer, at its [j]th subframe. *)
Definition data_cfg (g : dl_grant_t) (re j : Z) : npdsch_cfg_t :=
  let m := Z.min (dg_nof_rep g) 4 in
  mk_npdsch_cfg g re true false (npdsch_order g j) (m * (j / m / dg_nof_sf g) + j mod m) j.
Definition bcch_cfg (g : dl_grant_t) (re j : Z) : npdsch_cfg_t :=
  mk_npdsch_cfg g re true true j (if j <? dg_nof_sf g then 0 else 1) j.

(** A grant the tables can give. *)
Record grant_ok (g : dl_grant_t) : Prop := mk_grant_ok {
  go_sf : 1 <= dg_nof_sf g <= 10;
  go_rep : 1 <= dg_nof_rep g <= 2048;
  go_tbs : 0 < dg_tbs g
}.

Lemma div_mod_succ j m : 0 < m -> 0 <= j ->
  (j mod m + 1 < m /\ (j + 1) / m = j / m /\ (j + 1) mod m = j mod m + 1) \/
  (j mod m + 1 = m /\ (j + 1) / m = j / m + 1 /\ (j + 1) mod m = 0).
Proof.
  intros Hm Hj. pose proof (Z.div_mod j m ltac:(lia)). pose proof (Z.mod_pos_bound j m Hm).
  destruct (decide (j mod m + 1 = m)) as [E|E].
  - right. split; [done|]. assert (j + 1 = (j / m + 1) * m) as -> by nia.
    by rewrite Z.div_mul, Z.mod_mul by lia.
  - left. split; [lia|]. assert (j + 1 = (j mod m + 1) + (j / m) * m) as Ej by nia.
    rewrite Ej, Z.div_add, Z.mod_add, Z.div_small, Z.mod_small by lia. lia.
Qed.

Lemma npdsch_advance_data g re j : grant_ok g -> 0 <= j < 20480 ->
  npdsch_advance (data_cfg g re j) = Ok (data_cfg g re (j + 1)).
Proof.
  intros [Hn Hr _] Hj. unfold npdsch_advance, data_cfg, npdsch_order. set (m := Z.min (dg_nof_rep g) 4).
  set (N := dg_nof_sf g) in *. assert (Hm : 1 <= m <= 4) by lia. cbn.
  pose proof (Z.mod_pos_bound j m ltac:(lia)). pose proof (Z.div_pos j m ltac:(lia) ltac:(lia)) as Hq.
  pose proof (Z.div_le_upper_bound j m 20480 ltac:(lia) ltac:(nia)).
  pose proof (Z.div_pos (j / m) N Hq ltac:(lia)).
  pose proof (Z.div_le_upper_bound (j / m) N 20480 ltac:(lia) ltac:(nia)).
  pose proof (Z.mod_pos_bound (j / m) N ltac:(lia)).
  set (Q := j / m / N) in *. rewrite (u32_id (m * Q + j mod m + 1)), (u32_id (j + 1)) by nia. fold m.
  replace (m =? 0) with false by lia. cbn [negb ub_unless].
  replace (m * Q + j mod m + 1) with ((j mod m + 1) + Q * m) by lia. rewrite Z.mod_add by lia.
  destruct (div_mod_succ j m ltac:(lia) ltac:(lia)) as [(Hlt & E1 & E2)|(Heq & E1 & E2)]; rewrite E1, E2.
  - rewrite Z.mod_small by lia. replace (j mod m + 1 =? 0) with false by lia. fold N Q.
    do 2 f_equal. lia.
  - rewrite Heq, Z.mod_same by lia. cbn [Z.eqb]. cbn.
    fold N. rewrite (u32_id ((j / m) mod N + 1)) by lia.
    destruct (div_mod_succ (j / m) N ltac:(lia) ltac:(lia)) as [(Hlt' & E3 & E4)|(Heq' & E3 & E4)]; rewrite E3, E4.
    + replace (_ =? N) with false by lia. fold Q. rewrite u32_id by nia. f_equal. f_equal. lia.
    + replace (_ =? N) with true by lia. fold Q. do 2 f_equal. lia.
Qed.

Lemma npdsch_advance_bcch g re j : grant_ok g -> 0 <= j < 20480 ->
  npdsch_advance (bcch_cfg g re j) = Ok (bcch_cfg g re (j + 1)).
Proof.
  intros [Hn Hr _] Hj. unfold npdsch_advance, bcch_cfg. cbn. rewrite !(u32_id (j + 1)) by lia.
  destruct (Z.ltb_spec j (dg_nof_sf g)), (Z.ltb_spec (j + 1) (dg_nof_sf g)); try lia.
  - replace (_ =? _) with false by lia. done.
  - replace (_ =? _) with true by lia. done.
  - replace (_ =? _) with false by lia. done.
Qed.

(** One call in the middle of a transmission. *)
Lemma npdsch_encode_data q g re j d r : grant_ok g -> re <= NPDSCH_max_re -> 0 <= j < 20480 ->
  srslte_npdsch_encode_rnti q (data_cfg g re j) (Some d) r =
  Ok (SRSLTE_SUCCESS, q, data_cfg g re (j + 1),
      Some (mk_tx_sf (nd_symbols q) (npdsch_order g j) ((npdsch_order g j + 1) * re <=? NPDSCH_max_re))).
Proof.
  intros Hg Hre Hj. unfold srslte_npdsch_encode_rnti.
  change (nc_grant (data_cfg g re j)) with g. change (nc_nof_re (data_cfg g re j)) with re.
  replace (dg_tbs g =? 0) with false by (destruct Hg; lia). replace (re >? NPDSCH_max_re) with false by lia.
  unfold npdsch_encode_once. cbn [data_cfg nc_is_encoded]. rewrite bind_ok_l.
  rewrite (npdsch_advance_data g re j Hg Hj), bind_ok_l. done.
Qed.

Lemma npdsch_encode_bcch q g re j d r : grant_ok g -> re <= NPDSCH_max_re -> 0 <= j < 20480 ->
  srslte_npdsch_encode_rnti q (bcch_cfg g re j) (Some d) r =
  Ok (SRSLTE_SUCCESS, q, bcch_cfg g re (j + 1),
      Some (mk_tx_sf (nd_sib_symbols q) j ((j + 1) * re <=? NPDSCH_max_re))).
Proof.
  intros Hg Hre Hj. unfold srslte_npdsch_encode_rnti.
  change (nc_grant (bcch_cfg g re j)) with g. change (nc_nof_re (bcch_cfg g re j)) with re.
  replace (dg_tbs g =? 0) with false by (destruct Hg; lia). replace (re >? NPDSCH_max_re) with false by lia.
  unfold npdsch_encode_once. cbn [bcch_cfg nc_is_encoded]. rewrite bind_ok_l.
  rewrite (npdsch_advance_bcch g re j Hg Hj), bind_ok_l. done.
Qed.

Lemma nof_re_range c : 0 <= cl_nof_ports c <= 2 -> 0 <= cl_base_ports c <= 4 ->
  0 < srslte_ra_nbiot_dl_grant_nof_re c (dl_grant_l_start (cl_mode c)) <= 168.
Proof.
  intros Hp Hb. unfold srslte_ra_nbiot_dl_grant_nof_re, dl_grant_l_start, SRSLTE_CP_NORM_SF_NSYMB, SRSLTE_NRE.
  assert (cl_nof_ports c = 0 \/ cl_nof_ports c = 1 \/ cl_nof_ports c = 2) as Hp' by lia.
  assert (cl_base_ports c = 0 \/ cl_base_ports c = 1 \/ cl_base_ports c = 2 \/ cl_base_ports c = 3 \/ cl_base_ports c = 4)
    as Hb' by lia.
  destruct Hp' as [->|[->| ->]], Hb' as [->|[->|[->|[->| ->]]]], (cl_mode c); vm_compute; done.
Qed.

(** The first call writes the block to its buffer; from there on the state is
    that of the transmission's [j]th subframe. *)
Lemma npdsch_encode_first q cfg d r : grant_ok (nc_grant cfg) -> nc_nof_re cfg <= NPDSCH_max_re ->
  nc_is_encoded cfg = false -> nc_sf_idx cfg = 0 -> nc_rep_idx cfg = 0 -> nc_num_sf cfg = 0 ->
  dg_tbs (nc_grant cfg) / 8 <= Z.of_nat (length d) ->
  let g := nc_grant cfg in
  let b := mk_enc_block r (take (Z.to_nat (dg_tbs g / 8)) d) g in
  srslte_npdsch_encode_rnti q cfg (Some d) r =
  Ok (SRSLTE_SUCCESS, set_npdsch_buffer q (nc_has_bcch cfg) b,
      (if nc_has_bcch cfg then bcch_cfg g (nc_nof_re cfg) 1 else data_cfg g (nc_nof_re cfg) 1),
      Some (mk_tx_sf (Some b) 0 true)).
Proof.
  intros Hg Hre He Hs Hr Hn Hd. destruct cfg as [g re en bc sf rp num]; cbn in *; subst.
  unfold srslte_npdsch_encode_rnti. cbn [nc_grant nc_nof_re].
  replace (dg_tbs g =? 0) with false by (destruct Hg; lia). replace (re >? NPDSCH_max_re) with false by lia.
  unfold npdsch_encode_once. cbn. unfold read_bytes. replace (_ <=? _) with true by lia.
  rewrite !bind_ok_l. assert (Ht : (re <=? NPDSCH_max_re) = true) by lia.
  destruct bc; cbn [upd].
  - assert (E : mk_npdsch_cfg g re true true 0 0 0 = bcch_cfg g re 0).
    { unfold bcch_cfg. destruct Hg. by replace (0 <? dg_nof_sf g) with true by lia. }
    rewrite E, (npdsch_advance_bcch g re 0 Hg) by lia. rewrite bind_ok_l. cbn. rewrite Z.mul_1_l. by rewrite Ht.
  - assert (E : mk_npdsch_cfg g re true false 0 0 0 = data_cfg g re 0).
    { unfold data_cfg, npdsch_order. by rewrite !Zdiv_0_l, !Zmod_0_l, Z.mul_0_r. }
    rewrite E, (npdsch_advance_data g re 0 Hg) by lia. rewrite bind_ok_l. cbn.
    assert (npdsch_order g 0 = 0) as -> by (unfold npdsch_order; by rewrite Zdiv_0_l, Zmod_0_l).
    rewrite Z.mul_1_l. by rewrite Ht.
Qed.

Lemma npdsch_run_from n q g re j d r : grant_ok g -> re <= NPDSCH_max_re -> 0 <= j -> j + Z.of_nat n <= 20480 ->
  npdsch_run n q (data_cfg g re j) d r =
  Ok (q, data_cfg g re (j + Z.of_nat n),
      (fun i => mk_tx_sf (nd_symbols q) (npdsch_order g i) ((npdsch_order g i + 1) * re <=? NPDSCH_max_re)) <$> range j n).
Proof.
  intros Hg Hre. revert j; induction n as [|n IH]; intros j Hj Hn.
  - cbn. by rewrite Z.add_0_r.
  - cbn [npdsch_run]. rewrite npdsch_encode_data by (done || lia). rewrite bind_ok_l.
    rewrite IH by lia. rewrite bind_ok_l, range_S. cbn. do 3 f_equal. f_equal. lia.
Qed.

Lemma npdsch_bcch_run_from n q g re j d r : grant_ok g -> re <= NPDSCH_max_re -> 0 <= j -> j + Z.of_nat n <= 20480 ->
  npdsch_run n q (bcch_cfg g re j) d r =
  Ok (q, bcch_cfg g re (j + Z.of_nat n),
      (fun i => mk_tx_sf (nd_sib_symbols q) i ((i + 1) * re <=? NPDSCH_max_re)) <$> range j n).
Proof.
  intros Hg Hre. revert j; induction n as [|n IH]; intros j Hj Hn.
  - cbn. by rewrite Z.add_0_r.
  - cbn [npdsch_run]. rewrite npdsch_encode_bcch by (done || lia). rewrite bind_ok_l.
    rewrite IH by lia. rewrite bind_ok_l, range_S. cbn. do 3 f_equal. f_equal. lia.
Qed.

Lemma npdsch_order_range g j : grant_ok g -> 0 <= npdsch_order g j < dg_nof_sf g.
Proof. intros []. unfold npdsch_order. apply Z.mod_pos_bound. lia. Qed.

(** A part of a block that has as many parts as its grant has subframes lies
    inside the buffer. *)
Lemma part_inside g c i : grant_ok g -> 0 <= cl_nof_ports c <= 2 -> 1 <= cl_nof_ports c -> 0 <= cl_base_ports c <= 4 ->
  0 <= i < dg_nof_sf g ->
  ((i + 1) * srslte_ra_nbiot_dl_grant_nof_re c (dl_grant_l_start (cl_mode c)) <=? NPDSCH_max_re) = true.
Proof.
  intros [Hn _ _] Hp Hp1 Hb Hi. assert (Hr : srslte_ra_nbiot_dl_grant_nof_re c (dl_grant_l_start (cl_mode c)) <= 160).
  { unfold srslte_ra_nbiot_dl_grant_nof_re, dl_grant_l_start, SRSLTE_CP_NORM_SF_NSYMB, SRSLTE_NRE.
    assert (cl_nof_ports c = 1 \/ cl_nof_ports c = 2) as Hp' by lia.
    assert (cl_base_ports c = 0 \/ cl_base_ports c = 1 \/ cl_base_ports c = 2 \/ cl_base_ports c = 3 \/ cl_base_ports c = 4)
      as Hb' by lia.
    destruct Hp' as [->| ->], Hb' as [->|[->|[->|[->| ->]]]], (cl_mode c); vm_compute; done. }
  pose proof (nof_re_range c Hp Hb). change NPDSCH_max_re with 1600. nia.
Qed.

(** ** Properties *)

(** A cell the eNodeB serves: one or two ports. *)
Record cell_ok (c : nbiot_cell_t) : Prop := mk_cell_ok {
  co_ports : 1 <= cl_nof_ports c <= 2;
  co_base : 0 <= cl_base_ports c <= 4
}.

(** The number of times part [i] is among the first [n] of a data transmission. *)
Definition times_sent (l : list tx_sf) (i : Z) : nat := length (filter (fun t => tx_idx t = i) l).

(** Counting the turns of a cycle: [m] subframes for each of [n] parts. *)
Definition count (P : Z -> bool) (l : list Z) : nat := length (filter (fun j => P j = true) l).

Lemma count_app P l1 l2 : count P (l1 ++ l2) = (count P l1 + count P l2)%nat.
Proof. unfold count. by rewrite filter_app, length_app. Qed.

Lemma count_const P l b : (forall j, j ∈ l -> P j = b) -> count P l = if b then length l else 0%nat.
Proof.
  unfold count. induction l as [|j l IH]; intros H; [by destruct b|]. pose proof (H j (list_elem_of_here _ _)) as Hj.
  specialize (IH ltac:(intros; apply H; by apply list_elem_of_further)). rewrite filter_cons.
  destruct b; [rewrite decide_True by done; cbn; by rewrite IH|rewrite decide_False by congruence; exact IH].
Qed.

Lemma range_app lo a b : range lo (a + b) = range lo a ++ range (lo + Z.of_nat a) b.
Proof. revert lo; induction a as [|a IH]; intros lo; [cbn; by rewrite Z.add_0_r|]. cbn [Nat.add]. rewrite !range_S, IH. cbn. do 3 f_equal. lia. Qed.

Lemma count_cycle i n k : 0 <= i < Z.of_nat n -> count (fun q => q mod Z.of_nat n =? i) (range 0 (n * k)) = k.
Proof.
  intros Hi. induction k as [|k IH]; [by rewrite Nat.mul_0_r|]. rewrite Nat.mul_succ_r, range_app, count_app, IH, Z.add_0_l.
  assert (Hm : forall j, 0 <= j < Z.of_nat n -> (Z.of_nat (n * k) + j) mod Z.of_nat n = j).
  { intros j Hj. rewrite Nat2Z.inj_mul, (Z.mul_comm (Z.of_nat n)), Z.add_comm, Z.mod_add by lia. by apply Z.mod_small. }
  assert (En : forall lo, range lo n = range lo (Z.to_nat i) ++ range (lo + i) 1 ++ range (lo + i + 1) (n - Z.to_nat i - 1)).
  { intros lo. transitivity (range lo (Z.to_nat i + (1 + (n - Z.to_nat i - 1)))); [f_equal; lia|].
    rewrite !range_app. by rewrite Z2Nat.id by lia. }
  rewrite En, !count_app.
  rewrite (count_const _ (range _ (Z.to_nat i)) false), (count_const _ (range _ 1) true), (count_const _ (range _ (n - _ - 1)) false);
    [rewrite length_range; lia|intros j Hj%elem_of_range..].
  - apply Z.eqb_neq. replace j with (Z.of_nat (n * k) + (j - Z.of_nat (n * k))) by lia. rewrite Hm by lia. lia.
  - apply Z.eqb_eq. replace j with (Z.of_nat (n * k) + i) by lia. by rewrite Hm by lia.
  - apply Z.eqb_neq. replace j with (Z.of_nat (n * k) + (j - Z.of_nat (n * k))) by lia. rewrite Hm by lia. lia.
Qed.

Lemma count_slow P (m n : nat) : count (fun j => P (j / Z.of_nat m)) (range 0 (m * n)) = (m * count P (range 0 n))%nat.
Proof.
  induction n as [|n IH]; [by rewrite Nat.mul_0_r, Nat.mul_0_r|]. rewrite Nat.mul_succ_r, range_app, count_app, IH, range_snoc, count_app, !Z.add_0_l.
  rewrite Nat.mul_add_distr_l. f_equal. rewrite (count_const _ _ (P (Z.of_nat n))).
  - rewrite length_range, (count_const P [Z.of_nat n] (P (Z.of_nat n))) by (by intros j ->%list_elem_of_singleton).
    destruct (P (Z.of_nat n)); cbn [length]; lia.
  - intros j Hj%elem_of_range. f_equal. rewrite Nat2Z.inj_mul in Hj. symmetry.
    apply (Z.div_unique_pos _ _ _ (j - Z.of_nat m * Z.of_nat n)); nia.
Qed.

Lemma times_sent_fmap (f : Z -> tx_sf) i P l : (forall j, tx_idx (f j) = i <-> P j = true) -> times_sent (f <$> l) i = count P l.
Proof.
  intros H. unfold times_sent, count. induction l as [|j l IH]; [done|]. rewrite fmap_cons, !filter_cons.
  destruct (decide (P j = true)) as [Hj|Hj].
  - rewrite decide_True by (by apply H). cbn. by rewrite IH.
  - rewrite decide_False by (by rewrite H). exact IH.
Qed.

(** Each part goes out [N_rep] times, when the repetitions come in whole cycles
    of four or are fewer. *)
Lemma each_part_repeated g (f : Z -> tx_sf) i : grant_ok g -> dg_nof_rep g mod Z.min (dg_nof_rep g) 4 = 0 -> 0 <= i < dg_nof_sf g ->
  (forall j, tx_idx (f j) = npdsch_order g j) ->
  times_sent (f <$> range 0 (Z.to_nat (dg_nof_sf g * dg_nof_rep g))) i = Z.to_nat (dg_nof_rep g).
Proof.
  intros [Hn Hr _] Hm Hi Hf. set (m := Z.min (dg_nof_rep g) 4) in *. assert (1 <= m) by lia.
  assert (Em : dg_nof_rep g = m * (dg_nof_rep g / m)) by (pose proof (Z.div_mod (dg_nof_rep g) m ltac:(lia)); lia).
  set (k := dg_nof_rep g / m) in *. assert (0 <= k) by (apply Z.div_pos; lia).
  rewrite (times_sent_fmap _ _ (fun j => (fun q => q mod Z.of_nat (Z.to_nat (dg_nof_sf g)) =? i) (j / Z.of_nat (Z.to_nat m)))).
  2:{ intros j. rewrite Hf. unfold npdsch_order. fold m. rewrite !Z2Nat.id by lia. symmetry. apply Z.eqb_eq. }
  replace (Z.to_nat (dg_nof_sf g * dg_nof_rep g)) with (Z.to_nat m * (Z.to_nat (dg_nof_sf g) * Z.to_nat k))%nat by nia.
  rewrite (count_slow (fun q => q mod _ =? i)), count_cycle by lia. rewrite Em. nia.
Qed.

(** C17. A transport block is sent in the standard's order.  Over the
    [N_sf * N_rep] subframes of a transmission other than SIB1's, subframe [j]
    carries part [(j / min(N_rep, 4)) mod N_sf] of the block that was encoded in
    the first of them, always from inside the symbol buffer, and the transmission
    then counts as complete.  So each part goes out [N_rep] times, [N_rep] being at
    most four or a multiple of four, as all numbers of the standard's table are. *)
Theorem npdsch_repetition_order q c g d r :
  grant_ok g -> cell_ok c -> dg_has_sib1 g = false -> dg_tbs g / 8 <= Z.of_nat (length d) ->
  let n := Z.to_nat (dg_nof_sf g * dg_nof_rep g) in
  let b := mk_enc_block r (take (Z.to_nat (dg_tbs g / 8)) d) g in
  exists cfg l, npdsch_run n q (srslte_npdsch_cfg c g) d r = Ok (set_npdsch_buffer q false b, cfg, l) /\
    l = (fun j => mk_tx_sf (Some b) (npdsch_order g j) true) <$> range 0 n /\
    nc_num_sf cfg = dg_nof_sf g * dg_nof_rep g /\
    (dg_nof_rep g mod Z.min (dg_nof_rep g) 4 = 0 -> forall i, 0 <= i < dg_nof_sf g -> times_sent l i = Z.to_nat (dg_nof_rep g)).
Proof.
  intros Hg [Hp Hb] Hs Hd n b. destruct (Hg) as [Hn Hr _].
  destruct (nof_re_range c ltac:(lia) ltac:(lia)) as [_ Hre].
  assert (Hre' : nc_nof_re (srslte_npdsch_cfg c g) <= NPDSCH_max_re) by (change NPDSCH_max_re with 1600; cbn; lia).
  assert (En : n = S (Z.to_nat (dg_nof_sf g * dg_nof_rep g - 1))) by (unfold n; nia).
  rewrite En. cbn [npdsch_run].
  rewrite (npdsch_encode_first q (srslte_npdsch_cfg c g) d r) by done.
  cbn [nc_has_bcch srslte_npdsch_cfg nc_grant]. rewrite Hs. cbn iota. rewrite bind_ok_l. cbn beta iota.
  rewrite npdsch_run_from by (done || nia). rewrite bind_ok_l. cbn beta iota.
  eexists _, ((fun j => mk_tx_sf (Some b) (npdsch_order g j) true) <$> range 0 n). rewrite <- En. split; [|split; [done|split; [|by intros Hm i Hi; apply each_part_repeated]]].
  - rewrite En, range_S, fmap_cons. cbn [option_list app nd_symbols set_npdsch_buffer upd]. unfold b.
    assert (npdsch_order g 0 = 0) as -> by (unfold npdsch_order; by rewrite Zdiv_0_l, Zmod_0_l).
    f_equal. f_equal. f_equal. apply list_fmap_ext. intros i j _. cbn [nc_nof_re srslte_npdsch_cfg]. f_equal.
    apply part_inside with g; (lia || done || by apply npdsch_order_range).
  - cbn [data_cfg nc_num_sf]. nia.
Qed.

Definition demo_cell : nbiot_cell_t := mk_nbiot_cell 1 1 STANDALONE.

Lemma npdsch_repetition_order_witness :
  let g := mk_dl_grant 32 1 0 2 8 false 0 0 0 0 in
  exists cfg, npdsch_run 16 npdsch_new (srslte_npdsch_cfg demo_cell g) [1; 2; 3; 4; 5] 70 =
    Ok (set_npdsch_buffer npdsch_new false (mk_enc_block 70 [1; 2; 3; 4] g), cfg,
        (fun j => mk_tx_sf (Some (mk_enc_block 70 [1; 2; 3; 4] g)) (npdsch_order g j) true) <$> range 0 16) /\
    nc_num_sf cfg = 16 /\
    times_sent ((fun j => mk_tx_sf (Some (mk_enc_block 70 [1; 2; 3; 4] g)) (npdsch_order g j) true) <$> range 0 16) 1 = 8%nat.
Proof.
  destruct (npdsch_repetition_order npdsch_new demo_cell (mk_dl_grant 32 1 0 2 8 false 0 0 0 0) [1; 2; 3; 4; 5] 70)
    as (cfg & l & H1 & -> & H2 & H3); [split; vm_compute; by split|split; vm_compute; by split|reflexivity|vm_compute; done|].
  exists cfg. split; [exact H1|]. split; [exact H2|]. exact (H3 eq_refl 1 ltac:(split; [discriminate|reflexivity])).
Defined.

Lemma nof_re_lower c : cell_ok c ->
  92 <= srslte_ra_nbiot_dl_grant_nof_re c (dl_grant_l_start (cl_mode c)) /\
  (is_inband (cl_mode c) = false -> 152 <= srslte_ra_nbiot_dl_grant_nof_re c (dl_grant_l_start (cl_mode c))).
Proof.
  intros [Hp Hb]. unfold srslte_ra_nbiot_dl_grant_nof_re, dl_grant_l_start, SRSLTE_CP_NORM_SF_NSYMB, SRSLTE_NRE.
  assert (cl_nof_ports c = 1 \/ cl_nof_ports c = 2) as Hp' by lia.
  assert (cl_base_ports c = 0 \/ cl_base_ports c = 1 \/ cl_base_ports c = 2 \/ cl_base_ports c = 3 \/ cl_base_ports c = 4)
    as Hb' by lia.
  destruct Hp' as [->| ->], Hb' as [->|[->|[->|[->| ->]]]], (cl_mode c); split; vm_compute; done.
Qed.

(** SIB1 outruns its block: the transmission the scheduler starts with
    [N_sf = 8] and [N_rep] repetitions never goes back to the first part.  Its
    [j]th subframe maps part [j]: past the parts the block has, and past the end
    of the symbol buffer from the eleventh subframe on in a standalone cell, from
    the eighteenth on in any. *)
Theorem sib1_never_repeats q c g d r n :
  grant_ok g -> cell_ok c -> dg_has_sib1 g = true -> dg_tbs g / 8 <= Z.of_nat (length d) ->
  (0 < n <= 2048)%nat ->
  let b := mk_enc_block r (take (Z.to_nat (dg_tbs g / 8)) d) g in
  exists cfg l, npdsch_run n q (srslte_npdsch_cfg c g) d r = Ok (set_npdsch_buffer q true b, cfg, l) /\
    nc_sf_idx cfg = Z.of_nat n /\ length l = n /\
    forall j t, l !! j = Some t ->
      tx_block t = Some b /\ tx_idx t = Z.of_nat j /\
      ((17 <= j)%nat \/ is_inband (cl_mode c) = false /\ (10 <= j)%nat -> tx_inside t = false).
Proof.
  intros Hg Hc Hs Hd Hn b. destruct (Hg) as [Hsf Hr _]. destruct (Hc) as [Hp Hb].
  destruct (nof_re_range c ltac:(lia) ltac:(lia)) as [_ Hre]. destruct (nof_re_lower c Hc) as [Hlo Hst].
  assert (Hre' : nc_nof_re (srslte_npdsch_cfg c g) <= NPDSCH_max_re) by (change NPDSCH_max_re with 1600; cbn; lia).
  destruct n as [|n]; [lia|]. cbn [npdsch_run].
  rewrite (npdsch_encode_first q (srslte_npdsch_cfg c g) d r) by done.
  cbn [nc_has_bcch srslte_npdsch_cfg nc_grant]. rewrite Hs. cbn iota. rewrite bind_ok_l. cbn beta iota.
  rewrite npdsch_bcch_run_from by (done || lia). rewrite bind_ok_l. cbn beta iota.
  eexists _, _. split; [reflexivity|]. split; [cbn; lia|].
  split; [cbn; by rewrite length_fmap, length_range|].
  intros [|j] t; cbn [option_list app lookup list_lookup].
  { intros [= <-]. split_and!; [done|done|lia]. }
  intros (x & -> & Hx)%list_lookup_fmap_Some. unfold range in Hx.
  apply list_lookup_fmap_Some in Hx as (k & -> & [-> Hk]%lookup_seq). cbn [tx_block tx_idx tx_inside].
  split_and!; [done|lia|]. intros Hj. apply Z.leb_gt. change NPDSCH_max_re with 1600. cbn [nc_nof_re srslte_npdsch_cfg].
  destruct Hj as [Hj|[Hst' Hj]]; [nia|]. specialize (Hst Hst'). nia.
Qed.

Definition demo_sib1_grant : dl_grant_t := mk_dl_grant 328 1 0 8 16 true 0 0 0 0.

Lemma sib1_never_repeats_witness :
  exists cfg l, npdsch_run 128 npdsch_new (srslte_npdsch_cfg demo_cell demo_sib1_grant) (replicate 41 7) SRSLTE_SIRNTI =
      Ok (set_npdsch_buffer npdsch_new true (mk_enc_block SRSLTE_SIRNTI (replicate 41 7) demo_sib1_grant), cfg, l) /\
    nc_sf_idx cfg = 128 /\ length l = 128%nat /\
    forall j t, l !! j = Some t ->
      tx_block t = Some (mk_enc_block SRSLTE_SIRNTI (replicate 41 7) demo_sib1_grant) /\ tx_idx t = Z.of_nat j /\
      ((17 <= j)%nat \/ is_inband STANDALONE = false /\ (10 <= j)%nat -> tx_inside t = false).
Proof.
  refine (sib1_never_repeats npdsch_new demo_cell demo_sib1_grant (replicate 41 7) SRSLTE_SIRNTI 128 _ _ _ _ _).
  - split; vm_compute; by split.
  - split; vm_compute; by split.
  - reflexivity.
  - vm_compute. done.
  - lia.
Defined.
