(* ===== verification/DciNbiot.v ===== *)
(** * Downlink control information

    Packing of DCI formats N0 and N1 into bits and the reading of a receiver
    ([third_party/srslte/src/phy/phch/dci_nbiot.c]), as the eNodeB calls them from
    [sonica_enb_dl_nbiot_put_npdcch_dl] and [..._ul]
    ([src/nbiot_enb/enb_dl_nbiot.c]).  The subframe repetition number of an uplink
    DCI, which no code of the eNodeB sets, is 0. *)
From S2P Require Import Prelude Tti RaNbiot SchedTypes MacPdu Rar Npdsch.

Definition dci_formatN0_sizeof : nat := 23.
Definition dci_formatN1_sizeof : nat := 23.

(** ** Packing *)
Definition dci_formatN0_pack (d : ul_dci_t) (ndi_ : bool) : list Z :=
  [0] ++ srslte_bit_unpack (ul_i_sc d) 6 ++ srslte_bit_unpack (ul_i_ru d) 3 ++ srslte_bit_unpack (ul_i_delay d) 2 ++
  srslte_bit_unpack (ul_i_mcs d) 4 ++ srslte_bit_unpack (ul_i_rv d) 1 ++ srslte_bit_unpack (ul_i_rep d) 3 ++
  srslte_bit_unpack (Z.b2z ndi_) 1 ++ srslte_bit_unpack 0 2.

(** The reserved bits are left as they were in the zeroed message; what is
    missing to the size of the format is filled with [last_bits_val]. *)
Definition dci_formatN1_pack (d : dl_dci_t) (crc_is_crnti : bool) : list Z :=
  let a := alloc d in
  let '(bits, last_bits_val) :=
    if is_ra a then ([1; 1], 1)
    else ([1; 0] ++ srslte_bit_unpack (i_delay a) 3 ++ srslte_bit_unpack (i_sf a) 3 ++ srslte_bit_unpack (mcs_idx d) 4 ++
          srslte_bit_unpack (i_rep a) 4 ++ [if crc_is_crnti then 0 else Z.b2z (ndi d)] ++
          (if crc_is_crnti then replicate 4 0 else srslte_bit_unpack (harq_ack a) 4), 0) in
  bits ++ replicate (dci_formatN1_sizeof - length bits) last_bits_val.

(** ** Reading *)

(** [srslte_bit_pack(&y, n)] at bit [k]. *)
Definition bits_at (y : list Z) (k n : nat) : Z := srslte_bit_pack (take n (drop k y)).

(** Into a zeroed structure; [None] is [SRSLTE_ERROR]. *)
Definition dci_formatN0_unpack (y : list Z) : option (ul_dci_t * bool) :=
  if negb (length y =? dci_formatN1_sizeof)%nat then None else
  Some (ul_dci_zero <| ul_format := bits_at y 0 1 |> <| ul_i_sc := bits_at y 1 6 |> <| ul_i_ru := bits_at y 7 3 |>
          <| ul_i_delay := bits_at y 10 2 |> <| ul_i_mcs := bits_at y 12 4 |> <| ul_i_rv := bits_at y 16 1 |>
          <| ul_i_rep := bits_at y 17 3 |>, negb (bits_at y 20 1 =? 0)).

Definition dci_formatN1_unpack (y : list Z) (crc_is_crnti : bool) : option dl_dci_t :=
  if negb (length y =? dci_formatN1_sizeof)%nat then None else
  let ra := negb (bits_at y 1 1 =? 0) in
  let d := dl_dci_zero <| format := bits_at y 0 1 |> <| dci_is_n2 := false |> in
  Some (if ra then
          d <| mcs_idx := 65535 |> <| ndi := true |>
            <| alloc := ra_nbiot_zero <| is_ra := true |> <| i_delay := 65535 |> <| i_sf := 65535 |>
                          <| i_rep := 65535 |> <| harq_ack := 65535 |> |>
        else
          d <| mcs_idx := bits_at y 8 4 |> <| ndi := if crc_is_crnti then negb (bits_at y 16 1 =? 0) else false |>
            <| alloc := ra_nbiot_zero <| is_ra := false |> <| i_delay := bits_at y 2 3 |> <| i_sf := bits_at y 5 3 |>
                          <| i_rep := bits_at y 12 4 |> <| harq_ack := bits_at y 17 4 |> |>).

(** ** Facts *)

(** Fields that fit their bits. *)
Record dl_dci_fits (d : dl_dci_t) : Prop := mk_dl_dci_fits {
  df_user : has_sib1 (alloc d) = false /\ is_ra (alloc d) = false /\ dci_is_n2 d = false;
  df_delay : 0 <= i_delay (alloc d) < 8;
  df_sf : 0 <= i_sf (alloc d) < 8;
  df_mcs : 0 <= mcs_idx d < 16;
  df_rep : 0 <= i_rep (alloc d) < 16;
  df_harq : 0 <= harq_ack (alloc d) < 16
}.
Record ul_dci_fits (d : ul_dci_t) : Prop := mk_ul_dci_fits {
  uf_sc : 0 <= ul_i_sc d < 64;
  uf_ru : 0 <= ul_i_ru d < 8;
  uf_delay : 0 <= ul_i_delay d < 4;
  uf_mcs : 0 <= ul_i_mcs d < 16;
  uf_rv : 0 <= ul_i_rv d < 2;
  uf_rep : 0 <= ul_i_rep d < 8
}.

(** A field read back from where it was written. *)
Lemma bits_at_field pre v n post k m :
  length pre = k -> n = m -> 0 <= v < 2 ^ Z.of_nat n -> bits_at (pre ++ srslte_bit_unpack v n ++ post) k m = v.
Proof.
  intros <- <- Hv. unfold bits_at. rewrite drop_app_length, take_app_length' by by rewrite length_unpack.
  by rewrite pack_unpack, Z.mod_small.
Qed.

(** The fields one after the other. *)
Fixpoint fields (l : list (Z * nat)) : list Z :=
  match l with [] => [] | (v, n) :: l' => srslte_bit_unpack v n ++ fields l' end.

Definition widths (l : list (Z * nat)) : nat := sum_list (l.*2).

Lemma length_fields l : length (fields l) = widths l.
Proof. induction l as [|[v n] l IH]; [done|]. cbn. by rewrite length_app, length_unpack, IH. Qed.

Lemma bits_at_fields pre v n post k : widths pre = k -> 0 <= v < 2 ^ Z.of_nat n ->
  bits_at (fields (pre ++ (v, n) :: post)) k n = v.
Proof.
  intros Hk Hv. assert (fields (pre ++ (v, n) :: post) = fields pre ++ srslte_bit_unpack v n ++ fields post) as ->.
  { clear. induction pre as [|[w m] pre IH]; [done|]. cbn. by rewrite IH, <- app_assoc. }
  apply bits_at_field; [by rewrite length_fields|done|done].
Qed.

Lemma N1_fields d : is_ra (alloc d) = false ->
  dci_formatN1_pack d false =
  fields [(1, 1%nat); (0, 1%nat); (i_delay (alloc d), 3%nat); (i_sf (alloc d), 3%nat); (mcs_idx d, 4%nat);
          (i_rep (alloc d), 4%nat); (Z.b2z (ndi d), 1%nat); (harq_ack (alloc d), 4%nat); (0, 2%nat)].
Proof.
  intros E. unfold dci_formatN1_pack. rewrite E. cbn [fields]. destruct (ndi d); reflexivity.
Qed.

Lemma N0_fields d b :
  dci_formatN0_pack d b =
  fields [(0, 1%nat); (ul_i_sc d, 6%nat); (ul_i_ru d, 3%nat); (ul_i_delay d, 2%nat); (ul_i_mcs d, 4%nat);
          (ul_i_rv d, 1%nat); (ul_i_rep d, 3%nat); (Z.b2z b, 1%nat); (0, 2%nat)].
Proof. unfold dci_formatN0_pack. cbn [fields]. reflexivity. Qed.

Lemma N1_back d : dl_dci_fits d ->
  dci_formatN1_unpack (dci_formatN1_pack d false) true =
  Some (mk_dl_dci 1 (mk_ra_nbiot false 0 false (i_delay (alloc d)) (i_sf (alloc d)) (i_rep (alloc d)) 0
                       (harq_ack (alloc d)) 0) (mcs_idx d) 0 (ndi d) false).
Proof.
  intros [(Hs & Hr & Hn) Hd Hf Hm Hp Hh]. rewrite N1_fields by done. unfold dci_formatN1_unpack.
  set (l := [(1, 1%nat); _; _; _; _; _; _; _; _]).
  assert (E : forall pre v n post k, l = pre ++ (v, n) :: post -> widths pre = k -> 0 <= v < 2 ^ Z.of_nat n ->
    bits_at (fields l) k n = v) by (intros pre v n post k ->; apply bits_at_fields).
  rewrite length_fields. change (widths l) with 23%nat. cbn [Nat.eqb dci_formatN1_sizeof negb].
  rewrite (E [] 1 1%nat _ 0%nat eq_refl eq_refl) by (cbn; lia).
  rewrite (E (take 1 l) 0 1%nat _ 1%nat eq_refl eq_refl) by (cbn; lia).
  rewrite (E (take 2 l) (i_delay (alloc d)) 3%nat _ 2%nat eq_refl eq_refl) by (cbn; lia).
  rewrite (E (take 3 l) (i_sf (alloc d)) 3%nat _ 5%nat eq_refl eq_refl) by (cbn; lia).
  rewrite (E (take 4 l) (mcs_idx d) 4%nat _ 8%nat eq_refl eq_refl) by (cbn; lia).
  rewrite (E (take 5 l) (i_rep (alloc d)) 4%nat _ 12%nat eq_refl eq_refl) by (cbn; lia).
  rewrite (E (take 6 l) (Z.b2z (ndi d)) 1%nat _ 16%nat eq_refl eq_refl) by (destruct (ndi d); cbn; lia).
  rewrite (E (take 7 l) (harq_ack (alloc d)) 4%nat _ 17%nat eq_refl eq_refl) by (cbn; lia).
  cbn. by destruct (ndi d).
Qed.

Lemma N0_back d b : ul_dci_fits d ->
  dci_formatN0_unpack (dci_formatN0_pack d b) =
  Some (mk_ul_dci 0 0 (ul_i_sc d) (ul_i_delay d) (ul_i_ru d) (ul_i_mcs d) (ul_i_rv d) (ul_i_rep d), b).
Proof.
  intros [Hs Hu Hd Hm Hv Hp]. rewrite N0_fields. unfold dci_formatN0_unpack.
  set (l := [(0, 1%nat); _; _; _; _; _; _; _; _]).
  assert (E : forall pre v n post k, l = pre ++ (v, n) :: post -> widths pre = k -> 0 <= v < 2 ^ Z.of_nat n ->
    bits_at (fields l) k n = v) by (intros pre v n post k ->; apply bits_at_fields).
  rewrite length_fields. change (widths l) with 23%nat. cbn [Nat.eqb dci_formatN1_sizeof negb].
  rewrite (E [] 0 1%nat _ 0%nat eq_refl eq_refl) by (cbn; lia).
  rewrite (E (take 1 l) (ul_i_sc d) 6%nat _ 1%nat eq_refl eq_refl) by (cbn; lia).
  rewrite (E (take 2 l) (ul_i_ru d) 3%nat _ 7%nat eq_refl eq_refl) by (cbn; lia).
  rewrite (E (take 3 l) (ul_i_delay d) 2%nat _ 10%nat eq_refl eq_refl) by (cbn; lia).
  rewrite (E (take 4 l) (ul_i_mcs d) 4%nat _ 12%nat eq_refl eq_refl) by (cbn; lia).
  rewrite (E (take 5 l) (ul_i_rv d) 1%nat _ 16%nat eq_refl eq_refl) by (cbn; lia).
  rewrite (E (take 6 l) (ul_i_rep d) 3%nat _ 17%nat eq_refl eq_refl) by (cbn; lia).
  rewrite (E (take 7 l) (Z.b2z b) 1%nat _ 20%nat eq_refl eq_refl) by (destruct b; cbn; lia).
  cbn. by destruct b.
Qed.

(** ** Property *)

(** C28. The device follows the grant the eNodeB transmits by: from the bits of
    a downlink or uplink DCI a receiver computes, whatever the subframe, the same
    grant as the sender does from its own structure (start, subframes,
    repetitions, block size), and the same new-data indicator. *)
Theorem dci_grants_agree d u b :
  dl_dci_fits d -> ul_dci_fits u ->
  exists d' u', dci_formatN1_unpack (dci_formatN1_pack d false) true = Some d' /\
    dci_formatN0_unpack (dci_formatN0_pack u b) = Some (u', b) /\
    ndi d' = ndi d /\
    (forall sfn sf_idx r_max,
      srslte_ra_nbiot_dl_dci_to_grant d' sfn sf_idx r_max false = srslte_ra_nbiot_dl_dci_to_grant d sfn sf_idx r_max false) /\
    (forall tti, srslte_ra_nbiot_ul_dci_to_grant u' tti = srslte_ra_nbiot_ul_dci_to_grant u tti).
Proof.
  intros Hd Hu. rewrite N1_back, N0_back by done. eexists _, _. split; [done|]. split; [done|]. split; [done|].
  destruct Hd as [(Hs & Hr & Hn) _ _ _ _ _]. split.
  - intros sfn sf_idx r_max. unfold srslte_ra_nbiot_dl_dci_to_grant, nbiot_dl_dci_to_grant_mcs.
    destruct d as [f [hs rn ra id isf ir ins hq si] mc rv nd n2]; cbn in *; subst.
    unfold has_sib1, upd; cbn. destruct (arr2_read tbs_table_nbiot _ _) as [tbs| |]; [|done|done]. cbn.
    destruct (tbs <=? 0); reflexivity.
  - intros tti. by destruct u.
Qed.

Lemma dci_grants_agree_witness :
  let d := dl_dci_zero <| mcs_idx := 4 |> <| ndi := true |>
             <| alloc := ra_nbiot_zero <| i_sf := 2 |> <| harq_ack := 1 |> <| rnti := 70 |> |> in
  let u := ul_dci_zero <| ul_i_sc := 18 |> <| ul_i_ru := 3 |> <| ul_i_mcs := 9 |> <| ul_rnti := 70 |> in
  exists d' u', dci_formatN1_unpack (dci_formatN1_pack d false) true = Some d' /\
    dci_formatN0_unpack (dci_formatN0_pack u true) = Some (u', true) /\
    ndi d' = ndi d /\
    (forall sfn sf_idx r_max,
      srslte_ra_nbiot_dl_dci_to_grant d' sfn sf_idx r_max false = srslte_ra_nbiot_dl_dci_to_grant d sfn sf_idx r_max false) /\
    (forall tti, srslte_ra_nbiot_ul_dci_to_grant u' tti = srslte_ra_nbiot_ul_dci_to_grant u tti).
Proof. cbv zeta. apply dci_grants_agree; split; cbn; lia || done. Defined.
