(* ===== verification/SfDl.v ===== *)
(** * The PHY worker, downlink

    The half of [class sf_worker] ([sonica_enb/phy/sf_worker.cc],
    [hdr/phy/sf_worker.h]) that decides what a subframe carries: [work_dl] with
    [sonica_enb_dl_nbiot_put_base] ([src/nbiot_enb/enb_dl_nbiot.c]).  The grants
    hold pointers into buffers of the MAC and the RRC; what such a buffer holds
    is asked when the code reads it, not when the grant arrives.  Signals are
    events: what is mapped to the subframe, in the order it is mapped. *)
From S2P Require Import Prelude Tti RaNbiot SchedTypes MacPdu Rar Npdsch DciNbiot.

Definition DUMMY_R_MAX : Z := 64.
Definition SRSLTE_NPBCH_NUM_FRAMES : Z := 64.

(** ** Grants of the stack, as the PHY sees them *)

Section Worker.
(** A pointer into a buffer of the stack. *)
Context {P : Type}.

(** [dl_sched_grant_t], with [data[0]], the only pointer the PHY follows. *)
Record phy_dl_grant := mk_phy_dl_grant {
  pg_dci : dl_dci_t;
  pg_data : option P;
  pg_has_npdcch : bool;
  pg_is_new_sib : bool
}.
(** [dl_sched_t] *)
Record phy_dl_sched := mk_phy_dl_sched { pd_npdsch : phy_dl_grant; pd_nof_grants : Z }.
Definition phy_dl_sched_zero : phy_dl_sched := mk_phy_dl_sched (mk_phy_dl_grant dl_dci_zero None false false) 0.

(** [ul_sched_grant_t]; a list of them, counted by [nof_grants], is [ul_sched_t]. *)
Record phy_ul_grant := mk_phy_ul_grant { pu_dci : ul_dci_t; pu_data : option P; pu_needs_npdcch : bool }.

(** ** State *)

(** [sf_worker::dl_grant_record] *)
Record dl_grant_record := mk_dl_grant_record { dr_grant : dl_grant_t; dr_rnti : Z; dr_data : option P }.

(** The members [work_dl] uses; [dw_bch] is the frame number (HFN and SFN) in the
    MIB last packed, [dw_ndi_dl] and [dw_ndi_ul] are the file's static variables.
    [npdsch_rnti] and [npdsch_data] are read only after they have been set. *)
Record dl_worker := mk_dl_worker {
  dw_npdsch : npdsch_t;
  dw_sib1_cfg : npdsch_cfg_t;
  dw_cfg : npdsch_cfg_t;
  dw_active : bool;
  dw_rnti : Z;
  dw_data : option P;
  dw_pending : list dl_grant_record;
  dw_bch : option (Z * Z);
  dw_ndi_dl : bool;
  dw_ndi_ul : bool
}.

Definition dl_worker_new : dl_worker :=
  mk_dl_worker npdsch_new npdsch_cfg_zero npdsch_cfg_zero false 0 None [] None false false.

(** ** What a subframe carries *)
Inductive dl_event :=
| Ev_npbch (mib : option (Z * Z)) (sfn : Z)
| Ev_npss
| Ev_nsss (sfn : Z)
| Ev_nrs (sf_idx : Z)
| Ev_npdcch_ul (bits : list Z) (rnti_ : Z)
| Ev_npdcch_dl (bits : list Z) (rnti_ : Z)
| Ev_npdsch (tx : tx_sf).
End Worker.
Arguments phy_dl_grant : clear implicits.
Arguments phy_dl_sched : clear implicits.
Arguments phy_ul_grant : clear implicits.
Arguments dl_grant_record : clear implicits.
Arguments dl_worker : clear implicits.

#[export] Instance eta_dl_worker {P} : Eta (dl_worker P) := {| eta := fun w =>
  mk_dl_worker (dw_npdsch w) (dw_sib1_cfg w) (dw_cfg w) (dw_active w) (dw_rnti w) (dw_data w) (dw_pending w)
    (dw_bch w) (dw_ndi_dl w) (dw_ndi_ul w) |}.

(** [sonica_enb_dl_nbiot_put_base] *)
Definition put_base (bch : option (Z * Z)) (hfn tti : Z) : option (Z * Z) * list dl_event :=
  let sf_idx := tti mod 10 in
  let sfn := tti / 10 in
  let bch := if (sf_idx =? 0) && (sfn mod SRSLTE_NPBCH_NUM_FRAMES =? 0) then Some (hfn, sfn) else bch in
  (bch,
   (if sf_idx =? 0 then [Ev_npbch bch sfn] else []) ++
   (if sf_idx =? 5 then [Ev_npss]
    else if (sfn mod 2 =? 0) && (sf_idx =? 9) then [Ev_nsss sfn]
    else [Ev_nrs sf_idx])).

Section Work.
Context {P : Type}.
(** The bytes a buffer of the stack holds at this time. *)
Context (mem : P -> list Z).

Definition load (p : option P) : option (list Z) := mem <$> p.

(** A grant from a DCI, with the DCI as the conversion leaves it.  The code does
    not look at the result of the conversion; the grant is uninitialised when it
    fails. *)
Definition grant_from_dci (dci : dl_dci_t) (sfn sf_idx : Z) (is_prescheduled : bool) : res (dl_dci_t * dl_grant_t) :=
  '(dci', _) ← nbiot_dl_dci_to_grant_mcs dci;
  g ← srslte_ra_nbiot_dl_dci_to_grant dci sfn sf_idx DUMMY_R_MAX is_prescheduled;
  match g with Some g => Ok (dci', g) | None => UB UninitRead end.

(** The uplink DCI, sent at once. *)
Definition work_dl_ul_dci (w : dl_worker P) (ul_grants_tx : list (phy_ul_grant P)) : dl_worker P * list dl_event :=
  match ul_grants_tx with
  | u :: _ =>
      if pu_needs_npdcch u then
        (w <| dw_ndi_ul := negb (dw_ndi_ul w) |>,
         [Ev_npdcch_ul (dci_formatN0_pack (pu_dci u) (dw_ndi_ul w)) (ul_rnti (pu_dci u))])
      else (w, [])
  | [] => (w, [])
  end.

(** "First case": SIB1.  The result tells whether this subframe is SIB1's. *)
Definition work_dl_sib1 (c : nbiot_cell_t) (w : dl_worker P) (sfn sf_idx : Z) (g : phy_dl_grant P) :
    res (dl_worker P * bool * list dl_event) :=
  '(w, has_sib1_cfg) ←
    (if pg_is_new_sib g then
       '(_, sib1_grant) ← grant_from_dci (pg_dci g) sfn sf_idx true;
       Ok (w <| dw_sib1_cfg := srslte_npdsch_cfg c sib1_grant |>, true)
     else Ok (w, nc_sf_idx (dw_sib1_cfg w) >? 0));
  if has_sib1_cfg : bool then
    '(_, q, cfg, tx) ← sonica_enb_dl_nbiot_put_npdsch (dw_npdsch w) (dw_sib1_cfg w) (load (pg_data g)) (rnti (alloc (pg_dci g)));
    let done := nc_sf_idx cfg =? u32 (dg_nof_sf (nc_grant cfg) * dg_nof_rep (nc_grant cfg)) in
    Ok (w <| dw_npdsch := q |> <| dw_sib1_cfg := if done then npdsch_cfg_zero else cfg |>, true,
        Ev_npdsch <$> option_list tx)
  else Ok (w, false, []).

(** Other system information: it starts at once. *)
Definition work_dl_si (c : nbiot_cell_t) (w : dl_worker P) (sfn sf_idx : Z) (g : phy_dl_grant P) : res (dl_worker P) :=
  '(_, sib2_grant) ← grant_from_dci (pg_dci g) sfn sf_idx true;
  Ok (w <| dw_cfg := (srslte_npdsch_cfg c sib2_grant) <| nc_has_bcch := true |> |>
        <| dw_active := true |> <| dw_rnti := rnti (alloc (pg_dci g)) |> <| dw_data := pg_data g |>).

(** User data: the DCI is sent at once, the data queued. *)
Definition work_dl_data (w : dl_worker P) (sfn sf_idx : Z) (g : phy_dl_grant P) : res (dl_worker P * list dl_event) :=
  '(dci, grant) ← grant_from_dci (pg_dci g) sfn sf_idx false;
  let rnti_ := rnti (alloc dci) in
  let w := w <| dw_pending := dw_pending w ++ [mk_dl_grant_record grant rnti_ (pg_data g)] |> in
  let dci := dci <| ndi := dw_ndi_dl w |> in
  let w := w <| dw_ndi_dl := negb (dw_ndi_dl w) |> in
  Ok (w, [Ev_npdcch_dl (dci_formatN1_pack dci false) rnti_]).

(** The grant of the subframe, whatever its kind. *)
Definition work_dl_grant (c : nbiot_cell_t) (w : dl_worker P) (sfn sf_idx : Z) (d : phy_dl_sched P) :
    res (dl_worker P * bool * list dl_event) :=
  if pd_nof_grants d >? 0 then
    let g := pd_npdsch d in
    if has_sib1 (alloc (pg_dci g)) then work_dl_sib1 c w sfn sf_idx g
    else if negb (pg_has_npdcch g) then w ← work_dl_si c w sfn sf_idx g; Ok (w, false, [])
    else '(w, ev) ← work_dl_data w sfn sf_idx g; Ok (w, false, ev)
  else Ok (w, false, []).

(** The head of the queue, when its subframe has come and nothing is being sent. *)
Definition work_dl_start (c : nbiot_cell_t) (w : dl_worker P) (sfn sf_idx : Z) : dl_worker P :=
  match dw_pending w with
  | h :: rest =>
      if negb (dw_active w) && (dg_start_sfn (dr_grant h) =? sfn) && (dg_start_sfidx (dr_grant h) =? sf_idx) then
        w <| dw_cfg := srslte_npdsch_cfg c (dr_grant h) |> <| dw_active := true |> <| dw_rnti := dr_rnti h |>
          <| dw_data := dr_data h |> <| dw_pending := rest |>
      else w
  | [] => w
  end.

(** The active transmission; the first bytes of a block that is not system
    information are printed. *)
Definition work_dl_active (w : dl_worker P) (tti : Z) (has_sib1_cfg : bool) : res (dl_worker P * list dl_event) :=
  if negb has_sib1_cfg && dw_active w && srslte_ra_nbiot_is_valid_dl_sf tti then
    '(_, q, cfg, tx) ← sonica_enb_dl_nbiot_put_npdsch (dw_npdsch w) (dw_cfg w) (load (dw_data w)) (dw_rnti w);
    ub_unless ((dw_rnti w =? SRSLTE_SIRNTI) || bool_decide (is_Some (dw_data w))) NullDeref (
      let w := w <| dw_npdsch := q |> in
      Ok (if nc_num_sf cfg =? u32 (dg_nof_sf (nc_grant cfg) * dg_nof_rep (nc_grant cfg))
          then w <| dw_cfg := npdsch_cfg_zero |> <| dw_active := false |>
          else w <| dw_cfg := cfg |>,
          Ev_npdsch <$> option_list tx))
  else Ok (w, []).

Definition work_dl (c : nbiot_cell_t) (w : dl_worker P) (hfn tti : Z) (d : phy_dl_sched P) (u : list (phy_ul_grant P)) :
    res (dl_worker P * list dl_event) :=
  let sfn := tti / 10 in
  let sf_idx := tti mod 10 in
  let '(bch, ev0) := put_base (dw_bch w) hfn tti in
  let '(w, ev1) := work_dl_ul_dci (w <| dw_bch := bch |>) u in
  '(w, has_sib1_cfg, ev2) ← work_dl_grant c w sfn sf_idx d;
  '(w, ev3) ← work_dl_active (work_dl_start c w sfn sf_idx) tti has_sib1_cfg;
  Ok (w, ev0 ++ ev1 ++ ev2 ++ ev3).
End Work.
