(* ===== verification/SfDlRun.v ===== *)
(** * Downlink transmissions over several subframes

    Runs of the PHY worker's downlink over consecutive subframes: delivery of a
    user's block in the subframes the scheduler set aside, and what goes wrong
    when transmissions overlap. *)
From S2P Require Import Prelude Tti RaNbiot SchedTypes SchedUe BcSched UeDb SchedGrid RaSched SchedCarrier SchedSafety.
From S2P Require Import MacPdu Rar Npdsch DciNbiot SfDl.

(** ** Runs *)

(** What the worker is given for one subframe: the memory of the stack, the time
    and the grants. *)
Record dl_input {P : Type} := mk_dl_input {
  di_mem : P -> list Z;
  di_hfn : Z;
  di_tti : Z;
  di_dl : phy_dl_sched P;
  di_ul : list (phy_ul_grant P)
}.
Arguments dl_input : clear implicits.

Section Run.
Context {P : Type} (c : nbiot_cell_t).

Definition dl_step (w : dl_worker P) (i : dl_input P) : res (dl_worker P * list dl_event) :=
  work_dl (di_mem i) c w (di_hfn i) (di_tti i) (di_dl i) (di_ul i).

(** The subframes sent, each with its number. *)
Fixpoint dl_run (w : dl_worker P) (l : list (dl_input P)) : res (dl_worker P * list (Z * list dl_event)) :=
  match l with
  | [] => Ok (w, [])
  | i :: l' =>
      '(w, ev) ← dl_step w i;
      '(w, evs) ← dl_run w l';
      Ok (w, (di_tti i, ev) :: evs)
  end.
End Run.

(** The parts of blocks for [r] on the air. *)
Definition parts_of (r : Z) (ev : list dl_event) : list tx_sf :=
  omap (fun e => match e with
                 | Ev_npdsch tx => match tx_block tx with Some b => if eb_rnti b =? r then Some tx else None | None => None end
                 | _ => None
                 end) ev.
Definition air_log (r : Z) (l : list (Z * list dl_event)) : list (Z * tx_sf) :=
  l ≫= fun '(t, ev) => (t,.) <$> parts_of r ev.

(** ** One subframe, cut into its steps *)

(** The DCI the scheduler gives for SIB1 ([bc_sched]). *)
Definition sib1_dci : dl_dci_t :=
  dl_dci_zero <| mcs_idx := 1 |>
    <| alloc := ra_nbiot_zero <| has_sib1 := true |> <| rnti := SRSLTE_SIRNTI |> <| sched_info_sib1 := 5 |> |>.

Section Steps.
Context {P : Type} (c : nbiot_cell_t) (Hc : cell_ok c).

Definition cell_re : Z := srslte_ra_nbiot_dl_grant_nof_re c (dl_grant_l_start (cl_mode c)).

Lemma cell_re_ok : cell_re <= NPDSCH_max_re.
Proof. destruct Hc. destruct (nof_re_range c ltac:(lia) ltac:(lia)) as [_ H]. change NPDSCH_max_re with 1600. unfold cell_re. lia. Qed.

(** SIB1's transmission before its [k]th subframe, a period having 128. *)
Definition sib1_at (k : Z) (w : dl_worker P) : Prop :=
  0 <= k < 128 /\
  (0 < k -> exists g, grant_ok g /\ dg_nof_sf g = 8 /\ dg_nof_rep g = 16 /\ dw_sib1_cfg w = bcch_cfg g cell_re k /\
    exists b, nd_sib_symbols (dw_npdsch w) = Some b /\ eb_rnti b = SRSLTE_SIRNTI).

(** The grant of a subframe while no user is scheduled: SIB1's in its turn. *)
Definition input_ok (k : Z) (i : dl_input P) : Prop :=
  if sib1_slot (di_tti i) then
    0 < pd_nof_grants (di_dl i) /\ pg_dci (pd_npdsch (di_dl i)) = sib1_dci /\
    pg_is_new_sib (pd_npdsch (di_dl i)) = (k =? 0) /\
    exists p, pg_data (pd_npdsch (di_dl i)) = Some p /\ 41 <= Z.of_nat (length (di_mem i p))
  else pd_nof_grants (di_dl i) <= 0.

Definition next_sib1 (k : Z) (i : dl_input P) : Z := if sib1_slot (di_tti i) then (k + 1) mod 128 else k.

(** [k] counts SIB1's subframes along the inputs. *)
Fixpoint fed (k : Z) (l : list (dl_input P)) : Prop :=
  match l with [] => True | i :: l' => input_ok k i /\ fed (next_sib1 k i) l' end.

(** The worker's data side, which SIB1 leaves alone. *)
Definition same_data (w w' : dl_worker P) : Prop :=
  dw_cfg w' = dw_cfg w /\ dw_active w' = dw_active w /\ dw_rnti w' = dw_rnti w /\ dw_data w' = dw_data w /\
  dw_pending w' = dw_pending w /\ nd_symbols (dw_npdsch w') = nd_symbols (dw_npdsch w).

Lemma sib1_grant_ok sfn sf_idx : exists g, grant_from_dci sib1_dci sfn sf_idx true = Ok (sib1_dci, g) /\
  grant_ok g /\ dg_tbs g = 328 /\ dg_nof_sf g = 8 /\ dg_nof_rep g = 16 /\ dg_has_sib1 g = true.
Proof.
  unfold grant_from_dci, srslte_ra_nbiot_dl_dci_to_grant.
  change (nbiot_dl_dci_to_grant_mcs sib1_dci) with (Ok (sib1_dci, Some 328) : res (dl_dci_t * option Z)).
  cbn [mbind res_bind]. change (srslte_ra_k0_from_dci sib1_dci DUMMY_R_MAX) with (Ok 0 : res Z).
  change (srslte_ra_n_rep_from_dci sib1_dci) with (Ok 16 : res Z). cbn [mbind res_bind].
  destruct (next_valid_dl_sf_spec (u32 (u32 (sfn * 10 + sf_idx) + 0 + 0) mod 10240) (mod_is_tti _)) as (d & t' & -> & _).
  cbn [mbind res_bind]. eexists. split; [reflexivity|]. split_and!; done.
Qed.

Lemma sib1_step (mem : P -> list Z) w k sfn sf_idx g :
  sib1_at k w -> pg_dci g = sib1_dci -> pg_is_new_sib g = (k =? 0) ->
  (exists p, pg_data g = Some p /\ 41 <= Z.of_nat (length (mem p))) ->
  exists w' tx, work_dl_sib1 mem c w sfn sf_idx g = Ok (w', true, [Ev_npdsch tx]) /\
    sib1_at ((k + 1) mod 128) w' /\ same_data w w' /\
    exists b, tx_block tx = Some b /\ eb_rnti b = SRSLTE_SIRNTI.
Proof.
  intros [Hk Hpos] Hd Hnew (p & Hp & Hlen). unfold work_dl_sib1. rewrite Hd, Hnew, Hp.
  pose proof cell_re_ok as Hre. destruct (Z.eqb_spec k 0) as [->|Hne].
  - destruct (sib1_grant_ok sfn sf_idx) as (g1 & -> & Hg & Ht & Hn & Hr & Hs). cbn [mbind res_bind].
    unfold sonica_enb_dl_nbiot_put_npdsch. cbn [load fmap option_fmap option_map dw_sib1_cfg dw_npdsch upd].
    rewrite (npdsch_encode_first _ (srslte_npdsch_cfg c g1)); [|done|exact Hre|done..|cbn [srslte_npdsch_cfg nc_grant]; rewrite Ht; exact Hlen].
    cbn [mbind res_bind]. cbn [nc_has_bcch srslte_npdsch_cfg nc_grant]. rewrite Hs.
    cbn iota. cbn [bcch_cfg nc_sf_idx nc_grant]. rewrite Hn, Hr. change (1 =? u32 (8 * 16)) with false.
    eexists _, _. split; [reflexivity|]. split; [|split; [done|by eexists]].
    split; [done|]. intros _. exists g1. split_and!; try done. by eexists.
  - destruct (Hpos ltac:(lia)) as (g1 & Hg & Hn & Hr & Ec & b & Eb & Er). rewrite Ec. cbn [mbind res_bind].
    change (nc_sf_idx (bcch_cfg g1 cell_re k)) with k. replace (k >? 0) with true by lia.
    unfold sonica_enb_dl_nbiot_put_npdsch. cbn [load fmap option_fmap option_map]. rewrite Ec.
    rewrite npdsch_encode_bcch by (done || lia). cbn [mbind res_bind].
    cbn [bcch_cfg nc_sf_idx nc_grant]. rewrite Hn, Hr, Eb. change (u32 (8 * 16)) with 128.
    eexists _, _. split; [reflexivity|]. split; [|split; [done|by exists b]].
    split; [apply Z.mod_pos_bound; lia|]. intros Hp1.
    assert (k + 1 <> 128) as Hk1 by (intros E; rewrite E in Hp1; done).
    rewrite Z.mod_small by lia. replace (k + 1 =? 128) with false by lia. cbn.
    exists g1. split_and!; try done. by exists b.
Qed.

(** The steps before the active transmission. *)
Lemma quiet_step w k i sfn sf_idx : sib1_at k w -> input_ok k i ->
  exists w' ev, work_dl_grant (di_mem i) c w sfn sf_idx (di_dl i) = Ok (w', sib1_slot (di_tti i), ev) /\
    sib1_at (next_sib1 k i) w' /\ same_data w w' /\ forall r, r <> SRSLTE_SIRNTI -> parts_of r ev = [].
Proof.
  intros Hw Hi. unfold input_ok, next_sib1 in *. unfold work_dl_grant. destruct (sib1_slot (di_tti i)).
  - destruct Hi as (Hn & Hd & Hnew & Hp). replace (_ >? 0) with true by lia. rewrite Hd.
    change (has_sib1 (alloc sib1_dci)) with true. cbn iota.
    destruct (sib1_step (di_mem i) w k sfn sf_idx _ Hw Hd Hnew Hp) as (w' & tx & -> & Hw' & Hs & b & Hb & Er).
    exists w', [Ev_npdsch tx]. split_and!; [done|done|done|]. intros r Hr. cbn. rewrite Hb, Er.
    by replace (SRSLTE_SIRNTI =? r) with false by lia.
  - replace (_ >? 0) with false by lia. exists w, []. split_and!; try done; exact Hw.
Qed.

Lemma parts_base r bch hfn tti : parts_of r (put_base bch hfn tti).2 = [].
Proof. unfold put_base. cbn. repeat case_match; done. Qed.

Lemma ul_dci_same w u : same_data w (work_dl_ul_dci w u).1 /\ dw_npdsch (work_dl_ul_dci w u).1 = dw_npdsch w /\
  dw_sib1_cfg (work_dl_ul_dci w u).1 = dw_sib1_cfg w /\ forall r, parts_of r (work_dl_ul_dci w u).2 = [].
Proof. unfold work_dl_ul_dci. repeat case_match; done. Qed.

Lemma parts_app r a b : parts_of r (a ++ b) = parts_of r a ++ parts_of r b.
Proof. apply omap_app. Qed.

(** A subframe without a user's grant: what is left of it for the data side. *)
Lemma dl_step_quiet w k i : sib1_at k w -> input_ok k i ->
  exists w1, sib1_at (next_sib1 k i) w1 /\ same_data w w1 /\
  forall w2 ev3,
    work_dl_active (di_mem i) (work_dl_start c w1 (di_tti i / 10) (di_tti i mod 10)) (di_tti i) (sib1_slot (di_tti i)) = Ok (w2, ev3) ->
    exists ev, dl_step c w i = Ok (w2, ev) /\ forall r, r <> SRSLTE_SIRNTI -> parts_of r ev = parts_of r ev3.
Proof.
  intros Hw Hi. unfold dl_step, work_dl.
  destruct (put_base (dw_bch w) (di_hfn i) (di_tti i)) as [bch ev0] eqn:E0.
  set (wb := w <| dw_bch := bch |>).
  destruct (ul_dci_same wb (di_ul i)) as (Hs1 & Hq1 & Hc1 & Hp1).
  destruct (work_dl_ul_dci wb (di_ul i)) as [wu ev1] eqn:E1. cbn [fst snd] in *.
  assert (Hwu : sib1_at k wu) by (unfold sib1_at in *; rewrite Hq1, Hc1; exact Hw).
  destruct (quiet_step wu k i (di_tti i / 10) (di_tti i mod 10) Hwu Hi) as (w1 & ev2 & -> & Hw1 & Hs2 & Hp2).
  exists w1. split; [done|]. split.
  { destruct Hs1 as (? & ? & ? & ? & ? & ?), Hs2 as (? & ? & ? & ? & ? & ?).
    repeat split; cbn in *; congruence. }
  intros w2 ev3 E3. cbn [mbind res_bind]. rewrite E3. cbn [mbind res_bind]. eexists. split; [reflexivity|].
  intros r Hr. rewrite !parts_app, Hp1, (Hp2 r Hr). pose proof (parts_base r (dw_bch w) (di_hfn i) (di_tti i)) as Hb.
  rewrite E0 in Hb. cbn [snd] in Hb. by rewrite Hb.
Qed.
End Steps.

(** ** Delivery of one block *)

(** A subframe free for a user's data. *)
Definition free_sf (t : Z) : bool := srslte_ra_nbiot_is_valid_dl_sf t && negb (sib1_slot t).

Definition free_ttis {P} (l : list (dl_input P)) : list Z := filter (fun t => free_sf t = true) (di_tti <$> l).

Section Deliver.
Context {P : Type} (c : nbiot_cell_t) (Hc : cell_ok c).
Context (h : dl_grant_record P) (p : P) (Hp : dr_data h = Some p) (Hr : dr_rnti h <> SRSLTE_SIRNTI).
Context (Hg : grant_ok (dr_grant h)) (Hs : dg_has_sib1 (dr_grant h) = false).

Let g := dr_grant h.
Let r := dr_rnti h.
(** The subframes of the transmission. *)
Definition total_sf : Z := dg_nof_sf g * dg_nof_rep g.
Definition the_block (d : list Z) : enc_block := mk_enc_block r (take (Z.to_nat (dg_tbs g / 8)) d) g.
Definition the_part (d : list Z) (j : Z) : tx_sf := mk_tx_sf (Some (the_block d)) (npdsch_order g j) true.

Definition idle (w : dl_worker P) : Prop := dw_active w = false /\ dw_pending w = [].
Definition waiting (w : dl_worker P) : Prop := dw_active w = false /\ dw_pending w = [h].
(** [j] subframes of the block [d] have been sent. *)
Definition sending (d : list Z) (j : Z) (w : dl_worker P) : Prop :=
  dw_active w = true /\ dw_pending w = [] /\ dw_rnti w = r /\ dw_data w = Some p /\
  if decide (j = 0) then dw_cfg w = srslte_npdsch_cfg c g
  else dw_cfg w = data_cfg g (cell_re c) j /\ nd_symbols (dw_npdsch w) = Some (the_block d).

Lemma same_idle (w w' : dl_worker P) : same_data w w' -> idle w -> idle w'.
Proof. intros (? & E1 & ? & ? & E2 & ?) [? ?]. split; congruence. Qed.
Lemma same_waiting w w' : same_data w w' -> waiting w -> waiting w'.
Proof. intros (? & E1 & ? & ? & E2 & ?) [? ?]. split; congruence. Qed.
Lemma same_sending d j w w' : same_data w w' -> sending d j w -> sending d j w'.
Proof.
  intros (E1 & E2 & E3 & E4 & E5 & E6) (? & ? & ? & ? & H). unfold sending. rewrite E1, E2, E3, E4, E5, E6. done.
Qed.

Lemma total_range : 1 <= total_sf <= 20480.
Proof. unfold total_sf, g. destruct Hg as [? ? _]. nia. Qed.

Lemma order_inside j : 0 <= j -> ((npdsch_order g j + 1) * cell_re c <=? NPDSCH_max_re) = true.
Proof.
  intros Hj. destruct Hc. apply part_inside with g; try lia; [done|by apply npdsch_order_range].
Qed.

(** The active step of a transmission. *)
Lemma active_step (mem : P -> list Z) d j w tti (sib : bool) :
  sending d j w -> 0 <= j < total_sf -> (j = 0 -> mem p = d) -> dg_tbs g / 8 <= Z.of_nat (length d) ->
  srslte_ra_nbiot_is_valid_dl_sf tti = true -> sib = false ->
  exists w', work_dl_active mem w tti sib = Ok (w', [Ev_npdsch (the_part d j)]) /\
    dw_sib1_cfg w' = dw_sib1_cfg w /\ nd_sib_symbols (dw_npdsch w') = nd_sib_symbols (dw_npdsch w) /\
    if j + 1 =? total_sf then idle w' else sending d (j + 1) w'.
Proof.
  intros (Ha & Hq & Er & Ed & Hst) Hj Hm Hd Hv ->. pose proof total_range as Ht.
  unfold work_dl_active. rewrite Ha, Hv, Ed, Er. cbn [negb andb load fmap option_fmap option_map].
  assert (Hu : u32 total_sf = total_sf) by (rewrite u32_id; lia).
  assert (Enc : exists q, sonica_enb_dl_nbiot_put_npdsch (dw_npdsch w) (dw_cfg w) (Some (mem p)) r =
      Ok (SRSLTE_SUCCESS, q, data_cfg g (cell_re c) (j + 1), Some (the_part d j)) /\
      nd_symbols q = Some (the_block d) /\ nd_sib_symbols q = nd_sib_symbols (dw_npdsch w)).
  { unfold sonica_enb_dl_nbiot_put_npdsch. destruct (decide (j = 0)) as [->|Hne].
    - rewrite Hst, Hm by done. rewrite (npdsch_encode_first _ (srslte_npdsch_cfg c g)); try done; [|by apply cell_re_ok].
      cbn [nc_has_bcch srslte_npdsch_cfg nc_grant]. fold g in Hs. rewrite Hs.
      exists (set_npdsch_buffer (dw_npdsch w) false (the_block d)). split_and!; [|reflexivity|reflexivity]. unfold the_part, the_block.
      assert (npdsch_order g 0 = 0) as -> by (unfold npdsch_order; by rewrite Zdiv_0_l, Zmod_0_l). reflexivity.
    - destruct Hst as [-> Es]. rewrite npdsch_encode_data by (done || lia || by apply cell_re_ok).
      rewrite Es, order_inside by lia. by exists (dw_npdsch w). }
  destruct Enc as (q & -> & Eq & Esib). cbn [mbind res_bind].
  rewrite bool_decide_true by (by eexists). rewrite orb_true_r. cbn [ub_unless].
  change (nc_num_sf (data_cfg g (cell_re c) (j + 1))) with (j + 1).
  change (nc_grant (data_cfg g (cell_re c) (j + 1))) with g.
  change (dg_nof_sf g * dg_nof_rep g) with total_sf. rewrite Hu.
  eexists. split; [reflexivity|]. destruct (Z.eqb_spec (j + 1) total_sf).
  - by split_and!.
  - split_and!; [done|done|]. unfold sending. cbn. split_and!; [done|done|done|done|].
    rewrite decide_False by lia. done.
Qed.

(** Without anything to send. *)
Lemma idle_step mem (w : dl_worker P) tti sib sfn sf_idx : idle w ->
  work_dl_active mem (work_dl_start c w sfn sf_idx) tti sib = Ok (w, []).
Proof.
  intros [Ha Hq]. unfold work_dl_start. rewrite Hq. unfold work_dl_active. by rewrite Ha, andb_false_r.
Qed.
Lemma waiting_step mem w tti sib sfn sf_idx : waiting w -> (sfn, sf_idx) <> (dg_start_sfn g, dg_start_sfidx g) ->
  work_dl_active mem (work_dl_start c w sfn sf_idx) tti sib = Ok (w, []).
Proof.
  intros [Ha Hq] Hne. unfold work_dl_start. rewrite Hq. fold g.
  replace (_ && _) with false.
  { unfold work_dl_active. by rewrite Ha, andb_false_r. }
  symmetry. rewrite Ha. cbn [negb andb]. apply andb_false_iff.
  destruct (Z.eqb_spec (dg_start_sfn g) sfn); [|by left]. destruct (Z.eqb_spec (dg_start_sfidx g) sf_idx); [|by right].
  congruence.
Qed.
Lemma sending_start d j w sfn sf_idx : sending d j w -> work_dl_start c w sfn sf_idx = w.
Proof. intros (_ & Hq & _). unfold work_dl_start. by rewrite Hq. Qed.
Lemma waiting_start d w : waiting w -> sending d 0 (work_dl_start c w (dg_start_sfn g) (dg_start_sfidx g)) /\
  dw_sib1_cfg (work_dl_start c w (dg_start_sfn g) (dg_start_sfidx g)) = dw_sib1_cfg w /\
  dw_npdsch (work_dl_start c w (dg_start_sfn g) (dg_start_sfidx g)) = dw_npdsch w.
Proof.
  intros [Ha Hq]. unfold work_dl_start. rewrite Hq, Ha. fold g. rewrite !Z.eqb_refl. cbn. unfold sending. cbn.
  split_and!; done.
Qed.

Lemma sib1_at_same k (w w' : dl_worker P) : dw_sib1_cfg w' = dw_sib1_cfg w -> nd_sib_symbols (dw_npdsch w') = nd_sib_symbols (dw_npdsch w) ->
  sib1_at c k w -> sib1_at c k w'.
Proof. intros E1 E2 [Hk H]. split; [done|]. by rewrite E1, E2. Qed.

(** *** Runs of the three phases *)

Lemma idle_run l (w : dl_worker P) k : sib1_at c k w -> fed k l -> idle w ->
  exists w' evs k', dl_run c w l = Ok (w', evs) /\ idle w' /\ sib1_at c k' w' /\ air_log r evs = [].
Proof.
  revert w k; induction l as [|i l IH]; intros w k Hw Hf Hi; [by exists w, [], k|].
  destruct Hf as [Hin Hf]. destruct (dl_step_quiet c Hc w k i Hw Hin) as (w1 & Hw1 & Hsd & Hstep).
  destruct (Hstep w1 []) as (ev & E & Hev); [by apply idle_step, (same_idle w)|].
  cbn [dl_run]. rewrite E. cbn [mbind res_bind].
  destruct (IH w1 _ Hw1 Hf (same_idle w w1 Hsd Hi)) as (w' & evs & k' & -> & Hi' & Hk' & Hlog). cbn [mbind res_bind].
  exists w', ((di_tti i, ev) :: evs), k'. split_and!; try done.
  unfold air_log in *. rewrite bind_cons, (Hev r Hr), Hlog. done.
Qed.

Lemma free_ttis_cons (i : dl_input P) l :
  free_ttis (i :: l) = if free_sf (di_tti i) then di_tti i :: free_ttis l else free_ttis l.
Proof. unfold free_ttis. rewrite fmap_cons, filter_cons. destruct (free_sf (di_tti i)); [by rewrite decide_True|by rewrite decide_False]. Qed.

Lemma part_logged d j : parts_of r [Ev_npdsch (the_part d j)] = [the_part d j].
Proof. unfold parts_of. cbn. by rewrite Z.eqb_refl. Qed.

(** The transmission goes on, or starts at [t]. *)
Definition ready (d : list Z) (j : Z) (w : dl_worker P) (t : Z) : Prop :=
  sending d j w \/ j = 0 /\ waiting w /\ t / 10 = dg_start_sfn g /\ t mod 10 = dg_start_sfidx g.

Lemma ready_start d j w t : ready d j w t ->
  let w' := work_dl_start c w (t / 10) (t mod 10) in
  sending d j w' /\ dw_sib1_cfg w' = dw_sib1_cfg w /\ dw_npdsch w' = dw_npdsch w.
Proof.
  intros [Hse|(-> & Hw & -> & ->)]; cbv zeta; [|by apply waiting_start]. by rewrite (sending_start d j).
Qed.

Lemma same_ready d j w w' t : same_data w w' -> ready d j w t -> ready d j w' t.
Proof.
  intros Hs' [H|(? & ? & ?)]; [left; by apply (same_sending d j w)|right].
  split_and!; [done|by apply (same_waiting w)|tauto..].
Qed.

Lemma sending_run d l w k j : dg_tbs g / 8 <= Z.of_nat (length d) ->
  sib1_at c k w -> fed k l -> (forall i, head l = Some i -> ready d j w (di_tti i)) -> 0 <= j < total_sf ->
  total_sf - j <= Z.of_nat (length (free_ttis l)) ->
  (j = 0 -> forall i, i ∈ l -> head (free_ttis l) = Some (di_tti i) -> di_mem i p = d) ->
  exists w' evs k', dl_run c w l = Ok (w', evs) /\ idle w' /\ sib1_at c k' w' /\
    air_log r evs = zip (take (Z.to_nat (total_sf - j)) (free_ttis l)) (the_part d <$> range j (Z.to_nat (total_sf - j))).
Proof.
  intros Hd. revert w k j; induction l as [|i l IH]; intros w k j Hw Hf Hse Hj Hlen Hmem; [cbn in Hlen; lia|].
  destruct Hf as [Hin Hf]. destruct (dl_step_quiet c Hc w k i Hw Hin) as (w1 & Hw1 & Hsd & Hstep).
  pose proof (same_ready d j w w1 _ Hsd (Hse i eq_refl)) as Hre.
  destruct (ready_start d j w1 _ Hre) as (Hse1 & Ec1 & Eq1). set (w1' := work_dl_start c w1 _ _) in *.
  assert (Hw1' : sib1_at c (next_sib1 k i) w1') by (apply (sib1_at_same _ w1); [done|by rewrite Eq1|done]).
  cbn [dl_run]. rewrite free_ttis_cons in Hlen, Hmem |- *. unfold free_sf in Hlen, Hmem |- *.
  destruct (srslte_ra_nbiot_is_valid_dl_sf (di_tti i) && negb (sib1_slot (di_tti i))) eqn:Efree.
  - apply andb_true_iff in Efree as [Hv Hns%negb_true_iff].
    destruct (active_step (di_mem i) d j w1' (di_tti i) (sib1_slot (di_tti i)))
      as (w2 & E2 & Ec2 & Eq2 & Hnext); try done.
    { intros Ej. apply (Hmem Ej i); [apply list_elem_of_here|done]. }
    destruct (Hstep _ _ E2) as (ev & -> & Hev). cbn [mbind res_bind].
    pose proof (sib1_at_same _ _ _ Ec2 Eq2 Hw1') as Hw2.
    replace (Z.to_nat (total_sf - j)) with (S (Z.to_nat (total_sf - (j + 1)))) by lia.
    rewrite range_S. cbn [take fmap list_fmap zip zip_with]. cbn [length] in Hlen.
    destruct (Z.eqb_spec (j + 1) total_sf) as [Ej|Ej].
    + destruct (idle_run l w2 _ Hw2 Hf Hnext) as (w' & evs & k' & -> & Hi' & Hk' & Hlog). cbn [mbind res_bind].
      exists w', ((di_tti i, ev) :: evs), k'. split_and!; try done.
      unfold air_log in *. rewrite bind_cons, (Hev r Hr), Hlog, part_logged.
      rewrite Ej, Z.sub_diag. cbn. done.
    + destruct (IH w2 _ (j + 1) Hw2 Hf) as (w' & evs & k' & -> & Hi' & Hk' & Hlog); [by left|lia|lia|lia|].
      cbn [mbind res_bind]. exists w', ((di_tti i, ev) :: evs), k'. split_and!; try done.
      unfold air_log in *. rewrite bind_cons, (Hev r Hr), Hlog, part_logged. done.
  - assert (E2 : work_dl_active (di_mem i) w1' (di_tti i) (sib1_slot (di_tti i)) = Ok (w1', [])).
    { unfold work_dl_active. destruct Hse1 as (-> & _).
      replace (_ && _ && _) with false; [done|]. symmetry. rewrite andb_true_r.
      by rewrite andb_comm. }
    destruct (Hstep _ _ E2) as (ev & -> & Hev). cbn [mbind res_bind].
    destruct (IH w1' _ j Hw1' Hf) as (w' & evs & k' & -> & Hi' & Hk' & Hlog); [by left|done|done|..].
    { intros Ej x Hx. apply (Hmem Ej). by apply list_elem_of_further. }
    cbn [mbind res_bind]. exists w', ((di_tti i, ev) :: evs), k'. split_and!; try done.
    unfold air_log in *. by rewrite bind_cons, (Hev r Hr).
Qed.
End Deliver.

(** ** The grant and its first subframe *)

Lemma grant_from_dci_spec dci sfn sf_idx dci' g :
  grant_from_dci dci sfn sf_idx false = Ok (dci', g) -> has_sib1 (alloc dci) = false -> 0 <= i_sf (alloc dci) ->
  0 <= sfn * 10 + sf_idx < 10240 ->
  grant_ok g /\ dg_has_sib1 g = false /\ rnti (alloc dci') = rnti (alloc dci) /\ 0 <= dg_k0 g <= 1024 /\
  exists e x, 0 <= e <= 2 /\ x = (sfn * 10 + sf_idx + 5 + dg_k0 g + e) mod 10240 /\
    dg_start_sfn g = x / 10 /\ dg_start_sfidx g = x mod 10 /\ srslte_ra_nbiot_is_valid_dl_sf x = true /\
    forall j, 0 <= j < e -> srslte_ra_nbiot_is_valid_dl_sf ((sfn * 10 + sf_idx + 5 + dg_k0 g + j) mod 10240) = false.
Proof.
  intros H Hs Hi Ht. destruct dci as [fm [hs rn ra idl isf irp ins hq si] mc rv nd n2]. cbn in Hs, Hi. subst hs.
  unfold grant_from_dci, srslte_ra_nbiot_dl_dci_to_grant in H.
  apply bind_Ok in H as ([d2 o] & Em & H). rewrite Em in H. cbn [mbind res_bind] in H.
  unfold nbiot_dl_dci_to_grant_mcs in Em. cbn in Em. apply bind_Ok in Em as (tbs & Et & Em).
  injection Em as <- <-. destruct (Z.leb_spec tbs 0); [done|].
  apply bind_Ok in H as (og & Hg & H). apply bind_Ok in Hg as (k0 & Ek & Hg). apply bind_Ok in Hg as (nrep & Er & Hg).
  destruct (next_valid_dl_sf_spec (u32 (u32 (sfn * 10 + sf_idx) + 5 + k0) mod 10240) (mod_is_tti _))
    as (e & x & Ex & He & Hx & Hxt & Hv & Hnv).
  rewrite Ex in Hg. cbn [mbind res_bind] in Hg. injection Hg as <-. injection H as <- <-. cbn.
  assert (Hk : 0 <= k0 <= 1024).
  { unfold srslte_ra_k0_from_dci in Ek. cbn in Ek. destruct n2; [injection Ek as <-; lia|].
    unfold arr_read in Ek. destruct (in_bounds _ _) eqn:Eb; [|done].
    destruct (_ !! _) as [v|] eqn:Ev; [|done]. injection Ek as <-.
    apply list_elem_of_lookup_2 in Ev. unfold k0_table_formatN1_r_st_128 in Ev. set_unfold. lia. }
  assert (Hrep : 1 <= nrep <= 2048).
  { unfold srslte_ra_n_rep_from_dci in Er. cbn in Er. unfold arr_read in Er.
    destruct (in_bounds _ _) eqn:Eb; [|done]. destruct (_ !! _) as [v|] eqn:Ev; [|done]. injection Er as <-.
    apply list_elem_of_lookup_2 in Ev. unfold n_rep_table in Ev. set_unfold. lia. }
  split_and!; try done; try lia.
  - split; cbn; [|done|done]. unfold srslte_ra_n_sf_from_dci. cbn. repeat case_match; lia.
  - exists e, x. rewrite u32_id in Hx, Hnv by (rewrite u32_id; lia). rewrite u32_id in Hx, Hnv by lia.
    assert (Emod : forall a j, 0 <= a -> ((a mod 10240) + j) mod 10240 = (a + j) mod 10240)
      by (intros; by rewrite Zplus_mod_idemp_l).
    rewrite Emod in Hx by lia. split_and!; try done; try lia.
    intros j Hj. specialize (Hnv j Hj). by rewrite Emod in Hnv by lia.
Qed.

(** ** From the DCI to the last subframe *)

Lemma free_slots_free l : free_slots ∅ l = filter (fun t => free_sf t = true) l.
Proof.
  apply list_filter_iff. intros x. unfold data_slot, free_sf. rewrite bool_decide_false by set_solver.
  by rewrite andb_true_r.
Qed.

Lemma free_invalid t : srslte_ra_nbiot_is_valid_dl_sf t = false -> free_sf t = false.
Proof. unfold free_sf. by intros ->. Qed.

Lemma fed_app {P} k (l1 l2 : list (dl_input P)) : fed k (l1 ++ l2) -> exists k', fed k l1 /\ fed k' l2 /\
  k' = fold_left next_sib1 l1 k.
Proof.
  revert k; induction l1 as [|i l1 IH]; intros k H; [by exists k|]. destruct H as [Hi H].
  destruct (IH _ H) as (k' & H1 & H2 & ->). by eexists.
Qed.

Section DeliverAll.
Context {P : Type} (c : nbiot_cell_t) (Hc : cell_ok c).

(** Before the start of a queued block. *)
Lemma waiting_run h p l (w : dl_worker P) k :
  dr_data h = Some p -> dr_rnti h <> SRSLTE_SIRNTI ->
  sib1_at c k w -> fed k l -> waiting h w ->
  (forall i, i ∈ l -> (di_tti i / 10, di_tti i mod 10) <> (dg_start_sfn (dr_grant h), dg_start_sfidx (dr_grant h))) ->
  exists w' evs, dl_run c w l = Ok (w', evs) /\ waiting h w' /\ sib1_at c (fold_left next_sib1 l k) w' /\
    air_log (dr_rnti h) evs = [].
Proof.
  intros Hp Hr. revert w k; induction l as [|i l IH]; intros w k Hw Hf Hwt Hne; [by exists w, []|].
  destruct Hf as [Hin Hf]. destruct (dl_step_quiet c Hc w k i Hw Hin) as (w1 & Hw1 & Hsd & Hstep).
  pose proof (same_waiting h w w1 Hsd Hwt) as Hwt1.
  destruct (Hstep w1 []) as (ev & E & Hev).
  { apply (waiting_step c h); [done|]. apply Hne, list_elem_of_here. }
  cbn [dl_run]. rewrite E. cbn [mbind res_bind].
  destruct (IH w1 _ Hw1 Hf Hwt1) as (w' & evs & -> & Hwt' & Hk' & Hlog).
  { intros j Hj. apply Hne. by apply list_elem_of_further. }
  cbn [mbind res_bind]. exists w', ((di_tti i, ev) :: evs). split_and!; try done.
  unfold air_log in *. by rewrite bind_cons, (Hev _ Hr).
Qed.

Lemma dl_run_app (w : dl_worker P) l1 l2 :
  dl_run c w (l1 ++ l2) = ('(w1, e1) ← dl_run c w l1; '(w2, e2) ← dl_run c w1 l2; Ok (w2, e1 ++ e2)).
Proof.
  revert w; induction l1 as [|i l1 IH]; intros w; cbn [app dl_run].
  - cbn [mbind res_bind]. destruct (dl_run c w l2) as [[? ?]| |]; done.
  - destruct (dl_step c w i) as [[w1 ev]| |]; cbn [mbind res_bind]; [|done|done]. rewrite IH.
    destruct (dl_run c w1 l1) as [[w2 e2]| |]; cbn [mbind res_bind]; [|done|done].
    destruct (dl_run c w2 l2) as [[w3 e3]| |]; done.
Qed.

(** The subframe of the DCI: the block is queued. *)
Lemma queue_step (w : dl_worker P) k i dci' g p :
  sib1_at c k w -> idle w -> 0 < pd_nof_grants (di_dl i) -> pg_has_npdcch (pd_npdsch (di_dl i)) = true ->
  has_sib1 (alloc (pg_dci (pd_npdsch (di_dl i)))) = false -> pg_data (pd_npdsch (di_dl i)) = Some p ->
  grant_from_dci (pg_dci (pd_npdsch (di_dl i))) (di_tti i / 10) (di_tti i mod 10) false = Ok (dci', g) ->
  (di_tti i / 10, di_tti i mod 10) <> (dg_start_sfn g, dg_start_sfidx g) ->
  exists w' ev, dl_step c w i = Ok (w', ev) /\ sib1_at c k w' /\
    waiting (mk_dl_grant_record g (rnti (alloc dci')) (Some p)) w' /\
    (forall r, parts_of r ev = []) /\
    exists b, Ev_npdcch_dl (dci_formatN1_pack (dci' <| ndi := b |>) false) (rnti (alloc dci')) ∈ ev.
Proof.
  intros Hw [Ha Hq] Hn Hnp Hs Hp Hg Hne. unfold dl_step, work_dl.
  destruct (put_base (dw_bch w) (di_hfn i) (di_tti i)) as [bch ev0] eqn:E0.
  set (wb := w <| dw_bch := bch |>).
  destruct (ul_dci_same wb (di_ul i)) as ((_ & Ha1 & _ & _ & Hq1 & _) & Hn1 & Hc1 & Hp1).
  destruct (work_dl_ul_dci wb (di_ul i)) as [wu ev1] eqn:E1. cbn [fst snd] in *.
  unfold work_dl_grant. replace (_ >? 0) with true by lia. rewrite Hs, Hnp. cbn [negb].
  unfold work_dl_data. rewrite Hg, Hp. cbn [mbind res_bind].
  set (h := mk_dl_grant_record g (rnti (alloc dci')) (Some p)).
  match goal with |- context [work_dl_start c ?x _ _] => set (w2 := x) end.
  assert (Hwt : waiting h w2) by (split; cbn; [by rewrite Ha1|by rewrite Hq1; cbn; rewrite Hq]).
  rewrite (waiting_step c h) by done. cbn [mbind res_bind].
  eexists w2, _. split; [reflexivity|]. split_and!.
  - apply (sib1_at_same c k w); [exact Hc1|cbn; by rewrite Hn1|done].
  - done.
  - intros r. rewrite !parts_app, Hp1. pose proof (parts_base r (dw_bch w) (di_hfn i) (di_tti i)) as Hb.
    rewrite E0 in Hb. cbn [snd] in Hb. by rewrite Hb.
  - eexists. rewrite !elem_of_app. right. right. left. apply list_elem_of_here.
Qed.
Lemma cyc_shift a b i n : cyc ((a + b) mod 10240) i n = cyc a (b + i) n.
Proof.
  unfold cyc, range. rewrite <- !list_fmap_compose. apply list_fmap_ext. intros _ x _. cbn.
  rewrite Zplus_mod_idemp_l. f_equal. lia.
Qed.

Lemma free_ttis_cyc (l : list (dl_input P)) : free_ttis l = free_slots ∅ (di_tti <$> l).
Proof. by rewrite free_slots_free. Qed.

Lemma free_slots_none a i n : (forall j, i <= j < i + Z.of_nat n -> free_sf ((a + j) mod 10240) = false) ->
  free_slots ∅ (cyc a i n) = [].
Proof.
  intros H. rewrite free_slots_free. apply filter_none. intros x (j & Hj & ->)%elem_of_cyc. by rewrite H.
Qed.

(** With nothing else reserved, the slots found in the first [m] subframes are
    the scheduler's. *)
Lemma data_slots_prefix a n m : (m <= data_fuel)%nat -> (n <= length (free_slots ∅ (cyc a 0 m)))%nat ->
  data_slots ∅ a n = take n (free_slots ∅ (cyc a 0 m)).
Proof.
  intros Hm Hn. unfold data_slots. replace data_fuel with (m + (data_fuel - m))%nat by lia.
  by rewrite cyc_app, free_slots_app, take_app_le.
Qed.

(** The subframes up to the start of a transmission and those from there on: the
    start is the first valid subframe after the scheduling delay [k], and [n]
    subframes are free from there on. *)
Lemma split_at_start t k e n (l : list (dl_input P)) : is_tti t -> 0 <= k -> 0 <= e -> (1 <= n)%nat ->
  (forall j, 0 <= j < e -> srslte_ra_nbiot_is_valid_dl_sf ((t + (1 + k) + j) mod 10240) = false) ->
  di_tti <$> l = cyc t 1 (length l) -> Z.of_nat (length l) <= 10240 ->
  let first := (t + (1 + k)) mod 10240 in
  (n <= length (free_slots ∅ (cyc first 0 (length l - Z.to_nat k))))%nat ->
  exists l1 l2, l = l1 ++ l2 /\ di_tti <$> l1 = cyc t 1 (length l1) /\ Z.of_nat (length l1) = k + e /\
    head (di_tti <$> l2) = Some ((t + (1 + k) + e) mod 10240) /\
    data_slots ∅ first n = take n (free_ttis l2) /\ (n <= length (free_ttis l2))%nat.
Proof.
  intros Ht Hk He Hn1 Hnv El Hl first Hroom. set (m := (length l - Z.to_nat k)%nat) in *.
  assert (Hm : (m <= data_fuel)%nat) by (pose proof data_fuel_eq; lia).
  set (ne := Z.to_nat e). unfold first in Hroom.
  assert (Hpre : forall q, (q <= ne)%nat -> free_slots ∅ (cyc t (1 + k) q) = []).
  { intros q Hq. apply free_slots_none. intros j Hj. apply free_invalid.
    specialize (Hnv (j - (1 + k)) ltac:(lia)). rewrite <- Hnv. do 2 f_equal. lia. }
  assert (Hme : (ne < m)%nat).
  { destruct (Nat.le_gt_cases m ne) as [Hle|]; [|done].
    rewrite cyc_shift, Z.add_0_r, Hpre in Hroom by done. cbn in Hroom. lia. }
  set (q := (Z.to_nat k + ne)%nat).
  assert (Hlen1 : length (take q l) = q) by (rewrite length_take; lia).
  assert (Hlen2 : length (drop q l) = (m - ne)%nat) by (rewrite length_drop; lia).
  exists (take q l), (drop q l). revert Hlen1 Hlen2. generalize (take_drop q l).
  generalize (take q l) (drop q l). intros l1 l2 Hl12 Hlen1 Hlen2. symmetry in Hl12.
  rewrite Hl12, fmap_app, length_app, cyc_app in El.
  apply app_inj_1 in El as [El1 El2]; [|unfold cyc; by rewrite !length_fmap, length_range].
  replace (1 + Z.of_nat (length l1)) with (1 + k + e) in El2 by lia.
  assert (Efree : free_slots ∅ (cyc first 0 m) = free_ttis l2).
  { unfold first. rewrite free_ttis_cyc, El2, Hlen2, cyc_shift, Z.add_0_r. replace m with (ne + (m - ne))%nat at 1 by lia.
    rewrite cyc_app, free_slots_app, Hpre by done. cbn [app]. do 2 f_equal. lia. }
  fold first in Hroom. split_and!; [done|done|lia| | |by rewrite <- Efree].
  - rewrite El2, Hlen2. destruct (m - ne)%nat eqn:Emn; [lia|]. rewrite cyc_S. cbn [head]. do 2 f_equal. lia.
  - rewrite (data_slots_prefix _ _ m), Efree; done.
Qed.

Lemma tti_split_inj x y : (x / 10, x mod 10) = (y / 10, y mod 10) -> x = y.
Proof. intros [= E1 E2]. pose proof (Z.div_mod x 10). pose proof (Z.div_mod y 10). lia. Qed.

End DeliverAll.

Definition demo_mem (p : bool) : list Z := if p then [11; 22; 33; 44; 55; 66; 77; 88; 99] else replicate 41 0.
Definition demo_dci : dl_dci_t := dl_dci_zero <| mcs_idx := 4 |> <| alloc := ra_nbiot_zero <| rnti := 70 |> <| i_rep := 3 |> |>.
(** A subframe without a user's grant. *)
Definition demo_quiet (new : Z) (t : Z) : dl_input bool :=
  mk_dl_input bool demo_mem 0 t
    (if sib1_slot t then mk_phy_dl_sched (mk_phy_dl_grant sib1_dci (Some false) false (t =? new)) 1 else phy_dl_sched_zero) [].
Definition demo_input (d : dl_dci_t) (t : Z) : dl_input bool :=
  mk_dl_input bool demo_mem 0 t (mk_phy_dl_sched (mk_phy_dl_grant d (Some true) true false) 1) [].

Definition demo_grant : dl_grant_t :=
  match grant_from_dci demo_dci 4 0 false with Ok (_, g) => g | _ => dl_grant_zero end.

Lemma demo_slots : data_slots ∅ ((40 + (5 + dg_k0 demo_grant)) mod 10240) (Z.to_nat (dg_nof_sf demo_grant * dg_nof_rep demo_grant)) = [46; 47; 48; 51; 52; 53; 56; 57].
Proof. rewrite (data_slots_prefix _ _ 40); [reflexivity|pose proof data_fuel_eq; lia|vm_compute; lia]. Qed.


(** ** A block that misses its start *)

Section Blocked.
Context {P : Type} (c : nbiot_cell_t).

(** No step but [work_dl_start] takes anything from the queue. *)
Lemma sib1_keeps mem (w : dl_worker P) sfn sf_idx g w' b ev : work_dl_sib1 mem c w sfn sf_idx g = Ok (w', b, ev) ->
  dw_pending w' = dw_pending w /\ dw_active w' = dw_active w.
Proof.
  unfold work_dl_sib1. intros H. apply bind_Ok in H as ([w1 has] & H1 & H).
  assert (E : dw_pending w1 = dw_pending w /\ dw_active w1 = dw_active w).
  { destruct (pg_is_new_sib g); [apply bind_Ok in H1 as ([? ?] & _ & H1)|]; by injection H1 as <- _. }
  destruct has; [|by injection H as <- _ _].
  apply bind_Ok in H as ([[[? ?] ?] ?] & _ & H). by injection H as <- _ _.
Qed.

Lemma grant_keeps mem (w : dl_worker P) sfn sf_idx d w' b ev : work_dl_grant mem c w sfn sf_idx d = Ok (w', b, ev) ->
  (exists new, dw_pending w' = dw_pending w ++ new) /\ (dw_active w = true -> dw_active w' = true).
Proof.
  unfold work_dl_grant. intros H.
  destruct (_ >? 0); [|injection H as <- _ _; split; [exists []; by rewrite app_nil_r|done]].
  destruct (has_sib1 _).
  { apply sib1_keeps in H as [-> ->]. split; [exists []; by rewrite app_nil_r|done]. }
  destruct (negb _).
  - apply bind_Ok in H as (w1 & H1 & [= <- _ _]). apply bind_Ok in H1 as ([? ?] & _ & [= <-]).
    split; [exists []; by rewrite app_nil_r|done].
  - apply bind_Ok in H as ([w1 ?] & H1 & [= <- _ _]). apply bind_Ok in H1 as ([? ?] & _ & [= <- _]).
    split; [by eexists|done].
Qed.

Lemma active_keeps mem (w : dl_worker P) tti s w' ev : work_dl_active mem w tti s = Ok (w', ev) ->
  dw_pending w' = dw_pending w.
Proof.
  unfold work_dl_active. intros H. destruct (_ && _ && _); [|by injection H as <- _].
  apply bind_Ok in H as ([[[? ?] ?] ?] & _ & H). destruct (_ || _); [|done]. cbn in H.
  injection H as <- _. by destruct (_ =? _).
Qed.

Lemma dl_step_queue (w : dl_worker P) i w' ev : dl_step c w i = Ok (w', ev) ->
  exists w2 new, dw_pending w2 = dw_pending w ++ new /\ (dw_active w = true -> dw_active w2 = true) /\
    dw_pending w' = dw_pending (work_dl_start c w2 (di_tti i / 10) (di_tti i mod 10)).
Proof.
  unfold dl_step, work_dl. destruct (put_base _ _ _) as [bch ev0].
  destruct (ul_dci_same (w <| dw_bch := bch |>) (di_ul i)) as ((_ & Ha & _ & _ & Hq & _) & _).
  destruct (work_dl_ul_dci _ _) as [wu ev1]. cbn [fst snd] in *. intros H.
  apply bind_Ok in H as ([[w2 s] ev2] & H1 & H). apply bind_Ok in H as ([w3 ev3] & H2 & [= <- <-]).
  apply grant_keeps in H1 as [[new Hn] Hact]. exists w2, new. rewrite Hn, Hq. split_and!; [done| |by apply active_keeps in H2].
  intros Ht. apply Hact. by rewrite Ha.
Qed.

Definition starts_at (h : dl_grant_record P) (t : Z) : Prop :=
  dg_start_sfn (dr_grant h) = t / 10 /\ dg_start_sfidx (dr_grant h) = t mod 10.

Lemma start_skips (w : dl_worker P) h rest t : dw_pending w = h :: rest -> dw_active w = true \/ ~ starts_at h t ->
  work_dl_start c w (t / 10) (t mod 10) = w.
Proof.
  intros Hq Hn. unfold work_dl_start. rewrite Hq. replace (_ && _) with false; [done|]. symmetry.
  destruct Hn as [->|Hn]; [done|]. rewrite <- andb_assoc. apply andb_false_iff. right. apply andb_false_iff.
  destruct (Z.eqb_spec (dg_start_sfn (dr_grant h)) (t / 10)); [right|by left].
  apply Z.eqb_neq. intros E. by apply Hn.
Qed.

Lemma step_skips (w : dl_worker P) h rest i w' ev : dw_pending w = h :: rest ->
  dw_active w = true \/ ~ starts_at h (di_tti i) -> dl_step c w i = Ok (w', ev) ->
  exists new, dw_pending w' = h :: rest ++ new.
Proof.
  intros Hq Hn (w2 & new & Hq2 & Ha2 & ->)%dl_step_queue. exists new. rewrite Hq in Hq2. cbn in Hq2.
  rewrite (start_skips w2 h (rest ++ new)) by (naive_solver). done.
Qed.

Lemma run_skips (w : dl_worker P) h rest l w' evs : dw_pending w = h :: rest ->
  (forall i, i ∈ l -> ~ starts_at h (di_tti i)) -> dl_run c w l = Ok (w', evs) ->
  exists new, dw_pending w' = h :: rest ++ new.
Proof.
  revert w rest evs; induction l as [|i l IH]; intros w rest evs Hq Hl H; cbn [dl_run] in H.
  - injection H as <- _. exists []. by rewrite app_nil_r.
  - apply bind_Ok in H as ([w1 ev] & H1 & H). apply bind_Ok in H as ([w2 evs2] & H2 & [= <- <-]).
    apply (step_skips w h rest) in H1 as [new1 Hq1]; [|done|right; apply Hl, list_elem_of_here].
    apply (IH w1 (rest ++ new1)) in H2 as [new2 Hq2]; [|done|intros j Hj; apply Hl; by apply list_elem_of_further].
    exists (new1 ++ new2). by rewrite app_assoc.
Qed.

(** A block that misses its start blocks the downlink: when the NPDSCH is
    busy in the subframe at which the block at the head of the queue is to start,
    neither it nor any block queued behind it, before or after, starts in the
    whole turn of the frame number that follows (1024 frames), whatever grants
    arrive. *)
Theorem missed_start_blocks (w : dl_worker P) h rest i0 l t w' evs :
  dw_pending w = h :: rest -> dw_active w = true -> is_tti t -> starts_at h t ->
  di_tti i0 = t -> di_tti <$> l = cyc t 1 (length l) -> (length l < Z.to_nat 10240)%nat ->
  dl_run c w (i0 :: l) = Ok (w', evs) ->
  exists new, dw_pending w' = h :: rest ++ new.
Proof.
  intros Hq Ha Ht [Es Ei] E0 El Hl H. cbn [dl_run] in H.
  apply bind_Ok in H as ([w1 ev] & H1 & H). apply bind_Ok in H as ([w2 evs2] & H2 & [= <- <-]).
  apply (step_skips w h rest) in H1 as [new1 Hq1]; [|done|by left].
  apply (run_skips w1 h (rest ++ new1)) in H2 as [new2 Hq2]; [|done|].
  - exists (new1 ++ new2). by rewrite app_assoc.
  - intros i Hi [E1 E2]. assert (E : di_tti i = t) by (apply tti_split_inj; congruence).
    assert (di_tti i ∈ cyc t 1 (length l)) as (j & Hj & Ej)%elem_of_cyc by (rewrite <- El; by apply list_elem_of_fmap_2).
    unfold is_tti in Ht. dlia.
Qed.
End Blocked.

(** Two users: the second block is to start at subframe 54, while the first,
    of 8 subframes, is still being sent. *)
Definition demo_dci2 : dl_dci_t := demo_dci <| alloc := (alloc demo_dci) <| rnti := 71 |> |>.
Definition demo_two : list (dl_input bool) :=
  [demo_input demo_dci 40] ++ (demo_quiet 54 <$> range 41 8) ++ [demo_input demo_dci2 49] ++ (demo_quiet 54 <$> range 50 60).

(** The run: the worker is idle at its end, but the second block is queued still. *)
Example demo_two_blocked :
  match dl_run demo_cell dl_worker_new demo_two with
  | Ok (w, evs) => dw_active w = false /\ length (dw_pending w) = 1%nat /\ air_log 71 evs = []
      /\ (fst <$> air_log 70 evs) = [46; 47; 48; 51; 52; 53; 56; 57]
  | _ => False
  end.
Proof. vm_compute. by split_and!. Qed.

Definition demo_busy : dl_worker bool :=
  match dl_run demo_cell dl_worker_new (take 14 demo_two) with Ok (w, _) => w | _ => dl_worker_new end.
Definition demo_late : dl_grant_record bool :=
  match dw_pending demo_busy with h :: _ => h | [] => mk_dl_grant_record dl_grant_zero 0 None end.

Lemma missed_start_blocks_witness :
  exists w' evs new, dl_run demo_cell demo_busy (demo_quiet 54 <$> range 54 100) = Ok (w', evs) /\
    dw_pending w' = demo_late :: new.
Proof.
  destruct (dl_run demo_cell demo_busy (demo_quiet 54 <$> range 54 100)) as [[w' evs]|?|] eqn:E; [|vm_compute in E; discriminate E..].
  destruct (missed_start_blocks demo_cell demo_busy demo_late [] (demo_quiet 54 54) (demo_quiet 54 <$> range 55 99) 54 w' evs) as [new Hn].
  - reflexivity.
  - reflexivity.
  - split; lia.
  - split; reflexivity.
  - reflexivity.
  - reflexivity.
  - apply Nat2Z.inj_lt. vm_compute. reflexivity.
  - exact E.
  - exists w', evs, new. split; [reflexivity|exact Hn].
Defined.
