(* ===== verification/SfUl.v ===== *)
(** * The PHY worker, uplink

    The half of [class sf_worker] ([sonica_enb/phy/sf_worker.cc]) that receives:
    the recording of an uplink grant in [work_imp], and [work_ul], with
    [sonica_enb_ul_nbiot_cfg_grant] and [sonica_enb_ul_nbiot_decode_npusch]
    ([src/nbiot_enb/enb_ul_nbiot.c]) and [sonica_npusch_cfg]
    ([src/nbiot_phch/npusch.c]).  What an antenna receives in a subframe is an
    abstract signal; demodulation and turbo decoding are a parameter.  What is
    kept exactly: which subframes are collected for a block, what is handed to
    the decoder, where the result goes and what the MAC is told. *)
From S2P Require Import Prelude Tti RaNbiot SchedTypes Npdsch SfDl.

(** ** [srslte_ra_nbiot_ul_grant_to_nbits], format 1 *)
Record nbits_t := mk_nbits { nb_nof_symb : Z; nb_nof_re : Z; nb_nof_bits : Z }.
Definition srslte_ra_nbiot_ul_grant_to_nbits (g : ul_grant_t) : nbits_t :=
  let nof_re := u32 ((7 - 1) * ug_nof_slots g * ug_nof_sc g) in
  mk_nbits 7 nof_re (u32 (nof_re * ug_Qm g)).

Definition ul_grant_zero : ul_grant_t := mk_ul_grant 0 0 0 0 0 0 0 0 0 0 0.

(** What [srslte_ra_nbiot_ul_dci_to_grant] leaves in the grant when it fails. *)
Definition ul_dci_to_grant_failed (dci : ul_dci_t) (rx_tti : Z) : ul_grant_t :=
  match ul_sc_alloc (ul_i_sc dci) with
  | None => ul_grant_zero
  | Some (sc0, nof_sc) =>
      match arr_read n_ru_table_npusch (ul_i_ru dci), arr_read n_rep_table_npusch (ul_i_rep dci) with
      | Ok nof_ru, Ok nof_rep =>
          let g := ul_grant_zero <| ug_sc0 := sc0 |> <| ug_nof_sc := nof_sc |> <| ug_nof_ru := nof_ru |>
                     <| ug_nof_rep := nof_rep |> in
          if negb (nof_rep =? 1) then g else
          match arr_read k0_table_formatN0 (ul_i_delay dci) with
          | Ok k0 =>
              g <| ug_nof_slots := ul_nof_slots nof_sc * nof_ru |>
                <| ug_Qm := if nof_sc =? 1 then (if ul_i_mcs dci <=? 1 then 1 else 2) else 2 |>
                <| ug_rv_idx := 2 * (ul_i_rv dci mod 2) |> <| ug_k0 := k0 |>
                <| ug_tx_tti := u32 (rx_tti + k0 + 1) mod 10240 |> <| ug_mcs_idx := ul_i_mcs dci |>
          | _ => g
          end
      | _, _ => ul_grant_zero
      end
  end.

(** ** [sonica_npusch_cfg_t] *)
Record npusch_cfg_t := mk_npusch_cfg {
  uc_grant : ul_grant_t;
  uc_nbits : nbits_t;
  uc_is_encoded : bool;
  uc_sf_idx : Z;
  uc_rep_idx : Z;
  uc_num_sf : Z;
  uc_rnti : Z
}.
#[export] Instance eta_npusch_cfg_t : Eta npusch_cfg_t := {| eta := fun r =>
  mk_npusch_cfg (uc_grant r) (uc_nbits r) (uc_is_encoded r) (uc_sf_idx r) (uc_rep_idx r) (uc_num_sf r) (uc_rnti r) |}.

Definition npusch_cfg_zero : npusch_cfg_t := mk_npusch_cfg ul_grant_zero (mk_nbits 0 0 0) false 0 0 0 0.

(** Both pointers are given; [mcs.nof_bits] is the copy of [nbits.nof_bits]. *)
Definition sonica_npusch_cfg (grant : ul_grant_t) (rnti_ : Z) : npusch_cfg_t :=
  mk_npusch_cfg grant (srslte_ra_nbiot_ul_grant_to_nbits grant) false 0 0 0 rnti_.

Definition SONICA_NPUSCH_MAX_NOF_RU : Z := 10.
Definition SRSLTE_NBIOT_EXPECT_MORE_SF : Z := -3.

(** [dummy_data], [dummy_data2] and [dummy_data_bsr2] *)
Definition dummy_data : list Z := [0x00; 0x39; 0x2A; 0x53; 0x40; 0x14; 0x7B; 0x1C; 0x40; 0x00; 0x00].
Definition dummy_data2 : list Z := [
  0x3d; 0x23; 0x53; 0x1f; 0x00; 0xa0; 0x00; 0x10; 0x00; 0x26; 0x83; 0xa0; 0xb9; 0x04; 0x4c; 0x88;
  0x03; 0x80; 0x00; 0x20; 0x38; 0x02; 0x03; 0xf8; 0x38; 0x00; 0x00; 0x00; 0x42; 0x00; 0x00; 0x15;
  0x01; 0x00; 0xe8; 0x08; 0xe8; 0x93; 0x91; 0xc0; 0x40; 0x10; 0x88; 0x00; 0x80; 0x00; 0x08; 0x40;
  0x83; 0x00; 0x00; 0x00; 0x00; 0x41; 0x83; 0x00; 0x00; 0x00; 0x00; 0x00; 0x06; 0x80; 0x00; 0x05;
  0x00; 0x00; 0x02; 0x80; 0x00; 0x08; 0x00; 0x00; 0x08; 0x80; 0x18; 0x81; 0xf2; 0xf0; 0x1a; 0x48;
  0x08; 0x81; 0xab; 0xac; 0x53; 0x7a; 0xe0; 0x80] ++ replicate 37 0x00.
Definition dummy_data_bsr2 : list Z :=
  [0x3B; 0x3D; 0x23; 0x02; 0x03; 0x10; 0x5F; 0x09; 0x00; 0x04; 0x88; 0x01; 0x30; 0x0B; 0x00].

(** ** What the worker does to the stack, in order *)
Inductive ul_event {P : Type} :=
| Ue_write (p : P) (bytes : list Z)
| Ue_crc_info (tti rnti_ len : Z) (crc : bool).
Arguments ul_event : clear implicits.

Section Receiver.
(** Pointers into the stack, and what an antenna receives in a subframe. *)
Context {P Sig : Type}.

(** [sonica_enb_ul_nbiot_t]: [sf_buffer] and [ce_buffer] hold a subframe each. *)
Record enb_ul_t := mk_enb_ul { eu_cfg : npusch_cfg_t; eu_has_ul_grant : bool; eu_sf_buffer : list (option Sig) }.

Definition enb_ul_new : enb_ul_t :=
  mk_enb_ul npusch_cfg_zero false (replicate (Z.to_nat SONICA_NPUSCH_MAX_NOF_RU) None).

(** The members [work_ul] and the recording of a grant use; [uw_msg_counter] is
    the file's static variable.  Start, RNTI and data are read only after they
    have been set. *)
Record ul_worker := mk_ul_worker {
  uw_enb : enb_ul_t;
  uw_start : Z;
  uw_rnti : Z;
  uw_data : option P;
  uw_ugrant : ul_grant_t;
  uw_has_ugrant : bool;
  uw_msg_counter : Z
}.
Definition ul_worker_new : ul_worker := mk_ul_worker enb_ul_new 0 0 None ul_grant_zero false 0.
End Receiver.
Arguments enb_ul_t : clear implicits.
Arguments ul_worker : clear implicits.

#[export] Instance eta_enb_ul_t {Sig} : Eta (enb_ul_t Sig) := {| eta := fun q =>
  mk_enb_ul (eu_cfg q) (eu_has_ul_grant q) (eu_sf_buffer q) |}.
#[export] Instance eta_ul_worker {P Sig} : Eta (ul_worker P Sig) := {| eta := fun w =>
  mk_ul_worker (uw_enb w) (uw_start w) (uw_rnti w) (uw_data w) (uw_ugrant w) (uw_has_ugrant w) (uw_msg_counter w) |}.

Section Decode.
Context {P Sig : Type}.
(** The signal processing of [sonica_npusch_decode]: the bytes it writes, or
    nothing when the block does not pass. *)
Context (npusch_decode : npusch_cfg_t -> list (option Sig) -> option (list Z)).

Definition sonica_enb_ul_nbiot_cfg_grant (q : enb_ul_t Sig) (grant : ul_grant_t) (rnti_ : Z) : enb_ul_t Sig :=
  q <| eu_cfg := sonica_npusch_cfg grant rnti_ |> <| eu_has_ul_grant := true |>.

(** The code's result, the receiver and the bytes written to the block's buffer.
    The decoder gets the subframes of the buffer that the grant counts. *)
Definition sonica_enb_ul_nbiot_decode_npusch (q : enb_ul_t Sig) (input : Sig) (data : option P) :
    res (Z * enb_ul_t Sig * list (ul_event P)) :=
  if negb (eu_has_ul_grant q) then Ok (SRSLTE_ERROR_INVALID_INPUTS, q, []) else
  let cfg := eu_cfg q in
  let cfg_sf := ug_nof_slots (uc_grant cfg) / 2 in
  if uc_num_sf cfg >=? cfg_sf then Ok (SRSLTE_ERROR_INVALID_INPUTS, q, []) else
  buf ← arr_write (eu_sf_buffer q) (uc_sf_idx cfg) (Some input);
  let cfg := cfg <| uc_num_sf := u32 (uc_num_sf cfg + 1) |> <| uc_sf_idx := u32 (uc_sf_idx cfg + 1) |> in
  let q := q <| eu_cfg := cfg |> <| eu_sf_buffer := buf |> in
  if uc_num_sf cfg =? u32 (cfg_sf * ug_nof_rep (uc_grant cfg)) then
    let '(ret, ev) :=
      match data with
      | None => (SRSLTE_ERROR, [])
      | Some p =>
          match npusch_decode cfg (take (Z.to_nat cfg_sf) buf) with
          | Some bytes => (SRSLTE_SUCCESS, [Ue_write p bytes])
          | None => (SRSLTE_ERROR, [])
          end
      end in
    Ok (ret, q <| eu_has_ul_grant := false |>, ev)
  else Ok (SRSLTE_NBIOT_EXPECT_MORE_SF, q, []).

(** [memcpy(npusch_data, ...)] *)
Definition write_dummy (data : option P) (bytes : list Z) : res (list (ul_event P)) :=
  match data with Some p => Ok [Ue_write p bytes] | None => UB NullDeref end.

(** What the MAC is told of the outcome [ret]. *)
Definition work_ul_report (w : ul_worker P Sig) (ret len : Z) : res (ul_worker P Sig * list (ul_event P)) :=
  if ret =? SRSLTE_SUCCESS then Ok (w, [Ue_crc_info (uw_start w) (uw_rnti w) len true])
  else if ret =? -1 then
    if len =? 11 then
      ev ← write_dummy (uw_data w) dummy_data; Ok (w, ev ++ [Ue_crc_info (uw_start w) (uw_rnti w) 11 true])
    else if len =? 125 then
      ev ← write_dummy (uw_data w) dummy_data2; Ok (w, ev ++ [Ue_crc_info (uw_start w) (uw_rnti w) 125 true])
    else if uw_msg_counter w =? 0 then
      ev ← write_dummy (uw_data w) dummy_data_bsr2;
      Ok (w <| uw_msg_counter := u32 (uw_msg_counter w + 1) |>, ev ++ [Ue_crc_info (uw_start w) (uw_rnti w) 15 true])
    else Ok (w, [Ue_crc_info (uw_start w) (uw_rnti w) len false])
  else Ok (w, []).

(** The recorded grant, when its subframe has come. *)
Definition work_ul_start (w : ul_worker P Sig) (tti_rx_ : Z) : ul_worker P Sig :=
  if uw_has_ugrant w && (tti_rx_ =? uw_start w)
  then w <| uw_enb := sonica_enb_ul_nbiot_cfg_grant (uw_enb w) (uw_ugrant w) (uw_rnti w) |>
  else w.

(** The active reception. *)
Definition work_ul_active (w : ul_worker P Sig) (input : Sig) : res (ul_worker P Sig * list (ul_event P)) :=
  if eu_has_ul_grant (uw_enb w) then
    '(ret, q, ev1) ← sonica_enb_ul_nbiot_decode_npusch (uw_enb w) input (uw_data w);
    let w := w <| uw_enb := q |> in
    let len := ug_tbs (uc_grant (eu_cfg q)) / 8 in
    '(w, ev2) ← work_ul_report w ret len;
    Ok (if (ret =? SRSLTE_SUCCESS) || (ret =? -1) then w <| uw_has_ugrant := false |> else w, ev1 ++ ev2)
  else Ok (w, []).

Definition work_ul (w : ul_worker P Sig) (tti_rx_ : Z) (input : Sig) : res (ul_worker P Sig * list (ul_event P)) :=
  work_ul_active (work_ul_start w tti_rx_) input.

(** The recording of an uplink grant in [work_imp]: the first grant of the list,
    as the receiver of the DCI would understand it. *)
Definition record_ul_grant (w : ul_worker P Sig) (tti_tx_dl_ : Z) (ul_grants_tx : list (phy_ul_grant P)) :
    res (ul_worker P Sig) :=
  match ul_grants_tx with
  | [] => Ok w
  | u :: _ =>
      g ← srslte_ra_nbiot_ul_dci_to_grant (pu_dci u) tti_tx_dl_;
      Ok match g with
         | None => w <| uw_ugrant := ul_dci_to_grant_failed (pu_dci u) tti_tx_dl_ |>
         | Some g =>
             w <| uw_ugrant := g |> <| uw_rnti := ul_rnti (pu_dci u) |> <| uw_start := ug_tx_tti g |>
               <| uw_data := pu_data u |> <| uw_has_ugrant := true |>
         end
  end.
End Decode.

(** ** Runs *)

(** One subframe: its number, what is received in it and the grants that the
    scheduler gives in it for a later one. *)
Record ul_input {P Sig : Type} := mk_ul_input { ui_tti : Z; ui_sig : Sig; ui_grants : list (phy_ul_grant P) }.
Arguments ul_input : clear implicits.

Section Run.
Context {P Sig : Type} (dec : npusch_cfg_t -> list (option Sig) -> option (list Z)).

Definition ul_step (w : ul_worker P Sig) (i : ul_input P Sig) : res (ul_worker P Sig * list (ul_event P)) :=
  w ← record_ul_grant w (TTI_ADD (ui_tti i) FDD_HARQ_DELAY_UL_MS) (ui_grants i);
  work_ul dec w (ui_tti i) (ui_sig i).

Fixpoint ul_run (w : ul_worker P Sig) (l : list (ul_input P Sig)) : res (ul_worker P Sig * list (Z * ul_event P)) :=
  match l with
  | [] => Ok (w, [])
  | i :: l' =>
      '(w, ev) ← ul_step w i;
      '(w, evs) ← ul_run w l';
      Ok (w, ((ui_tti i,.) <$> ev) ++ evs)
  end.

(** ** Reception of one block *)

(** The state of a reception of which the subframes [sigs] have been collected. *)
Record receiving (g : ul_grant_t) (r : Z) (sigs : list Sig) (w : ul_worker P Sig) : Prop := mk_receiving {
  rc_on : eu_has_ul_grant (uw_enb w) = true;
  rc_cfg : eu_cfg (uw_enb w) = (sonica_npusch_cfg g r) <| uc_num_sf := Z.of_nat (length sigs) |> <| uc_sf_idx := Z.of_nat (length sigs) |>;
  rc_len : length (eu_sf_buffer (uw_enb w)) = 10%nat;
  rc_buf : take (length sigs) (eu_sf_buffer (uw_enb w)) = Some <$> sigs
}.

(** The subframes of a block that fit the receiver's buffer. *)
Record ul_grant_ok (g : ul_grant_t) : Prop := mk_ul_grant_ok {
  uo_sf : 1 <= ug_nof_slots g / 2 <= 10;
  uo_rep : ug_nof_rep g = 1
}.

Definition ul_sf (g : ul_grant_t) : nat := Z.to_nat (ug_nof_slots g / 2).

(** What the MAC is told and what is left in the block's buffer. *)
Definition ul_outcome (p : P) (start r len counter : Z) (decoded : option (list Z)) : list (ul_event P) :=
  match decoded with
  | Some bytes => [Ue_write p bytes; Ue_crc_info start r len true]
  | None =>
      if len =? 11 then [Ue_write p dummy_data; Ue_crc_info start r 11 true]
      else if len =? 125 then [Ue_write p dummy_data2; Ue_crc_info start r 125 true]
      else if counter =? 0 then [Ue_write p dummy_data_bsr2; Ue_crc_info start r 15 true]
      else [Ue_crc_info start r len false]
  end.

Definition full_cfg (g : ul_grant_t) (r : Z) : npusch_cfg_t :=
  (sonica_npusch_cfg g r) <| uc_num_sf := Z.of_nat (ul_sf g) |> <| uc_sf_idx := Z.of_nat (ul_sf g) |>.

Lemma take_insert_last {A} (l : list A) n x : (n < length l)%nat -> take (S n) (<[n := x]> l) = take n l ++ [x].
Proof.
  intros H. rewrite (take_S_r _ n x) by (apply list_lookup_insert_eq; done). by rewrite take_insert_ge by lia.
Qed.

(** What a step leaves alone. *)
Definition same_grant (w w' : ul_worker P Sig) : Prop :=
  uw_start w' = uw_start w /\ uw_rnti w' = uw_rnti w /\ uw_data w' = uw_data w /\ uw_ugrant w' = uw_ugrant w.

Definition not_starting (w : ul_worker P Sig) (t : Z) : Prop := uw_has_ugrant w = true -> t <> uw_start w.

Lemma work_ul_not_starting w t : not_starting w t -> work_ul_start w t = w.
Proof.
  intros Hn. unfold work_ul_start. destruct (uw_has_ugrant w) eqn:E; [|done]. cbn.
  by replace (t =? uw_start w) with false by (specialize (Hn E); lia).
Qed.

Lemma work_ul_quiet w t s : not_starting w t -> eu_has_ul_grant (uw_enb w) = false -> work_ul dec w t s = Ok (w, []).
Proof.
  intros Hn Hq. unfold work_ul. rewrite work_ul_not_starting by done. unfold work_ul_active. by rewrite Hq.
Qed.

(** One subframe of a reception: one more in the buffer, and after the last one
    the decoder's result. *)
Lemma receiving_decode g r sigs w s : ul_grant_ok g -> (length sigs < ul_sf g)%nat -> receiving g r sigs w ->
  exists buf, length buf = 10%nat /\ take (length sigs + 1) buf = Some <$> sigs ++ [s] /\
  sonica_enb_ul_nbiot_decode_npusch dec (uw_enb w) s (uw_data w) =
  if (length sigs + 1 =? ul_sf g)%nat then
    let '(ret, ev) :=
      match uw_data w with
      | None => (SRSLTE_ERROR, [])
      | Some p => match dec (full_cfg g r) (Some <$> sigs ++ [s]) with
                  | Some bytes => (SRSLTE_SUCCESS, [Ue_write p bytes]) | None => (SRSLTE_ERROR, []) end
      end in
    Ok (ret, mk_enb_ul (full_cfg g r) false buf, ev)
  else Ok (SRSLTE_NBIOT_EXPECT_MORE_SF,
    mk_enb_ul ((sonica_npusch_cfg g r) <| uc_num_sf := Z.of_nat (length sigs) + 1 |> <| uc_sf_idx := Z.of_nat (length sigs) + 1 |>) true buf, []).
Proof.
  intros [Hsf Hrep] Hlt [Hon Hcfg Hlen Hbuf]. unfold ul_sf in *. set (j := length sigs) in *.
  exists (<[j := Some s]> (eu_sf_buffer (uw_enb w))). rewrite length_insert. split; [done|].
  assert (Htake : take (j + 1) (<[j:=Some s]> (eu_sf_buffer (uw_enb w))) = Some <$> sigs ++ [s]).
  { rewrite Nat.add_1_r, take_insert_last, Hbuf, fmap_app by lia. done. }
  split; [done|]. unfold sonica_enb_ul_nbiot_decode_npusch. rewrite Hon, Hcfg. cbn [negb].
  cbn [upd eta eta_npusch_cfg_t sonica_npusch_cfg uc_grant uc_num_sf uc_sf_idx].
  replace (Z.of_nat j >=? ug_nof_slots g / 2) with false by lia.
  rewrite arr_write_in by lia. rewrite bind_ok_l. rewrite Nat2Z.id, !(u32_id (Z.of_nat j + 1)) by lia.
  rewrite Hrep, Z.mul_1_r, (u32_id (ug_nof_slots g / 2)) by lia.
  destruct (Nat.eqb_spec (j + 1) (Z.to_nat (ug_nof_slots g / 2))) as [Hl|Hl].
  - replace (Z.of_nat j + 1 =? ug_nof_slots g / 2) with true by lia.
    replace (Z.to_nat (ug_nof_slots g / 2)) with (j + 1)%nat by lia. rewrite Htake.
    assert (Ecfg : mk_npusch_cfg g (srslte_ra_nbiot_ul_grant_to_nbits g) false (Z.of_nat j + 1) 0 (Z.of_nat j + 1) r = full_cfg g r)
      by (unfold full_cfg, ul_sf; cbn; f_equal; lia).
    cbn. rewrite Ecfg. done.
  - replace (Z.of_nat j + 1 =? ug_nof_slots g / 2) with false by lia. cbn. by rewrite Hon.
Qed.

(** In the middle of a reception nothing is said. *)
Lemma receiving_more g r sigs w s : ul_grant_ok g -> (length sigs + 1 < ul_sf g)%nat -> receiving g r sigs w ->
  exists w', work_ul_active dec w s = Ok (w', []) /\ receiving g r (sigs ++ [s]) w' /\
    same_grant w w' /\ uw_has_ugrant w' = uw_has_ugrant w /\ uw_msg_counter w' = uw_msg_counter w.
Proof.
  intros Hg Hlt Hr. destruct (receiving_decode g r sigs w s Hg ltac:(lia) Hr) as (b & Hb & Ht & E).
  destruct (Nat.eqb_spec (length sigs + 1) (ul_sf g)); [lia|]. unfold work_ul_active. rewrite (rc_on _ _ _ _ Hr), E.
  cbn. eexists. split; [reflexivity|]. split_and!; try done. split; cbn; rewrite ?length_app; cbn; [done| |done|done].
  do 2 f_equal; lia.
Qed.

(** The last subframe. *)
Lemma receiving_last g r sigs p w s : ul_grant_ok g -> (length sigs + 1 = ul_sf g)%nat -> receiving g r sigs w ->
  uw_data w = Some p ->
  exists w', work_ul_active dec w s = Ok (w',
      ul_outcome p (uw_start w) (uw_rnti w) (ug_tbs g / 8) (uw_msg_counter w) (dec (full_cfg g r) (Some <$> sigs ++ [s]))) /\
    eu_has_ul_grant (uw_enb w') = false /\ uw_has_ugrant w' = false.
Proof.
  intros Hg Hlt Hr Hd. destruct (receiving_decode g r sigs w s Hg ltac:(lia) Hr) as (b & Hb & Ht & E).
  destruct (Nat.eqb_spec (length sigs + 1) (ul_sf g)); [|lia]. unfold work_ul_active. rewrite (rc_on _ _ _ _ Hr), E, Hd.
  destruct (dec (full_cfg g r) (Some <$> sigs ++ [s])) as [bytes|]; cbn; [eexists; split; [reflexivity|done]|].
  unfold work_ul_report, ul_outcome. change (SRSLTE_ERROR =? SRSLTE_SUCCESS) with false. change (SRSLTE_ERROR =? -1) with true.
  cbn. rewrite ?Hd. cbn. repeat case_match; cbn; (eexists; split; [reflexivity|done]).
Qed.

(** The last subframe of a grant without a buffer, where a canned message is due. *)
Lemma receiving_null g r sigs w s : ul_grant_ok g -> (length sigs + 1 = ul_sf g)%nat -> receiving g r sigs w ->
  uw_data w = None -> ug_tbs g / 8 = 11 \/ ug_tbs g / 8 = 125 \/ uw_msg_counter w = 0 ->
  work_ul_active dec w s = UB NullDeref.
Proof.
  intros Hg Hlt Hr Hd Hc. destruct (receiving_decode g r sigs w s Hg ltac:(lia) Hr) as (b & Hb & Ht & E).
  destruct (Nat.eqb_spec (length sigs + 1) (ul_sf g)); [|lia]. unfold work_ul_active. rewrite (rc_on _ _ _ _ Hr), E, Hd.
  cbn. unfold work_ul_report. cbn. rewrite ?Hd. cbn.
  destruct (Z.eqb_spec (ug_tbs g / 8) 11); [done|]. destruct (Z.eqb_spec (ug_tbs g / 8) 125); [done|].
  destruct (Z.eqb_spec (uw_msg_counter w) 0); [done|]. lia.
Qed.

(** Without a new grant a step is [work_ul]. *)
Lemma ul_step_no_grant w i : ui_grants i = [] -> ul_step w i = work_ul dec w (ui_tti i) (ui_sig i).
Proof. intros H. unfold ul_step. rewrite H. done. Qed.

Definition quiet (w : ul_worker P Sig) (l : list (ul_input P Sig)) : Prop :=
  forall i, i ∈ l -> ui_grants i = [] /\ not_starting w (ui_tti i).

Lemma quiet_cons w i l : quiet w (i :: l) -> (ui_grants i = [] /\ not_starting w (ui_tti i)) /\ quiet w l.
Proof. intros H. split; [apply H, list_elem_of_here|]. intros j Hj. apply H. by apply list_elem_of_further. Qed.

Lemma quiet_same w w' l : uw_start w' = uw_start w -> (uw_has_ugrant w' = true -> uw_has_ugrant w = true) ->
  quiet w l -> quiet w' l.
Proof.
  intros E1 E2 H i Hi. destruct (H i Hi) as [Hg Hn]. split; [done|]. intros Hh. rewrite E1. by apply Hn, E2.
Qed.

Lemma ul_idle_run w l : eu_has_ul_grant (uw_enb w) = false -> quiet w l -> ul_run w l = Ok (w, []).
Proof.
  intros Hq. induction l as [|i l IH]; intros Hl; [done|]. apply quiet_cons in Hl as [[Hg Hn] Hl]. cbn [ul_run].
  rewrite ul_step_no_grant, work_ul_quiet by done. rewrite bind_ok_l, (IH Hl). done.
Qed.

Lemma ul_run_app w l1 l2 :
  ul_run w (l1 ++ l2) = ('(w1, e1) ← ul_run w l1; '(w2, e2) ← ul_run w1 l2; Ok (w2, e1 ++ e2)).
Proof.
  revert w; induction l1 as [|i l1 IH]; intros w; cbn [app ul_run].
  - cbn [mbind res_bind]. destruct (ul_run w l2) as [[? ?]| |]; done.
  - destruct (ul_step w i) as [[w1 ev]| |]; cbn [mbind res_bind]; [|done|done]. rewrite IH.
    destruct (ul_run w1 l1) as [[w2 e2]| |]; cbn [mbind res_bind]; [|done|done].
    destruct (ul_run w2 l2) as [[w3 e3]| |]; cbn [mbind res_bind]; [|done|done]. by rewrite app_assoc.
Qed.

(** A reception up to before its end. *)
Lemma receiving_run g r w sigs l : ul_grant_ok g -> receiving g r sigs w -> quiet w l ->
  (length sigs + length l < ul_sf g)%nat ->
  exists w', ul_run w l = Ok (w', []) /\ receiving g r (sigs ++ (ui_sig <$> l)) w' /\ same_grant w w' /\
    uw_has_ugrant w' = uw_has_ugrant w /\ uw_msg_counter w' = uw_msg_counter w.
Proof.
  intros Hg. revert w sigs; induction l as [|x l IH]; intros w sigs Hr Hq Hlen; cbn [ul_run].
  - exists w. rewrite app_nil_r. done.
  - apply quiet_cons in Hq as [[Hng Hns] Hq]. cbn in Hlen. rewrite ul_step_no_grant by done.
    unfold work_ul. rewrite work_ul_not_starting by done.
    destruct (receiving_more g r sigs w (ui_sig x) Hg ltac:(lia) Hr) as (w1 & -> & Hr1 & (E1 & E2 & E3 & E0) & E4 & E5).
    rewrite bind_ok_l. cbn [mbind res_bind].
    destruct (IH w1 (sigs ++ [ui_sig x])) as (w' & -> & Hr' & (F1 & F2 & F3 & F0) & F4 & F5); [done| |rewrite length_app; cbn; lia|].
    { apply (quiet_same w); [done|by rewrite E4|done]. }
    exists w'. cbn [mbind res_bind fmap list_fmap app]. rewrite <- app_assoc in Hr'. unfold same_grant.
    split_and!; (done || congruence).
Qed.

Lemma ul_grant_spec dci rx g : srslte_ra_nbiot_ul_dci_to_grant dci rx = Ok (Some g) -> ul_i_sc dci = 18 ->
  ul_grant_ok g /\ 0 <= ug_tbs g /\ 8 <= ug_k0 g <= 64 /\ ug_tx_tti g = u32 (rx + ug_k0 g + 1) mod 10240.
Proof.
  intros H Hsc. unfold srslte_ra_nbiot_ul_dci_to_grant in H. rewrite Hsc in H. cbn in H.
  apply bind_Ok in H as (ru & Eru & H). apply bind_Ok in H as (rep & Erep & H).
  destruct (Z.eqb_spec rep 1) as [->|]; [cbn in H|done].
  apply bind_Ok in H as (tbs & Et & H). apply bind_Ok in H as (k0 & Ek & H).
  destruct (Z.ltb_spec tbs 0); [done|]. injection H as <-. cbn.
  assert (Hru : ru ∈ n_ru_table_npusch).
  { unfold arr_read in Eru. destruct (in_bounds _ _); [|done]. destruct (_ !! _) eqn:E; [|done]. injection Eru as <-.
    by apply list_elem_of_lookup_2 in E. }
  assert (Hk : k0 ∈ k0_table_formatN0).
  { unfold arr_read in Ek. destruct (in_bounds _ _); [|done]. destruct (_ !! _) eqn:E; [|done]. injection Ek as <-.
    by apply list_elem_of_lookup_2 in E. }
  unfold n_ru_table_npusch, k0_table_formatN0 in *. set_unfold. split_and!; try lia. split; cbn; [|done].
  change (ul_nof_slots 12) with 2. rewrite Z.mul_comm, Z.div_mul by lia. lia.
Qed.

(** Subframes in sequence, after [t]. *)
Definition after (t : Z) (l : list (ul_input P Sig)) : Prop :=
  forall j i, l !! j = Some i -> ui_tti i = (t + 1 + Z.of_nat j) mod 10240.

(** The step that records a grant; nothing is received in it but what was being
    received. *)
Lemma recorded_step w i u g t : is_tti t -> ui_tti i = t -> head (ui_grants i) = Some u ->
  srslte_ra_nbiot_ul_dci_to_grant (pu_dci u) (TTI_ADD t FDD_HARQ_DELAY_UL_MS) = Ok (Some g) -> ul_i_sc (pu_dci u) = 18 ->
  let w1 := w <| uw_ugrant := g |> <| uw_rnti := ul_rnti (pu_dci u) |> <| uw_start := ug_tx_tti g |>
               <| uw_data := pu_data u |> <| uw_has_ugrant := true |> in
  ug_tx_tti g = (t + 5 + ug_k0 g) mod 10240 /\ ul_step w i = work_ul_active dec w1 (ui_sig i).
Proof.
  intros Ht Hi Hh Hg Hsc w1. unfold is_tti in *.
  destruct (ul_grant_spec _ _ _ Hg Hsc) as (_ & _ & Hk & Etx).
  assert (Es : ug_tx_tti g = (t + 5 + ug_k0 g) mod 10240).
  { rewrite Etx. unfold TTI_ADD, FDD_HARQ_DELAY_UL_MS. rewrite (u32_id (t + 4)) by lia. rewrite u32_id by dlia. dlia. }
  split; [done|]. unfold ul_step, record_ul_grant. rewrite Hi. destruct (ui_grants i) as [|u' rest]; [done|].
  injection Hh as ->. rewrite Hg. cbn [mbind res_bind]. fold w1. unfold work_ul. rewrite work_ul_not_starting; [done|].
  intros _. cbn. rewrite Es. dlia.
Qed.

(** From a grant up to the last subframe of its block: the worker waits, starts
    where the DCI says and collects. *)
Lemma listen w0 i0 l i t u g :
  eu_has_ul_grant (uw_enb w0) = false -> length (eu_sf_buffer (uw_enb w0)) = 10%nat ->
  is_tti t -> ui_tti i0 = t -> head (ui_grants i0) = Some u -> ul_i_sc (pu_dci u) = 18 ->
  srslte_ra_nbiot_ul_dci_to_grant (pu_dci u) (TTI_ADD t FDD_HARQ_DELAY_UL_MS) = Ok (Some g) ->
  after t (l ++ [i]) -> (forall x, x ∈ l ++ [i] -> ui_grants x = []) ->
  let wait := Z.to_nat (4 + ug_k0 g) in
  (length l + 1 = wait + ul_sf g)%nat ->
  exists w ws, ul_run w0 (i0 :: l) = Ok (w, []) /\ ws = work_ul_start w (ui_tti i) /\
    receiving g (ul_rnti (pu_dci u)) (ui_sig <$> drop wait l) ws /\
    uw_start ws = (t + 5 + ug_k0 g) mod 10240 /\ uw_rnti ws = ul_rnti (pu_dci u) /\ uw_data ws = pu_data u /\
    uw_msg_counter ws = uw_msg_counter w0.
Proof.
  intros Hoff Hbuf Ht Hi Hh Hsc Hg Hl Hq wait Hlen.
  destruct (ul_grant_spec _ _ _ Hg Hsc) as (Hok & _ & Hk & _). pose proof (uo_sf g Hok) as Hsf. unfold is_tti in Ht.
  destruct (recorded_step w0 i0 u g t Ht Hi Hh Hg Hsc) as [Es Estep]. set (w1 := upd _ _ _) in Estep.
  assert (E0 : ul_step w0 i0 = Ok (w1, [])).
  { rewrite Estep. unfold work_ul_active. by replace (eu_has_ul_grant (uw_enb w1)) with false by (symmetry; exact Hoff). }
  set (l1 := take wait (l ++ [i])). set (l2 := drop wait (l ++ [i])).
  assert (Hl2 : forall j x, l2 !! j = Some x -> ui_tti x = (t + 5 + ug_k0 g + Z.of_nat j) mod 10240).
  { intros j x Hj. unfold l2 in Hj. rewrite lookup_drop in Hj. rewrite (Hl _ _ Hj). f_equal. unfold wait. lia. }
  assert (Hg12 : forall x, x ∈ l1 \/ x ∈ l2 -> ui_grants x = []).
  { intros x Hx. apply Hq. rewrite <- (take_drop wait (l ++ [i])), elem_of_app. exact Hx. }
  assert (E1 : ul_run w1 l1 = Ok (w1, [])).
  { apply ul_idle_run; [exact Hoff|]. intros x Hin. split; [apply Hg12; by left|]. intros _.
    apply list_elem_of_lookup in Hin as [j Hj]. pose proof (lookup_lt_Some _ _ _ Hj) as Hlt.
    unfold l1 in Hj, Hlt. rewrite length_take in Hlt. rewrite lookup_take_lt in Hj by lia.
    rewrite (Hl _ _ Hj). cbn. rewrite Es. unfold wait in Hlt. dlia. }
  assert (Hwl : (wait <= length l)%nat) by (unfold ul_sf in Hlen; lia).
  assert (El : l = l1 ++ drop wait l) by (unfold l1; by rewrite take_app_le, take_drop by lia).
  assert (El2 : l2 = drop wait l ++ [i]) by (unfold l2; by rewrite drop_app_le by lia).
  assert (Hlend : (length (drop wait l) + 1 = ul_sf g)%nat) by (rewrite length_drop; lia).
  set (ws0 := w1 <| uw_enb := sonica_enb_ul_nbiot_cfg_grant (uw_enb w1) g (ul_rnti (pu_dci u)) |>).
  assert (Hrs : receiving g (ul_rnti (pu_dci u)) [] ws0) by (split; [reflexivity|reflexivity|exact Hbuf|reflexivity]).
  assert (Hst : forall x, l2 !! 0%nat = Some x -> work_ul_start w1 (ui_tti x) = ws0).
  { intros x Hx. unfold work_ul_start. rewrite (Hl2 0%nat x Hx), Z.add_0_r. cbn. rewrite Es. by rewrite Z.eqb_refl. }
  cbn [ul_run]. rewrite E0, bind_ok_l, El, ul_run_app, E1, bind_ok_l. rewrite <- El. rewrite El2 in Hst, Hl2, Hg12.
  destruct (drop wait l) as [|i2 l3].
  - exists w1, ws0. rewrite Hst by done. split_and!; try done.
  - cbn [ul_run length] in *. rewrite ul_step_no_grant by (apply Hg12; right; apply list_elem_of_here).
    unfold work_ul. rewrite Hst by done.
    destruct (receiving_more g _ [] ws0 (ui_sig i2) Hok ltac:(cbn; lia) Hrs) as (w2 & -> & Hr2 & (E2 & E3 & E4 & _) & E5 & E6).
    rewrite bind_ok_l.
    assert (Hquiet : forall w, uw_start w = uw_start ws0 -> quiet w (l3 ++ [i])).
    { intros w Ew x Hin. split; [apply Hg12; right; by apply list_elem_of_further|]. intros _. rewrite Ew. cbn.
      apply list_elem_of_lookup in Hin as [j Hj]. rewrite (Hl2 (Datatypes.S j) x Hj), Es.
      pose proof (lookup_lt_Some _ _ _ Hj) as Hlt. rewrite length_app in Hlt. cbn in Hlt. unfold ul_sf in *. dlia. }
    destruct (receiving_run g _ w2 [ui_sig i2] l3 Hok Hr2) as (w & -> & Hr3 & (F2 & F3 & F4 & _) & F5 & F6).
    { intros x Hx. apply (Hquiet w2 E2). rewrite elem_of_app. by left. }
    { cbn. lia. }
    rewrite !bind_ok_l. exists w, w. split; [done|].
    rewrite work_ul_not_starting.
    + split_and!; [done|exact Hr3|..]; rewrite ?F2, ?F3, ?F4, ?F6, ?E2, ?E3, ?E4, ?E6; try done.
    + apply (Hquiet w); [congruence|]. rewrite elem_of_app. right. apply list_elem_of_here.
Qed.

(** From a grant to the report of its block. *)
Lemma reception w0 i0 l i t u g p :
  eu_has_ul_grant (uw_enb w0) = false -> length (eu_sf_buffer (uw_enb w0)) = 10%nat ->
  is_tti t -> ui_tti i0 = t -> head (ui_grants i0) = Some u -> pu_data u = Some p -> ul_i_sc (pu_dci u) = 18 ->
  srslte_ra_nbiot_ul_dci_to_grant (pu_dci u) (TTI_ADD t FDD_HARQ_DELAY_UL_MS) = Ok (Some g) ->
  after t (l ++ [i]) -> (forall x, x ∈ l ++ [i] -> ui_grants x = []) ->
  let wait := Z.to_nat (4 + ug_k0 g) in
  (length l + 1 = wait + ul_sf g)%nat ->
  let r := ul_rnti (pu_dci u) in
  let start := (t + 5 + ug_k0 g) mod 10240 in
  exists w', ul_run w0 (i0 :: l ++ [i]) = Ok (w', (ui_tti i,.) <$>
      ul_outcome p start r (ug_tbs g / 8) (uw_msg_counter w0)
        (dec (full_cfg g r) (Some <$> (ui_sig <$> drop wait l) ++ [ui_sig i]))) /\
    eu_has_ul_grant (uw_enb w') = false /\ uw_has_ugrant w' = false.
Proof.
  intros Hoff Hbuf Ht Hi Hh Hp Hsc Hg Hl Hq wait Hlen r start.
  destruct (listen w0 i0 l i t u g) as (w & ws & Hrun & Ews & Hr & E1 & E2 & E3 & E4); [done..|].
  destruct (ul_grant_spec _ _ _ Hg Hsc) as (Hok & _ & Hk & _). pose proof (uo_sf g Hok) as Hsf.
  rewrite app_comm_cons, ul_run_app, Hrun, bind_ok_l. cbn [ul_run].
  rewrite ul_step_no_grant by (apply Hq; rewrite elem_of_app; right; apply list_elem_of_here).
  unfold work_ul. rewrite <- Ews. destruct (receiving_last g r (ui_sig <$> drop wait l) p ws (ui_sig i) Hok) as (w' & -> & H1 & H2); [|done|by rewrite E3|].
  { rewrite length_fmap, length_drop. unfold wait, ul_sf in *. lia. }
  rewrite !bind_ok_l. exists w'. rewrite app_nil_r, E1, E2, E4. done.
Qed.

(** C7. An uplink block is received as it was scheduled.  When a grant with a
    buffer reaches a worker that is not receiving, and no other grant comes until
    its block is over, then the worker listens from the subframe the DCI announces,
    for as many subframes as the grant has, hands exactly these subframes to the
    decoder in their order, and says nothing to the MAC before the last of them.
    Then it leaves the decoded bytes in the grant's own buffer and reports them
    once, under the grant's start and RNTI.  A block that does not pass is reported
    as received, with a canned message in the buffer, if it has 11 or 125 bytes, or
    once in the worker's life if it has another length; any other is reported as
    lost ([ul_outcome]). *)
Theorem uplink_received w0 i0 l i t u g p :
  eu_has_ul_grant (uw_enb w0) = false -> length (eu_sf_buffer (uw_enb w0)) = 10%nat ->
  is_tti t -> ui_tti i0 = t -> head (ui_grants i0) = Some u -> pu_data u = Some p -> ul_i_sc (pu_dci u) = 18 ->
  srslte_ra_nbiot_ul_dci_to_grant (pu_dci u) (TTI_ADD t FDD_HARQ_DELAY_UL_MS) = Ok (Some g) ->
  after t (l ++ [i]) -> (forall x, x ∈ l ++ [i] -> ui_grants x = []) ->
  let wait := Z.to_nat (4 + ug_k0 g) in
  (length l + 1 = wait + ul_sf g)%nat ->
  let r := ul_rnti (pu_dci u) in
  let start := (t + 5 + ug_k0 g) mod 10240 in
  exists w', ul_run w0 (i0 :: l ++ [i]) = Ok (w', (ui_tti i,.) <$>
      ul_outcome p start r (ug_tbs g / 8) (uw_msg_counter w0)
        (dec (full_cfg g r) (Some <$> (ui_sig <$> drop wait l) ++ [ui_sig i]))) /\
    eu_has_ul_grant (uw_enb w') = false /\ uw_has_ugrant w' = false.
Proof. exact (reception w0 i0 l i t u g p). Qed.

(** A grant without a buffer brings the receiver down.  The MAC gives one
    when the buffer of the user's HARQ process is taken, which it is for good
    once a block has not been reported.  The worker listens as for any grant, and
    after the last subframe copies a canned message through the null pointer. *)
Theorem uplink_null_buffer w0 i0 l i t u g :
  eu_has_ul_grant (uw_enb w0) = false -> length (eu_sf_buffer (uw_enb w0)) = 10%nat ->
  is_tti t -> ui_tti i0 = t -> head (ui_grants i0) = Some u -> pu_data u = None -> ul_i_sc (pu_dci u) = 18 ->
  srslte_ra_nbiot_ul_dci_to_grant (pu_dci u) (TTI_ADD t FDD_HARQ_DELAY_UL_MS) = Ok (Some g) ->
  after t (l ++ [i]) -> (forall x, x ∈ l ++ [i] -> ui_grants x = []) ->
  (length l + 1 = Z.to_nat (4 + ug_k0 g) + ul_sf g)%nat ->
  ug_tbs g / 8 = 11 \/ ug_tbs g / 8 = 125 \/ uw_msg_counter w0 = 0 ->
  ul_run w0 (i0 :: l ++ [i]) = UB NullDeref.
Proof.
  intros Hoff Hbuf Ht Hi Hh Hp Hsc Hg Hl Hq Hlen Hc.
  destruct (listen w0 i0 l i t u g) as (w & ws & Hrun & Ews & Hr & E1 & E2 & E3 & E4); [done..|].
  destruct (ul_grant_spec _ _ _ Hg Hsc) as (Hok & _ & Hk & _). pose proof (uo_sf g Hok) as Hsf.
  rewrite app_comm_cons, ul_run_app, Hrun, bind_ok_l. cbn [ul_run].
  rewrite ul_step_no_grant by (apply Hq; rewrite elem_of_app; right; apply list_elem_of_here).
  unfold work_ul. rewrite <- Ews. rewrite (receiving_null g _ (ui_sig <$> drop (Z.to_nat (4 + ug_k0 g)) l) ws (ui_sig i) Hok ltac:(rewrite length_fmap, length_drop; unfold ul_sf in *; lia) Hr);
    [done|congruence|by rewrite E4].
Qed.

(** C39. A grant that arrives during the reception of another user's block ruins
    both: the first user's block is decoded as configured, but written to the
    second user's buffer and reported under the second user's start and RNTI,
    and the second user's own block is never listened to, however long the run
    goes on. *)
Theorem uplink_misattributed w0 ga ra sigs i0 l l' t u g p :
  ul_grant_ok ga -> receiving ga ra sigs w0 -> (length sigs + 1 + length l = ul_sf ga)%nat ->
  is_tti t -> ui_tti i0 = t -> head (ui_grants i0) = Some u -> pu_data u = Some p -> ul_i_sc (pu_dci u) = 18 ->
  srslte_ra_nbiot_ul_dci_to_grant (pu_dci u) (TTI_ADD t FDD_HARQ_DELAY_UL_MS) = Ok (Some g) ->
  after t l -> (forall i, i ∈ l ++ l' -> ui_grants i = []) ->
  let t_end := (t + Z.of_nat (length l)) mod 10240 in
  exists w', ul_run w0 (i0 :: l ++ l') = Ok (w', (t_end,.) <$>
      ul_outcome p ((t + 5 + ug_k0 g) mod 10240) (ul_rnti (pu_dci u)) (ug_tbs ga / 8) (uw_msg_counter w0)
        (dec (full_cfg ga ra) (Some <$> sigs ++ (ui_sig <$> i0 :: l)))) /\
    eu_has_ul_grant (uw_enb w') = false /\ uw_has_ugrant w' = false.
Proof.
  intros Ha [Hon Hcfg Hbl Hbuf] Hlen Ht Hi Hh Hp Hsc Hg Hl Hq t_end.
  destruct (ul_grant_spec _ _ _ Hg Hsc) as (_ & _ & Hk & _). pose proof (uo_sf ga Ha) as Hsf. unfold is_tti in Ht.
  destruct (recorded_step w0 i0 u g t Ht Hi Hh Hg Hsc) as [Es Estep]. set (w1 := upd _ _ _) in Estep.
  assert (Hr1 : receiving ga ra sigs w1) by (split; done).
  assert (Hdone : forall w, eu_has_ul_grant (uw_enb w) = false -> uw_has_ugrant w = false -> ul_run w l' = Ok (w, [])).
  { intros w H1 H2. apply ul_idle_run; [done|]. intros i Hin. split; [apply Hq; rewrite elem_of_app; by right|].
    intros H3. congruence. }
  cbn [ul_run]. rewrite Estep. destruct l as [|i l3 _] using rev_ind.
  - destruct (receiving_last ga ra sigs p w1 (ui_sig i0) Ha ltac:(cbn in Hlen; lia) Hr1 Hp) as (w' & -> & H2 & H3).
    rewrite bind_ok_l. cbn [app]. rewrite Hdone by done. cbn [mbind res_bind]. exists w'. rewrite app_nil_r, Hi.
    unfold t_end. cbn. rewrite Es, Z.add_0_r, (Z.mod_small t) by lia. done.
  - rewrite length_app in Hlen. cbn in Hlen.
    destruct (receiving_more ga ra sigs w1 (ui_sig i0) Ha ltac:(lia) Hr1) as (w2 & -> & Hr2 & (E1 & E2 & E3 & _) & E4 & E5).
    rewrite bind_ok_l, ul_run_app, ul_run_app.
    assert (Hquiet : forall w, uw_start w = uw_start w1 -> quiet w (l3 ++ [i])).
    { intros w Ew x Hin. split; [apply Hq; rewrite elem_of_app; by left|]. intros _. rewrite Ew. cbn.
      apply list_elem_of_lookup in Hin as [j Hj]. rewrite (Hl _ _ Hj), Es.
      pose proof (lookup_lt_Some _ _ _ Hj) as Hlt. rewrite length_app in Hlt. cbn in Hlt. unfold ul_sf in *. dlia. }
    destruct (receiving_run ga ra w2 (sigs ++ [ui_sig i0]) l3 Ha Hr2) as (w3 & -> & Hr3 & (F1 & F2 & F3 & _) & F4 & F5).
    { intros x Hx. apply (Hquiet w2 E1). rewrite elem_of_app. by left. }
    { rewrite length_app. cbn. lia. }
    rewrite bind_ok_l. cbn [ul_run].
    rewrite ul_step_no_grant by (apply Hq; rewrite !elem_of_app; left; right; apply list_elem_of_here).
    unfold work_ul. rewrite work_ul_not_starting by (apply (Hquiet w3); [congruence|]; rewrite elem_of_app; right; apply list_elem_of_here).
    destruct (receiving_last ga ra ((sigs ++ [ui_sig i0]) ++ (ui_sig <$> l3)) p w3 (ui_sig i) Ha) as (w' & -> & H2 & H3); [|done|by rewrite F3, E3|].
    { rewrite !length_app, length_fmap. cbn. lia. }
    rewrite !bind_ok_l, Hdone by done. cbn [mbind res_bind app]. exists w'. split; [|done].
    assert (Hend : ui_tti i = t_end).
    { rewrite (Hl (length l3) i) by (rewrite lookup_app_r, Nat.sub_diag by lia; done).
      unfold t_end. rewrite length_app. cbn. f_equal. lia. }
    rewrite Hend, F1, F2, F5, E1, E2, E5, !app_nil_r. cbn [w1 upd eta eta_ul_worker uw_start uw_rnti uw_msg_counter].
    rewrite Es, fmap_cons, (fmap_app ui_sig), <- !app_assoc. done.
Qed.
End Run.

(** ** Witnesses *)

(** A decoder that accepts what was sent to the user of the grant: signals are
    the numbers of the users that send. *)
Definition demo_decode (cfg : npusch_cfg_t) (sigs : list (option Z)) : option (list Z) :=
  if forallb (fun s => bool_decide (s = Some (uc_rnti cfg))) sigs then Some (replicate 25 (uc_rnti cfg)) else None.

Definition demo_ul_dci (r : Z) : ul_dci_t :=
  ul_dci_zero <| ul_i_sc := 18 |> <| ul_i_ru := 3 |> <| ul_i_mcs := 2 |> <| ul_rnti := r |>.
Definition demo_ul_grant (r t : Z) : ul_grant_t :=
  match srslte_ra_nbiot_ul_dci_to_grant (demo_ul_dci r) (TTI_ADD t 4) with Ok (Some g) => g | _ => ul_grant_zero end.
Definition demo_ul_input (s t : Z) : ul_input bool Z := mk_ul_input bool Z t s [].
Definition demo_ul_sched (r s t : Z) (p : bool) : ul_input bool Z :=
  mk_ul_input bool Z t s [mk_phy_ul_grant (demo_ul_dci r) (Some p) true].

Lemma after_range {P Sig} (f : Z -> ul_input P Sig) t n : (forall x, ui_tti (f x) = x) -> t + 1 + Z.of_nat n <= 10240 -> 0 <= t ->
  after t (f <$> range (t + 1) n).
Proof.
  intros Hf Hn Ht j i (x & -> & Hx)%list_lookup_fmap_Some. unfold range in Hx.
  apply list_lookup_fmap_Some in Hx as (k & -> & [-> Hk]%lookup_seq). rewrite Hf. rewrite Z.mod_small by lia. lia.
Qed.

Lemma uplink_received_witness :
  exists w', ul_run demo_decode ul_worker_new (demo_ul_sched 70 0 100 true :: (demo_ul_input 70 <$> range 101 15) ++ [demo_ul_input 70 116]) =
    Ok (w', [(116, Ue_write true (replicate 25 70)); (116, Ue_crc_info 113 70 22 true)]) /\
    eu_has_ul_grant (uw_enb w') = false /\ uw_has_ugrant w' = false.
Proof.
  exact (uplink_received demo_decode ul_worker_new (demo_ul_sched 70 0 100 true) (demo_ul_input 70 <$> range 101 15) (demo_ul_input 70 116) 100
    _ (demo_ul_grant 70 100) true eq_refl eq_refl ltac:(split; lia) eq_refl eq_refl eq_refl eq_refl eq_refl
    ltac:(by apply (after_range (demo_ul_input 70) 100 16))
    ltac:(intros i [(x & -> & _)%list_elem_of_fmap| ->%list_elem_of_singleton]%elem_of_app; done) eq_refl).
Defined.

Lemma uplink_null_buffer_witness :
  ul_run demo_decode ul_worker_new (mk_ul_input bool Z 100 0 [mk_phy_ul_grant (demo_ul_dci 70) None true] ::
    (demo_ul_input 70 <$> range 101 15) ++ [demo_ul_input 70 116]) = UB NullDeref.
Proof.
  exact (uplink_null_buffer demo_decode ul_worker_new (mk_ul_input bool Z 100 0 [mk_phy_ul_grant (demo_ul_dci 70) None true])
    (demo_ul_input 70 <$> range 101 15) (demo_ul_input 70 116) 100
    _ (demo_ul_grant 70 100) eq_refl eq_refl ltac:(split; lia) eq_refl eq_refl eq_refl eq_refl eq_refl
    ltac:(by apply (after_range (demo_ul_input 70) 100 16))
    ltac:(intros i [(x & -> & _)%list_elem_of_fmap| ->%list_elem_of_singleton]%elem_of_app; done) eq_refl ltac:(right; right; reflexivity)).
Defined.

(** The worker in the middle of the reception above. *)
Definition demo_ul_busy : ul_worker bool Z :=
  match ul_run demo_decode ul_worker_new (demo_ul_sched 70 0 100 true :: (demo_ul_input 70 <$> range 101 14)) with
  | Ok (w, _) => w | _ => ul_worker_new end.

Lemma uplink_misattributed_witness :
  exists w', ul_run demo_decode demo_ul_busy
      (demo_ul_sched 71 70 115 false :: [demo_ul_input 70 116] ++ (demo_ul_input 71 <$> range 117 100)) =
    Ok (w', [(116, Ue_write false (replicate 25 70)); (116, Ue_crc_info 128 71 22 true)]) /\
    eu_has_ul_grant (uw_enb w') = false /\ uw_has_ugrant w' = false.
Proof.
  refine (uplink_misattributed demo_decode demo_ul_busy (demo_ul_grant 70 100) 70 [70; 70] (demo_ul_sched 71 70 115 false)
    [demo_ul_input 70 116] (demo_ul_input 71 <$> range 117 100) 115 _ (demo_ul_grant 71 115) false
    _ _ eq_refl ltac:(split; lia) eq_refl eq_refl eq_refl eq_refl eq_refl _ _).
  - split; vm_compute; [split|]; done.
  - split; reflexivity.
  - by apply (after_range (demo_ul_input 70) 115 1).
  - intros i [->%list_elem_of_singleton|(x & -> & _)%list_elem_of_fmap]%elem_of_app; done.
Defined.
