(* ===== verification/Nprach.v ===== *)
(** * Random access detection

    [class nprach_worker] ([sonica_enb/phy/nprach_worker.cc],
    [hdr/phy/nprach_worker.h]) with its [buffer_pool]
    ([srslte/common/buffer_pool.h]): the receive thread copies the subframes of a
    preamble window into a buffer of the pool, the worker's own thread takes full
    buffers from a queue, runs the detector and gives the buffer back.  The two
    threads are interleaved step by step.  A subframe's samples are an abstract
    signal, the detector is a parameter. *)
From S2P Require Import Prelude Tti.

(** [SRSLTE_SF_LEN_PRB(1)] and [sf_buffer_sz]; a buffer holds eight subframes. *)
Definition SF_LEN : Z := 1920.
Definition sf_buffer_sz : Z := 8 * 1920.
Definition POOL : nat := 8.

Section Worker.
Context {Sig : Type}.

(** [sf_buffer], with [samples] cut into subframes. *)
Record sf_buffer := mk_sf_buffer { sb_samples : list (option Sig); sb_nof_samples : Z; sb_tti : Z }.
Definition sf_buffer_new : sf_buffer := mk_sf_buffer (replicate 8 None) 0 0.
Definition sf_buffer_reset (b : sf_buffer) : sf_buffer := mk_sf_buffer (sb_samples b) 0 0.

(** The members used; a pointer to a buffer is its number, [np_mem] what the
    buffers hold, [np_available] the pool's stack with its top first. *)
Record nprach := mk_nprach {
  np_mem : list sf_buffer;
  np_available : list nat;
  np_used : list nat;
  np_pending : list nat;
  np_current : option nat;
  np_sf_cnt : Z;
  np_emulate : bool
}.
Definition nprach_new (emulate : bool) : nprach :=
  mk_nprach (replicate POOL sf_buffer_new) (reverse (seq 0 POOL)) [] [] None 0 emulate.
End Worker.
Arguments sf_buffer : clear implicits.
Arguments nprach : clear implicits.
#[export] Instance eta_nprach {Sig} : Eta (nprach Sig) := {| eta := fun w =>
  mk_nprach (np_mem w) (np_available w) (np_used w) (np_pending w) (np_current w) (np_sf_cnt w) (np_emulate w) |}.

Section Operations.
Context {Sig : Type}.

(** [buffer_pool.allocate()]; null when the pool is empty. *)
Definition pool_allocate (w : nprach Sig) : option nat * nprach Sig :=
  match np_available w with
  | b :: rest => (Some b, w <| np_available := rest |> <| np_used := np_used w ++ [b] |>)
  | [] => (None, w)
  end.

(** [buffer_pool.deallocate(b)]; a buffer not in use is left alone. *)
Definition pool_deallocate (w : nprach Sig) (b : nat) : nprach Sig :=
  if bool_decide (b ∈ np_used w) then
    w <| np_used := match list_find (fun x => b = x) (np_used w) with Some (i, _) => delete i (np_used w) | None => np_used w end |>
      <| np_available := b :: np_available w |>
  else w.

(** One subframe into the buffer [b]: the guard counts samples, the copy goes by
    [sf_cnt]. *)
Definition fill_buffer (w : nprach Sig) (b : nat) (tti_rx_ : Z) (sig : Sig) : res (Z * nprach Sig) :=
  match np_mem w !! b with
  | None => UB DanglingPtr
  | Some m =>
      if sb_nof_samples m + SF_LEN <? sf_buffer_sz then
        samples ← arr_write (sb_samples m) (np_sf_cnt w) (Some sig);
        let m := mk_sf_buffer samples (u32 (sb_nof_samples m + SF_LEN)) (if np_sf_cnt w =? 0 then tti_rx_ else sb_tti m) in
        let w := w <| np_mem := <[b := m]> (np_mem w) |> <| np_sf_cnt := u32 (np_sf_cnt w + 1) |> in
        Ok (0, if np_sf_cnt w =? 7 then w <| np_sf_cnt := 0 |> <| np_pending := np_pending w ++ [b] |> else w)
      else Ok (-1, w)
  end.

Definition new_tti (w : nprach Sig) (tti_rx_ : Z) (sig : Sig) : res (Z * nprach Sig) :=
  if (tti_rx_ mod 160 =? 64) || negb (np_sf_cnt w =? 0) then
    let '(skip, w) :=
      if np_sf_cnt w =? 0 then
        let '(b, w) := pool_allocate w in
        (bool_decide (b = None), w <| np_current := b |>)
      else (false, w) in
    if skip : bool then Ok (0, w) else
    match np_current w with
    | None => Ok (-1, w)
    | Some b => fill_buffer w b tti_rx_ sig
    end
  else Ok (0, w).

(** The detector: the preamble it finds in the samples, if any. *)
Context (sonica_nprach_detect : list (option Sig) -> option Z).

(** The call of [rach_detected], if there is one. *)
Definition run_tti (emulate : bool) (b : sf_buffer Sig) : option (Z * Z * Z) :=
  let found := sonica_nprach_detect (take (Z.to_nat (sb_nof_samples b / SF_LEN)) (sb_samples b)) in
  if negb emulate then
    match found with Some index => Some (sb_tti b, index, 5) | None => None end
  else if sb_tti b =? 384 then Some (sb_tti b, 41, 5) else None.

(** [pending_buffers.wait_pop()] *)
Definition take_pending (w : nprach Sig) : option (nat * nprach Sig) :=
  match np_pending w with [] => None | b :: rest => Some (b, w <| np_pending := rest |>) end.

(** The rest of the loop of [run_thread]. *)
Definition finish_buffer (w : nprach Sig) (b : nat) : res (nprach Sig * option (Z * Z * Z)) :=
  match np_mem w !! b with
  | None => UB DanglingPtr
  | Some m =>
      let call := run_tti (np_emulate w) m in
      Ok (pool_deallocate (w <| np_mem := <[b := sf_buffer_reset m]> (np_mem w) |>) b, call)
  end.
End Operations.

(** ** The two threads *)
Section Threads.
Context {Sig : Type} (detect : list (option Sig) -> option Z).
(** What is on the air in the [n]th subframe after the start, and its number. *)
Context (air : Z -> Sig) (tti_of : Z -> Z).

(** The worker, the next subframe and the buffer the detector is working on. *)
Record np_sys := mk_np_sys { ns_w : nprach Sig; ns_n : Z; ns_busy : option nat }.

(** What a step lets others see: the result of [new_tti], the buffer given to the
    detector, the call it makes. *)
Inductive np_label :=
| Np_tti (ret : Z)
| Np_detect (b : sf_buffer Sig) (call : option (Z * Z * Z))
| Np_silent.

Inductive np_step : np_sys -> np_label -> np_sys -> Prop :=
| np_receive w n busy ret w' : new_tti w (tti_of n) (air n) = Ok (ret, w') ->
    np_step (mk_np_sys w n busy) (Np_tti ret) (mk_np_sys w' (n + 1) busy)
| np_take w n b w' : take_pending w = Some (b, w') ->
    np_step (mk_np_sys w n None) Np_silent (mk_np_sys w' n (Some b))
| np_finish w n b m w' call : np_mem w !! b = Some m -> finish_buffer detect w b = Ok (w', call) ->
    np_step (mk_np_sys w n (Some b)) (Np_detect m call) (mk_np_sys w' n None).

Inductive np_run : np_sys -> list np_label -> np_sys -> Prop :=
| np_nil s : np_run s [] s
| np_snoc s l t a u : np_run s l t -> np_step t a u -> np_run s (l ++ [a]) u.

(** *** What the two threads keep *)

Definition busy_list (o : option nat) : list nat := match o with Some b => [b] | None => [] end.

(** [j] subframes from the [n0]th on are in the buffer. *)
Record filled (m : sf_buffer Sig) (n0 j : Z) : Prop := mk_filled {
  fi_len : length (sb_samples m) = 8%nat;
  fi_count : sb_nof_samples m = j * SF_LEN;
  fi_tti : 0 < j -> sb_tti m = tti_of n0;
  fi_data : take (Z.to_nat j) (sb_samples m) = (fun k => Some (air k)) <$> range n0 (Z.to_nat j)
}.
Definition window (n0 : Z) : Prop := tti_of n0 mod 160 = 64.
Definition full_window (m : sf_buffer Sig) : Prop := exists n0, 0 <= n0 /\ window n0 /\ filled m n0 7.

Record np_inv (s : np_sys) : Prop := mk_np_inv {
  ni_n : 0 <= ns_n s;
  ni_pool : np_available (ns_w s) ++ np_used (ns_w s) ≡ₚ seq 0 POOL;
  ni_cnt : 0 <= np_sf_cnt (ns_w s) < 7;
  ni_used : np_used (ns_w s) ≡ₚ np_pending (ns_w s) ++ busy_list (ns_busy s) ++
              (if np_sf_cnt (ns_w s) =? 0 then [] else busy_list (np_current (ns_w s)));
  ni_mem : length (np_mem (ns_w s)) = POOL;
  ni_free : forall b m, b ∈ np_available (ns_w s) -> np_mem (ns_w s) !! b = Some m ->
              length (sb_samples m) = 8%nat /\ sb_nof_samples m = 0;
  ni_full : forall b m, b ∈ np_pending (ns_w s) ++ busy_list (ns_busy s) -> np_mem (ns_w s) !! b = Some m -> full_window m;
  ni_cur : np_sf_cnt (ns_w s) <> 0 -> exists b m, np_current (ns_w s) = Some b /\ np_mem (ns_w s) !! b = Some m /\
              np_sf_cnt (ns_w s) <= ns_n s /\
              window (ns_n s - np_sf_cnt (ns_w s)) /\ filled m (ns_n s - np_sf_cnt (ns_w s)) (np_sf_cnt (ns_w s))
}.

Lemma pool_member s b : np_inv s -> b ∈ np_available (ns_w s) ++ np_used (ns_w s) -> exists m, np_mem (ns_w s) !! b = Some m.
Proof.
  intros H Hb. rewrite (ni_pool s H) in Hb. apply elem_of_seq in Hb. apply lookup_lt_is_Some_2. rewrite (ni_mem s H). lia.
Qed.

Lemma pool_nodup s : np_inv s -> NoDup (np_available (ns_w s) ++ np_used (ns_w s)).
Proof. intros H. rewrite (ni_pool s H). apply NoDup_seq. Qed.

Lemma take_insert_next {A} (l : list A) n x : (n < length l)%nat -> take (S n) (<[n := x]> l) = take n l ++ [x].
Proof.
  intros H. rewrite (take_S_r _ n x) by (apply list_lookup_insert_eq; done). by rewrite take_insert_ge by lia.
Qed.

(** A subframe more in a buffer. *)
Lemma filled_next m n0 j samples : 0 <= j < 7 -> filled m n0 j ->
  arr_write (sb_samples m) j (Some (air (n0 + j))) = Ok samples ->
  filled (mk_sf_buffer samples (u32 (sb_nof_samples m + SF_LEN)) (if j =? 0 then tti_of n0 else sb_tti m)) n0 (j + 1).
Proof.
  intros Hj [Hl Hc Ht Hd] [Hb ->]%arr_write_Ok. split; cbn.
  - by rewrite length_insert.
  - rewrite Hc. unfold SF_LEN. rewrite u32_id by lia. lia.
  - intros _. destruct (Z.eqb_spec j 0) as [->|]; [done|]. apply Ht. lia.
  - replace (Z.to_nat (j + 1)) with (S (Z.to_nat j)) by lia.
    rewrite take_insert_next, Hd, range_snoc, fmap_app by lia. cbn. by rewrite Z2Nat.id by lia.
Qed.

(** The copy of one subframe into the current buffer [b]. *)
Lemma fill_step w n busy b m :
  0 <= n -> np_available w ++ np_used w ≡ₚ seq 0 POOL -> 0 <= np_sf_cnt w < 7 ->
  np_used w ≡ₚ np_pending w ++ busy_list busy ++ [b] -> np_current w = Some b -> length (np_mem w) = POOL ->
  (forall x m, x ∈ np_available w -> np_mem w !! x = Some m -> length (sb_samples m) = 8%nat /\ sb_nof_samples m = 0) ->
  (forall x m, x ∈ np_pending w ++ busy_list busy -> np_mem w !! x = Some m -> full_window m) ->
  np_mem w !! b = Some m -> np_sf_cnt w <= n -> window (n - np_sf_cnt w) -> filled m (n - np_sf_cnt w) (np_sf_cnt w) ->
  exists w', fill_buffer w b (tti_of n) (air n) = Ok (0, w') /\ np_inv (mk_np_sys w' (n + 1) busy) /\
    np_sf_cnt w' = (np_sf_cnt w + 1) mod 7 /\ np_pending w' = np_pending w ++ (if np_sf_cnt w =? 6 then [b] else []).
Proof.
  intros Hn Hpool Hcnt Hused Hcur Hmem Hfree Hfull Hb Hle Hwin Hfi. unfold fill_buffer. rewrite Hb.
  set (j := np_sf_cnt w) in *. pose proof Hfi as [Hl Hc _ _].
  replace (_ <? sf_buffer_sz) with true by (rewrite Hc; unfold SF_LEN, sf_buffer_sz; lia).
  destruct (arr_write_in (sb_samples m) j (Some (air n)) ltac:(lia)) as []. rewrite arr_write_in by lia. rewrite bind_ok_l.
  set (samples := <[Z.to_nat j := Some (air n)]> (sb_samples m)).
  assert (Hnext := filled_next m (n - j) j samples Hcnt Hfi).
  replace (n - j + j) with n in Hnext by lia. specialize (Hnext ltac:(by rewrite arr_write_in by lia)).
  set (m' := mk_sf_buffer samples (u32 (sb_nof_samples m + SF_LEN)) (if j =? 0 then tti_of n else sb_tti m)).
  assert (Em' : mk_sf_buffer samples (u32 (sb_nof_samples m + SF_LEN)) (if j =? 0 then tti_of (n - j) else sb_tti m) = m').
  { unfold m'. destruct (Z.eqb_spec j 0) as [->|]; [by rewrite Z.sub_0_r|done]. }
  rewrite Em' in Hnext. rewrite (u32_id (j + 1)) by lia.
  assert (Hnd : NoDup (np_available w ++ np_pending w ++ busy_list busy ++ [b])) by (rewrite <- Hused, Hpool; apply NoDup_seq).
  assert (Hlt : (b < length (np_mem w))%nat) by by apply lookup_lt_Some in Hb.
  assert (Hother : forall x mx, x ∈ np_available w ++ np_pending w ++ busy_list busy -> <[b := m']> (np_mem w) !! x = Some mx ->
            np_mem w !! x = Some mx).
  { intros x mx Hx. rewrite list_lookup_insert_ne; [done|]. intros ->. rewrite !app_assoc in Hnd. rewrite app_assoc in Hx.
    apply NoDup_app in Hnd as (_ & Hd & _). apply (Hd x Hx), list_elem_of_here. }
  assert (Hf1 : forall x mx, x ∈ np_available w -> <[b := m']> (np_mem w) !! x = Some mx -> length (sb_samples mx) = 8%nat /\ sb_nof_samples mx = 0).
  { intros x mx Hx Hmx. apply (Hfree x); [done|]. apply Hother; [rewrite elem_of_app; by left|done]. }
  assert (Hf2 : forall x mx, x ∈ np_pending w ++ busy_list busy -> <[b := m']> (np_mem w) !! x = Some mx -> full_window mx).
  { intros x mx Hx Hmx. apply (Hfull x); [done|]. apply Hother; [rewrite elem_of_app; by right|done]. }
  eexists. split; [reflexivity|].
  cbn [upd eta eta_nprach np_sf_cnt]. destruct (Z.eqb_spec (j + 1) 7) as [E|E].
  - replace (j =? 6) with true by lia. assert (j = 6) as E6 by lia. split; [|split; [by rewrite E6|done]].
    split; cbn; [lia|done|lia| |by rewrite length_insert|done| |done].
    + rewrite Hused, <- app_assoc. f_equiv. rewrite (Permutation_app_comm (busy_list busy) [b]), app_nil_r. done.
    + intros x mx Hx Hmx. rewrite <- app_assoc, elem_of_app, elem_of_app in Hx.
      destruct Hx as [Hx|[->%list_elem_of_singleton|Hx]]; [apply (Hf2 x); [rewrite elem_of_app; by left|done]| |
        apply (Hf2 x); [rewrite elem_of_app; by right|done]].
      rewrite list_lookup_insert_eq in Hmx by done. injection Hmx as <-. exists (n - j). split; [lia|]. split; [done|].
      by replace 7 with (j + 1) by lia.
  - replace (j =? 6) with false by lia. rewrite Z.mod_small, app_nil_r by lia. split; [|done].
    split; cbn; [lia|done|lia| |by rewrite length_insert|done|done|].
    + replace (j + 1 =? 0) with false by lia. rewrite Hcur. done.
    + intros _. exists b, m'. rewrite list_lookup_insert_eq by done. replace (n + 1 - (j + 1)) with (n - j) by lia.
      split_and!; try done. lia.
Qed.

Lemma receive_step w n busy : np_inv (mk_np_sys w n busy) ->
  exists w', new_tti w (tti_of n) (air n) = Ok (0, w') /\ np_inv (mk_np_sys w' (n + 1) busy) /\
    (window n -> np_sf_cnt w = 0 -> np_sf_cnt w' = match np_available w with [] => 0 | _ => 1 end).
Proof.
  intros I. destruct (I) as [Hn Hpool Hcnt Hused Hmem Hfree Hfull Hcur]; cbn in *. unfold new_tti.
  destruct (Z.eqb_spec (np_sf_cnt w) 0) as [E0|E0]; cbn [negb orb].
  - rewrite orb_false_r. unfold window. destruct (Z.eqb_spec (tti_of n mod 160) 64) as [Ew|Ew].
    + unfold pool_allocate. destruct (np_available w) as [|b rest] eqn:Eav; cbn.
      * eexists. split; [reflexivity|]. split; [|done].
        split; cbn; rewrite ?E0; try done; [lia|by rewrite Eav|by rewrite Eav].
      * assert (Hb : exists m, np_mem w !! b = Some m).
        { apply (pool_member _ b I). cbn. rewrite Eav. apply list_elem_of_here. }
        destruct Hb as [m Hb]. destruct (Hfree b m (list_elem_of_here _ _) Hb) as [Hl Hz].
        set (w1 := w <| np_available := rest |> <| np_used := np_used w ++ [b] |> <| np_current := Some b |>).
        destruct (fill_step w1 n busy b m) as (w' & Hf & I' & Ec & _); cbn; rewrite ?E0, ?Z.sub_0_r; try done.
        -- rewrite app_assoc, Permutation_app_comm. cbn. exact Hpool.
        -- rewrite Hused, app_nil_r, <- app_assoc. done.
        -- intros x mx Hx. apply Hfree. by apply list_elem_of_further.
        -- exists w'. split; [cbn in Hf; rewrite E0 in Hf; exact Hf|]. split; [exact I'|]. intros _ _. rewrite Ec. cbn. by rewrite E0.
    + exists w. split; [done|]. split; [|done]. split; cbn; try done; [lia|by rewrite E0].
  - rewrite orb_true_r. destruct (Hcur E0) as (b & m & Hc & Hb & Hle & Hw & Hf). rewrite Hc.
    replace (np_sf_cnt w =? 0) with false in Hused by lia. rewrite Hc in Hused.
    destruct (fill_step w n busy b m) as (w' & He & I' & _); try done. exists w'. split_and!; done.
Qed.

Lemma take_step w n b w' : take_pending w = Some (b, w') -> np_inv (mk_np_sys w n None) -> np_inv (mk_np_sys w' n (Some b)).
Proof.
  unfold take_pending. intros H [Hn Hpool Hcnt Hused Hmem Hfree Hfull Hcur]; cbn in *.
  destruct (np_pending w) as [|x rest] eqn:E; [done|]. injection H as -> <-. split; cbn; try done.
  - rewrite Hused. cbn. by rewrite <- Permutation_middle.
  - intros x mx Hx. apply Hfull. rewrite app_nil_r. rewrite elem_of_app in Hx. destruct Hx as [Hx| ->%list_elem_of_singleton].
    + by apply list_elem_of_further.
    + apply list_elem_of_here.
Qed.

Lemma list_find_eq (l : list nat) b : b ∈ l -> exists i, list_find (fun x => b = x) l = Some (i, b) /\ l !! i = Some b.
Proof.
  intros Hb. destruct (list_find_elem_of (fun x => b = x) l b Hb eq_refl) as [[i y] H]. exists i.
  apply list_find_Some in H as H'. destruct H' as (H1 & -> & _). done.
Qed.

(** The detector gets a whole window, and its buffer goes back. *)
Lemma finish_step w n b : np_inv (mk_np_sys w n (Some b)) ->
  exists m w', np_mem w !! b = Some m /\ full_window m /\
    finish_buffer detect w b = Ok (w', run_tti detect (np_emulate w) m) /\ np_inv (mk_np_sys w' n None).
Proof.
  intros I. destruct (I) as [Hn Hpool Hcnt Hused Hmem Hfree Hfull Hcur]; cbn in *.
  assert (Hbu : b ∈ np_used w) by (rewrite Hused, !elem_of_app; right; left; apply list_elem_of_here).
  destruct (pool_member _ b I) as [m Hm]; [cbn; rewrite elem_of_app; by right|]. cbn in Hm.
  assert (Hw : full_window m) by (apply (Hfull b); [rewrite elem_of_app; right; apply list_elem_of_here|done]).
  destruct (list_find_eq _ _ Hbu) as (i & Hi & Hl). pose proof (delete_Permutation _ _ _ Hl) as Hdel.
  exists m. unfold finish_buffer. rewrite Hm. unfold pool_deallocate. cbn [upd eta eta_nprach np_used].
  rewrite bool_decide_true by done. rewrite Hi. eexists. split; [done|]. split; [done|]. split; [reflexivity|].
  pose proof (pool_nodup _ I) as Hnd. cbn in Hnd.
  assert (Hrest : delete i (np_used w) ≡ₚ np_pending w ++ (if np_sf_cnt w =? 0 then [] else busy_list (np_current w))).
  { apply (Permutation_cons_inv (a := b)). rewrite <- Hdel, Hused. symmetry. apply Permutation_middle. }
  assert (Hne : forall x, x ∈ np_available w ++ delete i (np_used w) -> x <> b).
  { intros x Hx ->. rewrite Hdel in Hnd. rewrite <- Permutation_middle in Hnd. by apply NoDup_cons in Hnd as [H _]. }
  split; cbn; try done.
  - etrans; [|exact Hpool]. etrans; [apply (Permutation_middle (np_available w) (delete i (np_used w)) b)|]. by rewrite <- Hdel.
  - by rewrite length_insert.
  - intros x mx [->|Hx]%elem_of_cons Hmx.
    + rewrite list_lookup_insert_eq in Hmx by (by apply lookup_lt_Some in Hm). injection Hmx as <-. cbn.
      destruct Hw as (n0 & _ & _ & [Hlen _ _ _]). done.
    + rewrite list_lookup_insert_ne in Hmx; [by apply (Hfree x)|]. intros <-. apply (Hne b); [rewrite elem_of_app; by left|done].
  - intros x mx Hx Hmx. rewrite app_nil_r in Hx. rewrite list_lookup_insert_ne in Hmx.
    + apply (Hfull x); [rewrite elem_of_app; by left|done].
    + intros <-. apply (Hne b); [|done]. rewrite elem_of_app, Hrest, elem_of_app. right. by left.
  - intros E0. destruct (Hcur E0) as (b' & m' & Hc & Hb' & Hle & Hwin & Hf). exists b', m'. split_and!; try done.
    rewrite list_lookup_insert_ne; [done|]. intros <-. apply (Hne b); [|done]. rewrite elem_of_app, Hrest, elem_of_app.
    right. right. replace (np_sf_cnt w =? 0) with false by lia. rewrite Hc. apply list_elem_of_here.
Qed.

Lemma inv_new emulate : np_inv (mk_np_sys (nprach_new emulate) 0 None).
Proof.
  split; cbn [ns_w ns_n ns_busy nprach_new np_available np_used np_pending np_current np_sf_cnt np_mem busy_list]; try done; try lia.
  - rewrite app_nil_r. apply reverse_Permutation.
  - intros b m _ Hm. apply lookup_replicate in Hm as [-> _]. done.
  - intros b m Hb. by apply elem_of_nil in Hb.
Qed.

Lemma np_step_inv s a t : np_step s a t -> np_inv s -> np_inv t.
Proof.
  intros [w n busy ret w' H|w n b w' H|w n b m w' call Hm H] I.
  - destruct (receive_step w n busy I) as (w2 & H2 & I2 & _). congruence.
  - by apply (take_step w n b w').
  - destruct (finish_step w n b I) as (m2 & w2 & _ & _ & H2 & I2). congruence.
Qed.

Lemma np_run_inv s l t : np_run s l t -> np_inv s -> np_inv t.
Proof. intros H I. induction H as [s|s l t a u H IH Hs]; [done|]. eapply np_step_inv; [exact Hs|]. by apply IH. Qed.

(** Three steps are possible whenever they should be: reception always, the
    others when there is a buffer for them. *)
Lemma window_start s : (forall n j, window n -> 0 < j < 160 -> ~ window (n - j)) -> np_inv s -> window (ns_n s) ->
  np_sf_cnt (ns_w s) = 0.
Proof.
  intros Hsep I Hw. destruct (decide (np_sf_cnt (ns_w s) = 0)) as [|E]; [done|].
  destruct (ni_cur s I E) as (_ & _ & _ & _ & _ & Hw' & _). pose proof (ni_cnt s I).
  by apply (Hsep (ns_n s) (np_sf_cnt (ns_w s))) in Hw; [|lia].
Qed.
End Threads.

(** The numbers of the received subframes: the first after the start is 10236. *)
Definition rx_tti (n : Z) : Z := (10236 + n) mod 10240.

Lemma rx_window n : rx_tti n mod 160 = 64 <-> (10236 + n) mod 160 = 64.
Proof. unfold rx_tti. rewrite <- (Z.mod_mod_divide (10236 + n) 10240 160) by (by exists 64). done. Qed.

(** C18. Preamble windows stay whole.  Whatever the order in which the receive
    thread and the detector's thread take their steps: copying a subframe always
    succeeds; every buffer the detector gets holds the seven consecutive
    subframes from one subframe 64 of a period of 160 on, with the number of
    the first, and the call it makes names that subframe; and a window is
    left out only if all eight buffers of the pool are then waiting for the
    detector. *)
Theorem preamble_windows {Sig} (detect : list (option Sig) -> option Z) (air : Z -> Sig) emulate l s :
  np_run detect air rx_tti (mk_np_sys (nprach_new emulate) 0 None) l s ->
  (exists w', new_tti (ns_w s) (rx_tti (ns_n s)) (air (ns_n s)) = Ok (0, w') /\
    (rx_tti (ns_n s) mod 160 = 64 -> np_sf_cnt w' = 1 \/
       (length (np_pending (ns_w s)) + length (busy_list (ns_busy s)) = POOL)%nat)) /\
  (forall b, ns_busy s = Some b -> exists m w' call n0,
    np_mem (ns_w s) !! b = Some m /\ finish_buffer detect (ns_w s) b = Ok (w', call) /\
    0 <= n0 /\ rx_tti n0 mod 160 = 64 /\
    take 7 (sb_samples m) = (fun k => Some (air k)) <$> range n0 7 /\
    call = (if np_emulate (ns_w s) then if rx_tti n0 =? 384 then Some (384, 41, 5) else None
            else match detect ((fun k => Some (air k)) <$> range n0 7) with Some p => Some (rx_tti n0, p, 5) | None => None end)).
Proof.
  intros H. apply np_run_inv in H as I; [|apply inv_new]. destruct s as [w n busy]. split.
  - destruct (receive_step air rx_tti w n busy I) as (w' & Hr & _ & Hc). exists w'. split; [exact Hr|]. intros Hw. cbn in *.
    assert (E0 : np_sf_cnt w = 0).
    { apply (window_start air rx_tti (mk_np_sys w n busy)); [|done|done]. unfold window. intros x j Hx Hj Hxj.
      apply rx_window in Hx, Hxj. dlia. }
    specialize (Hc Hw E0). destruct (np_available w) eqn:Ea; [right|by left].
    pose proof (Permutation_length (ni_pool _ _ _ I)) as Hl. cbn in Hl. rewrite Ea in Hl.
    pose proof (Permutation_length (ni_used _ _ _ I)) as Hu. cbn in Hu. rewrite E0, app_nil_r, length_app in Hu. cbn in Hl.
    change POOL with 8%nat. lia.
  - intros b Hb. cbn in Hb. subst busy. destruct (finish_step detect air rx_tti w n b I) as (m & w' & Hm & (n0 & Hn0 & Hw & [_ Hc Ht Hd]) & Hf & _).
    exists m, w', (run_tti detect (np_emulate w) m), n0. split_and!; try done.
    unfold run_tti. rewrite Hc, Ht by lia. change (7 * SF_LEN / SF_LEN) with 7. rewrite Hd. change (Z.to_nat 7) with 7%nat.
    cbn [ns_w]. destruct (np_emulate w); cbn [negb]; [|done]. by destruct (Z.eqb_spec (rx_tti n0) 384) as [->|].
Qed.

(** A run: subframes are received up to the end of the first window, which the
    detector takes. *)
Fixpoint np_receive_n (n : nat) : nprach Z :=
  match n with
  | O => nprach_new false
  | S n => match new_tti (np_receive_n n) (rx_tti (Z.of_nat n)) (Z.of_nat n) with Ok (_, w) => w | _ => np_receive_n n end
  end.

Lemma np_received n (detect : list (option Z) -> option Z) :
  exists l, np_run detect id rx_tti (mk_np_sys (nprach_new false) 0 None) l (mk_np_sys (np_receive_n n) (Z.of_nat n) None).
Proof.
  induction n as [|n [l IH]]; [by exists []; constructor|]. apply np_run_inv in IH as I; [|apply inv_new].
  destruct (receive_step id rx_tti _ _ _ I) as (w' & Hr & _). exists (l ++ [Np_tti 0]).
  apply (np_snoc _ _ _ _ _ _ _ _ IH). replace (Z.of_nat (S n)) with (Z.of_nat n + 1) by lia.
  apply np_receive. cbn [np_receive_n]. change (id (Z.of_nat n)) with (Z.of_nat n) in Hr |- *. rewrite Hr. done.
Qed.

Definition np_taken : nprach Z := Eval vm_compute in match take_pending (np_receive_n 75) with Some (_, w) => w | None => nprach_new false end.

Lemma preamble_windows_witness :
  exists m w' n0, np_mem np_taken !! 7%nat = Some m /\
    finish_buffer (fun _ => Some 12) np_taken 7 = Ok (w', Some (rx_tti n0, 12, 5)) /\ rx_tti n0 mod 160 = 64.
Proof.
  destruct (np_received 75 (fun _ => Some 12)) as [l Hl].
  destruct (preamble_windows (fun _ => Some 12) id false (l ++ [Np_silent]) (mk_np_sys np_taken 75 (Some 7%nat))) as [_ H].
  - apply (np_snoc _ _ _ _ _ _ _ _ Hl). apply np_take. vm_compute. reflexivity.
  - cbn [ns_w ns_busy ns_n] in H. destruct (H 7%nat eq_refl) as (m & w' & call & n0 & H1 & H2 & _ & H3 & _ & H4). exists m, w', n0.
    assert (Hcall : call = Some (rx_tti n0, 12, 5)).
    { rewrite H4. replace (np_emulate _) with false by (vm_compute; reflexivity). reflexivity. }
    subst call. split; [exact H1|]. split; [exact H2|exact H3].
Defined.
