(* ===== verification/NprachDet.v ===== *)
(** * Preamble detector

    [src/nbiot_phch/nprach.c] with [nbiot_phch/nprach.h]: the detector that
    [nprach_worker] calls on the samples of a preamble window.  It swallows the
    cyclic prefix of a symbol group, transforms the five symbols of 512 samples,
    follows the hopping of each of the twelve subcarriers through the four
    groups, and reports a subcarrier loud in more than 18 of its 20 symbols.
    Samples left over from one call are kept for the next.  The vector product,
    the transform and the comparison of a magnitude with 5 are parameters, the
    positions of the samples and the state are not. *)
From S2P Require Import Prelude Tti Nprach.

Definition SAMP_SIZE : Z := 512.
Definition SYM_GROUP_SIZE : Z := 5.
Definition SUBCARRIERS : nat := 12.
Definition SUBC_HALF : Z := 6.

(** [get_subcarrier_sg]: where the preamble that starts at [start_sc] is in
    symbol group [sg]. *)
Definition get_subcarrier_sg (start_sc sg : Z) : Z :=
  let other := if start_sc <? SUBC_HALF then u32 (start_sc + SUBC_HALF) else u32 (start_sc - SUBC_HALF) in
  match sg mod 4 with
  | 0 => start_sc
  | 1 => Z.lxor start_sc 1
  | 2 => Z.lxor other 1
  | _ => other
  end.

(** The members of [sonica_nprach_t] that the detector uses. *)
Record sonica_nprach_t (A : Type) := mk_sonica_nprach {
  q_fft_in : list A;
  q_cp_len : Z;
  q_base_subc : Z;
  q_buf_samp : Z;
  q_cur_symg : Z;
  q_nxt_sym : Z;
  q_det_buf : list (list A)
}.
Arguments mk_sonica_nprach {A}.
Arguments q_fft_in {A}.
Arguments q_cp_len {A}.
Arguments q_base_subc {A}.
Arguments q_buf_samp {A}.
Arguments q_cur_symg {A}.
Arguments q_nxt_sym {A}.
Arguments q_det_buf {A}.
#[export] Instance eta_sonica_nprach {A} : Eta (sonica_nprach_t A) := {| eta := fun q =>
  mk_sonica_nprach (q_fft_in q) (q_cp_len q) (q_base_subc q) (q_buf_samp q) (q_cur_symg q) (q_nxt_sym q) (q_det_buf q) |}.

Section Detector.
Context {A : Type}.

(** [bzero] of the structure: [zero] is the sample with all bits zero; [heap]
    what [srslte_vec_cf_malloc] returns for [fft_in]. *)
Definition sonica_nprach_init (zero : A) (heap : list A) : sonica_nprach_t A :=
  mk_sonica_nprach heap SAMP_SIZE 36 0 0 0 (replicate 20 (replicate SUBCARRIERS zero)).

Definition sonica_nprach_detect_reset (q : sonica_nprach_t A) : sonica_nprach_t A :=
  q <| q_nxt_sym := 0 |> <| q_cur_symg := 0 |>.

(** [srslte_vec_prod_ccc(fft_in, freq_shift, fft_in, 512)], [srslte_dft_run]
    and [cabsf(x) > 5]. *)
Context (shift : list A -> list A) (dft : list A -> list A) (loud : A -> bool).

(** The row of [det_buf] after the loop of [store_detect_buf]; [fft_output] is
    the part of [fft_out] from [subc_offset] on. *)
Definition store_detect_buf (row fft_output : list A) (sg : Z) : res (list A) :=
  foldM (fun row start_sc => x ← arr_read fft_output (get_subcarrier_sg start_sc sg); arr_write row start_sc x)
    (range 0 SUBCARRIERS) row.

(** One symbol: from the 512 samples in [fft_in] to a row of [det_buf]. *)
Definition detect_symbol (q : sonica_nprach_t A) : res (sonica_nprach_t A) :=
  let fft_in := shift (q_fft_in q) in
  let fft_out := dft fft_in in
  let sym_num := u32 (u32 (q_cur_symg q * SYM_GROUP_SIZE + q_nxt_sym q) - 1) in
  let subc_offset := u32 ((SAMP_SIZE - 48) / 2 + q_base_subc q) in
  ub_unless (sym_num <? 20) OobWrite (
  row ← arr_read (q_det_buf q) sym_num;
  row ← store_detect_buf row (drop (Z.to_nat subc_offset) fft_out) (q_cur_symg q);
  det_buf ← arr_write (q_det_buf q) sym_num row;
  Ok (q <| q_fft_in := fft_in |> <| q_det_buf := det_buf |>)).

(** The [while] loop: the detector, [rem_input], [in_offset] and [finished] when
    it ends.  Every turn takes at least one sample, so a turn more than there are
    samples is fuel enough. *)
Fixpoint detect_loop (fuel : nat) (signal : list A) (q : sonica_nprach_t A) (rem_input in_offset buf_offset : Z)
  : res (sonica_nprach_t A * Z * Z * bool) :=
  match fuel with
  | O => Diverge
  | S fuel =>
      if u32 (rem_input + buf_offset) <? SAMP_SIZE then Ok (q, rem_input, in_offset, false) else
      '(q, read_amount) ← (if q_nxt_sym q =? 0 then Ok (q, u32 (q_cp_len q - buf_offset)) else
        let read_amount := u32 (SAMP_SIZE - buf_offset) in
        fft_in ← mem_copy (q_fft_in q) buf_offset signal in_offset read_amount;
        q ← detect_symbol (q <| q_fft_in := fft_in |>);
        Ok (q, read_amount));
      let rem_input := u32 (rem_input - read_amount) in
      let in_offset := u32 (in_offset + read_amount) in
      if q_nxt_sym q =? SYM_GROUP_SIZE then
        let q := q <| q_nxt_sym := 0 |> <| q_cur_symg := u32 (q_cur_symg q + 1) |> in
        if q_cur_symg q =? 4 then Ok (q, rem_input, in_offset, true)
        else detect_loop fuel signal q rem_input in_offset 0
      else detect_loop fuel signal (q <| q_nxt_sym := u32 (q_nxt_sym q + 1) |>) rem_input in_offset 0
  end.

(** The count of one subcarrier's loud symbols, and what all twelve leave in
    [*indices] and [result]: a later subcarrier overwrites an earlier one. *)
Definition count_loud (det_buf : list (list A)) (sc : Z) : res Z :=
  foldM (fun count i => row ← arr_read det_buf i; x ← arr_read row sc; Ok (if loud x then count + 1 else count)) (range 0 20) 0.
Definition pick_subcarrier (det_buf : list (list A)) : res (option Z) :=
  foldM (fun indices sc => count ← count_loud det_buf sc; Ok (if 18 <? count then Some (u32 (sc + 36)) else indices)) (range 0 12) None.

(** The result 1 with [*indices], or 0. *)
Definition sonica_nprach_detect (q : sonica_nprach_t A) (signal : list A) (sig_len : Z)
  : res (option Z * sonica_nprach_t A) :=
  '(q, rem_input, in_offset, finished) ← detect_loop (S (Z.to_nat sig_len)) signal q sig_len 0 (q_buf_samp q);
  if finished : bool then
    found ← pick_subcarrier (q_det_buf q);
    Ok (found, q <| q_buf_samp := 0 |>)
  else
    fft_in ← (if 0 <? rem_input then mem_copy (q_fft_in q) 0 signal in_offset rem_input else Ok (q_fft_in q));
    Ok (None, q <| q_fft_in := fft_in |> <| q_buf_samp := rem_input |>).
End Detector.

(** ** The hopping pattern *)

(** 3GPP TS 36.211, 10.1.6.1: the subcarrier of symbol group [i] from that of the
    group before, inside one repetition of four groups. *)
Definition hop_next (i : nat) (n : Z) : Z :=
  if (Z.of_nat i mod 4 =? 2) then (if n <? 6 then n + 6 else n - 6) else (if Z.even n then n + 1 else n - 1).
Fixpoint hopping (start : Z) (i : nat) : Z :=
  match i with O => start | S j => hop_next (S j) (hopping start j) end.

(** A check of all the subcarriers and groups decides what holds for each. *)
Lemma hop_cases (P : Z -> Z -> bool) sc sg : forallb (fun sc => forallb (P sc) (range 0 4)) (range 0 12) = true ->
  0 <= sc < 12 -> 0 <= sg < 4 -> P sc sg = true.
Proof.
  intros H Hsc Hsg. rewrite forallb_forall in H. specialize (H sc). rewrite forallb_forall in H.
  apply H; apply list_elem_of_In, elem_of_range; lia.
Qed.

Lemma subcarrier_mod sc sg : get_subcarrier_sg sc sg = get_subcarrier_sg sc (sg mod 4).
Proof. unfold get_subcarrier_sg. by rewrite Z.mod_mod by lia. Qed.

Lemma subcarrier_in_range sc sg : 0 <= sc < 12 -> 0 <= get_subcarrier_sg sc sg < 12.
Proof.
  intros H. rewrite subcarrier_mod. pose proof (Z.mod_pos_bound sg 4 ltac:(lia)) as Hsg.
  pose proof (hop_cases (fun sc sg => (0 <=? get_subcarrier_sg sc sg) && (get_subcarrier_sg sc sg <? 12)) sc (sg mod 4)
    ltac:(by vm_compute) H Hsg) as E. cbv beta in E. lia.
Qed.

(** C35. The preamble's track.  In the four symbol groups the detector follows each
    of the twelve subcarriers along the pattern of the standard, group after
    group; and in no group do two preambles share a subcarrier, so that the
    tracks of a group are a permutation of the twelve subcarriers. *)
Theorem hopping_as_standard (sg : nat) : (sg < 4)%nat ->
  (forall sc, 0 <= sc < 12 -> get_subcarrier_sg sc (Z.of_nat sg) = hopping sc sg) /\
  (fun sc => get_subcarrier_sg sc (Z.of_nat sg)) <$> range 0 SUBCARRIERS ≡ₚ range 0 SUBCARRIERS.
Proof.
  intros H. split.
  - intros sc Hsc. pose proof (hop_cases (fun sc sg => get_subcarrier_sg sc sg =? hopping sc (Z.to_nat sg)) sc (Z.of_nat sg)
      ltac:(by vm_compute) Hsc ltac:(lia)) as E. cbv beta in E. rewrite Nat2Z.id in E. lia.
  - assert (Hc : forall m, m ∈ range 0 4 -> (fun sc => get_subcarrier_sg sc m) <$> range 0 SUBCARRIERS ≡ₚ range 0 SUBCARRIERS).
    { apply Forall_forall. repeat constructor; apply (bool_decide_unpack _); by vm_compute. }
    apply Hc, elem_of_range. lia.
Qed.

Lemma hopping_as_standard_witness : get_subcarrier_sg 7 2 = 0 /\ hopping 7 2 = 0.
Proof. destruct (hopping_as_standard 2) as [H _]; [lia|]. specialize (H 7 ltac:(lia)). rewrite <- H. split; by vm_compute. Defined.

(** ** What a preamble is

    The samples since the last reset are cut into blocks of 512: of the six
    blocks of a symbol group the first is the cyclic prefix. *)
Definition block {A} (w : list A) (k : Z) : list A := take (Z.to_nat SAMP_SIZE) (drop (Z.to_nat (SAMP_SIZE * k)) w).
Definition PREAMBLE_LEN : Z := 4 * 6 * 512.

Section Preamble.
Context {A : Type} (shift dft : list A -> list A) (loud : A -> bool).

(** Symbol [i] of the twenty, on the track of the preamble that starts at [sc]. *)
Definition track (w : list A) (sc i : Z) : option A :=
  dft (shift (block w (6 * (i / 5) + i mod 5 + 1))) !! Z.to_nat (268 + get_subcarrier_sg sc (i / 5)).
Definition loud_at (w : list A) (sc i : Z) : bool := match track w sc i with Some x => loud x | None => false end.
Definition heard (w : list A) (sc : Z) : bool :=
  (18 <? length (filter (fun i => loud_at w sc i = true) (range 0 20)))%nat.
(** The last subcarrier that is heard, counted from the first of the carrier. *)
Definition preamble (w : list A) : option Z := (fun sc => sc + 36) <$> last (filter (fun sc => heard w sc = true) (range 0 12)).
End Preamble.

(** ** Loops over fixed ranges *)

Lemma foldM_write_range {A} (out : list A) (f : Z -> Z) n lo row :
  0 <= lo -> lo + Z.of_nat n <= Z.of_nat (length row) ->
  (forall sc, lo <= sc < lo + Z.of_nat n -> 0 <= f sc < Z.of_nat (length out)) ->
  exists row', foldM (fun row sc => x ← arr_read out (f sc); arr_write row sc x) (range lo n) row = Ok row' /\
    length row' = length row /\
    (forall i, lo <= i < lo + Z.of_nat n -> row' !! Z.to_nat i = out !! Z.to_nat (f i)) /\
    (forall i, 0 <= i < lo -> row' !! Z.to_nat i = row !! Z.to_nat i).
Proof.
  revert lo row; induction n as [|n IH]; intros lo row Hlo Hlen Hf.
  - exists row. split_and!; [done..| |done]. intros i Hi. lia.
  - rewrite range_S. cbn [foldM]. destruct (arr_read_in out (f lo) (Hf lo ltac:(lia))) as (x & Hx & Hl). rewrite Hx, bind_ok_l.
    rewrite arr_write_in, bind_ok_l by lia. destruct (IH (lo + 1) (<[Z.to_nat lo := x]> row)) as (row' & E & Hl' & Hr & Hk).
    + lia.
    + rewrite length_insert. lia.
    + intros sc Hsc. apply Hf. lia.
    + exists row'. rewrite length_insert in Hl'. split_and!; [exact E|done| |].
      * intros i Hi. destruct (Z.eq_dec i lo) as [->|Hne]; [|apply Hr; lia].
        rewrite Hk, list_lookup_insert_eq by lia. done.
      * intros i Hi. rewrite Hk, list_lookup_insert_ne by lia. done.
Qed.

Lemma foldM_count (l : list Z) (f : Z -> Z -> res Z) (p : Z -> bool) c :
  (forall i c, i ∈ l -> f c i = Ok (if p i then c + 1 else c)) ->
  foldM f l c = Ok (c + Z.of_nat (length (filter (fun i => p i = true) l))).
Proof.
  revert c; induction l as [|i l IH]; intros c H; cbn [foldM]; [cbn; f_equal; lia|].
  rewrite H by apply list_elem_of_here. rewrite bind_ok_l, IH by (intros; apply H; by apply list_elem_of_further).
  f_equal. rewrite filter_cons. destruct (p i); cbn [decide]; [rewrite decide_True by done; cbn; lia|by rewrite decide_False by done].
Qed.

Lemma foldM_last {B} (l : list Z) (f : option B -> Z -> res (option B)) (p : Z -> bool) (g : Z -> B) o :
  (forall i o, i ∈ l -> f o i = Ok (if p i then Some (g i) else o)) ->
  foldM f l o = Ok (match last (filter (fun i => p i = true) l) with Some i => Some (g i) | None => o end).
Proof.
  revert o; induction l as [|i l IH]; intros o H; cbn [foldM]; [done|].
  rewrite H by apply list_elem_of_here. rewrite bind_ok_l, IH by (intros; apply H; by apply list_elem_of_further).
  f_equal. rewrite filter_cons. destruct (p i).
  - rewrite decide_True by done. rewrite last_cons. by destruct (last _).
  - by rewrite decide_False by done.
Qed.

(** ** Blocks *)

Lemma block_prefix {A} (x c : list A) k : 0 <= k -> 512 * (k + 1) <= Z.of_nat (length x) -> block (x ++ c) k = block x k.
Proof.
  intros Hk H. unfold block, SAMP_SIZE. rewrite drop_app_le by lia. rewrite take_app_le; [done|]. rewrite length_drop. lia.
Qed.

Lemma length_block {A} (w : list A) k : 0 <= k -> 512 * (k + 1) <= Z.of_nat (length w) -> length (block w k) = Z.to_nat 512.
Proof. intros Hk H. unfold block, SAMP_SIZE. rewrite length_take, length_drop. lia. Qed.

(** The leftover of a block and the samples that complete it. *)
Lemma block_join {A} (buf x c more : list A) k b o :
  0 <= k -> 0 <= b < 512 -> 0 <= o -> SAMP_SIZE * k + b = Z.of_nat (length x) + o ->
  o + (512 - b) <= Z.of_nat (length c) -> length buf = Z.to_nat 512 ->
  take (Z.to_nat b) buf = take (Z.to_nat b) (drop (Z.to_nat (SAMP_SIZE * k)) (x ++ c)) ->
  take (Z.to_nat b) buf ++ take (Z.to_nat (512 - b)) (drop (Z.to_nat o) (c ++ more)) ++ drop (Z.to_nat 512) buf = block (x ++ c) k.
Proof.
  unfold SAMP_SIZE. intros Hk Hb Ho E Hc Hbuf ->. rewrite (drop_ge buf) by lia. rewrite app_nil_r, (drop_app_le c) by lia.
  rewrite (take_app_le (drop (Z.to_nat o) c)) by (rewrite length_drop; lia).
  replace (drop (Z.to_nat o) c) with (drop (Z.to_nat b) (drop (Z.to_nat (512 * k)) (x ++ c))).
  - unfold block, SAMP_SIZE. set (y := drop (Z.to_nat (512 * k)) (x ++ c)).
    rewrite <- (take_drop (Z.to_nat b) (take (Z.to_nat 512) y)), take_take, Nat.min_l by lia. f_equal.
    rewrite take_drop_commute. f_equal. f_equal. lia.
  - rewrite drop_drop. replace (Z.to_nat (512 * k) + Z.to_nat b)%nat with (length x + Z.to_nat o)%nat by lia.
    by rewrite drop_app_add.
Qed.

(** ** Detection *)
Section Correct.
Context {A : Type} (shift dft : list A -> list A) (loud : A -> bool).
Context (shift_len : forall x, length x = Z.to_nat 512 -> length (shift x) = Z.to_nat 512).
Context (dft_len : forall x, length x = Z.to_nat 512 -> length (dft x) = Z.to_nat 512).

Definition row_ok (w : list A) (i : Z) (row : list A) : Prop :=
  forall sc, 0 <= sc < 12 -> exists x, row !! Z.to_nat sc = Some x /\ track shift dft w sc i = Some x.

(** The rows that are filled when the next block is [k]. *)
Definition rows_done (k : Z) : Z := 5 * (k / 6) + Z.max 0 (k mod 6 - 1).

(** The detector has consumed the first [k] blocks of [w]. *)
Record at_block (w : list A) (k : Z) (q : sonica_nprach_t A) : Prop := mk_at_block {
  ab_fft : length (q_fft_in q) = Z.to_nat 512;
  ab_cp : q_cp_len q = 512;
  ab_base : q_base_subc q = 36;
  ab_symg : q_cur_symg q = k / 6;
  ab_sym : q_nxt_sym q = k mod 6;
  ab_det : length (q_det_buf q) = 20%nat;
  ab_row : forall (i : nat) (row : list A), q_det_buf q !! i = Some row -> length row = 12%nat;
  ab_done : forall i row, 0 <= i < rows_done k -> q_det_buf q !! Z.to_nat i = Some row -> row_ok w i row
}.

Lemma track_prefix x c sc i k : 0 <= i < rows_done k -> 0 <= k -> 512 * k <= Z.of_nat (length x) ->
  track shift dft (x ++ c) sc i = track shift dft x sc i.
Proof.
  intros Hi Hk Hl. unfold track. rewrite block_prefix; [done|dlia|]. unfold rows_done in Hi. dlia.
Qed.

Lemma at_block_app x c k q : 0 <= k -> 512 * k <= Z.of_nat (length x) -> at_block x k q -> at_block (x ++ c) k q.
Proof.
  intros Hk Hl [H1 H2 H3 H4 H5 H6 H7 H8]. split; try done. intros i row Hi Hr sc Hsc.
  rewrite (track_prefix x c sc i k) by done. by apply (H8 i row Hi Hr).
Qed.

Lemma store_row (row out : list A) sg : length row = 12%nat -> 12 <= Z.of_nat (length out) ->
  exists row', store_detect_buf row out sg = Ok row' /\ length row' = 12%nat /\
    forall sc, 0 <= sc < 12 -> row' !! Z.to_nat sc = out !! Z.to_nat (get_subcarrier_sg sc sg).
Proof.
  intros Hr Ho. destruct (foldM_write_range out (fun sc => get_subcarrier_sg sc sg) SUBCARRIERS 0 row) as (row' & E & Hl & H & _).
  - lia.
  - rewrite Hr. done.
  - intros sc Hsc. change (Z.of_nat SUBCARRIERS) with 12 in Hsc. pose proof (subcarrier_in_range sc sg ltac:(lia)). lia.
  - exists row'. split_and!; [exact E|lia|]. intros sc Hsc. apply H. change (Z.of_nat SUBCARRIERS) with 12. lia.
Qed.

Lemma symbol_step w k q : 0 <= k < 24 -> k mod 6 <> 0 -> 512 * (k + 1) <= Z.of_nat (length w) ->
  at_block w k q -> q_fft_in q = block w k ->
  exists q', detect_symbol shift dft q = Ok q' /\ length (q_fft_in q') = Z.to_nat 512 /\ q_cp_len q' = 512 /\ q_base_subc q' = 36 /\
    q_cur_symg q' = k / 6 /\ q_nxt_sym q' = k mod 6 /\ q_buf_samp q' = q_buf_samp q /\ length (q_det_buf q') = 20%nat /\
    (forall (i : nat) (row : list A), q_det_buf q' !! i = Some row -> length row = 12%nat) /\
    (forall i row, 0 <= i < rows_done k + 1 -> q_det_buf q' !! Z.to_nat i = Some row -> row_ok w i row).
Proof.
  intros Hk Hm Hw [H1 H2 H3 H4 H5 H6 H7 H8] Hf. unfold detect_symbol. rewrite H3, H4, H5.
  assert (Hr : rows_done k = 5 * (k / 6) + k mod 6 - 1) by (unfold rows_done; dlia).
  assert (Hb : 0 <= rows_done k < 20) by dlia.
  replace (u32 (u32 (k / 6 * SYM_GROUP_SIZE + k mod 6) - 1)) with (rows_done k).
  2: { unfold SYM_GROUP_SIZE. rewrite !u32_id; [lia|dlia|]. rewrite u32_id by dlia. lia. }
  unfold SAMP_SIZE. change (Z.to_nat (u32 ((512 - 48) / 2 + 36))) with (Z.to_nat 268).
  replace (rows_done k <? 20) with true by lia. unfold ub_unless.
  destruct (arr_read_in (q_det_buf q) (rows_done k)) as (row & -> & Hrow); [lia|]. rewrite bind_ok_l.
  assert (Hlen : length (dft (shift (q_fft_in q))) = Z.to_nat 512) by by apply dft_len, shift_len.
  destruct (store_row row (drop (Z.to_nat 268) (dft (shift (q_fft_in q)))) (k / 6)) as (row' & -> & Hl' & Hr').
  { by apply (H7 _ _ Hrow). }
  { rewrite length_drop, Hlen. lia. }
  rewrite bind_ok_l, arr_write_in, bind_ok_l by lia. eexists. split; [reflexivity|]. cbn.
  split_and!; try done; [by apply shift_len|by rewrite length_insert| |].
  - intros i r Hi. destruct (decide (i = Z.to_nat (rows_done k))) as [->|Hne].
    + rewrite list_lookup_insert_eq in Hi by lia. by injection Hi as <-.
    + rewrite list_lookup_insert_ne in Hi by done. by apply (H7 i).
  - intros i r Hi Hl. destruct (decide (i = rows_done k)) as [->|Hne].
    + rewrite list_lookup_insert_eq in Hl by lia. injection Hl as <-. intros sc Hsc. rewrite Hr' by done. rewrite lookup_drop.
      pose proof (subcarrier_in_range sc (k / 6) Hsc) as Hs. unfold track.
      replace (rows_done k / 5) with (k / 6) by dlia. replace (6 * (k / 6) + rows_done k mod 5 + 1) with k by dlia. rewrite <- Hf.
      destruct (lookup_lt_is_Some_2 (dft (shift (q_fft_in q))) (Z.to_nat (268 + get_subcarrier_sg sc (k / 6)))) as [x Hx]; [rewrite Hlen; lia|].
      exists x. split; [|done]. rewrite <- Hx. f_equal. lia.
    + rewrite list_lookup_insert_ne in Hl by lia. apply (H8 i); [lia|done].
Qed.

(** What a call leaves when it has filled all twenty rows. *)
Record all_rows (w : list A) (q : sonica_nprach_t A) : Prop := mk_all_rows {
  ar_fft : length (q_fft_in q) = Z.to_nat 512;
  ar_cp : q_cp_len q = 512;
  ar_base : q_base_subc q = 36;
  ar_det : length (q_det_buf q) = 20%nat;
  ar_row : forall (i : nat) (row : list A), q_det_buf q !! i = Some row -> length row = 12%nat;
  ar_done : forall i row, 0 <= i < 20 -> q_det_buf q !! Z.to_nat i = Some row -> row_ok w i row
}.

(** Block [k], of which [b] samples are buffered and the rest starts at [o]. *)
Definition resumes (x c : list A) (k b o : Z) (q : sonica_nprach_t A) : Prop :=
  at_block (x ++ c) k q /\ 0 <= k < 24 /\ 0 <= b < 512 /\ 0 <= o /\ SAMP_SIZE * k + b = Z.of_nat (length x) + o /\
  take (Z.to_nat b) (q_fft_in q) = take (Z.to_nat b) (drop (Z.to_nat (SAMP_SIZE * k)) (x ++ c)).

(** The turn of the loop that swallows or transforms block [k]. *)
Lemma block_turn x c more k b o q : resumes x c k b o q ->
  512 * (k + 1) <= Z.of_nat (length (x ++ c)) -> Z.of_nat (length (x ++ c)) < 2 ^ 31 ->
  exists q', (if q_nxt_sym q =? 0 then Ok (q, u32 (q_cp_len q - b)) else
        fft_in ← mem_copy (q_fft_in q) b (c ++ more) o (u32 (SAMP_SIZE - b));
        q ← detect_symbol shift dft (q <| q_fft_in := fft_in |>);
        Ok (q, u32 (SAMP_SIZE - b))) = Ok (q', 512 - b) /\ q_nxt_sym q' = k mod 6 /\ q_cur_symg q' = k / 6 /\
    length (q_fft_in q') = Z.to_nat 512 /\ q_cp_len q' = 512 /\ q_base_subc q' = 36 /\ length (q_det_buf q') = 20%nat /\
    (forall (i : nat) (row : list A), q_det_buf q' !! i = Some row -> length row = 12%nat) /\
    (forall i row, 0 <= i < rows_done (k + 1) -> q_det_buf q' !! Z.to_nat i = Some row -> row_ok (x ++ c) i row).
Proof.
  intros (Hat & Hk & Hb & Ho & E & Ht) Hl Hmax. pose proof Hat as [H1 H2 H3 H4 H5 H6 H7 H8]. unfold SAMP_SIZE in *.
  rewrite length_app in Hl, Hmax. rewrite H5, H2, !u32_id by lia. destruct (Z.eqb_spec (k mod 6) 0) as [E0|E0].
  - exists q. split_and!; try done. intros i row Hi. apply H8. unfold rows_done in *. dlia.
  - unfold mem_copy, ub_unless. rewrite H1, length_app. rewrite !(proj2 (Z.leb_le _ _)) by lia. rewrite bind_ok_l.
    replace (b + (512 - b)) with 512 by lia. rewrite (block_join (q_fft_in q) x c more k b o) by (unfold SAMP_SIZE; lia || done).
    destruct (symbol_step (x ++ c) k (q <| q_fft_in := block (x ++ c) k |>)) as (q' & Hq & G1 & G2 & G3 & G4 & G5 & _ & G6 & G7 & G8);
      try done; [rewrite length_app; lia| |].
    { split; cbn; try done. by rewrite length_block by (rewrite ?length_app; lia). }
    rewrite Hq, bind_ok_l. exists q'. split_and!; try done. intros i row Hi. apply G8. unfold rows_done in *. dlia.
Qed.

Lemma detect_loop_runs x c more fuel k b o q : resumes x c k b o q -> b = 0 \/ 512 <= Z.of_nat (length c) - o + b ->
  0 <= Z.of_nat (length c) - o -> Z.of_nat (length (x ++ c)) < 2 ^ 31 -> (Z.to_nat (Z.of_nat (length c) - o) < fuel)%nat ->
  exists q' o', o' <= Z.of_nat (length c) /\ let run := detect_loop shift dft fuel (c ++ more) q (Z.of_nat (length c) - o) o b in
    if Z.of_nat (length (x ++ c)) <? PREAMBLE_LEN then
      run = Ok (q', Z.of_nat (length c) - o', o', false) /\ Z.of_nat (length c) - o' < 512 /\
      exists k', resumes x c k' 0 o' q'
    else run = Ok (q', Z.of_nat (length c) - o', o', true) /\ all_rows (x ++ c) q'.
Proof.
  revert k b o q; induction fuel as [|fuel IH]; intros k b o q Hres Hgo Hrem Hmax Hfuel; [lia|].
  pose proof Hres as (Hat & Hk & Hb & Ho & E & Ht). unfold SAMP_SIZE in E. cbn [detect_loop].
  rewrite length_app in Hmax. rewrite u32_id by lia.
  destruct (Z.ltb_spec (Z.of_nat (length c) - o + b) SAMP_SIZE) as [Hs|Hs]; unfold SAMP_SIZE in Hs.
  - exists q, o. split; [lia|]. rewrite (proj2 (Z.ltb_lt _ PREAMBLE_LEN)) by (rewrite length_app; unfold PREAMBLE_LEN; lia).
    split; [done|]. assert (b = 0) as -> by lia. split; [lia|]. by exists k.
  - destruct (block_turn x c more k b o q Hres) as (q' & -> & Hn & Hg & F1 & F2 & F3 & F4 & F5 & F6); [rewrite length_app; lia..|].
    rewrite bind_ok_l, Hn, Hg. unfold SYM_GROUP_SIZE. rewrite !u32_id by dlia. replace (Z.of_nat (length c) - o - (512 - b)) with
      (Z.of_nat (length c) - (o + (512 - b))) by lia.
    assert (Hnext : k + 1 < 24 -> forall q2, q_nxt_sym q2 = (k + 1) mod 6 -> q_cur_symg q2 = (k + 1) / 6 -> q_fft_in q2 = q_fft_in q' ->
      q_cp_len q2 = 512 -> q_base_subc q2 = 36 -> q_det_buf q2 = q_det_buf q' -> resumes x c (k + 1) 0 (o + (512 - b)) q2).
    { intros Hk1 q2 G1 G2 G3 G4 G5 G6. unfold resumes, SAMP_SIZE. split_and!; try lia; [|done].
      split; rewrite ?G3, ?G6; done. }
    destruct (Z.eqb_spec (k mod 6) 5) as [E5|E5].
    + cbn [upd eta eta_sonica_nprach q_cur_symg]. rewrite ?Hg. replace (k / 6 + 1) with ((k + 1) / 6) by dlia.
      destruct (Z.eqb_spec ((k + 1) / 6) 4) as [E4|E4].
      * exists (q' <| q_nxt_sym := 0 |> <| q_cur_symg := (k + 1) / 6 |>), (o + (512 - b)). split; [lia|].
        rewrite (proj2 (Z.ltb_ge _ PREAMBLE_LEN)) by (rewrite length_app; unfold PREAMBLE_LEN; dlia). split; [done|].
        split; try done. intros i row Hi. cbn. apply F6. unfold rows_done. dlia.
      * apply (IH (k + 1)); [|by left|lia|rewrite length_app; lia|lia]. apply Hnext; cbn; dlia || done.
    + apply (IH (k + 1)); [|by left|lia|rewrite length_app; lia|lia]. apply Hnext; cbn; rewrite ?Hn, ?u32_id; dlia || done.
Qed.

Lemma all_rows_lookup w q i sc : all_rows w q -> 0 <= i < 20 -> 0 <= sc < 12 ->
  exists row x, arr_read (q_det_buf q) i = Ok row /\ arr_read row sc = Ok x /\ track shift dft w sc i = Some x.
Proof.
  intros [_ _ _ H4 H5 H6] Hi Hsc. destruct (arr_read_in (q_det_buf q) i) as (row & Hr & Hl); [lia|].
  destruct (H6 i row Hi Hl sc Hsc) as (x & Hx & Ht). exists row, x. split_and!; try done. apply arr_read_lookup; [lia|done].
Qed.

Lemma pick_all_rows w q : all_rows w q -> pick_subcarrier loud (q_det_buf q) = Ok (preamble shift dft loud w).
Proof.
  intros H. unfold pick_subcarrier, preamble. rewrite (foldM_last _ _ (heard shift dft loud w) (fun sc => sc + 36)).
  - by destruct (last _).
  - intros sc o Hsc%elem_of_range. unfold count_loud. rewrite (foldM_count _ _ (loud_at shift dft loud w sc)).
    + rewrite bind_ok_l, Z.add_0_l, u32_id by lia. f_equal. unfold heard.
      set (n := length _). destruct (Z.ltb_spec 18 (Z.of_nat n)), (Nat.ltb_spec 18 n); (done || lia).
    + intros i c Hi%elem_of_range. destruct (all_rows_lookup w q i sc H) as (row & x & -> & Hx & Ht); [lia..|].
      rewrite bind_ok_l, Hx, bind_ok_l. unfold loud_at. by rewrite Ht.
Qed.

(** The detector has been given [x] since the last reset. *)
Record holds (x : list A) (q : sonica_nprach_t A) : Prop := mk_holds {
  ho_len : Z.of_nat (length x) < PREAMBLE_LEN;
  ho_block : at_block x (Z.of_nat (length x) / 512) q;
  ho_buf : q_buf_samp q = Z.of_nat (length x) mod 512;
  ho_left : take (Z.to_nat (q_buf_samp q)) (q_fft_in q) = drop (Z.to_nat (SAMP_SIZE * (Z.of_nat (length x) / 512))) x
}.

Lemma holds_resumes x c q : holds x q -> resumes x c (Z.of_nat (length x) / 512) (q_buf_samp q) 0 q.
Proof.
  intros [H1 H2 H3 H4]. unfold resumes. rewrite H3 in *. unfold SAMP_SIZE, PREAMBLE_LEN in *. split_and!; try dlia.
  - apply at_block_app; [dlia|dlia|done].
  - rewrite H4, drop_app_le by dlia. rewrite take_app_le by (rewrite length_drop; dlia).
    rewrite take_ge; [done|]. rewrite length_drop. dlia.
Qed.

Lemma all_rows_reset w q : all_rows w q -> holds [] (sonica_nprach_detect_reset (q <| q_buf_samp := 0 |>)).
Proof.
  intros [H1 H2 H3 H4 H5 H6]. split; cbn; try done. split; cbn; try done.
  intros i row Hi. exfalso. change (0 <= i < 0) in Hi. lia.
Qed.

(** A call of the detector, from what it was given to what it keeps. *)
Lemma detect_call x c more q : holds x q -> q_buf_samp q = 0 \/ 512 <= q_buf_samp q + Z.of_nat (length c) ->
  Z.of_nat (length (x ++ c)) < 2 ^ 31 ->
  exists q', sonica_nprach_detect shift dft loud q (c ++ more) (Z.of_nat (length c)) =
      Ok (if Z.of_nat (length (x ++ c)) <? PREAMBLE_LEN then None else preamble shift dft loud (x ++ c), q') /\
    if Z.of_nat (length (x ++ c)) <? PREAMBLE_LEN then holds (x ++ c) q' else holds [] (sonica_nprach_detect_reset q').
Proof.
  intros H Hgo Hmax. unfold sonica_nprach_detect.
  destruct (detect_loop_runs x c more (S (Z.to_nat (Z.of_nat (length c)))) _ _ 0 q (holds_resumes x c q H)) as (q' & o' & Ho' & Hrun); [lia|lia|done|lia|].
  cbv zeta in Hrun. rewrite Z.sub_0_r in Hrun. destruct (Z.ltb_spec (Z.of_nat (length (x ++ c))) PREAMBLE_LEN) as [Hs|Hs].
  - destruct Hrun as (-> & Hr & k' & Hat & Hk & _ & Ho & E & _). rewrite bind_ok_l. unfold SAMP_SIZE in E.
    rewrite length_app in Hs, Hmax. assert (Hk' : Z.of_nat (length (x ++ c)) / 512 = k') by (rewrite length_app; dlia).
    set (r := Z.of_nat (length c) - o') in *. pose proof Hat as [G1 G2 G3 G4 G5 G6 G7 G8].
    assert (Hd : drop (Z.to_nat (SAMP_SIZE * k')) (x ++ c) = drop (Z.to_nat o') c).
    { replace (Z.to_nat (SAMP_SIZE * k')) with (length x + Z.to_nat o')%nat by (unfold SAMP_SIZE; lia). by rewrite drop_app_add. }
    assert (Hcopy : exists fft_in, (if 0 <? r then mem_copy (q_fft_in q') 0 (c ++ more) o' r else Ok (q_fft_in q')) = Ok fft_in /\
      length fft_in = Z.to_nat 512 /\ take (Z.to_nat r) fft_in = drop (Z.to_nat o') c).
    { destruct (Z.ltb_spec 0 r).
      - unfold mem_copy, ub_unless. rewrite G1, length_app, !(proj2 (Z.leb_le _ _)) by lia.
        rewrite drop_app_le, take_app_le by (rewrite ?length_drop; lia). rewrite (take_ge (drop _ c)) by (rewrite length_drop; lia).
        eexists. split; [reflexivity|]. change (Z.to_nat 0) with O. rewrite take_0, app_nil_l. split.
        + rewrite length_app, !length_drop. lia.
        + rewrite take_app_le by (rewrite length_drop; lia). apply take_ge. rewrite length_drop. lia.
      - exists (q_fft_in q'). split_and!; [done|done|]. rewrite drop_ge by lia. by replace (Z.to_nat r) with O by lia. }
    destruct Hcopy as (fft_in & -> & Hfl & Hft). rewrite bind_ok_l. eexists. split; [reflexivity|].
    split; cbn [q_buf_samp upd eta eta_sonica_nprach q_fft_in].
    + rewrite length_app. lia.
    + rewrite Hk'. by split.
    + rewrite length_app. subst r. dlia.
    + rewrite Hk', Hd. done.
  - destruct Hrun as [-> Har]. rewrite bind_ok_l, (pick_all_rows (x ++ c)) by done. rewrite bind_ok_l. eexists. split; [reflexivity|].
    by apply (all_rows_reset (x ++ c)).
Qed.
End Correct.

(** [sonica_nprach_init] leaves a detector that has been given nothing. *)
Lemma init_holds {A} (shift dft : list A -> list A) zero heap : length heap = Z.to_nat 512 ->
  holds shift dft [] (sonica_nprach_init zero heap).
Proof.
  intros H. split; [done| |done..]. split; try done.
  - intros i row Hr. cbn in Hr. apply (lookup_replicate 20 (replicate SUBCARRIERS zero)) in Hr as [-> _]. done.
  - intros i row Hi. exfalso. change (0 <= i < 0) in Hi. lia.
Qed.

(** ** What a call reports *)

(** C19. A preamble is reported when the samples hold one.  Whatever the detector
    was given since the last reset, in pieces that each complete a block of 512
    samples, and whatever the transform makes of the blocks: a call stays inside
    its arrays and ends; while the samples of four symbol groups are not
    complete it reports nothing and keeps what it was given; with the last of
    them it reports the last of the twelve subcarriers whose track through the
    four groups is loud in more than 18 of its 20 symbols, and a reset makes the
    detector ready for the next preamble. *)
Theorem preamble_reported {A} (shift dft : list A -> list A) (loud : A -> bool) x piece more q :
  (forall y, length y = Z.to_nat 512 -> length (shift y) = Z.to_nat 512) ->
  (forall y, length y = Z.to_nat 512 -> length (dft y) = Z.to_nat 512) ->
  holds shift dft x q -> q_buf_samp q = 0 \/ 512 <= q_buf_samp q + Z.of_nat (length piece) ->
  Z.of_nat (length (x ++ piece)) < 2 ^ 31 ->
  exists q', sonica_nprach_detect shift dft loud q (piece ++ more) (Z.of_nat (length piece)) =
      Ok (if Z.of_nat (length (x ++ piece)) <? PREAMBLE_LEN then None else preamble shift dft loud (x ++ piece), q') /\
    if Z.of_nat (length (x ++ piece)) <? PREAMBLE_LEN then holds shift dft (x ++ piece) q'
    else holds shift dft [] (sonica_nprach_detect_reset q').
Proof. intros Hs Hd Hh Hgo Hmax. by apply detect_call. Qed.

(** A loud sample on subcarrier 4's track in every symbol, and one of another
    preamble in some. *)
Definition sample_block (k : Z) : list Z :=
  let g := k / 6 in
  (fun n => if n =? 268 + get_subcarrier_sg 4 g then 1 else if (n =? 268 + get_subcarrier_sg 9 g) && (k <? 20) then 1 else 0) <$> range 0 512.
Definition sample_signal : list Z := concat (sample_block <$> range 0 24).
Definition loud_Z (x : Z) : bool := 0 <? x.
Definition detect_result (r : res (option Z * sonica_nprach_t Z)) : option (option Z) :=
  match r with Ok (o, _) => Some o | _ => None end.

Lemma preamble_reported_witness :
  detect_result (sonica_nprach_detect id id loud_Z (sonica_nprach_init 0 (replicate 512 0)) sample_signal 12288) = Some (Some 40).
Proof.
  destruct (preamble_reported id id loud_Z [] sample_signal [] (sonica_nprach_init 0 (replicate 512 0))) as (q' & H & _);
    [done|done|by apply init_holds|by left|by vm_compute|].
  - rewrite app_nil_r in H. replace (Z.of_nat (length sample_signal)) with 12288 in H by by vm_compute.
    rewrite H. by vm_compute.
Defined.

(** ** The worker's calls *)

(** The samples of a buffer in one array; [heap] is what a subframe not yet
    written holds. *)
Definition samples {A} (heap : list A) (l : list (option (list A))) : list A := concat (default heap <$> l).

Section RunTti.
Context {A : Type} (shift dft : list A -> list A) (loud : A -> bool) (heap : list A).

(** [run_tti] with the worker's detector: the call, and the detector after it. *)
Definition run_tti_detector (emulate : bool) (b : sf_buffer (list A)) (q : sonica_nprach_t A)
  : res (option (Z * Z * Z) * sonica_nprach_t A) :=
  '(found, q) ← sonica_nprach_detect shift dft loud q (samples heap (sb_samples b)) (sb_nof_samples b);
  let q := sonica_nprach_detect_reset q in
  Ok (if negb emulate then match found with Some index => Some (sb_tti b, index, 5) | None => None end
      else if sb_tti b =? 384 then Some (sb_tti b, 41, 5) else None, q).
End RunTti.

Lemma samples_length {A} (heap : list A) l : (forall o, o ∈ l -> exists x, o = Some x /\ length x = Z.to_nat SF_LEN) ->
  length (samples heap l) = (length l * Z.to_nat SF_LEN)%nat.
Proof.
  induction l as [|o l IH]; intros H; [done|]. unfold samples in *. cbn. rewrite length_app, IH by (intros; apply H; by apply list_elem_of_further).
  destruct (H o (list_elem_of_here _ _)) as (x & -> & Hx). cbn. lia.
Qed.

(** C20. The detector behind the preamble windows.  For every window of seven
    subframes that the threads hand over, the call of [run_tti] with the real
    detector succeeds, is the one the model of the worker makes with a detector
    that sees only this window, and leaves the detector ready: what one window
    holds never shows in the next. *)
Theorem window_detector {A} (shift dft : list A -> list A) (loud : A -> bool) (heap : list A) air tti_of emulate b n0 q :
  (forall y, length y = Z.to_nat 512 -> length (shift y) = Z.to_nat 512) ->
  (forall y, length y = Z.to_nat 512 -> length (dft y) = Z.to_nat 512) ->
  (forall n, length (air n) = Z.to_nat SF_LEN) -> filled air tti_of b n0 7 -> holds shift dft [] q ->
  exists q', run_tti_detector shift dft loud heap emulate b q =
    Ok (run_tti (fun l => preamble shift dft loud (samples heap l)) emulate b, q') /\ holds shift dft [] q'.
Proof.
  intros Hs Hd Hair [Hl Hc _ Hf] Hq. unfold run_tti_detector, run_tti. rewrite Hc. change (7 * SF_LEN / SF_LEN) with 7.
  set (w := samples heap (take (Z.to_nat 7) (sb_samples b))).
  assert (Hw : length w = Z.to_nat (7 * SF_LEN)).
  { unfold w. rewrite samples_length.
    - rewrite Hf, length_fmap, length_range. unfold SF_LEN. lia.
    - rewrite Hf. intros o (k & -> & _)%list_elem_of_fmap. exists (air k). split; [done|apply Hair]. }
  assert (Hsplit : samples heap (sb_samples b) = w ++ samples heap (drop (Z.to_nat 7) (sb_samples b))).
  { unfold w, samples. rewrite <- concat_app, <- fmap_app, take_drop. done. }
  destruct (detect_call shift dft loud Hs Hd [] w (samples heap (drop (Z.to_nat 7) (sb_samples b))) q Hq) as (q' & E & Hr).
  - left. by rewrite (ho_buf _ _ _ _ Hq).
  - cbn [app]. rewrite Hw. unfold SF_LEN. lia.
  - rewrite Hsplit. cbn [app] in E, Hr. rewrite Hw in E, Hr. change (Z.of_nat (Z.to_nat (7 * SF_LEN))) with (7 * SF_LEN) in E, Hr.
    rewrite E, bind_ok_l. change (7 * SF_LEN <? PREAMBLE_LEN) with false in Hr |- *. eexists. split; [reflexivity|exact Hr].
Qed.

(** The sample preamble at the end of a window. *)
Definition sample_air (n : Z) : list Z := take (Z.to_nat 1920) (drop (Z.to_nat (1920 * (n - 68))) (sample_signal ++ replicate 1920 0)).
Definition sample_window : sf_buffer (list Z) :=
  mk_sf_buffer (((fun k => Some (sample_air k)) <$> range 68 7) ++ [None]) (7 * SF_LEN) 64.

Definition call_result (r : res (option (Z * Z * Z) * sonica_nprach_t Z)) : option (option (Z * Z * Z)) :=
  match r with Ok (o, _) => Some o | _ => None end.

Lemma window_detector_witness :
  call_result (run_tti_detector id id loud_Z [] false sample_window (sonica_nprach_init 0 (replicate 512 0))) = Some (Some (64, 40, 5)).
Proof.
  destruct (window_detector id id loud_Z [] (fun n => if (68 <=? n) && (n <? 75) then sample_air n else replicate 1920 0) rx_tti false
    sample_window 68 (sonica_nprach_init 0 (replicate 512 0))) as (q' & H & _); [done|done| | |by apply init_holds|].
  - intros n. destruct (Z.leb_spec 68 n), (Z.ltb_spec n 75); cbn [andb]; try apply length_replicate.
    unfold sample_air. rewrite length_take, length_drop, length_app, length_replicate.
    assert (length sample_signal = Z.to_nat 12288) as -> by (by vm_compute). unfold SF_LEN. lia.
  - split; [done|done|done|by vm_compute].
  - rewrite H. by vm_compute.
Defined.

(** ** Outside the contract *)

(** A piece that does not complete the block begun before replaces what was
    kept of it. *)
Lemma short_piece_forgets {A} (shift dft : list A -> list A) (loud : A -> bool) x piece q :
  holds shift dft x q -> 0 < Z.of_nat (length piece) -> q_buf_samp q + Z.of_nat (length piece) < 512 ->
  exists q', sonica_nprach_detect shift dft loud q piece (Z.of_nat (length piece)) = Ok (None, q') /\
    q_buf_samp q' = Z.of_nat (length piece) /\ take (length piece) (q_fft_in q') = piece /\
    q_cur_symg q' = q_cur_symg q /\ q_nxt_sym q' = q_nxt_sym q.
Proof.
  intros [H1 [G1 _ _ _ _ _ _ _] H3 H4] Hp Hs. unfold sonica_nprach_detect. cbn [detect_loop].
  pose proof (Z.mod_pos_bound (Z.of_nat (length x)) 512 ltac:(lia)).
  rewrite u32_id, (proj2 (Z.ltb_lt _ SAMP_SIZE)) by (unfold SAMP_SIZE; lia). rewrite bind_ok_l, (proj2 (Z.ltb_lt 0 _)) by lia.
  unfold mem_copy, ub_unless. rewrite G1, !(proj2 (Z.leb_le _ _)) by lia. rewrite bind_ok_l. eexists. split; [reflexivity|].
  cbn [upd eta eta_sonica_nprach q_buf_samp q_fft_in q_cur_symg q_nxt_sym]. split_and!; try done.
  change (Z.to_nat 0) with O. rewrite take_0, app_nil_l, drop_0, Nat2Z.id, (take_ge piece) by lia. apply take_app_length.
Qed.
