(* ===== verification/Npusch.v ===== *)
(** * Narrowband PUSCH

    [src/nbiot_phch/npusch.c] ([nbiot_phch/npusch.h]) and the decoder of
    [src/nbiot_phch/nulsch.c]: the mapping of a block's symbols to resource
    elements and back, the transmitter and the receiver of a block and the order
    of their stages.  What a stage of signal processing computes is a parameter;
    which elements of which array it reads and writes is not.  A sample is an
    abstract value. *)
From S2P Require Import Prelude Tti RaNbiot SchedTypes Npdsch SfUl.

Definition MAX_NPUSCH_RE : Z := 2 * 7 * 12 * 10.
Definition SRSLTE_NRE : Z := 12.

(** ** Resource elements *)
Section Mapping.
Context {A : Type}.

(** [sonica_npusch_cp]: [in0] and [out0] are where the two pointers point.  The
    number of elements copied and the output array. *)
Definition npusch_cp_symbol (input : list A) (in0 out0 : Z) (grant : ul_grant_t) (advance_input : bool)
    (slot : Z) (s : list A * Z * Z) (l : Z) : res (list A * Z * Z) :=
  let '(output, in_ptr, out_ptr) := s in
  if negb (l =? 3) then
    let idx := u32 ((slot * 7 + l) * SRSLTE_NRE + ug_sc0 grant) in
    let '(in_ptr, out_ptr) := if advance_input then (in_ptr, out0 + idx) else (in0 + idx, out_ptr) in
    output ← mem_copy output out_ptr input in_ptr (ug_nof_sc grant);
    Ok (if advance_input then (output, in_ptr + ug_nof_sc grant, out_ptr) else (output, in_ptr, out_ptr + ug_nof_sc grant))
  else Ok s.

Definition sonica_npusch_cp (input : list A) (in0 : Z) (output : list A) (out0 : Z) (grant : ul_grant_t)
    (advance_input : bool) : res (list A * Z) :=
  '(output, in_ptr, out_ptr) ← foldM (fun s slot => foldM (npusch_cp_symbol input in0 out0 grant advance_input slot) (range 0 7) s)
    (range 0 2) (output, in0, out0);
  Ok (output, if advance_input then in_ptr - in0 else out_ptr - out0).

Definition npusch_get (input : list A) (in0 : Z) (output : list A) (out0 : Z) (grant : ul_grant_t) : res (list A * Z) :=
  sonica_npusch_cp input in0 output out0 grant false.
Definition npusch_put (input : list A) (in0 : Z) (output : list A) (out0 : Z) (grant : ul_grant_t) : res (list A * Z) :=
  sonica_npusch_cp input in0 output out0 grant true.
End Mapping.

(** *** What a copy does, element by element *)

Lemma mem_copy_lookup {A} (dst : list A) doff src soff n dst' : 0 <= doff -> 0 <= soff -> 0 <= n ->
  mem_copy dst doff src soff n = Ok dst' -> forall j,
  dst' !! j = if decide (Z.to_nat doff <= j < Z.to_nat (doff + n))%nat then src !! (j - Z.to_nat doff + Z.to_nat soff)%nat else dst !! j.
Proof.
  intros Hd Hs Hn. unfold mem_copy, ub_unless.
  destruct (Z.leb_spec (doff + n) (Z.of_nat (length dst))), (Z.leb_spec (soff + n) (Z.of_nat (length src))); [|done..].
  intros [= <-] j. destruct (decide (j < Z.to_nat doff)%nat) as [Hj|Hj].
  - rewrite decide_False by lia. rewrite lookup_app_l by (rewrite length_take; lia). by rewrite lookup_take_lt by lia.
  - rewrite lookup_app_r by (rewrite length_take; lia). rewrite length_take, Nat.min_l by lia.
    destruct (decide (j < Z.to_nat (doff + n))%nat) as [Hj2|Hj2].
    + rewrite decide_True by lia. rewrite lookup_app_l by (rewrite length_take, length_drop; lia).
      rewrite lookup_take_lt, lookup_drop by lia. f_equal. lia.
    + rewrite decide_False by lia. rewrite lookup_app_r by (rewrite length_take, length_drop; lia).
      rewrite lookup_drop, length_take, length_drop. f_equal. lia.
Qed.

(** The symbols that carry data, and the allocated elements of one of them. *)
Definition data_rows : list Z := [0; 1; 2; 4; 5; 6; 7; 8; 9; 11; 12; 13].
Definition row_cell {A} (g : ul_grant_t) (sf : list A) (r : Z) : list A :=
  take (Z.to_nat (ug_nof_sc g)) (drop (Z.to_nat (r * SRSLTE_NRE + ug_sc0 g)) sf).
Definition sf_cells {A} (g : ul_grant_t) (sf : list A) : list A := concat (row_cell g sf <$> data_rows).

(** An allocation inside the carrier. *)
Definition alloc_ok (g : ul_grant_t) : Prop := 0 <= ug_sc0 g /\ 0 < ug_nof_sc g /\ ug_sc0 g + ug_nof_sc g <= 12.

Definition cp_row {A} (input : list A) (in0 out0 : Z) (g : ul_grant_t) (adv : bool) (s : list A * Z * Z) (r : Z) :
    res (list A * Z * Z) :=
  let '(output, in_ptr, out_ptr) := s in
  let idx := r * SRSLTE_NRE + ug_sc0 g in
  if adv then output ← mem_copy output (out0 + idx) input in_ptr (ug_nof_sc g); Ok (output, in_ptr + ug_nof_sc g, out0 + idx)
  else output ← mem_copy output out_ptr input (in0 + idx) (ug_nof_sc g); Ok (output, in0 + idx, out_ptr + ug_nof_sc g).

(** A loop that passes over some of its indices. *)
Lemma foldM_skip {S B} (f : S -> Z -> res S) (g : S -> B -> res S) (p : Z -> bool) (h : Z -> B) l s :
  (forall i s, i ∈ l -> f s i = if p i then g s (h i) else Ok s) ->
  foldM f l s = foldM g (h <$> filter (fun i => p i = true) l) s.
Proof.
  revert s; induction l as [|i l IH]; intros s H; [done|]. cbn [foldM]. rewrite H by apply list_elem_of_here.
  assert (IH' : forall s, foldM f l s = foldM g (h <$> filter (fun i => p i = true) l) s)
    by (intros; apply IH; intros; apply H; by apply list_elem_of_further).
  rewrite filter_cons. destruct (p i).
  - rewrite decide_True by done. cbn [fmap list_fmap foldM]. by destruct (g s (h i)); cbn [mbind res_bind].
  - rewrite decide_False by done. cbn [mbind res_bind]. apply IH'.
Qed.

(** The two loops visit the twelve data symbols. *)
Lemma cp_rows {A} (input : list A) in0 output out0 g adv : alloc_ok g ->
  sonica_npusch_cp input in0 output out0 g adv =
    '(output, in_ptr, out_ptr) ← foldM (cp_row input in0 out0 g adv) data_rows (output, in0, out0);
    Ok (output, if adv then in_ptr - in0 else out_ptr - out0).
Proof.
  intros (H1 & H2 & H3). unfold sonica_npusch_cp. f_equal.
  assert (Hsym : forall slot l s, 0 <= slot < 2 -> 0 <= l < 7 -> l <> 3 ->
    npusch_cp_symbol input in0 out0 g adv slot s l = cp_row input in0 out0 g adv s (slot * 7 + l)).
  { intros slot l [[o i] p] Hs Hl Hn. unfold npusch_cp_symbol, cp_row, SRSLTE_NRE. replace (l =? 3) with false by lia. cbn [negb].
    rewrite u32_id by lia. by destruct adv. }
  assert (Hslot : forall slot s, 0 <= slot < 2 -> foldM (npusch_cp_symbol input in0 out0 g adv slot) (range 0 7) s =
    foldM (cp_row input in0 out0 g adv) ((fun l => slot * 7 + l) <$> [0; 1; 2; 4; 5; 6]) s).
  { intros slot s Hs. apply (foldM_skip _ _ (fun l => negb (l =? 3))). intros l [[o i] p] Hl%elem_of_range.
    destruct (Z.eqb_spec l 3) as [->|Hn]; [done|]. by apply Hsym; [|lia|]. }
  change (range 0 2) with [0; 1]. cbn [foldM]. rewrite Hslot by lia.
  change data_rows with (((fun l => 0 * 7 + l) <$> [0; 1; 2; 4; 5; 6]) ++ ((fun l => 1 * 7 + l) <$> [0; 1; 2; 4; 5; 6])).
  rewrite foldM_app. destruct (foldM _ _ (output, in0, out0)) as [s| |]; [|done|done]. cbn [mbind res_bind].
  rewrite Hslot by lia. by destruct (foldM _ _ s).
Qed.

Lemma length_row_cell {A} g (sf : list A) r : alloc_ok g -> 0 <= r < 14 -> 168 <= Z.of_nat (length sf) ->
  length (row_cell g sf r) = Z.to_nat (ug_nof_sc g).
Proof.
  intros (H1 & H2 & H3) Hr Hl. unfold row_cell, SRSLTE_NRE. rewrite length_take, length_drop. lia.
Qed.

Lemma length_cells {A} g (sf : list A) rows : alloc_ok g -> (forall r, r ∈ rows -> 0 <= r < 14) -> 168 <= Z.of_nat (length sf) ->
  length (concat (row_cell g sf <$> rows)) = (length rows * Z.to_nat (ug_nof_sc g))%nat.
Proof.
  intros Hg Hr Hl. induction rows as [|r rows IH]; [done|]. cbn. rewrite length_app, length_row_cell, IH; [done|..|done];
    try done; [intros x Hx; apply Hr; by apply list_elem_of_further|apply Hr, list_elem_of_here].
Qed.

Lemma data_rows_in r : r ∈ data_rows -> 0 <= r < 14.
Proof. unfold data_rows. intros H. set_unfold. lia. Qed.

Lemma length_sf_cells {A} g (sf : list A) : alloc_ok g -> 168 <= Z.of_nat (length sf) ->
  length (sf_cells g sf) = Z.to_nat (12 * ug_nof_sc g).
Proof.
  intros Hg Hl. unfold sf_cells. rewrite length_cells by (done || apply data_rows_in). change (length data_rows) with 12%nat.
  destruct Hg as (_ & ? & _). lia.
Qed.

Lemma row_cell_drop {A} g (input : list A) in0 r : alloc_ok g -> 0 <= in0 -> 0 <= r ->
  take (Z.to_nat (ug_nof_sc g)) (drop (Z.to_nat (in0 + (r * SRSLTE_NRE + ug_sc0 g))) input) = row_cell g (drop (Z.to_nat in0) input) r.
Proof. intros (H1 & H2 & H3) Hi Hr. unfold row_cell, SRSLTE_NRE. rewrite drop_drop. do 2 f_equal. lia. Qed.

Lemma get_rows {A} g (input : list A) in0 out0 rows output in_ptr out_ptr : alloc_ok g -> (forall r, r ∈ rows -> 0 <= r < 14) ->
  0 <= in0 -> in0 + 168 <= Z.of_nat (length input) -> 0 <= out_ptr ->
  out_ptr + Z.of_nat (length rows) * ug_nof_sc g <= Z.of_nat (length output) ->
  exists in_ptr', foldM (cp_row input in0 out0 g false) rows (output, in_ptr, out_ptr) =
    Ok (take (Z.to_nat out_ptr) output ++ concat (row_cell g (drop (Z.to_nat in0) input) <$> rows) ++
          drop (Z.to_nat (out_ptr + Z.of_nat (length rows) * ug_nof_sc g)) output,
        in_ptr', out_ptr + Z.of_nat (length rows) * ug_nof_sc g).
Proof.
  intros Hg Hr Hi Hil. pose proof Hg as (H1 & H2 & H3). revert output in_ptr out_ptr.
  induction rows as [|r rows IH]; intros output in_ptr out_ptr Ho Hol.
  - exists in_ptr. cbn. rewrite Z.add_0_r, take_drop. done.
  - cbn [foldM]. change (cp_row input in0 out0 g false (output, in_ptr, out_ptr) r) with
      (o ← mem_copy output out_ptr input (in0 + (r * SRSLTE_NRE + ug_sc0 g)) (ug_nof_sc g);
       Ok (o, in0 + (r * SRSLTE_NRE + ug_sc0 g), out_ptr + ug_nof_sc g)).
    pose proof (Hr r (list_elem_of_here _ _)). cbn [length] in Hol. assert (0 <= Z.of_nat (length rows) * ug_nof_sc g) by nia.
    rewrite mem_copy_in by (unfold SRSLTE_NRE; lia). rewrite !bind_ok_l, row_cell_drop by (done || lia).
    set (cell := row_cell _ _ r). assert (Hc : length cell = Z.to_nat (ug_nof_sc g)).
    { apply length_row_cell; [done..|]. rewrite length_drop. lia. }
    set (o1 := take _ output ++ _). assert (Ho1 : length o1 = length output).
    { unfold o1. rewrite !length_app, length_take, length_drop, Hc. lia. }
    destruct (IH ltac:(intros; apply Hr; by apply list_elem_of_further) o1 (in0 + (r * SRSLTE_NRE + ug_sc0 g)) (out_ptr + ug_nof_sc g)) as [ip' ->];
      [lia|lia|]. exists ip'. f_equal. f_equal; [|cbn [length]; lia]. f_equal.
    replace (out_ptr + ug_nof_sc g + Z.of_nat (length rows) * ug_nof_sc g) with
      (out_ptr + Z.of_nat (length (r :: rows)) * ug_nof_sc g) by (cbn [length]; lia).
    assert (E1 : take (Z.to_nat (out_ptr + ug_nof_sc g)) o1 = take (Z.to_nat out_ptr) output ++ cell).
    { unfold o1. rewrite app_assoc, take_app_le by (rewrite length_app, length_take, Hc; lia).
      apply take_ge. rewrite length_app, length_take, Hc. lia. }
    assert (E2 : forall n, out_ptr + ug_nof_sc g <= n -> drop (Z.to_nat n) o1 = drop (Z.to_nat n) output).
    { intros n Hn. unfold o1. rewrite !drop_app_ge by (rewrite ?length_take, ?Hc; lia). rewrite drop_drop. f_equal.
      rewrite length_take, Hc. lia. }
    rewrite E1, E2 by (cbn [length]; lia). cbn [fmap list_fmap concat]. by rewrite <- !app_assoc.
Qed.

(** [npusch_get]: the allocated elements of a subframe, one symbol after another. *)
Lemma npusch_get_ok {A} (input : list A) in0 output out0 g : alloc_ok g -> 0 <= in0 -> in0 + 168 <= Z.of_nat (length input) ->
  0 <= out0 -> out0 + 12 * ug_nof_sc g <= Z.of_nat (length output) ->
  npusch_get input in0 output out0 g =
    Ok (take (Z.to_nat out0) output ++ sf_cells g (drop (Z.to_nat in0) input) ++ drop (Z.to_nat (out0 + 12 * ug_nof_sc g)) output,
        12 * ug_nof_sc g).
Proof.
  intros Hg Hi Hil Ho Hol. unfold npusch_get. rewrite cp_rows by done.
  destruct (get_rows g input in0 out0 data_rows output in0 out0) as [ip' ->]; try done; [apply data_rows_in|].
  rewrite bind_ok_l. change (Z.of_nat (length data_rows)) with 12. do 2 f_equal. lia.
Qed.

(** Where an element of the carrier is allocated. *)
Definition in_cell (g : ul_grant_t) (r j : Z) : Prop := r * SRSLTE_NRE + ug_sc0 g <= j < r * SRSLTE_NRE + ug_sc0 g + ug_nof_sc g.

Lemma row_cell_ext {A} g (sf sf' : list A) r : alloc_ok g -> 0 <= r ->
  (forall j, in_cell g r (Z.of_nat j) -> sf !! j = sf' !! j) -> row_cell g sf r = row_cell g sf' r.
Proof.
  intros (H1 & H2 & H3) Hr H. apply list_eq. intros i. unfold row_cell.
  destruct (decide (i < Z.to_nat (ug_nof_sc g))%nat) as [Hi|Hi]; [|by rewrite !lookup_take_ge by lia].
  rewrite !lookup_take_lt, !lookup_drop by done. apply H. unfold in_cell, SRSLTE_NRE in *. lia.
Qed.

Lemma put_rows {A} g (input : list A) in0 rows sf in_ptr out_ptr : alloc_ok g -> NoDup rows -> (forall r, r ∈ rows -> 0 <= r < 14) ->
  168 <= Z.of_nat (length sf) -> 0 <= in_ptr -> in_ptr + Z.of_nat (length rows) * ug_nof_sc g <= Z.of_nat (length input) ->
  exists sf' out_ptr', foldM (cp_row input in0 0 g true) rows (sf, in_ptr, out_ptr) =
      Ok (sf', in_ptr + Z.of_nat (length rows) * ug_nof_sc g, out_ptr') /\ length sf' = length sf /\
    (forall j, (forall r, r ∈ rows -> ~ in_cell g r (Z.of_nat j)) -> sf' !! j = sf !! j) /\
    concat (row_cell g sf' <$> rows) = take (Z.to_nat (Z.of_nat (length rows) * ug_nof_sc g)) (drop (Z.to_nat in_ptr) input).
Proof.
  intros Hg Hnd Hr. pose proof Hg as (H1 & H2 & H3). revert sf in_ptr out_ptr.
  induction rows as [|r rows IH]; intros sf in_ptr out_ptr Hsf Hi Hil.
  - exists sf, out_ptr. cbn. rewrite Z.add_0_r. done.
  - cbn [foldM length] in *. change (cp_row input in0 0 g true (sf, in_ptr, out_ptr) r) with
      (output ← mem_copy sf (0 + (r * SRSLTE_NRE + ug_sc0 g)) input in_ptr (ug_nof_sc g);
       Ok (output, in_ptr + ug_nof_sc g, 0 + (r * SRSLTE_NRE + ug_sc0 g))).
    pose proof (Hr r (list_elem_of_here _ _)). rewrite Z.add_0_l. assert (0 <= Z.of_nat (length rows) * ug_nof_sc g) by nia.
    apply NoDup_cons in Hnd as [Hnr Hnd].
    destruct (mem_copy sf (r * SRSLTE_NRE + ug_sc0 g) input in_ptr (ug_nof_sc g)) as [sf1| |] eqn:E;
      [|rewrite mem_copy_in in E by (unfold SRSLTE_NRE; lia); done..]. rewrite !bind_ok_l.
    pose proof (mem_copy_lookup sf (r * SRSLTE_NRE + ug_sc0 g) input in_ptr (ug_nof_sc g) sf1 ltac:(unfold SRSLTE_NRE; lia) Hi ltac:(lia) E) as Hl1.
    apply length_mem_copy in E as Hlen; [|unfold SRSLTE_NRE; lia..].
    destruct (IH Hnd ltac:(intros; apply Hr; by apply list_elem_of_further) sf1 (in_ptr + ug_nof_sc g) (r * SRSLTE_NRE + ug_sc0 g))
      as (sf' & op' & -> & Hl' & Hk & Hc); [lia|lia|lia|]. exists sf', op'. split_and!.
    + do 3 f_equal. lia.
    + lia.
    + intros j Hj. rewrite Hk by (intros x Hx; apply Hj; by apply list_elem_of_further). rewrite Hl1.
      rewrite decide_False; [done|]. pose proof (Hj r (list_elem_of_here _ _)) as Hn. unfold in_cell, SRSLTE_NRE in *. lia.
    + cbn [fmap list_fmap concat]. assert (Hsame : row_cell g sf' r = row_cell g sf1 r).
      { apply row_cell_ext; [done|lia|]. intros j Hj. apply Hk. intros x Hx Hin. assert (x <> r) by (by intros ->).
        unfold in_cell, SRSLTE_NRE in *. lia. }
      rewrite Hc, Hsame.
      replace (row_cell g sf1 r) with (take (Z.to_nat (ug_nof_sc g)) (drop (Z.to_nat in_ptr) input)).
      * replace (Z.to_nat (Z.of_nat (S (length rows)) * ug_nof_sc g)) with
          (Z.to_nat (ug_nof_sc g) + Z.to_nat (Z.of_nat (length rows) * ug_nof_sc g))%nat by lia.
        rewrite <- take_take_drop. do 2 f_equal. rewrite drop_drop. f_equal. lia.
      * apply list_eq. intros i. unfold row_cell.
        destruct (decide (i < Z.to_nat (ug_nof_sc g))%nat) as [Hlt|Hge]; [|by rewrite !lookup_take_ge by lia].
        rewrite !lookup_take_lt, !lookup_drop by done. rewrite Hl1, decide_True by (unfold SRSLTE_NRE in *; lia). f_equal. lia.
Qed.

(** [npusch_put]: the next [12 * nof_sc] symbols into the allocated elements. *)
Lemma npusch_put_ok {A} (input : list A) in0 sf g : alloc_ok g -> 168 <= Z.of_nat (length sf) -> 0 <= in0 ->
  in0 + 12 * ug_nof_sc g <= Z.of_nat (length input) ->
  exists sf', npusch_put input in0 sf 0 g = Ok (sf', 12 * ug_nof_sc g) /\ length sf' = length sf /\
    sf_cells g sf' = take (Z.to_nat (12 * ug_nof_sc g)) (drop (Z.to_nat in0) input) /\
    forall j, (forall r, r ∈ data_rows -> ~ in_cell g r (Z.of_nat j)) -> sf' !! j = sf !! j.
Proof.
  intros Hg Hsf Hi Hil. unfold npusch_put. rewrite cp_rows by done.
  destruct (put_rows g input in0 data_rows sf in0 0) as (sf' & op' & -> & Hl & Hk & Hc); try done.
  - apply (bool_decide_unpack _). by vm_compute.
  - apply data_rows_in.
  - change (Z.of_nat (length data_rows)) with 12 in *. exists sf'. rewrite bind_ok_l. split_and!; try done. do 2 f_equal. lia.
Qed.

(** ** Stages on arrays *)

(** A stage that reads the first [n] elements of [src]. *)
Definition vec_in {A} (src : list A) (n : Z) : res (list A) :=
  ub_unless (n <=? Z.of_nat (length src)) OobRead (Ok (take (Z.to_nat n) src)).
(** A stage that writes [out] to the start of [dst]. *)
Definition vec_out {A} (out dst : list A) : res (list A) := mem_copy dst 0 out 0 (Z.of_nat (length out)).

Lemma vec_in_ok {A} (src : list A) n : n <= Z.of_nat (length src) -> vec_in src n = Ok (take (Z.to_nat n) src).
Proof. intros H. unfold vec_in, ub_unless. by rewrite (proj2 (Z.leb_le _ _)) by done. Qed.

Lemma vec_out_ok {A} (out dst : list A) : (length out <= length dst)%nat -> vec_out out dst = Ok (out ++ drop (length out) dst).
Proof.
  intros H. unfold vec_out. rewrite mem_copy_in by lia.
  change (Z.to_nat 0) with O. by rewrite Z.add_0_l, !Nat2Z.id, take_0, drop_0, (take_ge out) by lia.
Qed.

(** ** [sonica_npusch_t] and the stages of a block *)
Record sonica_npusch_t (A S : Type) := mk_npusch {
  nq_n_id_ncell : Z;
  nq_nof_prb : Z;
  nq_max_re : Z;
  nq_q_bits : list S;
  nq_g_bits : list S;
  nq_d : list A;
  nq_tx_syms : list A;
  nq_rx_syms : list A;
  nq_ce : list A
}.
Arguments mk_npusch {A S}.
Arguments nq_n_id_ncell {A S}.
Arguments nq_nof_prb {A S}.
Arguments nq_max_re {A S}.
Arguments nq_q_bits {A S}.
Arguments nq_g_bits {A S}.
Arguments nq_d {A S}.
Arguments nq_tx_syms {A S}.
Arguments nq_rx_syms {A S}.
Arguments nq_ce {A S}.
#[export] Instance eta_npusch {A S} : Eta (sonica_npusch_t A S) := {| eta := fun q =>
  mk_npusch (nq_n_id_ncell q) (nq_nof_prb q) (nq_max_re q) (nq_q_bits q) (nq_g_bits q) (nq_d q) (nq_tx_syms q) (nq_rx_syms q) (nq_ce q) |}.

(** [sonica_segm] *)
Record sonica_segm := mk_segm { sg_C : Z; sg_Cplus : Z; sg_Cminus : Z; sg_Kplus : Z; sg_Kminus : Z; sg_F : Z }.

(** The functions of the transform, the modem, the scrambler and the channel
    coders that the block's code calls: [A] is a sample, [S] a soft bit, [Q] a
    scrambling sequence, [W] a rate matcher's mask, [N] a noise estimate. *)
Class NpuschStages (A S Q W N : Type) := {
  srslte_predecoding_single : list A -> list A -> N -> list A;
  (** [srslte_dft_precoding(q, in, out, 1, nof_symbols)] of a transmitter and of
      a receiver *)
  dft_precoding_tx : list A -> list A;
  dft_precoding_rx : list A -> list A;
  srslte_demod_soft_demodulate_s : Z -> list A -> list S;
  srslte_mod_modulate_bytes : list Z -> list A;
  srslte_sequence_npusch : Z -> Z -> Z -> Z -> Z -> Q;
  srslte_scrambling_s : Q -> list S -> list S;
  srslte_scrambling_bytes : Q -> list Z -> list Z;
  srslte_nulsch_encode : ul_grant_t -> list Z -> Z * list Z;
  openair_lte_segmentation : Z -> option sonica_segm;
  ulsch_deinterleave : Z -> Z -> Z -> list S -> list S;
  openair_generate_dummy_w : Z -> Z -> Z * W;
  openair_lte_rm_turbo_rx : Z -> Z -> W -> list S -> Z -> Z -> Z -> option (list S * Z);
  openair_sub_block_deinterleaving_turbo : Z -> list S -> list S;
  f1f2mat_old : list Z;
  openair_3gpp_turbo_decoder16 : list S -> Z -> Z -> Z -> Z -> Z -> Z * list Z
}.

Section Blocks.
Context {A S Q W N : Type} `{NpuschStages A S Q W N}.

(** [npusch_init]: [heap_re] and [heap_bits] are what the allocator returns. *)
Definition npusch_init (heap_re : list A) (heap_bits : list S) : sonica_npusch_t A S :=
  mk_npusch 0 0 MAX_NPUSCH_RE (take (Z.to_nat (MAX_NPUSCH_RE * 2)) heap_bits) (take (Z.to_nat (MAX_NPUSCH_RE * 2)) heap_bits)
    (take (Z.to_nat MAX_NPUSCH_RE) heap_re) (take (Z.to_nat MAX_NPUSCH_RE) heap_re)
    (take (Z.to_nat MAX_NPUSCH_RE) heap_re) (take (Z.to_nat MAX_NPUSCH_RE) heap_re).

(** [sonica_npusch_set_cell]; [valid] is [srslte_nbiot_cell_isvalid(&cell)]. *)
Definition sonica_npusch_set_cell (q : sonica_npusch_t A S) (valid : bool) (n_id_ncell nof_prb : Z) : Z * sonica_npusch_t A S :=
  if valid then (SRSLTE_SUCCESS, q <| nq_n_id_ncell := n_id_ncell |> <| nq_nof_prb := nof_prb |>)
  else (SRSLTE_ERROR_INVALID_INPUTS, q).

Definition get_user_sequence (q : sonica_npusch_t A S) (rnti_ nf nslot len : Z) : Q :=
  srslte_sequence_npusch rnti_ nf nslot (nq_n_id_ncell q) len.

(** The sequence of a block. *)
Definition block_sequence (q : sonica_npusch_t A S) (cfg : npusch_cfg_t) : Q :=
  get_user_sequence q (uc_rnti cfg) (ug_tx_tti (uc_grant cfg) / 10) (u32 (ug_tx_tti (uc_grant cfg) mod 10 * 2)) (nb_nof_bits (uc_nbits cfg)).

(** [sonica_npusch_encode] up to the symbols: the code's result, the object. *)
Definition encode_block (q : sonica_npusch_t A S) (cfg : npusch_cfg_t) (data : list Z) : res (Z * sonica_npusch_t A S) :=
  let '(ret, bits) := srslte_nulsch_encode (uc_grant cfg) data in
  if negb (ret =? 0) then Ok (ret, q) else
  let bits := srslte_scrambling_bytes (block_sequence q cfg) bits in
  d ← vec_out (srslte_mod_modulate_bytes bits) (nq_d q);
  x ← vec_in d (12 * u32 (ug_nof_slots (uc_grant cfg) * 6));
  tx ← vec_out (dft_precoding_tx x) (nq_tx_syms q);
  Ok (SRSLTE_SUCCESS, q <| nq_d := d |> <| nq_tx_syms := tx |>).

(** [sonica_npusch_encode]: one subframe of the block. *)
Definition sonica_npusch_encode (q : sonica_npusch_t A S) (cfg : npusch_cfg_t) (data : list Z) (sf_symbols : list A)
    : res (Z * sonica_npusch_t A S * npusch_cfg_t * list A) :=
  if ug_tbs (uc_grant cfg) =? 0 then Ok (SRSLTE_ERROR_INVALID_INPUTS, q, cfg, sf_symbols) else
  '(ret, q, cfg) ← (if negb (uc_is_encoded cfg) then
      '(ret, q) ← encode_block q cfg data;
      Ok (ret, q, if ret =? 0 then cfg <| uc_is_encoded := true |> else cfg)
    else Ok (0, q, cfg));
  if negb (ret =? 0) then Ok (ret, q, cfg, sf_symbols) else
  '(sf_symbols, _) ← npusch_put (nq_tx_syms q) (u32 (uc_sf_idx cfg * 6 * 2 * ug_nof_sc (uc_grant cfg))) sf_symbols 0 (uc_grant cfg);
  Ok (SRSLTE_SUCCESS, q, cfg <| uc_num_sf := u32 (uc_num_sf cfg + 1) |> <| uc_sf_idx := u32 (uc_sf_idx cfg + 1) |>, sf_symbols).

(** [sonica_nulsch_decode]: the de-interleaving of each resource unit. *)
Definition deinterleave_ru (grant : ul_grant_t) (nb_q_ru : Z) (q_bits g_bits : list S) (i : Z) : res (list S) :=
  x ← vec_in (drop (Z.to_nat (i * nb_q_ru)) q_bits) nb_q_ru;
  let y := ulsch_deinterleave (ug_Qm grant) (nb_q_ru / ug_Qm grant) 12 x in
  mem_copy g_bits (i * nb_q_ru) y 0 (Z.of_nat (length y)).

Definition interleaver_index (Kr_bytes : Z) : Z :=
  if Kr_bytes <=? 64 then i32 (Kr_bytes - 5)
  else if Kr_bytes <=? 128 then 59 + Z.shiftr (Kr_bytes - 64) 1
  else if Kr_bytes <=? 256 then 91 + Z.shiftr (Kr_bytes - 128) 2
  else if Kr_bytes <=? 768 then 123 + Z.shiftr (Kr_bytes - 256) 3
  else 0.

(** One code block: the result of the turbo decoder and the block, or [None]
    for an error of the rate matcher.  [r_offset] advances by what it took. *)
Definition decode_code_block (grant : ul_grant_t) (segm : sonica_segm) (nb_q : Z) (g_bits : list S) (r r_offset : Z)
    : res (option (Z * list Z * Z)) :=
  let Kr := if r <? sg_Cminus segm then sg_Kminus segm else sg_Kplus segm in
  let F := if r =? 0 then sg_F segm else 0 in
  let iind := interleaver_index (Kr / 8) in
  ub_unless (r <? 3) OobWrite (
  let '(RTC, dummy_w) := openair_generate_dummy_w (4 + Kr) F in
  match openair_lte_rm_turbo_rx RTC nb_q dummy_w (drop (Z.to_nat r_offset) g_bits) (sg_C segm) (ug_Qm grant) r with
  | None => Ok None
  | Some (w, E) =>
      let d := openair_sub_block_deinterleaving_turbo (4 + Kr) w in
      f1 ← arr_read f1f2mat_old (iind * 2);
      f2 ← arr_read f1f2mat_old (iind * 2 + 1);
      let crc_type := if sg_C segm =? 1 then 0 else 1 in
      let '(ret, c) := openair_3gpp_turbo_decoder16 d Kr f1 f2 crc_type F in
      Ok (Some (ret, c, u32 (r_offset + E)))
  end).

(** The loop over the code blocks, from [r] on, [n] left. *)
Fixpoint decode_code_blocks (n : nat) (grant : ul_grant_t) (segm : sonica_segm) (nb_q : Z) (g_bits : list S)
    (r r_offset offset : Z) (data : list Z) : res (Z * list Z) :=
  match n with
  | O => Ok (SRSLTE_SUCCESS, data)
  | Datatypes.S n =>
      blk ← decode_code_block grant segm nb_q g_bits r r_offset;
      match blk with
      | None => Ok (-1, data)
      | Some (ret, c, r_offset) =>
          if negb (ret =? 1 + 10) then
            let Kr_bytes := (if r <? sg_Cminus segm then sg_Kminus segm else sg_Kplus segm) / 8 in
            let crc := if 1 <? sg_C segm then 3 else 0 in
            let from := if r =? 0 then sg_F segm / 8 else 0 in
            let len := u32 (Kr_bytes - from - crc) in
            data ← mem_copy data offset c from len;
            decode_code_blocks n grant segm nb_q g_bits (r + 1) r_offset (u32 (offset + len)) data
          else Ok (SRSLTE_ERROR, data)
      end
  end.

(** The code's result, [g_bits] and the bytes of [data]. *)
Definition sonica_nulsch_decode (cfg : npusch_cfg_t) (q_bits g_bits : list S) (data : list Z) : res (Z * list S * list Z) :=
  let grant := uc_grant cfg in
  match openair_lte_segmentation (ug_tbs grant + 3 * 8) with
  | None => Ok (SRSLTE_ERROR_INVALID_INPUTS, g_bits, data)
  | Some segm =>
      let nb_q := nb_nof_bits (uc_nbits cfg) in
      let nb_q_ru := nb_q / ug_nof_ru grant in
      ub_unless (negb (ug_nof_ru grant =? 0) && negb (ug_Qm grant =? 0)) DivByZero (
      g_bits ← foldM (deinterleave_ru grant nb_q_ru q_bits) (range 0 (Z.to_nat (ug_nof_ru grant))) g_bits;
      '(ret, data) ← decode_code_blocks (Z.to_nat (sg_C segm)) grant segm nb_q g_bits 0 0 0 data;
      Ok (ret, g_bits, data))
  end.

(** One subframe of the receiver's first loop. *)
Definition gather_sf (cfg : npusch_cfg_t) (nof_prb : Z) (sf_symbols ce : list A) (s : option (list A * list A)) (i : Z)
    : res (option (list A * list A)) :=
  match s with
  | None => Ok None
  | Some (rx_syms, ce_syms) =>
      let num_re_per_sf := u32 (6 * 2 * ug_nof_sc (uc_grant cfg)) in
      let sf_len := 2 * 7 * nof_prb * 12 in
      '(rx_syms, n) ← npusch_get sf_symbols (u32 (i * sf_len)) rx_syms (u32 (i * num_re_per_sf)) (uc_grant cfg);
      if negb (n =? num_re_per_sf) then Ok None else
      '(ce_syms, n) ← npusch_get ce (u32 (i * sf_len)) ce_syms (u32 (i * num_re_per_sf)) (uc_grant cfg);
      if negb (n =? num_re_per_sf) then Ok None else Ok (Some (rx_syms, ce_syms))
  end.

(** [sonica_npusch_decode] *)
Definition sonica_npusch_decode (q : sonica_npusch_t A S) (cfg : npusch_cfg_t) (sf_symbols ce : list A) (noise_estimate : N)
    (data : list Z) : res (Z * sonica_npusch_t A S * list Z) :=
  let grant := uc_grant cfg in
  let nof_re := nb_nof_re (uc_nbits cfg) in
  let nof_bits := nb_nof_bits (uc_nbits cfg) in
  let num_sf := ug_nof_slots grant / 2 in
  got ← foldM (gather_sf cfg (nq_nof_prb q) sf_symbols ce) (range 0 (Z.to_nat num_sf)) (Some (nq_rx_syms q, nq_ce q));
  match got with
  | None => Ok (SRSLTE_ERROR, q, data)
  | Some (rx_syms, ce_syms) =>
      x ← vec_in rx_syms nof_re;
      h ← vec_in ce_syms nof_re;
      d ← vec_out (srslte_predecoding_single x h noise_estimate) (nq_d q);
      x ← vec_in d (12 * u32 (ug_nof_slots grant * 6));
      rx_syms ← vec_out (dft_precoding_rx x) rx_syms;
      x ← vec_in rx_syms nof_re;
      q_bits ← vec_out (srslte_demod_soft_demodulate_s (ug_Qm grant) x) (nq_q_bits q);
      x ← vec_in q_bits nof_bits;
      q_bits ← vec_out (srslte_scrambling_s (block_sequence q cfg) x) q_bits;
      '(ret, g_bits, data) ← sonica_nulsch_decode cfg q_bits (nq_g_bits q) data;
      Ok (ret, q <| nq_rx_syms := rx_syms |> <| nq_ce := ce_syms |> <| nq_d := d |> <| nq_q_bits := q_bits |> <| nq_g_bits := g_bits |>, data)
  end.
End Blocks.

(** ** What the stages promise

    The lengths of what they return, and of the channel decoder what 3GPP TS
    36.212, 5.1.2, says of a block that fits one code block, that the table of
    the interleaver covers its 188 sizes, and that rate matching reads the bits
    it is told to. *)
Class NpuschStagesOk (A S Q W N : Type) `{NpuschStages A S Q W N} : Prop := {
  predecoding_len : forall x h n, length h = length x -> length (srslte_predecoding_single x h n) = length x;
  dft_rx_len : forall x, length (dft_precoding_rx x) = length x;
  demod_len : forall m x, length (srslte_demod_soft_demodulate_s m x) = (Z.to_nat m * length x)%nat;
  scrambling_s_len : forall c x, length (srslte_scrambling_s c x) = length x;
  deinterleave_len : forall m h n x, length (ulsch_deinterleave m h n x) = length x;
  segmentation_one : forall B, 24 <= B <= 6144 -> exists segm, openair_lte_segmentation B = Some segm /\
    sg_C segm = 1 /\ sg_Cminus segm = 0 /\ 40 <= sg_Kplus segm <= 6144 /\ sg_Kplus segm mod 8 = 0 /\
    0 <= sg_F segm /\ sg_Kplus segm - sg_F segm = B;
  f1f2_len : length f1f2mat_old = 376%nat;
  rm_turbo_reads : forall RTC G w x C m r, 0 <= G ->
    openair_lte_rm_turbo_rx RTC G w x C m r = openair_lte_rm_turbo_rx RTC G w (take (Z.to_nat G) x) C m r;
  turbo_len : forall d K f1 f2 crc F, 0 <= K -> (Z.to_nat (K / 8) <= length (openair_3gpp_turbo_decoder16 d K f1 f2 crc F).2)%nat
}.

(** The allocated elements of the first [n] subframes of a buffer. *)
Definition block_cells {A} (g : ul_grant_t) (sf : list A) (n : nat) : list A :=
  concat ((fun i => sf_cells g (drop (Z.to_nat (168 * i)) sf)) <$> range 0 n).

(** A grant of the whole carrier. *)
Record full_grant (g : ul_grant_t) : Prop := mk_full_grant {
  fg_sc0 : ug_sc0 g = 0;
  fg_nof_sc : ug_nof_sc g = 12;
  fg_ru : 1 <= ug_nof_ru g <= 10;
  fg_slots : ug_nof_slots g = 2 * ug_nof_ru g;
  fg_Qm : ug_Qm g = 2;
  fg_tbs : 0 <= ug_tbs g <= 1000;
  fg_bytes : ug_tbs g mod 8 = 0
}.

Lemma tbs_table_bytes t : t ∈ concat tbs_table_npusch -> 0 <= t <= 1000 /\ t mod 8 = 0.
Proof.
  intros Ht. assert (H : forallb (fun t => (0 <=? t) && (t <=? 1000) && (t mod 8 =? 0)) (concat tbs_table_npusch) = true) by by vm_compute.
  rewrite forallb_forall in H. specialize (H t ltac:(by apply list_elem_of_In)). cbv beta in H. lia.
Qed.

Lemma arr2_read_elem t i j x : arr2_read t i j = Ok x -> x ∈ concat t.
Proof.
  unfold arr2_read, arr_read. intros H. apply bind_Ok in H as (row & Hr & H).
  destruct (in_bounds t i); [|done]. destruct (t !! Z.to_nat i) as [row'|] eqn:E1; [|done]. injection Hr as ->.
  destruct (in_bounds row j); [|done]. destruct (row !! Z.to_nat j) as [y|] eqn:E2; [|done]. injection H as ->.
  apply list_elem_of_In, in_concat. exists row. split; apply list_elem_of_In; by eapply list_elem_of_lookup_2.
Qed.

Lemma dci_full_grant dci rx g : srslte_ra_nbiot_ul_dci_to_grant dci rx = Ok (Some g) -> ul_i_sc dci = 18 -> full_grant g.
Proof.
  intros H Hsc. unfold srslte_ra_nbiot_ul_dci_to_grant in H. rewrite Hsc in H. cbn in H.
  apply bind_Ok in H as (ru & Eru & H). apply bind_Ok in H as (rep & Erep & H).
  destruct (negb (rep =? 1)); [done|]. apply bind_Ok in H as (tbs & Et & H). apply bind_Ok in H as (k0 & Ek & H).
  destruct (Z.ltb_spec tbs 0); [done|]. injection H as <-. apply arr2_read_elem, tbs_table_bytes in Et as [Et1 Et2].
  assert (Hru : ru ∈ n_ru_table_npusch).
  { unfold arr_read in Eru. destruct (in_bounds _ _); [|done]. destruct (_ !! _) eqn:E; [|done]. injection Eru as <-.
    by apply list_elem_of_lookup_2 in E. }
  unfold n_ru_table_npusch in Hru. split; cbn; try done. set_unfold. lia.
Qed.

Lemma full_alloc g : full_grant g -> alloc_ok g.
Proof. intros [H1 H2 _ _ _ _ _]. unfold alloc_ok. lia. Qed.

Lemma full_nbits g : full_grant g ->
  srslte_ra_nbiot_ul_grant_to_nbits g = mk_nbits 7 (144 * ug_nof_ru g) (288 * ug_nof_ru g).
Proof.
  intros [_ H2 H3 H4 H5 _ _]. unfold srslte_ra_nbiot_ul_grant_to_nbits. rewrite H2, H4, H5. rewrite !u32_id by (rewrite ?u32_id; lia).
  f_equal; lia.
Qed.

(** ** The receiver *)
Section Receiver.
Context {A S Q W N : Type} `{StagesOk : NpuschStagesOk A S Q W N}.

(** The object after its construction, for a carrier of one resource block. *)
Record npusch_ok (q : sonica_npusch_t A S) : Prop := mk_npusch_ok {
  no_prb : nq_nof_prb q = 1;
  no_d : length (nq_d q) = Z.to_nat 1680;
  no_tx : length (nq_tx_syms q) = Z.to_nat 1680;
  no_rx : length (nq_rx_syms q) = Z.to_nat 1680;
  no_ce : length (nq_ce q) = Z.to_nat 1680;
  no_q : length (nq_q_bits q) = Z.to_nat 3360;
  no_g : length (nq_g_bits q) = Z.to_nat 3360
}.

(** The soft bits of a block, from the symbols and the channel at its elements. *)
Definition block_soft (c : Q) (x h : list A) (noise : N) : list S :=
  srslte_scrambling_s c (srslte_demod_soft_demodulate_s 2 (dft_precoding_rx (srslte_predecoding_single x h noise))).
(** The de-interleaved word, 288 soft bits a resource unit. *)
Definition block_word (n : nat) (soft : list S) : list S :=
  concat ((fun i => ulsch_deinterleave 2 144 12 (take (Z.to_nat 288) (drop (Z.to_nat (i * 288)) soft))) <$> range 0 n).
(** What the channel decoder makes of it: the block and its checksum. *)
Definition block_payload (g : ul_grant_t) (word : list S) : option (list Z) :=
  match openair_lte_segmentation (ug_tbs g + 24) with
  | None => None
  | Some segm =>
      match decode_code_block g segm (288 * ug_nof_ru g) word 0 0 with
      | Ok (Some (ret, c, _)) =>
          if ret =? 11 then None else Some (take (Z.to_nat (ug_tbs g / 8 + 3)) (drop (Z.to_nat (sg_F segm / 8)) c))
      | _ => None
      end
  end.

Lemma sf_cells_prefix {B} g (sf sf' : list B) : alloc_ok g -> take (Z.to_nat 168) sf = take (Z.to_nat 168) sf' ->
  sf_cells g sf = sf_cells g sf'.
Proof.
  intros Hg Heq. unfold sf_cells. f_equal. apply list_fmap_ext. intros k r Hr%list_elem_of_lookup_2%data_rows_in.
  apply row_cell_ext; [done|lia|]. intros j Hj. destruct Hg as (G1 & G2 & G3). unfold in_cell, SRSLTE_NRE in Hj.
  assert (Hj' : (j < Z.to_nat 168)%nat) by lia. rewrite <- (lookup_take_lt sf (Z.to_nat 168)), Heq by done. by apply lookup_take_lt.
Qed.

Lemma length_block_cells {B} g (sf : list B) n : alloc_ok g -> 168 * Z.of_nat n <= Z.of_nat (length sf) ->
  length (block_cells g sf n) = (n * Z.to_nat (12 * ug_nof_sc g))%nat.
Proof.
  intros Hg. induction n as [|n IH]; intros Hl; [done|]. unfold block_cells in *. rewrite range_snoc, fmap_app, concat_app, length_app.
  rewrite IH by lia. cbn [fmap list_fmap concat]. rewrite app_nil_r, length_sf_cells; [lia|done|]. rewrite length_drop. lia.
Qed.

(** The first loop of the receiver. *)
Lemma gather_block cfg (sf ce rx0 ce0 : list A) n : alloc_ok (uc_grant cfg) -> (n <= 10)%nat ->
  168 * Z.of_nat n <= Z.of_nat (length sf) -> 168 * Z.of_nat n <= Z.of_nat (length ce) ->
  length rx0 = Z.to_nat 1680 -> length ce0 = Z.to_nat 1680 ->
  foldM (gather_sf cfg 1 sf ce) (range 0 n) (Some (rx0, ce0)) =
    Ok (Some (block_cells (uc_grant cfg) sf n ++ drop (length (block_cells (uc_grant cfg) sf n)) rx0,
              block_cells (uc_grant cfg) ce n ++ drop (length (block_cells (uc_grant cfg) ce n)) ce0)).
Proof.
  intros Hg Hn Hsf Hce Hrx Hc0. induction n as [|n IH]; [done|]. rewrite range_snoc, foldM_app, IH by lia. clear IH.
  rewrite bind_ok_l. cbn [foldM]. rewrite bind_ret_r. unfold gather_sf. destruct (Hg) as (G1 & G2 & G3).
  change (2 * 7 * 1 * 12) with 168. rewrite (u32_id (6 * 2 * _)), !u32_id by (rewrite ?u32_id; nia).
  assert (Hstep : forall (x o : list A), 168 * Z.of_nat (Datatypes.S n) <= Z.of_nat (length x) -> length o = Z.to_nat 1680 ->
    npusch_get x ((0 + Z.of_nat n) * 168) (block_cells (uc_grant cfg) x n ++ drop (length (block_cells (uc_grant cfg) x n)) o)
      ((0 + Z.of_nat n) * (6 * 2 * ug_nof_sc (uc_grant cfg))) (uc_grant cfg) =
    Ok (block_cells (uc_grant cfg) x (Datatypes.S n) ++ drop (length (block_cells (uc_grant cfg) x (Datatypes.S n))) o,
        6 * 2 * ug_nof_sc (uc_grant cfg))).
  { intros x o Hx Ho. pose proof (length_block_cells (uc_grant cfg) x n Hg ltac:(lia)) as L1.
    pose proof (length_block_cells (uc_grant cfg) x (Datatypes.S n) Hg ltac:(lia)) as L2.
    rewrite npusch_get_ok; [|done|lia|lia|nia|rewrite length_app, length_drop, L1, Ho; nia].
    f_equal. f_equal. rewrite L2. rewrite take_app_le, take_ge by (rewrite L1; nia).
    rewrite drop_app_ge by (rewrite L1; nia). rewrite drop_drop, L1. unfold block_cells at 2. rewrite range_snoc, fmap_app, concat_app.
    cbn [fmap list_fmap concat]. rewrite app_nil_r, <- app_assoc. f_equal. f_equal; [|f_equal; nia]. do 2 f_equal. lia. }
  rewrite (Hstep sf rx0), bind_ok_l, Z.eqb_refl by done. cbn [negb]. by rewrite (Hstep ce ce0), bind_ok_l, Z.eqb_refl by done.
Qed.

(** De-interleaving, a resource unit at a time. *)
Lemma deinterleave_block g (soft rest g0 : list S) n : full_grant g -> (n <= Z.to_nat (ug_nof_ru g))%nat ->
  length soft = Z.to_nat (288 * ug_nof_ru g) -> length g0 = Z.to_nat 3360 ->
  foldM (deinterleave_ru g 288 (soft ++ rest)) (range 0 n) g0 =
    Ok (block_word n soft ++ drop (length (block_word n soft)) g0) /\ length (block_word n soft) = (n * Z.to_nat 288)%nat.
Proof.
  intros [_ _ Hru _ Hqm _ _] Hn Hs H0. induction n as [|n IH]; [done|]. destruct IH as [IH L1]; [lia|].
  rewrite range_snoc, foldM_app, IH, bind_ok_l. cbn [foldM]. rewrite bind_ret_r. clear IH. unfold deinterleave_ru.
  rewrite Hqm. change (288 / 2) with 144. rewrite Z.add_0_l.
  set (x := take (Z.to_nat 288) (drop (Z.to_nat (Z.of_nat n * 288)) soft)).
  assert (Hx : length x = Z.to_nat 288) by (unfold x; rewrite length_take, length_drop; lia).
  rewrite vec_in_ok by (rewrite length_drop, length_app; lia). rewrite bind_ok_l, drop_app_le by lia.
  rewrite take_app_le by (rewrite length_drop; lia). fold x.
  set (y := ulsch_deinterleave 2 144 12 x). assert (Hy : length y = Z.to_nat 288) by (unfold y; by rewrite deinterleave_len).
  assert (Eb : block_word (Datatypes.S n) soft = block_word n soft ++ y).
  { unfold block_word. rewrite range_snoc, fmap_app, concat_app. cbn [fmap list_fmap concat]. by rewrite app_nil_r, Z.add_0_l. }
  rewrite Eb, length_app, Hy. split; [|lia]. rewrite mem_copy_in by (rewrite ?length_app, ?length_drop, ?Hy; lia). f_equal.
  change (Z.to_nat 0) with O. rewrite drop_0, (take_ge y) by lia. rewrite take_app_le, take_ge by lia.
  rewrite drop_app_ge by lia. rewrite drop_drop, <- app_assoc. do 3 f_equal. lia.
Qed.

Lemma interleaver_index_range K : 40 <= K <= 6144 -> 0 <= interleaver_index (K / 8) * 2 /\ interleaver_index (K / 8) * 2 + 1 < 376.
Proof.
  intros HK. unfold interleaver_index. rewrite !Z.shiftr_div_pow2 by lia. change (2 ^ 1) with 2. change (2 ^ 2) with 4. change (2 ^ 3) with 8.
  destruct (Z.leb_spec (K / 8) 64); [rewrite i32_id; dlia|].
  destruct (Z.leb_spec (K / 8) 128); [dlia|]. destruct (Z.leb_spec (K / 8) 256); [dlia|].
  destruct (Z.leb_spec (K / 8) 768); dlia.
Qed.

(** The one code block of a transport block. *)
Lemma code_block_runs g segm nb_q word : sg_Cminus segm = 0 -> 40 <= sg_Kplus segm <= 6144 ->
  exists o, decode_code_block g segm nb_q word 0 0 = Ok o /\
    forall ret c E, o = Some (ret, c, E) -> (Z.to_nat (sg_Kplus segm / 8) <= length c)%nat.
Proof.
  intros E2 E3. unfold decode_code_block. rewrite E2. change (0 <? 0) with false. cbv iota.
  change (ub_unless (0 <? 3) OobWrite ?x) with x. destruct (openair_generate_dummy_w _ _) as [RTC w].
  destruct (openair_lte_rm_turbo_rx _ _ _ _ _ _ _) as [[wv E]|]; [|by exists None].
  pose proof (interleaver_index_range _ E3) as [I1 I2].
  destruct (arr_read_in f1f2mat_old (interleaver_index (sg_Kplus segm / 8) * 2)) as (f1 & -> & _); [rewrite f1f2_len; lia|].
  destruct (arr_read_in f1f2mat_old (interleaver_index (sg_Kplus segm / 8) * 2 + 1)) as (f2 & -> & _); [rewrite f1f2_len; lia|].
  rewrite !bind_ok_l. set (d := openair_sub_block_deinterleaving_turbo _ wv). set (crc := if sg_C segm =? 1 then 0 else 1).
  change (if 0 =? 0 then sg_F segm else 0) with (sg_F segm).
  pose proof (turbo_len d (sg_Kplus segm) f1 f2 crc (sg_F segm) ltac:(lia)) as Lt.
  destruct (openair_3gpp_turbo_decoder16 d (sg_Kplus segm) f1 f2 crc (sg_F segm)) as [ret c].
  eexists. split; [reflexivity|]. intros ret0 c0 E0 Heq. injection Heq as <- <- _. exact Lt.
Qed.

(** The channel decoder: one code block, and its bytes with the checksum's three
    at the start of [data]. *)
Lemma nulsch_block g cfg soft rest g0 data : full_grant g -> uc_grant cfg = g ->
  uc_nbits cfg = srslte_ra_nbiot_ul_grant_to_nbits g -> length soft = Z.to_nat (288 * ug_nof_ru g) ->
  length g0 = Z.to_nat 3360 -> ug_tbs g / 8 + 3 <= Z.of_nat (length data) ->
  let payload := block_payload g (block_word (Z.to_nat (ug_nof_ru g)) soft) in
  exists g', sonica_nulsch_decode cfg (soft ++ rest) g0 data =
    Ok (match payload with Some _ => SRSLTE_SUCCESS | None => SRSLTE_ERROR end, g',
        match payload with Some bytes => bytes ++ drop (length bytes) data | None => data end) /\
    length g' = Z.to_nat 3360 /\ (forall bytes, payload = Some bytes -> length bytes = Z.to_nat (ug_tbs g / 8 + 3)).
Proof.
  intros Hg Hc Hb Hs H0 Hd. pose proof Hg as [G1 G2 G3 G4 G5 G6 G7]. unfold sonica_nulsch_decode, block_payload. rewrite Hc, Hb, full_nbits by done.
  cbn [nb_nof_bits]. change (3 * 8) with 24.
  destruct (segmentation_one (ug_tbs g + 24)) as (segm & -> & E1 & E2 & E3 & E4 & E5 & E6); [lia|].
  rewrite G5. replace (288 * ug_nof_ru g / ug_nof_ru g) with 288 by (rewrite Z.div_mul; lia).
  replace (negb (ug_nof_ru g =? 0) && negb (2 =? 0)) with true by lia. unfold ub_unless at 1.
  destruct (deinterleave_block g soft rest g0 (Z.to_nat (ug_nof_ru g)) Hg ltac:(lia) Hs H0) as [-> Lw]. rewrite bind_ok_l.
  set (word := block_word _ soft) in *. rewrite E1. change (Z.to_nat 1) with 1%nat. cbn [decode_code_blocks].
  assert (Hword : forall tail, decode_code_block g segm (288 * ug_nof_ru g) (word ++ tail) 0 0 =
                               decode_code_block g segm (288 * ug_nof_ru g) word 0 0).
  { intros tail. unfold decode_code_block. change (Z.to_nat 0) with O. rewrite !drop_0.
    destruct (openair_generate_dummy_w _ _) as [RTC w].
    rewrite (rm_turbo_reads _ _ _ (word ++ tail)), (rm_turbo_reads _ _ _ word) by lia.
    by rewrite take_app_le, !(take_ge word) by lia. }
  rewrite Hword. destruct (code_block_runs g segm (288 * ug_nof_ru g) word E2 E3) as (o & -> & Ho). rewrite !bind_ok_l.
  assert (Lg : forall n, (n <= Z.to_nat 3360)%nat -> length word = n -> length (word ++ drop n g0) = Z.to_nat 3360)
    by (intros n Hn <-; rewrite length_app, length_drop; lia).
  destruct o as [[[ret c] E]|]; [|eexists; split; [reflexivity|split; [apply Lg; lia|intros ? [=]]]].
  specialize (Ho ret c E eq_refl). change (1 + 10) with 11. rewrite E2. change (0 <? 0) with false. change (0 =? 0) with true. cbv iota.
  destruct (Z.eqb_spec ret 11) as [->|Hret]; cbn [negb]; [eexists; split; [reflexivity|split; [apply Lg; lia|intros ? [=]]]|].
  assert (L2 : length (take (Z.to_nat (ug_tbs g / 8 + 3)) (drop (Z.to_nat (sg_F segm / 8)) c)) = Z.to_nat (ug_tbs g / 8 + 3))
    by (rewrite length_take, length_drop; dlia).
  rewrite ?E1. replace (u32 (sg_Kplus segm / 8 - sg_F segm / 8 - (if 1 <? 1 then 3 else 0))) with (ug_tbs g / 8 + 3)
    by (change (1 <? 1) with false; cbv iota; rewrite u32_id; dlia).
  rewrite mem_copy_in by (rewrite ?Nat2Z.id; dlia). rewrite !bind_ok_l. eexists. split.
  - change (Z.to_nat 0) with O. rewrite take_0, app_nil_l, Z.add_0_l, L2. reflexivity.
  - split; [apply Lg; lia|]. intros bytes [= <-]. exact L2.
Qed.

(** The whole receiver. *)
Lemma decode_block q cfg g sf ce noise data : npusch_ok q -> full_grant g -> uc_grant cfg = g ->
  uc_nbits cfg = srslte_ra_nbiot_ul_grant_to_nbits g -> length sf = Z.to_nat 1680 -> length ce = Z.to_nat 1680 ->
  ug_tbs g / 8 + 3 <= Z.of_nat (length data) ->
  let n := Z.to_nat (ug_nof_ru g) in
  let payload := block_payload g (block_word n (block_soft (block_sequence q cfg) (block_cells g sf n) (block_cells g ce n) noise)) in
  exists q', sonica_npusch_decode q cfg sf ce noise data =
    Ok (match payload with Some _ => SRSLTE_SUCCESS | None => SRSLTE_ERROR end, q',
        match payload with Some bytes => bytes ++ drop (length bytes) data | None => data end) /\
    npusch_ok q' /\ nq_n_id_ncell q' = nq_n_id_ncell q /\
    (forall bytes, payload = Some bytes -> length bytes = Z.to_nat (ug_tbs g / 8 + 3)).
Proof.
  intros Hq Hg Hc Hb Hsf Hce Hd n payload. pose proof Hg as [G1 G2 G3 G4 G5 G6 G7]. pose proof Hq as [Q1 Q2 Q3 Q4 Q5 Q6 Q7].
  unfold sonica_npusch_decode. rewrite Hc, Hb, full_nbits by done. cbn [nb_nof_re nb_nof_bits]. rewrite Q1.
  replace (ug_nof_slots g / 2) with (ug_nof_ru g) by (rewrite G4; dlia). fold n.
  pose proof (full_alloc g Hg) as Ha.
  assert (Lc : forall x : list A, length x = Z.to_nat 1680 -> length (block_cells g x n) = Z.to_nat (144 * ug_nof_ru g)).
  { intros x Hx. rewrite length_block_cells, G2 by (done || lia). lia. }
  rewrite <- Hc in Ha |- *. rewrite gather_block by (done || lia). rewrite Hc in Ha |- *. rewrite bind_ok_l.
  pose proof (Lc sf Hsf) as L1. pose proof (Lc ce Hce) as L2. set (X := block_cells g sf n) in *. set (H' := block_cells g ce n) in *.
  rewrite !vec_in_ok by (rewrite length_app, length_drop; lia). rewrite !bind_ok_l, !take_app_le, !take_ge by lia.
  set (D := srslte_predecoding_single X H' noise). assert (L3 : length D = length X) by (apply predecoding_len; lia).
  rewrite vec_out_ok by lia. rewrite bind_ok_l. rewrite G4. rewrite u32_id by lia.
  rewrite vec_in_ok by (rewrite length_app, length_drop; lia). rewrite bind_ok_l, take_app_le, take_ge by lia.
  set (F := dft_precoding_rx D). assert (L4 : length F = length D) by apply dft_rx_len.
  rewrite vec_out_ok by (rewrite length_app, length_drop; lia). rewrite bind_ok_l.
  rewrite vec_in_ok by (rewrite length_app, length_drop, length_app, length_drop; lia). rewrite bind_ok_l, take_app_le, take_ge by lia.
  rewrite G5. set (B := srslte_demod_soft_demodulate_s 2 F). assert (L5 : length B = (2 * length F)%nat) by apply demod_len.
  rewrite vec_out_ok by lia. rewrite bind_ok_l.
  rewrite vec_in_ok by (rewrite length_app, length_drop; lia). rewrite bind_ok_l, take_app_le, take_ge by lia.
  set (T := srslte_scrambling_s (block_sequence q cfg) B). assert (L6 : length T = length B) by apply scrambling_s_len.
  rewrite vec_out_ok by (rewrite length_app, length_drop; lia). rewrite bind_ok_l.
  destruct (nulsch_block g cfg T (drop (length T) (B ++ drop (length B) (nq_q_bits q))) (nq_g_bits q) data) as (g' & E & Lg & Hp);
    try done; [lia|]. rewrite E, bind_ok_l. eexists. split; [reflexivity|]. split; [|split; [done|exact Hp]].
  split; cbn; try done; rewrite ?length_app, ?length_drop, ?length_app, ?length_drop; lia.
Qed.
End Receiver.

(** ** The transmitter *)

(** One subframe of a transmission after another: the subframes that are sent. *)
Definition encode_sf {A S Q W N} `{NpuschStages A S Q W N} (data : list Z) (s : sonica_npusch_t A S * npusch_cfg_t * list (list A))
    (blank : list A) : res (sonica_npusch_t A S * npusch_cfg_t * list (list A)) :=
  let '(q, cfg, sent) := s in
  '(_, q, cfg, sf) ← sonica_npusch_encode q cfg data blank;
  Ok (q, cfg, sent ++ [sf]).

Section Transmitter.
Context {A S Q W N : Type} `{StagesOk : NpuschStagesOk A S Q W N}.

(** The symbols of a block. *)
Definition block_symbols (c : Q) (bits : list Z) : list A := dft_precoding_tx (srslte_mod_modulate_bytes (srslte_scrambling_bytes c bits)).

Lemma full_slots g : full_grant g -> 12 * u32 (ug_nof_slots g * 6) = 144 * ug_nof_ru g.
Proof. intros [_ _ G3 G4 _ _ _]. rewrite G4, u32_id by lia. lia. Qed.

Lemma encode_block_ok q cfg g data bits : npusch_ok q -> full_grant g -> uc_grant cfg = g ->
  srslte_nulsch_encode g data = (0, bits) ->
  length (srslte_mod_modulate_bytes (srslte_scrambling_bytes (block_sequence q cfg) bits)) = Z.to_nat (144 * ug_nof_ru g) ->
  (forall x, length (dft_precoding_tx x) = length x) ->
  exists q', encode_block q cfg data = Ok (0, q') /\ npusch_ok q' /\ nq_n_id_ncell q' = nq_n_id_ncell q /\
    take (Z.to_nat (144 * ug_nof_ru g)) (nq_tx_syms q') = block_symbols (block_sequence q cfg) bits.
Proof.
  intros Hq Hg Hc He Hm Hd. pose proof (fg_ru g Hg) as G3. destruct Hq as [Q1 Q2 Q3 Q4 Q5 Q6 Q7]. unfold encode_block.
  rewrite Hc, He. cbn [Z.eqb negb]. rewrite full_slots by done. set (m := srslte_mod_modulate_bytes _) in *.
  rewrite vec_out_ok by lia. rewrite bind_ok_l, vec_in_ok by (rewrite length_app, length_drop; lia).
  rewrite bind_ok_l, take_app_le, take_ge by lia. pose proof (Hd m) as Lm. rewrite vec_out_ok by lia. rewrite bind_ok_l.
  eexists. split; [reflexivity|]. split; [|split; [done|]].
  - split; cbn; try done; rewrite length_app, length_drop; lia.
  - cbn. rewrite take_app_le, take_ge by lia. done.
Qed.

(** The subframes from number [k] on, once the block is encoded. *)
Lemma encode_rest q cfg g data blanks k sent : full_grant g -> uc_grant cfg = g -> ug_tbs g <> 0 -> uc_is_encoded cfg = true ->
  uc_sf_idx cfg = Z.of_nat k -> npusch_ok q -> (k + length blanks <= Z.to_nat (ug_nof_ru g))%nat ->
  Forall (fun b : list A => length b = Z.to_nat 168) blanks ->
  exists cfg' sfs, foldM (encode_sf data) blanks (q, cfg, sent) = Ok (q, cfg', sent ++ sfs) /\
    uc_sf_idx cfg' = Z.of_nat (k + length blanks) /\
    Forall (fun b : list A => length b = Z.to_nat 168) sfs /\ length sfs = length blanks /\
    concat (sf_cells g <$> sfs) = take (length blanks * Z.to_nat 144) (drop (k * Z.to_nat 144) (nq_tx_syms q)).
Proof.
  intros Hg Hc Htbs. pose proof (fg_ru g Hg) as G3. pose proof (fg_nof_sc g Hg) as G2. intros He Hk Hq Hlen Hb.
  revert cfg k sent Hc He Hk Hlen. induction Hb as [|b blanks Hb _ IH]; intros cfg k sent Hc He Hk Hlen.
  { exists cfg, []. cbn. rewrite app_nil_r, Nat.add_0_r. done. }
  cbn [length] in Hlen. cbn [foldM]. change (encode_sf data (q, cfg, sent) b) with
    ('(_, q, cfg, sf) ← sonica_npusch_encode q cfg data b; Ok (q, cfg, sent ++ [sf])). unfold sonica_npusch_encode. rewrite Hc, He.
  replace (ug_tbs g =? 0) with false by lia. cbn [negb]. rewrite bind_ok_l. cbn [Z.eqb negb]. rewrite Hc, Hk, G2.
  rewrite (u32_id (Z.of_nat k * 6 * 2 * 12)), (u32_id (Z.of_nat k + 1)) by lia.
  destruct (npusch_put_ok (nq_tx_syms q) (Z.of_nat k * 6 * 2 * 12) b g (full_alloc g Hg)) as (sf & -> & L1 & E1 & _);
    [rewrite Hb; lia|lia|rewrite G2, (no_tx q Hq); lia|]. rewrite !bind_ok_l.
  set (cfg1 := _ <| uc_sf_idx := _ |>).
  destruct (IH cfg1 (Datatypes.S k) (sent ++ [sf])) as (cfg' & sfs & -> & E2 & F2 & L2 & E3); try done.
  { unfold cfg1. cbn. lia. }
  { lia. }
  exists cfg', (sf :: sfs). rewrite <- app_assoc. split; [done|]. split; [rewrite E2; cbn [length]; lia|].
  split; [constructor; [lia|done]|]. split; [cbn; lia|]. cbn [fmap list_fmap concat]. rewrite E1, E3, G2.
  replace (Z.to_nat (12 * 12)) with (Z.to_nat 144) by lia. replace (Z.to_nat (Z.of_nat k * 6 * 2 * 12)) with (k * Z.to_nat 144)%nat by lia.
  cbn [length]. replace (Datatypes.S (length blanks) * Z.to_nat 144)%nat with (Z.to_nat 144 + length blanks * Z.to_nat 144)%nat by lia.
  rewrite <- take_take_drop. do 2 f_equal. rewrite drop_drop. f_equal. lia.
Qed.
End Transmitter.

(** What a transmitter's stages and a receiver's promise each other: the
    transform is undone, the demodulator returns the soft bits of the bits that
    were modulated, two at a time, and descrambling undoes scrambling with the
    same sequence. *)
Class NpuschLink (A S Q W N : Type) `{NpuschStages A S Q W N} (soft : list Z -> list S) : Prop := {
  dft_tx_len : forall x, length (dft_precoding_tx x) = length x;
  dft_inverse : forall x, dft_precoding_rx (dft_precoding_tx x) = x;
  modulate_len : forall bits n, length bits = (2 * n)%nat -> length (srslte_mod_modulate_bytes bits) = n;
  demodulate_modulate : forall bits n, length bits = (2 * n)%nat -> srslte_demod_soft_demodulate_s 2 (srslte_mod_modulate_bytes bits) = soft bits;
  scrambling_len : forall c bits, length (srslte_scrambling_bytes c bits) = length bits;
  descrambling : forall c bits, srslte_scrambling_s c (soft (srslte_scrambling_bytes c bits)) = soft bits
}.

(** The subframes that were sent, side by side in a buffer. *)
Lemma block_cells_sent {B} g (sfs : list (list B)) rest : alloc_ok g -> Forall (fun b => length b = Z.to_nat 168) sfs ->
  block_cells g (concat sfs ++ rest) (length sfs) = concat (sf_cells g <$> sfs).
Proof.
  intros Hg H. unfold block_cells. f_equal. apply list_eq. intros i. rewrite !list_lookup_fmap.
  destruct (decide (i < length sfs)%nat) as [Hi|Hi].
  - destruct (lookup_lt_is_Some_2 sfs i Hi) as [sf Hsf]. rewrite Hsf. unfold range. rewrite list_lookup_fmap, lookup_seq_lt by done.
    cbn [fmap option_fmap option_map]. f_equal. apply sf_cells_prefix; [done|]. rewrite Nat.add_0_l, Z.add_0_l.
    rewrite <- (take_drop i sfs), (drop_S sfs sf i) by done.
    rewrite concat_app, <- app_assoc. cbn [concat]. pose proof (Forall_lookup_1 _ _ _ _ H Hsf) as Lsf. cbn beta in Lsf.
    assert (Lt : length (concat (take i sfs)) = Z.to_nat (168 * Z.of_nat i)).
    { assert (Hall : Forall (fun b => length b = Z.to_nat 168) (take i sfs)) by by apply Forall_take.
      assert (Li : length (take i sfs) = i) by (rewrite length_take; lia). rewrite <- Li at 2.
      clear -Hall. induction Hall as [|b l Hb _ IH]; [done|]. cbn. rewrite length_app, IH, Hb. lia. }
    rewrite drop_app_ge by lia. rewrite Lt, Nat.sub_diag, drop_0, <- app_assoc, take_app_le, !take_ge by lia. done.
  - rewrite (lookup_ge_None_2 sfs) by lia. rewrite lookup_ge_None_2; [done|]. rewrite length_range. lia.
Qed.

(** What a device sends for a grant of the whole carrier: as many subframes as
    the grant has, whose allocated elements are the block's symbols. *)
Lemma transmit_block {A S Q W N} `{NpuschStagesOk A S Q W N} (soft : list Z -> list S) `{!NpuschLink A S Q W N soft}
    (q : sonica_npusch_t A S) g r blanks block bits :
  full_grant g -> ug_tbs g <> 0 -> npusch_ok q -> length blanks = Z.to_nat (ug_nof_ru g) ->
  Forall (fun b => length b = Z.to_nat 168) blanks ->
  srslte_nulsch_encode g block = (0, bits) -> length bits = Z.to_nat (288 * ug_nof_ru g) ->
  let symbols := block_symbols (block_sequence q (sonica_npusch_cfg g r)) bits in
  exists q' cfg' sfs, foldM (encode_sf block) blanks (q, sonica_npusch_cfg g r, []) = Ok (q', cfg', sfs) /\
    length sfs = Z.to_nat (ug_nof_ru g) /\ Forall (fun b => length b = Z.to_nat 168) sfs /\
    concat (sf_cells g <$> sfs) = symbols /\ length symbols = Z.to_nat (144 * ug_nof_ru g).
Proof.
  intros Hg Htbs Hq Hbl Hblank Henc Hbits symbols. pose proof (fg_ru g Hg) as G3. set (n := Z.to_nat (ug_nof_ru g)) in *.
  assert (Lm : length (srslte_mod_modulate_bytes (srslte_scrambling_bytes (block_sequence q (sonica_npusch_cfg g r)) bits)) =
    Z.to_nat (144 * ug_nof_ru g)) by (apply (modulate_len (soft := soft)); rewrite (scrambling_len (soft := soft)); lia).
  destruct (encode_block_ok q (sonica_npusch_cfg g r) g block bits Hq Hg eq_refl Henc Lm (dft_tx_len (soft := soft)))
    as (q1 & Eb & Hq1 & _ & Etx).
  destruct blanks as [|b blanks]; [cbn in Hbl; lia|].
  (* the first subframe encodes the block; from there on it is encoded *)
  set (cfg1 := (sonica_npusch_cfg g r) <| uc_is_encoded := true |>).
  assert (E0 : foldM (encode_sf block) (b :: blanks) (q, sonica_npusch_cfg g r, []) =
               foldM (encode_sf block) (b :: blanks) (q1, cfg1, [])).
  { cbn [foldM encode_sf]. unfold sonica_npusch_encode. change (uc_is_encoded (sonica_npusch_cfg g r)) with false.
    change (uc_is_encoded cfg1) with true. change (uc_grant cfg1) with g. change (uc_grant (sonica_npusch_cfg g r)) with g.
    replace (ug_tbs g =? 0) with false by lia. cbn [negb]. rewrite Eb. done. }
  destruct (encode_rest q1 cfg1 g block (b :: blanks) 0 []) as (cfg' & sfs & E1 & _ & F1 & L1 & E2); try done; [lia|].
  exists q1, cfg', sfs. rewrite E0, E1. rewrite Hbl in E2. rewrite drop_0 in E2.
  replace (n * Z.to_nat 144)%nat with (Z.to_nat (144 * ug_nof_ru g)) in E2 by lia. unfold symbols, block_symbols in *.
  split_and!; [done|lia|done|by rewrite E2|by rewrite (dft_tx_len (soft := soft))].
Qed.

(** Received over a channel that is undone, its soft bits are those of the bits
    that were sent. *)
Lemma soft_of_symbols {A S Q W N} `{NpuschStages A S Q W N} (soft : list Z -> list S) `{!NpuschLink A S Q W N soft} c bits h noise n :
  length bits = (2 * n)%nat -> srslte_predecoding_single (block_symbols c bits) h noise = block_symbols c bits ->
  block_soft c (block_symbols c bits) h noise = soft bits.
Proof.
  intros Hl Hch. unfold block_soft. rewrite Hch. unfold block_symbols. rewrite (dft_inverse (soft := soft)).
  rewrite (demodulate_modulate (soft := soft) _ n) by (rewrite (scrambling_len (soft := soft)); done). apply descrambling.
Qed.

(** C21. The receiver of an uplink block stays inside its arrays.  For every
    grant of the whole carrier that the DCI tables give, and whatever earlier
    blocks left in its buffers, the decoder ends; its outcome is that of one
    code block, made of the transform of the 144 data elements of each resource
    unit and nothing else; a block that passes is written with its three bytes
    of checksum to the start of the caller's buffer, which must be that long; a
    block that does not leaves the buffer as it was. *)
Theorem npusch_receiver {A S Q W N} `{NpuschStagesOk A S Q W N} (q : sonica_npusch_t A S) dci rx g r sf ce noise data :
  srslte_ra_nbiot_ul_dci_to_grant dci rx = Ok (Some g) -> ul_i_sc dci = 18 ->
  npusch_ok q -> length sf = Z.to_nat 1680 -> length ce = Z.to_nat 1680 -> ug_tbs g / 8 + 3 <= Z.of_nat (length data) ->
  let n := Z.to_nat (ug_nof_ru g) in
  let payload := block_payload g (block_word n (block_soft (block_sequence q (full_cfg g r)) (block_cells g sf n) (block_cells g ce n) noise)) in
  exists q', sonica_npusch_decode q (full_cfg g r) sf ce noise data =
    Ok (match payload with Some _ => SRSLTE_SUCCESS | None => SRSLTE_ERROR end, q',
        match payload with Some bytes => bytes ++ drop (length bytes) data | None => data end) /\
    npusch_ok q' /\ nq_n_id_ncell q' = nq_n_id_ncell q /\
    (forall bytes, payload = Some bytes -> length bytes = Z.to_nat (ug_tbs g / 8 + 3)).
Proof.
  intros Hd Hsc Hq Hsf Hce Hl. apply (decode_block q (full_cfg g r) g); try done. by apply (dci_full_grant dci rx).
Qed.

(** C15. What the transmitter's coder gives is what the receiver's decoder
    gets.  A block is encoded for a grant of the whole carrier and sent subframe by
    subframe, each into any grid of resource elements, over a channel that the
    receiver's estimate undoes.  Then, with the same cell and RNTI, the receiver
    finds exactly the transmitter's symbols at the elements where they were put
    and descrambles them with the transmitter's sequence: the channel decoder
    works on the soft values of the coder's bits, de-interleaved, and what it
    makes of them is the outcome - success with the bytes written to the start of
    the buffer, or an error and the buffer as it was.  Whether it undoes the coder
    is a matter of these two, which are not modelled; it always takes the bits for
    redundancy version 0. *)
Theorem npusch_block_delivered {A S Q W N} `{NpuschStagesOk A S Q W N} (soft : list Z -> list S) `{!NpuschLink A S Q W N soft}
    (qt qr : sonica_npusch_t A S) dci rx g r blanks rest ce noise block data bits :
  srslte_ra_nbiot_ul_dci_to_grant dci rx = Ok (Some g) -> ul_i_sc dci = 18 -> ug_tbs g <> 0 ->
  npusch_ok qt -> npusch_ok qr -> nq_n_id_ncell qt = nq_n_id_ncell qr ->
  length blanks = Z.to_nat (ug_nof_ru g) -> Forall (fun b => length b = Z.to_nat 168) blanks ->
  length rest = Z.to_nat (1680 - 168 * ug_nof_ru g) -> length ce = Z.to_nat 1680 -> ug_tbs g / 8 + 3 <= Z.of_nat (length data) ->
  srslte_nulsch_encode g block = (0, bits) -> length bits = Z.to_nat (288 * ug_nof_ru g) ->
  (forall x, length x = Z.to_nat (144 * ug_nof_ru g) ->
     srslte_predecoding_single x (block_cells g ce (Z.to_nat (ug_nof_ru g))) noise = x) ->
  let payload := block_payload g (block_word (Z.to_nat (ug_nof_ru g)) (soft bits)) in
  exists qt' cfg' sfs qr', foldM (encode_sf block) blanks (qt, sonica_npusch_cfg g r, []) = Ok (qt', cfg', sfs) /\
    sonica_npusch_decode qr (full_cfg g r) (concat sfs ++ rest) ce noise data =
      Ok (match payload with Some _ => SRSLTE_SUCCESS | None => SRSLTE_ERROR end, qr',
          match payload with Some bytes => bytes ++ drop (length bytes) data | None => data end) /\ npusch_ok qr'.
Proof.
  intros Hd Hsc Htbs Hqt Hqr Hid Hbl Hblank Hrest Hce Hdata Henc Hbits Hch.
  pose proof (dci_full_grant dci rx g Hd Hsc) as Hg. pose proof (fg_ru g Hg) as G3. set (n := Z.to_nat (ug_nof_ru g)) in *.
  destruct (transmit_block soft qt g r blanks block bits Hg Htbs Hqt Hbl Hblank Henc Hbits) as (qt1 & cfg' & sfs & E1 & L1 & F1 & E2 & L2).
  assert (Lsfs : length (concat sfs) = Z.to_nat (168 * ug_nof_ru g)).
  { replace (Z.to_nat (168 * ug_nof_ru g)) with (length sfs * Z.to_nat 168)%nat by lia.
    clear -F1. induction F1 as [|x l Hx _ IH]; [done|]. cbn. rewrite length_app, Hx, IH. lia. }
  destruct (decode_block qr (full_cfg g r) g (concat sfs ++ rest) ce noise data Hqr Hg eq_refl eq_refl)
    as (qr' & E3 & Hqr' & _ & _); [rewrite length_app; lia|done|done|].
  exists qt1, cfg', sfs, qr'. split; [done|]. split; [|done]. rewrite E3. fold n.
  assert (Eseq : block_sequence qr (full_cfg g r) = block_sequence qt (sonica_npusch_cfg g r)).
  { unfold block_sequence, get_user_sequence. by rewrite Hid. }
  assert (Hsoft : block_soft (block_sequence qr (full_cfg g r)) (block_cells g (concat sfs ++ rest) n) (block_cells g ce n) noise = soft bits).
  { replace (block_cells g (concat sfs ++ rest) n) with (block_symbols (block_sequence qt (sonica_npusch_cfg g r)) bits).
    - rewrite Eseq. apply (soft_of_symbols soft _ _ _ _ (Z.to_nat (144 * ug_nof_ru g))); [lia|by apply Hch].
    - rewrite <- E2, <- (block_cells_sent g sfs rest) by (done || by apply full_alloc). f_equal. lia. }
  by rewrite Hsoft.
Qed.

(** ** Stages that keep their promises

    A sample is a pair of bits, the transform, the scrambler and the channel do
    nothing, and the channel coder appends three zero bytes and fills up with
    zeros: no modem, but a model of the two classes in which the theorems can be
    evaluated. *)
Module Plain.
Fixpoint pairs (l : list Z) : list (Z * Z) := match l with a :: b :: l => (a, b) :: pairs l | _ => [] end.
Definition unpairs (m : Z) (l : list (Z * Z)) : list Z :=
  if m =? 2 then concat ((fun p => [p.1; p.2]) <$> l) else replicate (Z.to_nat m * length l) 0.

#[global] Instance stages : NpuschStages (Z * Z) Z unit unit unit := {|
  srslte_predecoding_single x _ _ := x;
  dft_precoding_tx x := x;
  dft_precoding_rx x := x;
  srslte_demod_soft_demodulate_s := unpairs;
  srslte_mod_modulate_bytes := pairs;
  srslte_sequence_npusch _ _ _ _ _ := tt;
  srslte_scrambling_s _ x := x;
  srslte_scrambling_bytes _ x := x;
  srslte_nulsch_encode g block := (0, resize (Z.to_nat (288 * ug_nof_ru g)) 0 block);
  openair_lte_segmentation B :=
    let K := Z.max 40 ((B + 7) / 8 * 8) in Some (mk_segm 1 1 0 K 0 (K - B));
  ulsch_deinterleave _ _ _ x := x;
  openair_generate_dummy_w _ _ := (0, tt);
  openair_lte_rm_turbo_rx _ G _ x _ _ _ := Some (take (Z.to_nat G) x, G);
  openair_sub_block_deinterleaving_turbo _ x := x;
  f1f2mat_old := replicate 376 0;
  openair_3gpp_turbo_decoder16 d K _ _ _ F := (1, resize (Z.to_nat (K / 8)) 0 (replicate (Z.to_nat (F / 8)) 0 ++ d))
|}.

Lemma length_unpairs m l : length (unpairs m l) = (Z.to_nat m * length l)%nat.
Proof.
  unfold unpairs. destruct (Z.eqb_spec m 2) as [->|]; [|apply length_replicate].
  induction l as [|p l IH]; [done|]. cbn in *. lia.
Qed.

Lemma pairs_len n bits : length bits = (2 * n)%nat -> length (pairs bits) = n /\ unpairs 2 (pairs bits) = bits.
Proof.
  revert bits; induction n as [|n IH]; intros [|a [|b bits]] H; cbn in H; try lia; [done|].
  destruct (IH bits ltac:(lia)) as [E1 E2]. cbn. rewrite E1. split; [done|]. unfold unpairs in *. cbn in *. by rewrite E2.
Qed.

#[global] Instance stages_ok : NpuschStagesOk (Z * Z) Z unit unit unit.
Proof.
  split; try done.
  - intros m x. apply length_unpairs.
  - intros B HB. eexists. split; [reflexivity|]. cbn. split_and!; dlia.
  - intros RTC G w x C m r HG. cbn. by rewrite take_take, Nat.min_id.
  - intros d K f1 f2 crc F HK. cbn. by rewrite length_resize.
Qed.

#[global] Instance link : NpuschLink (Z * Z) Z unit unit unit id.
Proof. split; try done; intros bits n H; cbn; by destruct (pairs_len n bits H). Qed.

Definition dci : ul_dci_t := mk_ul_dci 70 0 18 0 0 2 0 0.
Definition grant : ul_grant_t := match srslte_ra_nbiot_ul_dci_to_grant dci 100 with Ok (Some g) => g | _ => ul_grant_zero end.
Definition object : sonica_npusch_t (Z * Z) Z :=
  (sonica_npusch_set_cell (npusch_init (replicate 1680 (0, 0)) (replicate 3360 0)) true 7 1).2.
Definition block : list Z := [11; 22; 33; 44].

Lemma object_ok : npusch_ok object.
Proof. split; by vm_compute. Qed.
End Plain.

Definition block_received (r : res (Z * sonica_npusch_t (Z * Z) Z * list Z)) : option (Z * list Z) :=
  match r with Ok (ret, _, data) => Some (ret, data) | _ => None end.

Lemma npusch_receiver_witness :
  block_received (sonica_npusch_decode Plain.object (full_cfg Plain.grant 70) (replicate 1680 (0, 0)) (replicate 1680 (0, 0)) tt (replicate 10 255)) =
    Some (0, replicate 7 0 ++ [255; 255; 255]).
Proof.
  destruct (npusch_receiver Plain.object Plain.dci 100 Plain.grant 70 (replicate 1680 (0, 0)) (replicate 1680 (0, 0)) tt (replicate 10 255))
    as (q' & H & _); [by vm_compute|done|apply Plain.object_ok|by vm_compute|by vm_compute|by vm_compute|].
  rewrite H. by vm_compute.
Defined.

Lemma npusch_block_delivered_witness : exists qt' cfg' sfs qr',
  foldM (encode_sf Plain.block) [replicate 168 (7, 7)] (Plain.object, sonica_npusch_cfg Plain.grant 70, []) = Ok (qt', cfg', sfs) /\
  sonica_npusch_decode Plain.object (full_cfg Plain.grant 70) (concat sfs ++ replicate 1512 (5, 5)) (replicate 1680 (0, 0)) tt (replicate 10 255) =
    Ok (0, qr', [11; 22; 33; 44; 0; 0; 0; 255; 255; 255]).
Proof.
  destruct (npusch_block_delivered id Plain.object Plain.object Plain.dci 100 Plain.grant 70 [replicate 168 (7, 7)] (replicate 1512 (5, 5))
    (replicate 1680 (0, 0)) tt Plain.block (replicate 10 255) (resize 288 0 Plain.block)) as (qt' & cfg' & sfs & qr' & H1 & H2 & _);
    [by vm_compute|done|by vm_compute|apply Plain.object_ok|apply Plain.object_ok|done|done|by repeat constructor|by vm_compute|by vm_compute|by vm_compute|by vm_compute|by vm_compute|done|].
  exists qt', cfg', sfs, qr'. split; [exact H1|etrans; [exact H2|by vm_compute]].
Defined.
