(* ===== verification/EnbUl.v ===== *)
(** * Uplink receiver

    [src/nbiot_enb/enb_ul_nbiot.c]: the channel estimate of a subframe, the
    buffers that collect the subframes of a block, and the decoding of a block,
    on the arrays the code keeps.  [SfUl.v] describes the same functions on
    abstract signals with the decoder as a parameter; here that description is
    shown to be implemented.  Arithmetic on samples is a parameter. *)
From S2P Require Import Prelude Tti RaNbiot SchedTypes Npdsch SfUl Npusch.

Definition N_RU_SEQ : Z := 30.
Definition GROUP_ASSIGNMENT : Z := 0.
(** [SRSLTE_SF_LEN_RE(SRSLTE_NBIOT_MAX_PRB, SRSLTE_CP_NORM)] *)
Definition NOF_RE : Z := 168.

(** What the receiver does to samples: the Fourier transform of a subframe, the
    reference sequence [u], the product with its conjugate, the average of
    neighbours, the noise left over, and sums and halves of noise. *)
Class ChestStages (Sig A N : Type) := {
  srslte_ofdm_rx_sf : Sig -> list A;
  r_uv : Z -> list A;
  srslte_vec_prod_conj_ccc : list A -> list A -> list A;
  srslte_chest_average_pilots : list A -> list A;
  estimate_noise_pilots : list A -> list A -> N;
  noise_zero : N;
  noise_add : N -> N -> N;
  noise_half : N -> N
}.

(** [sonica_enb_ul_nbiot_t]: the arrays of one subframe and of a block. *)
Record sonica_enb_ul_nbiot_t (A S N : Type) := mk_enb_ul_nbiot {
  ul_n_id_ncell : Z;
  ul_nof_prb : Z;
  ul_npusch : sonica_npusch_t A S;
  ul_npusch_cfg : npusch_cfg_t;
  ul_has_ul_grant : bool;
  ul_sf_symbols : list A;
  ul_ce : list A;
  ul_sf_buffer : list A;
  ul_ce_buffer : list A;
  ul_noise_estimate : N;
  ul_ref12_seq : list Z
}.
Arguments mk_enb_ul_nbiot {A S N}.
Arguments ul_n_id_ncell {A S N}.
Arguments ul_nof_prb {A S N}.
Arguments ul_npusch {A S N}.
Arguments ul_npusch_cfg {A S N}.
Arguments ul_has_ul_grant {A S N}.
Arguments ul_sf_symbols {A S N}.
Arguments ul_ce {A S N}.
Arguments ul_sf_buffer {A S N}.
Arguments ul_ce_buffer {A S N}.
Arguments ul_noise_estimate {A S N}.
Arguments ul_ref12_seq {A S N}.
#[export] Instance eta_enb_ul_nbiot {A S N} : Eta (sonica_enb_ul_nbiot_t A S N) := {| eta := fun q =>
  mk_enb_ul_nbiot (ul_n_id_ncell q) (ul_nof_prb q) (ul_npusch q) (ul_npusch_cfg q) (ul_has_ul_grant q) (ul_sf_symbols q) (ul_ce q)
    (ul_sf_buffer q) (ul_ce_buffer q) (ul_noise_estimate q) (ul_ref12_seq q) |}.

(** [interpolate_pilots] *)
Definition interpolate_symbol {A} (nrefs s : Z) (ce : list A) (i : Z) : res (list A) :=
  let src_symb := s * 7 + 3 in
  let dst_symb := i + s * 7 in
  if negb (dst_symb =? src_symb) then mem_copy ce (dst_symb * SRSLTE_NRE) ce (src_symb * SRSLTE_NRE) nrefs else Ok ce.
Definition interpolate_pilots {A} (ce : list A) (nrefs : Z) : res (list A) :=
  foldM (fun ce s => foldM (interpolate_symbol nrefs s) (range 0 7) ce) (range 0 2) ce.

Section Receiver.
Context {Sig A S Q W N : Type} `{ChestStages Sig A N} `{NpuschStages A S Q W N}.
(** [srslte_sequence_LTE_pr(&q->ref12_seq, 640, seed)], its bits *)
Context (srslte_sequence_LTE_pr : Z -> list Z).

(** [sonica_enb_ul_nbiot_init]: [heap] is what the allocator returns before it
    is cleared with [zero]. *)
Definition sonica_enb_ul_nbiot_init (zero : A) (heap_re : list A) (heap_bits : list S) : sonica_enb_ul_nbiot_t A S N :=
  mk_enb_ul_nbiot 0 0 (npusch_init heap_re heap_bits) npusch_cfg_zero false
    (replicate (Z.to_nat NOF_RE) zero) (replicate (Z.to_nat NOF_RE) zero)
    (replicate (Z.to_nat (NOF_RE * SONICA_NPUSCH_MAX_NOF_RU)) zero) (replicate (Z.to_nat (NOF_RE * SONICA_NPUSCH_MAX_NOF_RU)) zero)
    noise_zero [].

Definition sonica_enb_ul_nbiot_set_cell (q : sonica_enb_ul_nbiot_t A S N) (valid : bool) (n_id_ncell nof_prb : Z)
    : Z * sonica_enb_ul_nbiot_t A S N :=
  if valid then
    if negb (ul_n_id_ncell q =? n_id_ncell) || (ul_nof_prb q =? 0) then
      let '(ret, npusch) := sonica_npusch_set_cell (ul_npusch q) valid n_id_ncell nof_prb in
      let q := q <| ul_n_id_ncell := n_id_ncell |> <| ul_nof_prb := nof_prb |> <| ul_npusch := npusch |> in
      if negb (ret =? 0) then (SRSLTE_ERROR, q)
      else (SRSLTE_SUCCESS, q <| ul_ref12_seq := srslte_sequence_LTE_pr (n_id_ncell / N_RU_SEQ) |>)
    else (SRSLTE_SUCCESS, q)
  else (SRSLTE_ERROR_INVALID_INPUTS, q).

Definition ul_cfg_grant (q : sonica_enb_ul_nbiot_t A S N) (grant : ul_grant_t) (rnti_ : Z) : sonica_enb_ul_nbiot_t A S N :=
  q <| ul_npusch_cfg := sonica_npusch_cfg grant rnti_ |> <| ul_has_ul_grant := true |> <| ul_noise_estimate := noise_zero |>.

(** The reference sequence of a slot. *)
Definition slot_sequence (ref12_seq : list Z) (n_id_ncell slot : Z) : res Z :=
  fgh ← foldM (fun fgh i => c ← arr_read ref12_seq (slot * 8 + i); Ok (u32 (fgh + Z.shiftl c i))) (range 0 8) 0;
  Ok (u32 (fgh + u32 (n_id_ncell + GROUP_ASSIGNMENT)) mod N_RU_SEQ).

(** One slot: the estimate of its reference symbol, and its noise. *)
Definition estimate_slot (q : sonica_enb_ul_nbiot_t A S N) (ns : Z) (s : list A * N) (slot : Z) : res (list A * N) :=
  let '(ce, noise_avg) := s in
  u ← slot_sequence (ul_ref12_seq q) (ul_n_id_ncell q) slot;
  let off := ((slot - ns) * 7 + 3) * SRSLTE_NRE in
  y ← vec_in (drop (Z.to_nat off) (ul_sf_symbols q)) SRSLTE_NRE;
  let estimate := srslte_vec_prod_conj_ccc y (r_uv u) in
  let estimate_avg := srslte_chest_average_pilots estimate in
  ce ← mem_copy ce off estimate_avg 0 SRSLTE_NRE;
  Ok (ce, noise_add noise_avg (estimate_noise_pilots estimate estimate_avg)).

(** [sonica_enb_ul_nbiot_decode_fft_estimate] *)
Definition sonica_enb_ul_nbiot_decode_fft_estimate (q : sonica_enb_ul_nbiot_t A S N) (input : Sig) (sf_idx : Z)
    : res (sonica_enb_ul_nbiot_t A S N) :=
  let ns := u32 (sf_idx * 2) in
  let q := q <| ul_sf_symbols := srslte_ofdm_rx_sf input |> in
  '(ce, noise_avg) ← foldM (estimate_slot q ns) (range ns 2) (ul_ce q, noise_zero);
  ce ← interpolate_pilots ce SRSLTE_NRE;
  Ok (q <| ul_ce := ce |> <| ul_noise_estimate := noise_add (ul_noise_estimate q) noise_avg |>).

(** [sonica_enb_ul_nbiot_decode_npusch]: the code's result, the receiver and the
    bytes behind [data]. *)
Definition ul_decode_npusch (q : sonica_enb_ul_nbiot_t A S N) (input : Sig) (sf_idx : Z) (data : option (list Z))
    : res (Z * sonica_enb_ul_nbiot_t A S N * option (list Z)) :=
  if negb (ul_has_ul_grant q) then Ok (SRSLTE_ERROR_INVALID_INPUTS, q, data) else
  q ← sonica_enb_ul_nbiot_decode_fft_estimate q input sf_idx;
  let cfg := ul_npusch_cfg q in
  let cfg_sf := ug_nof_slots (uc_grant cfg) / 2 in
  if uc_num_sf cfg >=? cfg_sf then Ok (SRSLTE_ERROR_INVALID_INPUTS, q, data) else
  sf_buffer ← mem_copy (ul_sf_buffer q) (u32 (uc_sf_idx cfg * NOF_RE)) (ul_sf_symbols q) 0 NOF_RE;
  ce_buffer ← mem_copy (ul_ce_buffer q) (u32 (uc_sf_idx cfg * NOF_RE)) (ul_ce q) 0 NOF_RE;
  let cfg := cfg <| uc_num_sf := u32 (uc_num_sf cfg + 1) |> <| uc_sf_idx := u32 (uc_sf_idx cfg + 1) |> in
  let q := q <| ul_npusch_cfg := cfg |> <| ul_sf_buffer := sf_buffer |> <| ul_ce_buffer := ce_buffer |> in
  if uc_num_sf cfg =? u32 (cfg_sf * ug_nof_rep (uc_grant cfg)) then
    '(ret, npusch, data) ←
      match data with
      | None => Ok (SRSLTE_ERROR_INVALID_INPUTS, ul_npusch q, None)
      | Some bytes =>
          '(ret, npusch, bytes) ← sonica_npusch_decode (ul_npusch q) cfg sf_buffer ce_buffer (noise_half (ul_noise_estimate q)) bytes;
          Ok (ret, npusch, Some bytes)
      end;
    Ok (if negb (ret =? SRSLTE_SUCCESS) then SRSLTE_ERROR else SRSLTE_SUCCESS,
        q <| ul_npusch := npusch |> <| ul_has_ul_grant := false |>, data)
  else Ok (SRSLTE_NBIOT_EXPECT_MORE_SF, q, data).
End Receiver.

(** ** The channel estimate *)

Definition sym_row {A} (x : list A) (r : Z) : list A := take (Z.to_nat 12) (drop (Z.to_nat (r * 12)) x).

Lemma copy_row {A} (dst src : list A) d off : length dst = Z.to_nat 168 -> 0 <= d < 14 -> 0 <= off -> off + 12 <= Z.of_nat (length src) ->
  exists dst', mem_copy dst (d * 12) src off 12 = Ok dst' /\ length dst' = Z.to_nat 168 /\
    sym_row dst' d = take (Z.to_nat 12) (drop (Z.to_nat off) src) /\ forall r, 0 <= r -> r <> d -> sym_row dst' r = sym_row dst r.
Proof.
  intros Hl Hd Ho Hs. destruct (mem_copy dst (d * 12) src off 12) as [dst'| |] eqn:E; [|rewrite mem_copy_in in E by lia; done..].
  pose proof (mem_copy_lookup dst (d * 12) src off 12 dst' ltac:(lia) ltac:(lia) ltac:(lia) E) as Hk.
  apply length_mem_copy in E; [|lia..]. exists dst'. split_and!; [done|lia| |].
  - apply list_eq. intros i. unfold sym_row. destruct (decide (i < Z.to_nat 12)%nat); [|by rewrite !lookup_take_ge by lia].
    rewrite !lookup_take_lt, !lookup_drop, Hk, decide_True by lia. f_equal. lia.
  - intros r Hr Hne. apply list_eq. intros i. unfold sym_row. destruct (decide (i < Z.to_nat 12)%nat); [|by rewrite !lookup_take_ge by lia].
    rewrite !lookup_take_lt, !lookup_drop, Hk, decide_False by lia. done.
Qed.

Lemma copy_rows {A} (src : Z) ds (ce : list A) : length ce = Z.to_nat 168 -> 0 <= src < 14 -> src ∉ ds -> (forall d, d ∈ ds -> 0 <= d < 14) ->
  exists ce', foldM (fun ce d => mem_copy ce (d * 12) ce (src * 12) 12) ds ce = Ok ce' /\ length ce' = Z.to_nat 168 /\
    (forall r, 0 <= r -> r ∉ ds -> sym_row ce' r = sym_row ce r) /\ (forall r, r ∈ ds -> sym_row ce' r = sym_row ce src).
Proof.
  intros Hl Hs. revert ce Hl; induction ds as [|d ds IH]; intros ce Hl Hn Hd; [exists ce; split_and!; try done; by intros r ?%elem_of_nil|].
  apply not_elem_of_cons in Hn as [Hne Hn]. cbn [foldM].
  destruct (copy_row ce ce d (src * 12) Hl (Hd d (list_elem_of_here _ _)) ltac:(lia) ltac:(lia)) as (ce1 & -> & L1 & E1 & K1).
  rewrite bind_ok_l. destruct (IH ce1 L1 Hn ltac:(intros; apply Hd; by apply list_elem_of_further)) as (ce2 & -> & L2 & K2 & E2).
  exists ce2. split_and!; [done|done| |].
  - intros r Hr Hr'. apply not_elem_of_cons in Hr' as [? ?]. by rewrite K2, K1 by done.
  - intros r Hr. destruct (decide (r ∈ ds)) as [Hin|Hout].
    + rewrite (E2 r Hin), K1 by (done || lia). done.
    + apply elem_of_cons in Hr as [->|Hr]; [|done]. pose proof (Hd d (list_elem_of_here _ _)). rewrite K2 by (done || lia). exact E1.
Qed.

(** The estimate of a slot's reference symbol holds for all its symbols. *)
Lemma interpolate_ok {A} (ce : list A) : length ce = Z.to_nat 168 ->
  exists ce', interpolate_pilots ce 12 = Ok ce' /\ length ce' = Z.to_nat 168 /\
    forall r, 0 <= r < 14 -> sym_row ce' r = sym_row ce (r / 7 * 7 + 3).
Proof.
  intros Hl. unfold interpolate_pilots. change (range 0 2) with [0; 1]. cbn [foldM].
  assert (Hslot : forall s ce, 0 <= s < 2 -> foldM (interpolate_symbol 12 s) (range 0 7) ce =
    foldM (fun (ce : list A) d => mem_copy ce (d * 12) ce ((s * 7 + 3) * 12) 12) ((fun i => i + s * 7) <$> [0; 1; 2; 4; 5; 6]) ce).
  { intros s c Hs. apply (foldM_skip _ (fun (ce : list A) d => mem_copy ce (d * 12) ce ((s * 7 + 3) * 12) 12) (fun i => negb (i =? 3)) (fun i => i + s * 7)).
    intros i c' Hi%elem_of_range. unfold interpolate_symbol, SRSLTE_NRE. destruct (Z.eqb_spec i 3) as [->|Hne]; cbn [negb].
    - by replace (3 + s * 7 =? s * 7 + 3) with true by lia.
    - by replace (i + s * 7 =? s * 7 + 3) with false by lia. }
  rewrite Hslot by lia.
  destruct (copy_rows (0 * 7 + 3) ((fun i => i + 0 * 7) <$> [0; 1; 2; 4; 5; 6]) ce) as (c1 & -> & L1 & K1 & E1); [done|lia|..].
  { apply (bool_decide_unpack _). by vm_compute. }
  { intros d Hd. cbn in Hd. set_unfold in Hd. lia. }
  rewrite bind_ok_l, Hslot by lia.
  destruct (copy_rows (1 * 7 + 3) ((fun i => i + 1 * 7) <$> [0; 1; 2; 4; 5; 6]) c1) as (c2 & -> & L2 & K2 & E2); [done|lia|..].
  { apply (bool_decide_unpack _). by vm_compute. }
  { intros d Hd. cbn in Hd. set_unfold in Hd. lia. }
  cbn [foldM]. rewrite bind_ok_l. exists c2. split; [done|]. split; [done|]. intros r Hr.
  assert (Hr' : r ∈ range 0 14) by (apply elem_of_range; lia). clear Hr.
  revert r Hr'. apply Forall_forall. change (range 0 14) with [0; 1; 2; 3; 4; 5; 6; 7; 8; 9; 10; 11; 12; 13].
  repeat apply Forall_cons_2; [..|apply Forall_nil_2];
    match goal with |- sym_row c2 ?a = sym_row ce (?a / 7 * 7 + 3) =>
      let k := eval vm_compute in (a / 7 * 7 + 3) in change (a / 7 * 7 + 3) with k end;
    first [rewrite K2 by (lia || (apply (bool_decide_unpack _); by vm_compute));
             first [apply E1; apply (bool_decide_unpack _); by vm_compute
                   |apply K1; [lia|apply (bool_decide_unpack _); by vm_compute]]
          |rewrite E2 by (apply (bool_decide_unpack _); by vm_compute); apply K1; [lia|apply (bool_decide_unpack _); by vm_compute]].
Qed.

Lemma rows_eq {A} (x y : list A) : length x = Z.to_nat 168 -> length y = Z.to_nat 168 ->
  (forall r, 0 <= r < 14 -> sym_row x r = sym_row y r) -> x = y.
Proof.
  intros Hx Hy Hr. apply list_eq. intros i. destruct (decide (i < Z.to_nat 168)%nat) as [Hi|Hi]; [|by rewrite !lookup_ge_None_2 by lia].
  specialize (Hr (Z.of_nat i / 12) ltac:(dlia)). apply (f_equal (fun l => l !! Z.to_nat (Z.of_nat i mod 12))) in Hr.
  unfold sym_row in Hr. rewrite !lookup_take_lt, !lookup_drop in Hr by dlia.
  by replace (Z.to_nat (Z.of_nat i / 12 * 12) + Z.to_nat (Z.of_nat i mod 12))%nat with i in Hr by dlia.
Qed.

Lemma row_concat {A} (l : list (list A)) r x : Forall (fun y => length y = Z.to_nat 12) l -> l !! r = Some x ->
  sym_row (concat l) (Z.of_nat r) = x.
Proof.
  intros H. revert r; induction H as [|y l Hy H IH]; intros r Hx; [done|]. destruct r as [|r]; cbn in Hx.
  - injection Hx as ->. unfold sym_row. cbn [concat]. rewrite drop_0. rewrite take_app_le, take_ge by lia. done.
  - rewrite <- (IH r Hx). unfold sym_row. cbn [concat]. rewrite drop_app_ge by lia. do 2 f_equal. lia.
Qed.

Lemma length_rows {A} (l : list (list A)) : Forall (fun y => length y = Z.to_nat 12) l -> length (concat l) = (length l * Z.to_nat 12)%nat.
Proof. intros H. induction H as [|y l Hy _ IH]; [done|]. cbn. rewrite length_app, IH, Hy. lia. Qed.

(** ** The receiver that the worker sees *)

Class ChestStagesOk (Sig A N : Type) `{ChestStages Sig A N} : Prop := {
  ofdm_rx_len : forall sig, length (srslte_ofdm_rx_sf sig) = Z.to_nat 168;
  prod_conj_len : forall x y, length (srslte_vec_prod_conj_ccc x y) = length x;
  average_len : forall x, length (srslte_chest_average_pilots x) = length x
}.

(** Fields of updated objects. *)
Ltac ul_fields :=
  cbn [upd eta eta_enb_ul_nbiot ul_n_id_ncell ul_nof_prb ul_npusch ul_npusch_cfg ul_has_ul_grant ul_sf_symbols ul_ce ul_sf_buffer ul_ce_buffer ul_noise_estimate ul_ref12_seq
       eta_npusch_cfg_t uc_grant uc_nbits uc_is_encoded uc_sf_idx uc_rep_idx uc_num_sf uc_rnti
       eta_enb_ul_t eu_cfg eu_has_ul_grant eu_sf_buffer].

Section Estimate.
Context {Sig A S Q W N : Type} `{ChestOk : ChestStagesOk Sig A N} `{StagesOk : NpuschStagesOk A S Q W N}.

Definition slot_u (seq : list Z) (ncell slot : Z) : Z := match slot_sequence seq ncell slot with Ok u => u | _ => 0 end.
(** The reference symbol of slot [s] of a subframe against its sequence, and the
    average of that. *)
Definition slot_pilots (seq : list Z) (ncell sf_idx : Z) (x : list A) (s : Z) : list A :=
  srslte_vec_prod_conj_ccc (sym_row x (s * 7 + 3)) (r_uv (slot_u seq ncell (sf_idx * 2 + s))).
Definition slot_average (seq : list Z) (ncell sf_idx : Z) (x : list A) (s : Z) : list A :=
  srslte_chest_average_pilots (slot_pilots seq ncell sf_idx x s).
(** What a subframe is to the decoder: its elements, the channel at each of them,
    and its noise. *)
Definition sf_signal : Type := list A * list A * N.
Definition sf_estimate (seq : list Z) (ncell : Z) (sig : Sig) (sf_idx : Z) : sf_signal :=
  let x := srslte_ofdm_rx_sf sig in
  let noise s := estimate_noise_pilots (slot_pilots seq ncell sf_idx x s) (slot_average seq ncell sf_idx x s) in
  (x, concat (replicate 7 (slot_average seq ncell sf_idx x 0) ++ replicate 7 (slot_average seq ncell sf_idx x 1)),
   noise_add (noise_add noise_zero (noise 0)) (noise 1)).

Lemma slot_sequence_total seq ncell slot : length seq = Z.to_nat 640 -> 0 <= slot < 80 -> slot_sequence seq ncell slot = Ok (slot_u seq ncell slot).
Proof.
  intros Hl Hs. unfold slot_u. destruct (slot_sequence seq ncell slot) eqn:E; [done|..]; exfalso;
    unfold slot_sequence in E; (destruct (foldM_total (fun fgh i => c ← arr_read seq (slot * 8 + i); Ok (u32 (fgh + Z.shiftl c i))) (fun _ => True) (range 0 8) 0)
      as (f & Hf & _); [|done|rewrite Hf in E; done]); intros i s Hi%list_elem_of_In%elem_of_range _;
    destruct (arr_read_in seq (slot * 8 + i)) as (c & -> & _); (lia || (rewrite bind_ok_l; by eexists)).
Qed.

Lemma estimate_slot_ok (q : sonica_enb_ul_nbiot_t A S N) ns s ce noise : length (ul_ref12_seq q) = Z.to_nat 640 -> 0 <= ns -> ns + s < 80 -> 0 <= s < 2 ->
  length (ul_sf_symbols q) = Z.to_nat 168 -> length ce = Z.to_nat 168 ->
  let e := srslte_vec_prod_conj_ccc (sym_row (ul_sf_symbols q) (s * 7 + 3)) (r_uv (slot_u (ul_ref12_seq q) (ul_n_id_ncell q) (ns + s))) in
  exists ce', estimate_slot q ns (ce, noise) (ns + s) =
      Ok (ce', noise_add noise (estimate_noise_pilots e (srslte_chest_average_pilots e))) /\
    length ce' = Z.to_nat 168 /\ sym_row ce' (s * 7 + 3) = srslte_chest_average_pilots e /\
    forall r, 0 <= r -> r <> s * 7 + 3 -> sym_row ce' r = sym_row ce r.
Proof.
  intros Hseq Hns Hb Hs Hx Hce e. unfold estimate_slot. rewrite slot_sequence_total by (done || lia). rewrite bind_ok_l.
  replace (ns + s - ns) with s by lia. unfold SRSLTE_NRE. rewrite vec_in_ok by (rewrite length_drop; lia). rewrite bind_ok_l.
  fold (sym_row (ul_sf_symbols q) (s * 7 + 3)). fold e.
  assert (Le : length (srslte_chest_average_pilots e) = Z.to_nat 12).
  { rewrite average_len. unfold e. rewrite prod_conj_len. unfold sym_row. rewrite length_take, length_drop. lia. }
  destruct (copy_row ce (srslte_chest_average_pilots e) (s * 7 + 3) 0 Hce ltac:(lia) ltac:(lia) ltac:(rewrite Le; lia)) as (ce' & -> & L & E & K).
  rewrite bind_ok_l. exists ce'. split_and!; try done. rewrite E, drop_0, take_ge by lia. done.
Qed.

Lemma fft_estimate_ok (q : sonica_enb_ul_nbiot_t A S N) (sig : Sig) sf_idx : length (ul_ref12_seq q) = Z.to_nat 640 -> 0 <= sf_idx < 10 -> length (ul_ce q) = Z.to_nat 168 ->
  let e := sf_estimate (ul_ref12_seq q) (ul_n_id_ncell q) sig sf_idx in
  sonica_enb_ul_nbiot_decode_fft_estimate q sig sf_idx =
    Ok (q <| ul_sf_symbols := e.1.1 |> <| ul_ce := e.1.2 |> <| ul_noise_estimate := noise_add (ul_noise_estimate q) e.2 |>).
Proof.
  intros Hseq Hsf Hce e. unfold sonica_enb_ul_nbiot_decode_fft_estimate. rewrite u32_id by lia. set (q1 := q <| ul_sf_symbols := _ |>).
  assert (L0 : length (ul_sf_symbols q1) = Z.to_nat 168) by apply ofdm_rx_len.
  change (range (sf_idx * 2) 2) with [sf_idx * 2 + Z.of_nat 0; sf_idx * 2 + Z.of_nat 1]. cbn [foldM]. change (Z.of_nat 0) with 0. change (Z.of_nat 1) with 1. change (ul_ce q1) with (ul_ce q).
  destruct (estimate_slot_ok q1 (sf_idx * 2) 0 (ul_ce q) noise_zero) as (c1 & -> & L1 & E1 & K1); try done; [lia|lia|]. rewrite bind_ok_l.
  match goal with |- context [estimate_slot q1 _ (c1, ?n) _] =>
    destruct (estimate_slot_ok q1 (sf_idx * 2) 1 c1 n) as (c2 & -> & L2 & E2 & K2); try done; [lia|lia|] end.
  rewrite !bind_ok_l.
  destruct (interpolate_ok c2 L2) as (c3 & E & L3 & K3). unfold SRSLTE_NRE. rewrite E, bind_ok_l. clear E.
  assert (E3 : c3 = e.1.2); [|by rewrite E3].
  assert (La : forall s, 0 <= s < 2 -> length (slot_average (ul_ref12_seq q) (ul_n_id_ncell q) sf_idx (srslte_ofdm_rx_sf sig) s) = Z.to_nat 12).
  { intros s Hs. unfold slot_average, slot_pilots. rewrite average_len, prod_conj_len. unfold sym_row.
    rewrite length_take, length_drop, ofdm_rx_len. lia. }
  assert (Hall : Forall (fun y => length y = Z.to_nat 12)
    (replicate 7 (slot_average (ul_ref12_seq q) (ul_n_id_ncell q) sf_idx (srslte_ofdm_rx_sf sig) 0) ++
     replicate 7 (slot_average (ul_ref12_seq q) (ul_n_id_ncell q) sf_idx (srslte_ofdm_rx_sf sig) 1))).
  { apply Forall_app. split; apply Forall_replicate; apply La; lia. }
  apply rows_eq; [done|cbn [fst snd e sf_estimate]; rewrite length_rows by done; by rewrite length_app, !length_replicate|].
  intros r Hr. rewrite K3 by done. rewrite <- (Z2Nat.id r) at 2 by lia. cbn [fst snd e sf_estimate].
  destruct (Z.ltb_spec r 7) as [H7|H7].
  - rewrite (row_concat _ _ (slot_average (ul_ref12_seq q) (ul_n_id_ncell q) sf_idx (srslte_ofdm_rx_sf sig) 0) Hall).
    + replace (r / 7 * 7 + 3) with 3 by dlia. rewrite K2 by lia. exact E1.
    + rewrite lookup_app_l by (rewrite length_replicate; lia). apply lookup_replicate. split; [done|lia].
  - rewrite (row_concat _ _ (slot_average (ul_ref12_seq q) (ul_n_id_ncell q) sf_idx (srslte_ofdm_rx_sf sig) 1) Hall).
    + replace (r / 7 * 7 + 3) with (1 * 7 + 3) by dlia. exact E2.
    + rewrite lookup_app_r by (rewrite length_replicate; lia). rewrite length_replicate. apply lookup_replicate. split; [done|lia].
Qed.

(** ** Refinement

    [noise_of]: the noise of several subframes, as the code sums it. *)
Definition noise_of (sigs : list sf_signal) : N := foldl noise_add noise_zero (snd <$> sigs).

(** The decoder of [SfUl.v]: what a block's subframes are decoded to. *)
Definition ul_decoder (ncell : Z) (cfg : npusch_cfg_t) (l : list (option sf_signal)) : option (list Z) :=
  let g := uc_grant cfg in
  let sigs := omap id l in
  let c := srslte_sequence_npusch (uc_rnti cfg) (ug_tx_tti g / 10) (u32 (ug_tx_tti g mod 10 * 2)) ncell (nb_nof_bits (uc_nbits cfg)) in
  block_payload g (block_word (Z.to_nat (ug_nof_ru g))
    (block_soft c (concat (sf_cells g <$> (fst ∘ fst <$> sigs))) (concat (sf_cells g <$> (snd ∘ fst <$> sigs))) (noise_half (noise_of sigs)))).

(** The subframes collected so far, in the code's arrays. *)
Record collected (sigs : list sf_signal) (a : enb_ul_t sf_signal) (c : sonica_enb_ul_nbiot_t A S N) : Prop := mk_collected {
  cd_grant : full_grant (uc_grant (eu_cfg a));
  cd_rep : ug_nof_rep (uc_grant (eu_cfg a)) = 1;
  cd_nbits : uc_nbits (eu_cfg a) = srslte_ra_nbiot_ul_grant_to_nbits (uc_grant (eu_cfg a));
  cd_more : (length sigs < Z.to_nat (ug_nof_ru (uc_grant (eu_cfg a))))%nat;
  cd_num : uc_num_sf (eu_cfg a) = Z.of_nat (length sigs);
  cd_idx : uc_sf_idx (eu_cfg a) = Z.of_nat (length sigs);
  cd_buf : take (length sigs) (eu_sf_buffer a) = Some <$> sigs;
  cd_len : Forall (fun s : sf_signal => length s.1.1 = Z.to_nat 168 /\ length s.1.2 = Z.to_nat 168) sigs;
  cd_sf : take (Z.to_nat (168 * Z.of_nat (length sigs))) (ul_sf_buffer c) = concat (fst ∘ fst <$> sigs);
  cd_ce : take (Z.to_nat (168 * Z.of_nat (length sigs))) (ul_ce_buffer c) = concat (snd ∘ fst <$> sigs);
  cd_noise : ul_noise_estimate c = noise_of sigs
}.

(** The receiver [c] of a cell, described by [a]. *)
Record ul_refines (ncell : Z) (seq : list Z) (a : enb_ul_t sf_signal) (c : sonica_enb_ul_nbiot_t A S N) : Prop := mk_ul_refines {
  ur_cfg : eu_cfg a = ul_npusch_cfg c;
  ur_has : eu_has_ul_grant a = ul_has_ul_grant c;
  ur_len : length (eu_sf_buffer a) = 10%nat;
  ur_ncell : ul_n_id_ncell c = ncell;
  ur_npusch : npusch_ok (ul_npusch c);
  ur_npusch_cell : nq_n_id_ncell (ul_npusch c) = ncell;
  ur_seq : ul_ref12_seq c = seq;
  ur_seq_len : length seq = Z.to_nat 640;
  ur_ce : length (ul_ce c) = Z.to_nat 168;
  ur_sf_buffer : length (ul_sf_buffer c) = Z.to_nat 1680;
  ur_ce_buffer : length (ul_ce_buffer c) = Z.to_nat 1680;
  ur_collected : eu_has_ul_grant a = true -> exists sigs, collected sigs a c
}.

Lemma length_estimate seq ncell (sig : Sig) sf_idx : let e := sf_estimate seq ncell sig sf_idx in
  length e.1.1 = Z.to_nat 168 /\ length e.1.2 = Z.to_nat 168.
Proof.
  cbn [sf_estimate fst snd]. split; [apply ofdm_rx_len|]. rewrite length_rows; [by rewrite length_app, !length_replicate|].
  apply Forall_app. split; apply Forall_replicate; unfold slot_average, slot_pilots; rewrite average_len, prod_conj_len; unfold sym_row;
    rewrite length_take, length_drop, ofdm_rx_len; lia.
Qed.

(** One more subframe at the end of an array. *)
Lemma append_sf (buf : list A) x j sofar : length buf = Z.to_nat 1680 -> length x = Z.to_nat 168 -> (j < 10)%nat ->
  take (Z.to_nat (168 * Z.of_nat j)) buf = sofar ->
  exists buf', mem_copy buf (u32 (Z.of_nat j * 168)) x 0 168 = Ok buf' /\ length buf' = Z.to_nat 1680 /\
    take (Z.to_nat (168 * Z.of_nat (j + 1))) buf' = sofar ++ x.
Proof.
  intros Hb Hx Hj Hs. rewrite u32_id by lia. rewrite mem_copy_in by (rewrite ?Hb, ?Hx; lia).
  change (Z.to_nat 0) with O. rewrite drop_0, (take_ge x) by lia. replace (Z.of_nat j * 168) with (168 * Z.of_nat j) by lia. rewrite Hs.
  assert (Ls : length sofar = Z.to_nat (168 * Z.of_nat j)) by (rewrite <- Hs, length_take; lia).
  eexists. split; [reflexivity|]. split; [rewrite !length_app, length_drop; lia|].
  rewrite app_assoc, take_app_le, take_ge by (rewrite length_app; lia). done.
Qed.

Lemma omap_some (sigs : list sf_signal) : omap id (Some <$> sigs) = sigs.
Proof. induction sigs as [|s l IH]; [done|]. cbn. by rewrite IH. Qed.

Lemma concat_snoc {B C} (f : B -> list C) l x : concat (f <$> (l ++ [x])) = concat (f <$> l) ++ f x.
Proof. rewrite fmap_app, concat_app. cbn. by rewrite app_nil_r. Qed.

(** What the caller's buffer holds after the events of a call. *)
Definition data_after {P} (ev : list (ul_event P)) (data data' : list Z) : Prop :=
  data' = match ev with Ue_write _ bytes :: _ => bytes ++ drop (length bytes) data | _ => data end.

(** The collected subframes, decoded. *)
Lemma decode_collected ncell seq a c sigs cfg noise data : ul_refines ncell seq a c ->
  let g := uc_grant cfg in full_grant g -> uc_nbits cfg = srslte_ra_nbiot_ul_grant_to_nbits g ->
  length sigs = Z.to_nat (ug_nof_ru g) -> noise = noise_half (noise_of sigs) ->
  Forall (fun s : sf_signal => length s.1.1 = Z.to_nat 168 /\ length s.1.2 = Z.to_nat 168) sigs ->
  forall sf_buffer ce_buffer, length sf_buffer = Z.to_nat 1680 -> length ce_buffer = Z.to_nat 1680 ->
  take (Z.to_nat (168 * Z.of_nat (length sigs))) sf_buffer = concat (fst ∘ fst <$> sigs) ->
  take (Z.to_nat (168 * Z.of_nat (length sigs))) ce_buffer = concat (snd ∘ fst <$> sigs) ->
  ug_tbs g / 8 + 3 <= Z.of_nat (length data) ->
  let payload := ul_decoder ncell cfg (Some <$> sigs) in
  exists npusch, sonica_npusch_decode (ul_npusch c) cfg sf_buffer ce_buffer noise data =
      Ok (match payload with Some _ => SRSLTE_SUCCESS | None => SRSLTE_ERROR end, npusch,
          match payload with Some bytes => bytes ++ drop (length bytes) data | None => data end) /\
    npusch_ok npusch /\ nq_n_id_ncell npusch = ncell.
Proof.
  intros Hr g Hg Hb Hn -> Hl sfb ceb Lsf Lce Esf Ece Hd payload.
  destruct (decode_block (ul_npusch c) cfg g sfb ceb (noise_half (noise_of sigs)) data (ur_npusch _ _ _ _ Hr) Hg eq_refl Hb Lsf Lce Hd)
    as (np & E & Hok & Hid & _). exists np. split; [|split; [done|by rewrite Hid, (ur_npusch_cell _ _ _ _ Hr)]]. rewrite E.
  assert (Hcells : forall f : sf_signal -> list A, (forall s, s ∈ sigs -> length (f s) = Z.to_nat 168) ->
    forall buf, take (Z.to_nat (168 * Z.of_nat (length sigs))) buf = concat (f <$> sigs) ->
    block_cells g buf (Z.to_nat (ug_nof_ru g)) = concat (sf_cells g <$> (f <$> sigs))).
  { intros f Hf buf Hbuf. rewrite <- (take_drop (Z.to_nat (168 * Z.of_nat (length sigs))) buf), Hbuf.
    replace (Z.to_nat (ug_nof_ru g)) with (length (f <$> sigs)) by (rewrite length_fmap; done).
    apply block_cells_sent; [by apply full_alloc|]. apply Forall_fmap, Forall_forall. exact Hf. }
  rewrite Forall_forall in Hl. rewrite (Hcells (fst ∘ fst)) by (done || (intros s Hs; apply (Hl s Hs))).
  rewrite (Hcells (snd ∘ fst)) by (done || (intros s Hs; apply (Hl s Hs))).
  subst payload. unfold ul_decoder. rewrite omap_some. fold g. unfold block_sequence, get_user_sequence.
  by rewrite (ur_npusch_cell _ _ _ _ Hr).
Qed.

(** One subframe of a reception. *)
Lemma decode_step {P} ncell seq a c (sig : Sig) sf_idx (p : P) data : ul_refines ncell seq a c -> 0 <= sf_idx < 10 ->
  (eu_has_ul_grant a = true -> ug_tbs (uc_grant (eu_cfg a)) / 8 + 3 <= Z.of_nat (length data)) ->
  exists ret c' data' a' ev,
    ul_decode_npusch c sig sf_idx (Some data) = Ok (ret, c', Some data') /\
    sonica_enb_ul_nbiot_decode_npusch (ul_decoder ncell) a (sf_estimate seq ncell sig sf_idx) (Some p) = Ok (ret, a', ev) /\
    ul_refines ncell seq a' c' /\ data_after ev data data'.
Proof.
  intros Hr Hi Hd. pose proof Hr as [R1 R2 R3 R4 R5 R6 R7 R8 R9 R10 R11 R12]. unfold ul_decode_npusch, sonica_enb_ul_nbiot_decode_npusch.
  rewrite <- R2. destruct (eu_has_ul_grant a) eqn:Ha; cbn [negb].
  2: { exists SRSLTE_ERROR_INVALID_INPUTS, c, data, a, []. split_and!; try done. }
  destruct (R12 eq_refl) as [sigs [C1 C2 C3 C4 C5 C6 C7 C8 C9 C10 C11]]. specialize (Hd eq_refl).
  rewrite fft_estimate_ok by (rewrite ?R7; done). rewrite bind_ok_l, R7, R4. set (e := sf_estimate seq ncell sig sf_idx).
  destruct (length_estimate seq ncell sig sf_idx) as [Le1 Le2]. fold e in Le1, Le2.
  ul_fields. rewrite <- R1, C5, C6. set (g := uc_grant (eu_cfg a)) in *. pose proof C1 as [G1 G2 G3 G4 G5 G6 G7].
  replace (ug_nof_slots g / 2) with (ug_nof_ru g) by (rewrite G4; dlia).
  replace (Z.of_nat (length sigs) >=? ug_nof_ru g) with false by lia.
  destruct (append_sf (ul_sf_buffer c) e.1.1 (length sigs) _ R10 Le1 ltac:(lia) C9) as (sfb & E1 & L1 & T1).
  destruct (append_sf (ul_ce_buffer c) e.1.2 (length sigs) _ R11 Le2 ltac:(lia) C10) as (ceb & E2 & L2 & T2).
  unfold NOF_RE. rewrite E1, bind_ok_l, E2, bind_ok_l. rewrite arr_write_in by lia. rewrite bind_ok_l, Nat2Z.id, !(u32_id (Z.of_nat _ + 1)) by lia.
  rewrite ?C6, ?(u32_id (Z.of_nat _ + 1)) by lia.
  set (cfg := mk_npusch_cfg g (uc_nbits (eu_cfg a)) (uc_is_encoded (eu_cfg a)) (Z.of_nat (length sigs) + 1) (uc_rep_idx (eu_cfg a))
    (Z.of_nat (length sigs) + 1) (uc_rnti (eu_cfg a))).
  set (buf := <[length sigs := Some e]> (eu_sf_buffer a)).
  assert (Hbuf : take (length (sigs ++ [e])) buf = Some <$> (sigs ++ [e])).
  { unfold buf. rewrite length_app, Nat.add_1_r, take_insert_last, C7, fmap_app by lia. done. }
  assert (Lbuf : length buf = 10%nat) by (unfold buf; by rewrite length_insert).
  assert (Hsigs : length (sigs ++ [e]) = (length sigs + 1)%nat) by (by rewrite length_app).
  rewrite C2, Z.mul_1_r, (u32_id (ug_nof_ru g)) by lia.
  replace (concat (fst ∘ fst <$> sigs) ++ e.1.1) with (concat (fst ∘ fst <$> (sigs ++ [e]))) in T1 by (by rewrite concat_snoc).
  replace (concat (snd ∘ fst <$> sigs) ++ e.1.2) with (concat (snd ∘ fst <$> (sigs ++ [e]))) in T2 by (by rewrite concat_snoc).
  rewrite <- Hsigs in T1, T2.
  assert (Hnoise : noise_add (ul_noise_estimate c) e.2 = noise_of (sigs ++ [e])).
  { rewrite C11. unfold noise_of. by rewrite fmap_app, foldl_app. }
  assert (Hall : Forall (fun s : sf_signal => length s.1.1 = Z.to_nat 168 /\ length s.1.2 = Z.to_nat 168) (sigs ++ [e]))
    by (apply Forall_app; split; [done|by repeat constructor]).
  destruct (Z.eqb_spec (Z.of_nat (length sigs) + 1) (ug_nof_ru g)) as [Hlast|Hmore].
  - destruct (decode_collected ncell seq a c (sigs ++ [e]) cfg _ data Hr C1 C3 ltac:(change (uc_grant cfg) with g; lia) (f_equal noise_half Hnoise)
      Hall sfb ceb L1 L2 T1 T2 Hd) as (np & -> & Hok & Hid). rewrite !bind_ok_l.
    replace (take (Z.to_nat (ug_nof_ru g)) buf) with (Some <$> (sigs ++ [e])) by (rewrite <- Hbuf; f_equal; lia).
    destruct (ul_decoder ncell cfg (Some <$> (sigs ++ [e]))) as [bytes|]; do 5 eexists; (split; [reflexivity|]); (split; [reflexivity|]);
      (split; [|reflexivity]);
      split; cbn; first [exact Le2|exact Lbuf|done].
  - do 5 eexists. split; [reflexivity|]. split; [reflexivity|]. split; [|reflexivity].
    split; cbn; try first [exact Le2|exact Lbuf|done|congruence]. intros _. exists (sigs ++ [e]). fold g.
    split; cbn; try done; fold g; try lia.
Qed.
End Estimate.

(** C16. The receiver of a cell does what the worker expects of it.  Beside the
    description of the receiver that keeps a signal per subframe and has its
    decoder as a parameter, the arrays of the code: a new object, set up for a
    cell, is described by an empty receiver; giving both a grant of the whole
    carrier keeps the description; and in every subframe, with or without a
    grant, the code stays inside its arrays, returns what the description
    returns, and leaves in the caller's buffer the bytes the description writes
    - the description's signal being the subframe's elements, for each symbol the
    average of the reference symbol of its slot, and its noise, and its decoder
    the block decoder on the collected subframes and their summed noise. *)
Theorem ul_receiver_refined {Sig A S Q W N P} `{ChestStagesOk Sig A N} `{NpuschStagesOk A S Q W N}
    (srslte_sequence_LTE_pr : Z -> list Z) ncell (zero : A) (heap_re : list A) (heap_bits : list S) :
  length (srslte_sequence_LTE_pr (ncell / N_RU_SEQ)) = Z.to_nat 640 -> length heap_re = Z.to_nat 1680 -> length heap_bits = Z.to_nat 3360 ->
  let seq := srslte_sequence_LTE_pr (ncell / N_RU_SEQ) in
  ul_refines ncell seq enb_ul_new (sonica_enb_ul_nbiot_set_cell srslte_sequence_LTE_pr (sonica_enb_ul_nbiot_init zero heap_re heap_bits) true ncell 1).2 /\
  (forall (a : enb_ul_t (@sf_signal A N)) (c : sonica_enb_ul_nbiot_t A S N) dci rx g r, ul_refines ncell seq a c -> srslte_ra_nbiot_ul_dci_to_grant dci rx = Ok (Some g) -> ul_i_sc dci = 18 ->
     ul_refines ncell seq (sonica_enb_ul_nbiot_cfg_grant a g r) (ul_cfg_grant c g r)) /\
  (forall (a : enb_ul_t (@sf_signal A N)) (c : sonica_enb_ul_nbiot_t A S N) (sig : Sig) sf_idx (p : P) data, ul_refines ncell seq a c -> 0 <= sf_idx < 10 ->
     (eu_has_ul_grant a = true -> ug_tbs (uc_grant (eu_cfg a)) / 8 + 3 <= Z.of_nat (length data)) ->
     exists ret c' data' a' ev,
       ul_decode_npusch c sig sf_idx (Some data) = Ok (ret, c', Some data') /\
       sonica_enb_ul_nbiot_decode_npusch (ul_decoder ncell) a (sf_estimate seq ncell sig sf_idx) (Some p) = Ok (ret, a', ev) /\
       ul_refines ncell seq a' c' /\ data_after ev data data').
Proof.
  intros Hseq Hre Hbits seq. split_and!.
  - unfold sonica_enb_ul_nbiot_set_cell. cbn [sonica_enb_ul_nbiot_init ul_nof_prb]. rewrite orb_true_r. cbn [sonica_npusch_set_cell].
    split; cbn; try done; try (by rewrite length_replicate). split; cbn; rewrite ?length_take; try done; unfold MAX_NPUSCH_RE; lia.
  - intros a c dci rx g r [R1 R2 R3 R4 R5 R6 R7 R8 R9 R10 R11 R12] Hd Hsc. pose proof (dci_full_grant dci rx g Hd Hsc) as Hg.
    destruct (ul_grant_spec dci rx g Hd Hsc) as [[_ Hrep] _].
    split; cbn; try done. intros _. exists []. split; cbn; try done. pose proof (fg_ru g Hg). lia.
  - intros a c sig sf_idx p data Hr Hi Hd. by apply decode_step.
Qed.

(** The plain stages again: a subframe is its elements, the estimate is of no
    use to them. *)
#[global] Instance plain_chest : ChestStages (list (Z * Z)) (Z * Z) unit := {|
  srslte_ofdm_rx_sf sig := resize (Z.to_nat 168) (0, 0) sig;
  r_uv _ := [];
  srslte_vec_prod_conj_ccc x _ := x;
  srslte_chest_average_pilots x := x;
  estimate_noise_pilots _ _ := tt;
  noise_zero := tt;
  noise_add _ _ := tt;
  noise_half _ := tt
|}.
#[global] Instance plain_chest_ok : ChestStagesOk (list (Z * Z)) (Z * Z) unit.
Proof. split; [|done..]. intros sig. apply length_resize. Qed.

(** A subframe with the block of [Plain.block] in its first data symbols. *)
Definition plain_signal : list (Z * Z) := [(11, 22); (33, 44)].

Definition plain_receiver : sonica_enb_ul_nbiot_t (Z * Z) Z unit :=
  ul_cfg_grant (sonica_enb_ul_nbiot_set_cell (fun _ => replicate 640 1)
    (sonica_enb_ul_nbiot_init (Sig := list (Z * Z)) (0, 0) (replicate 1680 (0, 0)) (replicate 3360 0)) true 7 1).2 Plain.grant 70
    (Sig := list (Z * Z)).

Lemma ul_receiver_refined_witness : exists c',
  ul_decode_npusch plain_receiver plain_signal 3 (Some (replicate 10 255)) = Ok (0, c', Some [11; 22; 33; 44; 0; 0; 0; 255; 255; 255]).
Proof.
  destruct (ul_receiver_refined (P := unit) (Sig := list (Z * Z)) (fun _ => replicate 640 1) 7 (0, 0) (replicate 1680 (0, 0)) (replicate 3360 0))
    as (H1 & H2 & H3); [by vm_compute|by vm_compute|by vm_compute|].
  specialize (H2 _ _ Plain.dci 100 Plain.grant 70 H1 ltac:(by vm_compute) eq_refl).
  destruct (H3 _ _ plain_signal 3 tt (replicate 10 255) H2) as (ret & c' & data' & a' & ev & E & E2 & _ & E3); [lia|intros _; by vm_compute|].
  exists c'. revert E2 E3. match goal with |- ?x = _ -> _ => let y := eval vm_compute in x in change x with y end.
  intros [= <- <- <-] ->. exact E.
Defined.
