(* ===== verification/EnbDl.v ===== *)
(** * Downlink object

    [src/nbiot_enb/enb_dl_nbiot.c]: the setup of the downlink object for a cell,
    what a subframe puts on each antenna port, and the setup of a worker's two
    objects ([sf_worker::worker_init], [sonica_enb/phy/sf_worker.cc]).  [SfDl.v]
    has what a subframe carries; here is on how many ports. *)
From S2P Require Import Prelude Tti RaNbiot SchedTypes Npdsch SfDl SfUl Npusch EnbUl.

(** [srslte_nbiot_cell_t], the members that the eNodeB's objects use. *)
Record cell_t := mk_cell { ce_n_id_ncell : Z; ce_nof_ports : Z; ce_nof_prb : Z; ce_nbiot_prb : Z; ce_mode : Z }.
Definition cell_zero : cell_t := mk_cell 0 0 0 0 0.
#[export] Instance cell_t_eq_dec : EqDecision cell_t.
Proof. solve_decision. Defined.

(** [mib_nb] *)
Record mib_nb_t := mk_mib_nb { mn_sched_info_sib1 : Z; mn_sys_info_tag : Z; mn_ac_barring : bool; mn_mode : Z }.

(** [sonica_enb_dl_nbiot_t]: the cell, the cell that each of the objects it owns
    was last set to, the identity of its NSSS and the MIB. *)
Record enb_dl_t := mk_enb_dl {
  ed_cell : cell_t;
  ed_npbch : option cell_t;
  ed_npdcch : option cell_t;
  ed_npdsch : option cell_t;
  ed_ch_est : option cell_t;
  ed_nsss : option Z;
  ed_mib : mib_nb_t
}.
#[export] Instance eta_enb_dl : Eta enb_dl_t := {| eta := fun q =>
  mk_enb_dl (ed_cell q) (ed_npbch q) (ed_npdcch q) (ed_npdsch q) (ed_ch_est q) (ed_nsss q) (ed_mib q) |}.

(** [sonica_enb_dl_nbiot_init], when its allocations succeed. *)
Definition sonica_enb_dl_nbiot_init : enb_dl_t := mk_enb_dl cell_zero None None None None None (mk_mib_nb 0 0 false 0).

Section SetCell.
(** [srslte_nbiot_cell_isvalid], and whether the objects accept a cell. *)
Context (srslte_nbiot_cell_isvalid : cell_t -> bool).
Context (npbch_ok npdcch_ok npdsch_ok chest_ok : cell_t -> bool).

Definition sonica_enb_dl_nbiot_set_cell (q : enb_dl_t) (cell : cell_t) : Z * enb_dl_t :=
  if srslte_nbiot_cell_isvalid cell then
    if negb (ce_n_id_ncell (ed_cell q) =? ce_n_id_ncell cell) then
      let q := q <| ed_cell := cell |> in
      if negb (npbch_ok cell) then (SRSLTE_ERROR, q) else
      let q := q <| ed_npbch := Some cell |> in
      if negb (npdcch_ok cell) then (SRSLTE_ERROR, q) else
      let q := q <| ed_npdcch := Some cell |> in
      if negb (npdsch_ok cell) then (SRSLTE_ERROR, q) else
      let q := q <| ed_npdsch := Some cell |> in
      if negb (chest_ok cell) then (SRSLTE_ERROR, q) else
      (SRSLTE_SUCCESS, q <| ed_ch_est := Some cell |> <| ed_nsss := Some (ce_n_id_ncell cell) |>
         <| ed_mib := mk_mib_nb 5 14 false (ce_mode cell) |>)
    else (SRSLTE_SUCCESS, q)
  else (SRSLTE_ERROR_INVALID_INPUTS, q).
End SetCell.

(** ** Ports *)

(** What is done to the signal of one port, or of all of them at once. *)
Inductive port_event :=
| Pe_clear (port : Z)
| Pe_npbch (mib : option (Z * Z)) (sfn : Z)
| Pe_npss (port : Z)
| Pe_nsss (port sfn : Z)
| Pe_nrs (port sf_idx : Z)
| Pe_ifft (port : Z).

(** [for (int i = 0; i < q->cell.nof_ports; i++)] *)
Definition on_ports {A} (q : enb_dl_t) (f : Z -> A) : list A := f <$> range 0 (Z.to_nat (ce_nof_ports (ed_cell q))).
Definition clear_sf (q : enb_dl_t) : list port_event := on_ports q Pe_clear.
Definition put_npss (q : enb_dl_t) : list port_event := on_ports q Pe_npss.
Definition put_nsss (q : enb_dl_t) (sfn : Z) : list port_event := on_ports q (fun i => Pe_nsss i sfn).
Definition put_refs (q : enb_dl_t) (sf_idx : Z) : list port_event := on_ports q (fun i => Pe_nrs i sf_idx).
Definition sonica_enb_dl_nbiot_gen_signal (q : enb_dl_t) : list port_event := on_ports q Pe_ifft.

(** [sonica_enb_dl_nbiot_put_base] *)
Definition put_base_ports (q : enb_dl_t) (bch : option (Z * Z)) (hfn tti : Z) : option (Z * Z) * list port_event :=
  let sf_idx := tti mod 10 in
  let sfn := tti / 10 in
  let '(bch, broadcast) :=
    if sf_idx =? 0 then
      let bch := if sfn mod SRSLTE_NPBCH_NUM_FRAMES =? 0 then Some (hfn, sfn) else bch in
      (bch, [Pe_npbch bch sfn])
    else (bch, []) in
  (bch, clear_sf q ++ broadcast ++
     (if sf_idx =? 5 then put_npss q
      else if (sfn mod 2 =? 0) && (sf_idx =? 9) then put_nsss q sfn
      else put_refs q sf_idx)).

(** ** A worker's objects *)
Section WorkerInit.
Context (srslte_nbiot_cell_isvalid : cell_t -> bool).
Context (npbch_ok npdcch_ok npdsch_ok chest_ok : cell_t -> bool).
Context {Sig A S Q W N : Type} `{ChestStages Sig A N} (srslte_sequence_LTE_pr : Z -> list Z) (zero : A) (heap_re : list A) (heap_bits : list S).

(** [worker_init], when its allocations succeed. *)
Definition worker_init (cell : cell_t) : enb_dl_t * sonica_enb_ul_nbiot_t A S N :=
  let ul := sonica_enb_ul_nbiot_init (Sig := Sig) zero heap_re heap_bits in
  let '(ret, dl) := sonica_enb_dl_nbiot_set_cell srslte_nbiot_cell_isvalid npbch_ok npdcch_ok npdsch_ok chest_ok sonica_enb_dl_nbiot_init cell in
  if negb (ret =? 0) then (dl, ul) else
  (dl, (sonica_enb_ul_nbiot_set_cell srslte_sequence_LTE_pr ul (srslte_nbiot_cell_isvalid cell) (ce_n_id_ncell cell) (ce_nof_prb cell)).2).
End WorkerInit.

(** ** What a port carries *)

(** An event of the subframe on each of [n] ports. *)
Definition spread (n : nat) (e : dl_event) : list port_event :=
  match e with
  | Ev_npbch mib sfn => [Pe_npbch mib sfn]
  | Ev_npss => Pe_npss <$> range 0 n
  | Ev_nsss sfn => (fun i => Pe_nsss i sfn) <$> range 0 n
  | Ev_nrs sf_idx => (fun i => Pe_nrs i sf_idx) <$> range 0 n
  | _ => []
  end.

(** C36. One cell for all, unless its identity is 0.  A worker started for a valid
    cell that its objects accept has, when the cell's identity is not 0, every
    object of the downlink and the uplink set to this cell, and then each
    subframe puts what it carries on every port of the cell and transforms every
    port.  For the cell with identity 0 the worker starts without an error, the
    uplink is set up, but the downlink object is left as it was created: it has
    no port, so that no synchronisation or reference signal is put and nothing is
    ever transmitted. *)
Theorem cell_zero_never_set {Sig A S N} `{ChestStages Sig A N} isvalid npbch_ok npdcch_ok npdsch_ok chest_ok
    (prs : Z -> list Z) (zero : A) (heap_re : list A) (heap_bits : list S) (cell : cell_t) :
  isvalid cell = true -> npbch_ok cell = true -> npdcch_ok cell = true -> npdsch_ok cell = true -> chest_ok cell = true ->
  let '(dl, ul) := worker_init (Sig := Sig) (N := N) isvalid npbch_ok npdcch_ok npdsch_ok chest_ok prs zero heap_re heap_bits cell in
  (ul_n_id_ncell ul = ce_n_id_ncell cell /\ nq_n_id_ncell (ul_npusch ul) = ce_n_id_ncell cell /\
   nq_nof_prb (ul_npusch ul) = ce_nof_prb cell /\ ul_ref12_seq ul = prs (ce_n_id_ncell cell / N_RU_SEQ)) /\
  (ce_n_id_ncell cell <> 0 ->
     (forall o, o ∈ [ed_npbch dl; ed_npdcch dl; ed_npdsch dl; ed_ch_est dl] -> o = Some cell) /\ ed_nsss dl = Some (ce_n_id_ncell cell) /\
     let n := Z.to_nat (ce_nof_ports cell) in
     (forall bch hfn tti, put_base_ports dl bch hfn tti =
        ((put_base bch hfn tti).1, (Pe_clear <$> range 0 n) ++ concat (spread n <$> (put_base bch hfn tti).2))) /\
     sonica_enb_dl_nbiot_gen_signal dl = Pe_ifft <$> range 0 n) /\
  (ce_n_id_ncell cell = 0 ->
     dl = sonica_enb_dl_nbiot_init /\ sonica_enb_dl_nbiot_gen_signal dl = [] /\
     forall bch hfn tti, (put_base_ports dl bch hfn tti).2 = [] \/ exists mib sfn, (put_base_ports dl bch hfn tti).2 = [Pe_npbch mib sfn]).
Proof.
  intros Hv H1 H2 H3 H4. unfold worker_init, sonica_enb_dl_nbiot_set_cell. rewrite Hv, H1, H2, H3, H4.
  change (ce_n_id_ncell (ed_cell sonica_enb_dl_nbiot_init)) with 0.
  unfold sonica_enb_ul_nbiot_set_cell. cbn [sonica_enb_ul_nbiot_init ul_nof_prb]. rewrite orb_true_r.
  destruct (Z.eqb_spec 0 (ce_n_id_ncell cell)) as [E|E]; cbn [negb]; cbv zeta iota beta; change (SRSLTE_SUCCESS =? 0) with true;
    cbn [negb snd sonica_npusch_set_cell]; change (SRSLTE_SUCCESS =? 0) with true; cbn [negb snd]; (split; [split_and!; reflexivity|]); (split; [intros Hn|intros Hz]); try (exfalso; congruence).
  - split; [done|]. split; [done|]. intros bch hfn tti. unfold put_base_ports.
    assert (Hrest : forall (b1 b2 : bool), (if b1 then put_npss sonica_enb_dl_nbiot_init else if b2 then put_nsss sonica_enb_dl_nbiot_init (tti / 10)
      else put_refs sonica_enb_dl_nbiot_init (tti mod 10)) = []) by (by intros [] []).
    destruct (tti mod 10 =? 0); cbn [snd]; rewrite Hrest; [right; do 2 eexists; reflexivity|by left].
  - split; [|split; [done|split; [|done]]].
    + intros o Ho. do 4 (apply elem_of_cons in Ho as [->|Ho]; [done|]). by apply elem_of_nil in Ho.
    + intros bch hfn tti. unfold put_base_ports, put_base. destruct (Z.eqb_spec (tti mod 10) 0) as [E0|E0]; cbn [andb].
      * rewrite E0. change (0 =? 5) with false. change (0 =? 9) with false. rewrite andb_false_r. cbn. by rewrite !app_nil_r.
      * destruct (Z.eqb_spec (tti mod 10) 5); [cbn; by rewrite !app_nil_r|].
        destruct ((tti / 10 mod 2 =? 0) && (tti mod 10 =? 9)); cbn; by rewrite !app_nil_r.
Qed.

Lemma cell_zero_never_set_witness :
  (worker_init (Sig := list (Z * Z)) (N := unit) (fun _ => true) (fun _ => true) (fun _ => true) (fun _ => true) (fun _ => true)
    (fun _ => replicate 640 1) (0, 0) (replicate 1680 (0, 0)) (replicate 3360 0) (mk_cell 0 1 1 0 0)).1 = sonica_enb_dl_nbiot_init.
Proof.
  pose proof (cell_zero_never_set (Sig := list (Z * Z)) (N := unit) (fun _ => true) (fun _ => true) (fun _ => true) (fun _ => true) (fun _ => true)
    (fun _ => replicate 640 1) (0, 0) (replicate 1680 (0, 0)) (replicate 3360 0) (mk_cell 0 1 1 0 0) eq_refl eq_refl eq_refl eq_refl eq_refl) as H.
  destruct (worker_init _ _ _ _ _ _ _ _ _ _) as [dl ul]. destruct H as (_ & _ & H). by destruct (H eq_refl).
Defined.
