(* ===== verification/UplinkAir.v ===== *)
(** * An uplink block from a device to the MAC

    The parts of the uplink put together: the transmitter of [Npusch.v] in a
    device, the receiver of [EnbUl.v] and the worker of [SfUl.v]. *)
From S2P Require Import Prelude Tti RaNbiot SchedTypes Npdsch SfDl SfUl Npusch EnbUl.

(** A subframe as the worker's receiver sees it. *)
Definition estimated {P Sig A N} `{ChestStages Sig A N} (seq : list Z) (ncell : Z) (x : ul_input P Sig) : ul_input P (@sf_signal A N) :=
  mk_ul_input _ _ (ui_tti x) (sf_estimate seq ncell (ui_sig x) (ui_tti x mod 10)) (ui_grants x).

Section Air.
Context {P Sig A S Q W N : Type} `{ChestOk : ChestStagesOk Sig A N} `{StagesOk : NpuschStagesOk A S Q W N}.
Context (soft : list Z -> list S) `{!NpuschLink A S Q W N soft}.
Context (seq : list Z) (ncell : Z).

(** The decoder on what a device sent. *)
Lemma decoder_sent g r (sigs : list (@sf_signal A N)) bits c :
  full_grant g -> length bits = Z.to_nat (288 * ug_nof_ru g) ->
  c = srslte_sequence_npusch r (ug_tx_tti g / 10) (u32 (ug_tx_tti g mod 10 * 2)) ncell (288 * ug_nof_ru g) ->
  concat (sf_cells g <$> (fst ∘ fst <$> sigs)) = block_symbols c bits ->
  srslte_predecoding_single (block_symbols c bits) (concat (sf_cells g <$> (snd ∘ fst <$> sigs))) (noise_half (noise_of sigs)) = block_symbols c bits ->
  ul_decoder ncell (full_cfg g r) (Some <$> sigs) = block_payload g (block_word (Z.to_nat (ug_nof_ru g)) (soft bits)).
Proof.
  intros Hg Hb Hc Hx Hch. unfold ul_decoder. cbv zeta. pose proof (omap_some sigs) as Eo. unfold sf_signal in *. rewrite Eo. change (uc_grant (full_cfg g r)) with g.
  change (uc_rnti (full_cfg g r)) with r. change (uc_nbits (full_cfg g r)) with (srslte_ra_nbiot_ul_grant_to_nbits g).
  rewrite full_nbits by done. cbn [nb_nof_bits]. rewrite <- Hc, Hx.
  rewrite (soft_of_symbols soft c bits _ _ (Z.to_nat (144 * ug_nof_ru g))) by (done || (pose proof (fg_ru g Hg); lia)). done.
Qed.

(** C14. From a device's buffer to the MAC's.  A device with the cell's identity
    encodes a block for a grant of the whole carrier and sends its subframes.
    Suppose the worker of the base station gets the DCI of this grant while it
    receives nothing, gets no other grant until the block is over, and each subframe
    of the block arrives as it was sent, over a channel that the estimates undo.
    Then the worker starts to listen in the subframe in which the device starts,
    says nothing until the last subframe of the block, and then reports the block
    once, under the start, RNTI and length of the grant, with what the channel
    decoder makes of the soft values of the device's coded bits: when it undoes the
    coder, the block is in the buffer that came with the grant.  The coder, which
    must succeed, and the decoder are not modelled. *)
Theorem uplink_end_to_end (qt : sonica_npusch_t A S) (u : phy_ul_grant P) p t g blanks block bits :
  is_tti t -> pu_data u = Some p -> ul_i_sc (pu_dci u) = 18 -> ug_tbs g <> 0 ->
  srslte_ra_nbiot_ul_dci_to_grant (pu_dci u) (TTI_ADD t FDD_HARQ_DELAY_UL_MS) = Ok (Some g) ->
  npusch_ok qt -> nq_n_id_ncell qt = ncell -> length blanks = Z.to_nat (ug_nof_ru g) ->
  Forall (fun b : list A => length b = Z.to_nat 168) blanks ->
  srslte_nulsch_encode g block = (0, bits) -> length bits = Z.to_nat (288 * ug_nof_ru g) ->
  let payload := block_payload g (block_word (Z.to_nat (ug_nof_ru g)) (soft bits)) in
  let r := ul_rnti (pu_dci u) in
  let wait := Z.to_nat (4 + ug_k0 g) in
  exists qt' cfg' sent, foldM (encode_sf block) blanks (qt, sonica_npusch_cfg g r, []) = Ok (qt', cfg', sent) /\
    forall (w0 : ul_worker P (@sf_signal A N)) i0 l i,
      eu_has_ul_grant (uw_enb w0) = false -> length (eu_sf_buffer (uw_enb w0)) = 10%nat ->
      ui_tti i0 = t -> head (ui_grants i0) = Some u -> after t (l ++ [i]) -> (forall x, x ∈ l ++ [i] -> ui_grants x = []) ->
      (length l + 1 = wait + Z.to_nat (ug_nof_ru g))%nat ->
      (fun x => srslte_ofdm_rx_sf (ui_sig x)) <$> (drop wait l ++ [i]) = sent ->
      let sigs := (fun x => ui_sig (estimated seq ncell x)) <$> (drop wait l ++ [i]) in
      (forall x, length x = Z.to_nat (144 * ug_nof_ru g) ->
         srslte_predecoding_single x (concat (sf_cells g <$> (snd ∘ fst <$> sigs))) (noise_half (noise_of sigs)) = x) ->
      let start := (t + 5 + ug_k0 g) mod 10240 in
      start = ug_tx_tti g /\
      exists w', ul_run (ul_decoder ncell) w0 (estimated seq ncell <$> i0 :: l ++ [i]) =
        Ok (w', (ui_tti i,.) <$> ul_outcome p start r (ug_tbs g / 8) (uw_msg_counter w0) payload) /\
        (forall bytes, payload = Some bytes ->
           ul_outcome p start r (ug_tbs g / 8) (uw_msg_counter w0) payload = [Ue_write p bytes; Ue_crc_info start r (ug_tbs g / 8) true]) /\
        eu_has_ul_grant (uw_enb w') = false /\ uw_has_ugrant w' = false.
Proof.
  intros Ht Hp Hsc Htbs Hd Hq Hid Hbl Hblank Henc Hbits payload r wait.
  pose proof (dci_full_grant _ _ _ Hd Hsc) as Hg. pose proof (fg_ru g Hg) as G3.
  destruct (transmit_block soft qt g r blanks block bits Hg Htbs Hq Hbl Hblank Henc Hbits) as (qt' & cfg' & sent & E1 & L1 & F1 & E2 & L2).
  exists qt', cfg', sent. split; [exact E1|]. intros w0 i0 l i Hoff Hbuf Hi0 Hh Hafter Hquiet Hlen Hrx sigs Hch start.
  destruct (recorded_step (ul_decoder ncell) w0 (estimated seq ncell i0) u g t Ht Hi0 Hh Hd Hsc) as [Estart _]. split; [by rewrite Estart|].
  assert (Hsf : ul_sf g = Z.to_nat (ug_nof_ru g)) by (unfold ul_sf; rewrite (fg_slots g Hg); f_equal; dlia).
  assert (Hest : forall x, x ∈ (estimated seq ncell <$> l) ++ [estimated seq ncell i] -> exists y, x = estimated seq ncell y /\ y ∈ l ++ [i]).
  { intros x Hx. change [estimated seq ncell i] with (estimated seq ncell <$> [i]) in Hx. rewrite <- fmap_app in Hx.
    by apply list_elem_of_fmap in Hx. }
  destruct (reception (ul_decoder ncell) w0 (estimated seq ncell i0) (estimated seq ncell <$> l) (estimated seq ncell i) t u g p)
    as (w' & Hrun & Hend); try done.
  - intros j x Hx. change [estimated seq ncell i] with (estimated seq ncell <$> [i]) in Hx. rewrite <- fmap_app, list_lookup_fmap in Hx.
    destruct ((l ++ [i]) !! j) as [y|] eqn:E; [|done]. injection Hx as <-. by apply (Hafter j y).
  - intros x Hx. destruct (Hest x Hx) as (y & -> & Hy). by apply Hquiet.
  - rewrite length_fmap, Hsf. exact Hlen.
  - exists w'. split; [|split; [by intros bytes ->|exact Hend]].
    replace (estimated seq ncell <$> i0 :: l ++ [i]) with (estimated seq ncell i0 :: (estimated seq ncell <$> l) ++ [estimated seq ncell i])
      by (by rewrite fmap_cons, fmap_app).
    etrans; [exact Hrun|]. do 2 f_equal.
    assert (Esigs : (ui_sig <$> drop wait (estimated seq ncell <$> l)) ++ [ui_sig (estimated seq ncell i)] = sigs).
    { unfold sigs. rewrite fmap_app, <- fmap_drop, <- list_fmap_compose. done. }
    assert (Edec : ul_decoder ncell (full_cfg g r) (Some <$> sigs) = payload).
    { apply (decoder_sent g r sigs bits (block_sequence qt (sonica_npusch_cfg g r))); [done|done| | |by apply Hch].
      - unfold block_sequence, get_user_sequence. rewrite Hid. cbn [sonica_npusch_cfg uc_rnti uc_grant uc_nbits]. by rewrite full_nbits by done.
      - rewrite <- E2, <- Hrx. unfold sigs. rewrite <- !list_fmap_compose. done. }
    unfold sf_signal in *. fold wait. fold r. rewrite Esigs, Edec. done.
Qed.
End Air.

(** ** Witness *)

(** A device sends the block of [Plain.block] in one subframe, thirteen after the
    one in which the base station's worker gets the grant. *)
Definition plain_input (sig : list (Z * Z)) (grants : list (phy_ul_grant bool)) (t : Z) : ul_input bool (list (Z * Z)) :=
  mk_ul_input bool (list (Z * Z)) t sig grants.
Definition plain_grant (t : Z) : ul_grant_t :=
  match srslte_ra_nbiot_ul_dci_to_grant Plain.dci (TTI_ADD t 4) with Ok (Some g) => g | _ => ul_grant_zero end.
Definition plain_sched : phy_ul_grant bool := mk_phy_ul_grant Plain.dci (Some true) true.
Definition plain_sent : list (Z * Z) :=
  match foldM (encode_sf Plain.block) [replicate 168 (7, 7)] (Plain.object, sonica_npusch_cfg (plain_grant 100) 70, []) with
  | Ok (_, _, [sf]) => sf | _ => [] end.

Lemma uplink_end_to_end_witness :
  let w0 := ul_worker_new (P := bool) (Sig := @sf_signal (Z * Z) unit) in
  exists w', ul_run (ul_decoder 7) w0 (estimated (replicate 640 1) 7 <$>
      plain_input [] [plain_sched] 100 :: (plain_input [] [] <$> range 101 12) ++ [plain_input plain_sent [] 113]) =
    Ok (w', [(113, Ue_write true [11; 22; 33; 44; 0; 0; 0]); (113, Ue_crc_info 113 70 4 true)]).
Proof.
  intros w0.
  destruct (uplink_end_to_end id (replicate 640 1) 7 Plain.object plain_sched true 100 (plain_grant 100)
    [replicate 168 (7, 7)] Plain.block (resize 288 0 Plain.block))
    as (qt' & cfg' & sent & E & H);
    [split; lia|done|done|by vm_compute|by vm_compute|apply Plain.object_ok|done|done|by repeat constructor|by vm_compute|by vm_compute|].
  assert (Es : sent = [plain_sent]).
  { etrans; [|exact (f_equal (fun r => match r with Ok (_, _, l) => l | _ => [] end) (eq_sym E))].
    by vm_compute. }
  destruct (H w0 (plain_input [] [plain_sched] 100) (plain_input [] [] <$> range 101 12) (plain_input plain_sent [] 113)) as (_ & w' & R & _);
    [done..| | |by vm_compute|by rewrite Es; vm_compute|done|].
  - exact (after_range (fun t => plain_input (if t =? 113 then plain_sent else []) [] t) 100 13 (fun _ => eq_refl) ltac:(lia) ltac:(lia)).
  - intros i [(x & -> & _)%list_elem_of_fmap| ->%list_elem_of_singleton]%elem_of_app; done.
  - exists w'. etrans; [exact R|]. by vm_compute.
Defined.
