(* ===== verification/Phy.v ===== *)
(** * The PHY worker and its clock

    [sf_worker::set_time] and [work_imp] ([sonica_enb/phy/sf_worker.cc]), the
    uplink grants the workers share and [worker_end]
    ([sonica_enb/phy/phy_common.cc]), and the receive loop that numbers the
    subframes ([txrx::run_thread], [sonica_enb/phy/txrx.cc]).  The stack below is
    an interface: what its calls do to its state, and the buffers its grants
    point to.  [phy::init] starts one worker, so subframes are processed one
    after the other.  The radio gets what a subframe carries and the number of its
    samples; times of day and frequencies are left out. *)
From S2P Require Import Prelude Tti RaNbiot SchedTypes Npdsch SfDl SfDlRun SfUl.

(** ** The interface of the stack: [stack_interface_phy_nb] *)
Class PhyStack (K P : Type) := {
  (** what the buffer at a pointer holds now; nothing once it has been freed *)
  ps_load : K -> P -> list Z;
  ps_store : K -> P -> list Z -> res K;
  ps_get_dl_sched : K -> Z -> Z -> phy_dl_sched P -> res (Z * phy_dl_sched P * K);
  ps_get_ul_sched : K -> Z -> Z -> list (phy_ul_grant P) -> res (Z * list (phy_ul_grant P) * K);
  ps_crc_info : K -> Z -> Z -> Z -> bool -> res K;
  ps_tti_clock : K -> res K
}.

(** ** [phy_common] *)

Definition TTIMOD_SZ : Z := 20.

(** The list of each entry holds the grants that its [nof_grants] counts. *)
Record phy_common {P : Type} := mk_phy_common { pc_ul_grants : list (list (phy_ul_grant P)) }.
Arguments phy_common : clear implicits.
Definition phy_common_init {P} : phy_common P := mk_phy_common P (replicate (Z.to_nat TTIMOD_SZ) []).

Definition get_ul_grants {P} (pc : phy_common P) (tti : Z) : res (list (phy_ul_grant P)) :=
  arr_read (pc_ul_grants pc) (tti mod TTIMOD_SZ).
Definition set_ul_grants {P} (pc : phy_common P) (tti : Z) (g : list (phy_ul_grant P)) : res (phy_common P) :=
  l ← arr_write (pc_ul_grants pc) (tti mod TTIMOD_SZ) g; Ok (mk_phy_common P l).

(** ** [sf_worker] *)
Record sf_worker {P Sig : Type} := mk_sf_worker {
  sw_dl : dl_worker P;
  sw_ul : ul_worker P Sig;
  sw_running : bool;
  sw_hfn : Z;
  sw_tti_rx : Z;
  sw_tti_tx_dl : Z;
  sw_tti_tx_ul : Z;
  sw_t_tx_dl : Z;
  sw_t_rx : Z;
  sw_t_tx_ul : Z;
  sw_tx_worker_cnt : Z
}.
Arguments sf_worker : clear implicits.
#[export] Instance eta_sf_worker {P Sig} : Eta (sf_worker P Sig) := {| eta := fun w =>
  mk_sf_worker P Sig (sw_dl w) (sw_ul w) (sw_running w) (sw_hfn w) (sw_tti_rx w) (sw_tti_tx_dl w) (sw_tti_tx_ul w)
    (sw_t_tx_dl w) (sw_t_rx w) (sw_t_tx_ul w) (sw_tx_worker_cnt w) |}.

(** After [init]. *)
Definition sf_worker_new {P Sig} : sf_worker P Sig :=
  mk_sf_worker P Sig dl_worker_new ul_worker_new true 0 0 0 0 0 0 0 0.

Definition TTIMOD (tti : Z) : Z := tti mod TTIMOD_SZ.

Definition set_time {P Sig} (w : sf_worker P Sig) (hfn_ tti_ tx_worker_cnt_ : Z) : sf_worker P Sig :=
  let dl := TTI_ADD tti_ FDD_HARQ_DELAY_UL_MS in
  let ul := TTI_UL_RX_NB tti_ in
  mk_sf_worker P Sig (sw_dl w) (sw_ul w) (sw_running w) hfn_ tti_ dl ul (TTIMOD dl) (TTIMOD tti_) (TTIMOD ul) tx_worker_cnt_.

(** What the radio is given. *)
Record radio_tx := mk_radio_tx { rt_nof_samples : Z; rt_carries : list dl_event }.

Section Work.
Context {K P Sig : Type} `{PhyStack K P}.
Context (npusch_decode : npusch_cfg_t -> list (option Sig) -> option (list Z)).
(** The cell and the samples of one of its subframes. *)
Context (c : nbiot_cell_t) (sf_len : Z).

(** Reception has an effect on the stack. *)
Definition do_ul_event (k : K) (e : ul_event P) : res K :=
  match e with
  | Ue_write p bytes => ps_store k p bytes
  | Ue_crc_info tti r len crc => ps_crc_info k tti r len crc
  end.

Definition worker_end (k : K) (nof_samples : Z) (carries : list dl_event) : res (K * radio_tx) :=
  k ← ps_tti_clock k; Ok (k, mk_radio_tx nof_samples carries).

(** "DL grant available": the first bytes of the data are printed. *)
Definition print_dl_data (d : phy_dl_sched P) : bool :=
  negb ((pd_nof_grants d >? 0) && pg_has_npdcch (pd_npdsch d)) || bool_decide (is_Some (pg_data (pd_npdsch d))).

(** One subframe; [sig] is what was received in it. *)
Definition work_imp (w : sf_worker P Sig) (pc : phy_common P) (k : K) (sig : Sig) :
    res (sf_worker P Sig * phy_common P * K * radio_tx) :=
  if negb (sw_running w) then '(k, tx) ← worker_end k 0 []; Ok (w, pc, k, tx) else
  '(ret, dl_grants, k) ← ps_get_dl_sched k (sw_hfn w) (sw_tti_tx_dl w) phy_dl_sched_zero;
  if ret <? 0 then '(k, tx) ← worker_end k 0 []; Ok (w, pc, k, tx) else
  ul_grants ← get_ul_grants pc (sw_t_rx w);
  ul_grants_tx ← get_ul_grants pc (sw_t_tx_ul w);
  '(ret, ul_grants_tx, k) ← ps_get_ul_sched k (sw_hfn w) (sw_tti_tx_ul w) ul_grants_tx;
  if ret <? 0 then '(k, tx) ← worker_end k 0 []; Ok (w, pc, k, tx) else
  ub_unless (print_dl_data dl_grants) NullDeref (
    ul ← record_ul_grant (sw_ul w) (sw_tti_tx_dl w) ul_grants_tx;
    '(ul, ev) ← work_ul npusch_decode ul (sw_tti_rx w) sig;
    k ← foldM do_ul_event ev k;
    pc ← set_ul_grants pc (sw_t_tx_ul w) ul_grants_tx;
    pc ← set_ul_grants pc (sw_t_rx w) ul_grants;
    '(dl, carries) ← work_dl (ps_load k) c (sw_dl w) (sw_hfn w) (sw_tti_tx_dl w) dl_grants ul_grants_tx;
    '(k, tx) ← worker_end k sf_len carries;
    Ok (w <| sw_ul := ul |> <| sw_dl := dl |>, pc, k, tx)).
End Work.

(** ** [txrx::run_thread] *)
Record txrx := mk_txrx { tr_tti : Z; tr_hfn : Z; tr_tx_worker_cnt : Z }.
#[export] Instance eta_txrx : Eta txrx := {| eta := fun t => mk_txrx (tr_tti t) (tr_hfn t) (tr_tx_worker_cnt t) |}.

Definition nof_workers : Z := 1.

(** "Set TTI so that first TX is at tti=0" *)
Definition txrx_start : txrx := mk_txrx (TTI_SUB 0 (FDD_HARQ_DELAY_UL_MS + 1)) 1023 0.

(** One turn of the loop: the arguments of [set_time]. *)
Definition txrx_next (t : txrx) : txrx * (Z * Z * Z) :=
  let '(tx_hfn, hfn_) :=
    if tr_tti t >=? 10240 - FDD_HARQ_DELAY_UL_MS - 1 then
      let tx_hfn := (tr_hfn t + 1) mod 1024 in
      (tx_hfn, if tr_tti t >=? 10240 - 1 then tx_hfn else tr_hfn t)
    else (tr_hfn t, tr_hfn t) in
  let tti := TTI_ADD (tr_tti t) 1 in
  (mk_txrx tti hfn_ ((tr_tx_worker_cnt t + 1) mod nof_workers), (tx_hfn, tti, tr_tx_worker_cnt t)).

Fixpoint txrx_loop (n : nat) (t : txrx) : list (Z * Z * Z) :=
  match n with
  | O => []
  | S n => let '(t, a) := txrx_next t in a :: txrx_loop n t
  end.

(** ** The loop and the worker *)
Section Loop.
Context {K P Sig : Type} `{PhyStack K P}.
Context (npusch_decode : npusch_cfg_t -> list (option Sig) -> option (list Z)) (c : nbiot_cell_t) (sf_len : Z).

Record phy_sys := mk_phy_sys { py_txrx : txrx; py_worker : sf_worker P Sig; py_common : phy_common P; py_stack : K }.

(** The radio delivers a subframe; the worker is done with the one before. *)
Definition phy_subframe (s : phy_sys) (sig : Sig) : res (phy_sys * radio_tx) :=
  let '(t, (tx_hfn, tti, cnt)) := txrx_next (py_txrx s) in
  '(w, pc, k, tx) ← work_imp npusch_decode c sf_len (set_time (py_worker s) tx_hfn tti cnt) (py_common s) (py_stack s) sig;
  Ok (mk_phy_sys t w pc k, tx).

(** Between two subframes the stack's own thread changes its state: each input is
    what that does, and the subframe received next. *)
Fixpoint phy_run (s : phy_sys) (l : list ((K -> K) * Sig)) : res (phy_sys * list radio_tx) :=
  match l with
  | [] => Ok (s, [])
  | (own, sig) :: l =>
      '(s, tx) ← phy_subframe (mk_phy_sys (py_txrx s) (py_worker s) (py_common s) (own (py_stack s))) sig;
      '(s, txs) ← phy_run s l;
      Ok (s, tx :: txs)
  end.
End Loop.

(** ** The clock *)

Definition txrx_at (n : Z) : txrx := mk_txrx ((10235 + n) mod 10240) ((1023 + (10235 + n) / 10240) mod 1024) 0.

Lemma wrap_after n : 0 <= n ->
  if (10235 + n) mod 10240 >=? 10235 then (10235 + n) / 10240 = n / 10240 else (10235 + n) / 10240 = n / 10240 + 1.
Proof. intros Hn. destruct (Z.geb_spec ((10235 + n) mod 10240) 10235); dlia. Qed.

Lemma wrap_next n : 0 <= n ->
  if (10235 + n) mod 10240 >=? 10239 then (10236 + n) / 10240 = (10235 + n) / 10240 + 1
  else (10236 + n) / 10240 = (10235 + n) / 10240.
Proof. intros Hn. destruct (Z.geb_spec ((10235 + n) mod 10240) 10239); dlia. Qed.

Lemma txrx_at_next n : 0 <= n ->
  txrx_next (txrx_at n) = (txrx_at (n + 1), ((n / 10240) mod 1024, (10236 + n) mod 10240, 0)).
Proof.
  intros Hn. pose proof (wrap_after n Hn) as Ha. pose proof (wrap_next n Hn) as Hb.
  unfold txrx_next, txrx_at, FDD_HARQ_DELAY_UL_MS. cbn [tr_tti tr_hfn tr_tx_worker_cnt].
  assert (Et : TTI_ADD ((10235 + n) mod 10240) 1 = (10236 + n) mod 10240).
  { unfold TTI_ADD. rewrite u32_id by (clear; pose proof (Z.mod_pos_bound (10235 + n) 10240 eq_refl); lia).
    rewrite Zplus_mod_idemp_l. f_equal. lia. }
  rewrite Et. replace (10235 + (n + 1)) with (10236 + n) by lia. change ((0 + 1) mod nof_workers) with 0.
  change (10240 - 4 - 1) with 10235. change (10240 - 1) with 10239.
  assert (Ew : forall a, (1023 + (a + 1)) mod 1024 = a mod 1024).
  { intros a. replace (1023 + (a + 1)) with (a + 1 * 1024) by lia. by rewrite Z.mod_add. }
  assert (Eh : forall a, ((1023 + a) mod 1024 + 1) mod 1024 = a mod 1024).
  { intros a. rewrite Zplus_mod_idemp_l, <- (Ew a). f_equal. lia. }
  destruct (_ >=? 10235) eqn:E1.
  - rewrite Eh, Ha. destruct (_ >=? 10239); rewrite Hb, Ha; [by rewrite Ew|done].
  - replace (_ >=? 10239) with false in Hb by lia. by rewrite Hb, Ha, Ew.
Qed.

Lemma tx_of_rx n : TTI_ADD ((10236 + n) mod 10240) FDD_HARQ_DELAY_UL_MS = n mod 10240.
Proof.
  unfold TTI_ADD, FDD_HARQ_DELAY_UL_MS.
  rewrite u32_id by (pose proof (Z.mod_pos_bound (10236 + n) 10240 eq_refl); lia).
  rewrite Zplus_mod_idemp_l. replace (10236 + n + 4) with (n + 1 * 10240) by lia. by rewrite Z.mod_add.
Qed.

Lemma rx_behind n : (10236 + n) mod 10240 = (n - 4) mod 10240.
Proof. replace (10236 + n) with ((n - 4) + 1 * 10240) by lia. by rewrite Z.mod_add. Qed.

Lemma txrx_loop_from m n : 0 <= n ->
  txrx_loop m (txrx_at n) = (fun k => ((k / 10240) mod 1024, (10236 + k) mod 10240, 0)) <$> range n m.
Proof.
  revert n; induction m as [|m IH]; intros n Hn; [done|]. cbn [txrx_loop]. rewrite txrx_at_next by done.
  rewrite IH, range_S by lia. done.
Qed.

(** The hyperframe and frame numbers count the transmitted subframes.  The
    [n]th turn of the receive loop hands the worker the time at which the worker
    transmits subframe [n mod 10240] of hyperframe [n / 10240 mod 1024], from
    (0, 0) on and through every wrap of both counters; the subframe that is
    received meanwhile lies four behind. *)
Theorem txrx_clock m k a : txrx_loop m txrx_start !! k = Some a ->
  let '(tx_hfn, tti, _) := a in
  let n := Z.of_nat k in
  tx_hfn = (n / 10240) mod 1024 /\ TTI_ADD tti FDD_HARQ_DELAY_UL_MS = n mod 10240 /\
  tti = (n - FDD_HARQ_DELAY_UL_MS) mod 10240 /\ tx_hfn * 10240 + TTI_ADD tti FDD_HARQ_DELAY_UL_MS = n mod (1024 * 10240).
Proof.
  change txrx_start with (txrx_at 0). rewrite txrx_loop_from by lia. intros (x & -> & Hx)%list_lookup_fmap_Some.
  unfold range in Hx. apply list_lookup_fmap_Some in Hx as (j & -> & [-> Hj]%lookup_seq). rewrite Z.add_0_l, Nat.add_0_l.
  set (n := Z.of_nat k). cbv zeta.
  rewrite tx_of_rx. split_and!; [done|done|apply rx_behind|].
  rewrite (Z.mul_comm 1024 10240), Z.rem_mul_r by lia. lia.
Qed.

Lemma txrx_clock_witness : exists a, txrx_loop 20 txrx_start !! 5%nat = Some a /\ fst (fst a) = 0 /\ TTI_ADD (snd (fst a)) 4 = 5.
Proof.
  exists (0, 1, 0). split; [vm_compute; reflexivity|].
  destruct (txrx_clock 20 5 (0, 1, 0) ltac:(vm_compute; reflexivity)) as (H1 & H2 & _ & _). split; [exact H1|exact H2].
Defined.

(** ** What a run of the PHY does *)
Section Refines.
Context {K P Sig : Type} `{PhyStack K P}.
Context (npusch_decode : npusch_cfg_t -> list (option Sig) -> option (list Z)) (c : nbiot_cell_t) (sf_len : Z).
(** The MAC's scheduler has an answer in every subframe. *)
Context (dl_answers : forall k hfn t d ret d' k', ps_get_dl_sched k hfn t d = Ok (ret, d', k') -> 0 <= ret).
Context (ul_answers : forall k hfn t g ret g' k', ps_get_ul_sched k hfn t g = Ok (ret, g', k') -> 0 <= ret).

(** What the stack does in the [n]th subframe, in which [sig] is received: it
    answers the two calls of the worker, with the downlink grant of [d] and the
    uplink grants of [u], the second on top of the grants that are remembered for
    its subframe; then it takes the received blocks [ev] and turns its clock.  The
    buffers that [d] reads are its buffers after the received blocks. *)
Record stack_turn (n : Z) (sig : Sig) (pc : phy_common P) (k : K) (d : dl_input P) (u : ul_input P Sig)
    (ev : list (ul_event P)) (pc' : phy_common P) (k' : K) : Prop := mk_stack_turn {
  st_time : di_tti d = n mod 10240 /\ di_hfn d = (n / 10240) mod 1024 /\ ui_tti u = (n - 4) mod 10240 /\ ui_sig u = sig;
  st_shared : di_ul d = ui_grants u;
  st_calls : exists ret1 k1 old rx ret2 k2 k3 pc1,
    ps_get_dl_sched k (di_hfn d) (di_tti d) phy_dl_sched_zero = Ok (ret1, di_dl d, k1) /\ 0 <= ret1 /\
    get_ul_grants pc (TTIMOD (ui_tti u)) = Ok rx /\ get_ul_grants pc (TTIMOD (TTI_UL_RX_NB (ui_tti u))) = Ok old /\
    ps_get_ul_sched k1 (di_hfn d) (TTI_UL_RX_NB (ui_tti u)) old = Ok (ret2, ui_grants u, k2) /\ 0 <= ret2 /\
    print_dl_data (di_dl d) = true /\
    foldM do_ul_event ev k2 = Ok k3 /\ di_mem d = ps_load k3 /\ ps_tti_clock k3 = Ok k' /\
    set_ul_grants pc (TTIMOD (TTI_UL_RX_NB (ui_tti u))) (ui_grants u) = Ok pc1 /\
    set_ul_grants pc1 (TTIMOD (ui_tti u)) rx = Ok pc'
}.

(** A run of the stack, its own thread's changes in between. *)
Inductive stack_run : Z -> phy_common P -> K -> list ((K -> K) * Sig) ->
    list (dl_input P) -> list (ul_input P Sig) -> list (list (ul_event P)) -> K -> Prop :=
| stack_run_nil n pc k : stack_run n pc k [] [] [] [] k
| stack_run_cons n pc k own sig l d u ev pc1 k1 dis uis evs k' :
    stack_turn n sig pc (own k) d u ev pc1 k1 -> stack_run (n + 1) pc1 k1 l dis uis evs k' ->
    stack_run n pc k ((own, sig) :: l) (d :: dis) (u :: uis) (ev :: evs) k'.

(** What the uplink half says in a run, labelled with its subframes. *)
Definition labelled (uis : list (ul_input P Sig)) (evs : list (list (ul_event P))) : list (Z * ul_event P) :=
  concat (zip_with (fun u ev => (ui_tti u,.) <$> ev) uis evs).

Lemma phy_subframe_steps s sig s' tx n : 0 <= n ->
  py_txrx s = txrx_at n -> sw_running (py_worker s) = true ->
  phy_subframe npusch_decode c sf_len s sig = Ok (s', tx) ->
  py_txrx s' = txrx_at (n + 1) /\ sw_running (py_worker s') = true /\
  exists d u ev, stack_turn n sig (py_common s) (py_stack s) d u ev (py_common s') (py_stack s') /\
    dl_step c (sw_dl (py_worker s)) d = Ok (sw_dl (py_worker s'), rt_carries tx) /\
    ul_step npusch_decode (sw_ul (py_worker s)) u = Ok (sw_ul (py_worker s'), ev).
Proof.
  intros Hn Ht Hr Hs. unfold phy_subframe in Hs. rewrite Ht, txrx_at_next in Hs by done.
  apply bind_Ok in Hs as ([[[w pc] k] tx'] & Hw & Hs). injection Hs as <- <-. cbn. split; [done|].
  unfold work_imp, set_time in Hw. cbn [sw_running] in Hw. rewrite Hr in Hw. cbn [negb] in Hw.
  cbn [sw_hfn sw_tti_rx sw_tti_tx_dl sw_tti_tx_ul sw_t_rx sw_t_tx_ul sw_ul sw_dl] in Hw.
  apply bind_Ok in Hw as ([[ret1 dlg] k1] & Hd & Hw). apply dl_answers in Hd as Hret.
  replace (ret1 <? 0) with false in Hw by lia.
  apply bind_Ok in Hw as (ulg & Hg1 & Hw). apply bind_Ok in Hw as (ulg_tx & Hg2 & Hw).
  apply bind_Ok in Hw as ([[ret2 ulg'] k2] & Hu & Hw). apply ul_answers in Hu as Hret2.
  replace (ret2 <? 0) with false in Hw by lia. apply ub_unless_Ok in Hw as [Hprint Hw].
  apply bind_Ok in Hw as (ul & Hul & Hw). apply bind_Ok in Hw as ([ul' ev] & Hwu & Hw).
  apply bind_Ok in Hw as (k3 & Hev & Hw). apply bind_Ok in Hw as (pc1 & Hs1 & Hw). apply bind_Ok in Hw as (pc2 & Hs2 & Hw).
  apply bind_Ok in Hw as ([dl carries] & Hwd & Hw). apply bind_Ok in Hw as ([k4 tx2] & He & Hw).
  injection Hw as <- <- <- <-. cbn [py_worker sw_running sw_dl sw_ul upd eta eta_sf_worker]. split; [done|].
  unfold worker_end in He. apply bind_Ok in He as (k5 & Hclk & He). injection He as <- <-.
  rewrite tx_of_rx in Hd, Hul, Hwd. exists (mk_dl_input P (ps_load k3) ((n / 10240) mod 1024) (n mod 10240) dlg ulg').
  exists (mk_ul_input P Sig ((10236 + n) mod 10240) sig ulg'), ev. split_and!.
  - split; cbn [di_mem di_hfn di_tti di_dl di_ul ui_tti ui_sig ui_grants]; [split_and!; try done; apply rx_behind|done|].
    exists ret1, k1, ulg_tx, ulg, ret2, k2, k3, pc1. done.
  - exact Hwd.
  - unfold ul_step. cbn [ui_tti ui_sig ui_grants]. rewrite tx_of_rx, Hul. exact Hwu.
Qed.

Lemma phy_run_refines_from l : forall s s' txs n, 0 <= n ->
  py_txrx s = txrx_at n -> sw_running (py_worker s) = true ->
  phy_run npusch_decode c sf_len s l = Ok (s', txs) ->
  exists dis uis evs,
    stack_run n (py_common s) (py_stack s) l dis uis evs (py_stack s') /\
    dl_run c (sw_dl (py_worker s)) dis = Ok (sw_dl (py_worker s'), zip (di_tti <$> dis) (rt_carries <$> txs)) /\
    ul_run npusch_decode (sw_ul (py_worker s)) uis = Ok (sw_ul (py_worker s'), labelled uis evs).
Proof.
  induction l as [|[own sig] l IH]; intros s s' txs n Hn Ht Hr Hrun; cbn [phy_run] in Hrun.
  - injection Hrun as <- <-. exists [], [], []. split; [constructor|done].
  - apply bind_Ok in Hrun as ([s1 tx] & H1 & Hrun). apply bind_Ok in Hrun as ([s2 txs2] & H2 & Hrun).
    injection Hrun as <- <-. apply (phy_subframe_steps _ sig s1 tx n Hn) in H1; [|done|done]. cbn [py_worker py_common py_stack] in H1.
    destruct H1 as (Ht1 & Hr1 & d & u & ev & Hturn & Hd & Hu).
    destruct (IH s1 s2 txs2 (n + 1) ltac:(lia) Ht1 Hr1 H2) as (dis & uis & evs & Hall & Hdis & Huis).
    exists (d :: dis), (u :: uis), (ev :: evs). split; [by econstructor|]. cbn [dl_run ul_run]. split.
    + rewrite Hd, bind_ok_l, Hdis. done.
    + rewrite Hu, bind_ok_l, Huis. done.
Qed.

(** A run of the whole PHY is a run of its two halves over the same
    subframes.  From the start, with whatever stack below and whatever it does
    meanwhile, as long as its scheduler answers: the stack goes through the run of
    [stack_run]; what the radio is given in the [n]th subframe is what the downlink
    half makes of that subframe's number and of the grants the stack gave, reading
    the stack's buffers; the uplink half goes through the subframes that were
    received four behind, what it reports is what the stack takes, and the uplink
    DCIs that the one sends are the grants that the other records. *)
Theorem phy_run_refines k l s' txs :
  phy_run npusch_decode c sf_len (mk_phy_sys txrx_start sf_worker_new phy_common_init k) l = Ok (s', txs) ->
  exists dis uis evs,
    stack_run 0 phy_common_init k l dis uis evs (py_stack s') /\
    dl_run c dl_worker_new dis = Ok (sw_dl (py_worker s'), zip (di_tti <$> dis) (rt_carries <$> txs)) /\
    ul_run npusch_decode ul_worker_new uis = Ok (sw_ul (py_worker s'), labelled uis evs).
Proof. intros H'. by apply (phy_run_refines_from l _ s' txs 0) in H'. Qed.
End Refines.
