(* ===== verification/PhyMac.v ===== *)
(** * The PHY on top of the MAC

    The MAC as the stack of [Phy.v]: [mac::get_dl_sched], [get_ul_sched] and
    [crc_info] with the buffers their grants point to.  A pointer names its buffer:
    the transmit buffer or a receive buffer of a user, the random access response,
    a buffer of system information.  The buffers of a user end with it. *)
From S2P Require Import Prelude Tti RaNbiot SchedTypes SchedUe BcSched UeDb SchedGrid RaSched SchedCarrier SchedSafety Sched.
From S2P Require Import MacPdu Rar DlBlock MacUe MacUeRx Mac MacRun Npdsch DciNbiot SfDl SfDlRun SfUl Phy.

(** ** The buffers *)
Inductive buf :=
| Buf_tx (r : Z)
| Buf_rx (r : Z) (b : nat)
| Buf_rar
| Buf_sib (i : nat).
#[global] Instance buf_eq_dec : EqDecision buf.
Proof. solve_decision. Defined.

Section Stack.
Context {S : Type} (read_pdu : Z -> S -> Z -> Z -> Z * list Z * S).

(** The MAC, the RLC it reads from, and what the transmit buffers and the
    response's buffer hold. *)
Record mac_phy := mk_mac_phy { mp_mac : mac; mp_rlc : S; mp_tx : gmap Z (list Z); mp_rar : list Z }.

Definition mp_load (k : mac_phy) (p : buf) : list Z :=
  match p with
  | Buf_tx r => match m_ue_db (mp_mac k) !! r with Some _ => default [] (mp_tx k !! r) | None => [] end
  | Buf_rx r b =>
      match m_ue_db (mp_mac k) !! r with Some u => default [] (pq_mem (mu_pdus u) !! b) | None => [] end
  | Buf_rar => mp_rar k
  | Buf_sib i => default [] (m_bcch (mp_mac k) !! i)
  end.

(** The PHY writes received blocks only. *)
Definition mp_store (k : mac_phy) (p : buf) (bytes : list Z) : res mac_phy :=
  match p with
  | Buf_rx r b =>
      match m_ue_db (mp_mac k) !! r with
      | Some u =>
          Ok (mk_mac_phy ((mp_mac k) <| m_ue_db := <[r := phy_write u b bytes]> (m_ue_db (mp_mac k)) |>) (mp_rlc k) (mp_tx k) (mp_rar k))
      | None => UB DanglingPtr
      end
  | _ => UB DanglingPtr
  end.

(** The buffer of the last grant that [copy_result] copies: broadcast after
    random access response after data, each overwriting the pointer of the one
    before. *)
Definition dl_pointer (m : mac) (r : dl_sched_res_t) : option buf :=
  match last (dl_bc r), last (dl_rar r) with
  | Some b, _ => Some (Buf_sib (if has_sib1 (alloc (b_dci b)) then 0 else 1))
  | None, Some _ => Some Buf_rar
  | None, None =>
      match last (filter (fun d => is_Some (m_ue_db m !! rnti (alloc (d_dci d)))) (dl_data r)) with
      | Some d => Some (Buf_tx (rnti (alloc (d_dci d))))
      | None => None
      end
  end.

Definition put_block (k : mac_phy) (p : option buf) (bytes : list Z) : mac_phy :=
  match p with
  | Some (Buf_tx r) => mk_mac_phy (mp_mac k) (mp_rlc k) (<[r := bytes]> (mp_tx k)) (mp_rar k)
  | Some Buf_rar => mk_mac_phy (mp_mac k) (mp_rlc k) (mp_tx k) bytes
  | _ => k
  end.

(** The grant, with a pointer where the MAC's model has the bytes; they are in
    the buffer from now on.  The scheduler's result is that of the call. *)
Definition mp_get_dl_sched (k : mac_phy) (hfn tti : Z) (out : phy_dl_sched buf) : res (Z * phy_dl_sched buf * mac_phy) :=
  '(ret, d, m, st) ← get_dl_sched read_pdu (mp_mac k) (mp_rlc k) hfn tti dl_sched_zero;
  let k' := mk_mac_phy m st (mp_tx k) (mp_rar k) in
  if negb (m_started (mp_mac k)) then Ok (ret, out, k') else
  '(_, r, _) ← dl_sched (m_sched (mp_mac k)) hfn tti dl_sched_res_zero;
  let bytes := default None (head (gr_data (npdsch d))) in
  let p := match bytes with Some _ => dl_pointer (mp_mac k) r | None => None end in
  let g := npdsch d in
  Ok (ret, mk_phy_dl_sched (mk_phy_dl_grant (gr_dci g) p (gr_has_npdcch g) (gr_is_new_sib g)) (nof_grants d),
      put_block k' p (default [] bytes)).

(** A grant's buffer is one of its user's. *)
Definition mac_ul_grant (g : phy_ul_grant buf) : ul_sched_grant_t :=
  mk_ul_sched_grant (pu_dci g) (match pu_data g with Some (Buf_rx _ b) => Some b | _ => None end) (pu_needs_npdcch g).
Definition phy_ul_grant_of (g : ul_sched_grant_t) : phy_ul_grant buf :=
  mk_phy_ul_grant (ug_dci g) (Buf_rx (ul_rnti (ug_dci g)) <$> ug_data g) (ug_needs_npdcch g).

Definition mp_get_ul_sched (k : mac_phy) (hfn tti : Z) (out : list (phy_ul_grant buf)) :
    res (Z * list (phy_ul_grant buf) * mac_phy) :=
  '(ret, l, m) ← Mac.get_ul_sched (mp_mac k) hfn tti (List.map mac_ul_grant out);
  Ok (ret, List.map phy_ul_grant_of l, mk_mac_phy m (mp_rlc k) (mp_tx k) (mp_rar k)).

Definition mp_crc_info (k : mac_phy) (tti r len : Z) (crc : bool) : res mac_phy :=
  '(_, m) ← crc_info (mp_mac k) tti r len crc; Ok (mk_mac_phy m (mp_rlc k) (mp_tx k) (mp_rar k)).

(** The stack's clock is a task of its own thread. *)
#[export] Instance mac_phy_stack : PhyStack mac_phy buf := {|
  ps_load := mp_load;
  ps_store := mp_store;
  ps_get_dl_sched := mp_get_dl_sched;
  ps_get_ul_sched := mp_get_ul_sched;
  ps_crc_info := mp_crc_info;
  ps_tti_clock := Ok
|}.

(** ** The MAC answers *)
Lemma mac_dl_answers k hfn t d ret d' k' : ps_get_dl_sched k hfn t d = Ok (ret, d', k') -> 0 <= ret.
Proof.
  cbn. unfold mp_get_dl_sched. intros H. apply bind_Ok in H as ([[[ret1 d1] m] st] & H1 & H).
  assert (Hr : 0 <= ret1).
  { unfold get_dl_sched in H1. destruct (negb _); [by injection H1 as <- _ _ _|].
    apply bind_Ok in H1 as ([[r2 r] s] & H2 & H1). assert (r2 = 0) as ->.
    { unfold dl_sched in H2. destruct (negb _); [by injection H2|]. destruct (carrier_schedulers _); [by injection H2|].
      apply bind_Ok in H2 as ([[? ?] ?] & _ & H2). by injection H2. }
    change (0 <? 0) with false in H1. apply bind_Ok in H1 as (a & _ & H1). injection H1 as <- _ _ _. done. }
  destruct (negb _); [by injection H as <- _ _|]. apply bind_Ok in H as ([[? ?] ?] & _ & H). by injection H as <- _ _.
Qed.

Lemma mac_ul_answers k hfn t g ret g' k' : ps_get_ul_sched k hfn t g = Ok (ret, g', k') -> 0 <= ret.
Proof.
  cbn. unfold mp_get_ul_sched. intros H. apply bind_Ok in H as ([[ret1 l] m] & H1 & H). injection H as <- _ _.
  unfold get_ul_sched in H1. destruct (negb _); [by injection H1 as <- _ _|].
  apply bind_Ok in H1 as ([[r2 r] s] & H2 & H1). assert (0 <= r2) as Hr.
  { unfold ul_sched in H2. destruct (negb _); [by injection H2 as <- _ _|]. apply bind_Ok in H2 as (c & _ & H2).
    apply bind_Ok in H2 as ([[? ?] ?] & _ & H2). by injection H2 as <- _ _. }
  replace (r2 <? 0) with false in H1 by lia. apply bind_Ok in H1 as ([? ?] & _ & H1). by injection H1 as <- _ _.
Qed.
End Stack.
Arguments mac_phy : clear implicits.
Arguments mk_mac_phy {S} _ _ _ _.

Section Compose.
Context {S Sig : Type} (read_pdu : Z -> S -> Z -> Z -> Z * list Z * S).
Context (dec : npusch_cfg_t -> list (option Sig) -> option (list Z)).
#[local] Existing Instance mac_phy_stack.

(** C10. The PHY over the MAC: whatever the stack's thread does to the MAC in
    between, a run of the two that returns is a run of the PHY's halves, subframe
    by subframe.  In each subframe the MAC has an answer to both calls; the
    downlink half works on the grant of [get_dl_sched] and reads the buffers as the
    MAC keeps them after the blocks received in that subframe; the uplink half
    records the grants of [get_ul_sched], and what it writes and reports is what
    changes the MAC, whose state after one subframe is that of the next, up to
    what its own thread did. *)
Theorem phy_over_mac c sf_len (k : mac_phy S) l s' txs :
  phy_run (H := mac_phy_stack read_pdu) dec c sf_len (mk_phy_sys txrx_start sf_worker_new phy_common_init k) l = Ok (s', txs) ->
  exists dis uis evs,
    stack_run (H := mac_phy_stack read_pdu) 0 phy_common_init k l dis uis evs (py_stack s') /\
    dl_run c dl_worker_new dis = Ok (sw_dl (py_worker s'), zip (di_tti <$> dis) (rt_carries <$> txs)) /\
    ul_run dec ul_worker_new uis = Ok (sw_ul (py_worker s'), labelled uis evs).
Proof.
  apply phy_run_refines; [apply mac_dl_answers|apply mac_ul_answers].
Qed.

(** ** A received block and the MAC *)

Definition harq_slot_of (t : Z) : nat := Z.to_nat (TTI_UL_RX_NB t mod 8).

Lemma delay0_start dci t g : is_tti t -> ul_i_sc dci = 18 -> ul_i_delay dci = 0 ->
  srslte_ra_nbiot_ul_dci_to_grant dci (TTI_ADD t FDD_HARQ_DELAY_UL_MS) = Ok (Some g) ->
  ug_k0 g = 8 /\ (t + 5 + ug_k0 g) mod 10240 = TTI_UL_RX_NB t.
Proof.
  intros Ht Hsc Hd H. assert (Ek : ug_k0 g = 8).
  { unfold srslte_ra_nbiot_ul_dci_to_grant in H. rewrite Hsc, Hd in H. cbn in H.
    apply bind_Ok in H as (ru & _ & H). apply bind_Ok in H as (rep & _ & H).
    destruct (rep =? 1); [cbn in H|done]. apply bind_Ok in H as (tbs & _ & H).
    destruct (tbs <? 0); [done|]. by injection H as <-. }
  split; [done|]. rewrite Ek. unfold TTI_UL_RX_NB, TTI_ADD, FDD_DELAY_UL_NB_MS, FDD_HARQ_DELAY_DL_MS, is_tti in *.
  rewrite u32_id by lia. f_equal. lia.
Qed.

(** The buffer of a grant is in the HARQ process of its subframe. *)
Lemma request_slot u tti len b u' : mu_nof_rx_harq_proc u = 8 -> request_buffer u tti len = Ok (Some b, u') ->
  mu_pending_buffers u' !! Z.to_nat (tti mod 8) = Some (Some b).
Proof.
  intros Hn H. unfold request_buffer in H. destruct (len >? 0); [|done].
  apply bind_Ok in H as (o & Hr & H). destruct o; [done|].
  apply bind_Ok in H as ([b' q] & Hq & H). apply bind_Ok in H as (v & Hv & H). injection H as -> <-. cbn.
  apply arr_write_Ok in Hv as [Hb ->]. unfold harq_of in *. rewrite Hn in *. by rewrite list_lookup_insert_eq by lia.
Qed.

(** A process that still holds a buffer gives none. *)
Lemma request_taken u tti len b : mu_nof_rx_harq_proc u = 8 -> 0 < len ->
  mu_pending_buffers u !! Z.to_nat (tti mod 8) = Some (Some b) -> request_buffer u tti len = Ok (None, u).
Proof.
  intros Hn Hl Hb. unfold request_buffer, harq_of. rewrite Hn. replace (len >? 0) with true by lia.
  rewrite (arr_read_lookup _ _ _ (proj1 (Z.mod_pos_bound tti 8 eq_refl)) Hb). done.
Qed.

(** The report of a block finds its buffer: for a grant of subframe [t] without
    extra delay, the start that the PHY reports is the subframe for which the MAC
    asked the user's HARQ process for a buffer. *)
Lemma report_queued (k : mac_phy S) mu t dci g b m0 bytes cnt :
  is_tti t -> ul_i_sc dci = 18 -> ul_i_delay dci = 0 ->
  srslte_ra_nbiot_ul_dci_to_grant dci (TTI_ADD t FDD_HARQ_DELAY_UL_MS) = Ok (Some g) ->
  let r := ul_rnti dci in
  m_ue_db (mp_mac k) !! r = Some mu -> mu_nof_rx_harq_proc mu = 8 ->
  mu_pending_buffers mu !! harq_slot_of t = Some (Some b) -> pq_mem (mu_pdus mu) !! b = Some m0 ->
  let start := (t + 5 + ug_k0 g) mod 10240 in
  start = TTI_UL_RX_NB t /\
  exists k' mu',
    foldM (do_ul_event (H := mac_phy_stack read_pdu)) (ul_outcome (Buf_rx r b) start r (ug_tbs g / 8) cnt (Some bytes)) k = Ok k' /\
    m_ue_db (mp_mac k') !! r = Some mu' /\
    pq_q (mu_pdus mu') = pq_q (mu_pdus mu) ++ [(b, ug_tbs g / 8)] /\
    pq_mem (mu_pdus mu') !! b = Some (bytes ++ drop (length bytes) m0) /\
    mu_pending_buffers mu' !! harq_slot_of t = Some None /\
    m_tasks (mp_mac k') = m_tasks (mp_mac k) ++ [T_process_pdus].
Proof.
  intros Ht Hsc Hd Hg r Hu Hn Hp Hm start. destruct (delay0_start _ _ _ Ht Hsc Hd Hg) as [_ Es].
  split; [exact Es|]. unfold start. rewrite Es.
  cbn [ul_outcome foldM do_ul_event ps_store ps_crc_info mac_phy_stack]. unfold mp_store. rewrite Hu. cbn [mbind res_bind].
  unfold mp_crc_info, crc_info. cbn [mp_mac m_ue_db upd eta eta_mac]. rewrite lookup_insert_eq.
  set (mu1 := mu_set_tti (phy_write mu b bytes) (TTI_UL_RX_NB t)).
  assert (E1 : mu_pending_buffers mu1 = mu_pending_buffers mu) by done.
  assert (E2 : harq_of mu1 (TTI_UL_RX_NB t) = TTI_UL_RX_NB t mod 8) by (unfold harq_of; cbn; by rewrite Hn).
  pose proof (Z.mod_pos_bound (TTI_UL_RX_NB t) 8 eq_refl) as Hb8. pose proof (lookup_lt_Some _ _ _ Hp) as Hlt.
  unfold harq_slot_of in *. unfold push_pdu. rewrite E1, E2, (arr_read_lookup _ _ _ (proj1 Hb8) Hp). cbn [mbind res_bind].
  rewrite arr_write_in by lia. cbn [mbind res_bind].
  eexists _, _. split; [reflexivity|]. split; [cbn; apply lookup_insert_eq|]. cbn. split; [done|]. split.
  - rewrite (alter_at _ _ _ m0 Hm). apply list_lookup_insert_eq. by apply lookup_lt_Some in Hm.
  - split; [|done]. apply list_lookup_insert_eq. lia.
Qed.

(** C37. From the MAC's grant to the MAC's queue.  The MAC copies an uplink
    element that the scheduler made for subframe [t], without extra delay: the
    grant it gives has the buffer that it has put into the device's HARQ process.
    A worker that is idle gets this grant and no other until the block is over, and
    the block decodes.  Then the run's only events are a write of the decoded bytes
    and a report, and when they reach the MAC - which still has the device, and the
    buffer in its process - these bytes are in that very buffer, it is queued with
    its length, the process is free again, and the task that passes the block on is
    scheduled. *)
Theorem uplink_reaches_mac (m m1 : mac) mu d ug t g b (w0 : ul_worker buf Sig) i0 l i bytes :
  is_tti t -> ul_i_sc (u_dci d) = 18 -> ul_i_delay (u_dci d) = 0 ->
  srslte_ra_nbiot_ul_dci_to_grant (u_dci d) (TTI_ADD t FDD_HARQ_DELAY_UL_MS) = Ok (Some g) ->
  let r := ul_rnti (u_dci d) in
  0 < u_tbs d -> m_ue_db m !! r = Some mu -> mu_nof_rx_harq_proc mu = 8 ->
  copy_ul (TTI_UL_RX_NB t) (m, []) d = Ok (m1, [ug]) -> ug_data ug = Some b ->
  eu_has_ul_grant (uw_enb w0) = false -> length (eu_sf_buffer (uw_enb w0)) = 10%nat ->
  ui_tti i0 = t -> head (ui_grants i0) = Some (phy_ul_grant_of ug) ->
  after t (l ++ [i]) -> (forall x, x ∈ l ++ [i] -> ui_grants x = []) ->
  (length l + 1 = Z.to_nat (4 + ug_k0 g) + ul_sf g)%nat ->
  dec (full_cfg g r) (Some <$> (ui_sig <$> drop (Z.to_nat (4 + ug_k0 g)) l) ++ [ui_sig i]) = Some bytes ->
  (exists mu1, m_ue_db m1 !! r = Some mu1 /\ mu_pending_buffers mu1 !! harq_slot_of t = Some (Some b)) /\
  exists w' evs, ul_run dec w0 (i0 :: l ++ [i]) = Ok (w', (ui_tti i,.) <$> evs) /\
    forall (k : mac_phy S) mu2 m0,
      m_ue_db (mp_mac k) !! r = Some mu2 -> mu_nof_rx_harq_proc mu2 = 8 ->
      mu_pending_buffers mu2 !! harq_slot_of t = Some (Some b) -> pq_mem (mu_pdus mu2) !! b = Some m0 ->
      exists k' mu', foldM (do_ul_event (H := mac_phy_stack read_pdu)) evs k = Ok k' /\
        m_ue_db (mp_mac k') !! r = Some mu' /\
        pq_q (mu_pdus mu') = pq_q (mu_pdus mu2) ++ [(b, ug_tbs g / 8)] /\
        pq_mem (mu_pdus mu') !! b = Some (bytes ++ drop (length bytes) m0) /\
        mu_pending_buffers mu' !! harq_slot_of t = Some None /\
        m_tasks (mp_mac k') = m_tasks (mp_mac k) ++ [T_process_pdus].
Proof.
  intros Ht Hsc Hd Hg r Htbs Hu Hn Hcopy Hb Hoff Hbuf Hi Hh Hl Hq Hlen Hdec.
  assert (Hgrant : (exists mu1, m_ue_db m1 !! r = Some mu1 /\ mu_pending_buffers mu1 !! harq_slot_of t = Some (Some b)) /\ ug_dci ug = u_dci d).
  { unfold copy_ul in Hcopy. replace (u_tbs d >? 0) with true in Hcopy by lia. fold r in Hcopy. rewrite Hu in Hcopy.
    apply bind_Ok in Hcopy as ([b' mu1] & Hreq & Hcopy). change (push_bounded MAX_GRANTS [] ?x) with (Ok [x]) in Hcopy.
    rewrite bind_ok_l in Hcopy. injection Hcopy as <- <-. cbn in Hb. subst b'. split; [|done].
    exists mu1. split; [cbn; apply lookup_insert_eq|by eapply request_slot]. }
  destruct Hgrant as [Hslot Edci]. split; [exact Hslot|].
  destruct (reception dec w0 i0 l i t (phy_ul_grant_of ug) g (Buf_rx r b)) as (w' & Hrun & _); try done;
    try (cbn; rewrite Edci; done); [cbn; rewrite Hb, Edci; done|].
  exists w', (ul_outcome (Buf_rx r b) ((t + 5 + ug_k0 g) mod 10240) r (ug_tbs g / 8) (uw_msg_counter w0) (Some bytes)). split.
  { etrans; [exact Hrun|]. do 2 f_equal. change (pu_dci (phy_ul_grant_of ug)) with (ug_dci ug). rewrite Edci. fold r. by rewrite Hdec. }
  intros k mu2 m0 H1 H2 H3 H4.
  by destruct (report_queued k mu2 t (u_dci d) g b m0 bytes (uw_msg_counter w0) Ht Hsc Hd Hg H1 H2 H3 H4) as [_ ?].
Qed.

(** A lost block brings the PHY down.  While the buffer of a block that was
    never reported (its grant was overwritten by the next) sits in a HARQ process,
    the MAC's next grant of that process has no buffer; the PHY listens to it all
    the same and then writes through the null pointer. *)
Theorem lost_block_crashes (m : mac) mu d b t g (w0 : ul_worker buf Sig) l i :
  is_tti t -> ul_i_sc (u_dci d) = 18 ->
  srslte_ra_nbiot_ul_dci_to_grant (u_dci d) (TTI_ADD t FDD_HARQ_DELAY_UL_MS) = Ok (Some g) ->
  0 < u_tbs d -> m_ue_db m !! ul_rnti (u_dci d) = Some mu -> mu_nof_rx_harq_proc mu = 8 ->
  mu_pending_buffers mu !! harq_slot_of t = Some (Some b) ->
  eu_has_ul_grant (uw_enb w0) = false -> length (eu_sf_buffer (uw_enb w0)) = 10%nat ->
  ug_tbs g / 8 = 11 \/ ug_tbs g / 8 = 125 \/ uw_msg_counter w0 = 0 ->
  after t (l ++ [i]) -> (forall x, x ∈ l ++ [i] -> ui_grants x = []) ->
  (length l + 1 = Z.to_nat (4 + ug_k0 g) + ul_sf g)%nat ->
  exists m' grants, copy_ul (TTI_UL_RX_NB t) (m, []) d = Ok (m', grants) /\
    (forall i0, ui_tti i0 = t -> ui_grants i0 = List.map phy_ul_grant_of grants -> ul_run dec w0 (i0 :: l ++ [i]) = UB NullDeref).
Proof.
  intros Ht Hsc Hg Htbs Hu Hn Hp Hoff Hbuf Hc Hl Hq Hlen. unfold copy_ul. replace (u_tbs d >? 0) with true by lia.
  rewrite Hu, (request_taken mu _ _ b Hn Htbs Hp). cbn [mbind res_bind].
  eexists _, _. split; [reflexivity|]. intros i0 Hi Hgr.
  apply (uplink_null_buffer dec w0 i0 l i t (phy_ul_grant_of (mk_ul_sched_grant (u_dci d) None (needs_npdcch d))) g); try done.
  by rewrite Hgr.
Qed.

(** Buffers do not outlive their user.  When the MAC has removed a user, a
    block of it that the PHY has queued is read from freed memory in its first
    subframe, and a block of it that is being received is written there. *)
Theorem released_user_dangling (k : mac_phy S) r :
  m_ue_db (mp_mac k) !! r = None ->
  (forall c w tti g, dw_active w = true -> dw_data w = Some (Buf_tx r) -> dw_cfg w = srslte_npdsch_cfg c g ->
     grant_ok g -> cell_ok c -> 8 <= dg_tbs g -> srslte_ra_nbiot_is_valid_dl_sf tti = true ->
     work_dl_active (ps_load (PhyStack := mac_phy_stack read_pdu) k) w tti false = UB OobRead) /\
  (forall b start len cnt bytes,
     foldM (do_ul_event (H := mac_phy_stack read_pdu)) (ul_outcome (Buf_rx r b) start r len cnt (Some bytes)) k = UB DanglingPtr).
Proof.
  intros Hr. split.
  - intros c w tti g Ha Hd Hc Hg Hcell Ht Hv. unfold work_dl_active. rewrite Ha, Hv, Hd, Hc. cbn [negb andb load fmap option_fmap option_map].
    cbn [ps_load mac_phy_stack]. unfold mp_load. rewrite Hr.
    unfold sonica_enb_dl_nbiot_put_npdsch, srslte_npdsch_encode_rnti. cbn [nc_grant srslte_npdsch_cfg nc_nof_re].
    replace (dg_tbs g =? 0) with false by lia. pose proof (cell_re_ok c Hcell) as Hre. unfold cell_re in Hre.
    replace (_ >? NPDSCH_max_re) with false by lia.
    unfold npdsch_encode_once. cbn [nc_is_encoded srslte_npdsch_cfg nc_grant]. unfold read_bytes. cbn [length Z.of_nat].
    replace (dg_tbs g / 8 <=? Z.of_nat 0) with false by (symmetry; apply Z.leb_gt; pose proof (Z.div_le_mono 8 (dg_tbs g) 8 eq_refl Ht) as H8; change (8 / 8) with 1 in H8; lia). done.
  - intros b start len cnt bytes. cbn [ul_outcome foldM do_ul_event ps_store mac_phy_stack]. unfold mp_store. by rewrite Hr.
Qed.
End Compose.

(** ** Witnesses *)

(** A started MAC that knows the user 70; the buffer 3 is in the process of the
    grant made in subframe 100. *)
Definition demo_rx_ue : mac_ue :=
  (mac_ue_new 70) <| mu_pending_buffers := <[harq_slot_of 100 := Some 3%nat]> (replicate 8 None) |>.
Definition demo_mac70 : mac := (mac_new []) <| m_started := true |> <| m_ue_db := {[70 := demo_rx_ue]} |>.
Definition demo_k : mac_phy unit := mk_mac_phy demo_mac70 tt ∅ [].
Definition demo_dec (_ : npusch_cfg_t) (_ : list (option Z)) : option (list Z) := Some [1; 2; 3].

(** A started MAC with the system information of the RRC. *)
Definition demo_stack : mac_phy unit :=
  mk_mac_phy (match mac_init (mac_new [replicate 41 0; replicate 256 0]) true with Ok (_, m) => m | _ => mac_new [] end) tt ∅ [].

Lemma phy_over_mac_witness : exists dis uis evs s' txs,
  phy_run (H := mac_phy_stack no_rlc) demo_dec demo_cell 1920
    (mk_phy_sys txrx_start sf_worker_new phy_common_init (demo_stack)) [(id, 5); (id, 6); (id, 7)] = Ok (s', txs) /\
  length txs = 3%nat /\
  stack_run (H := mac_phy_stack no_rlc) 0 phy_common_init demo_stack [(id, 5); (id, 6); (id, 7)] dis uis evs (py_stack s') /\
  dl_run demo_cell dl_worker_new dis = Ok (sw_dl (py_worker s'), zip (di_tti <$> dis) (rt_carries <$> txs)) /\
  ul_run demo_dec ul_worker_new uis = Ok (sw_ul (py_worker s'), labelled uis evs).
Proof.
  destruct (phy_run (H := mac_phy_stack no_rlc) demo_dec demo_cell 1920
    (mk_phy_sys txrx_start sf_worker_new phy_common_init (demo_stack)) [(id, 5); (id, 6); (id, 7)])
    as [[s' txs]|ub|] eqn:E; [|vm_compute in E; discriminate E..].
  destruct (phy_over_mac no_rlc demo_dec demo_cell 1920 (demo_stack) [(id, 5); (id, 6); (id, 7)] s' txs E)
    as (dis & uis & evs & Hs & Hd & Hu).
  exists dis, uis, evs, s', txs. split; [reflexivity|]. split; [|split; [exact Hs|split; [exact Hd|exact Hu]]].
  vm_compute in E. injection E as _ <-. reflexivity.
Defined.

(** The user 70 without a buffer in use gets one with its grant. *)
Definition demo_mac70_free : mac := (mac_new []) <| m_started := true |> <| m_ue_db := {[70 := mac_ue_new 70]} |>.
Definition demo_ug : ul_sched_grant_t := mk_ul_sched_grant (demo_ul_dci 70) (Some 127%nat) true.
Definition demo_copy : res (mac * list ul_sched_grant_t) :=
  copy_ul (TTI_UL_RX_NB 100) (demo_mac70_free, []) (mk_ul_data true 22 (demo_ul_dci 70)).

Lemma demo_copy_ok : exists m1 mu1 m0, demo_copy = Ok (m1, [demo_ug]) /\ m_ue_db m1 !! 70 = Some mu1 /\
  mu_nof_rx_harq_proc mu1 = 8 /\ pq_mem (mu_pdus mu1) !! 127%nat = Some m0 /\ pq_q (mu_pdus mu1) = [].
Proof.
  assert (E : match demo_copy with
    | Ok (m1, l) => bool_decide (List.map ug_data l = [Some 127%nat]) &&
        match m_ue_db m1 !! 70 with
        | Some mu => (mu_nof_rx_harq_proc mu =? 8) && (Z.of_nat (length (pq_mem (mu_pdus mu))) =? 128) && match pq_q (mu_pdus mu) with [] => true | _ => false end
        | None => false
        end
    | _ => false end = true) by (vm_compute; reflexivity).
  assert (El : forall m1 l, demo_copy = Ok (m1, l) -> Forall (fun g => ug_dci g = demo_ul_dci 70 /\ ug_needs_npdcch g = true) l).
  { intros m1 l. unfold demo_copy, copy_ul. cbn [u_tbs u_dci needs_npdcch]. change (22 >? 0) with true.
    destruct (m_ue_db demo_mac70_free !! _); [|by intros [= _ <-]]. intros H. apply bind_Ok in H as ([b' u] & _ & H).
    change (push_bounded MAX_GRANTS [] ?x) with (Ok [x]) in H. rewrite bind_ok_l in H. injection H as _ <-. by repeat constructor. }
  destruct demo_copy as [[m1 l]| |] eqn:Ec; [|discriminate E|discriminate E]. specialize (El m1 l eq_refl).
  apply andb_true_iff in E as [E1%bool_decide_eq_true E2].
  destruct (m_ue_db m1 !! 70) as [mu|] eqn:Em; [|done]. rewrite !andb_true_iff in E2. destruct E2 as [[E2%Z.eqb_eq E3%Z.eqb_eq] E4].
  destruct (lookup_lt_is_Some_2 (pq_mem (mu_pdus mu)) 127) as [m0 E5]; [lia|]. destruct (pq_q (mu_pdus mu)) eqn:E6; [|done].
  exists m1, mu, m0. split_and!; try done. destruct l as [|[dd bb nn] [|? ?]]; try done. apply Forall_cons in El as [[H1 H2] _].
  cbn in *. injection E1 as ->. by subst.
Qed.

Lemma uplink_reaches_mac_witness : exists w' evs m1 k' mu',
  ul_run demo_dec ul_worker_new (mk_ul_input buf Z 100 0 [phy_ul_grant_of demo_ug] ::
    ((fun t => mk_ul_input buf Z t 5 []) <$> range 101 15) ++ [mk_ul_input buf Z 116 5 []]) = Ok (w', (116,.) <$> evs) /\
  demo_copy = Ok (m1, [demo_ug]) /\
  foldM (do_ul_event (H := mac_phy_stack no_rlc)) evs (mk_mac_phy m1 tt ∅ []) = Ok k' /\
  m_ue_db (mp_mac k') !! 70 = Some mu' /\ pq_q (mu_pdus mu') = [(127%nat, 22)].
Proof.
  destruct demo_copy_ok as (m1 & mu1 & m0 & Ec & E1 & E2 & E3 & E4).
  destruct (uplink_reaches_mac no_rlc demo_dec demo_mac70_free m1 (mac_ue_new 70) (mk_ul_data true 22 (demo_ul_dci 70)) demo_ug 100
    (demo_ul_grant 70 100) 127 ul_worker_new (mk_ul_input buf Z 100 0 [phy_ul_grant_of demo_ug])
    ((fun t => mk_ul_input buf Z t 5 []) <$> range 101 15) (mk_ul_input buf Z 116 5 []) [1; 2; 3]
    ltac:(split; lia) eq_refl eq_refl eq_refl ltac:(reflexivity) ltac:(reflexivity) ltac:(reflexivity) Ec eq_refl eq_refl eq_refl eq_refl eq_refl
    (after_range (fun t => mk_ul_input buf Z t 5 []) 100 16 (fun _ => eq_refl) ltac:(lia) ltac:(lia)))
    as ((mu1' & F1 & F2) & w' & evs & H1 & H2);
    [by intros x [(y & -> & _)%list_elem_of_fmap| ->%list_elem_of_singleton]%elem_of_app|reflexivity|reflexivity|].
  change (ul_rnti (u_dci (mk_ul_data true 22 (demo_ul_dci 70)))) with 70 in *. rewrite E1 in F1. injection F1 as <-.
  destruct (H2 (mk_mac_phy m1 tt ∅ []) mu1 m0 E1 E2 F2 E3) as (k' & mu' & K1 & K2 & K3 & _).
  exists w', evs, m1, k', mu'. split; [exact H1|]. split; [exact Ec|]. split; [exact K1|]. split; [exact K2|].
  rewrite K3, E4. reflexivity.
Defined.

Lemma lost_block_crashes_witness : exists m' grants,
  copy_ul (TTI_UL_RX_NB 100) (demo_mac70, []) (mk_ul_data true 22 (demo_ul_dci 70)) = Ok (m', grants) /\
  ul_run demo_dec ul_worker_new
    (mk_ul_input buf Z 100 0 (List.map phy_ul_grant_of grants) :: ((fun t => mk_ul_input buf Z t 5 []) <$> range 101 15) ++ [mk_ul_input buf Z 116 5 []]) = UB NullDeref.
Proof.
  destruct (lost_block_crashes demo_dec demo_mac70 demo_rx_ue (mk_ul_data true 22 (demo_ul_dci 70)) 3 100 (demo_ul_grant 70 100)
    ul_worker_new
    ((fun t => mk_ul_input buf Z t 5 []) <$> range 101 15) (mk_ul_input buf Z 116 5 []))
    as (m' & grants & H1 & H2).
  - split; lia.
  - reflexivity.
  - reflexivity.
  - reflexivity.
  - reflexivity.
  - reflexivity.
  - vm_compute. reflexivity.
  - reflexivity.
  - reflexivity.
  - right. right. reflexivity.
  - intros j x Hj. change (_ ++ [_]) with ((fun t => mk_ul_input buf Z t 5 []) <$> range 101 16) in Hj.
    apply list_lookup_fmap_Some in Hj as (y & -> & Hy). unfold range in Hy.
    apply list_lookup_fmap_Some in Hy as (i & -> & [-> Hi]%lookup_seq). cbn. rewrite Z.mod_small by lia. lia.
  - intros x [(y & -> & _)%list_elem_of_fmap| ->%list_elem_of_singleton]%elem_of_app; reflexivity.
  - reflexivity.
  - exists m', grants. split; [exact H1|]. apply H2; reflexivity.
Defined.

Lemma released_user_dangling_witness :
  foldM (do_ul_event (H := mac_phy_stack no_rlc)) (ul_outcome (Buf_rx 71 3) 113 71 22 0 (Some [1; 2; 3])) demo_k = UB DanglingPtr.
Proof. exact (proj2 (released_user_dangling no_rlc demo_k 71 eq_refl) 3%nat 113 22 0 [1; 2; 3]). Defined.
