(* ===== verification/Rrc.v ===== *)
(** * The RRC : [class rrc]

    Connection establishment and release
    ([sonica_enb/stack/rrc/rrc.cc], [hdr/stack/rrc/rrc.h]).  The encoding of the
    messages is generated code and the pool of byte buffers belongs to the
    bundled library; both are parameters.  Calls of the other layers are events,
    in the order they are made.  The functions that set up bearers on request of
    the S1AP are empty in the source but for [return true]. *)
From S2P Require Import Prelude SchedTypes MacPdu.

(** ** Messages *)

(** [byte_buffer_t]: the memory behind [msg], and [N_bytes]. *)
Record byte_buffer := mk_byte_buffer { bb_mem : list Z; bb_n : Z }.
Definition bb_bytes (b : byte_buffer) : list Z := take (Z.to_nat (bb_n b)) (bb_mem b).
Definition BUFFER_ROOM : Z := SRSLTE_MAX_BUFFER_SIZE_BYTES - SRSLTE_BUFFER_HEADER_OFFSET.

(** [memcpy(pdu->msg, src, n)] *)
Definition bb_write (mem src : list Z) : list Z := src ++ drop (length src) mem.

(** [establishment_cause_nb_r13_e], a new one being [nulltype]. *)
Inductive establishment_cause_nb :=
  mt_access | mo_sig | mo_data | mo_exception_data | delay_tolerant_access_v1330 | spare3 | spare2 | spare1 | nulltype.
#[global] Instance establishment_cause_nb_eq_dec : EqDecision establishment_cause_nb.
Proof. solve_decision. Defined.
Definition cause_value (c : establishment_cause_nb) : Z :=
  match c with
  | mt_access => 0 | mo_sig => 1 | mo_data => 2 | mo_exception_data => 3 | delay_tolerant_access_v1330 => 4
  | spare3 => 5 | spare2 => 6 | spare1 => 7 | nulltype => 8
  end.

(** [s1ap::rrc_establishment_cause_e] *)
Inductive s1ap_cause :=
  S_emergency | S_high_prio_access | S_mt_access | S_mo_sig | S_mo_data | S_delay_tolerant_access | S_mo_voice_call |
  S_mo_exception_data | S_nulltype.
#[global] Instance s1ap_cause_eq_dec : EqDecision s1ap_cause.
Proof. solve_decision. Defined.
Definition s1ap_cause_of_value (v : Z) : s1ap_cause :=
  if v =? 0 then S_emergency else if v =? 1 then S_high_prio_access else if v =? 2 then S_mt_access
  else if v =? 3 then S_mo_sig else if v =? 4 then S_mo_data else if v =? 5 then S_delay_tolerant_access
  else if v =? 6 then S_mo_voice_call else if v =? 7 then S_mo_exception_data else S_nulltype.

(** [(rrc_establishment_cause_opts::options)establishment_cause.value] *)
Definition cast_cause (c : establishment_cause_nb) : s1ap_cause := s1ap_cause_of_value (cause_value c).

(** The uplink messages, as far as the RRC looks at them. *)
Inductive ue_identity := Id_s_tmsi (mmec_ m_tmsi_ : Z) | Id_random.
Inductive ul_ccch_msg := Rrc_conn_request (id : ue_identity) (cause : establishment_cause_nb) | Ccch_other.
Inductive ul_dcch_msg := Rrc_conn_setup_complete (nas : list Z) | Ul_info_transfer (nas : list Z) | Dcch_other.

(** The downlink messages.  The radio configuration of the two first is what
    [send_connection_setup] builds from the cell's configuration. *)
Inductive dl_msg :=
| Dl_conn_setup (transaction_id : Z)
| Dl_conn_reest (transaction_id : Z)
| Dl_info_transfer (nas : list Z)
| Dl_conn_release (transaction_id : Z).

(** ** State *)
Inductive rrc_state_t :=
  RRC_STATE_IDLE | RRC_STATE_WAIT_FOR_CON_SETUP_COMPLETE | RRC_STATE_WAIT_FOR_SECURITY_MODE_COMPLETE |
  RRC_STATE_WAIT_FOR_UE_CAP_INFO | RRC_STATE_WAIT_FOR_CON_RECONF_COMPLETE | RRC_STATE_REGISTERED |
  RRC_STATE_RELEASE_REQUEST.
#[global] Instance rrc_state_t_eq_dec : EqDecision rrc_state_t.
Proof. solve_decision. Defined.

Record rrc_ue := mk_rrc_ue {
  ru_rnti : Z;
  ru_cause : establishment_cause_nb;
  ru_has_tmsi : bool;
  ru_m_tmsi : Z;
  ru_mmec : Z;
  ru_sched_cfg : ue_cfg_t;
  ru_transaction_id : Z;
  ru_state : rrc_state_t
}.
#[export] Instance eta_rrc_ue : Eta rrc_ue := {| eta := fun r =>
  mk_rrc_ue (ru_rnti r) (ru_cause r) (ru_has_tmsi r) (ru_m_tmsi r) (ru_mmec r) (ru_sched_cfg r) (ru_transaction_id r) (ru_state r) |}.

(** [rrc::ue::ue]; the scheduler's carrier list is not modelled. *)
Definition rrc_ue_new (rnti_ : Z) (c : ue_cfg_t) : rrc_ue := mk_rrc_ue rnti_ nulltype false 0 0 c 0 RRC_STATE_IDLE.

Definition is_connected (u : rrc_ue) : bool := bool_decide (ru_state u = RRC_STATE_REGISTERED).
Definition is_idle (u : rrc_ue) : bool := bool_decide (ru_state u = RRC_STATE_IDLE).

Definition RB_ID_SRB0 : Z := 0.
Definition RB_ID_SRB1 : Z := 1.
Definition RB_ID_SRB1BIS : Z := 3.
Definition RB_ID_N_ITEMS : Z := 12.
Definition LCID_REM_USER : Z := 4294901761.
Definition LCID_REL_USER : Z := 4294901762.

Record rrc_pdu := mk_rrc_pdu { p_rnti_ : Z; p_lcid : Z; p_pdu : option byte_buffer }.

Record rrc := mk_rrc {
  r_users : gmap Z rrc_ue;
  r_queue : list rrc_pdu;                    (* rx_pdu_queue *)
  r_running : bool;
  r_sibs : option byte_buffer * option byte_buffer;   (* sib_buffer1, sib_buffer2 *)
  r_allocs : nat                             (* allocations asked of the pool so far *)
}.
#[export] Instance eta_rrc : Eta rrc := {| eta := fun r =>
  mk_rrc (r_users r) (r_queue r) (r_running r) (r_sibs r) (r_allocs r) |}.
Definition rrc_new : rrc := mk_rrc ∅ [] false (None, None) 0.

(** Calls of the MAC, the RLC, the PDCP and the S1AP. *)
Inductive rrc_call :=
| C_mac_ue_set_crnti (temp_crnti_ crnti : Z) (cfg_ : ue_cfg_t)
| C_mac_ue_cfg (rnti_ : Z) (cfg_ : ue_cfg_t)
| C_mac_ue_rem (rnti_ : Z)
| C_rlc_add_user (rnti_ : Z)
| C_rlc_rem_user (rnti_ : Z)
| C_rlc_clear_buffer (rnti_ : Z)
| C_rlc_add_bearer (rnti_ lcid_ : Z)
| C_rlc_write_sdu (rnti_ lcid_ : Z) (bytes : list Z)
| C_pdcp_add_user (rnti_ : Z)
| C_pdcp_rem_user (rnti_ : Z)
| C_pdcp_add_bearer (rnti_ lcid_ : Z)
| C_s1ap_initial_ue (rnti_ : Z) (cause : s1ap_cause) (nas : list Z) (tmsi : option (Z * Z))
| C_s1ap_write_pdu (rnti_ : Z) (nas : list Z).

Section Rrc.
(** The encoder and decoders of the messages, [None] standing for a failure (or
    a message that is not of the [c1] kind); [pack_dl] and [pack_bcch] give the
    bytes written, the latter also when it fails.  [allocate k] is the memory
    of the buffer the pool gives for request number [k], if it has one. *)
Context (unpack_ccch : list Z -> option ul_ccch_msg) (unpack_dcch : list Z -> option ul_dcch_msg)
        (pack_dl : dl_msg -> option (list Z)) (pack_bcch : Z -> list Z) (allocate : nat -> option (list Z)).

Definition push_rrc (r : rrc) (p : rrc_pdu) : rrc := r <| r_queue := r_queue r ++ [p] |>.

(** [allocate_unique_buffer] *)
Definition alloc_buffer (r : rrc) : option (list Z) * rrc :=
  (allocate (r_allocs r), r <| r_allocs := S (r_allocs r) |>).

(** The object filed under [rnti_] has changed. *)
Definition put_ue (r : rrc) (rnti_ : Z) (u : rrc_ue) : rrc := r <| r_users := <[rnti_ := u]> (r_users r) |>.

(** ** Initialisation *)

(** [generate_sibs]; the buffers are used without a test. *)
Definition generate_sibs (r : rrc) : res rrc :=
  let '(m1, r) := alloc_buffer r in
  m1 ← match m1 with Some m => Ok m | None => UB NullDeref end;
  let '(m2, r) := alloc_buffer r in
  m2 ← match m2 with Some m => Ok m | None => UB NullDeref end;
  let b1 := mk_byte_buffer (bb_write m1 (pack_bcch 0)) (Z.of_nat (length (pack_bcch 0))) in
  let b2 := mk_byte_buffer (bb_write m2 (pack_bcch 1)) (Z.of_nat (length (pack_bcch 1))) in
  Ok (r <| r_sibs := (Some b1, Some b2) |>).

Definition rrc_init (r : rrc) : res rrc := r ← generate_sibs r; Ok (r <| r_running := true |>).
Definition rrc_stop (r : rrc) : rrc := if r_running r then r <| r_running := false |> else r.

(** ** Calls from the other layers *)
Definition rem_user_thread (r : rrc) (rnti_ : Z) : rrc := push_rrc r (mk_rrc_pdu rnti_ LCID_REM_USER None).

Definition add_user (r : rrc) (rnti_ : Z) (c : ue_cfg_t) : rrc * list rrc_call :=
  match r_users r !! rnti_ with
  | None =>
      let r := if negb (rnti_ =? SRSLTE_MRNTI) then r <| r_users := <[rnti_ := rrc_ue_new rnti_ c]> (r_users r) |> else r in
      (r, [C_rlc_add_user rnti_; C_pdcp_add_user rnti_])
  | Some _ => (r, [])
  end.

Definition upd_user (r : rrc) (new_rnti old_rnti : Z) : rrc := rem_user_thread r new_rnti.
Definition rrc_write_pdu (r : rrc) (rnti_ lcid_ : Z) (pdu : byte_buffer) : rrc :=
  push_rrc r (mk_rrc_pdu rnti_ lcid_ (Some pdu)).
Definition release_complete (r : rrc) (rnti_ : Z) : rrc := push_rrc r (mk_rrc_pdu rnti_ LCID_REL_USER None).

(** ** Messages to the device *)

(** The message goes out with one byte more than it was packed into. *)
Definition packed_pdu (mem : list Z) (bytes : list Z) : byte_buffer :=
  mk_byte_buffer (bb_write mem bytes) (1 + Z.of_nat (length bytes)).

Definition send_dl_ccch (r : rrc) (rnti_ : Z) (m : dl_msg) : rrc * list rrc_call :=
  let '(pdu, r) := alloc_buffer r in
  match pdu with
  | Some mem =>
      match pack_dl m with
      | Some bytes => (r, [C_rlc_write_sdu rnti_ RB_ID_SRB0 (bb_bytes (packed_pdu mem bytes))])
      | None => (r, [])
      end
  | None => (r, [])
  end.

Definition send_dl_dcch (r : rrc) (rnti_ : Z) (m : dl_msg) (pdu : option (list Z)) : rrc * list rrc_call :=
  let '(pdu, r) := match pdu with Some mem => (Some mem, r) | None => alloc_buffer r end in
  match pdu with
  | Some mem =>
      match pack_dl m with
      | Some bytes => (r, [C_rlc_write_sdu rnti_ RB_ID_SRB1BIS (bb_bytes (packed_pdu mem bytes))])
      | None => (r, [])
      end
  | None => (r, [])
  end.

Definition with_bearer (c : ue_cfg_t) (i : nat) : ue_cfg_t :=
  c <| ue_bearers := alter (fun b => b <| direction := BOTH |>) i (ue_bearers c) |>.

(** [transaction_id++] on a [uint8_t]. *)
Definition next_transaction (u : rrc_ue) : rrc_ue := u <| ru_transaction_id := u8 (ru_transaction_id u + 1) |>.

Definition send_connection_setup (r : rrc) (u : rrc_ue) (is_setup : bool) : rrc * rrc_ue * list rrc_call :=
  let tid := ru_transaction_id u mod 4 in
  let m := if is_setup then Dl_conn_setup tid else Dl_conn_reest tid in
  let u := next_transaction u in
  let c := (ru_sched_cfg u) <| maxharq_tx := 0 |> <| continuous_pusch := false |> in
  let u := u <| ru_sched_cfg := with_bearer (with_bearer (with_bearer c 0) 1) 3 |> in
  let mac := if is_setup then C_mac_ue_set_crnti (ru_rnti u) (ru_rnti u) (ru_sched_cfg u)
             else C_mac_ue_cfg (ru_rnti u) (ru_sched_cfg u) in
  let '(r, out) := send_dl_ccch r (ru_rnti u) m in
  (r, u, [mac; C_rlc_add_bearer (ru_rnti u) 1; C_rlc_add_bearer (ru_rnti u) 3; C_pdcp_add_bearer (ru_rnti u) 1] ++ out).

Definition send_connection_release (r : rrc) (u : rrc_ue) : rrc * rrc_ue * list rrc_call :=
  let m := Dl_conn_release (ru_transaction_id u mod 4) in
  let u := next_transaction u in
  let '(r, out) := send_dl_dcch r (ru_rnti u) m None in (r, u, out).

(** The SDU's buffer is used for the message it is put into. *)
Definition write_dl_info (r : rrc) (rnti_ : Z) (sdu : byte_buffer) : rrc * list rrc_call :=
  match r_users r !! rnti_ with
  | Some u => send_dl_dcch r (ru_rnti u) (Dl_info_transfer (bb_bytes sdu)) (Some (bb_mem sdu))
  | None => (r, [])
  end.

(** ** Messages from the device *)
Definition handle_rrc_con_req (r : rrc) (u : rrc_ue) (id : ue_identity) (cause : establishment_cause_nb) :
    rrc * rrc_ue * list rrc_call :=
  let u := match id with
           | Id_s_tmsi mmec_ m_tmsi_ => u <| ru_mmec := u8 mmec_ |> <| ru_m_tmsi := u32 m_tmsi_ |> <| ru_has_tmsi := true |>
           | Id_random => u
           end in
  let u := u <| ru_cause := cause |> in
  let '(r, u, out) := send_connection_setup r u true in
  (r, u <| ru_state := RRC_STATE_WAIT_FOR_CON_SETUP_COMPLETE |>, out).

(** The NAS message is copied into the buffer the RRC message came in. *)
Definition nas_copy (nas : list Z) : res (list Z) :=
  ub_unless (Z.of_nat (length nas) <=? BUFFER_ROOM) OobWrite (Ok nas).

Definition handle_rrc_con_setup_complete (u : rrc_ue) (nas : list Z) : res (rrc_ue * list rrc_call) :=
  nas ← nas_copy nas;
  let tmsi := if ru_has_tmsi u then Some (ru_m_tmsi u, ru_mmec u) else None in
  Ok (u <| ru_state := RRC_STATE_WAIT_FOR_CON_RECONF_COMPLETE |>,
      [C_s1ap_initial_ue (ru_rnti u) (cast_cause (ru_cause u)) nas tmsi]).

Definition parse_ul_ccch (r : rrc) (rnti_ : Z) (pdu : option byte_buffer) : rrc * list rrc_call :=
  match pdu with
  | Some b =>
      match unpack_ccch (bb_bytes b) with
      | Some (Rrc_conn_request id cause) =>
          match r_users r !! rnti_ with
          | Some u => let '(r, u, out) := handle_rrc_con_req r u id cause in (put_ue r rnti_ u, out)
          | None => (r, [])
          end
      | _ => (r, [])
      end
  | None => (r, [])
  end.

(** [rrc::ue::parse_ul_dcch] *)
Definition ue_parse_ul_dcch (u : rrc_ue) (b : byte_buffer) : res (rrc_ue * list rrc_call) :=
  match unpack_dcch (bb_bytes b) with
  | None => Ok (u, [])
  | Some m =>
      let u := u <| ru_transaction_id := 0 |> in
      match m with
      | Rrc_conn_setup_complete nas => handle_rrc_con_setup_complete u nas
      | Ul_info_transfer nas => nas ← nas_copy nas; Ok (u, [C_s1ap_write_pdu (ru_rnti u) nas])
      | Dcch_other => Ok (u, [])
      end
  end.

Definition parse_ul_dcch (r : rrc) (rnti_ : Z) (pdu : option byte_buffer) : res (rrc * list rrc_call) :=
  match pdu, r_users r !! rnti_ with
  | Some b, Some u => '(u, out) ← ue_parse_ul_dcch u b; Ok (put_ue r rnti_ u, out)
  | _, _ => Ok (r, [])
  end.

(** ** Release *)
Definition process_release_complete (r : rrc) (rnti_ : Z) : rrc * list rrc_call :=
  match r_users r !! rnti_ with
  | Some u =>
      if negb (is_idle u) then
        let '(r, u, out) := send_connection_release r u in
        (rem_user_thread (put_ue r rnti_ u) rnti_, C_rlc_clear_buffer rnti_ :: out)
      else (rem_user_thread r rnti_, [])
  | None => (r, [])
  end.

Definition rem_user (r : rrc) (rnti_ : Z) : rrc * list rrc_call :=
  match r_users r !! rnti_ with
  | Some _ => (r <| r_users := delete rnti_ (r_users r) |>, [C_mac_ue_rem rnti_; C_rlc_rem_user rnti_; C_pdcp_rem_user rnti_])
  | None => (r, [])
  end.

(** ** The queue *)

(** The body of the loop of [tti_clock]; a buffer's bearer is looked up in a
    table of names for the log first. *)
Definition handle_pdu (r : rrc) (p : rrc_pdu) : res (rrc * list rrc_call) :=
  ub_unless (match p_pdu p with Some _ => p_lcid p <? RB_ID_N_ITEMS | None => true end) OobRead (
  match r_users r !! p_rnti_ p with
  | None => Ok (r, [])
  | Some _ =>
      if p_lcid p =? RB_ID_SRB0 then Ok (parse_ul_ccch r (p_rnti_ p) (p_pdu p))
      else if (p_lcid p =? RB_ID_SRB1) || (p_lcid p =? RB_ID_SRB1BIS) then parse_ul_dcch r (p_rnti_ p) (p_pdu p)
      else if p_lcid p =? LCID_REM_USER then Ok (rem_user r (p_rnti_ p))
      else if p_lcid p =? LCID_REL_USER then Ok (process_release_complete r (p_rnti_ p))
      else Ok (r, [])
  end).

Fixpoint tti_clock_loop (fuel : nat) (r : rrc) (out : list rrc_call) : res (rrc * list rrc_call) :=
  match r_queue r with
  | [] => Ok (r, out)
  | p :: q =>
      match fuel with
      | O => Diverge
      | S f => '(r, o) ← handle_pdu (r <| r_queue := q |>) p; tti_clock_loop f r (out ++ o)
      end
  end.

(** A release queues one more entry, the removal. *)
Definition tti_clock (r : rrc) : res (rrc * list rrc_call) := tti_clock_loop (2 * length (r_queue r)) r [].
End Rrc.

(** ** Facts *)
Section Facts.
Context (unpack_ccch : list Z -> option ul_ccch_msg) (unpack_dcch : list Z -> option ul_dcch_msg)
        (pack_dl : dl_msg -> option (list Z)) (pack_bcch : Z -> list Z) (allocate : nat -> option (list Z)).

Abbreviation handle := (handle_pdu unpack_ccch unpack_dcch pack_dl allocate).
Abbreviation loop := (tti_clock_loop unpack_ccch unpack_dcch pack_dl allocate).
Abbreviation clock := (tti_clock unpack_ccch unpack_dcch pack_dl allocate).

(** The documented behaviour of the decoder the copies rely on: a NAS message
    is part of the message it is found in. *)
Definition nas_of (m : ul_dcch_msg) : list Z :=
  match m with Rrc_conn_setup_complete nas | Ul_info_transfer nas => nas | Dcch_other => [] end.
Definition decoder_ok : Prop :=
  forall bytes m, unpack_dcch bytes = Some m -> (length (nas_of m) <= length bytes)%nat.

Definition pdu_ok (p : rrc_pdu) : Prop :=
  match p_pdu p with
  | Some b => p_lcid p < RB_ID_N_ITEMS /\ Z.of_nat (length (bb_bytes b)) <= BUFFER_ROOM
  | None => p_lcid p = LCID_REM_USER \/ p_lcid p = LCID_REL_USER
  end.

(** Sending changes nothing but the count of allocations. *)
Lemma send_dl_ccch_frame r r0 m r' o : send_dl_ccch pack_dl allocate r r0 m = (r', o) ->
  exists n, r' = r <| r_allocs := n |>.
Proof.
  unfold send_dl_ccch, alloc_buffer. intros H. exists (S (r_allocs r)).
  destruct (allocate (r_allocs r)); [destruct (pack_dl m)|]; by injection H as <- _.
Qed.

Lemma send_dl_dcch_frame r r0 m p r' o : send_dl_dcch pack_dl allocate r r0 m p = (r', o) ->
  exists n, r' = r <| r_allocs := n |>.
Proof.
  unfold send_dl_dcch, alloc_buffer. intros H. destruct p as [mem|].
  - exists (r_allocs r). destruct (pack_dl m); injection H as <- _; by destruct r.
  - exists (S (r_allocs r)). destruct (allocate (r_allocs r)); [destruct (pack_dl m)|]; by injection H as <- _.
Qed.

(** What one entry of the queue may do: the user may change or go away, and a
    release queues one removal. *)
Record handled (r : rrc) (p : rrc_pdu) (r' : rrc) : Prop := mk_handled {
  hd_queue : r_queue r' = r_queue r \/
             (p_lcid p = LCID_REL_USER /\ r_queue r' = r_queue r ++ [mk_rrc_pdu (p_rnti_ p) LCID_REM_USER None]);
  hd_others : forall r0, r0 <> p_rnti_ p -> r_users r' !! r0 = r_users r !! r0;
  hd_user : forall u, r_users r' !! p_rnti_ p = Some u ->
    exists u0, r_users r !! p_rnti_ p = Some u0 /\ ru_rnti u = ru_rnti u0 /\
      (ru_state u = ru_state u0 \/ ru_state u = RRC_STATE_WAIT_FOR_CON_SETUP_COMPLETE \/
       ru_state u = RRC_STATE_WAIT_FOR_CON_RECONF_COMPLETE)
}.

Lemma handled_same r p n : handled r p (r <| r_allocs := n |>).
Proof. split; cbn; [by left|done|]. intros u Hu. exists u. by split_and!; [| |left]. Qed.

Lemma handled_id r p : handled r p r.
Proof. split; [by left|done|]. intros u Hu. exists u. by split_and!; [| |left]. Qed.

Lemma handled_put r p n u u0 :
  r_users r !! p_rnti_ p = Some u0 -> ru_rnti u = ru_rnti u0 ->
  (ru_state u = ru_state u0 \/ ru_state u = RRC_STATE_WAIT_FOR_CON_SETUP_COMPLETE \/
   ru_state u = RRC_STATE_WAIT_FOR_CON_RECONF_COMPLETE) ->
  handled r p (put_ue (r <| r_allocs := n |>) (p_rnti_ p) u).
Proof.
  intros H0 Hr Hs. split; cbn; [by left|intros r0 Hne; by apply lookup_insert_ne|].
  intros v. rewrite lookup_insert_eq. intros [= <-]. by exists u0.
Qed.

Lemma nas_copy_ok b m : decoder_ok -> unpack_dcch (bb_bytes b) = Some m -> Z.of_nat (length (bb_bytes b)) <= BUFFER_ROOM ->
  nas_copy (nas_of m) = Ok (nas_of m).
Proof.
  intros Hd Hm Hb. specialize (Hd _ _ Hm). unfold nas_copy. by replace (_ <=? BUFFER_ROOM) with true by lia.
Qed.

Lemma handle_pdu_ok r p : decoder_ok -> pdu_ok p -> exists r' o, handle r p = Ok (r', o) /\ handled r p r'.
Proof.
  intros Hd Hp. unfold handle_pdu.
  replace (match p_pdu p with Some _ => _ | None => true end) with true.
  2:{ unfold pdu_ok in Hp. destruct (p_pdu p); [|done]. destruct Hp. unfold RB_ID_N_ITEMS in *. lia. }
  cbn [ub_unless]. destruct (r_users r !! p_rnti_ p) as [u0|] eqn:E0; [|by exists r, []; split; [|apply handled_id]].
  destruct (p_lcid p =? RB_ID_SRB0).
  { eexists _, _. split; [apply f_equal, surjective_pairing|]. unfold parse_ul_ccch.
    destruct (p_pdu p) as [b|]; [|apply handled_id].
    destruct (unpack_ccch (bb_bytes b)) as [[id cause|]|]; [|apply handled_id..]. rewrite E0.
    unfold handle_rrc_con_req, send_connection_setup. cbv zeta.
    match goal with |- context [send_dl_ccch ?a ?b ?c ?d ?e] => destruct (send_dl_ccch a b c d e) as [r1 o1] eqn:E1 end.
    destruct (send_dl_ccch_frame _ _ _ _ _ E1) as [n ->]. apply handled_put with u0; [done| |by right; left].
    by destruct id. }
  destruct ((p_lcid p =? RB_ID_SRB1) || _).
  { unfold parse_ul_dcch. rewrite E0. destruct (p_pdu p) as [b|] eqn:Eb; [|by exists r, []; split; [|apply handled_id]].
    unfold pdu_ok in Hp. rewrite Eb in Hp. unfold ue_parse_ul_dcch.
    assert (Hk : forall u, handled r p (put_ue r (p_rnti_ p) u) <-> handled r p (put_ue (r <| r_allocs := r_allocs r |>) (p_rnti_ p) u)).
    { intros u. by destruct r. }
    destruct (unpack_dcch (bb_bytes b)) as [m|] eqn:Em.
    2:{ eexists _, _. rewrite bind_ok_l. split; [reflexivity|]. apply Hk, handled_put with u0; [done..|by left]. }
    pose proof (nas_copy_ok b m Hd Em (proj2 Hp)) as Hn. destruct m as [nas|nas|]; cbn [nas_of] in Hn.
    - unfold handle_rrc_con_setup_complete. rewrite Hn, !bind_ok_l. eexists _, _. split; [reflexivity|].
      apply Hk, handled_put with u0; [done..|by right; right].
    - rewrite Hn, !bind_ok_l. eexists _, _. split; [reflexivity|]. apply Hk, handled_put with u0; [done..|by left].
    - rewrite bind_ok_l. eexists _, _. split; [reflexivity|]. apply Hk, handled_put with u0; [done..|by left]. }
  destruct (p_lcid p =? LCID_REM_USER).
  { unfold rem_user. rewrite E0. eexists _, _. split; [reflexivity|]. split; cbn; [by left|intros; by apply lookup_delete_ne|].
    intros u. by rewrite lookup_delete_eq. }
  destruct (Z.eqb_spec (p_lcid p) LCID_REL_USER) as [El|]; [|by exists r, []; split; [|apply handled_id]].
  eexists _, _. split; [apply f_equal, surjective_pairing|]. unfold process_release_complete. rewrite E0.
  destruct (negb (is_idle u0)).
  - unfold send_connection_release. destruct (send_dl_dcch _ _ _ _ _ _) as [r1 o1] eqn:E1.
    destruct (send_dl_dcch_frame _ _ _ _ _ _ E1) as [n ->]. cbn [fst].
    split; cbn; [by right|intros; by apply lookup_insert_ne|]. intros v. rewrite lookup_insert_eq. intros [= <-].
    exists u0. by split_and!; [| |left].
  - cbn [fst]. split; cbn; [by right|done|]. intros u Hu. exists u. by split_and!; [| |left].
Qed.

(** The number of turns the queue needs. *)
Definition weight (q : list rrc_pdu) : nat :=
  foldr (fun p n => (if (p_lcid p =? LCID_REL_USER)%Z then 2 else 1) + n)%nat O q.

Lemma weight_app q1 q2 : weight (q1 ++ q2) = (weight q1 + weight q2)%nat.
Proof. induction q1 as [|p q1 IH]; [done|]. cbn. unfold weight in *. lia. Qed.

Lemma weight_le q : (weight q <= 2 * length q)%nat.
Proof. induction q as [|p q IH]; [done|]. cbn. unfold weight in *. case_match; lia. Qed.

(** A relation every entry keeps is kept by the whole loop. *)
Lemma loop_ok (R : rrc -> rrc -> Prop) `{!PreOrder R} fuel r out :
  decoder_ok -> (forall r p r', handled r p r' -> R r r') -> (forall r q, R r (r <| r_queue := q |>)) ->
  Forall pdu_ok (r_queue r) -> (weight (r_queue r) <= fuel)%nat ->
  exists r' out', loop fuel r out = Ok (r', out') /\ r_queue r' = [] /\ R r r'.
Proof.
  intros Hd HR Hq. revert r out; induction fuel as [|fuel IH]; intros r out Hok Hw; cbn [tti_clock_loop];
    destruct (r_queue r) as [|p q] eqn:Eq.
  - exists r, out. by split_and!.
  - exfalso. cbn in Hw. case_match; lia.
  - exists r, out. by split_and!.
  - apply Forall_cons in Hok as [Hp Hok].
    destruct (handle_pdu_ok (r <| r_queue := q |>) p Hd Hp) as (r1 & o & -> & Hh). rewrite bind_ok_l.
    assert (Hw1 : (weight (r_queue r1) <= fuel)%nat /\ Forall pdu_ok (r_queue r1)).
    { destruct (hd_queue _ _ _ Hh) as [->|[El ->]]; cbn [r_queue upd].
      - cbn in Hw. change (foldr _ _ q) with (weight q) in Hw. split; [case_match; lia|done].
      - rewrite weight_app. cbn in Hw |- *. rewrite El in Hw. cbn in Hw. change (foldr _ _ q) with (weight q) in Hw.
        split; [lia|]. apply Forall_app; split; [done|]. apply Forall_cons; split; [by left|constructor]. }
    destruct (IH r1 (out ++ o) (proj2 Hw1) (proj1 Hw1)) as (r' & out' & -> & Hq' & Hr').
    exists r', out'. split_and!; [done..|]. etrans; [apply (Hq r q)|]. etrans; [by eapply HR|done].
Qed.

(** The states a user of this RRC can be in, and the name it goes by. *)
Definition early_state (s : rrc_state_t) : Prop :=
  s = RRC_STATE_IDLE \/ s = RRC_STATE_WAIT_FOR_CON_SETUP_COMPLETE \/ s = RRC_STATE_WAIT_FOR_CON_RECONF_COMPLETE.
Definition rrc_wf (r : rrc) : Prop :=
  forall k u, r_users r !! k = Some u -> ru_rnti u = k /\ early_state (ru_state u).

Lemma handled_wf r p r' : handled r p r' -> rrc_wf r -> rrc_wf r'.
Proof.
  intros [_ Ho Hu] Hw k u Hk. destruct (decide (k = p_rnti_ p)) as [->|Hne].
  - destruct (Hu u Hk) as (u0 & H0 & Er & Hs). destruct (Hw _ _ H0) as [E0 S0]. split; [congruence|].
    destruct Hs as [->|[->| ->]]; [done|by right; left|by right; right].
  - rewrite Ho in Hk by done. by apply Hw.
Qed.

(** The calls other layers make, and the clock. *)
Inductive rrc_step : rrc -> rrc -> Prop :=
| rs_add r k c : rrc_step r (add_user r k c).1
| rs_upd r a b : rrc_step r (upd_user r a b)
| rs_write r k l b : rrc_step r (rrc_write_pdu r k l b)
| rs_release r k : rrc_step r (release_complete r k)
| rs_dl_info r k b : rrc_step r (write_dl_info pack_dl allocate r k b).1
| rs_init r r' : rrc_init pack_bcch allocate r = Ok r' -> rrc_step r r'
| rs_stop r : rrc_step r (rrc_stop r)
| rs_clock r r' out : clock r = Ok (r', out) -> rrc_step r r'.

Inductive rrc_reach : rrc -> Prop :=
| rr_new : rrc_reach rrc_new
| rr_step r r' : rrc_reach r -> rrc_step r r' -> rrc_reach r'.

(** An entry that was handled, whatever it was. *)
Lemma handle_pdu_wf r p r' o : handle r p = Ok (r', o) -> rrc_wf r -> rrc_wf r'.
Proof.
  unfold handle_pdu. intros H. apply ub_unless_Ok in H as [_ H].
  destruct (r_users r !! p_rnti_ p) as [u0|] eqn:E0; [|by injection H as <- _].
  assert (Hput : forall n u, ru_rnti u = ru_rnti u0 -> (ru_state u = ru_state u0 \/ early_state (ru_state u)) -> rrc_wf r ->
    rrc_wf (put_ue (r <| r_allocs := n |>) (p_rnti_ p) u)).
  { intros n u Er Hs Hw k v. cbn. intros [[<- <-]|[_ Hk]]%lookup_insert_Some; [|by apply Hw].
    destruct (Hw _ _ E0) as [E1 S1]. split; [congruence|]. destruct Hs as [->|]; done. }
  assert (Hid : r <| r_allocs := r_allocs r |> = r) by by destruct r.
  destruct (p_lcid p =? RB_ID_SRB0).
  { injection H as H. unfold parse_ul_ccch in H. destruct (p_pdu p) as [b|]; [|by injection H as <- _].
    destruct (unpack_ccch (bb_bytes b)) as [[id cause|]|]; [|by injection H as <- _..]. rewrite E0 in H.
    unfold handle_rrc_con_req, send_connection_setup in H. cbv zeta in H.
    match type of H with context [send_dl_ccch ?a ?b ?c ?d ?e] => destruct (send_dl_ccch a b c d e) as [r1 o1] eqn:E1 end.
    destruct (send_dl_ccch_frame _ _ _ _ _ E1) as [n ->]. injection H as <- _. apply Hput; [by destruct id|].
    right. by right; left. }
  destruct (_ || _).
  { unfold parse_ul_dcch in H. rewrite E0 in H. destruct (p_pdu p) as [b|]; [|by injection H as <- _].
    apply bind_Ok in H as ([u o1] & H & E). injection E as <- _. rewrite <- Hid. unfold ue_parse_ul_dcch in H.
    destruct (unpack_dcch (bb_bytes b)) as [[nas|nas|]|].
    - unfold handle_rrc_con_setup_complete in H. apply bind_Ok in H as (nas' & _ & H). injection H as <- _.
      apply Hput; [done|]. right. by right; right.
    - apply bind_Ok in H as (nas' & _ & H). injection H as <- _. apply Hput; [done|by left].
    - injection H as <- _. apply Hput; [done|by left].
    - injection H as <- _. apply Hput; [done|by left]. }
  destruct (_ =? _).
  { injection H as H. unfold rem_user in H. rewrite E0 in H. injection H as <- _. intros Hw k u. cbn.
    rewrite lookup_delete_Some. intros [_ Hk]. by apply Hw. }
  destruct (_ =? _); [|by injection H as <- _]. injection H as H. unfold process_release_complete in H. rewrite E0 in H.
  destruct (negb _); [|by injection H as <- _]. unfold send_connection_release in H.
  destruct (send_dl_dcch _ _ _ _ _ _) as [r1 o1] eqn:E1. destruct (send_dl_dcch_frame _ _ _ _ _ _ E1) as [n ->].
  injection H as <- _. apply (Hput n); [done|by left].
Qed.

Lemma loop_wf fuel r out r' out' : loop fuel r out = Ok (r', out') -> rrc_wf r -> rrc_wf r'.
Proof.
  revert r out; induction fuel as [|fuel IH]; intros r out H Hw; cbn [tti_clock_loop] in H;
    destruct (r_queue r) as [|p q]; try (by injection H as <- _); [done|].
  apply bind_Ok in H as ([r1 o] & H1 & H). eapply IH; [exact H|]. eapply handle_pdu_wf; [exact H1|]. exact Hw.
Qed.

Lemma step_wf r r' : rrc_step r r' -> rrc_wf r -> rrc_wf r'.
Proof.
  intros [r1 k c|r1 a b|r1 k l b|r1 k|r1 k b|r1 r2 H|r1|r1 r2 out H] Hw; try exact Hw.
  - unfold add_user. destruct (r_users r1 !! k); [done|]. destruct (negb _); [|done]. intros k' u. cbn.
    intros [[<- <-]|[_ Hk]]%lookup_insert_Some; [split; [done|by left]|by apply Hw].
  - unfold write_dl_info. destruct (r_users r1 !! k) as [u|]; [|done].
    destruct (send_dl_dcch _ _ _ _ _ _) as [r2 o] eqn:E. by destruct (send_dl_dcch_frame _ _ _ _ _ _ E) as [n ->].
  - unfold rrc_init in H. apply bind_Ok in H as (r3 & H & E). injection E as <-. unfold generate_sibs, alloc_buffer in H.
    apply bind_Ok in H as (m1 & _ & H). apply bind_Ok in H as (m2 & _ & H). injection H as <-. exact Hw.
  - unfold rrc_stop. by destruct (r_running r1).
  - by eapply loop_wf.
Qed.

(** One turn of the loop; a clock with a single entry waiting. *)
Lemma loop_turn f r p q r' o out : r_queue r = p :: q -> handle (r <| r_queue := q |>) p = Ok (r', o) ->
  loop (S f) r out = loop f r' (out ++ o).
Proof. intros Hq Hh. cbn [tti_clock_loop]. by rewrite Hq, Hh, bind_ok_l. Qed.

Lemma loop_empty f r out : r_queue r = [] -> loop f r out = Ok (r, out).
Proof. intros Hq. destruct f; cbn; by rewrite Hq. Qed.

Lemma clock_one r p r' o : r_queue r = [p] -> handle (r <| r_queue := [] |>) p = Ok (r', o) -> r_queue r' = [] ->
  clock r = Ok (r', o).
Proof.
  intros Hq Hh He. unfold tti_clock. rewrite Hq. cbn [length Nat.mul Nat.add]. erewrite loop_turn by done.
  by rewrite loop_empty, app_nil_l.
Qed.

(** What a message carries beyond its encoding. *)
Lemma sent_bytes mem bytes : bb_bytes (packed_pdu mem bytes) = bytes ++ take 1 (drop (length bytes) mem).
Proof.
  unfold bb_bytes, packed_pdu, bb_write. cbn. replace (Z.to_nat _) with (length bytes + 1)%nat by lia.
  by rewrite take_app_add.
Qed.

(** A user after its request, and after the setup complete message. *)
Definition setup_cfg (u : rrc_ue) : ue_cfg_t :=
  with_bearer (with_bearer (with_bearer ((ru_sched_cfg u) <| maxharq_tx := 0 |> <| continuous_pusch := false |>) 0) 1) 3.
Definition con_requested (u : rrc_ue) (mmec_ m_tmsi_ : Z) (cause : establishment_cause_nb) : rrc_ue :=
  next_transaction (u <| ru_mmec := u8 mmec_ |> <| ru_m_tmsi := u32 m_tmsi_ |> <| ru_has_tmsi := true |> <| ru_cause := cause |>)
    <| ru_sched_cfg := setup_cfg u |> <| ru_state := RRC_STATE_WAIT_FOR_CON_SETUP_COMPLETE |>.
Definition con_completed (u : rrc_ue) : rrc_ue :=
  u <| ru_transaction_id := 0 |> <| ru_state := RRC_STATE_WAIT_FOR_CON_RECONF_COMPLETE |>.

Lemma con_req_clock r k u mmec_ m_tmsi_ cause b mem bytes :
  r_queue r = [] -> r_users r !! k = Some u -> ru_rnti u = k ->
  unpack_ccch (bb_bytes b) = Some (Rrc_conn_request (Id_s_tmsi mmec_ m_tmsi_) cause) ->
  allocate (r_allocs r) = Some mem -> pack_dl (Dl_conn_setup (ru_transaction_id u mod 4)) = Some bytes ->
  clock (rrc_write_pdu r k RB_ID_SRB0 b) =
    Ok (put_ue (r <| r_queue := [] |> <| r_allocs := S (r_allocs r) |>) k (con_requested u mmec_ m_tmsi_ cause),
        [C_mac_ue_set_crnti k k (setup_cfg u); C_rlc_add_bearer k 1; C_rlc_add_bearer k 3; C_pdcp_add_bearer k 1;
         C_rlc_write_sdu k RB_ID_SRB0 (bytes ++ take 1 (drop (length bytes) mem))]).
Proof.
  intros Hq Hu Hr H1 Ha Hp. apply clock_one with (p := mk_rrc_pdu k RB_ID_SRB0 (Some b)); [cbn; by rewrite Hq| |done].
  unfold handle_pdu. cbn. rewrite Hu. unfold parse_ul_ccch, rrc_write_pdu, push_rrc. cbn. rewrite H1, ?Hu.
  unfold handle_rrc_con_req, send_connection_setup, send_dl_ccch, alloc_buffer. cbn. by rewrite Ha, Hp, Hr, sent_bytes.
Qed.

Lemma con_complete_clock r k u b nas :
  r_queue r = [] -> r_users r !! k = Some u -> ru_rnti u = k ->
  unpack_dcch (bb_bytes b) = Some (Rrc_conn_setup_complete nas) -> Z.of_nat (length nas) <= BUFFER_ROOM ->
  clock (rrc_write_pdu r k RB_ID_SRB1BIS b) =
    Ok (put_ue (r <| r_queue := [] |>) k (con_completed u),
        [C_s1ap_initial_ue k (cast_cause (ru_cause u)) nas (if ru_has_tmsi u then Some (ru_m_tmsi u, ru_mmec u) else None)]).
Proof.
  intros Hq Hu Hr H2 Hn. apply clock_one with (p := mk_rrc_pdu k RB_ID_SRB1BIS (Some b)); [cbn; by rewrite Hq| |done].
  unfold handle_pdu, parse_ul_dcch, ue_parse_ul_dcch, handle_rrc_con_setup_complete, nas_copy.
  cbn -[put_ue]. rewrite Hu, H2. replace (_ <=? _) with true by lia. cbn. by rewrite Hr.
Qed.

Lemma setup_cfg_bearers u i b : i ∈ [0; 1; 3]%nat -> ue_bearers (setup_cfg u) !! i = Some b -> direction b = BOTH.
Proof.
  unfold setup_cfg, with_bearer. cbn [ue_bearers upd eta]. intros Hi Hb.
  rewrite !elem_of_cons, elem_of_nil in Hi. destruct Hi as [->|[->|[->|[]]]].
  - rewrite 2!list_lookup_alter_ne, list_lookup_alter_eq in Hb by done. by apply fmap_Some in Hb as (b0 & _ & ->).
  - rewrite list_lookup_alter_ne, list_lookup_alter_eq in Hb by done. by apply fmap_Some in Hb as (b0 & _ & ->).
  - rewrite list_lookup_alter_eq in Hb. by apply fmap_Some in Hb as (b0 & _ & ->).
Qed.

(** ** Properties *)

(** C24. The clock of the RRC always comes back, with an empty queue: whatever
    was received, whatever the decoders make of it and also with the entries
    the releases add while the queue is worked through, provided that the
    entries come from a bearer of the table and that a NAS message is no longer
    than the message it came in.  It adds no user. *)
Theorem tti_clock_empties_queue r :
  decoder_ok -> Forall pdu_ok (r_queue r) ->
  exists r' out, clock r = Ok (r', out) /\ r_queue r' = [] /\ dom (r_users r') ⊆ dom (r_users r).
Proof.
  clear pack_bcch. intros Hd Hok. pose (R r1 r2 := dom (r_users r2) ⊆ dom (r_users r1)).
  assert (HR : PreOrder R) by (split; [intros r1; by unfold R|intros r1 r2 r3; unfold R; set_solver]).
  apply (loop_ok R); [done| | |done|apply weight_le].
  - intros r1 p r2 [_ Ho Hu] k. unfold R. rewrite !elem_of_dom. destruct (decide (k = p_rnti_ p)) as [->|Hne].
    + intros [u Hk]. destruct (Hu u Hk) as (u0 & H0 & _). by exists u0.
    + by rewrite Ho.
  - intros r1 q. unfold R. done.
Qed.

(** C33. Three of the seven states are all there is.  In a run of the RRC under
    any calls in any order, every user is filed under its own identity, and is
    idle, waiting for the setup to complete, or waiting for a reconfiguration
    that this RRC never sends; none is ever connected. *)
Theorem rrc_states r k u : rrc_reach r -> r_users r !! k = Some u ->
  ru_rnti u = k /\ early_state (ru_state u) /\ is_connected u = false.
Proof.
  intros Hr Hk. assert (Hw : rrc_wf r).
  { clear Hk. induction Hr as [|r r' _ IH Hs]; [|by eapply step_wf]. intros k' u'. cbn. by rewrite lookup_empty. }
  destruct (Hw _ _ Hk) as [E S]. split_and!; [done..|]. unfold is_connected. apply bool_decide_eq_false.
  destruct S as [->|[->| ->]]; discriminate.
Qed.

(** C13. A connection is established.  A connection request with an S-TMSI on SRB0
    and the setup complete message on SRB1bis that answers it give exactly the
    calls the other layers expect: the MAC is given the user's identity and
    bearers, the RLC and the PDCP their bearers, the encoded setup goes out on SRB0
    (one byte too long), and then the S1AP is handed the NAS message with the
    S-TMSI of the request and the number of its cause, taken for one of the S1AP's
    causes - which is then another one than the device gave
    ([cause_misreported]). *)
Theorem connection_established r k u mmec_ m_tmsi_ cause nas b1 b2 mem bytes :
  r_queue r = [] -> r_users r !! k = Some u -> ru_rnti u = k ->
  unpack_ccch (bb_bytes b1) = Some (Rrc_conn_request (Id_s_tmsi mmec_ m_tmsi_) cause) ->
  unpack_dcch (bb_bytes b2) = Some (Rrc_conn_setup_complete nas) -> Z.of_nat (length nas) <= BUFFER_ROOM ->
  allocate (r_allocs r) = Some mem -> pack_dl (Dl_conn_setup (ru_transaction_id u mod 4)) = Some bytes ->
  exists r1 r2 c u2,
    clock (rrc_write_pdu r k RB_ID_SRB0 b1) = Ok (r1,
      [C_mac_ue_set_crnti k k c; C_rlc_add_bearer k 1; C_rlc_add_bearer k 3; C_pdcp_add_bearer k 1;
       C_rlc_write_sdu k RB_ID_SRB0 (bytes ++ take 1 (drop (length bytes) mem))]) /\
    clock (rrc_write_pdu r1 k RB_ID_SRB1BIS b2) = Ok (r2,
      [C_s1ap_initial_ue k (cast_cause cause) nas (Some (u32 m_tmsi_, u8 mmec_))]) /\
    r_queue r2 = [] /\ r_users r2 = <[k := u2]> (r_users r) /\ ru_state u2 = RRC_STATE_WAIT_FOR_CON_RECONF_COMPLETE /\
    ru_transaction_id u2 = 0 /\
    (forall i b, i ∈ [0; 1; 3]%nat -> ue_bearers c !! i = Some b -> direction b = BOTH).
Proof.
  intros Hq Hu Hr H1 H2 Hn Ha Hp. pose (u1 := con_requested u mmec_ m_tmsi_ cause).
  pose (r1 := put_ue (r <| r_queue := [] |> <| r_allocs := S (r_allocs r) |>) k u1).
  exists r1, (put_ue (r1 <| r_queue := [] |>) k (con_completed u1)), (setup_cfg u), (con_completed u1). split_and!.
  - by eapply con_req_clock.
  - apply (con_complete_clock r1 k u1); [done|apply lookup_insert_eq|done..].
  - done.
  - cbn. by rewrite insert_insert_eq.
  - done.
  - done.
  - apply setup_cfg_bearers.
Qed.

(** C32. A connection is released.  When the S1AP reports the release of a user
    that is past idle, one clock empties its buffer, sends it the release
    message on SRB1bis if a buffer is to be had and the message encodes, and
    removes it from the MAC, the RLC, the PDCP and the RRC; nobody else is
    touched. *)
Theorem connection_released r k u :
  r_queue r = [] -> r_users r !! k = Some u -> ru_rnti u = k -> ru_state u <> RRC_STATE_IDLE ->
  exists r',
    clock (release_complete r k) = Ok (r',
      C_rlc_clear_buffer k ::
      match allocate (r_allocs r), pack_dl (Dl_conn_release (ru_transaction_id u mod 4)) with
      | Some mem, Some bytes => [C_rlc_write_sdu k RB_ID_SRB1BIS (bytes ++ take 1 (drop (length bytes) mem))]
      | _, _ => []
      end ++ [C_mac_ue_rem k; C_rlc_rem_user k; C_pdcp_rem_user k]) /\
    r_queue r' = [] /\ r_users r' = delete k (r_users r).
Proof.
  intros Hq Hu Hr Hs.
  pose (r1 := put_ue (r <| r_queue := [] |> <| r_allocs := S (r_allocs r) |>) k (next_transaction u)).
  pose (sent := match allocate (r_allocs r), pack_dl (Dl_conn_release (ru_transaction_id u mod 4)) with
      | Some mem, Some bytes => [C_rlc_write_sdu k RB_ID_SRB1BIS (bytes ++ take 1 (drop (length bytes) mem))]
      | _, _ => []
      end).
  exists (r1 <| r_users := delete k (r_users r1) |>). fold sent.
  assert (H1 : handle (r <| r_queue := [] |>) (mk_rrc_pdu k LCID_REL_USER None) = Ok (rem_user_thread r1 k, C_rlc_clear_buffer k :: sent)).
  { unfold handle_pdu. cbn. rewrite Hu. unfold process_release_complete. cbn. rewrite Hu.
    assert (Hi : negb (is_idle u) = true) by (unfold is_idle; by rewrite bool_decide_eq_false_2).
    rewrite Hi. unfold send_connection_release, send_dl_dcch, alloc_buffer, sent. cbn. rewrite Hr.
    destruct (allocate (r_allocs r)); [|done]. destruct (pack_dl _); [|done]. by rewrite sent_bytes. }
  assert (H2 : handle r1 (mk_rrc_pdu k LCID_REM_USER None) =
    Ok (r1 <| r_users := delete k (r_users r1) |>, [C_mac_ue_rem k; C_rlc_rem_user k; C_pdcp_rem_user k])).
  { unfold handle_pdu, rem_user. cbn. by rewrite lookup_insert_eq. }
  split; [|split; [done|]].
  - assert (Hq1 : r_queue (release_complete r k) = [mk_rrc_pdu k LCID_REL_USER None]) by (cbn; by rewrite Hq).
    unfold tti_clock. rewrite Hq1. cbn [length Nat.mul Nat.add].
    rewrite (loop_turn _ _ _ _ _ _ _ Hq1 H1), (loop_turn _ (rem_user_thread r1 k) (mk_rrc_pdu k LCID_REM_USER None) [] _ _ _ eq_refl H2).
    by rewrite loop_empty.
  - cbn. apply delete_insert_eq.
Qed.

(** The cause of the S1AP that has the name of the cause the device gave. *)
Definition named_cause (c : establishment_cause_nb) : option s1ap_cause :=
  match c with
  | mt_access => Some S_mt_access | mo_sig => Some S_mo_sig | mo_data => Some S_mo_data
  | mo_exception_data => Some S_mo_exception_data | delay_tolerant_access_v1330 => Some S_delay_tolerant_access
  | _ => None
  end.

(** The cause of a connection is never reported to the core network as
    what it is: whichever of the five causes the device gave, the message sent
    to the S1AP names another one.  An answer to paging becomes an emergency,
    signalling becomes high priority access. *)
Theorem cause_misreported u nas s :
  Z.of_nat (length nas) <= BUFFER_ROOM -> named_cause (ru_cause u) = Some s ->
  exists u' s' tmsi, handle_rrc_con_setup_complete u nas = Ok (u', [C_s1ap_initial_ue (ru_rnti u) s' nas tmsi]) /\ s' <> s.
Proof.
  intros Hn Hs. unfold handle_rrc_con_setup_complete, nas_copy. replace (_ <=? _) with true by lia.
  eexists _, _, _. split; [reflexivity|]. destruct (ru_cause u); try discriminate Hs; injection Hs as <-; discriminate.
Qed.
End Facts.

(** ** Concrete runs *)

(** A cell of one device; the first byte of a message tells what it is, and a
    buffer is full of what it last held. *)
Definition demo_ccch (b : list Z) : option ul_ccch_msg :=
  match b with 1 :: m :: t :: _ => Some (Rrc_conn_request (Id_s_tmsi m t) mt_access) | _ => None end.
Definition demo_dcch (b : list Z) : option ul_dcch_msg :=
  match b with 2 :: nas => Some (Rrc_conn_setup_complete nas) | 3 :: nas => Some (Ul_info_transfer nas) | _ => None end.
Definition demo_pack (m : dl_msg) : option (list Z) :=
  match m with
  | Dl_conn_setup t => Some [16 + t] | Dl_conn_reest t => Some [32 + t] | Dl_conn_release t => Some [48 + t]
  | Dl_info_transfer nas => Some (64 :: nas)
  end.
Definition demo_alloc (n : nat) : option (list Z) := Some (replicate 8 170).
Definition demo_rrc : rrc := (add_user rrc_new 70 ue_cfg_zero).1.
Definition demo_msg (l : list Z) : byte_buffer := mk_byte_buffer (l ++ replicate 4 0) (Z.of_nat (length l)).

Definition demo_queue : rrc := release_complete (rrc_write_pdu demo_rrc 70 RB_ID_SRB0 (demo_msg [1; 5; 6])) 70.

Lemma demo_decoder_ok : decoder_ok demo_dcch.
Proof.
  intros [|x b] m; [done|]. unfold demo_dcch. repeat case_match; intros E; try discriminate E; injection E as <-; cbn; lia.
Qed.

Lemma tti_clock_empties_queue_witness :
  decoder_ok demo_dcch /\
  exists r' out, tti_clock demo_ccch demo_dcch demo_pack demo_alloc demo_queue = Ok (r', out) /\
    r_queue r' = [] /\ dom (r_users r') ⊆ dom (r_users demo_queue).
Proof.
  split; [exact demo_decoder_ok|]. apply tti_clock_empties_queue; [exact demo_decoder_ok|].
  apply Forall_cons; split; [split; vm_compute; congruence|]. apply Forall_cons; split; [by right|constructor].
Defined.

Lemma rrc_states_witness :
  rrc_reach demo_ccch demo_dcch demo_pack (fun _ => []) demo_alloc demo_rrc /\
  is_connected (rrc_ue_new 70 ue_cfg_zero) = false.
Proof.
  assert (H : rrc_reach demo_ccch demo_dcch demo_pack (fun _ => []) demo_alloc demo_rrc)
    by (eapply rr_step; [apply rr_new|apply rs_add]).
  split; [exact H|]. eapply (rrc_states _ _ _ _ _ demo_rrc 70); [exact H|reflexivity].
Defined.

Lemma connection_established_witness :
  exists r1 r2 c,
    tti_clock demo_ccch demo_dcch demo_pack demo_alloc (rrc_write_pdu demo_rrc 70 RB_ID_SRB0 (demo_msg [1; 5; 6])) = Ok (r1,
      [C_mac_ue_set_crnti 70 70 c; C_rlc_add_bearer 70 1; C_rlc_add_bearer 70 3; C_pdcp_add_bearer 70 1;
       C_rlc_write_sdu 70 RB_ID_SRB0 [16; 170]]) /\
    tti_clock demo_ccch demo_dcch demo_pack demo_alloc (rrc_write_pdu r1 70 RB_ID_SRB1BIS (demo_msg [2; 7; 9])) = Ok (r2,
      [C_s1ap_initial_ue 70 S_emergency [7; 9] (Some (6, 5))]).
Proof.
  destruct (connection_established demo_ccch demo_dcch demo_pack demo_alloc demo_rrc 70 (rrc_ue_new 70 ue_cfg_zero)
    5 6 mt_access [7; 9] (demo_msg [1; 5; 6]) (demo_msg [2; 7; 9]) (replicate 8 170) [16])
    as (r1 & r2 & c & u2 & H1 & H2 & _); try reflexivity; [vm_compute; congruence|].
  exists r1, r2, c. split; [exact H1|exact H2].
Defined.

Definition demo_waiting : rrc := put_ue demo_rrc 70 ((rrc_ue_new 70 ue_cfg_zero) <| ru_state := RRC_STATE_WAIT_FOR_CON_RECONF_COMPLETE |>).

Lemma connection_released_witness :
  exists r', tti_clock demo_ccch demo_dcch demo_pack demo_alloc (release_complete demo_waiting 70) = Ok (r',
    [C_rlc_clear_buffer 70; C_rlc_write_sdu 70 RB_ID_SRB1BIS [48; 170]; C_mac_ue_rem 70; C_rlc_rem_user 70; C_pdcp_rem_user 70]) /\
    r_users r' = ∅.
Proof.
  destruct (connection_released demo_ccch demo_dcch demo_pack demo_alloc demo_waiting 70
    ((rrc_ue_new 70 ue_cfg_zero) <| ru_state := RRC_STATE_WAIT_FOR_CON_RECONF_COMPLETE |>)) as (r' & H1 & _ & H2);
    [reflexivity..|discriminate|].
  exists r'. split; [exact H1|exact H2].
Defined.

Lemma cause_misreported_witness :
  named_cause mt_access = Some S_mt_access /\
  exists u' s' tmsi, handle_rrc_con_setup_complete ((rrc_ue_new 70 ue_cfg_zero) <| ru_cause := mt_access |>) [7] =
    Ok (u', [C_s1ap_initial_ue 70 s' [7] tmsi]) /\ s' <> S_mt_access.
Proof.
  split; [reflexivity|]. refine (cause_misreported ((rrc_ue_new 70 ue_cfg_zero) <| ru_cause := mt_access |>) [7] S_mt_access _ _);
    [vm_compute; congruence|reflexivity].
Defined.
