(* ===== verification/S1ap.v ===== *)
(** * The S1AP : [class s1ap]

    The contexts of the devices at the core network and the connection to it
    ([sonica_enb/stack/upper/s1ap.cc], [hdr/stack/upper/s1ap.h]); [proc_t] of
    [stack_procedure.h] as far as it is used.  The coding of the messages is
    generated code, the socket and the buffer pool belong to the bundled
    library: their answers are parameters, indexed by the number of questions
    asked so far.  The handover procedure of a user is never launched (its only
    caller is commented out), so that what triggers it has no effect; it is not
    modelled, nor are the identities of cell and network put into each message. *)
From S2P Require Import Prelude SchedTypes MacPdu Rrc.

(** ** Messages *)

(** Messages of the MME, by the fields the handlers read. *)
Inductive s1ap_rx :=
| Rx_dl_nas_transport (enb_id mme_id : Z) (nas : list Z)
| Rx_init_context_setup_request (enb_id mme_id : Z) (csfb : bool)
| Rx_ue_context_release_cmd_pair (enb_id mme_id : Z)
| Rx_ue_context_release_cmd_mme (mme_id : Z)
| Rx_paging
| Rx_erab_setup_request (enb_id mme_id : Z)
| Rx_ue_context_mod_request (enb_id mme_id : Z) (csfb : bool)
| Rx_s1_setup_resp
| Rx_s1_setup_fail
| Rx_ho_cmd (enb_id mme_id : Z)
| Rx_ho_prep_fail (enb_id mme_id : Z)
| Rx_unhandled.

(** What the socket hands over: a notification, or a message. *)
Inductive sctp_rx := Sctp_notification (shutdown : bool) (bytes : list Z) | Sctp_data (bytes : list Z).
Definition rx_bytes (rx : sctp_rx) : list Z := match rx with Sctp_notification _ bytes | Sctp_data bytes => bytes end.

Inductive release_cause := Cause_given (c : Z) | Cause_cs_fallback.

(** Messages to the MME. *)
Inductive s1ap_tx :=
| Tx_s1_setup_request
| Tx_initial_ue (enb_id : Z) (cause : s1ap_cause) (nas : list Z) (tmsi : option (Z * Z))
| Tx_ul_nas_transport (mme_id enb_id : Z) (nas : list Z)
| Tx_ue_context_release_request (mme_id enb_id : Z) (cause : release_cause)
| Tx_ue_context_release_complete (mme_id enb_id : Z)
| Tx_init_context_setup_resp (mme_id enb_id : Z) (erabs : list (Z * list Z))
| Tx_init_context_setup_fail (mme_id enb_id : Z)
| Tx_erab_setup_resp (mme_id enb_id : Z) (erabs : list (Z * list Z))
| Tx_ue_context_mod_resp (mme_id enb_id : Z)
| Tx_ue_context_mod_fail (mme_id enb_id : Z).

(** What the S1AP does to others. *)
Inductive s1_call :=
| S_sctp (stream_id : Z) (msg : s1ap_tx)
| S_add_mme_socket
| S_rrc_write_dl_info (rnti_ : Z) (nas : list Z)
| S_rrc_release_complete (rnti_ : Z).

(** The requests the RRC answers ([rrc_interface_s1ap]). *)
Class RrcForS1ap := {
  rrc_setup_ue_ctxt : Z -> bool;
  rrc_modify_ue_ctxt : Z -> bool;
  rrc_setup_ue_erabs : Z -> bool
}.
(** This RRC agrees to everything. *)
Definition setup_ue_ctxt (rnti_ : Z) : bool := true.
Definition modify_ue_ctxt (rnti_ : Z) : bool := true.
Definition setup_ue_erabs (rnti_ : Z) : bool := true.
#[export] Instance rrc_for_s1ap : RrcForS1ap := {|
  rrc_setup_ue_ctxt := setup_ue_ctxt; rrc_modify_ue_ctxt := modify_ue_ctxt; rrc_setup_ue_erabs := setup_ue_erabs |}.

(** ** State *)
Definition SRSLTE_INVALID_RNTI : Z := 0.
Definition NONUE_STREAM_ID : Z := 0.

(** [s1ap::ue] with its [ue_ctxt_t]. *)
Record s1ap_ue := mk_s1ap_ue {
  su_mme_ue_s1ap_id_present : bool;
  su_rnti : Z;
  su_enb_ue_s1ap_id : Z;
  su_mme_ue_s1ap_id : Z;
  su_stream_id : Z;
  su_release_requested : bool
}.
#[export] Instance eta_s1ap_ue : Eta s1ap_ue := {| eta := fun r =>
  mk_s1ap_ue (su_mme_ue_s1ap_id_present r) (su_rnti r) (su_enb_ue_s1ap_id r) (su_mme_ue_s1ap_id r) (su_stream_id r)
    (su_release_requested r) |}.

(** The entries of an [unordered_map], in the order it keeps them. *)
Definition user_list : Type := list (Z * s1ap_ue).

Record s1ap := mk_s1ap {
  s_running : bool;
  s_mme_connected : bool;
  s_next_enb_ue_s1ap_id : Z;
  s_next_ue_stream_id : Z;
  s_users : user_list;
  s_socket : bool;                (* s1ap_socket.is_init() *)
  s_mme_connect_timer : bool;     (* is_running() *)
  s_s1setup_timeout : bool;
  s_s1setup_busy : bool;          (* s1setup_proc.is_busy() *)
  s_asked : nat                   (* questions asked of socket and pool so far *)
}.
#[export] Instance eta_s1ap : Eta s1ap := {| eta := fun r =>
  mk_s1ap (s_running r) (s_mme_connected r) (s_next_enb_ue_s1ap_id r) (s_next_ue_stream_id r) (s_users r) (s_socket r)
    (s_mme_connect_timer r) (s_s1setup_timeout r) (s_s1setup_busy r) (s_asked r) |}.
Definition s1ap_new : s1ap := mk_s1ap false false 1 1 [] false false false false 0.

Inductive s1ap_status := S1AP_ATTACHING | S1AP_READY | S1AP_ERROR.
Definition s1ap_get_metrics (s : s1ap) : s1ap_status :=
  if negb (s_running s) then S1AP_ERROR else if s_mme_connected s then S1AP_READY else S1AP_ATTACHING.

(** ** The list of users *)
Definition find_if (P : s1ap_ue -> bool) (l : user_list) : option s1ap_ue :=
  match list_find (fun p => P p.2 = true) l with Some (_, p) => Some p.2 | None => None end.

Definition find_ue_rnti (l : user_list) (rnti_ : Z) : option s1ap_ue :=
  if rnti_ =? SRSLTE_INVALID_RNTI then None else find_if (fun u => su_rnti u =? rnti_) l.
Definition find_ue_enbid (l : user_list) (enbid : Z) : option s1ap_ue :=
  match list_find (fun p => p.1 = enbid) l with Some (_, p) => Some p.2 | None => None end.
Definition find_ue_mmeid (l : user_list) (mmeid : Z) : option s1ap_ue :=
  find_if (fun u => su_mme_ue_s1ap_id_present u && (su_mme_ue_s1ap_id u =? mmeid)) l.

Definition user_erase (l : user_list) (u : s1ap_ue) : user_list := filter (fun p => p.1 <> su_enb_ue_s1ap_id u) l.

(** A change of the object a pointer of the list leads to. *)
Definition user_put (l : user_list) (u : s1ap_ue) : user_list :=
  (fun p => if p.1 =? su_enb_ue_s1ap_id u then (p.1, u) else p) <$> l.

Definition outcome : Type := bool * s1ap * list s1_call.
Definition puts (s : s1ap) (l : user_list) : s1ap := s <| s_users := l |>.
Definition asked (s : s1ap) : s1ap := s <| s_asked := S (s_asked s) |>.

(** [s1ap::ue::ue] *)
Definition s1ap_ue_new (s : s1ap) (rnti_ : Z) : s1ap_ue * s1ap :=
  (mk_s1ap_ue false rnti_ (s_next_enb_ue_s1ap_id s) 0 (s_next_ue_stream_id s) false,
   s <| s_next_enb_ue_s1ap_id := u32 (s_next_enb_ue_s1ap_id s + 1) |>).

Section S1ap.
Context `{RrcForS1ap}.
(** Whether the pool has a buffer, whether [sctp_sendmsg] sends, whether the
    socket connects; how the container looks with a new entry in it; the
    decoder; and the address of the GTP interface. *)
Context (allocate sendmsg connects : nat -> bool) (table_insert : user_list -> Z * s1ap_ue -> user_list)
        (unpack : list Z -> option s1ap_rx) (gtp_bind_addr : list Z).

Definition user_insert (l : user_list) (u : s1ap_ue) : user_list := table_insert l (su_enb_ue_s1ap_id u, u).

(** [user_list::add_user]: the list with the user, if it is new. *)
Definition s1ap_add_user (l : user_list) (u : s1ap_ue) : option user_list :=
  if bool_decide (is_Some (find_ue_rnti l (su_rnti u))) then None
  else if bool_decide (is_Some (find_ue_enbid l (su_enb_ue_s1ap_id u))) then None
  else if bool_decide (is_Some (find_ue_mmeid l (su_mme_ue_s1ap_id u))) then None
  else Some (user_insert l u).

(** ** Sending *)
Definition sctp_send_s1ap_pdu (s : s1ap) (m : s1ap_tx) (rnti_ : Z) : res outcome :=
  let have := allocate (s_asked s) in
  let s := asked s in
  if negb have then Ok (false, s, []) else
  streamid ← (if rnti_ =? 0 then Ok NONUE_STREAM_ID
              else match find_ue_rnti (s_users s) rnti_ with Some u => Ok (su_stream_id u) | None => UB NullDeref end);
  Ok (sendmsg (s_asked s), asked s, [S_sctp streamid m]).

(** Each sender of [s1ap::ue] starts with this test. *)
Definition ue_send (s : s1ap) (u : s1ap_ue) (m : s1ap_tx) : res outcome :=
  if negb (s_mme_connected s) then Ok (false, s, []) else sctp_send_s1ap_pdu s m (su_rnti u).

Definition send_initialuemessage (s : s1ap) (u : s1ap_ue) (cause : s1ap_cause) (nas : list Z) (tmsi : option (Z * Z)) :=
  ue_send s u (Tx_initial_ue (su_enb_ue_s1ap_id u) cause nas tmsi).
Definition send_ulnastransport (s : s1ap) (u : s1ap_ue) (nas : list Z) :=
  ue_send s u (Tx_ul_nas_transport (su_mme_ue_s1ap_id u) (su_enb_ue_s1ap_id u) nas).
Definition send_uectxtreleasecomplete (s : s1ap) (u : s1ap_ue) :=
  ue_send s u (Tx_ue_context_release_complete (su_mme_ue_s1ap_id u) (su_enb_ue_s1ap_id u)).
Definition send_initial_ctxt_setup_failure (s : s1ap) (u : s1ap_ue) :=
  ue_send s u (Tx_init_context_setup_fail (su_mme_ue_s1ap_id u) (su_enb_ue_s1ap_id u)).
Definition send_uectxtmodifyresp (s : s1ap) (u : s1ap_ue) :=
  ue_send s u (Tx_ue_context_mod_resp (su_mme_ue_s1ap_id u) (su_enb_ue_s1ap_id u)).
Definition send_uectxtmodifyfailure (s : s1ap) (u : s1ap_ue) :=
  ue_send s u (Tx_ue_context_mod_fail (su_mme_ue_s1ap_id u) (su_enb_ue_s1ap_id u)).

(** The address of each bearer is filled in, last byte first. *)
Definition with_address (erabs : list Z) : list (Z * list Z) := (fun e => (e, reverse gtp_bind_addr)) <$> erabs.
Definition send_initial_ctxt_setup_response (s : s1ap) (u : s1ap_ue) (erabs : list Z) :=
  ue_send s u (Tx_init_context_setup_resp (su_mme_ue_s1ap_id u) (su_enb_ue_s1ap_id u) (with_address erabs)).
Definition send_erab_setup_response (s : s1ap) (u : s1ap_ue) (erabs : list Z) :=
  ue_send s u (Tx_erab_setup_resp (su_mme_ue_s1ap_id u) (su_enb_ue_s1ap_id u) (with_address erabs)).

Definition send_uectxtreleaserequest (s : s1ap) (u : s1ap_ue) (cause : release_cause) : res outcome :=
  if negb (s_mme_connected s) then Ok (false, s, [])
  else if negb (su_mme_ue_s1ap_id_present u) then Ok (false, s, [])
  else
    let s := puts s (user_put (s_users s) (u <| su_release_requested := true |>)) in
    sctp_send_s1ap_pdu s (Tx_ue_context_release_request (su_mme_ue_s1ap_id u) (su_enb_ue_s1ap_id u) cause) (su_rnti u).

(** ** Calls of the RRC *)
Definition initial_ue (s : s1ap) (rnti_ : Z) (cause : s1ap_cause) (nas : list Z) : res (s1ap * list s1_call) :=
  let '(u, s) := s1ap_ue_new s rnti_ in
  match s1ap_add_user (s_users s) u with
  | None => Ok (s, [])
  | Some l => '(_, s, out) ← send_initialuemessage (puts s l) u cause nas None; Ok (s, out)
  end.

(** With an S-TMSI, a user that is there already is used again. *)
Definition initial_ue_tmsi (s : s1ap) (rnti_ : Z) (cause : s1ap_cause) (nas : list Z) (m_tmsi_ mmec_ : Z) :
    res (s1ap * list s1_call) :=
  let '(u, s) := s1ap_ue_new s rnti_ in
  match find_ue_rnti (s_users s) rnti_ with
  | Some u => '(_, s, out) ← send_initialuemessage s u cause nas (Some (m_tmsi_, mmec_)); Ok (s, out)
  | None =>
      match s1ap_add_user (s_users s) u with
      | None => Ok (s, [])
      | Some l => '(_, s, out) ← send_initialuemessage (puts s l) u cause nas (Some (m_tmsi_, mmec_)); Ok (s, out)
      end
  end.

Definition s1ap_write_pdu (s : s1ap) (rnti_ : Z) (nas : list Z) : res (s1ap * list s1_call) :=
  match find_ue_rnti (s_users s) rnti_ with
  | None => Ok (s, [])
  | Some u => '(_, s, out) ← send_ulnastransport s u nas; Ok (s, out)
  end.

Definition user_release (s : s1ap) (rnti_ : Z) (cause : Z) : res outcome :=
  match find_ue_rnti (s_users s) rnti_ with
  | None => Ok (false, s, [])
  | Some u =>
      if su_release_requested u then Ok (false, puts s (user_erase (s_users s) u), [S_rrc_release_complete rnti_])
      else if su_mme_ue_s1ap_id_present u then send_uectxtreleaserequest s u (Cause_given cause)
      else Ok (true, s, [])
  end.

Definition user_exists (s : s1ap) (rnti_ : Z) : bool := bool_decide (is_Some (find_ue_rnti (s_users s) rnti_)).

Definition ue_ctxt_setup_complete (s : s1ap) (rnti_ : Z) (erabs : list Z) : res (s1ap * list s1_call) :=
  match find_ue_rnti (s_users s) rnti_ with
  | None => Ok (s, [])
  | Some u =>
      '(_, s, out) ← (if Z.of_nat (length erabs) >? 0 then send_initial_ctxt_setup_response s u erabs
                      else send_initial_ctxt_setup_failure s u);
      Ok (s, out)
  end.

Definition ue_erab_setup_complete (s : s1ap) (rnti_ : Z) (erabs : list Z) : res (s1ap * list s1_call) :=
  match find_ue_rnti (s_users s) rnti_ with
  | None => Ok (s, [])
  | Some u => '(_, s, out) ← send_erab_setup_response s u erabs; Ok (s, out)
  end.

(** ** The connection to the MME *)
Inductive proc_outcome := Yield | Success | Error.

(** [then]: the socket is closed when the procedure fails. *)
Definition s1setup_then (s : s1ap) (is_error : bool) : s1ap := if is_error then s <| s_socket := false |> else s.

(** [proc_base_t::handle_outcome] *)
Definition handle_outcome (s : s1ap) (o : proc_outcome) : s1ap :=
  match o with
  | Yield => s
  | Success => (s1setup_then s false) <| s_s1setup_busy := false |>
  | Error => (s1setup_then s true) <| s_s1setup_busy := false |>
  end.

Definition connect_mme (s : s1ap) : outcome :=
  let ok := connects (s_asked s) in
  let s := asked s in
  if ok then (true, s <| s_socket := true |>, [S_add_mme_socket]) else (false, s, []).

Definition setup_s1 (s : s1ap) : res outcome := sctp_send_s1ap_pdu s Tx_s1_setup_request 0.

Definition start_mme_connection (s : s1ap) : res (proc_outcome * s1ap * list s1_call) :=
  if negb (s_running s) then Ok (Error, s, [])
  else if s_mme_connected s then Ok (Success, s, [])
  else
    let '(ok, s, out) := connect_mme s in
    if negb ok then Ok (Error, s <| s_mme_connect_timer := true |>, out) else
    '(ok, s, out') ← setup_s1 s;
    if negb ok then Ok (Error, s <| s_running := false |>, out ++ out')
    else Ok (Yield, s <| s_s1setup_timeout := true |>, out ++ out').

(** [proc_t::launch] and [proc_t::trigger] *)
Definition s1setup_launch (s : s1ap) : res outcome :=
  if s_s1setup_busy s then Ok (false, s, []) else
  '(o, s, out) ← start_mme_connection (s <| s_s1setup_busy := true |>);
  Ok (match o with Error => false | _ => true end, handle_outcome s o, out).

Definition s1setup_react (s : s1ap) (success : bool) : proc_outcome * s1ap :=
  let s := if s_s1setup_timeout s then s <| s_s1setup_timeout := false |> else s in
  (if success then Success else Error, s).

Definition s1setup_trigger (s : s1ap) (success : bool) : s1ap :=
  if s_s1setup_busy s then let '(o, s) := s1setup_react s success in handle_outcome s o else s.

Definition s1ap_init (s : s1ap) : res (s1ap * list s1_call) :=
  '(_, s, out) ← s1setup_launch (s <| s_running := true |>); Ok (s, out).
Definition s1ap_stop (s : s1ap) : s1ap := s <| s_running := false |> <| s_socket := false |>.

(** The two timers; only one that runs can expire, and then it no longer runs. *)
Definition mme_connect_expired (s : s1ap) : res (s1ap * list s1_call) :=
  if s_mme_connect_timer s then '(_, s, out) ← s1setup_launch (s <| s_mme_connect_timer := false |>); Ok (s, out)
  else Ok (s, []).
Definition s1setup_timeout_expired (s : s1ap) : s1ap :=
  if s_s1setup_timeout s then s1setup_trigger (s <| s_s1setup_timeout := false |>) false else s.

(** ** Messages of the MME *)
Definition find_s1apmsg_user (s : s1ap) (enb_id mme_id : Z) : option s1ap_ue * s1ap :=
  match find_ue_enbid (s_users s) enb_id with
  | None => (None, s)
  | Some u =>
      let u := u <| su_mme_ue_s1ap_id_present := true |> <| su_mme_ue_s1ap_id := mme_id |> in
      (Some u, puts s (user_put (s_users s) u))
  end.

(** Most handlers look the user up and give up when it is not there. *)
Definition with_user (s : s1ap) (enb_id mme_id : Z) (f : s1ap -> s1ap_ue -> res outcome) : res outcome :=
  match find_s1apmsg_user s enb_id mme_id with
  | (None, s) => Ok (false, s, [])
  | (Some u, s) => f s u
  end.

Definition handle_dlnastransport (s : s1ap) (enb_id mme_id : Z) (nas : list Z) : res outcome :=
  with_user s enb_id mme_id (fun s u =>
    let have := allocate (s_asked s) in
    let s := asked s in
    if negb have then Ok (false, s, [])
    else ub_unless (Z.of_nat (length nas) <=? BUFFER_ROOM) OobWrite (
      Ok (true, s, [S_rrc_write_dl_info (su_rnti u) nas]))).

(** The answer to a fallback indication, whatever comes of it. *)
Definition cs_fallback (s : s1ap) (u : s1ap_ue) (csfb : bool) : res (s1ap * list s1_call) :=
  if csfb then '(_, s, out) ← send_uectxtreleaserequest s u Cause_cs_fallback; Ok (s, out) else Ok (s, []).

Definition handle_initialctxtsetuprequest (s : s1ap) (enb_id mme_id : Z) (csfb : bool) : res outcome :=
  with_user s enb_id mme_id (fun s u =>
    if negb (rrc_setup_ue_ctxt (su_rnti u)) then Ok (false, s, [])
    else '(s, out) ← cs_fallback s u csfb; Ok (true, s, out)).

Definition handle_erabsetuprequest (s : s1ap) (enb_id mme_id : Z) : res outcome :=
  with_user s enb_id mme_id (fun s u => Ok (rrc_setup_ue_erabs (su_rnti u), s, [])).

Definition handle_uecontextmodifyrequest (s : s1ap) (enb_id mme_id : Z) (csfb : bool) : res outcome :=
  with_user s enb_id mme_id (fun s u =>
    if negb (rrc_modify_ue_ctxt (su_rnti u)) then '(_, s, out) ← send_uectxtmodifyfailure s u; Ok (true, s, out)
    else
      '(_, s, out) ← send_uectxtmodifyresp s u;
      '(s, out') ← cs_fallback s u csfb;
      Ok (true, s, out ++ out')).

(** The end of [handle_uectxtreleasecommand]; the answer of [release_erabs] is
    not looked at. *)
Definition release_ue (s : s1ap) (u : s1ap_ue) : res outcome :=
  '(_, s, out) ← send_uectxtreleasecomplete s u;
  Ok (true, puts s (user_erase (s_users s) u), out ++ [S_rrc_release_complete (su_rnti u)]).

Definition handle_uectxtreleasecommand_pair (s : s1ap) (enb_id mme_id : Z) : res outcome :=
  with_user s enb_id mme_id release_ue.
Definition handle_uectxtreleasecommand_mme (s : s1ap) (mme_id : Z) : res outcome :=
  match find_ue_mmeid (s_users s) mme_id with None => Ok (false, s, []) | Some u => release_ue s u end.

Definition handle_s1setupresponse (s : s1ap) : res outcome :=
  Ok (true, s1setup_trigger (s <| s_mme_connected := true |>) true, []).
Definition handle_ho (s : s1ap) (enb_id mme_id : Z) : res outcome := with_user s enb_id mme_id (fun s _ => Ok (true, s, [])).

(** Nothing is done about either. *)
Definition handle_paging (s : s1ap) : res outcome := Ok (true, s, []).
Definition handle_s1setupfailure (s : s1ap) : res outcome := Ok (true, s, []).

Definition handle_s1ap_msg (s : s1ap) (m : s1ap_rx) : res outcome :=
  match m with
  | Rx_dl_nas_transport e i nas => handle_dlnastransport s e i nas
  | Rx_init_context_setup_request e i csfb => handle_initialctxtsetuprequest s e i csfb
  | Rx_ue_context_release_cmd_pair e i => handle_uectxtreleasecommand_pair s e i
  | Rx_ue_context_release_cmd_mme i => handle_uectxtreleasecommand_mme s i
  | Rx_paging => handle_paging s
  | Rx_erab_setup_request e i => handle_erabsetuprequest s e i
  | Rx_ue_context_mod_request e i csfb => handle_uecontextmodifyrequest s e i csfb
  | Rx_s1_setup_resp => handle_s1setupresponse s
  | Rx_s1_setup_fail => handle_s1setupfailure s
  | Rx_ho_cmd e i | Rx_ho_prep_fail e i => handle_ho s e i
  | Rx_unhandled => Ok (true, s, [])
  end.

Definition handle_s1ap_rx_pdu (s : s1ap) (bytes : list Z) : res outcome :=
  match unpack bytes with None => Ok (false, s, []) | Some m => handle_s1ap_msg s m end.

(** Without a socket the connection is set up anew and the message is not
    looked at; a notification other than of a shutdown is decoded as if it were
    a message. *)
Definition handle_mme_rx_msg (s : s1ap) (rx : sctp_rx) : res outcome :=
  let s := match rx with
           | Sctp_notification shutdown _ => if shutdown then s <| s_socket := false |> else s
           | Sctp_data bytes => if Z.of_nat (length bytes) =? 0 then s <| s_socket := false |> else s
           end in
  if negb (s_socket s) then
    '(_, s, out) ← s1setup_launch (s <| s_mme_connected := false |>); Ok (false, s, out)
  else
    '(_, s, out) ← handle_s1ap_rx_pdu s (rx_bytes rx);
    Ok (true, s, out).

(** ** Every call there is *)
Inductive s1_op :=
| Op_init | Op_stop
| Op_initial_ue (rnti_ : Z) (cause : s1ap_cause) (nas : list Z)
| Op_initial_ue_tmsi (rnti_ : Z) (cause : s1ap_cause) (nas : list Z) (m_tmsi_ mmec_ : Z)
| Op_write_pdu (rnti_ : Z) (nas : list Z)
| Op_user_release (rnti_ cause : Z)
| Op_ue_ctxt_setup_complete (rnti_ : Z) (erabs : list Z)
| Op_ue_erab_setup_complete (rnti_ : Z) (erabs : list Z)
| Op_mme_rx (rx : sctp_rx)
| Op_mme_connect_expired
| Op_s1setup_timeout_expired.

Definition s1_do (s : s1ap) (op : s1_op) : res (s1ap * list s1_call) :=
  match op with
  | Op_init => s1ap_init s
  | Op_stop => Ok (s1ap_stop s, [])
  | Op_initial_ue r c nas => initial_ue s r c nas
  | Op_initial_ue_tmsi r c nas t m => initial_ue_tmsi s r c nas t m
  | Op_write_pdu r nas => s1ap_write_pdu s r nas
  | Op_user_release r c => '(_, s, out) ← user_release s r c; Ok (s, out)
  | Op_ue_ctxt_setup_complete r l => ue_ctxt_setup_complete s r l
  | Op_ue_erab_setup_complete r l => ue_erab_setup_complete s r l
  | Op_mme_rx rx => '(_, s, out) ← handle_mme_rx_msg s rx; Ok (s, out)
  | Op_mme_connect_expired => mme_connect_expired s
  | Op_s1setup_timeout_expired => Ok (s1setup_timeout_expired s, [])
  end.

(** A run, with the calls each operation made. *)
Fixpoint s1_run (s : s1ap) (ops : list s1_op) : res (s1ap * list (list s1_call)) :=
  match ops with
  | [] => Ok (s, [])
  | op :: ops => '(s, out) ← s1_do s op; '(s, outs) ← s1_run s ops; Ok (s, out :: outs)
  end.
End S1ap.
