(* ===== verification/S1apRun.v ===== *)
(** * The S1AP : contexts of devices over runs

    Theorems about [S1ap.v]: the list of users implements a table of contexts,
    no call ever goes wrong, the life of a context, and two ways the connection
    to the core network gets stuck. *)
From S2P Require Import Prelude SchedTypes MacPdu Rrc S1ap.

(** ** The list of users *)
Record users_wf (l : user_list) : Prop := mk_users_wf {
  uw_key : forall k u, (k, u) ∈ l -> su_enb_ue_s1ap_id u = k;
  uw_keys : NoDup l.*1;
  uw_rnti : forall k1 u1 k2 u2, (k1, u1) ∈ l -> (k2, u2) ∈ l -> su_rnti u1 = su_rnti u2 -> su_rnti u1 <> SRSLTE_INVALID_RNTI -> k1 = k2
}.

Lemma users_unique l k u1 u2 : users_wf l -> (k, u1) ∈ l -> (k, u2) ∈ l -> u1 = u2.
Proof.
  intros Hw H1 H2. apply (elem_of_list_to_map_1 (M := gmap Z)) in H1; [|apply (uw_keys _ Hw)].
  apply (elem_of_list_to_map_1 (M := gmap Z)) in H2; [|apply (uw_keys _ Hw)]. congruence.
Qed.

Lemma find_if_Some P l u : find_if P l = Some u -> exists k, (k, u) ∈ l /\ P u = true.
Proof.
  unfold find_if. destruct (list_find _ l) as [[i [k v]]|] eqn:E; [|done]. intros [= <-].
  apply list_find_Some in E as (E & HP & _). exists k. split; [by eapply list_elem_of_lookup_2|done].
Qed.

Lemma find_if_None P l k u : find_if P l = None -> (k, u) ∈ l -> P u = false.
Proof.
  unfold find_if. destruct (list_find _ l) as [[i p]|] eqn:E; [done|]. intros _ Hin.
  apply list_find_None in E. rewrite Forall_forall in E. specialize (E _ Hin). cbn in E. by destruct (P u).
Qed.

Lemma find_ue_rnti_Some l r u : users_wf l ->
  find_ue_rnti l r = Some u <-> r <> SRSLTE_INVALID_RNTI /\ su_rnti u = r /\ (su_enb_ue_s1ap_id u, u) ∈ l.
Proof.
  intros Hw. unfold find_ue_rnti. destruct (Z.eqb_spec r SRSLTE_INVALID_RNTI) as [->|Hr]; [naive_solver|]. split.
  - intros (k & Hin & Hu)%find_if_Some. rewrite (uw_key _ Hw _ _ Hin). split_and!; [done|lia|done].
  - intros (_ & <- & Hin). destruct (find_if _ l) as [v|] eqn:E.
    + apply find_if_Some in E as (k & Hv & Hvr). f_equal.
      assert (k = su_enb_ue_s1ap_id u) as -> by (eapply (uw_rnti _ Hw); [exact Hv|exact Hin|lia|lia]).
      by eapply users_unique.
    + eapply find_if_None in E; [|exact Hin]. lia.
Qed.

Lemma find_ue_enbid_Some l k u : users_wf l -> find_ue_enbid l k = Some u <-> (k, u) ∈ l.
Proof.
  intros Hw. unfold find_ue_enbid. destruct (list_find _ l) as [[i [k' v]]|] eqn:E; cbn.
  - apply list_find_Some in E as (E & Hk & _). cbn in Hk. subst k'. apply list_elem_of_lookup_2 in E. split.
    + by intros [= <-].
    + intros H. f_equal. by eapply users_unique.
  - apply list_find_None in E. rewrite Forall_forall in E. split; [done|]. intros H. by destruct (E _ H).
Qed.

Lemma elem_of_user_put l u k v : users_wf l ->
  (k, v) ∈ user_put l u <-> ((k = su_enb_ue_s1ap_id u /\ v = u /\ k ∈ l.*1) \/ (k <> su_enb_ue_s1ap_id u /\ (k, v) ∈ l)).
Proof.
  intros Hw. unfold user_put. etrans; [apply list_elem_of_fmap|]. split.
  - intros ([k' v'] & Heq & Hin). cbn in Heq. destruct (Z.eqb_spec k' (su_enb_ue_s1ap_id u)); injection Heq as -> ->; [left|by right].
    split_and!; [done..|]. apply list_elem_of_fmap. by exists (k', v').
  - intros [(-> & -> & Hk)|[Hne Hin]].
    + apply list_elem_of_fmap in Hk as ([k' v'] & Ek & Hin). cbn in Ek. exists (k', v'). split; [|done]. cbn.
      by rewrite <- Ek, Z.eqb_refl.
    + exists (k, v). split; [|done]. cbn. by rewrite (proj2 (Z.eqb_neq _ _) Hne).
Qed.

Lemma user_put_wf l u u0 : users_wf l -> (su_enb_ue_s1ap_id u, u0) ∈ l -> su_rnti u = su_rnti u0 -> users_wf (user_put l u).
Proof.
  intros Hw H0 Hr. split.
  - intros k v. rewrite elem_of_user_put by done. intros [(-> & -> & _)|[_ H]]; [done|by apply (uw_key _ Hw)].
  - unfold user_put. rewrite <- list_fmap_compose. erewrite list_fmap_ext; [apply (uw_keys _ Hw)|].
    intros i [k v] _. cbn. by destruct (_ =? _).
  - intros k1 u1 k2 u2. rewrite !elem_of_user_put by done.
    intros [(-> & -> & _)|[Hn1 H1]] [(-> & -> & _)|[Hn2 H2]] E1 E2; [done| | |by eapply (uw_rnti _ Hw)].
    + eapply (uw_rnti _ Hw); [exact H0|exact H2|congruence..].
    + eapply (uw_rnti _ Hw); [exact H1|exact H0|congruence..].
Qed.

Lemma elem_of_user_erase l u k v : (k, v) ∈ user_erase l u <-> k <> su_enb_ue_s1ap_id u /\ (k, v) ∈ l.
Proof. unfold user_erase. by rewrite list_elem_of_filter. Qed.

Lemma user_erase_wf l u : users_wf l -> users_wf (user_erase l u).
Proof.
  intros Hw. split.
  - intros k v [_ H]%elem_of_user_erase. by apply (uw_key _ Hw).
  - unfold user_erase. apply NoDup_fmap_fst.
    + intros k v1 v2 H1 H2. apply elem_of_user_erase in H1 as [_ H1], H2 as [_ H2]. by eapply users_unique.
    + apply NoDup_filter, (NoDup_fmap_1 fst), (uw_keys _ Hw).
  - intros k1 u1 k2 u2 [_ H1]%elem_of_user_erase [_ H2]%elem_of_user_erase. by apply (uw_rnti _ Hw).
Qed.

(** ** The table of contexts *)

(** What the core network knows of a device: its name here, and the name the
    MME gave it, if it did. *)
Definition ctx_of (u : s1ap_ue) : Z * option Z :=
  (su_rnti u, if su_mme_ue_s1ap_id_present u then Some (su_mme_ue_s1ap_id u) else None).
Definition table (l : user_list) : gmap Z (Z * option Z) := ctx_of <$> list_to_map l.

(** The devices the RRC is told to release. *)
Definition releases (out : list s1_call) : list Z :=
  omap (fun c => match c with S_rrc_release_complete r => Some r | _ => None end) out.

(** What may become of the table in one call: a device not yet known by its name
    is entered, a device gets its name of the MME, or a device is taken out, and
    the RRC is told to release just that one. *)
Inductive ctx_step (m : gmap Z (Z * option Z)) : list Z -> gmap Z (Z * option Z) -> Prop :=
| cs_same : ctx_step m [] m
| cs_attach k r : m !! k = None -> (r <> SRSLTE_INVALID_RNTI -> forall k' i, m !! k' <> Some (r, i)) ->
    ctx_step m [] (<[k := (r, None)]> m)
| cs_named k r i i' : m !! k = Some (r, i) -> ctx_step m [] (<[k := (r, Some i')]> m)
| cs_detach k r i : m !! k = Some (r, i) -> ctx_step m [r] (delete k m).

Lemma lookup_table l k c : users_wf l -> table l !! k = Some c <-> exists u, (k, u) ∈ l /\ ctx_of u = c.
Proof.
  intros Hw. unfold table. rewrite lookup_fmap, fmap_Some. split; intros (u & H & E); exists u; split; try done.
  - by apply elem_of_list_to_map_2 in H.
  - apply elem_of_list_to_map_1; [apply (uw_keys _ Hw)|done].
Qed.

Lemma table_ext l m : users_wf l -> (forall k c, (exists u, (k, u) ∈ l /\ ctx_of u = c) <-> m !! k = Some c) -> table l = m.
Proof.
  intros Hw H. apply map_eq. intros k. apply option_eq. intros c. by rewrite lookup_table, H.
Qed.

Lemma table_put l u u0 : users_wf l -> (su_enb_ue_s1ap_id u, u0) ∈ l -> su_rnti u = su_rnti u0 ->
  table (user_put l u) = <[su_enb_ue_s1ap_id u := ctx_of u]> (table l).
Proof.
  intros Hw H0 Hr. apply table_ext; [by eapply user_put_wf|]. intros k c. rewrite lookup_insert_Some, lookup_table by done.
  setoid_rewrite elem_of_user_put; [|done]. split.
  - intros (v & [(-> & -> & _)|[Hne H]] & E); [by left|right]. split; [done|by exists v].
  - intros [[<- <-]|[Hne (v & H & E)]]; [|exists v; split; [by right|done]].
    exists u. split; [left|done]. split_and!; [done..|]. apply list_elem_of_fmap. by exists (su_enb_ue_s1ap_id u, u0).
Qed.

Lemma table_erase l u : users_wf l -> table (user_erase l u) = delete (su_enb_ue_s1ap_id u) (table l).
Proof.
  intros Hw. apply table_ext; [by apply user_erase_wf|]. intros k c. rewrite lookup_delete_Some, lookup_table by done.
  setoid_rewrite elem_of_user_erase. naive_solver.
Qed.

(** Marking a user as released does not show in the table. *)
Lemma table_requested l u : users_wf l -> (su_enb_ue_s1ap_id u, u) ∈ l ->
  table (user_put l (u <| su_release_requested := true |>)) = table l.
Proof.
  intros Hw H. rewrite (table_put l _ u) by done. apply insert_id. apply lookup_table; [done|]. by exists u.
Qed.

Section Runs.
Context (allocate sendmsg connects : nat -> bool) (table_insert : user_list -> Z * s1ap_ue -> user_list)
        (unpack : list Z -> option s1ap_rx) (gtp_bind_addr : list Z).

(** An [unordered_map] holds what was inserted, in some order. *)
Context (insert_perm : forall l p, table_insert l p ≡ₚ p :: l).

Abbreviation send := (sctp_send_s1ap_pdu allocate sendmsg).
Abbreviation ue_send' := (ue_send allocate sendmsg).
Abbreviation launch := (s1setup_launch allocate sendmsg connects).

Lemma insert_wf l u : users_wf l ->
  (forall k v, (k, v) ∈ l -> k <> su_enb_ue_s1ap_id u) ->
  (su_rnti u <> SRSLTE_INVALID_RNTI -> forall k v, (k, v) ∈ l -> su_rnti v <> su_rnti u) ->
  users_wf (user_insert table_insert l u) /\
  table (user_insert table_insert l u) = <[su_enb_ue_s1ap_id u := ctx_of u]> (table l).
Proof.
  intros Hw Hk Hr. unfold user_insert. pose proof (insert_perm l (su_enb_ue_s1ap_id u, u)) as Hp.
  set (l' := table_insert _ _) in *.
  assert (Hin : forall k v, (k, v) ∈ l' <-> (k = su_enb_ue_s1ap_id u /\ v = u) \/ (k, v) ∈ l).
  { intros k v. rewrite Hp, elem_of_cons. split; (intros [E|E]; [left|by right]); [by injection E|by destruct E as [-> ->]]. }
  assert (Hw' : users_wf l').
  { split.
    - intros k v [[-> ->]|H]%Hin; [done|by apply (uw_key _ Hw)].
    - rewrite Hp. cbn. apply NoDup_cons. split; [|apply (uw_keys _ Hw)].
      intros ([k v] & E & H)%list_elem_of_fmap. by apply (Hk k v H).
    - intros k1 u1 k2 u2 [[-> ->]|H1]%Hin [[-> ->]|H2]%Hin E1 E2; [done| | |by eapply (uw_rnti _ Hw)].
      + by destruct (Hr E2 _ _ H2).
      + rewrite E1 in E2. by destruct (Hr E2 _ _ H1). }
  split; [done|]. apply table_ext; [done|]. intros k c. rewrite lookup_insert_Some, lookup_table by done.
  setoid_rewrite Hin. split.
  - intros (v & [[-> ->]|H] & E); [by left|right]. split; [|by exists v]. intros E'. by apply (Hk _ _ H).
  - intros [[<- <-]|[Hne (v & H & E)]]; [exists u; split; [by left|done]|exists v; split; [by right|done]].
Qed.

Lemma add_user_ok l u l' : users_wf l -> su_mme_ue_s1ap_id_present u = false -> s1ap_add_user table_insert l u = Some l' ->
  users_wf l' /\ (su_enb_ue_s1ap_id u, u) ∈ l' /\ ctx_step (table l) [] (table l').
Proof.
  intros Hw Hu. unfold s1ap_add_user. case_bool_decide as H1; [done|]. case_bool_decide as H2; [done|].
  case_bool_decide as H3; [done|]. intros [= <-].
  assert (Hk : forall k v, (k, v) ∈ l -> k <> su_enb_ue_s1ap_id u).
  { intros k v H ->. apply H2. exists v. by apply find_ue_enbid_Some. }
  assert (Hr : su_rnti u <> SRSLTE_INVALID_RNTI -> forall k v, (k, v) ∈ l -> su_rnti v <> su_rnti u).
  { intros Hne k v H E. apply H1. exists v. apply find_ue_rnti_Some; [done|]. by rewrite (uw_key _ Hw _ _ H). }
  destruct (insert_wf l u Hw Hk Hr) as [Hw' ->]. split_and!; [done| |].
  - unfold user_insert. rewrite insert_perm. apply list_elem_of_here.
  - unfold ctx_of. rewrite Hu. apply cs_attach.
    + apply eq_None_not_Some. intros [c Hc]. apply lookup_table in Hc as (v & Hv & _); [|done]. by apply (Hk _ _ Hv).
    + intros Hne k i. rewrite lookup_table by done. intros (v & H & [= E _]). by apply (Hr Hne _ _ H).
Qed.

(** ** Sending never goes wrong *)
Lemma send_ok s m r : r = 0 \/ is_Some (find_ue_rnti (s_users s) r) ->
  exists b n out, send s m r = Ok (b, s <| s_asked := n |>, out) /\ releases out = [].
Proof.
  intros H. unfold sctp_send_s1ap_pdu. destruct (allocate (s_asked s)); cbn [negb].
  2:{ by eexists _, _, _. }
  destruct (Z.eqb_spec r 0); [by eexists _, _, _|]. destruct H as [|[u Hu]]; [done|]. cbn. rewrite Hu.
  by eexists _, _, _.
Qed.

Lemma user_found l u : users_wf l -> (su_enb_ue_s1ap_id u, u) ∈ l -> su_rnti u = 0 \/ is_Some (find_ue_rnti l (su_rnti u)).
Proof.
  intros Hw H. destruct (decide (su_rnti u = 0)) as [->|Hne]; [by left|right]. exists u. by apply find_ue_rnti_Some.
Qed.

Lemma ue_send_ok s u m : users_wf (s_users s) -> (su_enb_ue_s1ap_id u, u) ∈ s_users s ->
  exists b n out, ue_send' s u m = Ok (b, s <| s_asked := n |>, out) /\ releases out = [].
Proof.
  intros Hw Hu. unfold ue_send. destruct (s_mme_connected s); [apply send_ok, user_found; done|].
  exists false, (s_asked s), []. by destruct s.
Qed.

(** ** Every call is one step of the table *)
Definition stepped (s s' : s1ap) (out : list s1_call) : Prop :=
  users_wf (s_users s') /\ ctx_step (table (s_users s)) (releases out) (table (s_users s')).
Definition good (s : s1ap) (m : res outcome) : Prop := exists b s' out, m = Ok (b, s', out) /\ stepped s s' out.
Definition good_call (s : s1ap) (m : res (s1ap * list s1_call)) : Prop := exists s' out, m = Ok (s', out) /\ stepped s s' out.

Lemma stepped_same s s' out : users_wf (s_users s) -> s_users s' = s_users s -> releases out = [] -> stepped s s' out.
Proof. intros Hw E Ho. unfold stepped. rewrite E, Ho. split; [done|apply cs_same]. Qed.

Lemma good_drop s m : good s m -> good_call s ('(_, s, out) ← m; Ok (s, out)).
Proof. intros (b & s' & out & -> & H). by exists s', out. Qed.

Lemma good_send s u m : users_wf (s_users s) -> (su_enb_ue_s1ap_id u, u) ∈ s_users s -> good s (ue_send' s u m).
Proof.
  intros Hw Hu. destruct (ue_send_ok s u m Hw Hu) as (b & n & out & -> & Ho). eexists _, _, _. split; [done|].
  by apply stepped_same.
Qed.

(** Sending from a list that came about in a step. *)
Lemma good_send_from s s1 u m : users_wf (s_users s1) -> (su_enb_ue_s1ap_id u, u) ∈ s_users s1 ->
  ctx_step (table (s_users s)) [] (table (s_users s1)) -> good s (ue_send' s1 u m).
Proof.
  intros Hw Hu Hs. destruct (ue_send_ok s1 u m Hw Hu) as (b & n & out & -> & Ho). eexists _, _, _. split; [done|].
  split; [done|]. by rewrite Ho.
Qed.

Lemma good_release_request s u c : users_wf (s_users s) -> (su_enb_ue_s1ap_id u, u) ∈ s_users s ->
  exists b s' out, send_uectxtreleaserequest allocate sendmsg s u c = Ok (b, s', out) /\ releases out = [] /\
    users_wf (s_users s') /\ table (s_users s') = table (s_users s).
Proof.
  intros Hw Hu. unfold send_uectxtreleaserequest. destruct (s_mme_connected s); [|by eexists _, _, _].
  destruct (su_mme_ue_s1ap_id_present u) eqn:Hp; [|by eexists _, _, _]. cbn [negb]. cbv zeta.
  set (u' := u <| su_release_requested := true |>). set (s1 := puts s _).
  assert (Hw1 : users_wf (s_users s1)) by by apply (user_put_wf _ u' u).
  assert (Hu1 : (su_enb_ue_s1ap_id u', u') ∈ s_users s1).
  { apply elem_of_user_put; [done|]. left. split_and!; [done..|]. apply list_elem_of_fmap. by exists (su_enb_ue_s1ap_id u, u). }
  destruct (send_ok s1 (Tx_ue_context_release_request (su_mme_ue_s1ap_id u) (su_enb_ue_s1ap_id u) c) (su_rnti u))
    as (b & n & out & -> & Ho); [by apply (user_found _ u')|].
  eexists _, _, _. split; [done|]. split_and!; [done..|]. by apply table_requested.
Qed.

Lemma rnti_user s r u : users_wf (s_users s) -> find_ue_rnti (s_users s) r = Some u -> (su_enb_ue_s1ap_id u, u) ∈ s_users s.
Proof. intros Hw Hf. by apply find_ue_rnti_Some in Hf as (_ & _ & ?). Qed.

Lemma initial_good s r c nas : users_wf (s_users s) -> good_call s (initial_ue allocate sendmsg table_insert s r c nas).
Proof.
  intros Hw. unfold initial_ue, s1ap_ue_new. set (s0 := s <| s_next_enb_ue_s1ap_id := _ |>).
  destruct (s1ap_add_user _ _ _) as [l|] eqn:E; [|eexists _, _; split; [done|by apply stepped_same]].
  apply add_user_ok in E as (Hl & Hin & Hs); [|done|done]. by apply good_drop, good_send_from.
Qed.

Lemma initial_tmsi_good s r c nas t m : users_wf (s_users s) ->
  good_call s (initial_ue_tmsi allocate sendmsg table_insert s r c nas t m).
Proof.
  intros Hw. unfold initial_ue_tmsi, s1ap_ue_new. set (s0 := s <| s_next_enb_ue_s1ap_id := _ |>).
  destruct (find_ue_rnti _ r) as [u|] eqn:Ef.
  - apply good_drop, good_send_from; [done|by eapply rnti_user|apply cs_same].
  - destruct (s1ap_add_user _ _ _) as [l|] eqn:E; [|eexists _, _; split; [done|by apply stepped_same]].
    apply add_user_ok in E as (Hl & Hin & Hs); [|done|done]. by apply good_drop, good_send_from.
Qed.

Lemma user_release_good s r c : users_wf (s_users s) -> good s (user_release allocate sendmsg s r c).
Proof.
  intros Hw. unfold user_release. destruct (find_ue_rnti _ r) as [u|] eqn:Ef.
  2:{ eexists _, _, _. split; [done|by apply stepped_same]. }
  pose proof (rnti_user _ _ _ Hw Ef) as Hu. apply find_ue_rnti_Some in Ef as (_ & <- & _); [|done].
  destruct (su_release_requested u).
  { eexists _, _, _. split; [done|]. split; [by apply user_erase_wf|].
    change (ctx_step (table (s_users s)) [su_rnti u] (table (user_erase (s_users s) u))). rewrite table_erase by done.
    eapply cs_detach. apply lookup_table; [done|]. by exists u. }
  destruct (su_mme_ue_s1ap_id_present u); [|eexists _, _, _; split; [done|by apply stepped_same]].
  destruct (good_release_request s u (Cause_given c) Hw Hu) as (b & s' & out & -> & Ho & Hw' & Ht).
  eexists _, _, _. split; [done|]. split; [done|]. rewrite Ho, Ht. apply cs_same.
Qed.

(** The connection of the procedure touches no user. *)
Lemma launch_ok s : exists b s' out, launch s = Ok (b, s', out) /\ s_users s' = s_users s /\ releases out = [].
Proof.
  unfold s1setup_launch, start_mme_connection, connect_mme, setup_s1. destruct (s_s1setup_busy s); [by eexists _, _, _|].
  cbn. destruct (s_running s); [|by eexists _, _, _]. destruct (s_mme_connected s); [by eexists _, _, _|]. cbn.
  destruct (connects (s_asked s)); [|by eexists _, _, _]. cbn.
  match goal with |- context [sctp_send_s1ap_pdu _ _ ?s1 ?m ?r] =>
    destruct (send_ok s1 m r) as (b & n & out & -> & Ho); [by left|] end.
  cbn. destruct b; eexists _, _, _; (split; [done|]); by split.
Qed.

Lemma launch_good s : users_wf (s_users s) -> forall s0, s_users s0 = s_users s -> good s (launch s0).
Proof.
  intros Hw s0 E. destruct (launch_ok s0) as (b & s' & out & -> & E' & Ho). eexists _, _, _. split; [done|].
  apply stepped_same; [done|congruence|done].
Qed.

Lemma trigger_users s b : s_users (s1setup_trigger s b) = s_users s.
Proof.
  unfold s1setup_trigger, s1setup_react. destruct (s_s1setup_busy s); [|done].
  destruct (s_s1setup_timeout s), b; done.
Qed.

(** What the handlers do with the user they found: nothing to the table, or they
    take the user out. *)
Definition served (s : s1ap) (u : s1ap_ue) (m : res outcome) : Prop :=
  exists b s' out, m = Ok (b, s', out) /\ users_wf (s_users s') /\
    ((releases out = [] /\ table (s_users s') = table (s_users s)) \/
     (releases out = [su_rnti u] /\ table (s_users s') = delete (su_enb_ue_s1ap_id u) (table (s_users s)))).

Lemma served_send s u m : users_wf (s_users s) -> (su_enb_ue_s1ap_id u, u) ∈ s_users s -> served s u (ue_send' s u m).
Proof.
  intros Hw Hu. destruct (ue_send_ok s u m Hw Hu) as (b & n & out & -> & Ho). eexists _, _, _. split; [done|].
  split; [done|by left].
Qed.

Lemma with_user_good s e i f : users_wf (s_users s) ->
  (forall s1 u, users_wf (s_users s1) -> (su_enb_ue_s1ap_id u, u) ∈ s_users s1 -> served s1 u (f s1 u)) ->
  good s (with_user s e i f).
Proof.
  intros Hw Hf. unfold with_user, find_s1apmsg_user. destruct (find_ue_enbid (s_users s) e) as [u|] eqn:E.
  2:{ eexists _, _, _. split; [done|by apply stepped_same]. }
  apply find_ue_enbid_Some in E; [|done]. pose proof (uw_key _ Hw _ _ E) as Ek. subst e.
  set (u' := u <| su_mme_ue_s1ap_id_present := true |> <| su_mme_ue_s1ap_id := i |>). set (s1 := puts s _).
  assert (Hw1 : users_wf (s_users s1)) by by apply (user_put_wf _ u' u).
  assert (Hu1 : (su_enb_ue_s1ap_id u', u') ∈ s_users s1).
  { apply elem_of_user_put; [done|]. left. split_and!; [done..|]. apply list_elem_of_fmap. by exists (su_enb_ue_s1ap_id u, u). }
  assert (Ht : table (s_users s1) = <[su_enb_ue_s1ap_id u := (su_rnti u, Some i)]> (table (s_users s))) by by apply (table_put _ u' u).
  assert (H0 : table (s_users s) !! su_enb_ue_s1ap_id u = Some (ctx_of u)) by (apply lookup_table; [done|by exists u]).
  destruct (Hf s1 u' Hw1 Hu1) as (b & s' & out & -> & Hw' & Hs). eexists _, _, _. split; [done|]. split; [done|].
  destruct Hs as [[-> ->]|[-> ->]]; rewrite Ht.
  - eapply cs_named. exact H0.
  - change (su_enb_ue_s1ap_id u') with (su_enb_ue_s1ap_id u). rewrite delete_insert_eq. eapply cs_detach. exact H0.
Qed.

Lemma release_ue_served s u : users_wf (s_users s) -> (su_enb_ue_s1ap_id u, u) ∈ s_users s ->
  served s u (release_ue allocate sendmsg s u).
Proof.
  intros Hw Hu. unfold release_ue, send_uectxtreleasecomplete.
  destruct (ue_send_ok s u (Tx_ue_context_release_complete (su_mme_ue_s1ap_id u) (su_enb_ue_s1ap_id u)) Hw Hu)
    as (b & n & out & -> & Ho). rewrite bind_ok_l. eexists _, _, _. split; [done|]. split; [by apply user_erase_wf|]. right. split.
  - unfold releases in *. by rewrite omap_app, Ho.
  - by apply table_erase.
Qed.

Lemma cs_fallback_ok s u csfb : users_wf (s_users s) -> (su_enb_ue_s1ap_id u, u) ∈ s_users s ->
  exists s' out, cs_fallback allocate sendmsg s u csfb = Ok (s', out) /\ releases out = [] /\
    users_wf (s_users s') /\ table (s_users s') = table (s_users s).
Proof.
  intros Hw Hu. unfold cs_fallback. destruct csfb; [|by eexists _, _].
  destruct (good_release_request s u Cause_cs_fallback Hw Hu) as (b & s' & out & -> & H). eexists _, _. by split; [done|].
Qed.

Lemma handle_init_ctxt_good s e i csfb : users_wf (s_users s) ->
  good s (handle_initialctxtsetuprequest allocate sendmsg s e i csfb).
Proof.
  intros Hw. apply with_user_good; [done|]. intros s1 u Hw1 Hu1. cbn.
  destruct (cs_fallback_ok s1 u csfb Hw1 Hu1) as (s' & out & -> & Ho & Hw' & Ht). eexists _, _, _. split; [done|].
  split; [done|by left].
Qed.

Lemma handle_mod_good s e i csfb : users_wf (s_users s) ->
  good s (handle_uecontextmodifyrequest allocate sendmsg s e i csfb).
Proof.
  intros Hw. apply with_user_good; [done|]. intros s1 u Hw1 Hu1. cbn. unfold send_uectxtmodifyresp.
  destruct (ue_send_ok s1 u (Tx_ue_context_mod_resp (su_mme_ue_s1ap_id u) (su_enb_ue_s1ap_id u)) Hw1 Hu1)
    as (b & n & out & -> & Ho). rewrite bind_ok_l.
  destruct (cs_fallback_ok (s1 <| s_asked := n |>) u csfb) as (s' & out' & -> & Ho' & Hw' & Ht); [done..|].
  eexists _, _, _. split; [done|]. split; [done|left]. split; [|done]. unfold releases in *. by rewrite omap_app, Ho, Ho'.
Qed.

(** The documented behaviour of the decoder, and what a buffer can hold. *)
Definition s1ap_decoder_ok : Prop :=
  forall bytes e i nas, unpack bytes = Some (Rx_dl_nas_transport e i nas) -> (length nas <= length bytes)%nat.
Definition op_ok (op : s1_op) : Prop :=
  match op with Op_mme_rx rx => Z.of_nat (length (rx_bytes rx)) <= BUFFER_ROOM | _ => True end.

Lemma handle_msg_good s bytes : s1ap_decoder_ok -> Z.of_nat (length bytes) <= BUFFER_ROOM -> users_wf (s_users s) ->
  good s (handle_s1ap_rx_pdu allocate sendmsg unpack s bytes).
Proof.
  intros Hd Hb Hw. assert (Hsame : forall b s' out, s_users s' = s_users s -> releases out = [] -> good s (Ok (b, s', out))).
  { intros b s' out E Ho. eexists _, _, _. split; [done|by apply stepped_same]. }
  unfold handle_s1ap_rx_pdu. destruct (unpack bytes) as [m|] eqn:Em; [|by apply Hsame].
  destruct m as [e i nas|e i csfb|e i|i| |e i|e i csfb| | |e i|e i|]; cbn [handle_s1ap_msg]; try by apply Hsame.
  - unfold handle_dlnastransport. apply with_user_good; [done|]. intros s1 u Hw1 Hu1. cbv zeta.
    destruct (allocate (s_asked s1)); cbn [negb]; [|eexists _, _, _; split; [done|]; split; [done|by left]].
    specialize (Hd _ _ _ _ Em). replace (_ <=? _) with true by lia.
    eexists _, _, _. split; [done|]. split; [done|by left].
  - by apply handle_init_ctxt_good.
  - apply with_user_good; [done|]. apply release_ue_served.
  - unfold handle_uectxtreleasecommand_mme. destruct (find_ue_mmeid (s_users s) i) as [u|] eqn:E; [|by apply Hsame].
    apply find_if_Some in E as (k & Hin & _). pose proof (uw_key _ Hw _ _ Hin) as <-.
    destruct (release_ue_served s u Hw Hin) as (b & s' & out & -> & Hw' & Hs). eexists _, _, _. split; [done|]. split; [done|].
    destruct Hs as [[-> ->]|[-> ->]]; [apply cs_same|]. eapply cs_detach. apply lookup_table; [done|]. by exists u.
  - apply with_user_good; [done|]. intros s1 u Hw1 Hu1. eexists _, _, _. split; [done|]. split; [done|by left].
  - by apply handle_mod_good.
  - unfold handle_s1setupresponse. apply Hsame; [by rewrite trigger_users|done].
  - apply with_user_good; [done|]. intros s1 u Hw1 Hu1. eexists _, _, _. split; [done|]. split; [done|by left].
  - apply with_user_good; [done|]. intros s1 u Hw1 Hu1. eexists _, _, _. split; [done|]. split; [done|by left].
Qed.

Lemma rx_good s rx : s1ap_decoder_ok -> Z.of_nat (length (rx_bytes rx)) <= BUFFER_ROOM -> users_wf (s_users s) ->
  good s (handle_mme_rx_msg allocate sendmsg connects unpack s rx).
Proof.
  intros Hd Hb Hw. unfold handle_mme_rx_msg.
  set (s1 := match rx with Sctp_notification shutdown _ => _ | Sctp_data bytes => _ end).
  assert (E : s_users s1 = s_users s) by (subst s1; destruct rx as [[]|]; [done..|by case_match]). cbv zeta.
  destruct (s_socket s1); cbn [negb].
  - destruct (handle_msg_good s1 (rx_bytes rx) Hd Hb) as (b & s' & out & -> & Hw' & Hs); [by rewrite E|].
    eexists _, _, _. split; [done|]. split; [done|]. by rewrite <- E.
  - destruct (launch_ok (s1 <| s_mme_connected := false |>)) as (b & s' & out & -> & E' & Ho).
    eexists _, _, _. split; [done|]. apply stepped_same; [done| |done]. rewrite E'. exact E.
Qed.

Abbreviation s1_do' := (s1_do allocate sendmsg connects table_insert unpack gtp_bind_addr).
Abbreviation s1_run' := (s1_run allocate sendmsg connects table_insert unpack gtp_bind_addr).

Lemma do_good s op : s1ap_decoder_ok -> op_ok op -> users_wf (s_users s) -> good_call s (s1_do' s op).
Proof.
  intros Hd Hop Hw. destruct op as [| |r c nas|r c nas t m|r nas|r c|r l|r l|rx| |]; cbn [s1_do].
  - by apply good_drop, launch_good.
  - eexists _, _. split; [done|by apply stepped_same].
  - by apply initial_good.
  - by apply initial_tmsi_good.
  - unfold s1ap_write_pdu. destruct (find_ue_rnti _ r) as [u|] eqn:E; [|eexists _, _; split; [done|by apply stepped_same]].
    apply good_drop, good_send; [done|by eapply rnti_user].
  - by apply good_drop, user_release_good.
  - unfold ue_ctxt_setup_complete. destruct (find_ue_rnti _ r) as [u|] eqn:E; [|eexists _, _; split; [done|by apply stepped_same]].
    apply good_drop. destruct (_ >? 0); (apply good_send; [done|by eapply rnti_user]).
  - unfold ue_erab_setup_complete. destruct (find_ue_rnti _ r) as [u|] eqn:E; [|eexists _, _; split; [done|by apply stepped_same]].
    apply good_drop, good_send; [done|by eapply rnti_user].
  - by apply good_drop, rx_good.
  - unfold mme_connect_expired. destruct (s_mme_connect_timer s); [|eexists _, _; split; [done|by apply stepped_same]].
    by apply good_drop, launch_good.
  - eexists _, _. split; [done|]. apply stepped_same; [done| |done]. unfold s1setup_timeout_expired.
    by destruct (s_s1setup_timeout s); [rewrite trigger_users|].
Qed.

(** The runs of the table. *)
Inductive ctx_run : gmap Z (Z * option Z) -> list (list Z) -> gmap Z (Z * option Z) -> Prop :=
| cr_nil m : ctx_run m [] m
| cr_cons m r m1 l m' : ctx_step m r m1 -> ctx_run m1 l m' -> ctx_run m (r :: l) m'.

Lemma new_users_wf : users_wf (s_users s1ap_new).
Proof.
  split; cbn; [intros k u H; by apply elem_of_nil in H|apply NoDup_nil_2|intros k1 u1 k2 u2 H; by apply elem_of_nil in H].
Qed.

Lemma run_good s ops : s1ap_decoder_ok -> Forall op_ok ops -> users_wf (s_users s) ->
  exists s' outs, s1_run' s ops = Ok (s', outs) /\ users_wf (s_users s') /\
    ctx_run (table (s_users s)) (releases <$> outs) (table (s_users s')).
Proof.
  intros Hd Hops Hw. revert s Hw. induction Hops as [|op ops Hop Hops IH]; intros s Hw; cbn [s1_run].
  - exists s, []. split_and!; [done..|apply cr_nil].
  - destruct (do_good s op Hd Hop Hw) as (s1 & out & -> & Hw1 & Hs).
    rewrite bind_ok_l. destruct (IH s1 Hw1) as (s' & outs & -> & Hw' & Hr). exists s', (out :: outs).
    split_and!; [done..|]. cbn. by eapply cr_cons.
Qed.

(** C2. The S1AP implements a table of contexts, and nothing it does goes wrong.
    Whatever the other layers, the timers and the MME ask of it, in any order and
    with any answers of the socket and of the buffer pool, every call returns
    (no null user is ever used for the stream, no buffer overrun), and is one
    step of the table: a device is entered once, under a new name of the eNodeB
    and with a name here that no other has, gets its name of the MME, or is taken
    out; and the RRC is told to release exactly the devices taken out.  How the
    hash table orders its entries makes no difference. *)
Theorem s1ap_refines_table ops :
  s1ap_decoder_ok -> Forall op_ok ops ->
  exists s' outs, s1_run' s1ap_new ops = Ok (s', outs) /\ users_wf (s_users s') /\
    ctx_run ∅ (releases <$> outs) (table (s_users s')).
Proof.
  intros Hd Hops. apply (run_good s1ap_new ops Hd Hops), new_users_wf.
Qed.

(** ** The life of a context *)
Lemma ue_send_known s u m : allocate (s_asked s) = true -> s_mme_connected s = true -> users_wf (s_users s) ->
  (su_enb_ue_s1ap_id u, u) ∈ s_users s -> su_rnti u <> SRSLTE_INVALID_RNTI ->
  ue_send' s u m = Ok (sendmsg (S (s_asked s)), asked (asked s), [S_sctp (su_stream_id u) m]).
Proof.
  intros Ha Hc Hw Hu Hr. unfold ue_send. rewrite Hc. unfold sctp_send_s1ap_pdu. rewrite Ha. cbn [negb].
  destruct (Z.eqb_spec (su_rnti u) 0); [done|].
  assert (Hf : find_ue_rnti (s_users (asked s)) (su_rnti u) = Some u) by by apply find_ue_rnti_Some.
  by rewrite Hf.
Qed.

Lemma with_user_known s i u f : users_wf (s_users s) -> (su_enb_ue_s1ap_id u, u) ∈ s_users s ->
  with_user s (su_enb_ue_s1ap_id u) i f =
    let u' := u <| su_mme_ue_s1ap_id_present := true |> <| su_mme_ue_s1ap_id := i |> in
    f (puts s (user_put (s_users s) u')) u'.
Proof. intros Hw Hu. unfold with_user, find_s1apmsg_user. apply find_ue_enbid_Some in Hu; [|done]. by rewrite Hu. Qed.

(** A device neither name of which is in the list. *)
Lemma fresh_user l u : users_wf l -> find_ue_rnti l (su_rnti u) = None -> find_ue_enbid l (su_enb_ue_s1ap_id u) = None ->
  (forall k v, (k, v) ∈ l -> k <> su_enb_ue_s1ap_id u) /\
  (su_rnti u <> SRSLTE_INVALID_RNTI -> forall k v, (k, v) ∈ l -> su_rnti v <> su_rnti u) /\
  table l !! su_enb_ue_s1ap_id u = None.
Proof.
  intros Hw Hr He. assert (Hk : forall k v, (k, v) ∈ l -> k <> su_enb_ue_s1ap_id u).
  { intros k v H ->. apply find_ue_enbid_Some in H; [|done]. by rewrite He in H. }
  split_and!; [done| |].
  - intros Hne k v H Er. assert (Hv : find_ue_rnti l (su_rnti u) = Some v); [|by rewrite Hr in Hv].
    apply find_ue_rnti_Some; [done|]. by rewrite (uw_key _ Hw _ _ H).
  - apply eq_None_not_Some. intros [x Hx]. apply lookup_table in Hx as (v & H & _); [|done]. by apply (Hk _ _ H).
Qed.

(** A user that stands in the list after it was named. *)
Lemma named_user l u i : users_wf l -> (su_enb_ue_s1ap_id u, u) ∈ l ->
  let u' := u <| su_mme_ue_s1ap_id_present := true |> <| su_mme_ue_s1ap_id := i |> in
  users_wf (user_put l u') /\ (su_enb_ue_s1ap_id u', u') ∈ user_put l u' /\
  table (user_put l u') = <[su_enb_ue_s1ap_id u := (su_rnti u, Some i)]> (table l).
Proof.
  intros Hw Hu u'. split_and!; [by apply (user_put_wf _ u' u)| |by apply (table_put _ u' u)].
  apply elem_of_user_put; [done|]. left. split_and!; [done..|]. apply list_elem_of_fmap. by exists (su_enb_ue_s1ap_id u, u).
Qed.

Lemma rx_data s b m : s_socket s = true -> b <> [] -> unpack b = Some m ->
  handle_mme_rx_msg allocate sendmsg connects unpack s (Sctp_data b) =
  ('(_, s, out) ← handle_s1ap_msg allocate sendmsg s m; Ok (true, s, out)).
Proof.
  intros Hs Hb Hm. unfold handle_mme_rx_msg, handle_s1ap_rx_pdu. destruct b as [|x b]; [done|].
  rewrite (proj2 (Z.eqb_neq (Z.of_nat (length (x :: b))) 0)) by (cbn; lia). cbv zeta. cbn [rx_bytes]. by rewrite Hs, Hm.
Qed.

(** Announcing a device that is not known, with its S-TMSI. *)
Lemma announce_known s r c nas t m :
  let e := s_next_enb_ue_s1ap_id s in let st := s_next_ue_stream_id s in
  (forall n, allocate n = true) -> users_wf (s_users s) -> s_mme_connected s = true -> r <> SRSLTE_INVALID_RNTI ->
  find_ue_rnti (s_users s) r = None -> find_ue_enbid (s_users s) e = None -> find_ue_mmeid (s_users s) 0 = None ->
  exists s', initial_ue_tmsi allocate sendmsg table_insert s r c nas t m =
      Ok (s', [S_sctp st (Tx_initial_ue e c nas (Some (t, m)))]) /\
    users_wf (s_users s') /\ (e, mk_s1ap_ue false r e 0 st false) ∈ s_users s' /\
    s_mme_connected s' = true /\ s_socket s' = s_socket s.
Proof.
  intros e st Ha Hw Hc Hr Hr0 He0 Hm0. pose (u := mk_s1ap_ue false r e 0 st false).
  assert (E : s1ap_add_user table_insert (s_users s) u = Some (user_insert table_insert (s_users s) u)).
  { unfold s1ap_add_user. cbn. by rewrite Hr0, He0, Hm0. }
  set (l1 := user_insert _ _ _) in E. destruct (add_user_ok (s_users s) u l1 Hw eq_refl E) as (Hw1 & Hin1 & _).
  unfold initial_ue_tmsi, s1ap_ue_new. cbn [s_users upd eta]. rewrite Hr0. fold e st. fold u. rewrite E.
  unfold send_initialuemessage. match goal with |- context [puts ?s0 l1] => rewrite (ue_send_known (puts s0 l1) u) by done end.
  eexists. split; [reflexivity|]. by split_and!.
Qed.

(** A message of the MME for a device that is known. *)
Lemma dl_nas_known s u i nas b :
  (forall n, allocate n = true) -> users_wf (s_users s) -> (su_enb_ue_s1ap_id u, u) ∈ s_users s -> s_socket s = true ->
  b <> [] -> unpack b = Some (Rx_dl_nas_transport (su_enb_ue_s1ap_id u) i nas) -> Z.of_nat (length nas) <= BUFFER_ROOM ->
  exists s', handle_mme_rx_msg allocate sendmsg connects unpack s (Sctp_data b) =
    Ok (true, s', [S_rrc_write_dl_info (su_rnti u) nas]).
Proof.
  intros Ha Hw Hin Hs Hb Hu Hl. rewrite (rx_data s b _ Hs Hb Hu). cbn [handle_s1ap_msg]. unfold handle_dlnastransport.
  rewrite (with_user_known s i u) by done. cbv zeta. rewrite Ha. cbn [negb]. replace (_ <=? _) with true by lia.
  eexists. reflexivity.
Qed.

(** C26. The conversation of a device with its core network.  A device that is
    not known yet is announced under a fresh name; what the MME answers to that
    name goes to the device, what the device sends goes out under the two names,
    and the release is confirmed and passed on to the RRC, after which the table
    is what it was. *)
Theorem attach_conversation s r c i nas0 nas1 nas2 b1 b2 :
  let e := s_next_enb_ue_s1ap_id s in let st := s_next_ue_stream_id s in
  (forall n, allocate n = true) -> users_wf (s_users s) -> s_mme_connected s = true -> s_socket s = true ->
  r <> SRSLTE_INVALID_RNTI -> find_ue_rnti (s_users s) r = None -> find_ue_enbid (s_users s) e = None ->
  find_ue_mmeid (s_users s) 0 = None ->
  b1 <> [] -> unpack b1 = Some (Rx_dl_nas_transport e i nas1) -> Z.of_nat (length nas1) <= BUFFER_ROOM ->
  b2 <> [] -> unpack b2 = Some (Rx_ue_context_release_cmd_pair e i) ->
  exists s',
    s1_run' s [Op_initial_ue r c nas0; Op_mme_rx (Sctp_data b1); Op_write_pdu r nas2; Op_mme_rx (Sctp_data b2)] =
    Ok (s', [[S_sctp st (Tx_initial_ue e c nas0 None)]; [S_rrc_write_dl_info r nas1];
             [S_sctp st (Tx_ul_nas_transport i e nas2)];
             [S_sctp st (Tx_ue_context_release_complete i e); S_rrc_release_complete r]]) /\
    table (s_users s') = table (s_users s) /\ s_next_ue_stream_id s' = st.
Proof.
  intros e st Ha Hw Hc Hs Hr Hr0 He0 Hm0 Hb1 Hu1 Hl Hb2 Hu2.
  pose (u := mk_s1ap_ue false r e 0 st false).
  pose (u1 := u <| su_mme_ue_s1ap_id_present := true |> <| su_mme_ue_s1ap_id := i |>).
  assert (E : s1ap_add_user table_insert (s_users s) u = Some (user_insert table_insert (s_users s) u)).
  { unfold s1ap_add_user. cbn. rewrite Hr0, He0, Hm0. done. }
  set (l1 := user_insert _ _ _) in E.
  destruct (add_user_ok (s_users s) u l1 Hw eq_refl E) as (Hw1 & Hin1 & _).
  destruct (named_user l1 u i Hw1 Hin1) as (Hw2 & Hin2 & Ht2). fold u1 in Hw2, Hin2, Ht2.
  destruct (named_user (user_put l1 u1) u1 i Hw2 Hin2) as (Hw3 & Hin3 & Ht3).
  change (u1 <| su_mme_ue_s1ap_id_present := true |> <| su_mme_ue_s1ap_id := i |>) with u1 in Hw3, Hin3, Ht3.
  set (l3 := user_put (user_put l1 u1) u1) in *.
  pose (s0 := s <| s_next_enb_ue_s1ap_id := u32 (e + 1) |>).
  cbn [s1_run s1_do]. unfold initial_ue, s1ap_ue_new. fold e st s0.
  change (s_users s0) with (s_users s). fold u. rewrite E. unfold send_initialuemessage.
  rewrite (ue_send_known (puts s0 l1) u) by done. rewrite !bind_ok_l.
  rewrite (rx_data (asked (asked (puts s0 l1))) b1 _ Hs Hb1 Hu1). cbn [handle_s1ap_msg]. unfold handle_dlnastransport.
  rewrite (with_user_known (asked (asked (puts s0 l1))) i u) by done. cbv zeta. fold u1.
  rewrite Ha. cbn [negb]. replace (_ <=? _) with true by lia. cbn [ub_unless]. rewrite !bind_ok_l.
  set (s2 := asked (puts _ _)). unfold s1ap_write_pdu.
  assert (Hf2 : find_ue_rnti (s_users s2) r = Some u1) by by apply find_ue_rnti_Some.
  rewrite Hf2. unfold send_ulnastransport. rewrite (ue_send_known s2 u1) by done. rewrite !bind_ok_l.
  rewrite (rx_data (asked (asked s2)) b2 _ Hs Hb2 Hu2). cbn [handle_s1ap_msg]. unfold handle_uectxtreleasecommand_pair.
  rewrite (with_user_known (asked (asked s2)) i u1) by done. cbv zeta.
  change (u1 <| su_mme_ue_s1ap_id_present := true |> <| su_mme_ue_s1ap_id := i |>) with u1.
  unfold release_ue, send_uectxtreleasecomplete. set (s3 := puts _ _).
  rewrite (ue_send_known s3 u1) by done. rewrite !bind_ok_l.
  eexists. split; [reflexivity|]. split; [|done].
  change (table (user_erase l3 u1) = table (s_users s)). rewrite table_erase, Ht3, Ht2 by done.
  destruct (fresh_user (s_users s) u Hw Hr0 He0) as (Hk & Hn & Hx).
  change (su_enb_ue_s1ap_id u1) with (su_enb_ue_s1ap_id u).
  assert (Hi : table l1 = <[su_enb_ue_s1ap_id u := ctx_of u]> (table (s_users s))) by by apply insert_wf.
  rewrite !delete_insert_eq, Hi, delete_insert_eq. by apply delete_id.
Qed.

(** ** Two dead ends *)

(** A device the MME calls zero keeps every other one out.  Zero stands for
    no name yet in a new user, but is looked for like a name: once a message has
    given it to a device, no connection request without an S-TMSI is ever
    passed on, whoever makes it, as long as that device stays. *)
Theorem mme_name_zero_blocks s e r0 i0 b nas :
  users_wf (s_users s) -> table (s_users s) !! e = Some (r0, i0) -> s_socket s = true ->
  b <> [] -> unpack b = Some (Rx_dl_nas_transport e 0 nas) -> Z.of_nat (length nas) <= BUFFER_ROOM ->
  exists s1 out, s1_do' s (Op_mme_rx (Sctp_data b)) = Ok (s1, out) /\
    forall r c nas', exists s2, s1_do' s1 (Op_initial_ue r c nas') = Ok (s2, []) /\ s_users s2 = s_users s1.
Proof.
  intros Hw He Hs Hb Hu Hl. apply lookup_table in He as (u & Hin & _); [|done].
  pose proof (uw_key _ Hw _ _ Hin) as <-. destruct (named_user _ u 0 Hw Hin) as (Hw1 & Hin1 & _).
  set (u1 := _ <| su_mme_ue_s1ap_id := 0 |>) in *. set (l1 := user_put _ _) in *.
  assert (Hz : is_Some (find_ue_mmeid l1 0)).
  { destruct (find_ue_mmeid l1 0) eqn:E; [done|]. eapply find_if_None in E; [|exact Hin1]. done. }
  assert (Hd : exists s1 out, s1_do' s (Op_mme_rx (Sctp_data b)) = Ok (s1, out) /\ s_users s1 = l1).
  { cbn [s1_do]. rewrite (rx_data s b _ Hs Hb Hu). cbn [handle_s1ap_msg]. unfold handle_dlnastransport.
    rewrite with_user_known by done. cbv zeta. destruct (allocate _); cbn [negb]; [|by eexists _, _].
    replace (_ <=? _) with true by lia. by eexists _, _. }
  destruct Hd as (s1 & out & Hd & Hl1). exists s1, out. split; [done|]. intros r c nas'. cbn [s1_do].
  unfold initial_ue, s1ap_ue_new. set (s2 := s1 <| s_next_enb_ue_s1ap_id := _ |>). exists s2. split; [|done].
  change (s_users s2) with (s_users s1). rewrite Hl1. unfold s1ap_add_user. case_bool_decide; [done|].
  case_bool_decide; [done|]. by rewrite bool_decide_true.
Qed.

(** What cannot wake the connection up: everything but a message of the MME. *)
Definition quiet_op (op : s1_op) : Prop := match op with Op_init | Op_mme_rx _ => False | _ => True end.
Definition to_mme (c : s1_call) : Prop := match c with S_sctp _ _ | S_add_mme_socket => True | _ => False end.
Definition dead (s : s1ap) : Prop :=
  s_socket s = false /\ s_mme_connected s = false /\ s_s1setup_busy s = false /\ s_mme_connect_timer s = false /\
  s_s1setup_timeout s = false.

Lemma dead_send s u m : dead s -> ue_send' s u m = Ok (false, s, []).
Proof. intros (_ & Hc & _). unfold ue_send. by rewrite Hc. Qed.

Lemma dead_op s op : dead s -> quiet_op op ->
  exists s' out, s1_do' s op = Ok (s', out) /\ dead s' /\ Forall (fun c => ~ to_mme c) out.
Proof.
  intros Hd Hq. pose proof Hd as (H1 & H2 & H3 & H4 & H5).
  assert (Hn : Forall (fun c => ~ to_mme c) []) by constructor.
  assert (Hok : exists s' out, Ok (s, []) = Ok (s', out) /\ dead s' /\ Forall (fun c => ~ to_mme c) out) by by exists s, [].
  destruct op as [| |r c nas|r c nas t m|r nas|r c|r l|r l|rx| |]; try done; cbn [s1_do].
  - eexists _, _. split; [done|]. by split.
  - unfold initial_ue, s1ap_ue_new. destruct (s1ap_add_user _ _ _) as [l|]; [|by eexists _, _].
    unfold send_initialuemessage. rewrite dead_send by done. by eexists _, _.
  - unfold initial_ue_tmsi, s1ap_ue_new. destruct (find_ue_rnti _ _) as [u|].
    { unfold send_initialuemessage. rewrite dead_send by done. by eexists _, _. }
    destruct (s1ap_add_user _ _ _) as [l|]; [|by eexists _, _].
    unfold send_initialuemessage. rewrite dead_send by done. by eexists _, _.
  - unfold s1ap_write_pdu. destruct (find_ue_rnti _ _) as [u|]; [|done]. unfold send_ulnastransport. by rewrite dead_send.
  - unfold user_release. destruct (find_ue_rnti _ _) as [u|]; [|done]. destruct (su_release_requested u).
    + eexists _, _. split; [done|]. split; [done|]. apply Forall_singleton. by intros [].
    + destruct (su_mme_ue_s1ap_id_present u); [|done]. unfold send_uectxtreleaserequest. by rewrite H2.
  - unfold ue_ctxt_setup_complete. destruct (find_ue_rnti _ _) as [u|]; [|done]. destruct (_ >? 0).
    + unfold send_initial_ctxt_setup_response. by rewrite dead_send.
    + unfold send_initial_ctxt_setup_failure. by rewrite dead_send.
  - unfold ue_erab_setup_complete. destruct (find_ue_rnti _ _) as [u|]; [|done]. unfold send_erab_setup_response. by rewrite dead_send.
  - unfold mme_connect_expired. by rewrite H4.
  - unfold s1setup_timeout_expired. by rewrite H5.
Qed.

(** C40. A refused connection is never tried again.  When the MME answers the
    first setup request with a failure, nothing happens until the timer runs
    out; then the socket is closed and no timer is left, so that for all that
    the RRC and the timers may ask afterwards, not one message is sent and no
    new connection is made. *)
Theorem setup_failure_is_final b ops :
  connects 0 = true -> allocate 1 = true -> sendmsg 2 = true -> b <> [] -> unpack b = Some Rx_s1_setup_fail ->
  Forall quiet_op ops ->
  exists s' outs,
    s1_run' s1ap_new ([Op_init; Op_mme_rx (Sctp_data b); Op_s1setup_timeout_expired] ++ ops) =
    Ok (s', [S_add_mme_socket; S_sctp NONUE_STREAM_ID Tx_s1_setup_request] :: [] :: [] :: outs) /\
    Forall (Forall (fun c => ~ to_mme c)) outs /\ dead s'.
Proof.
  intros Hc Ha Hm Hb Hu Hq. cbn [app s1_run s1_do].
  unfold s1ap_init, s1setup_launch, start_mme_connection, connect_mme, setup_s1, sctp_send_s1ap_pdu. cbn. rewrite Hc. cbn.
  rewrite Ha. cbn. rewrite Hm. cbn.
  match goal with |- context [handle_mme_rx_msg _ _ _ _ ?s _] => set (s1 := s) end.
  rewrite (rx_data s1 b _ eq_refl Hb Hu). cbn [handle_s1ap_msg]. unfold handle_s1setupfailure. rewrite !bind_ok_l.
  assert (Hd : dead (s1setup_timeout_expired s1)) by done. revert Hd. generalize (s1setup_timeout_expired s1) as s.
  assert (Hrun : forall s, dead s -> exists s' outs, s1_run' s ops = Ok (s', outs) /\
    Forall (Forall (fun c => ~ to_mme c)) outs /\ dead s').
  { induction Hq as [|op ops Hop _ IH]; intros s Hd; cbn [s1_run]; [by exists s, []|].
    destruct (dead_op s op Hd Hop) as (s2 & out & -> & Hd2 & Ho). rewrite bind_ok_l.
    destruct (IH s2 Hd2) as (s' & outs & -> & H1 & H2). exists s', (out :: outs). by split_and!; [|constructor|]. }
  intros s Hd. destruct (Hrun s Hd) as (s' & outs & -> & H1 & H2). by exists s', outs.
Qed.
End Runs.

(** ** Concrete runs *)
Definition yes (_ : nat) : bool := true.
Definition front (l : user_list) (p : Z * s1ap_ue) : user_list := p :: l.
Definition demo_unpack (b : list Z) : option s1ap_rx :=
  match b with
  | 1 :: e :: i :: nas => Some (Rx_dl_nas_transport e i nas)
  | [2; e; i] => Some (Rx_ue_context_release_cmd_pair e i)
  | [3] => Some Rx_s1_setup_resp
  | [4] => Some Rx_s1_setup_fail
  | _ => None
  end.

Lemma front_perm l p : front l p ≡ₚ p :: l.
Proof. done. Qed.

Lemma demo_unpack_ok : s1ap_decoder_ok demo_unpack.
Proof.
  intros b e i nas. unfold demo_unpack. repeat case_match; intros E; try discriminate E; injection E as _ _ <-; cbn; lia.
Qed.

(** Connected, with one device known. *)
Definition demo_ops : list s1_op :=
  [Op_init; Op_mme_rx (Sctp_data [3]); Op_initial_ue 70 S_mo_data [9]].
Definition demo_s1 : s1ap :=
  match s1_run yes yes yes front demo_unpack [] s1ap_new demo_ops with Ok (s, _) => s | _ => s1ap_new end.

Lemma demo_ops_ok : Forall op_ok demo_ops.
Proof. repeat (apply Forall_cons; split; [first [exact I|vm_compute; congruence]|]). constructor. Qed.

Lemma s1ap_refines_table_witness :
  s1ap_decoder_ok demo_unpack /\ Forall op_ok demo_ops /\
  exists s' outs, s1_run yes yes yes front demo_unpack [] s1ap_new demo_ops = Ok (s', outs) /\ users_wf (s_users s').
Proof.
  assert (Ho : Forall op_ok demo_ops) by (exact demo_ops_ok).
  split; [exact demo_unpack_ok|]. split; [exact Ho|].
  destruct (s1ap_refines_table yes yes yes front demo_unpack [] front_perm demo_ops demo_unpack_ok Ho) as (s' & outs & H & Hw & _).
  exists s', outs. split; [exact H|exact Hw].
Defined.

Lemma demo_users_wf : users_wf (s_users demo_s1).
Proof.
  destruct (run_good yes yes yes front demo_unpack [] front_perm s1ap_new demo_ops demo_unpack_ok demo_ops_ok new_users_wf)
    as (s' & outs & H & Hw & _). unfold demo_s1. by rewrite H.
Qed.

Lemma attach_conversation_witness :
  users_wf (s_users demo_s1) /\ find_ue_rnti (s_users demo_s1) 71 = None /\
  exists s',
    s1_run yes yes yes front demo_unpack [] demo_s1
      [Op_initial_ue 71 S_mo_sig [5]; Op_mme_rx (Sctp_data [1; 2; 33; 6]); Op_write_pdu 71 [7]; Op_mme_rx (Sctp_data [2; 2; 33])] =
    Ok (s', [[S_sctp 1 (Tx_initial_ue 2 S_mo_sig [5] None)]; [S_rrc_write_dl_info 71 [6]];
             [S_sctp 1 (Tx_ul_nas_transport 33 2 [7])];
             [S_sctp 1 (Tx_ue_context_release_complete 33 2); S_rrc_release_complete 71]]).
Proof.
  split; [exact demo_users_wf|]. split; [reflexivity|].
  destruct (attach_conversation yes yes yes front demo_unpack [] front_perm demo_s1 71 S_mo_sig 33 [5] [6] [7]
    [1; 2; 33; 6] [2; 2; 33]) as (s' & H & _);
    try reflexivity; try discriminate; try exact demo_users_wf; try (vm_compute; congruence).
  exists s'. exact H.
Defined.

Lemma mme_name_zero_blocks_witness :
  exists s1 out, s1_do yes yes yes front demo_unpack [] demo_s1 (Op_mme_rx (Sctp_data [1; 1; 0; 6])) = Ok (s1, out) /\
    exists s2, s1_do yes yes yes front demo_unpack [] s1 (Op_initial_ue 71 S_mo_sig [5]) = Ok (s2, []).
Proof.
  destruct (mme_name_zero_blocks yes yes yes front demo_unpack [] demo_s1 1 70 None [1; 1; 0; 6] [6]) as (s1 & out & H1 & H2);
    [exact demo_users_wf|reflexivity|reflexivity|discriminate|reflexivity|vm_compute; congruence|].
  exists s1, out. split; [exact H1|]. destruct (H2 71 S_mo_sig [5]) as (s2 & H & _). exists s2. exact H.
Defined.

Lemma setup_failure_is_final_witness :
  Forall quiet_op [Op_initial_ue 70 S_mo_data [9]; Op_mme_connect_expired] /\
  exists s' outs,
    s1_run yes yes yes front demo_unpack [] s1ap_new
      [Op_init; Op_mme_rx (Sctp_data [4]); Op_s1setup_timeout_expired; Op_initial_ue 70 S_mo_data [9]; Op_mme_connect_expired] =
    Ok (s', [S_add_mme_socket; S_sctp 0 Tx_s1_setup_request] :: [] :: [] :: outs) /\
    Forall (Forall (fun c => ~ to_mme c)) outs.
Proof.
  assert (Hq : Forall quiet_op [Op_initial_ue 70 S_mo_data [9]; Op_mme_connect_expired])
    by (repeat (apply Forall_cons; split; [exact I|]); constructor).
  split; [exact Hq|].
  destruct (setup_failure_is_final yes yes yes front demo_unpack [] [4] _ eq_refl eq_refl eq_refl ltac:(discriminate) eq_refl Hq)
    as (s' & outs & H1 & H2 & _).
  exists s', outs. split; [exact H1|exact H2].
Defined.
