(* ===== verification/Rlc.v ===== *)
(** * The RLC and the PDCP of the eNodeB : [class rlc], [class pdcp]

    The two layers hold one bundled entity per device and pass calls on
    ([sonica_enb/stack/upper/rlc.cc], [pdcp.cc]); the RLC tells the MAC after
    every change how much is waiting.  What the entities do ([srslte::rlc],
    [srslte::pdcp]) is behind the interfaces [RlcEntity] and [PdcpEntity].  The
    read-write lock is not modelled. *)
From S2P Require Import Prelude SchedTypes MacPdu Rrc.

Definition SRSLTE_N_RADIO_BEARERS : Z := 11.

(** What a user's [srslte::rlc] can be asked.  Reading gives the return value
    and the bytes; writing a PDU, or a timer of the entity that runs out, gives the
    SDUs delivered upwards. *)
Class RlcEntity (E : Type) := {
  ent_new : E;
  ent_empty_queue : E -> E;
  ent_add_bearer : E -> Z -> E;
  ent_add_bearer_mrb : E -> Z -> E;
  ent_has_bearer : E -> Z -> bool;
  ent_suspend_bearer : E -> Z -> E;
  ent_resume_bearer : E -> Z -> E;
  ent_read_pdu : E -> Z -> Z -> Z * list Z * E;
  ent_read_pdu_mch : E -> Z -> Z -> Z * list Z * E;
  ent_buffer_state : E -> Z -> Z;
  ent_total_mch_buffer_state : E -> Z -> Z;
  ent_write_pdu : E -> Z -> list Z -> list (Z * list Z) * E;
  ent_write_sdu : E -> Z -> list Z -> E;
  ent_write_sdu_mch : E -> Z -> list Z -> E;
  ent_discard_sdu : E -> Z -> Z -> E;
  ent_rb_is_um : E -> Z -> bool;
  ent_timers : E -> list (Z * list Z) * E
}.

(** Calls of the layers around the RLC. *)
Inductive rlc_call :=
| R_mac_buffer_state (rnti_ lcid_ tx_queue retx_queue : Z)
| R_rrc_write_pdu (rnti_ lcid_ : Z) (sdu : list Z)
| R_pdcp_write_pdu (rnti_ lcid_ : Z) (sdu : list Z).

(** [users]; the rest of a [user_interface] points to the layers. *)
Abbreviation rlc := (gmap Z) (only parsing).
Abbreviation mac_view := (gmap (Z * Z) Z) (only parsing).

Section Rlc.
Context {E : Type} `{RlcEntity E}.

Definition rlc_stop (r : rlc E) : rlc E := ∅.
Definition rlc_add_user (r : rlc E) (rnti_ : Z) : rlc E := match r !! rnti_ with None => <[rnti_ := ent_new]> r | Some _ => r end.
Definition rlc_rem_user (r : rlc E) (rnti_ : Z) : rlc E := match r !! rnti_ with Some _ => delete rnti_ r | None => r end.

Definition clear_buffer (r : rlc E) (rnti_ : Z) : rlc E * list rlc_call :=
  match r !! rnti_ with
  | Some e => (<[rnti_ := ent_empty_queue e]> r,
               (fun i => R_mac_buffer_state rnti_ i 0 0) <$> range 0 (Z.to_nat SRSLTE_N_RADIO_BEARERS))
  | None => (r, [])
  end.

Definition on_user (r : rlc E) (rnti_ : Z) (f : E -> E) : rlc E :=
  match r !! rnti_ with Some e => <[rnti_ := f e]> r | None => r end.
Definition rlc_add_bearer (r : rlc E) (rnti_ lcid_ : Z) : rlc E := on_user r rnti_ (fun e => ent_add_bearer e lcid_).
Definition rlc_add_bearer_mrb (r : rlc E) (rnti_ lcid_ : Z) : rlc E := on_user r rnti_ (fun e => ent_add_bearer_mrb e lcid_).
Definition has_bearer (r : rlc E) (rnti_ lcid_ : Z) : bool :=
  match r !! rnti_ with Some e => ent_has_bearer e lcid_ | None => false end.
Definition suspend_bearer (r : rlc E) (rnti_ lcid_ : Z) : bool * rlc E :=
  (bool_decide (is_Some (r !! rnti_)), on_user r rnti_ (fun e => ent_suspend_bearer e lcid_)).
Definition resume_bearer (r : rlc E) (rnti_ lcid_ : Z) : bool * rlc E :=
  (bool_decide (is_Some (r !! rnti_)), on_user r rnti_ (fun e => ent_resume_bearer e lcid_)).

(** The MAC is told after every read and write; the second queue is never used. *)
Definition rlc_read_pdu (r : rlc E) (rnti_ lcid_ nof_bytes : Z) : Z * list Z * rlc E * list rlc_call :=
  match r !! rnti_ with
  | Some e =>
      let '(ret, bytes, e) :=
        if negb (rnti_ =? SRSLTE_MRNTI) then ent_read_pdu e lcid_ nof_bytes else ent_read_pdu_mch e lcid_ nof_bytes in
      let tx_queue := if negb (rnti_ =? SRSLTE_MRNTI) then ent_buffer_state e lcid_ else ent_total_mch_buffer_state e lcid_ in
      (ret, bytes, <[rnti_ := e]> r, [R_mac_buffer_state rnti_ lcid_ tx_queue 0])
  | None => (-1, [], r, [])
  end.

(** [user_interface::write_pdu]: SRB0 and SRB1bis go to the RRC. *)
Definition user_write_pdu (rnti_ : Z) (p : Z * list Z) : rlc_call :=
  if (p.1 =? RB_ID_SRB0) || (p.1 =? RB_ID_SRB1BIS) then R_rrc_write_pdu rnti_ p.1 p.2 else R_pdcp_write_pdu rnti_ p.1 p.2.

Definition rlc_write_pdu (r : rlc E) (rnti_ lcid_ : Z) (payload : list Z) : rlc E * list rlc_call :=
  let r := rlc_add_bearer_mrb r SRSLTE_MRNTI 0 in
  match r !! rnti_ with
  | Some e =>
      let '(sdus, e) := ent_write_pdu e lcid_ payload in
      (<[rnti_ := e]> r, (user_write_pdu rnti_ <$> sdus) ++ [R_mac_buffer_state rnti_ lcid_ (ent_buffer_state e lcid_) 0])
  | None => (r, [])
  end.

Definition rlc_write_sdu (r : rlc E) (rnti_ lcid_ : Z) (sdu : list Z) : rlc E * list rlc_call :=
  match r !! rnti_ with
  | Some e =>
      let e := if negb (rnti_ =? SRSLTE_MRNTI) then ent_write_sdu e lcid_ sdu else ent_write_sdu_mch e lcid_ sdu in
      let tx_queue := if negb (rnti_ =? SRSLTE_MRNTI) then ent_buffer_state e lcid_ else ent_total_mch_buffer_state e lcid_ in
      (<[rnti_ := e]> r, [R_mac_buffer_state rnti_ lcid_ tx_queue 0])
  | None => (r, [])
  end.

Definition rlc_discard_sdu (r : rlc E) (rnti_ lcid_ discard_sn : Z) : rlc E * list rlc_call :=
  match r !! rnti_ with
  | Some e =>
      let e := ent_discard_sdu e lcid_ discard_sn in
      (<[rnti_ := e]> r, [R_mac_buffer_state rnti_ lcid_ (ent_buffer_state e lcid_) 0])
  | None => (r, [])
  end.

Definition rlc_rb_is_um (r : rlc E) (rnti_ lcid_ : Z) : bool :=
  match r !! rnti_ with Some e => ent_rb_is_um e lcid_ | None => false end.

(** The timers of an entity, which it took from the stack's: what it delivers
    goes up, and nobody tells the MAC. *)
Definition rlc_timers (r : rlc E) (rnti_ : Z) : rlc E * list rlc_call :=
  match r !! rnti_ with
  | Some e => let '(sdus, e) := ent_timers e in (<[rnti_ := e]> r, user_write_pdu rnti_ <$> sdus)
  | None => (r, [])
  end.

(** ** Runs, and what the MAC has been told *)
Inductive rlc_op :=
| Rop_stop | Rop_add_user (rnti_ : Z) | Rop_rem_user (rnti_ : Z) | Rop_clear_buffer (rnti_ : Z)
| Rop_add_bearer (rnti_ lcid_ : Z) | Rop_suspend (rnti_ lcid_ : Z) | Rop_resume (rnti_ lcid_ : Z)
| Rop_read_pdu (rnti_ lcid_ nof_bytes : Z) | Rop_write_pdu (rnti_ lcid_ : Z) (payload : list Z)
| Rop_write_sdu (rnti_ lcid_ : Z) (sdu : list Z) | Rop_discard_sdu (rnti_ lcid_ discard_sn : Z)
| Rop_timers (rnti_ : Z).

Definition rlc_do (r : rlc E) (op : rlc_op) : rlc E * list rlc_call :=
  match op with
  | Rop_stop => (rlc_stop r, [])
  | Rop_add_user k => (rlc_add_user r k, [])
  | Rop_rem_user k => (rlc_rem_user r k, [])
  | Rop_clear_buffer k => clear_buffer r k
  | Rop_add_bearer k l => (rlc_add_bearer r k l, [])
  | Rop_suspend k l => (snd (suspend_bearer r k l), [])
  | Rop_resume k l => (snd (resume_bearer r k l), [])
  | Rop_read_pdu k l n => let '(_, _, r, out) := rlc_read_pdu r k l n in (r, out)
  | Rop_write_pdu k l p => rlc_write_pdu r k l p
  | Rop_write_sdu k l s => rlc_write_sdu r k l s
  | Rop_discard_sdu k l n => rlc_discard_sdu r k l n
  | Rop_timers k => rlc_timers r k
  end.

(** The last figure the MAC was given for each bearer of each device; the MAC
    forgets a device when it is removed, which the RRC does in all layers at once. *)
Definition told (v : mac_view) (k l : Z) : Z := default 0 (v !! (k, l)).
Definition hear (v : mac_view) (c : rlc_call) : mac_view :=
  match c with R_mac_buffer_state k l tx _ => <[(k, l) := tx]> v | _ => v end.
Definition forget (op : rlc_op) (v : mac_view) : mac_view :=
  match op with Rop_stop => ∅ | Rop_rem_user k => filter (fun p => p.1.1 <> k) v | _ => v end.

Definition rlc_step (s : rlc E * mac_view) (op : rlc_op) : rlc E * mac_view :=
  let '(r, out) := rlc_do s.1 op in (r, forget op (fold_left hear out s.2)).
Definition rlc_run (ops : list rlc_op) : rlc E * mac_view := fold_left rlc_step ops (∅, ∅).
End Rlc.

(** ** The PDCP *)

(** What a user's [srslte::pdcp] can be asked, with what it hands to the layers
    around it. *)
Class PdcpEntity (P : Type) := {
  pd_new : P;
  pd_add_bearer : P -> Z -> P;
  pd_add_bearer_mrb : P -> Z -> P;
  pd_reset : P -> P;
  pd_config_security : P -> Z -> P;
  pd_enable_integrity : P -> Z -> P;
  pd_enable_encryption : P -> Z -> P;
  pd_get_bearer_status : P -> Z -> option (Z * Z * Z * Z);
  pd_write_pdu : P -> Z -> list Z -> list (Z * list Z) * P;
  pd_write_sdu : P -> Z -> list Z -> list (Z * list Z) * P;
  pd_write_sdu_mch : P -> Z -> list Z -> list (Z * list Z) * P
}.

Inductive pdcp_call := P_rrc_write_pdu (rnti_ lcid_ : Z) (pdu : list Z) | P_rlc_write_sdu (rnti_ lcid_ : Z) (sdu : list Z).

Abbreviation pdcp := (gmap Z) (only parsing).

Section Pdcp.
Context {P : Type} `{PdcpEntity P}.

Definition pdcp_stop (p : pdcp P) : pdcp P := ∅.
Definition pdcp_add_user (p : pdcp P) (rnti_ : Z) : pdcp P := match p !! rnti_ with None => <[rnti_ := pd_new]> p | Some _ => p end.
Definition pdcp_rem_user (p : pdcp P) (rnti_ : Z) : pdcp P := match p !! rnti_ with Some _ => delete rnti_ p | None => p end.
Definition at_user (p : pdcp P) (rnti_ : Z) (f : P -> P) : pdcp P :=
  match p !! rnti_ with Some e => <[rnti_ := f e]> p | None => p end.
Definition pdcp_add_bearer (p : pdcp P) (rnti_ lcid_ : Z) : pdcp P :=
  at_user p rnti_ (fun e => if negb (rnti_ =? SRSLTE_MRNTI) then pd_add_bearer e lcid_ else pd_add_bearer_mrb e lcid_).
Definition pdcp_reset (p : pdcp P) (rnti_ : Z) : pdcp P := at_user p rnti_ pd_reset.
Definition config_security (p : pdcp P) (rnti_ lcid_ : Z) : pdcp P := at_user p rnti_ (fun e => pd_config_security e lcid_).

(** These two do not look whether the user exists: [operator[]] makes one
    without an entity, and its null pointer is used. *)
Definition enable_integrity (p : pdcp P) (rnti_ lcid_ : Z) : res (pdcp P) :=
  match p !! rnti_ with Some e => Ok (<[rnti_ := pd_enable_integrity e lcid_]> p) | None => UB NullDeref end.
Definition enable_encryption (p : pdcp P) (rnti_ lcid_ : Z) : res (pdcp P) :=
  match p !! rnti_ with Some e => Ok (<[rnti_ := pd_enable_encryption e lcid_]> p) | None => UB NullDeref end.

Definition get_bearer_status (p : pdcp P) (rnti_ lcid_ : Z) : option (Z * Z * Z * Z) :=
  match p !! rnti_ with Some e => pd_get_bearer_status e lcid_ | None => None end.

(** What comes up goes to the RRC, what goes down to the RLC, under the name of
    the user. *)
Definition pdcp_write_pdu (p : pdcp P) (rnti_ lcid_ : Z) (sdu : list Z) : pdcp P * list pdcp_call :=
  match p !! rnti_ with
  | Some e => let '(up, e) := pd_write_pdu e lcid_ sdu in (<[rnti_ := e]> p, (fun q => P_rrc_write_pdu rnti_ q.1 q.2) <$> up)
  | None => (p, [])
  end.
Definition pdcp_write_sdu (p : pdcp P) (rnti_ lcid_ : Z) (sdu : list Z) : pdcp P * list pdcp_call :=
  match p !! rnti_ with
  | Some e =>
      let '(down, e) := if negb (rnti_ =? SRSLTE_MRNTI) then pd_write_sdu e lcid_ sdu else pd_write_sdu_mch e lcid_ sdu in
      (<[rnti_ := e]> p, (fun q => P_rlc_write_sdu rnti_ q.1 q.2) <$> down)
  | None => (p, [])
  end.
End Pdcp.

(** ** What the MAC's figures are worth *)

(** The documented behaviour of an entity: a new one has nothing waiting, a
    bearer that cannot exist has nothing, and an operation on a bearer leaves the
    others alone.  Nothing is said of what emptying the queues, configuring a
    bearer again, suspending it or a timer leaves waiting: an acknowledged-mode
    bearer keeps its retransmissions and its status report when its queue is
    emptied, and an unacknowledged one loses its queue when it is configured
    again. *)
Class RlcEntityLaws (E : Type) `{RlcEntity E} : Prop := {
  law_new l : ent_buffer_state ent_new l = 0;
  law_bearers e l : ~ (0 <= l < SRSLTE_N_RADIO_BEARERS) -> ent_buffer_state e l = 0;
  law_add_bearer e b l : l <> b -> ent_buffer_state (ent_add_bearer e b) l = ent_buffer_state e l;
  law_suspend e b l : l <> b -> ent_buffer_state (ent_suspend_bearer e b) l = ent_buffer_state e l;
  law_resume e b l : l <> b -> ent_buffer_state (ent_resume_bearer e b) l = ent_buffer_state e l;
  law_read e b n l : l <> b -> ent_buffer_state (ent_read_pdu e b n).2 l = ent_buffer_state e l;
  law_write_pdu e b p l : l <> b -> ent_buffer_state (ent_write_pdu e b p).2 l = ent_buffer_state e l;
  law_write_sdu e b s l : l <> b -> ent_buffer_state (ent_write_sdu e b s) l = ent_buffer_state e l;
  law_discard e b n l : l <> b -> ent_buffer_state (ent_discard_sdu e b n) l = ent_buffer_state e l
}.

(** What the figure for bearer [l] of device [k] is after a run: current, zero
    because the buffer was cleared, or older than the last thing that may have
    changed it. *)
Inductive figure := Current | Cleared | Outdated.
Definition figure_step (k l : Z) (f : figure) (op : rlc_op) : figure :=
  match op with
  | Rop_stop => Current
  | Rop_add_user _ => f
  | Rop_rem_user k' => if k' =? k then Current else f
  | Rop_clear_buffer k' => if (k' =? k) && ((0 <=? l) && (l <? SRSLTE_N_RADIO_BEARERS)) then Cleared else f
  | Rop_add_bearer k' l' | Rop_suspend k' l' | Rop_resume k' l' => if (k' =? k) && (l' =? l) then Outdated else f
  | Rop_read_pdu k' l' _ | Rop_write_pdu k' l' _ | Rop_write_sdu k' l' _ | Rop_discard_sdu k' l' _ =>
      if (k' =? k) && (l' =? l) then Current else f
  | Rop_timers k' => if k' =? k then Outdated else f
  end.
Definition figure_of (ops : list rlc_op) (k l : Z) : figure := fold_left (figure_step k l) ops Current.

Section Facts.
Context {E : Type} `{RlcEntityLaws E}.

(** The figure for bearer [l] of device [k], which is not the broadcast one. *)
Definition told_as (k l : Z) (f : figure) (s : rlc E * mac_view) : Prop :=
  match s.1 !! k with
  | None => told s.2 k l = 0
  | Some e => match f with Current => told s.2 k l = ent_buffer_state e l | Cleared => told s.2 k l = 0 | Outdated => True end
  end.

Lemma told_insert v k l x k' l' : told (<[(k, l) := x]> v) k' l' = if bool_decide (k' = k /\ l' = l) then x else told v k' l'.
Proof.
  unfold told. case_bool_decide as Hc; [by destruct Hc as [-> ->]; rewrite lookup_insert_eq|].
  rewrite lookup_insert_ne; [done|]. intros [= -> ->]. by apply Hc.
Qed.

Lemma hear_upward v k (sdus : list (Z * list Z)) : fold_left hear (user_write_pdu k <$> sdus) v = v.
Proof. induction sdus as [|[l s] sdus IH] in v |- *; [done|]. cbn. unfold user_write_pdu at 2. by case_match. Qed.

Lemma told_zeros v k n k' l : told (fold_left hear ((fun i => R_mac_buffer_state k i 0 0) <$> range 0 n) v) k' l =
  if bool_decide (k' = k /\ 0 <= l < Z.of_nat n) then 0 else told v k' l.
Proof.
  assert (Hg : forall a, told (fold_left hear ((fun i => R_mac_buffer_state k i 0 0) <$> range a n) v) k' l =
    if bool_decide (k' = k /\ a <= l < a + Z.of_nat n) then 0 else told v k' l); [|apply (Hg 0)].
  induction n as [|n IH] in v |- *; intros a.
  { cbn. by rewrite bool_decide_eq_false_2 by lia. }
  rewrite range_S. cbn [fmap list_fmap fold_left hear]. rewrite IH, told_insert.
  repeat case_bool_decide; try done; lia.
Qed.

(** An operation on bearer [l0] of device [k0], of which the MAC is told. *)
Lemma told_op k l f (r : rlc E) v k0 l0 e e' x :
  told_as k l f (r, v) -> r !! k0 = Some e -> (k0 = k -> l <> l0 -> ent_buffer_state e' l = ent_buffer_state e l) ->
  (k0 = k -> x = ent_buffer_state e' l0) ->
  told_as k l (if (k0 =? k) && (l0 =? l) then Current else f) (<[k0 := e']> r, <[(k0, l0) := x]> v).
Proof.
  intros Hr He Hl Hx. unfold told_as in *. cbn [fst snd] in *. rewrite told_insert.
  destruct (Z.eqb_spec k0 k) as [->|Hk]; [|rewrite lookup_insert_ne by done].
  - rewrite lookup_insert_eq. rewrite He in Hr. destruct (Z.eqb_spec l0 l) as [->|Hl0]; cbn [andb].
    + rewrite bool_decide_eq_true_2 by done. by apply Hx.
    + rewrite bool_decide_eq_false_2 by naive_solver. rewrite Hl by done. done.
  - rewrite bool_decide_eq_false_2 by naive_solver. done.
Qed.

(** An operation of which the MAC is not told. *)
Lemma told_quiet k l f b (r : rlc E) v k0 e' :
  told_as k l f (r, v) -> is_Some (r !! k0) ->
  (k0 = k -> b = false -> exists e, r !! k0 = Some e /\ ent_buffer_state e' l = ent_buffer_state e l) ->
  told_as k l (if (k0 =? k) && b then Outdated else f) (<[k0 := e']> r, v).
Proof.
  intros Hr He Hl. unfold told_as in *. cbn [fst snd] in *.
  destruct (Z.eqb_spec k0 k) as [->|Hk]; [|by rewrite lookup_insert_ne].
  rewrite lookup_insert_eq. destruct b; cbn [andb]; [done|]. destruct (Hl eq_refl eq_refl) as (e & E0 & ->). by rewrite E0 in Hr.
Qed.

Lemma told_bearer k l f (r : rlc E) v k0 l0 (g : E -> E) :
  told_as k l f (r, v) -> (forall e, l <> l0 -> ent_buffer_state (g e) l = ent_buffer_state e l) ->
  told_as k l (if (k0 =? k) && (l0 =? l) then Outdated else f) (on_user r k0 g, v).
Proof.
  intros Hr Hg. unfold on_user. destruct (r !! k0) as [e|] eqn:E0.
  - apply told_quiet; [done|by eexists|]. intros -> Hb. exists e. split; [done|]. apply Hg. intros ->. by rewrite Z.eqb_refl in Hb.
  - unfold told_as in *. cbn [fst snd] in *. destruct (Z.eqb_spec k0 k) as [->|]; [|done]. by rewrite E0 in Hr |- *.
Qed.

(** A device that is not there. *)
Lemma told_absent k l f f' (r : rlc E) v k0 b : told_as k l f (r, v) -> r !! k0 = None ->
  told_as k l (if (k0 =? k) && b then f' else f) (r, v).
Proof.
  intros Hr Hk. unfold told_as in *. cbn [fst snd] in *. destruct (Z.eqb_spec k0 k) as [->|]; [|done]. by rewrite Hk in Hr |- *.
Qed.

Lemma told_filter v k k' l : told (filter (fun p : Z * Z * Z => p.1.1 <> k) v) k' l = if bool_decide (k' = k) then 0 else told v k' l.
Proof.
  unfold told. case_bool_decide as Hk.
  - subst. assert (Hn : filter (fun p : Z * Z * Z => p.1.1 <> k) v !! (k, l) = None); [|by rewrite Hn].
    apply map_lookup_filter_None. right. intros x _ Hx. by apply Hx.
  - destruct (v !! (k', l)) as [x|] eqn:E0.
    + assert (Hs : filter (fun p : Z * Z * Z => p.1.1 <> k) v !! (k', l) = Some x) by by apply map_lookup_filter_Some.
      by rewrite Hs.
    + assert (Hn : filter (fun p : Z * Z * Z => p.1.1 <> k) v !! (k', l) = None); [|by rewrite Hn].
      apply map_lookup_filter_None. by left.
Qed.

Lemma told_add_user k l f (r : rlc E) v k0 : told_as k l f (r, v) -> told_as k l f (rlc_add_user r k0, v).
Proof.
  intros Hr. unfold rlc_add_user. destruct (r !! k0) as [e0|] eqn:E0; [done|]. unfold told_as in *. cbn [fst snd] in *.
  destruct (decide (k0 = k)) as [->|Hk]; [|by rewrite lookup_insert_ne].
  rewrite lookup_insert_eq. rewrite E0 in Hr. destruct f; [by rewrite law_new|done|done].
Qed.

Lemma told_rem_user k l f (r : rlc E) v k0 : told_as k l f (r, v) ->
  told_as k l (if k0 =? k then Current else f) (rlc_rem_user r k0, filter (fun p => p.1.1 <> k0) v).
Proof.
  intros Hr. unfold rlc_rem_user, told_as in *. cbn [fst snd] in *. rewrite told_filter.
  destruct (Z.eqb_spec k0 k) as [->|Hk].
  - rewrite bool_decide_eq_true_2 by done. destruct (r !! k) as [e|] eqn:E0; [by rewrite lookup_delete_eq|by rewrite E0].
  - rewrite bool_decide_eq_false_2 by done. destruct (r !! k0) as [e|] eqn:E0; [by rewrite lookup_delete_ne|done].
Qed.

Lemma told_clear_buffer k l f (r : rlc E) v k0 : told_as k l f (r, v) ->
  told_as k l (if (k0 =? k) && ((0 <=? l) && (l <? SRSLTE_N_RADIO_BEARERS)) then Cleared else f)
    ((clear_buffer r k0).1, fold_left hear (clear_buffer r k0).2 v).
Proof.
  intros Hr. unfold clear_buffer. destruct (r !! k0) as [e|] eqn:E0; [|by apply told_absent].
  unfold told_as in *. cbn [fst snd] in *. rewrite told_zeros. destruct (Z.eqb_spec k0 k) as [->|Hk].
  - rewrite lookup_insert_eq. rewrite E0 in Hr. cbn [andb]. change (Z.of_nat (Z.to_nat SRSLTE_N_RADIO_BEARERS)) with SRSLTE_N_RADIO_BEARERS.
    destruct ((0 <=? l) && (l <? SRSLTE_N_RADIO_BEARERS)) eqn:Hl.
    + by rewrite bool_decide_eq_true_2 by lia.
    + rewrite bool_decide_eq_false_2 by lia. destruct f; [|done|done]. rewrite Hr, !law_bearers by lia. done.
  - rewrite lookup_insert_ne by done. rewrite bool_decide_eq_false_2 by naive_solver. done.
Qed.

Lemma told_step k l f s op : k <> SRSLTE_MRNTI -> told_as k l f s -> told_as k l (figure_step k l f op) (rlc_step s op).
Proof.
  destruct s as [r v]. intros Hm Hr. unfold rlc_step. cbn [fst snd].
  destruct op as [|k0|k0|k0|k0 l0|k0 l0|k0 l0|k0 l0 n|k0 l0 p|k0 l0 sdu|k0 l0 n|k0]; cbn [rlc_do forget fold_left figure_step snd].
  - unfold told_as, rlc_stop. cbn. by rewrite lookup_empty.
  - by apply told_add_user.
  - by apply told_rem_user.
  - pose proof (told_clear_buffer k l f r v k0 Hr) as Hc. by destruct (clear_buffer r k0) as [r' out].
  - apply told_bearer; [done|]. intros e Hl. by apply law_add_bearer.
  - apply told_bearer; [done|]. intros e Hl. by apply law_suspend.
  - apply told_bearer; [done|]. intros e Hl. by apply law_resume.
  - unfold rlc_read_pdu. destruct (r !! k0) as [e|] eqn:E0; [|by apply told_absent].
    destruct (if negb (k0 =? SRSLTE_MRNTI) then _ else _) as [[ret bytes] e'] eqn:Er. cbn. eapply told_op; [done..| |].
    + intros -> Hl. rewrite (proj2 (Z.eqb_neq _ _) Hm) in Er. change e' with (ret, bytes, e').2. cbn [negb] in Er. rewrite <- Er. by apply law_read.
    + intros ->. by rewrite (proj2 (Z.eqb_neq _ _) Hm).
  - unfold rlc_write_pdu. set (r1 := rlc_add_bearer_mrb r SRSLTE_MRNTI 0).
    assert (Hr1 : told_as k l f (r1, v)).
    { unfold r1, rlc_add_bearer_mrb, on_user, told_as in *. cbn [fst snd] in *. destruct (r !! SRSLTE_MRNTI); [|done]. by rewrite lookup_insert_ne. }
    destruct (r1 !! k0) as [e|] eqn:E0; [|by apply told_absent].
    destruct (ent_write_pdu e l0 p) as [sdus e'] eqn:Ew. rewrite fold_left_app, hear_upward. cbn. eapply told_op; [done..| |done].
    intros -> Hl. change e' with (sdus, e').2. rewrite <- Ew. by apply law_write_pdu.
  - unfold rlc_write_sdu. destruct (r !! k0) as [e|] eqn:E0; [|by apply told_absent]. cbn. eapply told_op; [done..| |].
    + intros -> Hl. rewrite (proj2 (Z.eqb_neq _ _) Hm). by apply law_write_sdu.
    + intros ->. by rewrite (proj2 (Z.eqb_neq _ _) Hm).
  - unfold rlc_discard_sdu. destruct (r !! k0) as [e|] eqn:E0; [|by apply told_absent]. cbn. eapply told_op; [done..| |done].
    intros _ Hl. by apply law_discard.
  - unfold rlc_timers. replace (if k0 =? k then Outdated else f) with (if (k0 =? k) && true then Outdated else f) by (by rewrite andb_true_r).
    destruct (r !! k0) as [e|] eqn:E0; [|by apply told_absent]. destruct (ent_timers e) as [sdus e']. rewrite hear_upward.
    by apply told_quiet; [|eexists|].
Qed.

(** C38. What the MAC knows is waiting.  After any calls on the RLC, in any
    order, and any timers of its entities, the last figure given to the MAC for a
    bearer of a device (not the broadcast one) is what the device's entity holds
    for it, and zero for a device that is not there.  There are two exceptions,
    until the next read or write on the bearer: when the buffer of the device was
    cleared the figure is zero whatever the entity has kept (an acknowledged-mode
    bearer keeps retransmissions and status reports), and when the bearer was
    configured, suspended or resumed, or a timer of the entity ran out, the MAC
    has not been told. *)
Theorem mac_view_current ops k l : k <> SRSLTE_MRNTI ->
  let s := rlc_run (E := E) ops in
  match s.1 !! k with
  | None => told s.2 k l = 0
  | Some e =>
      match figure_of ops k l with
      | Current => told s.2 k l = ent_buffer_state e l
      | Cleared => told s.2 k l = 0
      | Outdated => True
      end
  end.
Proof.
  intros Hk s. assert (Hs : told_as k l (figure_of ops k l) s); [|exact Hs].
  assert (H0' : told_as k l Current (∅ : rlc E, ∅ : mac_view)) by (unfold told_as; cbn; by rewrite lookup_empty).
  subst s. unfold rlc_run, figure_of. revert H0'. generalize (∅ : rlc E, ∅ : mac_view) Current.
  induction ops as [|op ops IH]; intros s f Hs; [done|]. cbn. by apply IH, told_step.
Qed.
End Facts.

(** ** A concrete entity *)

(** Bytes waiting per bearer. *)
Abbreviation bytes_waiting := (gmap Z Z).
Definition waiting (e : bytes_waiting) (l : Z) : Z := default 0 (e !! l).
Definition put_waiting (e : bytes_waiting) (l n : Z) : bytes_waiting :=
  if bool_decide (0 <= l < SRSLTE_N_RADIO_BEARERS) then <[l := n]> e else e.
Definition waiting_at (e : bytes_waiting) (l : Z) : Z := if bool_decide (0 <= l < SRSLTE_N_RADIO_BEARERS) then waiting e l else 0.

#[export] Instance waiting_entity : RlcEntity bytes_waiting := {|
  ent_new := ∅; ent_empty_queue e := ∅; ent_add_bearer e l := e; ent_add_bearer_mrb e l := e; ent_has_bearer e l := true;
  ent_suspend_bearer e l := e; ent_resume_bearer e l := e;
  ent_read_pdu e l n := let k := Z.min n (waiting_at e l) in (k, replicate (Z.to_nat k) 0, put_waiting e l (waiting_at e l - k));
  ent_read_pdu_mch e l n := (0, [], e);
  ent_buffer_state := waiting_at; ent_total_mch_buffer_state e l := 0;
  ent_write_pdu e l p := ([(l, p)], e);
  ent_write_sdu e l s := put_waiting e l (waiting_at e l + Z.of_nat (length s));
  ent_write_sdu_mch e l s := e; ent_discard_sdu e l n := e; ent_rb_is_um e l := false; ent_timers e := ([], e) |}.

Lemma waiting_put_ne e b n l : l <> b -> waiting_at (put_waiting e b n) l = waiting_at e l.
Proof.
  intros Hl. unfold waiting_at, put_waiting, waiting. repeat case_bool_decide; try done. by rewrite lookup_insert_ne.
Qed.

#[export] Instance waiting_laws : RlcEntityLaws bytes_waiting.
Proof.
  split; cbn; try done.
  - intros l. unfold waiting_at, waiting. rewrite lookup_empty. by case_bool_decide.
  - intros e l Hl. unfold waiting_at. by rewrite bool_decide_eq_false_2.
  - intros e b n l Hl. by apply waiting_put_ne.
  - intros e b s l Hl. by apply waiting_put_ne.
Qed.

Definition demo_rlc_ops : list rlc_op :=
  [Rop_add_user 70; Rop_add_bearer 70 1; Rop_write_sdu 70 1 [1; 2; 3; 4; 5]; Rop_read_pdu 70 1 2; Rop_write_sdu 71 1 [9]].

Lemma mac_view_current_witness :
  told (rlc_run (E := bytes_waiting) demo_rlc_ops).2 70 1 = 3 /\
  told (rlc_run (E := bytes_waiting) (demo_rlc_ops ++ [Rop_clear_buffer 70])).2 70 1 = 0.
Proof.
  split; [exact (mac_view_current demo_rlc_ops 70 1 ltac:(discriminate))|].
  exact (mac_view_current (demo_rlc_ops ++ [Rop_clear_buffer 70]) 70 1 ltac:(discriminate)).
Defined.
