(* ===== verification/Stack.v ===== *)
(** * The stack : [class enb_stack_nb]

    The layers wired together ([sonica_enb/stack/enb_stack_nb.cc],
    [hdr/stack/enb_stack_nb.h]): the events of each layer's model are calls of
    the others'.  A layer that makes its calls last in an operation, or to layers
    that do not call it back, is not affected by when they are carried out, so
    that they are carried out after the operation, in their order.  The stack's
    thread runs one task at a time; which comes next is open. *)
From S2P Require Import Prelude Tti RaNbiot SchedTypes SchedUe BcSched UeDb SchedGrid RaSched SchedCarrier SchedSafety Sched.
From S2P Require Import MacPdu Rar DlBlock MacUe MacUeRx Mac MacRun Rrc S1ap S1apRun Rlc.

Record stack (E P : Type) := mk_stack {
  k_mac : mac;
  k_rlc : rlc E;
  k_pdcp : pdcp P;
  k_rrc : rrc;
  k_s1ap : s1ap;
  k_started : bool
}.
Arguments mk_stack {E P} _ _ _ _ _ _.
Arguments k_mac {E P} _.
Arguments k_rlc {E P} _.
Arguments k_pdcp {E P} _.
Arguments k_rrc {E P} _.
Arguments k_s1ap {E P} _.
Arguments k_started {E P} _.
#[export] Instance eta_stack {E P} : Eta (stack E P) := {| eta := fun k =>
  mk_stack (k_mac k) (k_rlc k) (k_pdcp k) (k_rrc k) (k_s1ap k) (k_started k) |}.

(** What reaches the MME. *)
Definition sent (out : list s1_call) : list (Z * s1ap_tx) :=
  omap (fun c => match c with S_sctp st m => Some (st, m) | _ => None end) out.

Section Stack.
Context {E P : Type} `{RlcEntity E} `{PdcpEntity P}.
(** The parameters of the RRC and of the S1AP; [blank] is what a buffer of the
    pool holds before it is written. *)
Context (unpack_ccch : list Z -> option ul_ccch_msg) (unpack_dcch : list Z -> option ul_dcch_msg)
        (pack_dl : dl_msg -> option (list Z)) (pack_bcch : Z -> list Z) (allocate : nat -> option (list Z)).
Context (s1_allocate sendmsg connects : nat -> bool) (table_insert : user_list -> Z * s1ap_ue -> user_list)
        (unpack : list Z -> option s1ap_rx) (gtp_bind_addr : list Z) (blank : list Z).

Abbreviation stk := (stack E P).

(** A message in a fresh buffer. *)
Definition in_buffer (bytes : list Z) : byte_buffer := mk_byte_buffer (bb_write blank bytes) (Z.of_nat (length bytes)).

(** ** Calls of the RLC *)

(** Writing an SDU makes the RLC report to the MAC, and nothing else. *)
Definition do_report (k : stk) (c : rlc_call) : stk :=
  match c with
  | R_mac_buffer_state r l tx retx => k <| k_mac := snd (rlc_buffer_state (k_mac k) r l tx retx) |>
  | _ => k
  end.

Definition do_pdcp_call (k : stk) (c : pdcp_call) : stk :=
  match c with
  | P_rrc_write_pdu r l pdu => k <| k_rrc := rrc_write_pdu (k_rrc k) r l (in_buffer pdu) |>
  | P_rlc_write_sdu r l sdu =>
      let '(rl, out) := rlc_write_sdu (k_rlc k) r l sdu in fold_left do_report out (k <| k_rlc := rl |>)
  end.

Definition do_rlc_call (k : stk) (c : rlc_call) : stk :=
  match c with
  | R_mac_buffer_state r l tx retx => k <| k_mac := snd (rlc_buffer_state (k_mac k) r l tx retx) |>
  | R_rrc_write_pdu r l sdu => k <| k_rrc := rrc_write_pdu (k_rrc k) r l (in_buffer sdu) |>
  | R_pdcp_write_pdu r l sdu =>
      let '(p, out) := pdcp_write_pdu (k_pdcp k) r l sdu in fold_left do_pdcp_call out (k <| k_pdcp := p |>)
  end.

Definition with_rlc (k : stk) (a : rlc E * list rlc_call) : stk := fold_left do_rlc_call a.2 (k <| k_rlc := a.1 |>).

(** ** Calls of the RRC *)
Definition do_rrc_call (k : stk) (c : rrc_call) : res (stk * list (Z * s1ap_tx)) :=
  match c with
  | C_mac_ue_set_crnti t r cfg_ => Ok (k <| k_mac := snd (ue_set_crnti (k_mac k) t r (Some cfg_)) |>, [])
  | C_mac_ue_cfg r cfg_ => Ok (k <| k_mac := snd (mac_ue_cfg (k_mac k) r (Some cfg_)) |>, [])
  | C_mac_ue_rem r => Ok (k <| k_mac := snd (mac_ue_rem (k_mac k) r) |>, [])
  | C_rlc_add_user r => Ok (k <| k_rlc := rlc_add_user (k_rlc k) r |>, [])
  | C_rlc_rem_user r => Ok (k <| k_rlc := rlc_rem_user (k_rlc k) r |>, [])
  | C_rlc_clear_buffer r => Ok (with_rlc k (clear_buffer (k_rlc k) r), [])
  | C_rlc_add_bearer r l => Ok (k <| k_rlc := rlc_add_bearer (k_rlc k) r l |>, [])
  | C_rlc_write_sdu r l bytes => Ok (with_rlc k (rlc_write_sdu (k_rlc k) r l bytes), [])
  | C_pdcp_add_user r => Ok (k <| k_pdcp := pdcp_add_user (k_pdcp k) r |>, [])
  | C_pdcp_rem_user r => Ok (k <| k_pdcp := pdcp_rem_user (k_pdcp k) r |>, [])
  | C_pdcp_add_bearer r l => Ok (k <| k_pdcp := pdcp_add_bearer (k_pdcp k) r l |>, [])
  | C_s1ap_initial_ue r cause nas tmsi =>
      '(s, out) ← match tmsi with
                  | Some (t, m) => initial_ue_tmsi s1_allocate sendmsg table_insert (k_s1ap k) r cause nas t m
                  | None => initial_ue s1_allocate sendmsg table_insert (k_s1ap k) r cause nas
                  end;
      Ok (k <| k_s1ap := s |>, sent out)
  | C_s1ap_write_pdu r nas =>
      '(s, out) ← s1ap_write_pdu s1_allocate sendmsg (k_s1ap k) r nas; Ok (k <| k_s1ap := s |>, sent out)
  end.

Fixpoint do_rrc_calls (k : stk) (cs : list rrc_call) : res (stk * list (Z * s1ap_tx)) :=
  match cs with
  | [] => Ok (k, [])
  | c :: cs => '(k, out) ← do_rrc_call k c; '(k, out') ← do_rrc_calls k cs; Ok (k, out ++ out')
  end.

(** ** Calls of the MAC *)
Definition do_mac_event (k : stk) (e : mac_event) : res (stk * list (Z * s1ap_tx)) :=
  match e with
  | E_rlc_write p => Ok (with_rlc k (rlc_write_pdu (k_rlc k) (ev_rnti p) (ev_lcid p) (ev_bytes p)), [])
  | E_rrc_add_user r cfg_ => let '(rr, cs) := add_user (k_rrc k) r cfg_ in do_rrc_calls (k <| k_rrc := rr |>) cs
  end.

Fixpoint do_mac_events (k : stk) (es : list mac_event) : res (stk * list (Z * s1ap_tx)) :=
  match es with
  | [] => Ok (k, [])
  | e :: es => '(k, out) ← do_mac_event k e; '(k, out') ← do_mac_events k es; Ok (k, out ++ out')
  end.

(** ** Calls of the S1AP *)
Definition do_s1_call (k : stk) (c : s1_call) : res (stk * list (Z * s1ap_tx)) :=
  match c with
  | S_sctp st m => Ok (k, [(st, m)])
  | S_add_mme_socket => Ok (k, [])
  | S_rrc_write_dl_info r nas =>
      let '(rr, cs) := write_dl_info pack_dl allocate (k_rrc k) r (in_buffer nas) in do_rrc_calls (k <| k_rrc := rr |>) cs
  | S_rrc_release_complete r => Ok (k <| k_rrc := release_complete (k_rrc k) r |>, [])
  end.

Fixpoint do_s1_calls (k : stk) (cs : list s1_call) : res (stk * list (Z * s1ap_tx)) :=
  match cs with
  | [] => Ok (k, [])
  | c :: cs => '(k, out) ← do_s1_call k c; '(k, out') ← do_s1_calls k cs; Ok (k, out ++ out')
  end.

(** ** The calls of the stack *)

(** [init]: the layers are started in this order, once; the MAC reads the system
    information from the buffers of the RRC. *)
Definition stack_init (k : stk) : res (bool * stk * list (Z * s1ap_tx)) :=
  '(_, m) ← mac_init (k_mac k) true;
  rr ← rrc_init pack_bcch allocate (k_rrc k);
  '(s, out) ← s1ap_init s1_allocate sendmsg connects (k_s1ap k);
  let m := m <| m_bcch := match r_sibs rr with (Some b1, Some b2) => [bb_mem b1; bb_mem b2] | _ => [] end |> in
  Ok (true, k <| k_mac := m |> <| k_rrc := rr |> <| k_s1ap := s |> <| k_started := true |>, sent out).

(** [stop_impl]; the S1AP goes on. *)
Definition stack_stop (k : stk) : stk :=
  if k_started k then
    k <| k_mac := mac_stop (k_mac k) |> <| k_rlc := rlc_stop (k_rlc k) |> <| k_pdcp := pdcp_stop (k_pdcp k) |>
      <| k_rrc := rrc_stop (k_rrc k) |> <| k_started := false |>
  else k.

(** The timers that others took from the stack's: those of the S1AP, and those
    of the entities of the RLC. *)
Inductive due_timer := Due_s1setup | Due_mme_connect | Due_rlc (rnti_ : Z).

(** [timers.step_all]: the timers that are due, in order. *)
Definition step_timers (k : stk) (due : list due_timer) : res (stk * list (Z * s1ap_tx)) :=
  foldM (fun '(k, out) d =>
    match d with
    | Due_s1setup => Ok (k <| k_s1ap := s1setup_timeout_expired (k_s1ap k) |>, out)
    | Due_mme_connect =>
        '(s, out') ← mme_connect_expired s1_allocate sendmsg connects (k_s1ap k); Ok (k <| k_s1ap := s |>, out ++ sent out')
    | Due_rlc r => Ok (with_rlc k (rlc_timers (k_rlc k) r), out)
    end) due (k, []).

(** [tti_clock_impl] *)
Definition tti_clock_impl (k : stk) (due : list due_timer) : res (stk * list (Z * s1ap_tx)) :=
  '(k, out) ← step_timers k due;
  '(rr, cs) ← Rrc.tti_clock unpack_ccch unpack_dcch pack_dl allocate (k_rrc k);
  '(k, out') ← do_rrc_calls (k <| k_rrc := rr |>) cs;
  Ok (k, out ++ out').

Definition handle_mme_rx_packet (k : stk) (rx : sctp_rx) : res (stk * list (Z * s1ap_tx)) :=
  '(_, s, out) ← handle_mme_rx_msg s1_allocate sendmsg connects unpack (k_s1ap k) rx;
  do_s1_calls (k <| k_s1ap := s |>) out.

Definition stack_rach_detected (k : stk) (tti preamble_idx_ time_adv : Z) : stk :=
  k <| k_mac := rach_detected (k_mac k) tti preamble_idx_ time_adv |>.
Definition stack_crc_info (k : stk) (tti rnti_ nof_bytes : Z) (crc : bool) : res (Z * stk) :=
  '(ret, m) ← crc_info (k_mac k) tti rnti_ nof_bytes crc; Ok (ret, k <| k_mac := m |>).

(** A task of the MAC's queue. *)
Definition stack_run_task (k : stk) : res (stk * list (Z * s1ap_tx)) :=
  '(m, es) ← run_task (k_mac k); do_mac_events (k <| k_mac := m |>) es.

(** The RLC is read while blocks are composed; the MAC's scheduler hears of what
    is left, which it does not look at before the call is over. *)
Definition read_through (rnti_ : Z) (st : rlc E * list rlc_call) (lcid_ n : Z) : Z * list Z * (rlc E * list rlc_call) :=
  let '(ret, bytes, r, out) := rlc_read_pdu st.1 rnti_ lcid_ n in (ret, bytes, (r, st.2 ++ out)).

Definition stack_get_dl_sched (k : stk) (hfn tti : Z) (out : dl_sched_t) : res (Z * dl_sched_t * stk) :=
  '(ret, out, m, st) ← get_dl_sched read_through (k_mac k) (k_rlc k, []) hfn tti out;
  Ok (ret, out, with_rlc (k <| k_mac := m |>) st).
Definition stack_get_ul_sched (k : stk) (hfn tti : Z) (out : list ul_sched_grant_t) : res (Z * list ul_sched_grant_t * stk) :=
  '(ret, out, m) ← get_ul_sched (k_mac k) hfn tti out; Ok (ret, out, k <| k_mac := m |>).
End Stack.

(** ** Facts *)

(** MAC and scheduler have the device, the scheduler with this user. *)
Definition knows (m : mac) (r : Z) (su : sched_ue) : Prop :=
  is_Some (m_ue_db m !! r) /\ exists id, db_map (ue_db (m_sched m)) !! r = Some (id, su).

Lemma knows_buffer m r su l tx retx : r <> SRSLTE_MRNTI -> knows m r su ->
  knows (snd (rlc_buffer_state m r l tx retx)) r (dl_buffer_state su l tx retx).
Proof.
  intros Hr [[mu Hm] [id Hs]]. unfold rlc_buffer_state. rewrite Hm. destruct (Z.eqb_spec r SRSLTE_MRNTI); [done|].
  cbn [negb]. unfold sched_dl_rlc_buffer_state, ue_db_access. rewrite Hs. cbn. split; [by exists mu|].
  exists id. cbn. apply lookup_insert_eq.
Qed.

Lemma knows_crnti m r su c : knows m r su ->
  knows (snd (ue_set_crnti m r r (Some c))) r (mac_buffer_state (set_cfg su c) CON_RES_ID 1).
Proof.
  intros [[mu Hm] [id Hs]]. unfold ue_set_crnti, mac_ue_cfg. rewrite Hm.
  unfold sched_ue_cfg, ue_db_access. cbn [m_sched upd eta]. rewrite !Hs. cbn. rewrite Z.eqb_refl. cbn.
  unfold sched_dl_mac_buffer_state, ue_db_access. cbn. rewrite lookup_insert_eq. cbn. split.
  - eexists. cbn. apply lookup_insert_eq.
  - exists id. cbn. by rewrite !lookup_insert_eq.
Qed.

Lemma get_set_lch u i b : 0 <= i < Z.of_nat (length (lch u)) -> get_lch (set_lch u i b) i = b.
Proof. intros Hi. unfold get_lch, set_lch. cbn. rewrite nth_lookup, list_lookup_insert_eq; [done|lia]. Qed.

Lemma dl_buffer_state_lch u l tx retx : length (lch u) = 6%nat -> 0 <= l < 6 ->
  buf_tx (get_lch (dl_buffer_state u l tx retx) l) = i32 tx /\ length (lch (dl_buffer_state u l tx retx)) = 6%nat /\
  pending_ces (dl_buffer_state u l tx retx) = pending_ces u.
Proof.
  intros Hl Hi. unfold dl_buffer_state, MAX_LC. rewrite u8_id by lia. replace (l <? _) with true by lia.
  rewrite get_set_lch by lia. split_and!; [done| |done]. cbn. by rewrite length_insert.
Qed.

Lemma mac_buffer_state_length u c n : length (lch (mac_buffer_state u c n)) = length (lch u).
Proof. done. Qed.

Lemma conres_first u : pending_ces (mac_buffer_state u CON_RES_ID 1) = CON_RES_ID :: pending_ces u.
Proof. done. Qed.

Lemma set_cfg_frame u c : length (lch (set_cfg u c)) = length (lch u) /\ pending_ces (set_cfg u c) = pending_ces u.
Proof.
  unfold set_cfg. change (length (lch u)) with (length (lch (u <| cfg := c |>))).
  change (pending_ces u) with (pending_ces (u <| cfg := c |>)). generalize (u <| cfg := c |>) as v.
  induction (range 0 6) as [|i l IH]; intros v; [done|]. cbn [fold_left]. destruct (IH (set_bearer_cfg_unlocked v i
    (nth (Z.to_nat i) (ue_bearers (cfg v)) ue_bearer_cfg_zero))) as [E1 E2]. rewrite E1, E2. unfold set_bearer_cfg_unlocked.
  destruct (i <? MAX_LC); [|done]. split; [|done]. unfold set_lch. cbn. by rewrite length_insert.
Qed.

Section Signalling.
Context {E P : Type} `{RlcEntity E} `{PdcpEntity P}.
Context (unpack_ccch : list Z -> option ul_ccch_msg) (unpack_dcch : list Z -> option ul_dcch_msg)
        (pack_dl : dl_msg -> option (list Z)) (allocate : nat -> option (list Z)).
Context (s1_allocate sendmsg connects : nat -> bool) (table_insert : user_list -> Z * s1ap_ue -> user_list)
        (unpack : list Z -> option s1ap_rx) (blank : list Z).
Context (insert_perm : forall l p, table_insert l p ≡ₚ p :: l).

Abbreviation clock' := (tti_clock_impl (E := E) (P := P) unpack_ccch unpack_dcch pack_dl allocate s1_allocate sendmsg connects table_insert).
Abbreviation do_calls := (do_rrc_calls (E := E) (P := P) s1_allocate sendmsg table_insert).
Abbreviation from_rlc := (do_rlc_call (E := E) (P := P) blank).

Lemma in_buffer_bytes bytes : bb_bytes (in_buffer blank bytes) = bytes.
Proof. unfold bb_bytes, in_buffer, bb_write. cbn. by rewrite Nat2Z.id, take_app_length. Qed.

(** A message of the RRC on its way to the device: the entity has it, and the
    scheduler knows what is waiting. *)
Lemma written_sdu k r e su l bytes : r <> SRSLTE_MRNTI -> k_rlc k !! r = Some e -> knows (k_mac k) r su ->
  let e' := ent_write_sdu e l bytes in
  exists m', with_rlc blank k (rlc_write_sdu (k_rlc k) r l bytes) = k <| k_rlc := <[r := e']> (k_rlc k) |> <| k_mac := m' |> /\
    knows m' r (dl_buffer_state su l (ent_buffer_state e' l) 0).
Proof.
  intros Hr He Hk e'. unfold with_rlc, rlc_write_sdu. rewrite He. destruct (Z.eqb_spec r SRSLTE_MRNTI); [done|]. cbn.
  eexists. split; [reflexivity|]. by apply knows_buffer.
Qed.

(** The user of the RRC after a request that came in while nothing else was
    waiting, the entity of the RLC and the user of the scheduler. *)
Definition requested_rrc (rr : rrc) (r : Z) (u : rrc_ue) (mmec_ m_tmsi_ : Z) (cause : establishment_cause_nb) : rrc :=
  put_ue (rr <| r_queue := [] |> <| r_allocs := S (r_allocs rr) |>) r (con_requested u mmec_ m_tmsi_ cause).
Definition requested_entity (e : E) (sdu : list Z) : E :=
  ent_write_sdu (ent_add_bearer (ent_add_bearer e 1) 3) RB_ID_SRB0 sdu.

Lemma clock_calls k rr cs : Rrc.tti_clock unpack_ccch unpack_dcch pack_dl allocate (k_rrc k) = Ok (rr, cs) ->
  clock' blank k [] = do_calls blank (k <| k_rrc := rr |>) cs.
Proof.
  intros Hc. unfold tti_clock_impl, step_timers. cbn [foldM]. rewrite bind_ok_l, Hc, bind_ok_l.
  destruct (do_calls blank (k <| k_rrc := rr |>) cs) as [[k' out]|ub|]; done.
Qed.

Lemma request_through k r u e su mmec_ m_tmsi_ cause b mem bytes :
  r <> SRSLTE_MRNTI -> knows (k_mac k) r su -> k_rlc k !! r = Some e ->
  r_queue (k_rrc k) = [] -> r_users (k_rrc k) !! r = Some u -> ru_rnti u = r ->
  unpack_ccch b = Some (Rrc_conn_request (Id_s_tmsi mmec_ m_tmsi_) cause) ->
  allocate (r_allocs (k_rrc k)) = Some mem -> pack_dl (Dl_conn_setup (ru_transaction_id u mod 4)) = Some bytes ->
  let e1 := requested_entity e (bytes ++ take 1 (drop (length bytes) mem)) in
  exists m1,
    clock' blank (from_rlc k (R_rrc_write_pdu r RB_ID_SRB0 b)) [] =
    Ok (k <| k_rrc := requested_rrc (k_rrc k) r u mmec_ m_tmsi_ cause |> <| k_pdcp := pdcp_add_bearer (k_pdcp k) r 1 |>
          <| k_rlc := <[r := e1]> (k_rlc k) |> <| k_mac := m1 |>, []) /\
    knows m1 r (dl_buffer_state (mac_buffer_state (set_cfg su (setup_cfg u)) CON_RES_ID 1) RB_ID_SRB0 (ent_buffer_state e1 RB_ID_SRB0) 0).
Proof.
  intros Hr Hk He Hq Hu Er Hreq Ha Hp e1. pose (sdu := bytes ++ take 1 (drop (length bytes) mem)).
  pose (m0 := snd (ue_set_crnti (k_mac k) r r (Some (setup_cfg u)))).
  pose (k4 := k <| k_rrc := requested_rrc (k_rrc k) r u mmec_ m_tmsi_ cause |> <| k_mac := m0 |>
    <| k_rlc := <[r := ent_add_bearer (ent_add_bearer e 1) 3]> (k_rlc k) |> <| k_pdcp := pdcp_add_bearer (k_pdcp k) r 1 |>).
  destruct (written_sdu k4 r (ent_add_bearer (ent_add_bearer e 1) 3) (mac_buffer_state (set_cfg su (setup_cfg u)) CON_RES_ID 1)
    RB_ID_SRB0 sdu Hr) as (m1 & Hw & Hk1); [apply lookup_insert_eq|by apply knows_crnti|].
  exists m1. split; [|exact Hk1]. erewrite clock_calls.
  2:{ cbn [from_rlc do_rlc_call k_rrc upd eta]. eapply con_req_clock; [done..| |done|done]. by rewrite in_buffer_bytes. }
  cbn [do_rrc_calls do_rrc_call]. rewrite !bind_ok_l.
  assert (Hb : rlc_add_bearer (rlc_add_bearer (k_rlc k) r 1) r 3 = <[r := ent_add_bearer (ent_add_bearer e 1) 3]> (k_rlc k)).
  { unfold rlc_add_bearer, on_user. rewrite He, lookup_insert_eq. apply insert_insert_eq. }
  match goal with |- context [with_rlc blank ?k0 (rlc_write_sdu ?r0 r ?l ?s0)] =>
    replace (with_rlc blank k0 (rlc_write_sdu r0 r l s0)) with (with_rlc blank k4 (rlc_write_sdu (k_rlc k4) r RB_ID_SRB0 sdu)) end.
  2:{ change (with_rlc blank k4 (rlc_write_sdu (k_rlc k4) r RB_ID_SRB0 sdu) =
        with_rlc blank (k4 <| k_rlc := rlc_add_bearer (rlc_add_bearer (k_rlc k) r 1) r 3 |>)
          (rlc_write_sdu (rlc_add_bearer (rlc_add_bearer (k_rlc k) r 1) r 3) r RB_ID_SRB0 sdu)). by rewrite Hb. }
  rewrite Hw. cbn. rewrite insert_insert_eq. done.
Qed.

(** The setup complete message is announced to the MME. *)
Lemma complete_through k r u t m b nas :
  let id := s_next_enb_ue_s1ap_id (k_s1ap k) in let st := s_next_ue_stream_id (k_s1ap k) in
  (forall n, s1_allocate n = true) -> users_wf (s_users (k_s1ap k)) -> s_mme_connected (k_s1ap k) = true ->
  r <> SRSLTE_INVALID_RNTI -> find_ue_rnti (s_users (k_s1ap k)) r = None ->
  find_ue_enbid (s_users (k_s1ap k)) id = None -> find_ue_mmeid (s_users (k_s1ap k)) 0 = None ->
  r_queue (k_rrc k) = [] -> r_users (k_rrc k) !! r = Some u -> ru_rnti u = r -> ru_has_tmsi u = true ->
  ru_m_tmsi u = t -> ru_mmec u = m ->
  unpack_dcch b = Some (Rrc_conn_setup_complete nas) -> Z.of_nat (length nas) <= BUFFER_ROOM ->
  exists s2,
    clock' blank (from_rlc k (R_rrc_write_pdu r RB_ID_SRB1BIS b)) [] =
    Ok (k <| k_rrc := put_ue ((k_rrc k) <| r_queue := [] |>) r (con_completed u) |> <| k_s1ap := s2 |>,
        [(st, Tx_initial_ue id (cast_cause (ru_cause u)) nas (Some (t, m)))]) /\
    users_wf (s_users s2) /\ (id, mk_s1ap_ue false r id 0 st false) ∈ s_users s2 /\ s_socket s2 = s_socket (k_s1ap k).
Proof.
  intros id st Ha Hw Hc Hr Hr0 He0 Hm0 Hq Hu Er Ht Et Em Hm Hl.
  destruct (announce_known s1_allocate sendmsg table_insert insert_perm (k_s1ap k) r (cast_cause (ru_cause u)) nas t m)
    as (s2 & Hi & Hw2 & Hin2 & _ & Hs2); [done..|].
  exists s2. split; [|done]. erewrite clock_calls.
  2:{ cbn [from_rlc do_rlc_call k_rrc upd eta]. eapply con_complete_clock; [done..| |done]. by rewrite in_buffer_bytes. }
  cbn [do_rrc_calls do_rrc_call]. rewrite Ht, Et, Em.
  match goal with |- context [initial_ue_tmsi _ _ _ ?s0 _ _ _ _ _] => change s0 with (k_s1ap k) end.
  rewrite Hi, !bind_ok_l. done.
Qed.

(** A message of the MME is written to the RLC. *)
Lemma nas_through k r u e su v i nas b bytes :
  (forall n, s1_allocate n = true) -> users_wf (s_users (k_s1ap k)) -> (su_enb_ue_s1ap_id v, v) ∈ s_users (k_s1ap k) ->
  su_rnti v = r -> s_socket (k_s1ap k) = true -> r <> SRSLTE_MRNTI ->
  r_users (k_rrc k) !! r = Some u -> ru_rnti u = r -> k_rlc k !! r = Some e -> knows (k_mac k) r su ->
  b <> [] -> unpack b = Some (Rx_dl_nas_transport (su_enb_ue_s1ap_id v) i nas) -> Z.of_nat (length nas) <= BUFFER_ROOM ->
  pack_dl (Dl_info_transfer nas) = Some bytes ->
  let e' := ent_write_sdu e RB_ID_SRB1BIS (bytes ++ take 1 (drop (length bytes) (bb_write blank nas))) in
  exists k', handle_mme_rx_packet pack_dl allocate s1_allocate sendmsg connects table_insert unpack blank k (Sctp_data b) = Ok (k', []) /\
    k_rlc k' !! r = Some e' /\ knows (k_mac k') r (dl_buffer_state su RB_ID_SRB1BIS (ent_buffer_state e' RB_ID_SRB1BIS) 0).
Proof.
  intros Ha Hw Hin Er Hs Hr Hu Eu He Hk Hb Hm Hl Hp e'.
  destruct (dl_nas_known s1_allocate sendmsg connects unpack (k_s1ap k) v i nas b) as (s' & Hrx); [done..|].
  pose (sdu := bytes ++ take 1 (drop (length bytes) (bb_write blank nas))).
  pose (k1 := k <| k_s1ap := s' |>).
  destruct (written_sdu k1 r e su RB_ID_SRB1BIS sdu Hr He Hk) as (m' & Hwr & Hk').
  exists (k1 <| k_rlc := <[r := e']> (k_rlc k1) |> <| k_mac := m' |>). split_and!; [|apply lookup_insert_eq|exact Hk'].
  unfold handle_mme_rx_packet. rewrite Hrx, bind_ok_l. fold k1. cbn [do_s1_calls do_s1_call]. rewrite Er.
  assert (Hd : write_dl_info pack_dl allocate (k_rrc k1) r (in_buffer blank nas) =
    (k_rrc k1, [C_rlc_write_sdu r RB_ID_SRB1BIS sdu])).
  { unfold write_dl_info. change (k_rrc k1) with (k_rrc k). rewrite Hu, in_buffer_bytes. unfold send_dl_dcch. cbn.
    by rewrite Hp, Eu, sent_bytes. }
  rewrite Hd. cbn [do_rrc_calls do_rrc_call]. rewrite !bind_ok_l.
  change (k1 <| k_rrc := k_rrc k1 |>) with k1. by rewrite Hwr.
Qed.

(** C25. Signalling from end to end.  A connection request the RLC delivers is
    answered on SRB0, and the scheduler then has the contention resolution to
    send and the exact size of the answer waiting; the setup complete message
    becomes the announcement of the device at the core network, with its
    S-TMSI and NAS message; and what the MME sends back to that name ends up
    in the RLC of the device on SRB1bis, with its size known to the scheduler.
    Nothing else goes to the MME. *)
Theorem signalling_end_to_end k r u e su mmec_ m_tmsi_ cause b1 b2 b3 mem bytes nas nas2 i bytes2 :
  let s := k_s1ap k in let id := s_next_enb_ue_s1ap_id s in let st := s_next_ue_stream_id s in
  r <> SRSLTE_INVALID_RNTI -> r <> SRSLTE_MRNTI ->
  knows (k_mac k) r su -> length (lch su) = 6%nat -> k_rlc k !! r = Some e ->
  r_queue (k_rrc k) = [] -> r_users (k_rrc k) !! r = Some u -> ru_rnti u = r ->
  users_wf (s_users s) -> s_mme_connected s = true -> s_socket s = true -> (forall n, s1_allocate n = true) ->
  find_ue_rnti (s_users s) r = None -> find_ue_enbid (s_users s) id = None -> find_ue_mmeid (s_users s) 0 = None ->
  unpack_ccch b1 = Some (Rrc_conn_request (Id_s_tmsi mmec_ m_tmsi_) cause) ->
  allocate (r_allocs (k_rrc k)) = Some mem -> pack_dl (Dl_conn_setup (ru_transaction_id u mod 4)) = Some bytes ->
  unpack_dcch b2 = Some (Rrc_conn_setup_complete nas) -> Z.of_nat (length nas) <= BUFFER_ROOM ->
  b3 <> [] -> unpack b3 = Some (Rx_dl_nas_transport id i nas2) -> Z.of_nat (length nas2) <= BUFFER_ROOM ->
  pack_dl (Dl_info_transfer nas2) = Some bytes2 ->
  let e1 := requested_entity e (bytes ++ take 1 (drop (length bytes) mem)) in
  let e3 := ent_write_sdu e1 RB_ID_SRB1BIS (bytes2 ++ take 1 (drop (length bytes2) (bb_write blank nas2))) in
  exists k1 k2 k3 su1 su3,
    clock' blank (from_rlc k (R_rrc_write_pdu r RB_ID_SRB0 b1)) [] = Ok (k1, []) /\
    knows (k_mac k1) r su1 /\ pending_ces su1 = CON_RES_ID :: pending_ces su /\
    buf_tx (get_lch su1 RB_ID_SRB0) = i32 (ent_buffer_state e1 RB_ID_SRB0) /\
    clock' blank (from_rlc k1 (R_rrc_write_pdu r RB_ID_SRB1BIS b2)) [] =
      Ok (k2, [(st, Tx_initial_ue id (cast_cause cause) nas (Some (u32 m_tmsi_, u8 mmec_)))]) /\
    handle_mme_rx_packet pack_dl allocate s1_allocate sendmsg connects table_insert unpack blank k2 (Sctp_data b3) = Ok (k3, []) /\
    k_rlc k3 !! r = Some e3 /\ knows (k_mac k3) r su3 /\
    buf_tx (get_lch su3 RB_ID_SRB1BIS) = i32 (ent_buffer_state e3 RB_ID_SRB1BIS).
Proof.
  intros s id st Hr Hr' Hk Hlch He Hq Hu Er Hw Hc Hso Ha Hf1 Hf2 Hf3 Hb1 Hal Hp Hb2 Hn Hb3 Hb3' Hn2 Hp2 e1 e3.
  destruct (request_through k r u e su mmec_ m_tmsi_ cause b1 mem bytes) as (m1 & Hclk & Hk1); [done..|].
  match type of Hclk with _ = Ok (?x, _) => set (k1 := x) in Hclk end. fold e1 in Hk1.
  match type of Hk1 with knows _ _ ?x => set (su1 := x) in Hk1 end.
  assert (Hu1 : r_users (k_rrc k1) !! r = Some (con_requested u mmec_ m_tmsi_ cause)) by apply lookup_insert_eq.
  destruct (complete_through k1 r (con_requested u mmec_ m_tmsi_ cause) (u32 m_tmsi_) (u8 mmec_) b2 nas)
    as (s2 & Hclk2 & Hw2 & Hin2 & Hs2); [done..|].
  match type of Hclk2 with _ = Ok (?x, _) => set (k2 := x) in Hclk2 end.
  destruct (nas_through k2 r (con_completed (con_requested u mmec_ m_tmsi_ cause)) e1 su1
    (mk_s1ap_ue false r id 0 st false) i nas2 b3 bytes2) as (k3 & Hrx & He3 & Hk3); try done.
  { change (s_socket s2 = true). by rewrite Hs2. }
  { apply lookup_insert_eq. }
  { apply lookup_insert_eq. }
  destruct (set_cfg_frame su (setup_cfg u)) as [El Ep].
  destruct (dl_buffer_state_lch (mac_buffer_state (set_cfg su (setup_cfg u)) CON_RES_ID 1) RB_ID_SRB0 (ent_buffer_state e1 RB_ID_SRB0) 0)
    as (B1 & L1 & P1); [by rewrite mac_buffer_state_length, El|unfold RB_ID_SRB0; lia|]. fold su1 in B1, L1, P1.
  destruct (dl_buffer_state_lch su1 RB_ID_SRB1BIS (ent_buffer_state e3 RB_ID_SRB1BIS) 0 L1) as (B3 & _); [unfold RB_ID_SRB1BIS; lia|].
  exists k1, k2, k3, su1. eexists. split_and!; [exact Hclk|exact Hk1| |exact B1|exact Hclk2|exact Hrx|exact He3|exact Hk3|exact B3].
  by rewrite P1, conres_first, Ep.
Qed.
End Signalling.

(** ** A concrete run *)
#[export] Instance no_pdcp : PdcpEntity unit := {|
  pd_new := tt; pd_add_bearer p l := p; pd_add_bearer_mrb p l := p; pd_reset p := p; pd_config_security p l := p;
  pd_enable_integrity p l := p; pd_enable_encryption p l := p; pd_get_bearer_status p l := None;
  pd_write_pdu p l b := ([], p); pd_write_sdu p l b := ([], p); pd_write_sdu_mch p l b := ([], p) |}.

(** Started, connected to the MME, and one preamble handled. *)
Definition demo_blank : list Z := replicate 8 170.
Definition demo_attached : res (stack (gmap Z Z) unit * list (Z * s1ap_tx)) :=
  '(_, k, _) ← stack_init (fun _ => [1; 2; 3; 4]) demo_alloc yes yes yes (mk_stack (mac_new []) ∅ ∅ rrc_new s1ap_new false);
  '(k, _) ← handle_mme_rx_packet demo_pack demo_alloc yes yes yes front demo_unpack demo_blank k (Sctp_data [3]);
  stack_run_task yes yes front demo_blank (stack_rach_detected k 64 3 5).
Definition demo_stack : stack (gmap Z Z) unit :=
  match demo_attached with Ok (k, _) => k | _ => mk_stack (mac_new []) ∅ ∅ rrc_new s1ap_new false end.
Definition demo_sched_ue : sched_ue :=
  match db_map (ue_db (m_sched (k_mac demo_stack))) !! 4097 with Some (_, u) => u | None => sched_ue_new end.
Definition demo_rrc_ue : rrc_ue :=
  match r_users (k_rrc demo_stack) !! 4097 with Some u => u | None => rrc_ue_new 0 ue_cfg_zero end.

Lemma demo_knows : knows (k_mac demo_stack) 4097 demo_sched_ue.
Proof.
  split.
  - assert (E : bool_decide (is_Some (m_ue_db (k_mac demo_stack) !! 4097)) = true) by (vm_compute; reflexivity).
    by apply bool_decide_eq_true_1 in E.
  - exists 0. vm_compute. reflexivity.
Qed.

Lemma demo_no_users : users_wf (s_users (k_s1ap demo_stack)).
Proof. assert (E : s_users (k_s1ap demo_stack) = []) by (vm_compute; reflexivity). rewrite E. apply new_users_wf. Qed.

Lemma signalling_end_to_end_witness : exists k1 k2 k3,
  tti_clock_impl demo_ccch demo_dcch demo_pack demo_alloc yes yes yes front demo_blank
    (do_rlc_call demo_blank demo_stack (R_rrc_write_pdu 4097 RB_ID_SRB0 [1; 5; 6])) [] = Ok (k1, []) /\
  tti_clock_impl demo_ccch demo_dcch demo_pack demo_alloc yes yes yes front demo_blank
    (do_rlc_call demo_blank k1 (R_rrc_write_pdu 4097 RB_ID_SRB1BIS [2; 7; 9])) [] =
    Ok (k2, [(1, Tx_initial_ue 1 S_emergency [7; 9] (Some (6, 5)))]) /\
  handle_mme_rx_packet demo_pack demo_alloc yes yes yes front demo_unpack demo_blank k2 (Sctp_data [1; 1; 33; 8]) = Ok (k3, []).
Proof.
  destruct (signalling_end_to_end demo_ccch demo_dcch demo_pack demo_alloc yes yes yes front demo_unpack demo_blank front_perm
    demo_stack 4097 demo_rrc_ue ∅ demo_sched_ue 5 6 mt_access [1; 5; 6] [2; 7; 9] [1; 1; 33; 8] (replicate 8 170) [16] [7; 9] [8] 33 [64; 8])
    as (k1 & k2 & k3 & su1 & su3 & H1 & _ & _ & _ & H2 & H3 & _);
    [discriminate|discriminate|exact demo_knows|vm_compute; reflexivity|vm_compute; reflexivity|vm_compute; reflexivity
    |vm_compute; reflexivity|vm_compute; reflexivity|exact demo_no_users|vm_compute; reflexivity|vm_compute; reflexivity
    |intros n; reflexivity|vm_compute; reflexivity|vm_compute; reflexivity|vm_compute; reflexivity|reflexivity|reflexivity
    |vm_compute; reflexivity|reflexivity|vm_compute; discriminate|discriminate|vm_compute; reflexivity|vm_compute; discriminate
    |reflexivity|].
  assert (Et : s_next_ue_stream_id (k_s1ap demo_stack) = 1) by (vm_compute; reflexivity).
  assert (Ei : s_next_enb_ue_s1ap_id (k_s1ap demo_stack) = 1) by (vm_compute; reflexivity).
  rewrite Et, Ei in H2. exists k1, k2, k3. split; [exact H1|]. split; [exact H2|exact H3].
Defined.
