(* ===== verification/Bcd.v ===== *)
(** * Names of networks

    The conversions between the BCD codes of a mobile country and network code,
    their digits and the PLMN of the S1AP
    ([third_party/srslte/include/srslte/common/bcd_helpers.h],
    [interfaces/rrc_interface_types.h]).  Characters are their codes. *)
From S2P Require Import Prelude.

Definition isdigit (c : Z) : bool := (48 <=? c) && (c <=? 57).
Definition chr (d : Z) : Z := u8 (d + 48).

(** ** Country and network codes *)
Definition mcc_to_string (mcc : Z) : option (list Z) :=
  if negb (Z.land mcc 0xF000 =? 0xF000) then None else
  Some [chr (Z.shiftr (Z.land mcc 0x0F00) 8); chr (Z.shiftr (Z.land mcc 0x00F0) 4); chr (Z.land mcc 0x000F)].

Definition mnc_to_string (mnc : Z) : option (list Z) :=
  if negb (Z.land mnc 0xF000 =? 0xF000) then None else
  Some ((if negb (Z.land mnc 0xFF00 =? 0xFF00) then [chr (Z.shiftr (Z.land mnc 0x0F00) 8)] else []) ++
        [chr (Z.shiftr (Z.land mnc 0x00F0) 4); chr (Z.land mnc 0x000F)]).

Definition string_to_mcc (s : list Z) : option Z :=
  match s with
  | [a; b; c] =>
      if negb (isdigit a && isdigit b && isdigit c) then None else
      Some (Z.lor (Z.lor (Z.lor 0xF000 (Z.shiftl (u8 (a - 48)) 8)) (Z.shiftl (u8 (b - 48)) 4)) (u8 (c - 48)))
  | _ => None
  end.

Definition string_to_mnc (s : list Z) : option Z :=
  match s with
  | [a; b; c] =>
      if negb (isdigit a && isdigit b && isdigit c) then None else
      Some (Z.lor (Z.lor (Z.lor 0xF000 (Z.shiftl (u8 (a - 48)) 8)) (Z.shiftl (u8 (b - 48)) 4)) (u8 (c - 48)))
  | [a; b] =>
      if negb (isdigit a && isdigit b) then None else
      Some (Z.lor (Z.lor 0xFF00 (Z.shiftl (u8 (a - 48)) 4)) (u8 (b - 48)))
  | _ => None
  end.

Definition mcc_to_bytes (mcc : Z) : option (list Z) :=
  if negb (Z.land mcc 0xF000 =? 0xF000) then None else
  Some [Z.shiftr (Z.land mcc 0xF00) 8; Z.shiftr (Z.land mcc 0x0F0) 4; Z.land mcc 0x00F].

Definition mnc_to_bytes (mnc : Z) : option (list Z) :=
  if negb (Z.land mnc 0xF000 =? 0xF000) then None else
  Some ((if negb (Z.land mnc 0xFF00 =? 0xFF00) then [Z.shiftr (Z.land mnc 0xF00) 8] else []) ++
        [Z.shiftr (Z.land mnc 0x00F0) 4; Z.land mnc 0x000F]).

(** ** [plmn_id_t]: the digits, those of the network code as many as it has *)
Record plmn_id_t := mk_plmn_id { pl_mcc : list Z; pl_mnc : list Z }.

(** A country code that is not one leaves the digits it has, all 0 here. *)
Definition plmn_from_number (mcc_num mnc_num : Z) : option plmn_id_t :=
  match mnc_to_bytes mnc_num with
  | Some mnc => Some (mk_plmn_id (default [0; 0; 0] (mcc_to_bytes mcc_num)) mnc)
  | None => None
  end.

Definition plmn_from_string (s : list Z) : option plmn_id_t :=
  if (length s <? 5)%nat || (6 <? length s)%nat then None else
  match string_to_mcc (take 3 s), string_to_mnc (drop 3 s) with
  | Some mcc, Some mnc => plmn_from_number mcc mnc
  | _, _ => None
  end.

Definition bytes_to_mcc (bytes : list Z) : Z :=
  Z.lor (Z.lor (Z.lor 0xF000 (Z.shiftl (bytes !!! 0%nat) 8)) (Z.shiftl (bytes !!! 1%nat) 4)) (bytes !!! 2%nat).
Definition bytes_to_mnc (bytes : list Z) : Z :=
  match bytes with
  | [a; b; c] => Z.lor (Z.lor (Z.lor 0xF000 (Z.shiftl a 8)) (Z.shiftl b 4)) c
  | [a; b] => Z.lor (Z.lor 0xFF00 (Z.shiftl a 4)) b
  | _ => 0
  end.
Definition to_number (p : plmn_id_t) : Z * Z := (bytes_to_mcc (pl_mcc p), bytes_to_mnc (pl_mnc p)).

(** ** The PLMN of the S1AP: six digits in swapped nibbles *)
Definition s1ap_mccmnc_to_plmn (mcc mnc : Z) : Z :=
  let n1 := Z.shiftr (Z.land mcc 0x0F00) 8 in
  let n0 := Z.shiftr (Z.land mcc 0x00F0) 4 in
  let n3 := Z.land mcc 0x000F in
  let n2 := if Z.land mnc 0xFF00 =? 0xFF00 then 0x0F else Z.shiftr (Z.land mnc 0x0F00) 8 in
  let n5 := Z.shiftr (Z.land mnc 0x00F0) 4 in
  let n4 := Z.land mnc 0x000F in
  Z.lor (Z.lor (Z.lor (Z.lor (Z.lor (Z.shiftl n0 20) (Z.shiftl n1 16)) (Z.shiftl n2 12)) (Z.shiftl n3 8)) (Z.shiftl n4 4)) n5.

Definition s1ap_plmn_to_mccmnc (plmn : Z) : Z * Z :=
  let n0 := Z.shiftr (Z.land plmn 0xF00000) 20 in
  let n1 := Z.shiftr (Z.land plmn 0x0F0000) 16 in
  let n2 := Z.shiftr (Z.land plmn 0x00F000) 12 in
  let n3 := Z.shiftr (Z.land plmn 0x000F00) 8 in
  let n4 := Z.shiftr (Z.land plmn 0x0000F0) 4 in
  let n5 := Z.land plmn 0x00000F in
  (Z.lor (Z.lor (Z.lor 0xF000 (Z.shiftl n1 8)) (Z.shiftl n0 4)) n3,
   Z.lor (Z.lor (Z.lor 0xF000 (if n2 =? 0xF then 0x0F00 else Z.shiftl n2 8)) (Z.shiftl n5 4)) n4).

Definition to_s1ap_plmn (p : plmn_id_t) : Z := let '(mcc, mnc) := to_number p in s1ap_mccmnc_to_plmn mcc mnc.

(** ** Nibbles *)
Lemma nibble_at x m n : m = 15 * 2 ^ n -> 0 <= n -> Z.shiftr (Z.land x m) n = (x / 2 ^ n) mod 16.
Proof.
  intros -> Hn. rewrite Z.shiftr_land, <- Z.shiftl_mul_pow2 by done. rewrite Z.shiftr_shiftl_l, Z.sub_diag by done.
  rewrite Z.shiftr_div_pow2 by done. apply (Z.land_ones _ 4). done.
Qed.
Lemma nibble_low x : Z.land x 15 = x mod 16.
Proof. by apply (Z.land_ones _ 4). Qed.
Lemma six_nibbles a b c d e f :
  0 <= a < 16 -> 0 <= b < 16 -> 0 <= c < 16 -> 0 <= d < 16 -> 0 <= e < 16 -> 0 <= f < 16 ->
  Z.lor (Z.lor (Z.lor (Z.lor (Z.lor (Z.shiftl a 20) (Z.shiftl b 16)) (Z.shiftl c 12)) (Z.shiftl d 8)) (Z.shiftl e 4)) f =
  2 ^ 20 * a + 2 ^ 16 * b + 2 ^ 12 * c + 2 ^ 8 * d + 2 ^ 4 * e + f.
Proof.
  intros. assert (S : forall x n k, 0 <= n -> 0 <= k -> Z.shiftl x (n + k) = Z.shiftl (Z.shiftl x k) n)
    by (intros; rewrite Z.shiftl_shiftl by lia; f_equal; lia).
  assert (J : forall x y n m, m = n + 4 -> 0 <= n -> 0 <= y < 16 ->
    Z.lor (Z.shiftl x m) (Z.shiftl y n) = Z.shiftl (16 * x + y) n).
  { intros x y n m -> Hn Hy. rewrite (S x n 4) by lia. rewrite <- Z.shiftl_lor, lor_shift by lia. f_equal. lia. }
  rewrite (J a b 16 20), (J _ c 12 16), (J _ d 8 12), (J _ e 4 8), lor_shift by lia. lia.
Qed.

Lemma three_nibbles a b c : 0 <= a < 16 -> 0 <= b < 16 -> 0 <= c < 16 ->
  Z.lor (Z.lor (Z.lor 0xF000 (Z.shiftl a 8)) (Z.shiftl b 4)) c = 0xF000 + 2 ^ 8 * a + 2 ^ 4 * b + c.
Proof. intros. pose proof (six_nibbles 0 0 15 a b c) as H'. change (Z.lor (Z.lor (Z.shiftl 0 20) (Z.shiftl 0 16)) (Z.shiftl 15 12)) with 0xF000 in H'.
  rewrite H' by lia. lia. Qed.

(** A network code whose first of three digits is not used. *)
Lemma two_digits x : 0 <= x < 4096 -> (Z.land (0xF000 + x) 0xFF00 =? 0xFF00) = (x / 256 =? 15).
Proof.
  intros Hx. assert (H : forallb (fun x => Bool.eqb (Z.land (0xF000 + x) 0xFF00 =? 0xFF00) (x / 256 =? 15)) (range 0 4096) = true)
    by (vm_compute; reflexivity).
  rewrite forallb_forall in H. apply eqb_prop, H. apply list_elem_of_In. by apply elem_of_range.
Qed.

Lemma nibbles_of a b c d e f p : p = 2 ^ 20 * a + 2 ^ 16 * b + 2 ^ 12 * c + 2 ^ 8 * d + 2 ^ 4 * e + f ->
  0 <= a < 16 -> 0 <= b < 16 -> 0 <= c < 16 -> 0 <= d < 16 -> 0 <= e < 16 -> 0 <= f < 16 ->
  (p / 2 ^ 20) mod 16 = a /\ (p / 2 ^ 16) mod 16 = b /\ (p / 2 ^ 12) mod 16 = c /\
  (p / 2 ^ 8) mod 16 = d /\ (p / 2 ^ 4) mod 16 = e /\ p mod 16 = f.
Proof. intros -> Ha Hb Hc Hd He Hf. split_and!; Z.div_mod_to_equations; lia. Qed.

(** Codes whose highest nibble is not used. *)
Lemma plmn_swap x y : 0 <= x < 4096 -> 0 <= y < 4096 ->
  s1ap_plmn_to_mccmnc (s1ap_mccmnc_to_plmn (0xF000 + x) (0xF000 + y)) = (0xF000 + x, 0xF000 + y).
Proof.
  intros Hx Hy. unfold s1ap_mccmnc_to_plmn. rewrite two_digits by done.
  rewrite !(nibble_at _ 0x0F00 8), !(nibble_at _ 0x00F0 4), !nibble_low by lia.
  replace (if y / 256 =? 15 then 0x0F else ((0xF000 + y) / 2 ^ 8) mod 16) with (y / 256)
    by (destruct (Z.eqb_spec (y / 256) 15); Z.div_mod_to_equations; lia).
  rewrite six_nibbles by (try apply Z.mod_pos_bound; Z.div_mod_to_equations; lia).
  set (p := _ + _ mod 16).
  destruct (nibbles_of _ _ _ _ _ _ p eq_refl) as (H0 & H1 & H2 & H3 & H4 & H5);
    [try apply Z.mod_pos_bound; Z.div_mod_to_equations; lia..|]. clearbody p.
  unfold s1ap_plmn_to_mccmnc.
  rewrite (nibble_at p 0xF00000 20), (nibble_at p 0x0F0000 16), (nibble_at p 0x00F000 12), (nibble_at p 0x000F00 8),
    (nibble_at p 0x0000F0 4), (nibble_low p), H0, H1, H2, H3, H4, H5 by lia.
  assert (Hc : (if y / 256 =? 0xF then 0x0F00 else Z.shiftl (y / 256) 8) = Z.shiftl (y / 256) 8)
    by (by destruct (Z.eqb_spec (y / 256) 15) as [->|]).
  rewrite Hc, !three_nibbles by (try apply Z.mod_pos_bound; Z.div_mod_to_equations; lia).
  f_equal; Z.div_mod_to_equations; lia.
Qed.

Lemma digit_cases (P : Z -> bool) c : isdigit c = true -> forallb P (range 48 10) = true -> P c = true.
Proof.
  intros Hc H. rewrite forallb_forall in H. apply H, list_elem_of_In, elem_of_range. unfold isdigit in Hc. lia.
Qed.

(** ** What holds of a code read from its digits *)
Definition code_ok (of_string : list Z -> option Z) (to_string to_bytes : Z -> option (list Z)) (of_bytes : list Z -> Z)
    (s : list Z) : bool :=
  match of_string s with
  | Some m => (0xF000 <=? m) && (m <? 0x10000) && bool_decide (to_string m = Some s) &&
              bool_decide (to_bytes m = Some (List.map (fun c => c - 48) s)) &&
              (of_bytes (List.map (fun c => c - 48) s) =? m)
  | None => false
  end.
Definition mcc_ok := code_ok string_to_mcc mcc_to_string mcc_to_bytes bytes_to_mcc.
Definition mnc_ok := code_ok string_to_mnc mnc_to_string mnc_to_bytes bytes_to_mnc.

Lemma code_ok_spec os ts tb ob s m : code_ok os ts tb ob s = true -> os s = Some m ->
  0xF000 <= m < 0x10000 /\ ts m = Some s /\ tb m = Some (List.map (fun c => c - 48) s) /\
  ob (List.map (fun c => c - 48) s) = m.
Proof.
  unfold code_ok. intros H Hm. rewrite Hm in H. rewrite !andb_true_iff in H. destruct H as [[[[H1 H2] H3] H4] H5].
  apply bool_decide_eq_true in H3, H4. split_and!; [lia|lia|done|done|lia].
Qed.

Lemma mcc_digits s m : string_to_mcc s = Some m -> length s = 3%nat /\ mcc_ok s = true.
Proof.
  intros H. destruct s as [|a [|b [|c [|]]]]; try done. split; [done|]. cbn in H.
  destruct (isdigit a) eqn:Ha, (isdigit b) eqn:Hb, (isdigit c) eqn:Hc; try done. apply (digit_cases (fun c => mcc_ok [a; b; c]) c Hc).
  apply (digit_cases (fun b => forallb (fun c => mcc_ok [a; b; c]) _) b Hb).
  apply (digit_cases (fun a => forallb (fun b => forallb (fun c => mcc_ok [a; b; c]) _) _) a Ha); vm_compute; reflexivity.
Qed.

Lemma mnc_digits s m : string_to_mnc s = Some m -> (length s = 2%nat \/ length s = 3%nat) /\ mnc_ok s = true.
Proof.
  intros H. destruct s as [|a [|b [|c [|]]]]; try done; (split; [by auto|]); cbn in H.
  - destruct (isdigit a) eqn:Ha, (isdigit b) eqn:Hb; try done.
    apply (digit_cases (fun b => mnc_ok [a; b]) b Hb).
    apply (digit_cases (fun a => forallb (fun b => mnc_ok [a; b]) _) a Ha); vm_compute; reflexivity.
  - destruct (isdigit a) eqn:Ha, (isdigit b) eqn:Hb, (isdigit c) eqn:Hc; try done.
    apply (digit_cases (fun c => mnc_ok [a; b; c]) c Hc).
    apply (digit_cases (fun b => forallb (fun c => mnc_ok [a; b; c]) _) b Hb).
    apply (digit_cases (fun a => forallb (fun b => forallb (fun c => mnc_ok [a; b; c]) _) _) a Ha); vm_compute; reflexivity.
Qed.

(** Codes that were read from digits: they are written back as these, and they
    name the PLMN of these digits, whose number is that of the codes. *)
Lemma codes_from_digits (mcc_str mnc_str : list Z) (mcc mnc : Z) :
  string_to_mcc mcc_str = Some mcc -> string_to_mnc mnc_str = Some mnc ->
  let p := mk_plmn_id (List.map (fun c => c - 48) mcc_str) (List.map (fun c => c - 48) mnc_str) in
  (0xF000 <= mcc < 0x10000 /\ 0xF000 <= mnc < 0x10000) /\
  mcc_to_string mcc = Some mcc_str /\ mnc_to_string mnc = Some mnc_str /\
  plmn_from_string (mcc_str ++ mnc_str) = Some p /\ to_s1ap_plmn p = s1ap_mccmnc_to_plmn mcc mnc.
Proof.
  intros Hc Hn. destruct (mcc_digits _ _ Hc) as [Lc Oc], (mnc_digits _ _ Hn) as [Ln On].
  destruct (code_ok_spec _ _ _ _ _ _ Oc Hc) as (Rc & Sc & Bc & Nc).
  destruct (code_ok_spec _ _ _ _ _ _ On Hn) as (Rn & Sn & Bn & Nn). intros p. split_and!; try done; try lia.
  - unfold plmn_from_string. rewrite length_app. replace (_ || _) with false.
    + rewrite (take_app_length' mcc_str), (drop_app_length' mcc_str), Hc, Hn by done. unfold plmn_from_number. by rewrite Bn, Bc.
    + symmetry. apply orb_false_iff. split; apply Nat.ltb_ge; lia.
  - unfold to_s1ap_plmn, to_number, p. cbn [pl_mcc pl_mnc]. by rewrite Nc, Nn.
Qed.

(** C29. The country and network codes given as digits reach the network
    unchanged on both ways: the codes are written back as the digits they were
    read from; the PLMN that the configuration parser builds for SIB1 has these
    digits, and its conversion for the S1AP is the number that the S1AP makes of
    the codes; and that number decodes to the codes. *)
Theorem network_name_agrees (mcc_str mnc_str : list Z) (mcc mnc : Z) :
  string_to_mcc mcc_str = Some mcc -> string_to_mnc mnc_str = Some mnc ->
  mcc_to_string mcc = Some mcc_str /\ mnc_to_string mnc = Some mnc_str /\
  plmn_from_string (mcc_str ++ mnc_str) =
    Some (mk_plmn_id (List.map (fun c => c - 48) mcc_str) (List.map (fun c => c - 48) mnc_str)) /\
  (forall p, plmn_from_string (mcc_str ++ mnc_str) = Some p -> to_s1ap_plmn p = s1ap_mccmnc_to_plmn mcc mnc) /\
  s1ap_plmn_to_mccmnc (s1ap_mccmnc_to_plmn mcc mnc) = (mcc, mnc).
Proof.
  intros Hc Hn. destruct (codes_from_digits _ _ _ _ Hc Hn) as ([Rc Rn] & Sc & Sn & E & Ep).
  split_and!; [done|done|done|intros p; rewrite E; by intros [= <-]|].
  pose proof (plmn_swap (mcc - 0xF000) (mnc - 0xF000) ltac:(lia) ltac:(lia)) as H.
  by replace (0xF000 + (mcc - 0xF000)) with mcc in H by lia; replace (0xF000 + (mnc - 0xF000)) with mnc in H by lia.
Qed.

Lemma network_name_agrees_witness :
  mcc_to_string 0xF001 = Some [48; 48; 49] /\ mnc_to_string 0xFF01 = Some [48; 49] /\
  plmn_from_string [48; 48; 49; 48; 49] = Some (mk_plmn_id [0; 0; 1] [0; 1]) /\
  (forall p, plmn_from_string [48; 48; 49; 48; 49] = Some p -> to_s1ap_plmn p = s1ap_mccmnc_to_plmn 0xF001 0xFF01) /\
  s1ap_plmn_to_mccmnc (s1ap_mccmnc_to_plmn 0xF001 0xFF01) = (0xF001, 0xFF01).
Proof. apply (network_name_agrees [48; 48; 49] [48; 49]); reflexivity. Defined.
