(* ===== verification/CfgSettings.v ===== *)
(** * Configuration: settings, the store, enumerations

    What the configuration parser ([sonica_enb/hdr/parser.h],
    [enb_cfg_parser.h]) works on.  [libconfig] is a library outside the
    repository: an interface, with the laws of its documentation that the theorems
    use.  The program's configuration structures are a store that maps a pointer
    to a member, written as the member's path, to what it holds.  Parsing changes
    the store and returns a number, leaves by an exception or runs into undefined
    behaviour; what it wrote before stays written. *)
From Stdlib Require Import Ascii.
From S2P Require Import Prelude.


(** ** [libconfig] *)
Inductive cfg_exn := SettingNotFoundException | SettingTypeException.

(** [exists(name)], [lookupValue(name, v)] with its overloads ([None]: it returned
    false and left [v] alone), [operator[]] on a name and on an index,
    [getLength()] and the conversion to [unsigned int]. *)
Class Libconfig (Setting : Type) := {
  lc_exists : Setting -> string -> bool;
  lc_uint : Setting -> string -> option Z;
  lc_int : Setting -> string -> option Z;
  lc_bool : Setting -> string -> option bool;
  lc_string : Setting -> string -> option string;
  lc_member : Setting -> string -> cfg_exn + Setting;
  lc_elem : Setting -> nat -> cfg_exn + Setting;
  lc_length : Setting -> nat;
  lc_to_uint : Setting -> cfg_exn + Z
}.

(** A value can only be looked up where a setting is; a setting is there when
    [operator[]] finds it; the elements of an aggregate are those below its
    length; numbers have the width of their type. *)
Class LibconfigLaws (Setting : Type) `{Libconfig Setting} := {
  lc_uint_exists s n v : lc_uint s n = Some v -> lc_exists s n = true /\ 0 <= v < 2 ^ 32;
  lc_int_exists s n v : lc_int s n = Some v -> lc_exists s n = true /\ - 2 ^ 31 <= v < 2 ^ 31;
  lc_bool_exists s n v : lc_bool s n = Some v -> lc_exists s n = true;
  lc_string_exists s n v : lc_string s n = Some v -> lc_exists s n = true;
  lc_member_exists s n : lc_exists s n = true <-> exists t, lc_member s n = inr t;
  lc_elem_inside s i : (i < lc_length s)%nat -> exists t, lc_elem s i = inr t
}.

(** ** The store *)

(** A member, and the indices of the vectors on the way to it. *)
Definition path : Type := string * list nat.

(** An enumerated value is the index of its option; [CLen] is the length of a
    vector; [CFreq] is the frequency of a channel number, shifted by an
    enumerated offset; [CBits] is a bit string of a length and the number it holds;
    [CIndet] is what an uninitialised variable held. *)
Inductive cval :=
| CNum (z : Z)
| CBool (b : bool)
| CEnum (i : nat)
| CLen (n : nat)
| CDigits (l : list Z)
| CBits (len number : Z)
| CFreq (downlink : bool) (earfcn : Z) (offset : option nat)
| CIndet.
#[global] Instance cval_eq_dec : EqDecision cval.
Proof. solve_decision. Defined.

Definition store : Type := gmap path cval.

(** A path that is not in the store holds its initial value: 0 or false. *)
Definition load_num (st : store) (p : path) : Z := match st !! p with Some (CNum z) => z | _ => 0 end.

(** ** Parsing *)
Inductive outcome (A : Type) :=
| Ret (a : A)
| Throw (e : cfg_exn)
| Undef (u : ub_kind).
Arguments Ret {A} a.
Arguments Throw {A} e.
Arguments Undef {A} u.

Definition cfgM (A : Type) : Type := store -> store * outcome A.
#[export] Instance cfgM_ret : MRet cfgM := fun A a st => (st, Ret a).
#[export] Instance cfgM_bind : MBind cfgM := fun A B f m st =>
  match m st with
  | (st', Ret a) => f a st'
  | (st', Throw e) => (st', Throw e)
  | (st', Undef u) => (st', Undef u)
  end.

Definition lift {A} (x : cfg_exn + A) : cfgM A := fun st =>
  (st, match x with inl e => Throw e | inr a => Ret a end).
Definition write (p : path) (v : cval) : cfgM () := fun st => (<[p := v]> st, Ret ()).
Definition write_if (p : option path) (b : bool) : cfgM () :=
  match p with Some p => write p (CBool b) | None => mret () end.
(** [try { m } catch (const SettingNotFoundException&) { h }] *)
Definition catch_not_found {A} (m h : cfgM A) : cfgM A := fun st =>
  match m st with (st', Throw SettingNotFoundException) => h st' | r => r end.

(** A loop that stops at the first result that is not 0. *)
Fixpoint each {B} (l : list B) (f : B -> cfgM Z) : cfgM Z :=
  match l with
  | [] => mret 0
  | x :: l => r ← f x; if r =? 0 then each l f else mret r
  end.

(** ** Numbers of the types read *)
Inductive num_type := T_u8 | T_u16 | T_u32 | T_i8 | T_i16 | T_i32.

Definition sext (w z : Z) : Z := (z + 2 ^ (w - 1)) mod 2 ^ w - 2 ^ (w - 1).
(** The conversion from the 32-bit variable. *)
Definition num_cast (t : num_type) (z : Z) : Z :=
  match t with
  | T_u8 => u8 z | T_u16 => u16 z | T_u32 => u32 z
  | T_i8 => sext 8 z | T_i16 => sext 16 z | T_i32 => sext 32 z
  end.

(** ** Enumerations: [asn1::enumerated] *)

(** The strings of [to_string], the table of [to_number] with its type, the
    strings of [to_number_string] and the length that function takes its table to
    have; there may be fewer numbers than options. *)
Record enum_t := mk_enum {
  en_type : num_type;
  en_strings : list string;
  en_numbers : list Z;
  en_number_strings : list string;
  en_number_strings_sz : nat
}.
Definition nof_types (e : enum_t) : nat := length (en_strings e).

(** [map_enum_number] and [convert_enum_idx]: 0 and the empty string out of range. *)
Definition to_number (e : enum_t) (i : nat) : Z := default 0 (en_numbers e !! i).
Definition to_string (e : enum_t) (i : nat) : string := default ""%string (en_strings e !! i).
Definition to_number_string (e : enum_t) (i : nat) : outcome string :=
  if Nat.leb (en_number_strings_sz e) i then Ret ""%string
  else match en_number_strings e !! i with Some s => Ret s | None => Undef OobRead end.

(** The search all three conversions make: the variable takes each option in
    turn and keeps the last one when none matches. *)
Definition find_option (ptr : path) (e : enum_t) (matches : nat -> outcome bool) : cfgM bool :=
  (fix go (l : list nat) : cfgM bool :=
     match l with
     | [] => mret false
     | i :: l =>
         write ptr (CEnum i);;
         found ← (fun st => (st, matches i));
         if found : bool then mret true else go l
     end) (seq 0 (nof_types e)).

Definition number_to_enum (ptr : path) (e : enum_t) (val : Z) : cfgM bool :=
  find_option ptr e (fun i => Ret (to_number e i =? val)).
Definition number_string_to_enum (ptr : path) (e : enum_t) (val : string) : cfgM bool :=
  find_option ptr e (fun i =>
    match to_number_string e i with
    | Ret s => Ret (bool_decide (s = val))
    | Throw x => Throw x
    | Undef u => Undef u
    end).

(** [::tolower], and the removal of blanks and hyphens. *)
Definition tolower (a : ascii) : ascii :=
  let n := nat_of_ascii a in
  if (Nat.leb 65 n && Nat.leb n 90)%bool then ascii_of_nat (n + 32) else a.
Fixpoint nows (s : string) : string :=
  match s with
  | String.EmptyString => String.EmptyString
  | String.String a s =>
      let a := tolower a in
      if (Ascii.eqb a " " || Ascii.eqb a "-")%char%bool then nows s else String.String a (nows s)
  end.
Definition nowhitespace_string_to_enum (ptr : path) (e : enum_t) (s : string) : cfgM bool :=
  find_option ptr e (fun i => Ret (bool_decide (nows (to_string e i) = nows s))).

(** ** Bit strings: [bitstring::from_number] *)

(** [(uint32_t)ceilf(log2(val))], of the mathematics library: for 0 the language
    leaves the conversion of minus infinity open, for large numbers the float is
    rounded; but it is never more than the bits the number needs. *)
Class Libm := ceilf_log2 : Z -> Z.
Class LibmLaws `{Libm} := ceilf_log2_bound v k : 0 <= k -> 0 < v < 2 ^ k -> 0 <= ceilf_log2 v <= k.

(** The length is at least the lower bound [lb], also when the upper bound is the
    same; a string of more than 64 bits stays all 0. *)
Definition bitstring_from_number `{Libm} (lb val : Z) : cval :=
  let n := Z.max (u32 (ceilf_log2 val)) lb in CBits n (if 64 <? n then 0 else val mod 2 ^ n).

Lemma bitstring_fits `{LibmLaws} n v : 0 < n < 64 -> 0 < v < 2 ^ n -> bitstring_from_number n v = CBits n v.
Proof.
  intros Hn Hv. pose proof (ceilf_log2_bound v n ltac:(lia) Hv) as Hb. unfold bitstring_from_number.
  rewrite u32_id by (change (2 ^ 32) with 4294967296; lia). rewrite Z.max_r by lia.
  replace (64 <? n) with false by lia. by rewrite Z.mod_small by lia.
Qed.

(** The exact logarithm, with 0 for 0. *)
#[export] Instance exact_libm : Libm := Z.log2_up.
#[export] Instance exact_libm_laws : LibmLaws.
Proof.
  intros v k Hk Hv. unfold ceilf_log2, exact_libm. split; [apply Z.log2_up_nonneg|].
  destruct (decide (v = 1)) as [->|]; [cbn; lia|]. apply Z.log2_up_le_pow2; lia.
Qed.
