(* ===== verification/CfgEnums.v ===== *)
(** * Configuration: the enumerations of the messages

    The options of the enumerated types that the configuration files set: the
    tables of [to_string], [to_number] and [to_number_string]
    ([third_party/srslte/src/asn1/rrc_asn1_nbiot.cc] and [rrc_asn1_enum.cc]).
    Types whose numbers are fractions, and those without numbers, are only set by
    their strings; they have no table of numbers here. *)
From S2P Require Import Prelude CfgSettings.

Local Open Scope string_scope.

Definition intra_freq_resel_r13_e : enum_t := mk_enum T_u8
  ["allowed"; "notAllowed"]
  []
  [] 0.
Definition cell_barred_r13_e : enum_t := mk_enum T_u8
  ["barred"; "notBarred"]
  []
  [] 0.
Definition si_win_len_r13_e : enum_t := mk_enum T_u16
  ["ms160"; "ms320"; "ms480"; "ms640"; "ms960"; "ms1280"; "ms1600"; "spare1"]
  [160; 320; 480; 640; 960; 1280; 1600]%Z
  [] 0.
Definition si_periodicity_r13_e : enum_t := mk_enum T_u16
  ["rf64"; "rf128"; "rf256"; "rf512"; "rf1024"; "rf2048"; "rf4096"; "spare"]
  [64; 128; 256; 512; 1024; 2048; 4096]%Z
  [] 0.
Definition si_repeat_pattern_r13_e : enum_t := mk_enum T_u8
  ["every2ndRF"; "every4thRF"; "every8thRF"; "every16thRF"]
  [2; 4; 8; 16]%Z
  [] 0.
Definition si_tb_r13_e : enum_t := mk_enum T_u16
  ["b56"; "b120"; "b208"; "b256"; "b328"; "b440"; "b552"; "b680"]
  [56; 120; 208; 256; 328; 440; 552; 680]%Z
  [] 0.
Definition time_align_timer_e : enum_t := mk_enum T_i16
  ["sf500"; "sf750"; "sf1280"; "sf1920"; "sf2560"; "sf5120"; "sf10240"; "infinity"]
  [500; 750; 1280; 1920; 2560; 5120; 10240; (-1)]%Z
  [] 0.
Definition t300_r13_e : enum_t := mk_enum T_u16
  ["ms2500"; "ms4000"; "ms6000"; "ms10000"; "ms15000"; "ms25000"; "ms40000"; "ms60000"]
  [2500; 4000; 6000; 10000; 15000; 25000; 40000; 60000]%Z
  [] 0.
Definition t301_r13_e : enum_t := mk_enum T_u16
  ["ms2500"; "ms4000"; "ms6000"; "ms10000"; "ms15000"; "ms25000"; "ms40000"; "ms60000"]
  [2500; 4000; 6000; 10000; 15000; 25000; 40000; 60000]%Z
  [] 0.
Definition t310_r13_e : enum_t := mk_enum T_u16
  ["ms0"; "ms200"; "ms500"; "ms1000"; "ms2000"; "ms4000"; "ms8000"]
  [0; 200; 500; 1000; 2000; 4000; 8000]%Z
  [] 0.
Definition n310_r13_e : enum_t := mk_enum T_u8
  ["n1"; "n2"; "n3"; "n4"; "n6"; "n8"; "n10"; "n20"]
  [1; 2; 3; 4; 6; 8; 10; 20]%Z
  [] 0.
Definition t311_r13_e : enum_t := mk_enum T_u16
  ["ms1000"; "ms3000"; "ms5000"; "ms10000"; "ms15000"; "ms20000"; "ms30000"]
  [1000; 3000; 5000; 10000; 15000; 20000; 30000]%Z
  [] 0.
Definition n311_r13_e : enum_t := mk_enum T_u8
  ["n1"; "n2"; "n3"; "n4"; "n5"; "n6"; "n8"; "n10"]
  [1; 2; 3; 4; 5; 6; 8; 10]%Z
  [] 0.
Definition preamb_init_rx_target_pwr_e : enum_t := mk_enum T_i8
  ["dBm-120"; "dBm-118"; "dBm-116"; "dBm-114"; "dBm-112"; "dBm-110"; "dBm-108"; "dBm-106"; "dBm-104";
   "dBm-102"; "dBm-100"; "dBm-98"; "dBm-96"; "dBm-94"; "dBm-92"; "dBm-90"]
  [(-120); (-118); (-116); (-114); (-112); (-110); (-108); (-106); (-104); (-102); (-100); (-98);
   (-96); (-94); (-92); (-90)]%Z
  [] 0.
Definition pwr_ramp_step_e : enum_t := mk_enum T_u8
  ["dB0"; "dB2"; "dB4"; "dB6"]
  [0; 2; 4; 6]%Z
  [] 0.
Definition preamb_trans_max_e : enum_t := mk_enum T_u8
  ["n3"; "n4"; "n5"; "n6"; "n7"; "n8"; "n10"; "n20"; "n50"; "n100"; "n200"]
  [3; 4; 5; 6; 7; 8; 10; 20; 50; 100; 200]%Z
  [] 0.
Definition mod_period_coeff_r13_e : enum_t := mk_enum T_u8
  ["n16"; "n32"; "n64"; "n128"]
  [16; 32; 64; 128]%Z
  [] 0.
Definition default_paging_cycle_r13_e : enum_t := mk_enum T_u16
  ["rf128"; "rf256"; "rf512"; "rf1024"]
  [128; 256; 512; 1024]%Z
  [] 0.
Definition nb_r13_e : enum_t := mk_enum T_u32
  ["fourT"; "twoT"; "oneT"; "halfT"; "quarterT"; "one8thT"; "one16thT"; "one32ndT"; "one64thT";
   "one128thT"; "one256thT"; "one512thT"; "one1024thT"; "spare3"; "spare2"; "spare1"]
  []
  ["4"; "2"; "1"; "0.5"; "0.25"; "8"; "16"; "32"; "64"; "128"; "256"; "512"; "1024"] 16.
Definition npdcch_num_repeat_paging_r13_e : enum_t := mk_enum T_u16
  ["r1"; "r2"; "r4"; "r8"; "r16"; "r32"; "r64"; "r128"; "r256"; "r512"; "r1024"; "r2048"; "spare4";
   "spare3"; "spare2"; "spare1"]
  [1; 2; 4; 8; 16; 32; 64; 128; 256; 512; 1024; 2048]%Z
  [] 0.
Definition nprach_cp_len_r13_e : enum_t := mk_enum T_u32
  ["us66dot7"; "us266dot7"]
  []
  ["66.7"; "266.7"] 2.
Definition nprach_periodicity_r13_e : enum_t := mk_enum T_u16
  ["ms40"; "ms80"; "ms160"; "ms240"; "ms320"; "ms640"; "ms1280"; "ms2560"]
  [40; 80; 160; 240; 320; 640; 1280; 2560]%Z
  [] 0.
Definition nprach_start_time_r13_e : enum_t := mk_enum T_u16
  ["ms8"; "ms16"; "ms32"; "ms64"; "ms128"; "ms256"; "ms512"; "ms1024"]
  [8; 16; 32; 64; 128; 256; 512; 1024]%Z
  [] 0.
Definition nprach_subcarrier_offset_r13_e : enum_t := mk_enum T_u8
  ["n0"; "n12"; "n24"; "n36"; "n2"; "n18"; "n34"; "spare1"]
  [0; 12; 24; 36; 2; 18; 34]%Z
  [] 0.
Definition nprach_num_subcarriers_r13_e : enum_t := mk_enum T_u8
  ["n12"; "n24"; "n36"; "n48"]
  [12; 24; 36; 48]%Z
  [] 0.
Definition nprach_subcarrier_msg3_range_start_r13_e : enum_t := mk_enum T_u32
  ["zero"; "oneThird"; "twoThird"; "one"]
  []
  ["0"; "1/3"; "2/3"; "1"] 4.
Definition max_num_preamb_attempt_ce_r13_e : enum_t := mk_enum T_u8
  ["n3"; "n4"; "n5"; "n6"; "n7"; "n8"; "n10"; "spare1"]
  [3; 4; 5; 6; 7; 8; 10]%Z
  [] 0.
Definition num_repeats_per_preamb_attempt_r13_e : enum_t := mk_enum T_u8
  ["n1"; "n2"; "n4"; "n8"; "n16"; "n32"; "n64"; "n128"]
  [1; 2; 4; 8; 16; 32; 64; 128]%Z
  [] 0.
Definition npdcch_num_repeats_ra_r13_e : enum_t := mk_enum T_u16
  ["r1"; "r2"; "r4"; "r8"; "r16"; "r32"; "r64"; "r128"; "r256"; "r512"; "r1024"; "r2048"; "spare4";
   "spare3"; "spare2"; "spare1"]
  [1; 2; 4; 8; 16; 32; 64; 128; 256; 512; 1024; 2048]%Z
  [] 0.
Definition npdcch_start_sf_css_ra_r13_e : enum_t := mk_enum T_u32
  ["v1dot5"; "v2"; "v4"; "v8"; "v16"; "v32"; "v48"; "v64"]
  []
  ["1.5"; "2"; "4"; "8"; "16"; "32"; "48"; "64"] 8.
Definition npdcch_offset_ra_r13_e : enum_t := mk_enum T_u32
  ["zero"; "oneEighth"; "oneFourth"; "threeEighth"]
  []
  ["0"; "1/8"; "1/4"; "3/8"] 4.
Definition ra_resp_win_size_r13_e : enum_t := mk_enum T_u8
  ["pp2"; "pp3"; "pp4"; "pp5"; "pp6"; "pp7"; "pp8"; "pp10"]
  [2; 3; 4; 5; 6; 7; 8; 10]%Z
  [] 0.
Definition mac_contention_resolution_timer_r13_e : enum_t := mk_enum T_u8
  ["pp1"; "pp2"; "pp3"; "pp4"; "pp8"; "pp16"; "pp32"; "pp64"]
  [1; 2; 3; 4; 8; 16; 32; 64]%Z
  [] 0.
Definition ack_nack_num_repeats_nb_r13_e : enum_t := mk_enum T_u8
  ["r1"; "r2"; "r4"; "r8"; "r16"; "r32"; "r64"; "r128"]
  [1; 2; 4; 8; 16; 32; 64; 128]%Z
  [] 0.
Definition dl_gap_thres_r13_e : enum_t := mk_enum T_u16
  ["n32"; "n64"; "n128"; "n256"]
  [32; 64; 128; 256]%Z
  [] 0.
Definition dl_gap_periodicity_r13_e : enum_t := mk_enum T_u16
  ["sf64"; "sf128"; "sf256"; "sf512"]
  [64; 128; 256; 512]%Z
  [] 0.
Definition dl_gap_dur_coeff_r13_e : enum_t := mk_enum T_u32
  ["oneEighth"; "oneFourth"; "threeEighth"; "oneHalf"]
  []
  ["1/8"; "1/4"; "3/8"; "1/2"] 4.
Definition alpha_r13_e : enum_t := mk_enum T_u32
  ["al0"; "al04"; "al05"; "al06"; "al07"; "al08"; "al09"; "al1"]
  []
  ["0"; "0.4"; "0.5"; "0.6"; "0.7"; "0.8"; "0.9"; "1"] 8.
Definition q_hyst_r13_e : enum_t := mk_enum T_u8
  ["dB0"; "dB1"; "dB2"; "dB3"; "dB4"; "dB5"; "dB6"; "dB8"; "dB10"; "dB12"; "dB14"; "dB16"; "dB18";
   "dB20"; "dB22"; "dB24"]
  [0; 1; 2; 3; 4; 5; 6; 8; 10; 12; 14; 16; 18; 20; 22; 24]%Z
  [] 0.
Definition t_resel_nb_r13_e : enum_t := mk_enum T_u8
  ["s0"; "s3"; "s6"; "s9"; "s12"; "s15"; "s18"; "s21"]
  [0; 3; 6; 9; 12; 15; 18; 21]%Z
  [] 0.
Definition periodic_bsr_timer_nb_r13_e : enum_t := mk_enum T_i16
  ["pp2"; "pp4"; "pp8"; "pp16"; "pp64"; "pp128"; "infinity"; "spare"]
  [2; 4; 8; 16; 64; 128; (-1)]%Z
  [] 0.
Definition retx_bsr_timer_nb_r13_e : enum_t := mk_enum T_i16
  ["pp4"; "pp16"; "pp64"; "pp128"; "pp256"; "pp512"; "infinity"; "spare"]
  [4; 16; 64; 128; 256; 512; (-1)]%Z
  [] 0.
Definition lc_ch_sr_prohibit_timer_r13_e : enum_t := mk_enum T_u16
  ["pp2"; "pp8"; "pp32"; "pp128"; "pp512"; "pp1024"; "pp2048"; "spare"]
  [2; 8; 32; 128; 512; 1024; 2048]%Z
  [] 0.
Definition npdcch_num_repeats_r13_e : enum_t := mk_enum T_u16
  ["r1"; "r2"; "r4"; "r8"; "r16"; "r32"; "r64"; "r128"; "r256"; "r512"; "r1024"; "r2048"; "spare4";
   "spare3"; "spare2"; "spare1"]
  [1; 2; 4; 8; 16; 32; 64; 128; 256; 512; 1024; 2048]%Z
  [] 0.
Definition npdcch_start_sf_uss_r13_e : enum_t := mk_enum T_u32
  ["v1dot5"; "v2"; "v4"; "v8"; "v16"; "v32"; "v48"; "v64"]
  []
  ["1.5"; "2"; "4"; "8"; "16"; "32"; "48"; "64"] 8.
Definition npdcch_offset_uss_r13_e : enum_t := mk_enum T_u32
  ["zero"; "oneEighth"; "oneFourth"; "threeEighth"]
  []
  ["0"; "1/8"; "1/4"; "3/8"] 4.
Definition operation_mode_info_r13_e : enum_t := mk_enum T_u8
  ["inband-SamePCI-r13"; "inband-DifferentPCI-r13"; "guardband-r13"; "standalone-r13"]
  []
  [] 0.
Definition ch_raster_offset_nb_r13_e : enum_t := mk_enum T_u32
  ["khz-7dot5"; "khz-2dot5"; "khz2dot5"; "khz7dot5"]
  []
  ["-7.5"; "-2.5"; "2.5"; "7.5"] 4.
Definition carrier_freq_offset_r13_e : enum_t := mk_enum T_u32
  ["v-10"; "v-9"; "v-8"; "v-7"; "v-6"; "v-5"; "v-4"; "v-3"; "v-2"; "v-1"; "v-0dot5"; "v0"; "v1"; "v2";
   "v3"; "v4"; "v5"; "v6"; "v7"; "v8"; "v9"]
  []
  ["-10"; "-9"; "-8"; "-7"; "-6"; "-5"; "-4"; "-3"; "-2"; "-1"; "-0.5"; "0"; "1"; "2"; "3"; "4"; "5";
   "6"; "7"; "8"; "9"] 21.
