(* ===== verification/CfgParser.v ===== *)
(** * Configuration: fields and sections

    The parser's framework ([sonica_enb/hdr/parser.h], [sonica_enb/parser.cc]) and
    the fields of generated types ([sonica_enb/enb_cfg_parser.h], and their four
    list parsers in [enb_cfg_parser.cc]).  An object of a class derived from
    [field_itf] is a value of the type [field], its virtual [parse] the function
    [field_parse].  The helpers of [parser.h] that nothing calls
    ([parse_opt_field], [number_to_enum] and their kind) and the classes that are
    never instantiated are left out. *)
From S2P Require Import Prelude CfgSettings CfgEnums.

Section Parser.
Context {Setting : Type} `{Libconfig Setting}.

(** ** Looking values up *)

(** [parser::lookupValue] reads into a 32-bit variable and copies it whether it
    was set or not. *)
Definition lookupValue (t : num_type) (root : Setting) (name : string) : bool * cval :=
  match (match t with T_u8 | T_u16 | T_u32 => lc_uint root name | _ => lc_int root name end) with
  | Some v => (true, CNum (num_cast t v))
  | None => (false, CIndet)
  end.
Definition lookup_bool (root : Setting) (name : string) : bool * cval :=
  match lc_bool root name with Some b => (true, CBool b) | None => (false, CIndet) end.

(** [parse_enum_by_number] and its two variants; the local variable that a failed
    lookup leaves indeterminate is not used. *)
Definition parse_enum_by_number (ptr : path) (e : enum_t) (name : string) (root : Setting) : cfgM bool :=
  match lookupValue (en_type e) root name with
  | (true, CNum val) => number_to_enum ptr e val
  | _ => mret false
  end.
Definition parse_enum_by_number_str (ptr : path) (e : enum_t) (name : string) (root : Setting) : cfgM bool :=
  match lc_string root name with Some val => number_string_to_enum ptr e val | None => mret false end.
Definition parse_enum_by_str (ptr : path) (e : enum_t) (name : string) (root : Setting) : cfgM bool :=
  match lc_string root name with Some val => nowhitespace_string_to_enum ptr e val | None => mret false end.

Definition ret_of (found : bool) : Z := if found then 0 else -1.

(** ** Fields *)

(** What all classes do first: a setting that is absent is an error unless the
    field has an [enabled_value], which says whether it is there. *)
Definition opt_field (name : string) (enabled_value : option path) (root : Setting) (parse_value : cfgM Z) : cfgM Z :=
  if lc_exists root name then write_if enabled_value true;; parse_value
  else match enabled_value with
       | Some p => write p (CBool false);; mret 0
       | None => mret (-1)
       end.

Inductive field :=
| F_number (name : string) (t : num_type) (store_ptr : path) (enabled_value : option path)
| F_bool (name : string) (store_ptr : path) (enabled_value : option path)
| F_enum_str (name : string) (store_ptr : path) (value_str : list string) (enabled_value : option path)
| F_enum_num (name : string) (t : num_type) (store_ptr : path) (values : list Z) (enabled_value : option path)
| F_asn1_enum_number (name : string) (e : enum_t) (store_ptr : path) (enabled_value : option path)
| F_asn1_enum_str (name : string) (e : enum_t) (store_ptr : path) (enabled_value : option path)
| F_asn1_enum_number_str (name : string) (e : enum_t) (store_ptr : path) (enabled_value : option path)
| F_sched_info (data : string)
| F_nprach_params (data : string)
| F_rach_info (data : string)
| F_ack_nack_nrep (data : string).

(** [field<T>::parse]: the member gets what [lookupValue] copies, even when the
    setting is of another type. *)
Definition parse_field (name : string) (store_ptr : path) (enabled_value : option path) (root : Setting)
    (looked : bool * cval) : cfgM Z :=
  opt_field name enabled_value root (write store_ptr (snd looked);; mret (ret_of (fst looked))).

(** [field_enum_str::parse] and [field_enum_num::parse]: the index of the value. *)
Definition parse_field_enum_str (name : string) (store_ptr : path) (value_str : list string)
    (enabled_value : option path) (root : Setting) : cfgM Z :=
  opt_field name enabled_value root
    match lc_string root name with
    | Some val =>
        match list_find (fun s => s = val) value_str with
        | Some (i, _) => write store_ptr (CNum (Z.of_nat i));; mret 0
        | None => mret (-1)
        end
    | None => mret (-1)
    end.
Definition parse_field_enum_num (name : string) (t : num_type) (store_ptr : path) (values : list Z)
    (enabled_value : option path) (root : Setting) : cfgM Z :=
  opt_field name enabled_value root
    match lookupValue t root name with
    | (true, CNum val) =>
        match list_find (fun v => v = val) values with
        | Some (i, _) => write store_ptr (CNum (Z.of_nat i));; mret 0
        | None => mret (-1)
        end
    | _ => mret (-1)
    end.

Definition parse_asn1_enum_number (name : string) (e : enum_t) (store_ptr : path) (enabled_value : option path)
    (root : Setting) : cfgM Z :=
  opt_field name enabled_value root (found ← parse_enum_by_number store_ptr e name root; mret (ret_of found)).
Definition parse_asn1_enum_str (name : string) (e : enum_t) (store_ptr : path) (enabled_value : option path)
    (root : Setting) : cfgM Z :=
  opt_field name enabled_value root (found ← parse_enum_by_str store_ptr e name root; mret (ret_of found)).
Definition parse_asn1_enum_number_str (name : string) (e : enum_t) (store_ptr : path) (enabled_value : option path)
    (root : Setting) : cfgM Z :=
  opt_field name enabled_value root (found ← parse_enum_by_number_str store_ptr e name root; mret (ret_of found)).

(** *** Lists *)

(** A member of the structure at [data], below vectors at [idx]. *)
Definition at_ (data : string) (member : string) (idx : list nat) : path := (data +:+ member, idx).

Definition ASN1_RRC_MAX_SIB : nat := 32.

(** [si_mapping_info_r13] of the [i]th entry. *)
Definition parse_si_mapping (data : string) (i : nat) (item : Setting) : cfgM Z :=
  if lc_exists item "si_mapping_info_r13" then
    info ← lift (lc_member item "si_mapping_info_r13");
    let n := lc_length info in
    write (at_ data ".sched_info_list_r13[].sib_map_info_r13" [i]) (CLen n);;
    if (n <? ASN1_RRC_MAX_SIB)%nat then
      each (seq 0 n) (fun j =>
        elem ← lift (lc_elem info j);
        sib_index ← lift (lc_to_uint elem);
        if (sib_index >=? 3) && (sib_index <=? 13) then
          write (at_ data ".sched_info_list_r13[].sib_map_info_r13[]" [i; j]) (CEnum (Z.to_nat (sib_index - 3)));; mret 0
        else mret (-1))
    else mret (-1)
  else write (at_ data ".sched_info_list_r13[].sib_map_info_r13" [i]) (CLen 0);; mret 0.

(** [field_sched_info::parse] *)
Definition parse_sched_info (data : string) (root : Setting) : cfgM Z :=
  write (at_ data ".sched_info_list_r13" []) (CLen (lc_length root));;
  each (seq 0 (lc_length root)) (fun i =>
    item ← lift (lc_elem root i);
    found ← parse_enum_by_number (at_ data ".sched_info_list_r13[].si_periodicity_r13" [i]) si_periodicity_r13_e
              "si_periodicity_r13" item;
    if negb found then mret (-1) else
    found ← parse_enum_by_str (at_ data ".sched_info_list_r13[].si_repeat_pattern_r13" [i]) si_repeat_pattern_r13_e
              "si_repeat_pattern_r13" item;
    if negb found then mret (-1) else
    r ← parse_si_mapping data i item;
    if negb (r =? 0) then mret r else
    found ← parse_enum_by_number (at_ data ".sched_info_list_r13[].si_tb_r13" [i]) si_tb_r13_e "si_tb_r13" item;
    mret (ret_of found)).

(** [field_nprach_params::parse]: the results of the lookups are dropped. *)
Definition parse_nprach_params (data : string) (root : Setting) : cfgM Z :=
  write (at_ data ".nprach_params_list_r13" []) (CLen (lc_length root));;
  each (seq 0 (lc_length root)) (fun i =>
    let param m := at_ data (".nprach_params_list_r13[]." +:+ m) [i] in
    item ← lift (lc_elem root i);
    parse_enum_by_number (param "nprach_periodicity_r13") nprach_periodicity_r13_e "nprach_periodicity_r13" item;;
    parse_enum_by_number (param "nprach_start_time_r13") nprach_start_time_r13_e "nprach_start_time_r13" item;;
    parse_enum_by_number (param "nprach_subcarrier_offset_r13") nprach_subcarrier_offset_r13_e
      "nprach_subcarrier_offset_r13" item;;
    parse_enum_by_number (param "nprach_num_subcarriers_r13") nprach_num_subcarriers_r13_e
      "nprach_numsubcarrier_r13" item;;
    parse_enum_by_str (param "nprach_subcarrier_msg3_range_start_r13") nprach_subcarrier_msg3_range_start_r13_e
      "nprach_subc_msg3_rangestart_r13" item;;
    parse_enum_by_number (param "max_num_preamb_attempt_ce_r13") max_num_preamb_attempt_ce_r13_e
      "max_num_preamble_attempt_ce_r13" item;;
    parse_enum_by_number (param "num_repeats_per_preamb_attempt_r13") num_repeats_per_preamb_attempt_r13_e
      "num_rep_per_preamble_attempt_r13" item;;
    parse_enum_by_number (param "npdcch_num_repeats_ra_r13") npdcch_num_repeats_ra_r13_e
      "npdcch_numrepetition_ra_r13" item;;
    parse_enum_by_number_str (param "npdcch_start_sf_css_ra_r13") npdcch_start_sf_css_ra_r13_e
      "npdcch_startsf_css_ra_r13" item;;
    parse_enum_by_str (param "npdcch_offset_ra_r13") npdcch_offset_ra_r13_e "npdcch_offset_ra_r13" item;;
    mret 0).

(** [field_rach_info::parse] *)
Definition parse_rach_info (data : string) (root : Setting) : cfgM Z :=
  write (at_ data ".rach_info_list_r13" []) (CLen (lc_length root));;
  each (seq 0 (lc_length root)) (fun i =>
    item ← lift (lc_elem root i);
    parse_enum_by_number (at_ data ".rach_info_list_r13[].ra_resp_win_size_r13" [i]) ra_resp_win_size_r13_e
      "ra_resp_win_size_r13" item;;
    parse_enum_by_number (at_ data ".rach_info_list_r13[].mac_contention_resolution_timer_r13" [i])
      mac_contention_resolution_timer_r13_e "mac_con_res_timer_r13" item;;
    mret 0).

(** [field_ack_nack_nrep::parse]; the number is compared as it is read. *)
Definition parse_ack_nack_nrep (data : string) (root : Setting) : cfgM Z :=
  let len := lc_length root in
  if (len =? 0)%nat || (3 <? len)%nat then mret (-1) else
  write (at_ data ".ack_nack_num_repeats_msg4_r13" []) (CLen len);;
  each (seq 0 len) (fun i =>
    elem ← lift (lc_elem root i);
    val ← lift (lc_to_uint elem);
    found ← number_to_enum (at_ data ".ack_nack_num_repeats_msg4_r13[]" [i]) ack_nack_num_repeats_nb_r13_e val;
    mret (ret_of found)).

(** The virtual call. *)
Definition field_parse (f : field) (root : Setting) : cfgM Z :=
  match f with
  | F_number name t p en => parse_field name p en root (lookupValue t root name)
  | F_bool name p en => parse_field name p en root (lookup_bool root name)
  | F_enum_str name p values en => parse_field_enum_str name p values en root
  | F_enum_num name t p values en => parse_field_enum_num name t p values en root
  | F_asn1_enum_number name e p en => parse_asn1_enum_number name e p en root
  | F_asn1_enum_str name e p en => parse_asn1_enum_str name e p en root
  | F_asn1_enum_number_str name e p en => parse_asn1_enum_number_str name e p en root
  | F_sched_info data => parse_sched_info data root
  | F_nprach_params data => parse_nprach_params data root
  | F_rach_info data => parse_rach_info data root
  | F_ack_nack_nrep data => parse_ack_nack_nrep data root
  end.

(** ** Sections *)
Inductive section := Section_ (name : string) (enabled_value : option path) (fields : list field)
  (sub_sections : list section).

(** [section::parse]: the section is looked up for every field and subsection;
    one that is not found is an error unless the section is optional. *)
Fixpoint section_parse (s : section) (root : Setting) : cfgM Z :=
  match s with
  | Section_ name enabled_value fields sub_sections =>
      let failed r := negb (r =? 0) in
      catch_not_found
        (r ← each fields (fun f => here ← lift (lc_member root name); r ← field_parse f here; mret (ret_of (r =? 0)));
         if failed r then mret (-1) else
         r ← (fix subs (l : list section) : cfgM Z :=
                match l with
                | [] => mret 0
                | s :: l =>
                    here ← lift (lc_member root name);
                    r ← section_parse s here;
                    if failed r then mret (-1) else subs l
                end) sub_sections;
         if failed r then mret (-1) else
         write_if enabled_value true;; mret 0)
        (match enabled_value with
         | Some p => write p (CBool false);; mret 0
         | None => mret (-1)
         end)
  end.

(** [parser::parse]: reading the file ends without a tree when it cannot be read
    or is not of the format. *)
Context (read_file : string -> option Setting).

Definition parser_parse (filename : string) (sections : list section) : cfgM Z :=
  match read_file filename with
  | None => mret (-1)
  | Some root => r ← each sections (fun s => section_parse s root); mret (ret_of (r =? 0))
  end.
Definition parse_section (filename : string) (s : section) : cfgM Z := parser_parse filename [s].
End Parser.
