(* ===== verification/EnbCfg.v ===== *)
(** * Configuration: the files of the eNodeB

    [sonica_enb/enb_cfg_parser.cc]: the sections of the SIB file and of the radio
    resource file, and what is derived from them for the S1AP, the PHY and the
    system information.  The band tables are those of
    [third_party/srslte/src/phy/common/phy_common.c]; carrier frequencies, computed
    in floating point, are kept as expressions. *)
From S2P Require Import Prelude Npdsch Bcd CfgSettings CfgEnums CfgParser.

(** ** Arguments of the program read or set here *)
Record all_args_t := mk_all_args {
  aa_sib_config : string;
  aa_rr_config : string;
  aa_nof_ports : Z;
  aa_enb_id : Z;
  aa_mcc : Z;
  aa_mnc : Z
}.

(** Members of the configuration structures. *)
Definition rrc (m : string) : path := ("rrc_cfg." +:+ m, []).
Definition args (m : string) : path := ("args." +:+ m, []).
Definition phy (m : string) : path := ("phy_cfg." +:+ m, []).

(** *** Structures as a whole *)
Fixpoint strip_prefix (p s : string) : option string :=
  match p, s with
  | String.EmptyString, _ => Some s
  | String.String a p, String.String b s => if Ascii.eqb a b then strip_prefix p s else None
  | _, _ => None
  end.
(** The member of the structure at [p] that a path names. *)
Definition below (p : string) (k : path) : option path :=
  (fun m => (m, k.2)) <$> strip_prefix p k.1.

(** [bzero] *)
Definition clear_struct (p : string) (st : store) : store := filter (fun kv => below p kv.1 = None) st.
(** [dst = src]; the names end with a dot. *)
Definition copy_struct (dst src : string) (st : store) : store :=
  map_fold (fun k v acc => match below src k with Some (m, idx) => <[(dst +:+ m, idx) := v]> acc | None => acc end)
    (clear_struct dst st) st.
Definition modify (f : store -> store) : cfgM () := fun st => (f st, Ret ()).
(** An enumerated member; [nulltype] before it is set. *)
Definition load_enum (e : enum_t) (st : store) (p : path) : nat :=
  match st !! p with Some (CEnum i) => i | _ => nof_types e end.
Definition get : cfgM store := fun st => (st, Ret st).

(** ** [rr_sections] *)
Section Parse.
Context {Setting : Type} `{Libconfig Setting} `{Libm} (read_file : string -> option Setting).

Definition SRSLTE_NBIOT_DEFAULT_NUM_PRB_BASECELL : Z := 1.
Definition SRSLTE_NBIOT_DEFAULT_PRB_OFFSET : Z := 0.
Definition SRSLTE_CP_NORM : Z := 0.

Definition fill_cell_common (a : all_args_t) : cfgM () :=
  write (rrc "cell_common.base.nof_prb") (CNum SRSLTE_NBIOT_DEFAULT_NUM_PRB_BASECELL);;
  write (rrc "cell_common.base.nof_ports") (CNum (aa_nof_ports a));;
  write (rrc "cell_common.base.cp") (CNum SRSLTE_CP_NORM);;
  write (rrc "cell_common.nbiot_prb") (CNum SRSLTE_NBIOT_DEFAULT_PRB_OFFSET);;
  write (rrc "cell_common.nof_ports") (CNum (aa_nof_ports a));;
  write (rrc "cell_common.is_r14") (CBool true);;
  write (rrc "cell_spec.rf_port") (CNum 0).

Definition mac_cnfg : section :=
  Section_ "mac_cnfg" None
    [F_asn1_enum_number "time_alignment_timer_r13" time_align_timer_e (rrc "mac_cnfg.time_align_timer_ded_r13") None;
     F_asn1_enum_number "logical_channel_sr_prohibit_timer_r13" lc_ch_sr_prohibit_timer_r13_e
       (rrc "mac_cnfg.lc_ch_sr_cfg_r13.setup.lc_ch_sr_prohibit_timer_r13") None]
    [Section_ "ulsch_cnfg_r13" (Some (rrc "mac_cnfg.ul_sch_cfg_r13_present"))
       [F_asn1_enum_number "periodic_bsr_timer_r13" periodic_bsr_timer_nb_r13_e
          (rrc "mac_cnfg.ul_sch_cfg_r13.periodic_bsr_timer_r13")
          (Some (rrc "mac_cnfg.ul_sch_cfg_r13.periodic_bsr_timer_r13_present"));
        F_asn1_enum_number "retx_bsr_timer_r13" retx_bsr_timer_nb_r13_e
          (rrc "mac_cnfg.ul_sch_cfg_r13.retx_bsr_timer_r13") None] []].

Definition phy_cnfg : section :=
  Section_ "phy_cnfg" None []
    [Section_ "npdcch_cnfg_ded" None
       [F_asn1_enum_number "npdcch_numrepetition_r13" npdcch_num_repeats_r13_e (rrc "npdcch_cfg.npdcch_num_repeats_r13") None;
        F_asn1_enum_number_str "npdcch_start_sf_uss_r13" npdcch_start_sf_uss_r13_e
          (rrc "npdcch_cfg.npdcch_start_sf_uss_r13") None;
        F_asn1_enum_str "npdcch_offset_uss_r13" npdcch_offset_uss_r13_e (rrc "npdcch_cfg.npdcch_offset_uss_r13") None] [];
     Section_ "npusch_cnfg_ded" None
       [F_asn1_enum_number "ack_nack_numrepetition_r13" ack_nack_num_repeats_nb_r13_e
          (rrc "npusch_cfg.ack_nack_num_repeats_r13") (Some (rrc "npusch_cfg.ack_nack_num_repeats_r13_present"));
        F_bool "npusch_all_symbols_r13" (rrc "npusch_cfg.npusch_all_symbols_r13")
          (Some (rrc "npusch_cfg.npusch_all_symbols_r13_present"))] []].

Definition cell_cnfg : section :=
  Section_ "cell" None
    [F_asn1_enum_str "mode" operation_mode_info_r13_e (rrc "cell_spec.mode") None;
     F_number "cell_id" T_u32 (rrc "cell_spec.cell_id") None;
     F_number "tac" T_u16 (rrc "cell_spec.tac") None;
     F_number "pci" T_u32 (rrc "cell_spec.pci") None;
     F_number "dl_earfcn" T_u32 (rrc "cell_spec.dl_earfcn") None;
     F_asn1_enum_number_str "dl_raster_offset" ch_raster_offset_nb_r13_e (rrc "cell_spec.dl_offset") None;
     F_number "ul_earfcn" T_u32 (rrc "cell_spec.ul_earfcn") None;
     F_asn1_enum_number_str "ul_carrier_freq_offset" carrier_freq_offset_r13_e (rrc "cell_spec.ul_carrier_offset") None] [].

Definition parse_rr (a : all_args_t) : cfgM Z :=
  write (rrc "mac_cnfg.lc_ch_sr_cfg_r13_present") (CBool true);;
  fill_cell_common a;;
  parser_parse read_file (aa_rr_config a) [mac_cnfg; phy_cnfg; cell_cnfg].

(** ** [sib_sections] *)
Definition sib1 : section :=
  Section_ "sib1" None
    [F_asn1_enum_str "intra_freq_reselection_r13" intra_freq_resel_r13_e
       (rrc "sib1.cell_access_related_info_r13.intra_freq_resel_r13") None;
     F_number "q_rx_lev_min_r13" T_i8 (rrc "sib1.cell_sel_info_r13.q_rx_lev_min_r13") None;
     F_asn1_enum_str "cell_barred_r13" cell_barred_r13_e (rrc "sib1.cell_access_related_info_r13.cell_barred_r13") None;
     F_asn1_enum_number "si_window_length_r13" si_win_len_r13_e (rrc "sib1.si_win_len_r13") None]
    [Section_ "sched_info" None [F_sched_info "rrc_cfg.sib1"] []].

Definition parse_sib1 (filename : string) : cfgM Z := parse_section read_file filename sib1.

Definition rach_cnfg : section :=
  let rach m := rrc ("sib2.rr_cfg_common_r13.rach_cfg_common_r13." +:+ m) in
  Section_ "rach_cnfg_r13" None
    [F_asn1_enum_number "preamble_init_rx_target_pwr" preamb_init_rx_target_pwr_e
       (rach "pwr_ramp_params_r13.preamb_init_rx_target_pwr") None;
     F_asn1_enum_number "pwr_ramping_step" pwr_ramp_step_e (rach "pwr_ramp_params_r13.pwr_ramp_step") None;
     F_asn1_enum_number "preamble_trans_max_ce_r13" preamb_trans_max_e (rach "preamb_trans_max_ce_r13") None;
     F_number "conn_est_fail_offset_r13" T_u8 (rach "conn_est_fail_offset_r13")
       (Some (rach "conn_est_fail_offset_r13_present"))]
    [Section_ "rach_info" None [F_rach_info "rrc_cfg.sib2.rr_cfg_common_r13.rach_cfg_common_r13"] []].

Definition rr_config : section :=
  let rr m := rrc ("sib2.rr_cfg_common_r13." +:+ m) in
  Section_ "rr_config_common_sib_r13" None []
    [rach_cnfg;
     Section_ "bcch_cnfg_r13" None
       [F_asn1_enum_number "modification_period_coeff_r13" mod_period_coeff_r13_e (rr "bcch_cfg_r13.mod_period_coeff_r13") None] [];
     Section_ "pcch_cnfg_r13" None
       [F_asn1_enum_number "default_paging_cycle_r13" default_paging_cycle_r13_e (rr "pcch_cfg_r13.default_paging_cycle_r13") None;
        F_asn1_enum_number_str "nB_r13" nb_r13_e (rr "pcch_cfg_r13.nb_r13") None;
        F_asn1_enum_number "npdcch_numrepetition_paging_r13" npdcch_num_repeat_paging_r13_e
          (rr "pcch_cfg_r13.npdcch_num_repeat_paging_r13") None] [];
     Section_ "nprach_cnfg_r13" None
       [F_asn1_enum_number_str "nprach_cp_length_r13" nprach_cp_len_r13_e (rr "nprach_cfg_r13.nprach_cp_len_r13") None]
       [Section_ "nprach_params_list_r13" None [F_nprach_params "rrc_cfg.sib2.rr_cfg_common_r13.nprach_cfg_r13"] []];
     Section_ "npdsch_cnfg_r13" None
       [F_number "nrs_power_r13" T_i8 (rr "npdsch_cfg_common_r13.nrs_pwr_r13") None] [];
     Section_ "npusch_cnfg_r13" None []
       [Section_ "ack_nack_numrepetitions_nb_r13" None [F_ack_nack_nrep "rrc_cfg.sib2.rr_cfg_common_r13.npusch_cfg_common_r13"] [];
        Section_ "ul_rs_r13" None
          [F_number "group_assignment_npusch_r13" T_u8
             (rr "npusch_cfg_common_r13.ul_ref_sigs_npusch_r13.group_assign_npusch_r13") None;
           F_bool "group_hopping_enabled_r13"
             (rr "npusch_cfg_common_r13.ul_ref_sigs_npusch_r13.group_hop_enabled_r13") None] []];
     Section_ "dl_gap_r13" (Some (rr "dl_gap_r13_present"))
       [F_asn1_enum_number "dl_gap_thres_r13" dl_gap_thres_r13_e (rr "dl_gap_r13.dl_gap_thres_r13") None;
        F_asn1_enum_number "dl_gap_periodicity_r13" dl_gap_periodicity_r13_e (rr "dl_gap_r13.dl_gap_periodicity_r13") None;
        F_asn1_enum_str "dl_gap_duration_coeff_r13" dl_gap_dur_coeff_r13_e (rr "dl_gap_r13.dl_gap_dur_coeff_r13") None] [];
     Section_ "ul_pwr_ctrl_r13" None
       [F_number "p0_nominal_npusch_r13" T_i8 (rr "ul_pwr_ctrl_common_r13.p0_nominal_npusch_r13") None;
        F_asn1_enum_str "alpha_r13" alpha_r13_e (rr "ul_pwr_ctrl_common_r13.alpha_r13") None;
        F_number "delta_preamble_msg3_r13" T_i8 (rr "ul_pwr_ctrl_common_r13.delta_preamb_msg3_r13") None] []].

Definition sib2 : section :=
  Section_ "sib2" None
    [F_asn1_enum_str "time_alignment_timer_r13" time_align_timer_e (rrc "sib2.time_align_timer_common_r13") None;
     F_bool "cqi_reporting_r14" (rrc "sib2.cqi_report_r14_present") None]
    [Section_ "freqInfo_r13" None
       [F_number "additional_spectrum_emission_r13" T_u8 (rrc "sib2.freq_info_r13.add_spec_emission_r13") None;
        F_bool "ul_carrier_freq_r13_present" (rrc "sib2.freq_info_r13.ul_carrier_freq_r13_present") None] [];
     Section_ "ue_timers_and_constants_r13" None
       [F_asn1_enum_number "t300_r13" t300_r13_e (rrc "sib2.ue_timers_and_consts_r13.t300_r13") None;
        F_asn1_enum_number "t301_r13" t301_r13_e (rrc "sib2.ue_timers_and_consts_r13.t301_r13") None;
        F_asn1_enum_number "t310_r13" t310_r13_e (rrc "sib2.ue_timers_and_consts_r13.t310_r13") None;
        F_asn1_enum_number "n310_r13" n310_r13_e (rrc "sib2.ue_timers_and_consts_r13.n310_r13") None;
        F_asn1_enum_number "t311_r13" t311_r13_e (rrc "sib2.ue_timers_and_consts_r13.t311_r13") None;
        F_asn1_enum_number "n311_r13" n311_r13_e (rrc "sib2.ue_timers_and_consts_r13.n311_r13") None] [];
     rr_config].

Definition parse_sib2 (filename : string) : cfgM Z := parse_section read_file filename sib2.

Definition sib3 : section :=
  Section_ "sib3" None []
    [Section_ "cell_reselection_common_r13" None
       [F_asn1_enum_number "q_hyst_r13" q_hyst_r13_e (rrc "sib3.cell_resel_info_common_r13.q_hyst_r13") None] [];
     Section_ "cell_reselection_serving_r13" None
       [F_number "s_non_intra_search_r13" T_u8 (rrc "sib3.cell_resel_serving_freq_info_r13.s_non_intra_search_r13") None] [];
     Section_ "intra_freq_reselection_r13" None
       [F_number "q_rx_lev_min_r13" T_i8 (rrc "sib3.intra_freq_cell_resel_info_r13.q_rx_lev_min_r13") None;
        F_number "p_max_r13" T_i8 (rrc "sib3.intra_freq_cell_resel_info_r13.p_max_r13")
          (Some (rrc "sib3.intra_freq_cell_resel_info_r13.p_max_r13_present"));
        F_number "q_qual_min_r13" T_i8 (rrc "sib3.intra_freq_cell_resel_info_r13.q_qual_min_r13")
          (Some (rrc "sib3.intra_freq_cell_resel_info_r13.q_qual_min_r13_present"));
        F_number "s_intra_search_p_r13" T_u8 (rrc "sib3.intra_freq_cell_resel_info_r13.s_intra_search_p_r13") None;
        F_asn1_enum_number "t_resel_r13" t_resel_nb_r13_e (rrc "sib3.intra_freq_cell_resel_info_r13.t_resel_r13") None] []].

Definition parse_sib3 (filename : string) : cfgM Z := parse_section read_file filename sib3.

(** [mnc_to_string] first, then the country code. *)
Definition fill_plmn (a : all_args_t) : cfgM Z :=
  match mnc_to_string (aa_mnc a), mcc_to_string (aa_mcc a) with
  | Some mnc_str, Some mcc_str =>
      write (rrc "sib1.cell_access_related_info_r13.plmn_id_list_r13") (CLen 1);;
      match plmn_from_string (mcc_str ++ mnc_str) with
      | Some plmn =>
          write (rrc "sib1.cell_access_related_info_r13.plmn_id_list_r13[0].plmn_id_r13.mcc") (CDigits (pl_mcc plmn));;
          write (rrc "sib1.cell_access_related_info_r13.plmn_id_list_r13[0].plmn_id_r13.mnc") (CDigits (pl_mnc plmn));;
          write (rrc "sib1.cell_access_related_info_r13.plmn_id_list_r13[0].cell_reserved_for_oper_r13") (CEnum 1);;
          write (rrc "sib1.hyper_sfn_msb_r13") (bitstring_from_number 8 0);; mret 0
      | None => mret (-1)
      end
  | _, _ => mret (-1)
  end.

Definition parse_sibs (a : all_args_t) : cfgM Z :=
  r ← parse_sib1 (aa_sib_config a);
  if negb (r =? 0) then mret (-1) else
  r ← fill_plmn a;
  if negb (r =? 0) then mret (-1) else
  r ← parse_sib2 (aa_sib_config a);
  if negb (r =? 0) then mret (-1) else
  r ← parse_sib3 (aa_sib_config a);
  if negb (r =? 0) then mret (-1) else
  modify (copy_struct "phy_cfg.nprach_cnfg." "rrc_cfg.sib2.rr_cfg_common_r13.nprach_cfg_r13.");;
  modify (copy_struct "phy_cfg.npusch_cnfg." "rrc_cfg.sib2.rr_cfg_common_r13.npusch_cfg_common_r13.");;
  mret 0.

(** ** [enb_conf_sections] *)

(** Band, first downlink and first uplink channel number of each entry of
    [lte_bands], of which the last only ends the one before. *)
Definition lte_bands : list (Z * Z * Z) :=
  [(1, 0, 18000); (2, 600, 18600); (3, 1200, 19200); (4, 1950, 19950); (5, 2400, 20400); (6, 2650,
   20650); (7, 2750, 20750); (8, 3450, 21450); (9, 3800, 21800); (10, 4150, 22150); (11, 4750, 22750);
   (12, 5010, 23010); (13, 5180, 23180); (14, 5280, 23280); (17, 5730, 23730); (18, 5850, 23850); (19,
   6000, 24000); (20, 6150, 24150); (21, 6450, 24450); (22, 6600, 24600); (23, 7500, 25500); (24, 7700,
   25700); (25, 8040, 26040); (26, 8690, 26690); (27, 9040, 27040); (28, 9210, 27210); (29, 9660, 0);
   (30, 9770, 27660); (31, 9870, 27760); (32, 9920, 0); (33, 36000, 0); (34, 36200, 0); (35, 36350, 0);
   (36, 36950, 0); (37, 37550, 0); (38, 37750, 0); (39, 38250, 0); (40, 38650, 0); (41, 39650, 0); (42,
   41590, 0); (43, 43590, 0); (44, 45590, 0); (45, 46590, 0); (46, 46790, 0); (47, 54540, 0); (48,
   55240, 0); (49, 56740, 0); (50, 58240, 0); (51, 59090, 0); (52, 59140, 0); (64, 60139, 27809); (65,
   65536, 131072); (66, 66436, 131972); (67, 67336, 0); (68, 67536, 132672); (69, 67836, 0); (70,
   68336, 132972); (71, 68586, 133122)].
Definition SRSLTE_NOF_LTE_BANDS : nat := 58.

(** The loop all band functions make; an invalid number is only reported. *)
Fixpoint band_search (i : nat) (dl_earfcn : Z) : nat :=
  match i with
  | O => O
  | S i' => match lte_bands !! i with
            | Some (_, off, _) => if off >? dl_earfcn then band_search i' dl_earfcn else i
            | None => i
            end
  end.
Definition band_of (dl_earfcn : Z) : Z * Z * Z :=
  default (0, 0, 0) (lte_bands !! band_search (SRSLTE_NOF_LTE_BANDS - 2) dl_earfcn).
Definition srslte_band_get_band (dl_earfcn : Z) : Z := (band_of dl_earfcn).1.1.
Definition srslte_band_ul_earfcn (dl_earfcn : Z) : Z :=
  let '(_, dl_off, ul_off) := band_of dl_earfcn in u32 (ul_off + u32 (dl_earfcn - dl_off)).

Definition SRSLTE_NBIOT_MODE_GUARDBAND : Z := 2.
Definition SRSLTE_NBIOT_MODE_STANDALONE : Z := 3.
(** Anything but [guardband_r13], the third option, is taken for standalone. *)
Definition cell_mode (mode : nat) : Z :=
  if (mode =? 2)%nat then SRSLTE_NBIOT_MODE_GUARDBAND else SRSLTE_NBIOT_MODE_STANDALONE.

Definition fill_phy_cell_cfg : cfgM () :=
  modify (clear_struct "phy_cfg.phy_cell_cfg.");;
  modify (copy_struct "phy_cfg.phy_cell_cfg.cell." "rrc_cfg.cell_common.");;
  st ← get;
  let mode := cell_mode (load_enum operation_mode_info_r13_e st (rrc "cell_spec.mode")) in
  write (phy "phy_cell_cfg.cell.n_id_ncell") (CNum (load_num st (rrc "cell_spec.pci")));;
  write (phy "phy_cell_cfg.cell.mode") (CNum mode);;
  write (phy "phy_cell_cfg.rf_port") (CNum 0);;
  write (phy "phy_cell_cfg.cell_id") (CNum (load_num st (rrc "cell_spec.cell_id")));;
  let dl := load_num st (rrc "cell_spec.dl_earfcn") in
  (if load_num st (rrc "cell_spec.ul_earfcn") =? 0 then
     write (rrc "cell_spec.ul_earfcn") (CNum (srslte_band_ul_earfcn dl))
   else mret ());;
  st ← get;
  let offset e p := if mode =? SRSLTE_NBIOT_MODE_STANDALONE then None else Some (load_enum e st p) in
  write (phy "phy_cell_cfg.dl_freq_hz") (CFreq true dl (offset ch_raster_offset_nb_r13_e (rrc "cell_spec.dl_offset")));;
  write (phy "phy_cell_cfg.ul_freq_hz")
    (CFreq false (load_num st (rrc "cell_spec.ul_earfcn")) (offset carrier_freq_offset_r13_e (rrc "cell_spec.ul_carrier_offset")));;
  write (phy "phy_cell_cfg.cell.base.id") (CNum (load_num st (rrc "cell_spec.cell_id"))).

Definition fill_sib_from_cell_cfg : cfgM () :=
  st ← get;
  let n m := load_num st (rrc ("cell_spec." +:+ m)) in
  write (rrc "sib1.cell_access_related_info_r13.tac_r13") (bitstring_from_number 16 (n "tac"));;
  write (rrc "sib1.cell_access_related_info_r13.cell_id_r13") (bitstring_from_number 28 (n "cell_id"));;
  write (rrc "sib1.freq_band_ind_r13") (CNum (srslte_band_get_band (n "dl_earfcn")));;
  write (rrc "sib2.freq_info_r13.ul_carrier_freq_r13.carrier_freq_r13") (CNum (n "ul_earfcn"));;
  write (rrc "sib2.freq_info_r13.ul_carrier_freq_r13.carrier_freq_offset_r13_present") (CBool true);;
  write (rrc "sib2.freq_info_r13.ul_carrier_freq_r13.carrier_freq_offset_r13")
    (CEnum (load_enum carrier_freq_offset_r13_e st (rrc "cell_spec.ul_carrier_offset"))).

(** [args_->stack.s1ap.cell_id] has eight bits, [tac] sixteen. *)
Definition set_derived_args (a : all_args_t) : cfgM Z :=
  st ← get;
  write (args "stack.s1ap.enb_id") (CNum (aa_enb_id a));;
  write (args "stack.s1ap.cell_id") (CNum (u8 (load_num st (rrc "cell_spec.cell_id"))));;
  write (args "stack.s1ap.tac") (CNum (u16 (load_num st (rrc "cell_spec.tac"))));;
  fill_phy_cell_cfg;;
  fill_sib_from_cell_cfg;;
  write (args "rf.nof_carriers") (CNum 1);;
  write (args "rf.nof_antennas") (CNum (aa_nof_ports a));;
  write (rrc "enb_id") (CNum (aa_enb_id a));;
  mret 0.

(** Exceptions of the settings become errors. *)
Definition caught (m : cfgM Z) : cfgM Z := fun st =>
  match m st with
  | (st', Ret r) => (st', Ret (ret_of (r =? 0)))
  | (st', Throw _) => (st', Ret (-1))
  | r => r
  end.

Definition parse_cfg_files (a : all_args_t) : cfgM Z :=
  r ← caught (parse_sibs a);
  if negb (r =? 0) then mret (-1) else
  r ← caught (parse_rr a);
  if negb (r =? 0) then mret (-1) else
  set_derived_args a.
End Parse.
