(* ===== verification/CfgTree.v ===== *)
(** * Configuration: settings as trees

    A concrete model of [libconfig] and of the example files
    ([example-config/sib_nb.conf], [rr_nb.conf]): the instance the interface of
    [CfgSettings.v] is shown to allow, and the files on which the theorems about
    configurations are tried. *)
From S2P Require Import Prelude CfgSettings.

(** ** The instance *)
Inductive tree :=
| T_int (z : Z)
| T_str (s : string)
| T_bool (b : bool)
| T_list (l : list tree)
| T_group (l : list (string * tree)).

Fixpoint assoc {A} (n : string) (l : list (string * A)) : option A :=
  match l with [] => None | (k, v) :: l => if decide (k = n) then Some v else assoc n l end.

Definition tree_get (t : tree) (n : string) : option tree := match t with T_group l => assoc n l | _ => None end.
Definition is_int32 (z : Z) : bool := (- 2 ^ 31 <=? z) && (z <? 2 ^ 31).

#[export] Instance tree_libconfig : Libconfig tree := {|
  lc_exists t n := bool_decide (is_Some (tree_get t n));
  lc_uint t n := match tree_get t n with Some (T_int z) => if is_int32 z then Some (u32 z) else None | _ => None end;
  lc_int t n := match tree_get t n with Some (T_int z) => if is_int32 z then Some z else None | _ => None end;
  lc_bool t n := match tree_get t n with Some (T_bool b) => Some b | _ => None end;
  lc_string t n := match tree_get t n with Some (T_str s) => Some s | _ => None end;
  lc_member t n :=
    match t with
    | T_group l => match assoc n l with Some v => inr v | None => inl SettingNotFoundException end
    | _ => inl SettingTypeException
    end;
  lc_elem t i :=
    match t with
    | T_list l => match l !! i with Some v => inr v | None => inl SettingNotFoundException end
    | T_group l => match l !! i with Some (_, v) => inr v | None => inl SettingNotFoundException end
    | _ => inl SettingTypeException
    end;
  lc_length t := match t with T_list l => length l | T_group l => length l | _ => 0%nat end;
  lc_to_uint t := match t with T_int z => if is_int32 z then inr (u32 z) else inl SettingTypeException
                             | _ => inl SettingTypeException end
|}.

#[export] Instance tree_laws : LibconfigLaws tree.
Proof.
  split.
  - intros t n v; cbn. destruct (tree_get t n) as [[z| | | |]|]; try done. destruct (is_int32 z) eqn:E; [|done].
    intros [= <-]. split; [done|]. apply u32_range.
  - intros t n v; cbn. destruct (tree_get t n) as [[z| | | |]|]; try done. destruct (is_int32 z) eqn:E; [|done].
    intros [= <-]. unfold is_int32 in E. split; [done|lia].
  - intros t n v; cbn. by destruct (tree_get t n) as [[| | | |]|].
  - intros t n v; cbn. by destruct (tree_get t n) as [[| | | |]|].
  - intros t n; cbn. rewrite bool_decide_eq_true. split.
    + intros [v Hv]. destruct t; try done. cbn in Hv. rewrite Hv. by exists v.
    + intros [v Hv]. destruct t as [| | | |l]; try done. cbn. by destruct (assoc n l).
  - intros t i; cbn. destruct t as [| | |l|l]; cbn; intros Hi; try lia;
      (destruct (lookup_lt_is_Some_2 l i Hi) as [v Hv]; rewrite Hv; cbn; try (destruct v); eauto).
Qed.

(** ** The example files *)
Local Open Scope string_scope.

Definition sib_nb_conf : tree :=
  T_group [
    ("sib1", T_group [
      ("intra_freq_reselection_r13", T_str "Allowed"); ("q_rx_lev_min_r13", T_int (-65));
      ("cell_barred_r13", T_str "NotBarred"); ("si_window_length_r13", T_int 160);
      ("sched_info", T_list [
        T_group [
          ("si_periodicity_r13", T_int 512); ("si_repeat_pattern_r13", T_str "every4thRF");
          ("si_mapping_info_r13", T_list [T_int 3]); ("si_tb_r13", T_int 440)]])]);
    ("sib2", T_group [
      ("rr_config_common_sib_r13", T_group [
        ("rach_cnfg_r13", T_group [
          ("preamble_init_rx_target_pwr", T_int (-104)); ("pwr_ramping_step", T_int 4);
          ("preamble_trans_max_ce_r13", T_int 10);
          ("rach_info", T_list [
            T_group [
              ("ra_resp_win_size_r13", T_int 10); ("mac_con_res_timer_r13", T_int 32)];
            T_group [
              ("ra_resp_win_size_r13", T_int 8); ("mac_con_res_timer_r13", T_int 32)];
            T_group [
              ("ra_resp_win_size_r13", T_int 10); ("mac_con_res_timer_r13", T_int 32)]]);
          ("conn_est_fail_offset_r13", T_int 0)]);
        ("bcch_cnfg_r13", T_group [
          ("modification_period_coeff_r13", T_int 16)]);
        ("pcch_cnfg_r13", T_group [
          ("default_paging_cycle_r13", T_int 256); ("nB_r13", T_str "1");
          ("npdcch_numrepetition_paging_r13", T_int 256)]);
        ("nprach_cnfg_r13", T_group [
          ("nprach_cp_length_r13", T_str "266.7");
          ("rsrp_thres_prach_info_r13", T_list [T_int 27; T_int 15]);
          ("nprach_params_list_r13", T_list [
            T_group [
              ("nprach_periodicity_r13", T_int 160); ("nprach_start_time_r13", T_int 64);
              ("nprach_subcarrier_offset_r13", T_int 36); ("nprach_numsubcarrier_r13", T_int 12);
              ("nprach_subc_msg3_rangestart_r13", T_str "oneThird");
              ("max_num_preamble_attempt_ce_r13", T_int 10);
              ("num_rep_per_preamble_attempt_r13", T_int 1); ("npdcch_numrepetition_ra_r13", T_int 8);
              ("npdcch_startsf_css_ra_r13", T_str "2"); ("npdcch_offset_ra_r13", T_str "zero")];
            T_group [
              ("nprach_periodicity_r13", T_int 640); ("nprach_start_time_r13", T_int 64);
              ("nprach_subcarrier_offset_r13", T_int 36); ("nprach_numsubcarrier_r13", T_int 12);
              ("nprach_subc_msg3_rangestart_r13", T_str "oneThird");
              ("max_num_preamble_attempt_ce_r13", T_int 10);
              ("num_rep_per_preamble_attempt_r13", T_int 8); ("npdcch_numrepetition_ra_r13", T_int 64);
              ("npdcch_startsf_css_ra_r13", T_str "1.5"); ("npdcch_offset_ra_r13", T_str "zero")];
            T_group [
              ("nprach_periodicity_r13", T_int 2560); ("nprach_start_time_r13", T_int 64);
              ("nprach_subcarrier_offset_r13", T_int 36); ("nprach_numsubcarrier_r13", T_int 12);
              ("nprach_subc_msg3_rangestart_r13", T_str "oneThird");
              ("max_num_preamble_attempt_ce_r13", T_int 10);
              ("num_rep_per_preamble_attempt_r13", T_int 32); ("npdcch_numrepetition_ra_r13", T_int 512);
              ("npdcch_startsf_css_ra_r13", T_str "4"); ("npdcch_offset_ra_r13", T_str "zero")]])]);
        ("npdsch_cnfg_r13", T_group [
          ("nrs_power_r13", T_int 0)]);
        ("npusch_cnfg_r13", T_group [
          ("ack_nack_numrepetitions_nb_r13", T_list [T_int 1; T_int 2; T_int 32]);
          ("dmrs_cnfg_r13", T_group [
            ("threetone_cycshift_r13", T_int 2); ("sixtone_cycshift_r13", T_int 2)]);
          ("ul_rs_r13", T_group [
            ("group_hopping_enabled_r13", T_bool true); ("group_assignment_npusch_r13", T_int 0)])]);
        ("dl_gap_r13", T_group [
          ("dl_gap_thres_r13", T_int 256); ("dl_gap_periodicity_r13", T_int 256);
          ("dl_gap_duration_coeff_r13", T_str "oneHalf")]);
        ("ul_pwr_ctrl_r13", T_group [
          ("p0_nominal_npusch_r13", T_int (-103)); ("alpha_r13", T_str "al1");
          ("delta_preamble_msg3_r13", T_int 6)]);
        ("nprach_cnfg_v1330", T_list [
          T_group [
            ("nprach_numcbra_start_subc_r13", T_int 8)];
          T_group [
            ("nprach_numcbra_start_subc_r13", T_int 8)];
          T_group [
            ("nprach_numcbra_start_subc_r13", T_int 8)]])]);
      ("ue_timers_and_constants_r13", T_group [
        ("t300_r13", T_int 40000); ("t301_r13", T_int 2500); ("t310_r13", T_int 8000);
        ("n310_r13", T_int 20); ("t311_r13", T_int 1000); ("n311_r13", T_int 1)]);
      ("freqInfo_r13", T_group [
        ("ul_carrier_freq_r13_present", T_bool true); ("additional_spectrum_emission_r13", T_int 1)]);
      ("time_alignment_timer_r13", T_str "INFINITY"); ("cqi_reporting_r14", T_bool true)]);
    ("sib3", T_group [
      ("cell_reselection_common_r13", T_group [
        ("q_hyst_r13", T_int 0)]);
      ("cell_reselection_serving_r13", T_group [
        ("s_non_intra_search_r13", T_int 8)]);
      ("intra_freq_reselection_r13", T_group [
        ("q_rx_lev_min_r13", T_int (-70)); ("s_intra_search_p_r13", T_int 23); ("t_resel_r13", T_int 6)])])]%Z.

Definition rr_nb_conf : tree :=
  T_group [
    ("mac_cnfg", T_group [
      ("ulsch_cnfg_r13", T_group [
        ("periodic_bsr_timer_r13", T_int 8); ("retx_bsr_timer_r13", T_int 512)]);
      ("time_alignment_timer_r13", T_int (-1)); ("logical_channel_sr_prohibit_timer_r13", T_int 8)]);
    ("phy_cnfg", T_group [
      ("npdcch_cnfg_ded", T_group [
        ("npdcch_numrepetition_r13", T_int 2); ("npdcch_start_sf_uss_r13", T_str "4");
        ("npdcch_offset_uss_r13", T_str "zero")]);
      ("npusch_cnfg_ded", T_group [
        ("ack_nack_numrepetition_r13", T_int 2); ("npusch_all_symbols_r13", T_bool true)]);
      ("ul_power_control_ded", T_group [
        ("p0_ue_npusch_r13", T_int 0)])]);
    ("cell", T_group [
      ("cell_id", T_int 2); ("tac", T_int 7); ("pci", T_int 99); ("mode", T_str "guardband-r13");
      ("dl_earfcn", T_int 2391); ("dl_raster_offset", T_str "-2.5"); ("ul_earfcn", T_int 20391);
      ("ul_carrier_freq_offset", T_str "-2")])]%Z.

(** The files by their names. *)
Definition example_files (name : string) : option tree :=
  if decide (name = "sib_nb.conf") then Some sib_nb_conf
  else if decide (name = "rr_nb.conf") then Some rr_nb_conf else None.
