(* ===== verification/CfgRoundtrip.v ===== *)
(** * Configuration: what is written is read

    The printing of a configuration as a settings tree, and the theorem that the
    parser reads it back: every member that the sections name gets the value it
    was printed from, and no other member changes. *)
From S2P Require Import Prelude CfgSettings CfgEnums CfgParser CfgTree.

(** ** Printing *)
Definition load_len (st : store) (p : path) : nat := match st !! p with Some (CLen n) => n | _ => 0%nat end.
Definition load_bool (st : store) (p : path) : bool := match st !! p with Some (CBool b) => b | _ => false end.
Definition load_opt (st : store) (p : path) : nat := match st !! p with Some (CEnum i) => i | _ => 0%nat end.

(** An optional member is printed when its flag says so. *)
Definition present (want : store) (en : option path) : bool :=
  match en with None => true | Some q => load_bool want q end.

Definition printed {X} (nm : X -> string) (pr : X -> bool) (tr : X -> tree) (l : list X) : list (string * tree) :=
  List.flat_map (fun x => if pr x then [(nm x, tr x)] else []) l.

Section Print.
Context (want : store).
Local Open Scope string_scope.

Definition number_tree (e : enum_t) (p : path) : tree := T_int (to_number e (load_opt want p)).
Definition name_tree (e : enum_t) (p : path) : tree := T_str (to_string e (load_opt want p)).
Definition number_string_tree (e : enum_t) (p : path) : tree :=
  T_str (default "" (en_number_strings e !! load_opt want p)).

Definition mapping_tree (data : string) (i : nat) : tree :=
  T_list (List.map (fun j => T_int (3 + Z.of_nat (load_opt want (at_ data ".sched_info_list_r13[].sib_map_info_r13[]" [i; j]))))
    (seq 0 (load_len want (at_ data ".sched_info_list_r13[].sib_map_info_r13" [i])))).

Definition list_entry (f : field) (i : nat) : tree :=
  match f with
  | F_sched_info data =>
      let p m := at_ data (".sched_info_list_r13[]." +:+ m) [i] in
      T_group [("si_periodicity_r13", number_tree si_periodicity_r13_e (p "si_periodicity_r13"));
               ("si_repeat_pattern_r13", name_tree si_repeat_pattern_r13_e (p "si_repeat_pattern_r13"));
               ("si_mapping_info_r13", mapping_tree data i);
               ("si_tb_r13", number_tree si_tb_r13_e (p "si_tb_r13"))]
  | F_nprach_params data =>
      let p m := at_ data (".nprach_params_list_r13[]." +:+ m) [i] in
      T_group [("nprach_periodicity_r13", number_tree nprach_periodicity_r13_e (p "nprach_periodicity_r13"));
               ("nprach_start_time_r13", number_tree nprach_start_time_r13_e (p "nprach_start_time_r13"));
               ("nprach_subcarrier_offset_r13", number_tree nprach_subcarrier_offset_r13_e (p "nprach_subcarrier_offset_r13"));
               ("nprach_numsubcarrier_r13", number_tree nprach_num_subcarriers_r13_e (p "nprach_num_subcarriers_r13"));
               ("nprach_subc_msg3_rangestart_r13",
                  name_tree nprach_subcarrier_msg3_range_start_r13_e (p "nprach_subcarrier_msg3_range_start_r13"));
               ("max_num_preamble_attempt_ce_r13", number_tree max_num_preamb_attempt_ce_r13_e (p "max_num_preamb_attempt_ce_r13"));
               ("num_rep_per_preamble_attempt_r13",
                  number_tree num_repeats_per_preamb_attempt_r13_e (p "num_repeats_per_preamb_attempt_r13"));
               ("npdcch_numrepetition_ra_r13", number_tree npdcch_num_repeats_ra_r13_e (p "npdcch_num_repeats_ra_r13"));
               ("npdcch_startsf_css_ra_r13", number_string_tree npdcch_start_sf_css_ra_r13_e (p "npdcch_start_sf_css_ra_r13"));
               ("npdcch_offset_ra_r13", name_tree npdcch_offset_ra_r13_e (p "npdcch_offset_ra_r13"))]
  | F_rach_info data =>
      let p m := at_ data (".rach_info_list_r13[]." +:+ m) [i] in
      T_group [("ra_resp_win_size_r13", number_tree ra_resp_win_size_r13_e (p "ra_resp_win_size_r13"));
               ("mac_con_res_timer_r13", number_tree mac_contention_resolution_timer_r13_e (p "mac_contention_resolution_timer_r13"))]
  | F_ack_nack_nrep data =>
      number_tree ack_nack_num_repeats_nb_r13_e (at_ data ".ack_nack_num_repeats_msg4_r13[]" [i])
  | _ => T_int 0
  end.

(** The vector a list is stored in. *)
Definition list_path (f : field) : option path :=
  match f with
  | F_sched_info data => Some (at_ data ".sched_info_list_r13" [])
  | F_nprach_params data => Some (at_ data ".nprach_params_list_r13" [])
  | F_rach_info data => Some (at_ data ".rach_info_list_r13" [])
  | F_ack_nack_nrep data => Some (at_ data ".ack_nack_num_repeats_msg4_r13" [])
  | _ => None
  end.

Definition field_name (f : field) : string :=
  match f with
  | F_number n _ _ _ | F_bool n _ _ | F_enum_str n _ _ _ | F_enum_num n _ _ _ _
  | F_asn1_enum_number n _ _ _ | F_asn1_enum_str n _ _ _ | F_asn1_enum_number_str n _ _ _ => n
  | _ => ""
  end.
Definition field_en (f : field) : option path :=
  match f with
  | F_number _ _ _ en | F_bool _ _ en | F_enum_str _ _ _ en | F_enum_num _ _ _ _ en
  | F_asn1_enum_number _ _ _ en | F_asn1_enum_str _ _ _ en | F_asn1_enum_number_str _ _ _ en => en
  | _ => None
  end.

Definition field_tree (f : field) : tree :=
  match f with
  | F_number _ _ p _ => T_int (load_num want p)
  | F_bool _ p _ => T_bool (load_bool want p)
  | F_enum_str _ p values _ => T_str (default "" (values !! Z.to_nat (load_num want p)))
  | F_enum_num _ _ p values _ => T_int (default 0 (values !! Z.to_nat (load_num want p)))
  | F_asn1_enum_number _ e p _ => number_tree e p
  | F_asn1_enum_str _ e p _ => name_tree e p
  | F_asn1_enum_number_str _ e p _ => number_string_tree e p
  | f => T_list (List.map (list_entry f) (seq 0 (match list_path f with Some p => load_len want p | None => 0 end)))
  end.

Definition section_name (s : section) : string := let 'Section_ n _ _ _ := s in n.
Definition section_en (s : section) : option path := let 'Section_ _ en _ _ := s in en.

(** A list fills its section. *)
Fixpoint section_tree (s : section) : tree :=
  let 'Section_ _ _ fields subs := s in
  match List.filter (fun f => bool_decide (is_Some (list_path f))) fields with
  | f :: _ => field_tree f
  | [] =>
      T_group (printed field_name (fun f => present want (field_en f)) field_tree fields ++
               printed section_name (fun s => present want (section_en s)) section_tree subs)
  end.

Definition file_tree (l : list section) : tree :=
  T_group (printed section_name (fun s => present want (section_en s)) section_tree l).
End Print.

(** ** What can be printed *)
Section Fits.
Context (want : store).

Definition is_signed (t : num_type) : bool := match t with T_i8 | T_i16 | T_i32 => true | _ => false end.
(** A number of the type, and of a setting. *)
Definition num_fits (t : num_type) (z : Z) : bool :=
  is_int32 z && (num_cast t (if is_signed t then z else u32 z) =? z).

(** The option is the first with its number or string. *)
Definition number_fits (e : enum_t) (p : path) : bool :=
  match want !! p with
  | Some (CEnum i) =>
      (i <? nof_types e)%nat && num_fits (en_type e) (to_number e i) &&
      forallb (fun j => negb (to_number e j =? to_number e i)) (seq 0 i)
  | _ => false
  end.
Definition name_fits (e : enum_t) (p : path) : bool :=
  match want !! p with
  | Some (CEnum i) =>
      (i <? nof_types e)%nat &&
      forallb (fun j => negb (bool_decide (nows (to_string e j) = nows (to_string e i)))) (seq 0 i)
  | _ => false
  end.
Definition number_string_fits (e : enum_t) (p : path) : bool :=
  match want !! p with
  | Some (CEnum i) =>
      (i <? nof_types e)%nat && (i <? en_number_strings_sz e)%nat && (i <? length (en_number_strings e))%nat &&
      forallb (fun j => negb (bool_decide (en_number_strings e !! j = en_number_strings e !! i))) (seq 0 i)
  | _ => false
  end.

(** The index of the first occurrence. *)
Definition index_fits {A} `{EqDecision A} (p : path) (values : list A) : bool :=
  match want !! p with
  | Some (CNum z) =>
      (0 <=? z) && (z <? Z.of_nat (length values)) &&
      forallb (fun j => negb (bool_decide (values !! j = values !! Z.to_nat z))) (seq 0 (Z.to_nat z))
  | _ => false
  end.

Definition flag_fits (en : option path) : bool :=
  match en with None => true | Some q => match want !! q with Some (CBool _) => true | _ => false end end.
Definition len_fits (p : path) : bool := match want !! p with Some (CLen _) => true | _ => false end.

Definition entry_fits (f : field) (i : nat) : bool :=
  match f with
  | F_sched_info data =>
      let p m := at_ data (".sched_info_list_r13[]." +:+ m) [i] in
      number_fits si_periodicity_r13_e (p "si_periodicity_r13") &&
      name_fits si_repeat_pattern_r13_e (p "si_repeat_pattern_r13") &&
      number_fits si_tb_r13_e (p "si_tb_r13") && len_fits (p "sib_map_info_r13") &&
      (load_len want (p "sib_map_info_r13") <? ASN1_RRC_MAX_SIB)%nat &&
      forallb (fun j => match want !! at_ data ".sched_info_list_r13[].sib_map_info_r13[]" [i; j] with
                        | Some (CEnum k) => (k <=? 10)%nat | _ => false end)
        (seq 0 (load_len want (p "sib_map_info_r13")))
  | F_nprach_params data =>
      let p m := at_ data (".nprach_params_list_r13[]." +:+ m) [i] in
      number_fits nprach_periodicity_r13_e (p "nprach_periodicity_r13") &&
      number_fits nprach_start_time_r13_e (p "nprach_start_time_r13") &&
      number_fits nprach_subcarrier_offset_r13_e (p "nprach_subcarrier_offset_r13") &&
      number_fits nprach_num_subcarriers_r13_e (p "nprach_num_subcarriers_r13") &&
      name_fits nprach_subcarrier_msg3_range_start_r13_e (p "nprach_subcarrier_msg3_range_start_r13") &&
      number_fits max_num_preamb_attempt_ce_r13_e (p "max_num_preamb_attempt_ce_r13") &&
      number_fits num_repeats_per_preamb_attempt_r13_e (p "num_repeats_per_preamb_attempt_r13") &&
      number_fits npdcch_num_repeats_ra_r13_e (p "npdcch_num_repeats_ra_r13") &&
      number_string_fits npdcch_start_sf_css_ra_r13_e (p "npdcch_start_sf_css_ra_r13") &&
      name_fits npdcch_offset_ra_r13_e (p "npdcch_offset_ra_r13")
  | F_rach_info data =>
      let p m := at_ data (".rach_info_list_r13[]." +:+ m) [i] in
      number_fits ra_resp_win_size_r13_e (p "ra_resp_win_size_r13") &&
      number_fits mac_contention_resolution_timer_r13_e (p "mac_contention_resolution_timer_r13")
  | F_ack_nack_nrep data => number_fits ack_nack_num_repeats_nb_r13_e (at_ data ".ack_nack_num_repeats_msg4_r13[]" [i])
  | _ => false
  end.

(** Between one and three repetition numbers. *)
Definition length_fits (f : field) (n : nat) : bool :=
  match f with F_ack_nack_nrep _ => (1 <=? n)%nat && (n <=? 3)%nat | _ => true end.

Definition value_fits (f : field) : bool :=
  match f with
  | F_number _ t p _ => match want !! p with Some (CNum z) => num_fits t z | _ => false end
  | F_bool _ p _ => match want !! p with Some (CBool _) => true | _ => false end
  | F_enum_str _ p values _ => index_fits p values
  | F_enum_num _ t p values _ => index_fits p values && forallb (num_fits t) values
  | F_asn1_enum_number _ e p _ => number_fits e p
  | F_asn1_enum_str _ e p _ => name_fits e p
  | F_asn1_enum_number_str _ e p _ => number_string_fits e p
  | f =>
      match list_path f with
      | Some p => len_fits p && length_fits f (load_len want p) && forallb (entry_fits f) (seq 0 (load_len want p))
      | None => false
      end
  end.
Definition field_fits (f : field) : bool := flag_fits (field_en f) && (negb (present want (field_en f)) || value_fits f).

Fixpoint section_fits (s : section) : bool :=
  let 'Section_ _ en fields subs := s in
  flag_fits en && (negb (present want en) || forallb field_fits fields && forallb section_fits subs).

(** *** The members a section sets *)
Definition entry_paths (f : field) (i : nat) : list path :=
  match f with
  | F_sched_info data =>
      let p m := at_ data (".sched_info_list_r13[]." +:+ m) [i] in
      [p "si_periodicity_r13"; p "si_repeat_pattern_r13"; p "sib_map_info_r13"] ++
      List.flat_map (fun j => [at_ data ".sched_info_list_r13[].sib_map_info_r13[]" [i; j]])
        (seq 0 (load_len want (p "sib_map_info_r13"))) ++
      [p "si_tb_r13"]
  | F_nprach_params data =>
      let p m := at_ data (".nprach_params_list_r13[]." +:+ m) [i] in
      [p "nprach_periodicity_r13"; p "nprach_start_time_r13"; p "nprach_subcarrier_offset_r13";
       p "nprach_num_subcarriers_r13"; p "nprach_subcarrier_msg3_range_start_r13"; p "max_num_preamb_attempt_ce_r13";
       p "num_repeats_per_preamb_attempt_r13"; p "npdcch_num_repeats_ra_r13"; p "npdcch_start_sf_css_ra_r13";
       p "npdcch_offset_ra_r13"]
  | F_rach_info data =>
      let p m := at_ data (".rach_info_list_r13[]." +:+ m) [i] in
      [p "ra_resp_win_size_r13"; p "mac_contention_resolution_timer_r13"]
  | F_ack_nack_nrep data => [at_ data ".ack_nack_num_repeats_msg4_r13[]" [i]]
  | _ => []
  end.
Definition value_paths (f : field) : list path :=
  match f with
  | F_number _ _ p _ | F_bool _ p _ | F_enum_str _ p _ _ | F_enum_num _ _ p _ _
  | F_asn1_enum_number _ _ p _ | F_asn1_enum_str _ _ p _ | F_asn1_enum_number_str _ _ p _ => [p]
  | f => match list_path f with
         | Some p => p :: List.flat_map (entry_paths f) (seq 0 (load_len want p))
         | None => []
         end
  end.
Definition field_paths (f : field) : list path :=
  option_list (field_en f) ++ if present want (field_en f) then value_paths f else [].

Fixpoint section_paths (s : section) : list path :=
  let 'Section_ _ en fields subs := s in
  if present want en then List.flat_map field_paths fields ++ List.flat_map section_paths subs ++ option_list en
  else option_list en.
End Fits.

(** ** Sections whose settings can be told apart *)
Fixpoint names_ok (s : section) : bool :=
  let 'Section_ _ en fields subs := s in
  let lists := List.filter (fun f => bool_decide (is_Some (list_path f))) fields in
  match lists with
  | [] => bool_decide (NoDup (List.map field_name fields ++ List.map section_name subs))
  | _ => (length fields =? 1)%nat && (length subs =? 0)%nat
  end &&
  (negb (bool_decide (is_Some en)) || negb (length fields + length subs =? 0)%nat) &&
  forallb names_ok subs.

(** ** Parsing that ends with given members set *)

(** [m] returns [a] with the members [ps] as in [want] and the others unchanged. *)
Definition yields {A} (want : store) (m : cfgM A) (a : A) (ps : list path) : Prop :=
  forall st, exists st', m st = (st', Ret a) /\ (forall p, p ∈ ps -> st' !! p = want !! p) /\
    (forall p, p ∉ ps -> st' !! p = st !! p).

Section Yields.
Context (want : store).

Lemma yields_ret {A} (a : A) : yields want (mret a) a [].
Proof. intros st. exists st. split_and!; [done|set_solver|done]. Qed.

Lemma yields_lift {A} (x : cfg_exn + A) a : x = inr a -> yields want (lift x) a [].
Proof. intros ->. intros st. exists st. split_and!; [done|set_solver|done]. Qed.

Lemma yields_write p v : want !! p = Some v -> yields want (write p v) () [p].
Proof.
  intros Hp st. exists (<[p := v]> st). split_and!; [done| |].
  - intros q ->%list_elem_of_singleton. rewrite Hp. apply lookup_insert_eq.
  - intros q Hq. apply lookup_insert_ne. set_solver.
Qed.

Lemma yields_bind {A B} (m : cfgM A) (f : A -> cfgM B) a b ps qs :
  yields want m a ps -> yields want (f a) b qs -> yields want (m ≫= f) b (ps ++ qs).
Proof.
  intros Hm Hf st. destruct (Hm st) as (s1 & E1 & P1 & Q1). destruct (Hf s1) as (s2 & E2 & P2 & Q2).
  exists s2. split_and!.
  - unfold mbind, cfgM_bind. by rewrite E1.
  - intros p [Hp|Hp]%elem_of_app; [|by apply P2]. destruct (decide (p ∈ qs)) as [Hq|Hq]; [by apply P2|].
    rewrite Q2 by done. by apply P1.
  - intros p Hp. rewrite Q2, Q1; set_solver.
Qed.

Lemma yields_then {A} p v (m : cfgM A) a ps : want !! p = Some v -> yields want m a ps ->
  yields want (write p v;; m) a (p :: ps).
Proof. intros Hp Hm. apply (yields_bind _ _ () _ [p]); [by apply yields_write|done]. Qed.

Lemma yields_each {B} (l : list B) f g : (forall x, x ∈ l -> yields want (f x) 0 (g x)) ->
  yields want (each l f) 0 (List.flat_map g l).
Proof.
  induction l as [|x l IH]; intros H; [apply yields_ret|]. cbn. apply (yields_bind _ _ 0).
  - apply H. set_solver.
  - cbn. apply IH. set_solver.
Qed.

Lemma yields_write_if en b : (forall q, en = Some q -> want !! q = Some (CBool b)) ->
  yields want (write_if en b) () (option_list en).
Proof. intros H. destruct en as [q|]; [by apply yields_write, H|apply yields_ret]. Qed.

(** *** Searching an option *)
Lemma find_option_ok ptr e matches i st : (i < nof_types e)%nat -> (forall j, (j < i)%nat -> matches j = Ret false) ->
  matches i = Ret true -> find_option ptr e matches st = (<[ptr := CEnum i]> st, Ret true).
Proof.
  intros Hi Hlt Hm. unfold find_option. set (go := fix go (l : list nat) : cfgM bool := _).
  enough (forall n k s, (k <= i < k + n)%nat -> go (seq k n) s = (<[ptr := CEnum i]> s, Ret true)) as E
    by (apply E; lia).
  induction n as [|n IH]; intros k s Hk; [lia|]. cbn [seq go]. unfold mbind, cfgM_bind. cbn.
  destruct (decide (k = i)) as [->|Hne]; [by rewrite Hm|]. rewrite Hlt by lia. fold go.
  rewrite IH by lia. f_equal. apply insert_insert_eq.
Qed.

Lemma yields_option ptr e matches i : want !! ptr = Some (CEnum i) -> (i < nof_types e)%nat ->
  (forall j, (j < i)%nat -> matches j = Ret false) -> matches i = Ret true ->
  yields want (find_option ptr e matches) true [ptr].
Proof.
  intros Hw Hi Hlt Hm st. rewrite (find_option_ok _ _ _ i) by done.
  exists (<[ptr := CEnum i]> st). split_and!; [done| |].
  - intros q ->%list_elem_of_singleton. rewrite Hw. apply lookup_insert_eq.
  - intros q Hq. apply lookup_insert_ne. set_solver.
Qed.

Lemma forallb_seq f n : forallb f (seq 0 n) = true -> forall j, (j < n)%nat -> f j = true.
Proof. intros H j Hj. rewrite forallb_forall in H. apply H. apply in_seq. lia. Qed.

(** *** Values looked up in a tree *)
Lemma lookup_fits t root name z : tree_get root name = Some (T_int z) -> num_fits t z = true ->
  lookupValue t root name = (true, CNum z).
Proof.
  intros Hg [Hi Hc]%andb_true_iff. unfold lookupValue.
  assert (E : match t with T_u8 | T_u16 | T_u32 => lc_uint root name | _ => lc_int root name end =
    Some (if is_signed t then z else u32 z)) by (destruct t; cbn; by rewrite Hg, Hi).
  rewrite E. do 2 f_equal. by apply Z.eqb_eq.
Qed.

Lemma yields_number_option p e i : want !! p = Some (CEnum i) -> (i <? nof_types e)%nat = true ->
  forallb (fun j => negb (to_number e j =? to_number e i)) (seq 0 i) = true ->
  yields want (number_to_enum p e (to_number e i)) true [p].
Proof.
  intros Hw Hi Hlt. apply (yields_option _ _ _ i); [done|by apply Nat.ltb_lt| |by rewrite Z.eqb_refl].
  intros j Hj. pose proof (forallb_seq _ _ Hlt j Hj) as E. cbn in E. by apply negb_true_iff in E as ->.
Qed.

Lemma yields_number p e name root : tree_get root name = Some (number_tree want e p) -> number_fits want e p = true ->
  yields want (parse_enum_by_number p e name root) true [p].
Proof.
  unfold number_fits, number_tree, load_opt. intros Hg Hf.
  destruct (want !! p) as [[| |i| | | | |]|] eqn:Hw; try done. apply andb_true_iff in Hf as [[Hi Hz]%andb_true_iff Hlt].
  unfold parse_enum_by_number. rewrite (lookup_fits _ _ _ _ Hg Hz).
  by apply (yields_number_option _ _ i).
Qed.

Lemma yields_name p e name root : tree_get root name = Some (name_tree want e p) -> name_fits want e p = true ->
  yields want (parse_enum_by_str p e name root) true [p].
Proof.
  unfold name_fits, name_tree, load_opt. intros Hg Hf.
  destruct (want !! p) as [[| |i| | | | |]|] eqn:Hw; try done. apply andb_true_iff in Hf as [Hi Hlt].
  unfold parse_enum_by_str. cbn. rewrite Hg.
  apply (yields_option _ _ _ i); [done|by apply Nat.ltb_lt| |by rewrite bool_decide_eq_true_2].
  intros j Hj. pose proof (forallb_seq _ _ Hlt j Hj) as E. cbn in E. by apply negb_true_iff in E as ->.
Qed.

Lemma yields_number_string p e name root :
  tree_get root name = Some (number_string_tree want e p) -> number_string_fits want e p = true ->
  yields want (parse_enum_by_number_str p e name root) true [p].
Proof.
  unfold number_string_fits, number_string_tree, load_opt. intros Hg Hf.
  destruct (want !! p) as [[| |i| | | | |]|] eqn:Hw; try done.
  apply andb_true_iff in Hf as [[[Hi Hsz]%andb_true_iff Hl]%andb_true_iff Hlt].
  apply Nat.ltb_lt in Hi, Hsz, Hl. unfold parse_enum_by_number_str. cbn. rewrite Hg.
  assert (Hstr : forall j, (j <= i)%nat -> to_number_string e j = Ret (default ""%string (en_number_strings e !! j))).
  { intros j Hj. unfold to_number_string. replace (Nat.leb _ _) with false by (symmetry; apply Nat.leb_gt; lia).
    destruct (lookup_lt_is_Some_2 (en_number_strings e) j) as [s ->]; [lia|done]. }
  apply (yields_option _ _ _ i); [done|done| |].
  - intros j Hj. rewrite Hstr by lia. pose proof (forallb_seq _ _ Hlt j Hj) as E. cbn in E.
    apply negb_true_iff, bool_decide_eq_false in E. f_equal. apply bool_decide_eq_false. intros E'. apply E.
    destruct (lookup_lt_is_Some_2 (en_number_strings e) j) as [s Hs]; [lia|].
    destruct (lookup_lt_is_Some_2 (en_number_strings e) i) as [s' Hs']; [lia|]. rewrite Hs, Hs' in *. by cbn in E'; subst.
  - rewrite Hstr by lia. by rewrite bool_decide_eq_true_2.
Qed.

(** *** Fields *)
Lemma yields_opt_field name en root m t ps : flag_fits want en = true ->
  tree_get root name = (if present want en then Some t else None) ->
  (present want en = true -> yields want m 0 ps) ->
  yields want (opt_field name en root m) 0 (option_list en ++ if present want en then ps else []).
Proof.
  intros Hfl Hg Hm. unfold opt_field. cbn. rewrite Hg. destruct en as [q|]; cbn in *.
  - unfold load_bool in *. destruct (want !! q) as [[|b| | | | | |]|] eqn:Hw; try done. destruct b; cbn.
    + by apply yields_then, Hm.
    + apply yields_then; [done|apply yields_ret].
  - apply (yields_bind _ _ () _ []); [apply yields_ret|by apply Hm].
Qed.

Lemma index_find {A} `{EqDecision A} p (values : list A) : index_fits want p values = true ->
  exists z v, want !! p = Some (CNum z) /\ values !! Z.to_nat z = Some v /\
    list_find (fun w => w = v) values = Some (Z.to_nat z, v) /\ Z.of_nat (Z.to_nat z) = z.
Proof.
  unfold index_fits. destruct (want !! p) as [[z| | | | | | |]|] eqn:Hw; try done.
  intros [[H0 Hlt]%andb_true_iff Hf]%andb_true_iff.
  destruct (lookup_lt_is_Some_2 values (Z.to_nat z)) as [v Hv]; [lia|]. exists z, v. split_and!; [done|done| |lia].
  apply list_find_Some. split_and!; [done|done|]. intros j w Hw' Hj ->.
  pose proof (forallb_seq _ _ Hf j Hj) as E. cbn in E. rewrite Hw', Hv in E.
  by rewrite bool_decide_eq_true_2 in E.
Qed.

Lemma yields_found m ps : yields want m true ps -> yields want (found ← m; mret (ret_of found)) 0 ps.
Proof. intros H. rewrite <- (app_nil_r ps). by apply (yields_bind _ _ true), yields_ret. Qed.

(** Numbers, truth values and enumerations. *)
Lemma yields_value f root : list_path f = None -> field_fits want f = true ->
  tree_get root (field_name f) = (if present want (field_en f) then Some (field_tree want f) else None) ->
  yields want (field_parse f root) 0 (field_paths want f).
Proof.
  intros Hl Hfit Hg. apply andb_true_iff in Hfit as [Hfl Hv]. unfold field_paths.
  destruct f as [n t p en|n p en|n p vs en|n t p vs en|n e p en|n e p en|n e p en| | | |]; try done; cbn in *;
    (eapply yields_opt_field; [done|exact Hg|]); intros Hp; rewrite Hp in *; cbn in Hv.
  - destruct (want !! p) as [[z| | | | | | |]|] eqn:Hw; try done. unfold load_num in Hg. rewrite Hw in Hg.
    rewrite (lookup_fits t root n z) by done. by apply yields_then, yields_ret.
  - unfold load_bool in Hg. destruct (want !! p) as [[|b| | | | | |]|] eqn:Hw; try done.
    unfold lookup_bool. cbn. rewrite Hg. by apply yields_then, yields_ret.
  - destruct (index_find p vs Hv) as (z & v & Hw & Hz & Hfind & Hzz). unfold load_num in Hg. rewrite Hw, Hz in Hg.
    cbn. rewrite Hg. cbn. rewrite Hfind, Hzz. by apply yields_then, yields_ret.
  - apply andb_true_iff in Hv as [Hv Hnum].
    destruct (index_find p vs Hv) as (z & v & Hw & Hz & Hfind & Hzz). unfold load_num in Hg. rewrite Hw, Hz in Hg.
    rewrite (lookup_fits t root n v); [|done|].
    + rewrite Hfind, Hzz. by apply yields_then, yields_ret.
    + rewrite forallb_forall in Hnum. by apply Hnum, list_elem_of_In, (list_elem_of_lookup_2 _ (Z.to_nat z)).
  - by apply yields_found, yields_number.
  - by apply yields_found, yields_name.
  - by apply yields_found, yields_number_string.
Qed.

(** *** Lists *)
Lemma elem_map {B} (g : nat -> tree) n i (k : tree -> cfgM B) b ps : (i < n)%nat -> yields want (k (g i)) b ps ->
  yields want (here ← lift (lc_elem (T_list (List.map g (seq 0 n))) i); k here) b ps.
Proof.
  intros Hi Hk. apply (yields_bind _ _ (g i) _ []); [|done]. apply yields_lift. cbn.
  change (List.map g (seq 0 n)) with (g <$> seq 0 n). rewrite list_lookup_fmap, lookup_seq_lt by done. done.
Qed.

Lemma yields_checked m k p qs : yields want m true [p] -> yields want k 0 qs ->
  yields want (found ← m; if negb found then mret (-1) else k) 0 (p :: qs).
Proof. intros Hm Hk. by apply (yields_bind _ _ true _ [p]). Qed.

Lemma yields_dropped m k p qs : yields want m true [p] -> yields want k 0 qs ->
  yields want ((m : cfgM bool);; k) 0 (p :: qs).
Proof. intros Hm Hk. by apply (yields_bind _ _ true _ [p]). Qed.

Lemma yields_step m k p ps qs : yields want m 0 (p :: ps) -> yields want k 0 qs ->
  yields want (r ← m; if negb (r =? 0) then mret r else k) 0 (p :: ps ++ qs).
Proof. intros Hm Hk. by apply (yields_bind m _ 0 0 (p :: ps)). Qed.

Lemma yields_mapping data i item :
  let p := at_ data ".sched_info_list_r13[].sib_map_info_r13" [i] in
  tree_get item "si_mapping_info_r13" = Some (mapping_tree want data i) -> len_fits want p = true ->
  (load_len want p <? ASN1_RRC_MAX_SIB)%nat = true ->
  forallb (fun j => match want !! at_ data ".sched_info_list_r13[].sib_map_info_r13[]" [i; j] with
                    | Some (CEnum k) => (k <=? 10)%nat | _ => false end) (seq 0 (load_len want p)) = true ->
  yields want (parse_si_mapping data i item) 0
    (p :: List.flat_map (fun j => [at_ data ".sched_info_list_r13[].sib_map_info_r13[]" [i; j]]) (seq 0 (load_len want p))).
Proof.
  intros p Hg Hlen Hmax Hall. unfold parse_si_mapping. cbn [lc_exists tree_libconfig]. rewrite Hg. cbn [bool_decide].
  rewrite bool_decide_eq_true_2 by done.
  apply (yields_bind _ _ (mapping_tree want data i) _ []).
  { apply yields_lift. destruct item; try done. cbn in *. by rewrite Hg. }
  unfold mapping_tree. fold p. cbn [lc_length tree_libconfig]. rewrite List.length_map, length_seq.
  apply yields_then.
  { unfold len_fits, load_len in *. destruct (want !! p) as [[| | |n| | | |]|]; done. }
  rewrite Hmax. apply yields_each. intros j Hj%elem_of_seq. apply elem_map; [lia|].
  pose proof (forallb_seq _ _ Hall j ltac:(lia)) as Hk. cbn beta in Hk. unfold load_opt.
  destruct (want !! at_ data ".sched_info_list_r13[].sib_map_info_r13[]" [i; j]) as [[| |k| | | | |]|] eqn:Hw; try done.
  apply Nat.leb_le in Hk. apply (yields_bind _ _ (3 + Z.of_nat k) _ []).
  - apply yields_lift. cbn. unfold is_int32. replace (_ && _) with true by lia. f_equal. apply u32_id. lia.
  - replace (_ && _) with true by lia. apply yields_then, yields_ret. rewrite Hw. do 2 f_equal. lia.
Qed.

Lemma load_len_ok p : len_fits want p = true -> want !! p = Some (CLen (load_len want p)).
Proof. unfold len_fits, load_len. by destruct (want !! p) as [[| | |n| | | |]|]. Qed.

(** The fields of an entry, looked up in its group. *)
Ltac entry_fields :=
  repeat first
    [ apply yields_dropped | apply yields_checked | by apply yields_number | by apply yields_name
    | by apply yields_number_string | apply yields_ret | by apply yields_found, yields_number
    | apply yields_step; [by apply yields_mapping|] ].

Lemma list_field f p : list_path f = Some p -> field_fits want f = true ->
  want !! p = Some (CLen (load_len want p)) /\ length_fits f (load_len want p) = true /\
  (forall i, (i < load_len want p)%nat -> entry_fits want f i = true) /\
  field_tree want f = T_list (List.map (list_entry want f) (seq 0 (load_len want p))) /\
  field_paths want f = p :: List.flat_map (entry_paths want f) (seq 0 (load_len want p)).
Proof.
  intros Hp Hfit. unfold field_fits in Hfit.
  destruct f as [| | | | | | |data|data|data|data]; try done; injection Hp as <-;
    cbn [field_en flag_fits present negb orb andb value_fits list_path] in Hfit;
    apply andb_true_iff in Hfit as [[Hlen Hn]%andb_true_iff Hall];
    (split; [by apply load_len_ok|]; split; [done|]; split; [by apply forallb_seq|done]).
Qed.

(** The loop over the entries, given the parsing of one. *)
Lemma yields_entries f p k : list_path f = Some p -> field_fits want f = true ->
  (forall i, entry_fits want f i = true -> yields want (k i (list_entry want f i)) 0 (entry_paths want f i)) ->
  let root := field_tree want f in
  yields want (write p (CLen (lc_length root));;
               each (seq 0 (lc_length root)) (fun i => item ← lift (lc_elem root i); k i item)) 0 (field_paths want f).
Proof.
  intros Hp Hfit Hk root. destruct (list_field f p Hp Hfit) as (Hw & _ & Hall & Htree & Hpaths).
  subst root. rewrite Htree, Hpaths. cbn [lc_length tree_libconfig]. rewrite List.length_map, length_seq.
  apply yields_then; [done|]. apply yields_each. intros i Hi%elem_of_seq.
  apply (elem_map (list_entry want f) _ i (k i)); [lia|]. apply Hk, Hall. lia.
Qed.

(** An element that is itself the number. *)
Lemma yields_item_number p e : en_type e = T_u8 -> number_fits want e p = true ->
  yields want (val ← lift (lc_to_uint (number_tree want e p)); found ← number_to_enum p e val; mret (ret_of found)) 0 [p].
Proof.
  intros Ht Hf. unfold number_fits, number_tree, load_opt in *. rewrite Ht in Hf.
  destruct (want !! p) as [[| |i| | | | |]|] eqn:Hw; try done. rewrite !andb_true_iff in Hf.
  destruct Hf as [[Hi Hz] Hlt]. unfold num_fits in Hz. apply andb_true_iff in Hz as [Hint Hz].
  apply Z.eqb_eq in Hz. cbn in Hz. pose proof (u8_range (u32 (to_number e i))).
  apply (yields_bind _ _ (to_number e i) _ []).
  - apply yields_lift. cbn. rewrite Hint. f_equal. apply u32_id. lia.
  - by apply yields_found, (yields_number_option _ _ i).
Qed.

Lemma yields_list f p : list_path f = Some p -> field_fits want f = true ->
  yields want (field_parse f (field_tree want f)) 0 (field_paths want f).
Proof.
  intros Hp Hfit. destruct f as [| | | | | | |data|data|data|data]; try done; cbn [field_parse].
  1-3: apply (yields_entries _ _ (fun i item => _)); [done|done|]; intros i He; cbn [entry_fits] in He;
    rewrite !andb_true_iff in He; destruct_and! He; cbn [entry_paths]; entry_fields.
  - destruct (list_field _ _ Hp Hfit) as (_ & [H1 H3]%andb_true_iff & _ & Htree & _). apply Nat.leb_le in H1, H3.
    unfold parse_ack_nack_nrep. cbn [list_path] in Hp. injection Hp as <-. rewrite Htree at 1 2.
    cbn [lc_length tree_libconfig]. rewrite List.length_map, length_seq.
    replace ((_ =? 0)%nat || _) with false
      by (symmetry; apply orb_false_iff; split; [apply Nat.eqb_neq|apply Nat.ltb_ge]; lia).
    apply (yields_entries (F_ack_nack_nrep data) _ (fun i item => _)); [done|done|]. intros i He.
    by apply yields_item_number.
Qed.
End Yields.

(** ** Sections *)
Lemma section_ind' (P : section -> Prop) :
  (forall n en fields subs, Forall P subs -> P (Section_ n en fields subs)) -> forall s, P s.
Proof.
  intros HP. fix IH 1. intros [n en fields subs]. apply HP. induction subs as [|s subs IHs]; constructor; [apply IH|done].
Qed.

(** *** Groups printed from lists *)
Section Assoc.
Context {X : Type} (nm : X -> string) (pr : X -> bool) (tr : X -> tree).

Lemma assoc_app {A} n (l l' : list (string * A)) :
  assoc n (l ++ l') = match assoc n l with Some v => Some v | None => assoc n l' end.
Proof. induction l as [|[k v] l IH]; [done|]. cbn. by destruct (decide (k = n)). Qed.

Lemma assoc_absent n l : n ∉ List.map nm l -> assoc n (printed nm pr tr l) = None.
Proof.
  induction l as [|x l IH]; [done|]. cbn. intros Hn. rewrite assoc_app. fold (printed nm pr tr l). rewrite IH by set_solver.
  destruct (pr x); [|done]. cbn. rewrite decide_False; [done|]. set_solver.
Qed.

Lemma assoc_printed l x : NoDup (List.map nm l) -> x ∈ l -> assoc (nm x) (printed nm pr tr l) = if pr x then Some (tr x) else None.
Proof.
  induction l as [|y l IH]; [set_solver|]. cbn. intros [Hy Hnd]%NoDup_cons. fold (printed nm pr tr l). rewrite assoc_app. intros [->|Hx]%elem_of_cons.
  - rewrite assoc_absent by done. destruct (pr y); [|done]. cbn. by rewrite decide_True.
  - rewrite IH by done. assert (nm y <> nm x). { intros E. apply Hy. rewrite E. apply list_elem_of_In, in_map. by apply list_elem_of_In. }
    destruct (pr y); [|done]. cbn. by rewrite decide_False.
Qed.
End Assoc.

Section Sections.
Context (want : store).

Lemma yields_here {B} name root here (k : tree -> cfgM B) b ps : assoc name root = Some here ->
  yields want (k here) b ps -> yields want (t ← lift (lc_member (T_group root) name); k t) b ps.
Proof. intros Hr Hk. apply (yields_bind _ _ _ here _ []); [|done]. apply yields_lift. cbn. by rewrite Hr. Qed.

Lemma yields_zero (m : cfgM Z) ps : yields want m 0 ps -> yields want (r ← m; mret (ret_of (r =? 0))) 0 ps.
Proof. intros H. rewrite <- (app_nil_r ps). by apply (yields_bind _ _ _ 0), yields_ret. Qed.

Lemma yields_catch (m h : cfgM Z) a ps : yields want m a ps -> yields want (catch_not_found m h) a ps.
Proof. intros H st. destruct (H st) as (st' & E & R). exists st'. split; [|done]. unfold catch_not_found. by rewrite E. Qed.

(** A section that is there. *)
Lemma yields_section name root here en fields subs : assoc name root = Some here ->
  (forall f, f ∈ fields -> yields want (field_parse f here) 0 (field_paths want f)) ->
  Forall (fun s => yields want (section_parse s here) 0 (section_paths want s)) subs ->
  (forall q, en = Some q -> want !! q = Some (CBool true)) ->
  yields want (section_parse (Section_ name en fields subs) (T_group root)) 0
    (List.flat_map (field_paths want) fields ++ List.flat_map (section_paths want) subs ++ option_list en).
Proof.
  intros Hr Hfields Hsubs Hen. cbn [section_parse]. apply yields_catch.
  apply (yields_bind _ _ _ 0); [|cbn [Z.eqb negb]; apply (yields_bind _ _ _ 0)].
  - apply yields_each. intros f Hf. by eapply yields_here, yields_zero, Hfields.
  - induction Hsubs as [|s subs Hs Hsubs IH]; [apply yields_ret|]. cbn [List.flat_map]. eapply yields_here; [done|].
    by apply (yields_bind _ _ _ 0).
  - rewrite <- (app_nil_r (option_list en)). apply (yields_bind _ _ _ ()); [by apply yields_write_if|apply yields_ret].
Qed.

(** An optional section that is not: the flag is cleared. *)
Lemma yields_no_section name root q fields subs : assoc name root = None -> (length fields + length subs =? 0)%nat = false ->
  want !! q = Some (CBool false) ->
  yields want (section_parse (Section_ name (Some q) fields subs) (T_group root)) 0 [q].
Proof.
  intros Hr Hne Hq.
  assert (E : forall st, section_parse (Section_ name (Some q) fields subs) (T_group root) st =
    (write q (CBool false);; mret 0) st).
  { intros st. cbn [section_parse]. unfold catch_not_found. destruct fields as [|f fields]; [destruct subs as [|s subs]; [done|]|];
      unfold mbind, cfgM_bind, lift; cbn; by rewrite Hr. }
  intros st. rewrite E. by apply yields_then, yields_ret.
Qed.

(** What a section prints: one list, or a group of named settings. *)
Lemma section_shape name en fields subs : names_ok (Section_ name en fields subs) = true ->
  (exists f p, fields = [f] /\ subs = [] /\ list_path f = Some p /\
     section_tree want (Section_ name en fields subs) = field_tree want f) \/
  ((forall f, f ∈ fields -> list_path f = None) /\
   NoDup (List.map field_name fields ++ List.map section_name subs) /\
   section_tree want (Section_ name en fields subs) =
     T_group (printed field_name (fun f => present want (field_en f)) (field_tree want) fields ++
              printed section_name (fun s => present want (section_en s)) (section_tree want) subs)).
Proof.
  cbn [names_ok section_tree]. rewrite !andb_true_iff. intros [[Hn _] _].
  destruct (List.filter _ fields) as [|f l] eqn:E.
  - right. split_and!; [|by apply bool_decide_eq_true in Hn|done]. intros f Hf.
    destruct (list_path f) as [p|] eqn:Hp; [|done]. apply list_elem_of_In in Hf.
    assert (In f []) as []. rewrite <- E. apply filter_In. split; [done|]. rewrite Hp. by apply bool_decide_eq_true.
  - left. apply andb_true_iff in Hn as [H1 H0]. apply Nat.eqb_eq in H1, H0.
    destruct fields as [|g [|]]; try done. destruct subs; [|done].
    cbn in E. destruct (bool_decide _) eqn:Hb in E; [|done]. injection E as <- _.
    apply bool_decide_eq_true in Hb as [p Hp]. by exists g, p.
Qed.

Lemma field_setting name en fields subs f : names_ok (Section_ name en fields subs) = true -> f ∈ fields ->
  list_path f = None ->
  tree_get (section_tree want (Section_ name en fields subs)) (field_name f) =
    (if present want (field_en f) then Some (field_tree want f) else None).
Proof.
  intros Hn Hf Hl. destruct (section_shape _ _ _ _ Hn) as [(g & p & -> & _ & Hp & _)|(_ & Hnd & ->)].
  - apply list_elem_of_singleton in Hf as ->. congruence.
  - apply NoDup_app in Hnd as (Hnd & Hdisj & _). cbn [tree_get]. rewrite assoc_app.
    rewrite (assoc_printed field_name) by done. destruct (present want (field_en f)); [done|].
    apply assoc_absent, Hdisj, list_elem_of_In, in_map, list_elem_of_In. done.
Qed.

Lemma section_setting name en fields subs s : names_ok (Section_ name en fields subs) = true -> s ∈ subs ->
  exists root, section_tree want (Section_ name en fields subs) = T_group root /\
  assoc (section_name s) root = (if present want (section_en s) then Some (section_tree want s) else None).
Proof.
  intros Hn Hs. destruct (section_shape _ _ _ _ Hn) as [(g & p & _ & -> & _)|(_ & Hnd & ->)]; [set_solver|].
  eexists. split; [done|]. apply NoDup_app in Hnd as (_ & Hdisj & Hnd). rewrite assoc_app, assoc_absent.
  - by apply (assoc_printed section_name).
  - intros Hin. eapply Hdisj; [done|]. by apply list_elem_of_In, in_map, list_elem_of_In.
Qed.

Lemma section_yields s root : names_ok s = true -> section_fits want s = true ->
  assoc (section_name s) root = (if present want (section_en s) then Some (section_tree want s) else None) ->
  yields want (section_parse s (T_group root)) 0 (section_paths want s).
Proof.
  revert root. induction s as [name en fields subs IH] using section_ind'. intros root Hn Hf Hr.
  pose proof Hn as Hfull. cbn [names_ok] in Hn. rewrite !andb_true_iff in Hn. destruct Hn as [[Hnames Hne] Hsubs].
  cbn [section_fits] in Hf. apply andb_true_iff in Hf as [Hflag Hf]. cbn [section_name section_en] in Hr.
  cbn [section_paths]. destruct (present want en) eqn:Hp; cbn [negb orb] in Hf.
  - apply andb_true_iff in Hf as [Hff Hfs]. rewrite forallb_forall in Hff, Hfs, Hsubs.
    apply (yields_section _ _ (section_tree want (Section_ name en fields subs))); [done| | |].
    + intros f Hf. specialize (Hff f (proj1 (list_elem_of_In _ _) Hf)). destruct (list_path f) as [p|] eqn:Hl.
      * destruct (section_shape _ _ _ _ Hfull) as [(g & p' & -> & _ & _ & ->)|(Hno & _)]; [|by rewrite Hno in Hl].
        apply list_elem_of_singleton in Hf as ->. by eapply yields_list.
      * by apply yields_value, field_setting.
    + rewrite Forall_forall in IH |- *. intros s Hs. pose proof (proj1 (list_elem_of_In _ _) Hs) as Hin.
      destruct (section_setting _ _ _ _ s Hfull Hs) as (here & -> & Hhere). by apply IH; [|apply Hsubs|apply Hfs|].
    + intros q ->. cbn in *. unfold load_bool in *. destruct (want !! q) as [[|[]| | | | | |]|]; done.
  - destruct en as [q|]; [|done]. cbn in *. apply yields_no_section; [done| |].
    + by destruct (length fields + length subs =? 0)%nat.
    + unfold load_bool in *. by destruct (want !! q) as [[|[]| | | | | |]|].
Qed.

(** Some of the sections of the file are asked for. *)
Lemma parser_yields read_file filename secs asked : read_file filename = Some (file_tree want secs) ->
  NoDup (List.map section_name secs) -> asked ⊆ secs ->
  forallb names_ok secs = true -> forallb (section_fits want) secs = true ->
  yields want (parser_parse read_file filename asked) 0 (List.flat_map (section_paths want) asked).
Proof.
  intros Hr Hnd Hsub Hn Hf. unfold parser_parse. rewrite Hr. apply yields_zero.
  rewrite forallb_forall in Hn, Hf. apply yields_each. intros s Hs.
  pose proof (proj1 (list_elem_of_In _ _) (Hsub _ Hs)) as Hin. apply section_yields; [by apply Hn|by apply Hf|].
  by apply (assoc_printed section_name), Hsub.
Qed.
End Sections.
