(* ===== verification/CfgFiles.v ===== *)
(** * Configuration: the files as a whole

    The sections of the two files, the theorem that what is printed into them is
    read back by [parse_cfg_files], and what the cell's identifiers become on the
    way to the S1AP, the system information and the PHY. *)
From S2P Require Import Prelude Npdsch Bcd CfgSettings CfgEnums CfgParser EnbCfg CfgTree CfgRoundtrip.

(** ** The members a section can set *)
Local Open Scope string_scope.

Definition entry_names (f : field) : list string :=
  match f with
  | F_sched_info data =>
      List.map (fun m => data +:+ ".sched_info_list_r13[]." +:+ m)
        ["si_periodicity_r13"; "si_repeat_pattern_r13"; "sib_map_info_r13"; "sib_map_info_r13[]"; "si_tb_r13"]
  | F_nprach_params data =>
      List.map (fun m => data +:+ ".nprach_params_list_r13[]." +:+ m)
        ["nprach_periodicity_r13"; "nprach_start_time_r13"; "nprach_subcarrier_offset_r13"; "nprach_num_subcarriers_r13";
         "nprach_subcarrier_msg3_range_start_r13"; "max_num_preamb_attempt_ce_r13"; "num_repeats_per_preamb_attempt_r13";
         "npdcch_num_repeats_ra_r13"; "npdcch_start_sf_css_ra_r13"; "npdcch_offset_ra_r13"]
  | F_rach_info data =>
      List.map (fun m => data +:+ ".rach_info_list_r13[]." +:+ m)
        ["ra_resp_win_size_r13"; "mac_contention_resolution_timer_r13"]
  | F_ack_nack_nrep data => [data +:+ ".ack_nack_num_repeats_msg4_r13[]"]
  | _ => []
  end.
Definition field_names (f : field) : list string :=
  List.map fst (option_list (field_en f)) ++
  match f with
  | F_number _ _ p _ | F_bool _ p _ | F_enum_str _ p _ _ | F_enum_num _ _ p _ _
  | F_asn1_enum_number _ _ p _ | F_asn1_enum_str _ _ p _ | F_asn1_enum_number_str _ _ p _ => [p.1]
  | f => List.map fst (option_list (list_path f)) ++ entry_names f
  end.
Fixpoint section_names (s : section) : list string :=
  let 'Section_ _ en fields subs := s in
  List.map fst (option_list en) ++ List.flat_map field_names fields ++ List.flat_map section_names subs.

(** One of a list of names. *)
Ltac name_here := cbn; solve [repeat first [apply list_elem_of_here|apply list_elem_of_further]].
Ltac each_name H := repeat (apply elem_of_cons in H as [->|H]; [name_here|]); try by apply not_elem_of_nil in H.

Lemma entry_paths_names want f i p : p ∈ entry_paths want f i -> p.1 ∈ entry_names f.
Proof.
  destruct f as [| | | | | | |data|data|data|data]; cbn [entry_paths]; intros Hv; each_name Hv.
  apply elem_of_app in Hv as [Hv|Hv]; [|each_name Hv].
  apply list_elem_of_In, in_flat_map in Hv as (j & _ & Hv%list_elem_of_In). each_name Hv.
Qed.

Lemma field_paths_names want f p : p ∈ field_paths want f -> p.1 ∈ field_names f.
Proof.
  unfold field_paths, field_names. intros [Hen|Hv]%elem_of_app; apply elem_of_app.
  - left. destruct (field_en f); set_solver.
  - right. destruct (present want (field_en f)); [|by apply not_elem_of_nil in Hv].
    destruct f as [| | | | | | |data|data|data|data]; cbn [value_paths] in Hv; try (each_name Hv; fail);
      cbn [list_path option_list List.map app] in *; apply elem_of_cons in Hv as [->|Hv]; try apply list_elem_of_here;
      apply list_elem_of_further; apply list_elem_of_In, in_flat_map in Hv as (i & _ & Hv%list_elem_of_In);
      by eapply entry_paths_names.
Qed.

Lemma section_paths_names want s p : p ∈ section_paths want s -> p.1 ∈ section_names s.
Proof.
  induction s as [n en fields subs IH] using section_ind'. rewrite Forall_forall in IH.
  cbn [section_paths section_names]. intros Hp.
  assert (H : p ∈ option_list en \/ p ∈ List.flat_map (field_paths want) fields \/ p ∈ List.flat_map (section_paths want) subs)
    by (destruct (present want en); set_solver).
  rewrite !elem_of_app. destruct H as [H|[H|H]].
  - left. destruct en; set_solver.
  - right; left. apply list_elem_of_In, in_flat_map in H as (f & Hf & Hv%list_elem_of_In%field_paths_names).
    apply list_elem_of_In, in_flat_map. exists f. split; [done|]. by apply list_elem_of_In.
  - right; right. apply list_elem_of_In, in_flat_map in H as (s & Hs & Hv%list_elem_of_In).
    apply list_elem_of_In, in_flat_map. exists s. split; [done|]. apply list_elem_of_In, IH; [by apply list_elem_of_In|done].
Qed.

(** ** Parsing that keeps members set *)
Definition holds (want : store) (ps : list path) (st : store) : Prop := forall p, p ∈ ps -> st !! p = want !! p.
Definition leads {A} (want : store) (ps : list path) (m : cfgM A) (a : A) (qs : list path) : Prop :=
  forall st, holds want ps st -> exists st', m st = (st', Ret a) /\ holds want qs st'.

Section Leads.
Context (want : store).

Lemma leads_ret {A} (a : A) ps : leads want ps (mret a) a ps.
Proof. intros st H. by exists st. Qed.

Lemma leads_bind {A B} (m : cfgM A) (f : A -> cfgM B) a b ps qs rs :
  leads want ps m a qs -> leads want qs (f a) b rs -> leads want ps (m ≫= f) b rs.
Proof.
  intros Hm Hf st H. destruct (Hm st H) as (s1 & E1 & H1). destruct (Hf s1 H1) as (s2 & E2 & H2).
  exists s2. split; [|done]. unfold mbind, cfgM_bind. by rewrite E1.
Qed.

Lemma leads_yields {A} (m : cfgM A) a ps qs : yields want m a qs -> leads want ps m a (ps ++ qs).
Proof.
  intros Hm st H. destruct (Hm st) as (st' & E & Hq & Hrest). exists st'. split; [done|].
  intros p Hp. destruct (decide (p ∈ qs)) as [Hin|Hout]; [by apply Hq|]. rewrite Hrest by done. apply H. set_solver.
Qed.

(** A member whose name is not among those protected. *)
Lemma leads_write ps p v : p.1 ∉ List.map fst ps -> leads want ps (write p v) () ps.
Proof.
  intros Hp st H. exists (<[p := v]> st). split; [done|]. intros q Hq.
  transitivity (st !! q); [apply lookup_insert_ne; intros ->|by apply H].
  apply Hp. apply list_elem_of_In, in_map. by apply list_elem_of_In.
Qed.

Lemma leads_modify ps f : (forall st q, q ∈ ps -> f st !! q = st !! q) -> leads want ps (modify f) () ps.
Proof. intros Hf st H. exists (f st). split; [done|]. intros q Hq. rewrite Hf by done. by apply H. Qed.

Lemma leads_get {A} ps (f : store -> cfgM A) a qs :
  (forall s, holds want ps s -> leads want ps (f s) a qs) -> leads want ps (get ≫= f) a qs.
Proof. intros Hf st H. unfold mbind, cfgM_bind, get. by apply Hf. Qed.
End Leads.

(** *** Structures copied and cleared *)
Lemma lookup_clear dst st q : below dst q = None -> clear_struct dst st !! q = st !! q.
Proof.
  intros H. unfold clear_struct, store in *. destruct (st !! q) as [v|] eqn:E.
  - by apply map_lookup_filter_Some.
  - apply map_lookup_filter_None. by left.
Qed.

Lemma strip_prefix_app p s : strip_prefix p (p +:+ s) = Some s.
Proof. induction p as [|a p IH]; [done|]. simpl. destruct (Ascii.eqb_spec a a); done. Qed.

Lemma lookup_copy dst src st q : below dst q = None -> copy_struct dst src st !! q = st !! q.
Proof.
  intros H. unfold copy_struct. rewrite <- (lookup_clear dst st q H).
  apply (map_fold_weak_ind (fun r (_ : gmap path cval) => r !! q = clear_struct dst st !! q)); [done|].
  intros k v m r _ IH. destruct (below src k) as [[mem idx]|]; [|done]. rewrite <- IH.
  apply lookup_insert_ne. intros <-. unfold below in H. cbn in H. by rewrite strip_prefix_app in H.
Qed.

(** ** The sections of the two files *)
Definition sib_sections : list section := [sib1; sib2; sib3].
Definition rr_sections : list section := [mac_cnfg; phy_cnfg; cell_cnfg].
Definition enb_sections : list section := sib_sections ++ rr_sections.

Definition enb_names : list string := List.flat_map section_names enb_sections.
(** The members that sections set. *)
Definition paths_of (want : store) (secs : list section) : list path := List.flat_map (section_paths want) secs.
Definition config_paths (want : store) : list path := paths_of want enb_sections.

Lemma enb_names_in want secs p : p ∈ paths_of want secs -> secs ⊆ enb_sections -> p.1 ∈ enb_names.
Proof.
  intros Hp Hsub. apply list_elem_of_In, in_flat_map in Hp as (s & Hs & Hv%list_elem_of_In%section_paths_names).
  apply list_elem_of_In, in_flat_map. exists s. split; [by apply list_elem_of_In, Hsub, list_elem_of_In|by apply list_elem_of_In].
Qed.

(** Names that no section has. *)
Definition free (n : string) : bool := negb (existsb (String.eqb n) enb_names).
Definition free_struct (n : string) : bool :=
  forallb (fun m => match strip_prefix n m with None => true | Some _ => false end) enb_names.

Lemma leads_free want secs p v : secs ⊆ enb_sections -> free p.1 = true ->
  leads want (paths_of want secs) (write p v) () (paths_of want secs).
Proof.
  intros Hsub Hfree. apply leads_write. intros Hin. apply list_elem_of_In, in_map_iff in Hin as (q & Eq & Hq).
  apply list_elem_of_In, enb_names_in in Hq; [|done]. unfold free in Hfree. apply negb_true_iff in Hfree.
  assert (existsb (String.eqb p.1) enb_names = true); [|congruence]. apply existsb_exists. exists q.1.
  split; [by apply list_elem_of_In|]. rewrite Eq. apply String.eqb_refl.
Qed.

Lemma free_below want secs n q : secs ⊆ enb_sections -> free_struct n = true ->
  q ∈ paths_of want secs -> below n q = None.
Proof.
  intros Hsub Hn Hq%enb_names_in; [|done]. unfold free_struct in Hn. rewrite forallb_forall in Hn.
  specialize (Hn q.1 (proj1 (list_elem_of_In _ _) Hq)). unfold below. cbn in Hn. by destruct (strip_prefix n q.1).
Qed.

Lemma sub_part {A} n k (l : list A) : take n (drop k l) ⊆ l.
Proof.
  intros x Hx. apply list_elem_of_In. rewrite <- (firstn_skipn k l). apply in_or_app. right.
  rewrite <- (firstn_skipn n (drop k l)). apply in_or_app. left. by apply list_elem_of_In.
Qed.

Lemma enb_sections_ok : NoDup (List.map section_name sib_sections) /\ NoDup (List.map section_name rr_sections) /\
  forallb names_ok sib_sections = true /\ forallb names_ok rr_sections = true.
Proof. split_and!; [by apply (bool_decide_unpack _)..|by vm_compute|by vm_compute]. Qed.

Lemma leads_free_then {A} want secs p v (m : cfgM A) x qs : free p.1 = true -> secs ⊆ enb_sections ->
  leads want (paths_of want secs) m x qs -> leads want (paths_of want secs) (write p v;; m) x qs.
Proof. intros Hf Hs Hm. eapply leads_bind; [by apply leads_free|done]. Qed.

(** Writes to members of other names. *)
Ltac leads_writes := repeat (apply leads_free_then; [by vm_compute|assumption|]).

Section Files.
Context {libm : Libm} (want : store) (read_file : string -> option tree) (a : all_args_t).
Let paths := paths_of want.

Lemma leads_sections filename secs asked before : read_file filename = Some (file_tree want secs) ->
  NoDup (List.map section_name secs) -> forallb names_ok secs = true -> forallb (section_fits want) secs = true ->
  asked ⊆ secs -> leads want (paths before) (parser_parse read_file filename asked) 0 (paths (before ++ asked)).
Proof.
  intros Hr Hnd Hn Hf Hsub. unfold paths, paths_of. rewrite List.flat_map_app. by apply leads_yields, (parser_yields _ _ _ secs).
Qed.

Context (mcc mnc : list Z) (plmn : plmn_id_t).
Context (Hmnc : mnc_to_string (aa_mnc a) = Some mnc) (Hmcc : mcc_to_string (aa_mcc a) = Some mcc)
        (Hplmn : plmn_from_string (mcc ++ mnc) = Some plmn).

Lemma leads_plmn secs : secs ⊆ enb_sections -> leads want (paths secs) (fill_plmn a) 0 (paths secs).
Proof.
  intros Hsub. unfold fill_plmn. rewrite Hmnc, Hmcc, Hplmn. leads_writes. apply leads_ret.
Qed.

Lemma leads_copy secs dst src : secs ⊆ enb_sections -> free_struct dst = true ->
  leads want (paths secs) (modify (copy_struct dst src)) () (paths secs).
Proof. intros Hsub Hfree. apply leads_modify. intros st q Hq. by eapply lookup_copy, free_below. Qed.

Lemma leads_clear secs dst : secs ⊆ enb_sections -> free_struct dst = true ->
  leads want (paths secs) (modify (clear_struct dst)) () (paths secs).
Proof. intros Hsub Hfree. apply leads_modify. intros st q Hq. by eapply lookup_clear, free_below. Qed.

Lemma leads_caught ps m qs : leads want ps m 0 qs -> leads want ps (caught m) 0 qs.
Proof. intros Hm st H. destruct (Hm st H) as (st' & E & H'). exists st'. split; [|done]. unfold caught. by rewrite E. Qed.

Context (Hsib : read_file (aa_sib_config a) = Some (file_tree want sib_sections))
        (Hrr : read_file (aa_rr_config a) = Some (file_tree want rr_sections))
        (Hfits : forallb (section_fits want) enb_sections = true).

Lemma leads_sibs : leads want [] (parse_sibs read_file a) 0 (paths sib_sections).
Proof.
  destruct enb_sections_ok as (Hnd & _ & Hn & _).
  unfold enb_sections in Hfits. rewrite forallb_app in Hfits. apply andb_true_iff in Hfits as [Hf _].
  unfold parse_sibs, parse_sib1, parse_sib2, parse_sib3, parse_section.
  apply (leads_bind _ _ _ 0 _ _ (paths [sib1])); [by apply (leads_sections _ sib_sections _ []); [..|apply (sub_part 1 0 sib_sections)]|cbn [Z.eqb negb]].
  apply (leads_bind _ _ _ 0 _ _ (paths [sib1])); [apply leads_plmn, (sub_part 1 0 enb_sections)|cbn [Z.eqb negb]].
  apply (leads_bind _ _ _ 0 _ _ (paths [sib1; sib2])); [by apply (leads_sections _ sib_sections _ [sib1]); [..|apply (sub_part 1 1 sib_sections)]|cbn [Z.eqb negb]].
  apply (leads_bind _ _ _ 0 _ _ (paths sib_sections)); [by apply (leads_sections _ sib_sections _ [sib1; sib2]); [..|apply (sub_part 1 2 sib_sections)]|cbn [Z.eqb negb]].
  do 2 (apply (leads_bind _ _ _ () _ _ (paths sib_sections)); [apply leads_copy; [apply (sub_part 3 0 enb_sections)|by vm_compute]|]). apply leads_ret.
Qed.

Lemma leads_rr : leads want (paths sib_sections) (parse_rr read_file a) 0 (config_paths want).
Proof.
  destruct enb_sections_ok as (_ & Hnd & _ & Hn). assert (Hsub : sib_sections ⊆ enb_sections) by apply (sub_part 3 0 enb_sections).
  unfold enb_sections in Hfits. rewrite forallb_app in Hfits. apply andb_true_iff in Hfits as [_ Hf].
  unfold parse_rr, fill_cell_common. leads_writes.
  apply (leads_bind _ _ _ () _ _ (paths sib_sections)); [|by apply (leads_sections _ rr_sections rr_sections sib_sections)].
  leads_writes. apply leads_free; [done|by vm_compute].
Qed.

Context (Hul : load_num want (rrc "cell_spec.ul_earfcn") <> 0).

Lemma ul_earfcn_in : rrc "cell_spec.ul_earfcn" ∈ config_paths want.
Proof.
  unfold config_paths, paths_of. apply list_elem_of_In, in_flat_map. exists cell_cnfg. split; [cbn; tauto|].
  cbn. repeat first [left; reflexivity|right].
Qed.

Lemma leads_phy_cell : leads want (config_paths want) fill_phy_cell_cfg () (config_paths want).
Proof.
  assert (Hsub : enb_sections ⊆ enb_sections) by done. unfold fill_phy_cell_cfg, config_paths.
  eapply leads_bind; [by apply leads_clear; [|vm_compute]|]. eapply leads_bind; [by apply leads_copy; [|vm_compute]|].
  apply leads_get. intros st Hst. cbv zeta. leads_writes.
  replace (load_num st (rrc "cell_spec.ul_earfcn")) with (load_num want (rrc "cell_spec.ul_earfcn"))
    by (unfold load_num; by rewrite Hst by apply ul_earfcn_in).
  apply Z.eqb_neq in Hul. rewrite Hul. eapply leads_bind; [apply leads_ret|].
  apply leads_get. intros st' _. leads_writes. by apply leads_free; [|vm_compute].
Qed.

Lemma leads_derived : leads want (config_paths want) (set_derived_args a) 0 (config_paths want).
Proof.
  assert (Hsub : enb_sections ⊆ enb_sections) by done. unfold set_derived_args.
  apply leads_get. intros st _. unfold config_paths. leads_writes.
  eapply leads_bind; [apply leads_phy_cell|]. apply (leads_bind _ _ _ () _ _ (config_paths want)); [|unfold config_paths; leads_writes; apply leads_ret].
  unfold fill_sib_from_cell_cfg. apply leads_get. intros st' _. cbv zeta. unfold config_paths. leads_writes.
  by apply leads_free; [|vm_compute].
Qed.
End Files.

(** ** The example *)

(** The example files ([example-config/]), with the identity of [enb.conf]. *)
Definition example_args : all_args_t := mk_all_args "sib_nb.conf" "rr_nb.conf" 1 0x19B 0xF001 0xFF01.
Definition example_config : store := (parse_cfg_files example_files example_args ∅).1.
Definition printed_files (name : string) : option tree :=
  if decide (name = "sib_nb.conf") then Some (file_tree example_config sib_sections)
  else if decide (name = "rr_nb.conf") then Some (file_tree example_config rr_sections) else None.

(** Some of the members after reading the files as they are. *)
Definition example_members : list (path * cval) :=
  [(rrc "sib1.cell_sel_info_r13.q_rx_lev_min_r13", CNum (-65));
   (rrc "sib1.si_win_len_r13", CEnum 0);
   (("rrc_cfg.sib1.sched_info_list_r13[].si_periodicity_r13", [0%nat]), CEnum 3);
   (("rrc_cfg.sib1.sched_info_list_r13[].sib_map_info_r13[]", [0%nat; 0%nat]), CEnum 0);
   (rrc "sib1.cell_access_related_info_r13.tac_r13", CBits 16 7);
   (rrc "sib2.rr_cfg_common_r13.rach_cfg_common_r13.pwr_ramp_params_r13.preamb_init_rx_target_pwr", CEnum 8);
   (rrc "sib2.rr_cfg_common_r13.rach_cfg_common_r13.conn_est_fail_offset_r13_present", CBool true);
   (rrc "sib2.rr_cfg_common_r13.pcch_cfg_r13.nb_r13", CEnum 2);
   (("rrc_cfg.sib2.rr_cfg_common_r13.nprach_cfg_r13.nprach_params_list_r13[].nprach_periodicity_r13", [2%nat]), CEnum 7);
   (("rrc_cfg.sib2.rr_cfg_common_r13.npusch_cfg_common_r13.ack_nack_num_repeats_msg4_r13[]", [2%nat]), CEnum 5);
   (rrc "sib2.ue_timers_and_consts_r13.t300_r13", CEnum 6);
   (rrc "sib2.time_align_timer_common_r13", CEnum 7);
   (rrc "sib3.intra_freq_cell_resel_info_r13.p_max_r13_present", CBool false);
   (rrc "mac_cnfg.time_align_timer_ded_r13", CEnum 7);
   (rrc "npdcch_cfg.npdcch_num_repeats_r13", CEnum 1);
   (rrc "npusch_cfg.npusch_all_symbols_r13", CBool true);
   (rrc "cell_spec.pci", CNum 99);
   (phy "phy_cell_cfg.cell.n_id_ncell", CNum 99);
   (phy "phy_cell_cfg.cell.mode", CNum 2)].
Definition has_members (st : store) (l : list (path * cval)) : bool :=
  forallb (fun '(p, v) => bool_decide (st !! p = Some v)) l.
Example example_parsed : has_members example_config example_members = true.
Proof. vm_compute. reflexivity. Qed.

(** ** Properties *)

(** C22. A configuration printed into the two files is read back: when every
    member of [want] that a section names is of its type, and the arguments name
    a network, [parse_cfg_files] returns 0 and each of these members is as in
    [want], whatever the structures held before; the flags of optional settings
    and the lengths of lists are among them. *)
Theorem config_roundtrip {libm : Libm} (want : store) (read_file : string -> option tree) (a : all_args_t) mcc mnc plmn :
  mnc_to_string (aa_mnc a) = Some mnc -> mcc_to_string (aa_mcc a) = Some mcc -> plmn_from_string (mcc ++ mnc) = Some plmn ->
  read_file (aa_sib_config a) = Some (file_tree want sib_sections) ->
  read_file (aa_rr_config a) = Some (file_tree want rr_sections) ->
  forallb (section_fits want) enb_sections = true ->
  load_num want (rrc "cell_spec.ul_earfcn") <> 0 ->
  forall st, exists st', parse_cfg_files read_file a st = (st', Ret 0) /\
    forall p, p ∈ config_paths want -> st' !! p = want !! p.
Proof.
  intros Hmnc Hmcc Hplmn Hsib Hrr Hfits Hul st.
  assert (leads want [] (parse_cfg_files read_file a) 0 (config_paths want)) as H; [|by apply H; intros p ?%not_elem_of_nil].
  unfold parse_cfg_files.
  eapply leads_bind; [eapply leads_caught, leads_sibs; done|cbn [Z.eqb negb]].
  eapply leads_bind; [eapply leads_caught, leads_rr; done|cbn [Z.eqb negb]]. by eapply leads_derived.
Qed.

Lemma config_roundtrip_witness : exists st', parse_cfg_files printed_files example_args ∅ = (st', Ret 0) /\
  forall p, p ∈ config_paths example_config -> st' !! p = example_config !! p.
Proof.
  apply (config_roundtrip example_config printed_files example_args [48; 48; 49] [48; 49] (mk_plmn_id [0; 0; 1] [0; 1])).
  - vm_compute. reflexivity.
  - vm_compute. reflexivity.
  - vm_compute. reflexivity.
  - reflexivity.
  - reflexivity.
  - vm_compute. reflexivity.
  - vm_compute. discriminate.
Defined.
