(* ===== verification/CfgLists.v ===== *)
(** * Configuration: lists whose entries are not checked

    [field_nprach_params::parse] and [field_rach_info::parse] drop the results of
    the lookups.  What they make of any list: a value that is there becomes the
    option that has it, or the last option when none has; one that is absent or
    of another type leaves the member as it was; and the section parses. *)
From S2P Require Import Prelude CfgSettings CfgEnums CfgParser CfgTree.

Section Lists.
Context {Setting : Type} `{LibconfigLaws Setting}.

(** ** How a member is read *)
Inductive reading := By_number | By_name | By_number_string.
(** The member, the name of its setting, its enumeration. *)
Definition member : Type := string * string * enum_t * reading.

Definition parse_by (how : reading) (p : path) (e : enum_t) (name : string) (item : Setting) : cfgM bool :=
  match how with
  | By_number => parse_enum_by_number p e name item
  | By_name => parse_enum_by_str p e name item
  | By_number_string => parse_enum_by_number_str p e name item
  end.

(** The options that have the value of the setting, when there is one. *)
Definition value_of (how : reading) (e : enum_t) (name : string) (item : Setting) : option (nat -> bool) :=
  match how with
  | By_number => match lookupValue (en_type e) item name with
                 | (true, CNum v) => Some (fun i => (to_number e i =? v)%Z)
                 | _ => None
                 end
  | By_name => match lc_string item name with
               | Some s => Some (fun i => bool_decide (nows (to_string e i) = nows s))
               | None => None
               end
  | By_number_string => match lc_string item name with
                        | Some s => Some (fun i => bool_decide (default ""%string (en_number_strings e !! i) = s))
                        | None => None
                        end
  end.

(** The first option that has it; else the last one. *)
Definition option_taken (e : enum_t) (has : nat -> bool) : nat :=
  match List.find has (seq 0 (nof_types e)) with Some i => i | None => (nof_types e - 1)%nat end.

Definition member_after (how : reading) (e : enum_t) (name : string) (item : Setting) (old : option cval) : option cval :=
  match value_of how e name item with Some has => Some (CEnum (option_taken e has)) | None => old end.

Definition reads (at_m : string -> path) (item : Setting) (members : list member) : cfgM Z :=
  foldr (fun '(m, name, e, how) k => parse_by how (at_m m) e name item;; k) (mret 0) members.
Definition parse_unchecked (data list_name : string) (members : list member) (root : Setting) : cfgM Z :=
  write (at_ data ("." +:+ list_name) []) (CLen (lc_length root));;
  each (seq 0 (lc_length root)) (fun i =>
    item ← lift (lc_elem root i);
    reads (fun m => at_ data (("." +:+ list_name +:+ "[].") +:+ m) [i]) item members).

Local Open Scope string_scope.
Definition nprach_members : list member :=
  [("nprach_periodicity_r13", "nprach_periodicity_r13", nprach_periodicity_r13_e, By_number);
   ("nprach_start_time_r13", "nprach_start_time_r13", nprach_start_time_r13_e, By_number);
   ("nprach_subcarrier_offset_r13", "nprach_subcarrier_offset_r13", nprach_subcarrier_offset_r13_e, By_number);
   ("nprach_num_subcarriers_r13", "nprach_numsubcarrier_r13", nprach_num_subcarriers_r13_e, By_number);
   ("nprach_subcarrier_msg3_range_start_r13", "nprach_subc_msg3_rangestart_r13", nprach_subcarrier_msg3_range_start_r13_e, By_name);
   ("max_num_preamb_attempt_ce_r13", "max_num_preamble_attempt_ce_r13", max_num_preamb_attempt_ce_r13_e, By_number);
   ("num_repeats_per_preamb_attempt_r13", "num_rep_per_preamble_attempt_r13", num_repeats_per_preamb_attempt_r13_e, By_number);
   ("npdcch_num_repeats_ra_r13", "npdcch_numrepetition_ra_r13", npdcch_num_repeats_ra_r13_e, By_number);
   ("npdcch_start_sf_css_ra_r13", "npdcch_startsf_css_ra_r13", npdcch_start_sf_css_ra_r13_e, By_number_string);
   ("npdcch_offset_ra_r13", "npdcch_offset_ra_r13", npdcch_offset_ra_r13_e, By_name)].
Definition rach_members : list member :=
  [("ra_resp_win_size_r13", "ra_resp_win_size_r13", ra_resp_win_size_r13_e, By_number);
   ("mac_contention_resolution_timer_r13", "mac_con_res_timer_r13", mac_contention_resolution_timer_r13_e, By_number)].

Lemma nprach_unchecked data root : parse_nprach_params data root = parse_unchecked data "nprach_params_list_r13" nprach_members root.
Proof. reflexivity. Qed.
Lemma rach_unchecked data root : parse_rach_info data root = parse_unchecked data "rach_info_list_r13" rach_members root.
Proof. reflexivity. Qed.

(** ** Searches *)
Lemma find_option_taken ptr e (has : nat -> bool) matches st : nof_types e <> 0%nat ->
  (forall i, (i < nof_types e)%nat -> matches i = Ret (has i)) ->
  exists found, find_option ptr e matches st = (<[ptr := CEnum (option_taken e has)]> st, Ret found).
Proof.
  intros Hne Hm. unfold find_option, option_taken. set (go := fix go (l : list nat) : cfgM bool := _).
  enough (forall n k s, (k + n <= nof_types e)%nat ->
    exists found, go (seq k n) s =
      ((match List.find has (seq k n) with
        | Some i => <[ptr := CEnum i]> s
        | None => if (n =? 0)%nat then s else <[ptr := CEnum (k + n - 1)]> s
        end), Ret found)) as E.
  { destruct (E (nof_types e) 0%nat st ltac:(lia)) as [found ->]. exists found. f_equal.
    destruct (List.find _ _); [done|]. destruct (Nat.eqb_spec (nof_types e) 0); [done|]. by f_equal. }
  induction n as [|n IH]; intros k s Hk; [by exists false|]. cbn [seq go List.find]. unfold mbind, cfgM_bind.
  cbn. rewrite Hm by lia. destruct (has k); [by exists true|]. fold go.
  destruct (IH (S k) (<[ptr := CEnum k]> s) ltac:(lia)) as [found ->]. exists found. f_equal.
  destruct (List.find _ _); [apply insert_insert_eq|]. destruct n as [|n]; cbn [Nat.eqb].
  - by replace (k + 1 - 1)%nat with k by lia.
  - rewrite <- (insert_insert_eq (M := gmap path) s ptr (CEnum (k + S (S n) - 1)) (CEnum k)). do 2 f_equal. lia.
Qed.

(** Tables whose size the search knows. *)
Definition table_ok (e : enum_t) : bool :=
  negb (nof_types e =? 0)%nat && (en_number_strings_sz e =? length (en_number_strings e))%nat.

Lemma parse_by_after how p e name item st : table_ok e = true ->
  exists st' found, parse_by how p e name item st = (st', Ret found) /\
    st' !! p = member_after how e name item (st !! p) /\ (forall q, q <> p -> st' !! q = st !! q).
Proof.
  intros [Hne Hsz]%andb_true_iff. apply negb_true_iff, Nat.eqb_neq in Hne. apply Nat.eqb_eq in Hsz.
  assert (K : forall has, exists st' : store, <[p := CEnum (option_taken e has)]> st = st' /\
    st' !! p = Some (CEnum (option_taken e has)) /\ (forall q, q <> p -> st' !! q = st !! q)).
  { intros has. eexists. split; [done|]. split; [apply lookup_insert_eq|]. intros q Hq. by apply lookup_insert_ne. }
  unfold member_after, value_of. destruct how; cbn [parse_by].
  - unfold parse_enum_by_number. destruct (lookupValue (en_type e) item name) as [[] v]; [destruct v as [v| | | | | | |]|];
      try (exists st, false; done).
    destruct (find_option_taken p e (fun i => (to_number e i =? v)%Z) (fun i => Ret (to_number e i =? v)%Z) st Hne ltac:(done)) as [found E].
    destruct (K (fun i => (to_number e i =? v)%Z)) as (st' & E' & R). exists st', found. split; [|done]. by rewrite <- E'.
  - unfold parse_enum_by_str. destruct (lc_string item name) as [s|]; [|by exists st, false].
    destruct (find_option_taken p e (fun i => bool_decide (nows (to_string e i) = nows s)) _ st Hne ltac:(done)) as [found E].
    destruct (K (fun i => bool_decide (nows (to_string e i) = nows s))) as (st' & E' & R). exists st', found. split; [|done].
    rewrite <- E'. exact E.
  - unfold parse_enum_by_number_str. destruct (lc_string item name) as [s|]; [|by exists st, false].
    set (has := fun i : nat => bool_decide (default ""%string (en_number_strings e !! i) = s)).
    unfold number_string_to_enum.
    destruct (find_option_taken p e has (fun i => match to_number_string e i with
      | Ret s' => Ret (bool_decide (s' = s)) | Throw x => Throw x | Undef u => Undef u end) st Hne) as [found E].
    + intros i _. unfold to_number_string, has. rewrite Hsz. destruct (Nat.leb_spec (length (en_number_strings e)) i) as [Hi|Hi].
      * by rewrite lookup_ge_None_2.
      * by destruct (lookup_lt_is_Some_2 _ _ Hi) as [x ->].
    + destruct (K has) as (st' & E' & R). exists st', found. split; [|done]. by rewrite <- E'.
Qed.

(** ** Entries and lists *)
Definition member_name (m : member) : string := m.1.1.1.
Definition members_ok (l : list member) : bool :=
  forallb (fun '(_, _, e, _) => table_ok e) l && bool_decide (NoDup (List.map member_name l)).

(** The members of [l] have been read from [item], the other paths are unchanged. *)
Definition read_from (at_m : string -> path) (item : Setting) (l : list member) (st st' : store) : Prop :=
  (forall m name e how, (m, name, e, how) ∈ l -> st' !! at_m m = member_after how e name item (st !! at_m m)) /\
  (forall q, (forall x, x ∈ l -> q <> at_m (member_name x)) -> st' !! q = st !! q).

Lemma reads_after at_m item l st : members_ok l = true -> (forall m m', at_m m = at_m m' -> m = m') ->
  exists st', reads at_m item l st = (st', Ret 0) /\ read_from at_m item l st st'.
Proof.
  intros [Hok Hnd]%andb_true_iff Hinj. apply bool_decide_eq_true in Hnd. revert st.
  induction l as [|[[[m name] e] how] l IH]; intros st; [exists st; split; [done|]; split; [set_solver|done]|].
  cbn in Hok, Hnd. apply andb_true_iff in Hok as [He Hok]. apply NoDup_cons in Hnd as [Hm Hnd].
  destruct (parse_by_after how (at_m m) e name item st He) as (s1 & found & E1 & V1 & R1).
  destruct (IH Hok Hnd s1) as (s2 & E2 & V2 & R2). exists s2. split.
  { cbn. unfold mbind, cfgM_bind. rewrite E1. exact E2. }
  assert (Hout : forall x, x ∈ l -> at_m m <> at_m (member_name x)).
  { intros x Hx E%Hinj. apply Hm. rewrite E. apply list_elem_of_In, in_map. by apply list_elem_of_In. }
  split.
  - intros m' name' e' how' [[= -> -> -> ->]|Hin]%elem_of_cons; [by rewrite R2|].
    rewrite (V2 _ _ _ _ Hin). f_equal. apply R1. intros E. by apply (Hout _ Hin).
  - intros q Hq. rewrite R2, R1; [done| |].
    + apply (Hq (m, name, e, how)), elem_of_cons. by left.
    + intros x Hx. apply Hq, elem_of_cons. by right.
Qed.

Lemma app_string_inj p s s' : (p +:+ s)%string = (p +:+ s')%string -> s = s'.
Proof. induction p as [|a p IH]; [done|]. intros [= E]. by apply IH. Qed.

(** All entries of a list. *)
Lemma entries_after data prefix root l n st : members_ok l = true -> (n <= lc_length root)%nat ->
  let at_m i m := at_ data (prefix +:+ m) [i] in
  exists st', each (seq 0 n) (fun i => item ← lift (lc_elem root i); reads (at_m i) item l) st = (st', Ret 0) /\
    (forall i item m name e how, (i < n)%nat -> lc_elem root i = inr item -> (m, name, e, how) ∈ l ->
       st' !! at_m i m = member_after how e name item (st !! at_m i m)) /\
    (forall q, (forall i m, (i < n)%nat -> q <> at_m i m) -> st' !! q = st !! q).
Proof.
  intros Hok Hn at_m. assert (Hinj : forall i m i' m', at_m i m = at_m i' m' -> i = i' /\ m = m').
  { unfold at_m, at_. intros i m i' m' [= E ->]. split; [done|]. by apply app_string_inj, app_string_inj in E. }
  enough (forall k n st, (k + n <= lc_length root)%nat -> exists st',
    each (seq k n) (fun i => item ← lift (lc_elem root i); reads (at_m i) item l) st = (st', Ret 0) /\
    (forall i item m name e how, (k <= i < k + n)%nat -> lc_elem root i = inr item -> (m, name, e, how) ∈ l ->
       st' !! at_m i m = member_after how e name item (st !! at_m i m)) /\
    (forall q, (forall i m, (k <= i < k + n)%nat -> q <> at_m i m) -> st' !! q = st !! q)) as E.
  { destruct (E 0%nat n st ltac:(lia)) as (st' & E' & V & R). exists st'. split_and!; [done| |].
    - intros i item m name e how Hi. apply V. lia.
    - intros q Hq. apply R. intros i m Hi. apply Hq. lia. }
  clear n st Hn. intros k n. revert k. induction n as [|n IH]; intros k st Hk.
  { exists st. split_and!; [done|lia|done]. }
  destruct (lc_elem_inside root k ltac:(lia)) as [item Hitem].
  destruct (reads_after (at_m k) item l st Hok) as (s1 & E1 & V1 & R1); [by intros m m' [_ ?]%Hinj|].
  destruct (IH (S k) s1 ltac:(lia)) as (s2 & E2 & V2 & R2). exists s2. split_and!.
  - cbn [seq each]. unfold mbind, cfgM_bind, lift at 1. rewrite Hitem. cbn. rewrite E1. cbn. exact E2.
  - intros i item' m name e how Hi Hitem' Hin. destruct (decide (i = k)) as [->|Hne].
    + replace item' with item by congruence. rewrite R2; [by apply V1|]. intros j m' Hj [-> _]%Hinj. lia.
    + rewrite (V2 i item' m name e how) by (done || lia). f_equal. apply R1. intros x _ [-> _]%Hinj. done.
  - intros q Hq. rewrite R2, R1; [done| |].
    + intros x _. apply Hq. lia.
    + intros i m Hi. apply Hq. lia.
Qed.

(** What is read of a list of entries. *)
Definition list_read (data list_name : string) (members : list member) (root : Setting) (st st' : store) : Prop :=
  st' !! at_ data ("." +:+ list_name)%string [] = Some (CLen (lc_length root)) /\
  forall i item m name e how, (i < lc_length root)%nat -> lc_elem root i = inr item -> (m, name, e, how) ∈ members ->
    let p := at_ data (("." +:+ list_name +:+ "[].") +:+ m)%string [i] in
    st' !! p = member_after how e name item (st !! p).

Lemma unchecked_after data list_name members root st : members_ok members = true ->
  exists st', parse_unchecked data list_name members root st = (st', Ret 0) /\ list_read data list_name members root st st'.
Proof.
  intros Hok. set (s0 := <[at_ data ("." +:+ list_name)%string [] := CLen (lc_length root)]> st : store).
  destruct (entries_after data ("." +:+ list_name +:+ "[].")%string root members (lc_length root) s0 Hok ltac:(lia))
    as (st' & E & V & R). cbn zeta in *.
  exists st'. split; [exact E|]. split.
  - etransitivity; [by apply R|]. apply lookup_insert_eq.
  - intros i item m name e how Hi Hitem Hin. cbn zeta. etransitivity; [by apply V|].
    f_equal. by apply lookup_insert_ne.
Qed.

(** A list of NPRACH or RACH parameters always parses, whatever its entries
    hold: the result is 0 and the list has as many entries as the setting.  In
    each entry a member whose setting is absent or of another type keeps its
    former value, and a value that no option has becomes the last option of the
    enumeration, with no error. *)
Theorem list_entries_unchecked (data : string) (root : Setting) (st : store) :
  (exists st', parse_nprach_params data root st = (st', Ret 0) /\
     list_read data "nprach_params_list_r13" nprach_members root st st') /\
  (exists st', parse_rach_info data root st = (st', Ret 0) /\
     list_read data "rach_info_list_r13" rach_members root st st').
Proof. rewrite nprach_unchecked, rach_unchecked. split; by apply unchecked_after. Qed.
End Lists.

(** One entry: a period that is no option and no other setting. *)
Definition bad_list : tree := T_list [T_group [("nprach_periodicity_r13"%string, T_int 100)]].

Lemma list_entries_unchecked_witness :
  (exists st', parse_nprach_params "d" bad_list ∅ = (st', Ret 0) /\
     list_read "d" "nprach_params_list_r13" nprach_members bad_list ∅ st') /\
  (exists st', parse_rach_info "d" bad_list ∅ = (st', Ret 0) /\
     list_read "d" "rach_info_list_r13" rach_members bad_list ∅ st').
Proof. apply (list_entries_unchecked (Setting := tree)). Defined.

(** The period becomes 2560 ms, the last of its options. *)
Example bad_period : (parse_nprach_params "d" bad_list ∅).1 !! at_ "d" ".nprach_params_list_r13[].nprach_periodicity_r13" [0%nat] =
  Some (CEnum 7).
Proof. reflexivity. Qed.
