(* ===== verification/CfgIdentity.v ===== *)
(** * Configuration: the identity of the cell

    The identity that the S1AP gives to the MME, made from the configuration by
    [s1ap::build_tai_cgi] and [s1ap::setup_s1] ([sonica_enb/stack/upper/s1ap.cc]),
    and how it goes together with what the configuration parser writes into the
    system information and the PHY. *)
From S2P Require Import Prelude Npdsch Bcd CfgSettings CfgEnums CfgParser EnbCfg CfgTree CfgRoundtrip CfgFiles.

(** ** The S1AP's identity *)
Record s1ap_args_t := mk_s1ap_args { sa_enb_id : Z; sa_cell_id : Z; sa_tac : Z; sa_mcc : Z; sa_mnc : Z }.

(** [number_to_octstring]: the most significant byte first. *)
Definition number_to_octstring (number : Z) (nbytes : nat) : list Z :=
  List.map (fun i => u8 (Z.shiftr number (8 * (Z.of_nat nbytes - 1 - Z.of_nat i)))) (seq 0 nbytes).

Record tai_cgi := mk_tai_cgi {
  tai_plm_nid : list Z;
  tai_tac : list Z;
  eutran_cgi_plm_nid : list Z;
  eutran_cgi_cell_id : cval
}.
Definition build_tai_cgi `{Libm} (args : s1ap_args_t) : tai_cgi :=
  let plmn := s1ap_mccmnc_to_plmn (sa_mcc args) (sa_mnc args) in
  mk_tai_cgi (number_to_octstring plmn 3) (number_to_octstring (sa_tac args) 2) (number_to_octstring plmn 3)
    (bitstring_from_number 28 (Z.lor (u32 (Z.shiftl (sa_enb_id args) 8)) (sa_cell_id args))).

(** The identity in the setup request; the bytes of a number in network order. *)
Record setup_identity := mk_setup_identity {
  global_enb_id_plm_nid : list Z;
  macro_enb_id : cval;
  supported_ta_tac : list Z;
  broadcast_plmn : list Z
}.
Definition hton (number : Z) (nbytes : nat) : list Z :=
  List.rev (List.map (fun i => u8 (Z.shiftr number (8 * Z.of_nat i))) (seq 0 nbytes)).
Definition setup_s1_identity `{Libm} (args : s1ap_args_t) : setup_identity :=
  let plmn := hton (s1ap_mccmnc_to_plmn (sa_mcc args) (sa_mnc args)) 4 in
  mk_setup_identity (drop 1 plmn) (bitstring_from_number 20 (sa_enb_id args)) (hton (sa_tac args) 2) (drop 1 plmn).

(** The arguments as the parser leaves them. *)
Definition s1ap_args_of (a : all_args_t) (st : store) : s1ap_args_t :=
  mk_s1ap_args (load_num st (args "stack.s1ap.enb_id")) (load_num st (args "stack.s1ap.cell_id"))
    (load_num st (args "stack.s1ap.tac")) (aa_mcc a) (aa_mnc a).

(** ** Steps *)
Lemma lookup_write (st : store) p v : (<[p := v]> st : store) !! p = Some v.
Proof. apply lookup_insert_eq. Qed.
Lemma lookup_write_ne (st : store) p q v : p <> q -> (<[p := v]> st : store) !! q = st !! q.
Proof. apply lookup_insert_ne. Qed.
Lemma load_num_write (st : store) p z : load_num (<[p := CNum z]> st) p = z.
Proof. unfold load_num. by rewrite lookup_write. Qed.
Lemma load_num_same (st st' : store) p : st !! p = st' !! p -> load_num st p = load_num st' p.
Proof. intros E. unfold load_num. by rewrite E. Qed.
Lemma load_enum_same e (st st' : store) p : st !! p = st' !! p -> load_enum e st p = load_enum e st' p.
Proof. intros E. unfold load_enum. by rewrite E. Qed.

Definition cell (m : string) : path := rrc ("cell_spec." +:+ m).
(** The channel number of the uplink: that of the file, or its band's. *)
Definition ul_earfcn_of (st : store) : Z :=
  if load_num st (cell "ul_earfcn") =? 0 then srslte_band_ul_earfcn (load_num st (cell "dl_earfcn"))
  else load_num st (cell "ul_earfcn").
Definition ul_offset_of (st : store) : option nat :=
  if cell_mode (load_enum operation_mode_info_r13_e st (cell "mode")) =? SRSLTE_NBIOT_MODE_STANDALONE then None
  else Some (load_enum carrier_freq_offset_r13_e st (cell "ul_carrier_offset")).

Lemma strip_prefix_longer p p' s : strip_prefix p s = None -> strip_prefix (p +:+ p') s = None.
Proof.
  revert s. induction p as [|a p IH]; intros s; [done|]. destruct s as [|b s]; [done|]. simpl.
  destruct (Ascii.eqb a b); [apply IH|done].
Qed.

(** What a path in another structure holds, through writes. *)
Ltac other_path := rewrite lookup_write_ne by (intros <-; discriminate).

Lemma fill_phy_cell_spec st : exists st', fill_phy_cell_cfg st = (st', Ret ()) /\
  st' !! phy "phy_cell_cfg.ul_freq_hz" = Some (CFreq false (ul_earfcn_of st) (ul_offset_of st)) /\
  load_num st' (cell "ul_earfcn") = ul_earfcn_of st /\
  (forall q, below "phy_cfg.phy_cell_cfg." q = None -> q <> cell "ul_earfcn" -> st' !! q = st !! q).
Proof.
  unfold fill_phy_cell_cfg, modify, mbind, cfgM_bind, get, write. cbv beta iota zeta.
  set (s0 := copy_struct _ _ _).
  assert (Hs0 : forall q, below "phy_cfg.phy_cell_cfg." q = None -> s0 !! q = st !! q).
  { intros q Hq. etransitivity; [apply lookup_copy|by apply lookup_clear].
    unfold below in *. destruct (strip_prefix "phy_cfg.phy_cell_cfg." q.1) eqn:E; [done|].
    pose proof (strip_prefix_longer _ "cell." _ E) as E'. 
    change (strip_prefix "phy_cfg.phy_cell_cfg.cell." q.1 = None) in E'. by rewrite E'. }
  assert (Hdl : load_num s0 (cell "dl_earfcn") = load_num st (cell "dl_earfcn")) by (apply load_num_same, Hs0; done).
  assert (Hul : load_num s0 (cell "ul_earfcn") = load_num st (cell "ul_earfcn")) by (apply load_num_same, Hs0; done).
  assert (Hmode : load_enum operation_mode_info_r13_e s0 (cell "mode") = load_enum operation_mode_info_r13_e st (cell "mode"))
    by (apply load_enum_same, Hs0; done).
  assert (Hoff : load_enum carrier_freq_offset_r13_e s0 (cell "ul_carrier_offset") =
    load_enum carrier_freq_offset_r13_e st (cell "ul_carrier_offset")) by (apply load_enum_same, Hs0; done).
  clearbody s0.
  unfold ul_earfcn_of, ul_offset_of. rewrite <- Hdl, <- Hul, <- Hmode, <- Hoff.
  change (rrc "cell_spec.ul_earfcn") with (cell "ul_earfcn"). change (rrc "cell_spec.dl_earfcn") with (cell "dl_earfcn").
  change (rrc "cell_spec.mode") with (cell "mode"). change (rrc "cell_spec.ul_carrier_offset") with (cell "ul_carrier_offset").
  match goal with |- context [(if _ then _ else mret ()) ?s] => set (s1 := s) end.
  assert (Hs1 : forall q, below "phy_cfg.phy_cell_cfg." q = None -> s1 !! q = s0 !! q)
    by (intros q Hq; unfold s1; by repeat other_path).
  clearbody s1.
  assert (Hx : forall (s2 : store) v dl ul, 
    (forall q, below "phy_cfg.phy_cell_cfg." q = None -> q <> cell "ul_earfcn" -> s2 !! q = s0 !! q) ->
    let s3 := <[phy "phy_cell_cfg.cell.base.id" := v]> (<[phy "phy_cell_cfg.ul_freq_hz" := ul]>
      (<[phy "phy_cell_cfg.dl_freq_hz" := dl]> s2)) : store in
    s3 !! phy "phy_cell_cfg.ul_freq_hz" = Some ul /\ s3 !! cell "ul_earfcn" = s2 !! cell "ul_earfcn" /\
    (forall q, below "phy_cfg.phy_cell_cfg." q = None -> q <> cell "ul_earfcn" -> s3 !! q = st !! q)).
  { intros s2 v dl ul Hs2 s3. subst s3. split_and!.
    - rewrite lookup_write_ne by done. apply lookup_write.
    - by rewrite !lookup_write_ne by done.
    - intros q Hq Hne. repeat other_path. rewrite Hs2 by done. by apply Hs0. }
  destruct (load_num s0 (cell "ul_earfcn") =? 0) eqn:E; cbv beta iota.
  - eexists. split; [done|]. match goal with |- context [<[phy "phy_cell_cfg.cell.base.id" := ?v]> (<[_ := ?ul]> (<[_ := ?dl]> ?s2))] =>
      destruct (Hx s2 v dl ul) as (H1 & H2 & H3); [intros q Hq Hne; by rewrite lookup_write_ne, Hs1|] end.
    rewrite H1. split_and!; [| |exact H3].
    + do 2 f_equal; [by rewrite load_num_write|]. 
      case_match; [done|]. f_equal. apply load_enum_same. by rewrite lookup_write_ne, Hs1.
    + rewrite (load_num_same _ _ _ H2). apply load_num_write.
  - eexists. split; [done|]. match goal with |- context [<[phy "phy_cell_cfg.cell.base.id" := ?v]> (<[_ := ?ul]> (<[_ := ?dl]> ?s2))] =>
      destruct (Hx s2 v dl ul) as (H1 & H2 & H3); [intros q Hq Hne; by rewrite Hs1|] end.
    rewrite H1. split_and!; [| |exact H3].
    + do 2 f_equal; [by apply load_num_same, Hs1|]. 
      case_match; [done|]. f_equal. by apply load_enum_same, Hs1.
    + rewrite (load_num_same _ _ _ H2). by apply load_num_same, Hs1.
Qed.


(** ** Numbers of the messages *)
Lemma octstring_2 v : 0 <= v < 2 ^ 16 -> number_to_octstring v 2 = [v / 256; v mod 256] /\ hton v 2 = [v / 256; v mod 256].
Proof.
  intros Hv. unfold number_to_octstring, hton. cbn [seq List.map List.rev app].
  change (8 * (Z.of_nat 2 - 1 - Z.of_nat 0)) with 8. change (8 * (Z.of_nat 2 - 1 - Z.of_nat 1)) with 0.
  change (8 * Z.of_nat 0) with 0. change (8 * Z.of_nat 1) with 8. rewrite Z.shiftr_0_r, Z.shiftr_div_pow2 by done.
  change (2 ^ 8) with 256. rewrite (u8_id (v / 256)) by (Z.div_mod_to_equations; lia). done.
Qed.
Lemma hton_octstring v : drop 1 (hton v 4) = number_to_octstring v 3.
Proof. reflexivity. Qed.

Lemma eci_number enb c : 0 < enb < 2 ^ 20 -> Z.lor (u32 (Z.shiftl enb 8)) (u8 c) = enb * 256 + c mod 256.
Proof.
  intros He. rewrite Z.shiftl_mul_pow2 by done. rewrite u32_id by lia. rewrite <- Z.shiftl_mul_pow2 by done.
  pose proof (u8_range c). by rewrite lor_shift by lia.
Qed.

(** The network in SIB1. *)
Definition sib1_plmn (m : string) : path :=
  rrc ("sib1.cell_access_related_info_r13.plmn_id_list_r13[0].plmn_id_r13." +:+ m).

Lemma fill_plmn_network `{Libm} (a : all_args_t) (st : store) mcc_str mnc_str :
  string_to_mcc mcc_str = Some (aa_mcc a) -> string_to_mnc mnc_str = Some (aa_mnc a) ->
  exists p st', fill_plmn a st = (st', Ret 0) /\ st' !! sib1_plmn "mcc" = Some (CDigits (pl_mcc p)) /\
    st' !! sib1_plmn "mnc" = Some (CDigits (pl_mnc p)) /\ to_s1ap_plmn p = s1ap_mccmnc_to_plmn (aa_mcc a) (aa_mnc a).
Proof.
  intros Hc Hn. destruct (codes_from_digits _ _ _ _ Hc Hn) as (_ & Sc & Sn & E & Ep).
  unfold fill_plmn. rewrite Sn, Sc, E. eexists _, _. split; [reflexivity|]. split_and!; [| |exact Ep].
  - rewrite !lookup_write_ne by discriminate. apply lookup_write.
  - rewrite !lookup_write_ne by discriminate. apply lookup_write.
Qed.

(** C30. What the cell is called on its interfaces.  The codes of the network
    are read from digits; [fill_plmn] puts the network into SIB1, and
    [set_derived_args] comes later, when the parser may have changed anything but
    that.  Then SIB1 has the network whose number the S1AP uses in all its
    fields, and both have the tracking area of the configuration.  The cell
    identity of SIB1 is [cell_id] of the configuration, all 28 bits of it, that of
    the S1AP is the eNodeB's identity followed by the low eight bits of [cell_id]:
    they agree exactly when the upper bits of [cell_id] are the eNodeB's identity.
    SIB2 and the PHY have the same uplink channel, that of the file or else the
    one that its band pairs with the downlink channel. *)
Theorem cell_identity `{LibmLaws} (a : all_args_t) (st0 st1 st : store) mcc_str mnc_str :
  let cell_id := load_num st (cell "cell_id") in
  let tac := load_num st (cell "tac") in
  0 < tac < 2 ^ 16 -> 0 < aa_enb_id a < 2 ^ 20 -> 0 < cell_id < 2 ^ 28 ->
  string_to_mcc mcc_str = Some (aa_mcc a) -> string_to_mnc mnc_str = Some (aa_mnc a) ->
  fill_plmn a st0 = (st1, Ret 0) -> (forall m, m = "mcc" \/ m = "mnc" -> st !! sib1_plmn m = st1 !! sib1_plmn m) ->
  exists st', set_derived_args a st = (st', Ret 0) /\
    let ids := build_tai_cgi (s1ap_args_of a st') in
    let setup := setup_s1_identity (s1ap_args_of a st') in
    let sib1_cell_id := st' !! rrc "sib1.cell_access_related_info_r13.cell_id_r13" in
    (exists p, st' !! sib1_plmn "mcc" = Some (CDigits (pl_mcc p)) /\ st' !! sib1_plmn "mnc" = Some (CDigits (pl_mnc p)) /\
       number_to_octstring (to_s1ap_plmn p) 3 = tai_plm_nid ids) /\
    tai_plm_nid ids = eutran_cgi_plm_nid ids /\ global_enb_id_plm_nid setup = tai_plm_nid ids /\
    broadcast_plmn setup = tai_plm_nid ids /\
    st' !! rrc "sib1.cell_access_related_info_r13.tac_r13" = Some (CBits 16 tac) /\
    tai_tac ids = [tac / 256; tac mod 256] /\ supported_ta_tac setup = tai_tac ids /\
    macro_enb_id setup = CBits 20 (aa_enb_id a) /\
    sib1_cell_id = Some (CBits 28 cell_id) /\
    eutran_cgi_cell_id ids = CBits 28 (aa_enb_id a * 256 + cell_id mod 256) /\
    (sib1_cell_id = Some (eutran_cgi_cell_id ids) <-> cell_id / 256 = aa_enb_id a) /\
    st' !! rrc "sib2.freq_info_r13.ul_carrier_freq_r13.carrier_freq_r13" = Some (CNum (ul_earfcn_of st)) /\
    st' !! phy "phy_cell_cfg.ul_freq_hz" = Some (CFreq false (ul_earfcn_of st) (ul_offset_of st)).
Proof.
  intros cell_id tac Htac Henb Hcell Hmcc Hmnc Hfill Hkeep.
  destruct (fill_plmn_network a st0 _ _ Hmcc Hmnc) as (p & st2 & E2 & Pc & Pn & Ep). rewrite Hfill in E2. injection E2 as <-.
  unfold set_derived_args, mbind, cfgM_bind, get, write. cbv beta iota.
  set (s0 := <[args "stack.s1ap.tac" := _]> _).
  destruct (fill_phy_cell_spec s0) as (s1 & E1 & Hful & Hul & Hrest). rewrite E1. cbv beta iota.
  unfold fill_sib_from_cell_cfg, mbind, cfgM_bind, get, write. cbv beta iota zeta.
  assert (Hs0 : forall m, s0 !! rrc m = st !! rrc m) by (intros m; unfold s0; by rewrite !lookup_write_ne by discriminate).
  assert (Hs1 : forall m, cell m <> cell "ul_earfcn" -> load_num s1 (cell m) = load_num st (cell m)).
  { intros m Hm. transitivity (load_num s0 (cell m)); [by apply load_num_same, Hrest|apply load_num_same, Hs0]. }
  assert (Eul : ul_earfcn_of s0 = ul_earfcn_of st).
  { unfold ul_earfcn_of. by rewrite !(load_num_same s0 st (cell _)) by apply Hs0. }
  assert (Eoff : ul_offset_of s0 = ul_offset_of st).
  { unfold ul_offset_of. by rewrite !(load_enum_same _ s0 st (cell _)) by apply Hs0. }
  change (rrc ("cell_spec." +:+ "tac")) with (cell "tac"). change (rrc ("cell_spec." +:+ "cell_id")) with (cell "cell_id").
  change (rrc ("cell_spec." +:+ "dl_earfcn")) with (cell "dl_earfcn").
  change (rrc ("cell_spec." +:+ "ul_earfcn")) with (cell "ul_earfcn").
  rewrite (Hs1 "tac"), (Hs1 "cell_id"), Hul, Eul by done. fold tac cell_id.
  eexists. split; [reflexivity|]. cbv zeta.
  set (s2 := <[rrc "enb_id" := _]> _).
  assert (Hargs : s1ap_args_of a s2 = mk_s1ap_args (aa_enb_id a) (u8 cell_id) tac (aa_mcc a) (aa_mnc a)).
  { assert (K : forall m z, s0 !! args m = Some (CNum z) -> 
      args m <> args "rf.nof_carriers" -> args m <> args "rf.nof_antennas" -> load_num s2 (args m) = z).
    { intros m z Hz N1 N2. unfold load_num, s2. rewrite !lookup_write_ne by (done || discriminate).
      rewrite Hrest by (reflexivity || discriminate). by rewrite Hz. }
    unfold s1ap_args_of. rewrite (K "stack.s1ap.enb_id" (aa_enb_id a)), (K "stack.s1ap.cell_id" (u8 cell_id)),
      (K "stack.s1ap.tac" (u16 tac)); try done; try (unfold s0; rewrite ?lookup_write_ne by discriminate; apply lookup_write).
    by rewrite (u16_id tac) by lia. }
  rewrite Hargs. unfold build_tai_cgi, setup_s1_identity. cbn [sa_enb_id sa_cell_id sa_tac sa_mcc sa_mnc tai_plm_nid tai_tac
    eutran_cgi_plm_nid eutran_cgi_cell_id global_enb_id_plm_nid macro_enb_id supported_ta_tac broadcast_plmn].
  rewrite eci_number by done. rewrite !bitstring_fits by (Z.div_mod_to_equations; lia).
  destruct (octstring_2 tac) as [-> ->]; [lia|].
  assert (Hid : s2 !! rrc "sib1.cell_access_related_info_r13.cell_id_r13" = Some (CBits 28 cell_id))
    by (unfold s2; rewrite ?lookup_write_ne by discriminate; rewrite lookup_write; f_equal; by apply bitstring_fits).
  assert (Hp : forall m, m = "mcc" \/ m = "mnc" -> s2 !! sib1_plmn m = st !! sib1_plmn m).
  { intros m [-> | ->]; unfold s2; rewrite !lookup_write_ne by discriminate; (etrans; [by apply Hrest|apply Hs0]). }
  rewrite Hid. split_and!; try done.
  - exists p. rewrite Ep. rewrite !Hp, !Hkeep by auto. done.
  - unfold s2. rewrite ?lookup_write_ne by discriminate. rewrite lookup_write. f_equal. by apply bitstring_fits.
  - split; [intros [= E]|intros E; do 2 f_equal]; Z.div_mod_to_equations; lia.
  - unfold s2. rewrite ?lookup_write_ne by discriminate. apply lookup_write.
  - unfold s2. rewrite ?lookup_write_ne by discriminate. by rewrite Hful, Eul, Eoff.
Qed.

(** The example's cell: the MME and the UE are told different identities. *)
Lemma cell_identity_witness :
  exists st', set_derived_args example_args example_config = (st', Ret 0) /\
    st' !! rrc "sib1.cell_access_related_info_r13.cell_id_r13" = Some (CBits 28 2) /\
    eutran_cgi_cell_id (build_tai_cgi (s1ap_args_of example_args st')) = CBits 28 0x19B02.
Proof.
  assert (Hc : string_to_mcc [48; 48; 49] = Some (aa_mcc example_args)) by (by vm_compute).
  assert (Hn : string_to_mnc [48; 49] = Some (aa_mnc example_args)) by (by vm_compute).
  destruct (fill_plmn_network example_args example_config _ _ Hc Hn) as (p & st1 & E1 & _ & _ & _).
  assert (Es : st1 = (fill_plmn example_args example_config).1) by (by rewrite E1).
  assert (Hkeep : forall m, m = "mcc" \/ m = "mnc" -> example_config !! sib1_plmn m = st1 !! sib1_plmn m).
  { intros m [-> | ->]; rewrite Es; vm_compute; reflexivity. }
  assert (Htac : 0 < load_num example_config (cell "tac") < 2 ^ 16) by (vm_compute; split; reflexivity).
  assert (Henb : 0 < aa_enb_id example_args < 2 ^ 20) by (vm_compute; split; reflexivity).
  assert (Hcell : 0 < load_num example_config (cell "cell_id") < 2 ^ 28) by (vm_compute; split; reflexivity).
  destruct (cell_identity example_args example_config st1 example_config [48; 48; 49] [48; 49] Htac Henb Hcell Hc Hn E1 Hkeep)
    as (st' & E & H).
  exists st'. split; [exact E|]. cbv zeta in H. destruct H as (_ & _ & _ & _ & _ & _ & _ & _ & H1 & H2 & _).
  split; [rewrite H1|rewrite H2]; vm_compute; reflexivity.
Defined.
