(* ===== verification/Startup.v ===== *)
(** * Start and stop of the program

    The arguments ([sonica_enb/main.cc], [srslte/common/config_file.h]) and the
    life of the three layers ([sonica_enb/enb_nb.cc], the rest of [main]).  The
    command line library is a record of what it found; files are what can be
    opened.  An object is seen through its state, so that a thread of the PHY that
    runs while the stack is gone is a state of the model. *)
From Stdlib Require Import Ascii String.
From S2P Require Import Prelude Bcd.

(** ** Arguments *)

(** The members that options of the group [log] set, by their names. *)
Record main_args := mk_main_args {
  ma_levels : gmap string string;
  ma_limits : gmap string Z;
  ma_mcc : Z;
  ma_mnc : Z;
  ma_enb_id : Z;
  ma_sib_config : string;
  ma_rr_config : string;
  ma_drb_config : string
}.
#[export] Instance eta_main_args : Eta main_args := {| eta := fun a =>
  mk_main_args (ma_levels a) (ma_limits a) (ma_mcc a) (ma_mnc a) (ma_enb_id a) (ma_sib_config a) (ma_rr_config a)
    (ma_drb_config a) |}.

(** What the command line library found: how often an option of the group [log]
    was given, the variables that are strings, the members set so far, the
    configuration file when one is given, and the code of an error of its own. *)
Record cli_t := mk_cli {
  cli_error : option Z;
  cli_config_file : option string;
  cli_file_error : option Z;
  cli_count : string -> nat;
  cli_mcc : string;
  cli_mnc : string;
  cli_enb_id : string;
  cli_args : main_args
}.

Definition codes (s : string) : list Z := List.map (fun c => Z.of_nat (nat_of_ascii c)) (list_ascii_of_string s).

(** *** [std::stoi(s, &pos, 0)] *)
Definition isspace (c : Z) : bool := (c =? 32) || ((9 <=? c) && (c <=? 13)).
Definition digit_value (c : Z) : Z :=
  if isdigit c then c - 48
  else if (97 <=? c) && (c <=? 122) then c - 87
  else if (65 <=? c) && (c <=? 90) then c - 55 else 99.
(** The digits of a base at the front: their value and number. *)
Fixpoint digits (base acc : Z) (n : nat) (s : list Z) : Z * nat :=
  match s with
  | c :: s => if digit_value c <? base then digits base (acc * base + digit_value c) (S n) s else (acc, n)
  | [] => (acc, n)
  end.
Fixpoint spaces (s : list Z) : nat := match s with c :: s => if isspace c then S (spaces s) else O | [] => O end.

(** The number and the characters it took; nothing when there is no number or it
    is not one of 32 bits. *)
Definition stoi (s : list Z) : option (Z * nat) :=
  let k := spaces s in
  let r := drop k s in
  let '(neg, k, r) := match r with
                      | c :: t => if c =? 45 then (true, S k, t) else if c =? 43 then (false, S k, t) else (false, k, r)
                      | [] => (false, k, r)
                      end in
  let '(v, n) := match r with
                 | z :: x :: d :: t =>
                     if (z =? 48) && ((x =? 120) || (x =? 88)) && (digit_value d <? 16)
                     then let '(v, n) := digits 16 0 0 (d :: t) in (v, S (S n))
                     else digits (if z =? 48 then 8 else 10) 0 0 r
                 | z :: _ => digits (if z =? 48 then 8 else 10) 0 0 r
                 | [] => (0, O)
                 end in
  let v := if neg then - v else v in
  if (n =? 0)%nat || negb ((- 2 ^ 31 <=? v) && (v <? 2 ^ 31)) then None else Some (v, (k + n)%nat).

(** *** Levels and limits of the layers *)
Local Open Scope string_scope.
Definition level_targets : list (string * string) :=
  [("--rf_level", "rf.log_level"); ("--phy_level", "phy.log.phy_level"); ("--phy_lib_level", "phy.log.phy_lib_level");
   ("--mac_level", "stack.log.mac_level"); ("--rlc_level", "stack.log.rlc_level"); ("--pdcp_level", "stack.log.pdcp_level");
   ("--rrc_level", "stack.log.rrc_level"); ("--gtpu_level", "stack.log.gtpu_level"); ("--s1ap_level", "stack.log.s1ap_level");
   ("--stack_level", "stack.log.stack_level")].
Definition limit_targets : list (string * string) :=
  [("--phy_hex_limit", "log.phy_hex_limit"); ("--mac_hex_limit", "stack.log.mac_hex_limit");
   ("--rlc_hex_limit", "stack.log.rlc_hex_limit"); ("--pdcp_hex_limit", "stack.log.pdcp_hex_limit");
   ("--rrc_hex_limit", "stack.log.rrc_hex_limit"); ("--gtpu_hex_limit", "stack.log.gtpu_hex_limit");
   ("--s1ap_hex_limit", "stack.log.s1ap_hex_limit"); ("--stack_hex_limit", "stack.log.stack_hex_limit")].
(** The members that the options themselves set. *)
Definition limit_options : list (string * string) :=
  [("--phy_hex_limit", "phy.log.phy_hex_limit"); ("--mac_hex_limit", "stack.log.mac_hex_limit");
   ("--rlc_hex_limit", "stack.log.rlc_hex_limit"); ("--pdcp_hex_limit", "stack.log.pdcp_hex_limit");
   ("--rrc_hex_limit", "stack.log.rrc_hex_limit"); ("--gtpu_hex_limit", "stack.log.gtpu_hex_limit");
   ("--s1ap_hex_limit", "stack.log.s1ap_hex_limit"); ("--stack_hex_limit", "stack.log.stack_hex_limit")].

Definition apply_all {A} (count : string -> nat) (all : A) (targets : list (string * string)) (m : gmap string A) : gmap string A :=
  foldl (fun m '(o, t) => if (count o =? 0)%nat then <[t := all]> m else m) m targets.
Definition apply_all_level (count : string -> nat) (m : gmap string string) : gmap string string :=
  if (count "--all_level" =? 0)%nat then m else apply_all count (default "" (m !! "log.all_level")) level_targets m.
Definition apply_all_hex_limit (count : string -> nat) (m : gmap string Z) : gmap string Z :=
  if (count "--all_hex_limit" =? 0)%nat then m else apply_all count (default 0%Z (m !! "log.all_hex_limit")) limit_targets m.

(** *** [parse_args] *)
Section Args.
Context (readable : string -> bool) (home : string).

(** A path is cut to 255 characters. *)
Definition full_path (prefix name : string) : string := substring 0 255 (prefix +:+ name).
Definition config_exists (filename default_name : string) : string * bool :=
  if readable filename then (filename, true) else
  let p := full_path (home +:+ "/.config/sonica/") default_name in
  if readable p then (p, true) else
  let p := full_path "/etc/sonica/" default_name in (p, readable p).

Inductive parsed := Returned (code : Z) | Exited (code : Z) | Parsed (args : main_args).

(** The three files are looked for in turn; names change as they are found. *)
Definition check_files (a : main_args) : parsed :=
  let '(sib, ok) := config_exists (ma_sib_config a) "sib_nb.conf" in
  if negb ok then Exited 1 else
  let '(rr, ok) := config_exists (ma_rr_config a) "rr_nb.conf" in
  if negb ok then Exited 1 else
  let '(drb, ok) := config_exists (ma_drb_config a) "drb_nb.conf" in
  if negb ok then Exited 1 else
  Parsed (a <| ma_sib_config := sib |> <| ma_rr_config := rr |> <| ma_drb_config := drb |>).

(** Codes that are not valid leave the zeros they started with. *)
Definition convert_network (c : cli_t) (a : main_args) : main_args :=
  a <| ma_mcc := default (ma_mcc a) (string_to_mcc (codes (cli_mcc c))) |>
    <| ma_mnc := default (ma_mnc a) (string_to_mnc (codes (cli_mnc c))) |>.

Definition parse_args (c : cli_t) : parsed :=
  match cli_error c with
  | Some code => Returned code
  | None =>
      let '(config_file, found) := match cli_config_file c with
                                   | Some f => (f, true)
                                   | None => config_exists "" "enb_nb.conf"
                                   end in
      if negb found || negb (readable config_file) then Exited 1 else
      match cli_file_error c with
      | Some code => Returned code
      | None =>
          let a := convert_network c (cli_args c) in
          match stoi (codes (cli_enb_id c)) with
          | None => Exited 1
          | Some (v, pos) =>
              if negb (pos =? length (codes (cli_enb_id c)))%nat then Exited 1 else
              check_files
                (a <| ma_enb_id := u32 v |>
                   <| ma_levels := apply_all_level (cli_count c) (ma_levels a) |>
                   <| ma_limits := apply_all_hex_limit (cli_count c) (ma_limits a) |>)
          end
      end
  end.
End Args.

(** ** The layers *)

(** The life of an object: after its creation it may be initialised, from when on
    its threads run, until it is stopped. *)
Inductive life := Absent | Created | Running | Stopped | Destroyed.
#[global] Instance life_eq_dec : EqDecision life.
Proof. solve_decision. Defined.

Record enb_nb := mk_enb_nb { nb_started : bool; nb_radio : life; nb_phy : life; nb_stack : life }.
#[export] Instance eta_enb_nb : Eta enb_nb := {| eta := fun e =>
  mk_enb_nb (nb_started e) (nb_radio e) (nb_phy e) (nb_stack e) |}.
Definition enb_nb_new : enb_nb := mk_enb_nb false Absent Absent Absent.

(** The states an operation passes through, its result and its last state. *)
Definition trace (A : Type) : Type := list enb_nb * A * enb_nb.
Definition steps (e : enb_nb) (l : list (enb_nb -> enb_nb)) : trace () :=
  foldl (fun '(tr, _, e) f => let e := f e in ((tr ++ [e])%list, (), e)) ([], (), e) l.

Definition SRSLTE_SUCCESS : Z := 0.
Definition SRSLTE_ERROR : Z := -1.
Definition ran (ok : bool) : life := if ok then Running else Created.

(** [enb_nb::init]: [phy::init] always succeeds; after an error the next layer is
    initialised all the same. *)
Definition enb_nb_init (cfg_ret : Z) (radio_ok stack_ok : bool) (e : enb_nb) : trace Z :=
  if negb (cfg_ret =? 0)%Z then ([], SRSLTE_ERROR, e) else
  let '(tr, _, e) := steps e
    [(fun e => e <| nb_stack := Created |>); (fun e => e <| nb_radio := Created |>); (fun e => e <| nb_phy := Created |>);
     (fun e => e <| nb_radio := ran radio_ok |>); (fun e => e <| nb_phy := Running |>);
     (fun e => e <| nb_stack := ran stack_ok |>); (fun e => e <| nb_started := radio_ok && stack_ok |>)] in
  (tr, if radio_ok && stack_ok then SRSLTE_SUCCESS else SRSLTE_ERROR, e).

Definition stop_layer (l : life) : life := match l with Running => Stopped | l => l end.
(** [enb_nb::stop] *)
Definition enb_nb_stop (e : enb_nb) : trace () :=
  if nb_started e then
    steps e [(fun e => e <| nb_phy ::= stop_layer |>); (fun e => e <| nb_stack ::= stop_layer |>);
             (fun e => e <| nb_radio ::= stop_layer |>); (fun e => e <| nb_started := false |>)]
  else ([], (), e).

Definition destroy_layer (l : life) : life := match l with Absent => Absent | _ => Destroyed end.
(** The destructor: the stack, then the members in the reverse of their order.
    Stack and PHY stop themselves. *)
Definition enb_nb_destroy (e : enb_nb) : trace () :=
  steps e [(fun e => e <| nb_stack ::= stop_layer |>); (fun e => e <| nb_stack ::= destroy_layer |>);
           (fun e => e <| nb_phy ::= stop_layer |>); (fun e => e <| nb_phy ::= destroy_layer |>);
           (fun e => e <| nb_radio ::= destroy_layer |>)].

(** [main] after the arguments: the loop lasts until a signal. *)
Definition run_main (cfg_ret : Z) (radio_ok stack_ok : bool) : trace Z :=
  let '(t1, ret, e) := enb_nb_init cfg_ret radio_ok stack_ok enb_nb_new in
  let '(t2, _, e) := enb_nb_stop e in
  let '(t3, _, e) := enb_nb_destroy e in
  ((t1 ++ t2 ++ t3)%list, ret, e).

(** ** What holds *)

(** *** Levels and limits *)
Lemma apply_all_other {A} count (all : A) targets m t : t ∉ List.map snd targets -> apply_all count all targets m !! t = m !! t.
Proof.
  unfold apply_all. revert m. induction targets as [|[o u] l IH]; intros m Ht; [done|]. cbn in *.
  rewrite IH by set_solver. destruct (count o =? 0)%nat; [|done]. apply lookup_insert_ne. set_solver.
Qed.
Lemma apply_all_target {A} count (all : A) targets m o t : NoDup (List.map snd targets) -> (o, t) ∈ targets ->
  apply_all count all targets m !! t = if (count o =? 0)%nat then Some all else m !! t.
Proof.
  unfold apply_all. revert m. induction targets as [|[o' u] l IH]; intros m Hnd Hin; [by apply not_elem_of_nil in Hin|].
  cbn in Hnd. apply NoDup_cons in Hnd as [Hu Hnd]. apply elem_of_cons in Hin as [[= -> ->]|Hin].
  - cbn. pose proof (apply_all_other count all l) as E. unfold apply_all in E. rewrite E by done.
    destruct (count o' =? 0)%nat; [apply lookup_insert_eq|done].
  - cbn. rewrite IH by done. destruct (count o =? 0)%nat; [done|]. destruct (count o' =? 0)%nat; [|done].
    apply lookup_insert_ne. intros ->. apply Hu. apply list_elem_of_In, in_map_iff. exists (o, t). split; [done|]. by apply list_elem_of_In.
Qed.

(** The level of a layer: its own when it is given, else the level for all when
    that is given, else what it was. *)
Theorem log_levels count m o t : (o, t) ∈ level_targets ->
  apply_all_level count m !! t =
    if (count "--all_level" =? 0)%nat || negb (count o =? 0)%nat then m !! t else Some (default "" (m !! "log.all_level")).
Proof.
  intros Hin. unfold apply_all_level. destruct (count "--all_level" =? 0)%nat; [done|].
  rewrite (apply_all_target _ _ _ _ o); [by destruct (count o =? 0)%nat|by apply (bool_decide_unpack _)|done].
Qed.

(** The limit for all reaches every layer but the PHY, whose member it never
    changes. *)
Theorem hex_limits count m :
  (forall o t, (o, t) ∈ limit_options -> o <> "--phy_hex_limit" ->
     apply_all_hex_limit count m !! t =
       if (count "--all_hex_limit" =? 0)%nat || negb (count o =? 0)%nat then m !! t
       else Some (default 0%Z (m !! "log.all_hex_limit"))) /\
  apply_all_hex_limit count m !! "phy.log.phy_hex_limit" = m !! "phy.log.phy_hex_limit".
Proof.
  unfold apply_all_hex_limit. split.
  - intros o t Hin Ho. destruct (count "--all_hex_limit" =? 0)%nat; [done|].
    rewrite (apply_all_target _ _ _ _ o); [by destruct (count o =? 0)%nat|by apply (bool_decide_unpack _)|].
    unfold limit_options, limit_targets in *. by apply elem_of_cons in Hin as [[= -> _]|Hin]; [|apply list_elem_of_further].
  - destruct (count "--all_hex_limit" =? 0)%nat; [done|]. apply apply_all_other. by apply (bool_decide_unpack _).
Qed.

(** *** Arguments that are accepted *)
Lemma config_exists_readable readable home f d f' : config_exists readable home f d = (f', true) -> readable f' = true.
Proof.
  unfold config_exists. destruct (readable f) eqn:E; [by intros [= <-]|].
  destruct (readable (full_path _ d)) eqn:E'; [by intros [= <-]|]. by intros [= <- H].
Qed.

(** When the arguments are accepted, the three files of the configuration can be
    read under the names they are left with, and the whole of the eNodeB's
    identity was a number. *)
Theorem arguments_parsed readable home c a : parse_args readable home c = Parsed a ->
  readable (ma_sib_config a) = true /\ readable (ma_rr_config a) = true /\ readable (ma_drb_config a) = true /\
  exists v, stoi (codes (cli_enb_id c)) = Some (v, List.length (codes (cli_enb_id c))) /\ ma_enb_id a = u32 v.
Proof.
  unfold parse_args, check_files. intros H.
  destruct (cli_error c); [done|]. destruct (match cli_config_file c with Some f => _ | None => _ end) as [cf found].
  destruct (negb found || negb (readable cf)); [done|]. destruct (cli_file_error c); [done|].
  destruct (stoi (codes (cli_enb_id c))) as [[v pos]|] eqn:Hs; [|done].
  destruct (Nat.eqb_spec pos (List.length (codes (cli_enb_id c)))) as [Hpos|]; [|done]. cbn [negb] in H.
  destruct (config_exists readable home _ "sib_nb.conf") as [sib []] eqn:E1; [|done].
  destruct (config_exists readable home _ "rr_nb.conf") as [rr []] eqn:E2; [|done].
  destruct (config_exists readable home _ "drb_nb.conf") as [drb []] eqn:E3; [|done].
  cbn in H. injection H as <-. cbn. repeat split; try by eapply config_exists_readable. exists v. by rewrite Hpos.
Qed.

Example enb_id_hex : stoi (codes "0x19B") = Some (0x19B%Z, 5%nat).
Proof. reflexivity. Qed.
Example enb_id_octal : stoi (codes "010") = Some (8%Z, 3%nat) /\ stoi (codes "08") = Some (0%Z, 1%nat) /\ stoi (codes "x") = None.
Proof. split_and!; reflexivity. Qed.

(** *** The life of the layers *)
Definition phy_safe (e : enb_nb) : bool :=
  negb (bool_decide (nb_phy e = Running)) || bool_decide (nb_stack e = Running) && bool_decide (nb_radio e = Running).

(** After a start that succeeds the PHY never runs over layers that do not, and
    everything is gone at the end. *)
Theorem stop_in_order : let '(tr, ret, e) := run_main 0 true true in
  ret = SRSLTE_SUCCESS /\ e = mk_enb_nb false Destroyed Destroyed Destroyed /\ forallb phy_safe (drop 6 tr) = true.
Proof. by vm_compute. Qed.

(** When the radio or the S1AP cannot be initialised, the PHY is still running
    when the stack is destroyed, as [enb_nb::stop] does nothing. *)
Theorem failed_start_phy_runs radio_ok stack_ok : radio_ok && stack_ok = false ->
  let '(tr, ret, e) := run_main 0 radio_ok stack_ok in
  ret = SRSLTE_ERROR /\ exists e', e' ∈ tr /\ nb_phy e' = Running /\ nb_stack e' = Destroyed.
Proof.
  destruct radio_ok, stack_ok; intros H; try done; cbn; (split; [done|]);
    (eexists; split; [do 8 apply list_elem_of_further; apply list_elem_of_here|done]).
Qed.

(** While a start that succeeds is under way the PHY already runs and the stack is
    not initialised. *)
Theorem phy_starts_first : exists e, e ∈ (run_main 0 true true).1.1 /\ nb_phy e = Running /\ nb_stack e = Created.
Proof. eexists. split; [do 4 apply list_elem_of_further; apply list_elem_of_here|done]. Qed.
